(* ===== verification/_CoqProject ===== *)
-Q . S2P
Prelude.v
GoStrings.v
Concurrency.v
GoPath.v
GoNet.v
GoFloat.v
GoTime.v
GoRegexp.v
KillSwitch.v
Whitelist.v
RateLimiter.v
SensitivePorts.v
Guard.v
Bloom.v
ThreatEngine.v
AuditRules.v
AuditEngine.v
RiskTracker.v
Registry.v
Auditors.v
Optimizer.v
GoURL.v
URLFacts.v
GoBase64.v
Crypto.v
Sanitize.v
Ast.v
Profile.v
XrayImport.v
Links.v
ProxyProbe.v
Diagnostics.v
LinkGen.v
LinkRoundTrip.v
XrayOutbounds.v
SingBoxOutbounds.v
TunInbounds.v
XrayInbounds.v
SingBoxInbounds.v
Routing.v
Sessions.v
Logs.v
RingBuffer.v
Bytes.v
Packet.v
Pcap.v
RemoteNode.v
Matrix.v
SingBox.v
RuleMirrors.v
Supervisor.v
SingBoxTraffic.v
CoreTraffic.v
SessionLines.v
Xray.v
Compilers.v
HysteriaConfig.v
Builder.v
EventBus.v
Integrity.v
SecurityConfig.v
Journal.v
SecurityManager.v
Netfilter.v
LogParsers.v
LogSearch.v
SshMonitor.v
LogIngest.v
Tailer.v
Events.v
Pipeline.v
DbNode.v
Localisation.v
Schemas.v
GeoData.v
AppBlocker.v
SettingsForm.v
SecurityExports.v
CoreExports.v
CommandLine.v
