(* ===== verification/Prelude.v ===== *)
(** * Sentinel-core: a verification library

    Sentinel-core (src/) is a Go engine around proxy cores (sing-box, Xray,
    Hysteria 2): it builds their configuration and routing, starts and watches
    them, and guards the host they run on.  This library models the engine as
    functions on explicit state, from the packages of its core to its C
    interface and its command line, and proves what its parts promise, alone
    and together.

    ** Parts, and how they interact

    - Guarding the host (src/pkg/security/guard, killswitch).  [Whitelist] is
      the self-protection list, consulted through the class [IPWhitelist] by
      [RateLimiter] (token buckets with bans) and [SensitivePorts] (port scan
      detection); [Guard] puts both behind one check and shares one whitelist
      with them.  [KillSwitch] is the state machine that drops packets while the
      tunnel is down, with its DNS and IPv6 leak guards.
    - Filtering names and addresses (src/pkg/security/filter).  [Bloom] is the
      bit set with FNV-1a hashing, [ThreatEngine] the block and allow lists
      behind it.
    - Auditing connections (src/pkg/security).  [AuditRules] holds the records
      and the process and traffic classifiers, [AuditEngine] the engine:
      verdicts, threat scores, quarantine, decay, capture session; [LogIngest]
      takes it from a line of a core's log to a verdict.  A captured packet is
      made by [Pcap] (pcap.go, on both platforms) and read back by [Packet]
      (dissector.go); [RingBuffer] is the log of connections beside it and
      [AppBlocker] the list of blocked applications.
    - Auditing clients (src/pkg/security/detector).  [RiskTracker] scores
      clients, [Registry] maps the aliases of a client to one identity,
      [LogParsers] reads the lines of the cores and [LogSearch] searches them,
      and [Auditors] turns connections and parsed events into incidents of the
      tracker, asking [ThreatEngine] about hosts.
    - The security manager (src/pkg/security).  [SecurityConfig] is the
      configuration with the rules it injects, [SettingsForm] the page it is
      edited on, [Journal] the file of incidents, [SecurityManager] the object
      that owns the guards, the filter and the tracker.  [Integrity] checks
      endpoints, configurations and signatures.
    - Ingestion (src/pkg/security/ingest, netfilter, ssh).  [Tailer] follows
      files and routers, [Netfilter] reads and judges the lines of firewalls,
      [SshMonitor] those of logins, [Events] is the dispatcher, [Pipeline] wires
      them to each other and to the streams and sessions below.
    - Remote nodes (src/pkg/security/remote_node.go).  [RemoteNode] builds the
      ssh invocations, and reads them as a POSIX shell does; the program that
      they start is that of [CommandLine].
    - Profiles (src/pkg/parser, src/pkg/adapter, src/pkg/crypto).  [Ast] is the
      syntax of configurations, [Profile] the assignments to a profile; [Links]
      and [XrayImport] read links, subscriptions and Xray configurations,
      [LinkGen] writes links, [LinkRoundTrip] is the round trip; [DbNode] reads
      nodes of a database, encrypted ones with the vault of [Crypto].
    - Routing (src/pkg/routing).  [Sanitize] cleans what users type, [Optimizer]
      removes redundant networks and domains, [Routing] compiles presets and
      policies to tables and tables to rules; [Matrix] (src/pkg/matrix) removes
      from a profile what a core cannot do, [Schemas] is its forms.
    - Compilers (src/pkg/compiler, src/pkg/platform).  [XrayOutbounds],
      [SingBoxOutbounds], [XrayInbounds], [SingBoxInbounds] and [TunInbounds]
      build the objects of the cores, [SingBox] and [Xray] their routing and DNS
      sections, [Compilers] whole configurations, [HysteriaConfig] those of
      Hysteria and WireGuard; [RuleMirrors] asks the mirrors of rule sets.
      [Builder] (src/pkg/builder) is the entry: negotiation, the rule for what
      [AuditEngine] isolates, and the compiler of the core.
    - Running the cores (src/pkg/supervisor).  [Supervisor] starts, checks and
      stops processes, [Sessions] and [SessionLines] keep the sessions of users
      from what the cores print, [SingBoxTraffic] and [CoreTraffic] their
      traffic and the controller, [Logs] the streams of log lines with the loops
      that feed them.
    - Around them: [EventBus] (src/pkg/events), [Localisation] (src/pkg/i18n),
      [Diagnostics] and [ProxyProbe] (src/pkg/diagnostics), [GeoData]
      (src/cmd/inspect_geo).
    - The ways in.  [SecurityExports] and [CoreExports] are the C interface
      (src/cmd/cshared) on the objects of one process, [CommandLine] the command
      line (src/cmd/cli), each command a process of its own.
    - What the code takes from Go's standard library is in [GoStrings]
      (strings, strconv), [GoNet] (net), [GoURL] with [URLFacts] (net/url),
      [GoFloat] (float64), [GoTime] (time layouts), [GoRegexp] (regexp, a
      matcher for the patterns of the program), [GoPath] (path/filepath),
      [GoBase64], [Bytes] (slices, encoding/binary) and, in [CommandLine], the
      flags of a command line; written from its documentation, as far as it is
      used.  [Concurrency] has races and pools of goroutines.  This file has
      Go's integers, instants, map ranges, bounded histories and stable sorting.

    ** How state and operations correspond to the code

    A struct is a record with the source's field names, or its Rocq form where a
    name is taken; fields that only hold a mutex, a channel used to stop a
    goroutine or a logger are left out.  A method is the definition with its
    name, from the record before to the results and the record after; a long
    method is cut into definitions in the order of its statements.  Operations
    that hold their object's mutex from beginning to end are one atomic step,
    and a concurrent execution is a list of steps: the invariants are proved
    for every such list ([reachable], [run]).  The audit of a connection
    ([AuditEngine.AuditConnection]) is one step in the model, although the code
    takes the lock anew for each of its sections (the policy, the list of the
    banned, the capture of safe traffic, and from the profile on to the end): a
    change of the policy or a ban that falls between two of them is outside the
    model.  A goroutine driven by a
    ticker is its tick; where goroutines run side by side and their interleaving
    matters (mirrors, pools of probes, tailers, the dispatcher) they are a step
    relation, and the theorems speak of every execution.
    - A Go [map] is a [gmap].  Where Go ranges over a map the order is a
      [RangeOrder], any enumeration of the keys; [sort.Slice] is any sorted
      permutation ([CountSort]) unless the order is total; [sort.SliceStable]
      is [stable_sort].
    - A nil dereference, a write to a nil map and an index out of range are
      panics: [None] in the option monad, or a constructor of an outcome.  An
      [error] is [Err], [inl], [Fail] or a value of a type of errors.
    - [int] and [int64] are 64-bit: additions that could overflow are wrapped
      ([wrap64]), and a theorem that needs a counter not to wrap says so.
    - [time.Now] is an argument, an instant in nanoseconds.  A method that reads
      the clock several times in one locked section is given one reading,
      except where the readings are handed to different objects ([Guard]).
    - Callbacks are names and an operation returns the calls it makes, in order;
      so are commands that are run and files that are written.
    - Whether an I/O operation succeeds, what it reads, what a host answers and
      what JSON decodes to are arguments; the bytes of capture files, links,
      journals and databases are modelled.
    - JSON objects that are built are association lists of [Ast.value] in the
      order in which they are built.  Where one is written and read again, whole
      numbers go through a [float64], which rounds above 2^53, and bytes of a
      text that are not UTF-8 become U+FFFD ([XrayOutbounds.json_value],
      [GoStrings.json_text]); the theorems say where nothing is lost.
    - Strings are byte strings.  Case mapping and trimming are those of ASCII;
      file paths are separated by [/].

    ** What the theorems show

    - Guards: protected addresses are never refused, bans hold for as long as
      they were given, the token-bucket bound over any run, a shared monitor
      refines private detectors as long as no table outgrows its bound, the
      kill-switch lets through exactly what its policy says.
    - Filter and audit engine: the engine decides as its lists alone would, the
      threshold shield, immunity of the system, and exactly when an audit
      panics.
    - The manager: what it lets out, and that a quarantine reaches the rules of
      both cores; that an isolated process is blocked in every configuration
      that is built; a node executes exactly the order its master sent and its
      master reads it back from the journal, nothing of a client identifier or
      a reason escaping its word.
    - Ingestion: the pipeline refines a reference on whole lines, a tailer
      delivers every line that is not empty once, brute force is counted exactly
      until the table is pruned, the detector of router events judges as one that
      keeps the whole log.
    - Captures and databases: what is written is read back, and the readers are
      total on any bytes.
    - Profiles: links, subscriptions and compiled outbounds are read back in the
      fields of their formats, a stored node means the same in all its forms,
      what is encrypted through C is decrypted through C.
    - Routing and compilers: policies compile to exactly the rows they say, in
      order; optimised domains cover the same names without repetition; the
      rules of sing-box send a connection where the specification does; targets
      exist; both ways to compile an outbound agree on plain profiles; no shared
      proxy with a user name is opened without its password.
    - Supervision: one process for each core, sessions agree with a complete
      event log whatever lines arrive, bytes of traffic are conserved over fair
      polls, pools of probes end with each result in its place.
    - Interfaces: a C call panics exactly when an audit does, what is reported
      as blocked is what was blocked.

    Lemmas and examples beside them show where the code does not do what it
    means to; each is stated as the code behaves.

    ** Bounds and fuel

    Loops that are not structural take fuel: one unit per byte of the input in
    [Packet] (running out is a [Panic], which [dissect_never_panics] excludes)
    and in [GeoData] (enough for every database in the format; an example shows
    bytes on which the code itself does not end), the length of the entry in [SanitizeDomain] ([sanitize_domain_fuel]), four rounds of carry
    folding for a 20-byte header in [Pcap] (the checksum is proved to verify),
    the length of the string in [Split], one unit per bit in the printing of
    numbers, the text and the pattern in [GoRegexp].  Step relations have no
    fuel: that they end is a theorem.  Addresses have at most eight groups.

    ** What is not modelled

    Processes, sockets, HTTP, TLS, gRPC and ssh themselves; the text of JSON
    (decoders are arguments, printed values are values); the ciphers, hashes and
    key generators of Go (a class with its laws, or arguments); the presets that
    are embedded as data; the time limits and waits of polls; the wiping of
    strings in place, which depends on the memory of the process; log messages
    and the standard error.  Beside these, what is left out are attributes
    of processes for a platform, declarations for cgo and build tags. *)

From Stdlib Require Export ZArith Lia Ascii String.
From stdpp Require Export base tactics decidable gmap strings list fin_maps sorting.

#[export] Set Warnings "-clear-no-such-hyp,-register-all".

(** ** Scopes and notations of the development *)

Declare Scope go_scope.
Delimit Scope go_scope with go.
#[global] Open Scope Z_scope.
#[global] Open Scope go_scope.

#[global] Arguments String.append : simpl nomatch.

(** Go's error results: a value or an error with its message. *)
Inductive result (A : Type) : Type :=
  | Ok (a : A)
  | Err (msg : string).
Arguments Ok {A} _.
Arguments Err {A} _.

#[export] Instance result_ret : MRet result := fun A a => Ok a.
#[export] Instance result_bind : MBind result :=
  fun A B f r => match r with Ok a => f a | Err e => Err e end.

Definition is_ok {A} (r : result A) : bool :=
  match r with Ok _ => true | Err _ => false end.

(** String concatenation, written as in Go but with its own symbol. *)
Notation "a ^^ b" := (String.append a b) (at level 60, right associativity) : go_scope.
Notation "a =s b" := (String.eqb a b) (at level 70) : go_scope.
Notation "a <>s b" := (negb (String.eqb a b)) (at level 70) : go_scope.

(** ** Go's fixed-width integers *)

(** [int] and [int64] are 64-bit two's complement, [uint64] is unsigned. *)
Definition wrap64 (z : Z) : Z := (z + 2^63) mod 2^64 - 2^63.
Definition wrapu64 (z : Z) : Z := z mod 2^64.
Definition wrapu32 (z : Z) : Z := z mod 2^32.
Definition wrapu16 (z : Z) : Z := z mod 2^16.
Definition maxInt64 : Z := 2^63 - 1.
Definition minInt64 : Z := - 2^63.

Lemma wrap64_small z : - 2^63 <= z < 2^63 -> wrap64 z = z.
Proof. intros. unfold wrap64. rewrite Z.mod_small; lia. Qed.

Lemma wrap64_range z : - 2^63 <= wrap64 z < 2^63.
Proof. unfold wrap64. pose proof (Z.mod_pos_bound (z + 2^63) (2^64)). lia. Qed.

Lemma wrapu64_small z : 0 <= z < 2^64 -> wrapu64 z = z.
Proof. apply Z.mod_small. Qed.

Lemma wrapu64_range z : 0 <= wrapu64 z < 2^64.
Proof. apply Z.mod_pos_bound. lia. Qed.

Lemma wrapu16_range z : 0 <= wrapu16 z < 2^16.
Proof. apply Z.mod_pos_bound. lia. Qed.

Lemma wrapu16_small z : 0 <= z < 2^16 -> wrapu16 z = z.
Proof. apply Z.mod_small. Qed.

(** Go's [len] as an [int]. *)
Definition len {A} (l : list A) : Z := Z.of_nat (length l).

Lemma len_nonneg {A} (l : list A) : 0 <= len l.
Proof. unfold len. lia. Qed.

Lemma len_app {A} (l k : list A) : len (l ++ k) = len l + len k.
Proof. unfold len. rewrite length_app. lia. Qed.

Lemma len_cons {A} (x : A) l : len (x :: l) = len l + 1.
Proof. unfold len. cbn [length]. lia. Qed.

Lemma len_nil_iff {A} (l : list A) : len l = 0 <-> l = [].
Proof. destruct l; unfold len; simpl; split; intros; try done; lia. Qed.

(** ** Automation

    [golen] computes lengths and [gowrap] removes the wrap-around of numbers
    that are in range (its side conditions go to [lia]).  [bools] turns the
    boolean comparisons of the context into propositions, [len_lia] is [lia]
    with lengths: it computes them and knows that they are not negative. *)
Create Rewrite HintDb golen.
#[export] Hint Rewrite @len_app @len_cons : golen.
Create Rewrite HintDb gowrap.
#[export] Hint Rewrite wrap64_small wrapu64_small wrapu16_small using lia : gowrap.
Create HintDb goranges.
#[export] Hint Resolve len_nonneg wrap64_range wrapu64_range wrapu16_range : goranges.

Ltac bools :=
  repeat match goal with
  | H : _ && _ = true |- _ => apply andb_true_iff in H as [? ?]
  | H : _ || _ = false |- _ => apply orb_false_iff in H as [? ?]
  | H : negb _ = true |- _ => apply negb_true_iff in H
  | H : negb _ = false |- _ => apply negb_false_iff in H
  | H : (_ <? _) = true |- _ => apply Z.ltb_lt in H
  | H : (_ <? _) = false |- _ => apply Z.ltb_ge in H
  | H : (_ <=? _) = true |- _ => apply Z.leb_le in H
  | H : (_ <=? _) = false |- _ => apply Z.leb_gt in H
  | H : (_ =? _) = true |- _ => apply Z.eqb_eq in H
  | H : (_ =? _) = false |- _ => apply Z.eqb_neq in H
  end.

Ltac len_fact l :=
  lazymatch goal with
  | H : 0 <= len l |- _ => fail
  | |- _ => pose proof (len_nonneg l)
  end.

Ltac len_lia :=
  autorewrite with golen in *;
  repeat match goal with
  | |- context [len ?l] => len_fact l
  | H : context [len ?l] |- _ => len_fact l
  end; change (@len _ []) with 0 in *; lia.

(** ** Disjunctions over lists *)

Lemma existsb_omap {A B} (g : A -> option B) f l :
  existsb f (omap g l) = existsb (fun x => match g x with Some y => f y | None => false end) l.
Proof. induction l as [|x l IH]; [done|]. cbn. rewrite <- IH. by destruct (g x). Qed.

Lemma existsb_orb {A} (f g : A -> bool) l : existsb f l || existsb g l = existsb (fun x => f x || g x) l.
Proof. induction l as [|x l IH]; [done|]. cbn. rewrite <- IH. by destruct (f x), (g x), (existsb f l), (existsb g l). Qed.

Lemma existsb_concat_map {A B} (g : A -> list B) f l :
  existsb f (concat (map g l)) = existsb (fun x => existsb f (g x)) l.
Proof. induction l as [|x l IH]; [done|]. cbn. by rewrite existsb_app, IH. Qed.

Lemma existsb_filter {A} (f p : A -> bool) l : existsb f (List.filter p l) = existsb (fun x => p x && f x) l.
Proof. induction l as [|x l IH]; [done|]. cbn. rewrite <- IH. by destruct (p x). Qed.

Lemma existsb_same {A} (f g : A -> bool) l : (forall x, f x = g x) -> existsb f l = existsb g l.
Proof. intros H. induction l as [|x l IH]; [done|]. cbn. by rewrite H, IH. Qed.

Definition is_some {A} (o : option A) : bool := match o with Some _ => true | None => false end.

(** ** time.Time and time.Duration

    A [time.Time] is its instant, in nanoseconds since the Unix epoch, and the
    zero [time.Time] is January 1 of the year 1.  A [time.Duration] is an
    [int64] of nanoseconds; [Sub] saturates and arithmetic on durations wraps,
    as in Go.  Readings of the clock ([time.Now]) are arguments of the
    operations that take them. *)
Definition Nanosecond : Z := 1.
Definition Millisecond : Z := 1000000.
Definition Second : Z := 1000000000.
Definition Minute : Z := 60 * Second.
Definition zeroTime : Z := -62135596800 * Second.

Definition Before (t u : Z) : bool := t <? u.
Definition After (t u : Z) : bool := u <? t.
Definition Add (t d : Z) : Z := t + d.
Definition Sub (t u : Z) : Z := Z.max minInt64 (Z.min maxInt64 (t - u)).
Definition DurMul (n d : Z) : Z := wrap64 (n * d).
Definition Unix (t : Z) : Z := t / Second.
Definition UnixMilli (t : Z) : Z := t / Millisecond.

Lemma Before_spec t u : reflect (t < u) (Before t u).
Proof. apply Z.ltb_spec0. Qed.

Lemma After_spec t u : reflect (u < t) (After t u).
Proof. apply Z.ltb_spec0. Qed.

Lemma Sub_exact t u : minInt64 <= t - u <= maxInt64 -> Sub t u = t - u.
Proof. unfold Sub. lia. Qed.

Lemma Sub_gt t u d : d < maxInt64 -> minInt64 <= d -> (d <? Sub t u) = (d <? t - u).
Proof.
  intros. unfold Sub. apply eq_true_iff_eq. rewrite !Z.ltb_lt.
  unfold minInt64, maxInt64 in *. lia.
Qed.

Lemma DurMul_exact n d : - 2^63 <= n * d < 2^63 -> DurMul n d = n * d.
Proof. apply wrap64_small. Qed.

(** ** Bounded histories

    Many parts of the program keep the last [n] items of a growing log with
    [s = append(s, x); if len(s) > n { s = s[len(s)-n:] }]. *)
Definition keep_last {A} (n : Z) (l : list A) : list A :=
  if n <? len l then drop (Z.to_nat (len l - n)) l else l.

Definition push_capped {A} (n : Z) (l : list A) (x : A) : list A :=
  keep_last n (l ++ [x]).

Section bounded_history.
Context {A : Type}.
Implicit Types (l k : list A) (n : Z).

Lemma keep_last_length n l : 0 <= n -> len (keep_last n l) = Z.min n (len l).
Proof.
  intros. unfold keep_last, len. destruct (Z.ltb_spec n (Z.of_nat (length l)));
    rewrite ?length_drop; lia.
Qed.

Lemma keep_last_bound n l : 0 <= n -> len (keep_last n l) <= n.
Proof. intros. rewrite keep_last_length; lia. Qed.

Lemma keep_last_drop n l : 0 <= n -> keep_last n l = drop (length l - Z.to_nat n) l.
Proof.
  intros. unfold keep_last, len. destruct (Z.ltb_spec n (Z.of_nat (length l))).
  - f_equal. lia.
  - replace (length l - Z.to_nat n)%nat with 0%nat by lia. done.
Qed.

Lemma keep_last_all n l : len l <= n -> keep_last n l = l.
Proof. intros. unfold keep_last. destruct (Z.ltb_spec n (len l)); [lia | done]. Qed.

Lemma keep_last_app n l k : 0 <= n ->
  keep_last n (keep_last n l ++ k) = keep_last n (l ++ k).
Proof.
  intros. rewrite !(keep_last_drop n) by done.
  destruct (decide (length l <= Z.to_nat n)%nat) as [Hle|Hgt].
  - replace (length l - Z.to_nat n)%nat with 0%nat by lia. done.
  - rewrite <- (drop_app_le l k (length l - Z.to_nat n)) by lia.
    rewrite drop_drop. f_equal. rewrite length_drop, length_app. lia.
Qed.

Lemma keep_last_idemp n l : 0 <= n -> keep_last n (keep_last n l) = keep_last n l.
Proof.
  intros. pose proof (keep_last_app n l []) as H0.
  rewrite !app_nil_r in H0. auto.
Qed.

Lemma keep_last_suffix n l : keep_last n l `suffix_of` l.
Proof.
  unfold keep_last. destruct (_ <? _); [|reflexivity].
  exists (take (Z.to_nat (len l - n)) l). by rewrite take_drop.
Qed.

Lemma keep_last_incl n l x : x ∈ keep_last n l -> x ∈ l.
Proof.
  intros Hx. destruct (keep_last_suffix n l) as [k E]. rewrite E.
  apply elem_of_app. by right.
Qed.

Lemma push_capped_bound n l x : 0 <= n -> len (push_capped n l x) <= n.
Proof. apply keep_last_bound. Qed.

(** The refinement every bounded log satisfies: after any number of pushes it
    is the last [n] items of everything pushed. *)
Lemma foldl_push_capped n l k : 0 <= n -> len l <= n ->
  foldl (push_capped n) l k = keep_last n (l ++ k).
Proof.
  intros Hn. revert l. induction k as [|x k IH]; intros l Hl; simpl.
  - by rewrite app_nil_r, keep_last_all.
  - rewrite IH by (by apply push_capped_bound). unfold push_capped.
    rewrite keep_last_app by done. by rewrite <- app_assoc.
Qed.

Lemma push_capped_last n l x : 1 <= n -> last (push_capped n l x) = Some x.
Proof.
  intros. unfold push_capped. rewrite keep_last_drop by lia.
  rewrite drop_app_le by (rewrite length_app; simpl; lia). apply last_snoc.
Qed.
End bounded_history.

(** ** Ranging over a map

    Go visits the keys of a map in an order the run time picks anew for every
    loop.  An operation whose result depends on that order takes the order as
    an argument: a function that lists a set of keys, each exactly once.  The
    theorems hold for every such order. *)
Class RangeOrder (K : Type) `{Countable K} := {
  range_keys : gset K -> list K;
  range_keys_perm : forall s, range_keys s ≡ₚ elements s;
}.

#[export] Instance default_order K `{Countable K} : RangeOrder K | 100 := {
  range_keys := elements;
  range_keys_perm := fun s => reflexivity _;
}.

(** [for k := range m { delete(m, k); evicted++; if evicted >= n { break } }] *)
Definition evict {K V} `{Countable K} (o : RangeOrder K) (n : nat) (m : gmap K V) : gmap K V :=
  foldr delete m (take n (range_keys (dom m))).

(** [for k, v := range m { if p(k, v) { delete(m, k) } }]: every key is visited
    once, so the order does not matter (see [range_delete_any_order]). *)
Definition range_delete {K V} `{Countable K} (p : K -> V -> bool) (m : gmap K V) : gmap K V :=
  filter (fun kv => p kv.1 kv.2 = false) m.

Section range.
Context {K V : Type} `{Countable K}.
Implicit Types (m : gmap K V) (o : RangeOrder K).

Lemma elem_of_range_keys o (s : gset K) k : k ∈ range_keys s <-> k ∈ s.
Proof. by rewrite range_keys_perm, elem_of_elements. Qed.

Lemma NoDup_range_keys o (s : gset K) : NoDup (range_keys s).
Proof. rewrite range_keys_perm. apply NoDup_elements. Qed.

Lemma length_range_keys o (s : gset K) : length (range_keys s) = size s.
Proof. by rewrite range_keys_perm. Qed.

Lemma lookup_foldr_delete m (ks : list K) k :
  foldr delete m ks !! k = if decide (k ∈ ks) then None else m !! k.
Proof.
  induction ks as [|j ks IH]; cbn [foldr].
  - rewrite decide_False; [done | apply not_elem_of_nil].
  - destruct (decide (j = k)) as [->|Hjk].
    + rewrite lookup_delete_eq, decide_True; [done | by left].
    + rewrite lookup_delete_ne, IH by done. apply decide_ext.
      split; [by right | by intros [|]%elem_of_cons].
Qed.

Lemma evict_subseteq o n m : evict o n m ⊆ m.
Proof.
  apply map_subseteq_spec. intros k v. unfold evict.
  rewrite lookup_foldr_delete. case_decide; naive_solver.
Qed.

Lemma lookup_evict_Some o n m k v : evict o n m !! k = Some v -> m !! k = Some v.
Proof. apply map_subseteq_spec, evict_subseteq. Qed.

Lemma size_foldr_delete m (ks : list K) :
  NoDup ks -> (forall k, k ∈ ks -> is_Some (m !! k)) ->
  (size (foldr delete m ks) + length ks = size m)%nat.
Proof.
  induction ks as [|j ks IH]; simpl; intros Hnd Hin; [lia|].
  apply NoDup_cons in Hnd as [Hj Hnd].
  assert (IH' : (size (foldr delete m ks) + length ks = size m)%nat)
    by (apply IH; [done | intros; apply Hin; by right]).
  destruct (Hin j) as [v Hv]; [by left|].
  assert (Hl : foldr delete m ks !! j = Some v)
    by (rewrite lookup_foldr_delete, decide_False by done; done).
  assert (Hd : size (delete j (foldr delete m ks)) = pred (size (foldr delete m ks)))
    by (apply map_size_delete_Some; eauto).
  assert (size (foldr delete m ks) <> 0%nat)
    by (intros Hz; apply map_size_empty_inv in Hz; by rewrite Hz in Hl).
  lia.
Qed.

Lemma size_evict o n m : size (evict o n m) = (size m - n)%nat.
Proof.
  unfold evict.
  pose proof (size_foldr_delete m (take n (range_keys (dom m)))) as Hs.
  rewrite length_take, length_range_keys, size_dom in Hs. unfold evict.
  enough ((size (foldr delete m (take n (range_keys (dom m)))) + n `min` size m = size m)%nat) by lia.
  apply Hs.
  - pose proof (NoDup_range_keys o (dom m)) as Hn.
    rewrite <- (take_drop n) in Hn. by apply NoDup_app in Hn as [Hn _].
  - intros k Hk. rewrite <- elem_of_dom, <- (elem_of_range_keys o).
    by apply (subseteq_take n).
Qed.

Lemma lookup_range_delete (p : K -> V -> bool) m k :
  range_delete p m !! k =
    match m !! k with Some v => if p k v then None else Some v | None => None end.
Proof.
  unfold range_delete. rewrite map_lookup_filter. destruct (m !! k) as [v|]; simpl; [|done].
  destruct (p k v) eqn:E.
  - by rewrite option_guard_False by (simpl; congruence).
  - by rewrite option_guard_True.
Qed.

Lemma range_delete_subseteq (p : K -> V -> bool) m : range_delete p m ⊆ m.
Proof. apply map_filter_subseteq. Qed.

(** What holds of every entry survives deletions. *)
Lemma map_Forall_range_delete (P : K -> V -> Prop) (p : K -> V -> bool) m :
  map_Forall P m -> map_Forall P (range_delete p m).
Proof.
  intros Hm k v. rewrite lookup_range_delete. destruct (m !! k) eqn:E; [|done].
  destruct (p k _); [done|]. intros [= <-]. by apply Hm.
Qed.

Lemma map_Forall_evict (P : K -> V -> Prop) o n m : map_Forall P m -> map_Forall P (evict o n m).
Proof. intros Hm k v Hk%lookup_evict_Some. by apply Hm. Qed.

(** The loop written out, in any order, computes [range_delete]. *)
Definition delete_step (p : K -> V -> bool) m (acc : gmap K V) (k : K) : gmap K V :=
  match m !! k with Some v => if p k v then delete k acc else acc | None => acc end.

Lemma lookup_delete_step p m acc j k :
  delete_step p m acc j !! k =
    if decide (j = k) then
      match m !! k with Some v => if p k v then None else acc !! k | None => acc !! k end
    else acc !! k.
Proof.
  unfold delete_step. destruct (decide (j = k)) as [->|Hjk].
  - destruct (m !! k) as [v|]; [|done]. by destruct (p k v); simplify_map_eq.
  - destruct (m !! j) as [v|]; [|done]. by destruct (p j v); simplify_map_eq.
Qed.

Lemma lookup_foldl_delete_step p m ks acc k :
  foldl (delete_step p m) acc ks !! k =
    if decide (k ∈ ks) then
      match m !! k with Some v => if p k v then None else acc !! k | None => acc !! k end
    else acc !! k.
Proof.
  revert acc. induction ks as [|j ks IH]; intros acc; cbn [foldl].
  - rewrite decide_False; [done | apply not_elem_of_nil].
  - rewrite IH, lookup_delete_step. destruct (decide (j = k)) as [->|Hjk].
    + rewrite (decide_True (P := k ∈ k :: ks)) by by left.
      destruct (m !! k) as [v|]; [destruct (p k v)|]; by case_decide.
    + assert (k ∈ j :: ks <-> k ∈ ks) as Hiff
        by (rewrite elem_of_cons; intuition congruence).
      by rewrite (decide_ext _ _ _ _ Hiff).
Qed.

Lemma range_delete_any_order p m o :
  foldl (delete_step p m) m (range_keys (dom m)) = range_delete p m.
Proof.
  apply map_eq. intros k. rewrite lookup_foldl_delete_step, lookup_range_delete.
  case_decide as Hk.
  - destruct (m !! k) as [v|]; [by destruct (p k v) | done].
  - rewrite (elem_of_range_keys o), elem_of_dom in Hk.
    destruct (m !! k) eqn:E; [destruct Hk; eauto | done].
Qed.
End range.

(** ** Stable sorting

    [sort.SliceStable] by an integer key: the one rearrangement that is sorted by
    the key and keeps elements with the same key in their order, computed here by
    insertion ([stable_sort_unique] shows that there is no other). *)
Section stable_sort.
Context {A : Type} (key : A -> Z).
Implicit Types (x y : A) (l : list A).

Fixpoint insert_by x l : list A :=
  match l with
  | [] => [x]
  | y :: k => if key x <? key y then x :: l else y :: insert_by x k
  end.
Definition stable_sort l : list A := foldl (fun acc x => insert_by x acc) [] l.

Definition same_key (z : Z) l : list A := List.filter (fun x => key x =? z) l.

Lemma insert_by_perm x l : insert_by x l ≡ₚ x :: l.
Proof. induction l as [|y l IH]; cbn; [done|]. destruct (_ <? _); [done|]. rewrite IH. constructor. Qed.

Lemma stable_sort_perm l : stable_sort l ≡ₚ l.
Proof.
  induction l as [|x l IH] using rev_ind; [done|]. unfold stable_sort in *.
  rewrite foldl_app. cbn. by rewrite insert_by_perm, IH, Permutation_app_comm.
Qed.

Lemma insert_by_sorted x l : StronglySorted (fun a b => key a <= key b) l ->
  StronglySorted (fun a b => key a <= key b) (insert_by x l).
Proof.
  induction 1 as [|y l Hl IH Hy]; cbn; [repeat constructor|].
  rewrite Forall_forall in Hy.
  destruct (Z.ltb_spec (key x) (key y)); constructor; try done.
  - by constructor; [|apply Forall_forall].
  - apply Forall_forall. intros z [->|Hz]%elem_of_cons; [lia|]. pose proof (Hy z Hz). lia.
  - apply Forall_forall. intros z. rewrite insert_by_perm. intros [->|Hz]%elem_of_cons; [lia | by apply Hy].
Qed.

Lemma stable_sort_sorted l : StronglySorted (fun a b => key a <= key b) (stable_sort l).
Proof.
  induction l as [|x l IH] using rev_ind; [constructor|]. unfold stable_sort in *.
  rewrite foldl_app. by apply insert_by_sorted.
Qed.

Lemma insert_by_stable x l z : StronglySorted (fun a b => key a <= key b) l ->
  same_key z (insert_by x l) = same_key z (l ++ [x]).
Proof.
  unfold same_key. induction 1 as [|y l Hl IH Hy]; cbn; [done|].
  destruct (Z.ltb_spec (key x) (key y)) as [E|E]; cbn; [|by rewrite IH].
  rewrite List.filter_app. cbn. destruct (Z.eqb_spec (key x) z) as [Ex|Ex]; cycle 1.
  { by rewrite app_nil_r. }
  destruct (Z.eqb_spec (key y) z); [lia|].
  assert (Hnil : List.filter (fun a => key a =? z) l = []).
  { rewrite Forall_forall in Hy. clear IH Hl. induction l as [|w l IH]; [done|]. cbn.
    pose proof (Hy w ltac:(left)). destruct (Z.eqb_spec (key w) z); [lia|]. apply IH. intros v Hv. apply Hy. by right. }
  by rewrite Hnil.
Qed.

Lemma stable_sort_stable l z : same_key z (stable_sort l) = same_key z l.
Proof.
  induction l as [|x l IH] using rev_ind; [done|]. unfold stable_sort in *. rewrite foldl_app. cbn [foldl].
  rewrite insert_by_stable by apply stable_sort_sorted. unfold same_key in *. rewrite !List.filter_app. by f_equal.
Qed.

Lemma sorted_unique l k : StronglySorted (fun a b => key a <= key b) l ->
  StronglySorted (fun a b => key a <= key b) k -> (forall z, same_key z l = same_key z k) -> l = k.
Proof.
  intros Hl. revert k. induction Hl as [|x l Hl IH Hx]; intros k Hk E.
  - destruct k as [|y k]; [done|]. specialize (E (key y)). cbn in E. by rewrite Z.eqb_refl in E.
  - destruct Hk as [|y k Hk Hy].
    + specialize (E (key x)). cbn in E. by rewrite Z.eqb_refl in E.
    + assert (Hsame : key x = key y).
      { rewrite Forall_forall in Hx, Hy.
        assert (Hin : forall (a : A) (u v : list A), a ∈ same_key (key a) (a :: u) -> same_key (key a) (a :: u) = same_key (key a) v -> a ∈ v).
        { intros a u v Ha Euv. rewrite Euv in Ha. unfold same_key in Ha. rewrite list_elem_of_In, List.filter_In in Ha.
          by apply list_elem_of_In, Ha. }
        assert (H1 : x ∈ y :: k).
        { apply (Hin x l); [|apply E]. cbn. rewrite Z.eqb_refl. left. }
        assert (H2 : y ∈ x :: l).
        { apply (Hin y k); [|symmetry; apply E]. cbn. rewrite Z.eqb_refl. left. }
        apply elem_of_cons in H1 as [->|H1]; [done|]. apply elem_of_cons in H2 as [->|H2]; [done|].
        pose proof (Hx y H2). pose proof (Hy x H1). lia. }
      pose proof (E (key x)) as Ex. cbn in Ex. rewrite Z.eqb_refl, <- Hsame, Z.eqb_refl in Ex. injection Ex as <- _.
      f_equal. apply IH; [done|]. intros z. specialize (E z). cbn in E. destruct (key x =? z); [by injection E | done].
Qed.

Lemma stable_sort_unique l k : StronglySorted (fun a b => key a <= key b) k ->
  (forall z, same_key z k = same_key z l) -> stable_sort l = k.
Proof.
  intros Hk E. apply sorted_unique; [apply stable_sort_sorted | done|]. intros z. by rewrite stable_sort_stable.
Qed.

Lemma stable_sort_id l : StronglySorted (fun a b => key a <= key b) l -> stable_sort l = l.
Proof. intros. by apply stable_sort_unique. Qed.
End stable_sort.
