(* ===== verification/GoStrings.v ===== *)
(** * Go strings

    The functions of Go's [strings] and [strconv] packages that the program
    calls, on byte strings.  Case mapping and white space are those of ASCII,
    which is where host names, addresses, tags and identifiers live: a byte
    above 127 is never changed by [ToLower]/[ToUpper] and never counts as white
    space (Go also maps and trims non-ASCII Unicode characters).  Separators the
    program splits, counts or replaces are single ASCII characters, except where
    [Index] is used. *)
From S2P Require Import Prelude.

Definition str_take (n : nat) (s : string) : string := String.substring 0 n s.
Fixpoint str_drop (n : nat) (s : string) : string :=
  match n, s with
  | O, _ => s
  | S n', String _ s' => str_drop n' s'
  | S _, EmptyString => EmptyString
  end.
Fixpoint str_map (f : ascii -> ascii) (s : string) : string :=
  match s with EmptyString => EmptyString | String a s' => String (f a) (str_map f s') end.
Fixpoint str_exists (p : ascii -> bool) (s : string) : bool :=
  match s with EmptyString => false | String a s' => p a || str_exists p s' end.
Definition str_len (s : string) : Z := Z.of_nat (String.length s).

Definition char_code (a : ascii) : Z := Z.of_N (N_of_ascii a).
Definition is_upper (a : ascii) : bool := (65 <=? char_code a) && (char_code a <=? 90).
Definition is_lower (a : ascii) : bool := (97 <=? char_code a) && (char_code a <=? 122).
Definition is_digit (a : ascii) : bool := (48 <=? char_code a) && (char_code a <=? 57).
Definition is_space (a : ascii) : bool :=
  ((9 <=? char_code a) && (char_code a <=? 13)) || (char_code a =? 32).
Definition lower_char (a : ascii) : ascii :=
  if is_upper a then ascii_of_N (N_of_ascii a + 32) else a.
Definition upper_char (a : ascii) : ascii :=
  if is_lower a then ascii_of_N (N_of_ascii a - 32) else a.

Definition ToLower (s : string) : string := str_map lower_char s.
Definition ToUpper (s : string) : string := str_map upper_char s.
Definition EqualFold (s t : string) : bool := ToLower s =s ToLower t.

Definition HasPrefix (s p : string) : bool := String.prefix p s.
Definition HasSuffix (s p : string) : bool :=
  (String.length p <=? String.length s)%nat
    && (str_drop (String.length s - String.length p) s =s p).
Definition TrimPrefix (s p : string) : string :=
  if HasPrefix s p then str_drop (String.length p) s else s.
Definition TrimSuffix (s p : string) : string :=
  if HasSuffix s p then str_take (String.length s - String.length p) s else s.

Fixpoint Index (s sub : string) : option nat :=
  if HasPrefix s sub then Some 0%nat
  else match s with EmptyString => None | String _ s' => S <$> Index s' sub end.
Definition Contains (s sub : string) : bool :=
  match Index s sub with Some _ => true | None => false end.
Definition ContainsAny (s chars : string) : bool :=
  str_exists (fun a => str_exists (Ascii.eqb a) chars) s.
Fixpoint IndexByte (s : string) (c : ascii) : option nat :=
  match s with
  | EmptyString => None
  | String a s' => if Ascii.eqb a c then Some 0%nat else S <$> IndexByte s' c
  end.
Fixpoint LastIndexByte (s : string) (c : ascii) : option nat :=
  match s with
  | EmptyString => None
  | String a s' =>
      match LastIndexByte s' c with
      | Some i => Some (S i)
      | None => if Ascii.eqb a c then Some 0%nat else None
      end
  end.
Fixpoint CountByte (s : string) (c : ascii) : Z :=
  match s with
  | EmptyString => 0
  | String a s' => (if Ascii.eqb a c then 1 else 0) + CountByte s' c
  end.

(** [strings.Split] for a separator that is not empty. *)
Fixpoint split_string (fuel : nat) (s sep : string) : list string :=
  match fuel with
  | O => [s]
  | S fuel =>
      match Index s sep with
      | None => [s]
      | Some i => str_take i s :: split_string fuel (str_drop (i + String.length sep) s) sep
      end
  end.
Definition SplitString (s sep : string) : list string := split_string (S (String.length s)) s sep.

Fixpoint SplitFunc (p : ascii -> bool) (s : string) : list string :=
  match s with
  | EmptyString => [EmptyString]
  | String a s' =>
      if p a then EmptyString :: SplitFunc p s'
      else match SplitFunc p s' with
           | h :: t => String a h :: t
           | [] => []
           end
  end.
Definition SplitByte (s : string) (c : ascii) : list string := SplitFunc (fun a => Ascii.eqb a c) s.
(** The non-empty maximal runs of characters that do not satisfy [p]. *)
Definition FieldsFunc (s : string) (p : ascii -> bool) : list string :=
  filter (fun f => f <> ""%string) (SplitFunc p s).
Definition Fields (s : string) : list string := FieldsFunc s is_space.
Fixpoint Join (l : list string) (sep : string) : string :=
  match l with
  | [] => ""
  | [x] => x
  | x :: l' => x ^^ sep ^^ Join l' sep
  end.
(** The part before the first [c] and the part after it. *)
Definition Cut (s : string) (c : ascii) : option (string * string) :=
  match IndexByte s c with
  | Some i => Some (str_take i s, str_drop (S i) s)
  | None => None
  end.
Fixpoint ReplaceByte (s : string) (c : ascii) (new : string) : string :=
  match s with
  | EmptyString => EmptyString
  | String a s' => if Ascii.eqb a c then new ^^ ReplaceByte s' c new else String a (ReplaceByte s' c new)
  end.

Fixpoint TrimLeftFunc (p : ascii -> bool) (s : string) : string :=
  match s with
  | EmptyString => EmptyString
  | String a s' => if p a then TrimLeftFunc p s' else s
  end.
Fixpoint TrimRightFunc (p : ascii -> bool) (s : string) : string :=
  match s with
  | EmptyString => EmptyString
  | String a s' =>
      match TrimRightFunc p s' with
      | EmptyString => if p a then EmptyString else String a EmptyString
      | r => String a r
      end
  end.
Definition TrimFunc (p : ascii -> bool) (s : string) : string := TrimRightFunc p (TrimLeftFunc p s).
Definition TrimSpace (s : string) : string := TrimFunc is_space s.
Definition in_set (cutset : string) (a : ascii) : bool := str_exists (Ascii.eqb a) cutset.
Definition Trim (s cutset : string) : string := TrimFunc (in_set cutset) s.
Definition TrimRight (s cutset : string) : string := TrimRightFunc (in_set cutset) s.

(** [filepath.Base] with '/' as the separator. *)
Definition Base (path : string) : string :=
  if path =s "" then "."
  else let p := TrimRight path "/" in
       let p := match LastIndexByte p "/" with Some i => str_drop (S i) p | None => p end in
       if p =s "" then "/" else p.

(** [filepath.Ext] *)
Definition Ext (path : string) : string :=
  let b := match LastIndexByte path "/" with Some i => str_drop (S i) path | None => path end in
  match LastIndexByte b "." with Some i => str_drop i b | None => ""%string end.

(** [filepath.Clean] and [filepath.Join], with '/' as the separator. *)
Definition clean_step (rooted : bool) (stack : list string) (c : string) : list string :=
  if (c =s "") || (c =s ".") then stack
  else if c =s ".." then
    match stack with
    | top :: rest => if top =s ".." then c :: stack else rest
    | [] => if rooted then [] else [c]
    end
  else c :: stack.
Definition Clean (path : string) : string :=
  if path =s "" then "."
  else
    let rooted := HasPrefix path "/" in
    let body := Join (rev (foldl (clean_step rooted) [] (SplitByte path "/"))) "/" in
    if rooted then "/" ^^ body else if body =s "" then "." else body.
Definition JoinPath (elems : list string) : string :=
  match filter (fun e => e <> ""%string) elems with
  | [] => ""
  | es => Clean (Join es "/")
  end.

(** ** strconv *)

Definition digit_char (d : N) : ascii := ascii_of_N (48 + d).
Fixpoint digits (fuel : nat) (n : N) (acc : string) : string :=
  match fuel with
  | O => acc
  | S f =>
      let acc' := String (digit_char (n mod 10)) acc in
      if (n / 10 =? 0)%N then acc' else digits f (n / 10) acc'
  end.
(** As many digits as bits is enough fuel. *)
Definition FormatNat (n : N) : string := digits (S (N.to_nat (N.size n))) n "".
Definition Itoa (z : Z) : string :=
  if z <? 0 then "-" ^^ FormatNat (Z.to_N (- z)) else FormatNat (Z.to_N z).

Fixpoint parse_digits (s : string) (acc : N) : option N :=
  match s with
  | EmptyString => Some acc
  | String a s' =>
      if is_digit a then parse_digits s' (acc * 10 + (N_of_ascii a - 48)) else None
  end.
(** [strconv.Atoi]: [None] stands for a non-nil error. *)
Definition Atoi (s : string) : option Z :=
  let signed (neg : bool) (ds : string) :=
    match ds with
    | EmptyString => None
    | _ => match parse_digits ds 0 with
           | Some n => let z := if neg then - Z.of_N n else Z.of_N n in
                       if (minInt64 <=? z) && (z <=? maxInt64) then Some z else None
           | None => None
           end
    end in
  match s with
  | String "+" ds => signed false ds
  | String "-" ds => signed true ds
  | _ => signed false s
  end.

(** [n, _ := strconv.Atoi(s)]: a number out of range is cut off at the bounds. *)
Definition atoi (s : string) : Z :=
  match Atoi s with
  | Some n => n
  | None =>
      match s with
      | String "-" t => match parse_digits t 0 with Some _ => if t =s "" then 0 else minInt64 | None => 0 end
      | String "+" t => match parse_digits t 0 with Some _ => if t =s "" then 0 else maxInt64 | None => 0 end
      | _ => match parse_digits s 0 with Some _ => if s =s "" then 0 else maxInt64 | None => 0 end
      end
  end.

(** [fmt.Sscanf(s, "%d", &n)]: blanks, a sign and digits; the rest is not looked at.
    [None]: [n] keeps its value. *)
Fixpoint skip_blanks (s : string) : option string :=
  match s with
  | EmptyString => Some ""%string
  | String a t => if char_code a =? 10 then None else if is_space a then skip_blanks t else Some s
  end.
Fixpoint digits_of (s : string) : string :=
  match s with
  | EmptyString => ""
  | String a t => if is_digit a then String a (digits_of t) else ""
  end.
Definition signed_digits (s : string) : string :=
  match s with
  | String a t => if Ascii.eqb a "+" || Ascii.eqb a "-" then String a (digits_of t) else digits_of s
  | EmptyString => ""
  end.
Definition scan_int (s : string) : option Z := t ← skip_blanks s; Atoi (signed_digits t).

(** [strconv.Quote], as [%q] prints a string; bytes above 127 are printed as they
    are (those of printable characters are). *)
Definition hex_digit_char (d : N) : ascii := ascii_of_N (if (d <? 10)%N then 48 + d else 87 + d).
Definition quote_char : ascii := ascii_of_N 34.
Definition escape_letter (n : N) : option ascii :=
  match n with
  | 7 => Some "a"%char | 8 => Some "b"%char | 9 => Some "t"%char | 10 => Some "n"%char | 11 => Some "v"%char
  | 12 => Some "f"%char | 13 => Some "r"%char | 34 => Some quote_char | 92 => Some (ascii_of_N 92) | _ => None
  end%N.
Definition quote_byte (a : ascii) : string :=
  let n := N_of_ascii a in
  match escape_letter n with
  | Some c => String (ascii_of_N 92) (String c "")
  | None =>
      if ((n <? 32) || (n =? 127))%N%bool
      then String (ascii_of_N 92) (String "x" (String (hex_digit_char (n / 16)) (String (hex_digit_char (n mod 16)) "")))
      else String a ""
  end.
Fixpoint quote_body (s : string) : string :=
  match s with EmptyString => "" | String a s => quote_byte a ^^ quote_body s end.
Definition Quote (s : string) : string := String quote_char (quote_body s ^^ String quote_char "").

Definition string_bytes (s : string) : list Z :=
  (fix go s := match s with EmptyString => [] | String a s' => char_code a :: go s' end) s.
Definition string_of_bytes (l : list Z) : string :=
  foldr (fun b s => String (ascii_of_N (Z.to_N b)) s) "" l.

(** Byte-wise comparison, Go's [<] on strings. *)
Definition str_ltb (s t : string) : bool := String.ltb s t.

(** A fact about every character, checked for each. *)
Ltac by_char := let a := fresh "a" in intros a; destruct a as [[] [] [] [] [] [] [] []]; vm_compute; try done; intros; done.

(** ** Lemmas: append, prefixes and suffixes *)

Lemma str_app_nil_r s : s ^^ "" = s.
Proof. induction s as [|a s IH]; simpl; [done | by rewrite IH]. Qed.

Lemma str_app_assoc s t u : (s ^^ t) ^^ u = s ^^ t ^^ u.
Proof. induction s as [|a s IH]; simpl; [done | by rewrite IH]. Qed.

Lemma str_length_app s t : String.length (s ^^ t) = (String.length s + String.length t)%nat.
Proof. induction s as [|a s IH]; simpl; [done | by rewrite IH]. Qed.

Lemma str_drop_app s t : str_drop (String.length s) (s ^^ t) = t.
Proof. induction s; simpl; done. Qed.

Lemma str_take_app s t : str_take (String.length s) (s ^^ t) = s.
Proof.
  unfold str_take. induction s as [|a s IH]; simpl; [|by rewrite IH].
  by destruct t.
Qed.

Lemma str_take_drop n s : str_take n s ^^ str_drop n s = s.
Proof.
  unfold str_take. revert s. induction n as [|n IH]; intros [|a s]; simpl; try done.
  by rewrite IH.
Qed.

Lemma str_length_drop n s : String.length (str_drop n s) = (String.length s - n)%nat.
Proof. revert s. induction n as [|n IH]; intros [|a s]; simpl; try done; apply IH. Qed.

Lemma str_app_inj_l s t u : s ^^ t = s ^^ u -> t = u.
Proof. induction s; simpl; intros E; [done|]. injection E. auto. Qed.

Lemma str_app_eq_suffix s1 s2 t1 t2 :
  s1 ^^ t1 = s2 ^^ t2 -> String.length t1 = String.length t2 -> t1 = t2.
Proof.
  revert s2. induction s1 as [|a s1 IH]; intros [|b s2]; simpl; intros E Hl.
  - done.
  - subst. simpl in Hl. rewrite str_length_app in Hl. lia.
  - subst. simpl in Hl. rewrite str_length_app in Hl. lia.
  - injection E as _ E. eauto.
Qed.

Lemma HasPrefix_spec s p : HasPrefix s p = true <-> exists t, s = p ^^ t.
Proof.
  unfold HasPrefix. revert s. induction p as [|a p IH]; intros s; simpl.
  - split; [intros _; by exists s | by destruct s].
  - destruct s as [|b s]; simpl; [split; [done | by intros [t ?]]|].
    destruct (ascii_dec a b) as [->|Hne].
    + rewrite IH. split; intros [t Ht]; exists t; by simplify_eq/=.
    + split; [done | intros [t Ht]; by simplify_eq/=].
Qed.

Lemma HasPrefix_app p t : HasPrefix (p ^^ t) p = true.
Proof. apply HasPrefix_spec. by exists t. Qed.

Lemma TrimPrefix_app p t : TrimPrefix (p ^^ t) p = t.
Proof. unfold TrimPrefix. by rewrite HasPrefix_app, str_drop_app. Qed.

Lemma HasSuffix_spec s p : HasSuffix s p = true <-> exists t, s = t ^^ p.
Proof.
  unfold HasSuffix. rewrite andb_true_iff, Nat.leb_le, String.eqb_eq. split.
  - intros [Hl Hd]. exists (str_take (String.length s - String.length p) s).
    rewrite <- Hd at 2. by rewrite str_take_drop.
  - intros [t ->]. rewrite str_length_app. split; [lia|].
    replace (_ - _)%nat with (String.length t) by lia. apply str_drop_app.
Qed.

Lemma HasSuffix_refl s : HasSuffix s s = true.
Proof. apply HasSuffix_spec. by exists ""%string. Qed.

Lemma HasSuffix_trans s t u :
  HasSuffix s t = true -> HasSuffix t u = true -> HasSuffix s u = true.
Proof.
  rewrite !HasSuffix_spec. intros [a ->] [b ->]. exists (a ^^ b).
  by rewrite str_app_assoc.
Qed.

Lemma TrimSuffix_app s p : TrimSuffix (s ^^ p) p = s.
Proof.
  unfold TrimSuffix. replace (HasSuffix (s ^^ p) p) with true
    by (symmetry; apply HasSuffix_spec; by exists s).
  rewrite str_length_app. replace (_ - _)%nat with (String.length s) by lia.
  apply str_take_app.
Qed.

(** ** Case mapping and trimming *)

Lemma str_map_app f s t : str_map f (s ^^ t) = str_map f s ^^ str_map f t.
Proof. induction s as [|a s IH]; simpl; [done | by rewrite IH]. Qed.

Lemma str_map_idemp f s : (forall a, f (f a) = f a) -> str_map f (str_map f s) = str_map f s.
Proof. intros Hf. induction s as [|a s IH]; simpl; [done | by rewrite Hf, IH]. Qed.

Lemma lower_char_idemp a : lower_char (lower_char a) = lower_char a.
Proof. by destruct a as [[] [] [] [] [] [] [] []]. Qed.

Lemma upper_char_idemp a : upper_char (upper_char a) = upper_char a.
Proof. by destruct a as [[] [] [] [] [] [] [] []]. Qed.

Lemma ToLower_idemp s : ToLower (ToLower s) = ToLower s.
Proof. apply str_map_idemp, lower_char_idemp. Qed.

Lemma ToUpper_idemp s : ToUpper (ToUpper s) = ToUpper s.
Proof. apply str_map_idemp, upper_char_idemp. Qed.

Lemma ToLower_app s t : ToLower (s ^^ t) = ToLower s ^^ ToLower t.
Proof. apply str_map_app. Qed.

Lemma is_space_lower a : is_space (lower_char a) = is_space a.
Proof. by destruct a as [[] [] [] [] [] [] [] []]. Qed.

Section trimming.
Variable p : ascii -> bool.

Lemma TrimRightFunc_last s :
  TrimRightFunc p s = ""%string \/
  exists t a, TrimRightFunc p s = t ^^ String a "" /\ p a = false.
Proof.
  induction s as [|a s IH]; simpl; [by left|].
  destruct (TrimRightFunc p s) as [|b r] eqn:E.
  - destruct (p a) eqn:Hp; [by left|]. right. by exists ""%string, a.
  - right. destruct IH as [?|(t & c & Ht & Hc)]; [done|].
    exists (String a t), c. by rewrite Ht.
Qed.

Lemma TrimRightFunc_snoc t a : p a = false ->
  TrimRightFunc p (t ^^ String a "") = t ^^ String a "".
Proof.
  intros Ha. induction t as [|b t IH]; simpl; [by rewrite Ha|].
  rewrite IH. by destruct t.
Qed.

Lemma TrimRightFunc_idemp s : TrimRightFunc p (TrimRightFunc p s) = TrimRightFunc p s.
Proof.
  destruct (TrimRightFunc_last s) as [->|(t & a & -> & Ha)]; [done|].
  by apply TrimRightFunc_snoc.
Qed.

Lemma TrimLeftFunc_head s a t : TrimLeftFunc p s = String a t -> p a = false.
Proof.
  induction s as [|b s IH]; simpl; [done|].
  destruct (p b) eqn:E; [apply IH | by intros [= -> ->]].
Qed.

Lemma TrimRightFunc_head s a t : TrimRightFunc p s = String a t -> exists t', s = String a t'.
Proof.
  destruct s as [|b s]; simpl; [done|].
  destruct (TrimRightFunc p s); [destruct (p b); [done|]|]; intros [= -> _]; eauto.
Qed.

Lemma TrimFunc_idemp s : TrimFunc p (TrimFunc p s) = TrimFunc p s.
Proof.
  unfold TrimFunc. destruct (TrimRightFunc p (TrimLeftFunc p s)) as [|a t] eqn:E; [done|].
  assert (Hl : TrimLeftFunc p (String a t) = String a t).
  { destruct (TrimRightFunc_head _ _ _ E) as [t' Ht'].
    apply TrimLeftFunc_head in Ht'. simpl. by rewrite Ht'. }
  rewrite Hl, <- E. apply TrimRightFunc_idemp.
Qed.
End trimming.

Lemma TrimSpace_idemp s : TrimSpace (TrimSpace s) = TrimSpace s.
Proof. apply TrimFunc_idemp. Qed.

Lemma TrimFunc_lower s : TrimSpace (ToLower s) = ToLower (TrimSpace s).
Proof.
  unfold TrimSpace, TrimFunc, ToLower.
  assert (Hl : forall s, TrimLeftFunc is_space (str_map lower_char s)
                         = str_map lower_char (TrimLeftFunc is_space s)).
  { clear s. intros s. induction s as [|a s IH]; simpl; [done|].
    rewrite is_space_lower. by destruct (is_space a). }
  assert (Hr : forall s, TrimRightFunc is_space (str_map lower_char s)
                         = str_map lower_char (TrimRightFunc is_space s)).
  { clear s Hl. intros s. induction s as [|a s IH]; simpl; [done|].
    rewrite IH, is_space_lower.
    destruct (TrimRightFunc is_space s); simpl; [by destruct (is_space a) | done]. }
  by rewrite Hl, Hr.
Qed.

(** The key every lookup of the program normalises with:
    [strings.ToLower(strings.TrimSpace(x))]. *)
Definition clean_key (s : string) : string := ToLower (TrimSpace s).

Lemma clean_key_idemp s : clean_key (clean_key s) = clean_key s.
Proof. unfold clean_key. by rewrite TrimFunc_lower, TrimSpace_idemp, ToLower_idemp. Qed.

(** ** Splitting and joining *)

Lemma SplitFunc_nonempty p s : SplitFunc p s <> [].
Proof.
  induction s as [|a s IH]; simpl; [done|]. destruct (p a); [done|].
  by destruct (SplitFunc p s).
Qed.

Lemma SplitFunc_pieces p s : Forall (fun f => str_exists p f = false) (SplitFunc p s).
Proof.
  induction s as [|a s IH]; simpl; [by constructor|].
  destruct (p a) eqn:E; [by constructor|].
  destruct (SplitFunc p s); [constructor|].
  inversion IH; subst. constructor; [|done]. simpl. by rewrite E.
Qed.

Lemma Join_cons x l sep : l <> [] -> Join (x :: l) sep = x ^^ sep ^^ Join l sep.
Proof. by destruct l. Qed.

Lemma Join_SplitByte s c : Join (SplitByte s c) (String c "") = s.
Proof.
  unfold SplitByte. induction s as [|a s IH]; simpl; [done|].
  pose proof (SplitFunc_nonempty (fun a => Ascii.eqb a c) s) as Hne.
  destruct (Ascii.eqb_spec a c) as [->|].
  - rewrite Join_cons by done. simpl. by rewrite IH.
  - destruct (SplitFunc _ s) as [|h [|h' t]]; simpl in *; [done| |]; by rewrite IH.
Qed.

Lemma SplitFunc_clean p s : str_exists p s = false -> SplitFunc p s = [s].
Proof.
  induction s as [|a s IH]; simpl; [done|]. intros [Ha Hs]%orb_false_iff.
  by rewrite Ha, IH.
Qed.

Lemma SplitFunc_app p s c t :
  str_exists p s = false -> p c = true ->
  SplitFunc p (s ^^ String c t) = s :: SplitFunc p t.
Proof.
  intros Hs Hc. induction s as [|a s IH]; simpl in *; [by rewrite Hc|].
  apply orb_false_iff in Hs as [Ha Hs]. by rewrite Ha, IH.
Qed.

Lemma SplitFunc_sep p s c t : p c = true ->
  SplitFunc p (s ^^ String c t) = SplitFunc p s ++ SplitFunc p t.
Proof.
  intros Hc. induction s as [|a s IH]; simpl; [by rewrite Hc|].
  destruct (p a); [by rewrite IH|]. rewrite IH.
  pose proof (SplitFunc_nonempty p s). by destruct (SplitFunc p s).
Qed.

Lemma str_exists_app p s t : str_exists p (s ^^ t) = str_exists p s || str_exists p t.
Proof. induction s as [|a s IH]; simpl; [done|]. by rewrite IH, orb_assoc. Qed.

(** ** Decimal numbers *)

Lemma digit_char_value d : (d < 10)%N -> (N_of_ascii (digit_char d) - 48 = d)%N.
Proof. intros. unfold digit_char. rewrite N_ascii_embedding; lia. Qed.

Lemma digit_char_is_digit d : (d < 10)%N -> is_digit (digit_char d) = true.
Proof.
  intros. unfold is_digit, char_code, digit_char. rewrite N_ascii_embedding by lia.
  apply andb_true_iff. rewrite !Z.leb_le. lia.
Qed.

Lemma parse_digits_step d s acc : (d < 10)%N ->
  parse_digits (String (digit_char d) s) acc = parse_digits s (acc * 10 + d).
Proof. intros. cbn [parse_digits]. by rewrite digit_char_is_digit, digit_char_value. Qed.

Lemma parse_digits_digits f n s :
  (n < 2 ^ N.of_nat f)%N -> (f <> 0)%nat -> parse_digits (digits f n s) 0 = parse_digits s n.
Proof.
  revert n s. induction f as [|f IH]; intros n s Hn Hf; [done|]. cbn [digits].
  pose proof (N.mod_lt n 10 ltac:(lia)). pose proof (N.div_mod n 10 ltac:(lia)) as Hdm.
  destruct (N.eqb_spec (n / 10) 0) as [Hz|Hz].
  - rewrite parse_digits_step by done. f_equal. lia.
  - assert (f <> 0)%nat.
    { intros ->. change (2 ^ N.of_nat 1)%N with 2%N in Hn.
      apply Hz, N.div_small. lia. }
    rewrite IH; [|rewrite Nat2N.inj_succ, N.pow_succ_r' in Hn; apply N.Div0.div_lt_upper_bound; lia|done].
    rewrite parse_digits_step by done. f_equal. lia.
Qed.

Lemma parse_FormatNat n s : parse_digits (digits (S (N.to_nat (N.size n))) n s) 0 = parse_digits s n.
Proof.
  apply parse_digits_digits; [|done].
  rewrite Nat2N.inj_succ, N2Nat.id, N.pow_succ_r'. pose proof (N.size_gt n). lia.
Qed.

Lemma digits_cons f n s : (f <> 0)%nat -> exists d t,
  (d < 10)%N /\ digits f n s = String (digit_char d) t.
Proof.
  revert n s. induction f as [|f IH]; intros n s Hf; [done|]. cbn [digits].
  pose proof (N.mod_lt n 10 ltac:(lia)).
  destruct (N.eqb_spec (n / 10) 0); [by exists (n mod 10)%N, s|].
  destruct f as [|f]; [by exists (n mod 10)%N, s|]. apply IH. done.
Qed.

Lemma digit_char_not_sign d : (d < 10)%N -> digit_char d <> "+"%char /\ digit_char d <> "-"%char.
Proof.
  intros Hd. pose proof (digit_char_is_digit d Hd) as Hg.
  split; intros E; by rewrite E in Hg.
Qed.

Lemma Atoi_unsigned a t n :
  a <> "+"%char -> a <> "-"%char -> parse_digits (String a t) 0 = Some n ->
  Z.of_N n <= maxInt64 -> Atoi (String a t) = Some (Z.of_N n).
Proof.
  intros Hp Hm Hd Hn.
  assert (Hin : (minInt64 <=? Z.of_N n) && (Z.of_N n <=? maxInt64) = true).
  { apply andb_true_iff. rewrite !Z.leb_le. unfold minInt64. lia. }
  destruct a as [[] [] [] [] [] [] [] []]; try done; unfold Atoi; rewrite Hd, Hin; done.
Qed.

Lemma Atoi_Itoa z : 0 <= z <= maxInt64 -> Atoi (Itoa z) = Some z.
Proof.
  intros [Hz Hm]. unfold Itoa, FormatNat. destruct (Z.ltb_spec z 0); [lia|].
  set (n := Z.to_N z). pose proof (parse_FormatNat n "") as Hp.
  destruct (digits_cons (S (N.to_nat (N.size n))) n "") as (d & t & Hd & E); [done|].
  rewrite E in Hp |- *. destruct (digit_char_not_sign d Hd).
  rewrite (Atoi_unsigned _ _ n); [f_equal; subst n; lia|done|done|done|subst n; lia].
Qed.

Lemma digits_only f n s p :
  (forall d, (d < 10)%N -> p (digit_char d) = false) ->
  str_exists p s = false -> str_exists p (digits f n s) = false.
Proof.
  intros Hp. revert n s. induction f as [|f IH]; intros n s Hs; [done|]. cbn [digits].
  assert (str_exists p (String (digit_char (n mod 10)) s) = false).
  { cbn [str_exists]. rewrite Hp, Hs; [done|]. apply N.mod_lt. lia. }
  destruct (_ =? 0)%N; auto.
Qed.

(** A printed natural number holds only digits. *)
Lemma Itoa_only z p : 0 <= z -> (forall a, is_digit a = true -> p a = false) ->
  str_exists p (Itoa z) = false.
Proof.
  intros Hz Hp. unfold Itoa. destruct (Z.ltb_spec z 0); [lia|].
  apply digits_only; [|done]. intros d Hd. by apply Hp, digit_char_is_digit.
Qed.

(** ** Strings without the characters an operation looks for *)

Lemma TrimFunc_absent p s : str_exists p s = false -> TrimFunc p s = s.
Proof.
  intros Hs. unfold TrimFunc.
  assert (Hl : TrimLeftFunc p s = s).
  { destruct s as [|a s]; [done|]. cbn in *. by apply orb_false_iff in Hs as [-> _]. }
  rewrite Hl. clear Hl. induction s as [|a s IH]; [done|]. cbn in *.
  apply orb_false_iff in Hs as [Ha Hs]. rewrite (IH Hs), Ha. by destruct s.
Qed.

Lemma TrimSpace_absent s : str_exists is_space s = false -> TrimSpace s = s.
Proof. apply TrimFunc_absent. Qed.

Lemma ReplaceByte_absent s c t : str_exists (fun a => Ascii.eqb a c) s = false -> ReplaceByte s c t = s.
Proof. induction s as [|a s IH]; [done|]. cbn. intros [-> Hs]%orb_false_iff. by rewrite IH. Qed.

Lemma IndexByte_absent s c : str_exists (fun a => Ascii.eqb a c) s = false -> IndexByte s c = None.
Proof.
  induction s as [|a s IH]; [done|]. cbn. intros [Ha Hs]%orb_false_iff. by rewrite Ha, (IH Hs).
Qed.

Lemma IndexByte_app s c t : str_exists (fun a => Ascii.eqb a c) s = false ->
  IndexByte (s ^^ String c t) c = Some (String.length s).
Proof.
  induction s as [|a s IH]; cbn; [by rewrite Ascii.eqb_refl|].
  intros [-> Hs]%orb_false_iff. by rewrite (IH Hs).
Qed.

Lemma Cut_absent s c : str_exists (fun a => Ascii.eqb a c) s = false -> Cut s c = None.
Proof. intros Hs. unfold Cut. by rewrite IndexByte_absent. Qed.

Lemma Cut_app s c t : str_exists (fun a => Ascii.eqb a c) s = false -> Cut (s ^^ String c t) c = Some (s, t).
Proof.
  intros Hs. unfold Cut. rewrite (IndexByte_app s c t Hs), str_take_app. f_equal. f_equal.
  clear Hs. induction s as [|a s IH]; [done|]. apply IH.
Qed.

Lemma is_digit_ne a c : is_digit a = true -> is_digit c = false -> Ascii.eqb a c = false.
Proof. intros Ha Hc. apply Ascii.eqb_neq. congruence. Qed.

Lemma is_digit_not_space a : is_digit a = true -> is_space a = false.
Proof. destruct a as [[] [] [] [] [] [] [] []]; vm_compute; congruence. Qed.

(** ** A byte as a separator *)

Lemma Contains_byte s c : Contains s (String c "") = str_exists (fun a => Ascii.eqb a c) s.
Proof.
  unfold Contains. induction s as [|a s IH]; [done|]. cbn [str_exists]. rewrite <- IH. cbn [Index HasPrefix].
  unfold HasPrefix. cbn [String.prefix]. rewrite (Ascii.eqb_sym a c).
  destruct (Ascii.ascii_dec c a) as [->|Hne].
  - rewrite Ascii.eqb_refl. by destruct s.
  - apply Ascii.eqb_neq in Hne. rewrite Hne. by destruct (Index s (String c "")).
Qed.
Lemma SplitByte_Join l c : l <> [] -> Forall (fun s => str_exists (fun a => Ascii.eqb a c) s = false) l ->
  SplitByte (Join l (String c "")) c = l.
Proof.
  unfold SplitByte. induction l as [|x l IH]; [done|]. intros _ [Hx Hl]%Forall_cons.
  destruct l as [|y l]; [by apply SplitFunc_clean|].
  rewrite Join_cons by done. cbn [String.append].
  rewrite (SplitFunc_sep _ x) by apply Ascii.eqb_refl. rewrite (SplitFunc_clean _ x) by done.
  by rewrite IH.
Qed.
Lemma LastIndexByte_absent s c : str_exists (fun a => Ascii.eqb a c) s = false -> LastIndexByte s c = None.
Proof.
  induction s as [|a s IH]; [done|]. cbn [str_exists LastIndexByte]. intros [Ha Hs]%orb_false_iff. by rewrite IH, Ha.
Qed.
Lemma LastIndexByte_app s c t : str_exists (fun a => Ascii.eqb a c) t = false ->
  LastIndexByte (s ^^ String c t) c = Some (String.length s).
Proof.
  intros Ht. induction s as [|a s IH]; cbn [String.append LastIndexByte String.length].
  - by rewrite LastIndexByte_absent, Ascii.eqb_refl.
  - by rewrite IH.
Qed.
Lemma str_drop_S_app s c t : str_drop (S (String.length s)) (s ^^ String c t) = t.
Proof. induction s as [|a s IH]; [done|exact IH]. Qed.

(** ** UTF-8

    [utf8.DecodeRuneInString] accepts a byte below 128, and a leading byte followed by the
    continuation bytes that its range allows; anything else is one byte that stands for no
    rune, and [encoding/json] writes U+FFFD in its place. *)

Definition byte_in (lo hi : Z) (a : ascii) : bool := (lo <=? char_code a) && (char_code a <=? hi).
Definition is_tail : ascii -> bool := byte_in 128 191.
(** The range of the byte after a leading byte, and how many bytes follow that one. *)
Definition second_byte (a : ascii) : option ((Z * Z) * nat) :=
  let c := char_code a in
  if byte_in 194 223 a then Some ((128, 191), 0%nat)
  else if c =? 224 then Some ((160, 191), 1%nat)
  else if c =? 237 then Some ((128, 159), 1%nat)
  else if byte_in 225 239 a then Some ((128, 191), 1%nat)
  else if c =? 240 then Some ((144, 191), 2%nat)
  else if byte_in 241 243 a then Some ((128, 191), 2%nat)
  else if c =? 244 then Some ((128, 143), 2%nat)
  else None.
Fixpoint tails (n : nat) (s : string) : bool :=
  match n, s with
  | O, _ => true
  | S n, String a s => is_tail a && tails n s
  | S _, EmptyString => false
  end.
(** The number of bytes of the rune that begins with [a], before [s]; [None]: no rune. *)
Definition rune_size (a : ascii) (s : string) : option nat :=
  if char_code a <? 128 then Some 1%nat
  else match second_byte a, s with
       | Some ((lo, hi), n), String b s => if byte_in lo hi b && tails n s then Some (2 + n)%nat else None
       | _, _ => None
       end.

Definition replacement : string := String (ascii_of_N 239) (String (ascii_of_N 191) (String (ascii_of_N 189) "")).
(** A text as it is read from the JSON in which it was written; [n] bytes of the rune that
    has begun are still to come. *)
Fixpoint json_text_from (n : nat) (s : string) : string :=
  match s with
  | EmptyString => EmptyString
  | String a s =>
      match n with
      | S n => String a (json_text_from n s)
      | O => match rune_size a s with
             | Some k => String a (json_text_from (Nat.pred k) s)
             | None => replacement ^^ json_text_from 0 s
             end
      end
  end.
Definition json_text : string -> string := json_text_from 0.
Fixpoint utf8_from (n : nat) (s : string) : bool :=
  match s with
  | EmptyString => true
  | String a s =>
      match n with
      | S n => utf8_from n s
      | O => match rune_size a s with Some k => utf8_from (Nat.pred k) s | None => false end
      end
  end.
Definition is_utf8 : string -> bool := utf8_from 0.

Lemma json_text_utf8 s : is_utf8 s = true -> json_text s = s.
Proof.
  unfold is_utf8, json_text. generalize 0%nat. induction s as [|a s IH]; [done|]. intros [|n]; cbn [utf8_from json_text_from].
  - destruct (rune_size a s); [|done]. intros H. by rewrite IH.
  - intros H. by rewrite IH.
Qed.
(** A text without bytes above 127 is not changed. *)
Lemma ascii_utf8 s : str_exists (fun a => negb (char_code a <? 128)) s = false -> is_utf8 s = true.
Proof.
  unfold is_utf8. induction s as [|a s IH]; [done|]. cbn [str_exists utf8_from]. intros [Ha%negb_false_iff Hs]%orb_false_iff.
  unfold rune_size. rewrite Ha. by apply IH.
Qed.
Example utf8_demo :
  let bytes := fun l => fold_right (fun n s => String (ascii_of_N n) s) ""%string l in
  is_utf8 (bytes [208; 175; 226; 130; 172; 240; 159; 152; 128]%N) = true /\
  map is_utf8 [bytes [192; 128]; bytes [237; 160; 128]; bytes [244; 144; 128; 128]; bytes [224; 159; 128]; bytes [226; 130]]%N = [false; false; false; false; false] /\
  json_text (bytes [97; 255; 98]%N) = ("a" ^^ replacement ^^ "b")%string /\ json_text (bytes [226; 130]%N) = replacement ^^ replacement.
Proof. by vm_compute. Qed.
