(* ===== verification/Concurrency.v ===== *)
(** * Goroutines that work side by side

    Two ways in which the engine splits work: a race (src/pkg/compiler/singbox/mirror.go,
    src/pkg/diagnostics/ip_lookup.go), where requests run at once and the caller takes what
    comes first through a channel or gives up at a deadline, and a pool
    (src/pkg/diagnostics/batch_ping.go, proxy_checker.go), where a semaphore bounds how many
    run.  Every order in which the goroutines can move is a sequence of steps. *)
From stdpp Require Import relations.
From S2P Require Import Prelude.

(** ** Races *)

Module Race.
Section race.
(** [answer] is what a goroutine sends when its request is not cut off, [cancelled] what it
    sends when it is; [got] is what the caller does with a message or the end of the
    channel, [late] what it returns at the deadline; [closes] tells whether somebody closes
    the channel when all goroutines are done. *)
Context {A B M O : Type} (cap : nat) (closes : bool) (answer cancelled : A -> option B) (got : M -> option B -> M + O) (late : O).

Record race := mkRace { running : list A; channel : list B; is_closed : bool; expired : bool; main : M + O }.

Definition send (b : option B) (ch : list B) : list B :=
  match b with Some b => if (length ch <? cap)%nat then ch ++ [b] else ch | None => ch end.
Definition is_over (main : M + O) : bool := match main with inl _ => false | inr _ => true end.

Inductive step : race -> race -> Prop :=
| Answers l1 a l2 ch cl ex mn : step (mkRace (l1 ++ a :: l2) ch cl ex mn) (mkRace (l1 ++ l2) (send (answer a) ch) cl ex mn)
| Cancels l1 a l2 ch cl ex mn : ex || is_over mn = true ->
    step (mkRace (l1 ++ a :: l2) ch cl ex mn) (mkRace (l1 ++ l2) (send (cancelled a) ch) cl ex mn)
| Closes ch ex mn : closes = true -> step (mkRace [] ch false ex mn) (mkRace [] ch true ex mn)
| Expires l ch cl mn : step (mkRace l ch cl false mn) (mkRace l ch cl true mn)
| Receives l b ch cl ex m : step (mkRace l (b :: ch) cl ex (inl m)) (mkRace l ch cl ex (got m (Some b)))
| ReceivesEnd l ex m : step (mkRace l [] true ex (inl m)) (mkRace l [] true ex (got m None))
| TimesOut l ch cl m : step (mkRace l ch cl true (inl m)) (mkRace l ch cl true (inr late)).

Definition started (l : list A) (m : M) : race := mkRace l [] false false (inl m).
Definition reachable (l : list A) (m : M) : race -> Prop := rtc step (started l m).

(** What the caller is at after some messages. *)
Definition run (m : M) (bs : list B) : M + O := fold_left (fun acc b => match acc with inl m => got m (Some b) | inr o => inr o end) bs (inl m).
Lemma run_snoc m bs b : run m (bs ++ [b]) = match run m bs with inl m => got m (Some b) | inr o => inr o end.
Proof using Type. unfold run. by rewrite fold_left_app. Qed.

Lemma run_over bs o : fold_left (fun acc b => match acc with inl m => got m (Some b) | inr o => inr o end) bs (inr o) = inr o.
Proof using Type. by induction bs. Qed.
Lemma run_cons m b bs : run m (b :: bs) = match got m (Some b) with inl m' => run m' bs | inr o => inr o end.
Proof using Type. unfold run. cbn [fold_left]. destruct (got m (Some b)); [done|apply run_over]. Qed.

(** *** Every schedule ends *)

Definition weight (s : race) : nat :=
  2 * length (running s) + length (channel s) + (if is_closed s then 0 else 1) + (if expired s then 0 else 1) + (if is_over (main s) then 0 else 1).
Lemma length_send b ch : (length (send b ch) <= S (length ch))%nat.
Proof using Type. unfold send. destruct b; [|lia]. destruct (length ch <? cap)%nat; rewrite ?length_app; cbn [length]; lia. Qed.

Hypothesis got_end : forall m, is_over (got m None) = true.
Lemma step_lighter s s' : step s s' -> (weight s' < weight s)%nat.
Proof using got_end.
  intros H. inv H; unfold weight; cbn [running channel is_closed expired main]; rewrite ?length_app; cbn [length is_over]; try lia.
  - pose proof (length_send (answer a) ch). lia.
  - pose proof (length_send (cancelled a) ch). lia.
  - destruct (got m (Some b)); cbn [is_over]; lia.
  - rewrite got_end. lia.
Qed.
Lemma race_ends s : sn step s.
Proof using got_end. revert s. apply (wf_projected lt weight); [|apply lt_wf]. intros x y H. by apply step_lighter. Qed.

(** Until the caller has returned something can happen: at least the deadline. *)
Lemma race_goes_on s m : main s = inl m -> red step s.
Proof using Type.
  destruct s as [l ch cl ex mn]. cbn [main]. intros ->. destruct ex; eexists; [apply TimesOut|apply Expires].
Qed.

(** *** What a race returns *)

(** The messages a race can carry. *)
Definition said (l : list A) (b : B) : Prop := exists a, a ∈ l /\ (answer a = Some b \/ cancelled a = Some b).

Record explained (l : list A) (m0 : M) (s : race) (fin : list A) (taken : list B) : Prop := {
  all_there : l ≡ₚ fin ++ running s;
  closed_last : is_closed s = true -> running s = [];
  no_more : (length taken + length (channel s) <= length fin)%nat;
  all_said : forall b, b ∈ taken ++ channel s -> said l b;
  all_answers : expired s || is_over (main s) = false -> taken ++ channel s ≡ₚ omap answer fin;
  outcome_of : main s = run m0 taken \/ (exists m o, run m0 taken = inl m /\ main s = inr o /\
    ((o = late /\ expired s = true) \/
     (got m None = inr o /\ (expired s = false -> taken ≡ₚ omap answer l))));
  some_answers : expired s = false -> taken ⊆+ omap answer l;
}.

Lemma explained_start l m0 : explained l m0 (started l m0) [] [].
Proof using Type.
  constructor; cbn [started running channel is_closed expired main app omap list_omap length]; try done.
  - by intros b ?%elem_of_nil.
  - by left.
  - intros _. apply submseteq_nil_l.
Qed.

Lemma send_room l m0 l1 a l2 ch cl ex mn fin taken b : (length l <= cap)%nat ->
  explained l m0 (mkRace (l1 ++ a :: l2) ch cl ex mn) fin taken -> send b ch = ch ++ option_list b.
Proof using Type.
  intros Hcap [Hl _ Hn _ _ _ _]. cbn [running channel] in *. apply Permutation_length in Hl. rewrite !length_app in Hl. cbn [length] in Hl.
  unfold send. destruct b; cbn [option_list option_rect]; [|by rewrite app_nil_r]. destruct (Nat.ltb_spec (length ch) cap); [done|lia].
Qed.
Lemma moved l fin l1 (a : A) l2 : l ≡ₚ fin ++ l1 ++ a :: l2 -> l ≡ₚ (fin ++ [a]) ++ l1 ++ l2.
Proof using Type. intros ->. rewrite <- !app_assoc. apply Permutation_app_head. rewrite <- Permutation_middle. done. Qed.
(** A goroutine ends, with what it sends. *)
Lemma explained_done l m0 l1 a l2 ch cl ex mn fin taken b : (length l <= cap)%nat -> (answer a = b \/ cancelled a = b) ->
  (ex || is_over mn = false -> answer a = b) ->
  explained l m0 (mkRace (l1 ++ a :: l2) ch cl ex mn) fin taken ->
  explained l m0 (mkRace (l1 ++ l2) (send b ch) cl ex mn) (fin ++ [a]) taken.
Proof using Type.
  intros Hcap Hb Hbx He. rewrite (send_room _ _ _ _ _ _ _ _ _ _ _ b Hcap He). destruct He as [Hl Hc Hn Hs Ha Ho Hsome].
  cbn [running channel is_closed expired main] in *. constructor; cbn [running channel is_closed expired main].
  - by apply moved.
  - intros Hcl. specialize (Hc Hcl). by destruct l1.
  - rewrite !length_app. destruct b; cbn [option_list option_rect length]; lia.
  - intros b' Hb'. rewrite app_assoc, elem_of_app in Hb'. destruct Hb' as [Hb'|Hb']; [by apply Hs|].
    exists a. split; [rewrite Hl, !elem_of_app; right; right; by left|].
    destruct b; [|by apply elem_of_nil in Hb']. apply list_elem_of_singleton in Hb' as ->. exact Hb.
  - intros Hx. rewrite omap_app, app_assoc, (Ha Hx). apply Permutation_app_head. cbn. by rewrite (Hbx Hx); destruct b.
  - done.
  - done.
Qed.
Lemma explained_step l m0 s s' fin taken : (length l <= cap)%nat -> explained l m0 s fin taken -> step s s' ->
  exists fin' taken', explained l m0 s' fin' taken'.
Proof using got_end.
  intros Hcap He Hs. inv Hs.
  - exists (fin ++ [a]), taken. eapply explained_done; eauto.
  - exists (fin ++ [a]), taken. eapply explained_done; eauto. congruence.
  - exists fin, taken. destruct He. by constructor.
  - exists fin, taken. destruct He as [? ? ? ? ? Ho ?]. constructor; try done. destruct Ho as [Ho|(m & o & H1 & H2 & H3)]; [by left|right].
    exists m, o. split_and!; [done..|]. destruct H3 as [[-> H3]|[H3 _]]; [by left|by right].
  - exists fin, (taken ++ [b]). destruct He as [Hl Hc Hn Hsd Ha Ho Hsome]. cbn [running channel is_closed expired main] in *.
    destruct Ho as [Ho|(? & ? & _ & ? & _)]; [|done]. rewrite orb_false_r in Ha.
    constructor; cbn [running channel is_closed expired main]; rewrite <- ?app_assoc; try done.
    + rewrite length_app. cbn [length] in *. lia.
    + intros Hx. apply Ha. by destruct ex.
    + left. by rewrite run_snoc, <- Ho.
    + intros Hx. specialize (Ha Hx). rewrite (cons_middle b taken ch), app_assoc in Ha.
      trans (omap answer fin); [rewrite <- Ha; apply submseteq_inserts_r; done|]. rewrite Hl, omap_app. by apply submseteq_inserts_r.
  - exists fin, taken. destruct He as [Hl Hc Hn Hsd Ha Ho Hsome]. cbn [running channel is_closed expired main] in *.
    specialize (Hc eq_refl) as ->. destruct Ho as [Ho|(? & ? & _ & ? & _)]; [|done]. rewrite app_nil_r in *.
    constructor; cbn [running channel is_closed expired main]; rewrite ?app_nil_r; try done.
    + intros Hx. apply Ha. by destruct ex.
    + destruct (got m None) as [m'|o] eqn:E; [|right; exists m, o; split_and!; try done; right; split; [done|intros ->; rewrite Hl; by apply Ha]].
      pose proof (got_end m) as Hg. by rewrite E in Hg.
  - exists fin, taken. destruct He as [Hl Hc Hn Hsd Ha Ho Hsome]. cbn [running channel is_closed expired main] in *.
    destruct Ho as [Ho|(? & ? & _ & ? & _)]; [|done]. constructor; try done. right. exists m, late. split_and!; try done. by left.
Qed.
Lemma reachable_explained l m s : (length l <= cap)%nat -> reachable l m s -> exists fin taken, explained l m s fin taken.
Proof using got_end.
  intros Hcap. unfold reachable. revert s. apply rtc_ind_r; [exists [], []; apply explained_start|].
  intros s s' _ Hs (fin & taken & He). by eapply explained_step.
Qed.

(** Nobody sends on a closed channel. *)
Lemma no_send_when_closed l m s : (length l <= cap)%nat -> reachable l m s -> is_closed s = true -> running s = [].
Proof using got_end. intros Hcap (fin & taken & He)%reachable_explained; [|done]. by destruct He. Qed.

(** A result comes from the messages taken, from all answers when the channel ended, or
    from the deadline. *)
Lemma race_outcome l m0 s o : (length l <= cap)%nat -> reachable l m0 s -> main s = inr o ->
  exists taken, (forall b, b ∈ taken -> said l b) /\ (expired s = false -> taken ⊆+ omap answer l) /\
    (run m0 taken = inr o \/ exists m, run m0 taken = inl m /\
      ((o = late /\ expired s = true) \/ (got m None = inr o /\ (expired s = false -> taken ≡ₚ omap answer l)))).
Proof using got_end.
  intros Hcap (fin & taken & He)%reachable_explained Ho; [|done]. exists taken. destruct He as [_ _ _ Hs _ Hout Hsome]. split_and!; [|done|].
  - intros b Hb. apply Hs. rewrite elem_of_app. by left.
  - rewrite Ho in Hout. destruct Hout as [<-|(m & o' & Hr & [= <-] & H)]; [by left|right; by exists m].
Qed.
(** Every schedule ends, with a result. *)
Lemma race_result l m : sn step (started l m) /\ forall s, reachable l m s -> nf step s -> exists o, main s = inr o.
Proof using got_end.
  split; [apply race_ends|]. intros s _ Hnf. destruct (main s) as [m'|o] eqn:E; [|by exists o]. by destruct Hnf; eapply race_goes_on.
Qed.
End race.
Arguments race : clear implicits.
End Race.

(** ** Pools *)

Module Pool.
Section pool.
(** [work] is what a goroutine computes for its input; the semaphore has [limit] places. *)
Context {A B : Type} (limit : nat) (work : A -> B).

Inductive cell := Waiting (a : A) | Running (a : A) | Done (b : B).
Definition is_running (c : cell) : bool := match c with Running _ => true | _ => false end.
Definition in_use (cells : list cell) : nat := length (List.filter is_running cells).

(** A goroutine takes a place, or writes its result in its own cell and gives it back. *)
Inductive pool_step : list cell -> list cell -> Prop :=
| Takes l1 a l2 : (in_use (l1 ++ Waiting a :: l2) < limit)%nat -> pool_step (l1 ++ Waiting a :: l2) (l1 ++ Running a :: l2)
| Finishes l1 a l2 : pool_step (l1 ++ Running a :: l2) (l1 ++ Done (work a) :: l2).
Definition pool_started (inputs : list A) : list cell := map Waiting inputs.
Definition pool_reachable (inputs : list A) : list cell -> Prop := rtc pool_step (pool_started inputs).
(** What the caller reads once all are done. *)
Definition results (cells : list cell) : option (list B) := mapM (fun c => match c with Done b => Some b | _ => None end) cells.

Definition of_input (a : A) (c : cell) : Prop :=
  match c with Waiting a' | Running a' => a' = a | Done b => b = work a end.
Definition cell_weight (c : cell) : nat := match c with Waiting _ => 2 | Running _ => 1 | Done _ => 0 end.
Definition pool_weight (cells : list cell) : nat := sum_list_with cell_weight cells.

Lemma in_use_app l1 l2 : in_use (l1 ++ l2) = (in_use l1 + in_use l2)%nat.
Proof using Type. unfold in_use. by rewrite List.filter_app, length_app. Qed.
Lemma in_use_cons c l : in_use (c :: l) = ((if is_running c then 1 else 0) + in_use l)%nat.
Proof using Type. unfold in_use. cbn [List.filter]. by destruct (is_running c). Qed.
Lemma pool_step_lighter c c' : pool_step c c' -> (pool_weight c' < pool_weight c)%nat.
Proof using Type. intros H. unfold pool_weight. inv H; rewrite !sum_list_with_app; cbn [sum_list_with cell_weight]; lia. Qed.
Lemma pool_ends cells : sn pool_step cells.
Proof using Type. revert cells. apply (wf_projected lt pool_weight); [|apply lt_wf]. intros x y H. by apply pool_step_lighter. Qed.

Lemma step_invariant inputs c c' : Forall2 of_input inputs c /\ (in_use c <= limit)%nat -> pool_step c c' ->
  Forall2 of_input inputs c' /\ (in_use c' <= limit)%nat.
Proof using Type.
  intros [Hf Hu] H. inv H; rewrite in_use_app, in_use_cons in *; cbn [is_running] in *; (split; [|lia]);
    apply Forall2_app_inv_r in Hf as (k1 & k2 & H1 & H2 & ->); apply Forall2_cons_inv_r in H2 as (a' & k & Ha & H2 & ->);
    (apply Forall2_app; [done|constructor; [|done]]); cbn in *; congruence.
Qed.
Lemma reachable_invariant inputs cells : pool_reachable inputs cells -> Forall2 of_input inputs cells /\ (in_use cells <= limit)%nat.
Proof using Type.
  unfold pool_reachable. revert cells. apply rtc_ind_r; [|intros c c' _ Hs IH; by eapply step_invariant]. split.
  - unfold pool_started. rewrite Forall2_fmap_r. apply Forall_Forall2_diag, Forall_true. done.
  - unfold in_use, pool_started. induction inputs; cbn; [lia|done].
Qed.

(** While somebody waits or works, something can happen. *)
Lemma pool_goes_on cells : (0 < limit)%nat -> nf pool_step cells -> exists bs, results cells = Some bs.
Proof using Type.
  intros Hl Hnf. assert (Hr : List.filter is_running cells = []).
  { destruct (List.filter is_running cells) as [|c cs] eqn:E; [done|]. assert (Hc : In c (List.filter is_running cells)) by (rewrite E; by left).
    apply filter_In in Hc as [Hc Hi]. apply in_split in Hc as (l1 & l2 & ->). destruct c; try done. destruct Hnf. eexists. apply Finishes. }
  unfold results. destruct (mapM _ cells) as [bs|] eqn:E; [by exists bs|]. apply mapM_None, Exists_exists in E as (c & Hc & E).
  apply list_elem_of_split in Hc as (l1 & l2 & ->). exfalso. apply Hnf. destruct c as [a|a|b]; [|by eexists; apply Finishes|done].
  eexists. apply Takes. unfold in_use. rewrite Hr. cbn. lia.
Qed.
Lemma results_are inputs cells bs : Forall2 of_input inputs cells -> results cells = Some bs -> bs = map work inputs.
Proof using Type.
  unfold results. intros Hf. revert bs. induction Hf as [|a c inputs cells Hc Hf IH]; cbn [mapM]; intros bs.
  - by intros [= <-].
  - destruct c as [| |b]; try done. cbn in Hc. subst b. cbn. destruct (mapM _ cells) as [bs'|]; [|done]. intros [= <-]. cbn. f_equal. by apply IH.
Qed.

(** Every schedule ends, and the caller then reads for each input, in its place, what was
    computed for it. *)
Lemma pool_result inputs : (0 < limit)%nat ->
  sn pool_step (pool_started inputs) /\ forall cells, pool_reachable inputs cells ->
    (in_use cells <= limit)%nat /\ (nf pool_step cells -> results cells = Some (map work inputs)).
Proof using Type.
  intros Hl. split; [apply pool_ends|]. intros cells Hr. apply reachable_invariant in Hr as [Hf Hu]. split; [done|].
  intros [bs Hb]%pool_goes_on; [|done]. by rewrite Hb, (results_are inputs cells bs).
Qed.
End pool.
Arguments cell : clear implicits.
End Pool.
