(* ===== verification/GoPath.v ===== *)
(** * path/filepath

    [Dir], [IsAbs] and [Rel] with '/' as the separator, and the algebra of rooted
    paths: a cleaned rooted path is its list of words, [Clean] and [Join] work on the
    lists, and [Rel] tells whether one list is a prefix of the other. *)
From S2P Require Import Prelude GoStrings.
Open Scope Z_scope.

Definition IsAbs (path : string) : bool := HasPrefix path "/".
Definition Dir (path : string) : string :=
  Clean (match LastIndexByte path "/" with Some i => str_take (S i) path | None => "" end).

(** The words between the separators. *)
Definition path_words (path : string) : list string := List.filter (fun w => w <>s "") (SplitByte path "/").

Fixpoint strip_common (b t : list string) : list string * list string :=
  match b, t with
  | x :: b', y :: t' => if x =s y then strip_common b' t' else (b, t)
  | _, _ => (b, t)
  end.

(** [None] is an error.  What is left of the base is left upwards. *)
Definition Rel (basepath targpath : string) : option string :=
  let base := Clean basepath in
  let targ := Clean targpath in
  if targ =s base then Some "."%string
  else if negb (Bool.eqb (IsAbs base) (IsAbs targ)) then None
  else
    let '(up, down) := strip_common (if base =s "." then [] else path_words base) (path_words targ) in
    match up with
    | w :: _ => if w =s ".." then None else Some (Join (map (fun _ => ".."%string) up ++ down) "/")
    | [] => Some (Join down "/")
    end.

Example rel_down : Rel "/opt/bin" "/opt/bin/rules/a.srs" = Some "rules/a.srs"%string.
Proof. reflexivity. Qed.
Example rel_up : Rel "/opt/bin" "/etc/passwd" = Some "../../etc/passwd"%string.
Proof. reflexivity. Qed.
Example rel_unknown : Rel "../.." ".." = None.
Proof. reflexivity. Qed.
Example dir_of : (Dir "/opt/bin/xray", Dir "xray", Dir "/xray") = ("/opt/bin", ".", "/")%string.
Proof. reflexivity. Qed.

(** ** Rooted paths as lists of words *)

Definition no_slash (w : string) : Prop := str_exists (fun a => Ascii.eqb a "/") w = false.
(** A word that [Clean] keeps below the root. *)
Definition plain_word (w : string) : Prop := w <> ""%string /\ w <> "."%string /\ w <> ".."%string /\ no_slash w.
Definition rooted (ws : list string) : string := "/" ^^ Join ws "/".

Lemma split_no_slash s : Forall no_slash (SplitByte s "/").
Proof.
  unfold SplitByte, no_slash. induction s as [|a s IH]; cbn [SplitFunc]; [by repeat constructor|].
  destruct (Ascii.eqb a "/") eqn:E; [by constructor|]. pose proof (SplitFunc_nonempty (fun a => Ascii.eqb a "/") s).
  destruct (SplitFunc _ s) as [|h t]; [done|]. apply Forall_cons in IH as [Hh Ht]. constructor; [|done].
  cbn [str_exists]. by rewrite E.
Qed.

(** The stack of [Clean] holds plain words. *)
Lemma clean_plain l st : Forall no_slash l -> Forall plain_word st -> Forall plain_word (foldl (clean_step true) st l).
Proof.
  revert st. induction l as [|w l IH]; intros st Hl Hst; [done|]. apply Forall_cons in Hl as [Hw Hl]. cbn [foldl]. apply IH; [done|].
  unfold clean_step. destruct (String.eqb_spec w "") as [|E1]; [done|]. destruct (String.eqb_spec w ".") as [|E2]; [done|]. cbn [orb].
  destruct (String.eqb_spec w "..") as [->|E3].
  - destruct Hst as [|x st Hx Hst]; [constructor|]. destruct (String.eqb_spec x "..") as [->|]; [|done]. by destruct Hx as (_ & _ & ? & _).
  - by constructor.
Qed.

Lemma clean_step_plain st w : plain_word w -> clean_step true st w = w :: st.
Proof.
  intros (H1 & H2 & H3 & _). unfold clean_step. apply String.eqb_neq in H1, H2, H3. by rewrite H1, H2, H3.
Qed.
Lemma fold_plain ws st : Forall plain_word ws -> foldl (clean_step true) st ws = rev ws ++ st.
Proof.
  revert st. induction ws as [|w ws IH]; intros st H; [done|]. apply Forall_cons in H as [Hw Hws]. cbn [foldl rev].
  by rewrite clean_step_plain, IH, <- app_assoc.
Qed.

(** The words that [Clean] makes of a rooted path. *)
Definition clean_words (path : string) : list string := rev (foldl (clean_step true) [] (SplitByte path "/")).

Lemma Clean_rooted p : IsAbs p = true -> Clean p = rooted (clean_words p) /\ Forall plain_word (clean_words p).
Proof.
  intros H. unfold Clean, IsAbs in *. rewrite H. destruct (String.eqb_spec p "") as [->|]; [done|]. split; [done|].
  unfold clean_words. apply Forall_rev, clean_plain; [apply split_no_slash|constructor].
Qed.

Lemma rooted_abs ws : IsAbs (rooted ws) = true.
Proof. apply (HasPrefix_app "/"). Qed.

Lemma plain_no_slash ws : Forall plain_word ws -> Forall no_slash ws.
Proof. apply List.Forall_impl. by intros w (_ & _ & _ & H). Qed.

Lemma split_rooted ws : Forall plain_word ws -> SplitByte (rooted ws) "/" = ""%string :: match ws with [] => [""%string] | _ => ws end.
Proof.
  intros H. unfold rooted. change ("/" ^^ Join ws "/") with (String "/" (Join ws "/")). unfold SplitByte. cbn [SplitFunc].
  rewrite Ascii.eqb_refl. f_equal. destruct ws as [|w ws]; [done|]. apply SplitByte_Join; [done|]. by apply plain_no_slash.
Qed.

Lemma words_rooted ws : Forall plain_word ws -> path_words (rooted ws) = ws /\ clean_words (rooted ws) = ws.
Proof.
  intros H. unfold path_words, clean_words. rewrite split_rooted by done. split.
  - cbn [List.filter String.eqb negb]. destruct ws as [|w ws]; [done|]. induction H as [|x l (Hx & _) Hl IH]; [done|].
    cbn [List.filter]. apply String.eqb_neq in Hx. by rewrite Hx, IH.
  - cbn [foldl]. change (clean_step true [] "") with (@nil string). destruct ws as [|w ws]; [done|].
    by rewrite fold_plain, app_nil_r, rev_involutive.
Qed.

Lemma Clean_rooted_words ws : Forall plain_word ws -> Clean (rooted ws) = rooted ws.
Proof. intros H. destruct (Clean_rooted (rooted ws) (rooted_abs ws)) as [-> _]. by destruct (words_rooted ws H) as [_ ->]. Qed.

Lemma Join_app a b sep : a <> [] -> b <> [] -> Join (a ++ b) sep = Join a sep ^^ sep ^^ Join b sep.
Proof.
  intros Ha Hb. induction a as [|x a IH]; [done|]. destruct a as [|y a].
  - cbn [app]. by rewrite Join_cons.
  - cbn [app]. rewrite (Join_cons x (y :: a ++ b)), (Join_cons x (y :: a)) by done. cbn [app] in IH.
    rewrite IH by done. by rewrite !str_app_assoc.
Qed.

(** Joining a text to a rooted path goes on from its words. *)
Lemma JoinPath_rooted ws c : Forall plain_word ws -> c <> ""%string ->
  JoinPath [rooted ws; c] = rooted (rev (foldl (clean_step true) (rev ws) (SplitByte c "/"))).
Proof.
  intros Hws Hc. unfold JoinPath. rewrite filter_cons_True by done. rewrite filter_cons_True by done. cbn [filter list_filter Join].
  change ("/" ^^ c) with (String "/" c).
  assert (Habs : IsAbs (rooted ws ^^ String "/" c) = true) by (apply HasPrefix_spec; by eexists).
  destruct (Clean_rooted _ Habs) as [-> _]. f_equal. unfold clean_words. f_equal. unfold SplitByte.
  rewrite SplitFunc_sep by apply Ascii.eqb_refl. fold (SplitByte (rooted ws) "/"). rewrite split_rooted by done. rewrite foldl_app. f_equal.
  cbn [foldl]. change (clean_step true [] "") with (@nil string). destruct ws as [|w ws]; [done|].
  by rewrite fold_plain, app_nil_r.
Qed.

(** What lies below a directory, as texts. *)
Definition inside (dir path : string) : Prop := path = dir \/ HasPrefix path (dir ^^ "/") = true.

Lemma inside_words ws rest : ws <> [] -> inside (rooted ws) (rooted (ws ++ rest)).
Proof.
  intros Hws. destruct rest as [|r rest]; [left; by rewrite app_nil_r|]. right. unfold rooted. rewrite Join_app by done.
  rewrite !str_app_assoc, <- !str_app_assoc. rewrite (str_app_assoc ("/" ^^ Join ws "/")), <- str_app_assoc. apply HasPrefix_app.
Qed.

Lemma strip_common_spec b t : exists c, b = c ++ (strip_common b t).1 /\ t = c ++ (strip_common b t).2.
Proof.
  revert t. induction b as [|x b IH]; intros [|y t]; cbn [strip_common]; try by exists [].
  destruct (String.eqb_spec x y) as [->|]; [|by exists []]. destruct (IH t) as (c & Hb & Ht). exists (y :: c).
  cbn [app]. by rewrite <- Hb, <- Ht.
Qed.

(** A relative path that does not go up: the target is below the base. *)
Lemma Rel_inside ws ts : Forall plain_word ws -> Forall plain_word ts ->
  match Rel (rooted ws) (rooted ts) with
  | Some rel => HasPrefix rel ".." = false -> exists rest, ts = ws ++ rest
  | None => False
  end.
Proof.
  intros Hws Hts. unfold Rel. rewrite !Clean_rooted_words, !rooted_abs by done. cbn [Bool.eqb negb].
  destruct (String.eqb_spec (rooted ts) (rooted ws)) as [E|].
  - intros _. exists []. apply (f_equal path_words) in E. destruct (words_rooted ts Hts) as [Ht _], (words_rooted ws Hws) as [Hw _].
    rewrite app_nil_r. congruence.
  - assert (Hd : (rooted ws =s ".") = false) by done. rewrite Hd.
    destruct (words_rooted ts Hts) as [-> _], (words_rooted ws Hws) as [-> _].
    destruct (strip_common_spec ws ts) as (c & Eb & Et). destruct (strip_common ws ts) as [up down]. cbn [fst snd] in *.
    destruct up as [|w up].
    + intros _. exists down. by rewrite Eb, app_nil_r.
    + assert (Hw : plain_word w) by (rewrite Eb in Hws; apply Forall_app in Hws as [_ Hws]; by apply Forall_cons in Hws as [? _]).
      destruct Hw as (_ & _ & Hw & _). apply String.eqb_neq in Hw. rewrite Hw. intros Hp. exfalso. revert Hp.
      cbn [map app]. destruct (map _ up ++ down); [done|]. rewrite Join_cons by done. by rewrite HasPrefix_app.
Qed.

(** The last element of a path. *)
Lemma after_last_slash s : no_slash (match LastIndexByte s "/" with Some i => str_drop (S i) s | None => s end).
Proof.
  unfold no_slash. induction s as [|a s IH]; [done|]. cbn [LastIndexByte]. destruct (LastIndexByte s "/") as [i|]; [exact IH|].
  destruct (Ascii.eqb a "/") eqn:E; cbn [str_drop str_exists]; [exact IH|]. by rewrite E.
Qed.

Lemma Base_word s : Base s = "/"%string \/ Base s <> ""%string /\ no_slash (Base s).
Proof.
  unfold Base. destruct (s =s ""); [by right|]. cbv zeta.
  pose proof (after_last_slash (TrimRight s "/")) as H. destruct (String.eqb_spec (match LastIndexByte (TrimRight s "/") "/" with Some i => str_drop (S i) (TrimRight s "/") | None => TrimRight s "/" end) "");
    [by left | by right].
Qed.

(** Joining the last element of a path to a rooted one stays inside it, unless the
    element is the parent directory. *)
Lemma JoinPath_Base_inside ws s : ws <> [] -> Forall plain_word ws -> Base s <> ".."%string ->
  exists rest, JoinPath [rooted ws; Base s] = rooted (ws ++ rest) /\ Forall plain_word (ws ++ rest).
Proof.
  intros Hne Hws Hup. destruct (Base_word s) as [E|[Hn Hs]].
  - rewrite E, JoinPath_rooted by done. change (SplitByte "/" "/") with [""; ""]%string. cbn [foldl].
    change (clean_step true (rev ws) "") with (rev ws). change (clean_step true (rev ws) "") with (rev ws). exists [].
    by rewrite rev_involutive, app_nil_r.
  - rewrite JoinPath_rooted by done. unfold SplitByte. rewrite SplitFunc_clean by done. cbn [foldl].
    destruct (String.eqb_spec (Base s) ".") as [E|Hd].
    + exists []. rewrite E, app_nil_r. change (clean_step true (rev ws) ".") with (rev ws). by rewrite rev_involutive.
    + exists [Base s]. rewrite clean_step_plain by done. cbn [rev]. rewrite rev_involutive. split; [done|].
      apply Forall_app. by repeat constructor.
Qed.

(** [Clean] keeps a path rooted or relative, and gives no empty text. *)
Lemma clean_words_nonempty b l st : Forall no_slash l -> Forall (fun w => w <> ""%string /\ no_slash w) st ->
  Forall (fun w => w <> ""%string /\ no_slash w) (foldl (clean_step b) st l).
Proof.
  revert st. induction l as [|w l IH]; intros st Hl Hst; [done|]. apply Forall_cons in Hl as [Hw Hl]. cbn [foldl]. apply IH; [done|].
  unfold clean_step. destruct (String.eqb_spec w "") as [|E1]; [done|]. destruct (w =s "."); [done|]. cbn [orb].
  destruct (String.eqb_spec w "..") as [->|]; [|by constructor].
  destruct Hst as [|x st Hx Hst]; [destruct b; [constructor | by constructor]|].
  destruct (x =s ".."); [|done]. constructor; [done | by constructor].
Qed.

Lemma Join_not_abs ws : Forall (fun w => w <> ""%string /\ no_slash w) ws -> IsAbs (Join ws "/") = false.
Proof.
  intros [|w l [Hw Hs] _]; [done|]. destruct w as [|a w]; [done|]. unfold no_slash in Hs. cbn [str_exists] in Hs.
  apply orb_false_iff in Hs as [Ha _]. unfold IsAbs, HasPrefix.
  assert (E : exists t, Join (String a w :: l) "/" = String a t) by (destruct l; eexists; reflexivity). destruct E as [t ->].
  cbn [String.prefix]. destruct (ascii_dec "/" a) as [<-|]; [done|done].
Qed.

Lemma Clean_abs p : IsAbs (Clean p) = IsAbs p.
Proof.
  destruct (IsAbs p) eqn:E; [destruct (Clean_rooted p E) as [-> _]; apply rooted_abs|]. unfold Clean. unfold IsAbs in E. rewrite E.
  destruct (p =s ""); [done|]. cbv zeta. destruct (_ =s ""); [done|]. apply Join_not_abs, Forall_rev, clean_words_nonempty; [apply split_no_slash|done].
Qed.

Lemma Clean_nonempty p : Clean p <> ""%string.
Proof.
  unfold Clean. destruct (p =s ""); [done|]. cbv zeta. destruct (HasPrefix p "/"); [done|]. by destruct (String.eqb_spec (Join (rev (foldl (clean_step false) [] (SplitByte p "/"))) "/") "").
Qed.

Lemma Clean_absolute p : IsAbs p = true -> exists ws, Clean p = rooted ws /\ Forall plain_word ws.
Proof. intros H. destruct (Clean_rooted p H). by eexists. Qed.
