(* ===== verification/GoNet.v ===== *)
(** * Go's [net] package, as far as the program uses it

    Addresses ([net.IP]), networks ([net.IPNet]), their text forms and the
    host:port splitter, translated from the documented behaviour of Go's [net]
    and [net/netip].  An [IP] is its bytes: 4 or 16 of them, and none for the nil
    address. *)
From S2P Require Import Prelude GoStrings.

Definition IP : Type := list Z.
Definition nilIP : IP := [].
Definition IPMask : Type := list Z.

#[global] Instance ip_eq_dec : EqDecision IP := list_eq_dec.

(** ** Byte-list helpers *)

Fixpoint bytes_eqb (a b : list Z) : bool :=
  match a, b with
  | [], [] => true
  | x :: a', y :: b' => (x =? y) && bytes_eqb a' b'
  | _, _ => false
  end.

Fixpoint map2 (f : Z -> Z -> Z) (a b : list Z) : list Z :=
  match a, b with
  | x :: a', y :: b' => f x y :: map2 f a' b'
  | _, _ => []
  end.

Definition all_bytes (b : Z) (l : list Z) : bool := forallb (Z.eqb b) l.

(** [::ffff:0:0/96], the prefix of a 16-byte form of an IPv4 address. *)
Definition v4InV6Prefix : list Z := replicate 10 0 ++ [255; 255].

(** ** net.IP *)

Definition IPv4 (a b c d : Z) : IP := v4InV6Prefix ++ [a; b; c; d].

Definition To4 (ip : IP) : IP :=
  if len ip =? 4 then ip
  else if (len ip =? 16) && bytes_eqb (take 12 ip) v4InV6Prefix then drop 12 ip
  else nilIP.

Definition is_nil (ip : IP) : bool := match ip with [] => true | _ => false end.

(** [ip.Equal]: an IPv4 address and its 16-byte form are the same address. *)
Definition Equal (ip x : IP) : bool :=
  if len ip =? len x then bytes_eqb ip x
  else if (len ip =? 4) && (len x =? 16)
    then bytes_eqb (take 12 x) v4InV6Prefix && bytes_eqb ip (drop 12 x)
  else if (len ip =? 16) && (len x =? 4)
    then bytes_eqb (take 12 ip) v4InV6Prefix && bytes_eqb (drop 12 ip) x
  else false.

Definition byte_at (ip : list Z) (i : nat) : Z := default 0 (ip !! i).

Definition IPv6loopback : IP := replicate 15 0 ++ [1].

Definition IsLoopback (ip : IP) : bool :=
  let ip4 := To4 ip in
  if negb (is_nil ip4) then byte_at ip4 0 =? 127 else Equal ip IPv6loopback.

Definition IsUnspecified (ip : IP) : bool :=
  Equal ip (IPv4 0 0 0 0) || Equal ip (replicate 16 0).

Definition IsPrivate (ip : IP) : bool :=
  let ip4 := To4 ip in
  if negb (is_nil ip4) then
    (byte_at ip4 0 =? 10)
    || ((byte_at ip4 0 =? 172) && (Z.land (byte_at ip4 1) 240 =? 16))
    || ((byte_at ip4 0 =? 192) && (byte_at ip4 1 =? 168))
  else (len ip =? 16) && (Z.land (byte_at ip 0) 254 =? 252).

Definition IsLinkLocalUnicast (ip : IP) : bool :=
  let ip4 := To4 ip in
  if negb (is_nil ip4) then (byte_at ip4 0 =? 169) && (byte_at ip4 1 =? 254)
  else (len ip =? 16) && (byte_at ip 0 =? 254) && (Z.land (byte_at ip 1) 192 =? 128).

Definition IsLinkLocalMulticast (ip : IP) : bool :=
  let ip4 := To4 ip in
  if negb (is_nil ip4) then
    (byte_at ip4 0 =? 224) && (byte_at ip4 1 =? 0) && (byte_at ip4 2 =? 0)
  else (len ip =? 16) && (byte_at ip 0 =? 255) && (Z.land (byte_at ip 1) 15 =? 2).

Definition IsMulticast (ip : IP) : bool :=
  let ip4 := To4 ip in
  if negb (is_nil ip4) then Z.land (byte_at ip4 0) 240 =? 224
  else (len ip =? 16) && (byte_at ip 0 =? 255).

(** ** Parsing addresses *)

(** One pass over a dotted quad: [val]/[digLen] are the octet being read,
    [fields] the octets read (latest first), [first] and [prevdot] the two
    position tests of Go's loop. *)
Fixpoint parseIPv4_go (s : string) (val digLen : Z) (fields : list Z) (first prevdot : bool)
    : option (list Z) :=
  match s with
  | EmptyString => if (len fields) <? 3 then None else Some (rev (val :: fields))
  | String a s' =>
      if is_digit a then
        if (digLen =? 1) && (val =? 0) then None
        else let val' := val * 10 + (char_code a - 48) in
             if 255 <? val' then None
             else parseIPv4_go s' val' (digLen + 1) fields false false
      else if Ascii.eqb a "." then
        if first || prevdot || (s' =s "") then None
        else if len fields =? 3 then None
        else parseIPv4_go s' 0 0 (val :: fields) false true
      else None
  end.
Definition parseIPv4Fields (s : string) : option (list Z) :=
  match s with EmptyString => None | _ => parseIPv4_go s 0 0 [] true false end.

Definition hex_value (a : ascii) : option Z :=
  let c := char_code a in
  if is_digit a then Some (c - 48)
  else if (97 <=? c) && (c <=? 102) then Some (c - 87)
  else if (65 <=? c) && (c <=? 70) then Some (c - 55)
  else None.

(** The hexadecimal group at the head of [s]: its digit count, its value and
    the rest; [None] when it has more than four digits. *)
Fixpoint hex_group (s : string) (off acc : Z) : option (Z * Z * string) :=
  match s with
  | EmptyString => Some (off, acc, s)
  | String a s' =>
      match hex_value a with
      | None => Some (off, acc, s)
      | Some d => if 3 <? off then None else hex_group s' (off + 1) (Z.shiftl acc 4 + d)
      end
  end.

(** The loop of [netip.parseIPv6]: [bytes] are the bytes read so far, in order,
    [ell] the position of the [::].  At most 8 groups, so fuel 8 is enough. *)
Fixpoint parseIPv6_go (fuel : nat) (s : string) (bytes : list Z) (ell : option nat)
    : option (string * list Z * option nat) :=
  match fuel with
  | O => Some (s, bytes, ell)
  | S f =>
      if 16 <=? len bytes then Some (s, bytes, ell) else
      match hex_group s 0 0 with
      | None => None
      | Some (off, acc, rest) =>
          if off =? 0 then None
          else if HasPrefix rest "." then
            if (match ell with None => true | Some _ => false end) && negb (len bytes =? 12) then None
            else if 16 <? len bytes + 4 then None
            else match parseIPv4Fields s with
                 | None => None
                 | Some q => Some (""%string, bytes ++ q, ell)
                 end
          else
            let bytes' := bytes ++ [Z.shiftr acc 8; Z.land acc 255] in
            match rest with
            | EmptyString => Some (""%string, bytes', ell)
            | String ":" EmptyString => None
            | String ":" (String ":" rest') =>
                match ell with
                | Some _ => None
                | None => match rest' with
                          | EmptyString => Some (""%string, bytes', Some (length bytes'))
                          | _ => parseIPv6_go f rest' bytes' (Some (length bytes'))
                          end
                end
            | String ":" rest' => parseIPv6_go f rest' bytes' ell
            | _ => None
            end
      end
  end.

Definition parseIPv6 (s0 : string) : option IP :=
  if CountByte s0 "%" =? 0 then
    let '(s, ell) :=
      if HasPrefix s0 "::" then (str_drop 2 s0, Some 0%nat) else (s0, None) in
    if (match ell with Some _ => true | None => false end) && (s =s "") then Some (replicate 16 0)
    else match parseIPv6_go 8 s [] ell with
         | Some (EmptyString, bytes, e) =>
             if len bytes <? 16 then
               match e with
               | None => None
               | Some p => Some (take p bytes ++ replicate (16 - length bytes) 0 ++ drop p bytes)
               end
             else match e with Some _ => None | None => Some bytes end
         | _ => None
         end
  else None. (* an address with a zone is not a net.IP *)

(** The first '.', ':' or '%' decides the family, as in [netip.ParseAddr].  The
    result is the address in 16-byte form and its bit length. *)
Fixpoint addr_family (s : string) : option ascii :=
  match s with
  | EmptyString => None
  | String a s' => if in_set ".:%" a then Some a else addr_family s'
  end.
Definition parseAddr (s : string) : option (IP * Z) :=
  match addr_family s with
  | Some "."%char => match parseIPv4Fields s with
                     | Some q => Some (v4InV6Prefix ++ q, 32) | None => None end
  | Some ":"%char => match parseIPv6 s with Some b => Some (b, 128) | None => None end
  | _ => None
  end.

Definition ParseIP (s : string) : IP :=
  match parseAddr s with Some (ip, _) => ip | None => nilIP end.

(** ** Masks and networks *)

Record IPNet := mkIPNet { net_IP : IP; net_Mask : IPMask }.

#[global] Instance ipnet_eq_dec : EqDecision IPNet.
Proof. solve_decision. Defined.

(** Byte [i] of a mask with [ones] leading ones. *)
Definition mask_byte (ones i : Z) : Z :=
  let k := Z.max 0 (Z.min 8 (ones - 8 * i)) in 256 - 2 ^ (8 - k).
Definition CIDRMask (ones bits : Z) : IPMask :=
  map (fun i => mask_byte ones (Z.of_nat i)) (seq 0 (Z.to_nat (bits / 8))).

(** [simpleMaskLength]: the number of leading ones, -1 if a one follows a zero. *)
Fixpoint byte_ones (fuel : nat) (b : Z) (n : Z) : Z :=
  match fuel with
  | O => if b =? 0 then n else -1
  | S f => if Z.testbit b 7 then byte_ones f (Z.land (Z.shiftl b 1) 255) (n + 1)
           else if b =? 0 then n else -1
  end.
Fixpoint simpleMaskLength (m : IPMask) (n : Z) : Z :=
  match m with
  | [] => n
  | v :: m' =>
      if v =? 255 then simpleMaskLength m' (n + 8)
      else let n' := byte_ones 8 v n in
           if n' =? -1 then -1 else if all_bytes 0 m' then n' else -1
  end.
(** [Mask.Size()]: the ones and the bits, (0, 0) for a mask that is not canonical. *)
Definition Size (m : IPMask) : Z * Z :=
  let ones := simpleMaskLength m 0 in
  if ones =? -1 then (0, 0) else (ones, len m * 8).

Definition Mask (ip : IP) (mask : IPMask) : IP :=
  let mask := if (len mask =? 16) && (len ip =? 4) && all_bytes 255 (take 12 mask)
              then drop 12 mask else mask in
  let ip := if (len mask =? 4) && (len ip =? 16) && bytes_eqb (take 12 ip) v4InV6Prefix
            then drop 12 ip else ip in
  if len ip =? len mask then map2 Z.land ip mask else nilIP.

Definition networkNumberAndMask (n : IPNet) : IP * IPMask :=
  let ip4 := To4 (net_IP n) in
  if is_nil ip4 && negb (len (net_IP n) =? 16) then ([], []) else
  let ip := if is_nil ip4 then net_IP n else ip4 in
  if len (net_Mask n) =? 4 then
    if len ip =? 4 then (ip, net_Mask n) else ([], [])
  else if len (net_Mask n) =? 16 then
    (ip, if len ip =? 4 then drop 12 (net_Mask n) else net_Mask n)
  else ([], []).

Definition net_Contains (n : IPNet) (ip : IP) : bool :=
  let '(nn, m) := networkNumberAndMask n in
  let ip := if is_nil (To4 ip) then ip else To4 ip in
  if len ip =? len nn then bytes_eqb (map2 Z.land nn m) (map2 Z.land ip m) else false.

(** [dtoi]: a decimal number that fills the string. *)
Definition dtoi_all (s : string) : option Z :=
  match s with
  | EmptyString => None
  | _ => match parse_digits s 0 with
         | Some n => if (Z.of_N n) <? 16777215 then Some (Z.of_N n) else None
         | None => None
         end
  end.

(** [net.ParseCIDR], of which the program only uses the network. *)
Definition ParseCIDR (s : string) : option IPNet :=
  match Cut s "/" with
  | None => None
  | Some (addr, mask) =>
      match parseAddr addr with
      | None => None
      | Some (ip, bits) =>
          match dtoi_all mask with
          | Some n => if n <=? bits
                      then let m := CIDRMask n bits in Some (mkIPNet (Mask ip m) m)
                      else None
          | None => None
          end
      end
  end.

(** ** Text forms *)

Definition hex_digit (d : Z) : ascii :=
  if d <? 10 then ascii_of_N (Z.to_N (48 + d)) else ascii_of_N (Z.to_N (87 + d)).
Fixpoint hex_string (fuel : nat) (v : Z) (acc : string) : string :=
  match fuel with
  | O => acc
  | S f => let acc' := String (hex_digit (v mod 16)) acc in
           if v / 16 =? 0 then acc' else hex_string f (v / 16) acc'
  end.

Definition quad_string (q : list Z) : string := Join (map Itoa q) ".".

Fixpoint v6_groups (b : list Z) : list Z :=
  match b with
  | x :: y :: b' => (x * 256 + y) :: v6_groups b'
  | _ => []
  end.
Fixpoint zero_run (g : list Z) : Z :=
  match g with 0 :: g' => 1 + zero_run g' | _ => 0 end.
(** The first longest run of at least two zero groups, as (start, end). *)
Fixpoint best_run (g : list Z) (i : Z) (best : Z * Z) : Z * Z :=
  match g with
  | [] => best
  | _ :: g' =>
      let l := zero_run g in
      best_run g' (i + 1) (if (2 <=? l) && (best.2 - best.1 <? l) then (i, i + l) else best)
  end.
Fixpoint v6_print (fuel : nat) (g : list Z) (i : nat) (run : Z * Z) (acc : string) : string :=
  match fuel with
  | O => acc
  | S f =>
      if (8 <=? i)%nat then acc
      else if (Z.of_nat i =? run.1) && (run.1 <? run.2) then
        let acc := acc ^^ "::" in
        let i := Z.to_nat run.2 in
        if (8 <=? i)%nat then acc
        else v6_print f g (S i) run (acc ^^ hex_string 4 (byte_at g i) "")
      else
        let acc := if (0 <? i)%nat then acc ^^ ":" else acc in
        v6_print f g (S i) run (acc ^^ hex_string 4 (byte_at g i) "")
  end.
Definition v6_string (b : list Z) : string :=
  let g := v6_groups b in v6_print 8 g 0 (best_run g 0 (0, 0)) "".

(** [ip.String()]; an address of another length never reaches it here. *)
Definition IP_String (ip : IP) : string :=
  if is_nil ip then "<nil>"
  else if negb (is_nil (To4 ip)) then quad_string (To4 ip)
  else if len ip =? 16 then v6_string ip
  else "?".

Definition IPNet_String (n : IPNet) : string :=
  let '(nn, m) := networkNumberAndMask n in
  if is_nil nn || is_nil m then "<nil>"
  else IP_String nn ^^ "/" ^^ Itoa (simpleMaskLength m 0).

(** ** net.SplitHostPort: [None] stands for an error *)
Definition SplitHostPort (hp : string) : option (string * string) :=
  match LastIndexByte hp ":" with
  | None => None
  | Some i =>
      let port := str_drop (S i) hp in
      if HasPrefix hp "[" then
        match IndexByte hp "]" with
        | None => None
        | Some e =>
            if (S e =? String.length hp)%nat then None
            else if negb (S e =? i)%nat then None
            else let host := str_take (e - 1) (str_drop 1 hp) in
                 if CountByte (str_drop 1 hp) "[" =? 0 then
                   if CountByte (str_drop (S e) hp) "]" =? 0 then Some (host, port) else None
                 else None
        end
      else
        let host := str_take i hp in
        if CountByte host ":" =? 0 then
          if (CountByte hp "[" =? 0) && (CountByte hp "]" =? 0) then Some (host, port) else None
        else None
  end.

(** ** Spot checks against Go's documented examples *)

Example ParseIP_v4 : ParseIP "192.0.2.1" = v4InV6Prefix ++ [192; 0; 2; 1].
Proof. reflexivity. Qed.
Example ParseIP_v6 : ParseIP "2001:db8::68" = [32;1;13;184;0;0;0;0;0;0;0;0;0;0;0;104].
Proof. vm_compute. reflexivity. Qed.
Example ParseIP_mapped : ParseIP "::ffff:1.2.3.4" = IPv4 1 2 3 4.
Proof. vm_compute. reflexivity. Qed.
Example ParseIP_bad : map ParseIP ["1.2.3"; "1.2.3.256"; "01.2.3.4"; "1.2.3.4."; "1::2::3"; "::1%eth0"; "x"]
  = replicate 7 nilIP.
Proof. vm_compute. reflexivity. Qed.
Example CIDR_mask : ParseCIDR "192.0.2.77/20" = Some (mkIPNet [192; 0; 0; 0] [255; 255; 240; 0]).
Proof. vm_compute. reflexivity. Qed.
Example CIDR_string : IPNet_String <$> ParseCIDR "2001:DB8:0:0:1::/32" = Some "2001:db8::/32"%string.
Proof. vm_compute. reflexivity. Qed.
Example v6_text : map IP_String [ParseIP "::"; ParseIP "::1"; ParseIP "2001:0:0:1:0:0:0:1"; ParseIP "fe80::"]
  = ["::"; "::1"; "2001:0:0:1::1"; "fe80::"]%string.
Proof. vm_compute. reflexivity. Qed.
Example host_port : map SplitHostPort ["a.b:80"; "[::1]:53"; "::1"; "a.b"; "[::1]"; "a:"]
  = [Some ("a.b", "80"); Some ("::1", "53"); None; None; None; Some ("a", "")]%string.
Proof. vm_compute. reflexivity. Qed.

(** ** Lemmas *)

Lemma bytes_eqb_spec a b : bytes_eqb a b = true <-> a = b.
Proof.
  revert b. induction a as [|x a IH]; intros [|y b]; simpl; try done.
  rewrite andb_true_iff, Z.eqb_eq, IH. split; [by intros [-> ->] | by intros [= -> ->]].
Qed.

Lemma bytes_eqb_refl a : bytes_eqb a a = true.
Proof. by apply bytes_eqb_spec. Qed.

Lemma len_cons_inv {A} (l : list A) n : len l = n -> 0 < n -> exists x l', l = x :: l' /\ len l' = n - 1.
Proof. destruct l as [|x l']; unfold len; simpl; intros; [lia|]. exists x, l'. split; [done|lia]. Qed.

(** Every address equal to 127.0.0.1 or ::1 is a loopback address. *)
Lemma Equal_loopback4 ip : Equal ip (ParseIP "127.0.0.1") = true -> IsLoopback ip = true.
Proof.
  change (ParseIP "127.0.0.1") with (IPv4 127 0 0 1). unfold Equal.
  change (len (IPv4 127 0 0 1)) with 16.
  destruct (Z.eqb_spec (len ip) 16) as [H16|H16].
  - intros ->%bytes_eqb_spec. reflexivity.
  - rewrite Z.eqb_refl, andb_true_r. destruct (Z.eqb_spec (len ip) 4) as [H4|H4].
    + change (drop 12 (IPv4 127 0 0 1)) with [127; 0; 0; 1].
      intros [_ ->%bytes_eqb_spec]%andb_true_iff. reflexivity.
    + rewrite andb_false_r. done.
Qed.

Lemma Equal_loopback6 ip : Equal ip (ParseIP "::1") = true -> IsLoopback ip = true.
Proof.
  change (ParseIP "::1") with IPv6loopback. unfold Equal.
  change (len IPv6loopback) with 16.
  destruct (Z.eqb_spec (len ip) 16) as [H16|H16].
  - intros ->%bytes_eqb_spec. reflexivity.
  - rewrite Z.eqb_refl, andb_true_r. destruct (Z.eqb_spec (len ip) 4) as [H4|H4].
    + done.
    + rewrite andb_false_r. done.
Qed.

(** ** Lengths of parsed addresses and networks *)

Lemma parseIPv4_go_len s val dl fields first pd q :
  len fields <= 3 -> parseIPv4_go s val dl fields first pd = Some q -> length q = 4%nat.
Proof.
  revert val dl fields first pd. induction s as [|a s IH]; intros val dl fields first pd Hf; cbn [parseIPv4_go].
  - destruct (Z.ltb_spec (len fields) 3); [done|]. intros [= <-].
    change (rev (val :: fields)) with (rev fields ++ [val]).
    rewrite length_app, length_rev. unfold len in *. cbn. lia.
  - destruct (is_digit a).
    + destruct (_ && _); [done|]. cbv zeta. destruct (255 <? _); [done|]. by apply IH.
    + destruct (Ascii.eqb a "."); [|done]. destruct (_ || _); [done|].
      destruct (Z.eqb_spec (len fields) 3); [done|]. apply IH.
      unfold len in *. cbn [length]. lia.
Qed.

Lemma parseIPv4Fields_len s q : parseIPv4Fields s = Some q -> length q = 4%nat.
Proof.
  unfold parseIPv4Fields. destruct s; [done|]. apply parseIPv4_go_len. unfold len. cbn. lia.
Qed.

Lemma parseIPv6_go_len fuel s bytes ell s' bytes' ell' :
  Nat.Even (length bytes) -> (length bytes <= 16)%nat ->
  parseIPv6_go fuel s bytes ell = Some (s', bytes', ell') -> (length bytes' <= 16)%nat.
Proof.
  revert s bytes ell. induction fuel as [|f IH]; intros s bytes ell He Hl; cbn [parseIPv6_go].
  - by intros [= _ <- _].
  - destruct (Z.leb_spec 16 (len bytes)) as [|Hlt]; [by intros [= _ <- _]|]. unfold len in *.
    destruct (hex_group s 0 0) as [[[off acc] rest]|]; [|done]. destruct (off =? 0); [done|].
    assert (Hev : forall x y : Z, Nat.Even (length (bytes ++ [x; y])) /\ (length (bytes ++ [x; y]) <= 16)%nat).
    { intros x y. rewrite length_app. cbn. destruct He as [k Hk]. split; [exists (S k); lia|].
      destruct (decide (length bytes = 15)%nat); lia. }
    destruct (Hev (Z.shiftr acc 8) (Z.land acc 255)) as [He' Hl'].
    destruct (HasPrefix rest ".").
    + destruct (_ && _); [done|]. destruct (Z.ltb_spec 16 (Z.of_nat (length bytes) + 4)); [done|].
      destruct (parseIPv4Fields s) as [q|] eqn:Eq; [|done]. intros [= _ <- _].
      apply parseIPv4Fields_len in Eq. rewrite length_app. lia.
    + repeat case_match; intros E; simplify_eq; eauto.
Qed.

Lemma parseIPv6_len s ip : parseIPv6 s = Some ip -> length ip = 16%nat.
Proof.
  unfold parseIPv6. destruct (_ =? 0); [|done].
  destruct (if HasPrefix s "::" then _ else _) as [s' ell]. destruct (_ && _).
  { intros [= <-]. done. }
  destruct (parseIPv6_go 8 s' [] ell) as [[[r bytes] e]|] eqn:E; [|done].
  apply parseIPv6_go_len in E; [|by exists 0%nat|cbn; lia]. destruct r; [|done].
  unfold len. destruct (Z.ltb_spec (Z.of_nat (length bytes)) 16).
  - destruct e as [p|]; [|done]. intros [= <-].
    rewrite !length_app, length_replicate, length_take, length_drop. lia.
  - destruct e; [done|]. intros [= <-]. lia.
Qed.

(** Parsed addresses consist of bytes. *)
Definition octet (b : Z) : Prop := 0 <= b < 256.

Lemma digit_value a : is_digit a = true -> 0 <= char_code a - 48 <= 9.
Proof. unfold is_digit. rewrite andb_true_iff, !Z.leb_le. lia. Qed.

Lemma parseIPv4_go_octets s val dl fields first pd q : octet val -> Forall octet fields ->
  parseIPv4_go s val dl fields first pd = Some q -> Forall octet q.
Proof.
  revert val dl fields first pd. induction s as [|a s IH]; intros val dl fields first pd Hv Hf; cbn [parseIPv4_go].
  - destruct (len fields <? 3); [done|]. intros [= <-]. change (rev (val :: fields)) with (rev fields ++ [val]).
    apply Forall_app. split; [by apply Forall_rev | by apply Forall_singleton].
  - destruct (is_digit a) eqn:Ed.
    + apply digit_value in Ed. destruct (_ && _); [done|]. cbv zeta.
      destruct (Z.ltb_spec 255 (val * 10 + (char_code a - 48))); [done|]. apply IH; [|done]. unfold octet in *. lia.
    + destruct (Ascii.eqb a "."); [|done]. destruct (_ || _); [done|]. destruct (len fields =? 3); [done|].
      apply IH; [done | by constructor].
Qed.

Lemma parseIPv4Fields_octets s q : parseIPv4Fields s = Some q -> Forall octet q.
Proof. unfold parseIPv4Fields. destruct s; [done|]. by apply parseIPv4_go_octets. Qed.

Lemma hex_value_bound a d : hex_value a = Some d -> 0 <= d < 16.
Proof.
  unfold hex_value. cbv zeta. destruct (is_digit a) eqn:Ed; [apply digit_value in Ed; intros [= <-]; lia|].
  destruct (Z.leb_spec 97 (char_code a)), (Z.leb_spec (char_code a) 102); cbn [andb]; try (intros [= <-]; lia);
    destruct (Z.leb_spec 65 (char_code a)), (Z.leb_spec (char_code a) 70); cbn [andb]; intros [= <-]; lia.
Qed.

Lemma hex_group_bound s off acc off' acc' rest : 0 <= off <= 4 -> 0 <= acc < 16 ^ off ->
  hex_group s off acc = Some (off', acc', rest) -> 0 <= acc' < 65536.
Proof.
  assert (Hpow : forall o, 0 <= o <= 4 -> 16 ^ o <= 65536).
  { intros o Ho. change 65536 with (16 ^ 4). apply Z.pow_le_mono_r; lia. }
  revert off acc. induction s as [|a s IH]; intros off acc Ho Ha; cbn [hex_group].
  - intros [= _ <- _]. specialize (Hpow off Ho). lia.
  - destruct (hex_value a) as [d|] eqn:Ed.
    + destruct (Z.ltb_spec 3 off); [done|]. apply hex_value_bound in Ed. apply IH; [lia|].
      rewrite Z.shiftl_mul_pow2 by lia. change (2 ^ 4) with 16. rewrite Z.pow_add_r, Z.pow_1_r by lia. lia.
    + intros [= _ <- _]. specialize (Hpow off Ho). lia.
Qed.

Lemma parseIPv6_go_octets fuel s bytes ell s' bytes' ell' : Forall octet bytes ->
  parseIPv6_go fuel s bytes ell = Some (s', bytes', ell') -> Forall octet bytes'.
Proof.
  revert s bytes ell. induction fuel as [|f IH]; intros s bytes ell Hb; cbn [parseIPv6_go]; [by intros [= _ <- _]|].
  destruct (16 <=? len bytes); [by intros [= _ <- _]|].
  destruct (hex_group s 0 0) as [[[off acc] rest]|] eqn:Eh; [|done].
  apply hex_group_bound in Eh; [|lia | cbn; lia]. destruct (off =? 0); [done|].
  assert (Hn : Forall octet (bytes ++ [Z.shiftr acc 8; Z.land acc 255])).
  { apply Forall_app. split; [done|]. rewrite Z.shiftr_div_pow2 by lia. change 255 with (Z.ones 8).
    rewrite Z.land_ones by lia. repeat constructor;
      try (apply Z.div_pos; lia); try (apply Z.div_lt_upper_bound; lia); apply Z.mod_pos_bound; lia. }
  destruct (HasPrefix rest ".").
  - destruct (_ && _); [done|]. destruct (16 <? _); [done|]. destruct (parseIPv4Fields s) as [q|] eqn:Eq; [|done].
    intros [= _ <- _]. apply Forall_app. split; [done | by eapply parseIPv4Fields_octets].
  - repeat case_match; intros E; simplify_eq; eauto.
Qed.

Lemma ParseIP_octets s : Forall octet (ParseIP s).
Proof.
  unfold ParseIP, parseAddr. destruct (addr_family s) as [a|]; [|constructor].
  destruct (parseIPv4Fields s) as [q|] eqn:Eq; [apply parseIPv4Fields_octets in Eq|].
  all: assert (H6 : forall b, parseIPv6 s = Some b -> Forall octet b).
  1, 3: intros b; unfold parseIPv6; destruct (_ =? 0); [|done];
    destruct (if HasPrefix s "::" then _ else _) as [s' ell]; destruct (_ && _);
      [intros [= <-]; by repeat constructor|];
    destruct (parseIPv6_go 8 s' [] ell) as [[[r bytes] e]|] eqn:E; [|done];
    apply parseIPv6_go_octets in E; [|constructor]; destruct r; [|done];
    destruct (_ <? 16); destruct e as [p|]; try done; intros [= <-]; [|done];
    repeat (apply Forall_app; split); [by apply Forall_take | by apply Forall_replicate | by apply Forall_drop].
  all: assert (Hp : Forall octet v4InV6Prefix) by by repeat constructor.
  all: repeat case_match; simplify_eq; try (by apply H6); try (by apply Forall_nil_2).
  change (Forall octet (v4InV6Prefix ++ q)). by apply Forall_app.
Qed.

Lemma To4_octets ip : Forall octet ip -> Forall octet (To4 ip).
Proof. intros H. unfold To4. destruct (_ =? 4); [done|]. destruct (_ && _); [by apply Forall_drop | constructor]. Qed.

(** A network as [ParseCIDR] builds it. *)
Definition cidr_net (n : IPNet) : Prop :=
  exists ones bits, 0 <= ones <= bits /\ (bits = 32 \/ bits = 128) /\
    net_Mask n = CIDRMask ones bits /\ length (net_IP n) = Z.to_nat (bits / 8).

Lemma map2_length f a b : length a = length b -> length (map2 f a b) = length a.
Proof. revert b. induction a as [|x a IH]; intros [|y b]; cbn; try done. intros [= H]. by rewrite IH. Qed.

Lemma CIDRMask_length ones bits : length (CIDRMask ones bits) = Z.to_nat (bits / 8).
Proof. unfold CIDRMask. by rewrite length_map, length_seq. Qed.

Lemma parse_digits_nonneg s acc n : parse_digits s acc = Some n -> 0 <= Z.of_N n.
Proof. lia. Qed.

Lemma ParseCIDR_cidr s n : ParseCIDR s = Some n -> cidr_net n.
Proof.
  unfold ParseCIDR. destruct (Cut s "/") as [[addr mask]|]; [|done].
  destruct (parseAddr addr) as [[ip bits]|] eqn:Ea; [|done].
  destruct (dtoi_all mask) as [k|] eqn:Ed; [|done].
  destruct (Z.leb_spec k bits); [|done]. intros [= <-].
  assert (Hk : 0 <= k).
  { unfold dtoi_all in Ed. destruct mask; [done|]. destruct (parse_digits _ _); [|done].
    destruct (_ <? _); [|done]. injection Ed as <-. lia. }
  assert (Hip : length ip = 16%nat /\ (bits = 32 /\ take 12 ip = v4InV6Prefix \/ bits = 128)).
  { unfold parseAddr in Ea. repeat case_match; simplify_eq.
    all: match goal with
         | E : parseIPv4Fields _ = Some ?q |- _ =>
             apply parseIPv4Fields_len in E; cbn [length]; rewrite E; split; [done|]; by left
         | E : parseIPv6 _ = Some _ |- _ => apply parseIPv6_len in E; split; [done|]; by right
         end. }
  destruct Hip as [Hl Hb]. exists k, bits. split; [lia|]. split; [naive_solver|]. split; [done|].
  cbn [net_IP]. destruct Hb as [[-> Hp]| ->].
  - rewrite <- (take_drop 12 ip), Hp. assert (Hq : length (drop 12 ip) = 4%nat) by (rewrite length_drop; lia).
    destruct (drop 12 ip) as [|a [|b [|c [|d [|]]]]]; try done.
  - do 16 (destruct ip as [|? ip]; [done|]). by destruct ip.
Qed.
