(* ===== verification/GoFloat.v ===== *)
(** * Floating point arithmetic

    The rate limiter computes with [float64].  The operations it uses are a
    class with two instances: IEEE binary64 with round to nearest even (the
    [SpecFloat] specification of the Standard Library; a product and a sum are
    rounded separately), which is what the program runs, and exact rationals,
    the idealisation in which the token-bucket bound is stated. *)
From Stdlib Require Import SpecFloat QArith Lqa.
From S2P Require Import Prelude.
Open Scope Z_scope.

Class Arith (F : Type) := {
  f_add : F -> F -> F;
  f_sub : F -> F -> F;
  f_mul : F -> F -> F;
  f_lt : F -> F -> bool;
  f_le : F -> F -> bool;
  f_of_Z : Z -> F;
  (** [Duration.Seconds] *)
  f_seconds : Z -> F;
}.

(** ** IEEE binary64 *)

Definition float64 : Type := spec_float.

Definition f64_of_Z (z : Z) : float64 := binary_normalize 53 1024 z 0 false.

(** [sec := d / Second; nsec := d % Second; float64(sec) + float64(nsec)/1e9] *)
Definition f64_seconds (d : Z) : float64 :=
  SFadd 53 1024 (f64_of_Z (Z.quot d Second))
    (SFdiv 53 1024 (f64_of_Z (Z.rem d Second)) (f64_of_Z 1000000000)).

(** [int(x)]: truncation towards zero; the program only converts finite values. *)
Definition f64_trunc (x : float64) : Z :=
  match x with
  | S754_finite s m e =>
      let a := if 0 <=? e then Z.pos m * 2 ^ e else Z.pos m / 2 ^ (- e) in
      if s then - a else a
  | _ => 0
  end.

Example trunc_demo : f64_trunc (f64_seconds 299999999999) = 299.
Proof. reflexivity. Qed.

(** A whole number as a [float64]: to the nearest number of 53 significant bits, and to the
    even one of two that are equally near. *)
Definition round53_abs (a : Z) : Z :=
  let k := Z.log2 a - 52 in
  if k <=? 0 then a
  else
    let unit := 2 ^ k in
    let q := a / unit in let r := a mod unit in
    (if (2 * r <? unit) || ((2 * r =? unit) && Z.even q) then q else q + 1) * unit.
Definition round53 (z : Z) : Z := Z.sgn z * round53_abs (Z.abs z).
Lemma round53_exact z : Z.abs z <= 2 ^ 53 -> round53 z = z.
Proof.
  intros Hz. unfold round53. assert (E : round53_abs (Z.abs z) = Z.abs z).
  { destruct (Z.eq_dec (Z.abs z) (2 ^ 53)) as [->|Hne]; [done|]. unfold round53_abs.
    assert (Z.log2 (Z.abs z) <= 52).
    { destruct (Z.eq_dec (Z.abs z) 0) as [->|]; [done|]. apply Z.lt_succ_r, Z.log2_lt_pow2; lia. }
    by rewrite (proj2 (Z.leb_le _ _)) by lia. }
  rewrite E. lia.
Qed.
(** The rounding of whole numbers is that of the floats of the specification. *)
Example round53_float : Forall (fun z => f64_trunc (f64_of_Z z) = round53 z /\ f64_trunc (f64_of_Z (- z)) = round53 (- z))
  [0; 1; 443; 65535; 2 ^ 53 - 1; 2 ^ 53; 2 ^ 53 + 1; 2 ^ 53 + 2; 2 ^ 53 + 3; 2 ^ 54 + 2; 2 ^ 54 + 6; 2 ^ 54 + 7; 2 ^ 62 + 255; 2 ^ 62 + 257;
   2 ^ 63 - 1; 2 ^ 63 - 513; 2 ^ 63 - 511].
Proof. repeat constructor; by vm_compute. Qed.
Example round53_demo : map round53 [2 ^ 53 + 1; 2 ^ 53 + 3; 2 ^ 63 - 1] = [2 ^ 53; 2 ^ 53 + 4; 2 ^ 63].
Proof. by vm_compute. Qed.

#[export] Instance float64_arith : Arith float64 := {
  f_add := SFadd 53 1024;
  f_sub := SFsub 53 1024;
  f_mul := SFmul 53 1024;
  f_lt := SFltb;
  f_le := SFleb;
  f_of_Z := f64_of_Z;
  f_seconds := f64_seconds;
}.

(** The order of floats. *)
Lemma SFltb_trans (x y z : float64) : SFltb x y = true -> SFltb y z = true -> SFltb x z = true.
Proof.
  unfold SFltb. destruct x as [[]|[]| |[] m1 e1], y as [[]|[]| |[] m2 e2], z as [[]|[]| |[] m3 e3]; cbn [SFcompare]; try done.
  all: intros H1 H2.
  all: repeat match goal with H : context [Z.compare ?a ?b] |- _ => destruct (Z.compare_spec a b); subst end.
  all: repeat match goal with |- context [Z.compare ?a ?b] => destruct (Z.compare_spec a b); subst; try lia end; try done.
  all: cbn [CompOpp] in *.
  all: repeat match goal with H : context [Pos.compare_cont Eq ?a ?b] |- _ => change (Pos.compare_cont Eq a b) with (Pos.compare a b) in H; destruct (Pos.compare_spec a b); subst end; try done.
  all: try change (Pos.compare_cont Eq m1 m3) with (Pos.compare m1 m3); destruct (Pos.compare_spec m1 m3); try done; lia.
Qed.

(** ** Exact rationals *)

Definition Qltb (a b : Q) : bool := negb (Qle_bool b a).

#[export] Instance exact_arith : Arith Q := {
  f_add := Qplus;
  f_sub := Qminus;
  f_mul := Qmult;
  f_lt := Qltb;
  f_le := Qle_bool;
  f_of_Z := inject_Z;
  f_seconds := fun d => (inject_Z d / inject_Z Second)%Q;
}.

Lemma Qltb_spec a b : reflect (a < b)%Q (Qltb a b).
Proof.
  unfold Qltb. destruct (Qle_bool b a) eqn:E; constructor.
  - apply Qle_bool_iff in E. lra.
  - apply Qnot_le_lt. by rewrite <- Qle_bool_iff, E.
Qed.

Lemma Qle_bool_spec a b : reflect (a <= b)%Q (Qle_bool a b).
Proof.
  destruct (Qle_bool a b) eqn:E; constructor.
  - by apply Qle_bool_iff.
  - by rewrite <- Qle_bool_iff, E.
Qed.

Lemma inject_Z_le a b : (a <= b)%Z -> (inject_Z a <= inject_Z b)%Q.
Proof. by rewrite <- Zle_Qle. Qed.

(** Seconds are monotone and additive on the rationals. *)
Lemma Qseconds_le a b : a <= b -> (f_seconds (F := Q) a <= f_seconds (F := Q) b)%Q.
Proof.
  intros H. cbn. apply inject_Z_le in H. unfold Qdiv.
  apply Qmult_le_compat_r; [done|]. by vm_compute.
Qed.

Lemma Qseconds_sub a b : (f_seconds (F := Q) (a - b) == f_seconds (F := Q) a - f_seconds (F := Q) b)%Q.
Proof. cbn. unfold Qdiv, Z.sub. rewrite inject_Z_plus, inject_Z_opp. ring. Qed.

Lemma Qseconds_nonneg d : 0 <= d -> (0 <= f_seconds (F := Q) d)%Q.
Proof. intros H. apply Qseconds_le in H. by apply (Qle_trans _ (f_seconds (F := Q) 0)). Qed.

Example seconds_f64 : f_lt (f_seconds (F := float64) 1500000000) (f64_of_Z 2) = true.
Proof. reflexivity. Qed.
