(* ===== verification/GoTime.v ===== *)
(** * Printing and reading instants

    The layouts of [time.Time.Format] and [time.Parse] that the program uses.  The local time
    zone is an input of the program: the offset from UTC, in seconds, in force
    at an instant. *)
From S2P Require Import Prelude GoStrings.

Class LocalZone := { zone_offset : Z -> Z }.

Definition utc : LocalZone := {| zone_offset := fun _ => 0 |}.

(** The proleptic Gregorian date of a day number counted from 1970-01-01. *)
Definition civil_from_days (days : Z) : Z * Z * Z :=
  let z := days + 719468 in
  let era := z / 146097 in
  let doe := z - era * 146097 in
  let yoe := (doe - doe / 1460 + doe / 36524 - doe / 146096) / 365 in
  let doy := doe - (365 * yoe + yoe / 4 - yoe / 100) in
  let mp := (5 * doy + 2) / 153 in
  let d := doy - (153 * mp + 2) / 5 + 1 in
  let m := if mp <? 10 then mp + 3 else mp - 9 in
  (yoe + era * 400 + (if m <=? 2 then 1 else 0), m, d).

(** Zero-padded decimals. *)
Definition pad (width : nat) (n : Z) : string :=
  let s := Itoa n in
  string_of_list_ascii (repeat "0"%char (width - String.length s)) ^^ s.

Definition date_of (t : Z) (sep : string) : string :=
  let '(y, m, d) := civil_from_days (t / 86400) in
  pad 4 y ^^ sep ^^ pad 2 m ^^ sep ^^ pad 2 d.

Definition clock_of (t : Z) (sep : string) : string :=
  let s := t mod 86400 in
  pad 2 (s / 3600) ^^ sep ^^ pad 2 (s / 60 mod 60) ^^ sep ^^ pad 2 (s mod 60).

(** *** Reading instants *)

Definition days_from_civil (y m d : Z) : Z :=
  let y := if m <=? 2 then y - 1 else y in
  let era := y / 400 in
  let yoe := y - era * 400 in
  let doy := (153 * ((m + 9) mod 12) + 2) / 5 + d - 1 in
  era * 146097 + (yoe * 365 + yoe / 4 - yoe / 100 + doy) - 719468.

Definition is_leap (y : Z) : bool := (y mod 4 =? 0) && (negb (y mod 100 =? 0) || (y mod 400 =? 0)).
Definition days_in (y m : Z) : Z :=
  if m =? 2 then (if is_leap y then 29 else 28)
  else if (m =? 4) || (m =? 6) || (m =? 9) || (m =? 11) then 30 else 31.

Definition digit_of (a : ascii) : option Z := if is_digit a then Some (char_code a - 48) else None.
Definition two_digits (s : string) : option (Z * string) :=
  match s with
  | String a (String b s) => x ← digit_of a; y ← digit_of b; Some (10 * x + y, s)
  | _ => None
  end.
(** The hour may have one digit only. *)
Definition one_or_two_digits (s : string) : option (Z * string) :=
  match two_digits s with
  | Some r => Some r
  | None => match s with String a s => x ← digit_of a; Some (x, s) | EmptyString => None end
  end.
Definition four_digits (s : string) : option (Z * string) :=
  '(x, s) ← two_digits s; '(y, s) ← two_digits s; Some (100 * x + y, s).
Definition expect (c : ascii) (s : string) : option string :=
  match s with String a s => if Ascii.eqb a c then Some s else None | EmptyString => None end.

(** A fraction of a second is read even where the layout has none: nine digits
    count. *)
Fixpoint fraction (s : string) (unit_ acc : Z) : Z * string :=
  match s with
  | String a t => if is_digit a then fraction t (unit_ / 10) (acc + (char_code a - 48) * unit_) else (acc, s)
  | EmptyString => (acc, s)
  end.
Definition optional_fraction (s : string) : Z * string :=
  match s with
  | String c (String d _ as t) => if (Ascii.eqb c "." || Ascii.eqb c ",") && is_digit d then fraction t (Second / 10) 0 else (0, s)
  | _ => (0, s)
  end.

(** The wall clock, in nanoseconds since 1970 of the same clock, read by the layout
    ["2006-01-02?15:04:05"], where [?] is the separator given. *)
Definition ParseWall (sep : ascii) (s : string) : option Z :=
  '(y, s) ← four_digits s; s ← expect "-" s;
  '(mo, s) ← two_digits s; s ← expect "-" s;
  '(d, s) ← two_digits s; s ← expect sep s;
  '(h, s) ← one_or_two_digits s; s ← expect ":" s;
  '(mi, s) ← two_digits s; s ← expect ":" s;
  '(sec, s) ← two_digits s;
  let '(ns, s) := optional_fraction s in
  if (s =s "") && (1 <=? mo) && (mo <=? 12) && (1 <=? d) && (d <=? days_in y mo) && (h <? 24) && (mi <? 60) && (sec <? 60)
  then Some ((days_from_civil y mo d * 86400 + h * 3600 + mi * 60 + sec) * Second + ns)
  else None.

Section zone.
Context `{LocalZone}.

(** The instant at which the local clock shows [wall]: Go looks the offset up at
    the wall clock taken as UTC, and again at the instant this gives. *)
Definition from_local (wall : Z) : Z :=
  let off := zone_offset wall in
  if off =? 0 then wall else wall - zone_offset (wall - off * Second) * Second.

(** [t.Year()] of a local time. *)
Definition local_year (t : Z) : Z := let '(y, _, _) := civil_from_days ((Unix t + zone_offset t) / 86400) in y.

Definition local_secs (t : Z) : Z := Unix t + zone_offset t.

(** [t.Format("2006-01-02 15:04:05")] *)
Definition FormatDateTime (t : Z) : string :=
  date_of (local_secs t) "-" ^^ " " ^^ clock_of (local_secs t) ":".

(** [t.Format("20060102_150405")] *)
Definition FormatCompact (t : Z) : string :=
  date_of (local_secs t) "" ^^ "_" ^^ clock_of (local_secs t) "".

(** [t.Format(time.RFC3339)] *)
Definition FormatRFC3339 (t : Z) : string :=
  let o := zone_offset t in
  date_of (local_secs t) "-" ^^ "T" ^^ clock_of (local_secs t) ":" ^^
  (if o =? 0 then "Z"
   else (if o <? 0 then "-" else "+") ^^ pad 2 (Z.abs o / 3600) ^^ ":" ^^ pad 2 (Z.abs o / 60 mod 60)).
End zone.

Example format_epoch : FormatRFC3339 (H := utc) 1700000000123456789 = "2023-11-14T22:13:20Z"%string.
Proof. reflexivity. Qed.
Example format_leap : FormatDateTime (H := {| zone_offset := fun _ => 3600 |}) (951782399 * Second)
  = "2000-02-29 00:59:59"%string.
Proof. reflexivity. Qed.
Example parse_printed : ParseWall "T" "2023-11-14T22:13:20.25" = Some (1700000000250000000).
Proof. reflexivity. Qed.
Example parse_no_such_day : ParseWall " " "2023-02-29 00:00:00" = None.
Proof. reflexivity. Qed.
