(* ===== verification/GoRegexp.v ===== *)
(** * Regular expressions of the Go standard library

    The patterns the program compiles with [regexp.MustCompile], read from their
    text and matched as Go does: leftmost, and among the matches that start there
    the one a backtracking search tries first.  The part of the syntax the program
    uses is read; a pattern outside it (also a repetition whose body can be empty,
    where Go and a backtracking search differ) is [None].  Texts are bytes: a class
    that contains one byte above 127 contains all of them, so on UTF-8 text the
    matches are those of Go, up to the two characters outside ASCII that Go folds
    to [k] and [s]. *)
From S2P Require Import Prelude GoStrings.

Module GoRegexp.
(** ** Syntax *)

Inductive re :=
  | Empty
  | Class (p : ascii -> bool)
  | Seq (r1 r2 : re)
  | Alt (r1 r2 : re)
  | Star (greedy : bool) (r : re)
  | Group (n : nat) (r : re)
  | TextBegin
  | TextEnd
  | WordBoundary.

Definition is_word (a : ascii) : bool := is_digit a || is_upper a || is_lower a || Ascii.eqb a "_".
(** [\s]: tab, newline, form feed, return and space. *)
Definition is_re_space (a : ascii) : bool :=
  let c := char_code a in ((c =? 9) || (c =? 10) || (c =? 12) || (c =? 13) || (c =? 32))%Z.
Definition newline : ascii := ascii_of_N 10.

(** The same letter in the other case. *)
Definition swap_case (a : ascii) : ascii := if is_upper a then lower_char a else upper_char a.
Definition fold_class (ci : bool) (p : ascii -> bool) (a : ascii) : bool := p a || (ci && p (swap_case a)).

Definition Char (ci : bool) (c : ascii) : re := Class (fold_class ci (Ascii.eqb c)).
Definition Opt (greedy : bool) (r : re) : re := if greedy then Alt r Empty else Alt Empty r.

(** [r{n}] and [r{n,m}]: copies, the optional ones nested. *)
Fixpoint optional (n : nat) (greedy : bool) (r : re) : re :=
  match n with O => Empty | S n => Opt greedy (Seq r (optional n greedy r)) end.
Fixpoint copies (n : nat) (r rest : re) : re :=
  match n with O => rest | S n => Seq r (copies n r rest) end.

(** Whether the empty text can match. *)
Fixpoint nullable (r : re) : bool :=
  match r with
  | Empty | Star _ _ | TextBegin | TextEnd | WordBoundary => true
  | Class _ => false
  | Seq a b => nullable a && nullable b
  | Alt a b => nullable a || nullable b
  | Group _ r => nullable r
  end.

(** Repetitions have bodies that consume. *)
Fixpoint proper (r : re) : bool :=
  match r with
  | Seq a b | Alt a b => proper a && proper b
  | Star _ r => negb (nullable r) && proper r
  | Group _ r => proper r
  | _ => true
  end.

(** ** Reading a pattern *)

(** [\d], [\s], [\w] and their complements. *)
Definition perl_class (c : ascii) : option (ascii -> bool) :=
  if Ascii.eqb c "d" then Some is_digit else if Ascii.eqb c "D" then Some (fun a => negb (is_digit a))
  else if Ascii.eqb c "s" then Some is_re_space else if Ascii.eqb c "S" then Some (fun a => negb (is_re_space a))
  else if Ascii.eqb c "w" then Some is_word else if Ascii.eqb c "W" then Some (fun a => negb (is_word a))
  else None.

Definition hex_value (a : ascii) : option N :=
  let c := N_of_ascii a in
  (if (48 <=? c) && (c <=? 57) then Some (c - 48)
   else if (97 <=? c) && (c <=? 102) then Some (c - 87)
   else if (65 <=? c) && (c <=? 70) then Some (c - 55) else None)%N.

(** An escaped character that stands for one character, with the rest. *)
Definition escaped_char (s : string) : option (ascii * string) :=
  match s with
  | String "x" (String a (String b s)) =>
      x ← hex_value a; y ← hex_value b; Some (ascii_of_N (16 * x + y), s)
  | String "n" s => Some (newline, s)
  | String "r" s => Some (ascii_of_N 13, s)
  | String "t" s => Some (ascii_of_N 9, s)
  | String c s => if is_digit c || is_upper c || is_lower c then None else Some (c, s)
  | EmptyString => None
  end.

(** A member of a class that is one character. *)
Definition class_char (s : string) : option (ascii * string) :=
  match s with
  | String "\" s => escaped_char s
  | String c s => Some (c, s)
  | EmptyString => None
  end.

Definition in_range (lo hi a : ascii) : bool := (char_code lo <=? char_code a)%Z && (char_code a <=? char_code hi)%Z.

(** The members of a class up to its bracket; a bracket that comes first is a
    member. *)
Fixpoint class_members (fuel : nat) (first : bool) (s : string) (acc : ascii -> bool) : option ((ascii -> bool) * string) :=
  match fuel with
  | O => None
  | S fuel =>
      match s with
      | EmptyString => None
      | String "]" s' => if first then class_members fuel false s' (fun a => acc a || Ascii.eqb a "]") else Some (acc, s')
      | String "\" (String c s') =>
          match perl_class c with
          | Some p => class_members fuel false s' (fun a => acc a || p a)
          | None => single fuel s acc
          end
      | _ => single fuel s acc
      end
  end
(** One character, or a range. *)
with single (fuel : nat) (s : string) (acc : ascii -> bool) : option ((ascii -> bool) * string) :=
  match fuel with
  | O => None
  | S fuel =>
      '(lo, s) ← class_char s;
      match s with
      | String "-" (String "]" _) => class_members fuel false s (fun a => acc a || Ascii.eqb a lo)
      | String "-" s' => '(hi, s') ← class_char s'; class_members fuel false s' (fun a => acc a || in_range lo hi a)
      | _ => class_members fuel false s (fun a => acc a || Ascii.eqb a lo)
      end
  end.

Definition parse_class (ci : bool) (s : string) : option ((ascii -> bool) * string) :=
  let fuel := (2 * String.length s + 2)%nat in
  match s with
  | String "^" s' =>
      '(p, s') ← class_members fuel true s' (fun _ => false); Some ((fun a => negb (fold_class ci p a)), s')
  | _ => '(p, s) ← class_members fuel true s (fun _ => false); Some (fold_class ci p, s)
  end.

(** The counts of [{n}] or [{n,m}]. *)
Definition parse_counts (s : string) : option (nat * nat * string) :=
  i ← IndexByte s "}";
  let body := str_take i s in
  let rest := str_drop (S i) s in
  match Cut body "," with
  | None => n ← parse_digits body 0; if body =s "" then None else Some (N.to_nat n, N.to_nat n, rest)
  | Some (a, b) =>
      n ← parse_digits a 0; m ← parse_digits b 0;
      if (a =s "") || (b =s "") then None else Some (N.to_nat n, N.to_nat m, rest)
  end.

(** The repetition that follows an atom. *)
Definition quantify (r : re) (s : string) : option (re * string) :=
  let lazy_mark s := match s with String "?" s' => (false, s') | _ => (true, s) end in
  match s with
  | String "*" s => let '(g, s) := lazy_mark s in Some (Star g r, s)
  | String "+" s => let '(g, s) := lazy_mark s in Some (Seq r (Star g r), s)
  | String "?" s => let '(g, s) := lazy_mark s in Some (Opt g r, s)
  | String "{" s =>
      '(n, m, s) ← parse_counts s;
      let '(g, s) := lazy_mark s in
      if (n <=? m)%nat then Some (copies n r (optional (m - n) g r), s) else None
  | _ => Some (r, s)
  end.

(** The state of the reader: what is left, the groups opened, whether case is
    ignored. *)
Record reader := mkReader { text : string; groups : nat; ci : bool }.

Fixpoint parse_alt (fuel : nat) (st : reader) : option (re * reader) :=
  match fuel with
  | O => None
  | S fuel =>
      '(r, st) ← parse_seq fuel st;
      match text st with
      | String "|" s => '(r2, st) ← parse_alt fuel (mkReader s (groups st) (ci st)); Some (Alt r r2, st)
      | _ => Some (r, st)
      end
  end
with parse_seq (fuel : nat) (st : reader) : option (re * reader) :=
  match fuel with
  | O => None
  | S fuel =>
      match text st with
      | EmptyString | String "|" _ | String ")" _ => Some (Empty, st)
      | _ =>
          '(r, st) ← parse_atom fuel st;
          '(r, s) ← quantify r (text st);
          '(r2, st) ← parse_seq fuel (mkReader s (groups st) (ci st));
          Some (Seq r r2, st)
      end
  end
with parse_atom (fuel : nat) (st : reader) : option (re * reader) :=
  match fuel with
  | O => None
  | S fuel =>
      let at_ s := mkReader s (groups st) (ci st) in
      (** The closing bracket restores the flag. *)
      let close r st' := match text st' with
                         | String ")" s => Some (r, mkReader s (groups st') (ci st))
                         | _ => None
                         end in
      match text st with
      | String "(" (String "?" (String "i" (String ")" s))) => Some (Empty, mkReader s (groups st) true)
      | String "(" (String "?" (String ":" s)) => '(r, st') ← parse_alt fuel (at_ s); close r st'
      | String "(" (String "?" _) => None
      | String "(" s =>
          let n := S (groups st) in
          '(r, st') ← parse_alt fuel (mkReader s n (ci st)); close (Group n r) st'
      | String "[" s => '(p, s) ← parse_class (ci st) s; Some (Class p, at_ s)
      | String "." s => Some (Class (fun a => negb (Ascii.eqb a newline)), at_ s)
      | String "^" s => Some (TextBegin, at_ s)
      | String "$" s => Some (TextEnd, at_ s)
      | String "\" (String "b" s) => Some (WordBoundary, at_ s)
      | String "\" (String c s) =>
          match perl_class c with
          | Some p => Some (Class p, at_ s)
          | None => '(a, s) ← escaped_char (String c s); Some (Char (ci st) a, at_ s)
          end
      | String c s =>
          if in_set "*+?{" c then None else Some (Char (ci st) c, at_ s)
      | EmptyString => None
      end
  end.

Record Regexp := mkRegexp { prog : re; numSubexp : nat }.

(** [None]: the pattern is outside the modelled syntax. *)
Definition Compile (pattern : string) : option Regexp :=
  '(r, st) ← parse_alt (4 * String.length pattern + 4) (mkReader pattern 0 false);
  if (text st =s "") && proper r then Some (mkRegexp r (groups st)) else None.

(** ** Matching *)

(** A place in the text: the character before it and what follows. *)
Record place := mkPlace { before : option ascii; rest : string }.

Definition word_at (o : option ascii) : bool := match o with Some a => is_word a | None => false end.
Definition next (p : place) : option ascii := match rest p with String a _ => Some a | EmptyString => None end.

(** The text between two places. *)
Definition between (p q : place) : string := str_take (String.length (rest p) - String.length (rest q)) (rest p).

(** The groups that took part, latest first. *)
Definition caps : Type := list (nat * string).

Definition cont : Type := place -> caps -> option (place * caps).

Definition or_else {A} (a b : option A) : option A := match a with Some _ => a | None => b end.

(** Iterations of a repetition: each must move on, so the length of the text is
    enough fuel. *)
Fixpoint loop (body : cont -> cont) (greedy : bool) (fuel : nat) (k : cont) (p : place) (c : caps) : option (place * caps) :=
  match fuel with
  | O => k p c
  | S fuel =>
      let more _ := body (fun q c => if (String.length (rest q) <? String.length (rest p))%nat
                                     then loop body greedy fuel k q c else None) p c in
      if greedy then or_else (more tt) (k p c) else or_else (k p c) (more tt)
  end.

Fixpoint run (r : re) (k : cont) (p : place) (c : caps) : option (place * caps) :=
  match r with
  | Empty => k p c
  | Class cls =>
      match rest p with
      | String a s => if cls a then k (mkPlace (Some a) s) c else None
      | EmptyString => None
      end
  | Seq a b => run a (fun q c => run b k q c) p c
  | Alt a b => or_else (run a k p c) (run b k p c)
  | Star g r => loop (run r) g (String.length (rest p)) k p c
  | Group n r => run r (fun q c => k q ((n, between p q) :: c)) p c
  | TextBegin => match before p with None => k p c | Some _ => None end
  | TextEnd => match rest p with EmptyString => k p c | String _ _ => None end
  | WordBoundary => if negb (Bool.eqb (word_at (before p)) (word_at (next p))) then k p c else None
  end.

Definition match_at (r : re) (p : place) : option (place * caps) := run r (fun q c => Some (q, c)) p [].

(** The first place from [p] on where there is a match. *)
Fixpoint search (r : re) (b : option ascii) (s : string) : option (place * place * caps) :=
  let p := mkPlace b s in
  match match_at r p with
  | Some (q, c) => Some (p, q, c)
  | None => match s with EmptyString => None | String a s => search r (Some a) s end
  end.

Definition captured (c : caps) (n : nat) : string :=
  match List.find (fun e => (e.1 =? n)%nat) c with Some e => e.2 | None => "" end.

Definition submatches (x : Regexp) (p q : place) (c : caps) : list string :=
  between p q :: map (captured c) (seq 1 (numSubexp x)).

Definition FindStringSubmatch (x : Regexp) (s : string) : option (list string) :=
  match search (prog x) None s with Some (p, q, c) => Some (submatches x p q c) | None => None end.

Definition MatchString (x : Regexp) (s : string) : bool := is_some (search (prog x) None s).

(** The successive matches; an empty one makes the search move on by one
    character, and does not count right after another match. *)
Fixpoint find_all (fuel : nat) (x : Regexp) (b : option ascii) (s : string) (after_match : bool) : list (place * place * caps) :=
  match fuel with
  | O => []
  | S fuel =>
      match search (prog x) b s with
      | None => []
      | Some (p, q, c) =>
          let empty := (String.length (rest p) =? String.length (rest q))%nat in
          let skip := empty && after_match && (String.length s =? String.length (rest p))%nat in
          (if skip then [] else [(p, q, c)]) ++
          (if empty then match rest q with EmptyString => [] | String a s => find_all fuel x (Some a) s false end
           else find_all fuel x (before q) (rest q) true)
      end
  end.

Definition FindAllStringSubmatch (x : Regexp) (s : string) : list (list string) :=
  map (fun m => let '(p, q, c) := m in submatches x p q c) (find_all (S (String.length s)) x None s false).

Definition FindAllString (x : Regexp) (s : string) : list string :=
  map (fun m => let '(p, q, _) := m in between p q) (find_all (S (String.length s)) x None s false).

(** Replacing every match by a text without references to groups. *)
Fixpoint replace_from (s : string) (ms : list (place * place * caps)) (new : string) : string :=
  match ms with
  | [] => s
  | (p, q, _) :: ms => str_take (String.length s - String.length (rest p)) s ^^ new ^^ replace_from (rest q) ms new
  end.

Definition ReplaceAllString (x : Regexp) (s new : string) : string :=
  replace_from s (find_all (S (String.length s)) x None s false) new.

(** Only a pattern that is read can be used, so the panic of [regexp.MustCompile] is
    excluded by computation. *)
Definition MustCompile (pattern : string) : is_some (Compile pattern) = true -> Regexp :=
  match Compile pattern as o return is_some o = true -> Regexp with
  | Some x => fun _ => x
  | None => fun H => match Bool.diff_false_true H with end
  end.
Notation regexp pattern := (MustCompile pattern (eq_refl true <: is_some (Compile pattern) = true)).

(** ** What a match is *)

(** [matches r p c q c']: the expression matches the text from [p] to [q], and the
    groups [c] grow to [c']. *)
Inductive matches : re -> place -> caps -> place -> caps -> Prop :=
  | m_empty p c : matches Empty p c p c
  | m_class cls b a s c : cls a = true -> matches (Class cls) (mkPlace b (String a s)) c (mkPlace (Some a) s) c
  | m_seq r1 r2 p c q c1 e c2 : matches r1 p c q c1 -> matches r2 q c1 e c2 -> matches (Seq r1 r2) p c e c2
  | m_alt_l r1 r2 p c q c' : matches r1 p c q c' -> matches (Alt r1 r2) p c q c'
  | m_alt_r r1 r2 p c q c' : matches r2 p c q c' -> matches (Alt r1 r2) p c q c'
  | m_star_stop g r p c : matches (Star g r) p c p c
  | m_star_more g r p c q c1 e c2 : matches r p c q c1 -> matches (Star g r) q c1 e c2 -> matches (Star g r) p c e c2
  | m_group n r p c q c' : matches r p c q c' -> matches (Group n r) p c q ((n, between p q) :: c')
  | m_begin s c : matches TextBegin (mkPlace None s) c (mkPlace None s) c
  | m_end b c : matches TextEnd (mkPlace b "") c (mkPlace b "") c
  | m_word p c : word_at (before p) <> word_at (next p) -> matches WordBoundary p c p c.

(** Everything the search could return, in the order in which it tries. *)
Fixpoint all_loop (body : place -> caps -> list (place * caps)) (greedy : bool) (fuel : nat) (p : place) (c : caps)
    : list (place * caps) :=
  match fuel with
  | O => [(p, c)]
  | S fuel =>
      let more := flat_map (fun e => if (String.length (rest e.1) <? String.length (rest p))%nat
                                     then all_loop body greedy fuel e.1 e.2 else []) (body p c) in
      if greedy then more ++ [(p, c)] else (p, c) :: more
  end.

Fixpoint all (r : re) (p : place) (c : caps) : list (place * caps) :=
  match r with
  | Empty => [(p, c)]
  | Class cls =>
      match rest p with String a s => if cls a then [(mkPlace (Some a) s, c)] else [] | EmptyString => [] end
  | Seq a b => flat_map (fun e => all b e.1 e.2) (all a p c)
  | Alt a b => all a p c ++ all b p c
  | Star g r => all_loop (all r) g (String.length (rest p)) p c
  | Group n r => map (fun e => (e.1, (n, between p e.1) :: e.2)) (all r p c)
  | TextBegin => match before p with None => [(p, c)] | Some _ => [] end
  | TextEnd => match rest p with EmptyString => [(p, c)] | String _ _ => [] end
  | WordBoundary => if negb (Bool.eqb (word_at (before p)) (word_at (next p))) then [(p, c)] else []
  end.

(** The first that the continuation accepts. *)
Fixpoint first_some (k : cont) (l : list (place * caps)) : option (place * caps) :=
  match l with [] => None | e :: l => or_else (k e.1 e.2) (first_some k l) end.

Lemma or_else_none {A} (a : option A) : or_else a None = a.
Proof. by destruct a. Qed.

Lemma first_some_app k l1 l2 : first_some k (l1 ++ l2) = or_else (first_some k l1) (first_some k l2).
Proof. induction l1 as [|e l1 IH]; [done|]. cbn. rewrite IH. by destruct (k e.1 e.2). Qed.

Lemma first_some_flat k f l : first_some k (flat_map f l) = first_some (fun q c => first_some k (f (q, c))) l.
Proof. induction l as [|[q c] l IH]; [done|]. cbn. by rewrite first_some_app, IH. Qed.

Lemma first_some_ext k k' l : (forall q c, k q c = k' q c) -> first_some k l = first_some k' l.
Proof. intros H. induction l as [|e l IH]; [done|]. cbn. by rewrite H, IH. Qed.

Lemma first_some_map k f l : first_some k (map f l) = first_some (fun q c => k (f (q, c)).1 (f (q, c)).2) l.
Proof. induction l as [|[q c] l IH]; [done|]. cbn. by rewrite IH. Qed.

Lemma loop_all body all_body g fuel : (forall k p c, body k p c = first_some k (all_body p c)) ->
  forall k p c, loop body g fuel k p c = first_some k (all_loop all_body g fuel p c).
Proof.
  intros Hb. induction fuel as [|fuel IH]; intros k p c; cbn [loop all_loop]; [cbn; by rewrite or_else_none|].
  assert (Hm : body (fun q c0 => if (String.length (rest q) <? String.length (rest p))%nat then loop body g fuel k q c0 else None) p c =
    first_some k (flat_map (fun e => if (String.length (rest e.1) <? String.length (rest p))%nat then all_loop all_body g fuel e.1 e.2 else []) (all_body p c))).
  { rewrite Hb, first_some_flat. apply first_some_ext. intros q c'. cbn [fst snd]. destruct (Nat.ltb _ _); [apply IH | done]. }
  rewrite Hm. destruct g; [by rewrite first_some_app; cbn [first_some fst snd]; rewrite or_else_none | done].
Qed.

(** The backtracking search is the first of the list of all matches. *)
Lemma run_all r : forall k p c, run r k p c = first_some k (all r p c).
Proof.
  induction r as [|cls|a IHa b IHb|a IHa b IHb|g r IH|n r IH| | |]; intros k p c; cbn [run all].
  - cbn. by rewrite or_else_none.
  - destruct (rest p) as [|a s]; [done|]. destruct (cls a); [cbn; by rewrite or_else_none | done].
  - rewrite IHa, first_some_flat. apply first_some_ext. intros q c'. apply IHb.
  - by rewrite first_some_app, IHa, IHb.
  - by apply loop_all.
  - rewrite IH, first_some_map. by apply first_some_ext.
  - destruct (before p); [done|]. cbn. by rewrite or_else_none.
  - destruct (rest p); [|done]. cbn. by rewrite or_else_none.
  - destruct (negb _); [|done]. cbn. by rewrite or_else_none.
Qed.

Lemma match_at_head r p : match_at r p = head (all r p []).
Proof. unfold match_at. rewrite run_all. by destruct (all r p []) as [|[q c] l]. Qed.

(** ** Soundness and completeness *)

Lemma all_loop_sound body g fuel r : (forall p c q c', (q, c') ∈ body p c -> matches r p c q c') ->
  forall p c q c', (q, c') ∈ all_loop body g fuel p c -> matches (Star g r) p c q c'.
Proof.
  intros Hb. induction fuel as [|fuel IH]; intros p c q c'; cbn [all_loop].
  - intros [= -> ->]%list_elem_of_singleton. constructor.
  - intros Hin. assert (Hin' : (q, c') = (p, c) \/ (q, c') ∈ flat_map (fun e => if (String.length (rest e.1) <? String.length (rest p))%nat
      then all_loop body g fuel e.1 e.2 else []) (body p c)).
    { destruct g; [rewrite elem_of_app, list_elem_of_singleton in Hin; tauto | by rewrite elem_of_cons in Hin]. }
    destruct Hin' as [[= -> ->]|Hf]; [constructor|]. apply list_elem_of_In, in_flat_map in Hf as ([q1 c1] & H1 & H2).
    apply list_elem_of_In in H1. cbn [fst snd] in H2. destruct (Nat.ltb _ _); [|done]. apply list_elem_of_In in H2.
    econstructor; [by apply Hb | by apply IH].
Qed.

Lemma all_sound r : forall p c q c', (q, c') ∈ all r p c -> matches r p c q c'.
Proof.
  induction r as [|cls|a IHa b IHb|a IHa b IHb|g r IH|n r IH| | |]; intros p c q c'; cbn [all].
  - intros [= -> ->]%list_elem_of_singleton. constructor.
  - destruct p as [bf [|a s]]; cbn; [by intros ?%elem_of_nil|]. destruct (cls a) eqn:E; [|by intros ?%elem_of_nil].
    intros [= -> ->]%list_elem_of_singleton. by constructor.
  - intros Hin%list_elem_of_In. apply in_flat_map in Hin as ([q1 c1] & H1 & H2). apply list_elem_of_In in H1, H2. econstructor; eauto.
  - rewrite elem_of_app. intros [Hin|Hin]; [apply m_alt_l | apply m_alt_r]; auto.
  - apply all_loop_sound, IH.
  - intros Hin%list_elem_of_In. apply in_map_iff in Hin as ([q1 c1] & [= <- <-] & H1). apply list_elem_of_In in H1. constructor. auto.
  - destruct p as [[a|] s]; cbn; [by intros ?%elem_of_nil|]. intros [= -> ->]%list_elem_of_singleton. constructor.
  - destruct p as [bf [|a s]]; cbn; [|by intros ?%elem_of_nil]. intros [= -> ->]%list_elem_of_singleton. constructor.
  - destruct (negb _) eqn:E; [|by intros ?%elem_of_nil]. intros [= -> ->]%list_elem_of_singleton. constructor.
    apply negb_true_iff in E. by apply eqb_false_iff.
Qed.

Lemma matches_shorter r p c q c' : matches r p c q c' ->
  (String.length (rest q) <= String.length (rest p))%nat /\ (nullable r = false -> (String.length (rest q) < String.length (rest p))%nat).
Proof.
  induction 1 as [| | r1 r2 p c q c1 e c2 _ [H1 H1'] _ [H2 H2'] | ? ? ? ? ? ? _ [H1 H1'] | ? ? ? ? ? ? _ [H1 H1'] | |
    g r p c q c1 e c2 _ [H1 H1'] _ [H2 H2'] | ? ? ? ? ? ? _ [H1 H1'] | | |]; cbn; split; try done; try lia.
  - intros [E|E]%andb_false_iff; [specialize (H1' E) | specialize (H2' E)]; lia.
  - intros [E _]%orb_false_iff. auto.
  - intros [_ E]%orb_false_iff. auto.
Qed.

Lemma all_loop_complete body g r : nullable r = false ->
  (forall p c q c', matches r p c q c' -> (q, c') ∈ body p c) ->
  forall x p c q c', matches x p c q c' -> x = Star g r -> forall fuel, (String.length (rest p) <= fuel)%nat -> (q, c') ∈ all_loop body g fuel p c.
Proof.
  intros Hn Hb. induction 1 as [| | | | | g' r' p c | g' r' p c q c1 e c2 H1 _ H2 IH | | | |]; intros Hx fuel Hf; try discriminate.
  - injection Hx as -> ->. destruct fuel; cbn; [by apply list_elem_of_singleton|].
    destruct g; [rewrite elem_of_app; right; by left | by left].
  - injection Hx as -> ->. destruct (matches_shorter _ _ _ _ _ H1) as [_ Hlt]. specialize (Hlt Hn).
    destruct fuel as [|fuel]; [lia|]. cbn [all_loop].
    assert (Hin : (e, c2) ∈ flat_map (fun e0 => if (String.length (rest e0.1) <? String.length (rest p))%nat
      then all_loop body g fuel e0.1 e0.2 else []) (body p c)).
    { apply list_elem_of_In, in_flat_map. exists (q, c1). split; [by apply list_elem_of_In, Hb|]. cbn [fst snd].
      rewrite (proj2 (Nat.ltb_lt _ _) Hlt). apply list_elem_of_In, IH; [done | lia]. }
    destruct g; [rewrite elem_of_app; by left | by right].
Qed.

Lemma all_complete r : proper r = true -> forall p c q c', matches r p c q c' -> (q, c') ∈ all r p c.
Proof.
  induction r as [|cls|a IHa b IHb|a IHa b IHb|g r IH|n r IH| | |]; cbn [proper]; intros Hp p c q c' Hm.
  - inversion Hm; subst. by left.
  - inversion Hm as [|? ? ? ? ? E| | | | | | | | |]; subst. cbn. rewrite E. by left.
  - apply andb_true_iff in Hp as [Ha Hb]. inversion Hm; subst. cbn. apply list_elem_of_In, in_flat_map. eexists (_, _).
    split; [by apply list_elem_of_In, IHa | by apply list_elem_of_In, IHb].
  - apply andb_true_iff in Hp as [Ha Hb]. cbn. rewrite elem_of_app. inversion Hm; subst; auto.
  - apply andb_true_iff in Hp as [Hn Hr]. apply negb_true_iff in Hn.
    apply (all_loop_complete (all r) g r Hn (IH Hr) (Star g r) p c q c' Hm eq_refl). done.
  - inversion Hm; subst. cbn. apply list_elem_of_In, in_map_iff. eexists (_, _). split; [done|]. by apply list_elem_of_In, IH.
  - inversion Hm; subst. by left.
  - inversion Hm; subst. by left.
  - inversion Hm as [| | | | | | | | | |? ? E]; subst. cbn. rewrite (proj2 (eqb_false_iff _ _) E). by left.
Qed.

(** The places of a text, from left to right. *)
Fixpoint places (b : option ascii) (s : string) : list place :=
  mkPlace b s :: match s with EmptyString => [] | String a s => places (Some a) s end.

(** Go's search: the leftmost place where there is a match, and there the one of
    highest priority; it fails only where there is none. *)
Lemma search_leftmost r b s : proper r = true ->
  match search r b s with
  | Some (p, q, c) => exists before_ after_, places b s = before_ ++ p :: after_ /\ head (all r p []) = Some (q, c) /\
      matches r p [] q c /\ forall p' q' c', p' ∈ before_ -> ~ matches r p' [] q' c'
  | None => forall p q c, p ∈ places b s -> ~ matches r p [] q c
  end.
Proof.
  intros Hp. assert (Hno : forall p, match_at r p = None -> forall q c, ~ matches r p [] q c).
  { intros p E q c Hm. apply (all_complete r Hp) in Hm. rewrite match_at_head in E. destruct (all r p []); [by apply elem_of_nil in Hm | done]. }
  revert b. induction s as [|a s IH]; intros b; cbn [search places].
  - destruct (match_at r _) as [[q c]|] eqn:E; [|by intros p q c ->%list_elem_of_singleton; apply Hno].
    exists [], []. rewrite match_at_head in E. split_and!; [done | done | | by intros ? ? ? ?%elem_of_nil]. apply all_sound.
    destruct (all r _ _); [done|]. injection E as ->. by left.
  - destruct (match_at r _) as [[q c]|] eqn:E.
    + exists [], (places (Some a) s). rewrite match_at_head in E. split_and!; [done | done | | by intros ? ? ? ?%elem_of_nil]. apply all_sound.
      destruct (all r _ _); [done|]. injection E as ->. by left.
    + specialize (IH (Some a)). destruct (search r (Some a) s) as [[[p q] c]|].
      * destruct IH as (bf & af & -> & Hh & Hm & Hn). exists (mkPlace b (String a s) :: bf), af. split_and!; [done..|].
        intros p' q' c' [->|Hin]%elem_of_cons; [by apply Hno | by apply Hn].
      * intros p q c [->|Hin]%elem_of_cons; [by apply Hno | by apply IH].
Qed.
(** ** Matching along a text

    A text whose repetitions end where their class ends is matched without going
    back; these lemmas follow the matcher through it. *)

(** The character before the place after [u]. *)
Fixpoint last_of (b : option ascii) (u : string) : option ascii :=
  match u with EmptyString => b | String a u => last_of (Some a) u end.

Definition begins (p : ascii -> bool) (s : string) : bool := match s with String a _ => p a | EmptyString => false end.

(** A text, then the rest of the expression. *)
Fixpoint lit (w : string) (r : re) : re :=
  match w with EmptyString => r | String a w => Seq (Char false a) (lit w r) end.

Lemma last_of_app b u v : last_of b (u ^^ v) = last_of (last_of b u) v.
Proof. revert b. induction u as [|a u IH]; intros b; [done|]. apply IH. Qed.

Lemma between_app b b' u s : between (mkPlace b (u ^^ s)) (mkPlace b' s) = u.
Proof.
  unfold between. cbn [rest]. rewrite str_length_app. replace (_ - _)%nat with (String.length u) by lia. apply str_take_app.
Qed.

Lemma run_lit w r k b s c : run (lit w r) k (mkPlace b (w ^^ s)) c = run r k (mkPlace (last_of b w) s) c.
Proof.
  revert b. induction w as [|a w IH]; intros b; [done|]. cbn [lit run String.append rest Char].
  unfold fold_class. rewrite Ascii.eqb_refl. cbn [orb andb]. apply IH.
Qed.

Lemma run_lit_fails w r k b s c : HasPrefix s w = false -> run (lit w r) k (mkPlace b s) c = None.
Proof.
  revert b s. induction w as [|a w IH]; intros b s H; [by destruct s|]. cbn [lit run rest Char]. destruct s as [|x s]; [done|].
  unfold fold_class. cbn [andb]. rewrite orb_false_r. unfold HasPrefix in H. cbn in H.
  destruct (Ascii.eqb_spec a x) as [->|]; [|done]. apply IH. by destruct (ascii_dec x x).
Qed.

(** A greedy repetition of a class takes all there is. *)
Lemma run_star_longest cls k b u s c r : str_exists (fun a => negb (cls a)) u = false -> begins cls s = false ->
  k (mkPlace (last_of b u) s) c = Some r -> run (Star true (Class cls)) k (mkPlace b (u ^^ s)) c = Some r.
Proof.
  cbn [run rest]. intros Hu Hs Hk. assert (Hf : (String.length u <= String.length (u ^^ s))%nat) by (rewrite str_length_app; lia).
  revert Hf. generalize (String.length (u ^^ s)) as fuel. revert b Hk. induction u as [|a u IH]; intros b Hk fuel Hf.
  - cbn [String.append last_of] in *. destruct fuel as [|fuel]; [done|]. cbn [loop run rest].
    destruct s as [|a s]; [done|]. cbn in Hs. by rewrite Hs.
  - cbn in Hf. destruct fuel as [|fuel]; [lia|]. cbn in Hu. apply orb_false_iff in Hu as [Ha Hu]. apply negb_false_iff in Ha.
    cbn [loop run rest String.append]. rewrite Ha. cbn [rest]. rewrite (proj2 (Nat.ltb_lt _ _)) by (cbn; lia).
    rewrite (IH Hu (Some a)); [done | done | lia].
Qed.

Lemma run_plus_longest cls k b u s c r : u <> ""%string -> str_exists (fun a => negb (cls a)) u = false -> begins cls s = false ->
  k (mkPlace (last_of b u) s) c = Some r -> run (Seq (Class cls) (Star true (Class cls))) k (mkPlace b (u ^^ s)) c = Some r.
Proof.
  intros Hn Hu Hs Hk. destruct u as [|a u]; [done|]. cbn in Hu. apply orb_false_iff in Hu as [Ha Hu]. apply negb_false_iff in Ha.
  change (run (Seq ?x ?y) ?k ?p ?c) with (run x (fun q c => run y k q c) p c).
  cbn [run rest String.append]. rewrite Ha. by apply run_star_longest.
Qed.

(** A lazy repetition goes on to the first occurrence of what follows it. *)
Lemma run_lazy_index cls w x k b s n c r : Index s w = Some n -> str_exists (fun a => negb (cls a)) (str_take n s) = false ->
  run x k (mkPlace (last_of b (str_take n s ^^ w)) (str_drop (n + String.length w) s)) c = Some r ->
  run (Star false (Class cls)) (fun q c => run (lit w x) k q c) (mkPlace b s) c = Some r.
Proof.
  cbn [run rest]. assert (Hf : (String.length s <= String.length s)%nat) by done. revert Hf. generalize (String.length s) at 2 3 as fuel.
  revert b n. induction s as [|a s IH]; intros b n fuel Hf Hi Hu Hk.
  - cbn [Index] in Hi. destruct (HasPrefix "" w) eqn:Hw; [|done]. injection Hi as <-. apply HasPrefix_spec in Hw as (t & Et).
    destruct w; [|done]. cbn in *. destruct fuel; cbn; by rewrite Hk.
  - cbn in Hf. destruct fuel as [|fuel]; [lia|]. cbn [Index] in Hi. cbn [loop]. destruct (HasPrefix (String a s) w) eqn:Hw.
    + injection Hi as <-. apply HasPrefix_spec in Hw as (t & Et). rewrite Et in Hk |- *. cbn [Nat.add] in Hk.
      rewrite str_drop_app in Hk. cbn beta. rewrite run_lit. replace (str_take 0 (w ^^ t)) with ""%string in Hk by by destruct (w ^^ t).
      cbn [String.append] in Hk. by rewrite Hk.
    + cbn beta. rewrite run_lit_fails by done. cbn [or_else run rest]. destruct (Index s w) as [m|] eqn:Em; [|done]. injection Hi as <-.
      cbn in Hu. apply orb_false_iff in Hu as [Ha Hu]. apply negb_false_iff in Ha. rewrite Ha. cbn [rest].
      rewrite (proj2 (Nat.ltb_lt _ _)) by (cbn; lia). apply (IH (Some a) m); [lia | done | done |]. exact Hk.
Qed.

(** The search for an expression that begins with a text goes to its first
    occurrence. *)
Lemma search_lit w r b s n : Index s w = Some n ->
  search (lit w r) b s = search (lit w r) (last_of b (str_take n s)) (str_drop n s).
Proof.
  revert b n. induction s as [|a s IH]; intros b n; cbn [Index].
  - destruct (HasPrefix "" w); [|done]. by intros [= <-].
  - destruct (HasPrefix (String a s) w) eqn:Hw; [by intros [= <-]|]. destruct (Index s w) as [m|] eqn:Em; [|done]. intros [= <-].
    cbn [search]. unfold match_at at 1. rewrite run_lit_fails by done. by apply IH.
Qed.

Lemma search_found r b s q c : match_at r (mkPlace b s) = Some (q, c) -> search r b s = Some (mkPlace b s, q, c).
Proof. intros H. destruct s; cbn [search]; by rewrite H. Qed.


(** The pieces the patterns are made of, followed by the rest. *)
Definition plus (cls : ascii -> bool) : re := Seq (Class cls) (Star true (Class cls)).
Definition spans (cls : ascii -> bool) (u : string) : Prop := u <> ""%string /\ str_exists (fun a => negb (cls a)) u = false.

Lemma run_seq_plus cls r k b u s c x : spans cls u -> begins cls s = false ->
  run r k (mkPlace (last_of b u) s) c = Some x -> run (Seq (plus cls) r) k (mkPlace b (u ^^ s)) c = Some x.
Proof. intros [Hn Hu] Hs Hk. apply (run_plus_longest cls (fun q c => run r k q c)); done. Qed.

Lemma run_seq_group cls n r k b u s c x : spans cls u -> begins cls s = false ->
  run r k (mkPlace (last_of b u) s) ((n, u) :: c) = Some x ->
  run (Seq (Group n (Seq (plus cls) Empty)) r) k (mkPlace b (u ^^ s)) c = Some x.
Proof.
  intros [Hn Hu] Hs Hk. apply (run_plus_longest cls (fun q c' => run r k q ((n, between (mkPlace b (u ^^ s)) q) :: c'))); [done..|].
  by rewrite between_app.
Qed.

Lemma run_seq_alt w y r k b s c x : run r k (mkPlace (last_of b w) s) c = Some x ->
  run (Seq (Alt (lit w Empty) y) r) k (mkPlace b (w ^^ s)) c = Some x.
Proof.
  intros Hk. cbn [run]. rewrite (run_lit w Empty). cbn [run]. by rewrite Hk.
Qed.

Lemma run_seq_star cls r k b u s c x : str_exists (fun a => negb (cls a)) u = false -> begins cls s = false ->
  run r k (mkPlace (last_of b u) s) c = Some x -> run (Seq (Star true (Class cls)) r) k (mkPlace b (u ^^ s)) c = Some x.
Proof. intros Hu Hs Hk. by apply (run_star_longest cls (fun q c => run r k q c)). Qed.

Lemma str_exists_impl p q s : (forall a, p a = true -> q a = true) -> str_exists q s = false -> str_exists p s = false.
Proof.
  intros H. induction s as [|a s IH]; [done|]. cbn. rewrite !orb_false_iff. intros [Ha Hs]. split; [|by apply IH].
  destruct (p a) eqn:E; [|done]. by rewrite (H a E) in Ha.
Qed.

Lemma Itoa_spans z : 0 <= z -> spans is_digit (Itoa z).
Proof.
  intros Hz. split.
  - unfold Itoa, FormatNat. destruct (Z.ltb_spec z 0); [lia|].
    destruct (digits_cons (S (N.to_nat (N.size (Z.to_N z)))) (Z.to_N z) "") as (d & t & _ & ->); done.
  - apply Itoa_only; [done|]. by intros a ->.
Qed.

Lemma run_seq_opt_some y r k p c x : run y (fun q c => run r k q c) p c = Some x -> run (Seq (Opt true y) r) k p c = Some x.
Proof. intros H. change (or_else (run y (fun q c => run r k q c) p c) (run r k p c) = Some x). by rewrite H. Qed.

Lemma run_seq_opt_none y r k p c : run y (fun q c => run r k q c) p c = None -> run (Seq (Opt true y) r) k p c = run r k p c.
Proof. intros H. change (or_else (run y (fun q c => run r k q c) p c) (run r k p c) = run r k p c). by rewrite H. Qed.

(** A group of alternatives, the first of them. *)
Lemma run_seq_group_alt w y n r k b s c x : run r k (mkPlace (last_of b w) s) ((n, w) :: c) = Some x ->
  run (Seq (Group n (Alt (lit w Empty) y)) r) k (mkPlace b (w ^^ s)) c = Some x.
Proof.
  intros H. change (or_else (run (lit w Empty) (fun q c' => run r k q ((n, between (mkPlace b (w ^^ s)) q) :: c')) (mkPlace b (w ^^ s)) c)
    (run y (fun q c' => run r k q ((n, between (mkPlace b (w ^^ s)) q) :: c')) (mkPlace b (w ^^ s)) c) = Some x).
  rewrite run_lit. cbn [run]. by rewrite between_app, H.
Qed.

(** The second, where the first does not begin here. *)
Lemma run_seq_group_alt2 v w n r k b s c x : HasPrefix (w ^^ s) v = false -> run r k (mkPlace (last_of b w) s) ((n, w) :: c) = Some x ->
  run (Seq (Group n (Alt (lit v Empty) (lit w Empty))) r) k (mkPlace b (w ^^ s)) c = Some x.
Proof.
  intros Hv H. set (k' := fun q c' => run r k q ((n, between (mkPlace b (w ^^ s)) q) :: c')).
  change (or_else (run (lit v Empty) k' (mkPlace b (w ^^ s)) c) (run (lit w Empty) k' (mkPlace b (w ^^ s)) c) = Some x).
  rewrite run_lit_fails by done. cbn [or_else]. rewrite run_lit. cbn [run]. unfold k'. by rewrite between_app.
Qed.
End GoRegexp.
