(* ===== verification/KillSwitch.v ===== *)
(** * The kill-switch (src/pkg/security/killswitch)

    Modules [DNSLeakGuard] and [IPv6Blocker] are the two leak guards,
    [KillSwitch] the state machine that consults them.  A registered state
    callback is a number; [SetVPNActive] returns the calls it makes.  The
    mutexes make every operation one atomic step. *)
From S2P Require Import Prelude GoStrings GoNet.

Module DNSLeakGuard.
Record DNSLeakGuard := mkDNSLeakGuard {
  strictDNS : bool;
  allowedDNSIPs : list IP;
}.

Definition trustedResolvers : list string :=
  ["127.0.0.1"; "::1"; "1.1.1.1"; "1.0.0.1"; "8.8.8.8"; "8.8.4.4"; "9.9.9.9"]%string.

Definition NewDNSLeakGuard (strict : bool) : DNSLeakGuard :=
  mkDNSLeakGuard strict (map ParseIP trustedResolvers).

Definition AddAllowedDNS (g : DNSLeakGuard) (ip : IP) : DNSLeakGuard :=
  if negb (is_nil ip) then mkDNSLeakGuard (strictDNS g) (allowedDNSIPs g ++ [ip]) else g.

Definition AllowDNSQuery (g : DNSLeakGuard) (dstIP : IP) (dstPort : Z) (vpnActive : bool) : bool :=
  if negb (strictDNS g) then true
  else if negb vpnActive && (dstPort =? 53) then
    negb (is_nil dstIP)
    && (IsLoopback dstIP || Equal dstIP (ParseIP "127.0.0.1") || Equal dstIP (ParseIP "::1"))
  else if negb (is_nil dstIP) && IsLoopback dstIP then true
  else if negb (is_nil dstIP) && vpnActive
          && existsb (fun allowed => Equal allowed dstIP) (allowedDNSIPs g) then true
  else vpnActive && ((dstPort =? 853) || (dstPort =? 443)).
End DNSLeakGuard.

Module IPv6Blocker.
Record IPv6Blocker := mkIPv6Blocker { blockIPv6 : bool }.

Definition NewIPv6Blocker (block : bool) : IPv6Blocker := mkIPv6Blocker block.

Definition AllowIPv6 (b : IPv6Blocker) (ip : IP) : bool :=
  if negb (blockIPv6 b) then true
  else if is_nil ip then false
  else IsLoopback ip || Equal ip (ParseIP "::1").

Definition SetBlockIPv6 (b : IPv6Blocker) (block : bool) : IPv6Blocker := mkIPv6Blocker block.
End IPv6Blocker.

Module KillSwitch.
Import DNSLeakGuard IPv6Blocker.

Inductive State := StateDisabled | StateActive | StateBlocking | StateLANOnly.
#[export] Instance state_eq_dec : EqDecision State.
Proof. solve_decision. Defined.

Inductive PolicyDecision := DecisionAllow | DecisionDrop | DecisionRedirectToTUN.
#[export] Instance decision_eq_dec : EqDecision PolicyDecision.
Proof. solve_decision. Defined.

Record KillSwitch := mkKillSwitch {
  state : State;
  enabled : bool;
  ksBlockIPv6 : bool;
  allowLocalLAN : bool;
  ksStrictDNS : bool;
  allowedSubnets : list IPNet;
  vpnActive : bool;
  lastStateChange : Z;
  dnsLeakGuard : DNSLeakGuard;
  ipv6Blocker : IPv6Blocker;
  stateListeners : list nat;
}.

Definition parseCIDRs (cidrs : list string) : list IPNet := omap ParseCIDR cidrs.

Definition defaultCIDRs : list string :=
  ["10.0.0.0/8"; "172.16.0.0/12"; "192.168.0.0/16"; "127.0.0.0/8"]%string.

Definition New (now : Z) (en block6 lan strict : bool) (allowedCIDRs : list string) : KillSwitch :=
  let subnets := parseCIDRs allowedCIDRs in
  let subnets := if (len subnets =? 0) && lan then subnets ++ parseCIDRs defaultCIDRs else subnets in
  {| state := if en then StateBlocking else StateDisabled;
     enabled := en; ksBlockIPv6 := block6; allowLocalLAN := lan; ksStrictDNS := strict;
     allowedSubnets := subnets; vpnActive := false; lastStateChange := now;
     dnsLeakGuard := NewDNSLeakGuard strict; ipv6Blocker := NewIPv6Blocker block6;
     stateListeners := [] |}.

Definition OnStateChange (ks : KillSwitch) (callback : nat) : KillSwitch :=
  {| state := state ks; enabled := enabled ks; ksBlockIPv6 := ksBlockIPv6 ks;
     allowLocalLAN := allowLocalLAN ks; ksStrictDNS := ksStrictDNS ks;
     allowedSubnets := allowedSubnets ks; vpnActive := vpnActive ks;
     lastStateChange := lastStateChange ks; dnsLeakGuard := dnsLeakGuard ks;
     ipv6Blocker := ipv6Blocker ks; stateListeners := stateListeners ks ++ [callback] |}.

Definition nextState (ks : KillSwitch) (active : bool) : State :=
  if negb (enabled ks) then StateDisabled
  else if active then StateActive else StateBlocking.

(** The new kill-switch and the callbacks run, with their arguments. *)
Definition SetVPNActive (now : Z) (ks : KillSwitch) (active : bool)
    : KillSwitch * list (nat * State * State) :=
  let oldState := state ks in
  let newState := nextState ks active in
  let changed := negb (bool_decide (oldState = newState)) in
  ({| state := newState; enabled := enabled ks; ksBlockIPv6 := ksBlockIPv6 ks;
      allowLocalLAN := allowLocalLAN ks; ksStrictDNS := ksStrictDNS ks;
      allowedSubnets := allowedSubnets ks; vpnActive := active;
      lastStateChange := if changed then now else lastStateChange ks;
      dnsLeakGuard := dnsLeakGuard ks; ipv6Blocker := ipv6Blocker ks;
      stateListeners := stateListeners ks |},
   if changed then map (fun cb => (cb, oldState, newState)) (stateListeners ks) else []).

Definition GetState (ks : KillSwitch) : State := state ks.
Definition IsVPNActive (ks : KillSwitch) : bool := vpnActive ks.

Definition EvaluatePacket (ks : KillSwitch) (dstIP : IP) (dstPort : Z) (isIPv6 isDNS : bool)
    : PolicyDecision :=
  if negb (enabled ks) then DecisionAllow
  else if (isIPv6 && ksBlockIPv6 ks) && negb (AllowIPv6 (ipv6Blocker ks) dstIP) then DecisionDrop
  else if (isDNS || (dstPort =? 53))
          && negb (AllowDNSQuery (dnsLeakGuard ks) dstIP dstPort (vpnActive ks)) then DecisionDrop
  else if vpnActive ks then DecisionAllow
  else if (allowLocalLAN ks && negb (is_nil dstIP))
          && existsb (fun subnet => net_Contains subnet dstIP) (allowedSubnets ks)
    then DecisionAllow
  else DecisionDrop.

Definition IsLANIP (ks : KillSwitch) (ip : IP) : bool :=
  if is_nil ip then false
  else existsb (fun subnet => net_Contains subnet ip) (allowedSubnets ks).

(** ** Steps and reachable kill-switches *)

Inductive step : KillSwitch -> KillSwitch -> Prop :=
  | step_vpn ks now active : step ks (SetVPNActive now ks active).1
  | step_listen ks cb : step ks (OnStateChange ks cb).

Definition initial (ks : KillSwitch) : Prop :=
  exists now en block6 lan strict cidrs, ks = New now en block6 lan strict cidrs.

Definition reachable (ks : KillSwitch) : Prop := exists ks0, initial ks0 /\ rtc step ks0 ks.

(** The state is the one the two flags determine, and the guards hold the
    configuration the kill-switch was built with. *)
Record wf (ks : KillSwitch) : Prop := {
  wf_state : state ks = nextState ks (vpnActive ks);
  wf_dns : dnsLeakGuard ks = NewDNSLeakGuard (ksStrictDNS ks);
  wf_v6 : ipv6Blocker ks = NewIPv6Blocker (ksBlockIPv6 ks);
}.

Lemma wf_initial ks : initial ks -> wf ks.
Proof. intros (now & en & b & l & s & c & ->). split; try done. by destruct en. Qed.

Lemma wf_step ks ks' : step ks ks' -> wf ks -> wf ks'.
Proof. by destruct 1; intros [Hs Hd Hv]; split. Qed.

Lemma wf_reachable ks : reachable ks -> wf ks.
Proof.
  intros (ks0 & Hi & Hr). apply wf_initial in Hi. revert Hi.
  induction Hr; eauto using wf_step.
Qed.

(** ** What the kill-switch promises *)

Definition loopback_dst (ip : IP) : Prop := is_nil ip = false /\ IsLoopback ip = true.

(** One of the resolvers the DNS guard is built with. *)
Definition trusted_dst (ip : IP) : Prop :=
  is_nil ip = false /\ exists r, r ∈ trustedResolvers /\ Equal (ParseIP r) ip = true.

Definition lan_dst (ks : KillSwitch) (ip : IP) : Prop :=
  is_nil ip = false /\ exists subnet, subnet ∈ allowedSubnets ks /\ net_Contains subnet ip = true.

Definition v6_permitted (ks : KillSwitch) (ip : IP) (isIPv6 : bool) : Prop :=
  isIPv6 = true -> ksBlockIPv6 ks = true -> loopback_dst ip.

Definition dns_permitted (ks : KillSwitch) (ip : IP) (port : Z) (isDNS : bool) : Prop :=
  isDNS = true \/ port = 53 -> ksStrictDNS ks = true ->
  loopback_dst ip \/ (vpnActive ks = true /\ (trusted_dst ip \/ port = 853 \/ port = 443)).

Definition tunnel_or_lan (ks : KillSwitch) (ip : IP) : Prop :=
  vpnActive ks = true \/ (allowLocalLAN ks = true /\ lan_dst ks ip).

Lemma AllowIPv6_spec b ip :
  AllowIPv6 (NewIPv6Blocker b) ip = true <-> (b = true -> loopback_dst ip).
Proof.
  unfold AllowIPv6, NewIPv6Blocker, loopback_dst. simpl. destruct b; simpl; [|done].
  destruct (is_nil ip); [naive_solver|].
  rewrite orb_true_iff. split; [intros [?|?%Equal_loopback6] _; done | naive_solver].
Qed.

Lemma AllowDNSQuery_spec strict ip port vpn :
  AllowDNSQuery (NewDNSLeakGuard strict) ip port vpn = true <->
  (strict = true ->
   loopback_dst ip \/ (vpn = true /\ (trusted_dst ip \/ port = 853 \/ port = 443))).
Proof.
  unfold AllowDNSQuery, loopback_dst, trusted_dst. cbn [strictDNS allowedDNSIPs NewDNSLeakGuard].
  destruct strict; cbn [negb]; [|done].
  assert (Htr : existsb (fun allowed => Equal allowed ip) (map ParseIP trustedResolvers) = true
            <-> exists r, r ∈ trustedResolvers /\ Equal (ParseIP r) ip = true).
  { rewrite existsb_exists. setoid_rewrite in_map_iff. setoid_rewrite <- list_elem_of_In.
    naive_solver. }
  pose proof (Equal_loopback4 ip) as H4. pose proof (Equal_loopback6 ip) as H6.
  rewrite <- Htr. clear Htr.
  destruct vpn; cbn [negb andb].
  - rewrite andb_true_r, <- (Z.eqb_eq port 853), <- (Z.eqb_eq port 443), <- orb_true_iff.
    destruct (is_nil ip), (IsLoopback ip), (existsb _ _); cbn [negb andb orb]; clear; naive_solver.
  - destruct (is_nil ip), (IsLoopback ip), (port =? 53); cbn [negb andb orb];
      rewrite ?orb_true_iff; clear - H4 H6; naive_solver.
Qed.

Lemma allow_when b c d e :
  (if b : bool then DecisionDrop else if c : bool then DecisionDrop
   else if d : bool then DecisionAllow else if e : bool then DecisionAllow else DecisionDrop)
    = DecisionAllow <-> b = false /\ c = false /\ (d = true \/ e = true).
Proof. destruct b, c, d, e; naive_solver. Qed.

Lemma v6_gate ks ip isIPv6 :
  (isIPv6 && ksBlockIPv6 ks) && negb (AllowIPv6 (NewIPv6Blocker (ksBlockIPv6 ks)) ip) = false
  <-> v6_permitted ks ip isIPv6.
Proof.
  unfold v6_permitted. rewrite andb_false_iff, negb_false_iff, AllowIPv6_spec.
  destruct isIPv6, (ksBlockIPv6 ks); naive_solver.
Qed.

Lemma dns_gate ks ip port isDNS :
  (isDNS || (port =? 53))
    && negb (AllowDNSQuery (NewDNSLeakGuard (ksStrictDNS ks)) ip port (vpnActive ks)) = false
  <-> dns_permitted ks ip port isDNS.
Proof.
  unfold dns_permitted. rewrite andb_false_iff, orb_false_iff, negb_false_iff, AllowDNSQuery_spec.
  rewrite Z.eqb_neq. destruct isDNS, (decide (port = 53)); naive_solver.
Qed.

Lemma lan_gate ks ip :
  (allowLocalLAN ks && negb (is_nil ip))
    && existsb (fun subnet => net_Contains subnet ip) (allowedSubnets ks) = true
  <-> allowLocalLAN ks = true /\ lan_dst ks ip.
Proof.
  unfold lan_dst. rewrite !andb_true_iff, negb_true_iff, existsb_exists.
  setoid_rewrite <- list_elem_of_In. naive_solver.
Qed.

Lemma allow_iff ks ip port isIPv6 isDNS : reachable ks ->
  EvaluatePacket ks ip port isIPv6 isDNS = DecisionAllow <->
  enabled ks = false \/
  (v6_permitted ks ip isIPv6 /\ dns_permitted ks ip port isDNS /\ tunnel_or_lan ks ip).
Proof.
  intros Hr. destruct (wf_reachable ks Hr) as [_ Hd Hv].
  unfold EvaluatePacket. destruct (enabled ks); cbn [negb]; [|naive_solver].
  rewrite allow_when, Hd, Hv, v6_gate, dns_gate, lan_gate. unfold tunnel_or_lan. naive_solver.
Qed.

(** C2. On every kill-switch the program can build and drive, a packet is let
    through exactly when the kill-switch is off, or the packet passes the IPv6
    guard and the DNS guard and leaves through the tunnel or towards a LAN
    subnet while LAN access is on. *)
Theorem evaluate_allow_iff ks ip port isIPv6 isDNS : reachable ks ->
  EvaluatePacket ks ip port isIPv6 isDNS = DecisionAllow <->
  enabled ks = false \/
  (v6_permitted ks ip isIPv6 /\ dns_permitted ks ip port isDNS /\ tunnel_or_lan ks ip).
Proof. apply allow_iff. Qed.

(** Fail-safe: on an enabled kill-switch whose tunnel is down nothing leaves
    except towards a configured LAN subnet, and with strict DNS a query on port
    53 goes nowhere but to the loopback resolver. *)
Theorem fail_safe ks ip port isIPv6 isDNS :
  reachable ks -> enabled ks = true -> vpnActive ks = false ->
  EvaluatePacket ks ip port isIPv6 isDNS = DecisionAllow ->
  allowLocalLAN ks = true /\ lan_dst ks ip /\
  (ksStrictDNS ks = true -> isDNS = true \/ port = 53 -> loopback_dst ip).
Proof.
  intros Hr He Hv Ha. apply allow_iff in Ha; [|done].
  destruct Ha as [Ha|(_ & Hd & Ht)]; [congruence|].
  destruct Ht as [?|[? ?]]; [congruence|]. do 2 (split; [done|]).
  intros Hs Hp. destruct (Hd Hp Hs) as [?|[? _]]; [done | congruence].
Qed.

(** The callbacks a run of tunnel reports makes. *)
Fixpoint run (ks : KillSwitch) (reports : list (Z * bool))
    : KillSwitch * list (nat * State * State) :=
  match reports with
  | [] => (ks, [])
  | (now, active) :: rest =>
      let '(ks1, calls) := SetVPNActive now ks active in
      let '(ks2, calls') := run ks1 rest in (ks2, calls ++ calls')
  end.

(** What a listener is told: the state changes of the run, in order. *)
Fixpoint transitions (en : bool) (s : State) (reports : list (Z * bool)) : list (State * State) :=
  match reports with
  | [] => []
  | (_, active) :: rest =>
      let s' := if en then (if active then StateActive else StateBlocking) else StateDisabled in
      (if bool_decide (s = s') then [] else [(s, s')]) ++ transitions en s' rest
  end.

(** Over any sequence of tunnel reports each registered listener hears
    exactly the state changes of the run, once each and in order, and the final
    state is the one of the last report. *)
Theorem listeners_hear_transitions ks reports :
  (run ks reports).2 =
    flat_map (fun tr => map (fun cb => (cb, tr.1, tr.2)) (stateListeners ks))
      (transitions (enabled ks) (state ks) reports)
  /\ state (run ks reports).1 =
     match last reports with Some (_, active) => nextState ks active | None => state ks end.
Proof.
  revert ks. induction reports as [|[now active] rest IH]; intros ks; [done|].
  cbn [run transitions SetVPNActive].
  specialize (IH (SetVPNActive now ks active).1).
  cbn [SetVPNActive fst enabled state stateListeners] in IH.
  destruct (run _ rest) as [ks2 calls'] eqn:E. cbn [fst snd] in IH |- *.
  destruct IH as [-> Hfin]. split.
  - assert (Hn : nextState ks active = if enabled ks
      then (if active then StateActive else StateBlocking) else StateDisabled)
      by (unfold nextState; by destruct (enabled ks)).
    rewrite <- Hn, flat_map_app. f_equal.
    destruct (bool_decide _); cbn [negb flat_map]; by rewrite ?app_nil_r.
  - rewrite Hfin. destruct rest as [|r rest]; [done|]. rewrite last_cons_cons.
    destruct (last (r :: rest)) as [[? ?]|] eqn:El; [done|]. by apply last_None in El.
Qed.

(** ** Witnesses *)

Definition ks_demo : KillSwitch := New 0 true true true true ["192.168.0.0/16"; "10.0.0.0/8"]%string.

Lemma ks_demo_reachable : reachable ks_demo.
Proof. exists ks_demo. split; [by repeat eexists | apply rtc_refl]. Qed.

Lemma evaluate_allow_iff_witness :
  EvaluatePacket ks_demo (ParseIP "192.168.1.1") 80 false false = DecisionAllow /\
  (enabled ks_demo = false \/
   (v6_permitted ks_demo (ParseIP "192.168.1.1") false
    /\ dns_permitted ks_demo (ParseIP "192.168.1.1") 80 false
    /\ tunnel_or_lan ks_demo (ParseIP "192.168.1.1"))).
Proof.
  assert (E : EvaluatePacket ks_demo (ParseIP "192.168.1.1") 80 false false = DecisionAllow)
    by (vm_compute; reflexivity).
  split; [exact E|]. apply (evaluate_allow_iff _ _ _ _ _ ks_demo_reachable). exact E.
Defined.

Lemma fail_safe_witness :
  allowLocalLAN ks_demo = true /\ lan_dst ks_demo (ParseIP "10.1.2.3") /\
  (ksStrictDNS ks_demo = true -> false = true \/ 443 = 53 -> loopback_dst (ParseIP "10.1.2.3")).
Proof.
  apply (fail_safe ks_demo (ParseIP "10.1.2.3") 443 false false ks_demo_reachable);
    vm_compute; reflexivity.
Defined.

Example listeners_demo :
  (run (OnStateChange ks_demo 7) [(1, true); (2, true); (3, false)]).2
    = [(7%nat, StateBlocking, StateActive); (7%nat, StateActive, StateBlocking)].
Proof. reflexivity. Qed.
End KillSwitch.
