(* ===== verification/Whitelist.v ===== *)
(** * The self-protection whitelist (src/pkg/security/guard/whitelist.go)

    The process and address whitelist, and the interface [IPWhitelist] through
    which the rate limiter and the port monitor consult it. *)
From S2P Require Import Prelude GoStrings.

(** What the guards rely on: membership looks at the trimmed, lower-cased
    address, and the loopback names are always protected. *)
Class IPWhitelist (W : Type) := {
  ip_protected : W -> string -> bool;
  ip_protected_clean : forall w s, ip_protected w (clean_key s) = ip_protected w s;
}.

(** A nil whitelist protects nothing: [wl != nil && wl.IsIPProtected(ip)]. *)
Definition opt_protected {W} `{IPWhitelist W} (w : option W) (ip : string) : bool :=
  match w with Some w => ip_protected w ip | None => false end.

Module ProcessWhitelist.
Record ProcessWhitelist := mkProcessWhitelist {
  protectedNames : gset string;
  protectedIPs : gset string;
  ownPID : Z;
}.

Definition builtinNames : list string :=
  ["sentinel-core"; "sentinel-core.exe"; "sing-box"; "sing-box.exe"; "xray"; "xray.exe";
   "hysteria"; "hysteria.exe"; "ansible"; "ansible-playbook"; "pveproxy"; "sshd"; "dockerd"]%string.
Definition builtinIPs : list string := ["127.0.0.1"; "::1"; "localhost"]%string.

(** [clean := strings.ToLower(strings.TrimSpace(x)); if clean != "" { m[clean] = true }] *)
Definition add_clean (m : gset string) (x : string) : gset string :=
  let clean := clean_key x in
  if clean =s "" then m else {[clean]} ∪ m.

Definition NewProcessWhitelist (pid : Z) (customProcesses customIPs : list string)
    : ProcessWhitelist :=
  {| protectedNames := foldl add_clean (list_to_set builtinNames) customProcesses;
     protectedIPs := foldl add_clean (list_to_set builtinIPs) customIPs;
     ownPID := pid |}.

Definition mem (m : gset string) (x : string) : bool := bool_decide (x ∈ m).

Definition IsProcessProtected (w : ProcessWhitelist) (procName : string) (pid : Z) : bool :=
  if (0 <? pid) && (pid =? ownPID w) then true
  else
    let clean := clean_key procName in
    if mem (protectedNames w) clean then true
    else
      let base := ToLower (Base (ReplaceByte clean "\" "/")) in
      if mem (protectedNames w) base then true
      else mem (protectedNames w) (TrimSuffix base ".exe").

Definition IsIPProtected (w : ProcessWhitelist) (ipStr : string) : bool :=
  mem (protectedIPs w) (clean_key ipStr).

Definition AddProcess (w : ProcessWhitelist) (procName : string) : ProcessWhitelist :=
  {| protectedNames := add_clean (protectedNames w) procName;
     protectedIPs := protectedIPs w; ownPID := ownPID w |}.

Definition AddIP (w : ProcessWhitelist) (ipStr : string) : ProcessWhitelist :=
  {| protectedNames := protectedNames w;
     protectedIPs := add_clean (protectedIPs w) ipStr; ownPID := ownPID w |}.

Lemma IsIPProtected_clean w s : IsIPProtected w (clean_key s) = IsIPProtected w s.
Proof. unfold IsIPProtected. by rewrite clean_key_idemp. Qed.

#[export] Instance process_whitelist : IPWhitelist ProcessWhitelist := {
  ip_protected := IsIPProtected;
  ip_protected_clean := IsIPProtected_clean;
}.

(** ** What the whitelist promises *)

Lemma elem_of_add_clean m x k :
  k ∈ add_clean m x <-> k ∈ m \/ (k = clean_key x /\ clean_key x <> ""%string).
Proof.
  unfold add_clean. destruct (String.eqb_spec (clean_key x) ""); set_solver.
Qed.

Lemma elem_of_foldl_add m xs k :
  k ∈ foldl add_clean m xs <-> k ∈ m \/ (k <> ""%string /\ exists x, x ∈ xs /\ k = clean_key x).
Proof.
  revert m. induction xs as [|x xs IH]; intros m; cbn [foldl]; [set_solver|].
  rewrite IH, elem_of_add_clean. set_solver.
Qed.

(** A whitelist of the program: built once, then extended. *)
Inductive grown : ProcessWhitelist -> ProcessWhitelist -> Prop :=
  | grown_process w p : grown w (AddProcess w p)
  | grown_ip w ip : grown w (AddIP w ip).

Lemma grown_mono w w' : rtc grown w w' ->
  protectedNames w ⊆ protectedNames w' /\ protectedIPs w ⊆ protectedIPs w' /\ ownPID w = ownPID w'.
Proof.
  induction 1 as [|w1 w2 w3 [? p|? ip] _ IH]; [done| |]; cbn in IH;
    destruct IH as (H1 & H2 & H3); repeat split; auto;
    intros k Hk; (apply H1 || apply H2); apply elem_of_add_clean; by left.
Qed.

Lemma grown_IP w w' ip : rtc grown w w' -> IsIPProtected w ip = true -> IsIPProtected w' ip = true.
Proof.
  intros (_ & Hi & _)%grown_mono. unfold IsIPProtected, mem. rewrite !bool_decide_eq_true. apply Hi.
Qed.

(** Self-protection is permanent: whatever is protected by a whitelist,
    by address, by process name or by being this very process, stays protected
    after any number of [AddProcess] and [AddIP] calls; and an address just
    added is protected however it is spelled (case and surrounding space). *)
Theorem protection_is_permanent w w' :
  rtc grown w w' ->
  (forall ip, IsIPProtected w ip = true -> IsIPProtected w' ip = true) /\
  (forall name pid, IsProcessProtected w name pid = true -> IsProcessProtected w' name pid = true) /\
  (forall ip ip', clean_key ip' <> ""%string -> clean_key ip = clean_key ip' ->
     IsIPProtected (AddIP w' ip') ip = true).
Proof.
  intros Hg. pose proof (grown_mono w w' Hg) as (Hn & Hi & Hp).
  unfold IsIPProtected, IsProcessProtected, mem. repeat split.
  - intros ip. rewrite !bool_decide_eq_true. apply Hi.
  - intros name pid. rewrite <- Hp. destruct (_ && _); [done|].
    repeat case_bool_decide; try done; exfalso; auto.
  - intros ip ip' Hne Heq. rewrite bool_decide_eq_true. cbn.
    apply elem_of_add_clean. by right.
Qed.

Definition wl_demo : ProcessWhitelist := NewProcessWhitelist 4242 ["nginx"]%string ["10.0.0.5"]%string.

Lemma protection_is_permanent_witness :
  IsProcessProtected (AddIP (AddProcess wl_demo "Caddy") "10.9.9.9") "C:\bin\XRAY.exe" 1 = true /\
  IsIPProtected (AddIP (AddIP (AddProcess wl_demo "Caddy") "10.9.9.9") "FE80::1") " fe80::1 " = true.
Proof.
  assert (Hg : rtc grown wl_demo (AddIP (AddProcess wl_demo "Caddy") "10.9.9.9"))
    by (eapply rtc_l; [apply grown_process | apply rtc_once, grown_ip]).
  destruct (protection_is_permanent _ _ Hg) as (_ & Hp & Hi). split.
  - apply Hp. vm_compute. reflexivity.
  - apply Hi; vm_compute; congruence.
Defined.
End ProcessWhitelist.
