(* ===== verification/RateLimiter.v ===== *)
(** * The rate limiter (src/pkg/security/guard/rate_limiter.go)

    A token bucket per client with a temporary ban after repeated violations.
    The limiter is parameterised by its arithmetic ([Arith]: binary64 in the
    program, rationals for the token-bucket bound) and by the whitelist it
    consults ([IPWhitelist]).  Every operation takes the reading of the clock it
    makes and runs under the limiter's mutex, so it is one atomic step. *)
From Stdlib Require Import QArith Lqa.
From S2P Require Import Prelude GoStrings GoFloat Whitelist.
Open Scope Z_scope.

Module RateLimiter.
Section limiter.
Context {F : Type} `{Arith F} {W : Type} `{IPWhitelist W}.

Record clientBucket := mkBucket {
  tokens : F;
  lastUpdate : Z;
  violations : Z;
  bannedUntil : Z;
}.

Record RateLimiter := mkRateLimiter {
  enabled : bool;
  rps : F;
  burst : F;
  banThreshold : Z;
  banDuration : Z;
  buckets : gmap string clientBucket;
  whitelist : option W;
  stopped : bool;
}.

Definition set_buckets (rl : RateLimiter) (m : gmap string clientBucket) : RateLimiter :=
  {| enabled := enabled rl; rps := rps rl; burst := burst rl; banThreshold := banThreshold rl;
     banDuration := banDuration rl; buckets := m; whitelist := whitelist rl;
     stopped := stopped rl |}.

Definition NewRateLimiter (en : bool) (rps0 : F) (burst0 threshold durationSec : Z)
    (wl : option W) : RateLimiter :=
  {| enabled := en;
     rps := if f_le rps0 (f_of_Z 0) then f_of_Z 50 else rps0;
     burst := f_of_Z (if burst0 <=? 0 then 100 else burst0);
     banThreshold := if threshold <=? 0 then 20 else threshold;
     banDuration := DurMul (if durationSec <=? 0 then 300 else durationSec) Second;
     buckets := ∅; whitelist := wl; stopped := false |}.

(** The refill: tokens earned since the last update, clamped to the burst. *)
Definition refill (now : Z) (rl : RateLimiter) (b : clientBucket) : F :=
  let t := f_add (tokens b) (f_mul (f_seconds (Sub now (lastUpdate b))) (rps rl)) in
  if f_lt (burst rl) t then burst rl else t.

(** The body of [Allow] for a client that already has a bucket. *)
Definition charge (now : Z) (rl : RateLimiter) (b : clientBucket) : clientBucket * bool :=
  if Before now (bannedUntil b) then (b, false)
  else
    let t := refill now rl b in
    if f_le (f_of_Z 1) t
    then (mkBucket (f_sub t (f_of_Z 1)) now (violations b) (bannedUntil b), true)
    else
      let v := wrap64 (violations b + 1) in
      if banThreshold rl <=? v
      then (mkBucket t now 0 (Add now (banDuration rl)), false)
      else (mkBucket t now v (bannedUntil b), false).

Definition Allow (now : Z) (rl : RateLimiter) (clientKey : string) : RateLimiter * bool :=
  if negb (enabled rl) then (rl, true)
  else if opt_protected (whitelist rl) clientKey then (rl, true)
  else
    match buckets rl !! clientKey with
    | None =>
        let b := mkBucket (f_sub (burst rl) (f_of_Z 1)) now 0 zeroTime in
        (set_buckets rl (<[clientKey := b]> (buckets rl)), true)
    | Some b =>
        let '(b', ok) := charge now rl b in
        (set_buckets rl (<[clientKey := b']> (buckets rl)), ok)
    end.

Definition IsBanned (now : Z) (rl : RateLimiter) (clientKey : string) : bool :=
  match buckets rl !! clientKey with
  | None => false
  | Some b => Before now (bannedUntil b)
  end.

Definition Unban (rl : RateLimiter) (clientKey : string) : RateLimiter :=
  match buckets rl !! clientKey with
  | Some b => set_buckets rl (<[clientKey := mkBucket (burst rl) (lastUpdate b) 0 zeroTime]> (buckets rl))
  | None => rl
  end.

Definition Stop (rl : RateLimiter) : RateLimiter :=
  {| enabled := enabled rl; rps := rps rl; burst := burst rl; banThreshold := banThreshold rl;
     banDuration := banDuration rl; buckets := buckets rl; whitelist := whitelist rl;
     stopped := true |}.

(** One tick of the cleanup loop; a stopped loop does nothing. *)
Definition cleanupTick (now : Z) (rl : RateLimiter) : RateLimiter :=
  if stopped rl then rl
  else set_buckets rl
    (range_delete (fun _ b => After now (bannedUntil b)
                              && (10 * Minute <? Sub now (lastUpdate b))) (buckets rl)).

(** ** Runs *)

Inductive op := OpAllow (key : string) | OpUnban (key : string) | OpCleanup | OpStop.

Definition exec (now : Z) (rl : RateLimiter) (o : op) : RateLimiter * option bool :=
  match o with
  | OpAllow k => let '(rl', ok) := Allow now rl k in (rl', Some ok)
  | OpUnban k => (Unban rl k, None)
  | OpCleanup => (cleanupTick now rl, None)
  | OpStop => (Stop rl, None)
  end.

Fixpoint run (rl : RateLimiter) (tr : list (Z * op)) : RateLimiter * list (option bool) :=
  match tr with
  | [] => (rl, [])
  | (now, o) :: tr' =>
      let '(rl1, r) := exec now rl o in
      let '(rl2, rs) := run rl1 tr' in (rl2, r :: rs)
  end.

(** The part of the limiter no operation changes. *)
Definition same_config (rl rl' : RateLimiter) : Prop :=
  enabled rl = enabled rl' /\ rps rl = rps rl' /\ burst rl = burst rl' /\
  banThreshold rl = banThreshold rl' /\ banDuration rl = banDuration rl' /\
  whitelist rl = whitelist rl'.

Lemma same_config_refl rl : same_config rl rl.
Proof. by repeat split. Qed.

Lemma exec_config now rl o : same_config rl (exec now rl o).1.
Proof.
  destruct o; cbn; unfold Allow, Unban, cleanupTick;
    repeat (case_match; simplify_eq/=); by repeat split.
Qed.

(** ** Isolation: a request of one client does not touch another's bucket *)
Lemma Allow_other now rl k j : k <> j -> buckets (Allow now rl k).1 !! j = buckets rl !! j.
Proof.
  intros Hne. unfold Allow. destruct (enabled rl); cbn; [|done].
  destruct (opt_protected _ _); [done|].
  destruct (buckets rl !! k) as [b|]; [destruct (charge now rl b)|]; cbn; by simplify_map_eq.
Qed.

(** ** The ban *)

Lemma charge_banned now rl b : now < bannedUntil b -> charge now rl b = (b, false).
Proof. intros. unfold charge, Before. by rewrite (proj2 (Z.ltb_lt _ _)). Qed.

Lemma Allow_banned now rl k b :
  enabled rl = true -> opt_protected (whitelist rl) k = false ->
  buckets rl !! k = Some b -> now < bannedUntil b ->
  Allow now rl k = (set_buckets rl (buckets rl), false).
Proof.
  intros He Hw Hb Hn. unfold Allow. rewrite He, Hw, Hb, charge_banned by done. cbn.
  by rewrite insert_id.
Qed.

(** A step taken before the ban ends leaves a banned bucket as it is, unless
    it unbans that very client. *)
Lemma exec_keeps_ban now rl o k b :
  enabled rl = true -> opt_protected (whitelist rl) k = false ->
  buckets rl !! k = Some b -> now < bannedUntil b -> o <> OpUnban k ->
  buckets (exec now rl o).1 !! k = Some b.
Proof.
  intros He Hw Hb Hn Ho. destruct o as [j|j| |]; cbn.
  - destruct (decide (j = k)) as [->|Hjk].
    + by rewrite (Allow_banned _ _ _ b).
    + destruct (Allow now rl j) eqn:E. cbn.
      change r with (r, b0).1. by rewrite <- E, Allow_other.
  - unfold Unban. destruct (buckets rl !! j); [|done]. cbn.
    rewrite lookup_insert_ne; [done|congruence].
  - unfold cleanupTick. destruct (stopped rl); [done|]. cbn.
    rewrite lookup_range_delete, Hb. unfold After.
    by rewrite (proj2 (Z.ltb_ge _ _)) by lia.
  - done.
Qed.

(** C11. While a ban lasts it is absolute: in any run of operations of any
    clients, cleanups included, whose clock stays before the end of the ban and
    which does not unban the client, every request of the banned client is
    refused and its bucket, hence the end of its ban, does not move. *)
Theorem ban_is_absolute rl tr k b :
  enabled rl = true -> opt_protected (whitelist rl) k = false ->
  buckets rl !! k = Some b ->
  Forall (fun e => e.1 < bannedUntil b /\ e.2 <> OpUnban k) tr ->
  buckets (run rl tr).1 !! k = Some b /\
  (forall i now, tr !! i = Some (now, OpAllow k) -> (run rl tr).2 !! i = Some (Some false)).
Proof.
  revert rl. induction tr as [|[now o] tr IH]; intros rl He Hw Hb Htr; [done|].
  apply Forall_cons in Htr as [[Hn Ho] Htr]. cbn in Hn, Ho. cbn [run].
  pose proof (exec_keeps_ban now rl o k b He Hw Hb Hn Ho) as Hb1.
  pose proof (exec_config now rl o) as (Hc1 & _ & _ & _ & _ & Hc2).
  destruct (exec now rl o) as [rl1 r] eqn:E. cbn in Hb1, Hc1, Hc2.
  destruct (IH rl1) as [IH1 IH2]; [congruence|congruence|done|done|].
  destruct (run rl1 tr) as [rl2 rs] eqn:E2. cbn in IH1, IH2 |- *. split; [done|].
  intros [|i] now'; cbn; [|apply IH2]. intros [= -> ->].
  cbn in E. rewrite (Allow_banned _ _ _ b) in E by done. by simplify_eq.
Qed.

(** ** Violations *)

Definition wf (rl : RateLimiter) : Prop :=
  0 < banThreshold rl < 2^63 /\
  map_Forall (fun _ b => 0 <= violations b < banThreshold rl) (buckets rl).

Lemma wf_New en rps0 burst0 threshold dur wl :
  threshold < 2^63 -> wf (NewRateLimiter en rps0 burst0 threshold dur wl).
Proof.
  intros. split; cbn; [destruct (Z.leb_spec threshold 0); lia | apply map_Forall_empty].
Qed.

Lemma charge_violations now rl b :
  wf rl -> 0 <= violations b < banThreshold rl ->
  0 <= violations (charge now rl b).1 < banThreshold rl.
Proof.
  intros [Ht _] Hb. unfold charge. rewrite wrap64_small by lia.
  repeat case_match; cbn; lia.
Qed.

Lemma wf_exec now rl o : wf rl -> wf (exec now rl o).1.
Proof.
  intros Hwf. pose proof Hwf as [Ht Hm]. destruct o as [k|k| |]; cbn.
  - unfold Allow. destruct (negb _); [done|]. destruct (opt_protected _ _); [done|].
    destruct (buckets rl !! k) as [b|] eqn:Hb.
    + pose proof (charge_violations now rl b Hwf (Hm _ _ Hb)).
      destruct (charge now rl b) as [b' ok]. split; [done|]. cbn in *.
      by apply map_Forall_insert_2.
    + split; [done|]. apply map_Forall_insert_2; [cbn; lia | done].
  - unfold Unban. destruct (buckets rl !! k) eqn:Hb; [|done]. split; [done|].
    apply map_Forall_insert_2; [cbn; lia | done].
  - unfold cleanupTick. destruct (stopped rl); [done|]. split; [done|].
    intros j b Hj. apply (Hm j). eapply lookup_weaken; [exact Hj|apply range_delete_subseteq].
  - done.
Qed.

Lemma wf_run rl tr : wf rl -> wf (run rl tr).1.
Proof.
  revert rl. induction tr as [|[now o] tr IH]; intros rl Hwf; [done|]. cbn [run].
  apply (wf_exec now _ o) in Hwf. destruct (exec now rl o) as [rl1 r]. cbn in Hwf.
  specialize (IH rl1 Hwf). by destruct (run rl1 tr).
Qed.

(** Violation accounting, on every limiter any run can produce: a client
    that is not banned is refused exactly when its refilled bucket holds less
    than one token; each such refusal counts one violation, and the refusal
    that reaches the threshold starts a ban of the configured duration and
    clears the counter.  A granted request changes neither. *)
Theorem refusal_accounting en rps0 burst0 threshold dur wl tr now k b rl :
  threshold < 2^63 ->
  rl = (run (NewRateLimiter en rps0 burst0 threshold dur wl) tr).1 ->
  enabled rl = true -> opt_protected (whitelist rl) k = false ->
  buckets rl !! k = Some b -> bannedUntil b <= now ->
  (Allow now rl k).2 = f_le (f_of_Z 1) (refill now rl b) /\
  exists b', buckets (Allow now rl k).1 !! k = Some b' /\ lastUpdate b' = now /\
    (violations b', bannedUntil b') =
      (if f_le (f_of_Z 1) (refill now rl b) then (violations b, bannedUntil b)
       else if violations b + 1 <? banThreshold rl then (violations b + 1, bannedUntil b)
       else (0, now + banDuration rl)) /\
    IsBanned now (Allow now rl k).1 k =
      (if f_le (f_of_Z 1) (refill now rl b) then false
       else if violations b + 1 <? banThreshold rl then false
       else 0 <? banDuration rl).
Proof.
  intros Hth -> He Hw Hb Hn. set (rl := (run _ tr).1) in *.
  assert (Hwf : wf rl) by (by apply wf_run, wf_New).
  pose proof Hwf as [Ht Hm]. pose proof (Hm _ _ Hb) as Hv. cbn in Hv.
  unfold Allow, IsBanned. rewrite He, Hw, Hb. cbn. unfold charge, Before.
  rewrite (proj2 (Z.ltb_ge _ _)) by done. rewrite wrap64_small by lia.
  destruct (f_le _ _); cbn.
  - split; [done|]. eexists. rewrite lookup_insert_eq. repeat split.
    by apply Z.ltb_ge.
  - rewrite Z.leb_antisym. destruct (_ <? banThreshold rl); cbn.
    + split; [done|]. eexists. rewrite lookup_insert_eq. repeat split. by apply Z.ltb_ge.
    + split; [done|]. eexists. rewrite lookup_insert_eq. repeat split. unfold Add.
      apply eq_true_iff_eq. rewrite !Z.ltb_lt. cbn. lia.
Qed.
End limiter.
Arguments clientBucket : clear implicits.
Arguments RateLimiter : clear implicits.
Arguments op : clear implicits.

(** ** The token-bucket bound, in exact arithmetic *)
Section exact.
Context {W : Type} `{IPWhitelist W}.
Implicit Types (rl : RateLimiter Q W).
Open Scope Q_scope.

(** Seconds between two instants. *)
Definition secs (t0 t1 : Z) : Q := f_seconds (F := Q) (t1 - t0)%Z.
#[local] Arguments secs : simpl never.

Lemma secs_split t0 t1 t2 : secs t0 t2 == secs t0 t1 + secs t1 t2.
Proof.
  unfold secs. rewrite !Qseconds_sub. ring.
Qed.

Lemma secs_nonneg t0 t1 : (t0 <= t1)%Z -> 0 <= secs t0 t1.
Proof.
  intros. unfold secs. apply Qseconds_nonneg. lia.
Qed.

Lemma secs_Sub t0 t1 : (t0 <= t1)%Z -> f_seconds (F := Q) (Sub t1 t0) <= secs t0 t1.
Proof. intros. apply Qseconds_le. unfold Sub, minInt64. lia. Qed.

(** The bucket of a client first seen at [t0] after [n] grants: what was
    granted and what is left never exceed the burst plus what was earned. *)
Definition budget rl (t0 now : Z) (n : nat) (b : clientBucket Q) : Prop :=
  (t0 <= lastUpdate b <= now)%Z /\ 0 <= tokens b /\
  inject_Z (Z.of_nat n) + tokens b <= burst rl + rps rl * secs t0 (lastUpdate b).

Lemma inject_S n : inject_Z (Z.of_nat (S n)) == inject_Z (Z.of_nat n) + 1.
Proof. rewrite Nat2Z.inj_succ. unfold Z.succ. by rewrite inject_Z_plus. Qed.

Lemma refill_bound now rl b t0 :
  0 <= rps rl -> (t0 <= lastUpdate b <= now)%Z -> 0 <= tokens b ->
  0 <= burst rl -> 0 <= refill now rl b /\
  refill now rl b <= tokens b + (rps rl * secs t0 now - rps rl * secs t0 (lastUpdate b)).
Proof.
  intros Hr Hl Ht Hb. pose proof (secs_Sub (lastUpdate b) now ltac:(lia)) as Hs.
  pose proof (secs_split t0 (lastUpdate b) now) as Hsp.
  assert (Hs0 : 0 <= f_seconds (F := Q) (Sub now (lastUpdate b))).
  { apply Qseconds_nonneg. unfold Sub, minInt64, maxInt64. lia. }
  assert (Hm : f_seconds (F := Q) (Sub now (lastUpdate b)) * rps rl
               <= rps rl * secs t0 now - rps rl * secs t0 (lastUpdate b)).
  { pose proof (Qmult_le_compat_r _ _ _ Hs Hr) as Hm.
    assert (rps rl * secs t0 now == rps rl * secs t0 (lastUpdate b)
            + secs (lastUpdate b) now * rps rl) as -> by (rewrite Hsp; ring).
    lra. }
  assert (0 <= f_seconds (F := Q) (Sub now (lastUpdate b)) * rps rl)
    by (apply Qmult_le_0_compat; done).
  unfold refill. cbn [f_add f_mul f_lt exact_arith].
  destruct (Qltb_spec (burst rl)
    (tokens b + f_seconds (F := Q) (Sub now (lastUpdate b)) * rps rl)); split; lra.
Qed.

Lemma charge_budget now rl b t0 n :
  0 <= rps rl -> 0 <= burst rl -> budget rl t0 now n b ->
  budget rl t0 now (if (charge now rl b).2 then S n else n) (charge now rl b).1.
Proof.
  intros Hr Hb (Hl & Ht & Hn). unfold charge.
  destruct (Before now (bannedUntil b)); [done|].
  destruct (refill_bound now rl b t0 Hr Hl Ht Hb) as [H0 H1].
  cbn [f_le f_sub f_of_Z exact_arith].
  destruct (Qle_bool_spec (inject_Z 1) (refill now rl b)) as [H2|H2].
  - unfold budget. cbn. rewrite inject_S. change (inject_Z 1) with 1 in *.
    split; [lia|]. split; lra.
  - destruct (_ <=? _)%Z; unfold budget; cbn; (split; [lia|]; split; lra).
Qed.

(** A run of requests, of any clients, in clock order. *)
Fixpoint requests (last : Z) (tr : list (Z * string)) : Prop :=
  match tr with [] => True | (t, _) :: tr' => (last <= t)%Z /\ requests t tr' end.

Fixpoint grants rl (k : string) (tr : list (Z * string)) : nat * RateLimiter Q W :=
  match tr with
  | [] => (0%nat, rl)
  | (t, j) :: tr' =>
      let '(rl', ok) := Allow t rl j in
      let '(n, rlf) := grants rl' k tr' in
      ((if bool_decide (j = k) && ok then S n else n), rlf)
  end.

Definition last_time (t0 : Z) (tr : list (Z * string)) : Z :=
  match last tr with Some (t, _) => t | None => t0 end.

Lemma last_time_cons t0 t j tr : last_time t0 ((t, j) :: tr) = last_time t tr.
Proof. unfold last_time. rewrite last_cons. by destruct (last tr). Qed.

Lemma grants_budget rl k tr t0 now n b :
  enabled rl = true -> opt_protected (whitelist rl) k = false ->
  0 <= rps rl -> 0 <= burst rl ->
  buckets rl !! k = Some b -> budget rl t0 now n b -> requests now tr ->
  inject_Z (Z.of_nat (n + (grants rl k tr).1)) <= burst rl + rps rl * secs t0 (last_time now tr).
Proof.
  revert rl now n b. induction tr as [|[t j] tr IH]; intros rl now n b He Hw Hr Hbu Hb Hbg Hrq.
  - cbn [grants fst]. rewrite Nat.add_0_r. destruct Hbg as (Hl & Ht & Hn).
    change (last_time now []) with now.
    assert (rps rl * secs t0 (lastUpdate b) <= rps rl * secs t0 now).
    { rewrite (secs_split t0 (lastUpdate b) now).
      pose proof (secs_nonneg (lastUpdate b) now ltac:(lia)).
      pose proof (Qmult_le_0_compat _ _ Hr H0). lra. }
    lra.
  - destruct Hrq as [Hnt Hrq]. cbn [grants]. rewrite last_time_cons.
    assert (Hbg' : budget rl t0 t n b).
    { destruct Hbg as (Hl & Ht & Hn). unfold budget. repeat split; try lia; done. }
    pose proof (exec_config t rl (OpAllow j)) as (Hc1 & Hc2 & Hc3 & Hc4 & Hc5 & Hc6).
    cbn in Hc1, Hc2, Hc3, Hc6.
    destruct (Allow t rl j) as [rl' ok] eqn:E. cbn in Hc1, Hc2, Hc3, Hc6.
    destruct (decide (j = k)) as [->|Hjk].
    + pose proof (charge_budget t rl b t0 n Hr Hbu Hbg') as Hch.
      unfold Allow in E. rewrite He, Hw, Hb in E. cbn in E.
      destruct (charge t rl b) as [b' ok'] eqn:Ec. injection E as <- <-. cbn in Hch.
      specialize (IH (set_buckets rl (<[k:=b']> (buckets rl))) t _ b' He Hw Hr Hbu
        (lookup_insert_eq _ _ _) Hch Hrq).
      destruct (grants _ k tr) as [m rlf]. rewrite bool_decide_eq_true_2 by done. cbn in IH |- *.
      destruct ok'; [by rewrite <- Nat.add_succ_comm | done].
    + assert (Hb' : buckets rl' !! k = Some b).
      { rewrite <- Hb, <- (Allow_other t rl j k Hjk), E. done. }
      assert (Hbg2 : budget rl' t0 t n b) by (unfold budget in *; by rewrite <- Hc2, <- Hc3).
      specialize (IH rl' t n b). rewrite <- Hc1, <- Hc2, <- Hc3, <- Hc6 in IH.
      specialize (IH He Hw Hr Hbu Hb' Hbg2).
      destruct (grants rl' k tr) as [m rlf]. rewrite bool_decide_eq_false_2 by done.
      cbn in IH |- *. by apply IH.
Qed.

(** C27. The token-bucket bound, in exact arithmetic: over any run of requests
    of any clients in clock order, a client first seen at [t0] is granted at
    most the burst plus the rate times the seconds elapsed, whatever the other
    clients do. *)
Theorem token_bucket_bound rl k t0 tr :
  enabled rl = true -> opt_protected (whitelist rl) k = false ->
  0 <= rps rl -> 1 <= burst rl -> buckets rl !! k = None -> requests t0 tr ->
  inject_Z (Z.of_nat (grants rl k ((t0, k) :: tr)).1)
    <= burst rl + rps rl * secs t0 (last_time t0 tr).
Proof.
  intros He Hw Hr Hbu Hb Hrq. cbn [grants]. unfold Allow. rewrite He, Hw, Hb. cbn [negb].
  pose (b := mkBucket (f_sub (burst rl) (f_of_Z 1)) t0 0%Z zeroTime).
  pose proof (grants_budget (set_buckets rl (<[k:=b]> (buckets rl))) k tr t0 t0 1 b He Hw Hr
    ltac:(cbn; lra) (lookup_insert_eq _ _ _)) as Hg.
  fold b. destruct (grants _ k tr) as [m rlf]. rewrite bool_decide_eq_true_2 by done.
  cbn in Hg |- *. apply Hg; [|done].
  unfold budget. cbn. change (inject_Z 1) with 1. split; [lia|].
  assert (secs t0 t0 == 0) as Hz by (unfold secs; rewrite Z.sub_diag; by vm_compute).
  split; [lra|]. rewrite Hz. change (inject_Z (Z.of_nat 1)) with 1. lra.
Qed.
End exact.

(** ** Witnesses *)
Section witnesses.
Open Scope Z_scope.
Import ProcessWhitelist.

Definition rl64 : RateLimiter float64 ProcessWhitelist :=
  NewRateLimiter true (f64_of_Z 1) 2 2 60 (Some wl_demo).

(** Two grants, two refusals (the second one bans), and a refusal. *)
Definition flood : list (Z * op) :=
  map (fun i => (i * Millisecond, OpAllow "203.0.113.9")) [1; 2; 3; 4; 5].

Example flood_result : (run rl64 flood).2 = [Some true; Some true; Some false; Some false; Some false].
Proof. vm_compute. reflexivity. Qed.

Lemma ban_is_absolute_witness : exists b,
  buckets (run (run rl64 flood).1 [(Second, OpCleanup); (30 * Second, OpAllow "203.0.113.9")]).1
    !! "203.0.113.9"%string = Some b /\ bannedUntil b = 4 * Millisecond + 60 * Second.
Proof.
  destruct (buckets (run rl64 flood).1 !! "203.0.113.9"%string) as [b|] eqn:E;
    [|vm_compute in E; discriminate].
  assert (Hu : bannedUntil b = 4 * Millisecond + 60 * Second)
    by (vm_compute in E; by injection E as <-).
  exists b. split; [|exact Hu].
  apply (ban_is_absolute (run rl64 flood).1
    [(Second, OpCleanup); (30 * Second, OpAllow "203.0.113.9")] "203.0.113.9" b).
  - vm_compute. reflexivity.
  - vm_compute. reflexivity.
  - exact E.
  - rewrite Hu. repeat constructor; vm_compute; congruence.
Defined.

Lemma refusal_accounting_witness : exists b,
  buckets (run rl64 (take 3 flood)).1 !! "203.0.113.9"%string = Some b /\
  IsBanned (4 * Millisecond) (Allow (4 * Millisecond) (run rl64 (take 3 flood)).1 "203.0.113.9").1
    "203.0.113.9" = true.
Proof.
  destruct (buckets (run rl64 (take 3 flood)).1 !! "203.0.113.9"%string) as [b|] eqn:E;
    [|vm_compute in E; discriminate].
  exists b. split; [done|].
  destruct (refusal_accounting true (f64_of_Z 1) 2 2 60 (Some wl_demo) (take 3 flood)
    (4 * Millisecond) "203.0.113.9" b (run rl64 (take 3 flood)).1
    ltac:(vm_compute; reflexivity) eq_refl eq_refl ltac:(vm_compute; reflexivity) E) as (_ & b' & _ & _ & _ & Hb).
  - vm_compute in E. injection E as <-. vm_compute. congruence.
  - rewrite Hb. vm_compute in E. injection E as <-. vm_compute. reflexivity.
Defined.

Definition rlQ : RateLimiter Q ProcessWhitelist := NewRateLimiter true (2#1) 3 20 60 None.

Definition requests_demo : list (Z * string) :=
  [(0, "198.51.100.7"); (Second, "198.51.100.8"); (Second, "198.51.100.7")].

Lemma token_bucket_bound_witness :
  (inject_Z (Z.of_nat (grants rlQ "198.51.100.7" ((0%Z, "198.51.100.7") :: requests_demo)).1)
    <= burst rlQ + rps rlQ * secs 0 Second)%Q.
Proof.
  apply (token_bucket_bound rlQ "198.51.100.7" 0
    [(0, "198.51.100.7"); (Second, "198.51.100.8"); (Second, "198.51.100.7")]%string);
    vm_compute; intuition congruence.
Defined.
End witnesses.
End RateLimiter.
