(* ===== verification/SensitivePorts.v ===== *)
(** * The sensitive-port monitor (src/pkg/security/guard/sensitive_ports.go)

    Detection of port scans: the monitor remembers, per source address, the
    sensitive ports probed inside a window, and bans a source that probed too
    many.  Its maps are pruned in place once they grow. *)
From S2P Require Import Prelude GoStrings GoTime Whitelist.

Module SensitivePorts.
Section monitor.
Context {W : Type} `{IPWhitelist W} `{LocalZone} {order : RangeOrder string}.

Record PortViolationRecord := mkRecord {
  AttemptedPorts : gmap Z Z;
  FirstAttempt : Z;
}.

Record SensitivePortMonitor := mkMonitor {
  enabled : bool;
  sensitivePorts : gset Z;
  action : string;
  scanThreshold : Z;
  scanWindow : Z;
  autoBanScanner : bool;
  ipProbes : gmap string PortViolationRecord;
  bannedIPs : gmap string Z;
  banDuration : Z;
  whitelist : option W;
}.

Definition with_maps (m : SensitivePortMonitor) (probes : gmap string PortViolationRecord)
    (bans : gmap string Z) : SensitivePortMonitor :=
  {| enabled := enabled m; sensitivePorts := sensitivePorts m; action := action m;
     scanThreshold := scanThreshold m; scanWindow := scanWindow m;
     autoBanScanner := autoBanScanner m; ipProbes := probes; bannedIPs := bans;
     banDuration := banDuration m; whitelist := whitelist m |}.

Definition NewSensitivePortMonitor (en : bool) (ports : list Z) (act : string)
    (threshold windowSec : Z) (autoBan : bool) (wl : option W) : SensitivePortMonitor :=
  {| enabled := en;
     sensitivePorts := list_to_set ports;
     action := if act =s "" then "block" else act;
     scanThreshold := if threshold <=? 0 then 5 else threshold;
     scanWindow := DurMul (if windowSec <=? 0 then 10 else windowSec) Second;
     autoBanScanner := autoBan;
     ipProbes := ∅; bannedIPs := ∅;
     banDuration := 10 * Minute;
     whitelist := wl |}.

(** The memory-safety pass over the probes, then over the bans. *)
Definition prune_probes (now : Z) (m : SensitivePortMonitor) : gmap string PortViolationRecord :=
  let probes := ipProbes m in
  if (1000 <? Z.of_nat (size probes)) then
    let kept := range_delete
      (fun _ rec => DurMul (scanWindow m) 2 <? Sub now (FirstAttempt rec)) probes in
    if 10000 <? Z.of_nat (size kept) then evict order 2000 kept else kept
  else probes.

Definition prune_bans (now : Z) (m : SensitivePortMonitor) : gmap string Z :=
  let bans := bannedIPs m in
  if (1000 <? Z.of_nat (size bans)) then
    let kept := range_delete (fun _ banUntil => After now banUntil) bans in
    if 10000 <? Z.of_nat (size kept) then evict order 2000 kept else kept
  else bans.

Definition ban_reason (ip : string) (bannedUntil : Z) : string :=
  "IP " ^^ ip ^^ " is banned until " ^^ FormatRFC3339 bannedUntil
    ^^ " due to port security violation".
Definition access_reason (port : Z) (ip : string) : string :=
  "Access to sensitive port " ^^ Itoa port ^^ " from " ^^ ip.
Definition scan_reason (ip : string) (n : Z) : string :=
  "Port scan detected from " ^^ ip ^^ " across " ^^ Itoa n ^^ " sensitive ports".

(** The three results are [isBlocked], [isScanDetected] and the reason. *)
Definition verdict : Type := bool * bool * string.

(** Step 3 of the check: the probe is recorded and judged. *)
Definition record_probe (now : Z) (m : SensitivePortMonitor)
    (old : option PortViolationRecord) (ip : string) (port : Z)
    : PortViolationRecord * bool * verdict :=
  let base := match old with
    | Some rec => if scanWindow m <? Sub now (FirstAttempt rec) then mkRecord ∅ now else rec
    | None => mkRecord ∅ now
    end in
  let rec := mkRecord (<[port := now]> (AttemptedPorts base)) (FirstAttempt base) in
  let n := Z.of_nat (size (AttemptedPorts rec)) in
  let isScan := scanThreshold m <=? n in
  let reason := if isScan then scan_reason ip n else access_reason port ip in
  let isBlocked := (action m =s "block") || (action m =s "kill") || isScan in
  (rec, isScan, (isBlocked, isScan, reason)).

Definition CheckPortAccess (now : Z) (m : SensitivePortMonitor) (sourceIP : string)
    (targetPort : Z) : SensitivePortMonitor * verdict :=
  if negb (enabled m) then (m, (false, false, ""%string))
  else if opt_protected (whitelist m) sourceIP then (m, (false, false, ""%string))
  else
    let probes := prune_probes now m in
    let bans := prune_bans now m in
    let check_port (bans : gmap string Z) :=
      if negb (bool_decide (targetPort ∈ sensitivePorts m))
      then (with_maps m probes bans, (false, false, ""%string))
      else
        let '(rec, isScan, v) := record_probe now m (probes !! sourceIP) sourceIP targetPort in
        (with_maps m (<[sourceIP := rec]> probes)
           (if isScan && autoBanScanner m
            then <[sourceIP := Add now (banDuration m)]> bans else bans), v) in
    match bans !! sourceIP with
    | Some bannedUntil =>
        if Before now bannedUntil
        then (with_maps m probes bans, (true, false, ban_reason sourceIP bannedUntil))
        else check_port (delete sourceIP bans)
    | None => check_port bans
    end.

Definition IsSensitivePort (m : SensitivePortMonitor) (port : Z) : bool :=
  bool_decide (port ∈ sensitivePorts m).

Definition AddSensitivePort (m : SensitivePortMonitor) (port : Z) : SensitivePortMonitor :=
  {| enabled := enabled m; sensitivePorts := {[port]} ∪ sensitivePorts m; action := action m;
     scanThreshold := scanThreshold m; scanWindow := scanWindow m;
     autoBanScanner := autoBanScanner m; ipProbes := ipProbes m; bannedIPs := bannedIPs m;
     banDuration := banDuration m; whitelist := whitelist m |}.

Definition Unban (m : SensitivePortMonitor) (ip : string) : SensitivePortMonitor :=
  with_maps m (delete ip (ipProbes m)) (delete ip (bannedIPs m)).

(** ** The specification: one detector per source *)

(** What the monitor promises about one source: a machine with no shared map
    and no pruning. *)
Record Detector := mkDetector {
  probing : option PortViolationRecord;
  banned : option Z;
}.

(** A source's part of the monitor's maps, forgetting what has expired. *)
Definition live_probe (now : Z) (m : SensitivePortMonitor) (r : option PortViolationRecord) :=
  match r with
  | Some rec => if scanWindow m <? now - FirstAttempt rec then None else Some rec
  | None => None
  end.
Definition live_ban (now : Z) (b : option Z) :=
  match b with Some u => if now <? u then Some u else None | None => None end.

Definition detect (now : Z) (m : SensitivePortMonitor) (d : Detector) (ip : string) (port : Z)
    : Detector * verdict :=
  match live_ban now (banned d) with
  | Some u => (d, (true, false, ban_reason ip u))
  | None =>
      if IsSensitivePort m port then
        let '(rec, isScan, v) := record_probe now m (probing d) ip port in
        (mkDetector (Some rec)
          (if isScan && autoBanScanner m then Some (Add now (banDuration m)) else None), v)
      else (mkDetector (probing d) None, (false, false, ""%string))
  end.

Definition agrees (now : Z) (m : SensitivePortMonitor) (ip : string) (d : Detector) : Prop :=
  live_probe now m (ipProbes m !! ip) = live_probe now m (probing d) /\
  live_ban now (bannedIPs m !! ip) = live_ban now (banned d).

Definition roomy (m : SensitivePortMonitor) : Prop :=
  Z.of_nat (size (ipProbes m)) <= 10000 /\ Z.of_nat (size (bannedIPs m)) <= 10000.

Lemma size_range_delete {V} (p : string -> V -> bool) (g : gmap string V) :
  (size (range_delete p g) <= size g)%nat.
Proof. rewrite <- !size_dom. apply subseteq_size, subseteq_dom, range_delete_subseteq. Qed.

Lemma lookup_prune_probes now m ip :
  Z.of_nat (size (ipProbes m)) <= 10000 -> 0 <= scanWindow m < 2^62 ->
  live_probe now m (prune_probes now m !! ip) = live_probe now m (ipProbes m !! ip).
Proof.
  intros Hs Hw. unfold prune_probes. destruct (1000 <? _); [|done].
  set (kept := range_delete _ _).
  assert (Hk : (size kept <= size (ipProbes m))%nat) by apply size_range_delete.
  rewrite (proj2 (Z.ltb_ge _ _)) by lia. unfold kept. rewrite lookup_range_delete.
  destruct (ipProbes m !! ip) as [rec|]; [|done].
  rewrite DurMul_exact by lia. unfold live_probe.
  destruct (Z.ltb_spec (scanWindow m * 2) (Sub now (FirstAttempt rec))) as [Hl|Hl]; [|done].
  rewrite (proj2 (Z.ltb_lt _ _)); [done|]. unfold Sub, minInt64 in Hl. lia.
Qed.

Lemma lookup_prune_bans now m ip :
  Z.of_nat (size (bannedIPs m)) <= 10000 ->
  live_ban now (prune_bans now m !! ip) = live_ban now (bannedIPs m !! ip).
Proof.
  intros Hs. unfold prune_bans. destruct (1000 <? _); [|done].
  set (kept := range_delete _ _).
  assert (Hk : (size kept <= size (bannedIPs m))%nat) by apply size_range_delete.
  rewrite (proj2 (Z.ltb_ge _ _)) by lia. unfold kept. rewrite lookup_range_delete.
  destruct (bannedIPs m !! ip) as [u|]; [|done]. unfold After, live_ban.
  destruct (Z.ltb_spec u now); [|done]. by rewrite (proj2 (Z.ltb_ge _ _)) by lia.
Qed.

Lemma record_probe_live now m r r' ip port : 0 <= scanWindow m < 2^62 ->
  live_probe now m r = live_probe now m r' ->
  record_probe now m r ip port = record_probe now m r' ip port.
Proof.
  intros Hw Hl. unfold record_probe.
  assert (Hb : forall o : option PortViolationRecord, match o with
      | Some rec => if scanWindow m <? Sub now (FirstAttempt rec) then mkRecord ∅ now else rec
      | None => mkRecord ∅ now end = default (mkRecord ∅ now) (live_probe now m o)).
  { intros [rec|]; [|done]. unfold live_probe. rewrite Sub_gt by (unfold maxInt64, minInt64; lia).
    by destruct (_ <? _). }
  by rewrite !Hb, Hl.
Qed.

Lemma check_agrees now m ip port d :
  enabled m = true -> opt_protected (whitelist m) ip = false ->
  roomy m -> 0 <= scanWindow m < 2^62 -> agrees now m ip d ->
  (CheckPortAccess now m ip port).2 = (detect now m d ip port).2 /\
  agrees now (CheckPortAccess now m ip port).1 ip (detect now m d ip port).1.
Proof.
  intros He Hp [Hs1 Hs2] Hw [Ha1 Ha2]. unfold CheckPortAccess, detect. rewrite He, Hp. cbn [negb].
  pose proof (lookup_prune_probes now m ip Hs1 Hw) as Hq1.
  pose proof (lookup_prune_bans now m ip Hs2) as Hq2.
  rewrite Ha1 in Hq1. rewrite Ha2 in Hq2. rewrite <- Hq2.
  rewrite (record_probe_live now m (prune_probes now m !! ip) (probing d) ip port Hw Hq1).
  unfold IsSensitivePort, live_ban, Before.
  destruct (prune_bans now m !! ip) as [u|] eqn:Eb.
  - destruct (Z.ltb_spec now u).
    + split; [done|]. split; cbn; [done|]. by rewrite Eb, <- Hq2.
    + destruct (bool_decide _); cbn [negb].
      * destruct (record_probe _ _ _ _ _) as [[rec isScan] v]. split; [done|].
        split; cbn; rewrite ?lookup_insert_eq; [done|].
        destruct (isScan && autoBanScanner m); by rewrite ?lookup_insert_eq, ?lookup_delete_eq.
      * split; [done|]. split; cbn; [done|]. by rewrite lookup_delete_eq.
  - destruct (bool_decide _); cbn [negb].
    + destruct (record_probe _ _ _ _ _) as [[rec isScan] v]. split; [done|].
      split; cbn; rewrite ?lookup_insert_eq; [done|].
      destruct (isScan && autoBanScanner m); by rewrite ?lookup_insert_eq, ?Eb.
    + split; [done|]. split; cbn; [done|]. by rewrite Eb.
Qed.

Lemma check_agrees_other now m ip ip' port d : ip' <> ip ->
  roomy m -> 0 <= scanWindow m < 2^62 -> agrees now m ip d ->
  agrees now (CheckPortAccess now m ip' port).1 ip d.
Proof.
  intros Hne [Hs1 Hs2] Hw [Ha1 Ha2]. unfold CheckPortAccess.
  destruct (enabled m); [|done]. destruct (opt_protected _ _); [done|]. cbn [negb].
  pose proof (lookup_prune_probes now m ip Hs1 Hw) as Hq1.
  pose proof (lookup_prune_bans now m ip Hs2) as Hq2.
  rewrite Ha1 in Hq1. rewrite Ha2 in Hq2.
  assert (Hb : forall bans, bans !! ip = prune_bans now m !! ip ->
    agrees now (if negb (bool_decide (port ∈ sensitivePorts m))
      then (with_maps m (prune_probes now m) bans, (false, false, ""%string))
      else
        let '(rec, isScan, v) := record_probe now m (prune_probes now m !! ip') ip' port in
        (with_maps m (<[ip' := rec]> (prune_probes now m))
           (if isScan && autoBanScanner m
            then <[ip' := Add now (banDuration m)]> bans else bans), v)).1 ip d).
  { intros bans Hbans. destruct (negb _); [split; cbn; by rewrite ?Hbans|].
    destruct (record_probe _ _ _ _ _) as [[rec isScan] v].
    split; cbn; rewrite ?lookup_insert_ne by done; [done|].
    destruct (isScan && _); rewrite ?lookup_insert_ne by done; by rewrite Hbans. }
  destruct (prune_bans now m !! ip') as [u|]; [destruct (Before now u)|].
  - split; cbn; done.
  - apply Hb. by rewrite lookup_delete_ne.
  - by apply Hb.
Qed.

Lemma agrees_later now now' m ip d : now <= now' -> agrees now m ip d -> agrees now' m ip d.
Proof.
  intros Hle [Ha1 Ha2]. split.
  - assert (Hl : forall o, live_probe now' m o = live_probe now' m (live_probe now m o)).
    { intros [rec|]; [|done]. cbn. destruct (Z.ltb_spec (scanWindow m) (now - FirstAttempt rec)); [|done].
      by rewrite (proj2 (Z.ltb_lt _ _)) by lia. }
    by rewrite Hl, Ha1, <- Hl.
  - assert (Hl : forall o, live_ban now' o = live_ban now' (live_ban now o)).
    { intros [u|]; [|done]. cbn. destruct (Z.ltb_spec now u); [done|].
      by rewrite (proj2 (Z.ltb_ge _ _)) by lia. }
    by rewrite Hl, Ha2, <- Hl.
Qed.

(** Runs of the monitor, and what they tell one source. *)
Inductive op :=
  | OpProbe (ip : string) (port : Z)
  | OpAddPort (port : Z)
  | OpUnban (ip : string).

Definition exec (now : Z) (m : SensitivePortMonitor) (o : op)
    : SensitivePortMonitor * option verdict :=
  match o with
  | OpProbe ip port => let '(m', v) := CheckPortAccess now m ip port in (m', Some v)
  | OpAddPort port => (AddSensitivePort m port, None)
  | OpUnban ip => (Unban m ip, None)
  end.

Fixpoint verdicts_for (k : string) (m : SensitivePortMonitor) (tr : list (Z * op)) : list verdict :=
  match tr with
  | [] => []
  | (now, o) :: tr' =>
      let '(m', v) := exec now m o in
      (match o, v with
       | OpProbe ip _, Some v => if bool_decide (ip = k) then [v] else []
       | _, _ => [] end) ++ verdicts_for k m' tr'
  end.

(** The same run seen by the detector of [k] alone: probes of other sources
    and their unbans do not exist for it. *)
Fixpoint detector_for (k : string) (conf : SensitivePortMonitor) (d : Detector)
    (tr : list (Z * op)) : list verdict :=
  match tr with
  | [] => []
  | (now, OpProbe ip port) :: tr' =>
      if bool_decide (ip = k) then
        let '(d', v) := detect now conf d k port in v :: detector_for k conf d' tr'
      else detector_for k conf d tr'
  | (now, OpAddPort port) :: tr' => detector_for k (AddSensitivePort conf port) d tr'
  | (now, OpUnban ip) :: tr' =>
      detector_for k conf (if bool_decide (ip = k) then mkDetector None None else d) tr'
  end.

(** The clock does not run backwards and no map outgrows its hard bound. *)
Fixpoint orderly (last : Z) (m : SensitivePortMonitor) (tr : list (Z * op)) : Prop :=
  match tr with
  | [] => True
  | (now, o) :: tr' => last <= now /\ roomy m /\ orderly now (exec now m o).1 tr'
  end.

Lemma check_config now m ip port :
  with_maps (CheckPortAccess now m ip port).1 ∅ ∅ = with_maps m ∅ ∅.
Proof.
  unfold CheckPortAccess. destruct (negb _); [done|]. destruct (opt_protected (whitelist m) ip); [done|].
  destruct (prune_bans _ _ !! _) as [u|]; [destruct (Before _ _); [done|]|];
    (destruct (negb _); [done|]; by destruct (record_probe _ _ _ _ _) as [[? ?] ?]).
Qed.

Lemma config_fields m c : with_maps m ∅ ∅ = with_maps c ∅ ∅ ->
  enabled m = enabled c /\ whitelist m = whitelist c /\ scanWindow m = scanWindow c.
Proof. intros Hc. by inversion Hc. Qed.

Lemma detect_config now m c d ip port :
  with_maps m ∅ ∅ = with_maps c ∅ ∅ -> detect now m d ip port = detect now c d ip port.
Proof.
  intros Hc. change (detect now m d ip port) with (detect now (with_maps m ∅ ∅) d ip port).
  by rewrite Hc.
Qed.

Lemma refine_run k c d m tr last :
  with_maps m ∅ ∅ = with_maps c ∅ ∅ ->
  enabled m = true -> opt_protected (whitelist m) k = false -> 0 <= scanWindow m < 2^62 ->
  agrees last m k d -> orderly last m tr ->
  verdicts_for k m tr = detector_for k c d tr.
Proof.
  revert c d m last. induction tr as [|[now o] tr IH]; intros c d m last Hc He Hp Hw Ha Ho; [done|].
  destruct Ho as (Hle & Hr & Ho). apply (agrees_later last now) in Ha; [|done].
  cbn [verdicts_for detector_for]. destruct o as [ip port|port|ip]; cbn [exec] in *.
  - pose proof (check_config now m ip port) as Hcf.
    destruct (config_fields _ _ Hcf) as (He' & Hp' & Hw').
    case_bool_decide as Hk.
    + subst ip. destruct (check_agrees now m k port d He Hp Hr Hw Ha) as [Hv Ha'].
      rewrite (detect_config now m c) in Hv, Ha' by done.
      destruct (CheckPortAccess now m k port) as [m' v], (detect now c d k port) as [d' v'].
      cbn in *. subst v'. f_equal. apply (IH _ _ _ now); congruence.
    + pose proof (check_agrees_other now m k ip port d Hk Hr Hw Ha) as Ha'.
      destruct (CheckPortAccess now m ip port) as [m' v]. cbn in *.
      apply (IH _ _ _ now); congruence.
  - cbn. apply (IH _ _ _ now); try done.
    inversion Hc. unfold AddSensitivePort, with_maps. cbn. congruence.
  - cbn. apply (IH _ _ _ now); try done. destruct Ha as [Ha1 Ha2]. split; cbn; case_bool_decide as Hk.
    + subst. by rewrite lookup_delete_eq.
    + by rewrite lookup_delete_ne by done.
    + subst. by rewrite lookup_delete_eq.
    + by rewrite lookup_delete_ne by done.
Qed.

(** C25. Refinement: on a run in which the clock does not go back and no map outgrows its
    hard bound of 10000 entries ([orderly]; beyond it the monitor evicts and forgets), with
    a window below 2^32 seconds, the verdicts that a source that is not protected gets from
    the shared monitor, whatever other sources do in between and whatever expired entries
    the pruning removes, are those of a private detector that sees only its own probes; the
    order in which Go ranges over the maps does not show. *)
Theorem monitor_refines_detectors k ports act threshold windowSec autoBan (wl : option W) tr last :
  windowSec < 2^32 -> opt_protected wl k = false ->
  let m := NewSensitivePortMonitor true ports act threshold windowSec autoBan wl in
  orderly last m tr ->
  verdicts_for k m tr = detector_for k m (mkDetector None None) tr.
Proof.
  intros Hws Hp m Ho. apply (refine_run k m (mkDetector None None) m tr last); try done.
  cbn. assert (DurMul (if windowSec <=? 0 then 10 else windowSec) Second
               = (if windowSec <=? 0 then 10 else windowSec) * Second) as ->.
  { apply DurMul_exact. unfold Second. destruct (Z.leb_spec windowSec 0); lia. }
  unfold Second. destruct (Z.leb_spec windowSec 0); lia.
Qed.

Lemma scan_is_banned now m ip port m' b reason :
  CheckPortAccess now m ip port = (m', (b, true, reason)) -> autoBanScanner m = true ->
  bannedIPs m' !! ip = Some (Add now (banDuration m)).
Proof.
  unfold CheckPortAccess. intros Hc Ha.
  destruct (negb _); [congruence|]. destruct (opt_protected _ _); [congruence|].
  assert (Hp : forall bans, (let '(rec, isScan, v) :=
        record_probe now m (prune_probes now m !! ip) ip port in
      (with_maps m (<[ip:=rec]> (prune_probes now m))
        (if isScan && autoBanScanner m then <[ip := Add now (banDuration m)]> bans else bans), v))
      = (m', (b, true, reason)) -> bannedIPs m' !! ip = Some (Add now (banDuration m))).
  { intros bans. unfold record_probe. destruct (scanThreshold m <=? _).
    - rewrite Ha. intros [= <- _ _]. apply lookup_insert_eq.
    - congruence. }
  destruct (prune_bans _ _ !! _); [destruct (Before _ _)|]; [congruence| |];
    (destruct (negb _); [congruence|]; eauto).
Qed.

Lemma detector_banned k c r u tr :
  Forall (fun e => e.1 < u /\ e.2 <> OpUnban k) tr ->
  Forall (fun v => v = (true, false, ban_reason k u)) (detector_for k c (mkDetector r (Some u)) tr).
Proof.
  intros Ht. revert c. induction Ht as [|[now o] tr [Hlt Hne] _ IH]; intros c; [constructor|].
  cbn in Hlt, Hne. destruct o as [ip port|port|ip]; cbn [detector_for].
  - case_bool_decide; [|done]. unfold detect, live_ban. cbn [banned].
    rewrite (proj2 (Z.ltb_lt _ _)) by done. by constructor.
  - done.
  - rewrite bool_decide_eq_false_2; [done | congruence].
Qed.

(** A scanner stays out: once a check reports a scan and scanners are
    banned, every later check of that source is blocked with the ban reason
    until the ban runs out or an operator lifts it, on every port, sensitive
    or not, and through any traffic of other sources. *)
Theorem scan_ban_holds now m k port m' b reason tr :
  CheckPortAccess now m k port = (m', (b, true, reason)) ->
  enabled m = true -> autoBanScanner m = true -> opt_protected (whitelist m) k = false ->
  0 <= scanWindow m < 2^62 -> orderly now m' tr ->
  Forall (fun e => e.1 < now + banDuration m /\ e.2 <> OpUnban k) tr ->
  Forall (fun v => v = (true, false, ban_reason k (now + banDuration m))) (verdicts_for k m' tr).
Proof.
  intros Hc He Ha Hp Hw Ho Ht. pose proof (scan_is_banned _ _ _ _ _ _ _ Hc Ha) as Hb.
  pose proof (check_config now m k port) as Hcf. rewrite Hc in Hcf. cbn in Hcf.
  destruct (config_fields _ _ Hcf) as (He' & Hp' & Hw').
  rewrite (refine_run k m' (mkDetector (ipProbes m' !! k) (bannedIPs m' !! k)) m' tr now)
    by (try done; congruence).
  rewrite Hb. by apply detector_banned.
Qed.
End monitor.

(** ** Witnesses *)
Section witnesses.
Import ProcessWhitelist.
#[local] Existing Instance utc.

Definition scan_demo : list (Z * op) :=
  [(1 * Second, OpProbe "203.0.113.9" 22); (2 * Second, OpProbe "198.51.100.7" 22);
   (3 * Second, OpProbe "203.0.113.9" 80); (4 * Second, OpProbe "203.0.113.9" 3306);
   (5 * Second, OpAddPort 80); (6 * Second, OpProbe "203.0.113.9" 80)]%string.

Definition monitor_demo : SensitivePortMonitor :=
  NewSensitivePortMonitor true [22; 3306] "alert" 2 10 true (Some wl_demo).

Lemma scan_demo_orderly : orderly 0 monitor_demo scan_demo.
Proof. vm_compute. intuition congruence. Qed.

Lemma monitor_refines_detectors_witness :
  verdicts_for "203.0.113.9" monitor_demo scan_demo =
  [(false, false, "Access to sensitive port 22 from 203.0.113.9");
   (false, false, "");
   (true, true, "Port scan detected from 203.0.113.9 across 2 sensitive ports");
   (true, false, "IP 203.0.113.9 is banned until 1970-01-01T00:10:04Z due to port security violation")]%string.
Proof.
  assert (Hp : opt_protected (Some wl_demo) "203.0.113.9" = false) by (vm_compute; reflexivity).
  unfold monitor_demo. rewrite (monitor_refines_detectors "203.0.113.9" [22; 3306] "alert" 2 10 true
    (Some wl_demo) scan_demo 0 ltac:(lia) Hp scan_demo_orderly).
  vm_compute. reflexivity.
Defined.

(** The monitor just before the probe that reveals the scan. *)
Definition probed_demo : SensitivePortMonitor :=
  foldl (fun m e => (exec e.1 m e.2).1) monitor_demo (take 3 scan_demo).

Lemma scan_ban_holds_witness :
  Forall (fun v => v = (true, false, ban_reason "203.0.113.9" (4 * Second + banDuration probed_demo)))
    (verdicts_for "203.0.113.9" (CheckPortAccess (4 * Second) probed_demo "203.0.113.9" 3306).1
       [(5 * Minute, OpProbe "203.0.113.9" 12345)]).
Proof.
  apply (scan_ban_holds (4 * Second) probed_demo "203.0.113.9" 3306
    (CheckPortAccess (4 * Second) probed_demo "203.0.113.9" 3306).1 true
    "Port scan detected from 203.0.113.9 across 2 sensitive ports"
    [(5 * Minute, OpProbe "203.0.113.9" 12345)]).
  - vm_compute. reflexivity.
  - vm_compute. reflexivity.
  - vm_compute. reflexivity.
  - vm_compute. reflexivity.
  - vm_compute. intuition congruence.
  - vm_compute. intuition congruence.
  - repeat constructor; vm_compute; congruence.
Defined.
End witnesses.
End SensitivePorts.
