(* ===== verification/Guard.v ===== *)
(** * The guard (src/pkg/security/guard/guard.go)

    The controller that puts the rate limiter and the port monitor behind one
    check.  One whitelist object is shared by pointer: the guard, the limiter
    and the monitor all see an address added through [Whitelist()]. *)
From S2P Require Import Prelude GoStrings GoFloat GoTime Whitelist RateLimiter SensitivePorts.
Import ProcessWhitelist.
Open Scope Z_scope.

Module Guard.
Section guard.
Context {F : Type} `{Arith F} `{LocalZone} {order : RangeOrder string}.

Record Guard := mkGuard {
  enabled : bool;
  whitelist : ProcessWhitelist;
  portMonitor : SensitivePorts.SensitivePortMonitor (W := ProcessWhitelist);
  rateLimiter : RateLimiter.RateLimiter F ProcessWhitelist;
}.

Definition New (pid : Z) (en : bool) (sensitivePorts : list Z) (portAction : string)
    (scanThreshold scanWindowSec : Z) (autoBanScanner : bool) (rps : F)
    (burst banThreshold banDurationSec : Z) (customProcesses customIPs : list string) : Guard :=
  let wl := NewProcessWhitelist pid customProcesses customIPs in
  {| enabled := en;
     whitelist := wl;
     portMonitor := SensitivePorts.NewSensitivePortMonitor en sensitivePorts portAction
       scanThreshold scanWindowSec autoBanScanner (Some wl);
     rateLimiter := RateLimiter.NewRateLimiter en rps burst banThreshold banDurationSec (Some wl) |}.

(** The limiter and the monitor read the clock one after the other. *)
Definition CheckInbound (now1 now2 : Z) (g : Guard) (remoteIP : string) (targetPort : Z)
    : Guard * (bool * string) :=
  if negb (enabled g) then (g, (true, ""%string))
  else
    let '(rl, ok) := RateLimiter.Allow now1 (rateLimiter g) remoteIP in
    let g1 := mkGuard (enabled g) (whitelist g) (portMonitor g) rl in
    if negb ok then (g1, (false, "Rate limit exceeded or IP is temporarily banned"%string))
    else
      let '(pm, (isBlocked, isScan, portReason)) :=
        SensitivePorts.CheckPortAccess now2 (portMonitor g) remoteIP targetPort in
      let g2 := mkGuard (enabled g) (whitelist g) pm rl in
      if isBlocked then (g2, (false, portReason))
      else if isScan then (g2, (false, portReason))
      else (g2, (true, ""%string)).

Definition Stop (g : Guard) : Guard :=
  mkGuard (enabled g) (whitelist g) (portMonitor g) (RateLimiter.Stop (rateLimiter g)).

(** A change of the shared whitelist object, seen through all three pointers. *)
Definition share_whitelist (g : Guard) (wl : ProcessWhitelist) : Guard :=
  let pm := portMonitor g in
  let rl := rateLimiter g in
  mkGuard (enabled g) wl
    (SensitivePorts.mkMonitor (SensitivePorts.enabled pm) (SensitivePorts.sensitivePorts pm)
       (SensitivePorts.action pm) (SensitivePorts.scanThreshold pm) (SensitivePorts.scanWindow pm)
       (SensitivePorts.autoBanScanner pm) (SensitivePorts.ipProbes pm)
       (SensitivePorts.bannedIPs pm) (SensitivePorts.banDuration pm)
       (option_map (fun _ => wl) (SensitivePorts.whitelist pm)))
    (@RateLimiter.mkRateLimiter F ProcessWhitelist (RateLimiter.enabled rl) (RateLimiter.rps rl)
       (RateLimiter.burst rl) (RateLimiter.banThreshold rl) (RateLimiter.banDuration rl)
       (RateLimiter.buckets rl) (option_map (fun _ => wl) (RateLimiter.whitelist rl))
       (RateLimiter.stopped rl)).

(** Everything that can happen to a guard: checks, and operations made on its
    parts through [Whitelist()], [PortMonitor()] and [RateLimiter()]. *)
Inductive step : Guard -> Guard -> Prop :=
  | step_check now1 now2 g ip port : step g (CheckInbound now1 now2 g ip port).1
  | step_add_ip g ip : step g (share_whitelist g (AddIP (whitelist g) ip))
  | step_add_process g p : step g (share_whitelist g (AddProcess (whitelist g) p))
  | step_monitor now g o :
      step g (mkGuard (enabled g) (whitelist g) (SensitivePorts.exec now (portMonitor g) o).1
                (rateLimiter g))
  | step_limiter now g o :
      step g (mkGuard (enabled g) (whitelist g) (portMonitor g)
                (RateLimiter.exec now (rateLimiter g) o).1)
  | step_stop g : step g (Stop g).

Definition built (g : Guard) : Prop :=
  exists pid en ports act thr win auto rps burst bthr bdur procs ips,
    g = New pid en ports act thr win auto rps burst bthr bdur procs ips.

(** The three pointers lead to one object. *)
Definition shared (g : Guard) : Prop :=
  SensitivePorts.whitelist (portMonitor g) = Some (whitelist g) /\
  RateLimiter.whitelist (rateLimiter g) = Some (whitelist g).

Lemma monitor_whitelist now (m : SensitivePorts.SensitivePortMonitor (W := ProcessWhitelist)) o :
  SensitivePorts.whitelist (SensitivePorts.exec now m o).1 = SensitivePorts.whitelist m.
Proof.
  destruct o as [ip port| |]; [|done..]. cbn.
  pose proof (SensitivePorts.check_config now m ip port) as Hc.
  apply SensitivePorts.config_fields in Hc as (_ & Hw & _).
  by destruct (SensitivePorts.CheckPortAccess now m ip port).
Qed.

Lemma limiter_whitelist now (rl : RateLimiter.RateLimiter F ProcessWhitelist) o :
  RateLimiter.whitelist (RateLimiter.exec now rl o).1 = RateLimiter.whitelist rl.
Proof. by destruct (RateLimiter.exec_config now rl o) as (_ & _ & _ & _ & _ & Hw). Qed.

Lemma check_whitelist now1 now2 g ip port :
  let g' := (CheckInbound now1 now2 g ip port).1 in
  whitelist g' = whitelist g /\
  SensitivePorts.whitelist (portMonitor g') = SensitivePorts.whitelist (portMonitor g) /\
  RateLimiter.whitelist (rateLimiter g') = RateLimiter.whitelist (rateLimiter g).
Proof.
  unfold CheckInbound. destruct (enabled g); [|done]. cbn [negb].
  pose proof (limiter_whitelist now1 (rateLimiter g) (RateLimiter.OpAllow ip)) as Hl.
  pose proof (monitor_whitelist now2 (portMonitor g) (SensitivePorts.OpProbe ip port)) as Hm.
  cbn in Hl, Hm. destruct (RateLimiter.Allow now1 (rateLimiter g) ip) as [rl ok].
  destruct (SensitivePorts.CheckPortAccess now2 (portMonitor g) ip port) as [pm [[? ?] ?]].
  cbn in Hl, Hm. by repeat (case_match; cbn).
Qed.

Lemma step_shared g g' : step g g' -> shared g ->
  shared g' /\ rtc grown (whitelist g) (whitelist g').
Proof.
  intros Hs [Hm Hr]. destruct Hs; unfold shared; cbn.
  - destruct (check_whitelist now1 now2 g ip port) as (-> & -> & ->). split; [done | apply rtc_refl].
  - rewrite Hm, Hr. split; [done | apply rtc_once, grown_ip].
  - rewrite Hm, Hr. split; [done | apply rtc_once, grown_process].
  - rewrite monitor_whitelist. split; [done | apply rtc_refl].
  - rewrite limiter_whitelist. split; [done | apply rtc_refl].
  - split; [done | apply rtc_refl].
Qed.

Lemma steps_shared g g' : rtc step g g' -> shared g ->
  shared g' /\ rtc grown (whitelist g) (whitelist g').
Proof.
  induction 1 as [|g g1 g2 Hs _ IH]; intros Hg; [split; [done | apply rtc_refl]|].
  destruct (step_shared _ _ Hs Hg) as [H1 H2]. destruct (IH H1) as [H3 H4].
  split; [done | by etrans].
Qed.

Lemma built_shared g : built g -> shared g.
Proof. intros (? & ? & ? & ? & ? & ? & ? & ? & ? & ? & ? & ? & ? & ->). done. Qed.

(** C26. Self-protection end to end: an address protected at some point of the
    life of a guard is never refused afterwards, whatever the guard went
    through since; the check that admits it is a no-op, so such an address
    never spends tokens, is never recorded as a prober and is never banned. *)
Theorem protected_never_refused g0 g g' ip now1 now2 port :
  built g0 -> rtc step g0 g -> IsIPProtected (whitelist g) ip = true -> rtc step g g' ->
  CheckInbound now1 now2 g' ip port = (g', (true, ""%string)).
Proof.
  intros Hb Hg Hp Hg'.
  destruct (steps_shared _ _ Hg (built_shared _ Hb)) as [Hs _].
  destruct (steps_shared _ _ Hg' Hs) as [[Hm Hr] Hgr].
  apply (grown_IP _ _ _ Hgr) in Hp. unfold CheckInbound, RateLimiter.Allow, SensitivePorts.CheckPortAccess.
  rewrite Hm, Hr. cbn. rewrite Hp.
  destruct g' as [[] wl pm rl]; [|done]. cbn in *.
  destruct (RateLimiter.enabled rl), (SensitivePorts.enabled pm); done.
Qed.

(** What a refusal means: a guard refuses a connection exactly when it is
    enabled and either the limiter refuses the source, and then the port
    monitor is not consulted and does not change, or the limiter admits it
    and the port monitor blocks it or sees a scan, whose reason is returned. *)
Theorem refusal_cause now1 now2 g ip port reason :
  (CheckInbound now1 now2 g ip port).2 = (false, reason) <->
  enabled g = true /\
  ((RateLimiter.Allow now1 (rateLimiter g) ip).2 = false /\
   portMonitor (CheckInbound now1 now2 g ip port).1 = portMonitor g /\
   reason = "Rate limit exceeded or IP is temporarily banned"%string
   \/
   (RateLimiter.Allow now1 (rateLimiter g) ip).2 = true /\
   let '(pm, (blocked, scan, r)) := SensitivePorts.CheckPortAccess now2 (portMonitor g) ip port in
   portMonitor (CheckInbound now1 now2 g ip port).1 = pm /\ (blocked || scan) = true /\ reason = r).
Proof.
  unfold CheckInbound. destruct (enabled g); cbn [negb]; [|naive_solver].
  destruct (RateLimiter.Allow now1 (rateLimiter g) ip) as [rl []]; cbn.
  - destruct (SensitivePorts.CheckPortAccess now2 (portMonitor g) ip port) as [pm [[[] []] r]];
      cbn; naive_solver.
  - destruct (SensitivePorts.CheckPortAccess now2 (portMonitor g) ip port) as [pm [[? ?] ?]].
    naive_solver.
Qed.
End guard.
Arguments Guard : clear implicits.

(** ** Witness *)
Section witness.
#[local] Existing Instance utc.

Definition guard_demo : Guard float64 :=
  New 4242 true [22; 3389] "block" 3 10 true (f64_of_Z 5) 1 1 60 [] ["10.0.0.5"]%string.

Lemma protected_never_refused_witness :
  let g := share_whitelist guard_demo (AddIP (whitelist guard_demo) "203.0.113.9") in
  let g' := (CheckInbound 0 0 g "198.51.100.7" 22).1 in
  CheckInbound 1 1 g' " 203.0.113.9" 22 = (g', (true, ""%string)).
Proof.
  cbv zeta.
  apply (protected_never_refused guard_demo
    (share_whitelist guard_demo (AddIP (whitelist guard_demo) "203.0.113.9"))).
  - by repeat eexists.
  - apply rtc_once, step_add_ip.
  - vm_compute. reflexivity.
  - apply rtc_once, step_check.
Defined.

Example guard_refuses : (CheckInbound 0 0 guard_demo "198.51.100.7" 22).2
  = (false, "Access to sensitive port 22 from 198.51.100.7"%string).
Proof. vm_compute. reflexivity. Qed.
End witness.
End Guard.
