(* ===== verification/Bloom.v ===== *)
(** * The Bloom filter (src/pkg/security/filter/bloom.go)

    A bit set of 64-bit words and FNV-1a double hashing.  An index outside the
    bit set would panic in Go: here it is [None]. *)
From S2P Require Import Prelude GoStrings.
Open Scope Z_scope.

Module Bloom.
(** ** hash/fnv: the 64-bit FNV-1a hash *)
Definition fnv_offset : Z := 14695981039346656037.
Definition fnv_prime : Z := 1099511628211.
Definition fnv_write (h : Z) (data : list Z) : Z :=
  foldl (fun h b => wrapu64 (Z.lxor h b * fnv_prime)) h data.

Record BloomFilter := mkBloom {
  bitset : list Z;
  sizeBits : Z;
  numHash : Z;
}.

Definition NewBloomFilter (size hashes : Z) : BloomFilter :=
  let size := if size =? 0 then 65536 else size in
  let hashes := if hashes =? 0 then 4 else hashes in
  {| bitset := replicate (Z.to_nat (wrapu64 (size + 63) / 64)) 0;
     sizeBits := size;
     numHash := hashes |}.

Definition hashPair (key : string) : Z * Z :=
  let h1 := fnv_write fnv_offset (string_bytes key) in
  let h2 := fnv_write (fnv_write fnv_offset (string_bytes key)) [0x5A; 0xC3; 0x19; 0x8D] in
  (h1, if h2 =? 0 then 1 else h2).

(** The bits of a key: [combined := (h1 + uint64(i)*h2) % bf.sizeBits]. *)
Definition position (bf : BloomFilter) (h : Z * Z) (i : nat) : Z :=
  wrapu64 (h.1 + wrapu64 (Z.of_nat i * h.2)) mod sizeBits bf.

Definition set_bit (bf : BloomFilter) (p : Z) : option BloomFilter :=
  w ← bitset bf !! Z.to_nat (p / 64);
  Some {| bitset := <[Z.to_nat (p / 64) := Z.lor w (Z.shiftl 1 (p mod 64))]> (bitset bf);
          sizeBits := sizeBits bf; numHash := numHash bf |}.

Definition test_bit (bf : BloomFilter) (p : Z) : option bool :=
  w ← bitset bf !! Z.to_nat (p / 64);
  Some (negb (Z.land w (Z.shiftl 1 (p mod 64)) =? 0)).

Fixpoint set_bits (bf : BloomFilter) (ps : list Z) : option BloomFilter :=
  match ps with
  | [] => Some bf
  | p :: ps' => bf' ← set_bit bf p; set_bits bf' ps'
  end.

Fixpoint test_bits (bf : BloomFilter) (ps : list Z) : option bool :=
  match ps with
  | [] => Some true
  | p :: ps' => b ← test_bit bf p; if b : bool then test_bits bf ps' else Some false
  end.

Definition positions (bf : BloomFilter) (key : string) : list Z :=
  map (position bf (hashPair key)) (seq 0 (Z.to_nat (numHash bf))).

Definition Add (bf : BloomFilter) (key : string) : option BloomFilter :=
  set_bits bf (positions bf key).

Definition MayContain (bf : BloomFilter) (key : string) : option bool :=
  test_bits bf (positions bf key).

(** ** The filter as a set of bits *)

Definition bit (bf : BloomFilter) (p : Z) : bool :=
  match bitset bf !! Z.to_nat (p / 64) with
  | Some w => Z.testbit w (p mod 64)
  | None => false
  end.

(** A filter of the program: the words cover every position. *)
Definition wf (bf : BloomFilter) : Prop :=
  0 < sizeBits bf /\ sizeBits bf <= 64 * len (bitset bf).

Definition same_shape (bf bf' : BloomFilter) : Prop :=
  sizeBits bf = sizeBits bf' /\ numHash bf = numHash bf' /\
  length (bitset bf) = length (bitset bf').

Lemma wf_shape bf bf' : same_shape bf bf' -> wf bf -> wf bf'.
Proof. unfold wf, len. intros (-> & _ & ->). done. Qed.

Lemma positions_shape bf bf' k : same_shape bf bf' -> positions bf k = positions bf' k.
Proof. intros (Hs & Hn & _). unfold positions, position. by rewrite Hs, Hn. Qed.

Lemma bloom_wf_New size hashes : 0 <= size <= 2^64 - 64 -> wf (NewBloomFilter size hashes).
Proof.
  intros Hs. unfold wf, NewBloomFilter, len. cbn. rewrite length_replicate.
  destruct (Z.eqb_spec size 0) as [->|Hne]; [split; vm_compute; congruence|].
  rewrite wrapu64_small by lia.
  pose proof (Z.div_mod (size + 63) 64). pose proof (Z.mod_pos_bound (size + 63) 64). lia.
Qed.

Lemma position_range bf h i : wf bf -> 0 <= position bf h i < sizeBits bf.
Proof. intros [? _]. by apply Z.mod_pos_bound. Qed.

Lemma positions_range bf k : wf bf -> Forall (fun p => 0 <= p < sizeBits bf) (positions bf k).
Proof.
  intros Hw. apply Forall_forall. intros p Hp. unfold positions in Hp.
  apply list_elem_of_fmap in Hp as (i & -> & _). by apply position_range.
Qed.

Lemma word_exists bf p : wf bf -> 0 <= p < sizeBits bf ->
  exists w, bitset bf !! Z.to_nat (p / 64) = Some w.
Proof.
  intros [_ Hw] Hp. apply lookup_lt_is_Some. unfold len in Hw.
  enough (p / 64 < Z.of_nat (length (bitset bf))) by (pose proof (Z.div_pos p 64); lia).
  apply Z.div_lt_upper_bound; lia.
Qed.

Lemma land_bit w b : 0 <= b -> (Z.land w (Z.shiftl 1 b) =? 0) = negb (Z.testbit w b).
Proof.
  intros Hb. destruct (Z.testbit w b) eqn:E; cbn.
  - apply Z.eqb_neq. intros Hz. apply (f_equal (fun z => Z.testbit z b)) in Hz.
    rewrite Z.land_spec, E, Z.shiftl_1_l, Z.pow2_bits_true, Z.bits_0 in Hz; done.
  - apply Z.eqb_eq, Z.bits_inj'. intros n Hn.
    rewrite Z.land_spec, Z.shiftl_1_l, Z.pow2_bits_eqb, Z.bits_0 by done.
    destruct (Z.eqb_spec b n) as [->|]; [by rewrite E | by rewrite andb_false_r].
Qed.

Lemma test_bit_spec bf p : wf bf -> 0 <= p < sizeBits bf -> test_bit bf p = Some (bit bf p).
Proof.
  intros Hw Hp. unfold test_bit, bit. destruct (word_exists bf p Hw Hp) as [w ->]. cbn.
  rewrite land_bit, negb_involutive; [done|]. apply Z.mod_pos_bound. lia.
Qed.

Lemma set_bit_spec bf p : wf bf -> 0 <= p < sizeBits bf ->
  exists bf', set_bit bf p = Some bf' /\ same_shape bf bf' /\
    forall q, 0 <= q -> bit bf' q = (p =? q) || bit bf q.
Proof.
  intros Hw Hp. unfold set_bit. destruct (word_exists bf p Hw Hp) as [w Ew]. rewrite Ew. cbn.
  eexists. split; [done|]. split; [split; [done|]; split; [done|]; cbn; by rewrite length_insert|].
  intros q Hq. unfold bit. cbn.
  pose proof (Z.div_mod p 64 ltac:(lia)). pose proof (Z.div_mod q 64 ltac:(lia)).
  pose proof (Z.mod_pos_bound p 64 ltac:(lia)). pose proof (Z.mod_pos_bound q 64 ltac:(lia)).
  destruct (decide (Z.to_nat (p / 64) = Z.to_nat (q / 64))) as [Ed|Ed].
  - rewrite <- Ed, list_lookup_insert_eq by (by eapply lookup_lt_Some). rewrite Ew.
    rewrite Z.lor_spec, Z.shiftl_1_l, Z.pow2_bits_eqb by lia. rewrite orb_comm. f_equal.
    pose proof (Z.div_pos p 64). pose proof (Z.div_pos q 64).
    destruct (Z.eqb_spec p q), (Z.eqb_spec (p mod 64) (q mod 64)); congruence || lia.
  - rewrite list_lookup_insert_ne by done.
    destruct (Z.eqb_spec p q); [congruence | done].
Qed.

Lemma set_bits_spec bf ps : wf bf -> Forall (fun p => 0 <= p < sizeBits bf) ps ->
  exists bf', set_bits bf ps = Some bf' /\ same_shape bf bf' /\
    forall q, 0 <= q -> bit bf' q = true <-> q ∈ ps \/ bit bf q = true.
Proof.
  revert bf. induction ps as [|p ps IH]; intros bf Hw Hps; cbn [set_bits].
  - exists bf. split; [done|]. split; [by repeat split|]. intros q _. set_solver.
  - apply Forall_cons in Hps as [Hp Hps].
    destruct (set_bit_spec bf p Hw Hp) as (bf1 & -> & Hs1 & Hb1). cbn.
    destruct (IH bf1) as (bf2 & E2 & Hs2 & Hb2).
    { by eapply wf_shape. }
    { destruct Hs1 as [<- _]. done. }
    exists bf2. split; [done|]. split.
    { destruct Hs1 as (? & ? & ?), Hs2 as (? & ? & ?). repeat split; congruence. }
    intros q Hq. rewrite Hb2, Hb1, orb_true_iff, Z.eqb_eq, elem_of_cons by done.
    intuition congruence.
Qed.

Lemma test_bits_spec bf ps : wf bf -> Forall (fun p => 0 <= p < sizeBits bf) ps ->
  test_bits bf ps = Some (forallb (bit bf) ps).
Proof.
  intros Hw. induction 1 as [|p ps Hp _ IH]; [done|]. cbn [test_bits forallb].
  rewrite test_bit_spec by done. cbn. by destruct (bit bf p).
Qed.

(** Adding never panics and sets exactly the bits of the key. *)
Lemma Add_spec bf k : wf bf ->
  exists bf', Add bf k = Some bf' /\ same_shape bf bf' /\
    forall q, 0 <= q -> bit bf' q = true <-> q ∈ positions bf k \/ bit bf q = true.
Proof. intros Hw. by apply set_bits_spec, positions_range. Qed.

Lemma MayContain_spec bf k : wf bf ->
  exists b : bool, MayContain bf k = Some b /\
    (b = true <-> forall p, p ∈ positions bf k -> bit bf p = true).
Proof.
  intros Hw. unfold MayContain. rewrite test_bits_spec by (done || by apply positions_range).
  eexists. split; [done|]. rewrite forallb_forall.
  split; intros Hb p Hp; apply Hb; by apply list_elem_of_In.
Qed.

(** ** No false negatives, under any further insertions *)

Definition bits_le (bf bf' : BloomFilter) : Prop :=
  same_shape bf bf' /\ forall q, 0 <= q -> bit bf q = true -> bit bf' q = true.

Lemma Add_finds bf k bf' : wf bf -> Add bf k = Some bf' ->
  wf bf' /\ bits_le bf bf' /\ MayContain bf' k = Some true.
Proof.
  intros Hw Ha. destruct (Add_spec bf k Hw) as (bf1 & E & Hs & Hb).
  rewrite Ha in E. injection E as <-.
  assert (Hw' : wf bf') by (by eapply wf_shape).
  split; [done|]. split; [split; [done|]; intros q Hq H1; apply Hb; auto|].
  destruct (MayContain_spec bf' k Hw') as (b & -> & Hm). f_equal. apply Hm. intros p Hp.
  rewrite <- (positions_shape bf bf' k Hs) in Hp.
  apply Hb; [|by left]. pose proof (positions_range bf k Hw) as Hr.
  rewrite Forall_forall in Hr. apply Hr in Hp. lia.
Qed.

Lemma bits_le_MayContain bf bf' k : wf bf -> bits_le bf bf' ->
  MayContain bf k = Some true -> MayContain bf' k = Some true.
Proof.
  intros Hw [Hs Hb] Hk. destruct (MayContain_spec bf k Hw) as (b & E & Hm).
  rewrite Hk in E. injection E as <-.
  destruct (MayContain_spec bf' k (wf_shape _ _ Hs Hw)) as (b' & -> & Hm').
  f_equal. apply Hm'. intros p Hp. rewrite <- (positions_shape bf bf' k Hs) in Hp.
  pose proof (positions_range bf k Hw) as Hr. rewrite Forall_forall in Hr.
  pose proof (Hr p Hp). apply Hb; [lia|]. by apply Hm.
Qed.

Fixpoint Adds (bf : BloomFilter) (ks : list string) : option BloomFilter :=
  match ks with
  | [] => Some bf
  | k :: ks' => bf' ← Add bf k; Adds bf' ks'
  end.

Lemma Adds_spec bf ks : wf bf ->
  exists bf', Adds bf ks = Some bf' /\ same_shape bf bf' /\
    forall q, 0 <= q -> bit bf' q = true <-> (exists k, k ∈ ks /\ q ∈ positions bf k) \/ bit bf q = true.
Proof.
  revert bf. induction ks as [|k ks IH]; intros bf Hw; cbn [Adds].
  - exists bf. split; [done|]. split; [by repeat split|]. intros q _. set_solver.
  - destruct (Add_spec bf k Hw) as (bf1 & -> & Hs1 & Hb1). cbn.
    destruct (IH bf1 (wf_shape _ _ Hs1 Hw)) as (bf2 & -> & Hs2 & Hb2).
    exists bf2. split; [done|]. split.
    { destruct Hs1 as (? & ? & ?), Hs2 as (? & ? & ?). repeat split; congruence. }
    intros q Hq. rewrite Hb2, Hb1 by done. setoid_rewrite (positions_shape bf bf1 _ Hs1).
    set_solver.
Qed.

(** The filter is exactly the set of bits of the keys added: building one
    and adding any keys never leaves the bit set, and a query answers "maybe"
    if and only if every bit of the key is a bit of some added key.  So an added
    key is always found, whatever was added before or after it. *)
Theorem bloom_membership size hashes ks : 0 <= size <= 2^64 - 64 ->
  exists bf, Adds (NewBloomFilter size hashes) ks = Some bf /\
    (forall k, exists b, MayContain bf k = Some b /\
       (b = true <-> forall p, p ∈ positions bf k -> exists j, j ∈ ks /\ p ∈ positions bf j)) /\
    (forall k, k ∈ ks -> MayContain bf k = Some true).
Proof.
  intros Hs. pose proof (bloom_wf_New size hashes Hs) as Hw.
  destruct (Adds_spec _ ks Hw) as (bf & E & Hsh & Hb).
  pose proof (wf_shape _ _ Hsh Hw) as Hw'. exists bf. split; [done|].
  setoid_rewrite (positions_shape _ _ _ Hsh) in Hb.
  assert (Hbit : forall q, 0 <= q -> bit bf q = true <-> exists k, k ∈ ks /\ q ∈ positions bf k).
  { intros q Hq. rewrite Hb by done. enough (bit (NewBloomFilter size hashes) q = false) as ->
      by intuition congruence.
    unfold bit. cbn. destruct (replicate _ _ !! _) eqn:E0; [|done].
    apply lookup_replicate in E0 as [-> _]. apply Z.bits_0. }
  assert (Hall : forall k, exists b, MayContain bf k = Some b /\
    (b = true <-> forall p, p ∈ positions bf k -> exists j, j ∈ ks /\ p ∈ positions bf j)).
  { intros k. destruct (MayContain_spec bf k Hw') as (b & Eb & Hm). exists b. split; [done|].
    rewrite Hm. pose proof (positions_range bf k Hw') as Hr. rewrite Forall_forall in Hr.
    split; intros Hp p Hin; apply (Hbit p); auto; specialize (Hr p Hin); lia. }
  split; [done|]. intros k Hk. destruct (Hall k) as (b & -> & Hm). f_equal. apply Hm. eauto.
Qed.

Lemma bloom_membership_witness : exists bf,
  Adds (NewBloomFilter 1024 4) ["malware-domain.xyz"; "phishing-portal.com"]%string = Some bf /\
  MayContain bf "phishing-portal.com" = Some true.
Proof.
  destruct (bloom_membership 1024 4 ["malware-domain.xyz"; "phishing-portal.com"]%string ltac:(lia))
    as (bf & E & _ & Hin).
  exists bf. split; [exact E|]. apply Hin. right. left.
Defined.

Example bloom_demo :
  (bf ← Adds (NewBloomFilter 1024 4) ["malware-domain.xyz"; "phishing-portal.com"]%string;
   MayContain bf "totally-safe-google.com") = Some false.
Proof. vm_compute. reflexivity. Qed.
Example fnv_a : fnv_write fnv_offset (string_bytes "a") = 0xaf63dc4c8601ec8c.
Proof. reflexivity. Qed.
End Bloom.
