(* ===== verification/ThreatEngine.v ===== *)
(** * The threat filter (src/pkg/security/filter/engine.go, blocklist.go)

    Domain and address blocklists behind a Bloom filter.  The operations are in
    the option monad, where [None] is a panic of the Bloom filter. *)
From S2P Require Import Prelude GoStrings GoNet Bloom.
Import Bloom.
Open Scope Z_scope.

Module ThreatEngine.
Definition ThreatCategory : Type := string.
Definition CategoryMalware : ThreatCategory := "MALWARE"%string.
Definition CategoryPhishing : ThreatCategory := "PHISHING"%string.
Definition CategoryMiner : ThreatCategory := "CRYPTO_MINER"%string.
Definition CategoryAdware : ThreatCategory := "AD_TRACKER"%string.
Definition CategoryCustom : ThreatCategory := "CUSTOM_BLOCK"%string.

Definition DefaultMalwareDomains : list string :=
  ["c2-panel.su"; "dark-trojan-bot.net"; "evil-payloads.org"; "stealer-logs.cc";
   "cobaltstrike-beacon.biz"; "rat-connector.xyz"]%string.
Definition DefaultPhishingDomains : list string :=
  ["login-security-update-verify.com"; "secure-banking-auth-portal.com";
   "sberbank-login-online.cc"; "tinkoff-bonus-claim.ru.com"; "gosuslugi-verif.site";
   "telegram-auth-qr.online"]%string.
Definition DefaultMinerDomains : list string :=
  ["coinhive.com"; "crypto-loot.com"; "coin-have.com"; "minr.pw"; "xmr-pool.net";
   "minexmr.com"; "supportxmr.com"]%string.
Definition DefaultAdTrackerDomains : list string :=
  ["adservice.google.com"; "pagead2.googlesyndication.com"; "telemetry.microsoft.com";
   "app-measurement.com"; "analytics.facebook.com"; "metrics.icloud.com"]%string.

Record MatchResult := mkMatch {
  Blocked : bool;
  Category : ThreatCategory;
  Reason : string;
}.
Definition notBlocked : MatchResult := mkMatch false "" "".

Record ThreatEngine := mkEngine {
  enabled : bool;
  bloomFilter : BloomFilter;
  exactDomains : gmap string ThreatCategory;
  suffixDomains : gmap string ThreatCategory;
  blockedIPNets : list IPNet;
  allowedDomains : gset string;
  allowedIPs : gset string;
}.

Definition addDomain (category : ThreatCategory) (e : ThreatEngine) (domain : string)
    : option ThreatEngine :=
  let clean := clean_key domain in
  if clean =s "" then Some e
  else
    let clean := TrimPrefix clean "." in
    bf ← Add (bloomFilter e) clean;
    Some {| enabled := enabled e; bloomFilter := bf;
            exactDomains := <[clean := category]> (exactDomains e);
            suffixDomains := <[clean := category]> (suffixDomains e);
            blockedIPNets := blockedIPNets e; allowedDomains := allowedDomains e;
            allowedIPs := allowedIPs e |}.

Fixpoint addDomains (category : ThreatCategory) (ds : list string) (e : ThreatEngine)
    : option ThreatEngine :=
  match ds with
  | [] => Some e
  | d :: ds' => e' ← addDomain category e d; addDomains category ds' e'
  end.

(** [customBlockedIPs]: a CIDR block, or one address under a full mask. *)
Definition parseBlockedIP (ipStr : string) : option IPNet :=
  let clean := TrimSpace ipStr in
  if Contains clean "/" then ParseCIDR clean
  else
    let ip := ParseIP clean in
    if is_nil ip then None
    else Some (mkIPNet ip (if is_nil (To4 ip) then CIDRMask 128 128 else CIDRMask 32 32)).

Definition addAllowed (m : gset string) (d : string) : gset string :=
  let clean := clean_key d in if clean =s "" then m else {[clean]} ∪ m.

Definition emptyEngine (en : bool) : ThreatEngine :=
  {| enabled := en; bloomFilter := NewBloomFilter 131072 4; exactDomains := ∅;
     suffixDomains := ∅; blockedIPNets := []; allowedDomains := ∅; allowedIPs := ∅ |}.

Definition NewThreatEngine (en blockMalware blockPhishing blockMiners blockAds : bool)
    (customBlockedDomains customAllowedDomains customBlockedIPs : list string)
    : option ThreatEngine :=
  e ← addDomains CategoryMalware (if blockMalware then DefaultMalwareDomains else []) (emptyEngine en);
  e ← addDomains CategoryPhishing (if blockPhishing then DefaultPhishingDomains else []) e;
  e ← addDomains CategoryMiner (if blockMiners then DefaultMinerDomains else []) e;
  e ← addDomains CategoryAdware (if blockAds then DefaultAdTrackerDomains else []) e;
  e ← addDomains CategoryCustom customBlockedDomains e;
  Some {| enabled := enabled e; bloomFilter := bloomFilter e; exactDomains := exactDomains e;
          suffixDomains := suffixDomains e;
          blockedIPNets := blockedIPNets e ++ omap parseBlockedIP customBlockedIPs;
          allowedDomains := foldl addAllowed (allowedDomains e) customAllowedDomains;
          allowedIPs := allowedIPs e |}.

(** The host as the engine compares it. *)
Definition cleanHost (host : string) : string :=
  let c := TrimSuffix (clean_key host) "." in
  let c :=
    if HasPrefix c "[" then
      match Index c "]" with
      | Some closeIdx => str_drop 1 (str_take closeIdx c)
      | None => c
      end
    else if CountByte c ":" =? 1 then default ""%string (head (SplitByte c ":"))
    else c in
  TrimSuffix c ".".

(** [for i := 1; i < len(parts)-1; i++ { strings.Join(parts[i:], ".") }] *)
Definition parents (host : string) : list string :=
  let parts := SplitByte host "." in
  map (fun i => Join (drop i parts) ".") (seq 1 (length parts - 2)).

Fixpoint anyMayContain (bf : BloomFilter) (ds : list string) : option bool :=
  match ds with
  | [] => Some false
  | d :: ds' => b ← MayContain bf d; if b : bool then Some true else anyMayContain bf ds'
  end.

Definition exactMatch (cat : ThreatCategory) : MatchResult :=
  mkMatch true cat ("Domain matches " ^^ cat ^^ " threat feed").
Definition suffixMatch (cat : ThreatCategory) (parent : string) : MatchResult :=
  mkMatch true cat ("Subdomain matches " ^^ cat ^^ " parent rule: " ^^ parent).
Definition ipMatch : MatchResult :=
  mkMatch true CategoryCustom "IP address matches security threat blocklist".

Fixpoint matchSuffix (m : gmap string ThreatCategory) (ds : list string) : MatchResult :=
  match ds with
  | [] => notBlocked
  | d :: ds' => match m !! d with Some cat => suffixMatch cat d | None => matchSuffix m ds' end
  end.

(** Steps 4 and 5: the exact match, then the parents. *)
Definition matchDomain (e : ThreatEngine) (host : string) : MatchResult :=
  match exactDomains e !! host with
  | Some cat => exactMatch cat
  | None => matchSuffix (suffixDomains e) (parents host)
  end.

Definition CheckHost (e : ThreatEngine) (host : string) : option MatchResult :=
  if negb (enabled e) then Some notBlocked
  else
    let h := cleanHost host in
    if bool_decide (h ∈ allowedDomains e) then Some notBlocked
    else
      let ip := ParseIP h in
      if negb (is_nil ip) then
        Some (if existsb (fun n => net_Contains n ip) (blockedIPNets e) then ipMatch else notBlocked)
      else
        m ← MayContain (bloomFilter e) h;
        if negb m then
          hasSuffixCandidate ← anyMayContain (bloomFilter e) (parents h);
          if negb hasSuffixCandidate then Some notBlocked
          else Some (matchDomain e h)
        else Some (matchDomain e h).

(** ** The specification: the same decision from the lists alone *)

Definition reference (e : ThreatEngine) (host : string) : MatchResult :=
  let h := cleanHost host in
  if negb (enabled e) || bool_decide (h ∈ allowedDomains e) then notBlocked
  else if negb (is_nil (ParseIP h)) then
    if existsb (fun n => net_Contains n (ParseIP h)) (blockedIPNets e) then ipMatch else notBlocked
  else matchDomain e h.

(** The filter knows every listed domain, and both lists hold the same ones. *)
Definition wf (e : ThreatEngine) : Prop :=
  Bloom.wf (bloomFilter e) /\ exactDomains e = suffixDomains e /\
  forall d, is_Some (exactDomains e !! d) -> MayContain (bloomFilter e) d = Some true.

Lemma wf_empty en : wf (emptyEngine en).
Proof.
  split; [apply bloom_wf_New; lia|]. split; [done|]. intros d [c Hc]. done.
Qed.

Definition keeps (e e' : ThreatEngine) : Prop :=
  enabled e' = enabled e /\ blockedIPNets e' = blockedIPNets e /\
  allowedDomains e' = allowedDomains e /\
  forall d, is_Some (exactDomains e !! d) -> is_Some (exactDomains e' !! d).

Lemma addDomain_wf c e d : wf e ->
  exists e', addDomain c e d = Some e' /\ wf e' /\ keeps e e' /\
    (clean_key d <> ""%string -> exactDomains e' !! TrimPrefix (clean_key d) "." = Some c).
Proof.
  intros (Hw & He & Hm). unfold addDomain. destruct (String.eqb_spec (clean_key d) "").
  - exists e. split; [done|]. split; [done|]. split; [by repeat split | congruence].
  - set (k := TrimPrefix _ _). destruct (Add_spec (bloomFilter e) k Hw) as (bf & Ea & _ & _).
    destruct (Add_finds _ _ _ Hw Ea) as (Hw' & Hle & Hk). rewrite Ea. cbn.
    eexists. split; [done|]. split; [split; [done|]; split; cbn; [by rewrite He|]|].
    + intros d' Hd'. destruct (decide (k = d')) as [<-|Hne]; [done|].
      rewrite lookup_insert_ne in Hd' by done.
      apply (bits_le_MayContain (bloomFilter e)); auto.
    + split; [|intros _; apply lookup_insert_eq]. repeat split; cbn; try done.
      intros d' Hd'. destruct (decide (k = d')) as [<-|Hne].
      * rewrite lookup_insert_eq. eauto.
      * by rewrite lookup_insert_ne.
Qed.

Lemma addDomains_wf c ds e : wf e ->
  exists e', addDomains c ds e = Some e' /\ wf e' /\ keeps e e' /\
    (forall d, d ∈ ds -> clean_key d <> ""%string ->
       is_Some (exactDomains e' !! TrimPrefix (clean_key d) ".")).
Proof.
  revert e. induction ds as [|d ds IH]; intros e Hw; cbn [addDomains].
  - exists e. split; [done|]. split; [done|]. split; [done|].
    intros d Hd. by apply elem_of_nil in Hd.
  - destruct (addDomain_wf c e d Hw) as (e1 & -> & Hw1 & (Hk1 & Hk2 & Hk3 & Hk4) & Hd1). cbn.
    destruct (IH e1 Hw1) as (e2 & -> & Hw2 & (Hj1 & Hj2 & Hj3 & Hj4) & Hd2).
    exists e2. split; [done|]. split; [done|]. split.
    { repeat split; try congruence. auto. }
    intros d' [->|Hd']%elem_of_cons Hne; [|auto]. apply Hj4. rewrite Hd1 by done. eauto.
Qed.

Lemma keeps_trans e1 e2 e3 : keeps e1 e2 -> keeps e2 e3 -> keeps e1 e3.
Proof.
  intros (H1 & H2 & H3 & H4) (G1 & G2 & G3 & G4). repeat split; try congruence. auto.
Qed.

Lemma New_wf en bm bp bi ba ds als ips :
  exists e, NewThreatEngine en bm bp bi ba ds als ips = Some e /\ wf e /\ enabled e = en /\
    allowedDomains e = foldl addAllowed ∅ als /\ blockedIPNets e = omap parseBlockedIP ips /\
    (forall d, d ∈ ds -> clean_key d <> ""%string ->
       is_Some (exactDomains e !! TrimPrefix (clean_key d) ".")).
Proof.
  unfold NewThreatEngine.
  destruct (addDomains_wf CategoryMalware (if bm then DefaultMalwareDomains else []) _ (wf_empty en))
    as (e1 & -> & Hw1 & Hk1 & _). cbn.
  destruct (addDomains_wf CategoryPhishing (if bp then DefaultPhishingDomains else []) e1 Hw1)
    as (e2 & -> & Hw2 & Hk2 & _). cbn.
  destruct (addDomains_wf CategoryMiner (if bi then DefaultMinerDomains else []) e2 Hw2)
    as (e3 & -> & Hw3 & Hk3 & _). cbn.
  destruct (addDomains_wf CategoryAdware (if ba then DefaultAdTrackerDomains else []) e3 Hw3)
    as (e4 & -> & Hw4 & Hk4 & _). cbn.
  destruct (addDomains_wf CategoryCustom ds e4 Hw4) as (e5 & -> & Hw5 & Hk5 & Hd). cbn.
  destruct (keeps_trans _ _ _ Hk1 (keeps_trans _ _ _ Hk2 (keeps_trans _ _ _ Hk3
    (keeps_trans _ _ _ Hk4 Hk5)))) as (He & Hi & Ha & _).
  eexists. split; [done|]. cbn. rewrite He, Hi, Ha. done.
Qed.

Lemma matchSuffix_none m ds : (forall d, d ∈ ds -> m !! d = None) -> matchSuffix m ds = notBlocked.
Proof.
  induction ds as [|d ds IH]; intros Hd; [done|]. cbn [matchSuffix].
  rewrite Hd by left. apply IH. intros d' Hd'. apply Hd. by right.
Qed.

Lemma anyMayContain_spec bf ds : Bloom.wf bf ->
  exists b, anyMayContain bf ds = Some b /\
    (b = false -> forall d, d ∈ ds -> MayContain bf d <> Some true).
Proof.
  intros Hw. induction ds as [|d ds (b & E & Hb)]; cbn [anyMayContain].
  - exists false. split; [done|]. intros _ d Hd. by apply elem_of_nil in Hd.
  - destruct (MayContain_spec bf d Hw) as (c & Ec & _). rewrite Ec. cbn. destruct c.
    + by exists true.
    + exists b. split; [done|]. intros Hf d' [->|Hd']%elem_of_cons; [congruence | auto].
Qed.

(** The filter only saves work. *)
Lemma CheckHost_reference e host : wf e -> CheckHost e host = Some (reference e host).
Proof.
  intros (Hw & He & Hm). unfold CheckHost, reference. cbv zeta.
  destruct (enabled e); cbn [negb orb]; [|done].
  destruct (bool_decide _); [done|]. destruct (negb (is_nil _)); [done|].
  set (h := cleanHost host). destruct (MayContain_spec (bloomFilter e) h Hw) as (b & Eb & _).
  rewrite Eb. cbn. destruct b; cbn; [done|].
  destruct (anyMayContain_spec (bloomFilter e) (parents h) Hw) as (c & Ec & Hc).
  rewrite Ec. cbn. destruct c; cbn; [done|]. f_equal. unfold matchDomain.
  assert (Hn : forall d, MayContain (bloomFilter e) d <> Some true -> exactDomains e !! d = None).
  { intros d Hd. destruct (exactDomains e !! d) eqn:E; [|done]. exfalso. apply Hd, Hm. by rewrite E. }
  rewrite Hn by congruence. symmetry. apply matchSuffix_none.
  intros d Hd. rewrite <- He. apply Hn. auto.
Qed.

(** C14. The Bloom filter is invisible: on every engine the constructor can
    build, a check never panics and decides exactly as the lists alone would,
    for every host. *)
Theorem check_host_reference en bm bp bi ba ds als ips :
  exists e, NewThreatEngine en bm bp bi ba ds als ips = Some e /\ forall host, CheckHost e host = Some (reference e host).
Proof.
  destruct (New_wf en bm bp bi ba ds als ips) as (e & E & Hw & _).
  exists e. split; [done|]. intros host. by apply CheckHost_reference.
Qed.

(** ** Blocking a domain blocks its subdomains *)

Lemma matchSuffix_some m ds d : d ∈ ds -> is_Some (m !! d) -> Blocked (matchSuffix m ds) = true.
Proof.
  intros Hd [c Hc]. induction Hd as [ds|d x ds Hd IH]; cbn [matchSuffix].
  - by rewrite Hc.
  - destruct (m !! x); [done | auto].
Qed.

Lemma parents_suffix s d : 2 <= len (SplitByte d ".") -> d ∈ parents (s ^^ "." ^^ d).
Proof.
  intros Hd. unfold parents.
  assert (Hs : SplitByte (s ^^ "." ^^ d) "." = SplitByte s "." ++ SplitByte d ".").
  { unfold SplitByte. change ("." ^^ d)%string with (String "." d). by apply SplitFunc_sep. }
  rewrite Hs. apply list_elem_of_fmap. exists (length (SplitByte s ".")).
  rewrite drop_app_length, Join_SplitByte. split; [done|].
  apply elem_of_seq. rewrite length_app. unfold len in Hd.
  pose proof (SplitFunc_nonempty (fun a => Ascii.eqb a ".") s) as Hn.
  fold (SplitByte s ".") in Hn. destruct (SplitByte s "."); [done|]. cbn. lia.
Qed.

Lemma elem_of_addAllowed m ds k :
  k ∈ foldl addAllowed m ds <-> k ∈ m \/ (k <> ""%string /\ exists d, d ∈ ds /\ k = clean_key d).
Proof.
  revert m. induction ds as [|d ds IH]; intros m; cbn [foldl]; [set_solver|].
  rewrite IH. unfold addAllowed. destruct (String.eqb_spec (clean_key d) ""); set_solver.
Qed.

(** Blocking a domain of two labels or more blocks it and every subdomain
    of it, however the entry and the host are spelled (case, surrounding
    space, a leading dot in the entry, a port or a root dot in the host),
    unless that very host is on the allow list. *)
Theorem subdomains_blocked bm bp bi ba ds als ips entry d host :
  entry ∈ ds -> clean_key entry <> ""%string -> d = TrimPrefix (clean_key entry) "." ->
  2 <= len (SplitByte d ".") ->
  (cleanHost host = d \/ exists sub, cleanHost host = sub ^^ "." ^^ d) ->
  ParseIP (cleanHost host) = [] ->
  Forall (fun a => clean_key a <> cleanHost host) als ->
  exists e r, NewThreatEngine true bm bp bi ba ds als ips = Some e /\
    CheckHost e host = Some r /\ Blocked r = true.
Proof.
  intros Hin Hne -> Hl Hh Hip Hal.
  destruct (New_wf true bm bp bi ba ds als ips) as (e & E & Hw & He & Ha & _ & Hd).
  exists e, (reference e host). split; [done|]. split; [by apply CheckHost_reference|].
  specialize (Hd entry Hin Hne). unfold reference. rewrite He, Hip. cbn [negb orb is_nil].
  rewrite bool_decide_eq_false_2.
  2: { rewrite Ha, elem_of_addAllowed. rewrite Forall_forall in Hal. set_solver. }
  unfold matchDomain. destruct (exactDomains e !! cleanHost host) as [c|] eqn:Ec; [done|].
  destruct Hh as [Hh|[sub Hh]].
  - rewrite Hh in Ec. rewrite Ec in Hd. by destruct Hd.
  - rewrite Hh. eapply matchSuffix_some; [by apply parents_suffix|].
    destruct Hw as (_ & <- & _). done.
Qed.

Lemma subdomains_blocked_witness : exists e r,
  NewThreatEngine true true false false false [" .Bad.Example "]%string ["ok.bad.example"]%string [] = Some e /\
  CheckHost e "WWW.x.bad.example.:8443" = Some r /\ Blocked r = true.
Proof.
  apply (subdomains_blocked true false false false [" .Bad.Example "]%string ["ok.bad.example"]%string []
    " .Bad.Example " "bad.example").
  - left.
  - vm_compute. congruence.
  - vm_compute. reflexivity.
  - vm_compute. congruence.
  - right. exists "www.x"%string. vm_compute. reflexivity.
  - vm_compute. reflexivity.
  - repeat constructor. vm_compute. congruence.
Defined.

Example engine_demo :
  (e ← NewThreatEngine true true true true false ["custom-danger.com"]%string
     ["allowed-exception.com"]%string ["198.51.100.0/24"]%string;
   mapM (fun h => option_map Blocked (CheckHost e h))
     ["c2-panel.su."; "pool1.us.minexmr.com"; "github.com"; "198.51.100.42"; "[2001:db8::1]:8080"]%string)
  = Some [true; true; false; true; false].
Proof. vm_compute. reflexivity. Qed.
End ThreatEngine.
