(* ===== verification/AuditRules.v ===== *)
(** * The vocabulary and the classifiers of the audit engine
    (src/pkg/security/audit_types.go, process_verifier.go, traffic_classifier.go) *)
From S2P Require Import Prelude GoStrings GoNet.
Open Scope Z_scope.

Module AuditRules.
Definition ThreatClassification : Type := string.
Definition ThreatNone : ThreatClassification := "NONE"%string.
Definition ThreatSensitivePort : ThreatClassification := "SENSITIVE_PORT_PROBE"%string.
Definition ThreatPortScan : ThreatClassification := "PORT_SCAN"%string.
Definition ThreatSSRFProbe : ThreatClassification := "SSRF_PROBE"%string.
Definition ThreatHighFrequency : ThreatClassification := "HIGH_FREQUENCY_BURST"%string.
Definition ThreatCoreBlocked : ThreatClassification := "THREAT_BLOCKED"%string.
Definition ThreatMasquerade : ThreatClassification := "MASQUERADED_PROCESS"%string.

Record BannedEntity := mkBanned {
  b_CallerID : string;
  b_BlockedAt : Z;
  b_Reason : string;
  b_RiskScore : Z;
}.

Record PcapCaptureStatus := mkPcapStatus {
  IsActive : bool;
  st_Reason : string;
  FilePath : string;
  RemainingSeconds : Z;
}.

Definition PortShieldMode : Type := string.
Definition ModeAlertOnly : PortShieldMode := "alert_only"%string.
Definition ModeThresholdBlock : PortShieldMode := "threshold_block"%string.
Definition ModeStrictBlock : PortShieldMode := "strict_block"%string.

Record SecurityPolicyConfig := mkPolicy {
  Mode : PortShieldMode;
  BlockThreshold : Z;
  PcapThreshold : Z;
  PortScanThreshold : Z;
  WindowSeconds : Z;
  AutoPcapCapture : bool;
  PcapDirectory : string;
  AutoUnblockMinutes : Z;
  ProtectedPorts : list Z;
}.

Definition DefaultSecurityPolicy : SecurityPolicyConfig :=
  {| Mode := ModeThresholdBlock; BlockThreshold := 3; PcapThreshold := 3;
     PortScanThreshold := 5; WindowSeconds := 30; AutoPcapCapture := true;
     PcapDirectory := "data/pcaps"%string; AutoUnblockMinutes := 15;
     ProtectedPorts := [445; 135; 139; 3389; 22; 23; 5353] |}.

Record SecurityAuditRequest := mkRequest {
  CallerID : string;
  PackageName : string;
  AppName : string;
  ExecutablePath : string;
  DestinationIP : string;
  DestinationHost : string;
  Port : Z;
  Protocol : string;
  AuditPorts : list Z;
  MaxThreshold : Z;
  IsExplicitBlock : bool;
  Platform : string;
  PolicyOverride : option SecurityPolicyConfig;
}.

Record SecurityAuditVerdict := mkVerdict {
  IsBlocked : bool;
  ShouldBlock : bool;
  IsSystemFlagged : bool;
  ThreatDetected : bool;
  ThreatType : ThreatClassification;
  Description : string;
  Action : string;
  RiskScore : Z;
  AttemptCount : Z;
  AttemptsCount : Z;
  Threshold : Z;
  Timestamp : Z;
  PcapCaptured : bool;
  PcapFilePath : string;
}.

Record entityConnEntry := mkEntry {
  c_Timestamp : Z;
  c_DestinationIP : string;
  c_Port : Z;
}.

(** [ProbedPorts] is a Go map and may be nil ([None]): ranging over a nil map
    and taking its length are fine, writing to it panics. *)
Record entitySecurityProfile := mkProfile {
  p_CallerID : string;
  p_RiskScore : Z;
  p_ThreatCount : Z;
  LastSeen : Z;
  ProbedPorts : option (gmap Z Z);
  RecentAttempts : list entityConnEntry;
  p_PcapCaptured : bool;
  p_PcapFilePath : string;
}.

(** ** Process verification *)

Definition slashes (s : string) : string := ReplaceByte s "\" "/".

Definition systemBinaries : gmap string string :=
  list_to_map [("svchost.exe", "system32"); ("csrss.exe", "system32"); ("lsass.exe", "system32");
    ("services.exe", "system32"); ("smss.exe", "system32"); ("taskhostw.exe", "system32");
    ("dwm.exe", "system32"); ("conhost.exe", "system32"); ("explorer.exe", "windows")]%string.

Definition in_system32 (path : string) : bool :=
  Contains path "/windows/system32" || Contains path "/windows/syswow64".
Definition in_windows (path : string) : bool :=
  Contains path "/windows" && negb (Contains path "/users/") &&
  negb (Contains path "/temp/") && negb (Contains path "/appdata/").

Definition IsMasqueradedSystemProcess (callerID fullPath : string) : bool * string :=
  let name := ToLower (Base (slashes callerID)) in
  let path := ToLower (slashes fullPath) in
  match systemBinaries !! name with
  | None => (false, ""%string)
  | Some expectedSubdir =>
      if path =s "" then (false, ""%string)
      else if (expectedSubdir =s "system32") && in_system32 path then (false, ""%string)
      else if negb (expectedSubdir =s "system32") && (expectedSubdir =s "windows") && in_windows path
        then (false, ""%string)
      else (true, "MITRE T1036: Маскировка процесса! Вредоносный бинарник '" ^^ name ^^
                  "' запущен вне системной директории Windows (" ^^ fullPath ^^ ")")
  end.

Definition isProtectedSystemEntity (caller execPath : string) : bool :=
  let clean := clean_key caller in
  let p := ToLower (slashes execPath) in
  if (clean =s "android") || (clean =s "android.system.kernel") ||
     HasPrefix clean "android.system." || HasPrefix clean "android.uid." ||
     HasPrefix clean "unknown.uid."
  then true
  else if bool_decide (clean ∈ [""; "defaultentity"; "unknown"; "pending"; "127.0.0.1"; "::1"]%string)
  then true
  else if bool_decide (clean ∈ ["system"; "system.exe"; "kernel"; "ntoskrnl.exe"]%string)
  then (p =s "") || negb (Contains p "/users/")
  else if bool_decide (clean ∈ ["svchost.exe"; "csrss.exe"; "lsass.exe"; "services.exe"; "smss.exe";
                                "taskhostw.exe"; "dwm.exe"; "conhost.exe"]%string)
  then (p =s "") || in_system32 p
  else if clean =s "explorer.exe" then (p =s "") || in_windows p
  else false.

(** ** Traffic classification *)

Definition IsSafeSystemTraffic (destIP destHost : string) (port : Z) : bool :=
  if (port =? 53) || (port =? 80) || (port =? 443) || (port =? 853) then true
  else if (destIP =s "127.0.0.1") || (destIP =s "::1") || (destIP =s "localhost")
          || (destHost =s "localhost") then true
  else
    let ip := ParseIP destIP in
    negb (is_nil ip) && (IsLoopback ip || IsPrivate ip || IsLinkLocalUnicast ip).

Definition IsCloudMetadataEndpoint (destIP destHost : string) : bool :=
  let ip := TrimSpace destIP in
  let host := clean_key destHost in
  if (ip =s "169.254.169.254") || (ip =s "100.100.100.200") || (ip =s "169.254.170.2") then true
  else Contains host "metadata.google.internal" || Contains host "metadata.goog"
    || Contains host "instance-data" || Contains host "169.254.169.254"
    || Contains host "169.254.170.2" || Contains host "100.100.100.200".

(** ** The two process tests agree *)

Lemma str_exists_lower c s : is_upper c = false -> is_lower c = false ->
  str_exists (fun a => Ascii.eqb a c) (ToLower s) = str_exists (fun a => Ascii.eqb a c) s.
Proof.
  intros Hu Hl. unfold ToLower. induction s as [|a s IH]; [done|]. cbn. rewrite IH. f_equal.
  unfold lower_char. destruct (is_upper a) eqn:E; [|done].
  destruct (Ascii.eqb_spec a c) as [->|_]; [congruence|].
  apply Ascii.eqb_neq. intros <-. revert E Hl. clear. intros E Hl.
  destruct a as [[] [] [] [] [] [] [] []]; vm_compute in E; vm_compute in Hl; congruence.
Qed.

Lemma TrimRight_absent s c : str_exists (fun a => Ascii.eqb a c) s = false ->
  TrimRight s (String c "") = s.
Proof.
  unfold TrimRight. induction s as [|a s IH]; [done|]. cbn. intros [Ha Hs]%orb_false_iff.
  rewrite IH by done. rewrite orb_false_r. by rewrite Ha; destruct s.
Qed.

(** A name without separators is its own base name. *)
Lemma Base_plain s : s <> ""%string ->
  str_exists (fun a => Ascii.eqb a "/") s = false -> Base s = s.
Proof.
  intros Hne Hs. unfold Base. destruct (String.eqb_spec s ""); [done|].
  rewrite TrimRight_absent, LastIndexByte_absent by done. by destruct (String.eqb_spec s "").
Qed.

Lemma path_name caller name : ToLower caller = name -> name <> ""%string ->
  str_exists (fun a => Ascii.eqb a "\") name = false ->
  str_exists (fun a => Ascii.eqb a "/") name = false ->
  ToLower (Base (slashes caller)) = name.
Proof.
  intros <- Hne Hb Hs. rewrite str_exists_lower in Hb, Hs by done.
  unfold slashes. rewrite ReplaceByte_absent, Base_plain; try done.
  intros ->. done.
Qed.

Lemma lower_slashes_empty p : (ToLower (slashes p) =s "") = (p =s "").
Proof. destruct p as [|a p]; [done|]. unfold slashes. cbn. by destruct (Ascii.eqb a "\"). Qed.

Definition systemNames : list string :=
  ["svchost.exe"; "csrss.exe"; "lsass.exe"; "services.exe"; "smss.exe"; "taskhostw.exe";
   "dwm.exe"; "conhost.exe"; "explorer.exe"]%string.

(** The two process tests of the engine never disagree: a process that
    carries the name of a Windows system binary (in any case) and whose path is
    known is either genuine, and then immune to quarantine, or a masquerade,
    and then blocked: exactly one of the two. *)
Theorem masquerade_or_protected caller path :
  TrimSpace caller = caller -> ToLower caller ∈ systemNames -> path <> ""%string ->
  (IsMasqueradedSystemProcess caller path).1 = negb (isProtectedSystemEntity caller path).
Proof.
  intros Ht Hn Hp. remember (ToLower caller) as name eqn:En. symmetry in En.
  assert (Hk : clean_key caller = name) by (unfold clean_key; by rewrite Ht).
  assert (Hm : ToLower (Base (slashes caller)) = name).
  { apply path_name; [done| | |]; unfold systemNames in Hn; revert Hn; clear;
      intros Hn; repeat (apply elem_of_cons in Hn as [->|Hn]; [done|]);
      by apply elem_of_nil in Hn. }
  unfold IsMasqueradedSystemProcess, isProtectedSystemEntity. rewrite Hk, Hm, lower_slashes_empty.
  set (p := ToLower (slashes path)). clearbody p.
  rewrite (proj2 (String.eqb_neq path "") Hp). clear - Hn. unfold systemNames in Hn.
  repeat (apply elem_of_cons in Hn as [->|Hn];
    [by (destruct (in_system32 p) eqn:E1, (in_windows p) eqn:E2;
         cbn -[in_system32 in_windows]; rewrite ?E1, ?E2)|]).
  by apply elem_of_nil in Hn.
Qed.

Lemma masquerade_or_protected_witness :
  (IsMasqueradedSystemProcess "SvcHost.exe" "C:\Users\me\svchost.exe").1
    = negb (isProtectedSystemEntity "SvcHost.exe" "C:\Users\me\svchost.exe").
Proof.
  apply masquerade_or_protected.
  - vm_compute. reflexivity.
  - left.
  - discriminate.
Defined.
End AuditRules.
