(* ===== verification/AuditEngine.v ===== *)
(** * The unified audit engine
    (src/pkg/security/audit.go, decay.go, quarantine.go, pcap_session.go)

    Every connection is audited against the quarantine, the masquerade and
    metadata tests and the port shield; entities that go too far are
    quarantined.  The reading of the clock and whether the packet could be
    written to the capture file are arguments of a step.  A write to a nil Go
    map panics: the step is then [None]. *)
From S2P Require Import Prelude GoStrings GoNet GoFloat GoTime AuditRules.
Import AuditRules.
Open Scope Z_scope.

Module AuditEngine.
Section engine.
Context `{LocalZone} {order : RangeOrder string}.

Record UnifiedSecurityEngine := mkEngine {
  profiles : gmap string entitySecurityProfile;
  bannedEntities : gmap string BannedEntity;
  pcapActiveUntil : Z;
  pcapActiveReason : string;
  pcapActiveFile : string;
  policy : SecurityPolicyConfig;
}.
Implicit Types (e : UnifiedSecurityEngine) (req : SecurityAuditRequest)
  (pol : SecurityPolicyConfig) (p : entitySecurityProfile) (v : SecurityAuditVerdict).

Definition NewUnifiedSecurityEngine : UnifiedSecurityEngine :=
  {| profiles := ∅; bannedEntities := ∅; pcapActiveUntil := zeroTime;
     pcapActiveReason := ""%string; pcapActiveFile := ""%string;
     policy := DefaultSecurityPolicy |}.

Definition set_profiles e (ps : gmap string entitySecurityProfile) : UnifiedSecurityEngine :=
  mkEngine ps (bannedEntities e) (pcapActiveUntil e) (pcapActiveReason e) (pcapActiveFile e) (policy e).
Definition set_banned e (bs : gmap string BannedEntity) : UnifiedSecurityEngine :=
  mkEngine (profiles e) bs (pcapActiveUntil e) (pcapActiveReason e) (pcapActiveFile e) (policy e).
Definition set_until e (t : Z) : UnifiedSecurityEngine :=
  mkEngine (profiles e) (bannedEntities e) t (pcapActiveReason e) (pcapActiveFile e) (policy e).
Definition set_policy e pol : UnifiedSecurityEngine :=
  mkEngine (profiles e) (bannedEntities e) (pcapActiveUntil e) (pcapActiveReason e)
    (pcapActiveFile e) pol.

Definition ConfigurePolicy e (cfg : SecurityPolicyConfig) : UnifiedSecurityEngine :=
  set_policy e
    {| Mode := if Mode cfg =s "" then ModeThresholdBlock else Mode cfg;
       BlockThreshold := if BlockThreshold cfg <=? 0 then 3 else BlockThreshold cfg;
       PcapThreshold := if PcapThreshold cfg <=? 0 then 3 else PcapThreshold cfg;
       PortScanThreshold := if PortScanThreshold cfg <=? 0 then 5 else PortScanThreshold cfg;
       WindowSeconds := if WindowSeconds cfg <=? 0 then 30 else WindowSeconds cfg;
       AutoPcapCapture := AutoPcapCapture cfg;
       PcapDirectory := if PcapDirectory cfg =s "" then "data/pcaps"%string else PcapDirectory cfg;
       AutoUnblockMinutes := AutoUnblockMinutes cfg;
       ProtectedPorts := match ProtectedPorts cfg with
                         | [] => [445; 135; 139; 3389; 22; 23; 5353] | ps => ps end |}.

Definition GetPolicy e : SecurityPolicyConfig := policy e.

Definition SetPcapConfig e (dir : string) (threshold : Z) : UnifiedSecurityEngine :=
  let pol := policy e in
  set_policy e
    {| Mode := Mode pol; BlockThreshold := BlockThreshold pol;
       PcapThreshold := if 0 <? threshold then threshold else PcapThreshold pol;
       PortScanThreshold := PortScanThreshold pol; WindowSeconds := WindowSeconds pol;
       AutoPcapCapture := true; PcapDirectory := dir;
       AutoUnblockMinutes := AutoUnblockMinutes pol; ProtectedPorts := ProtectedPorts pol |}.

(** ** Capture sessions *)

Definition EnsureActivePcapSession (reason : string) pol (now : Z) e
    : UnifiedSecurityEngine * string :=
  if negb (AutoPcapCapture pol) then (e, ""%string)
  else if Before now (pcapActiveUntil e) && (pcapActiveFile e <>s "")
  then (e, pcapActiveFile e)
  else
    let dir := if PcapDirectory pol =s "" then "data/pcaps"%string else PcapDirectory pol in
    let file := JoinPath [dir; "threat_capture_" ^^ FormatCompact now ^^ ".pcap"] in
    (mkEngine (profiles e) (bannedEntities e) (Add now (5 * Minute)) reason file (policy e), file).

Definition StartPcapSession (now : Z) e (reason : string) (duration : Z) : UnifiedSecurityEngine :=
  let e1 := (EnsureActivePcapSession reason (policy e) now e).1 in
  if 0 <? duration then set_until e1 (Add now duration) else e1.

Definition StopPcapSession e : UnifiedSecurityEngine := set_until e zeroTime.

Definition GetPcapStatus (now : Z) e : PcapCaptureStatus :=
  let active := Before now (pcapActiveUntil e) in
  {| IsActive := active; st_Reason := pcapActiveReason e; FilePath := pcapActiveFile e;
     RemainingSeconds := if active then f64_trunc (f64_seconds (Sub (pcapActiveUntil e) now)) else 0 |}.

(** The packet of this request is appended to the active session, if any;
    [recorded] tells whether the write succeeded. *)
Definition with_pcap v (file : string) : SecurityAuditVerdict :=
  {| IsBlocked := IsBlocked v; ShouldBlock := ShouldBlock v; IsSystemFlagged := IsSystemFlagged v;
     ThreatDetected := ThreatDetected v; ThreatType := ThreatType v; Description := Description v;
     Action := Action v; RiskScore := RiskScore v; AttemptCount := AttemptCount v;
     AttemptsCount := AttemptsCount v; Threshold := Threshold v; Timestamp := Timestamp v;
     PcapCaptured := true; PcapFilePath := file |}.

Definition profile_pcap p (file : string) : entitySecurityProfile :=
  mkProfile (p_CallerID p) (p_RiskScore p) (p_ThreatCount p) (LastSeen p) (ProbedPorts p)
    (RecentAttempts p) true file.

Definition session_active (now : Z) e : bool :=
  Before now (pcapActiveUntil e) && (pcapActiveFile e <>s "").

Definition recordSession (now : Z) (recorded : bool) (caller : string) v e
    : UnifiedSecurityEngine * SecurityAuditVerdict :=
  if session_active now e && recorded then
    (set_profiles e (alter (fun p => profile_pcap p (pcapActiveFile e)) caller (profiles e)),
     with_pcap v (pcapActiveFile e))
  else (e, v).

(** ** The quarantine *)

Definition IsEntityBlocked e (callerID : string) : bool :=
  match bannedEntities e !! callerID with Some _ => true | None => false end.

Definition GetBlockedEntities e : list BannedEntity :=
  omap (fun k => bannedEntities e !! k) (range_keys (dom (bannedEntities e))).

Definition ban (now : Z) (caller : string) (desc : string) (score : Z) e : UnifiedSecurityEngine :=
  set_banned e (<[caller := mkBanned caller now desc score]> (bannedEntities e)).

Definition BanEntity (now : Z) e (callerID : string) (desc : string) : UnifiedSecurityEngine :=
  let e1 := if 10000 <=? Z.of_nat (size (bannedEntities e))
            then set_banned e (evict order 1 (bannedEntities e)) else e in
  ban now callerID desc 100 e1.

Definition UnblockEntity e (callerID : string) : UnifiedSecurityEngine :=
  set_profiles (set_banned e (delete callerID (bannedEntities e)))
    (alter (fun p => mkProfile (p_CallerID p) 0 0 (LastSeen p) (ProbedPorts p)
              (RecentAttempts p) (p_PcapCaptured p) (p_PcapFilePath p))
       callerID (profiles e)).

Definition UnblockAllEntities e : UnifiedSecurityEngine :=
  set_profiles (set_banned e ∅) ∅.

(** ** Decay *)

Definition decay_profile p : entitySecurityProfile :=
  mkProfile (p_CallerID p)
    (if 0 <? p_RiskScore p
     then (if p_RiskScore p - 20 <? 0 then 0 else p_RiskScore p - 20) else p_RiskScore p)
    (if 0 <? p_ThreatCount p then p_ThreatCount p - 1 else p_ThreatCount p)
    (LastSeen p) (ProbedPorts p) (RecentAttempts p) (p_PcapCaptured p) (p_PcapFilePath p).

Definition runDecayStep (now : Z) e : UnifiedSecurityEngine :=
  let banned :=
    if 0 <? AutoUnblockMinutes (policy e) then
      range_delete (fun _ b => DurMul (AutoUnblockMinutes (policy e)) Minute <? Sub now (b_BlockedAt b))
        (bannedEntities e)
    else bannedEntities e in
  set_profiles (set_banned e banned)
    (decay_profile <$>
       range_delete (fun _ p => 10 * Minute <? Sub now (LastSeen p)) (profiles e)).

(** ** Auditing *)

Definition handlePcapAndProfile (now : Z) (recorded : bool) (caller : string) v req pol e
    : UnifiedSecurityEngine * SecurityAuditVerdict :=
  let p := default (mkProfile caller 0 0 now None [] false "") (profiles e !! caller) in
  let p := mkProfile (p_CallerID p) 100 (wrap64 (p_ThreatCount p + 1)) (LastSeen p) (ProbedPorts p)
             (RecentAttempts p) (p_PcapCaptured p) (p_PcapFilePath p) in
  let e1 := set_profiles e (<[caller := p]> (profiles e)) in
  let e2 :=
    if ShouldBlock v && negb (isProtectedSystemEntity caller (ExecutablePath req))
    then (EnsureActivePcapSession (Description v) pol now (ban now caller (Description v) 100 e1)).1
    else e1 in
  recordSession now recorded caller v e2.

(** A verdict with the fields that vary between the early returns. *)
Definition verdict (blocked should threat : bool) (kind : ThreatClassification)
    (desc action : string) (score attempts : Z) (now : Z) : SecurityAuditVerdict :=
  {| IsBlocked := blocked; ShouldBlock := should; IsSystemFlagged := false;
     ThreatDetected := threat; ThreatType := kind; Description := desc; Action := action;
     RiskScore := score; AttemptCount := attempts; AttemptsCount := attempts; Threshold := 0;
     Timestamp := UnixMilli now; PcapCaptured := false; PcapFilePath := "" |}.

Definition quarantined_verdict (now : Z) (caller : string) : SecurityAuditVerdict :=
  verdict true false true ThreatCoreBlocked
    ("Process '" ^^ caller ^^ "' is in Zero Trust isolation") "BLOCK" 100 1 now.
Definition masquerade_verdict (now : Z) (reason : string) : SecurityAuditVerdict :=
  verdict true true true ThreatMasquerade reason "BLOCK" 100 0 now.
Definition ssrf_verdict (now : Z) : SecurityAuditVerdict :=
  verdict true true true ThreatSSRFProbe
    "Blocked unauthorized cloud metadata / SSRF access attempt (169.254.169.254)" "BLOCK" 100 0 now.
Definition filtered_verdict (now : Z) req : SecurityAuditVerdict :=
  verdict true false false ThreatNone
    ("Filtered connection to " ^^ DestinationIP req ^^ ":" ^^ Itoa (Port req) ^^
     " dropped by routing rule") "DROP" 0 0 now.
Definition safe_verdict (now : Z) : SecurityAuditVerdict :=
  verdict false false false ThreatNone "Standard safe network traffic" "ALLOW" 0 0 now.
Definition normal_verdict (now : Z) p : SecurityAuditVerdict :=
  verdict false false false ThreatNone "Normal network connection" "ALLOW" (p_RiskScore p) 0 now.

Definition caller_of req : string :=
  let c := TrimSpace (CallerID req) in
  let c := if c =s "" then TrimSpace (PackageName req) else c in
  if c =s "" then "DefaultEntity"%string else c.

Definition policy_of e req : SecurityPolicyConfig := default (policy e) (PolicyOverride req).

Definition is_sensitive req pol : bool :=
  let ports := match AuditPorts req with [] => ProtectedPorts pol | ps => ps end in
  existsb (fun q : Z => (q =? Port req) && (0 <? q)) ports.

(** The profile the request is charged to: a full table is first cleared of
    the profiles not seen for a minute, and if it is still full the request is
    charged to the common profile. *)
Definition profile_for (now : Z) (caller : string) e
    : string * entitySecurityProfile * gmap string entitySecurityProfile :=
  match profiles e !! caller with
  | Some p => (caller, p, profiles e)
  | None =>
      let '(who, found, ps) :=
        if 10000 <=? Z.of_nat (size (profiles e)) then
          let kept := range_delete (fun _ p => 1 * Minute <? Sub now (LastSeen p)) (profiles e) in
          if 10000 <=? Z.of_nat (size kept)
          then ("DefaultEntity"%string, kept !! "DefaultEntity"%string, kept)
          else (caller, None, kept)
        else (caller, None, profiles e) in
      match found with
      | Some p => (who, p, ps)
      | None => let p := mkProfile who 0 0 now (Some ∅) [] false "" in (who, p, <[who := p]> ps)
      end
  end.

Definition window_of pol : Z :=
  let d := DurMul (WindowSeconds pol) Second in if d <=? 0 then 30 * Second else d.

(** [profile.ProbedPorts[req.Port] = now]; [None] is the write to a nil map. *)
Definition note_port (now : Z) req p : option (option (gmap Z Z)) :=
  if (0 <? Port req) && negb (IsSafeSystemTraffic "" "" (Port req)) then
    match ProbedPorts p with
    | Some m => Some (Some (<[Port req := now]> m))
    | None => None
    end
  else Some (ProbedPorts p).

(** The bookkeeping of an attempt. *)
Definition note_attempt (now window : Z) req p : option entitySecurityProfile :=
  probed ← note_port now req p;
  let recent := push_capped 100
    (filter (fun a => (Sub now (c_Timestamp a) <? 1 * Minute) = true) (RecentAttempts p))
    (mkEntry now (DestinationIP req) (Port req)) in
  Some (mkProfile (p_CallerID p) (p_RiskScore p) (p_ThreatCount p) now
          (option_map (range_delete (fun _ t => window <? Sub now t)) probed)
          recent (p_PcapCaptured p) (p_PcapFilePath p)).

Definition bump (risk : Z) p : entitySecurityProfile :=
  let r := wrap64 (p_RiskScore p + risk) in
  mkProfile (p_CallerID p) (if 100 <? r then 100 else r) (wrap64 (p_ThreatCount p + 1)) (LastSeen p)
    (ProbedPorts p) (RecentAttempts p) (p_PcapCaptured p) (p_PcapFilePath p).

Definition block_limit req pol : Z :=
  let l := if 0 <? MaxThreshold req then MaxThreshold req else BlockThreshold pol in
  if l <=? 0 then 3 else l.

Definition is_exceeded req pol (attempts : Z) : bool :=
  if Mode pol =s ModeStrictBlock then true
  else if Mode pol =s ModeAlertOnly then false
  else ((0 <? MaxThreshold req) && (block_limit req pol <? attempts))
       || ((MaxThreshold req <=? 0) && (block_limit req pol <=? attempts)).

Definition judge_sensitive (now : Z) (caller : string) (isSystem : bool) req pol p
    : entitySecurityProfile * SecurityAuditVerdict :=
  let p := bump 25 p in
  let n := p_ThreatCount p in
  let limit := block_limit req pol in
  let isExceeded := is_exceeded req pol n in
  let should := isExceeded && negb isSystem in
  let flagged := isSystem && isExceeded in
  let count := Itoa n ^^ "/" ^^ Itoa limit ^^ ")" in
  let desc :=
    if should then "Shielded sensitive port " ^^ Itoa (Port req) ^^ " blocked (policy " ^^ Mode pol
                   ^^ ": attempt " ^^ count
    else if flagged then "System entity '" ^^ caller ^^ "' probed sensitive port "
                   ^^ Itoa (Port req) ^^ " (flagged)"
    else "Shielded sensitive port " ^^ Itoa (Port req) ^^ " probe detected (attempt " ^^ count in
  (p, {| IsBlocked := should; ShouldBlock := should; IsSystemFlagged := flagged;
         ThreatDetected := true;
         ThreatType := if flagged then ThreatHighFrequency else ThreatSensitivePort;
         Description := desc;
         Action := if should then "BLOCK" else if flagged then "FLAG_SYSTEM" else "ALERT";
         RiskScore := p_RiskScore p; AttemptCount := n; AttemptsCount := n; Threshold := limit;
         Timestamp := UnixMilli now; PcapCaptured := false; PcapFilePath := "" |}).

Definition probed_count p : Z :=
  match ProbedPorts p with Some m => Z.of_nat (size m) | None => 0 end.

Definition judge_scan (now : Z) (caller : string) (isSystem : bool) pol p
    : entitySecurityProfile * SecurityAuditVerdict :=
  let p := bump 40 p in
  let should := (Mode pol =s ModeStrictBlock) && negb isSystem in
  (p, {| IsBlocked := should; ShouldBlock := should; IsSystemFlagged := false;
         ThreatDetected := true; ThreatType := ThreatPortScan;
         Description := "Entity '" ^^ caller ^^ "' performed port scan across "
                        ^^ Itoa (probed_count p) ^^ " distinct ports";
         Action := "ALERT"; RiskScore := p_RiskScore p; AttemptCount := probed_count p;
         AttemptsCount := 0; Threshold := PortScanThreshold pol;
         Timestamp := UnixMilli now; PcapCaptured := false; PcapFilePath := "" |}).

Definition judge (now : Z) (caller : string) (isSystem isSensitive : bool) req pol p
    : entitySecurityProfile * SecurityAuditVerdict :=
  if isSensitive then judge_sensitive now caller isSystem req pol p
  else if (PortScanThreshold pol <=? probed_count p) && (0 <? PortScanThreshold pol)
  then judge_scan now caller isSystem pol p
  else (p, normal_verdict now p).

(** The locked part of the audit: the profile, the verdict, the quarantine and
    the capture. *)
Definition audit_profile (now : Z) (recorded : bool) (caller : string) (isSystem isSensitive : bool)
    req pol e : option (UnifiedSecurityEngine * SecurityAuditVerdict) :=
  let '(who, p0, ps) := profile_for now caller e in
  p1 ← note_attempt now (window_of pol) req p0;
  let '(p2, v) := judge now who isSystem isSensitive req pol p1 in
  let e1 := set_profiles e (<[who := p2]> ps) in
  let e2 := if ShouldBlock v && negb isSystem
            then ban now who (Description v) (RiskScore v) e1 else e1 in
  let e3 :=
    if ThreatDetected v && AutoPcapCapture pol &&
       (ShouldBlock v || IsBlocked v || (ThreatType v =s ThreatPortScan)
        || (ThreatType v =s ThreatSSRFProbe))
    then (EnsureActivePcapSession (Description v) pol now e2).1 else e2 in
  Some (recordSession now recorded who v e3).

Definition AuditConnection (now : Z) (recorded : bool) req e
    : option (UnifiedSecurityEngine * SecurityAuditVerdict) :=
  let caller := caller_of req in
  let isSystem := isProtectedSystemEntity caller (ExecutablePath req) in
  let pol := policy_of e req in
  let masq := IsMasqueradedSystemProcess caller (ExecutablePath req) in
  if IsEntityBlocked e caller then
    Some (handlePcapAndProfile now recorded caller (quarantined_verdict now caller) req pol e)
  else if masq.1 then
    Some (handlePcapAndProfile now recorded caller (masquerade_verdict now masq.2) req pol e)
  else if IsCloudMetadataEndpoint (DestinationIP req) (DestinationHost req) then
    Some (handlePcapAndProfile now recorded caller (ssrf_verdict now) req pol e)
  else
    let isSensitive := is_sensitive req pol in
    if IsExplicitBlock req && negb isSensitive then Some (e, filtered_verdict now req)
    else if negb isSensitive && IsSafeSystemTraffic (DestinationIP req) (DestinationHost req) (Port req)
    then Some (e, if session_active now e then with_pcap (safe_verdict now) (pcapActiveFile e)
                  else safe_verdict now)
    else audit_profile now recorded caller isSystem isSensitive req pol e.

(** ** Everything that can happen to an engine *)

Inductive op :=
  | OpAudit (recorded : bool) (req : SecurityAuditRequest)
  | OpConfigure (cfg : SecurityPolicyConfig)
  | OpSetPcap (dir : string) (threshold : Z)
  | OpStartPcap (reason : string) (duration : Z)
  | OpStopPcap
  | OpBan (id desc : string)
  | OpUnblock (id : string)
  | OpUnblockAll
  | OpDecay.

Definition exec (now : Z) e (o : op) : option UnifiedSecurityEngine :=
  match o with
  | OpAudit recorded req => r ← AuditConnection now recorded req e; Some r.1
  | OpConfigure cfg => Some (ConfigurePolicy e cfg)
  | OpSetPcap dir n => Some (SetPcapConfig e dir n)
  | OpStartPcap reason d => Some (StartPcapSession now e reason d)
  | OpStopPcap => Some (StopPcapSession e)
  | OpBan id desc => Some (BanEntity now e id desc)
  | OpUnblock id => Some (UnblockEntity e id)
  | OpUnblockAll => Some (UnblockAllEntities e)
  | OpDecay => Some (runDecayStep now e)
  end.

(** [reached n e]: a new engine comes to [e] in [n] operations. *)
Inductive reached : nat -> UnifiedSecurityEngine -> Prop :=
  | reached_new : reached 0 NewUnifiedSecurityEngine
  | reached_step n e now o e' : reached n e -> exec now e o = Some e' -> reached (S n) e'.

(** ** Well-formed profiles *)

Definition profile_ok (n : nat) (k : string) p : Prop :=
  p_CallerID p = k /\ 0 <= p_RiskScore p <= 100 /\ 0 <= p_ThreatCount p <= Z.of_nat n /\
  len (RecentAttempts p) <= 100.

Definition banned_ok (k : string) (b : BannedEntity) : Prop :=
  b_CallerID b = k /\ 0 <= b_RiskScore b <= 100.

Definition sound (n : nat) e : Prop :=
  map_Forall (profile_ok n) (profiles e) /\ map_Forall banned_ok (bannedEntities e).

Lemma profile_ok_le n m k p : (n <= m)%nat -> profile_ok n k p -> profile_ok m k p.
Proof. intros Hle (Hc & Hr & Ht & Ha). repeat split; try done; lia. Qed.

Lemma profiles_ok_le n m (ps : gmap string entitySecurityProfile) : (n <= m)%nat ->
  map_Forall (profile_ok n) ps -> map_Forall (profile_ok m) ps.
Proof. intros Hle Hp k p Hk. by apply (profile_ok_le n), Hp. Qed.

Lemma sound_insert n e k p :
  sound n e -> profile_ok n k p -> sound n (set_profiles e (<[k := p]> (profiles e))).
Proof. intros [Hp Hb] Hk. split; [|done]. by apply map_Forall_insert_2. Qed.

Lemma sound_ban n e now k desc score : 0 <= score <= 100 ->
  sound n e -> sound n (ban now k desc score e).
Proof. intros Hs [Hp Hb]. split; [done|]. by apply map_Forall_insert_2. Qed.

Lemma Ensure_maps reason pol now e :
  profiles (EnsureActivePcapSession reason pol now e).1 = profiles e /\
  bannedEntities (EnsureActivePcapSession reason pol now e).1 = bannedEntities e /\
  policy (EnsureActivePcapSession reason pol now e).1 = policy e.
Proof.
  unfold EnsureActivePcapSession. destruct (negb _); [done|]. by destruct (_ && _).
Qed.

Lemma record_maps now recorded caller v e :
  let r := recordSession now recorded caller v e in
  bannedEntities r.1 = bannedEntities e /\ policy r.1 = policy e /\
  profiles r.1 = (if session_active now e && recorded
                  then alter (fun p => profile_pcap p (pcapActiveFile e)) caller (profiles e)
                  else profiles e).
Proof. unfold recordSession. by destruct (_ && _). Qed.

Lemma sound_alter n k (f : entitySecurityProfile -> entitySecurityProfile)
    (ps : gmap string entitySecurityProfile) :
  (forall p, profile_ok n k p -> profile_ok n k (f p)) ->
  map_Forall (profile_ok n) ps -> map_Forall (profile_ok n) (alter f k ps).
Proof.
  intros Hf Hp j p. destruct (decide (k = j)) as [<-|Hne].
  - rewrite lookup_alter_eq. intros (q & Hq & ->)%fmap_Some. eauto.
  - rewrite lookup_alter_ne by done. apply Hp.
Qed.

Lemma sound_record n now recorded caller v e :
  sound n e -> sound n (recordSession now recorded caller v e).1.
Proof.
  intros [Hp Hb]. pose proof (record_maps now recorded caller v e) as (E1 & _ & E3).
  unfold sound. rewrite E1, E3. split; [|done]. destruct (_ && _); [|done].
  by apply sound_alter.
Qed.

Lemma sound_ensure n reason pol now e :
  sound n e -> sound n (EnsureActivePcapSession reason pol now e).1.
Proof.
  unfold sound. destruct (Ensure_maps reason pol now e) as (-> & -> & _). done.
Qed.

Lemma sound_handle n now recorded caller v req pol e : (Z.of_nat n < 2^62)%Z ->
  sound n e -> sound (S n) (handlePcapAndProfile now recorded caller v req pol e).1.
Proof.
  intros Hn [Hp Hb]. unfold handlePcapAndProfile. apply sound_record.
  assert (Hs : sound (S n) (set_profiles e (<[caller :=
    let p := default (mkProfile caller 0 0 now None [] false "") (profiles e !! caller) in
    mkProfile (p_CallerID p) 100 (wrap64 (p_ThreatCount p + 1)) (LastSeen p) (ProbedPorts p)
             (RecentAttempts p) (p_PcapCaptured p) (p_PcapFilePath p)]> (profiles e)))).
  { apply sound_insert; [split; [by apply (profiles_ok_le n); [lia|] | done]|].
    assert (Hq : profile_ok n caller
      (default (mkProfile caller 0 0 now None [] false "") (profiles e !! caller))).
    { destruct (profiles e !! caller) as [p|] eqn:E; [by apply Hp|].
      repeat split; cbn; try lia. unfold len. cbn. lia. }
    destruct Hq as (Hc & Hr & Ht & Ha). repeat split; cbn; try done; rewrite ?wrap64_small; lia. }
  destruct (_ && _); [|done]. apply sound_ensure, sound_ban; [lia | done].
Qed.

Lemma profile_for_ok n now caller e who p ps : sound n e ->
  profile_for now caller e = (who, p, ps) ->
  map_Forall (profile_ok n) ps /\ profile_ok n who p.
Proof.
  intros [Hp _]. unfold profile_for.
  assert (Hnew : forall k, profile_ok n k (mkProfile k 0 0 now (Some ∅) [] false "")).
  { intros k. repeat split; cbn; try lia. unfold len. cbn. lia. }
  destruct (profiles e !! caller) as [q|] eqn:E.
  - intros [= <- <- <-]. split; [done | by apply Hp].
  - assert (Hk : map_Forall (profile_ok n)
      (range_delete (fun _ p => 1 * Minute <? Sub now (LastSeen p)) (profiles e))).
    { by apply map_Forall_range_delete. }
    destruct (10000 <=? _); [destruct (10000 <=? _)|].
    + set (kept := range_delete _ _) in *.
      destruct (kept !! "DefaultEntity"%string) as [q|] eqn:Eq; intros [= <- <- <-].
      * split; [done | by apply Hk].
      * split; [by apply map_Forall_insert_2 | done].
    + intros [= <- <- <-]. split; [by apply map_Forall_insert_2 | done].
    + intros [= <- <- <-]. split; [by apply map_Forall_insert_2 | done].
Qed.

Lemma note_attempt_ok n now window req k p p' :
  profile_ok n k p -> note_attempt now window req p = Some p' -> profile_ok n k p'.
Proof.
  intros (Hc & Hr & Ht & Ha). unfold note_attempt.
  destruct (note_port _ _ _) as [pr|]; [|discriminate].
  cbn. intros [= <-]. repeat split; cbn; try done; try lia.
  apply push_capped_bound. lia.
Qed.

Lemma bump_ok n k risk p : 0 <= risk <= 100 -> (Z.of_nat n < 2^62)%Z ->
  profile_ok n k p -> profile_ok (S n) k (bump risk p).
Proof.
  intros Hrk Hn (Hc & Hr & Ht & Ha). unfold bump. rewrite !wrap64_small by lia.
  repeat split; cbn; try done; try lia; destruct (100 <? _) eqn:E; lia.
Qed.

Lemma judge_ok n now who isSystem isSensitive req pol p k : (Z.of_nat n < 2^62)%Z ->
  profile_ok n k p ->
  profile_ok (S n) k (judge now who isSystem isSensitive req pol p).1 /\
  0 <= RiskScore (judge now who isSystem isSensitive req pol p).2 <= 100.
Proof.
  intros Hn Hp. unfold judge, judge_sensitive, judge_scan.
  destruct isSensitive; [|destruct (_ && _)]; cbn.
  - pose proof (bump_ok n k 25 p ltac:(lia) Hn Hp) as Hb. split; [done|]. apply Hb.
  - pose proof (bump_ok n k 40 p ltac:(lia) Hn Hp) as Hb. split; [done|]. apply Hb.
  - split; [by apply (profile_ok_le n); [lia|]|]. apply Hp.
Qed.

Lemma audit_sound n now recorded req e e' v : (Z.of_nat n < 2^62)%Z ->
  sound n e -> AuditConnection now recorded req e = Some (e', v) -> sound (S n) e'.
Proof.
  intros Hn Hs. assert (Hs' : sound (S n) e).
  { destruct Hs as [Hp Hb]. split; [by apply (profiles_ok_le n); [lia|] | done]. }
  unfold AuditConnection.
  destruct (IsEntityBlocked _ _).
  { intros [= E]. apply (f_equal fst) in E. cbn [fst] in E. subst e'. by apply sound_handle. }
  destruct (IsMasqueradedSystemProcess _ _).1.
  { intros [= E]. apply (f_equal fst) in E. cbn [fst] in E. subst e'. by apply sound_handle. }
  destruct (IsCloudMetadataEndpoint _ _).
  { intros [= E]. apply (f_equal fst) in E. cbn [fst] in E. subst e'. by apply sound_handle. }
  destruct (_ && _); [congruence|]. destruct (_ && _); [congruence|].
  unfold audit_profile. destruct (profile_for _ _ _) as [[who p0] ps] eqn:Epf.
  destruct (profile_for_ok n now _ e who p0 ps Hs Epf) as [Hps Hp0].
  destruct (note_attempt _ _ _ _) as [p1|] eqn:En; cbn; [|discriminate].
  pose proof (note_attempt_ok _ _ _ _ _ _ _ Hp0 En) as Hp1.
  destruct (judge_ok n now who (isProtectedSystemEntity (caller_of req) (ExecutablePath req))
    (is_sensitive req (policy_of e req)) req (policy_of e req) p1 who Hn Hp1) as [Hp2 Hv].
  destruct (judge _ _ _ _ _ _ _) as [p2 w]. cbn in Hp2, Hv. intros [= E].
  apply (f_equal fst) in E. cbn [fst] in E. subst e'.
  match goal with |- context [recordSession ?a ?b ?c ?d ?g] =>
    enough (Hg : sound (S n) g) by exact (sound_record (S n) a b c d g Hg) end.
  assert (H1 : sound (S n) (set_profiles e (<[who := p2]> ps))).
  { split; [|apply Hs]. apply map_Forall_insert_2; [done|]. by apply (profiles_ok_le n); [lia|]. }
  destruct (_ && _); [apply sound_ensure|]; destruct (_ && _); try done; by apply sound_ban.
Qed.

Lemma sound_S n e : sound n e -> sound (S n) e.
Proof. intros [Hp Hb]. split; [by apply (profiles_ok_le n); [lia|] | done]. Qed.

Lemma decay_ok n k p : profile_ok n k p -> profile_ok n k (decay_profile p).
Proof.
  intros (Hc & Hr & Ht & Ha). unfold decay_profile. repeat split; cbn; try done;
    destruct (Z.ltb_spec 0 (p_RiskScore p)), (Z.ltb_spec 0 (p_ThreatCount p)),
      (Z.ltb_spec (p_RiskScore p - 20) 0); lia.
Qed.

Lemma exec_sound n now o e e' : (Z.of_nat n < 2^62)%Z ->
  sound n e -> exec now e o = Some e' -> sound (S n) e'.
Proof.
  intros Hn Hs. pose proof (sound_S n e Hs) as [Hp Hb].
  destruct o as [recorded req| | | | |id desc|id| |]; cbn [exec].
  - destruct (AuditConnection now recorded req e) as [[e1 v]|] eqn:E; [|discriminate].
    intros [= <-]. by eapply audit_sound.
  - by intros [= <-].
  - by intros [= <-].
  - intros [= <-]. unfold StartPcapSession.
    pose proof (sound_ensure (S n) reason (policy e) now e (conj Hp Hb)) as He.
    by destruct (0 <? duration).
  - by intros [= <-].
  - intros [= <-]. apply sound_ban; [lia|]. destruct (10000 <=? _); [|done].
    split; [done|]. by apply map_Forall_evict.
  - intros [= <-]. split; cbn.
    + apply sound_alter; [|done]. intros p (Hc & Hr & Ht & Ha). repeat split; cbn; try done; lia.
    + intros k b. destruct (decide (id = k)) as [->|Hne].
      * by rewrite lookup_delete_eq.
      * rewrite lookup_delete_ne by done. apply Hb.
  - intros [= <-]. split; apply map_Forall_empty.
  - intros [= <-]. split; cbn.
    + intros k p. rewrite lookup_fmap. intros (q & Hq & ->)%fmap_Some. apply decay_ok.
      by apply (map_Forall_range_delete (profile_ok (S n)) _ _ Hp _ _ Hq).
    + destruct (0 <? _); [by apply map_Forall_range_delete | done].
Qed.

(** The state stays sound: after any operations (fewer than 2^62), every
    profile is filed under its caller, its risk score is a percentage, its
    threat counter is no larger than the number of operations (so it never
    wraps) and its history holds at most 100 attempts; every quarantine entry
    is filed under the entity it names. *)
Theorem reached_sound n e : (Z.of_nat n < 2^62)%Z -> reached n e -> sound n e.
Proof.
  intros Hn Hr. revert Hn. induction Hr as [|n e now o e' _ IH He]; intros Hn.
  - split; apply map_Forall_empty.
  - eapply exec_sound; [lia | apply IH; lia | exact He].
Qed.

(** ** The threshold shield *)

(** A request that nothing but the port shield decides: the caller is not a
    system entity or a masquerade and the target is a protected port. *)
Definition shield_probe pol (c : string) req : Prop :=
  caller_of req = c /\ isProtectedSystemEntity c (ExecutablePath req) = false /\
  (IsMasqueradedSystemProcess c (ExecutablePath req)).1 = false /\
  IsCloudMetadataEndpoint (DestinationIP req) (DestinationHost req) = false /\
  PolicyOverride req = None /\ MaxThreshold req <= 0 /\ is_sensitive req pol = true.

(** What the caller is told: whether the connection is blocked, whether a threat was
    detected, and the action.  [answer_to n]: to the [n]-th probe. *)
Definition response (v : SecurityAuditVerdict) : bool * bool * string := (IsBlocked v, ThreatDetected v, Action v).
Definition answer_to pol (n : Z) : bool * bool * string :=
  if BlockThreshold pol <=? n then (true, true, "BLOCK"%string) else (false, true, "ALERT"%string).

Lemma record_response now recorded caller v e : response (recordSession now recorded caller v e).2 = response v.
Proof. unfold recordSession. by destruct (_ && _). Qed.
Lemma record_blocked now recorded caller v e : IsBlocked (recordSession now recorded caller v e).2 = IsBlocked v.
Proof. exact (f_equal (fun r => r.1.1) (record_response now recorded caller v e)). Qed.

(** What the engine knows of [c] after [i] probes. *)
Definition probed (c : string) (i : Z) e : Prop :=
  match profiles e !! c with
  | Some p => p_ThreatCount p = i /\ ProbedPorts p <> None
  | None => i = 0 /\ Z.of_nat (size (profiles e)) < 10000
  end.

Lemma note_attempt_total now window req p : ProbedPorts p <> None ->
  exists p', note_attempt now window req p = Some p' /\ p_ThreatCount p' = p_ThreatCount p /\
    ProbedPorts p' <> None.
Proof.
  intros Hp. unfold note_attempt, note_port. destruct (ProbedPorts p) as [m|]; [|done].
  destruct (_ && _); cbn; eexists; by repeat split.
Qed.

Lemma profile_for_probed now c i e : probed c i e ->
  exists p ps, profile_for now c e = (c, p, ps) /\ p_ThreatCount p = i /\ ProbedPorts p <> None.
Proof.
  unfold probed, profile_for. destruct (profiles e !! c) as [p|].
  - intros [? ?]. by repeat eexists.
  - intros [-> Hs]. rewrite (proj2 (Z.leb_gt _ _)) by done. by repeat eexists.
Qed.

(** One probe. *)
Lemma shield_step now recorded req pol c i e :
  shield_probe pol c req -> policy e = pol -> Mode pol = ModeThresholdBlock ->
  0 < BlockThreshold pol -> 0 <= i < 2^62 -> IsEntityBlocked e c = false -> probed c i e ->
  exists e' v, AuditConnection now recorded req e = Some (e', v) /\ policy e' = pol /\
    response v = answer_to pol (i + 1) /\
    IsEntityBlocked e' c = (BlockThreshold pol <=? i + 1) /\ probed c (i + 1) e'.
Proof.
  intros (Hc & Hsys & Hmq & Hmd & Hov & Hmx & Hsens) Hpol Hmode Hbt Hi Hb Hp.
  unfold AuditConnection, policy_of. rewrite Hov, Hc, Hb, Hmq, Hmd. cbn [default].
  rewrite Hpol, Hsens, Hsys. cbn [negb andb]. rewrite andb_false_r.
  unfold audit_profile. destruct (profile_for_probed now c i e Hp) as (p & ps & -> & Ht & Hn).
  destruct (note_attempt_total now (window_of pol) req p Hn) as (p1 & -> & Ht1 & Hn1). cbn [mbind option_bind].
  unfold judge, judge_sensitive.
  assert (Hcount : p_ThreatCount (bump 25 p1) = i + 1).
  { unfold bump. cbn. rewrite wrap64_small; lia. }
  rewrite Hcount. assert (Hex : is_exceeded req pol (i + 1) = (BlockThreshold pol <=? i + 1)).
  { unfold is_exceeded, block_limit. rewrite Hmode. cbn.
    rewrite (proj2 (Z.ltb_ge 0 (MaxThreshold req))) by done.
    rewrite (proj2 (Z.leb_le (MaxThreshold req) 0)) by done.
    by rewrite (proj2 (Z.leb_gt (BlockThreshold pol) 0)) by done. }
  rewrite Hex. cbn [negb andb orb]. rewrite !andb_true_r. cbn [ShouldBlock IsBlocked ThreatDetected].
  match goal with |- context [recordSession ?a ?b ?c ?d ?g] => set (e3 := g); set (v := d) end.
  assert (He3 : policy e3 = pol /\ profiles e3 = <[c := bump 25 p1]> ps /\
    IsEntityBlocked e3 c = (BlockThreshold pol <=? i + 1)).
  { unfold e3, v. cbn [ShouldBlock Description RiskScore ThreatDetected IsBlocked ThreatType].
    unfold IsEntityBlocked in *.
    destruct (BlockThreshold pol <=? i + 1); destruct (AutoPcapCapture pol) eqn:Ea; cbn [andb orb].
    all: try match goal with |- context [EnsureActivePcapSession ?r ?p ?t ?g] =>
      destruct (Ensure_maps r p t g) as (-> & -> & ->) end.
    all: cbn; rewrite ?lookup_insert_eq; done. }
  destruct He3 as (Hp3 & Hps3 & Hb3).
  pose proof (record_maps now recorded c v e3) as (R1 & R2 & R3).
  destruct (recordSession now recorded c v e3) as [e' v'] eqn:Er. cbn in R1, R2, R3.
  exists e', v'. split; [done|]. split; [congruence|]. split; [|split].
  - apply (f_equal (fun r => response r.2)) in Er. rewrite record_response in Er. cbn [snd] in Er. rewrite <- Er. unfold answer_to.
    by destruct (BlockThreshold pol <=? i + 1).
  - unfold IsEntityBlocked in *. by rewrite R1.
  - unfold probed. rewrite R3, Hps3. destruct (session_active now e3 && recorded).
    + by rewrite lookup_alter_eq, lookup_insert_eq.
    + rewrite lookup_insert_eq. done.
Qed.

(** A probe by a quarantined caller. *)
Lemma quarantined_step now recorded req pol c e :
  shield_probe pol c req -> policy e = pol -> IsEntityBlocked e c = true ->
  exists e' v, AuditConnection now recorded req e = Some (e', v) /\ policy e' = pol /\
    response v = (true, true, "BLOCK"%string) /\ IsEntityBlocked e' c = true.
Proof.
  intros (Hc & Hsys & Hmq & Hmd & Hov & Hmx & Hsens) Hpol Hb.
  unfold AuditConnection. rewrite Hc, Hb. unfold handlePcapAndProfile. cbn [ShouldBlock quarantined_verdict verdict andb].
  match goal with |- context [recordSession ?a ?b ?c ?d ?g] => set (e3 := g) end.
  pose proof (record_maps now recorded c (quarantined_verdict now c) e3) as (R1 & R2 & _).
  destruct (recordSession now recorded c (quarantined_verdict now c) e3) as [e' v'] eqn:Er.
  cbn in R1, R2. exists e', v'. split; [done|]. split; [congruence|]. split.
  - apply (f_equal (fun r => response r.2)) in Er. rewrite record_response in Er. by cbn [snd] in Er; rewrite <- Er.
  - unfold IsEntityBlocked in *. by rewrite R1.
Qed.

Fixpoint audit_all e (tr : list (Z * bool * SecurityAuditRequest))
    : option (UnifiedSecurityEngine * list SecurityAuditVerdict) :=
  match tr with
  | [] => Some (e, [])
  | (now, recorded, req) :: tr' =>
      '(e1, v) ← AuditConnection now recorded req e;
      '(e2, vs) ← audit_all e1 tr';
      Some (e2, v :: vs)
  end.

Lemma audit_all_quarantined pol c tr e :
  Forall (fun r => shield_probe pol c r.2) tr -> policy e = pol -> IsEntityBlocked e c = true ->
  exists e' vs, audit_all e tr = Some (e', vs) /\ Forall (fun v => response v = (true, true, "BLOCK"%string)) vs /\
    length vs = length tr /\ IsEntityBlocked e' c = true.
Proof.
  intros Htr. revert e. induction Htr as [|[[now rec] req] tr Hr _ IH]; intros e Hpol Hb; cbn [audit_all].
  - by repeat eexists.
  - destruct (quarantined_step now rec req pol c e Hr Hpol Hb) as (e1 & v & -> & Hp1 & Hv & Hb1).
    cbn. destruct (IH e1 Hp1 Hb1) as (e2 & vs & -> & Hvs & Hl & Hb2). cbn.
    exists e2, (v :: vs). split; [done|]. split; [by constructor|]. split; [cbn; lia | done].
Qed.

Lemma audit_all_shield pol c tr i e :
  Forall (fun r => shield_probe pol c r.2) tr -> policy e = pol -> Mode pol = ModeThresholdBlock ->
  0 <= i < BlockThreshold pol -> BlockThreshold pol < 2^62 ->
  IsEntityBlocked e c = false -> probed c i e ->
  exists e' vs, audit_all e tr = Some (e', vs) /\
    map response vs = map (fun j => answer_to pol (i + Z.of_nat (S j))) (seq 0 (length tr)) /\
    IsEntityBlocked e' c = (BlockThreshold pol <=? i + len tr).
Proof.
  intros Htr Hpol Hmode Hi Hbt. revert i e Hpol Hi.
  induction Htr as [|[[now rec] req] tr Hr Htr IH]; intros i e Hpol Hi Hb Hp; cbn [audit_all].
  - exists e, []. split; [done|]. split; [done|]. unfold len. cbn. rewrite Hb.
    symmetry. apply Z.leb_gt. lia.
  - destruct (shield_step now rec req pol c i e Hr Hpol Hmode ltac:(lia) ltac:(lia) Hb Hp)
      as (e1 & v & -> & Hp1 & Hv & Hb1 & Hpr1). cbn [mbind option_bind].
    assert (Hseq : forall k, seq 1 k = map S (seq 0 k)) by (intros k; by rewrite fmap_S_seq).
    destruct (Z.leb_spec (BlockThreshold pol) (i + 1)) as [Hle|Hlt].
    + destruct (audit_all_quarantined pol c tr e1 Htr Hp1 Hb1) as (e2 & vs & -> & Hvs & Hl & Hb2).
      cbn [mbind option_bind]. exists e2, (v :: vs). split; [done|]. split.
      * cbn [length seq map]. rewrite Hv. f_equal.
        rewrite Hseq, map_map, <- Hl. clear Hl. generalize 0%nat.
        induction Hvs as [|w ws Hw _ IHv]; intros j; [done|]. cbn [map length seq].
        rewrite Hw, (IHv (S j)). f_equal. unfold answer_to. by rewrite (proj2 (Z.leb_le _ _)) by lia.
      * rewrite Hb2. symmetry. apply Z.leb_le. unfold len. cbn [length]. lia.
    + destruct (IH (i + 1) e1 Hp1 ltac:(lia) Hb1 Hpr1) as (e2 & vs & -> & Hvs & Hb2).
      cbn [mbind option_bind]. exists e2, (v :: vs). split; [done|]. split.
      * cbn [length seq map]. rewrite Hv, Hvs. f_equal. rewrite Hseq, map_map. apply map_ext. intros j. f_equal. lia.
      * rewrite Hb2. f_equal. unfold len. cbn [length]. lia.
Qed.

(** C1. The threshold shield.  In threshold mode, with a positive block threshold, take a
    caller that is not protected, masquerading, isolated or known to the engine, whose
    table of profiles is not full, and any probes of protected ports by it (without limits
    of their own and not of cloud metadata): the first [BlockThreshold - 1] are let through
    and reported as threats with an alert, the one that reaches the threshold and every
    later one is blocked, and from it on the caller is quarantined.  No probe panics,
    whatever mix of ports, addresses and capture outcomes. *)
Theorem shield_threshold pol c tr e :
  Forall (fun r => shield_probe pol c r.2) tr ->
  policy e = pol -> Mode pol = ModeThresholdBlock -> 0 < BlockThreshold pol < 2^62 ->
  IsEntityBlocked e c = false -> profiles e !! c = None -> Z.of_nat (size (profiles e)) < 10000 ->
  exists e' vs, audit_all e tr = Some (e', vs) /\
    map response vs = map (fun j => answer_to pol (Z.of_nat (S j))) (seq 0 (length tr)) /\
    IsEntityBlocked e' c = (BlockThreshold pol <=? len tr).
Proof.
  intros Htr Hpol Hmode Hbt Hb Hp Hs.
  apply (audit_all_shield pol c tr 0 e); try done; [lia|lia|].
  unfold probed. rewrite Hp. done.
Qed.

(** ** System entities stay out of the quarantine *)

Fixpoint run e (tr : list (Z * op)) : option UnifiedSecurityEngine :=
  match tr with
  | [] => Some e
  | (now, o) :: tr' => e' ← exec now e o; run e' tr'
  end.

Lemma handle_banned now recorded caller v req pol e k :
  IsEntityBlocked (handlePcapAndProfile now recorded caller v req pol e).1 k = true ->
  IsEntityBlocked e k = true \/ (k = caller /\ isProtectedSystemEntity k (ExecutablePath req) = false).
Proof.
  unfold handlePcapAndProfile, IsEntityBlocked.
  match goal with |- context [recordSession ?a ?b ?c ?d ?g] =>
    destruct (record_maps a b c d g) as (-> & _ & _) end.
  destruct (ShouldBlock v); cbn; [|auto].
  destruct (isProtectedSystemEntity caller (ExecutablePath req)) eqn:E; cbn; [auto|].
  match goal with |- context [EnsureActivePcapSession ?r ?p ?t ?g] =>
    destruct (Ensure_maps r p t g) as (_ & -> & _) end.
  cbn. destruct (decide (caller = k)) as [<-|Hne]; [auto|]. by rewrite lookup_insert_ne; [left|].
Qed.

Lemma profile_for_who now caller e who p ps :
  profile_for now caller e = (who, p, ps) -> who = caller \/ who = "DefaultEntity"%string.
Proof.
  unfold profile_for. destruct (profiles e !! caller); [intros [= <- _ _]; by left|].
  destruct (10000 <=? _); [destruct (10000 <=? _)|].
  - set (kept := range_delete _ _). destruct (kept !! _); intros [= <- _ _]; by right.
  - intros [= <- _ _]. by left.
  - intros [= <- _ _]. by left.
Qed.

Lemma audit_banned now recorded req e e' v k :
  AuditConnection now recorded req e = Some (e', v) -> IsEntityBlocked e' k = true ->
  IsEntityBlocked e k = true \/ k = "DefaultEntity"%string \/
  exists path, isProtectedSystemEntity k path = false.
Proof.
  unfold AuditConnection. set (c := caller_of req).
  assert (Hh : forall w, handlePcapAndProfile now recorded c w req (policy_of e req) e = (e', v) ->
    IsEntityBlocked e' k = true -> IsEntityBlocked e k = true \/ k = "DefaultEntity"%string \/
    exists path, isProtectedSystemEntity k path = false).
  { intros w Hw Hk. apply (f_equal fst) in Hw. cbn in Hw. rewrite <- Hw in Hk.
    apply handle_banned in Hk as [?|[? ?]]; eauto. }
  destruct (IsEntityBlocked e c); [intros [= E]; eauto|].
  destruct (IsMasqueradedSystemProcess _ _).1; [intros [= E]; eauto|].
  destruct (IsCloudMetadataEndpoint _ _); [intros [= E]; eauto|].
  destruct (_ && _); [intros [= <- _]; auto|]. destruct (_ && _); [intros [= <- _]; auto|].
  unfold audit_profile. destruct (profile_for _ _ _) as [[who p0] ps] eqn:Epf.
  apply profile_for_who in Epf.
  destruct (note_attempt _ _ _ _) as [p1|]; cbn; [|discriminate].
  destruct (judge _ _ _ _ _ _ _) as [p2 w]. intros [= E]. apply (f_equal fst) in E. cbn in E.
  rewrite <- E. unfold IsEntityBlocked.
  match goal with |- context [recordSession ?a ?b ?c ?d ?g] =>
    destruct (record_maps a b c d g) as (-> & _ & _) end.
  assert (Hb : forall g, bannedEntities g = bannedEntities (if ShouldBlock w
        && negb (isProtectedSystemEntity c (ExecutablePath req))
      then ban now who (Description w) (RiskScore w) (set_profiles e (<[who:=p2]> ps))
      else set_profiles e (<[who:=p2]> ps)) ->
    match bannedEntities g !! k with Some _ => true | None => false end = true ->
    match bannedEntities e !! k with Some _ => true | None => false end = true \/
    k = "DefaultEntity"%string \/ exists path, isProtectedSystemEntity k path = false).
  { intros g ->. destruct (ShouldBlock w); cbn; [|auto].
    destruct (isProtectedSystemEntity c (ExecutablePath req)) eqn:Ep; cbn; [auto|].
    destruct (decide (who = k)) as [<-|Hne]; [|by rewrite lookup_insert_ne; [left|]].
    intros _. right. destruct Epf as [->| ->]; eauto. }
  apply Hb. destruct (_ && _); [|done]. by apply Ensure_maps.
Qed.

Lemma exec_banned now e o e' k :
  exec now e o = Some e' -> (forall desc, o <> OpBan k desc) -> IsEntityBlocked e' k = true ->
  IsEntityBlocked e k = true \/ k = "DefaultEntity"%string \/
  exists path, isProtectedSystemEntity k path = false.
Proof.
  destruct o as [recorded req| | |reason d| |id desc|id| |]; cbn [exec]; intros He Hne.
  - destruct (AuditConnection now recorded req e) as [[e1 v]|] eqn:E; [|discriminate].
    injection He as <-. by eapply audit_banned.
  - injection He as <-. auto.
  - injection He as <-. auto.
  - injection He as <-. unfold StartPcapSession, IsEntityBlocked.
    destruct (Ensure_maps reason (policy e) now e) as (_ & E & _).
    destruct (0 <? d); cbn; rewrite E; auto.
  - injection He as <-. auto.
  - injection He as <-. unfold BanEntity, IsEntityBlocked. cbn.
    rewrite lookup_insert_ne by (intros ->; by apply (Hne desc)).
    destruct (10000 <=? _); cbn; [|auto]. destruct (evict _ _ _ !! k) eqn:E; [|done].
    apply lookup_evict_Some in E. rewrite E. auto.
  - injection He as <-. unfold IsEntityBlocked. cbn. destruct (decide (id = k)) as [->|].
    + by rewrite lookup_delete_eq.
    + rewrite lookup_delete_ne by done. auto.
  - injection He as <-. done.
  - injection He as <-. unfold IsEntityBlocked. cbn. destruct (0 <? _); [|auto].
    rewrite lookup_range_delete. destruct (bannedEntities e !! k); [|done]. destruct (_ <? _); auto.
Qed.

(** C15. The operating system is never quarantined: an entity that is protected
    whatever its path (the Android system packages, unattributed and loopback
    callers), except [DefaultEntity], is never isolated by the engine itself, whatever it
    probes and in whatever order the operations come; only an explicit [BanEntity] isolates
    it.  [DefaultEntity] is protected as well, but it is the common profile of the callers
    that find the table of profiles full, and is quarantined like any other. *)
Theorem system_never_quarantined tr e k :
  (forall path, isProtectedSystemEntity k path = true) -> k <> "DefaultEntity"%string ->
  Forall (fun r => forall desc, r.2 <> OpBan k desc) tr ->
  run NewUnifiedSecurityEngine tr = Some e -> IsEntityBlocked e k = false.
Proof.
  intros Hp Hd Htr. assert (H0 : IsEntityBlocked NewUnifiedSecurityEngine k = false) by done.
  revert H0. generalize NewUnifiedSecurityEngine.
  induction Htr as [|[now o] tr Hn _ IH]; intros e0 H0; cbn [run]; [by intros [= <-]|].
  destruct (exec now e0 o) as [e1|] eqn:E; [|discriminate]. cbn. apply IH.
  destruct (IsEntityBlocked e1 k) eqn:Eb; [|done].
  destruct (exec_banned now e0 o e1 k E Hn Eb) as [?|[?|[path Hpath]]]; [congruence|done|].
  by rewrite Hp in Hpath.
Qed.

(** ** The nil map *)

(** C28. When an audit panics: exactly when the request reaches the profile
    stage (not quarantined, masquerading, probing metadata, filtered or safe),
    its port is one the engine records, and the profile it is charged to has no
    port map.  Profiles without a port map are those created by
    [handlePcapAndProfile]. *)
Theorem audit_panics_iff now recorded req e :
  let pol := policy_of e req in
  AuditConnection now recorded req e = None <->
  IsEntityBlocked e (caller_of req) = false /\
  (IsMasqueradedSystemProcess (caller_of req) (ExecutablePath req)).1 = false /\
  IsCloudMetadataEndpoint (DestinationIP req) (DestinationHost req) = false /\
  (is_sensitive req pol = true \/
   IsExplicitBlock req = false /\
   IsSafeSystemTraffic (DestinationIP req) (DestinationHost req) (Port req) = false) /\
  0 < Port req /\ (Port req ∉ [53; 80; 443; 853]) /\
  ProbedPorts (profile_for now (caller_of req) e).1.2 = None.
Proof.
  intros pol. unfold AuditConnection. fold pol.
  destruct (IsEntityBlocked e (caller_of req)); [naive_solver|].
  destruct (IsMasqueradedSystemProcess _ _).1; [naive_solver|].
  destruct (IsCloudMetadataEndpoint _ _); [naive_solver|].
  assert (Hg : audit_profile now recorded (caller_of req)
      (isProtectedSystemEntity (caller_of req) (ExecutablePath req)) (is_sensitive req pol) req pol e = None
    <-> 0 < Port req /\ (Port req ∉ [53; 80; 443; 853]) /\
      ProbedPorts (profile_for now (caller_of req) e).1.2 = None).
  { unfold audit_profile. destruct (profile_for now (caller_of req) e) as [[who p] ps]. cbn [fst snd].
    unfold note_attempt, note_port, IsSafeSystemTraffic. cbn [String.eqb orb]. rewrite !elem_of_cons, elem_of_nil.
    destruct (Z.ltb_spec 0 (Port req)), (Z.eqb_spec (Port req) 53), (Z.eqb_spec (Port req) 80),
      (Z.eqb_spec (Port req) 443), (Z.eqb_spec (Port req) 853), (ProbedPorts p);
      cbn; (try destruct (judge _ _ _ _ _ _ _) as [? ?]);
      split; try discriminate; try (intros (? & ? & ?)); try lia; try done;
      try (exfalso; tauto); intros _; repeat split; try done; lia. }
  destruct (is_sensitive req pol); cbn [negb andb]; rewrite ?andb_true_r, ?andb_false_r.
  - rewrite Hg. naive_solver.
  - destruct (IsExplicitBlock req), (IsSafeSystemTraffic _ _ (Port req)); rewrite ?Hg; naive_solver.
Qed.
End engine.

(** ** Witnesses *)
Section witnesses.
#[local] Existing Instance utc.

Definition probe_demo (caller ip : string) (port : Z) : SecurityAuditRequest :=
  mkRequest caller "" "" "" ip "" port "TCP" [] 0 false "linux" None.

Definition strict_demo : UnifiedSecurityEngine :=
  ConfigurePolicy NewUnifiedSecurityEngine
    (mkPolicy "threshold_block" 2 0 0 0 true "" 15 [22; 23]).

Lemma reached_sound_witness : exists e,
  exec 0 NewUnifiedSecurityEngine (OpAudit true (probe_demo "evil" "203.0.113.5" 22)) = Some e /\
  sound 1 e.
Proof.
  destruct (exec 0 NewUnifiedSecurityEngine (OpAudit true (probe_demo "evil" "203.0.113.5" 22)))
    as [e|] eqn:E; [|vm_compute in E; discriminate].
  exists e. split; [done|]. apply (reached_sound 1 e); [vm_compute; done|].
  eapply reached_step; [apply reached_new | exact E].
Defined.

Definition shield_demo : list (Z * bool * SecurityAuditRequest) :=
  [(1 * Second, true, probe_demo "evil" "203.0.113.5" 22);
   (2 * Second, false, probe_demo " evil " "10.0.0.1" 23);
   (3 * Second, true, probe_demo "evil" "203.0.113.6" 22)].

Lemma shield_threshold_witness : exists e vs, audit_all strict_demo shield_demo = Some (e, vs) /\
  map response vs = [(false, true, "ALERT"); (true, true, "BLOCK"); (true, true, "BLOCK")]%string /\ IsEntityBlocked e "evil" = true.
Proof.
  assert (Hp : Forall (fun r => shield_probe (policy strict_demo) "evil" r.2) shield_demo)
    by (repeat constructor; vm_compute; congruence).
  apply (shield_threshold (policy strict_demo) "evil" shield_demo strict_demo Hp);
    vm_compute; (done || (split; congruence)).
Defined.

Definition system_demo : list (Z * op) :=
  [(0, OpAudit true (probe_demo "unknown" "203.0.113.5" 22));
   (0, OpAudit true (probe_demo "unknown" "203.0.113.5" 23));
   (0, OpAudit true (probe_demo "unknown" "203.0.113.5" 445));
   (0, OpAudit true (probe_demo "unknown" "203.0.113.5" 139))].

Lemma system_never_quarantined_witness : exists e,
  run NewUnifiedSecurityEngine system_demo = Some e /\ IsEntityBlocked e "unknown" = false.
Proof.
  destruct (run NewUnifiedSecurityEngine system_demo) as [e|] eqn:E; [|vm_compute in E; discriminate].
  exists e. split; [done|]. apply (system_never_quarantined system_demo e).
  - intros path. reflexivity.
  - discriminate.
  - repeat constructor; discriminate.
  - exact E.
Defined.

(** The nil map, reached from a new engine: an unattributed process probes the
    metadata service (blocked, its profile is created without a port map), then
    opens any other connection. *)
Lemma nil_map_panic :
  run NewUnifiedSecurityEngine
    [(0, OpAudit true (probe_demo "unknown" "169.254.169.254" 80));
     (Second, OpAudit true (probe_demo "unknown" "203.0.113.5" 8080))] = None.
Proof. vm_compute. reflexivity. Qed.

(** A masquerading process is quarantined under the bare name it stole, so the
    genuine system process of that name is blocked from then on. *)
Lemma masquerade_blocks_the_genuine :
  let fake := mkRequest "svchost.exe" "" "" "C:\Users\me\svchost.exe" "203.0.113.5" "" 8080 "TCP" []
                0 false "windows" None in
  let genuine := mkRequest "svchost.exe" "" "" "C:\Windows\System32\svchost.exe" "203.0.113.5" "" 8080
                "TCP" [] 0 false "windows" None in
  isProtectedSystemEntity "svchost.exe" "C:\Windows\System32\svchost.exe" = true /\
  option_map (map IsBlocked ∘ snd)
    (audit_all NewUnifiedSecurityEngine [(0, true, genuine); (1, true, fake); (2, true, genuine)])
    = Some [false; true; true].
Proof. vm_compute. done. Qed.
End witnesses.
End AuditEngine.
