(* ===== verification/RiskTracker.v ===== *)
(** * Client risk scoring (src/pkg/security/detector/client_risk.go)

    Incidents raise a client's score; a score over the threshold quarantines the
    client; a periodic step lowers the scores again.  The registered callbacks
    are names and the alert on the event bus is an output of the operation. *)
From S2P Require Import Prelude GoStrings.
Open Scope Z_scope.

Module RiskTracker.
Section tracker.
Context {order : RangeOrder string}.

Inductive ClientStatus := StatusClean | StatusSuspicious | StatusCompromised | StatusQuarantined.
#[export] Instance client_status_eq_dec : EqDecision ClientStatus.
Proof. solve_decision. Defined.

Record ThreatIncident := mkIncident {
  i_Timestamp : Z;
  i_ThreatType : string;
  i_Target : string;
  i_ScoreDelta : Z;
  i_Description : string;
}.

Record ClientRiskProfile := mkProfile {
  ClientID : string;
  RiskScore : Z;
  Status : ClientStatus;
  ProbedPorts : gmap Z Z;
  Incidents : list ThreatIncident;
  FirstSeen : Z;
  LastViolation : Z;
  QuarantinedUntil : Z;
}.

Record RiskScorerConfig := mkConfig {
  CompromiseThreshold : Z;
  SuspiciousThreshold : Z;
  QuarantineDuration : Z;
  ScoreDecayInterval : Z;
  ScoreDecayAmount : Z;
  AutoKickOnCompromise : bool;
}.

Definition DefaultRiskScorerConfig : RiskScorerConfig :=
  {| CompromiseThreshold := 100; SuspiciousThreshold := 40; QuarantineDuration := 5 * Minute;
     ScoreDecayInterval := 1 * Minute; ScoreDecayAmount := 10; AutoKickOnCompromise := true |}.

Record ClientRiskTracker := mkTracker {
  cfg : RiskScorerConfig;
  profiles : gmap string ClientRiskProfile;
  whitelist : gset string;
  onCompromised : list nat;
  stopped : bool;
}.
Implicit Types (t : ClientRiskTracker) (p : ClientRiskProfile) (id : string).

Definition NewClientRiskTracker (c : RiskScorerConfig) (whitelistIPsOrUsers : list string)
    : ClientRiskTracker :=
  {| cfg := c; profiles := ∅;
     whitelist := {["127.0.0.1"%string; "::1"%string]} ∪ list_to_set whitelistIPsOrUsers;
     onCompromised := []; stopped := false |}.

Definition set_profiles t (ps : gmap string ClientRiskProfile) : ClientRiskTracker :=
  {| cfg := cfg t; profiles := ps; whitelist := whitelist t; onCompromised := onCompromised t;
     stopped := stopped t |}.

Definition OnCompromised t (cb : nat) : ClientRiskTracker :=
  {| cfg := cfg t; profiles := profiles t; whitelist := whitelist t;
     onCompromised := onCompromised t ++ [cb]; stopped := stopped t |}.

(** What the caller and the bus see of an incident: the callbacks run, with the
    profile and the incident, and the message published, if any. *)
Record outcome := mkOutcome {
  returned : option ClientRiskProfile;
  callbacks : list (nat * ClientRiskProfile * ThreatIncident);
  alert : option string;
}.
Definition no_outcome : outcome := mkOutcome None [] None.

Definition new_profile (now : Z) id : ClientRiskProfile :=
  {| ClientID := id; RiskScore := 0; Status := StatusClean; ProbedPorts := ∅; Incidents := [];
     FirstSeen := now; LastViolation := zeroTime; QuarantinedUntil := zeroTime |}.

Definition status_of (c : RiskScorerConfig) (score : Z) : ClientStatus :=
  if CompromiseThreshold c <=? score then StatusCompromised
  else if SuspiciousThreshold c <=? score then StatusSuspicious
  else StatusClean.

(** The profile after an incident. *)
Definition violate (now : Z) (c : RiskScorerConfig) (i : ThreatIncident) p : ClientRiskProfile :=
  let score := wrap64 (RiskScore p + i_ScoreDelta i) in
  {| ClientID := ClientID p; RiskScore := score; Status := status_of c score;
     ProbedPorts := ProbedPorts p;
     Incidents := push_capped 100 (Incidents p) i;
     FirstSeen := FirstSeen p; LastViolation := LastViolation p;
     QuarantinedUntil := if CompromiseThreshold c <=? score
                         then Add now (QuarantineDuration c) else QuarantinedUntil p |}.

Definition alert_message t id (score : Z) (threatType desc : string) : string :=
  "🚨 Client '" ^^ id ^^ "' FLAGGED AS COMPROMISED! (Score: " ^^ Itoa score ^^ "/" ^^
  Itoa (CompromiseThreshold (cfg t)) ^^ "). Incident: " ^^ threatType ^^ " (" ^^ desc ^^ ")".

Definition RecordIncident (now : Z) t id (threatType target desc : string) (scoreDelta : Z)
    : ClientRiskTracker * outcome :=
  if id =s "" then (t, no_outcome)
  else if bool_decide (id ∈ whitelist t) then (t, no_outcome)
  else
    let p0 := default (new_profile now id) (profiles t !! id) in
    let i := mkIncident now threatType target scoreDelta desc in
    let p := violate now (cfg t) i p0 in
    let fires := negb (bool_decide (Status p0 = StatusCompromised))
                 && bool_decide (Status p = StatusCompromised) in
    (set_profiles t (<[id := p]> (profiles t)),
     {| returned := Some p;
        callbacks := if fires then map (fun cb => (cb, p, i)) (onCompromised t) else [];
        alert := if fires then Some (alert_message t id (RiskScore p) threatType desc) else None |}).

Definition isolated (now : Z) p : bool :=
  bool_decide (Status p = StatusCompromised) || Before now (QuarantinedUntil p).

Definition IsCompromisedOrQuarantined (now : Z) t id : bool :=
  match profiles t !! id with None => false | Some p => isolated now p end.

Definition GetQuarantinedClients (now : Z) t : list string :=
  filter (fun id => IsCompromisedOrQuarantined now t id = true) (range_keys (dom (profiles t))).

Definition GetProfile t id : option ClientRiskProfile := profiles t !! id.

Definition GetAllProfiles t : list ClientRiskProfile :=
  omap (fun id => profiles t !! id) (range_keys (dom (profiles t))).

Definition ResetClientScore t id : ClientRiskTracker :=
  set_profiles t (alter (fun p =>
    {| ClientID := ClientID p; RiskScore := 0; Status := StatusClean; ProbedPorts := ∅;
       Incidents := Incidents p; FirstSeen := FirstSeen p; LastViolation := LastViolation p;
       QuarantinedUntil := zeroTime |}) id (profiles t)).

Definition Stop t : ClientRiskTracker :=
  {| cfg := cfg t; profiles := profiles t; whitelist := whitelist t;
     onCompromised := onCompromised t; stopped := true |}.

(** One tick of the decay loop, on one profile. *)
Definition decay_profile (now : Z) (c : RiskScorerConfig) p : ClientRiskProfile :=
  if ScoreDecayInterval c <=? Sub now (LastViolation p) then
    let s := wrap64 (RiskScore p - ScoreDecayAmount c) in
    let s := if s <? 0 then 0 else s in
    {| ClientID := ClientID p; RiskScore := s;
       Status := if After now (QuarantinedUntil p) then status_of c s else Status p;
       ProbedPorts := ProbedPorts p; Incidents := Incidents p; FirstSeen := FirstSeen p;
       LastViolation := LastViolation p; QuarantinedUntil := QuarantinedUntil p |}
  else p.

Definition forgotten (now : Z) p : bool :=
  (RiskScore p =? 0) && bool_decide (Status p = StatusClean)
  && (30 * Minute <? Sub now (LastViolation p)) && (30 * Minute <? Sub now (FirstSeen p)).

(** One tick: every profile is visited once; [p.ClientID] is its key. *)
Definition decayTick (now : Z) t : ClientRiskTracker :=
  if stopped t then t
  else set_profiles t
    (range_delete (fun _ p => forgotten now p) (decay_profile now (cfg t) <$> profiles t)).

(** ** Runs *)

Inductive op :=
  | OpIncident id (threatType target desc : string) (scoreDelta : Z)
  | OpListen (cb : nat)
  | OpReset id
  | OpDecay
  | OpStop.

Definition exec (now : Z) t (o : op) : ClientRiskTracker :=
  match o with
  | OpIncident id ty tg ds delta => (RecordIncident now t id ty tg ds delta).1
  | OpListen cb => OnCompromised t cb
  | OpReset id => ResetClientScore t id
  | OpDecay => decayTick now t
  | OpStop => Stop t
  end.

Fixpoint run t (tr : list (Z * op)) : ClientRiskTracker :=
  match tr with [] => t | (now, o) :: tr' => run (exec now t o) tr' end.

Definition profile_wf id p : Prop :=
  ClientID p = id /\ LastViolation p = zeroTime /\ len (Incidents p) <= 100.

Lemma violate_wf now c i id p : profile_wf id p -> profile_wf id (violate now c i p).
Proof.
  intros (? & ? & ?). repeat split; try done. apply push_capped_bound. lia.
Qed.

Lemma exec_wf now t o :
  map_Forall profile_wf (profiles t) -> map_Forall profile_wf (profiles (exec now t o)).
Proof.
  intros Hp. destruct o as [id ty tg ds delta|cb|id| |]; cbn [exec]; try done.
  - unfold RecordIncident. destruct (id =s ""); [done|]. destruct (bool_decide _); [done|].
    cbn. apply map_Forall_insert_2; [|done]. apply violate_wf.
    destruct (profiles t !! id) as [p|] eqn:E; [by apply Hp|].
    by repeat split.
  - intros k p. cbn. destruct (decide (id = k)) as [<-|Hne].
    + rewrite lookup_alter_eq. intros (q & Hq & ->)%fmap_Some. apply Hp in Hq.
      by destruct Hq as (? & ? & ?).
    + rewrite lookup_alter_ne by done. apply Hp.
  - unfold decayTick. destruct (stopped t); [done|]. cbn. apply map_Forall_range_delete.
    intros k p. rewrite lookup_fmap. intros (q & Hq & ->)%fmap_Some. apply Hp in Hq.
    destruct Hq as (? & ? & ?). unfold decay_profile. destruct (_ <=? _); by repeat split.
Qed.

Lemma run_wf t tr :
  map_Forall profile_wf (profiles t) -> map_Forall profile_wf (profiles (run t tr)).
Proof.
  revert t. induction tr as [|[now o] tr IH]; intros t Hp; [done|]. by apply IH, exec_wf.
Qed.

(** ** Isolation *)

(** A client held in isolation until [T], with a score in [lo, hi]. *)
Definition held id (T lo hi : Z) t : Prop :=
  exists p, profiles t !! id = Some p /\ T <= QuarantinedUntil p /\ lo <= RiskScore p <= hi.

(** The operations a quarantine is meant to survive. *)
Definition harmless id (o : op) : Prop :=
  match o with
  | OpReset j => j <> id
  | OpIncident j _ _ _ delta => j = id -> 0 <= delta <= 2^31
  | _ => True
  end.

Definition cost (c : RiskScorerConfig) (o : op) : Z :=
  match o with OpDecay => ScoreDecayAmount c | _ => 0 end.

Lemma exec_cfg now t o : cfg (exec now t o) = cfg t.
Proof.
  destruct o; cbn; try done.
  - unfold RecordIncident. destruct (id =s ""); [done|]. by destruct (bool_decide (id ∈ whitelist t)).
  - unfold decayTick. by destruct (stopped t).
Qed.

Lemma held_step id T lo hi now t o :
  held id T lo hi t -> harmless id o -> now < T <= now + QuarantineDuration (cfg t) ->
  0 <= ScoreDecayAmount (cfg t) < 2^62 -> cost (cfg t) o < lo -> hi < 2^62 ->
  held id T (lo - cost (cfg t) o) (hi + 2^31) (exec now t o).
Proof.
  intros (p & Hp & Hu & Hs) Hh Hn Ha Hc Hhi. destruct o as [j ty tg ds delta|cb|j| |]; cbn [exec cost] in *.
  - unfold RecordIncident. destruct (j =s ""); [exists p; split; [done|]; lia|].
    destruct (bool_decide _); [exists p; split; [done|]; lia|]. unfold held. cbn.
    destruct (decide (j = id)) as [->|Hne].
    + specialize (Hh eq_refl). rewrite lookup_insert_eq, Hp. cbn. eexists. split; [done|]. cbn.
      autorewrite with gowrap. unfold Add. destruct (_ <=? _); lia.
    + rewrite lookup_insert_ne by done. exists p. split; [done|]. lia.
  - exists p. split; [done|]. lia.
  - unfold held. cbn. rewrite lookup_alter_ne by done. exists p. split; [done|]. lia.
  - unfold decayTick. destruct (stopped t); [exists p; split; [done|]; lia|].
    unfold held. cbn. rewrite lookup_range_delete, lookup_fmap, Hp. cbn.
    assert (Hd : QuarantinedUntil (decay_profile now (cfg t) p) = QuarantinedUntil p /\
      lo - ScoreDecayAmount (cfg t) <= RiskScore (decay_profile now (cfg t) p) <= hi + 2^31).
    { unfold decay_profile. destruct (_ <=? Sub _ _); [|cbn; lia]. cbn. split; [done|].
      autorewrite with gowrap. destruct (Z.ltb_spec (RiskScore p - ScoreDecayAmount (cfg t)) 0); lia. }
    destruct Hd as [Hd1 Hd2]. unfold forgotten.
    rewrite (proj2 (Z.eqb_neq _ 0)) by lia. cbn. eexists. split; [done|]. lia.
  - exists p. split; [done|]. lia.
Qed.

Fixpoint costs (c : RiskScorerConfig) (tr : list (Z * op)) : Z :=
  match tr with [] => 0 | (_, o) :: tr' => cost c o + costs c tr' end.

Lemma costs_nonneg c tr : 0 <= ScoreDecayAmount c -> 0 <= costs c tr.
Proof. intros. induction tr as [|[now []] tr IH]; cbn; lia. Qed.

Lemma held_run id T lo hi t tr :
  held id T lo hi t -> Forall (fun e => harmless id e.2) tr ->
  Forall (fun e => e.1 < T <= e.1 + QuarantineDuration (cfg t)) tr ->
  0 <= ScoreDecayAmount (cfg t) < 2^62 -> costs (cfg t) tr < lo ->
  hi + len tr * 2^31 < 2^62 ->
  exists p, profiles (run t tr) !! id = Some p /\ T <= QuarantinedUntil p.
Proof.
  revert t lo hi. induction tr as [|[now o] tr IH]; intros t lo hi Hh Hhl Ht Ha Hc Hl; cbn [run].
  - destruct Hh as (p & ? & ? & ?). eauto.
  - apply Forall_cons in Hhl as [Ho Hhl]. apply Forall_cons in Ht as [Hn Ht].
    cbn [fst snd] in *. unfold len in *. cbn [length costs] in *.
    pose proof (costs_nonneg (cfg t) tr ltac:(lia)).
    apply (IH _ (lo - cost (cfg t) o) (hi + 2^31)); rewrite ?exec_cfg; try done; [|lia|lia].
    apply held_step; try done; lia.
Qed.

(** Isolation lasts: the incident that brings a client's score to the
    compromise threshold isolates it for the whole quarantine, whatever incidents
    of this or other clients, decay ticks and registrations follow, as long as
    no operator resets it and the decay of the period stays below the threshold
    (a condition the default configuration meets for up to nine ticks; without
    it the profile can be forgotten, see [quarantine_forgotten]). *)
Theorem isolation_lasts now t id ty tg ds delta p tr now' :
  (RecordIncident now t id ty tg ds delta).2.(returned) = Some p ->
  CompromiseThreshold (cfg t) <= RiskScore p <= 2^60 -> len tr < 2^29 ->
  0 <= ScoreDecayAmount (cfg t) < 2^62 ->
  costs (cfg t) tr < CompromiseThreshold (cfg t) ->
  Forall (fun e => harmless id e.2) tr ->
  Forall (fun e => now <= e.1 < now + QuarantineDuration (cfg t)) tr ->
  now' < now + QuarantineDuration (cfg t) ->
  IsCompromisedOrQuarantined now' (run (RecordIncident now t id ty tg ds delta).1 tr) id = true.
Proof.
  intros Hr Hs Hl Ha Hc Hh Ht Hn'.
  set (t1 := (RecordIncident now t id ty tg ds delta).1).
  assert (Hcfg : cfg t1 = cfg t) by apply (exec_cfg now t (OpIncident id ty tg ds delta)).
  assert (Hheld : held id (now + QuarantineDuration (cfg t)) (CompromiseThreshold (cfg t)) (2^60) t1).
  { unfold t1. clear t1 Hcfg. unfold RecordIncident in *. destruct (id =s ""); [done|]. destruct (bool_decide _); [done|].
    cbn in Hr |- *. injection Hr as <-. eexists. split; [apply lookup_insert_eq|]. cbn in *.
    rewrite (proj2 (Z.leb_le _ _)) by lia. unfold Add. lia. }
  destruct (held_run id _ _ _ t1 tr Hheld Hh) as (q & Hq & Hu); rewrite ?Hcfg; try done; [|lia|].
  { eapply Forall_impl; [exact Ht|]. cbn. intros [n o]. cbn. lia. }
  unfold IsCompromisedOrQuarantined, isolated, Before. rewrite Hq.
  rewrite (proj2 (Z.ltb_lt now' (QuarantinedUntil q))) by lia. apply orb_true_r.
Qed.

Lemma run_cfg t tr : cfg (run t tr) = cfg t.
Proof. revert t. induction tr as [|[now o] tr IH]; intros t; [done|]. cbn. by rewrite IH, exec_cfg. Qed.

Lemma run_app t a b : run t (a ++ b) = run (run t a) b.
Proof. revert t. induction a as [|[now o] a IH]; intros t; [done|]. cbn. by rewrite IH. Qed.

(** ** Isolation ends *)

(** The operations of the program that do not blame the client, with the tracker
    running. *)
Definition quiet id (o : op) : Prop :=
  match o with OpIncident j _ _ _ _ => j <> id | OpStop => False | _ => True end.

Definition ticks (tr : list (Z * op)) : Z :=
  len (List.filter (fun e => match e.2 with OpDecay => true | _ => false end) tr).

(** The client's profile, if it is still kept: its quarantine ends by [Q] and its score
    is at most [hi]. *)
Definition cooling id (Q hi : Z) t : Prop :=
  stopped t = false /\
  forall p, profiles t !! id = Some p -> LastViolation p = zeroTime /\ QuarantinedUntil p <= Q /\ 0 <= RiskScore p <= hi.

Definition released id (c : RiskScorerConfig) t : Prop :=
  forall p, profiles t !! id = Some p -> RiskScore p < CompromiseThreshold c /\ Status p <> StatusCompromised.

Definition decay_ok (c : RiskScorerConfig) : Prop :=
  ScoreDecayInterval c <= maxInt64 /\ 0 <= ScoreDecayAmount c < 2^62.

Lemma decay_elapsed now c : 0 <= now -> ScoreDecayInterval c <= maxInt64 -> (ScoreDecayInterval c <=? Sub now zeroTime) = true.
Proof. intros. apply Z.leb_le. unfold Sub, zeroTime, Second, maxInt64, minInt64 in *. lia. Qed.

Lemma decay_score now c p : 0 <= now -> decay_ok c -> LastViolation p = zeroTime -> 0 <= RiskScore p < 2^62 ->
  RiskScore (decay_profile now c p) = Z.max 0 (RiskScore p - ScoreDecayAmount c) /\
  QuarantinedUntil (decay_profile now c p) = QuarantinedUntil p /\ LastViolation (decay_profile now c p) = zeroTime /\
  Status (decay_profile now c p) =
    if After now (QuarantinedUntil p) then status_of c (RiskScore (decay_profile now c p)) else Status p.
Proof.
  intros Hn [Hi Ha] Hv Hs. unfold decay_profile. rewrite Hv, decay_elapsed by done. cbn. autorewrite with gowrap.
  split_and!; [|done|done|done]. destruct (Z.ltb_spec (RiskScore p - ScoreDecayAmount c) 0); lia.
Qed.

Lemma decay_lookup now t id p : stopped t = false -> profiles (decayTick now t) !! id = Some p ->
  exists q, profiles t !! id = Some q /\ p = decay_profile now (cfg t) q.
Proof.
  intros Hs. unfold decayTick. rewrite Hs. cbn. rewrite lookup_range_delete, lookup_fmap. destruct (profiles t !! id) as [q|]; [|done].
  cbn. destruct (forgotten _ _); [done|]. intros [= <-]. eauto.
Qed.

Lemma quiet_lookup now t id o p : quiet id o -> o <> OpDecay -> profiles (exec now t o) !! id = Some p ->
  exists q, profiles t !! id = Some q /\ LastViolation p = LastViolation q /\
    (p = q \/ RiskScore p = 0 /\ Status p = StatusClean /\ QuarantinedUntil p = zeroTime).
Proof.
  intros Hq Hd. destruct o as [j ty tg ds delta|cb|j| |]; cbn [exec quiet] in *; try done; eauto 6.
  - unfold RecordIncident. destruct (j =s ""); [eauto 6|]. destruct (bool_decide _); [eauto 6|]. cbn. rewrite lookup_insert_ne by done. eauto 6.
  - cbn. destruct (decide (j = id)) as [->|Hne]; [|rewrite lookup_alter_ne by done; eauto 6].
    rewrite lookup_alter_eq. intros (q & Hp & ->)%fmap_Some. exists q. split; [done|]. cbn. auto.
Qed.

Lemma exec_running now t id o : quiet id o -> stopped t = false -> stopped (exec now t o) = false.
Proof.
  intros Hq Hs. destruct o; cbn in *; try done.
  - unfold RecordIncident. destruct (_ =s ""); [done|]. by destruct (bool_decide _).
  - unfold decayTick. by rewrite Hs.
Qed.

Lemma cooling_step id Q hi now t o : cooling id Q hi t -> quiet id o -> 0 <= now -> decay_ok (cfg t) -> zeroTime <= Q -> 0 <= hi < 2^62 ->
  cooling id Q (Z.max 0 (hi - match o with OpDecay => ScoreDecayAmount (cfg t) | _ => 0 end)) (exec now t o) /\
  (o = OpDecay -> Q < now -> hi - ScoreDecayAmount (cfg t) < CompromiseThreshold (cfg t) -> 0 < CompromiseThreshold (cfg t) ->
   released id (cfg t) (exec now t o)) /\
  (0 < CompromiseThreshold (cfg t) -> released id (cfg t) t -> released id (cfg t) (exec now t o)).
Proof.
  intros [Hs Hc] Hq Hn Hd HQ Hhi. pose proof Hd as [_ Ha]. assert (o = OpDecay \/ o <> OpDecay) as [->|Hne] by (destruct o; auto; by right).
  - assert (Hdec : forall p, profiles (exec now t OpDecay) !! id = Some p -> exists q, profiles t !! id = Some q /\
      LastViolation p = zeroTime /\ QuarantinedUntil p = QuarantinedUntil q /\ QuarantinedUntil q <= Q /\ RiskScore p <= RiskScore q /\
      0 <= RiskScore p <= Z.max 0 (hi - ScoreDecayAmount (cfg t)) /\
      Status p = if After now (QuarantinedUntil q) then status_of (cfg t) (RiskScore p) else Status q).
    { intros p Hp. apply decay_lookup in Hp as (q & Hlq & ->); [|done]. exists q. destruct (Hc q Hlq) as (Hv & Hu & Hr).
      destruct (decay_score now (cfg t) q) as (Es & Eu & Ev & Est); [done | done | done | lia |]. rewrite Est, Es, Eu, Ev. split_and!; auto; lia. }
    split_and!.
    + split; [by apply exec_running with id|]. intros p (q & _ & ? & ? & ? & ? & ? & _)%Hdec. split_and!; [done | lia | lia | lia].
    + intros _ HQn Hlt Hpos p (q & _ & _ & _ & Hu & _ & Hsc & Est)%Hdec. unfold After in Est. rewrite (proj2 (Z.ltb_lt _ _)) in Est by lia.
      rewrite Est. unfold status_of. rewrite (proj2 (Z.leb_gt _ _)) by lia. split; [lia|]. by destruct (_ <=? _).
    + intros Hpos Hrel p (q & Hlq & _ & _ & _ & Hle & _ & Est)%Hdec. destruct (Hrel q Hlq) as [Hlt Hst]. split; [lia|]. rewrite Est.
      destruct (After _ _); [|done]. unfold status_of. rewrite (proj2 (Z.leb_gt _ _)) by lia. by destruct (_ <=? _).
  - split_and!; [| done |].
    + split; [by apply exec_running with id|]. intros p Hp. destruct (quiet_lookup _ _ _ _ _ Hq Hne Hp) as (q & Hlq & Hv & He).
      destruct (Hc q Hlq) as (Hv' & Hu & Hr). destruct He as [->|(E1 & _ & E2)].
      * destruct o; try done; split_and!; auto; lia.
      * rewrite Hv, E1, E2. split_and!; [done | lia | lia | destruct o; try done; lia].
    + intros Hpos Hrel p Hp. destruct (quiet_lookup _ _ _ _ _ Hq Hne Hp) as (q & Hlq & _ & [->|(-> & -> & _)]); [by apply Hrel | done].
Qed.

Lemma cooling_run id Q tr : forall t hi, cooling id Q hi t -> Forall (fun e => 0 <= e.1 /\ quiet id e.2) tr -> decay_ok (cfg t) ->
  zeroTime <= Q -> 0 <= hi < 2^62 ->
  cooling id Q (Z.max 0 (hi - ScoreDecayAmount (cfg t) * ticks tr)) (run t tr) /\
  (0 < CompromiseThreshold (cfg t) -> released id (cfg t) t -> released id (cfg t) (run t tr)) /\ cfg (run t tr) = cfg t.
Proof.
  induction tr as [|[now o] tr IH]; intros t hi Hc Hq Hd HQ Hhi; cbn [run].
  { unfold ticks. cbn. change (len []) with 0. replace (Z.max 0 _) with hi by lia. done. }
  apply Forall_cons in Hq as [[Hn Hq] Hqs]. cbn [fst snd] in *.
  destruct (cooling_step id Q hi now t o Hc Hq Hn Hd HQ Hhi) as (H1 & _ & H3). pose proof Hd as [_ Ha].
  set (hi1 := Z.max 0 _) in *. assert (Hhi1 : 0 <= hi1 < 2^62) by (unfold hi1; destruct o; lia).
  destruct (IH (exec now t o) hi1 H1) as (G1 & G2 & G3); rewrite ?exec_cfg; try done. rewrite !exec_cfg in G1, G2, G3.
  split_and!; [|auto|done].
  assert (Et : ticks ((now, o) :: tr) = ticks tr + match o with OpDecay => 1 | _ => 0 end)
    by (unfold ticks; cbn [List.filter snd]; destruct o; rewrite ?len_cons; lia).
  assert (Hle : Z.max 0 (hi1 - ScoreDecayAmount (cfg t) * ticks tr) <= Z.max 0 (hi - ScoreDecayAmount (cfg t) * ticks ((now, o) :: tr))).
  { rewrite Et. unfold hi1. assert (0 <= ticks tr) by apply len_nonneg. destruct o; nia. }
  destruct G1 as [Gs Gp]. split; [done|]. intros p Hp. destruct (Gp p Hp) as (? & ? & ?). split_and!; auto; lia.
Qed.

(** Isolation ends.  In every tracker the program can reach, a client that commits
    no further violation is released: once the decay loop has ticked after the end
    of its quarantine, and often enough, that time included, to bring its score
    below the compromise threshold, it is neither compromised nor quarantined, and
    stays so through every run in which it is not blamed again. *)
Theorem isolation_ends c wl tr0 id p tr1 now tr2 now' :
  let t := run (NewClientRiskTracker c wl) tr0 in
  stopped t = false -> profiles t !! id = Some p -> decay_ok c -> 0 < CompromiseThreshold c ->
  0 <= RiskScore p < 2^62 -> zeroTime <= QuarantinedUntil p ->
  Forall (fun e => 0 <= e.1 /\ quiet id e.2) (tr1 ++ (now, OpDecay) :: tr2) ->
  QuarantinedUntil p < now -> QuarantinedUntil p <= now' ->
  RiskScore p - ScoreDecayAmount c * (ticks tr1 + 1) < CompromiseThreshold c ->
  IsCompromisedOrQuarantined now' (run t (tr1 ++ (now, OpDecay) :: tr2)) id = false.
Proof.
  intros t Hst Hp Hd Hpos Hs HQ Hq Hnow Hnow' Hlow. assert (Hcfg : cfg t = c) by (unfold t; apply run_cfg).
  assert (Hwf : map_Forall profile_wf (profiles t)) by (apply run_wf, map_Forall_empty).
  assert (Hc : cooling id (QuarantinedUntil p) (RiskScore p) t).
  { split; [done|]. intros q. rewrite Hp. intros [= <-]. destruct (Hwf _ _ Hp) as (_ & ? & _). split_and!; auto; lia. }
  apply Forall_app in Hq as [Hq1 Hq]. apply Forall_cons in Hq as [[Hn _] Hq2]. cbn [fst snd] in *.
  destruct (cooling_run id _ tr1 t _ Hc Hq1) as (H1 & _ & E1); rewrite ?Hcfg in *; try done.
  pose proof Hd as [_ Ha]. set (hi := Z.max 0 _) in H1. assert (0 <= ticks tr1) by apply len_nonneg.
  assert (Hhi : 0 <= hi < 2^62) by (unfold hi; nia).
  destruct (cooling_step id _ hi now (run t tr1) OpDecay H1) as (H2 & Hrel & _); rewrite ?E1; try done.
  rewrite !E1 in H2, Hrel.
  assert (Hlow' : hi - ScoreDecayAmount c < CompromiseThreshold c) by (unfold hi; lia).
  specialize (Hrel eq_refl Hnow Hlow' Hpos).
  destruct (cooling_run id _ tr2 (exec now (run t tr1) OpDecay) _ H2 Hq2) as (H3 & Hkeep & _); rewrite ?exec_cfg, ?E1; try done; [lia|].
  rewrite run_app. cbn [run]. rewrite exec_cfg, E1 in Hkeep. specialize (Hkeep Hpos Hrel).
  unfold IsCompromisedOrQuarantined, isolated. destruct (profiles (run _ tr2) !! id) as [q|] eqn:Eq; [|done].
  destruct (Hkeep q Eq) as [_ Hns]. destruct H3 as [_ H3]. destruct (H3 q Eq) as (_ & Hu & _).
  rewrite bool_decide_false by done. unfold Before. apply Z.ltb_ge. lia.
Qed.

(** Decay does not wait: in every tracker the program can reach the time of
    the last violation is the zero time, so a tick lowers the score of every
    profile, even of a client that violated in the same instant. *)
Theorem decay_ignores_violations c wl tr now id p :
  let t := run (NewClientRiskTracker c wl) tr in
  stopped t = false -> ScoreDecayInterval (cfg t) <= maxInt64 -> 0 <= now ->
  0 <= ScoreDecayAmount (cfg t) < RiskScore p -> RiskScore p < 2^63 ->
  profiles t !! id = Some p ->
  exists p', profiles (decayTick now t) !! id = Some p' /\
    RiskScore p' = RiskScore p - ScoreDecayAmount (cfg t).
Proof.
  intros t Hst Hi Hn Ha Hr Hp.
  assert (Hwf : map_Forall profile_wf (profiles t)) by (apply run_wf, map_Forall_empty).
  destruct (Hwf _ _ Hp) as (_ & Hv & _). unfold decayTick. rewrite Hst. cbn.
  rewrite lookup_range_delete, lookup_fmap, Hp. cbn.
  assert (Hd : RiskScore (decay_profile now (cfg t) p) = RiskScore p - ScoreDecayAmount (cfg t)).
  { unfold decay_profile. rewrite Hv. rewrite (proj2 (Z.leb_le _ _)).
    - cbn. rewrite wrap64_small by lia.
      by rewrite (proj2 (Z.ltb_ge _ _)) by lia.
    - unfold Sub, zeroTime, Second, maxInt64, minInt64 in *. lia. }
  unfold forgotten. rewrite Hd, (proj2 (Z.eqb_neq _ 0)) by lia. cbn. eauto.
Qed.
End tracker.

(** ** Witnesses *)

Definition tracker_demo : ClientRiskTracker := NewClientRiskTracker DefaultRiskScorerConfig ["admin"%string].

Lemma isolation_lasts_witness :
  IsCompromisedOrQuarantined (4 * Minute)
    (run (RecordIncident 0 tracker_demo "eve" "PORT_SCAN" "x" "scan" 120).1
       [(Minute, OpDecay); (Minute, OpIncident "eve" "FLOOD" "y" "" 5); (2 * Minute, OpReset "bob")])
    "eve" = true.
Proof.
  destruct (RecordIncident 0 tracker_demo "eve" "PORT_SCAN" "x" "scan" 120).2.(returned) as [p|] eqn:E;
    [|vm_compute in E; discriminate].
  apply (isolation_lasts 0 tracker_demo "eve" "PORT_SCAN" "x" "scan" 120 p).
  - exact E.
  - vm_compute in E. injection E as <-. vm_compute. split; congruence.
  - vm_compute. reflexivity.
  - vm_compute. split; congruence.
  - vm_compute. reflexivity.
  - repeat constructor; vm_compute; congruence.
  - repeat constructor; vm_compute; congruence.
  - vm_compute. reflexivity.
Defined.

Lemma isolation_ends_witness :
  IsCompromisedOrQuarantined (7 * Minute)
    (run (run (NewClientRiskTracker DefaultRiskScorerConfig ["admin"%string]) [(0, OpIncident "eve" "PORT_SCAN" "x" "scan" 120)])
       ([(Minute, OpDecay); (2 * Minute, OpDecay); (3 * Minute, OpIncident "bob" "FLOOD" "y" "" 50)] ++
        (6 * Minute, OpDecay) :: [(6 * Minute, OpReset "bob")]))
    "eve" = false.
Proof.
  set (t := run (NewClientRiskTracker DefaultRiskScorerConfig ["admin"%string]) [(0, OpIncident "eve" "PORT_SCAN" "x" "scan" 120)]).
  destruct (profiles t !! "eve"%string) as [p|] eqn:E; [|vm_compute in E; discriminate].
  apply (isolation_ends DefaultRiskScorerConfig ["admin"%string] [(0, OpIncident "eve" "PORT_SCAN" "x" "scan" 120)] "eve" p).
  - vm_compute. reflexivity.
  - exact E.
  - vm_compute. repeat split; congruence.
  - vm_compute. reflexivity.
  - vm_compute in E. injection E as <-. vm_compute. split; congruence.
  - vm_compute in E. injection E as <-. vm_compute. congruence.
  - repeat constructor; vm_compute; congruence.
  - vm_compute in E. injection E as <-. vm_compute. reflexivity.
  - vm_compute in E. injection E as <-. vm_compute. congruence.
  - vm_compute in E. injection E as <-. vm_compute. reflexivity.
Defined.

Lemma decay_ignores_violations_witness :
  exists p, profiles (run tracker_demo [(Minute, OpIncident "eve" "FLOOD" "y" "" 50)]) !! "eve"%string = Some p /\
    exists p', profiles (decayTick Minute (run tracker_demo [(Minute, OpIncident "eve" "FLOOD" "y" "" 50)]))
      !! "eve"%string = Some p' /\ RiskScore p' = RiskScore p - 10.
Proof.
  destruct (profiles (run tracker_demo [(Minute, OpIncident "eve" "FLOOD" "y" "" 50)]) !! "eve"%string)
    as [p|] eqn:E; [|vm_compute in E; discriminate].
  exists p. split; [done|].
  apply (decay_ignores_violations DefaultRiskScorerConfig ["admin"%string]
    [(Minute, OpIncident "eve" "FLOOD" "y" "" 50)] Minute "eve" p).
  - vm_compute. reflexivity.
  - vm_compute. congruence.
  - vm_compute. congruence.
  - vm_compute in E. injection E as <-. vm_compute. split; congruence.
  - vm_compute in E. injection E as <-. vm_compute. reflexivity.
  - exact E.
Defined.

(** A quarantine of an hour is forgotten after half an hour: the score decays to
    zero, a harmless incident makes the status clean, and the next tick removes
    the profile and the isolation with it. *)
Lemma quarantine_forgotten :
  let c := mkConfig 100 40 (60 * Minute) Minute 10 true in
  let t := (RecordIncident 0 (NewClientRiskTracker c []) "eve" "PORT_SCAN" "x" "scan" 100).1 in
  let t' := run t (map (fun i => (i * Minute, OpDecay)) (seqZ 1 31) ++
              [(31 * Minute, OpIncident "eve" "INFO" "y" "" 0); (32 * Minute, OpDecay)]) in
  IsCompromisedOrQuarantined (31 * Minute) t "eve" = true /\
  IsCompromisedOrQuarantined (33 * Minute) t' "eve" = false.
Proof. vm_compute. done. Qed.
End RiskTracker.
