(* ===== verification/Registry.v ===== *)
(** * The client alias registry (src/pkg/security/detector/registry.go)

    One subscriber appears under a UUID, a user name, an e-mail or an address
    depending on the core that reports it; the registry maps every alias to one
    primary identity. *)
From S2P Require Import Prelude GoStrings.
Open Scope Z_scope.

Module Registry.
Record ClientIdentity := mkIdentity {
  PrimaryID : string;
  UUIDs : list string;
  HysteriaUser : string;
  SourceIPs : list string;
  InboundTags : list string;
}.

Record ClientRegistry := mkRegistry {
  identities : gmap string ClientIdentity;
  aliasToID : gmap string string;
}.
Implicit Types (r : ClientRegistry).

Definition NewClientRegistry : ClientRegistry := mkRegistry ∅ ∅.

Definition contains (slice : list string) (val : string) : bool := existsb (String.eqb val) slice.

Definition push_new (l : list string) (x : string) : list string :=
  if contains l x then l else l ++ [x].

(** The key a registration is filed under; [None] is the nil result. *)
Definition primary_key (primaryID uuid hysteriaUser : string) : option string :=
  let c := clean_key primaryID in
  if c =s "" then
    if uuid <>s "" then Some (clean_key uuid)
    else if hysteriaUser <>s "" then Some (clean_key hysteriaUser)
    else None
  else Some c.

Definition RegisterClient r (primaryID uuid hysteriaUser sourceIP : string)
    : ClientRegistry * option ClientIdentity :=
  match primary_key primaryID uuid hysteriaUser with
  | None => (r, None)
  | Some k =>
      let id := default (mkIdentity k [] (TrimSpace hysteriaUser) [] []) (identities r !! k) in
      let al := <[k := k]> (aliasToID r) in
      let '(id, al) :=
        if uuid <>s "" then
          let u := clean_key uuid in
          (mkIdentity (PrimaryID id) (push_new (UUIDs id) u) (HysteriaUser id) (SourceIPs id)
             (InboundTags id), <[u := k]> al)
        else (id, al) in
      let '(id, al) :=
        if hysteriaUser <>s "" then
          let h := TrimSpace hysteriaUser in
          (mkIdentity (PrimaryID id) (UUIDs id) h (SourceIPs id) (InboundTags id),
           <[ToLower h := k]> al)
        else (id, al) in
      let '(id, al) :=
        if sourceIP <>s "" then
          let ip := TrimSpace sourceIP in
          (mkIdentity (PrimaryID id) (UUIDs id) (HysteriaUser id) (push_new (SourceIPs id) ip)
             (InboundTags id), <[ip := k]> al)
        else (id, al) in
      (mkRegistry (<[k := id]> (identities r)) al, Some id)
  end.

Definition ResolvePrimaryID r (identifier : string) : string :=
  let clean := clean_key identifier in default clean (aliasToID r !! clean).

Definition GetAllAliases r (primaryID : string) : list string :=
  let clean := clean_key primaryID in
  match identities r !! clean with
  | None => [clean]
  | Some id =>
      [PrimaryID id] ++ UUIDs id ++
      (if (HysteriaUser id <>s "") && (HysteriaUser id <>s PrimaryID id) then [HysteriaUser id] else []) ++
      SourceIPs id
  end.

(** ** The registry is consistent *)

(** Every alias leads to a registered identity, filed under its own name, which
    resolves to itself; lists of aliases hold no duplicates. *)
Definition consistent r : Prop :=
  (forall a k, aliasToID r !! a = Some k -> is_Some (identities r !! k)) /\
  (forall k id, identities r !! k = Some id ->
     PrimaryID id = k /\ is_Some (aliasToID r !! k) /\ NoDup (UUIDs id) /\ NoDup (SourceIPs id)).

Lemma contains_spec l x : contains l x = true <-> x ∈ l.
Proof.
  unfold contains. rewrite existsb_exists. setoid_rewrite String.eqb_eq.
  setoid_rewrite <- list_elem_of_In. naive_solver.
Qed.

Lemma NoDup_push_new l x : NoDup l -> NoDup (push_new l x).
Proof.
  intros Hl. unfold push_new. destruct (contains l x) eqn:E; [done|].
  apply NoDup_app. split; [done|]. split; [|apply NoDup_singleton].
  intros y Hy ->%list_elem_of_singleton. apply contains_spec in Hy. congruence.
Qed.

(** The aliases a registration writes. *)
Definition written (uuid hysteriaUser sourceIP a k : string) : Prop :=
  a = k \/ (uuid <> ""%string /\ a = clean_key uuid) \/
  (hysteriaUser <> ""%string /\ a = clean_key hysteriaUser) \/
  (sourceIP <> ""%string /\ a = TrimSpace sourceIP).

Lemma register_alias r p u h ip k : primary_key p u h = Some k ->
  forall a v, aliasToID (RegisterClient r p u h ip).1 !! a = Some v <->
    (written u h ip a k /\ v = k) \/ (~ written u h ip a k /\ aliasToID r !! a = Some v).
Proof.
  intros Hk a v. unfold RegisterClient, written. rewrite Hk.
  destruct (String.eqb_spec u ""), (String.eqb_spec h ""), (String.eqb_spec ip "");
    cbn; fold (clean_key h); rewrite ?lookup_insert; repeat case_decide;
    intuition congruence.
Qed.

Lemma register_identity r p u h ip k : primary_key p u h = Some k ->
  exists id, (RegisterClient r p u h ip).2 = Some id /\
    identities (RegisterClient r p u h ip).1 = <[k := id]> (identities r) /\
    PrimaryID id = PrimaryID (default (mkIdentity k [] (TrimSpace h) [] []) (identities r !! k)) /\
    (u <> ""%string -> clean_key u ∈ UUIDs id) /\ (ip <> ""%string -> TrimSpace ip ∈ SourceIPs id) /\
    (NoDup (UUIDs (default (mkIdentity k [] (TrimSpace h) [] []) (identities r !! k))) -> NoDup (UUIDs id)) /\
    (NoDup (SourceIPs (default (mkIdentity k [] (TrimSpace h) [] []) (identities r !! k))) ->
       NoDup (SourceIPs id)).
Proof.
  intros Hk. unfold RegisterClient. rewrite Hk.
  set (id0 := default _ _). clearbody id0.
  assert (Hin : forall l x, x ∈ push_new l x).
  { intros l x. unfold push_new. destruct (contains l x) eqn:E; [by apply contains_spec|].
    apply elem_of_app. right. by left. }
  destruct (String.eqb_spec u ""), (String.eqb_spec h ""), (String.eqb_spec ip ""); cbn;
    eexists; repeat split; cbn; auto using NoDup_push_new; congruence.
Qed.

Lemma consistent_register r p u h ip : consistent r -> consistent (RegisterClient r p u h ip).1.
Proof.
  intros [Ha Hi]. destruct (primary_key p u h) as [k|] eqn:Hk.
  2: { unfold RegisterClient. by rewrite Hk. }
  destruct (register_identity r p u h ip k Hk) as (id & _ & Ei & Hp & _ & _ & Hn1 & Hn2).
  pose proof (register_alias r p u h ip k Hk) as Hal. split.
  - intros a v Hav. rewrite Ei. apply Hal in Hav as [[_ ->]|[_ Hav]].
    + rewrite lookup_insert_eq. eauto.
    + destruct (decide (k = v)) as [<-|]; [rewrite lookup_insert_eq; eauto|].
      rewrite lookup_insert_ne by done. by eapply Ha.
  - assert (Hself : is_Some (aliasToID (RegisterClient r p u h ip).1 !! k)).
    { exists k. apply Hal. left. by split; [left|]. }
    intros j id'. rewrite Ei. destruct (decide (k = j)) as [<-|Hne].
    + rewrite lookup_insert_eq. intros [= <-]. split; [|split; [done|]].
      * rewrite Hp. destruct (identities r !! k) as [id1|] eqn:E; [by apply Hi in E as (? & _) | done].
      * destruct (identities r !! k) as [id1|] eqn:E; cbn in *.
        -- apply Hi in E as (_ & _ & ? & ?). auto.
        -- split; [apply Hn1 | apply Hn2]; constructor.
    + rewrite lookup_insert_ne by done. intros Hj. apply Hi in Hj as (Hpj & [v Hv] & Hu & Hs).
      split; [done|]. split; [|done].
      destruct (decide (aliasToID (RegisterClient r p u h ip).1 !! j = None)) as [En|En].
      * exfalso. assert (Hw : ~ written u h ip j k).
        { intros Hw. assert (aliasToID (RegisterClient r p u h ip).1 !! j = Some k)
            by (apply Hal; auto). congruence. }
        assert (aliasToID (RegisterClient r p u h ip).1 !! j = Some v) by (apply Hal; auto). congruence.
      * by apply not_eq_None_Some.
Qed.

Inductive registered : ClientRegistry -> Prop :=
  | registered_new : registered NewClientRegistry
  | registered_step r p u h ip : registered r -> registered (RegisterClient r p u h ip).1.

Lemma registered_consistent r : registered r -> consistent r.
Proof.
  induction 1; [|by apply consistent_register]. split; intros ? ? E; cbn in E; by rewrite lookup_empty in E.
Qed.

(** After a registration every identifier of it, however spelled, resolves
    to one registered identity that lists it: the primary name, the UUID and the
    Hysteria user always, the source address when it is written in lower case;
    and the registry stays consistent, so the identity resolves to itself. *)
Theorem register_resolves r p u h ip k :
  registered r -> primary_key p u h = Some k ->
  let r' := (RegisterClient r p u h ip).1 in
  consistent r' /\
  exists id, identities r' !! k = Some id /\ PrimaryID id = k /\ ResolvePrimaryID r' k = k /\
    (u <> ""%string -> clean_key u ∈ UUIDs id /\ ResolvePrimaryID r' u = k) /\
    (h <> ""%string -> ResolvePrimaryID r' h = k) /\
    (ip <> ""%string -> ToLower ip = ip -> TrimSpace ip ∈ SourceIPs id /\ ResolvePrimaryID r' ip = k).
Proof.
  intros Hr Hk r'. apply registered_consistent in Hr.
  pose proof (consistent_register r p u h ip Hr) as Hc. split; [done|].
  destruct (register_identity r p u h ip k Hk) as (id & _ & Ei & Hp & Hu & Hip & _).
  pose proof (register_alias r p u h ip k Hk) as Hal. fold r' in Hal, Ei.
  assert (Hkk : identities r' !! k = Some id) by (by rewrite Ei, lookup_insert_eq).
  assert (Hclean : clean_key k = k).
  { unfold primary_key in Hk. destruct (_ =s _); [destruct (_ <>s _); [|destruct (_ <>s _)]|];
      simplify_eq; by rewrite clean_key_idemp. }
  assert (Hres : forall s, written u h ip (clean_key s) k -> ResolvePrimaryID r' s = k).
  { intros s Hs. unfold ResolvePrimaryID.
    assert (aliasToID r' !! clean_key s = Some k) as -> by (apply Hal; auto). done. }
  exists id. split; [done|]. split; [by apply Hc in Hkk as (? & _)|].
  split; [apply Hres; rewrite Hclean; by left|].
  split; [intros Hne; split; [auto|]; apply Hres; right; by left|].
  split; [intros Hne; apply Hres; right; right; by left|].
  intros Hne Hl. split; [auto|]. apply Hres. right. right. right. split; [done|].
  unfold clean_key. by rewrite <- TrimFunc_lower, Hl.
Qed.

Lemma register_resolves_witness :
  let r := (RegisterClient NewClientRegistry "Alice@Example.org" "" "" "").1 in
  ResolvePrimaryID (RegisterClient r "alice@example.org" " UUID-1 " "Alice_Hy" "203.0.113.7").1 "ALICE_HY"
    = "alice@example.org"%string.
Proof.
  cbv zeta. set (r := (RegisterClient NewClientRegistry "Alice@Example.org" "" "" "").1).
  assert (Hr : registered r) by (apply registered_step, registered_new).
  assert (Hk : primary_key "alice@example.org" " UUID-1 " "Alice_Hy" = Some "alice@example.org"%string)
    by (vm_compute; reflexivity).
  destruct (register_resolves r _ _ _ "203.0.113.7" _ Hr Hk) as (_ & id & _ & _ & _ & _ & Hh & _).
  rewrite <- Hh by discriminate. vm_compute. reflexivity.
Defined.

(** An address registered in upper case is listed but does not resolve: the alias
    is stored as written and looked up in lower case. *)
Lemma upper_case_address_lost :
  let r := (RegisterClient NewClientRegistry "alice" "" "" "2001:DB8::1").1 in
  GetAllAliases r "alice" = ["alice"; "2001:DB8::1"]%string /\
  ResolvePrimaryID r "2001:DB8::1" = "2001:db8::1"%string.
Proof. vm_compute. done. Qed.
End Registry.
