(* ===== verification/Auditors.v ===== *)
(** * The connection and log auditors
    (src/pkg/security/detector/connection_auditor.go, log_auditor.go, core_event.go)

    Clients of the risk tracker: they turn a snapshot of connections, or one
    parsed log event, into incidents of the registered client.  A snapshot is
    audited in one instant of the clock; [None] is a panic of the threat filter. *)
From S2P Require Import Prelude GoStrings Bloom ThreatEngine RiskTracker Registry.
Import RiskTracker Registry.
Open Scope Z_scope.

Module Auditors.
Section auditors.
Context {order : RangeOrder string}.

Record ActiveConnection := mkConn {
  ID : string;
  User : string;
  SourceIP : string;
  DestHost : string;
  DestPort : Z;
  UploadBytes : Z;
  DownloadBytes : Z;
  StartTime : Z;
}.

Record ConnectionAuditReport := mkReport {
  TotalConnections : Z;
  UniqueClients : Z;
  CompromisedClients : list string;
  ViolationsFound : Z;
  ActionRecommended : string;
}.

Record ConnectionAuditor := mkAuditor {
  tracker : ClientRiskTracker;
  registry : ClientRegistry;
  threatEngine : option ThreatEngine.ThreatEngine;
  sensitivePorts : gset Z;
  maxConnsPerUser : Z;
}.
Implicit Types (ca : ConnectionAuditor) (conn : ActiveConnection).

Definition NewConnectionAuditor (t : option ClientRiskTracker) (r : option ClientRegistry)
    (te : option ThreatEngine.ThreatEngine) (ports : list Z) (maxConns : Z) : ConnectionAuditor :=
  {| tracker := default (NewClientRiskTracker DefaultRiskScorerConfig []) t;
     registry := default NewClientRegistry r;
     threatEngine := te;
     sensitivePorts := list_to_set ports;
     maxConnsPerUser := if maxConns <=? 0 then 200 else maxConns |}.

(** What an incident set off: the callbacks and the alert, with the tracker and the
    registry as the callbacks see them. *)
Record reaction := mkReaction {
  re_outcome : outcome;
  re_tracker : ClientRiskTracker;
  re_registry : ClientRegistry;
}.

(** The state of the loop over the connections. *)
Record tally := mkTally {
  tl_tracker : ClientRiskTracker;
  tl_registry : ClientRegistry;
  userConnCount : gmap string Z;
  userPorts : gmap string (gset Z);
  violations : Z;
  reactions : list reaction;
}.

Definition record (now : Z) (s : tally) (id ty tg ds : string) (delta : Z) : tally :=
  let '(t, out) := RecordIncident now (tl_tracker s) id ty tg ds delta in
  mkTally t (tl_registry s) (userConnCount s) (userPorts s) (violations s + 1)
    (reactions s ++ [mkReaction out t (tl_registry s)]).

Definition rawID conn : string := if User conn =s "" then SourceIP conn else User conn.

(** The client a connection belongs to, and the registry that knows its address. *)
Definition identify conn (s : tally) : string * tally :=
  let clientID := ResolvePrimaryID (tl_registry s) (rawID conn) in
  let r := if (SourceIP conn <>s "") && (SourceIP conn <>s clientID)
           then (RegisterClient (tl_registry s) clientID "" "" (SourceIP conn)).1
           else tl_registry s in
  (clientID, mkTally (tl_tracker s) r
     (<[clientID := default 0 (userConnCount s !! clientID) + 1]> (userConnCount s))
     (userPorts s) (violations s) (reactions s)).

Definition check_port (now : Z) ca conn (clientID : string) (s : tally) : tally :=
  if bool_decide (DestPort conn ∈ sensitivePorts ca) then
    let s := mkTally (tl_tracker s) (tl_registry s) (userConnCount s)
      (<[clientID := {[DestPort conn]} ∪ default ∅ (userPorts s !! clientID)]> (userPorts s))
      (violations s) (reactions s) in
    record now s clientID "SENSITIVE_PORT_ACCESS" (DestHost conn ^^ ":" ^^ Itoa (DestPort conn))
      ("Active socket connected to sensitive port " ^^ Itoa (DestPort conn)) 35
  else s.

Definition check_host (now : Z) ca conn (clientID : string) (s : tally) : option tally :=
  match threatEngine ca with
  | None => Some s
  | Some te =>
      m ← ThreatEngine.CheckHost te (DestHost conn);
      Some (if ThreatEngine.Blocked m
            then record now s clientID (ThreatEngine.Category m) (DestHost conn)
                   (ThreatEngine.Reason m) 50
            else s)
  end.

Fixpoint audit_each (now : Z) ca (conns : list ActiveConnection) (s : tally) : option tally :=
  match conns with
  | [] => Some s
  | conn :: conns' =>
      if rawID conn =s "" then audit_each now ca conns' s
      else
        let '(clientID, s1) := identify conn s in
        s2 ← check_host now ca conn clientID (check_port now ca conn clientID s1);
        audit_each now ca conns' s2
  end.

(** [for clientID, portsMap := range userPorts], and the same for the counts. *)
Definition scan_incident (now : Z) (ports : gmap string (gset Z)) (s : tally) (clientID : string) : tally :=
  match ports !! clientID with
  | Some ps =>
      if 3 <=? Z.of_nat (size ps) then
        record now s clientID "PORT_SCAN_DETECTED"
          (Itoa (Z.of_nat (size ps)) ^^ " distinct sensitive ports")
          "Client performed multi-port probing behavior" 60
      else s
  | None => s
  end.

Definition flood_incident (now : Z) ca (counts : gmap string Z) (s : tally) (clientID : string) : tally :=
  match counts !! clientID with
  | Some n =>
      if maxConnsPerUser ca <? n then
        record now s clientID "FLOOD_SPIKE" (Itoa n ^^ " active sockets")
          ("Client exceeded maximum simultaneous sockets (" ^^ Itoa n ^^ " > " ^^
           Itoa (maxConnsPerUser ca) ^^ ")") 40
      else s
  | None => s
  end.

Definition AuditConnections (now : Z) ca (conns : list ActiveConnection)
    : option (ConnectionAuditor * ConnectionAuditReport * list reaction) :=
  s1 ← audit_each now ca conns (mkTally (tracker ca) (registry ca) ∅ ∅ 0 []);
  let s2 := foldl (scan_incident now (userPorts s1)) s1 (range_keys (dom (userPorts s1))) in
  let s3 := foldl (flood_incident now ca (userConnCount s1)) s2 (range_keys (dom (userConnCount s1))) in
  let quarantined := GetQuarantinedClients now (tl_tracker s3) in
  Some (mkAuditor (tl_tracker s3) (tl_registry s3) (threatEngine ca) (sensitivePorts ca)
          (maxConnsPerUser ca),
        {| TotalConnections := len conns;
           UniqueClients := Z.of_nat (size (userConnCount s3));
           CompromisedClients := quarantined;
           ViolationsFound := violations s3;
           ActionRecommended := if 0 <? len quarantined then "KICK_COMPROMISED_CLIENTS" else "NONE" |},
        reactions s3).

(** ** Log events *)

Record ParsedLogEvent := mkEvent {
  CoreName : string;
  ClientRawID : string;
  ClientIP : string;
  e_ExecutablePath : string;
  TargetHost : string;
  TargetPort : Z;
  EventType : string;
  RawLine : string;
}.

Record LogAuditor := mkLogAuditor {
  l_tracker : ClientRiskTracker;
  l_registry : ClientRegistry;
  l_sensitivePorts : gset Z;
}.
Implicit Types (a : LogAuditor) (event : ParsedLogEvent).

Definition NewLogAuditor (t : ClientRiskTracker) (r : option ClientRegistry) (ports : list Z) : LogAuditor :=
  mkLogAuditor t (default NewClientRegistry r) (list_to_set ports).

(** The incident an event stands for, if any: its type, target, text and score. *)
Definition incident_of a event : option (string * string * string * Z) :=
  let target := TargetHost event ^^ ":" ^^ Itoa (TargetPort event) in
  let core := "[" ^^ CoreName event ^^ "] " in
  if EventType event =s "SSRF_PROBE" then
    Some ("SSRF_PROBE"%string, TargetHost event,
          core ^^ "Attempted connection to Cloud Metadata endpoint", 60)
  else if EventType event =s "AUTH_FAIL" then
    Some ("AUTH_FAIL"%string, CoreName event, core ^^ "Authentication failure on proxy server", 30)
  else if EventType event =s "SENSITIVE_PORT_PROBE" then
    if bool_decide (TargetPort event ∈ l_sensitivePorts a) then
      Some ("SENSITIVE_PORT_PROBE"%string, target,
            core ^^ "Client opened connection to sensitive system port " ^^ Itoa (TargetPort event), 35)
    else None
  else if EventType event =s "ROUTING_REJECT" then
    if bool_decide (TargetPort event ∈ l_sensitivePorts a) then
      Some ("SENSITIVE_PORT_PROBE"%string, target,
            core ^^ "Core blocked unauthorized request to port " ^^ Itoa (TargetPort event), 35)
    else None
  else None.

(** [AuditLogLine] once the line is parsed. *)
Definition audit_event (now : Z) a event : LogAuditor * list reaction :=
  let raw := if ClientRawID event =s "" then ClientIP event else ClientRawID event in
  if raw =s "" then (a, [])
  else
    let primaryID := ResolvePrimaryID (l_registry a) raw in
    let r := if (ClientIP event <>s "") && (ClientIP event <>s primaryID)
             then (RegisterClient (l_registry a) primaryID "" "" (ClientIP event)).1
             else l_registry a in
    match incident_of a event with
    | Some (ty, tg, ds, delta) =>
        let '(t, out) := RecordIncident now (l_tracker a) primaryID ty tg ds delta in
        (mkLogAuditor t r (l_sensitivePorts a), [mkReaction out t r])
    | None => (mkLogAuditor (l_tracker a) r (l_sensitivePorts a), [])
    end.

(** ** The order of the map ranges does not show *)

Lemma RecordIncident_lookup now t id ty tg ds delta k :
  profiles (RecordIncident now t id ty tg ds delta).1 !! k =
  if decide (k = id /\ id <> ""%string /\ id ∉ whitelist t) then
    Some (violate now (cfg t) (mkIncident now ty tg delta ds)
            (default (new_profile now id) (profiles t !! id)))
  else profiles t !! k.
Proof.
  unfold RecordIncident. destruct (String.eqb_spec id "") as [->|Hne].
  - by rewrite decide_False by naive_solver.
  - case_bool_decide as Hw; [by rewrite decide_False by naive_solver|].
    cbn. rewrite lookup_insert. case_decide as Hd.
    + subst. by rewrite decide_True.
    + by rewrite decide_False by naive_solver.
Qed.

Lemma RecordIncident_config now t id ty tg ds delta :
  let t' := (RecordIncident now t id ty tg ds delta).1 in
  cfg t' = cfg t /\ whitelist t' = whitelist t /\ onCompromised t' = onCompromised t /\
  RiskTracker.stopped t' = RiskTracker.stopped t.
Proof.
  unfold RecordIncident. destruct (id =s ""); [done|]. by destruct (bool_decide (id ∈ whitelist t)).
Qed.

(** A loop that records at most one incident per key. *)
Definition incidents (now : Z) (f : string -> option (string * string * string * Z)) (s : tally)
    (k : string) : tally :=
  match f k with
  | Some (ty, tg, ds, delta) => record now s k ty tg ds delta
  | None => s
  end.

Definition after_incident (now : Z) (t : ClientRiskTracker) (k : string)
    (i : option (string * string * string * Z)) : option ClientRiskProfile :=
  match i with
  | Some (ty, tg, ds, delta) => profiles (RecordIncident now t k ty tg ds delta).1 !! k
  | None => profiles t !! k
  end.

Definition reaction_to (now : Z) (t : ClientRiskTracker) (f : string -> option (string * string * string * Z)) (k : string)
    : option outcome :=
  match f k with
  | Some (ty, tg, ds, delta) => Some (RecordIncident now t k ty tg ds delta).2
  | None => None
  end.

Lemma record_fields now s id ty tg ds delta :
  record now s id ty tg ds delta =
  mkTally (RecordIncident now (tl_tracker s) id ty tg ds delta).1 (tl_registry s) (userConnCount s) (userPorts s) (violations s + 1)
    (reactions s ++ [mkReaction (RecordIncident now (tl_tracker s) id ty tg ds delta).2
                       (RecordIncident now (tl_tracker s) id ty tg ds delta).1 (tl_registry s)]).
Proof. unfold record. by destruct (RecordIncident now (tl_tracker s) id ty tg ds delta). Qed.

(** An outcome depends on the configuration and the client's own profile. *)
Lemma RecordIncident_outcome now t t' id ty tg ds delta :
  cfg t = cfg t' -> whitelist t = whitelist t' -> onCompromised t = onCompromised t' -> profiles t !! id = profiles t' !! id ->
  (RecordIncident now t id ty tg ds delta).2 = (RecordIncident now t' id ty tg ds delta).2.
Proof.
  intros H1 H2 H3 H4. unfold RecordIncident, alert_message. rewrite H1, H2, H3, H4. destruct (id =s ""); [done|]. by destruct (bool_decide _).
Qed.

Definition same_config (t t' : ClientRiskTracker) : Prop :=
  cfg t = cfg t' /\ whitelist t = whitelist t' /\ onCompromised t = onCompromised t' /\
  RiskTracker.stopped t = RiskTracker.stopped t'.

Lemma list_omap_ext_in {A B} (f g : A -> option B) (l : list A) : (forall x, x ∈ l -> f x = g x) -> omap f l = omap g l.
Proof.
  induction l as [|x l IH]; intros H; [done|]. cbn. rewrite (H x) by by left. rewrite IH; [done|]. intros y Hy. apply H. by right.
Qed.

Lemma incidents_fold now f ks s : NoDup ks ->
  let s' := foldl (incidents now f) s ks in
  same_config (tl_tracker s) (tl_tracker s') /\
  tl_registry s' = tl_registry s /\ userConnCount s' = userConnCount s /\ userPorts s' = userPorts s /\
  violations s' = violations s + len (omap f ks) /\
  map re_outcome (reactions s') = map re_outcome (reactions s) ++ omap (reaction_to now (tl_tracker s) f) ks /\
  forall k, profiles (tl_tracker s') !! k =
    if decide (k ∈ ks) then after_incident now (tl_tracker s) k (f k)
    else profiles (tl_tracker s) !! k.
Proof.
  intros Hnd. revert s. induction ks as [|j ks IH]; intros s; cbn [foldl].
  - repeat split; cbn; try done; [unfold len; cbn; lia | by rewrite app_nil_r].
  - apply NoDup_cons in Hnd as [Hj Hnd]. destruct (IH Hnd (incidents now f s j)) as (Hc & Hr & Hcc & Hp & Hv & Hre & Hl).
    unfold incidents in *. destruct (f j) as [[[[ty tg] ds] delta]|] eqn:Ef; rewrite ?record_fields in *; cbn in *.
    + pose proof (RecordIncident_config now (tl_tracker s) j ty tg ds delta) as (E1 & E2 & E3 & E4).
      destruct Hc as (H1 & H2 & H3 & H4).
      split; [repeat split; congruence|]. repeat (split; [done|]).
      split; [rewrite Ef; unfold len in *; cbn [length]; lia|].
      split.
      { rewrite Hre, map_app, <- app_assoc. cbn. unfold reaction_to at 2. rewrite Ef. cbn. do 2 f_equal.
        apply list_omap_ext_in. intros k Hk. unfold reaction_to. destruct (f k) as [[[[ty' tg'] ds'] delta']|]; [|done]. f_equal.
        apply RecordIncident_outcome; [done..|]. rewrite RecordIncident_lookup, decide_False; [done|]. intros [-> _]. by apply Hj. }
      intros k. rewrite Hl. destruct (decide (k = j)) as [->|Hne].
      * rewrite (decide_True (P := j ∈ j :: ks)) by by left. rewrite decide_False by done.
        unfold after_incident. by rewrite Ef.
      * assert (Hk : k ∈ j :: ks <-> k ∈ ks) by (rewrite elem_of_cons; naive_solver).
        rewrite (decide_ext _ _ _ _ Hk). case_decide; [|by rewrite RecordIncident_lookup, decide_False by naive_solver].
        unfold after_incident. destruct (f k) as [[[[ty' tg'] ds'] delta']|].
        -- rewrite !RecordIncident_lookup, E1, E2.
           repeat case_decide; try done; try naive_solver.
        -- by rewrite RecordIncident_lookup, decide_False by naive_solver.
    + split; [done|]. repeat (split; [done|]).
      split; [by rewrite Ef|]. split; [unfold reaction_to at 1; rewrite Ef; done|].
      intros k. rewrite Hl. destruct (decide (k = j)) as [->|Hne].
      * rewrite (decide_True (P := j ∈ j :: ks)) by by left. rewrite decide_False by done.
        unfold after_incident. by rewrite Ef.
      * assert (Hk : k ∈ j :: ks <-> k ∈ ks) by (rewrite elem_of_cons; naive_solver).
        by rewrite (decide_ext _ _ _ _ Hk).
Qed.

Definition scan_of (ports : gmap string (gset Z)) (k : string) : option (string * string * string * Z) :=
  ps ← ports !! k;
  if 3 <=? Z.of_nat (size ps) then
    Some ("PORT_SCAN_DETECTED"%string, Itoa (Z.of_nat (size ps)) ^^ " distinct sensitive ports",
          "Client performed multi-port probing behavior"%string, 60)
  else None.

Definition flood_of ca (counts : gmap string Z) (k : string) : option (string * string * string * Z) :=
  n ← counts !! k;
  if maxConnsPerUser ca <? n then
    Some ("FLOOD_SPIKE"%string, Itoa n ^^ " active sockets",
          "Client exceeded maximum simultaneous sockets (" ^^ Itoa n ^^ " > " ^^
          Itoa (maxConnsPerUser ca) ^^ ")", 40)
  else None.

Lemma foldl_same {A B} (f g : A -> B -> A) (l : list B) (x : A) :
  (forall y b, f y b = g y b) -> foldl f x l = foldl g x l.
Proof. intros Hf. revert x. induction l as [|b l IH]; intros x; [done|]. cbn. by rewrite Hf, IH. Qed.

Lemma scan_incidents now ports s ks :
  foldl (scan_incident now ports) s ks = foldl (incidents now (scan_of ports)) s ks.
Proof.
  apply foldl_same. intros s' b. unfold scan_incident, incidents, scan_of.
  destruct (ports !! b); [|done]. cbn. by destruct (_ <=? _).
Qed.

Lemma flood_incidents now ca counts s ks :
  foldl (flood_incident now ca counts) s ks = foldl (incidents now (flood_of ca counts)) s ks.
Proof.
  apply foldl_same. intros s' b. unfold flood_incident, incidents, flood_of.
  destruct (counts !! b); [|done]. cbn. by destruct (_ <? _).
Qed.

Lemma tracker_eq t t' : same_config t t' -> profiles t = profiles t' -> t = t'.
Proof. destruct t, t'. unfold same_config. cbn. intros (-> & -> & -> & ->) ->. done. Qed.

Lemma same_config_trans t1 t2 t3 : same_config t1 t2 -> same_config t1 t3 -> same_config t2 t3.
Proof. intros (? & ? & ? & ?) (? & ? & ? & ?). repeat split; congruence. Qed.

(** The same but for the order of the reactions. *)
Record same_tally (s s' : tally) : Prop := {
  st_tracker : tl_tracker s = tl_tracker s';
  st_registry : tl_registry s = tl_registry s';
  st_counts : userConnCount s = userConnCount s';
  st_ports : userPorts s = userPorts s';
  st_violations : violations s = violations s';
  st_outcomes : map re_outcome (reactions s) ≡ₚ map re_outcome (reactions s');
}.

(** Two orders of the same keys, from the same state. *)
Lemma incidents_perm now f ks ks' s s' : NoDup ks -> ks ≡ₚ ks' -> same_tally s s' ->
  same_tally (foldl (incidents now f) s ks) (foldl (incidents now f) s' ks').
Proof.
  intros Hnd Hp [Et Er Ec Ep Ev Eo]. assert (Hnd' : NoDup ks') by by rewrite <- Hp.
  pose proof (incidents_fold now f ks s Hnd) as (C1 & R1 & U1 & P1 & V1 & O1 & L1).
  pose proof (incidents_fold now f ks' s' Hnd') as (C2 & R2 & U2 & P2 & V2 & O2 & L2).
  rewrite <- Et in *. split; try congruence.
  - apply tracker_eq; [by eapply same_config_trans|]. apply map_eq. intros k. rewrite L1, L2.
    assert (Hk : k ∈ ks <-> k ∈ ks') by by rewrite Hp. by rewrite (decide_ext _ _ _ _ Hk).
  - rewrite V1, V2, Ev. unfold len. by rewrite Hp.
  - by rewrite O1, O2, Eo, Hp.
Qed.
End auditors.

(** The audit of a snapshot does not depend on the order in which Go ranges
    over its maps: any two orders leave the same tracker and registry and report
    the same numbers, the same action and, up to order, the same clients, and set
    off the same callbacks and alerts; and those clients are exactly the isolated
    ones. *)
Theorem audit_order_irrelevant (o1 o2 : RangeOrder string) now ca conns ca1 rep1 rs1 :
  AuditConnections (order := o1) now ca conns = Some (ca1, rep1, rs1) ->
  exists rep2 rs2, AuditConnections (order := o2) now ca conns = Some (ca1, rep2, rs2) /\
    ViolationsFound rep2 = ViolationsFound rep1 /\ UniqueClients rep2 = UniqueClients rep1 /\
    ActionRecommended rep2 = ActionRecommended rep1 /\
    CompromisedClients rep2 ≡ₚ CompromisedClients rep1 /\
    map re_outcome rs2 ≡ₚ map re_outcome rs1 /\
    forall id, id ∈ CompromisedClients rep2 <-> IsCompromisedOrQuarantined now (tracker ca1) id = true.
Proof.
  unfold AuditConnections. destruct (audit_each now ca conns _) as [s1|]; [|done]. cbn -[len].
  intros [= <- <- <-].
  assert (Hord : forall (s : gset string), range_keys (RangeOrder := o2) s ≡ₚ range_keys (RangeOrder := o1) s).
  { intros s. by rewrite !range_keys_perm. }
  rewrite !flood_incidents, !scan_incidents.
  match goal with |- context [CompromisedClients _ ≡ₚ CompromisedClients (mkReport _ _ (GetQuarantinedClients _ (tl_tracker ?s)) _ _)] =>
    set (sa := s) end.
  set (sb := foldl (incidents _ _) (foldl _ s1 (range_keys (RangeOrder := o2) _)) (range_keys (RangeOrder := o2) _)).
  assert (Hab : same_tally sb sa).
  { apply incidents_perm; [apply (NoDup_range_keys o2) | apply Hord|]. apply incidents_perm; [apply (NoDup_range_keys o2) | apply Hord | done]. }
  destruct Hab as [Et Er Ec Ep Ev Eo].
  assert (Hq : GetQuarantinedClients (order := o2) now (tl_tracker sb)
    ≡ₚ GetQuarantinedClients (order := o1) now (tl_tracker sa)).
  { rewrite Et. unfold GetQuarantinedClients. by rewrite Hord. }
  rewrite Et in Hq. do 2 eexists. split; [by rewrite Et, Er|]. cbn -[len]. split; [done|]. split; [by rewrite Ec|].
  split; [unfold len; by rewrite Hq|]. split; [done|]. split; [done|].
  intros id. unfold GetQuarantinedClients. rewrite list_elem_of_filter, (elem_of_range_keys o2), elem_of_dom.
  unfold IsCompromisedOrQuarantined. split; [by intros [? _]|]. intros Hi. split; [done|].
  destruct (profiles (tl_tracker sa) !! id); [eauto | done].
Qed.

Definition snapshot_demo : list ActiveConnection :=
  [mkConn "1" "Alice" "203.0.113.7" "198.51.100.1" 22 0 0 0;
   mkConn "2" "" "203.0.113.7" "198.51.100.2" 23 0 0 0;
   mkConn "3" "alice" "203.0.113.8" "198.51.100.3" 3389 0 0 0;
   mkConn "4" "bob" "203.0.113.9" "example.org" 443 0 0 0]%string.

Definition auditor_demo : ConnectionAuditor := NewConnectionAuditor None None None [22; 23; 3389] 0.

(** The opposite of the default order. *)
Definition reverse_order : RangeOrder string.
Proof.
  refine {| range_keys := fun s => reverse (elements s) |}. intros s. apply reverse_Permutation.
Defined.

Lemma audit_order_irrelevant_witness : exists ca rep1 rs1 rep2 rs2,
  AuditConnections (order := default_order string) 0 auditor_demo snapshot_demo = Some (ca, rep1, rs1) /\
  AuditConnections (order := reverse_order) 0 auditor_demo snapshot_demo = Some (ca, rep2, rs2) /\
  CompromisedClients rep2 ≡ₚ CompromisedClients rep1.
Proof.
  destruct (AuditConnections (order := default_order string) 0 auditor_demo snapshot_demo)
    as [[[ca rep1] rs1]|] eqn:E; [|vm_compute in E; discriminate].
  destruct (audit_order_irrelevant (default_order string) reverse_order 0 auditor_demo snapshot_demo ca rep1 rs1 E)
    as (rep2 & rs2 & E2 & _ & _ & _ & Hp & _).
  exists ca, rep1, rs1, rep2, rs2. exact (conj eq_refl (conj E2 Hp)).
Defined.

(** The aliases of one subscriber add up: user name and address are one client. *)
Example snapshot_result :
  option_map (fun r => (CompromisedClients r.1.2, ViolationsFound r.1.2, UniqueClients r.1.2))
    (AuditConnections 0 auditor_demo snapshot_demo) = Some (["alice"%string], 4, 2).
Proof. vm_compute. reflexivity. Qed.

(** A tracker whitelist entry with an upper-case letter is never matched: clients
    reach the tracker under lower-case names. *)
Lemma upper_case_whitelist_missed :
  let t := NewClientRiskTracker DefaultRiskScorerConfig ["Alice"%string] in
  option_map (fun r => CompromisedClients r.1.2)
    (AuditConnections 0 (NewConnectionAuditor (Some t) None None [22; 23; 3389] 0) snapshot_demo)
  = Some ["alice"%string].
Proof. vm_compute. reflexivity. Qed.
End Auditors.
