(* ===== verification/Optimizer.v ===== *)
(** * The routing optimiser (src/pkg/routing/optimizer.go)

    Rules are stripped of what other entries of the same rule already cover:
    networks inside wider networks and subdomains of listed domains.  Go's
    [sort] is a sort by a total order here, so its instability cannot show:
    [merge_sort] computes the one sorted permutation. *)
From S2P Require Import Prelude GoStrings GoNet.
Open Scope Z_scope.

Module Optimizer.
(** ** Orders *)

(** [bytes.Compare(a, b) <= 0] *)
Fixpoint bytes_leb (a b : list Z) : bool :=
  match a, b with
  | [], _ => true
  | _, [] => false
  | x :: a', y :: b' => if x <? y then true else if y <? x then false else bytes_leb a' b'
  end.

Definition ones_of (n : IPNet) : Z := (Size (net_Mask n)).1.

(** The order of networks: fewer ones first, then by address. *)
Definition net_le (n m : IPNet) : Prop :=
  (if ones_of n =? ones_of m then bytes_leb (net_IP n) (net_IP m) else ones_of n <? ones_of m) = true.

(** The order of domains: fewer dots first, then alphabetical. *)
Definition dots (d : string) : Z := CountByte d ".".
Definition domain_le (d e : string) : Prop :=
  (if dots d =? dots e then negb (str_ltb e d) else dots d <? dots e) = true.
Definition str_le (d e : string) : Prop := negb (str_ltb e d) = true.

#[export] Instance net_le_dec n m : Decision (net_le n m).
Proof. unfold net_le. apply _. Defined.
#[export] Instance domain_le_dec d e : Decision (domain_le d e).
Proof. unfold domain_le. apply _. Defined.
#[export] Instance str_le_dec d e : Decision (str_le d e).
Proof. unfold str_le. apply _. Defined.

Definition sort_nets (l : list IPNet) : list IPNet := merge_sort net_le l.
Definition sort_domains (l : list string) : list string := merge_sort domain_le l.
Definition sort_strings (l : list string) : list string := merge_sort str_le l.

(** ** Networks *)

Definition isSubnet (parent child : IPNet) : bool :=
  if negb (Bool.eqb (is_nil (To4 (net_IP parent))) (is_nil (To4 (net_IP child)))) then false
  else if ones_of child <? ones_of parent then false
  else net_Contains parent (net_IP child).

Definition mergeNets (nets : list IPNet) : list IPNet :=
  foldl (fun merged n => if existsb (fun parent => isSubnet parent n) merged then merged else merged ++ [n])
    [] nets.

(** What one entry of the list is: a tag kept as it is, or a network. *)
Inductive ip_entry := IPTag (tag : string) | IPNetwork (n : IPNet) | IPEmpty.

Definition parse_entry (raw : string) : ip_entry :=
  let tr := TrimSpace raw in
  if tr =s "" then IPEmpty
  else if HasPrefix tr "geoip:" then IPTag tr
  else
    let cleaned := TrimPrefix tr "ip:" in
    let cleaned :=
      if negb (Contains cleaned "/") && negb (is_nil (ParseIP cleaned)) then
        if negb (is_nil (To4 (ParseIP cleaned))) then cleaned ^^ "/32" else cleaned ^^ "/128"
      else cleaned in
    match ParseCIDR cleaned with Some n => IPNetwork n | None => IPTag tr end.

Definition push_unseen (l : list string) (x : string) : list string :=
  if bool_decide (x ∈ l) then l else l ++ [x].

Definition ip_tags (ips : list string) : list string :=
  foldl (fun l raw => match parse_entry raw with IPTag t => push_unseen l t | _ => l end) [] ips.
Definition ip_nets (ips : list string) : list IPNet :=
  omap (fun raw => match parse_entry raw with IPNetwork n => Some n | _ => None end) ips.

Definition OptimizeCIDRs (ips : list string) : list string :=
  if len ips <=? 1 then ips
  else
    let nets := ip_nets ips in
    if len nets =? 0 then ip_tags ips
    else ip_tags ips ++ map IPNet_String (mergeNets (sort_nets nets)).

(** ** Domains *)

Inductive domain_entry := DomTag (tag : string) | DomSuffix (prefix d : string) | DomEmpty.

Definition is_special (tr : string) : bool :=
  HasPrefix tr "geosite:" || HasPrefix tr "regexp:" || HasPrefix tr "regex:" ||
  HasPrefix tr "keyword:" || HasPrefix tr "full:".

Definition classify_domain (raw : string) : domain_entry :=
  let tr := TrimSpace raw in
  if tr =s "" then DomEmpty
  else if is_special tr then DomTag tr
  else
    let '(prefix, c) :=
      if HasPrefix tr "domain:" then ("domain:"%string, TrimPrefix tr "domain:")
      else if HasPrefix tr "suffix:" then ("suffix:"%string, TrimPrefix tr "suffix:")
      else (""%string, tr) in
    let c := ToLower c in
    if c =s "" then DomEmpty else DomSuffix prefix c.

Definition domain_tags (l : list string) : list string :=
  foldl (fun acc raw => match classify_domain raw with DomTag t => push_unseen acc t | _ => acc end) [] l.
Definition suffix_domains (l : list string) : list string :=
  omap (fun raw => match classify_domain raw with DomSuffix _ d => Some d | _ => None end) l.
(** The prefix the first entry of a domain had. *)
Definition prefixMap (l : list string) : gmap string string :=
  foldl (fun m raw => match classify_domain raw with
                      | DomSuffix p d => match m !! d with Some _ => m | None => <[d := p]> m end
                      | _ => m end) ∅ l.

(** A listed domain covers itself and its subdomains. *)
Definition covers (parent d : string) : bool := HasSuffix d ("." ^^ parent) || (d =s parent).

Definition retain_step (retained : list string) (d : string) : list string :=
  if existsb (fun parent => covers parent d) retained then retained else retained ++ [d].

Definition retain (l : list string) : list string := foldl retain_step [] l.

Definition OptimizeDomains (domains : list string) : list string :=
  if len domains <=? 1 then domains
  else
    let suffixes := suffix_domains domains in
    let tags := sort_strings (domain_tags domains) in
    if len suffixes =? 0 then tags
    else tags ++ map (fun d => default ""%string (prefixMap domains !! d) ^^ d)
                   (sort_strings (retain (sort_domains suffixes))).

(** ** Domains: nothing is lost and nothing is redundant *)

Lemma covers_refl d : covers d d = true.
Proof. unfold covers. by rewrite String.eqb_refl, orb_true_r. Qed.

Lemma covers_spec p d : covers p d = true <-> d = p \/ exists s, d = s ^^ "." ^^ p.
Proof.
  unfold covers. rewrite orb_true_iff, HasSuffix_spec, String.eqb_eq. naive_solver.
Qed.

Lemma covers_trans p d h : covers p d = true -> covers d h = true -> covers p h = true.
Proof.
  rewrite !covers_spec. intros [->|[s ->]] [->|[s' ->]]; auto.
  - right. eauto.
  - right. eauto.
  - right. exists (s' ^^ "." ^^ s). by rewrite !str_app_assoc.
Qed.

Definition covered (l : list string) (h : string) : Prop := exists d, d ∈ l /\ covers d h = true.

Lemma retain_snoc l d : retain (l ++ [d]) = retain_step (retain l) d.
Proof. unfold retain. by rewrite foldl_app. Qed.

Lemma retain_subset l d : d ∈ retain l -> d ∈ l.
Proof.
  induction l as [|x l IH] using rev_ind; [done|]. rewrite retain_snoc. unfold retain_step.
  rewrite elem_of_app. destruct (existsb _ _); [by left; apply IH|].
  rewrite elem_of_app. intros [?|?]; auto.
Qed.

Lemma retain_covers l d : d ∈ l -> covered (retain l) d.
Proof.
  induction l as [|x l IH] using rev_ind; [by intros ?%elem_of_nil|].
  rewrite retain_snoc. unfold retain_step. intros [Hd| ->%list_elem_of_singleton]%elem_of_app.
  - destruct (IH Hd) as (p & Hp & Hc). destruct (existsb _ _); exists p; set_solver.
  - destruct (existsb _ _) eqn:E.
    + apply existsb_exists in E as (p & Hp & Hc). exists p. split; [by apply list_elem_of_In | done].
    + exists x. split; [set_solver | apply covers_refl].
Qed.

(** The union of what is covered does not change. *)
Lemma retain_covered l h : covered (retain l) h <-> covered l h.
Proof.
  split; intros (d & Hd & Hc).
  - exists d. split; [by apply retain_subset | done].
  - destruct (retain_covers l d Hd) as (p & Hp & Hpd). exists p. split; [done|].
    by eapply covers_trans.
Qed.

Lemma CountByte_app s t c : CountByte (s ^^ t) c = CountByte s c + CountByte t c.
Proof. induction s as [|a s IH]; cbn; [done|]. rewrite IH. destruct (Ascii.eqb a c); lia. Qed.

Lemma CountByte_nonneg s c : 0 <= CountByte s c.
Proof. induction s as [|a s IH]; cbn; [done|]. destruct (Ascii.eqb a c); lia. Qed.

Lemma covers_dots p d : covers p d = true -> p = d \/ dots p < dots d.
Proof.
  rewrite covers_spec. intros [->|[s ->]]; [by left|]. right. unfold dots.
  rewrite !CountByte_app. cbn. pose proof (CountByte_nonneg s "."). lia.
Qed.

Lemma str_ltb_asym d e : str_ltb d e = true -> str_ltb e d = false.
Proof.
  unfold str_ltb, String.ltb. rewrite (String.compare_antisym d e).
  by destruct (String.compare e d).
Qed.

#[export] Instance str_le_total : Total str_le.
Proof.
  intros d e. unfold str_le. destruct (str_ltb e d) eqn:E1; [|by left].
  right. by rewrite (str_ltb_asym _ _ E1).
Qed.

#[export] Instance domain_le_total : Total domain_le.
Proof.
  intros d e. unfold domain_le. rewrite (Z.eqb_sym (dots e)).
  destruct (Z.eqb_spec (dots d) (dots e)); [apply str_le_total|].
  destruct (Z.ltb_spec (dots d) (dots e)); [by left|]. right. apply Z.ltb_lt. lia.
Qed.

Lemma bytes_leb_total a b : bytes_leb a b = true \/ bytes_leb b a = true.
Proof.
  revert b. induction a as [|x a IH]; intros [|y b]; cbn; auto.
  destruct (Z.ltb_spec x y), (Z.ltb_spec y x); auto; lia.
Qed.

#[export] Instance net_le_total : Total net_le.
Proof.
  intros n m. unfold net_le. rewrite (Z.eqb_sym (ones_of m)).
  destruct (Z.eqb_spec (ones_of n) (ones_of m)); [apply bytes_leb_total|].
  destruct (Z.ltb_spec (ones_of n) (ones_of m)); [by left|]. right. apply Z.ltb_lt. lia.
Qed.

(** A list sorted by a measure: every earlier element is no larger. *)
Lemma sorted_measure {A} (R : A -> A -> Prop) (f : A -> Z) l :
  (forall x y, R x y -> f x <= f y) -> Sorted R l -> StronglySorted (fun x y => f x <= f y) l.
Proof.
  intros Hf Hs. apply Sorted_StronglySorted; [intros x y z; cbn; lia|].
  induction Hs as [|x l Hs IH Hh]; constructor; [done|].
  destruct Hh; constructor; auto.
Qed.

Lemma domain_le_dots d e : domain_le d e -> dots d <= dots e.
Proof. unfold domain_le. destruct (Z.eqb_spec (dots d) (dots e)); [lia|]. rewrite Z.ltb_lt. lia. Qed.

Lemma StronglySorted_snoc {A} (R : A -> A -> Prop) l x :
  StronglySorted R (l ++ [x]) -> StronglySorted R l /\ Forall (fun y => R y x) l.
Proof.
  induction l as [|y l IH]; cbn; intros Hs; [split; constructor|].
  apply StronglySorted_inv in Hs as [Hs Hf]. destruct (IH Hs) as [H1 H2].
  apply Forall_app in Hf as [Hf Hx]. split; constructor; auto. by inversion Hx.
Qed.

(** No retained domain covers another one. *)
Definition irredundant (l : list string) : Prop :=
  NoDup l /\ forall p d, p ∈ l -> d ∈ l -> covers p d = true -> p = d.

Lemma retain_irredundant l : StronglySorted (fun x y => dots x <= dots y) l -> irredundant (retain l).
Proof.
  induction l as [|x l IH] using rev_ind; intros Hs; [split; [constructor | by intros p d ?%elem_of_nil]|].
  apply StronglySorted_snoc in Hs as [Hs Hx]. destruct (IH Hs) as [Hnd Hir].
  rewrite retain_snoc. unfold retain_step. destruct (existsb _ _) eqn:E; [by split|].
  assert (Hno : forall p, p ∈ retain l -> covers p x = false).
  { intros p Hp. destruct (covers p x) eqn:Ec; [|done]. enough (existsb (fun q => covers q x) (retain l) = true)
      by congruence. apply existsb_exists. exists p. split; [by apply list_elem_of_In | done]. }
  split.
  - apply NoDup_app. split; [done|]. split; [|apply NoDup_singleton].
    intros y Hy ->%list_elem_of_singleton. specialize (Hno x Hy). by rewrite covers_refl in Hno.
  - intros p d [Hp|Hp]%elem_of_app [Hd|Hd]%elem_of_app Hc.
    + auto.
    + apply list_elem_of_singleton in Hd as ->. specialize (Hno p Hp). congruence.
    + apply list_elem_of_singleton in Hp as ->. apply covers_dots in Hc as [?|Hlt]; [done|].
      apply retain_subset in Hd. rewrite Forall_forall in Hx. specialize (Hx d Hd). lia.
    + apply list_elem_of_singleton in Hp as ->. by apply list_elem_of_singleton in Hd as ->.
Qed.

(** The name [h] is the domain [d] or below it. *)
Definition within (d h : string) : Prop := h = d \/ exists s, h = s ^^ "." ^^ d.
Lemma covered_within l h : covered l h <-> exists d, d ∈ l /\ within d h.
Proof. unfold covered, within. by setoid_rewrite covers_spec. Qed.
Lemma optimized_domains l : 1 < len l ->
  exists R, OptimizeDomains l =
      sort_strings (domain_tags l) ++ map (fun d => default ""%string (prefixMap l !! d) ^^ d) R /\
    Forall (fun d => d ∈ suffix_domains l) R /\ (forall h, covered R h <-> covered (suffix_domains l) h) /\ irredundant R.
Proof.
  intros Hl. unfold OptimizeDomains. rewrite (proj2 (Z.leb_gt _ _)) by done.
  destruct (Z.eqb_spec (len (suffix_domains l)) 0) as [E|E].
  { exists []. rewrite app_nil_r. apply len_nil_iff in E. rewrite E. split; [done|].
    split; [done|]. split; [done|]. split; [constructor | by intros p d ?%elem_of_nil]. }
  eexists. split; [done|]. set (srt := sort_domains (suffix_domains l)).
  assert (Hp : sort_strings (retain srt) ≡ₚ retain srt) by apply merge_sort_Permutation.
  assert (Hq : srt ≡ₚ suffix_domains l) by apply merge_sort_Permutation.
  split; [|split].
  - apply Forall_forall. intros d. rewrite Hp. intros Hd%retain_subset. by rewrite <- Hq.
  - intros h. transitivity (covered (retain srt) h); [|rewrite retain_covered];
      unfold covered; split; intros (d & Hd & Hc); exists d; (split; [|done]).
    + by rewrite <- Hp.
    + by rewrite Hp.
    + by rewrite <- Hq.
    + by rewrite Hq.
  - destruct (retain_irredundant srt) as [Hnd Hir].
    { apply (sorted_measure domain_le); [apply domain_le_dots|]. apply Sorted_merge_sort, _. }
    split; [by rewrite Hp|]. intros p d. rewrite !Hp. apply Hir.
Qed.

(** C38. Optimising the domains of a list of two entries or more: tags ([geosite:],
    [regexp:], ...) are kept, each once and sorted, and the plain domains are replaced by
    some of them, each with the prefix that its first entry had, which have the same meaning:
    a host is one of the listed domains or below one of them before exactly when it is
    afterwards, and no domain of the result is another one of it or below another one. *)
Theorem optimize_domains_exact l : 1 < len l ->
  exists R, OptimizeDomains l =
      sort_strings (domain_tags l) ++ map (fun d => default ""%string (prefixMap l !! d) ^^ d) R /\
    Forall (fun d => d ∈ suffix_domains l) R /\
    (forall h, (exists d, d ∈ R /\ within d h) <-> (exists d, d ∈ suffix_domains l /\ within d h)) /\
    NoDup R /\ (forall p d, p ∈ R -> d ∈ R -> within p d -> p = d).
Proof.
  intros Hl. destruct (optimized_domains l Hl) as (R & E & Hs & Hc & Hnd & Hir). exists R. split_and!; [done|done| |done|].
  - intros h. rewrite <- !covered_within. apply Hc.
  - intros p d Hp Hd Hw. apply Hir; [done|done|]. by apply covers_spec.
Qed.

(** ** Networks: nothing is lost *)

(** A network that is not an IPv4 network in IPv6 form. *)
Definition plain_net (n : IPNet) : Prop :=
  cidr_net n /\ (length (net_IP n) = 16%nat -> To4 (net_IP n) = []).

Lemma Size_mask ones bits : bits = 32 \/ bits = 128 -> 0 <= ones <= bits ->
  Size (CIDRMask ones bits) = (ones, bits).
Proof.
  intros Hb Ho.
  assert (H32 : forallb (fun k => bool_decide (Size (CIDRMask k 32) = (k, 32))) (seqZ 0 33) = true)
    by (vm_compute; reflexivity).
  assert (H128 : forallb (fun k => bool_decide (Size (CIDRMask k 128) = (k, 128))) (seqZ 0 129) = true)
    by (vm_compute; reflexivity).
  rewrite forallb_forall in H32, H128. destruct Hb as [-> | ->].
  - eapply bool_decide_eq_true, H32, list_elem_of_In, elem_of_seqZ. lia.
  - eapply bool_decide_eq_true, H128, list_elem_of_In, elem_of_seqZ. lia.
Qed.

Lemma mask_byte_land p c i : p <= c -> Z.land (mask_byte p i) (mask_byte c i) = mask_byte p i.
Proof.
  intros Hpc. unfold mask_byte.
  set (j := Z.max 0 (Z.min 8 (p - 8 * i))). set (k := Z.max 0 (Z.min 8 (c - 8 * i))).
  assert (Hjk : 0 <= j <= k /\ k <= 8) by lia. clearbody j k.
  assert (Hall : forallb (fun a => forallb (fun b => (b <? a) ||
      (Z.land (256 - 2 ^ (8 - a)) (256 - 2 ^ (8 - b)) =? 256 - 2 ^ (8 - a))) (seqZ 0 9)) (seqZ 0 9) = true)
    by (vm_compute; reflexivity).
  rewrite forallb_forall in Hall. specialize (Hall j). rewrite forallb_forall in Hall.
  assert (Hin : forall x, 0 <= x <= 8 -> In x (seqZ 0 9)) by (intros; apply list_elem_of_In, elem_of_seqZ; lia).
  specialize (Hall (Hin j ltac:(lia)) k (Hin k ltac:(lia))).
  apply orb_true_iff in Hall as [Hl|Hl]; [apply Z.ltb_lt in Hl; lia | by apply Z.eqb_eq].
Qed.

Lemma CIDRMask_land p c bits : p <= c ->
  Forall2 (fun a b => Z.land a b = a) (CIDRMask p bits) (CIDRMask c bits).
Proof.
  intros. unfold CIDRMask. induction (seq 0 (Z.to_nat (bits / 8))) as [|i l IH]; constructor; [|done].
  by apply mask_byte_land.
Qed.

(** Agreement under the longer mask gives agreement under the shorter one. *)
Lemma map2_coarser pm cm (a b : list Z) : Forall2 (fun x y => Z.land x y = x) pm cm ->
  length a = length b -> map2 Z.land a cm = map2 Z.land b cm -> map2 Z.land a pm = map2 Z.land b pm.
Proof.
  intros Hm. revert a b. induction Hm as [|x y pm cm Hxy _ IH]; intros a b Hl He.
  - by destruct a, b.
  - destruct a as [|u a], b as [|v b]; try done. cbn in *. injection He as H1 H2. injection Hl as Hl.
    rewrite (IH a b Hl H2). f_equal.
    rewrite <- Hxy, (Z.land_comm x y), !Z.land_assoc, H1. done.
Qed.

Lemma plain_number n : plain_net n ->
  networkNumberAndMask n = (net_IP n, net_Mask n) /\
  (if is_nil (To4 (net_IP n)) then net_IP n else To4 (net_IP n)) = net_IP n /\
  is_nil (To4 (net_IP n)) = (length (net_IP n) =? 16)%nat.
Proof.
  intros [(ones & bits & Ho & Hb & Hm & Hl) Hp]. unfold networkNumberAndMask, len.
  rewrite Hm, CIDRMask_length. destruct Hb as [-> | ->].
  - change (Z.to_nat (32 / 8)) with 4%nat in *.
    assert (To4 (net_IP n) = net_IP n) as -> by (unfold To4, len; by rewrite Hl).
    assert (is_nil (net_IP n) = false) as -> by (by destruct (net_IP n)). by rewrite Hl.
  - change (Z.to_nat (128 / 8)) with 16%nat in *. rewrite (Hp Hl), Hl. cbn [is_nil]. by rewrite Hl.
Qed.

Lemma contains_plain n ip : plain_net n ->
  net_Contains n ip = true <->
  let ip' := if is_nil (To4 ip) then ip else To4 ip in
  length ip' = length (net_IP n) /\ map2 Z.land (net_IP n) (net_Mask n) = map2 Z.land ip' (net_Mask n).
Proof.
  intros Hn. destruct (plain_number n Hn) as (E & _ & _). unfold net_Contains, len. rewrite E. cbv zeta.
  set (ip' := if is_nil _ then _ else _). destruct (Z.eqb_spec (Z.of_nat (length ip')) (Z.of_nat (length (net_IP n)))).
  - rewrite bytes_eqb_spec. split; [intros ?; split; [lia | done] | by intros [_ ?]].
  - split; [done | intros [? _]; lia].
Qed.

Lemma subnet_contains p c ip : plain_net p -> plain_net c ->
  isSubnet p c = true -> net_Contains c ip = true -> net_Contains p ip = true.
Proof.
  intros Hp Hc. unfold isSubnet. destruct (negb _); [done|].
  destruct (Z.ltb_spec (ones_of c) (ones_of p)) as [|Hle]; [done|].
  rewrite !contains_plain by done. cbv zeta.
  destruct (plain_number c Hc) as (_ & -> & _).
  set (ip' := if is_nil _ then _ else _). intros [Hl1 He1] [Hl2 He2]. split; [congruence|].
  rewrite He1. destruct Hp as [(po & pb & Hpo & Hpb & Hpm & Hpl) _].
  destruct Hc as [(co & cb & Hco & Hcb & Hcm & Hcl) _].
  assert (pb = cb) as ->.
  { destruct Hpb as [-> | ->], Hcb as [-> | ->]; try done; exfalso;
      rewrite Hcl, Hpl in Hl1; vm_compute in Hl1; discriminate. }
  unfold ones_of in Hle. rewrite Hpm, Hcm, !Size_mask in Hle by done. cbn in Hle.
  rewrite Hpm. rewrite Hcm in He2. by apply (map2_coarser _ _ _ _ (CIDRMask_land po co cb Hle)).
Qed.

Definition in_nets (l : list IPNet) (ip : IP) : Prop := exists n, n ∈ l /\ net_Contains n ip = true.

Definition merge_step (merged : list IPNet) (n : IPNet) : list IPNet :=
  if existsb (fun parent => isSubnet parent n) merged then merged else merged ++ [n].

Lemma merge_snoc l n : mergeNets (l ++ [n]) = merge_step (mergeNets l) n.
Proof. unfold mergeNets. by rewrite foldl_app. Qed.

Lemma merge_subset l n : n ∈ mergeNets l -> n ∈ l.
Proof.
  induction l as [|x l IH] using rev_ind; [done|]. rewrite merge_snoc. unfold merge_step.
  rewrite elem_of_app. destruct (existsb _ _); [by left; apply IH|].
  rewrite elem_of_app. intros [?|?]; auto.
Qed.

Lemma merge_in_nets l ip : Forall plain_net l -> in_nets (mergeNets l) ip <-> in_nets l ip.
Proof.
  intros Hp. split.
  - intros (n & Hn & Hc). exists n. split; [by apply merge_subset | done].
  - induction l as [|x l IH] using rev_ind; [by intros (n & ?%elem_of_nil & _)|].
    apply Forall_app in Hp as [Hp Hx]. rewrite Forall_singleton in Hx.
    intros (n & [Hn| ->%list_elem_of_singleton]%elem_of_app & Hc); rewrite merge_snoc; unfold merge_step.
    + destruct IH as (m & Hm & Hmc); [done | by exists n|].
      exists m. split; [destruct (existsb _ _); set_solver | done].
    + destruct (existsb _ _) eqn:E.
      * apply existsb_exists in E as (m & Hm & Hs). apply list_elem_of_In in Hm. exists m. split; [done|].
        apply (subnet_contains m x); try done.
        rewrite Forall_forall in Hp. by apply Hp, merge_subset.
      * exists x. split; [set_solver | done].
Qed.

Lemma merge_minimal l : StronglySorted (fun p c => isSubnet p c = false) (mergeNets l).
Proof.
  induction l as [|x l IH] using rev_ind; [constructor|]. rewrite merge_snoc. unfold merge_step.
  destruct (existsb _ _) eqn:E; [done|].
  assert (Hf : Forall (fun p => isSubnet p x = false) (mergeNets l)).
  { apply Forall_forall. intros p Hp. destruct (isSubnet p x) eqn:Es; [|done].
    enough (existsb (fun q => isSubnet q x) (mergeNets l) = true) by congruence.
    apply existsb_exists. exists p. split; [by apply list_elem_of_In | done]. }
  clear E. induction IH as [|y r Hr IHr Hy]; cbn; [repeat constructor|].
  apply Forall_cons in Hf as [Hyx Hf]. constructor; [by apply IHr|].
  apply Forall_app. split; [done | by repeat constructor].
Qed.

Lemma parse_entry_cidr raw n : parse_entry raw = IPNetwork n -> cidr_net n.
Proof.
  unfold parse_entry. destruct (_ =s _); [done|]. destruct (HasPrefix _ _); [done|].
  destruct (ParseCIDR _) as [m|] eqn:E; [|done]. intros [= <-]. by eapply ParseCIDR_cidr.
Qed.

Lemma ip_nets_cidr ips : Forall cidr_net (ip_nets ips).
Proof.
  apply Forall_forall. intros n Hn. unfold ip_nets in Hn. apply list_elem_of_omap in Hn as (raw & _ & Hr).
  destruct (parse_entry raw) eqn:E; simplify_eq. by eapply parse_entry_cidr.
Qed.

(** Optimising the addresses of a rule: tags and unreadable entries are
    kept, and the networks are replaced by a list that contains exactly the same
    addresses, in which no network lies inside an earlier one.  The list must
    not mix in IPv4 networks written in IPv6 form, see [mapped_network_lost]. *)
Theorem optimize_cidrs_exact ips : 1 < len ips ->
  Forall (fun n => length (net_IP n) = 16%nat -> To4 (net_IP n) = []) (ip_nets ips) ->
  exists R, OptimizeCIDRs ips = ip_tags ips ++ map IPNet_String R /\
    (forall ip, in_nets R ip <-> in_nets (ip_nets ips) ip) /\
    StronglySorted (fun p c => isSubnet p c = false) R.
Proof.
  intros Hl Hm. unfold OptimizeCIDRs. rewrite (proj2 (Z.leb_gt _ _)) by done.
  destruct (Z.eqb_spec (len (ip_nets ips)) 0) as [E|E].
  { exists []. rewrite app_nil_r. apply len_nil_iff in E. rewrite E. split; [done|].
    split; [done | constructor]. }
  eexists. split; [done|]. split; [|apply merge_minimal]. intros ip.
  assert (Hq : sort_nets (ip_nets ips) ≡ₚ ip_nets ips) by apply merge_sort_Permutation.
  rewrite merge_in_nets.
  - unfold in_nets. split; intros (n & Hn & Hc); exists n; (split; [|done]); [by rewrite <- Hq | by rewrite Hq].
  - rewrite Hq. pose proof (ip_nets_cidr ips) as Hc. rewrite Forall_forall in *.
    intros n Hn. split; auto.
Qed.

(** An IPv4 network in IPv6 form is dropped although it is the wider one: its
    mask length is compared with that of the IPv4 network as if both counted
    the same bits. *)
Lemma mapped_network_lost :
  let ips := ["::ffff:1.2.3.0/120"; "1.2.3.0/25"]%string in
  OptimizeCIDRs ips = ["1.2.3.0/25"%string] /\
  existsb (fun n => net_Contains n (ParseIP "1.2.3.200")) (ip_nets ips) = true /\
  existsb (fun n => net_Contains n (ParseIP "1.2.3.200")) (ip_nets (OptimizeCIDRs ips)) = false.
Proof. vm_compute. done. Qed.

(** ** Witnesses *)

Lemma optimize_domains_exact_witness : exists R : list string,
  OptimizeDomains ["mail.example.com"; "geosite:ru"; "domain:Example.com"; "a.b"]%string =
    ["geosite:ru"; "a.b"; "domain:example.com"]%string /\
  exists d, d ∈ R /\ within d "x.mail.example.com".
Proof.
  destruct (optimize_domains_exact ["mail.example.com"; "geosite:ru"; "domain:Example.com"; "a.b"]%string)
    as (R & _ & _ & Hc & _); [vm_compute; reflexivity|].
  exists R. split; [vm_compute; reflexivity|]. apply Hc. exists "mail.example.com"%string.
  split; [left|]. right. by exists "x"%string.
Defined.

Lemma optimize_cidrs_exact_witness : exists R,
  OptimizeCIDRs ["10.1.2.3"; "geoip:ru"; "10.1.0.0/16"; "2001:db8::/32"]%string =
    ["geoip:ru"; "10.1.0.0/16"; "2001:db8::/32"]%string /\
  in_nets R (ParseIP "10.1.2.3").
Proof.
  destruct (optimize_cidrs_exact ["10.1.2.3"; "geoip:ru"; "10.1.0.0/16"; "2001:db8::/32"]%string)
    as (R & _ & Hc & _).
  - vm_compute. reflexivity.
  - repeat constructor; vm_compute; congruence.
  - exists R. split; [vm_compute; reflexivity|]. apply Hc. exists (mkIPNet [10; 1; 2; 3] (CIDRMask 32 32)).
    split; [vm_compute; left | vm_compute; reflexivity].
Defined.
End Optimizer.
