(* ===== verification/GoURL.v ===== *)
(** * net/url

    What the program uses of [url.Parse]: whether a URL is valid, and its scheme,
    host name and port. *)
From S2P Require Import Prelude GoStrings GoNet.
Open Scope Z_scope.

Definition str_forall (p : ascii -> bool) (s : string) : bool := negb (str_exists (fun a => negb (p a)) s).

Definition is_alnum (a : ascii) : bool := is_upper a || is_lower a || is_digit a.

Definition validOptionalPort (port : string) : bool :=
  match port with
  | EmptyString => true
  | String ":" ds => str_forall is_digit ds
  | _ => false
  end.

(** [shouldEscape(c, encodeHost)], also that of [encodeZone]. *)
Definition escape_in_host (a : ascii) : bool :=
  negb (is_alnum a || in_set "!$&'()*+,;=:[]<>-_.~" a || (char_code a =? 34)).

Definition is_userinfo (a : ascii) : bool := is_alnum a || in_set "-._:~!$&'()*+,;=%@" a.

Inductive escape_mode := EncodeHost | EncodeZone | EncodeQuery | EncodeOther.

(** [unescape]: [None] is an error.  Fuel: every step consumes a byte. *)
Fixpoint unescape (mode : escape_mode) (fuel : nat) (s : string) : option string :=
  match fuel with
  | O => match s with EmptyString => Some ""%string | _ => None end
  | S f =>
      match s with
      | EmptyString => Some ""%string
      | String "%" s1 =>
          match s1 with
          | String h (String l s2) =>
              match hex_value h, hex_value l with
              | Some hv, Some lv =>
                  let v := 16 * hv + lv in
                  let bad :=
                    match mode with
                    | EncodeHost => (hv <? 8) && negb (v =? 37)
                    | EncodeZone => negb (v =? 37) && negb (v =? 32)
                                    && escape_in_host (ascii_of_N (Z.to_N v))
                    | EncodeQuery | EncodeOther => false
                    end in
                  if bad then None
                  else option_map (String (ascii_of_N (Z.to_N v))) (unescape mode f s2)
              | _, _ => None
              end
          | _ => None
          end
      | String a s1 =>
          let bad := match mode with
                     | EncodeQuery | EncodeOther => false
                     | _ => (char_code a <? 128) && escape_in_host a
                     end in
          let c := match mode with EncodeQuery => if Ascii.eqb a "+" then " "%char else a | _ => a end in
          if bad then None else option_map (String c) (unescape mode f s1)
      end
  end.

Definition unescape_all (mode : escape_mode) (s : string) : option string :=
  unescape mode (String.length s) s.

Definition parseHost (host : string) : option string :=
  if HasPrefix host "[" then
    match LastIndexByte host "]" with
    | None => None
    | Some i =>
        if negb (validOptionalPort (str_drop (S i) host)) then None
        else
          match Index (str_take i host) "%25" with
          | Some zone =>
              h1 ← unescape_all EncodeHost (str_take zone host);
              h2 ← unescape_all EncodeZone (str_drop zone (str_take i host));
              h3 ← unescape_all EncodeHost (str_drop i host);
              Some (h1 ^^ h2 ^^ h3)
          | None => unescape_all EncodeHost host
          end
    end
  else
    match LastIndexByte host ":" with
    | Some i => if validOptionalPort (str_drop i host) then unescape_all EncodeHost host else None
    | None => unescape_all EncodeHost host
    end.

(** [*url.Userinfo]: the name, and the password if one is given. *)
Record Userinfo := mkUser { Username : string; Password : option string }.

Definition parseUserinfo (userinfo : string) : option Userinfo :=
  if negb (str_forall is_userinfo userinfo) then None
  else
    match Cut userinfo ":" with
    | None => u ← unescape_all EncodeOther userinfo; Some (mkUser u None)
    | Some (name, pass) => u ← unescape_all EncodeOther name; p ← unescape_all EncodeOther pass; Some (mkUser u (Some p))
    end.

Definition parseAuthority (authority : string) : option (option Userinfo * string) :=
  match LastIndexByte authority "@" with
  | None => host ← parseHost authority; Some (None, host)
  | Some i =>
      host ← parseHost (str_drop (S i) authority);
      user ← parseUserinfo (str_take i authority);
      Some (Some user, host)
  end.

(** [u.Hostname()] *)
Definition url_strip_port (hostPort : string) : string :=
  let host := match LastIndexByte hostPort ":" with
              | Some colon => if validOptionalPort (str_drop colon hostPort)
                              then str_take colon hostPort else hostPort
              | None => hostPort
              end in
  if HasPrefix host "[" && HasSuffix host "]"
  then str_take (String.length host - 2) (str_drop 1 host) else host.

Definition is_ctl (a : ascii) : bool := (char_code a <? 32) || (char_code a =? 127).

(** The host name of a URL that starts with "http://" or "https://"; [None] when
    [url.Parse] fails. *)
Definition url_Hostname (rawURL : string) : option string :=
  let '(u, frag) := match Cut rawURL "#" with Some (a, b) => (a, b) | None => (rawURL, ""%string) end in
  if str_exists is_ctl u then None
  else
    let rest := match Cut u ":" with Some (_, r) => str_drop 2 r | None => ""%string end in
    let rest := match Cut rest "?" with Some (a, _) => a | None => rest end in
    let '(authority, path) := match IndexByte rest "/" with
                              | Some i => (str_take i rest, str_drop i rest)
                              | None => (rest, ""%string) end in
    '(_, host) ← parseAuthority authority;
    _ ← unescape_all EncodeOther path;
    _ ← unescape_all EncodeOther frag;
    Some (url_strip_port host).

Example url_plain : url_Hostname "https://User:pw@Example.com:8443/a%20b?x#y" = Some "Example.com"%string.
Proof. reflexivity. Qed.
Example url_v6 : url_Hostname "http://[2001:db8::1]:80/" = Some "2001:db8::1"%string.
Proof. reflexivity. Qed.
Example url_bad : url_Hostname "http://exa mple.com/" = None.
Proof. reflexivity. Qed.

(** ** Any URL *)

Definition is_letter (a : ascii) : bool := is_upper a || is_lower a.

(** [getScheme]: the scheme and the rest; [None] is an error. *)
Fixpoint scan_scheme (full s : string) (i : nat) : option (string * string) :=
  match s with
  | EmptyString => Some (""%string, full)
  | String c s =>
      if is_letter c then scan_scheme full s (S i)
      else if is_digit c || in_set "+-." c then
        match i with O => Some (""%string, full) | _ => scan_scheme full s (S i) end
      else if Ascii.eqb c ":" then
        match i with O => None | _ => Some (str_take i full, s) end
      else Some (""%string, full)
  end.
Definition getScheme (rawURL : string) : option (string * string) := scan_scheme rawURL rawURL 0.

(** The host with its port, empty when the URL has none; the query as it is
    written. *)
Record URL := mkURL { url_scheme : string; url_host : string; url_user : option Userinfo; url_query : string; url_fragment : string }.

Definition url_Parse (rawURL : string) : option URL :=
  let '(u, frag) := match Cut rawURL "#" with Some (a, b) => (a, b) | None => (rawURL, ""%string) end in
  if str_exists is_ctl u then None
  else if u =s "*" then fragment ← unescape_all EncodeOther frag; Some (mkURL "" "" None "" fragment)
  else
    '(scheme, rest) ← getScheme u;
    let scheme := ToLower scheme in
    let '(rest, query) := match Cut rest "?" with Some (a, q) => (a, q) | None => (rest, ""%string) end in
    if negb (HasPrefix rest "/") && (scheme <>s "") then
      fragment ← unescape_all EncodeOther frag; Some (mkURL scheme "" None query fragment)
    else if negb (HasPrefix rest "/") && Contains (match Cut rest "/" with Some (a, _) => a | None => rest end) ":" then None
    else
      let '(authority, path) :=
        if ((scheme <>s "") || negb (HasPrefix rest "///")) && HasPrefix rest "//" then
          let a := str_drop 2 rest in
          match IndexByte a "/" with Some i => (Some (str_take i a), str_drop i a) | None => (Some a, ""%string) end
        else (None, rest) in
      '(user, host) ← match authority with Some a => parseAuthority a | None => Some (None, ""%string) end;
      _ ← unescape_all EncodeOther path;
      fragment ← unescape_all EncodeOther frag;
      Some (mkURL scheme host user query fragment).

Definition Hostname (u : URL) : string := url_strip_port (url_host u).

Definition Port (u : URL) : string :=
  match LastIndexByte (url_host u) ":" with
  | Some colon => if validOptionalPort (str_drop colon (url_host u)) then str_drop (S colon) (url_host u) else ""
  | None => ""
  end.

Example parse_vless : option_map (fun u => (url_scheme u, Hostname u, Port u)) (url_Parse "vless://id@Ex.com:8443?type=ws#my%20node") =
  Some ("vless", "Ex.com", "8443")%string.
Proof. reflexivity. Qed.
Example parse_opaque : option_map Hostname (url_Parse "mailto:me@x") = Some ""%string.
Proof. reflexivity. Qed.
Example parse_relative : url_Parse "1.2.3.4:80" = None.
Proof. reflexivity. Qed.

(** ** Queries *)

Definition QueryUnescape (s : string) : option string := unescape_all EncodeQuery s.

(** [url.Values] read from a query: the pairs in their order; a piece with a
    semicolon or a bad escape is dropped. *)
Definition query_pair (piece : string) : option (string * string) :=
  if (piece =s "") || Contains piece ";" then None
  else
    let '(k, v) := match Cut piece "=" with Some (k, v) => (k, v) | None => (piece, ""%string) end in
    k ← QueryUnescape k; v ← QueryUnescape v; Some (k, v).
Definition ParseQuery (query : string) : list (string * string) := omap query_pair (SplitByte query "&").

(** [u.Query()] and [q.Get(key)] *)
Definition Query (u : URL) : list (string * string) := ParseQuery (url_query u).
Definition Get (q : list (string * string)) (key : string) : string :=
  match List.find (fun kv => kv.1 =s key) q with Some (_, v) => v | None => "" end.

(** ** Escaping *)

Definition is_unreserved (a : ascii) : bool := is_alnum a || in_set "-_.~" a.
Definition upper_hex (d : N) : ascii := ascii_of_N (if (d <? 10)%N then 48 + d else 55 + d).
Definition percent (a : ascii) : string :=
  let n := N_of_ascii a in String "%" (String (upper_hex (n / 16)) (String (upper_hex (n mod 16)) "")).

Definition escape_byte (keep : ascii -> bool) (space : string) (a : ascii) : string :=
  if keep a then String a "" else if Ascii.eqb a " " then space else percent a.
Fixpoint escape (keep : ascii -> bool) (space : string) (s : string) : string :=
  match s with EmptyString => "" | String a s => escape_byte keep space a ^^ escape keep space s end.

(** [url.QueryEscape], and the escaping of a user name or password. *)
Definition QueryEscape : string -> string := escape is_unreserved "+".
Definition EscapeUser : string -> string := escape (fun a => is_unreserved a || in_set "$&+,;=" a) "%20".

(** [url.UserPassword(u, p).String()] *)
Definition UserPassword_String (u p : string) : string := EscapeUser u ^^ ":" ^^ EscapeUser p.

(** [q.Encode()]: by key; a key is set once here. *)
Definition key_le (a b : string * string) : Prop := String.leb a.1 b.1 = true.
#[export] Instance key_le_dec a b : Decision (key_le a b) := decide (String.leb a.1 b.1 = true).
Definition Encode (q : list (string * string)) : string :=
  Join (map (fun kv => QueryEscape kv.1 ^^ "=" ^^ QueryEscape kv.2) (merge_sort key_le q)) "&".

Example encode_demo : Encode [("type", "ws"); ("path", "/a b&c"); ("alpn", "h2,http/1.1")]%string =
  "alpn=h2%2Chttp%2F1.1&path=%2Fa+b%26c&type=ws"%string.
Proof. reflexivity. Qed.
Example query_demo : ParseQuery "alpn=h2%2Chttp%2F1.1&path=%2Fa+b%26c&type=ws" =
  [("alpn", "h2,http/1.1"); ("path", "/a b&c"); ("type", "ws")]%string.
Proof. reflexivity. Qed.
