(* ===== verification/URLFacts.v ===== *)
(** * Facts about URLs

    Escaping and its inverse, a query and its pairs, and what [url_Parse] makes of a
    URL of the form that the link generators write. *)
From S2P Require Import Prelude GoStrings GoNet GoURL.
Open Scope Z_scope.

(** ** Characters *)

Lemma below_16 (P : N -> Prop) : Forall P (map N.of_nat (seq 0 16)) -> forall v, (v < 16)%N -> P v.
Proof.
  intros H v Hv. rewrite Forall_forall in H. apply H, list_elem_of_In, in_map_iff.
  exists (N.to_nat v). split; [lia|]. apply in_seq. lia.
Qed.

(** The hexadecimal digits of a byte *)
Ltac nibble := first [apply N.Div0.div_lt_upper_bound; lia | apply N.mod_lt; lia].

Lemma hex_value_upper d : (d < 16)%N -> hex_value (upper_hex d) = Some (Z.of_N d).
Proof. revert d. apply below_16. repeat constructor; reflexivity. Qed.

(** A class of characters that an escaped text does not meet. *)
Lemma escape_absent q keep space s : (forall a, keep a = true -> q a = false) -> q "%"%char = false ->
  Forall (fun d => q (upper_hex d) = false) (map N.of_nat (seq 0 16)) -> str_exists q space = false ->
  str_exists q (escape keep space s) = false.
Proof.
  intros Hk Hp Hh Hs. assert (Hx := below_16 _ Hh). clear Hh.
  induction s as [|a s IH]; [done|]. cbn [escape]. rewrite str_exists_app, IH, orb_false_r.
  unfold escape_byte. destruct (keep a) eqn:E; [cbn [str_exists]; by rewrite (Hk a E)|].
  destruct (Ascii.eqb a " "); [done|]. unfold percent. cbn [str_exists].
  pose proof (N_ascii_bounded a). by rewrite Hp, !Hx by nibble.
Qed.

(** ** Unescaping what was escaped *)

Definition lenient (mode : escape_mode) : bool := match mode with EncodeQuery | EncodeOther => true | _ => false end.

Lemma unescape_percent mode f a t : lenient mode = true ->
  unescape mode (S f) (percent a ^^ t) = option_map (String a) (unescape mode f t).
Proof.
  intros Hm. pose proof (N_ascii_bounded a) as Hb. unfold percent. cbn [String.append unescape].
  rewrite !hex_value_upper by nibble.
  assert (E : 16 * Z.of_N (N_of_ascii a / 16) + Z.of_N (N_of_ascii a mod 16) = Z.of_N (N_of_ascii a)).
  { rewrite (N.div_mod (N_of_ascii a) 16) at 3 by lia. lia. }
  rewrite E, N2Z.id, ascii_N_embedding. by destruct mode.
Qed.

Lemma unescape_plain mode f a t : lenient mode = true -> Ascii.eqb a "%" = false ->
  unescape mode (S f) (String a t) =
  option_map (String (match mode with EncodeQuery => if Ascii.eqb a "+" then " "%char else a | _ => a end)) (unescape mode f t).
Proof.
  intros Hm Ha. apply Ascii.eqb_neq in Ha. cbn [unescape].
  destruct mode; try done; destruct a as [[] [] [] [] [] [] [] []]; try reflexivity; by destruct Ha.
Qed.

Section Unescape.
Context (mode : escape_mode) (keep : ascii -> bool) (space : string).
Context (Hmode : lenient mode = true).
Context (Hkeep : forall a, keep a = true -> Ascii.eqb a "%" = false /\ (mode = EncodeQuery -> Ascii.eqb a "+" = false)).

Lemma unescape_escape f s :
  (str_exists (fun a => Ascii.eqb a " ") s = false \/
   forall f t, unescape mode (S f) (space ^^ t) = option_map (String " ") (unescape mode f t)) ->
  (String.length s <= f)%nat -> unescape mode f (escape keep space s) = Some s.
Proof.
  revert f. induction s as [|a s IH]; intros f Hs Hf; [by destruct f|].
  destruct f as [|f]; [cbn in Hf; lia|]. cbn [escape String.length] in *.
  assert (IH' : unescape mode f (escape keep space s) = Some s).
  { apply IH; [|lia]. destruct Hs as [Hs|Hs]; [left|by right]. cbn [str_exists] in Hs. by apply orb_false_iff in Hs as [_ ?]. }
  unfold escape_byte. destruct (keep a) eqn:E.
  - destruct (Hkeep a E) as [Hp Hq]. cbn [String.append]. rewrite unescape_plain, IH' by done.
    destruct mode; try done. by rewrite Hq.
  - destruct (Ascii.eqb_spec a " ") as [->|Hne].
    + destruct Hs as [Hs|Hs]; [done|]. by rewrite Hs, IH'.
    + by rewrite unescape_percent, IH'.
Qed.
End Unescape.

Lemma escape_length keep space s : (0 < String.length space)%nat -> (String.length s <= String.length (escape keep space s))%nat.
Proof.
  intros Hs. induction s as [|a s IH]; [done|]. cbn [escape String.length]. rewrite str_length_app.
  assert (1 <= String.length (escape_byte keep space a))%nat; [|lia].
  unfold escape_byte. destruct (keep a); [cbn; lia|]. destruct (Ascii.eqb a " "); [lia|]. cbn. lia.
Qed.

Lemma unreserved_plain a : is_unreserved a = true -> Ascii.eqb a "%" = false /\ Ascii.eqb a "+" = false.
Proof. destruct a as [[] [] [] [] [] [] [] []]; vm_compute; auto. Qed.

Lemma QueryUnescape_QueryEscape s : QueryUnescape (QueryEscape s) = Some s.
Proof.
  unfold QueryUnescape, unescape_all, QueryEscape. apply unescape_escape; [done| | |].
  - intros a Ha. apply unreserved_plain in Ha as [? ?]. auto.
  - right. intros f t. reflexivity.
  - apply escape_length. cbn. lia.
Qed.

(** In the user part of a URL a plus sign is not a blank. *)
Lemma user_QueryEscape s : str_exists (fun a => Ascii.eqb a " ") s = false -> unescape_all EncodeOther (QueryEscape s) = Some s.
Proof.
  intros Hs. unfold unescape_all, QueryEscape. apply unescape_escape; [done| |by left|].
  - intros a Ha. apply unreserved_plain in Ha as [? ?]. done.
  - apply escape_length. cbn. lia.
Qed.

Lemma user_EscapeUser s : unescape_all EncodeOther (EscapeUser s) = Some s.
Proof.
  unfold unescape_all, EscapeUser. apply unescape_escape; [done| | |].
  - intros a. destruct a as [[] [] [] [] [] [] [] []]; vm_compute; try done; (split; [done|done]).
  - right. intros f t. reflexivity.
  - apply escape_length. cbn. lia.
Qed.

(** ** Queries *)

(** What escaped text does not contain. *)
Definition escaped_away (c : ascii) : bool :=
  negb (is_unreserved c) && negb (Ascii.eqb c "%") && negb (Ascii.eqb c "+").

Lemma QueryEscape_absent q s : (forall a, is_unreserved a = true -> q a = false) -> q "%"%char = false -> q "+"%char = false ->
  str_exists q (QueryEscape s) = false.
Proof.
  intros Hu Hp Hq. apply escape_absent; [done|done| |cbn [str_exists]; by rewrite Hq].
  repeat (constructor; [apply Hu; reflexivity|]). constructor.
Qed.

Lemma QueryEscape_no c s : escaped_away c = true -> str_exists (fun a => Ascii.eqb a c) (QueryEscape s) = false.
Proof.
  intros [[Hu Hp]%andb_true_iff Hq]%andb_true_iff. rewrite !negb_true_iff in Hu, Hp, Hq.
  apply QueryEscape_absent; rewrite ?(Ascii.eqb_sym _ c); try done.
  intros a Ha. destruct (Ascii.eqb_spec a c) as [->|]; [by rewrite Ha in Hu|done].
Qed.

Definition query_piece (kv : string * string) : string := QueryEscape kv.1 ^^ "=" ^^ QueryEscape kv.2.

Lemma query_piece_no c kv : escaped_away c = true -> Ascii.eqb "=" c = false ->
  str_exists (fun a => Ascii.eqb a c) (query_piece kv) = false.
Proof. intros Hc He. unfold query_piece. rewrite !str_exists_app, !QueryEscape_no by done. cbn [str_exists]. by rewrite He. Qed.

Lemma query_pair_piece kv : query_pair (query_piece kv) = Some kv.
Proof.
  unfold query_pair. rewrite Contains_byte, query_piece_no by done.
  assert (Hne : (query_piece kv =s "") = false).
  { unfold query_piece. by destruct (QueryEscape kv.1). }
  rewrite Hne. cbn [orb]. unfold query_piece. cbn [String.append]. rewrite Cut_app by (by apply QueryEscape_no).
  rewrite !QueryUnescape_QueryEscape. cbn. by destruct kv.
Qed.

Lemma omap_query_pair q : omap query_pair (map query_piece q) = q.
Proof. induction q as [|kv q IH]; [done|]. cbn [map omap list_omap]. by rewrite query_pair_piece, IH. Qed.

Lemma Encode_nil_iff q : Encode q = "" <-> q = [].
Proof.
  unfold Encode. fold query_piece. split; [|intros ->; reflexivity].
  intros E. destruct (merge_sort key_le q) as [|kv l] eqn:El.
  - apply Permutation_nil. rewrite <- El. apply merge_sort_Permutation.
  - exfalso. assert (Hne : query_piece kv <> "") by (unfold query_piece; by destruct (QueryEscape kv.1)).
    cbn [map] in E. destruct (map _ l) as [|x t]; [done|]. rewrite Join_cons in E by done.
    change (QueryEscape kv.1 ^^ "=" ^^ QueryEscape kv.2) with (query_piece kv) in E. by destruct (query_piece kv).
Qed.

(** A query is read back in the order of its keys. *)
Lemma ParseQuery_Encode q : q <> [] -> ParseQuery (Encode q) = merge_sort key_le q.
Proof.
  intros Hq. unfold ParseQuery, Encode. change (fun kv : string * string => _) with query_piece.
  rewrite SplitByte_Join; [apply omap_query_pair| |].
  - intros E%map_eq_nil. apply Hq, Permutation_nil. rewrite <- E. apply merge_sort_Permutation.
  - apply Forall_map, Forall_forall. intros kv _. by apply query_piece_no.
Qed.

Lemma Get_In q k v : NoDup (map fst q) -> In (k, v) q -> Get q k = v.
Proof.
  unfold Get. induction q as [|[k' v'] q IH]; [done|]. cbn [map fst List.find].
  intros [Hn Hnd]%NoDup_cons [E|Hin].
  - injection E as -> ->. by rewrite String.eqb_refl.
  - destruct (String.eqb_spec k' k) as [->|]; [|by apply IH].
    exfalso. apply Hn, list_elem_of_In, in_map_iff. by exists (k, v).
Qed.
Lemma Get_absent q k : k ∉ map fst q -> Get q k = "".
Proof.
  unfold Get. induction q as [|[k' v'] q IH]; [done|]. cbn [map fst List.find].
  intros [Hk Hn]%not_elem_of_cons. destruct (String.eqb_spec k' k) as [->|]; [done|by apply IH].
Qed.

Lemma Get_perm q q' k : NoDup (map fst q) -> Permutation q q' -> Get q' k = Get q k.
Proof.
  intros Hnd Hp. assert (Hm : Permutation (map fst q) (map fst q')) by by apply Permutation_map.
  destruct (decide (k ∈ map fst q)) as [Hin|Hout].
  - apply list_elem_of_In, in_map_iff in Hin as ([k' v] & E & Hin). cbn [fst] in E. subst k'.
    rewrite (Get_In q _ v Hnd Hin). apply Get_In; [by rewrite <- Hm|]. by eapply Permutation_in.
  - rewrite (Get_absent q) by done. apply Get_absent. by rewrite <- Hm.
Qed.

(** The value of a key is what it was set to. *)
Lemma Get_Encode q k : NoDup (map fst q) -> Get (ParseQuery (Encode q)) k = Get q k.
Proof.
  intros Hnd. destruct (decide (q = [])) as [->|Hne]; [reflexivity|].
  rewrite ParseQuery_Encode by done. apply Get_perm; [done|]. symmetry. apply merge_sort_Permutation.
Qed.

(** ** URLs of one shape *)

(** Characters that end a part of a URL, or that are refused in one. *)
Definition url_special (a : ascii) : bool :=
  is_ctl a || Ascii.eqb a "#" || Ascii.eqb a "?" || Ascii.eqb a "/" || Ascii.eqb a "@".
Definition query_special (a : ascii) : bool := is_ctl a || Ascii.eqb a "#".

Lemma special_no q s : (forall a, q a = true -> url_special a = true) -> str_exists url_special s = false -> str_exists q s = false.
Proof.
  intros Hq. induction s as [|a s IH]; [done|]. cbn [str_exists]. intros [Ha Hs]%orb_false_iff. rewrite IH by done.
  destruct (q a) eqn:E; [by rewrite (Hq a E) in Ha|done].
Qed.
Lemma query_special_no q s : (forall a, q a = true -> query_special a = true) -> str_exists query_special s = false -> str_exists q s = false.
Proof.
  intros Hq. induction s as [|a s IH]; [done|]. cbn [str_exists]. intros [Ha Hs]%orb_false_iff. rewrite IH by done.
  destruct (q a) eqn:E; [by rewrite (Hq a E) in Ha|done].
Qed.

Lemma is_ctl_special a : is_ctl a = true -> url_special a = true.
Proof. unfold url_special. by intros ->. Qed.
Lemma char_special c a : url_special c = true -> Ascii.eqb a c = true -> url_special a = true.
Proof. intros Hc E%Ascii.eqb_eq. by subst. Qed.
Lemma is_ctl_query_special a : is_ctl a = true -> query_special a = true.
Proof. unfold query_special. by intros ->. Qed.
Lemma hash_query_special a : Ascii.eqb a "#" = true -> query_special a = true.
Proof. intros ->%Ascii.eqb_eq. reflexivity. Qed.

(** The user part with its "@", and what it is read as. *)
Inductive auth_text : string -> option Userinfo -> Prop :=
  | AuthNone : auth_text "" None
  | AuthUser a user : str_exists url_special a = false -> parseUserinfo a = Some user -> auth_text (a ^^ "@") (Some user).

Definition query_part (query : string) : string := if query =s "" then "" else "?" ^^ query.

(** A scheme that [getScheme] finds at the head of any text. *)
Definition scheme_name (scheme : string) : Prop :=
  (forall r, getScheme (scheme ^^ String ":" r) = Some (scheme, r)) /\ ToLower scheme = scheme /\
  scheme <> "" /\ str_exists url_special scheme = false.

Lemma parseAuthority_text auth user hostport : auth_text auth user -> str_exists url_special hostport = false ->
  parseHost hostport = Some hostport -> parseAuthority (auth ^^ hostport) = Some (user, hostport).
Proof.
  intros Ha Hh Hp. assert (Hat : str_exists (fun a => Ascii.eqb a "@") hostport = false).
  { revert Hh. apply special_no. intros a. by apply char_special. }
  unfold parseAuthority. destruct Ha as [|a user Ha Hu].
  - cbn [String.append]. rewrite LastIndexByte_absent by done. by rewrite Hp.
  - rewrite str_app_assoc. cbn [String.append]. rewrite LastIndexByte_app by done.
    rewrite str_drop_S_app, str_take_app, Hp. cbn [mbind option_bind]. by rewrite Hu.
Qed.

Lemma auth_no q auth user : (forall a, q a = true -> url_special a = true) -> q "@"%char = false -> auth_text auth user ->
  str_exists q auth = false.
Proof.
  intros Hq Hat [|a u Ha _]; [done|]. rewrite str_exists_app, (special_no _ _ Hq Ha). cbn [str_exists]. by rewrite Hat.
Qed.

Section Shape.
Context (scheme auth hostport query : string) (user : option Userinfo).
Context (Hscheme : scheme_name scheme) (Hauth : auth_text auth user).
Context (Hhost : str_exists url_special hostport = false) (Hparse : parseHost hostport = Some hostport).
Context (Hquery : str_exists query_special query = false).

Lemma query_part_no q : q "?"%char = false -> str_exists q query = false -> str_exists q (query_part query) = false.
Proof. intros Hq Hs. unfold query_part. destruct (query =s ""); [done|]. cbn [String.append str_exists]. by rewrite Hq. Qed.

Lemma link_no q : (forall a, q a = true -> query_special a = true) -> q "?"%char = false -> q ":"%char = false ->
  q "/"%char = false -> q "@"%char = false ->
  str_exists q (scheme ^^ String ":" (String "/" (String "/" (auth ^^ hostport ^^ query_part query)))) = false.
Proof.
  intros Hq H1 H2 H3 H4.
  assert (Hu : forall a, q a = true -> url_special a = true).
  { intros a Ha. apply Hq in Ha. unfold query_special in Ha. unfold url_special. by apply orb_true_iff in Ha as [->| ->]; rewrite ?orb_true_r. }
  rewrite str_exists_app. cbn [str_exists]. rewrite !str_exists_app, H2, H3, query_part_no;
    [|done|by apply (query_special_no _ _ Hq)].
  destruct Hscheme as (_ & _ & _ & Hs).
  by rewrite (special_no _ _ Hu Hs), (special_no _ _ Hu Hhost), (auth_no _ _ _ Hu H4 Hauth).
Qed.

Lemma url_Parse_link :
  url_Parse (scheme ^^ "://" ^^ auth ^^ hostport ^^ query_part query) = Some (mkURL scheme hostport user query "").
Proof.
  cbn [String.append]. unfold url_Parse.
  rewrite Cut_absent by (apply link_no; try done; apply hash_query_special).
  rewrite link_no by (try done; apply is_ctl_query_special).
  destruct Hscheme as (Hget & Hlow & Hne & Hs).
  destruct (String.eqb_spec (scheme ^^ String ":" (String "/" (String "/" (auth ^^ hostport ^^ query_part query)))) "*") as [E|_].
  { exfalso. apply (f_equal String.length) in E. rewrite str_length_app in E. cbn in E. lia. }
  rewrite Hget. cbn [mbind option_bind]. rewrite Hlow.
  assert (Hcut : match Cut (String "/" (String "/" (auth ^^ hostport ^^ query_part query))) "?" with
                 | Some (a, q) => (a, q)
                 | None => (String "/" (String "/" (auth ^^ hostport ^^ query_part query)), ""%string)
                 end = (String "/" (String "/" (auth ^^ hostport)), query)).
  { assert (Hq : str_exists (fun a => Ascii.eqb a "?") (String "/" (String "/" (auth ^^ hostport))) = false).
    { cbn [str_exists]. rewrite str_exists_app, (special_no _ hostport) by (try done; intros a; by apply char_special).
      rewrite (auth_no _ _ user) by (try done; intros a; by apply char_special). done. }
    unfold query_part. destruct (String.eqb_spec query "") as [->|].
    - rewrite str_app_nil_r, Cut_absent; done.
    - cbn [String.append]. rewrite <- str_app_assoc.
      change (String "/" (String "/" ((auth ^^ hostport) ^^ String "?" query)))
        with (String "/" (String "/" (auth ^^ hostport)) ^^ String "?" query).
      by rewrite Cut_app. }
  rewrite Hcut. clear Hcut.
  change (HasPrefix (String "/" (String "/" (auth ^^ hostport))) "/") with true. cbn [negb andb].
  apply String.eqb_neq in Hne. rewrite Hne. cbn [negb orb andb].
  assert (Hp2 : HasPrefix (String "/" (String "/" (auth ^^ hostport))) "//" = true) by (by destruct (auth ^^ hostport)).
  rewrite Hp2.
  change (str_drop 2 (String "/" (String "/" (auth ^^ hostport)))) with (auth ^^ hostport).
  rewrite IndexByte_absent.
  - rewrite (parseAuthority_text auth user hostport) by done. reflexivity.
  - rewrite str_exists_app, (special_no _ hostport) by (try done; intros a; by apply char_special).
    by rewrite (auth_no _ _ user) by (try done; intros a; by apply char_special).
Qed.
End Shape.
