(* ===== verification/GoBase64.v ===== *)
(** * encoding/base64

    The standard and the URL-safe alphabets, with and without padding, as
    [base64.Encoding] encodes and decodes them, and that a decoder reads back what
    its encoder wrote. *)
From S2P Require Import Prelude GoStrings.
From Stdlib Require Import ZifyN ZifyNat.
Open Scope Z_scope.
Ltac div_lia := zify; Z.to_euclidean_division_equations; lia.

(** The two last characters of the alphabet are those of the encoding. *)
Record Encoding := mkEncoding { enc_62 : ascii; enc_63 : ascii; enc_padded : bool }.
Definition StdEncoding : Encoding := mkEncoding "+" "/" true.
Definition URLEncoding : Encoding := mkEncoding "-" "_" true.
Definition RawStdEncoding : Encoding := mkEncoding "+" "/" false.

Definition encode_char (e : Encoding) (v : N) : ascii :=
  if (v <? 26)%N then ascii_of_N (65 + v)
  else if (v <? 52)%N then ascii_of_N (71 + v)
  else if (v <? 62)%N then ascii_of_N (v - 4)
  else if (v =? 62)%N then enc_62 e else enc_63 e.

Definition decode_char (e : Encoding) (a : ascii) : option N :=
  let n := N_of_ascii a in
  if Ascii.eqb a (enc_62 e) then Some 62%N
  else if Ascii.eqb a (enc_63 e) then Some 63%N
  else if is_upper a then Some (n - 65)%N
  else if is_lower a then Some (n - 71)%N
  else if is_digit a then Some (n + 4)%N
  else None.

Definition pad_char : ascii := "=".

Fixpoint encode_quanta (e : Encoding) (s : string) : string :=
  match s with
  | EmptyString => ""
  | String a EmptyString =>
      let x := N_of_ascii a in
      String (encode_char e (x / 4)) (String (encode_char e (x mod 4 * 16))
        (if enc_padded e then String pad_char (String pad_char "") else ""))
  | String a (String b EmptyString) =>
      let x := N_of_ascii a in let y := N_of_ascii b in
      String (encode_char e (x / 4)) (String (encode_char e (x mod 4 * 16 + y / 16))
        (String (encode_char e (y mod 16 * 4)) (if enc_padded e then String pad_char "" else "")))
  | String a (String b (String c s)) =>
      let x := N_of_ascii a in let y := N_of_ascii b in let z := N_of_ascii c in
      String (encode_char e (x / 4)) (String (encode_char e (x mod 4 * 16 + y / 16))
        (String (encode_char e (y mod 16 * 4 + z / 64)) (String (encode_char e (z mod 64)) (encode_quanta e s))))
  end.
Definition EncodeToString (e : Encoding) (s : string) : string := encode_quanta e s.

(** The bytes of two, three and four digits; left-over bits are not looked at. *)
Definition byte1 (w x : N) : ascii := ascii_of_N (w * 4 + x / 16).
Definition byte2 (x y : N) : ascii := ascii_of_N (x mod 16 * 16 + y / 4).
Definition byte3 (y z : N) : ascii := ascii_of_N (y mod 4 * 64 + z).

Fixpoint decode_quanta (e : Encoding) (s : string) : option string :=
  match s with
  | EmptyString => Some ""%string
  | String a (String b s) =>
      w ← decode_char e a; x ← decode_char e b;
      match s with
      | EmptyString => if enc_padded e then None else Some (String (byte1 w x) "")
      | String c s =>
          if enc_padded e && Ascii.eqb c pad_char
          then if s =s String pad_char "" then Some (String (byte1 w x) "") else None
          else
            y ← decode_char e c;
            match s with
            | EmptyString => if enc_padded e then None else Some (String (byte1 w x) (String (byte2 x y) ""))
            | String d s =>
                if enc_padded e && Ascii.eqb d pad_char
                then if s =s "" then Some (String (byte1 w x) (String (byte2 x y) "")) else None
                else
                  z ← decode_char e d;
                  t ← decode_quanta e s;
                  Some (String (byte1 w x) (String (byte2 x y) (String (byte3 y z) t)))
            end
      end
  | _ => None
  end.

Definition is_newline (a : ascii) : bool := (char_code a =? 10) || (char_code a =? 13).
Fixpoint drop_newlines (s : string) : string :=
  match s with
  | EmptyString => ""
  | String a s => if is_newline a then drop_newlines s else String a (drop_newlines s)
  end.

(** [DecodeString]: newlines are passed over; [None] is an error. *)
Definition DecodeString (e : Encoding) (s : string) : option string := decode_quanta e (drop_newlines s).

Example encode_f : EncodeToString StdEncoding "foobar>>?" = "Zm9vYmFyPj4/"%string.
Proof. reflexivity. Qed.
Example encode_g : EncodeToString URLEncoding "foob>>?" = "Zm9vYj4-Pw=="%string.
Proof. reflexivity. Qed.
Example decode_f : DecodeString StdEncoding "Zm9vYg==" = Some "foob"%string.
Proof. reflexivity. Qed.
Example decode_raw : DecodeString RawStdEncoding "Zm9vYmE" = Some "fooba"%string.
Proof. reflexivity. Qed.
Example decode_bad : DecodeString StdEncoding "Zm9vYmE" = None.
Proof. reflexivity. Qed.
Example decode_trailing : DecodeString StdEncoding "Zg==Zg==" = None.
Proof. reflexivity. Qed.

(** ** Lemmas *)

(** An alphabet that decodes what it encodes. *)
Class GoodEncoding (e : Encoding) : Prop := {
  decode_encode_char : forall v, (v < 64)%N -> decode_char e (encode_char e v) = Some v;
  encode_char_plain : forall v, (v < 64)%N ->
    is_newline (encode_char e v) = false /\ Ascii.eqb (encode_char e v) pad_char = false }.

Lemma below_64 (P : N -> Prop) : Forall P (map N.of_nat (seq 0 64)) -> forall v, (v < 64)%N -> P v.
Proof.
  intros H v Hv. rewrite Forall_forall in H. apply H, list_elem_of_In, in_map_iff.
  exists (N.to_nat v). split; [lia|]. apply in_seq. lia.
Qed.

Ltac check_alphabet :=
  split; intros v; revert v; apply below_64; repeat constructor; reflexivity.

#[export] Instance StdEncoding_good : GoodEncoding StdEncoding.
Proof. check_alphabet. Qed.
#[export] Instance URLEncoding_good : GoodEncoding URLEncoding.
Proof. check_alphabet. Qed.
#[export] Instance RawStdEncoding_good : GoodEncoding RawStdEncoding.
Proof. check_alphabet. Qed.

Lemma N_of_ascii_lt a : (N_of_ascii a < 256)%N.
Proof. apply N_ascii_bounded. Qed.

Lemma digits_bound x y z : (x < 256 -> y < 256 -> z < 256 ->
  x / 4 < 64 /\ x mod 4 * 16 < 64 /\ x mod 4 * 16 + y / 16 < 64 /\ y mod 16 * 4 < 64 /\
  y mod 16 * 4 + z / 64 < 64 /\ z mod 64 < 64)%N.
Proof. intros. repeat split; div_lia. Qed.

Lemma byte1_digits a k : (k < 16)%N -> byte1 (N_of_ascii a / 4) (N_of_ascii a mod 4 * 16 + k) = a.
Proof.
  intros Hk. unfold byte1. transitivity (ascii_of_N (N_of_ascii a)); [f_equal; div_lia|apply ascii_N_embedding].
Qed.
Lemma byte2_digits k b m : (k < 4 -> m < 4 -> byte2 (k * 16 + N_of_ascii b / 16) (N_of_ascii b mod 16 * 4 + m) = b)%N.
Proof.
  intros Hk Hm. pose proof (N_of_ascii_lt b).
  unfold byte2. transitivity (ascii_of_N (N_of_ascii b)); [f_equal; div_lia|apply ascii_N_embedding].
Qed.
Lemma byte3_digits k c : (k < 16 -> byte3 (k * 4 + N_of_ascii c / 64) (N_of_ascii c mod 64) = c)%N.
Proof.
  intros Hk. pose proof (N_of_ascii_lt c).
  unfold byte3. transitivity (ascii_of_N (N_of_ascii c)); [f_equal; div_lia|apply ascii_N_embedding].
Qed.

(** Induction three bytes at a time. *)
Lemma string_ind3 (P : string -> Prop) :
  P ""%string -> (forall a, P (String a "")) -> (forall a b, P (String a (String b ""))) ->
  (forall a b c s, P s -> P (String a (String b (String c s)))) -> forall s, P s.
Proof.
  intros H0 H1 H2 H3. fix IH 1. intros [|a [|b [|c s]]]; [apply H0|apply H1|apply H2|apply H3, IH].
Qed.

Lemma decode_quanta_step e a b c d s w x y z : decode_char e a = Some w -> decode_char e b = Some x ->
  Ascii.eqb c pad_char = false -> decode_char e c = Some y -> Ascii.eqb d pad_char = false -> decode_char e d = Some z ->
  decode_quanta e (String a (String b (String c (String d s)))) =
  (t ← decode_quanta e s; Some (String (byte1 w x) (String (byte2 x y) (String (byte3 y z) t)))).
Proof.
  intros Ha Hb Ec Hc Ed Hd. cbn [decode_quanta]. rewrite Ha, Hb, Ec, andb_false_r. cbn [mbind option_bind].
  rewrite Hc, Ed, andb_false_r. cbn [mbind option_bind]. by rewrite Hd.
Qed.

Section RoundTrip.
Context (e : Encoding) `{!GoodEncoding e}.

Lemma decode_encode_quanta s : decode_quanta e (encode_quanta e s) = Some s.
Proof.
  induction s as [|a|a b|a b c s IH] using string_ind3; [done| | |].
  - destruct (digits_bound (N_of_ascii a) 0 0) as (Ha & Ha' & _); try apply N_of_ascii_lt; try lia.
    cbn [encode_quanta decode_quanta]. rewrite !decode_encode_char by done. cbn [mbind option_bind].
    rewrite <- (N.add_0_r (N_of_ascii a mod 4 * 16)), byte1_digits by lia. by destruct (enc_padded e).
  - destruct (digits_bound (N_of_ascii a) (N_of_ascii b) 0) as (Ha & _ & Hb & Hb' & _); try apply N_of_ascii_lt; try lia.
    cbn [encode_quanta decode_quanta]. rewrite !decode_encode_char by done. cbn [mbind option_bind].
    destruct (encode_char_plain (N_of_ascii b mod 16 * 4) Hb') as [_ ->]. rewrite andb_false_r.
    cbn [mbind option_bind]. pose proof (N_of_ascii_lt b).
    rewrite byte1_digits by lia. rewrite <- (N.add_0_r (N_of_ascii b mod 16 * 4)), byte2_digits by lia.
    by destruct (enc_padded e).
  - destruct (digits_bound (N_of_ascii a) (N_of_ascii b) (N_of_ascii c)) as (Ha & _ & Hb & _ & Hc & Hc');
      try apply N_of_ascii_lt.
    cbn [encode_quanta].
    pose proof (N_of_ascii_lt b). pose proof (N_of_ascii_lt c).
    erewrite decode_quanta_step; try (by apply decode_encode_char); try (by apply encode_char_plain).
    rewrite IH. cbn [mbind option_bind]. rewrite byte1_digits, byte2_digits, byte3_digits by lia. done.
Qed.

Lemma encode_quanta_forall (P : ascii -> Prop) s : (forall v, (v < 64)%N -> P (encode_char e v)) ->
  (enc_padded e = true -> P pad_char) -> Forall P (list_ascii_of_string (encode_quanta e s)).
Proof.
  intros Hd Hp. induction s as [|a|a b|a b c s IH] using string_ind3; cbn [encode_quanta list_ascii_of_string].
  - constructor.
  - destruct (digits_bound (N_of_ascii a) 0 0) as (Ha & Ha' & _); try apply N_of_ascii_lt; try lia.
    repeat (constructor; [by apply Hd|]). destruct (enc_padded e); repeat constructor; auto.
  - destruct (digits_bound (N_of_ascii a) (N_of_ascii b) 0) as (Ha & _ & Hb & Hb' & _); try apply N_of_ascii_lt; try lia.
    repeat (constructor; [by apply Hd|]). destruct (enc_padded e); repeat constructor; auto.
  - destruct (digits_bound (N_of_ascii a) (N_of_ascii b) (N_of_ascii c)) as (Ha & _ & Hb & _ & Hc & Hc');
      try apply N_of_ascii_lt.
    repeat (constructor; [by apply Hd|]). apply IH.
Qed.

Lemma encode_quanta_absent p s : (forall v, (v < 64)%N -> p (encode_char e v) = false) -> (enc_padded e = true -> p pad_char = false) ->
  str_exists p (encode_quanta e s) = false.
Proof.
  intros Hd Hp. pose proof (encode_quanta_forall (fun a => p a = false) s Hd Hp) as H.
  induction (encode_quanta e s) as [|a t IH]; [done|]. cbn [list_ascii_of_string] in H.
  apply Forall_cons in H as [Ha Ht]. cbn [str_exists]. by rewrite Ha, IH.
Qed.

Lemma drop_newlines_absent s : str_exists is_newline s = false -> drop_newlines s = s.
Proof.
  induction s as [|a s IH]; [done|]. cbn [str_exists drop_newlines].
  intros [Ha Hs]%orb_false_iff. by rewrite Ha, IH.
Qed.

(** What an encoding writes, it reads back. *)
Lemma decode_encode s : DecodeString e (EncodeToString e s) = Some s.
Proof.
  unfold DecodeString, EncodeToString. rewrite drop_newlines_absent; [apply decode_encode_quanta|].
  apply encode_quanta_absent; [|done]. intros v Hv. by apply encode_char_plain.
Qed.

(** A padded text is made of whole groups of four. *)
Lemma encode_length s : enc_padded e = true -> (String.length (EncodeToString e s) mod 4 = 0)%nat.
Proof.
  intros Hp. unfold EncodeToString.
  induction s as [|a|a b|a b c s IH] using string_ind3; cbn [encode_quanta String.length]; rewrite ?Hp; [done..|lia].
Qed.
End RoundTrip.

(** ** The two alphabets

    Where a text has no plus sign and no slash, what the standard encoding reads from
    it is what the URL-safe one reads. *)
Lemma std_url_char : forall a v, Ascii.eqb a "+" || Ascii.eqb a "/" = false ->
  decode_char StdEncoding a = Some v -> decode_char URLEncoding a = Some v.
Proof. intros a v. destruct a as [[] [] [] [] [] [] [] []]; vm_compute; congruence. Qed.

Lemma std_url_quanta s r : str_exists (fun a => Ascii.eqb a "+" || Ascii.eqb a "/") s = false ->
  decode_quanta StdEncoding s = Some r -> decode_quanta URLEncoding s = Some r.
Proof.
  revert s r. fix IH 1. intros [|a [|b s]] r; [done|done|]. cbn [str_exists]. intros [Ha [Hb Hs]%orb_false_iff]%orb_false_iff.
  cbn [decode_quanta].
  destruct (decode_char StdEncoding a) as [w|] eqn:Ew; [|done]. rewrite (std_url_char a w Ha Ew). cbn [mbind option_bind].
  destruct (decode_char StdEncoding b) as [x|] eqn:Ex; [|done]. rewrite (std_url_char b x Hb Ex). cbn [mbind option_bind].
  destruct s as [|c s]; [done|]. cbn [str_exists] in Hs. apply orb_false_iff in Hs as [Hc Hs].
  change (enc_padded URLEncoding) with (enc_padded StdEncoding). destruct (_ && Ascii.eqb c _); [done|].
  destruct (decode_char StdEncoding c) as [y|] eqn:Ey; [|done]. rewrite (std_url_char c y Hc Ey). cbn [mbind option_bind].
  destruct s as [|d s]; [done|]. cbn [str_exists] in Hs. apply orb_false_iff in Hs as [Hd Hs].
  destruct (_ && Ascii.eqb d _); [done|].
  destruct (decode_char StdEncoding d) as [z|] eqn:Ez; [|done]. rewrite (std_url_char d z Hd Ez). cbn [mbind option_bind].
  destruct (decode_quanta StdEncoding s) as [t|] eqn:Et; [|done]. by rewrite (IH s t Hs Et).
Qed.

Lemma url_digit_char v : (v < 64)%N -> Ascii.eqb (encode_char URLEncoding v) "+" || Ascii.eqb (encode_char URLEncoding v) "/" = false.
Proof. revert v. apply below_64. repeat constructor. Qed.

Lemma std_reads_url s r : DecodeString StdEncoding (EncodeToString URLEncoding s) = Some r -> r = s.
Proof.
  intros H. pose proof (decode_encode URLEncoding s) as Hd. unfold DecodeString in *.
  apply std_url_quanta in H; [congruence|]. rewrite drop_newlines_absent.
  - apply encode_quanta_absent; [exact url_digit_char|done].
  - apply encode_quanta_absent; [|done]. intros v Hv. by apply encode_char_plain.
Qed.
