(* ===== verification/Crypto.v ===== *)
(** * Keys, encryption and the vault (src/pkg/crypto/)

    AES-GCM, HMAC-SHA256 and the source of randomness are not part of the
    repository: an authenticated cipher is a class with the two laws the code relies
    on, the keyed hash an argument, and what the random reader gives for a request is
    an argument, [None] being its failure.  Byte slices are strings. *)
From S2P Require Import Prelude GoStrings GoBase64.
Open Scope Z_scope.

(** ** An authenticated cipher

    [cipher.AEAD] for AES-256-GCM, without associated data. *)
Class AEAD := { Seal : forall (key nonce plaintext : string), string;
                Open : forall (key nonce ciphertext : string), option string }.
Class AEADLaws `{AEAD} : Prop := {
  open_seal : forall key nonce p, Open key nonce (Seal key nonce p) = Some p;
  (** A text that does not come from the key is refused. *)
  seal_open : forall key nonce c p, Open key nonce c = Some p -> c = Seal key nonce p }.

(** ** Encrypted texts (cipher.go) *)

Definition RawURLEncoding : Encoding := mkEncoding "-" "_" false.
#[export] Instance RawURLEncoding_good : GoodEncoding RawURLEncoding.
Proof. check_alphabet. Qed.

Definition EncryptedPayloadHeader : string := "enc:v1:aes-gcm:".
Definition key_size : nat := 32.
(** [gcm.NonceSize()] of [cipher.NewGCM] *)
Definition nonce_size : nat := 12.
Definition is_key (key : string) : bool := (String.length key =? key_size)%nat.
Definition bad_key (what key : string) : string :=
  what ^^ " key must be exactly 32 bytes (256 bits), got " ^^ Itoa (Z.of_nat (String.length key)) ^^ " bytes".

Section Cipher.
Context `{AEAD}.

(** A key of 32 bytes is one that [aes.NewCipher] and [cipher.NewGCM] accept. *)
Definition EncryptAEAD (nonce : option string) (plaintext key : string) : string + string :=
  if negb (is_key key) then inl (bad_key "encryption" key)
  else
    match nonce with
    | None => inl "failed to generate random nonce"%string
    | Some nonce => inr (EncryptedPayloadHeader ^^ EncodeToString RawURLEncoding (nonce ^^ Seal key nonce plaintext))
    end.

Definition DecryptAEAD (encryptedStr key : string) : string + string :=
  if negb (is_key key) then inl (bad_key "decryption" key)
  else if negb (HasPrefix encryptedStr EncryptedPayloadHeader)
  then inl ("invalid payload header: missing '" ^^ EncryptedPayloadHeader ^^ "'")
  else
    match DecodeString RawURLEncoding (TrimPrefix encryptedStr EncryptedPayloadHeader) with
    | None => inl "failed to decode base64 ciphertext"%string
    | Some rawBytes =>
        if (String.length rawBytes <? nonce_size)%nat then inl "ciphertext is too short: corrupted payload"%string
        else
          match Open key (str_take nonce_size rawBytes) (str_drop nonce_size rawBytes) with
          | None => inl "AEAD authentication/decryption failed: incorrect key or corrupted data"%string
          | Some plaintext => inr plaintext
          end
    end.

(** ** The vault (vault.go) *)

Record Vault := mkVault { vault_key : string }.

Definition NewVaultWithKey (key : string) : string + Vault :=
  if is_key key then inr (mkVault key)
  else inl ("vault key must be exactly 32 bytes, got " ^^ Itoa (Z.of_nat (String.length key))).

Definition EncryptString (v : Vault) (nonce : option string) (plaintext : string) : string + string :=
  EncryptAEAD nonce plaintext (vault_key v).
Definition DecryptString (v : Vault) (encryptedStr : string) : string + string :=
  DecryptAEAD encryptedStr (vault_key v).

(** [json.Marshal] and [json.Unmarshal] of maps are arguments. *)
Definition EncryptMap {D} (marshal : D -> option string) (v : Vault) (nonce : option string) (data : D) : string + string :=
  match marshal data with
  | None => inl "failed to serialize data map to JSON"%string
  | Some jsonBytes => EncryptAEAD nonce jsonBytes (vault_key v)
  end.
Definition DecryptMap {D} (unmarshal : string -> option D) (v : Vault) (encryptedPayload : string) : string + D :=
  match DecryptAEAD encryptedPayload (vault_key v) with
  | inl e => inl e
  | inr decryptedBytes =>
      match unmarshal decryptedBytes with
      | None => inl "failed to parse decrypted JSON map"%string
      | Some result => inr result
      end
  end.
End Cipher.

Definition IsEncrypted (val : string) : bool := HasPrefix val EncryptedPayloadHeader.

(** ** Derived keys (kdf.go) *)

Definition default_salt : string := "sentinel-secure-vault-salt-v1".
(** [t[k] ^= u[k]] for the bytes of [t] *)
Fixpoint xor_bytes (t u : string) : string :=
  match t, u with
  | String a t, String b u => String (ascii_of_N (N.lxor (N_of_ascii a) (N_of_ascii b))) (xor_bytes t u)
  | t, _ => t
  end.
(** [binary.BigEndian.PutUint32] *)
Definition be32 (v : Z) : string :=
  string_of_list_ascii (map (fun s => ascii_of_N (Z.to_N (Z.shiftr v s mod 256))) [24; 16; 8; 0]).
Definition sha256_Size : Z := 32.

Section Derive.
(** [hmac.New(sha256.New, secret)], written with the text and summed *)
Context (hmac_sha256 : string -> string -> string).

(** The inner loop: [n] more rounds. *)
Fixpoint derive_rounds (secret : string) (n : nat) (u t : string) : string :=
  match n with
  | O => t
  | S n => let u := hmac_sha256 secret u in derive_rounds secret n u (xor_bytes t u)
  end.
Definition derive_block (secret salt : string) (iterations : Z) (block : Z) : string :=
  let u := hmac_sha256 secret (salt ^^ be32 block) in
  derive_rounds secret (Z.to_nat (iterations - 1)) u u.

Definition DeriveKeyPBKDF2 (secret salt : string) (iterations : Z) : string :=
  let iterations := if iterations <=? 0 then 100000 else iterations in
  let salt := if salt =s "" then default_salt else salt in
  let keyLength := 32 in
  let numBlocks := (keyLength + sha256_Size - 1) / sha256_Size in
  str_take (Z.to_nat keyLength) (Join (map (derive_block secret salt iterations) (map Z.of_nat (seq 1 (Z.to_nat numBlocks)))) "").

Definition DeriveKeyFromSecret (secret : string) : string + string :=
  if secret =s "" then inl "master secret key cannot be empty"%string
  else inr (DeriveKeyPBKDF2 secret "sentinel-vault-master-key-salt" 100000).

Definition NewVault (masterSecret : string) : string + Vault :=
  match DeriveKeyFromSecret masterSecret with inl e => inl e | inr key => inr (mkVault key) end.
End Derive.

(** ** Random keys (keys.go, vlessenc.go)

    [rand n]: the [n] bytes that [rand.Read] gives. *)

Definition GenerateRandomPassword (rand : Z -> string) (byteLength : Z) : string :=
  EncodeToString RawURLEncoding (rand (if byteLength <=? 0 then 16 else byteLength)).

Definition GenerateShadowsocksKey (rand : Z -> string) (method : string) : string :=
  if HasPrefix method "2022-blake3-aes-128" then EncodeToString StdEncoding (rand 16)
  else if HasPrefix method "2022-blake3-aes-256" || HasPrefix method "2022-blake3-chacha20" then EncodeToString StdEncoding (rand 32)
  else GenerateRandomPassword rand 16.

Definition hex_byte (n : N) : string := String (hex_digit_char (n / 16)) (String (hex_digit_char (n mod 16)) "").
Definition hex_bytes (l : list N) : string := Join (map hex_byte l) "".
(** Version 4, variant RFC 4122 *)
Definition uuid_bytes (u : list N) : list N :=
  let u := alter (fun b => N.lor (N.land b 15) 64) 6%nat u in
  alter (fun b => N.lor (N.land b 63) 128) 8%nat u.
Definition uuid_text (u : list N) : string :=
  hex_bytes (take 4 u) ^^ "-" ^^ hex_bytes (take 2 (drop 4 u)) ^^ "-" ^^ hex_bytes (take 2 (drop 6 u))
  ^^ "-" ^^ hex_bytes (take 2 (drop 8 u)) ^^ "-" ^^ hex_bytes (drop 10 u).
Definition GenerateRandomUUID (rand : Z -> string) : string :=
  uuid_text (uuid_bytes (map N_of_ascii (list_ascii_of_string (rand 16)))).

(** The hybrid curves for TLS 1.3, the strongest first *)
Definition CurveX25519MLKEM768 : string := "X25519MLKEM768".
Definition CurveX25519Kyber768Draft : string := "X25519Kyber768Draft00".
Definition CurveX25519 : string := "X25519".
Definition DefaultPostQuantumCurves : list string := [CurveX25519MLKEM768; CurveX25519Kyber768Draft; CurveX25519].

Record KeyPair := mkKeyPair { PrivateKey : string; PublicKey : string }.
(** The bytes of a new X25519 key and of its public key; [None]: no key. *)
Definition GenerateX25519KeyPair (generated : option (string * string)) : string + KeyPair :=
  match generated with
  | None => inl "failed to generate X25519 key"%string
  | Some (priv, pub) => inr (mkKeyPair (EncodeToString RawURLEncoding priv) (EncodeToString RawURLEncoding pub))
  end.

Record VlessKeyPair := mkVlessKeyPair { Decryption : string; Encryption : string }.
Record VlessEncKeys := mkVlessEncKeys { X25519 : VlessKeyPair; MLKEM768 : VlessKeyPair }.
Definition vless_pair (secret public : string) : VlessKeyPair :=
  mkVlessKeyPair ("mlkem768x25519plus.native.600s." ^^ EncodeToString RawURLEncoding secret)
                 ("mlkem768x25519plus.native.0rtt." ^^ EncodeToString RawURLEncoding public).
(** [encapsulation]: the public key that ML-KEM derives from a seed of 64 bytes. *)
Definition GenerateVlessEncKeys (generated : option (string * string)) (seed : option string) (encapsulation : string -> option string)
    : string + VlessEncKeys :=
  match generated with
  | None => inl "failed to generate X25519 key"%string
  | Some (priv, pub) =>
      match seed with
      | None => inl "failed to generate random seed for ML-KEM-768"%string
      | Some seed =>
          match encapsulation seed with
          | None => inl "failed to generate ML-KEM-768 key from seed"%string
          | Some key => inr (mkVlessEncKeys (vless_pair priv pub) (vless_pair seed key))
          end
      end
  end.

(** ** Encrypted texts are exactly those of the key *)

Section CipherProofs.
Context `{AEADLaws}.

Lemma DecryptAEAD_header key t : is_key key = true ->
  DecryptAEAD (EncryptedPayloadHeader ^^ t) key =
  match DecodeString RawURLEncoding t with
  | None => inl "failed to decode base64 ciphertext"%string
  | Some rawBytes =>
      if (String.length rawBytes <? nonce_size)%nat then inl "ciphertext is too short: corrupted payload"%string
      else match Open key (str_take nonce_size rawBytes) (str_drop nonce_size rawBytes) with
           | None => inl "AEAD authentication/decryption failed: incorrect key or corrupted data"%string
           | Some plaintext => inr plaintext
           end
  end.
Proof. intros Hk. unfold DecryptAEAD. by rewrite Hk, HasPrefix_app, TrimPrefix_app. Qed.

(** The text of a nonce and what is sealed under it. *)
Lemma decrypt_sealed key nonce p t : is_key key = true -> String.length nonce = nonce_size ->
  DecodeString RawURLEncoding t = Some (nonce ^^ Seal key nonce p) -> DecryptAEAD (EncryptedPayloadHeader ^^ t) key = inr p.
Proof.
  intros Hk Hn E. rewrite DecryptAEAD_header, E by done. rewrite str_length_app, Hn.
  rewrite (proj2 (Nat.ltb_ge _ _)) by lia. by rewrite <- Hn, str_take_app, str_drop_app, open_seal.
Qed.

(** A text is decrypted to [p] exactly when it is the header followed by base64 of a
    nonce and of what the key seals [p] to under it; with a key of another size, without
    the header, or altered in its bytes, it is refused. *)
Theorem decrypt_exact s key p :
  DecryptAEAD s key = inr p <->
  String.length key = key_size /\
  exists nonce t, s = EncryptedPayloadHeader ^^ t /\ String.length nonce = nonce_size /\
    DecodeString RawURLEncoding t = Some (nonce ^^ Seal key nonce p).
Proof.
  split.
  - unfold DecryptAEAD. destruct (is_key key) eqn:Hk; [|done]. cbn [negb].
    destruct (HasPrefix s _) eqn:Hp; [|done]. cbn [negb]. apply HasPrefix_spec in Hp as [t ->]. rewrite TrimPrefix_app.
    destruct (DecodeString RawURLEncoding t) as [raw|] eqn:E; [|done].
    destruct (Nat.ltb_spec (String.length raw) nonce_size) as [|Hl]; [done|].
    destruct (Open _ _ _) as [q|] eqn:Ho; [|done]. intros [= <-]. split; [by apply Nat.eqb_eq|].
    exists (str_take nonce_size raw), t. split; [done|]. split.
    + pose proof (str_take_drop nonce_size raw) as Hr. apply (f_equal String.length) in Hr.
      rewrite str_length_app, str_length_drop in Hr. lia.
    + rewrite E. f_equal. rewrite <- (seal_open _ _ _ _ Ho). symmetry. apply str_take_drop.
  - intros (Hk & nonce & t & -> & Hn & E). apply (decrypt_sealed key nonce p t); [by apply Nat.eqb_eq|done|done].
Qed.

Lemma encrypt_decrypt key nonce p : is_key key = true -> String.length nonce = nonce_size ->
  exists s, EncryptAEAD (Some nonce) p key = inr s /\ IsEncrypted s = true /\ DecryptAEAD s key = inr p.
Proof.
  intros Hk Hn. unfold EncryptAEAD. rewrite Hk. eexists. split; [done|]. split; [apply HasPrefix_app|].
  apply (decrypt_sealed key nonce p); [done..|]. apply (decode_encode RawURLEncoding).
Qed.
End CipherProofs.

(** ** The derived key is that of PBKDF2

    RFC 2898, 5.2: a block is the exclusive or of the iterates of the keyed hash. *)
Section Reference.
Context (hmac_sha256 : string -> string -> string)
        (hmac_length : forall k m, String.length (hmac_sha256 k m) = 32%nat).

Fixpoint iterate_U (P S : string) (i : Z) (j : nat) : string :=
  match j with
  | O => hmac_sha256 P (S ^^ be32 i)
  | Datatypes.S j => hmac_sha256 P (iterate_U P S i j)
  end.
(** U_1 xor ... xor U_c *)
Definition pbkdf2_F (P S : string) (c : nat) (i : Z) : string :=
  fold_left xor_bytes (map (iterate_U P S i) (seq 1 (c - 1))) (iterate_U P S i 0).

Lemma derive_rounds_spec P S i n j t :
  derive_rounds hmac_sha256 P n (iterate_U P S i j) t = fold_left xor_bytes (map (iterate_U P S i) (seq (Datatypes.S j) n)) t.
Proof. revert j t. induction n as [|n IH]; intros j t; [done|]. cbn [derive_rounds seq map fold_left]. apply (IH (Datatypes.S j)). Qed.

Lemma xor_bytes_length t u : String.length (xor_bytes t u) = String.length t.
Proof. revert u. induction t as [|a t IH]; intros [|b u]; cbn; by rewrite ?IH. Qed.

Lemma iterate_U_length P S i j : String.length (iterate_U P S i j) = 32%nat.
Proof using hmac_length. destruct j; apply hmac_length. Qed.

Lemma fold_xor_length l t : String.length (fold_left xor_bytes l t) = String.length t.
Proof. revert t. induction l as [|u l IH]; intros t; [done|]. cbn [fold_left]. by rewrite IH, xor_bytes_length. Qed.

Lemma str_take_all s : str_take (String.length s) s = s.
Proof. pose proof (str_take_app s "") as E. by rewrite str_app_nil_r in E. Qed.

Lemma pbkdf2_F_length P S c i : String.length (pbkdf2_F P S c i) = 32%nat.
Proof using hmac_length. unfold pbkdf2_F. by rewrite fold_xor_length, iterate_U_length. Qed.

Lemma derive_block_spec P S c i : derive_block hmac_sha256 P S c i = pbkdf2_F P S (Z.to_nat c) i.
Proof.
  unfold derive_block, pbkdf2_F. cbv zeta. change (hmac_sha256 P (S ^^ be32 i)) with (iterate_U P S i 0).
  rewrite derive_rounds_spec. do 3 f_equal. lia.
Qed.

Lemma DeriveKeyPBKDF2_spec secret salt iterations :
  DeriveKeyPBKDF2 hmac_sha256 secret salt iterations =
    pbkdf2_F secret (if salt =s "" then default_salt else salt) (Z.to_nat (if iterations <=? 0 then 100000 else iterations)) 1.
Proof using hmac_length.
  unfold DeriveKeyPBKDF2. change (map Z.of_nat _) with [1]. cbn [map Join]. rewrite derive_block_spec.
  change (Z.to_nat 32) with 32%nat. rewrite <- (pbkdf2_F_length secret (if salt =s "" then default_salt else salt)
    (Z.to_nat (if iterations <=? 0 then 100000 else iterations)) 1) at 1. apply str_take_all.
Qed.

Lemma derived_is_key secret salt iterations : is_key (DeriveKeyPBKDF2 hmac_sha256 secret salt iterations) = true.
Proof using hmac_length. apply Nat.eqb_eq. rewrite DeriveKeyPBKDF2_spec. apply pbkdf2_F_length. Qed.

(** For every secret, salt and number of iterations the key is the first block of
    PBKDF2 with HMAC-SHA256, with the defaults where the salt is empty or the number is
    not positive, and it has the size the cipher needs. *)
Theorem derive_key_reference secret salt iterations :
  DeriveKeyPBKDF2 hmac_sha256 secret salt iterations =
    pbkdf2_F secret (if salt =s "" then default_salt else salt) (Z.to_nat (if iterations <=? 0 then 100000 else iterations)) 1 /\
  is_key (DeriveKeyPBKDF2 hmac_sha256 secret salt iterations) = true.
Proof using hmac_length. split; [apply DeriveKeyPBKDF2_spec | apply derived_is_key]. Qed.
End Reference.

(** A cipher for examples: it appends the key and the nonce. *)
#[local] Instance toy_aead : AEAD := {
  Seal key nonce p := key ^^ nonce ^^ p;
  Open key nonce c := if HasPrefix c (key ^^ nonce) then Some (str_drop (String.length (key ^^ nonce)) c) else None }.
#[local] Instance toy_aead_laws : AEADLaws.
Proof.
  split.
  - intros key nonce p. cbn [Seal Open toy_aead]. rewrite <- str_app_assoc, HasPrefix_app. by rewrite str_drop_app.
  - intros key nonce c p. cbn [Seal Open toy_aead]. destruct (HasPrefix c _) eqn:E; [|done].
    apply HasPrefix_spec in E as [t ->]. rewrite str_drop_app. intros [= ->]. by rewrite str_app_assoc.
Qed.
Definition demo_key : string := "0123456789abcdef0123456789abcdef".
Definition demo_hmac (k m : string) : string := str_take 32 (k ^^ m ^^ demo_key).

Lemma decrypt_exact_witness : exists s, EncryptAEAD (Some "012345678901"%string) "secret" demo_key = inr s /\
  DecryptAEAD s demo_key = inr "secret"%string.
Proof.
  destruct (EncryptAEAD (Some "012345678901"%string) "secret" demo_key) as [|s] eqn:E; [vm_compute in E; discriminate|].
  exists s. split; [done|]. apply decrypt_exact. split; [reflexivity|].
  exists "012345678901"%string, (EncodeToString RawURLEncoding ("012345678901" ^^ Seal demo_key "012345678901" "secret")).
  split; [|split; [reflexivity|vm_compute; reflexivity]]. vm_compute in E. injection E as <-. reflexivity.
Defined.

Lemma demo_hmac_length k m : String.length (demo_hmac k m) = 32%nat.
Proof.
  unfold demo_hmac. assert (Hl : (32 <= String.length (k ^^ m ^^ demo_key))%nat) by (rewrite !str_length_app; change (String.length demo_key) with 32%nat; lia).
  pose proof (str_take_drop 32 (k ^^ m ^^ demo_key)) as E. apply (f_equal String.length) in E. rewrite str_length_app, str_length_drop in E. lia.
Qed.

Lemma derive_key_reference_witness : is_key (DeriveKeyPBKDF2 demo_hmac "secret" "salt" 3) = true.
Proof. apply (derive_key_reference demo_hmac demo_hmac_length "secret" "salt" 3). Defined.

(** ** A vault keeps what it is given *)

Section VaultProofs.
Context `{AEADLaws} (hmac_sha256 : string -> string -> string)
        (hmac_length : forall k m, String.length (hmac_sha256 k m) = 32%nat).

(** The vault of a secret that is not empty works for every nonce and text: it
    encrypts, the result is marked as encrypted, and it decrypts to the text; a map comes
    back as what its JSON text stands for. *)
Theorem vault_roundtrip secret : secret <> ""%string ->
  exists v, NewVault hmac_sha256 secret = inr v /\
  forall nonce, String.length nonce = nonce_size ->
    (forall p, exists s, EncryptString v (Some nonce) p = inr s /\ IsEncrypted s = true /\ DecryptString v s = inr p) /\
    (forall D (marshal : D -> option string) (unmarshal : string -> option D) d j d', marshal d = Some j -> unmarshal j = Some d' ->
       exists s, EncryptMap marshal v (Some nonce) d = inr s /\ DecryptMap unmarshal v s = inr d').
Proof using H H0 hmac_length.
  intros Hs. unfold NewVault, DeriveKeyFromSecret. apply String.eqb_neq in Hs. rewrite Hs.
  pose proof (derived_is_key hmac_sha256 hmac_length secret "sentinel-vault-master-key-salt" 100000) as Hk. revert Hk.
  generalize (DeriveKeyPBKDF2 hmac_sha256 secret "sentinel-vault-master-key-salt" 100000) as key. intros key Hk.
  exists (mkVault key). split; [done|]. intros nonce Hn.
  split; [intros p; by apply encrypt_decrypt|]. intros D marshal unmarshal d j d' Hm Hu.
  destruct (encrypt_decrypt key nonce j Hk Hn) as (s & E & _ & Ed). exists s.
  unfold EncryptMap, DecryptMap. cbn [vault_key]. rewrite Hm, Ed, Hu. done.
Qed.
End VaultProofs.

Lemma vault_roundtrip_witness : exists v s, NewVault demo_hmac "master" = inr v /\
  EncryptString v (Some "012345678901"%string) "token" = inr s /\ DecryptString v s = inr "token"%string.
Proof.
  destruct (vault_roundtrip demo_hmac demo_hmac_length "master" ltac:(discriminate)) as (v & Ev & H).
  destruct (H "012345678901"%string eq_refl) as [Hp _]. destruct (Hp "token"%string) as (s & E1 & _ & E2).
  exists v, s. auto.
Defined.

(** ** Random keys *)

(** The key of a Shadowsocks 2022 method has the number of bytes the method asks for. *)
Lemma shadowsocks_key_bytes rand method n :
  (HasPrefix method "2022-blake3-aes-128" = true /\ n = 16) \/
  (HasPrefix method "2022-blake3-aes-128" = false /\
   HasPrefix method "2022-blake3-aes-256" || HasPrefix method "2022-blake3-chacha20" = true /\ n = 32) ->
  DecodeString StdEncoding (GenerateShadowsocksKey rand method) = Some (rand n).
Proof.
  unfold GenerateShadowsocksKey. intros [[-> ->]|(-> & -> & ->)]; apply (decode_encode StdEncoding).
Qed.

(** The thirteenth digit of a random identifier is its version; its length is that of a
    UUID. *)
Lemma uuid_shape (l : list N) : length l = 16%nat ->
  exists b, String.length (uuid_text l) = 36%nat /\ l !! 6%nat = Some b /\ String.get 14 (uuid_text l) = Some (hex_digit_char (b / 16)).
Proof.
  intros Hn. unfold uuid_text, hex_bytes, hex_byte. generalize hex_digit_char as h. intros h.
  do 16 (destruct l as [|? l]; [done|]). destruct l; [|done]. eexists. repeat split.
Qed.

Lemma version_digit b : (N.lor (N.land b 15) 64 / 16 = 4)%N.
Proof.
  change 16%N with (2 ^ 4)%N. rewrite <- N.shiftr_div_pow2, N.shiftr_lor, N.shiftr_land. change (N.shiftr 15 4) with 0%N.
  by rewrite N.land_0_r.
Qed.

Lemma uuid_version rand : String.length (rand 16) = 16%nat ->
  String.length (GenerateRandomUUID rand) = 36%nat /\ String.get 14 (GenerateRandomUUID rand) = Some "4"%char.
Proof.
  unfold GenerateRandomUUID. intros Hl.
  assert (Hn : length (map N_of_ascii (list_ascii_of_string (rand 16))) = 16%nat)
    by (rewrite length_map, <- Hl; clear; induction (rand 16) as [|a s IH]; cbn; congruence).
  revert Hn. generalize (map N_of_ascii (list_ascii_of_string (rand 16))) as l. intros l Hn.
  destruct (uuid_shape (uuid_bytes l)) as (b & E & Hb & ->); [unfold uuid_bytes; by rewrite !length_alter|]. split; [done|].
  unfold uuid_bytes in Hb. rewrite list_lookup_alter_ne, list_lookup_alter in Hb by done.
  destruct (l !! 6%nat) as [c|]; [|done]. injection Hb as <-. by rewrite version_digit.
Qed.
