(* ===== verification/Sanitize.v ===== *)
(** * Sanitising user input (src/pkg/routing/sanitize.go) *)
From S2P Require Import Prelude GoStrings GoNet GoURL.
Open Scope Z_scope.

Module Sanitize.
(** The body of [SanitizeDomain] for an entry without a prefix. *)
Definition sanitize_plain (s : string) : string :=
  let s :=
    if HasPrefix s "http://" || HasPrefix s "https://" then
      match url_Hostname s with
      | Some h => if h =s "" then s else h
      | None => s
      end
    else match Cut s "/" with Some (a, _) => a | None => s end in
  let s :=
    if Contains s ":" && negb (Contains s "]") then
      match SplitHostPort s with
      | Some (host, _) => if host =s "" then s else host
      | None => s
      end
    else s in
  clean_key (TrimPrefix (TrimPrefix s "*.") ".").

(** [SanitizeDomain] calls itself on what follows "domain:" or "full:".  Each call
    consumes the prefix, so the length of the entry is enough fuel. *)
Fixpoint sanitize_domain (fuel : nat) (raw : string) : string :=
  let s := TrimSpace raw in
  if s =s "" then ""
  else if HasPrefix s "geosite:" || HasPrefix s "regexp:" || HasPrefix s "regex:" then s
  else
    match fuel with
    | O => s
    | S f =>
        if HasPrefix s "domain:" then "domain:" ^^ sanitize_domain f (TrimPrefix s "domain:")
        else if HasPrefix s "full:" then "full:" ^^ sanitize_domain f (TrimPrefix s "full:")
        else if HasPrefix s "keyword:" then s
        else sanitize_plain s
    end.

Definition SanitizeDomain (raw : string) : string := sanitize_domain (S (String.length raw)) raw.

Definition SanitizeIP (raw : string) : string :=
  let s := TrimSpace raw in
  if s =s "" then ""
  else if HasPrefix s "geoip:" then s
  else
    let s := TrimPrefix s "ip:" in
    let s :=
      if Contains s ":" && negb (Contains s "/") then
        match SplitHostPort s with
        | Some (host, _) => if host =s "" then s else host
        | None => s
        end
      else s in
    let parsed := ParseIP s in
    if negb (is_nil parsed) then
      if negb (is_nil (To4 parsed)) then s ^^ "/32" else s ^^ "/128"
    else s.

Definition valid_port (p : Z) : bool := (0 <? p) && (p <=? 65535).

Definition SanitizePort (raw : string) : string :=
  let s := TrimSpace raw in
  if s =s "" then ""
  else
    let s := ReplaceByte s ":" "-" in
    match Cut s "-" with
    | Some (a, b) =>
        match Atoi (TrimSpace a), Atoi (TrimSpace b) with
        | Some start, Some stop =>
            if valid_port start && valid_port stop && (start <=? stop)
            then Itoa start ^^ "-" ^^ Itoa stop else ""
        | _, _ => ""
        end
    | None =>
        match Atoi s with
        | Some port => if valid_port port then Itoa port else ""
        | None => ""
        end
    end.

(** The separators of a list typed into one string. *)
Definition is_separator (a : ascii) : bool := in_set ",; " a || (char_code a =? 10) || (char_code a =? 13).

Definition clean_list (sanitize : string -> string) (items : list string) : list string :=
  foldl (fun result p => let cleaned := sanitize p in
           if (cleaned =s "") || bool_decide (cleaned ∈ result) then result else result ++ [cleaned])
    [] (items ≫= fun item => FieldsFunc item is_separator).

Definition CleanDomainList (items : list string) : list string := clean_list SanitizeDomain items.
Definition CleanIPList (items : list string) : list string := clean_list SanitizeIP items.
Definition CleanPortList (items : list string) : list string := clean_list SanitizePort items.

(** ** Ports: the text and the set of ports it stands for *)

(** The ports a matcher text denotes, in the form the cores read it. *)
Definition port_range (s : string) : option (Z * Z) :=
  match Cut s "-" with
  | Some (a, b) => x ← Atoi a; y ← Atoi b; Some (x, y)
  | None => x ← Atoi s; Some (x, x)
  end.

Lemma Itoa_no z c : 0 <= z -> is_digit c = false -> str_exists (fun a => Ascii.eqb a c) (Itoa z) = false.
Proof. intros Hz Hc. apply Itoa_only; [done|]. intros a Ha. by apply is_digit_ne. Qed.

Lemma Itoa_no_space z : 0 <= z -> str_exists is_space (Itoa z) = false.
Proof. intros Hz. apply Itoa_only; [done|]. intros a. apply is_digit_not_space. Qed.

Lemma Itoa_nonempty z : 0 <= z <= maxInt64 -> Itoa z <> ""%string.
Proof. intros Hz E. pose proof (Atoi_Itoa z Hz) as H. by rewrite E in H. Qed.

Lemma valid_port_spec p : valid_port p = true <-> 1 <= p <= 65535.
Proof. unfold valid_port. rewrite andb_true_iff, Z.ltb_lt, Z.leb_le. lia. Qed.

(** A canonical range is left as it is. *)
Lemma SanitizePort_range a b : 1 <= a <= b -> b <= 65535 ->
  SanitizePort (Itoa a ^^ "-" ^^ Itoa b) = Itoa a ^^ "-" ^^ Itoa b /\
  port_range (Itoa a ^^ "-" ^^ Itoa b) = Some (a, b).
Proof.
  intros Ha Hb. set (s := Itoa a ^^ "-" ^^ Itoa b).
  assert (Hm : maxInt64 = 9223372036854775807) by done.
  assert (Hcut : Cut s "-" = Some (Itoa a, Itoa b)) by (apply Cut_app, Itoa_no; [lia | done]).
  assert (Hsp : str_exists is_space s = false).
  { unfold s. rewrite !str_exists_app, !Itoa_no_space by lia. done. }
  assert (Hc : str_exists (fun x => Ascii.eqb x ":") s = false).
  { unfold s. rewrite !str_exists_app, !Itoa_no by (lia || done). done. }
  assert (Hne : (s =s "") = false).
  { unfold s. destruct (Itoa a) eqn:E; [by apply Itoa_nonempty in E; [|lia] | done]. }
  unfold SanitizePort, port_range.
  rewrite (TrimSpace_absent s Hsp), Hne, ReplaceByte_absent, Hcut by done.
  rewrite !TrimSpace_absent by (apply Itoa_no_space; lia). rewrite !Atoi_Itoa by lia. cbn.
  rewrite !(proj2 (valid_port_spec _)) by lia. by rewrite (proj2 (Z.leb_le a b)) by lia.
Qed.

Lemma SanitizePort_single a : 1 <= a <= 65535 ->
  SanitizePort (Itoa a) = Itoa a /\ port_range (Itoa a) = Some (a, a).
Proof.
  intros Ha. assert (Hm : maxInt64 = 9223372036854775807) by done.
  assert (Hne : (Itoa a =s "") = false) by (apply String.eqb_neq, Itoa_nonempty; lia).
  unfold SanitizePort, port_range.
  rewrite TrimSpace_absent, Hne, ReplaceByte_absent, Cut_absent, Atoi_Itoa
    by (lia || (apply Itoa_no_space; lia) || (apply Itoa_no; [lia | done])).
  cbn. by rewrite (proj2 (valid_port_spec _)).
Qed.

(** The canonical texts of ports and port ranges. *)
Definition canonical_port (s : string) : Prop :=
  exists a b, 1 <= a <= b /\ b <= 65535 /\
    (s = Itoa a ^^ "-" ^^ Itoa b \/ (a = b /\ s = Itoa a)) /\ port_range s = Some (a, b).

Lemma canonical_range a b : 1 <= a <= b -> b <= 65535 -> canonical_port (Itoa a ^^ "-" ^^ Itoa b).
Proof. intros Ha Hb. exists a, b. repeat split; try lia; [by left | by apply SanitizePort_range]. Qed.

Lemma canonical_single a : 1 <= a <= 65535 -> canonical_port (Itoa a).
Proof. intros Ha. exists a, a. repeat split; try lia; [by right | by apply SanitizePort_single]. Qed.

Lemma SanitizePort_result raw : SanitizePort raw = ""%string \/ canonical_port (SanitizePort raw).
Proof.
  unfold SanitizePort. destruct (TrimSpace raw =s ""); [by left|].
  destruct (Cut _ "-") as [[x y]|].
  - destruct (Atoi (TrimSpace x)) as [a|]; [|by left]. destruct (Atoi (TrimSpace y)) as [b|]; [|by left].
    destruct (valid_port a && valid_port b && (a <=? b)) eqn:E; [right | by left].
    rewrite !andb_true_iff, !valid_port_spec, Z.leb_le in E. apply canonical_range; lia.
  - destruct (Atoi _) as [a|]; [|by left]. destruct (valid_port a) eqn:E; [right | by left].
    by apply canonical_single, valid_port_spec.
Qed.

Lemma SanitizePort_canonical s : canonical_port s -> SanitizePort s = s.
Proof.
  intros (a & b & Ha & Hb & [->|[-> ->]] & _); [by apply SanitizePort_range | apply SanitizePort_single; lia].
Qed.

(** Port sanitising: whatever is typed, the result is empty or the canonical
    text of a port or of a non-empty port range between 1 and 65535, which the
    cores read back as that range; sanitising it again changes nothing, and no
    canonical port or range is lost. *)
Theorem sanitize_port_canonical raw :
  (SanitizePort raw = ""%string \/
   exists a b, 1 <= a <= b /\ b <= 65535 /\
     (SanitizePort raw = Itoa a ^^ "-" ^^ Itoa b \/ (a = b /\ SanitizePort raw = Itoa a)) /\
     port_range (SanitizePort raw) = Some (a, b)) /\
  SanitizePort (SanitizePort raw) = SanitizePort raw /\
  (forall a b, 1 <= a <= b -> b <= 65535 -> SanitizePort (Itoa a ^^ "-" ^^ Itoa b) = Itoa a ^^ "-" ^^ Itoa b).
Proof.
  split; [apply SanitizePort_result|].
  split; [|intros a b Ha Hb; by apply SanitizePort_canonical, canonical_range].
  destruct (SanitizePort_result raw) as [->|H]; [done | by apply SanitizePort_canonical].
Qed.

(** ** Lists *)

Lemma clean_list_spec f items :
  NoDup (clean_list f items) /\
  forall x, x ∈ clean_list f items <->
    x <> ""%string /\ exists p, p ∈ (items ≫= fun item => FieldsFunc item is_separator) /\ f p = x.
Proof.
  unfold clean_list. generalize (items ≫= fun item => FieldsFunc item is_separator). intros ps.
  induction ps as [|p ps [Hnd IH]] using rev_ind.
  - split; [constructor|]. intros x. set_solver.
  - rewrite foldl_app. cbn [foldl]. set (r := foldl _ _ ps) in *. clearbody r.
    destruct (String.eqb_spec (f p) "") as [He|He]; cbn [orb].
    + split; [done|]. intros x. rewrite IH. set_solver.
    + case_bool_decide as Hin.
      * split; [done|]. intros x. rewrite IH. apply IH in Hin. set_solver.
      * split; [|intros x; rewrite elem_of_app, IH, list_elem_of_singleton; set_solver].
        apply NoDup_app. split; [done|]. split; [|apply NoDup_singleton].
        intros y Hy ->%list_elem_of_singleton. done.
Qed.

(** The fuel of [SanitizeDomain] is enough: more fuel gives the same result. *)
Lemma TrimSpace_length s : (String.length (TrimSpace s) <= String.length s)%nat.
Proof.
  assert (Hl : forall p t, (String.length (TrimLeftFunc p t) <= String.length t)%nat).
  { intros p t. induction t as [|a t IH]; cbn; [lia|]. destruct (p a); cbn; lia. }
  assert (Hr : forall p t, (String.length (TrimRightFunc p t) <= String.length t)%nat).
  { intros p t. induction t as [|a t IH]; cbn; [lia|].
    destruct (TrimRightFunc p t) eqn:E; [destruct (p a)|]; cbn in *; lia. }
  unfold TrimSpace, TrimFunc. etrans; [apply Hr | apply Hl].
Qed.

Lemma sanitize_domain_fuel f g raw : (String.length raw < f)%nat -> (String.length raw < g)%nat ->
  sanitize_domain f raw = sanitize_domain g raw.
Proof.
  revert g raw. induction f as [|f IH]; intros [|g] raw Hf Hg; try lia.
  cbn [sanitize_domain]. pose proof (TrimSpace_length raw) as Hl. set (s := TrimSpace raw) in *. clearbody s.
  destruct (s =s ""); [done|]. destruct (_ || _ || _); [done|].
  assert (Hp : forall p, HasPrefix s p = true -> p <> ""%string ->
    (String.length (TrimPrefix s p) < f)%nat /\ (String.length (TrimPrefix s p) < g)%nat).
  { intros p Hp Hne. apply HasPrefix_spec in Hp as [t ->]. rewrite TrimPrefix_app.
    rewrite str_length_app in Hl. destruct p; [done|]. cbn in Hl. lia. }
  destruct (HasPrefix s "domain:") eqn:E1.
  { f_equal. apply IH; by apply Hp. }
  destruct (HasPrefix s "full:") eqn:E2; [|done].
  f_equal. apply IH; by apply Hp.
Qed.

Example sanitize_examples :
  map SanitizeDomain ["https://Example.com/path"; "*.example.com"; ".example.com"; "example.com:8080";
                      "geosite:google"; "domain: Foo.Bar "; "full:*.X.y"]%string
  = ["example.com"; "example.com"; "example.com"; "example.com"; "geosite:google"; "domain:foo.bar"; "full:x.y"]%string.
Proof. vm_compute. reflexivity. Qed.
Example sanitize_ip_examples :
  map SanitizeIP ["1.2.3.4"; "1.2.3.4:8080"; "192.168.1.0/24"; "geoip:ru"; "ip:::1"]%string
  = ["1.2.3.4/32"; "1.2.3.4/32"; "192.168.1.0/24"; "geoip:ru"; "::1/128"]%string.
Proof. vm_compute. reflexivity. Qed.
End Sanitize.
