(* ===== verification/Ast.v ===== *)
(** * The abstract syntax of configurations (src/pkg/ast/)

    The typed description of a proxy configuration that the parsers produce and
    the compilers consume. *)
From Stdlib Require QArith.
From S2P Require Import Prelude GoStrings.
Open Scope Z_scope.

#[local] Set Warnings "-register-all".

(** Values of Go's [interface{}] as the configuration code uses them: what JSON
    decodes to, with a map as the list of its entries, a number as the exact value
    of the [float64], and the [int]s the code makes itself. *)
Inductive value :=
  | VNil
  | VBool (b : bool)
  | VInt (z : Z)
  | VFloat (q : QArith_base.Q)
  | VString (s : string)
  | VList (l : list value)
  | VMap (m : list (string * value)).

Lemma value_rect_nested (P : value -> Prop) :
  P VNil -> (forall b, P (VBool b)) -> (forall z, P (VInt z)) -> (forall q, P (VFloat q)) -> (forall s, P (VString s)) ->
  (forall l, Forall P l -> P (VList l)) -> (forall m, Forall (fun kv => P kv.2) m -> P (VMap m)) -> forall v, P v.
Proof.
  intros Hn Hb Hi Hf Hs Hl Hm. fix IH 1. intros [|b|z|q|s|l|m];
    [exact Hn | apply Hb | apply Hi | apply Hf | apply Hs | |].
  - apply Hl. induction l as [|v l IHl]; constructor; [apply IH | exact IHl].
  - apply Hm. induction m as [|[k v] m IHm]; constructor; [apply IH | exact IHm].
Qed.

(** ** Routing (routing.go) *)

Definition RouteAction := string.
Definition ActionProxy : RouteAction := "proxy".
Definition ActionDirect : RouteAction := "direct".
Definition ActionBlock : RouteAction := "block".

Record RoutingRule := mkRule {
  Action : RouteAction;
  OutboundTag : string;
  Domains : list string;
  IPs : list string;
  Ports : list string;
  Protocols : list string;
  NetworkProtocols : list string;
  Users : list string;
  PackageUIDs : list string;
  ProcessNames : list string;
  InboundTags : list string;
  IPVersion : Z;
}.

Record RoutingSpec := mkSpec {
  DefaultAction : RouteAction;
  Rules : list RoutingRule;
  Outbounds : list (list (string * value));
  AutoDetectInterface : bool;
  OverrideDNS : bool;
  RuleSets : list string;
}.

(** ** Profiles and configurations (node.go, config_spec.go) *)

Definition ProtoVLESS : string := "vless".
Definition ProtoVMess : string := "vmess".
Definition ProtoTrojan : string := "trojan".
Definition ProtoShadowsocks : string := "shadowsocks".
Definition ProtoShadowTLS : string := "shadowtls".
Definition ProtoHysteria2 : string := "hysteria2".
Definition ProtoTUIC : string := "tuic".
Definition ProtoWireGuard : string := "wireguard".
Definition ProtoSocks : string := "socks".
Definition ProtoHTTP : string := "http".
Definition ProtoDirect : string := "direct".
Definition ProtoBlock : string := "block".
Definition TransportTCP : string := "tcp".
Definition SecurityNone : string := "none".
Definition SecurityTLS : string := "tls".
Definition SecurityReality : string := "reality".

Definition TargetCore := string.
Definition CoreSingBox : TargetCore := "singbox".
Definition CoreXray : TargetCore := "xray".
Definition CoreHysteria2 : TargetCore := "hysteria2".
Definition CoreWireGuard : TargetCore := "wireguard".

Inductive ServerProfile := mkProfile {
  p_ID : string;
  p_Name : string;
  p_Protocol : string;
  p_Address : string;
  p_Port : Z;
  p_Transport : string;
  p_Security : string;
  p_UUID : string;
  p_Password : string;
  p_Username : string;
  p_SNI : string;
  p_ALPN : list string;
  p_Fingerprint : string;
  p_Insecure : bool;
  p_PublicKey : string;
  p_ShortID : string;
  p_SpiderX : string;
  p_PostQuantum : bool;
  p_Flow : string;
  p_Encryption : string;
  p_Mux : bool;
  p_Path : string;
  p_Host : string;
  p_ServiceName : string;
  p_Headers : gmap string string;
  p_Cipher : string;
  p_ShadowTLSVersion : Z;
  p_ShadowTLSPassword : string;
  p_ShadowTLSSNI : string;
  p_BandwidthUp : string;
  p_BandwidthDown : string;
  p_ObfsType : string;
  p_ObfsPassword : string;
  p_PortHopping : string;
  p_PinnedPeerCertSha256 : string;
  p_CongestionControl : string;
  p_UDPRelayMode : string;
  p_ZeroRTTHandshake : bool;
  p_PrivateKey : string;
  p_PeerPublicKey : string;
  p_PreSharedKey : string;
  p_LocalAddress : list string;
  p_MTU : Z;
  p_ReservedBytes : list Z;
  p_BackupOutbounds : list string;
  p_BackupProfiles : list ServerProfile;
  p_FallbackStrategy : string;
  p_HealthCheckURL : string;
  p_HealthCheckInterval : Z;
  p_Extra : list (string * value);
  p_RawJSONConfig : string;
}.

(** A copy of a profile with the fields that the code assigns. *)
Definition update_profile (p : ServerProfile) (protocol address transport security fingerprint : string)
    (postQuantum : bool) (flow encryption : string) : ServerProfile :=
  mkProfile (p_ID p) (p_Name p) protocol address (p_Port p) transport security (p_UUID p) (p_Password p)
    (p_Username p) (p_SNI p) (p_ALPN p) fingerprint (p_Insecure p) (p_PublicKey p) (p_ShortID p)
    (p_SpiderX p) postQuantum flow encryption (p_Mux p) (p_Path p) (p_Host p) (p_ServiceName p)
    (p_Headers p) (p_Cipher p) (p_ShadowTLSVersion p) (p_ShadowTLSPassword p) (p_ShadowTLSSNI p)
    (p_BandwidthUp p) (p_BandwidthDown p) (p_ObfsType p) (p_ObfsPassword p) (p_PortHopping p)
    (p_PinnedPeerCertSha256 p) (p_CongestionControl p) (p_UDPRelayMode p) (p_ZeroRTTHandshake p)
    (p_PrivateKey p) (p_PeerPublicKey p) (p_PreSharedKey p) (p_LocalAddress p) (p_MTU p)
    (p_ReservedBytes p) (p_BackupOutbounds p) (p_BackupProfiles p) (p_FallbackStrategy p)
    (p_HealthCheckURL p) (p_HealthCheckInterval p) (p_Extra p) (p_RawJSONConfig p).

Definition Normalize (p : ServerProfile) : ServerProfile :=
  let protocol := ToLower (TrimSpace (p_Protocol p)) in
  let address := TrimSpace (p_Address p) in
  let transport := if p_Transport p =s "" then TransportTCP else ToLower (TrimSpace (p_Transport p)) in
  let security :=
    if p_Security p =s "" then
      if p_PublicKey p <>s "" then SecurityReality
      else if (p_SNI p <>s "") || p_Insecure p then SecurityTLS
      else SecurityNone
    else ToLower (TrimSpace (p_Security p)) in
  let fingerprint :=
    if (p_Fingerprint p =s "") && ((security =s SecurityTLS) || (security =s SecurityReality))
    then "chrome"%string else p_Fingerprint p in
  update_profile p protocol address transport security fingerprint (p_PostQuantum p) (p_Flow p) (p_Encryption p).

(** [None]: valid. *)
Definition Validate (p : ServerProfile) : option string :=
  if p_Address p =s "" then Some "server address cannot be empty"%string
  else if (p_Port p <=? 0) || (65535 <? p_Port p) then Some ("invalid port: " ^^ Itoa (p_Port p))
  else if p_Protocol p =s "" then Some "protocol cannot be empty"%string
  else None.

(** ** Inbounds and configurations (inbound.go, dns.go, config_spec.go) *)

(** A Go map of [interface{}] values: its entries, with distinct keys.  A nil map
    has none. *)
Definition jmap := list (string * value).

Definition jget (m : jmap) (k : string) : option value := snd <$> List.find (fun kv => kv.1 =s k) m.

(** [m[k] = v] *)
Fixpoint jset (k : string) (v : value) (m : jmap) : jmap :=
  match m with
  | [] => [(k, v)]
  | (j, w) :: m => if j =s k then (k, v) :: m else (j, w) :: jset k v m
  end.

(** [delete(m, k)] *)
Definition jdel (k : string) (m : jmap) : jmap := List.filter (fun kv => kv.1 <>s k) m.

(** [s, _ := m[k].(string)] *)
Definition get_string (m : jmap) (k : string) : string :=
  match jget m k with Some (VString s) => s | _ => "" end.

Definition InboundMode := string.
Definition InboundModeDesktopTun : InboundMode := "desktop_tun".
Definition InboundModeMobileVpn : InboundMode := "mobile_vpn".
Definition InboundModeSystemProxy : InboundMode := "system_proxy".
Definition InboundModeServer : InboundMode := "server".

Record ClientInboundSpec := mkClientInbound {
  ci_Mode : InboundMode;
  ci_SocksPort : Z;
  ci_HTTPPort : Z;
  ci_ListenAddress : string;
  ci_AuthEnabled : bool;
  ci_AuthUsername : string;
  ci_AuthPassword : string;
  ci_TunInterfaceName : string;
  ci_TunStack : string;
  ci_MTU : Z;
  ci_StrictRoute : bool;
  ci_AutoRoute : bool;
  ci_EndpointIP : string;
  ci_Inet4Address : string;
  ci_Inet6Address : string;
  ci_IncludePackages : list string;
  ci_ExcludePackages : list string;
  ci_LanSharingEnabled : bool;
  ci_LanListenAddress : string;
  ci_LanHTTPPort : Z;
  ci_LanSocksPort : Z;
  ci_LanAuthEnabled : bool;
  ci_LanUsername : string;
  ci_LanPassword : string;
}.

Record ServerInboundClient := mkInboundClient {
  ic_ID : string;
  ic_UUID : string;
  ic_Password : string;
  ic_Email : string;
  ic_Flow : string;
}.

Record ServerInboundSpec := mkServerInbound {
  si_Tag : string;
  si_Protocol : string;
  si_ListenAddress : string;
  si_Port : Z;
  si_Transport : string;
  si_Security : string;
  si_SNI : string;
  si_CertPath : string;
  si_KeyPath : string;
  si_PublicKey : string;
  si_PrivateKey : string;
  si_ShortIDs : list string;
  si_Clients : list ServerInboundClient;
  si_Multiplex : bool;
  si_PortHop : string;
  si_AdminPort : Z;
  si_AuthURL : string;
  si_Insecure : bool;
  si_ObfsType : string;
  si_ObfsPassword : string;
  si_BandwidthUp : string;
  si_BandwidthDown : string;
  si_MasqType : string;
  si_MasqValue : string;
  si_MasqStatusCode : Z;
  si_SocksPort : Z;
  si_SocksUsername : string;
  si_SocksPassword : string;
  si_Fallbacks : list jmap;
  si_RawSettings : jmap;
  si_StreamSettings : jmap;
  si_Sniffing : jmap;
}.

Record DNSSpec := mkDNS {
  dns_RemoteServer : string;
  dns_DirectServer : string;
  dns_Strategy : string;
  dns_FakeIP : bool;
  dns_FakeIPRange : string;
  dns_Servers : list string;
  dns_FinalServer : string;
}.

Definition DefaultDNSSpec : DNSSpec := {|
  dns_RemoteServer := "https://1.1.1.1/dns-query";
  dns_DirectServer := "8.8.8.8";
  dns_Strategy := "ipv4_only";
  dns_FakeIP := false;
  dns_FakeIPRange := "";
  dns_Servers := ["https://1.1.1.1/dns-query"; "8.8.8.8"]%string;
  dns_FinalServer := "dns-remote";
|}.

Record ConfigSpec := mkConfig {
  cs_TargetCore : TargetCore;
  cs_CoreVersion : string;
  cs_StrictMode : bool;
  cs_ServerNode : option ServerProfile;
  cs_ClientInbound : option ClientInboundSpec;
  cs_ServerInbounds : list ServerInboundSpec;
  cs_Routing : option RoutingSpec;
  cs_DNS : option DNSSpec;
  cs_LogLevel : string;
  cs_LogPath : string;
  cs_AccessLog : string;
  cs_ErrorLog : string;
  cs_ClashAPIAddress : string;
  cs_RawJSONConfig : string;
}.

(** ** Building and reading objects *)

Definition string_of (v : value) : option string := match v with VString s => Some s | _ => None end.

Definition opt (c : bool) (k : string) (v : value) : jmap := if c then [(k, v)] else [].
Definition nonempty {A} (l : list A) : bool := match l with [] => false | _ => true end.
Definition VStrings (l : list string) : value := VList (map VString l).
Definition opt_strings (k : string) (l : list string) : jmap := opt (nonempty l) k (VStrings l).

Lemma jget_cons j v m k : jget ((j, v) :: m) k = if j =s k then Some v else jget m k.
Proof. unfold jget. cbn. by destruct (String.eqb_spec j k). Qed.

Lemma jget_app a b k : jget (a ++ b) k = match jget a k with Some v => Some v | None => jget b k end.
Proof.
  induction a as [|[j v] a IH]; [done|]. cbn [app]. rewrite !jget_cons.
  destruct (String.eqb_spec j k); [done | apply IH].
Qed.

Lemma jget_opt c j v k : jget (opt c j v) k = if c && (j =s k) then Some v else None.
Proof. destruct c; [|done]. cbn. unfold jget. cbn. by destruct (String.eqb_spec j k). Qed.

Lemma jget_one j v k : jget [(j, v)] k = if j =s k then Some v else None.
Proof. apply jget_cons. Qed.

Lemma jget_jset j v m k : jget (jset j v m) k = if j =s k then Some v else jget m k.
Proof.
  induction m as [|[i w] m IH]; cbn [jset]; [apply jget_one|].
  destruct (String.eqb_spec i j) as [->|Hij]; rewrite !jget_cons.
  - by destruct (String.eqb_spec j k).
  - rewrite IH. destruct (String.eqb_spec i k), (String.eqb_spec j k); congruence.
Qed.

Lemma jget_jdel k m j : jget (jdel k m) j = if k =s j then None else jget m j.
Proof.
  induction m as [|[i v] m IH]; [by destruct (k =s j)|]. unfold jdel in *. cbn [List.filter fst]. rewrite jget_cons.
  destruct (String.eqb_spec i k) as [->|Hik]; cbn [negb]; [rewrite IH; by destruct (String.eqb_spec k j)|]. rewrite jget_cons, IH.
  destruct (String.eqb_spec i j) as [->|]; [|done]. by destruct (String.eqb_spec k j).
Qed.

Definition strings_of (v : option value) : list string :=
  match v with Some (VString s) => [s] | Some (VList l) => omap string_of l | _ => [] end.
Definition objects (v : option value) : list jmap :=
  match v with Some (VList l) => omap (fun v => match v with VMap m => Some m | _ => None end) l | _ => [] end.

(** The names that the objects of a list give under a key. *)
Definition named (k : string) (objs : list jmap) : list string := concat (map (fun o => strings_of (jget o k)) objs).

Lemma named_app k a b : named k (a ++ b) = named k a ++ named k b.
Proof. unfold named. by rewrite map_app, concat_app. Qed.

Lemma strings_of_VStrings l : strings_of (Some (VStrings l)) = l.
Proof. cbn. induction l as [|s l IH]; [done|]. cbn. by rewrite IH. Qed.

Lemma strings_of_opt_strings l : strings_of (if nonempty l then Some (VStrings l) else None) = l.
Proof. destruct l; [done|]. apply strings_of_VStrings. Qed.

Lemma objects_maps l : objects (Some (VList (map VMap l))) = l.
Proof. cbn. induction l as [|m l IH]; [done|]. cbn. by rewrite IH. Qed.

Lemma elem_of_named k objs s : s ∈ named k objs <-> exists o, o ∈ objs /\ s ∈ strings_of (jget o k).
Proof.
  unfold named. rewrite list_elem_of_In, in_concat. setoid_rewrite in_map_iff. setoid_rewrite list_elem_of_In. naive_solver.
Qed.

Lemma nonempty_existsb {A} (l : list A) : nonempty l = existsb (fun _ => true) l.
Proof. by destruct l. Qed.
