(* ===== verification/XrayImport.v ===== *)
(** * Xray configurations as profiles (src/pkg/parser/json.go)

    A profile is read from an Xray configuration: which of its outbounds is taken
    (by the remarks, the routing rules, the balancers, else the first proxy), and
    how its settings and stream settings become the fields of the profile.  The
    decoding of the JSON text into the typed structures is an argument. *)
From S2P Require Import Prelude GoStrings Ast Profile.
Open Scope Z_scope.

(** A JSON object field that may be null. *)
Record XrayStreamSettings := mkStream {
  ss_Network : string;
  ss_Security : string;
  ss_RealitySettings : option jmap;
  ss_TLSSettings : option jmap;
  ss_WSSettings : option jmap;
  ss_GRPCSettings : option jmap;
  ss_HTTPSettings : option jmap;
  ss_TCPSettings : option jmap }.
Record XrayOutbound := mkXrayOutbound {
  xo_Tag : string;
  xo_Protocol : string;
  xo_Settings : option jmap;
  xo_StreamSettings : option XrayStreamSettings }.
Record XrayRoutingRule := mkXrayRule {
  xr_Type : string;
  xr_OutboundTag : string;
  xr_BalancerTag : string;
  xr_InboundTag : list string;
  xr_Network : string;
  xr_Port : string;
  xr_Domain : list string;
  xr_IP : list string }.
Record XrayBalancer := mkXrayBalancer { xb_Tag : string; xb_Selector : list string }.
Record XrayRouting := mkXrayRouting {
  xr_DomainStrategy : string;
  xr_Rules : list XrayRoutingRule;
  xr_Balancers : list XrayBalancer }.
Record XrayConfigJSON := mkXrayConfig {
  xc_ID : string;
  xc_Remarks : string;
  xc_Outbounds : list XrayOutbound;
  xc_Routing : option XrayRouting }.

Definition isProxyProto (proto : string) : bool :=
  let p := ToLower proto in
  (p <>s "direct") && (p <>s "freedom") && (p <>s "block") && (p <>s "blackhole") && (p <>s "loopback")
    && (p <>s "dns") && (p <>s "").

(** [int(f)] on amd64, which gives the least integer outside the range. *)
Definition int_of_float (q : QArith_base.Q) : Z :=
  let z := Z.quot (QArith_base.Qnum q) (Zpos (QArith_base.Qden q)) in
  if (minInt64 <=? z) && (z <=? maxInt64) then z else minInt64.

Definition getIntVal (v : option value) : Z :=
  match v with
  | Some (VFloat q) => int_of_float q
  | Some (VInt z) => z
  | Some (VString s) => atoi s
  | _ => 0
  end.

(** [m[k].([]interface{})[0].(map[string]interface{})] *)
Definition first_map (m : jmap) (k : string) : option jmap :=
  match jget m k with Some (VList (VMap x :: _)) => Some x | _ => None end.
(** [if s, ok := m[k].(string); ok { f(s) }] *)
Definition on_string (m : jmap) (k : string) (f : string -> ServerProfile -> ServerProfile) (p : ServerProfile) : ServerProfile :=
  match jget m k with Some (VString s) => f s p | _ => p end.
Definition on_nonempty (m : jmap) (k : string) (f : string -> ServerProfile -> ServerProfile) (p : ServerProfile) : ServerProfile :=
  on_string m k (fun s p => if s =s "" then p else f s p) p.
Definition on {A} (o : option A) (f : A -> ServerProfile -> ServerProfile) (p : ServerProfile) : ServerProfile :=
  match o with Some x => f x p | None => p end.

Definition server_fields (server : jmap) (p : ServerProfile) : ServerProfile :=
  p |> set_Address (get_string server "address") |> set_Port (getIntVal (jget server "port")).

Definition from_settings (proto : string) (settings : jmap) (p : ServerProfile) : ServerProfile :=
  if (proto =s ProtoVLESS) || (proto =s ProtoVMess) then
    on (first_map settings "vnext") (fun server p =>
      on (first_map server "users") (fun user p =>
        p |> set_UUID (get_string user "id") |> set_Flow (get_string user "flow")
          |> set_Encryption (get_string user "encryption")) (server_fields server p)) p
  else if (proto =s ProtoTrojan) || (proto =s ProtoShadowsocks) then
    on (first_map settings "servers") (fun server p =>
      server_fields server p |> set_Password (get_string server "password")
        |> on_string server "method" set_Cipher |> on_string server "cipher" set_Cipher) p
  else if (proto =s ProtoSocks) || (proto =s ProtoHTTP) then
    on (first_map settings "servers") (fun server p =>
      on (first_map server "users") (fun user p =>
        p |> set_Username (get_string user "user") |> set_Password (get_string user "pass")) (server_fields server p)) p
  else p.

Definition from_reality (m : jmap) (p : ServerProfile) : ServerProfile :=
  p |> set_Security SecurityReality |> set_SNI (get_string m "serverName") |> set_PublicKey (get_string m "publicKey")
    |> set_ShortID (get_string m "shortId") |> set_SpiderX (get_string m "spiderX")
    |> set_Fingerprint (get_string m "fingerprint").

Definition nonempty_string (v : value) : option string :=
  match v with VString s => if s =s "" then None else Some s | _ => None end.

Definition tls_security (p : ServerProfile) : ServerProfile :=
  if (p_Security p =s "") || (p_Security p =s SecurityNone) then set_Security SecurityTLS p else p.
Definition tls_insecure (m : jmap) (p : ServerProfile) : ServerProfile :=
  match jget m "allowInsecure" with Some (VBool b) => set_Insecure b p | _ => p end.
Definition tls_alpn (m : jmap) (p : ServerProfile) : ServerProfile :=
  match jget m "alpn" with Some (VList l) => set_ALPN (p_ALPN p ++ omap nonempty_string l) p | _ => p end.

Definition from_tls (m : jmap) (p : ServerProfile) : ServerProfile :=
  p |> tls_security |> on_nonempty m "serverName" set_SNI |> on_string m "fingerprint" set_Fingerprint
    |> on_string m "pinnedPeerCertSha256" set_PinnedPeerCertSha256 |> tls_insecure m |> tls_alpn m.

Definition from_grpc (m : jmap) (p : ServerProfile) : ServerProfile :=
  p |> set_Transport "grpc" |> set_ServiceName (get_string m "serviceName") |> on_nonempty m "authority" set_Host.

Definition ws_host (m : jmap) (p : ServerProfile) : ServerProfile :=
  match jget m "headers" with Some (VMap headers) => on_nonempty headers "Host" set_Host p | _ => p end.
Definition from_ws (m : jmap) (p : ServerProfile) : ServerProfile :=
  p |> set_Transport "ws" |> set_Path (get_string m "path") |> ws_host m.

Definition from_stream (ss : XrayStreamSettings) (p : ServerProfile) : ServerProfile :=
  p |> set_Transport (ss_Network ss) |> set_Security (ss_Security ss)
    |> on (ss_RealitySettings ss) from_reality |> on (ss_TLSSettings ss) from_tls
    |> on (ss_GRPCSettings ss) from_grpc |> on (ss_WSSettings ss) from_ws.

(** [inl]: the error's text. *)
Definition convertOutboundToProfile (ob : XrayOutbound) (defaultName : string) : string + ServerProfile :=
  let proto := ToLower (xo_Protocol ob) in
  let p := blank_profile |> set_Protocol proto
             |> set_Name (if defaultName =s "" then xo_Tag ob else defaultName)
             |> on (xo_Settings ob) (from_settings proto) |> on (xo_StreamSettings ob) from_stream in
  if (p_Address p =s "") || (p_Port p <=? 0) then
    inl ("invalid server address '" ^^ p_Address p ^^ "' or port " ^^ Itoa (p_Port p) ^^ " in outbound " ^^ xo_Tag ob)
  else inr (Normalize p).

(** ** The outbound that is taken *)

Definition proxyOutbounds (cfg : XrayConfigJSON) : list XrayOutbound :=
  List.filter (fun ob => isProxyProto (xo_Protocol ob)) (xc_Outbounds cfg).

(** [outboundByTag[tag]]: the last one with the tag. *)
Definition outboundByTag (obs : list XrayOutbound) (tag : string) : option XrayOutbound :=
  if tag =s "" then None else List.find (fun ob => xo_Tag ob =s tag) (rev obs).

(** Lower case also of the Cyrillic capitals from A to YA. *)
Fixpoint lower_cyrillic (s : string) : string :=
  match s with
  | String a (String b s as t) =>
      if char_code a =? 208 then
        if (144 <=? char_code b) && (char_code b <=? 159) then
          String a (String (ascii_of_N (Z.to_N (char_code b + 32))) (lower_cyrillic s))
        else if (160 <=? char_code b) && (char_code b <=? 175) then
          String (ascii_of_N 209) (String (ascii_of_N (Z.to_N (char_code b - 32))) (lower_cyrillic s))
        else String a (String b (lower_cyrillic s))
      else String a (lower_cyrillic t)
  | s => s
  end.

Definition wants_grpc (remarks : string) : bool :=
  let remLower := lower_cyrillic (ToLower remarks) in
  Contains remLower "sim" || Contains remLower "глушил" || Contains remLower "grpc".

Definition is_grpc (ob : XrayOutbound) : bool :=
  match xo_StreamSettings ob with Some ss => ToLower (ss_Network ss) =s "grpc" | None => false end.

Definition by_remarks (cfg : XrayConfigJSON) (obs : list XrayOutbound) : option XrayOutbound :=
  if wants_grpc (xc_Remarks cfg) then List.find is_grpc obs else None.

(** The first value that a function gives on a list. *)
Fixpoint first_some {A B} (f : A -> option B) (l : list A) : option B :=
  match l with
  | [] => None
  | x :: l => match f x with Some y => Some y | None => first_some f l end
  end.

Definition by_rule (obs : list XrayOutbound) (rule : XrayRoutingRule) : option XrayOutbound :=
  if (xr_OutboundTag rule <>s "") && isProxyProto (xr_OutboundTag rule) then outboundByTag obs (xr_OutboundTag rule) else None.
Definition by_selector (obs : list XrayOutbound) (sel : string) : option XrayOutbound :=
  List.find (fun ob => HasPrefix (xo_Tag ob) sel || (xo_Tag ob =s sel)) obs.

Definition by_routing (obs : list XrayOutbound) (r : XrayRouting) : option XrayOutbound :=
  match first_some (by_rule obs) (xr_Rules r) with
  | Some ob => Some ob
  | None => first_some (fun b => first_some (by_selector obs) (xb_Selector b)) (xr_Balancers r)
  end.

Definition targetOutbound (cfg : XrayConfigJSON) (obs : list XrayOutbound) : option XrayOutbound :=
  match by_remarks cfg obs with
  | Some ob => Some ob
  | None =>
      match (r ← xc_Routing cfg; by_routing obs r) with
      | Some ob => Some ob
      | None => head obs
      end
  end.

(** The profile of a decoded configuration. *)
Definition profileOfConfig (rawJSON : string) (cfg : XrayConfigJSON) : string + ServerProfile :=
  match xc_Outbounds cfg with
  | [] => inl "no outbounds found in xray config"%string
  | _ =>
      match targetOutbound cfg (proxyOutbounds cfg) with
      | None => inl "no supported proxy outbound found in xray config"%string
      | Some ob =>
          match convertOutboundToProfile ob (xc_Remarks cfg) with
          | inl e => inl e
          | inr p => inr (p |> (if xc_Remarks cfg =s "" then fun p => p else set_Name (xc_Remarks cfg)) |> set_RawJSONConfig rawJSON)
          end
      end
  end.

(** A text that is no configuration may be a single outbound. *)
Definition ParseXrayConfigJSON (unmarshal : string -> string + XrayConfigJSON) (unmarshal_outbound : string -> option XrayOutbound)
    (rawJSON : string) : string + ServerProfile :=
  match unmarshal rawJSON with
  | inr cfg => profileOfConfig rawJSON cfg
  | inl err =>
      match unmarshal_outbound rawJSON with
      | Some ob => if xo_Protocol ob <>s "" then convertOutboundToProfile ob ""
                   else inl ("failed to unmarshal xray config json: " ^^ err)
      | None => inl ("failed to unmarshal xray config json: " ^^ err)
      end
  end.

(** ** What is taken *)

Lemma first_some_spec {A B} (f : A -> option B) l y : first_some f l = Some y -> exists x, In x l /\ f x = Some y.
Proof.
  induction l as [|x l IH]; [done|]. cbn [first_some]. destruct (f x) eqn:E; [intros [= ->]; exists x; split; [by left|done]|].
  intros (z & Hz & Ez)%IH. exists z. split; [by right|done].
Qed.

Lemma first_some_none {A B} (f : A -> option B) l : first_some f l = None <-> forall x, In x l -> f x = None.
Proof.
  induction l as [|x l IH]; [by split|]. cbn [first_some In]. destruct (f x) eqn:E.
  - split; [done|]. intros H. rewrite H in E; [done|by left].
  - rewrite IH. split; [intros H y [<-|Hy]; auto|intros H y Hy; apply H; by right].
Qed.

Lemma outboundByTag_in obs tag ob : outboundByTag obs tag = Some ob -> In ob obs /\ xo_Tag ob = tag.
Proof.
  unfold outboundByTag. destruct (tag =s ""); [done|]. intros [Hin Ht]%List.find_some.
  split; [by apply in_rev|by apply String.eqb_eq].
Qed.

(** Whatever the remarks, rules and balancers say, the outbound is one of the proxies;
    there is none only when there is no proxy. *)
Lemma target_in cfg obs ob : targetOutbound cfg obs = Some ob -> In ob obs.
Proof.
  unfold targetOutbound. destruct (by_remarks cfg obs) eqn:Er.
  { intros [= ->]. unfold by_remarks in Er. destruct (wants_grpc _); [|done]. apply List.find_some in Er as [? _]; done. }
  destruct (xc_Routing cfg) as [r|]; cbn [mbind option_bind]; [|destruct obs; [done|]; intros [= ->]; by left].
  unfold by_routing. destruct (first_some (by_rule obs) _) eqn:E1.
  { intros [= ->]. apply first_some_spec in E1 as (rule & _ & E1). unfold by_rule in E1.
    destruct (_ && _); [|done]. apply outboundByTag_in in E1 as [? _]; done. }
  destruct (first_some _ (xr_Balancers r)) eqn:E2; [|destruct obs; [done|]; intros [= ->]; by left].
  intros [= ->]. apply first_some_spec in E2 as (b & _ & (sel & _ & E2)%first_some_spec).
  unfold by_selector in E2. apply List.find_some in E2 as [? _]; done.
Qed.

Lemma target_none cfg obs : targetOutbound cfg obs = None <-> obs = [].
Proof.
  split; [|intros ->].
  - unfold targetOutbound. destruct (by_remarks cfg obs); [done|]. destruct (r ← _; _); [done|]. by destruct obs.
  - destruct (targetOutbound cfg []) eqn:E; [|done]. by destruct (target_in _ _ _ E).
Qed.

Lemma proxyOutbounds_spec cfg ob : In ob (proxyOutbounds cfg) <-> In ob (xc_Outbounds cfg) /\ isProxyProto (xo_Protocol ob) = true.
Proof. apply filter_In. Qed.

Lemma convert_port ob name p : convertOutboundToProfile ob name = inr p -> 0 < p_Port p.
Proof.
  unfold convertOutboundToProfile. cbv zeta. match goal with |- context [Normalize ?q] => generalize q end. intros q.
  destruct (_ || _) eqn:E; [done|]. intros [= <-]. destruct q. cbn in *. bools. lia.
Qed.

(** A profile is read from the configuration exactly when the outbound that is taken,
    which is one of its proxies, has an address and a port; the profile has the
    remarks for its name when there are any, and keeps the text. *)
Theorem import_exact raw cfg p :
  profileOfConfig raw cfg = inr p <->
  exists ob q, targetOutbound cfg (proxyOutbounds cfg) = Some ob /\ convertOutboundToProfile ob (xc_Remarks cfg) = inr q /\
    In ob (xc_Outbounds cfg) /\ isProxyProto (xo_Protocol ob) = true /\ 0 < p_Port q /\
    p = set_RawJSONConfig raw (if xc_Remarks cfg =s "" then q else set_Name (xc_Remarks cfg) q).
Proof.
  unfold profileOfConfig.
  assert (Hnone : xc_Outbounds cfg = [] -> targetOutbound cfg (proxyOutbounds cfg) = None).
  { intros E. apply target_none. unfold proxyOutbounds. by rewrite E. }
  destruct (targetOutbound cfg (proxyOutbounds cfg)) as [ob|] eqn:Et.
  - destruct (xc_Outbounds cfg) as [|o obs] eqn:Eo; [by specialize (Hnone eq_refl)|]. rewrite <- Eo.
    pose proof (target_in _ _ _ Et) as [Hin Hp]%proxyOutbounds_spec.
    destruct (convertOutboundToProfile ob (xc_Remarks cfg)) as [e|q] eqn:Ec.
    + split; [done|]. intros (ob' & q & Et' & Ec' & _). injection Et' as <-. by rewrite Ec in Ec'.
    + pose proof (convert_port _ _ _ Ec) as Hport. split.
      * intros H. injection H as <-. exists ob, q. destruct (xc_Remarks cfg =s ""); done.
      * intros (ob' & q' & Et' & Ec' & _ & _ & _ & ->). injection Et' as <-. rewrite Ec in Ec'. injection Ec' as <-.
        by destruct (xc_Remarks cfg =s "").
  - assert (Hl : forall e : string, (inl e = (inr p : string + ServerProfile)) <-> False) by (intros e; split; done).
    destruct (xc_Outbounds cfg); rewrite Hl; (split; [done|]; intros (? & ? & ? & _); done).
Qed.

(** The order of the choice. *)
Lemma remarks_first cfg obs ob : by_remarks cfg obs = Some ob -> targetOutbound cfg obs = Some ob.
Proof. unfold targetOutbound. by intros ->. Qed.

Lemma rule_before_balancer cfg obs r ob : by_remarks cfg obs = None -> xc_Routing cfg = Some r ->
  first_some (by_rule obs) (xr_Rules r) = Some ob -> targetOutbound cfg obs = Some ob.
Proof. unfold targetOutbound, by_routing. intros -> -> E. cbn [mbind option_bind]. by rewrite E. Qed.

Definition import_demo : XrayConfigJSON :=
  mkXrayConfig "1" "" [mkXrayOutbound "direct" "freedom" None None;
    mkXrayOutbound "p1" "Trojan" (Some [("servers", VList [VMap [("address", VString "a.example"); ("port", VInt 443); ("password", VString "pw")]])])
      (Some (mkStream "tcp" "" None (Some [("serverName", VString "sni.example"); ("alpn", VList [VString "h2"; VInt 3; VString ""])]) None None None None));
    mkXrayOutbound "p2" "vless" (Some [("vnext", VList [VMap [("address", VString "b.example"); ("port", VString "8443");
      ("users", VList [VMap [("id", VString "u-1")]])]])]) None]%string
    (Some (mkXrayRouting "" [mkXrayRule "" "direct" "" [] "" "" [] []; mkXrayRule "" "p2" "" [] "" "" [] []] [])).
Example import_routed : option_map xo_Tag (targetOutbound import_demo (proxyOutbounds import_demo)) = Some "p2"%string.
Proof. reflexivity. Qed.
Example import_hint : wants_grpc "Обход ГЛУШИЛок" = true.
Proof. reflexivity. Qed.
