(* ===== verification/Links.v ===== *)
(** * Reading proxy links (src/pkg/parser)

    [ParseURI] and the parsers of the link formats, and [ParseSubscription], which
    reads many links from one text.  Errors are their texts, up to the wrapped error
    of a standard-library call.  The decoding of JSON texts is an argument. *)
From S2P Require Import Prelude GoStrings GoNet GoURL GoBase64 Ast Profile XrayImport.
Open Scope Z_scope.

Definition result A : Type := string + A.
Definition try {A B} (r : result A) (k : A -> result B) : result B :=
  match r with inl e => inl e | inr x => k x end.
Notation "x ←? r ; k" := (try r (fun x => k)) (at level 20, r at level 100, k at level 200) : go_scope.

(** [s] unless it is empty *)
Definition or_else (s t : string) : string := if s =s "" then t else s.

(** ** uri.go *)

Definition isValidHost (host : string) : bool :=
  if host =s "" then false
  else if Contains host ":" then negb (bool_decide (ParseIP host = nilIP))
  else true.

Definition extractFragmentAndClean (rawURI : string) : string * string :=
  let trimmed := TrimSpace rawURI in
  match IndexByte trimmed "#" with
  | Some idx =>
      let rawFrag := str_drop (S idx) trimmed in
      (str_take idx trimmed,
       match QueryUnescape rawFrag with
       | Some unescaped => if unescaped <>s "" then unescaped else rawFrag
       | None => rawFrag
       end)
  | None => (trimmed, ""%string)
  end.

Definition decodeBase64Safe (s : string) : option string :=
  let s := TrimSpace s in
  let rem := (String.length s mod 4)%nat in
  let s := if (0 <? rem)%nat then s ^^ String.concat "" (replicate (4 - rem) "=") else s in
  match DecodeString StdEncoding s with
  | Some b => Some b
  | None =>
      match DecodeString URLEncoding s with
      | Some b => Some b
      | None => DecodeString RawStdEncoding s
      end
  end.

(** ** What the parsers of URL-shaped links share *)

Definition link_url (what cleanURI : string) : result URL :=
  match url_Parse cleanURI with Some u => inr u | None => inl ("failed to parse " ^^ what ^^ " URI") end.

Definition link_port (what : string) (default : Z) (u : URL) : result Z :=
  if Port u =s "" then inr default
  else
    match Atoi (Port u) with
    | Some p => if (p <=? 0) || (65535 <? p) then inl ("invalid port in " ^^ what ^^ " URI: " ^^ Port u) else inr p
    | None => inl ("invalid port in " ^^ what ^^ " URI: " ^^ Port u)
    end.

Definition link_host (error : string) (u : URL) : result string :=
  if isValidHost (Hostname u) then inr (Hostname u) else inl error.

(** [u.User.Username()] and [u.User.Password()], empty where there is none. *)
Definition link_user (u : URL) : string := match url_user u with Some user => Username user | None => "" end.
Definition link_pass (u : URL) : string :=
  match url_user u with Some user => default ""%string (Password user) | None => "" end.

Definition link_alpn (q : list (string * string)) : list string :=
  if Get q "alpn" =s "" then [] else SplitByte (Get q "alpn") ",".

(** The end of every parser: a name when there is none, and [Normalize]. *)
Definition finish (tag : string) (p : ServerProfile) : ServerProfile :=
  Normalize (if p_Name p =s "" then set_Name (tag ^^ "-" ^^ p_Address p ^^ ":" ^^ Itoa (p_Port p)) p else p).

Definition one_of (s : string) (l : list string) : bool := existsb (fun t => s =s t) l.

(** ** The link formats *)

Definition parseVLESS (raw : string) : result ServerProfile :=
  let '(cleanURI, fragment) := extractFragmentAndClean raw in
  u ←? link_url "vless" cleanURI;
  port ←? link_port "vless" 443 u;
  host ←? link_host "invalid host in vless URI" u;
  if link_user u =s "" then inl "vless URI missing uuid"%string
  else
    let q := Query u in
    inr (finish "VLESS" (blank_profile
      |> set_Protocol ProtoVLESS |> set_UUID (link_user u) |> set_Address host |> set_Port port
      |> set_Name (or_else fragment (url_fragment u))
      |> set_Transport (Get q "type") |> set_Security (Get q "security") |> set_Flow (Get q "flow")
      |> set_Encryption (Get q "encryption") |> set_SNI (Get q "sni") |> set_Fingerprint (Get q "fp")
      |> set_PublicKey (Get q "pbk") |> set_ShortID (Get q "sid") |> set_SpiderX (Get q "spx")
      |> set_Path (Get q "path") |> set_Host (Get q "host") |> set_ServiceName (Get q "serviceName")
      |> set_ALPN (link_alpn q)
      |> set_Insecure ((Get q "allowInsecure" =s "1") || (Get q "insecure" =s "1"))
      |> set_PostQuantum ((Get q "pq" =s "1") || (Get q "post_quantum" =s "true") || (Get q "post_quantum" =s "1")
                          || HasPrefix (Get q "encryption") "mlkem")
      |> set_Mux ((Get q "mux" =s "1") || (Get q "mux" =s "true")))).

Definition parseTrojan (raw : string) : result ServerProfile :=
  let '(cleanURI, fragment) := extractFragmentAndClean raw in
  u ←? link_url "trojan" cleanURI;
  port ←? link_port "trojan" 443 u;
  host ←? link_host "invalid host in trojan URI" u;
  if link_user u =s "" then inl "trojan URI missing password"%string
  else
    let q := Query u in
    inr (finish "Trojan" (blank_profile
      |> set_Protocol ProtoTrojan |> set_Password (link_user u) |> set_Address host |> set_Port port
      |> set_Name (or_else fragment (url_fragment u))
      |> set_Transport (Get q "type") |> set_Security (or_else (Get q "security") SecurityTLS)
      |> set_SNI (Get q "sni") |> set_Fingerprint (Get q "fp")
      |> set_Path (Get q "path") |> set_Host (Get q "host") |> set_ServiceName (Get q "serviceName")
      |> set_ALPN (link_alpn q)
      |> set_Insecure ((Get q "allowInsecure" =s "1") || (Get q "insecure" =s "1")))).

Definition parseTUIC (raw : string) : result ServerProfile :=
  let '(cleanURI, fragment) := extractFragmentAndClean raw in
  u ←? link_url "tuic" cleanURI;
  port ←? link_port "tuic" 443 u;
  host ←? link_host "invalid host in tuic URI" u;
  let q := Query u in
  inr (finish "TUIC" (blank_profile
    |> set_Protocol ProtoTUIC |> set_UUID (link_user u) |> set_Password (link_pass u) |> set_Address host |> set_Port port
    |> set_Name (or_else fragment (url_fragment u))
    |> set_SNI (Get q "sni") |> set_CongestionControl (Get q "congestion_control")
    |> set_UDPRelayMode (Get q "udp_relay_mode")
    |> set_Insecure ((Get q "allow_insecure" =s "1") || (Get q "insecure" =s "1"))
    |> set_ZeroRTTHandshake ((Get q "zero_rtt" =s "1") || (Get q "zero_rtt_handshake" =s "1"))
    |> set_ALPN (link_alpn q))).

(** The fields that [parseVMess] reads from the JSON object. *)
Record VMessLink := mkVMess {
  vm_PS : string; vm_Add : string; vm_Port : option value; vm_ID : string; vm_Net : string; vm_Type : string;
  vm_Host : string; vm_Path : string; vm_TLS : string; vm_SNI : string; vm_ALPN : string; vm_FP : string; vm_Scy : string }.

Definition parseVMess (unmarshal : string -> option VMessLink) (raw : string) : result ServerProfile :=
  let '(cleanURI, fragment) := extractFragmentAndClean raw in
  match decodeBase64Safe (TrimPrefix cleanURI "vmess://") with
  | None => inl "failed to decode vmess base64"%string
  | Some decoded =>
      match unmarshal decoded with
      | None => inl "failed to parse vmess json"%string
      | Some v =>
          inr (finish "VMess" (blank_profile
            |> set_Protocol ProtoVMess |> set_Name (or_else (vm_PS v) fragment) |> set_Address (vm_Add v)
            |> set_Port (getIntVal (vm_Port v)) |> set_UUID (vm_ID v) |> set_Transport (vm_Net v) |> set_Path (vm_Path v)
            |> set_Host (vm_Host v) |> set_SNI (vm_SNI v) |> set_Fingerprint (vm_FP v)
            |> set_ALPN (if vm_ALPN v =s "" then [] else SplitByte (vm_ALPN v) ",")
            |> set_Security (if vm_TLS v =s "tls" then SecurityTLS else "")))
      end
  end.

(** "method:password"; both are empty when there is no colon. *)
Definition method_password (userinfo : string) : string * string := default (""%string, ""%string) (Cut userinfo ":").

(** The method, the password, the host and the port of the text behind "ss://". *)
Definition shadowsocks_parts (trimmed : string) : result (string * string * string * Z) :=
  match Cut trimmed "@" with
  | Some (userinfo, hostport) =>
      let '(method, password) := method_password (default userinfo (decodeBase64Safe userinfo)) in
      match url_Parse ("http://" ^^ hostport) with
      | Some u => inr (method, password, Hostname u, atoi (Port u))
      | None => inr (method, password, ""%string, 0)
      end
  | None =>
      match decodeBase64Safe trimmed with
      | None => inl "failed to decode shadowsocks base64"%string
      | Some decoded =>
          match Cut decoded "@" with
          | Some (userinfo, hp) =>
              let '(method, password) := method_password userinfo in
              match Cut hp ":" with
              | Some (host, port) => inr (method, password, host, atoi port)
              | None => inr (method, password, ""%string, 0)
              end
          | None => inr (""%string, ""%string, ""%string, 0)
          end
      end
  end.

Definition parseShadowsocks (raw : string) : result ServerProfile :=
  let '(cleanURI, fragment) := extractFragmentAndClean raw in
  parts ←? shadowsocks_parts (TrimPrefix cleanURI "ss://");
  let '(method, password, host, port) := parts in
  if negb (isValidHost host) || (port <=? 0) then inl "invalid shadowsocks configuration"%string
  else
    inr (finish "SS" (blank_profile
      |> set_Protocol ProtoShadowsocks |> set_Cipher method |> set_Password password |> set_Address host |> set_Port port
      |> set_Name fragment)).

(** A number that is not one is passed over. *)
Definition shadowtls_version (q : list (string * string)) : Z :=
  if Get q "v" <>s "" then default 3 (Atoi (Get q "v"))
  else if Get q "version" <>s "" then default 3 (Atoi (Get q "version"))
  else 3.

Definition parseShadowTLS (raw : string) : result ServerProfile :=
  let '(cleanURI, fragment) := extractFragmentAndClean raw in
  u ←? link_url "shadowtls" cleanURI;
  port ←? link_port "shadowtls" 443 u;
  host ←? link_host "invalid host in shadowtls URI" u;
  let q := Query u in
  let sni := or_else (Get q "sni") (Get q "host") in
  let password := or_else (or_else (link_pass u) (link_user u)) (Get q "password") in
  inr (finish "ShadowTLS" (blank_profile
    |> set_Protocol ProtoShadowTLS |> set_Password password |> set_ShadowTLSPassword password |> set_Address host
    |> set_Port port |> set_Name (or_else fragment (url_fragment u)) |> set_Security "shadowtls"
    |> set_ShadowTLSSNI sni |> set_SNI sni |> set_ShadowTLSVersion (shadowtls_version q))).

Definition parseSocks (raw : string) : result ServerProfile :=
  let '(cleanURI, fragment) := extractFragmentAndClean raw in
  let clean := if HasPrefix cleanURI "socks5://" then "socks://" ^^ TrimPrefix cleanURI "socks5://" else cleanURI in
  u ←? link_url "socks" clean;
  port ←? link_port "socks" 1080 u;
  host ←? link_host "invalid host in socks URI" u;
  inr (finish "Socks" (blank_profile
    |> set_Protocol ProtoSocks |> set_Username (link_user u) |> set_Password (link_pass u) |> set_Address host
    |> set_Port port |> set_Name (or_else fragment (url_fragment u)))).

Definition parseHTTP (raw : string) : result ServerProfile :=
  let '(cleanURI, fragment) := extractFragmentAndClean raw in
  let isTLS := HasPrefix cleanURI "https://" in
  u ←? link_url "http proxy" cleanURI;
  host ←? link_host "missing host in http proxy URI" u;
  port ←? link_port "http proxy" (if isTLS then 443 else 80) u;
  let p := blank_profile
    |> set_Protocol ProtoHTTP |> set_Username (link_user u) |> set_Password (link_pass u) |> set_Address host
    |> set_Port port |> set_Name (or_else fragment (url_fragment u)) in
  inr (finish "HTTP" (if isTLS then p |> set_Security SecurityTLS |> set_SNI host else p)).

Definition nonempty (s : string) : option string := if s =s "" then None else Some s.

Definition parseWireGuard (raw : string) : result ServerProfile :=
  let '(cleanURI, fragment) := extractFragmentAndClean raw in
  let clean := if HasPrefix cleanURI "wg://" then "wireguard://" ^^ TrimPrefix cleanURI "wg://" else cleanURI in
  u ←? link_url "wireguard" clean;
  port ←? link_port "wireguard" 51820 u;
  host ←? link_host "invalid host in wireguard URI" u;
  let q := Query u in
  let ipStr := or_else (Get q "ip") (or_else (Get q "address") (Get q "local_address")) in
  inr (finish "WG" (blank_profile
    |> set_Protocol ProtoWireGuard |> set_Address host |> set_Port port |> set_Name (or_else fragment (url_fragment u))
    |> set_PrivateKey (or_else (link_user u) (Get q "privatekey"))
    |> set_PeerPublicKey (or_else (Get q "publickey") (or_else (Get q "peer_public_key") (Get q "peer_pub")))
    |> set_PreSharedKey (or_else (Get q "presharedkey") (Get q "psk"))
    |> set_LocalAddress (if ipStr =s "" then [] else omap (fun a => nonempty (TrimSpace a)) (SplitByte ipStr ","))
    |> set_MTU (atoi (Get q "mtu"))
    |> set_ReservedBytes (if Get q "reserved" =s "" then []
                          else omap (fun r => Atoi (TrimSpace r)) (SplitByte (Get q "reserved") ",")))).

(** The first of the keys that has a value. *)
Fixpoint first_value (q : list (string * string)) (keys : list string) : string :=
  match keys with
  | [] => ""
  | k :: keys => or_else (Get q k) (first_value q keys)
  end.

(** [strings.Replace(s, old, new, 1)] *)
Definition ReplaceFirst (s old new : string) : string :=
  match Index s old with
  | Some i => str_take i s ^^ new ^^ str_drop (i + String.length old) s
  | None => s
  end.

Definition parseHysteria2 (raw : string) : result ServerProfile :=
  let '(cleanURI, fragment) := extractFragmentAndClean raw in
  u ←? link_url "hysteria2" (ReplaceFirst cleanURI "hysteria2://" "hy2://");
  port ←? link_port "hysteria2" 443 u;
  host ←? link_host "invalid host in hysteria2 URI" u;
  let '(username, password) :=
    match url_user u with
    | Some user => match Password user with Some p => (Username user, p) | None => (""%string, Username user) end
    | None => (""%string, ""%string)
    end in
  let q := Query u in
  inr (finish "Hy2" (blank_profile
    |> set_Protocol ProtoHysteria2 |> set_Username username |> set_Password password |> set_Address host
    |> set_Port port |> set_Name (or_else fragment (url_fragment u)) |> set_SNI (Get q "sni")
    |> set_Insecure (one_of (Get q "insecure") ["1"; "true"] || one_of (Get q "allowInsecure") ["1"; "true"])%string
    |> set_PinnedPeerCertSha256 (first_value q
         ["pinSHA256"; "pin_sha256"; "pin-sha256"; "pinnedPeerCertSha256"; "pinned_peer_cert_sha256"; "ca-sha256"])%string
    |> set_ObfsType (first_value q ["obfs"; "obfs-type"; "obfs_type"])%string
    |> set_ObfsPassword (first_value q
         ["obfs-password"; "obfs_password"; "obfsPassword"; "obfs-pass"; "obfspass"; "obfs_pass"])%string
    |> set_PortHopping (first_value q ["mport"; "ports"; "port_hopping"; "hop"])%string
    |> set_BandwidthUp (first_value q ["up"; "upmbps"; "up_mbps"; "upload"])%string
    |> set_BandwidthDown (first_value q ["down"; "downmbps"; "down_mbps"; "download"])%string
    |> set_ALPN (link_alpn q))).

(** ** ParseURI and ParseSubscription *)

(** The JSON decoders of the typed structures. *)
Record LinkDecoders := mkDecoders {
  unmarshal_config : string -> string + XrayConfigJSON;
  unmarshal_outbound : string -> option XrayOutbound;
  unmarshal_vmess : string -> option VMessLink }.

Definition ParseURI (dec : LinkDecoders) (rawURI : string) : result ServerProfile :=
  let trimmed := TrimSpace rawURI in
  if trimmed =s "" then inl "URI cannot be empty"%string
  else
    let lower := ToLower trimmed in
    if HasPrefix trimmed "{" then ParseXrayConfigJSON (unmarshal_config dec) (unmarshal_outbound dec) trimmed
    else if HasPrefix lower "vless://" then parseVLESS trimmed
    else if HasPrefix lower "vmess://" then parseVMess (unmarshal_vmess dec) trimmed
    else if HasPrefix lower "trojan://" then parseTrojan trimmed
    else if HasPrefix lower "hy2://" || HasPrefix lower "hysteria2://" then parseHysteria2 trimmed
    else if HasPrefix lower "ss://" then parseShadowsocks trimmed
    else if HasPrefix lower "tuic://" then parseTUIC trimmed
    else if HasPrefix lower "shadowtls://" then parseShadowTLS trimmed
    else if HasPrefix lower "wireguard://" || HasPrefix lower "wg://" then parseWireGuard trimmed
    else if HasPrefix lower "socks5://" || HasPrefix lower "socks://" then parseSocks trimmed
    else if HasPrefix lower "http://" || HasPrefix lower "https://" then parseHTTP trimmed
    else inl ("unsupported or unrecognized URI scheme: " ^^ trimmed).

(** The lines of a [bufio.Scanner] on a string: without their ends, up to the first
    that does not fit its buffer of 64 KiB; whether there was such a line. *)
Definition drop_cr (line : string) : string := TrimSuffix line (String (ascii_of_N 13) "").
Fixpoint scan_pieces (pieces : list string) : list string * bool :=
  match pieces with
  | [] | [EmptyString] => ([], false)
  | line :: pieces =>
      if (65536 <=? str_len line) then ([], true)
      else let '(lines, long) := scan_pieces pieces in (drop_cr line :: lines, long)
  end.
Definition scan_lines (s : string) : list string * bool := scan_pieces (SplitByte s (ascii_of_N 10)).

(** A text that decodes to links instead of one. *)
Definition decoded_links (s : string) : string :=
  match decodeBase64Safe s with
  | Some decoded => if Contains decoded "://" then decoded else s
  | None => s
  end.

Definition subscription_line (dec : LinkDecoders) (text : string) : option ServerProfile :=
  let line := TrimSpace text in
  if (line =s "") || HasPrefix line "#" || HasPrefix line "//" then None
  else
    let line := if Contains line "://" then line
                else match decodeBase64Safe line with
                     | Some decoded => if Contains decoded "://" then TrimSpace decoded else line
                     | None => line
                     end in
    match ParseURI dec line with inr p => Some p | inl _ => None end.

(** The profiles, and whether a line was too long ([bufio.ErrTooLong]). *)
Definition ParseSubscription (dec : LinkDecoders) (rawContent : string) : list ServerProfile * bool :=
  let trimmed := TrimSpace rawContent in
  if trimmed =s "" then ([], false)
  else
    let trimmed := if negb (Contains trimmed "://") && negb (Contains trimmed (String (ascii_of_N 10) ""))
                   then decoded_links trimmed else trimmed in
    let '(lines, long) := scan_lines trimmed in
    (omap (subscription_line dec) lines, long).
