(* ===== verification/Diagnostics.v ===== *)
(** * Diagnostics (src/pkg/diagnostics: ping.go, batch_ping.go, port_checker.go, health.go, ip_lookup.go)

    Pings, the self-check of the engine, and the race of services that tell the public
    address.  Dialling, listening, resolving, HTTP, JSON and translations are arguments. *)
From stdpp Require Import relations.
From S2P Require Import Prelude GoStrings GoFloat GoTime GoURL GoBase64 Crypto Concurrency ProxyProbe GoRegexp.
Import GoRegexp.
Open Scope Z_scope.

Module Diag.
Import Probe.

(** ** Pings (ping.go, batch_ping.go) *)

Record PingResult := mkPing { pr_Success : bool; pr_LatencyMs : float64; pr_Error : string }.
Definition milliseconds (us : Z) : float64 := SpecFloat.SFdiv 53 1024 (f64_of_Z us) (f64_of_Z 1000).

Section pings.
(** [net.DialTimeout]: its error, or the microseconds it takes. *)
Context (dial : string -> Z -> string + Z).
Definition PingHostPort (address : string) (port timeout : Z) : PingResult :=
  if address =s "" then mkPing false no_latency "address cannot be empty"
  else
    let port := if port <=? 0 then 443 else port in
    match dial (JoinHostPort address (Itoa port)) timeout with
    | inl e => mkPing false no_latency e
    | inr us => mkPing true (milliseconds us) ""
    end.

Record PingTarget := mkPingTarget { pt_ID : string; pt_Address : string; pt_Port : Z }.
Record BatchPingResult := mkBatchPing { br_ID : string; br_Address : string; br_Port : Z; br_Ping : PingResult }.
Definition ping_target (timeout : Z) (t : PingTarget) : BatchPingResult :=
  mkBatchPing (pt_ID t) (pt_Address t) (pt_Port t) (PingHostPort (pt_Address t) (pt_Port t) (if timeout <=? 0 then 2500 * Millisecond else timeout)).
Definition ping_limit (concurrency : Z) : nat := Z.to_nat (if concurrency <=? 0 then 16 else concurrency).
Definition ping_step (timeout concurrency : Z) := Pool.pool_step (ping_limit concurrency) (ping_target timeout).
Definition BatchPing (targets : list PingTarget) : list (Pool.cell PingTarget BatchPingResult) := Pool.pool_started targets.

(** All pings end, each result in the place of its target. *)
Lemma batch_ping_exact timeout concurrency targets :
  sn (ping_step timeout concurrency) (BatchPing targets) /\
  forall cells, rtc (ping_step timeout concurrency) (BatchPing targets) cells ->
    (Pool.in_use cells <= ping_limit concurrency)%nat /\
    (nf (ping_step timeout concurrency) cells -> Pool.results cells = Some (map (ping_target timeout) targets)).
Proof using Type. apply Pool.pool_result. unfold ping_limit. destruct (Z.leb_spec concurrency 0); lia. Qed.

(** [CheckRemoteReachable] of port_checker.go *)
Definition CheckRemoteReachable (host : string) (port timeout : Z) : string + Z := dial (JoinHostPort host (Itoa port)) timeout.
End pings.

(** The proxy of a request; [None] where [url.Parse] fails. *)
Definition proxy_text (socksPort : Z) (authUser authPass : string) : string :=
  if authUser <>s "" then "socks5://" ^^ QueryEscape authUser ^^ ":" ^^ QueryEscape authPass ^^ "@127.0.0.1:" ^^ Itoa socksPort
  else "socks5://127.0.0.1:" ^^ Itoa socksPort.
Inductive route := Directly | Through (proxy : URL).
Definition transport (socksPort : Z) (authUser authPass : string) : option route :=
  if 0 <? socksPort then option_map Through (url_Parse (proxy_text socksPort authUser authPass)) else Some Directly.

Section proxied.
(** A request through a route: its error, or the status and the microseconds it takes;
    [bad_url] is the error of [url.Parse], [bad_request] that of [http.NewRequest]. *)
Context (get : route -> Z -> string -> string + Z * Z) (bad_url : string) (bad_request : string -> option string).
Definition PingThroughProxy (socksPort : Z) (authUser authPass targetURL : string) (timeout : Z) : PingResult :=
  if (socksPort <? 0) || (65535 <? socksPort) then mkPing false no_latency ("invalid proxy port: " ^^ Itoa socksPort)
  else
    let targetURL := if targetURL =s "" then "http://cp.cloudflare.com/generate_204"%string else targetURL in
    let timeout := if timeout <=? 0 then 3000 * Millisecond else timeout in
    match transport socksPort authUser authPass with
    | None => mkPing false no_latency ("invalid proxy url: " ^^ bad_url)
    | Some r =>
        match bad_request targetURL with
        | Some e => mkPing false no_latency ("invalid request: " ^^ e)
        | None =>
            match get r timeout targetURL with
            | inl e => mkPing false no_latency (cleanNetError e)
            | inr (status, us) =>
                if (200 <=? status) && (status <? 400) then mkPing true (milliseconds us) ""
                else mkPing false (milliseconds us) ("HTTP status " ^^ Itoa status)
            end
        end
    end.
End proxied.

(** ** Ports and the self-check (port_checker.go, health.go) *)

Record PortCheckResult := mkPort { pc_Port : Z; pc_IsFree : bool; pc_Error : string }.
Record HealthCheckReport := mkHealth {
  Passed : bool; PortResults : list PortCheckResult; DNSResolving : bool; DNSLatencyMs : Z; CryptoVaultOK : bool; Issues : list string }.

Section health.
(** Whether a port of 127.0.0.1 can be bound; the addresses of a name with the time it
    takes, or no answer; the translations of the issues. *)
Context (listen : Z -> bool) (lookup : string -> option (list string * Z)) (issue : string -> string -> string).
Definition IsPortAvailable (port : Z) : bool := if (port <=? 0) || (65535 <? port) then false else listen port.
Definition CheckPorts (ports : list Z) : list PortCheckResult :=
  map (fun p => let free := IsPortAvailable p in
    mkPort p free (if free then "" else "Port " ^^ Itoa p ^^ " is currently in use by another process")) ports.

Definition port_issues (results : list PortCheckResult) : list string :=
  map (fun pr => issue "HEALTH_PORT_OCCUPIED_SIMPLE" (Itoa (pc_Port pr))) (List.filter (fun pr => negb (pc_IsFree pr)) results).
Definition dns_check (testHost : string) : bool * Z * list string :=
  let lookupHost := if testHost =s "" then "one.one.one.one"%string else testHost in
  match lookup lookupHost with
  | Some (_ :: _, ms) => (true, ms, [])
  | _ => (false, 0, [issue "HEALTH_DNS_LOOKUP_ERROR" lookupHost])
  end.
Definition testPlaintext : string := "sentinel_crypto_integrity_check".

(** The nonce is [None] where no random bytes can be read. *)
Context `{AEAD} (hmac_sha256 : string -> string -> string).
Definition vault_check (masterSecret : string) (nonce : option string) : bool * list string :=
  if masterSecret =s "" then (true, [])
  else
    match NewVault hmac_sha256 masterSecret with
    | inl e => (false, [issue "HEALTH_VAULT_INIT_FAIL" e])
    | inr vault =>
        match EncryptString vault nonce testPlaintext with
        | inl _ => (false, [issue "HEALTH_VAULT_ENCRYPT_FAIL" ""])
        | inr enc =>
            match DecryptString vault enc with
            | inr dec => if dec =s testPlaintext then (true, []) else (false, [issue "HEALTH_VAULT_DECRYPT_FAIL" ""])
            | inl _ => (false, [issue "HEALTH_VAULT_DECRYPT_FAIL" ""])
            end
        end
    end.
Definition RunHealthCheck (socksPort httpPort : Z) (testHost masterSecret : string) (nonce : option string) : HealthCheckReport :=
  let ports := CheckPorts [socksPort; httpPort] in
  let '(resolving, ms, dnsIssues) := dns_check testHost in
  let '(vaultOK, vaultIssues) := vault_check masterSecret nonce in
  mkHealth (forallb pc_IsFree ports && resolving && vaultOK) ports resolving ms vaultOK (port_issues ports ++ dnsIssues ++ vaultIssues).
End health.

(** The self-check passes exactly when both ports can be bound, the name resolves and random
    bytes can be read (or there is no secret), and then it has no issue. *)
Section health_facts.
Context (listen : Z -> bool) (lookup : string -> option (list string * Z)) (issue : string -> string -> string).
Context `{AEADLaws} (hmac_sha256 : string -> string -> string) (hmac_length : forall k m, String.length (hmac_sha256 k m) = 32%nat).
Lemma vault_check_passes secret nonce : (forall n, nonce = Some n -> String.length n = nonce_size) ->
  (vault_check issue hmac_sha256 secret nonce).1 = true <-> secret = ""%string \/ is_some nonce = true.
Proof using H0 hmac_length.
  intros Hn. unfold vault_check, NewVault, DeriveKeyFromSecret. destruct (String.eqb_spec secret "") as [->|Hne]; [split; [by left|done]|].
  pose proof (derived_is_key hmac_sha256 hmac_length secret "sentinel-vault-master-key-salt" 100000) as Hk. revert Hk.
  generalize (DeriveKeyPBKDF2 hmac_sha256 secret "sentinel-vault-master-key-salt" 100000) as key. intros key Hk.
  unfold EncryptString, DecryptString. cbn [vault_key]. destruct nonce as [n|].
  - destruct (encrypt_decrypt key n testPlaintext Hk (Hn n eq_refl)) as (s & -> & _ & ->). rewrite String.eqb_refl. split; [by right|done].
  - unfold EncryptAEAD. rewrite Hk. split; [done|]. by intros [?|?].
Qed.
Lemma vault_check_issues secret nonce : (vault_check issue hmac_sha256 secret nonce).1 = true -> (vault_check issue hmac_sha256 secret nonce).2 = [].
Proof using Type.
  unfold vault_check. destruct (secret =s ""); [done|]. destruct (NewVault _ _) as [|v]; [done|]. destruct (EncryptString _ _ _); [done|].
  destruct (DecryptString _ _) as [|d]; [done|]. by destruct (d =s testPlaintext).
Qed.
Lemma dns_check_passes host : (dns_check lookup issue host).1.1 = true <->
  exists ip ips ms, lookup (if host =s "" then "one.one.one.one"%string else host) = Some (ip :: ips, ms).
Proof using Type.
  unfold dns_check. destruct (lookup _) as [[[|ip ips] ms]|]; split; try done; try (by intros (? & ? & ? & ?)). intros _. by exists ip, ips, ms.
Qed.
Lemma health_check_passes socksPort httpPort host secret nonce : (forall n, nonce = Some n -> String.length n = nonce_size) ->
  let report := RunHealthCheck listen lookup issue hmac_sha256 socksPort httpPort host secret nonce in
  (Passed report = true <->
    IsPortAvailable listen socksPort = true /\ IsPortAvailable listen httpPort = true /\
    (exists ip ips ms, lookup (if host =s "" then "one.one.one.one"%string else host) = Some (ip :: ips, ms)) /\
    (secret = ""%string \/ is_some nonce = true)) /\
  (Passed report = true -> Issues report = []).
Proof using H0 hmac_length.
  intros Hn. cbv zeta. unfold RunHealthCheck. pose proof (dns_check_passes host) as Hd. pose proof (vault_check_passes secret nonce Hn) as Hv.
  pose proof (vault_check_issues secret nonce) as Hi.
  assert (Hdi : (dns_check lookup issue host).1.1 = true -> (dns_check lookup issue host).2 = []).
  { unfold dns_check. by destruct (lookup _) as [[[|] ?]|]. }
  destruct (dns_check lookup issue host) as [[resolving ms] di], (vault_check issue hmac_sha256 secret nonce) as [ok vi]. cbn [fst snd] in *.
  cbn [Passed Issues CheckPorts map forallb pc_IsFree port_issues List.filter]. rewrite <- Hd, <- Hv.
  destruct (IsPortAvailable listen socksPort), (IsPortAvailable listen httpPort), resolving, ok; cbn; split; try (split; [by intros ?|by intros (? & ? & ? & ?)]); try done.
  intros _. by rewrite Hdi, Hi.
Qed.
End health_facts.

(** ** The public address (ip_lookup.go) *)

Record PublicIPInfo := mkInfo { IP : string; Country : string; CountryCode : string; City : string; Region : string; Org : string; ASN : string }.

Definition ipv4Regex : Regexp :=
  regexp "\b(?:(?:25[0-5]|2[0-4][0-9]|[01]?[0-9][0-9]?)\.){3}(?:25[0-5]|2[0-4][0-9]|[01]?[0-9][0-9]?)\b".
Definition ipv6Regex : Regexp := regexp "\b(?:[A-Fa-f0-9]{1,4}:){7}[A-Fa-f0-9]{1,4}\b".
Definition FindString (re : Regexp) (s : string) : string := match FindAllString re s with m :: _ => m | [] => "" end.

(** The answers of the services that speak JSON, decoded; [inl] is the error of the decoder. *)
Record IpWho := mkIpWho { iw_Success : bool; iw_IP : string; iw_Country : string; iw_CountryCode : string; iw_City : string; iw_Region : string;
  iw_ASN : string; iw_Org : string; iw_ISP : string }.
Record IfConfig := mkIfConfig { ic_IP : string; ic_Country : string; ic_CountryCode : string; ic_City : string; ic_ASN : string; ic_Org : string }.
Record MyIp := mkMyIp { mi_IP : string; mi_CountryName : string; mi_CountryCode : string; mi_City : string; mi_ASNName : string }.
Record IpInfo := mkIpInfo { ii_IP : string; ii_City : string; ii_Region : string; ii_Country : string; ii_Org : string }.
Record IPDecoders := mkIPDecoders {
  decode_ipwho : string -> string + IpWho;
  decode_ifconfig : string -> string + IfConfig;
  decode_ipify : string -> string + string;
  decode_myip : string -> string + MyIp;
  decode_ipinfo : string -> string + IpInfo }.

(** The caller takes as many results as there are services, up to the first address. *)
Definition take (m : nat * option string) (r : option (string + PublicIPInfo)) : (nat * option string) + (string + PublicIPInfo) :=
  match r with
  | Some (inr info) => inr (inr info)
  | Some (inl e) => match m.1 with S (S n) => inl (S n, Some e) | _ => inr (inl e) end
  | None => inr (inl "failed to resolve public IP from all endpoints"%string)
  end.
Lemma run_found m bs info : Race.run take m bs = inr (inr info) -> inr info ∈ bs.
Proof.
  revert m. induction bs as [|b bs IH]; intros m; [done|]. rewrite Race.run_cons. destruct b as [e|i]; cbn [take].
  - destruct m.1 as [|[|n]]; try done. intros H. right. by eapply IH.
  - intros [= ->]. by left.
Qed.
Lemma run_going m bs m' : Race.run take m bs = inl m' -> Forall (fun b => exists e, b = inl e) bs.
Proof.
  revert m. induction bs as [|b bs IH]; intros m; [constructor|]. rewrite Race.run_cons. destruct b as [e|i]; cbn [take]; [|done].
  intros H. constructor; [by exists e|]. destruct m.1 as [|[|n]]; [done..|]. by eapply IH.
Qed.
(** After as many errors as services the last is returned. *)
Lemma run_failed m bs e : Race.run take m bs = inr (inl e) -> (0 < m.1)%nat ->
  (m.1 <= length bs)%nat /\ forall i, (i < m.1)%nat -> exists e', bs !! i = Some (inl e').
Proof.
  revert m. induction bs as [|b bs IH]; intros m; [done|]. rewrite Race.run_cons. destruct b as [e'|i]; cbn [take]; [|done].
  destruct m as [[|[|n]] last]; cbn [fst]; intros H Hm; [lia| |].
  - split; [cbn; lia|]. intros i Hi. assert (i = 0%nat) as -> by lia. by exists e'.
  - destruct (IH (S n, Some e') H) as [Hl Hb]; [cbn; lia|]. cbn [fst length] in *. split; [lia|].
    intros [|i] Hi; [by exists e'|]. apply Hb. lia.
Qed.

Section lookups.
Context (dec : IPDecoders).
Definition parse_ipwho (body : string) : string + PublicIPInfo :=
  match decode_ipwho dec body with
  | inl e => inl e
  | inr r => if negb (iw_Success r) && (iw_IP r =s "") then inl "ipwho.is returned failure"%string
             else inr (mkInfo (iw_IP r) (iw_Country r) (iw_CountryCode r) (iw_City r) (iw_Region r) (if iw_Org r =s "" then iw_ISP r else iw_Org r) (iw_ASN r))
  end.
Definition parse_ifconfig (body : string) : string + PublicIPInfo :=
  match decode_ifconfig dec body with
  | inl e => inl e
  | inr r => if ic_IP r =s "" then inl "empty IP from ifconfig.co"%string
             else inr (mkInfo (ic_IP r) (ic_Country r) (ic_CountryCode r) (ic_City r) "" (ic_Org r) (ic_ASN r))
  end.
Definition parse_ipify (body : string) : string + PublicIPInfo :=
  match decode_ipify dec body with
  | inl e => inl e
  | inr ip => if ip =s "" then inl "empty IP from ipify"%string else inr (mkInfo ip "" "" "" "" "" "")
  end.
Definition parse_myip (body : string) : string + PublicIPInfo :=
  match decode_myip dec body with
  | inl e => inl e
  | inr r => if mi_IP r =s "" then inl "empty IP from my-ip.io"%string
             else inr (mkInfo (mi_IP r) (mi_CountryName r) (mi_CountryCode r) (mi_City r) "" (mi_ASNName r) "")
  end.
Definition parse_ipinfo (body : string) : string + PublicIPInfo :=
  match decode_ipinfo dec body with
  | inl e => inl e
  | inr r => if ii_IP r =s "" then inl "empty IP from ipinfo.io"%string
             else inr (mkInfo (ii_IP r) (ii_Country r) (ii_Country r) (ii_City r) (ii_Region r) (ii_Org r) "")
  end.
Definition parse_checkip (body : string) : string + PublicIPInfo :=
  let text := TrimSpace body in
  let found := FindString ipv4Regex text in
  let found := if found =s "" then FindString ipv6Regex text else found in
  if found =s "" then inl "no valid IP found in amazonaws response"%string else inr (mkInfo found "" "" "" "" "" "").

Record ipEndpoint := mkEndpoint { ep_URL : string; Parser : string -> string + PublicIPInfo }.
Definition defaultIPEndpoints : list ipEndpoint :=
  [mkEndpoint "https://ipwho.is/?output=json" parse_ipwho; mkEndpoint "https://ifconfig.co/json" parse_ifconfig;
   mkEndpoint "https://api.ipify.org?format=json" parse_ipify; mkEndpoint "https://api4.my-ip.io/v2/ip.json" parse_myip;
   mkEndpoint "https://ipinfo.io/json" parse_ipinfo; mkEndpoint "https://checkip.amazonaws.com" parse_checkip].

(** The error of a request, or its status and its body of at most 64 KiB, which may end
    with an error; [gone] is the error of a request that is cut off. *)
Context (get : string -> string + Z * (string + string)) (gone : string).
Definition fetch (ep : ipEndpoint) : string + PublicIPInfo :=
  match get (ep_URL ep) with
  | inl e => inl e
  | inr (status, body) =>
      if (status <? 200) || (300 <=? status) then inl ("http status " ^^ Itoa status)
      else
        match body with
        | inl e => inl e
        | inr body =>
            match Parser ep (str_take (1024 * 64) body) with
            | inl e => inl ("parse error: " ^^ e)
            | inr info => if IP info =s "" then inl "parse error: <nil>"%string else inr info
            end
        end
  end.
Definition lookup_step := Race.step (length defaultIPEndpoints) false (fun ep => Some (fetch ep)) (fun _ => Some (inl gone)) take (inl "public IP fetch timeout: context deadline exceeded"%string).
Definition GetPublicIP : Race.race ipEndpoint (string + PublicIPInfo) (nat * option string) (string + PublicIPInfo) :=
  Race.started defaultIPEndpoints (length defaultIPEndpoints, None).

(** However the answers of the services arrive, a look-up of the public address ends: with
    what one of the services told, an address that is not empty, or with an error, and then
    the deadline has passed or every service has failed. *)
Theorem public_ip_exact :
  sn lookup_step GetPublicIP /\
  forall s, rtc lookup_step GetPublicIP s -> nf lookup_step s ->
    exists r, Race.main s = inr r /\
      match r with
      | inr info => IP info <> ""%string /\ exists ep, ep ∈ defaultIPEndpoints /\ fetch ep = inr info
      | inl _ => Race.expired s = true \/ forall ep, ep ∈ defaultIPEndpoints -> exists e, fetch ep = inl e
      end.
Proof using Type.
  set (answer := fun ep => Some (fetch ep)). set (late := inl "public IP fetch timeout: context deadline exceeded"%string : string + PublicIPInfo).
  set (n := length defaultIPEndpoints). set (l := defaultIPEndpoints).
  assert (Hend : forall m, Race.is_over (take m None) = true) by done.
  destruct (Race.race_result n false answer (fun _ => Some (inl gone)) take late Hend l (n, None)) as [Hsn Hres].
  split; [exact Hsn|]. intros s Hr Hnf. destruct (Hres s Hr Hnf) as [r Ho]. exists r. split; [done|].
  destruct (Race.race_outcome n false answer (fun _ => Some (inl gone)) take late Hend l (n, None) s r (le_n _) Hr Ho)
    as (taken & Hs & Hsub & Hout).
  assert (Hall : omap answer l = map fetch l) by (unfold answer; clear; by induction l as [|ep l IH]; [|cbn; rewrite IH]).
  assert (Hlate : forall e, taken ≡ₚ omap answer l -> Forall (fun b => exists e, b = inl e) taken -> r = inl e ->
    forall ep, ep ∈ l -> exists e, fetch ep = inl e).
  { intros e Hp Hf _ ep Hep. rewrite Hall in Hp. rewrite Hp, Forall_forall in Hf. apply Hf. by apply list_elem_of_fmap_2. }
  destruct r as [e|info].
  - destruct (Race.expired s) eqn:Ex; [by left|right]. specialize (Hsub eq_refl). destruct Hout as [Hrun|(m & Hm & [[_ ?]|[_ Hp]])]; [|done|].
    + apply run_failed in Hrun as [Hl Hb]; [|unfold n; cbn; lia]. cbn [fst] in *.
      assert (Hp : taken ≡ₚ omap answer l).
      { apply submseteq_length_Permutation; [done|]. rewrite Hall, length_map. unfold n in Hl. fold l in Hl. lia. }
      apply (Hlate e Hp); [|done]. apply Forall_lookup. intros i b Hi. pose proof (lookup_lt_Some _ _ _ Hi) as Hlt.
      apply submseteq_length in Hsub. rewrite Hall, length_map in Hsub. destruct (Hb i) as [e' He']; [unfold n; fold l; lia|].
      rewrite Hi in He'. injection He' as ->. by exists e'.
    + apply run_going in Hm. by apply (Hlate e (Hp eq_refl)).
  - assert (Hin : inr info ∈ taken).
    { destruct Hout as [Hrun|(m & _ & [[H _]|[H _]])]; [by eapply run_found|unfold late in H; done|done]. }
    destruct (Hs _ Hin) as (ep & Hep & [[= Hf]|[=]]). split; [|by exists ep].
    unfold fetch in Hf. destruct (get _) as [|[status [|body]]]; [done|by destruct (_ || _)|]. destruct (_ || _); [done|].
    destruct (Parser ep _) as [|i]; [done|]. destruct (String.eqb_spec (IP i) ""); [done|]. by injection Hf as <-.
Qed.
End lookups.

(** ** On concrete inputs *)

(** A user name with a blank reaches the proxy with a plus sign: names are escaped as parts
    of a query, and read as the user of a URL. *)
Example blank_becomes_plus :
  match transport 1080 "my user" "secret" with Some (Through u) => url_user u | _ => None end = Some (mkUser "my+user" (Some "secret"%string)).
Proof. by vm_compute. Qed.

(** A port that is none is reported as used by another process. *)
Example no_port_in_use : map pc_Error (CheckPorts (fun _ => true) [0]) = ["Port 0 is currently in use by another process"%string].
Proof. by vm_compute. Qed.

(** Only addresses of version 6 that are written in full are found. *)
Example short_ipv6_missed :
  (parse_checkip "2001:db8::1", option_map IP (match parse_checkip "2001:db8:0:0:0:0:0:1" with inr i => Some i | _ => None end)) =
  (inl "no valid IP found in amazonaws response"%string, Some "2001:db8:0:0:0:0:0:1"%string).
Proof. by vm_compute. Qed.
End Diag.
