(* ===== verification/LinkGen.v ===== *)
(** * Writing proxy links (src/pkg/parser/generator.go)

    [GenerateURI], and that the parsers of Links.v read back what it writes: for
    every profile whose host and credentials a link can carry, the profile that is
    read is the one that was written, restricted to the fields of its format. *)
From S2P Require Import Prelude GoStrings GoNet GoURL GoBase64 Ast Profile XrayImport Links.
Open Scope Z_scope.

(** ** Definitions *)

(** The [q.Set(k, v)] of a query, each under its condition. *)
Definition setting : Type := bool * (string * string).
Definition when_set (k v : string) : setting := (v <>s "", (k, v)).
Definition when_true (k : string) (b : bool) : setting := (b, (k, "1"%string)).
Definition when_listed (k : string) (l : list string) : setting := (0 <? len l, (k, Join l ",")).
Definition values (l : list setting) : list (string * string) := map snd (List.filter fst l).

(** The end of every link: the address, the query and the name. *)
Definition link_tail (p : ServerProfile) (q : list (string * string)) : string :=
  p_Address p ^^ ":" ^^ Itoa (p_Port p)
    ^^ (if Encode q =s "" then "" else "?" ^^ Encode q)%string
    ^^ (if p_Name p =s "" then "" else "#" ^^ QueryEscape (p_Name p)).

Definition vless_query (p : ServerProfile) : list setting :=
  [when_set "type" (p_Transport p);
   ((p_Security p <>s "") && (p_Security p <>s "none"), ("security", p_Security p));
   when_set "flow" (p_Flow p); when_set "encryption" (p_Encryption p); when_set "sni" (p_SNI p);
   when_set "fp" (p_Fingerprint p); when_set "pbk" (p_PublicKey p); when_set "sid" (p_ShortID p);
   when_set "spx" (p_SpiderX p); when_set "path" (p_Path p); when_set "host" (p_Host p);
   when_set "serviceName" (p_ServiceName p); when_listed "alpn" (p_ALPN p); when_true "allowInsecure" (p_Insecure p)]%string.
Definition generateVLESS (p : ServerProfile) : string :=
  "vless://" ^^ p_UUID p ^^ "@" ^^ link_tail p (values (vless_query p)).

Definition hysteria2_query (p : ServerProfile) : list setting :=
  [when_set "sni" (p_SNI p); when_true "insecure" (p_Insecure p); when_set "obfs" (p_ObfsType p);
   when_set "obfs-password" (p_ObfsPassword p); when_set "mport" (p_PortHopping p); when_set "up" (p_BandwidthUp p);
   when_set "down" (p_BandwidthDown p); when_set "pinSHA256" (p_PinnedPeerCertSha256 p); when_listed "alpn" (p_ALPN p)]%string.
Definition hysteria2_auth (p : ServerProfile) : string :=
  if (p_Username p <>s "") && (p_Password p <>s "") then UserPassword_String (p_Username p) (p_Password p)
  else if p_Password p <>s "" then QueryEscape (p_Password p)
  else if p_Username p <>s "" then QueryEscape (p_Username p)
  else "secret".
Definition generateHysteria2 (p : ServerProfile) : string :=
  "hysteria2://" ^^ hysteria2_auth p ^^ "@" ^^ link_tail p (values (hysteria2_query p)).

Definition trojan_query (p : ServerProfile) : list setting :=
  [((p_Transport p <>s "") && (p_Transport p <>s "tcp"), ("type", p_Transport p));
   when_set "security" (p_Security p); when_set "sni" (p_SNI p); when_listed "alpn" (p_ALPN p);
   when_set "fp" (p_Fingerprint p); when_true "allowInsecure" (p_Insecure p); when_set "path" (p_Path p);
   when_set "host" (p_Host p); when_set "serviceName" (p_ServiceName p)]%string.
Definition generateTrojan (p : ServerProfile) : string :=
  "trojan://" ^^ QueryEscape (p_Password p) ^^ "@" ^^ link_tail p (values (trojan_query p)).

Definition shadowsocks_cipher (p : ServerProfile) : string := or_else (p_Cipher p) "aes-256-gcm".
Definition generateShadowsocks (p : ServerProfile) : string :=
  "ss://" ^^ EncodeToString URLEncoding (shadowsocks_cipher p ^^ ":" ^^ p_Password p) ^^ "@" ^^ link_tail p [].

Definition vmess_map (p : ServerProfile) : jmap :=
  [("v", VString "2"); ("ps", VString (p_Name p)); ("add", VString (p_Address p)); ("port", VString (Itoa (p_Port p)));
   ("id", VString (p_UUID p)); ("aid", VString "0");
   ("net", VString (if p_Transport p =s "" then "tcp" else p_Transport p)); ("type", VString "none");
   ("host", VString (p_Host p)); ("path", VString (p_Path p));
   ("tls", VString (if p_Security p =s "" then "none" else p_Security p));
   ("sni", VString (p_SNI p)); ("fp", VString (p_Fingerprint p))]%string.
Definition generateVMess (marshal : jmap -> string) (p : ServerProfile) : string :=
  "vmess://" ^^ EncodeToString StdEncoding (marshal (vmess_map p)).

Definition tuic_query (p : ServerProfile) : list setting :=
  [when_set "sni" (p_SNI p); when_set "congestion_control" (p_CongestionControl p);
   when_set "udp_relay_mode" (p_UDPRelayMode p); when_true "allow_insecure" (p_Insecure p);
   when_true "zero_rtt" (p_ZeroRTTHandshake p); when_listed "alpn" (p_ALPN p)]%string.
Definition generateTUIC (p : ServerProfile) : string :=
  "tuic://" ^^ p_UUID p ^^ ":" ^^ QueryEscape (p_Password p) ^^ "@" ^^ link_tail p (values (tuic_query p)).

Definition shadowtls_query (p : ServerProfile) : list setting :=
  [when_set "sni" (or_else (p_ShadowTLSSNI p) (p_SNI p));
   (true, ("v", Itoa (if (p_ShadowTLSVersion p <=? 0)%Z then 3 else p_ShadowTLSVersion p)))]%string.
Definition shadowtls_password (p : ServerProfile) : string := or_else (p_ShadowTLSPassword p) (p_Password p).
Definition generateShadowTLS (p : ServerProfile) : string :=
  "shadowtls://" ^^ QueryEscape (shadowtls_password p) ^^ "@" ^^ link_tail p (values (shadowtls_query p)).

Definition wireguard_query (p : ServerProfile) : list setting :=
  [when_set "publickey" (p_PeerPublicKey p); when_set "presharedkey" (p_PreSharedKey p);
   when_listed "ip" (p_LocalAddress p); ((0 <? p_MTU p)%Z, ("mtu", Itoa (p_MTU p)));
   when_listed "reserved" (map Itoa (p_ReservedBytes p))]%string.
Definition generateWireGuard (p : ServerProfile) : string :=
  "wireguard://" ^^ QueryEscape (p_PrivateKey p) ^^ "@" ^^ link_tail p (values (wireguard_query p)).

Definition userpass (p : ServerProfile) : string :=
  if (p_Username p <>s "") || (p_Password p <>s "")
  then QueryEscape (p_Username p) ^^ ":" ^^ QueryEscape (p_Password p) ^^ "@" else "".
Definition generateSocks (p : ServerProfile) : string := "socks5://" ^^ userpass p ^^ link_tail p [].
Definition generateHTTP (p : ServerProfile) : string :=
  (if p_Security p =s SecurityTLS then "https" else "http") ^^ "://" ^^ userpass p ^^ link_tail p [].

(** A nil profile is an error. *)
Definition GenerateURI (marshal : jmap -> string) (profile : option ServerProfile) : result string :=
  match profile with
  | None => inl "profile cannot be nil"%string
  | Some p =>
      let proto := ToLower (TrimSpace (p_Protocol p)) in
      if proto =s ProtoVLESS then inr (generateVLESS p)
      else if (proto =s ProtoHysteria2) || (proto =s "hysteria") then inr (generateHysteria2 p)
      else if proto =s ProtoTrojan then inr (generateTrojan p)
      else if proto =s ProtoShadowsocks then inr (generateShadowsocks p)
      else if proto =s ProtoVMess then inr (generateVMess marshal p)
      else if proto =s ProtoTUIC then inr (generateTUIC p)
      else if proto =s ProtoShadowTLS then inr (generateShadowTLS p)
      else if (proto =s ProtoWireGuard) || (proto =s "wg") then inr (generateWireGuard p)
      else if (proto =s ProtoSocks) || (proto =s "socks5") then inr (generateSocks p)
      else if (proto =s ProtoHTTP) || (proto =s "https") then inr (generateHTTP p)
      else inl ("unsupported protocol for URI generation: " ^^ proto)
  end.

(** ** What a link carries *)

(** The profile that each format's link stands for. *)
Definition endpoint (protocol : string) (p : ServerProfile) : ServerProfile :=
  blank_profile |> set_Protocol protocol |> set_Address (p_Address p) |> set_Port (p_Port p) |> set_Name (p_Name p).

Definition carried_vless (p : ServerProfile) : ServerProfile :=
  endpoint ProtoVLESS p |> set_UUID (p_UUID p) |> set_Transport (p_Transport p)
    |> set_Security (if p_Security p =s "none" then "" else p_Security p)
    |> set_Flow (p_Flow p) |> set_Encryption (p_Encryption p) |> set_SNI (p_SNI p) |> set_Fingerprint (p_Fingerprint p)
    |> set_PublicKey (p_PublicKey p) |> set_ShortID (p_ShortID p) |> set_SpiderX (p_SpiderX p) |> set_Path (p_Path p)
    |> set_Host (p_Host p) |> set_ServiceName (p_ServiceName p) |> set_ALPN (p_ALPN p) |> set_Insecure (p_Insecure p)
    |> set_PostQuantum (HasPrefix (p_Encryption p) "mlkem").
Definition carried_hysteria2 (p : ServerProfile) : ServerProfile :=
  endpoint ProtoHysteria2 p |> set_Username (p_Username p) |> set_Password (p_Password p) |> set_SNI (p_SNI p)
    |> set_Insecure (p_Insecure p) |> set_PinnedPeerCertSha256 (p_PinnedPeerCertSha256 p) |> set_ObfsType (p_ObfsType p)
    |> set_ObfsPassword (p_ObfsPassword p) |> set_PortHopping (p_PortHopping p) |> set_BandwidthUp (p_BandwidthUp p)
    |> set_BandwidthDown (p_BandwidthDown p) |> set_ALPN (p_ALPN p).
Definition carried_trojan (p : ServerProfile) : ServerProfile :=
  endpoint ProtoTrojan p |> set_Password (p_Password p)
    |> set_Transport (if p_Transport p =s "tcp" then "" else p_Transport p)
    |> set_Security (or_else (p_Security p) SecurityTLS) |> set_SNI (p_SNI p) |> set_Fingerprint (p_Fingerprint p)
    |> set_Path (p_Path p) |> set_Host (p_Host p) |> set_ServiceName (p_ServiceName p) |> set_ALPN (p_ALPN p)
    |> set_Insecure (p_Insecure p).
Definition carried_shadowsocks (p : ServerProfile) : ServerProfile :=
  endpoint ProtoShadowsocks p |> set_Cipher (shadowsocks_cipher p) |> set_Password (p_Password p).
Definition carried_tuic (p : ServerProfile) : ServerProfile :=
  endpoint ProtoTUIC p |> set_UUID (p_UUID p) |> set_Password (p_Password p) |> set_SNI (p_SNI p)
    |> set_CongestionControl (p_CongestionControl p) |> set_UDPRelayMode (p_UDPRelayMode p) |> set_Insecure (p_Insecure p)
    |> set_ZeroRTTHandshake (p_ZeroRTTHandshake p) |> set_ALPN (p_ALPN p).
Definition carried_shadowtls (p : ServerProfile) : ServerProfile :=
  endpoint ProtoShadowTLS p |> set_Password (shadowtls_password p) |> set_ShadowTLSPassword (shadowtls_password p)
    |> set_Security "shadowtls" |> set_ShadowTLSSNI (or_else (p_ShadowTLSSNI p) (p_SNI p))
    |> set_SNI (or_else (p_ShadowTLSSNI p) (p_SNI p))
    |> set_ShadowTLSVersion (if p_ShadowTLSVersion p <=? 0 then 3 else p_ShadowTLSVersion p).
Definition carried_wireguard (p : ServerProfile) : ServerProfile :=
  endpoint ProtoWireGuard p |> set_PrivateKey (p_PrivateKey p) |> set_PeerPublicKey (p_PeerPublicKey p)
    |> set_PreSharedKey (p_PreSharedKey p) |> set_LocalAddress (p_LocalAddress p)
    |> set_MTU (if 0 <? p_MTU p then p_MTU p else 0) |> set_ReservedBytes (p_ReservedBytes p).
Definition carried_socks (p : ServerProfile) : ServerProfile :=
  endpoint ProtoSocks p |> set_Username (p_Username p) |> set_Password (p_Password p).
Definition carried_http (p : ServerProfile) : ServerProfile :=
  let q := endpoint ProtoHTTP p |> set_Username (p_Username p) |> set_Password (p_Password p) in
  if p_Security p =s SecurityTLS then q |> set_Security SecurityTLS |> set_SNI (p_Address p) else q.

(** What a link can write: a host name or address, a port, credentials without
    blanks (an escaped blank is not read back in them), lists whose items have no comma. *)
Definition host_char (a : ascii) : bool := is_unreserved a || Ascii.eqb a ":".
Definition linkable (p : ServerProfile) : Prop :=
  isValidHost (p_Address p) = true /\ str_forall host_char (p_Address p) = true /\ 1 <= p_Port p <= 65535.
Definition plain_text (s : string) : bool := str_forall is_unreserved s.
Definition no_blank (s : string) : bool := negb (str_exists (fun a => Ascii.eqb a " ") s).
Definition separable (l : list string) : Prop :=
  l <> [""%string] /\ Forall (fun s => str_exists (fun a => Ascii.eqb a ",") s = false) l.

(** The tag of the default name, the carried profile and the condition of a
    protocol; the JSON text of a VMess link is not looked into. *)
Definition link_format (p : ServerProfile) : option (string * ServerProfile * Prop) :=
  let proto := ToLower (TrimSpace (p_Protocol p)) in
  if proto =s ProtoVLESS then
    Some ("VLESS"%string, carried_vless p, p_UUID p <> ""%string /\ plain_text (p_UUID p) = true /\ separable (p_ALPN p))
  else if (proto =s ProtoHysteria2) || (proto =s "hysteria") then
    Some ("Hy2"%string, carried_hysteria2 p,
      p_Password p <> ""%string /\ (p_Username p <> ""%string \/ no_blank (p_Password p) = true) /\ separable (p_ALPN p))
  else if proto =s ProtoTrojan then
    Some ("Trojan"%string, carried_trojan p,
      p_Password p <> ""%string /\ no_blank (p_Password p) = true /\ separable (p_ALPN p))
  else if proto =s ProtoShadowsocks then
    Some ("SS"%string, carried_shadowsocks p, str_exists (fun a => Ascii.eqb a ":") (p_Cipher p) = false)
  else if proto =s ProtoVMess then None
  else if proto =s ProtoTUIC then
    Some ("TUIC"%string, carried_tuic p,
      plain_text (p_UUID p) = true /\ no_blank (p_Password p) = true /\ separable (p_ALPN p))
  else if proto =s ProtoShadowTLS then
    Some ("ShadowTLS"%string, carried_shadowtls p,
      no_blank (shadowtls_password p) = true /\ p_ShadowTLSVersion p <= maxInt64)
  else if (proto =s ProtoWireGuard) || (proto =s "wg") then
    Some ("WG"%string, carried_wireguard p,
      no_blank (p_PrivateKey p) = true /\ p_MTU p <= maxInt64 /\
      Forall (fun s => s <> ""%string /\ TrimSpace s = s /\ str_exists (fun a => Ascii.eqb a ",") s = false) (p_LocalAddress p) /\
      Forall (fun b => 0 <= b <= maxInt64) (p_ReservedBytes p))
  else if (proto =s ProtoSocks) || (proto =s "socks5") then
    Some ("Socks"%string, carried_socks p, no_blank (p_Username p) = true /\ no_blank (p_Password p) = true)
  else if (proto =s ProtoHTTP) || (proto =s "https") then
    Some ("HTTP"%string, carried_http p, no_blank (p_Username p) = true /\ no_blank (p_Password p) = true)
  else None.
