(* ===== verification/LinkRoundTrip.v ===== *)
(** * A written link is read back (src/pkg/parser)

    For every format but VMess, [ParseURI] of what [GenerateURI] writes is the
    profile restricted to the fields of the format. *)
From S2P Require Import Prelude GoStrings GoNet GoURL URLFacts GoBase64 Ast Profile XrayImport Links LinkGen.
Open Scope Z_scope.

(** ** The host and the port *)

Lemma str_forall_no p q s : (forall a, p a = true -> q a = false) -> str_forall p s = true -> str_exists q s = false.
Proof.
  intros Hpq. unfold str_forall. rewrite negb_true_iff. induction s as [|a s IH]; [done|]. cbn [str_exists].
  intros [Ha Hs]%orb_false_iff. rewrite IH by done. apply negb_false_iff in Ha. by rewrite (Hpq a Ha).
Qed.

Lemma str_exists_forall p q s : (forall a, q a = false -> p a = true) -> str_exists q s = false -> str_forall p s = true.
Proof.
  intros Hpq. unfold str_forall. rewrite negb_true_iff. induction s as [|a s IH]; [done|]. cbn [str_exists].
  intros [Ha Hs]%orb_false_iff. rewrite IH by done. by rewrite (Hpq a Ha).
Qed.

Lemma unescape_host f s : str_exists (fun a => negb (host_char a)) s = false -> (String.length s <= f)%nat ->
  unescape EncodeHost f s = Some s.
Proof.
  revert f. induction s as [|a s IH]; intros f Hs Hf; [by destruct f|]. destruct f as [|f]; [cbn in Hf; lia|].
  cbn [str_exists String.length] in *. apply orb_false_iff in Hs as [Ha Hs]. apply negb_false_iff in Ha.
  assert (E : unescape EncodeHost (S f) (String a s) = option_map (String a) (unescape EncodeHost f s)).
  { clear -Ha. destruct a as [[] [] [] [] [] [] [] []]; first [reflexivity | by vm_compute in Ha]. }
  rewrite E, IH; [done|done|lia].
Qed.

Lemma digit_host_char : forall a, is_digit a = true -> host_char a = true.
Proof. by_char. Qed.

Section Host.
Context (p : ServerProfile) (Hp : linkable p).
Definition hostport : string := p_Address p ^^ String ":" (Itoa (p_Port p)).

Lemma hostport_no q : (forall a, host_char a = true -> q a = false) -> str_exists q hostport = false.
Proof.
  intros Hq. destruct Hp as (_ & Ha & Hport). unfold hostport. rewrite str_exists_app. cbn [str_exists].
  rewrite (str_forall_no _ _ _ Hq Ha), (Hq ":"%char eq_refl), Itoa_only; [done|lia|].
  intros a Hd. by apply Hq, digit_host_char.
Qed.

Lemma hostport_special : str_exists url_special hostport = false.
Proof. apply hostport_no. by_char. Qed.

Lemma port_text_valid : validOptionalPort (String ":" (Itoa (p_Port p))) = true.
Proof.
  destruct Hp as (_ & _ & Hport). cbn [validOptionalPort]. apply (str_exists_forall _ (fun a => negb (is_digit a))).
  - intros a. by destruct (is_digit a).
  - apply Itoa_only; [lia|]. by intros a ->.
Qed.

Lemma port_no_colon : str_exists (fun a => Ascii.eqb a ":") (Itoa (p_Port p)) = false.
Proof. destruct Hp as (_ & _ & Hport). apply Itoa_only; [lia|]. intros a Ha. by apply is_digit_ne. Qed.

Lemma address_start : p_Address p <> "" /\ HasPrefix (p_Address p) "[" = false.
Proof.
  destruct Hp as (Hv & Ha & _). destruct (p_Address p) as [|a s]; [done|]. split; [done|].
  unfold str_forall in Ha. cbn [str_exists] in Ha. apply negb_true_iff, orb_false_iff in Ha as [Ha _].
  clear -Ha. destruct a as [[] [] [] [] [] [] [] []]; first [reflexivity | by vm_compute in Ha].
Qed.

Lemma hostport_parse : parseHost hostport = Some hostport.
Proof.
  unfold parseHost. destruct address_start as [Hne Hb].
  assert (Hh : HasPrefix hostport "[" = false).
  { unfold hostport. destruct (p_Address p) as [|a [|b s]]; [done|exact Hb|exact Hb]. }
  rewrite Hh. unfold hostport at 1. rewrite LastIndexByte_app by apply port_no_colon.
  unfold hostport at 1. rewrite str_drop_app, port_text_valid.
  apply unescape_host; [|done]. apply hostport_no. by intros a ->.
Qed.

Lemma url_strip_port_hostport : url_strip_port hostport = p_Address p.
Proof.
  unfold url_strip_port, hostport. rewrite LastIndexByte_app by apply port_no_colon.
  rewrite str_drop_app, port_text_valid, str_take_app. destruct address_start as [_ ->]. done.
Qed.

Lemma port_hostport u : url_host u = hostport -> Port u = Itoa (p_Port p).
Proof.
  intros E. unfold Port. rewrite E. unfold hostport. rewrite LastIndexByte_app by apply port_no_colon.
  by rewrite str_drop_app, port_text_valid, str_drop_S_app.
Qed.

Lemma link_port_hostport what d u : url_host u = hostport -> link_port what d u = inr (p_Port p).
Proof.
  intros E. destruct Hp as (_ & _ & Hport). unfold link_port. rewrite (port_hostport u E).
  destruct (String.eqb_spec (Itoa (p_Port p)) "") as [En|_].
  { pose proof (Atoi_Itoa (p_Port p)) as Ha. rewrite En in Ha. discriminate Ha. unfold maxInt64. lia. }
  rewrite Atoi_Itoa by (unfold maxInt64; lia).
  destruct (Z.leb_spec (p_Port p) 0), (Z.ltb_spec 65535 (p_Port p)); [lia..|done].
Qed.

Lemma link_host_hostport e u : url_host u = hostport -> link_host e u = inr (p_Address p).
Proof.
  intros E. unfold link_host, Hostname. rewrite E, url_strip_port_hostport. by destruct Hp as (-> & _).
Qed.
End Host.

(** ** The query *)

Definition key (e : setting) : string := e.2.1.
(** The value a query has for a key. *)
Definition setting_of (l : list setting) (k : string) : string :=
  match List.find (fun e => key e =s k) l with Some (c, (_, v)) => if c then v else "" | None => "" end.

Lemma values_keys l : map fst (values l) `sublist_of` map key l.
Proof.
  unfold values. induction l as [|[[] [k v]] l IH]; cbn; [constructor|by constructor|by constructor].
Qed.

Lemma Get_values l k : NoDup (map key l) -> Get (values l) k = setting_of l k.
Proof.
  unfold setting_of. induction l as [|[c [k' v]] l IH]; [done|]. cbn [map key snd fst]. intros [Hn Hnd]%NoDup_cons.
  cbn [List.find]. unfold key at 1. cbn [snd fst]. destruct (String.eqb_spec k' k) as [->|Hne].
  - destruct c; unfold values; cbn [List.filter fst map snd].
    + unfold Get. cbn [List.find fst]. by rewrite String.eqb_refl.
    + apply Get_absent. intros Hin. apply Hn. eapply sublist_subseteq; [apply values_keys|exact Hin].
  - rewrite <- IH by done. destruct c; [|done]. unfold values, Get. cbn [List.filter fst map snd List.find].
    apply String.eqb_neq in Hne. by rewrite Hne.
Qed.

Lemma Get_link l k : NoDup (map key l) -> Get (ParseQuery (Encode (values l))) k = setting_of l k.
Proof.
  intros Hnd. rewrite Get_Encode; [by apply Get_values|].
  eapply sublist_NoDup; [exact Hnd|apply values_keys].
Qed.

Lemma Encode_no q : (forall a, is_unreserved a = true -> q a = false) -> q "%"%char = false ->
  q "+"%char = false -> q "="%char = false -> q "&"%char = false -> forall l, str_exists q (Encode l) = false.
Proof.
  intros Hu Hp Hq He Ha l. unfold Encode. induction (merge_sort key_le l) as [|kv m IH]; [done|].
  assert (Hkv : str_exists q (QueryEscape kv.1 ^^ "=" ^^ QueryEscape kv.2) = false).
  { rewrite !str_exists_app, !QueryEscape_absent by done. cbn [str_exists]. by rewrite He. }
  cbn [map]. destruct (map _ m) eqn:E; [exact Hkv|]. rewrite Join_cons by done.
  rewrite str_exists_app, Hkv, str_exists_app, IH. cbn [str_exists]. by rewrite Ha.
Qed.

Lemma when_set_value (v : string) : (if v <>s "" then v else ""%string) = v.
Proof. destruct (String.eqb_spec v "") as [->|]; done. Qed.
Lemma when_true_value (b : bool) : ((if b then "1" else ""%string) =s "1") = b.
Proof. by destruct b. Qed.

Lemma Join_nonempty l c : Join l (String c "") = "" -> l = [] \/ l = [""].
Proof.
  destruct l as [|x l]; [by left|]. destruct l as [|y l]; [cbn; intros ->; by right|].
  rewrite Join_cons by done. by destruct x.
Qed.

(** A list of texts without commas is read back. *)
Lemma listed_value l : separable l ->
  (if (if 0 <? len l then Join l "," else ""%string) =s "" then []
   else SplitByte (if 0 <? len l then Join l "," else ""%string) ",") = l.
Proof.
  intros [Hne Hc]. destruct l as [|x l]; [done|].
  assert (Hl : (0 <? len (x :: l)) = true) by (apply Z.ltb_lt; rewrite len_cons; pose proof (len_nonneg l); lia).
  rewrite Hl. destruct (String.eqb_spec (Join (x :: l) ",") "") as [E|_].
  - apply Join_nonempty in E as [E|E]; [done|by rewrite E in Hne].
  - by apply SplitByte_Join.
Qed.

(** ** A whole link *)

Lemma plain_user_char : forall a, is_userinfo a = false -> is_unreserved a = false.
Proof. by_char. Qed.

Definition after_host (p : ServerProfile) (l : list setting) : string := query_part (Encode (values l)).

Section Link.
Context (p : ServerProfile) (Hp : linkable p).
Context (scheme auth : string) (user : option Userinfo) (l : list setting).
Context (Hscheme : scheme_name scheme) (Hauth : auth_text auth user).
Context (Hblank : str_exists is_space (scheme ^^ auth) = false).

Definition link_body : string := scheme ^^ "://" ^^ auth ^^ hostport p ^^ query_part (Encode (values l)).
Definition link_URL : URL := mkURL scheme (hostport p) user (Encode (values l)) "".

Lemma link_text_split : scheme ^^ "://" ^^ auth ^^ link_tail p (values l) =
  link_body ^^ (if p_Name p =s "" then "" else "#" ^^ QueryEscape (p_Name p)).
Proof.
  unfold link_body, link_tail, hostport, query_part. by repeat first [rewrite str_app_assoc | progress cbn [String.append]].
Qed.

Lemma link_query_special : str_exists query_special (Encode (values l)) = false.
Proof. apply Encode_no; try done. by_char. Qed.

Lemma link_body_space : str_exists is_space link_body = false.
Proof.
  rewrite str_exists_app in Hblank. apply orb_false_iff in Hblank as [Hs Ha].
  unfold link_body. rewrite !str_exists_app, Hs, Ha, (hostport_no p Hp) by by_char.
  rewrite query_part_no; [done|done|]. apply Encode_no; try done. by_char.
Qed.

Lemma link_body_hash : str_exists (fun a => Ascii.eqb a "#") link_body = false.
Proof.
  unfold link_body. apply (link_no scheme auth (hostport p) _ user); try done.
  - by apply hostport_special.
  - apply link_query_special.
  - apply hash_query_special.
Qed.

Definition link_text : string := scheme ^^ "://" ^^ auth ^^ link_tail p (values l).

Lemma link_text_space : str_exists is_space link_text = false.
Proof.
  unfold link_text. rewrite link_text_split, str_exists_app, link_body_space.
  destruct (p_Name p =s ""); [done|]. cbn [orb String.append str_exists]. rewrite orb_false_l.
  apply QueryEscape_absent; [|done..]. by_char.
Qed.

Lemma link_trim : TrimSpace link_text = link_text.
Proof. apply TrimSpace_absent, link_text_space. Qed.

Lemma link_fragment : extractFragmentAndClean link_text = (link_body, p_Name p).
Proof.
  unfold extractFragmentAndClean. rewrite link_trim. unfold link_text. rewrite link_text_split.
  destruct (String.eqb_spec (p_Name p) "") as [E|Hne].
  - rewrite str_app_nil_r, IndexByte_absent by apply link_body_hash. by rewrite E.
  - cbn [String.append]. rewrite IndexByte_app by apply link_body_hash.
    rewrite str_drop_S_app, str_take_app, QueryUnescape_QueryEscape. apply String.eqb_neq in Hne. by rewrite Hne.
Qed.

Lemma link_parses : url_Parse link_body = Some link_URL.
Proof.
  apply url_Parse_link; [done|done|by apply hostport_special|by apply hostport_parse|apply link_query_special].
Qed.
End Link.

(** ** Credentials *)

(** A text that stands for [v] in the user part of a URL. *)
Definition user_text (s v : string) : Prop :=
  str_forall is_userinfo s = true /\ str_exists url_special s = false /\
  str_exists (fun a => Ascii.eqb a ":") s = false /\ unescape_all EncodeOther s = Some v.

Lemma unescape_unreserved f s : str_forall is_unreserved s = true -> (String.length s <= f)%nat ->
  unescape EncodeOther f s = Some s.
Proof.
  revert f. induction s as [|a s IH]; intros f Hs Hf; [by destruct f|]. destruct f as [|f]; [cbn in Hf; lia|].
  unfold str_forall in *. cbn [str_exists String.length] in *. apply negb_true_iff, orb_false_iff in Hs as [Ha Hs].
  apply negb_false_iff in Ha. destruct (unreserved_plain a Ha) as [Hp _].
  rewrite unescape_plain by done. rewrite IH; [done|by rewrite Hs|lia].
Qed.

Lemma user_text_plain s : plain_text s = true -> user_text s s.
Proof.
  intros Hs. unfold plain_text in Hs. split; [|split; [|split]].
  - apply (str_exists_forall _ (fun a => negb (is_unreserved a))); [by_char|].
    apply (str_forall_no is_unreserved); [by intros a ->|done].
  - revert Hs. apply str_forall_no. by_char.
  - revert Hs. apply str_forall_no. by_char.
  - by apply unescape_unreserved.
Qed.

Lemma user_text_escaped s : no_blank s = true -> user_text (QueryEscape s) s.
Proof.
  intros Hs%negb_true_iff. split; [|split; [|split]].
  - apply (str_exists_forall _ (fun a => negb (is_userinfo a))); [intros a; by destruct (is_userinfo a)|].
    apply QueryEscape_absent; [by_char|done..].
  - apply QueryEscape_absent; [by_char|done..].
  - by apply QueryEscape_no.
  - by apply user_QueryEscape.
Qed.

Lemma user_text_userinfo s : user_text (EscapeUser s) s.
Proof.
  assert (Habs : forall q, (forall a, is_unreserved a || in_set "$&+,;=" a = true -> q a = false) -> q "%"%char = false ->
    q "2"%char = false -> q "0"%char = false ->
    Forall (fun d => q (upper_hex d) = false) (map N.of_nat (seq 0 16)) -> str_exists q (EscapeUser s) = false).
  { intros q Hk Hp H2 H0 Hd. apply escape_absent; [done|done|done|]. cbn [str_exists]. by rewrite Hp, H2, H0. }
  split; [|split; [|split]].
  - apply (str_exists_forall _ (fun a => negb (is_userinfo a))); [intros a; by destruct (is_userinfo a)|].
    apply Habs; try done; [by_char|by repeat constructor].
  - apply Habs; try done; [by_char|by repeat constructor].
  - apply Habs; try done; [by_char|by repeat constructor].
  - apply user_EscapeUser.
Qed.

Lemma user_text_space s v : user_text s v -> str_exists is_space s = false.
Proof. intros (Hs & _). revert Hs. apply str_forall_no. by_char. Qed.

Lemma auth_single s v : user_text s v -> auth_text (s ^^ "@") (Some (mkUser v None)).
Proof.
  intros (Hu & Hs & Hc & He). constructor; [done|]. unfold parseUserinfo. rewrite Hu. cbn [negb].
  by rewrite Cut_absent, He.
Qed.

Lemma auth_pair s u t v : user_text s u -> user_text t v -> auth_text ((s ^^ ":" ^^ t) ^^ "@") (Some (mkUser u (Some v))).
Proof.
  intros (Hu & Hs & Hc & He) (Hu' & Hs' & Hc' & He'). constructor.
  - by rewrite !str_exists_app, Hs, Hs'.
  - unfold parseUserinfo.
    assert (E : str_forall is_userinfo (s ^^ ":" ^^ t) = true).
    { unfold str_forall in *. rewrite negb_true_iff in *. by rewrite !str_exists_app, Hu, Hu'. }
    rewrite E. cbn [negb String.append]. rewrite Cut_app by done. by rewrite He, He'.
Qed.

Lemma auth_single_space s v : user_text s v -> str_exists is_space (s ^^ "@") = false.
Proof. intros H%user_text_space. by rewrite str_exists_app, H. Qed.
Lemma auth_pair_space s u t v : user_text s u -> user_text t v -> str_exists is_space ((s ^^ ":" ^^ t) ^^ "@") = false.
Proof. intros H%user_text_space H'%user_text_space. by rewrite !str_exists_app, H, H'. Qed.

(** ** The formats *)

Ltac scheme_name := split; [intros r; reflexivity|split; [reflexivity|split; [discriminate|reflexivity]]].

(** The parsers of the schemes that the generators write. *)
Definition url_parsers : list (string * (string -> result ServerProfile)) :=
  [("vless", parseVLESS); ("trojan", parseTrojan); ("hysteria2", parseHysteria2); ("ss", parseShadowsocks);
   ("tuic", parseTUIC); ("shadowtls", parseShadowTLS); ("wireguard", parseWireGuard); ("socks5", parseSocks);
   ("http", parseHTTP); ("https", parseHTTP)]%string.

Lemma dispatch dec scheme parser r : In (scheme, parser) url_parsers ->
  TrimSpace (scheme ^^ "://" ^^ r) = scheme ^^ "://" ^^ r ->
  ParseURI dec (scheme ^^ "://" ^^ r) = parser (scheme ^^ "://" ^^ r).
Proof.
  intros Hin Ht. unfold ParseURI. rewrite Ht. clear Ht. unfold url_parsers in Hin.
  repeat destruct Hin as [E|Hin]; try done; injection E as <- <-; by destruct r.
Qed.

(** A text that is one line of a subscription. *)
Definition link_line (u : string) : Prop :=
  str_exists is_space u = false /\ HasPrefix u "#" = false /\ HasPrefix u "//" = false /\ Contains u "://" = true.

(** A link that is one line and is read as [q]. *)
Definition reads (dec : LinkDecoders) (u : string) (q : ServerProfile) : Prop := link_line u /\ ParseURI dec u = inr q.

Lemma scheme_line scheme parser r : In (scheme, parser) url_parsers -> str_exists is_space (scheme ^^ "://" ^^ r) = false ->
  link_line (scheme ^^ "://" ^^ r).
Proof.
  intros Hin Hs. split; [done|]. clear Hs. unfold url_parsers in Hin.
  repeat destruct Hin as [E|Hin]; try done; injection E as <- _; by destruct r.
Qed.

Lemma or_else_r s : or_else s "" = s.
Proof. unfold or_else. by destruct (String.eqb_spec s "") as [->|]. Qed.
Lemma or_else_l s : or_else "" s = s.
Proof. done. Qed.

Ltac in_list := first [left; reflexivity | right; in_list].

Section Formats.
Context (dec : LinkDecoders) (p : ServerProfile) (Hp : linkable p).

Section Read.
Context (scheme auth : string) (user : option Userinfo) (l : list setting).
Context (Hscheme : scheme_name scheme) (Hauth : auth_text auth user) (Hblank : str_exists is_space (scheme ^^ auth) = false).

Lemma read_dispatch parser q : In (scheme, parser) url_parsers ->
  parser (link_text p scheme auth l) = inr q -> reads dec (link_text p scheme auth l) q.
Proof.
  intros Hin Hq. split.
  - apply (scheme_line _ _ _ Hin). exact (link_text_space p Hp _ _ l Hblank).
  - rewrite <- Hq. apply dispatch; [done|]. exact (link_trim p Hp _ _ l Hblank).
Qed.

Lemma read_fragment : extractFragmentAndClean (link_text p scheme auth l) = (link_body p scheme auth l, p_Name p).
Proof. by apply (link_fragment p Hp _ _ user). Qed.

Lemma read_url what : link_url what (link_body p scheme auth l) = inr (link_URL p scheme user l).
Proof. unfold link_url. by rewrite (link_parses p Hp scheme auth user l Hscheme Hauth). Qed.
Lemma read_port what d : link_port what d (link_URL p scheme user l) = inr (p_Port p).
Proof. by apply link_port_hostport. Qed.
Lemma read_host e : link_host e (link_URL p scheme user l) = inr (p_Address p).
Proof. by apply link_host_hostport. Qed.
Lemma read_get k : NoDup (map key l) -> Get (Query (link_URL p scheme user l)) k = setting_of l k.
Proof. apply Get_link. Qed.
End Read.

(** The common beginning: the format's text is cut, parsed, and gives its port and
    host back. *)
Ltac read_link user :=
  rewrite (read_fragment _ _ user) by first [done | scheme_name];
  try erewrite (read_url _ _ user) by first [done | scheme_name]; cbn [try];
  rewrite ?read_port, ?read_host; cbn [try]; rewrite ?read_port, ?read_host; cbn [try].

(** The values of the settings: [q] is the query, [H] that its keys are distinct. *)
Ltac read_settings q H :=
  unfold link_alpn, first_value; rewrite ?read_get by exact H;
  unfold setting_of, q, when_set, when_true, when_listed, key;
  cbn [List.find fst snd String.eqb Ascii.eqb Bool.eqb];
  rewrite ?when_set_value, ?when_true_value, ?or_else_r, ?or_else_l, ?orb_false_r.
Ltac distinct_keys := apply (bool_decide_unpack _); vm_compute; exact I.

Lemma vless_keys : NoDup (map key (vless_query p)).
Proof. distinct_keys. Qed.

Lemma set_unless (s x : string) : (if (s <>s "") && (s <>s x) then s else ""%string) = (if s =s x then ""%string else s).
Proof. destruct (String.eqb_spec s "") as [->|]; cbn [negb andb]; by destruct (_ =s x). Qed.

(** The beginning of a proof: [auth] is the user part and [q] the settings. *)
Ltac start scheme auth q parse :=
  match goal with
  | |- reads _ ?g _ =>
      let Hl := fresh in
      assert (Hl : g = link_text p scheme auth q) by (unfold link_text; rewrite ?str_app_assoc; reflexivity);
      rewrite Hl; clear Hl; apply (read_dispatch scheme auth q) with (parser := parse); [done|in_list|]
  end; unfold parse.

Lemma read_vless : p_UUID p <> "" -> plain_text (p_UUID p) = true -> separable (p_ALPN p) ->
  reads dec (generateVLESS p) (finish "VLESS" (carried_vless p)).
Proof.
  intros Hne Hu Ha. pose proof (user_text_plain _ Hu) as Ht. pose proof (auth_single _ _ Ht).
  pose proof (auth_single_space _ _ Ht).
  start "vless" (p_UUID p ^^ "@") (vless_query p) parseVLESS. read_link (Some (mkUser (p_UUID p) None)).
  unfold link_user. cbn [url_user link_URL Username]. apply String.eqb_neq in Hne. rewrite Hne.
  read_settings vless_query vless_keys. rewrite (listed_value _ Ha), set_unless. reflexivity.
Qed.

Lemma trojan_keys : NoDup (map key (trojan_query p)).
Proof. distinct_keys. Qed.
Lemma read_trojan : p_Password p <> "" -> no_blank (p_Password p) = true -> separable (p_ALPN p) ->
  reads dec (generateTrojan p) (finish "Trojan" (carried_trojan p)).
Proof.
  intros Hne Hb Ha. pose proof (user_text_escaped _ Hb) as Ht. pose proof (auth_single _ _ Ht).
  pose proof (auth_single_space _ _ Ht).
  start "trojan" (QueryEscape (p_Password p) ^^ "@") (trojan_query p) parseTrojan.
  read_link (Some (mkUser (p_Password p) None)).
  unfold link_user. cbn [url_user link_URL Username]. apply String.eqb_neq in Hne. rewrite Hne.
  read_settings trojan_query trojan_keys. rewrite (listed_value _ Ha), set_unless. reflexivity.
Qed.

Lemma tuic_keys : NoDup (map key (tuic_query p)).
Proof. distinct_keys. Qed.
Lemma read_tuic : plain_text (p_UUID p) = true -> no_blank (p_Password p) = true -> separable (p_ALPN p) ->
  reads dec (generateTUIC p) (finish "TUIC" (carried_tuic p)).
Proof.
  intros Hu Hb Ha. pose proof (user_text_plain _ Hu) as Ht. pose proof (user_text_escaped _ Hb) as Ht'.
  pose proof (auth_pair _ _ _ _ Ht Ht'). pose proof (auth_pair_space _ _ _ _ Ht Ht').
  start "tuic" ((p_UUID p ^^ ":" ^^ QueryEscape (p_Password p)) ^^ "@") (tuic_query p) parseTUIC.
  read_link (Some (mkUser (p_UUID p) (Some (p_Password p)))).
  unfold link_user, link_pass. cbn [url_user link_URL Username Password default].
  read_settings tuic_query tuic_keys. rewrite (listed_value _ Ha). reflexivity.
Qed.

Lemma shadowtls_keys : NoDup (map key (shadowtls_query p)).
Proof. distinct_keys. Qed.
Lemma read_shadowtls : no_blank (shadowtls_password p) = true -> p_ShadowTLSVersion p <= maxInt64 ->
  reads dec (generateShadowTLS p) (finish "ShadowTLS" (carried_shadowtls p)).
Proof.
  intros Hb Hv. pose proof (user_text_escaped _ Hb) as Ht. pose proof (auth_single _ _ Ht).
  pose proof (auth_single_space _ _ Ht).
  start "shadowtls" (QueryEscape (shadowtls_password p) ^^ "@") (shadowtls_query p) parseShadowTLS.
  read_link (Some (mkUser (shadowtls_password p) None)).
  unfold link_user, link_pass, shadowtls_version. cbn [url_user link_URL Username Password default].
  read_settings shadowtls_query shadowtls_keys.
  set (v := if p_ShadowTLSVersion p <=? 0 then 3 else p_ShadowTLSVersion p).
  assert (Hv' : Atoi (Itoa v) = Some v).
  { apply Atoi_Itoa. subst v. unfold maxInt64 in *. destruct (Z.leb_spec (p_ShadowTLSVersion p) 0); lia. }
  assert (Hne : (Itoa v =s "") = false).
  { apply String.eqb_neq. intros E. by rewrite E in Hv'. }
  rewrite Hne, Hv'. reflexivity.
Qed.

Lemma hysteria2_keys : NoDup (map key (hysteria2_query p)).
Proof. distinct_keys. Qed.
Lemma hysteria2_user : p_Password p <> "" -> p_Username p <> "" \/ no_blank (p_Password p) = true ->
  exists user, auth_text (hysteria2_auth p ^^ "@") (Some user) /\ str_exists is_space (hysteria2_auth p ^^ "@") = false /\
    match Password user with Some pw => (Username user, pw) | None => (""%string, Username user) end = (p_Username p, p_Password p).
Proof.
  intros Hne Hu. unfold hysteria2_auth. apply String.eqb_neq in Hne. rewrite Hne. cbn [negb]. rewrite andb_true_r.
  destruct (String.eqb_spec (p_Username p) "") as [E|Hn]; cbn [negb].
  - destruct Hu as [|Hb]; [done|]. pose proof (user_text_escaped _ Hb) as Ht.
    eexists. split; [by apply auth_single|]. split; [by eapply auth_single_space|]. cbn. by rewrite E.
  - pose proof (user_text_userinfo (p_Username p)) as Ht. pose proof (user_text_userinfo (p_Password p)) as Ht'.
    eexists. split; [by apply auth_pair|]. split; [by eapply auth_pair_space|]. done.
Qed.
Lemma read_hysteria2 : p_Password p <> "" -> p_Username p <> "" \/ no_blank (p_Password p) = true -> separable (p_ALPN p) ->
  reads dec (generateHysteria2 p) (finish "Hy2" (carried_hysteria2 p)).
Proof.
  intros Hne Hu Ha. destruct (hysteria2_user Hne Hu) as (user & Hauth & Hs & Huser).
  start "hysteria2" (hysteria2_auth p ^^ "@") (hysteria2_query p) parseHysteria2.
  rewrite (read_fragment _ _ (Some user)) by first [done|scheme_name].
  assert (Hr : ReplaceFirst (link_body p "hysteria2" (hysteria2_auth p ^^ "@") (hysteria2_query p)) "hysteria2://" "hy2://" =
    link_body p "hy2" (hysteria2_auth p ^^ "@") (hysteria2_query p)).
  { unfold link_body. generalize ((hysteria2_auth p ^^ "@") ^^ hostport p ^^ query_part (Encode (values (hysteria2_query p)))).
    intros r. unfold ReplaceFirst. by destruct r. }
  rewrite Hr, (read_url _ _ (Some user)) by first [done|scheme_name]. cbn [try].
  rewrite read_port. cbn [try]. rewrite read_host. cbn [try]. cbn [url_user link_URL]. rewrite Huser.
  read_settings hysteria2_query hysteria2_keys. rewrite (listed_value _ Ha).
  assert (Hi : one_of (if p_Insecure p then "1"%string else ""%string) ["1"; "true"]%string = p_Insecure p) by by destruct (p_Insecure p).
  rewrite Hi. reflexivity.
Qed.

(** A list of values that a reader gives back from their texts. *)
Lemma listed_read {A} (f : string -> option A) (g : A -> string) (l : list A) :
  Forall (fun x => g x <> "" /\ f (g x) = Some x /\ str_exists (fun a => Ascii.eqb a ",") (g x) = false) l ->
  (if (if 0 <? len (map g l) then Join (map g l) "," else ""%string) =s "" then []
   else omap f (SplitByte (if 0 <? len (map g l) then Join (map g l) "," else ""%string) ",")) = l.
Proof.
  intros Hl. assert (Hs : separable (map g l)).
  { split; [|apply Forall_map; eapply Forall_impl; [exact Hl|by intros x (_ & _ & ?)]].
    destruct l as [|x [|y l]]; [done| |done]. cbn [map]. intros E. injection E as E.
    by apply Forall_cons in Hl as [[? _] _]. }
  pose proof (listed_value _ Hs) as E. destruct (_ =s ""); [by destruct l|]. rewrite E. clear E Hs.
  induction l as [|x l IH]; [done|]. apply Forall_cons in Hl as [(_ & E & _) Hl]. cbn [map omap list_omap].
  by rewrite E, IH.
Qed.

Lemma Itoa_value z : 0 <= z <= maxInt64 -> Itoa z <> "" /\ Atoi (TrimSpace (Itoa z)) = Some z /\
  str_exists (fun a => Ascii.eqb a ",") (Itoa z) = false.
Proof.
  intros Hz. assert (Hd : forall q, (forall a, is_digit a = true -> q a = false) -> str_exists q (Itoa z) = false).
  { intros q. apply Itoa_only. lia. }
  split; [|split].
  - intros E. pose proof (Atoi_Itoa z Hz) as Ha. by rewrite E in Ha.
  - rewrite TrimSpace_absent; [by apply Atoi_Itoa|]. apply Hd. apply is_digit_not_space.
  - apply Hd. by_char.
Qed.

Lemma wireguard_keys : NoDup (map key (wireguard_query p)).
Proof. distinct_keys. Qed.
Lemma read_wireguard : no_blank (p_PrivateKey p) = true -> p_MTU p <= maxInt64 ->
  Forall (fun s => s <> "" /\ TrimSpace s = s /\ str_exists (fun a => Ascii.eqb a ",") s = false) (p_LocalAddress p) ->
  Forall (fun b => 0 <= b <= maxInt64) (p_ReservedBytes p) ->
  reads dec (generateWireGuard p) (finish "WG" (carried_wireguard p)).
Proof.
  intros Hb Hm Hl Hr. pose proof (user_text_escaped _ Hb) as Ht. pose proof (auth_single _ _ Ht).
  pose proof (auth_single_space _ _ Ht).
  start "wireguard" (QueryEscape (p_PrivateKey p) ^^ "@") (wireguard_query p) parseWireGuard.
  rewrite (read_fragment _ _ (Some (mkUser (p_PrivateKey p) None))) by first [done|scheme_name].
  assert (Hw : HasPrefix (link_body p "wireguard" (QueryEscape (p_PrivateKey p) ^^ "@") (wireguard_query p)) "wg://" = false) by reflexivity.
  rewrite Hw. clear Hw. rewrite (read_url _ _ (Some (mkUser (p_PrivateKey p) None))) by first [done|scheme_name].
  cbn [try]. rewrite read_port. cbn [try]. rewrite read_host. cbn [try].
  unfold link_user. cbn [url_user link_URL Username].
  read_settings wireguard_query wireguard_keys.
  assert (Hmtu : atoi (if 0 <? p_MTU p then Itoa (p_MTU p) else ""%string) = if 0 <? p_MTU p then p_MTU p else 0).
  { destruct (Z.ltb_spec 0 (p_MTU p)); [|done]. unfold atoi. rewrite Atoi_Itoa; [done|lia]. }
  rewrite Hmtu.
  pose proof (listed_read (fun r => Atoi (TrimSpace r)) Itoa (p_ReservedBytes p)) as Er.
  rewrite Er by (eapply Forall_impl; [exact Hr|exact Itoa_value]).
  pose proof (listed_read (fun a => nonempty (TrimSpace a)) (fun a => a) (p_LocalAddress p)) as El.
  rewrite map_id in El. rewrite El; [reflexivity|]. eapply Forall_impl; [exact Hl|].
  intros s (Hne & Htr & Hc). split; [done|]. split; [|done]. unfold nonempty. rewrite Htr.
  apply String.eqb_neq in Hne. by rewrite Hne.
Qed.

(** The optional user and password of a proxy. *)
Lemma userpass_user : no_blank (p_Username p) = true -> no_blank (p_Password p) = true ->
  exists user, auth_text (userpass p) user /\ str_exists is_space (userpass p) = false /\
    match user with Some u => Username u | None => ""%string end = p_Username p /\
    match user with Some u => default ""%string (Password u) | None => ""%string end = p_Password p.
Proof.
  intros Hu Hb. unfold userpass. destruct (_ || _) eqn:E.
  - pose proof (user_text_escaped _ Hu) as Ht. pose proof (user_text_escaped _ Hb) as Ht'.
    exists (Some (mkUser (p_Username p) (Some (p_Password p)))).
    assert (Ea : QueryEscape (p_Username p) ^^ ":" ^^ QueryEscape (p_Password p) ^^ "@" =
      (QueryEscape (p_Username p) ^^ ":" ^^ QueryEscape (p_Password p)) ^^ "@") by by rewrite !str_app_assoc.
    rewrite Ea. split; [by apply auth_pair|]. split; [by eapply auth_pair_space|]. done.
  - apply orb_false_iff in E as [Eu Ep]. apply negb_false_iff, String.eqb_eq in Eu, Ep.
    exists None. rewrite Eu, Ep. repeat split; try done. constructor.
Qed.

Lemma read_socks : no_blank (p_Username p) = true -> no_blank (p_Password p) = true ->
  reads dec (generateSocks p) (finish "Socks" (carried_socks p)).
Proof.
  intros Hu Hb. destruct (userpass_user Hu Hb) as (user & Hauth & Hs & Hname & Hpass).
  start "socks5" (userpass p) (@nil setting) parseSocks.
  rewrite (read_fragment _ _ user) by first [done|scheme_name].
  assert (Hc : (if HasPrefix (link_body p "socks5" (userpass p) []) "socks5://"
      then "socks://" ^^ TrimPrefix (link_body p "socks5" (userpass p) []) "socks5://"
      else link_body p "socks5" (userpass p) []) = link_body p "socks" (userpass p) []).
  { unfold link_body. rewrite <- !(str_app_assoc "socks5" "://"). change ("socks5" ^^ "://") with "socks5://"%string.
    by rewrite HasPrefix_app, TrimPrefix_app. }
  rewrite Hc. clear Hc. rewrite (read_url _ _ user) by first [done|scheme_name].
  cbn [try]. rewrite read_port. cbn [try]. rewrite read_host. cbn [try].
  unfold link_user, link_pass. cbn [url_user link_URL]. rewrite Hname, Hpass, or_else_r. reflexivity.
Qed.

Lemma read_http : no_blank (p_Username p) = true -> no_blank (p_Password p) = true ->
  reads dec (generateHTTP p) (finish "HTTP" (carried_http p)).
Proof.
  intros Hu Hb. destruct (userpass_user Hu Hb) as (user & Hauth & Hs & Hname & Hpass).
  unfold generateHTTP, carried_http. destruct (p_Security p =s SecurityTLS).
  - start "https" (userpass p) (@nil setting) parseHTTP.
    rewrite (read_fragment _ _ user) by first [done|scheme_name].
    assert (Hh : HasPrefix (link_body p "https" (userpass p) []) "https://" = true).
    { unfold link_body. rewrite <- !(str_app_assoc "https" "://"). apply HasPrefix_app. }
    rewrite Hh, (read_url _ _ user) by first [done|scheme_name].
    cbn [try]. rewrite read_host. cbn [try]. rewrite read_port. cbn [try].
    unfold link_user, link_pass. cbn [url_user link_URL]. rewrite Hname, Hpass, or_else_r. reflexivity.
  - start "http" (userpass p) (@nil setting) parseHTTP.
    rewrite (read_fragment _ _ user) by first [done|scheme_name].
    assert (Hh : HasPrefix (link_body p "http" (userpass p) []) "https://" = false) by reflexivity.
    rewrite Hh, (read_url _ _ user) by first [done|scheme_name].
    cbn [try]. rewrite read_host. cbn [try]. rewrite read_port. cbn [try].
    unfold link_user, link_pass. cbn [url_user link_URL]. rewrite Hname, Hpass, or_else_r. reflexivity.
Qed.

(** The base64 text of the cipher and the password. *)
Lemma base64_user s : user_text (EncodeToString URLEncoding s) (EncodeToString URLEncoding s).
Proof.
  assert (Habs : forall q, Forall (fun v => q (encode_char URLEncoding v) = false) (map N.of_nat (seq 0 64)) -> q pad_char = false ->
    str_exists q (EncodeToString URLEncoding s) = false).
  { intros q Hq Hpad. apply encode_quanta_absent; [exact (below_64 _ Hq)|done]. }
  assert (Hpl : str_exists (fun a => negb (is_unreserved a || Ascii.eqb a "=")) (EncodeToString URLEncoding s) = false).
  { apply Habs; [by repeat constructor|done]. }
  split; [|split; [|split]].
  - apply (str_exists_forall _ (fun a => negb (is_unreserved a || Ascii.eqb a "="))); [by_char|done].
  - apply Habs; [by repeat constructor|done].
  - apply Habs; [by repeat constructor|done].
  - unfold unescape_all. revert Hpl. generalize (EncodeToString URLEncoding s). clear Habs. intros t.
    induction t as [|a t IH]; [done|]. cbn [str_exists String.length]. intros [Ha Ht]%orb_false_iff.
    rewrite unescape_plain; [by rewrite IH|done|]. revert Ha. clear. revert a. by_char.
Qed.

Lemma decode_url_base64 s : decodeBase64Safe (EncodeToString URLEncoding s) = Some s.
Proof.
  unfold decodeBase64Safe. rewrite TrimSpace_absent by exact (user_text_space _ _ (base64_user s)).
  rewrite encode_length by done. change (0 <? 0)%nat with false. cbv iota.
  destruct (DecodeString StdEncoding (EncodeToString URLEncoding s)) as [r|] eqn:E.
  - by rewrite (std_reads_url _ _ E).
  - rewrite (decode_encode URLEncoding s). reflexivity.
Qed.

Lemma read_shadowsocks : str_exists (fun a => Ascii.eqb a ":") (p_Cipher p) = false ->
  reads dec (generateShadowsocks p) (finish "SS" (carried_shadowsocks p)).
Proof.
  intros Hc. set (userinfo := shadowsocks_cipher p ^^ ":" ^^ p_Password p).
  pose proof (base64_user userinfo) as Ht. pose proof (auth_single _ _ Ht). pose proof (auth_single_space _ _ Ht).
  start "ss" (EncodeToString URLEncoding userinfo ^^ "@") (@nil setting) parseShadowsocks.
  rewrite (read_fragment _ _ (Some (mkUser (EncodeToString URLEncoding userinfo) None))) by first [done|scheme_name].
  assert (Hb : TrimPrefix (link_body p "ss" (EncodeToString URLEncoding userinfo ^^ "@") []) "ss://" =
    EncodeToString URLEncoding userinfo ^^ String "@" (hostport p)).
  { unfold link_body. rewrite <- !(str_app_assoc "ss" "://"), TrimPrefix_app.
    change (query_part (Encode (values []))) with ""%string. by rewrite str_app_nil_r, str_app_assoc. }
  rewrite Hb. unfold shadowsocks_parts. rewrite Cut_app.
  2:{ destruct Ht as (_ & Hs & _). revert Hs. apply special_no. intros a. by apply char_special. }
  rewrite decode_url_base64. cbn [from_option id]. unfold method_password, userinfo. cbn [String.append].
  assert (Hcc : str_exists (fun a => Ascii.eqb a ":") (shadowsocks_cipher p) = false).
  { unfold shadowsocks_cipher, or_else. by destruct (p_Cipher p =s ""). }
  rewrite Cut_app by done. cbn [from_option id].
  pose proof (url_Parse_link "http" "" (hostport p) "" None ltac:(scheme_name) AuthNone (hostport_special p Hp) (hostport_parse p Hp) eq_refl) as Hu.
  unfold query_part in Hu. cbn [String.append String.eqb] in Hu. rewrite str_app_nil_r in Hu.
  cbn [String.append]. rewrite Hu. cbn [try]. unfold Hostname. cbn [url_host].
  rewrite (port_hostport p Hp) by done. rewrite url_strip_port_hostport by done.
  destruct Hp as (-> & _ & Hport). unfold atoi. rewrite Atoi_Itoa by (unfold maxInt64; lia).
  destruct (Z.leb_spec (p_Port p) 0); [lia|]. reflexivity.
Qed.
End Formats.

(** [p]'s link is read back as [q]. *)
Definition carried_as (p q : ServerProfile) : Prop :=
  exists tag carried (cond : Prop), linkable p /\ link_format p = Some (tag, carried, cond) /\ cond /\ q = finish tag carried.

Lemma generated_reads dec marshal p q : carried_as p q ->
  exists uri, GenerateURI marshal (Some p) = inr uri /\ reads dec uri q.
Proof.
  intros (tag & carried & cond & Hp & E & Hc & ->). revert E. unfold link_format, GenerateURI. cbv zeta.
  set (proto := ToLower (TrimSpace (p_Protocol p))). clearbody proto.
  repeat match goal with
  | |- context [if ?b then _ else _] => destruct b
  end; intros E; try discriminate E; injection E as <- <- <-.
  - destruct Hc as (? & ? & ?). eexists. split; [done|]. by apply read_vless.
  - destruct Hc as (? & ? & ?). eexists. split; [done|]. by apply read_hysteria2.
  - destruct Hc as (? & ? & ?). eexists. split; [done|]. by apply read_trojan.
  - eexists. split; [done|]. by apply read_shadowsocks.
  - destruct Hc as (? & ? & ?). eexists. split; [done|]. by apply read_tuic.
  - destruct Hc as (? & ?). eexists. split; [done|]. by apply read_shadowtls.
  - destruct Hc as (? & ? & ? & ?). eexists. split; [done|]. by apply read_wireguard.
  - destruct Hc as (? & ?). eexists. split; [done|]. by apply read_socks.
  - destruct Hc as (? & ?). eexists. split; [done|]. by apply read_http.
Qed.

(** C19. A link that [GenerateURI] writes for a profile is read back by [ParseURI] as
    the profile restricted to the fields of its format, normalised and with the
    default name when it has none: for VLESS, Hysteria2, Trojan, Shadowsocks, TUIC,
    ShadowTLS, WireGuard, SOCKS and HTTP, whatever the name and the query values contain.
    The conditions are [linkable], a host and a port that a link can write, and that of
    [link_format] for the protocol: credentials that are set where the format needs them and
    hold no blank, which an escaped credential loses (see [password_blank]), a plain UUID,
    and lists whose items have no comma. *)
Theorem link_roundtrip dec marshal p tag carried (cond : Prop) :
  linkable p -> link_format p = Some (tag, carried, cond) -> cond ->
  exists uri, GenerateURI marshal (Some p) = inr uri /\ ParseURI dec uri = inr (finish tag carried).
Proof.
  intros Hp E Hc. destruct (generated_reads dec marshal p (finish tag carried)) as (uri & Hu & _ & Hr); [|by exists uri].
  by exists tag, carried, cond.
Qed.

(** A VLESS profile whose name and path need escaping. *)
Definition link_demo : ServerProfile :=
  blank_profile |> set_Protocol "VLESS" |> set_UUID "a6c8e874-a4ee" |> set_Address "2001:db8::1" |> set_Port 8443
    |> set_Name "My node #1 & co" |> set_Transport "ws" |> set_Security "reality" |> set_PublicKey "k+/="
    |> set_Path "/a b?c=d&e" |> set_ALPN ["h2"; "http/1.1"]%string |> set_Insecure true.
Definition demo_decoders : LinkDecoders := mkDecoders (fun _ => inl ""%string) (fun _ => None) (fun _ => None).

Lemma link_roundtrip_witness : exists uri,
  GenerateURI (fun _ => ""%string) (Some link_demo) = inr uri /\
  ParseURI demo_decoders uri = inr (finish "VLESS" (carried_vless link_demo)).
Proof.
  apply (link_roundtrip demo_decoders (fun _ => ""%string) link_demo "VLESS" (carried_vless link_demo)
    (p_UUID link_demo <> ""%string /\ plain_text (p_UUID link_demo) = true /\ separable (p_ALPN link_demo))).
  - split; [vm_compute; reflexivity|]. split; [vm_compute; reflexivity|]. vm_compute. split; discriminate.
  - reflexivity.
  - split; [discriminate|]. split; [reflexivity|]. split; [discriminate|]. repeat constructor.
Defined.

Example link_demo_text : generateVLESS link_demo =
  "vless://a6c8e874-a4ee@2001:db8::1:8443?allowInsecure=1&alpn=h2%2Chttp%2F1.1&path=%2Fa+b%3Fc%3Dd%26e&pbk=k%2B%2F%3D&security=reality&type=ws#My+node+%231+%26+co"%string.
Proof. vm_compute. reflexivity. Qed.

(** ** What a link loses *)

(** A blank in an escaped password comes back as a plus sign. *)
Example password_blank : match ParseURI demo_decoders (generateTrojan (blank_profile |> set_Password "a b" |> set_Address "h" |> set_Port 443)) with
                         | inr q => p_Password q | inl _ => ""%string end = "a+b"%string.
Proof. vm_compute. reflexivity. Qed.

(** Security "none" is not written, so that it becomes TLS where there is a server name. *)
Example none_becomes_tls :
  p_Security (finish "VLESS" (carried_vless (link_demo |> set_Security "none" |> set_PublicKey "" |> set_SNI "s.example"))) = "tls"%string.
Proof. vm_compute. reflexivity. Qed.

(** A VLESS link does not carry the multiplexing flag. *)
Lemma vless_loses_mux p : p_Mux (finish "VLESS" (carried_vless p)) = false.
Proof. unfold finish. by destruct (_ =s ""). Qed.

(** A Hysteria2 profile without credentials is given the password "secret". *)
Example hysteria2_secret :
  match ParseURI demo_decoders (generateHysteria2 (blank_profile |> set_Address "h" |> set_Port 443)) with
  | inr q => p_Password q | inl _ => ""%string end = "secret"%string.
Proof. vm_compute. reflexivity. Qed.

(** A Shadowsocks port is not bounded. *)
Example shadowsocks_port :
  match ParseURI demo_decoders "ss://YWVzLTI1Ni1nY206cHc@h.example:70000" with
  | inr q => p_Port q | inl _ => 0 end = 70000.
Proof. vm_compute. reflexivity. Qed.

(** The scheme is recognised in capitals, but not taken off. *)
Example shadowsocks_capitals :
  ParseURI demo_decoders "SS://YWVzLTI1Ni1nY206cHc=@h.example:443" = inr (finish "SS" (blank_profile
    |> set_Protocol ProtoShadowsocks |> set_Address "h.example" |> set_Port 443
    |> set_Cipher "SS" |> set_Password "//YWVzLTI1Ni1nY206cHc=")).
Proof. vm_compute. reflexivity. Qed.

(** ** Subscriptions *)

Lemma no_newline u : str_exists is_space u = false -> str_exists (fun a => Ascii.eqb a (ascii_of_N 10)) u = false.
Proof.
  induction u as [|a u IH]; [done|]. cbn [str_exists]. intros [Ha Hu]%orb_false_iff. rewrite (IH Hu).
  destruct (Ascii.eqb_spec a (ascii_of_N 10)) as [->|]; [by vm_compute in Ha|done].
Qed.

Lemma drop_cr_id u : str_exists is_space u = false -> drop_cr u = u.
Proof.
  intros Hs. unfold drop_cr, TrimSuffix. destruct (HasSuffix u _) eqn:E; [|done].
  apply HasSuffix_spec in E as [t ->]. rewrite str_exists_app in Hs. apply orb_false_iff in Hs as [_ Hs].
  by vm_compute in Hs.
Qed.

Lemma link_line_nonempty u : link_line u -> u <> "".
Proof. intros (_ & _ & _ & H) ->. by vm_compute in H. Qed.

Lemma link_subscription_line dec u q : reads dec u q -> subscription_line dec u = Some q.
Proof.
  intros [Hl Hr]. pose proof (link_line_nonempty u Hl) as Hne. destruct Hl as (Hs & Hh & Hc & Hu).
  unfold subscription_line. rewrite TrimSpace_absent by done. apply String.eqb_neq in Hne.
  by rewrite Hne, Hh, Hc, Hu, Hr.
Qed.

Definition newline : string := String (ascii_of_N 10) "".

Lemma scan_lines_Join us : us <> [] -> Forall (fun u => link_line u /\ str_len u < 65536) us ->
  scan_lines (Join us newline) = (us, false).
Proof.
  intros Hne Hl. unfold scan_lines, newline. rewrite SplitByte_Join; [|done|].
  - clear Hne. induction Hl as [|u us [Hu Hlen] Hl IH]; [done|]. cbn [scan_pieces].
    pose proof (link_line_nonempty u Hu) as Hne. destruct u as [|a u]; [done|].
    destruct (Z.leb_spec 65536 (str_len (String a u))); [lia|]. rewrite IH.
    rewrite drop_cr_id by apply Hu. done.
  - eapply Forall_impl; [exact Hl|]. intros u [(Hs & _) _]. by apply no_newline.
Qed.

(** A text that has the lines' first and last characters is not trimmed. *)
Lemma TrimLeftFunc_keep p a s : p a = false -> TrimLeftFunc p (String a s) = String a s.
Proof. cbn. by intros ->. Qed.

Lemma TrimRightFunc_keep p s t : TrimRightFunc p t = t -> t <> "" -> TrimRightFunc p (s ^^ t) = s ^^ t.
Proof.
  intros Ht Hne. induction s as [|a s IH]; [done|]. cbn [String.append TrimRightFunc]. rewrite IH.
  by destruct s, t.
Qed.

Lemma Join_nonnil u us sep : u <> "" -> Join (u :: us) sep <> "".
Proof. intros Hu. destruct us; [done|]. rewrite Join_cons by done. by destruct u. Qed.

Lemma Join_ends us : us <> [] -> Forall (fun u => str_exists is_space u = false /\ u <> "") us ->
  TrimSpace (Join us newline) = Join us newline.
Proof.
  intros Hne Hus. unfold TrimSpace, TrimFunc.
  assert (Hl : TrimLeftFunc is_space (Join us newline) = Join us newline).
  { destruct Hus as [|[|a u] us [Hs Hu] _]; [done|done|]. cbn [str_exists] in Hs. apply orb_false_iff in Hs as [Ha _].
    destruct us; [by apply TrimLeftFunc_keep|]. rewrite Join_cons by done. by apply TrimLeftFunc_keep. }
  rewrite Hl. clear Hl. induction Hus as [|u us [Hs Hu] Hus IH]; [done|].
  destruct us as [|v us].
  - cbn [Join]. pose proof (TrimSpace_absent u Hs) as Ht. unfold TrimSpace, TrimFunc in Ht.
    destruct u as [|a u]; [done|]. cbn [str_exists] in Hs. apply orb_false_iff in Hs as [Ha _].
    by rewrite TrimLeftFunc_keep in Ht.
  - rewrite Join_cons, <- str_app_assoc by done. apply TrimRightFunc_keep; [by apply IH|].
    apply Join_nonnil. by apply Forall_cons in Hus as [[_ ?] _].
Qed.

Lemma Contains_app_l s t sub : Contains s sub = true -> Contains (s ^^ t) sub = true.
Proof.
  unfold Contains. induction s as [|a s IH]; cbn [String.append Index].
  - destruct (HasPrefix "" sub) eqn:E; [|done]. intros _. destruct sub; [|done]. by destruct t.
  - destruct (HasPrefix (String a s) sub) eqn:E.
    + intros _. apply HasPrefix_spec in E as [r E]. change (String a (s ^^ t)) with (String a s ^^ t).
      by rewrite E, str_app_assoc, HasPrefix_app.
    + destruct (Index s sub); [|done]. intros _. specialize (IH eq_refl).
      destruct (HasPrefix (String a (s ^^ t)) sub); [reflexivity|]. destruct (Index (s ^^ t) sub); [reflexivity|discriminate IH].
Qed.

Lemma base64_text s :
  str_exists is_space (EncodeToString StdEncoding s) = false /\ Contains (EncodeToString StdEncoding s) "://" = false /\
  Contains (EncodeToString StdEncoding s) newline = false /\ decodeBase64Safe (EncodeToString StdEncoding s) = Some s.
Proof.
  assert (Habs : forall q, Forall (fun v => q (encode_char StdEncoding v) = false) (map N.of_nat (seq 0 64)) -> q pad_char = false ->
    str_exists q (EncodeToString StdEncoding s) = false).
  { intros q Hq Hpad. apply encode_quanta_absent; [exact (below_64 _ Hq)|done]. }
  assert (Hs : str_exists is_space (EncodeToString StdEncoding s) = false) by (apply Habs; [by repeat constructor|done]).
  split; [done|]. split; [|split].
  - assert (Hc : str_exists (fun a => Ascii.eqb a ":") (EncodeToString StdEncoding s) = false) by (apply Habs; [by repeat constructor|done]).
    revert Hc. clear. generalize (EncodeToString StdEncoding s) as t. intros t. unfold Contains.
    induction t as [|a t IH]; [done|]. cbn [str_exists Index]. intros [Ha Ht]%orb_false_iff.
    assert (E : HasPrefix (String a t) "://" = false).
    { unfold HasPrefix. cbn [String.prefix]. apply Ascii.eqb_neq in Ha. by destruct (ascii_dec ":" a) as [<-|]. }
    rewrite E. specialize (IH Ht). by destruct (Index t "://").
  - unfold newline. rewrite Contains_byte. by apply no_newline.
  - unfold decodeBase64Safe. rewrite TrimSpace_absent, encode_length by done. change (0 <? 0)%nat with false. cbv iota.
    by rewrite (decode_encode StdEncoding).
Qed.

Lemma omap_lines dec us qs : Forall2 (reads dec) us qs -> omap (subscription_line dec) us = qs.
Proof.
  induction 1 as [|u q us qs Hu _ IH]; [done|]. cbn [omap list_omap]. by rewrite (link_subscription_line dec u q Hu), IH.
Qed.

Lemma subscription_text dec us qs : us <> [] -> Forall2 (reads dec) us qs -> Forall (fun u => str_len u < 65536) us ->
  ParseSubscription dec (Join us newline) = (qs, false) /\
  ParseSubscription dec (EncodeToString StdEncoding (Join us newline)) = (qs, false).
Proof.
  intros Hne Hr Hlen.
  assert (Hl : Forall link_line us).
  { clear -Hr. by induction Hr as [|u q us qs [Hu _] _ IH]; constructor. }
  assert (Hends : TrimSpace (Join us newline) = Join us newline).
  { apply Join_ends; [done|]. eapply Forall_impl; [exact Hl|]. intros u Hu. split; [apply Hu|by apply link_line_nonempty]. }
  assert (Hscan : scan_lines (Join us newline) = (us, false)).
  { apply scan_lines_Join; [done|]. by apply Forall_and. }
  assert (Hc : Contains (Join us newline) "://" = true).
  { destruct Hl as [|u us' (_ & _ & _ & Hu) _]; [done|]. destruct us'; [done|]. rewrite Join_cons by done. by apply Contains_app_l. }
  assert (Hj : (Join us newline =s "") = false).
  { apply String.eqb_neq. intros E. by rewrite E in Hc. }
  unfold ParseSubscription. split.
  - rewrite Hends, Hj, Hc. cbn [negb andb]. rewrite Hscan. by rewrite (omap_lines dec us qs Hr).
  - destruct (base64_text (Join us newline)) as (Hsp & Hcol & Hnl & Hdec).
    rewrite (TrimSpace_absent _ Hsp).
    assert (Hb : (EncodeToString StdEncoding (Join us newline) =s "") = false).
    { apply String.eqb_neq. intros E. rewrite E in Hdec. injection Hdec as E'. by rewrite <- E' in Hc. }
    fold newline. rewrite Hb, Hcol, Hnl. cbn [negb andb]. unfold decoded_links. rewrite Hdec, Hc, Hscan.
    by rewrite (omap_lines dec us qs Hr).
Qed.

(** C20. The links of a list of profiles that is not empty, one on a line, are a subscription
    from which [ParseSubscription] reads the profiles back in their order, each restricted
    to the fields of its format, whether the text is given as it is or in base64.  Each
    profile satisfies the conditions of the round trip of its own link ([carried_as]: not
    VMess, a linkable host, no blanks in escaped credentials), and no link is too long for a
    line of the scanner. *)
Theorem subscription_roundtrip dec marshal ps qs uris :
  ps <> [] -> Forall2 carried_as ps qs -> Forall2 (fun p u => GenerateURI marshal (Some p) = inr u) ps uris ->
  Forall (fun u => str_len u < 65536) uris ->
  ParseSubscription dec (Join uris newline) = (qs, false) /\
  ParseSubscription dec (EncodeToString StdEncoding (Join uris newline)) = (qs, false).
Proof.
  intros Hne Hc Hg Hlen. apply subscription_text; [|clear Hne Hlen|done].
  - intros ->. by inversion Hg; subst.
  - revert uris Hg. induction Hc as [|p q ps qs Hpq _ IH]; intros uris Hg; inversion Hg; subst; constructor; [|by apply IH].
    destruct (generated_reads dec marshal p q Hpq) as (uri & E & Hr). congruence.
Qed.

Definition trojan_demo : ServerProfile :=
  blank_profile |> set_Protocol "trojan" |> set_Password "p@ss:w0rd" |> set_Address "t.example" |> set_Port 443 |> set_Name "T".

Lemma subscription_roundtrip_witness : exists uris, length uris = 2%nat /\
  ParseSubscription demo_decoders (Join uris newline) =
    ([finish "VLESS" (carried_vless link_demo); finish "Trojan" (carried_trojan trojan_demo)], false).
Proof.
  exists [generateVLESS link_demo; generateTrojan trojan_demo]. split; [reflexivity|].
  refine (proj1 (subscription_roundtrip demo_decoders (fun _ => ""%string) [link_demo; trojan_demo] _ _ _ _ _ _)).
  - discriminate.
  - repeat constructor; eexists _, _, _; (split; [split; [vm_compute; reflexivity|]; split; [vm_compute; reflexivity|];
      vm_compute; split; discriminate|]); (split; [reflexivity|]); (split; [|reflexivity]);
      (split; [discriminate|]); (split; [reflexivity|]); (split; [discriminate|]); repeat constructor.
  - repeat constructor.
  - repeat constructor; vm_compute; reflexivity.
Defined.
