(* ===== verification/XrayOutbounds.v ===== *)
(** * Outbounds of Xray (src/pkg/compiler/xray/outbounds.go, outbounds_common.go,
    outbound_*.go)

    A profile as an Xray outbound object, with its stream settings, and that the
    import of Xray configurations (XrayImport.v) reads the profile back from it. *)
From Stdlib Require QArith.
From S2P Require Import Prelude GoStrings GoFloat Crypto Ast Profile XrayImport.
Open Scope Z_scope.

(** [if s != "" { m[k] = s }] *)
Definition opt_text (k s : string) : jmap := opt (s <>s "") k (VString s).

(** ** Stream settings *)

Definition stream_network (node : ServerProfile) : string := if p_Transport node =s "" then "tcp" else p_Transport node.

Definition stream_security (node : ServerProfile) : string :=
  if p_Security node =s "" then
    if p_PublicKey node <>s "" then "reality"
    else if (p_SNI node <>s "") || p_Insecure node then "tls"
    else "none"
  else p_Security node.

Definition xray_fingerprints : list string :=
  ["chrome"; "firefox"; "safari"; "ios"; "edge"; "qq"; "360"; "random"; "randomized"]%string.
Definition stream_fingerprint (node : ServerProfile) : string :=
  if existsb (String.eqb (p_Fingerprint node)) xray_fingerprints then p_Fingerprint node else "chrome".

Definition realitySettings (node : ServerProfile) : jmap :=
  [("show", VBool false); ("fingerprint", VString (stream_fingerprint node)); ("serverName", VString (p_SNI node));
   ("publicKey", VString (p_PublicKey node)); ("shortId", VString (p_ShortID node)); ("spiderX", VString (p_SpiderX node))]%string
  ++ opt (p_PostQuantum node) "curves" (VStrings DefaultPostQuantumCurves).

Definition tlsSettings (node : ServerProfile) : jmap :=
  [("fingerprint", VString (stream_fingerprint node)); ("serverName", VString (p_SNI node))]%string
  ++ opt_strings "alpn" (p_ALPN node) ++ opt_text "pinnedPeerCertSha256" (p_PinnedPeerCertSha256 node)
  ++ opt (p_PostQuantum node) "curves" (VStrings DefaultPostQuantumCurves).

Definition transport_settings (node : ServerProfile) : jmap :=
  let network := stream_network node in
  if network =s "grpc" then
    [("grpcSettings"%string, VMap ([("serviceName"%string, VString (if p_ServiceName node =s "" then p_Path node else p_ServiceName node))]
      ++ opt_text "authority" (p_Host node)))]
  else if network =s "ws" then
    [("wsSettings"%string, VMap ([("path"%string, VString (p_Path node))]
      ++ opt (p_Host node <>s "") "headers" (VMap [("Host"%string, VString (p_Host node))])))]
  else if (network =s "xhttp") || (network =s "splithttp") then
    [("xhttpSettings"%string, VMap [("path", VString (p_Path node)); ("host", VString (p_Host node)); ("mode", VString "auto")]%string)]
  else [].

Definition buildXrayStreamSettings (node : ServerProfile) : jmap :=
  let security := stream_security node in
  [("network", VString (stream_network node)); ("security", VString security)]%string
  ++ (if security =s "reality" then [("realitySettings"%string, VMap (realitySettings node))]
      else if security =s "tls" then [("tlsSettings"%string, VMap (tlsSettings node))] else [])
  ++ transport_settings node.

(** ** The protocols *)

Definition outbound_object (protocol tag : string) (settings : jmap) (stream : jmap) : jmap :=
  [("protocol", VString protocol); ("tag", VString tag); ("settings", VMap settings)]%string ++ stream.
Definition with_stream (node : ServerProfile) : jmap := [("streamSettings"%string, VMap (buildXrayStreamSettings node))].
Definition endpoint_fields (node : ServerProfile) : jmap :=
  [("address", VString (p_Address node)); ("port", VInt (p_Port node))]%string.

Definition buildXrayVLESSOutbound (tag : string) (node : ServerProfile) : jmap :=
  let enc := if p_Encryption node <>s "" then p_Encryption node else "none"%string in
  outbound_object "vless" tag
    [("vnext"%string, VList [VMap (endpoint_fields node ++
       [("users"%string, VList [VMap [("id", VString (p_UUID node)); ("encryption", VString enc); ("flow", VString (p_Flow node))]%string])])])]
    (with_stream node).

Definition buildXrayVMessOutbound (tag : string) (node : ServerProfile) : jmap :=
  outbound_object "vmess" tag
    [("vnext"%string, VList [VMap (endpoint_fields node ++
       [("users"%string, VList [VMap [("id", VString (p_UUID node)); ("alterId", VInt 0); ("security", VString "auto")]%string])])])]
    (with_stream node).

Definition buildXrayTrojanOutbound (tag : string) (node : ServerProfile) : jmap :=
  outbound_object "trojan" tag
    [("servers"%string, VList [VMap (endpoint_fields node ++ [("password"%string, VString (p_Password node))])])]
    (with_stream node).

Definition default_cipher : string := "2022-blake3-aes-128-gcm".
Definition buildXrayShadowsocksOutbound (tag : string) (node : ServerProfile) : jmap :=
  let cipher := if p_Cipher node =s "" then default_cipher else p_Cipher node in
  outbound_object "shadowsocks" tag
    [("servers"%string, VList [VMap (endpoint_fields node ++
       [("method", VString cipher); ("password", VString (p_Password node))]%string)])] [].

Definition buildXrayWireGuardOutbound (tag : string) (node : ServerProfile) : jmap :=
  outbound_object "wireguard" tag
    [("secretKey", VString (p_PrivateKey node)); ("address", VStrings (p_LocalAddress node));
     ("peers", VList [VMap ([("publicKey", VString (p_PeerPublicKey node));
        ("endpoint", VString (p_Address node ^^ ":" ^^ Itoa (p_Port node)))] ++ opt_text "preSharedKey" (p_PreSharedKey node))]);
     ("mtu", VInt (p_MTU node))]%string [].

(** On this machine a Hysteria client offers a SOCKS proxy. *)
Definition hysteria2_auth (node : ServerProfile) : string :=
  if p_Password node <>s "" then p_Password node else if p_UUID node <>s "" then p_UUID node else p_Username node.
Definition buildXrayHysteria2Outbound (tag : string) (node : ServerProfile) : jmap :=
  if (p_Address node =s "127.0.0.1") || (p_Address node =s "localhost") then
    outbound_object "socks" tag
      [("servers"%string, VList [VMap [("address", VString (p_Address node));
         ("port", VInt (if (0 <? p_Port node)%Z then p_Port node else 10808))]%string])] []
  else
    let auth := hysteria2_auth node in
    let sni := if p_SNI node =s "" then p_Address node else p_SNI node in
    let tls := opt_text "serverName" sni ++ opt_text "pinnedPeerCertSha256" (p_PinnedPeerCertSha256 node)
               ++ opt_strings "alpn" (p_ALPN node) in
    [("tag", VString tag); ("protocol", VString "hysteria");
     ("settings", VMap ([("version"%string, VInt 2)] ++ endpoint_fields node ++ [("auth"%string, VString auth)]));
     ("streamSettings", VMap [("network", VString "hysteria"); ("security", VString "tls"); ("tlsSettings", VMap tls);
        ("hysteriaSettings", VMap [("version", VInt 2); ("auth", VString auth)])])]%string.

(** The user of a proxy, when there is one. *)
Definition proxy_users (level : jmap) (node : ServerProfile) : jmap :=
  opt ((p_Username node <>s "") || (p_Password node <>s "")) "users"
    (VList [VMap ([("user", VString (p_Username node)); ("pass", VString (p_Password node))]%string ++ level)]).
Definition buildXraySocksOutbound (tag : string) (node : ServerProfile) : jmap :=
  outbound_object "socks" tag
    [("servers"%string, VList [VMap (endpoint_fields node ++ proxy_users [("level"%string, VInt 0)] node)])] [].
Definition buildXrayHttpOutbound (tag : string) (node : ServerProfile) : jmap :=
  outbound_object "http" tag [("servers"%string, VList [VMap (endpoint_fields node ++ proxy_users [] node)])] [].

Definition node_tag (node : ServerProfile) : string := if p_Name node <>s "" then p_Name node else "proxy".

(** [inl]: the error's text.  [None]: a nil node. *)
Definition BuildXrayOutbound (node : option ServerProfile) : string + jmap :=
  match node with
  | None => inl "node profile cannot be nil"%string
  | Some node =>
      let proto := ToLower (p_Protocol node) in
      let tag := node_tag node in
      if proto =s ProtoVLESS then inr (buildXrayVLESSOutbound tag node)
      else if proto =s ProtoVMess then inr (buildXrayVMessOutbound tag node)
      else if proto =s ProtoTrojan then inr (buildXrayTrojanOutbound tag node)
      else if proto =s ProtoShadowsocks then inr (buildXrayShadowsocksOutbound tag node)
      else if proto =s ProtoWireGuard then inr (buildXrayWireGuardOutbound tag node)
      else if proto =s ProtoHysteria2 then inr (buildXrayHysteria2Outbound tag node)
      else if (proto =s ProtoSocks) || (proto =s "socks5") then inr (buildXraySocksOutbound tag node)
      else if (proto =s ProtoHTTP) || (proto =s "https") then inr (buildXrayHttpOutbound tag node)
      else if proto =s ProtoDirect then inr [("protocol", VString "freedom"); ("tag", VString tag)]%string
      else if proto =s ProtoBlock then inr [("protocol", VString "blackhole"); ("tag", VString tag)]%string
      else inl ("unsupported protocol for xray-core outbound: " ^^ proto)
  end.

(** ** Reading an outbound back *)

(** What [encoding/json] gives back for the object it wrote: a number is a [float64], and a
    byte of a text that belongs to no rune is U+FFFD.  The keys are the program's own. *)
Fixpoint json_value (v : value) : value :=
  match v with
  | VInt z => VFloat (QArith_base.inject_Z (round53 z))
  | VString s => VString (json_text s)
  | VList l => VList (map json_value l)
  | VMap m => VMap (map (fun kv => (kv.1, json_value kv.2)) m)
  | v => v
  end.
Definition json_map (m : jmap) : jmap := map (fun kv => (kv.1, json_value kv.2)) m.

(** The values that lose nothing on the way: whole numbers that a [float64] has, and texts
    in UTF-8. *)
Fixpoint exact_value (v : value) : bool :=
  match v with
  | VInt z => Z.abs z <=? 2 ^ 53
  | VString s => is_utf8 s
  | VList l => forallb exact_value l
  | VMap m => forallb (fun kv => exact_value kv.2) m
  | _ => true
  end.
Definition exact_map (m : jmap) : bool := forallb (fun kv => exact_value kv.2) m.
(** What is read of them. *)
Fixpoint decoded_value (v : value) : value :=
  match v with
  | VInt z => VFloat (QArith_base.inject_Z z)
  | VList l => VList (map decoded_value l)
  | VMap m => VMap (map (fun kv => (kv.1, decoded_value kv.2)) m)
  | v => v
  end.
Definition decoded_map (m : jmap) : jmap := map (fun kv => (kv.1, decoded_value kv.2)) m.
Lemma json_exact v : exact_value v = true -> json_value v = decoded_value v.
Proof.
  induction v as [|b|z|q|s|l IH|m IH] using value_rect_nested; cbn [exact_value json_value decoded_value]; try done.
  - intros Hz%Z.leb_le. by rewrite round53_exact.
  - intros Hs. by rewrite json_text_utf8.
  - intros Hl. f_equal. apply map_ext_in. intros x Hx. apply (proj1 (List.Forall_forall _ _) IH x Hx), (proj1 (forallb_forall _ _) Hl x Hx).
  - intros Hm. f_equal. apply map_ext_in. intros x Hx. f_equal.
    apply (proj1 (List.Forall_forall _ _) IH x Hx), (proj1 (forallb_forall _ _) Hm x Hx).
Qed.
Lemma json_map_exact m : exact_map m = true -> json_map m = decoded_map m.
Proof.
  intros Hm. apply map_ext_in. intros x Hx. f_equal. apply json_exact, (proj1 (forallb_forall _ _) Hm x Hx).
Qed.

Definition get_map (m : jmap) (k : string) : option jmap := match jget m k with Some (VMap x) => Some x | _ => None end.
(** The decoding of an object into the structures of the import. *)
Definition decode_stream (m : jmap) : XrayStreamSettings :=
  mkStream (get_string m "network") (get_string m "security") (get_map m "realitySettings") (get_map m "tlsSettings")
    (get_map m "wsSettings") (get_map m "grpcSettings") (get_map m "httpSettings") (get_map m "tcpSettings").
Definition decode_outbound (m : jmap) : XrayOutbound :=
  mkXrayOutbound (get_string m "tag") (get_string m "protocol") (get_map m "settings") (decode_stream <$> get_map m "streamSettings").

(** ** The fields that an outbound carries

    The import does not know the outbounds of WireGuard and Hysteria. *)

Definition carried_stream (node : ServerProfile) (p : ServerProfile) : ServerProfile :=
  let p := p |> set_Transport (stream_network node) |> set_Security (stream_security node) in
  let p :=
    if stream_security node =s "reality" then
      p |> set_SNI (p_SNI node) |> set_PublicKey (p_PublicKey node) |> set_ShortID (p_ShortID node)
        |> set_SpiderX (p_SpiderX node) |> set_Fingerprint (stream_fingerprint node)
    else if stream_security node =s "tls" then
      p |> set_SNI (p_SNI node) |> set_Fingerprint (stream_fingerprint node)
        |> set_PinnedPeerCertSha256 (p_PinnedPeerCertSha256 node)
        |> set_ALPN (List.filter (fun s => s <>s "") (p_ALPN node))
    else p in
  if stream_network node =s "grpc" then
    p |> set_ServiceName (if p_ServiceName node =s "" then p_Path node else p_ServiceName node) |> set_Host (p_Host node)
  else if stream_network node =s "ws" then p |> set_Path (p_Path node) |> set_Host (p_Host node)
  else p.

Definition carried_endpoint (protocol : string) (node : ServerProfile) : ServerProfile :=
  blank_profile |> set_Protocol protocol |> set_Name (node_tag node) |> set_Address (p_Address node) |> set_Port (p_Port node).

Definition carried_profile (node : ServerProfile) : option ServerProfile :=
  let proto := ToLower (p_Protocol node) in
  if proto =s ProtoVLESS then
    Some (carried_endpoint "vless" node |> set_UUID (p_UUID node) |> set_Flow (p_Flow node)
      |> set_Encryption (if p_Encryption node <>s "" then p_Encryption node else "none") |> carried_stream node)
  else if proto =s ProtoVMess then Some (carried_endpoint "vmess" node |> set_UUID (p_UUID node) |> carried_stream node)
  else if proto =s ProtoTrojan then Some (carried_endpoint "trojan" node |> set_Password (p_Password node) |> carried_stream node)
  else if proto =s ProtoShadowsocks then
    Some (carried_endpoint "shadowsocks" node |> set_Cipher (if p_Cipher node =s "" then default_cipher else p_Cipher node)
      |> set_Password (p_Password node))
  else if proto =s ProtoWireGuard then None
  else if proto =s ProtoHysteria2 then None
  else if (proto =s ProtoSocks) || (proto =s "socks5") then
    Some (carried_endpoint "socks" node |> set_Username (p_Username node) |> set_Password (p_Password node))
  else if (proto =s ProtoHTTP) || (proto =s "https") then
    Some (carried_endpoint "http" node |> set_Username (p_Username node) |> set_Password (p_Password node))
  else None.

(** ** Lemmas *)

Lemma jget_opt_text k s j : jget (opt_text k s) j = if (s <>s "") && (k =s j) then Some (VString s) else None.
Proof. apply jget_opt. Qed.
Lemma jget_opt_strings k l j : jget (opt_strings k l) j = if nonempty l && (k =s j) then Some (VStrings l) else None.
Proof. apply jget_opt. Qed.

Lemma jget_json m k : jget (decoded_map m) k = decoded_value <$> jget m k.
Proof.
  unfold decoded_map. induction m as [|[j v] m IH]; [done|]. cbn [map fst snd]. rewrite !jget_cons. by destruct (j =s k).
Qed.
Lemma get_string_json m k : get_string (decoded_map m) k = get_string m k.
Proof. unfold get_string. rewrite jget_json. by destruct (jget m k) as [[]|]. Qed.
Lemma get_map_json m k : get_map (decoded_map m) k = decoded_map <$> get_map m k.
Proof. unfold get_map. rewrite jget_json. by destruct (jget m k) as [[]|]. Qed.

Lemma json_strings l : decoded_value (VStrings l) = VStrings l.
Proof. unfold VStrings. cbn [decoded_value]. f_equal. rewrite map_map. done. Qed.

Lemma nonempty_strings l : omap nonempty_string (map VString l) = List.filter (fun s => s <>s "") l.
Proof. induction l as [|s l IH]; [done|]. cbn. rewrite IH. by destruct (s =s ""). Qed.

Lemma int_of_float_inject z : minInt64 <= z <= maxInt64 -> int_of_float (QArith_base.inject_Z z) = z.
Proof.
  intros Hz. unfold int_of_float. cbn [QArith_base.inject_Z QArith_base.Qnum QArith_base.Qden]. rewrite Z.quot_1_r.
  destruct (Z.leb_spec minInt64 z), (Z.leb_spec z maxInt64); [done|lia..].
Qed.

Ltac jsimpl :=
  repeat progress (rewrite ?jget_app, ?jget_cons, ?jget_opt, ?jget_opt_text, ?jget_opt_strings, ?jget_json;
          cbn [String.eqb Ascii.eqb Bool.eqb fmap option_fmap option_map decoded_value]).

Section Stream.
Context (node : ServerProfile).
Let stream := buildXrayStreamSettings node.

Lemma stream_gets : get_string stream "network" = stream_network node /\ get_string stream "security" = stream_security node.
Proof. split; unfold get_string, stream, buildXrayStreamSettings; by jsimpl. Qed.

Lemma transport_has k : get_map (transport_settings node) k =
  if stream_network node =s "grpc" then
    if "grpcSettings" =s k then Some ([("serviceName"%string, VString (if p_ServiceName node =s "" then p_Path node else p_ServiceName node))]
      ++ opt_text "authority" (p_Host node)) else None
  else if stream_network node =s "ws" then
    if "wsSettings" =s k then Some ([("path"%string, VString (p_Path node))]
      ++ opt (p_Host node <>s "") "headers" (VMap [("Host"%string, VString (p_Host node))])) else None
  else if (stream_network node =s "xhttp") || (stream_network node =s "splithttp") then
    if "xhttpSettings" =s k then Some [("path", VString (p_Path node)); ("host", VString (p_Host node)); ("mode", VString "auto")]%string else None
  else None.
Proof.
  unfold get_map, transport_settings. destruct (stream_network node =s "grpc"); [|destruct (stream_network node =s "ws");
    [|destruct (_ || _); [|done]]]; rewrite jget_cons; by destruct (_ =s k).
Qed.

Lemma stream_map k : ("network" =s k) = false -> ("security" =s k) = false ->
  get_map stream k =
  match (if stream_security node =s "reality" then if "realitySettings" =s k then Some (realitySettings node) else None
         else if stream_security node =s "tls" then if "tlsSettings" =s k then Some (tlsSettings node) else None else None) with
  | Some m => Some m
  | None => get_map (transport_settings node) k
  end.
Proof.
  intros H1 H2. unfold get_map, stream, buildXrayStreamSettings. rewrite !jget_app, !jget_cons, H1, H2.
  destruct (stream_security node =s "reality").
  - rewrite jget_cons. by destruct ("realitySettings" =s k).
  - destruct (stream_security node =s "tls"); [|done]. rewrite jget_cons. by destruct ("tlsSettings" =s k).
Qed.

Lemma from_reality_carried p : from_reality (decoded_map (realitySettings node)) p =
  p |> set_Security "reality" |> set_SNI (p_SNI node) |> set_PublicKey (p_PublicKey node) |> set_ShortID (p_ShortID node)
    |> set_SpiderX (p_SpiderX node) |> set_Fingerprint (stream_fingerprint node).
Proof.
  unfold from_reality. rewrite !get_string_json. unfold get_string, realitySettings. by jsimpl.
Qed.

Lemma on_string_get m k f s p : jget m k = Some (VString s) -> on_string m k f p = f s p.
Proof. unfold on_string. by intros ->. Qed.
Lemma on_string_absent m k f p : jget m k = None -> on_string m k f p = p.
Proof. unfold on_string. by intros ->. Qed.
Lemma on_nonempty_get m k f s p : jget m k = Some (VString s) -> on_nonempty m k f p = if s =s "" then p else f s p.
Proof. unfold on_nonempty, on_string. by intros ->. Qed.
Lemma on_nonempty_absent m k f p : jget m k = None -> on_nonempty m k f p = p.
Proof. unfold on_nonempty, on_string. by intros ->. Qed.

Lemma set_SNI_same p : p_SNI p = "" -> set_SNI "" p = p.
Proof. destruct p. cbn. by intros ->. Qed.
Lemma set_Host_same p : p_Host p = "" -> set_Host "" p = p.
Proof. destruct p. cbn. by intros ->. Qed.
Lemma set_Pinned_same p : p_PinnedPeerCertSha256 p = "" -> set_PinnedPeerCertSha256 "" p = p.
Proof. destruct p. cbn. by intros ->. Qed.
Lemma set_ALPN_same p : p_ALPN p = [] -> set_ALPN [] p = p.
Proof. destruct p. cbn. by intros ->. Qed.

Lemma tls_gets :
  jget (tlsSettings node) "serverName" = Some (VString (p_SNI node)) /\
  jget (tlsSettings node) "fingerprint" = Some (VString (stream_fingerprint node)) /\
  jget (tlsSettings node) "pinnedPeerCertSha256" =
    (if p_PinnedPeerCertSha256 node <>s "" then Some (VString (p_PinnedPeerCertSha256 node)) else None) /\
  jget (tlsSettings node) "allowInsecure" = None /\
  jget (tlsSettings node) "alpn" = (if nonempty (p_ALPN node) then Some (VStrings (p_ALPN node)) else None).
Proof.
  unfold tlsSettings. repeat split; jsimpl; rewrite ?andb_false_r, ?andb_true_r;
    destruct (nonempty (p_ALPN node)), (p_PinnedPeerCertSha256 node <>s ""); try done.
Qed.

Lemma from_tls_carried p : p_Security p = "tls" -> p_SNI p = "" -> p_PinnedPeerCertSha256 p = "" -> p_ALPN p = [] ->
  from_tls (decoded_map (tlsSettings node)) p =
  p |> set_SNI (p_SNI node) |> set_Fingerprint (stream_fingerprint node)
    |> set_PinnedPeerCertSha256 (p_PinnedPeerCertSha256 node) |> set_ALPN (List.filter (fun s => s <>s "") (p_ALPN node)).
Proof.
  intros Hsec Hsni Hpin Halpn. destruct tls_gets as (E1 & E2 & E3 & E4 & E5).
  unfold from_tls.
  assert (H1 : tls_security p = p) by (unfold tls_security; by rewrite Hsec).
  rewrite H1, (on_nonempty_get _ _ _ (p_SNI node)) by by rewrite jget_json, E1.
  assert (H2 : (if p_SNI node =s "" then p else set_SNI (p_SNI node) p) = set_SNI (p_SNI node) p).
  { destruct (String.eqb_spec (p_SNI node) "") as [->|]; [by rewrite set_SNI_same|done]. }
  rewrite H2, (on_string_get _ "fingerprint" _ (stream_fingerprint node)) by by rewrite jget_json, E2.
  set (q := set_Fingerprint (stream_fingerprint node) (set_SNI (p_SNI node) p)).
  assert (H3 : on_string (decoded_map (tlsSettings node)) "pinnedPeerCertSha256" set_PinnedPeerCertSha256 q =
    set_PinnedPeerCertSha256 (p_PinnedPeerCertSha256 node) q).
  { destruct (String.eqb_spec (p_PinnedPeerCertSha256 node) "") as [Ep|Ep].
    - rewrite on_string_absent by (by rewrite jget_json, E3). rewrite Ep, set_Pinned_same; [done|].
      unfold q. by destruct p.
    - rewrite (on_string_get _ _ _ (p_PinnedPeerCertSha256 node)); [done|by rewrite jget_json, E3]. }
  rewrite H3. unfold tls_insecure, tls_alpn. rewrite !jget_json, E4, E5. cbn [fmap option_fmap option_map].
  assert (Hq : p_ALPN (set_PinnedPeerCertSha256 (p_PinnedPeerCertSha256 node) q) = []) by (unfold q; by destruct p).
  destruct (p_ALPN node) as [|s l] eqn:El.
  - cbn [nonempty List.filter]. by rewrite set_ALPN_same.
  - change (decoded_value <$> (if nonempty (s :: l) then Some (VStrings (s :: l)) else None))
      with (Some (decoded_value (VStrings (s :: l)))).
    rewrite json_strings, Hq. unfold VStrings. by rewrite nonempty_strings.
Qed.

Lemma grpc_carried s h p : p_Host p = "" ->
  from_grpc (decoded_map ([("serviceName"%string, VString s)] ++ opt_text "authority" h)) p =
  p |> set_Transport "grpc" |> set_ServiceName s |> set_Host h.
Proof.
  intros Hh. unfold from_grpc. rewrite get_string_json.
  assert (E : get_string ([("serviceName"%string, VString s)] ++ opt_text "authority" h) "serviceName" = s) by done.
  rewrite E. destruct (String.eqb_spec h "") as [->|Hne].
  - rewrite on_nonempty_absent by done. rewrite set_Host_same; [done|by destruct p].
  - apply String.eqb_neq in Hne. rewrite (on_nonempty_get _ _ _ h).
    + by rewrite Hne.
    + rewrite jget_json, jget_app, jget_cons, jget_opt_text, Hne. done.
Qed.

Lemma ws_carried s h p : p_Host p = "" ->
  from_ws (decoded_map ([("path"%string, VString s)] ++ opt (h <>s "") "headers" (VMap [("Host"%string, VString h)]))) p =
  p |> set_Transport "ws" |> set_Path s |> set_Host h.
Proof.
  intros Hh. unfold from_ws. rewrite get_string_json.
  assert (E : get_string ([("path"%string, VString s)] ++ opt (h <>s "") "headers" (VMap [("Host"%string, VString h)])) "path" = s) by done.
  rewrite E. unfold ws_host. rewrite jget_json, jget_app, jget_cons, jget_opt.
  destruct (String.eqb_spec h "") as [->|Hne].
  - cbn. rewrite set_Host_same; [done|by destruct p].
  - apply String.eqb_neq in Hne. cbn [negb andb String.eqb Ascii.eqb Bool.eqb fmap option_fmap option_map decoded_value map fst snd].
    change (on_nonempty [("Host"%string, VString h)] "Host" set_Host (p |> set_Transport "ws" |> set_Path s) =
      p |> set_Transport "ws" |> set_Path s |> set_Host h).
    rewrite (on_nonempty_get _ _ _ h) by done. by rewrite Hne.
Qed.

Lemma from_stream_carried p : p_SNI p = "" -> p_PinnedPeerCertSha256 p = "" -> p_ALPN p = [] -> p_Host p = "" ->
  from_stream (decode_stream (decoded_map stream)) p = carried_stream node p.
Proof.
  intros Hsni Hpin Halpn Hh. unfold from_stream, decode_stream.
  cbn [ss_Network ss_Security ss_RealitySettings ss_TLSSettings ss_GRPCSettings ss_WSSettings].
  rewrite !get_string_json, !get_map_json. destruct stream_gets as [-> ->].
  rewrite !stream_map, !transport_has by done. unfold carried_stream.
  cbn [String.eqb Ascii.eqb Bool.eqb].
  assert (Hnet : forall r, p_Host r = "" -> p_Transport r = stream_network node ->
    on (decoded_map <$> (if stream_network node =s "grpc" then
          Some ([("serviceName"%string, VString (if p_ServiceName node =s "" then p_Path node else p_ServiceName node))]
            ++ opt_text "authority" (p_Host node)) else None)) from_grpc r |>
    on (decoded_map <$> (if stream_network node =s "grpc" then None else if stream_network node =s "ws" then
          Some ([("path"%string, VString (p_Path node))]
            ++ opt (p_Host node <>s "") "headers" (VMap [("Host"%string, VString (p_Host node))])) else None)) from_ws =
    if stream_network node =s "grpc" then
      r |> set_ServiceName (if p_ServiceName node =s "" then p_Path node else p_ServiceName node) |> set_Host (p_Host node)
    else if stream_network node =s "ws" then r |> set_Path (p_Path node) |> set_Host (p_Host node)
    else r).
  { intros r Hr Ht. destruct (String.eqb_spec (stream_network node) "grpc") as [E|_].
    - cbn [fmap option_fmap option_map on]. rewrite grpc_carried by done. destruct r. cbn in *. by rewrite Ht, E.
    - destruct (String.eqb_spec (stream_network node) "ws") as [E|_]; [|done].
      cbn [fmap option_fmap option_map on]. rewrite ws_carried by done. destruct r. cbn in *. by rewrite Ht, E. }
  assert (Hx : forall (c : bool) (A : Type), (if c then @None A else None) = None) by (by intros []).
  assert (Hg : forall c : bool, (if c then @None jmap else if stream_network node =s "ws" then None else None) = None)
    by (intros []; [done|apply Hx]).
  rewrite !Hx, ?Hg.
  destruct (String.eqb_spec (stream_security node) "reality") as [Es|_];
    [|destruct (String.eqb_spec (stream_security node) "tls") as [Es|_]].
  - change (decoded_map <$> Some (realitySettings node)) with (Some (decoded_map (realitySettings node))). cbn [on].
    rewrite from_reality_carried, Hnet by by destruct p.
    rewrite Es. by destruct p.
  - change (decoded_map <$> Some (tlsSettings node)) with (Some (decoded_map (tlsSettings node))). cbn [on fmap option_fmap option_map].
    rewrite Es, from_tls_carried, Hnet by by destruct p. by destruct p.
  - cbn [on fmap option_fmap option_map]. rewrite Hnet by by destruct p. done.
Qed.
End Stream.

Lemma carried_stream_endpoint node q :
  p_Address (carried_stream node q) = p_Address q /\ p_Port (carried_stream node q) = p_Port q.
Proof.
  unfold carried_stream. destruct q. cbn [set_Transport set_Security].
  destruct (stream_security node =s "reality"), (stream_security node =s "tls"), (stream_network node =s "grpc"),
    (stream_network node =s "ws"); done.
Qed.

(** The import of an outbound object, with or without stream settings. *)
Lemma convert_object (s : bool) proto tag settings node q : tag <> "" -> ToLower proto = proto ->
  from_settings proto (decoded_map settings) (blank_profile |> set_Protocol proto |> set_Name tag) = q ->
  p_SNI q = "" -> p_PinnedPeerCertSha256 q = "" -> p_ALPN q = [] -> p_Host q = "" ->
  p_Address q <> "" -> 0 < p_Port q ->
  convertOutboundToProfile (decode_outbound (decoded_map (outbound_object proto tag settings (if s then with_stream node else [])))) "" =
  inr (Normalize (if s then carried_stream node q else q)).
Proof.
  intros Ht Hlow Hq H1 H2 H3 H4 Ha Hp. unfold decode_outbound. rewrite !get_string_json, !get_map_json.
  change (get_string (outbound_object proto tag settings (if s then with_stream node else [])) "tag") with tag.
  change (get_string (outbound_object proto tag settings (if s then with_stream node else [])) "protocol") with proto.
  change (get_map (outbound_object proto tag settings (if s then with_stream node else [])) "settings") with (Some settings).
  assert (Hs : get_map (outbound_object proto tag settings (if s then with_stream node else [])) "streamSettings" =
    if s then Some (buildXrayStreamSettings node) else None) by by destruct s.
  rewrite Hs. unfold convertOutboundToProfile. cbn [xo_Tag xo_Protocol xo_Settings xo_StreamSettings].
  rewrite Hlow. change (decoded_map <$> Some settings) with (Some (decoded_map settings)). cbn [on String.eqb].
  rewrite Hq. assert (Hchk : forall r, p_Address r = p_Address q -> p_Port r = p_Port q -> (p_Address r =s "") || (p_Port r <=? 0) = false).
  { intros r -> ->. apply String.eqb_neq in Ha. rewrite Ha. apply Z.leb_gt. lia. }
  destruct s.
  - change (decode_stream <$> (decoded_map <$> Some (buildXrayStreamSettings node)))
      with (Some (decode_stream (decoded_map (buildXrayStreamSettings node)))). cbn [on].
    rewrite from_stream_carried by done. by rewrite Hchk by apply carried_stream_endpoint.
  - cbn [on fmap option_fmap option_map]. by rewrite Hchk.
Qed.

Lemma node_tag_nonempty node : node_tag node <> "".
Proof. unfold node_tag. destruct (String.eqb_spec (p_Name node) ""); done. Qed.

Lemma no_users node : ((p_Username node <>s "") || (p_Password node <>s "") = false /\ p_Username node = "" /\ p_Password node = "") \/
  (p_Username node <>s "") || (p_Password node <>s "") = true.
Proof.
  destruct (String.eqb_spec (p_Username node) ""), (String.eqb_spec (p_Password node) ""); cbn; auto.
Qed.

(** The server of an outbound is read with its port. *)
Ltac read_server node Hpt :=
  unfold carried_endpoint;
  match goal with
  | |- ?l = ?r =>
      let f := eval pattern (p_Port node) in r in
      match f with ?g _ => transitivity (g (int_of_float (QArith_base.inject_Z (p_Port node)))); [reflexivity|by rewrite Hpt] end
  | |- 0 < p_Port _ => cbn; lia
  end.

Lemma compiled_decoded node obj p :
  p_Address node <> "" -> 0 < p_Port node <= maxInt64 ->
  BuildXrayOutbound (Some node) = inr obj -> carried_profile node = Some p ->
  convertOutboundToProfile (decode_outbound (decoded_map obj)) "" = inr (Normalize p).
Proof.
  intros Ha Hport. unfold BuildXrayOutbound, carried_profile. cbv zeta. set (proto := ToLower (p_Protocol node)). clearbody proto.
  assert (Hpt : int_of_float (QArith_base.inject_Z (p_Port node)) = p_Port node) by (apply int_of_float_inject; unfold minInt64 in *; lia).
  pose proof (node_tag_nonempty node) as Htag.
  repeat match goal with
  | |- context [if ?b then inr _ else _] => destruct b
  end; intros E1 E2; try discriminate E1; try discriminate E2; injection E1 as <-; injection E2 as <-.
  - apply (convert_object true); try done; read_server node Hpt.
  - apply (convert_object true); try done; read_server node Hpt.
  - apply (convert_object true); try done; read_server node Hpt.
  - apply (convert_object false); try done; read_server node Hpt.
  - unfold buildXraySocksOutbound, proxy_users.
    destruct (no_users node) as [(-> & Eu & Ep)| ->].
    + apply (convert_object false); try done; [rewrite Eu, Ep|..]; read_server node Hpt.
    + apply (convert_object false); try done; read_server node Hpt.
  - unfold buildXrayHttpOutbound, proxy_users.
    destruct (no_users node) as [(-> & Eu & Ep)| ->].
    + apply (convert_object false); try done; [rewrite Eu, Ep|..]; read_server node Hpt.
    + apply (convert_object false); try done; read_server node Hpt.
Qed.

(** C23. A profile compiled to an Xray outbound (VLESS, VMess, Trojan, Shadowsocks, SOCKS or
    HTTP; the import knows neither WireGuard nor Hysteria), written as JSON and imported
    again is the profile restricted to the fields that [carried_profile] lists: address,
    port, credentials, transport with the path and host of WebSocket or the service of gRPC,
    TLS and Reality settings; not the path and host of xhttp, which the outbound has but the
    import does not read.  The address is not empty, the port is positive, and no text or
    number of the outbound is changed by JSON: the texts are UTF-8 and no whole number is
    above 2^53. *)
Theorem compiled_outbound_imported node obj p :
  p_Address node <> "" -> 0 < p_Port node <= maxInt64 ->
  BuildXrayOutbound (Some node) = inr obj -> exact_map obj = true -> carried_profile node = Some p ->
  convertOutboundToProfile (decode_outbound (json_map obj)) "" = inr (Normalize p).
Proof.
  intros Ha Hport E1 Hex E2. rewrite json_map_exact by done. by apply (compiled_decoded node).
Qed.

Definition outbound_demo : ServerProfile :=
  blank_profile |> set_Protocol "VLESS" |> set_Name "n1" |> set_Address "a.example" |> set_Port 8443 |> set_UUID "u-1"
    |> set_Flow "xtls-rprx-vision" |> set_Transport "grpc" |> set_ServiceName "svc" |> set_PublicKey "k" |> set_SNI "s.example"
    |> set_ShortID "ab" |> set_PostQuantum true.

Lemma compiled_outbound_imported_witness : exists obj p, BuildXrayOutbound (Some outbound_demo) = inr obj /\
  convertOutboundToProfile (decode_outbound (json_map obj)) "" = inr (Normalize p) /\ p_ServiceName p = "svc"%string /\
  p_Security p = "reality"%string.
Proof.
  destruct (BuildXrayOutbound (Some outbound_demo)) as [e|obj] eqn:E; [vm_compute in E; discriminate|].
  destruct (carried_profile outbound_demo) as [p|] eqn:Ec; [|vm_compute in Ec; discriminate].
  exists obj, p. split; [done|]. split.
  - apply (compiled_outbound_imported outbound_demo obj p); [discriminate|vm_compute; split; [reflexivity|discriminate]|exact E| |exact Ec].
    vm_compute in E. injection E as <-. reflexivity.
  - vm_compute in Ec. injection Ec as <-. done.
Defined.

(** ** What the objects leave out *)

(** The consent to an unverified certificate is not compiled. *)
Lemma insecure_not_compiled node b : p_Security node <> "" ->
  buildXrayStreamSettings (set_Insecure b node) = buildXrayStreamSettings node.
Proof.
  intros Hs. destruct node. cbn in Hs. apply String.eqb_neq in Hs.
  unfold buildXrayStreamSettings, stream_security. cbn -[String.eqb]. rewrite !Hs. reflexivity.
Qed.

(** An IPv6 address of a WireGuard peer is written without brackets. *)
Example wireguard_ipv6_endpoint :
  match BuildXrayOutbound (Some (blank_profile |> set_Protocol "wireguard" |> set_Address "2001:db8::1" |> set_Port 51820)) with
  | inr o => match get_map o "settings" with
             | Some s => match jget s "peers" with Some (VList [VMap m]) => get_string m "endpoint" | _ => ""%string end
             | None => ""%string
             end
  | inl _ => ""%string
  end = "2001:db8::1:51820"%string.
Proof. reflexivity. Qed.

(** The path and the host of an XHTTP transport are compiled, but not imported. *)
Example xhttp_not_imported :
  match BuildXrayOutbound (Some (outbound_demo |> set_Transport "xhttp" |> set_Path "/p" |> set_Host "h.example")) with
  | inr o => match convertOutboundToProfile (decode_outbound (json_map o)) "" with
             | inr p => (p_Transport p, p_Path p, p_Host p)
             | inl _ => (""%string, ""%string, ""%string)
             end
  | inl _ => (""%string, ""%string, ""%string)
  end = ("xhttp", "", "")%string.
Proof. vm_compute. reflexivity. Qed.

(** A text that is not UTF-8 and a large number do not come back. *)
Example json_changes : json_value (VInt (2 ^ 53 + 1)) = VFloat (QArith_base.inject_Z (2 ^ 53)) /\
  json_value (VString (String (ascii_of_N 255) "")) = VString replacement.
Proof. done. Qed.
