(* ===== verification/SingBoxOutbounds.v ===== *)
(** * Outbounds of sing-box (src/pkg/compiler/singbox/outbounds.go,
    outbounds_common.go, outbound_*.go)

    A profile as a sing-box outbound object, and the compilation of the raw
    outbounds of a panel, whose settings and stream settings have the form of Xray.
    The values of a raw outbound are those that JSON decodes to; the decoding of a
    JSON text inside it is an argument. *)
From Stdlib Require QArith.
From S2P Require Import Prelude GoStrings Ast Profile XrayImport XrayOutbounds.
Open Scope Z_scope.

(** ** From a profile *)

Definition tls_mode (node : ServerProfile) : string :=
  let sec := ToLower (TrimSpace (p_Security node)) in
  if sec =s "" then
    if p_PublicKey node <>s "" then SecurityReality
    else if (p_SNI node <>s "") || (p_Flow node =s "xtls-rprx-vision") then SecurityTLS
    else ""
  else sec.

Definition utls (fp : string) : jmap :=
  [("utls"%string, VMap [("enabled", VBool true); ("fingerprint", VString fp)]%string)].

(** [None]: no TLS. *)
Definition buildSingBoxTLS (node : ServerProfile) : option jmap :=
  let sec := tls_mode node in
  if (sec =s "") || (sec =s SecurityNone) then None
  else
    Some ([("enabled"%string, VBool true)]
      ++ opt (p_Insecure node) "insecure" (VBool true)
      ++ opt_text "server_name" (p_SNI node)
      ++ opt_strings "alpn" (p_ALPN node)
      ++ (if ((sec =s SecurityReality) || (p_PublicKey node <>s "")) && (p_PublicKey node <>s "") then
            [("reality"%string, VMap [("enabled", VBool true); ("public_key", VString (p_PublicKey node));
                                      ("short_id", VString (p_ShortID node))]%string)]
            ++ utls (if p_Fingerprint node =s "" then "chrome" else p_Fingerprint node)
          else if p_Fingerprint node <>s "" then utls (p_Fingerprint node) else [])).

Definition buildSingBoxTransport (node : ServerProfile) : option jmap :=
  if (p_Transport node =s "") || (p_Transport node =s TransportTCP) then None
  else if p_Transport node =s "ws" then
    Some ([("type"%string, VString "ws")] ++ opt_text "path" (p_Path node)
      ++ opt (p_Host node <>s "") "headers" (VMap [("Host"%string, VString (p_Host node))]))
  else if p_Transport node =s "grpc" then
    Some ([("type"%string, VString "grpc")] ++ opt_text "service_name" (p_ServiceName node))
  else if p_Transport node =s "httpupgrade" then
    Some ([("type"%string, VString "httpupgrade")] ++ opt_text "path" (p_Path node) ++ opt_text "host" (p_Host node))
  else None.

Definition opt_map (k : string) (m : option jmap) : jmap := match m with Some m => [(k, VMap m)] | None => [] end.
Definition tls_and_transport (node : ServerProfile) : jmap :=
  opt_map "tls" (buildSingBoxTLS node) ++ opt_map "transport" (buildSingBoxTransport node).

Definition server_object (type tag : string) (node : ServerProfile) : jmap :=
  [("type", VString type); ("tag", VString tag); ("server", VString (p_Address node)); ("server_port", VInt (p_Port node))]%string.

(** "100", "100 Mbps", "200mb" *)
Definition parseBandwidth (s : string) : Z :=
  let s := ToLower (TrimSpace s) in
  default 0 (Atoi (TrimSpace (TrimSuffix (TrimSuffix (TrimSuffix s "mbps") "mb") "m"))).

Definition buildVLESSOutbound (tag : string) (node : ServerProfile) : jmap :=
  server_object "vless" tag node ++ [("uuid"%string, VString (p_UUID node))] ++ opt_text "flow" (p_Flow node) ++ tls_and_transport node.

Definition buildVMessOutbound (tag : string) (node : ServerProfile) : jmap :=
  server_object "vmess" tag node ++
  [("uuid", VString (p_UUID node)); ("security", VString (if p_Cipher node <>s "" then p_Cipher node else "auto"))]%string
  ++ tls_and_transport node.

Definition buildTrojanOutbound (tag : string) (node : ServerProfile) : jmap :=
  server_object "trojan" tag node ++ [("password"%string, VString (p_Password node))] ++ tls_and_transport node.

Definition buildShadowsocksOutbound (tag : string) (node : ServerProfile) : jmap :=
  server_object "shadowsocks" tag node ++
  [("method", VString (if p_Cipher node <>s "" then p_Cipher node else default_cipher));
   ("password", VString (p_Password node)); ("network", VString "tcp")]%string.

(** The digits of a text, the rest passed over; an [int] wraps around. *)
Definition add_digit (n : Z) (c : ascii) : Z := if is_digit c then wrap64 (n * 10 + (char_code c - 48)) else n.
Definition digits_value (s : string) : Z := fold_left add_digit (list_ascii_of_string s) 0.

Definition is_port_list (s : string) : bool := Contains s "-" || Contains s "," || Contains s ":".
(** "40000-50000, 443" as the ranges of sing-box *)
Definition port_ranges (s : string) : list string :=
  omap (fun p => let p := TrimSpace p in if p =s "" then None else Some (ReplaceByte p "-" ":")) (SplitByte s ",").

Definition hysteria2_ports (node : ServerProfile) : jmap :=
  if p_PortHopping node =s "" then [("server_port"%string, VInt (p_Port node))]
  else if is_port_list (p_PortHopping node) then
    let ports := port_ranges (p_PortHopping node) in
    if nonempty ports then
      let hop := get_string (p_Extra node) "hop_interval" in
      [("server_ports", VStrings ports); ("hop_interval", VString (if hop =s "" then "300s" else hop))]%string
    else []
  else
    let pInt := digits_value (TrimSpace (p_PortHopping node)) in
    [("server_port"%string, VInt (if 0 <? pInt then pInt else p_Port node))].

Definition hysteria2_password (node : ServerProfile) : string :=
  if (p_Username node <>s "") && (p_Password node <>s "") then p_Username node ^^ ":" ^^ p_Password node
  else if (p_Password node =s "") && (p_Username node <>s "") then p_Username node
  else p_Password node.

Definition buildHysteria2Outbound (tag : string) (node : ServerProfile) : jmap :=
  [("type", VString "hysteria2"); ("tag", VString tag); ("server", VString (p_Address node));
   ("password", VString (hysteria2_password node))]%string
  ++ hysteria2_ports node
  ++ opt (p_BandwidthUp node <>s "") "up_mbps" (VInt (parseBandwidth (p_BandwidthUp node)))
  ++ opt (p_BandwidthDown node <>s "") "down_mbps" (VInt (parseBandwidth (p_BandwidthDown node)))
  ++ opt (p_ObfsType node <>s "") "obfs" (VMap [("type", VString (p_ObfsType node)); ("password", VString (p_ObfsPassword node))]%string)
  ++ [("tls"%string, VMap (match buildSingBoxTLS node with
       | Some m => jdel "utls" m
       | None => [("enabled"%string, VBool true)] ++ opt_text "server_name" (p_SNI node) ++ opt (p_Insecure node) "insecure" (VBool true)
       end))].

Definition buildTUICOutbound (tag : string) (node : ServerProfile) : jmap :=
  server_object "tuic" tag node ++ [("uuid", VString (p_UUID node)); ("password", VString (p_Password node))]%string
  ++ opt_text "congestion_control" (p_CongestionControl node) ++ opt_text "udp_relay_mode" (p_UDPRelayMode node)
  ++ opt (p_ZeroRTTHandshake node) "zero_rtt_handshake" (VBool true)
  ++ [("tls"%string, VMap (match buildSingBoxTLS node with
       | Some m => jdel "utls" m
       | None => [("enabled"%string, VBool true)] ++ opt_text "server_name" (p_SNI node)
       end))].

Definition buildShadowTLSOutbound (tag : string) (node : ServerProfile) : jmap :=
  server_object "shadowtls" tag node ++
  [("version", VInt (if (0 <? p_ShadowTLSVersion node)%Z then p_ShadowTLSVersion node else 3));
   ("password", VString (p_ShadowTLSPassword node));
   ("tls", VMap ([("enabled", VBool true); ("server_name", VString (p_ShadowTLSSNI node))]
      ++ (if p_Fingerprint node <>s "" then utls (p_Fingerprint node) else [])))]%string.

Definition buildWireGuardOutbound (tag : string) (node : ServerProfile) : jmap :=
  let pubKey := if p_PeerPublicKey node =s "" then p_PublicKey node else p_PeerPublicKey node in
  let peer :=
    [("address", VString (p_Address node)); ("port", VInt (p_Port node)); ("public_key", VString pubKey);
     ("allowed_ips", VStrings ["0.0.0.0/0"; "::/0"])]%string
    ++ opt_text "pre_shared_key" (p_PreSharedKey node)
    ++ opt (nonempty (p_ReservedBytes node)) "reserved" (VList (map VInt (p_ReservedBytes node))) in
  [("type", VString "wireguard"); ("tag", VString tag); ("private_key", VString (p_PrivateKey node));
   ("peers", VList [VMap peer])]%string
  ++ opt_strings "address" (p_LocalAddress node) ++ opt (0 <? p_MTU node) "mtu" (VInt (p_MTU node)).

Definition buildSocksOutbound (tag : string) (node : ServerProfile) : jmap :=
  server_object "socks" tag node ++ opt_text "username" (p_Username node) ++ opt_text "password" (p_Password node).
Definition buildHTTPOutbound (tag : string) (node : ServerProfile) : jmap :=
  server_object "http" tag node ++ opt_text "username" (p_Username node) ++ opt_text "password" (p_Password node)
  ++ opt_map "tls" (buildSingBoxTLS node).

Definition BuildSingBoxOutbound (node : option ServerProfile) : string + jmap :=
  match node with
  | None => inl "node profile cannot be nil"%string
  | Some node =>
      let proto := ToLower (p_Protocol node) in
      let tag := node_tag node in
      if proto =s ProtoVLESS then inr (buildVLESSOutbound tag node)
      else if proto =s ProtoHysteria2 then inr (buildHysteria2Outbound tag node)
      else if proto =s ProtoTrojan then inr (buildTrojanOutbound tag node)
      else if proto =s ProtoShadowsocks then inr (buildShadowsocksOutbound tag node)
      else if proto =s ProtoShadowTLS then inr (buildShadowTLSOutbound tag node)
      else if proto =s ProtoTUIC then inr (buildTUICOutbound tag node)
      else if proto =s ProtoVMess then inr (buildVMessOutbound tag node)
      else if proto =s ProtoWireGuard then inr (buildWireGuardOutbound tag node)
      else if proto =s ProtoSocks then inr (buildSocksOutbound tag node)
      else if proto =s ProtoHTTP then inr (buildHTTPOutbound tag node)
      else if proto =s ProtoDirect then inr [("type", VString "direct"); ("tag", VString tag)]%string
      else if proto =s ProtoBlock then inr [("type", VString "block"); ("tag", VString tag)]%string
      else inl ("unsupported protocol for sing-box outbound: " ^^ proto)
  end.

(** ** From a raw outbound *)

(** The first of the keys with a text that is not empty. *)
Fixpoint first_text (m : jmap) (keys : list string) : string :=
  match keys with
  | [] => ""
  | k :: keys => if get_string m k =s "" then first_text m keys else get_string m k
  end.
(** The first of the keys that has a text, even an empty one. *)
Fixpoint first_string (m : jmap) (keys : list string) : string :=
  match keys with
  | [] => ""
  | k :: keys => match jget m k with Some (VString s) => s | _ => first_string m keys end
  end.
(** The value of the first of the keys that is there; a nil [interface{}] else. *)
Fixpoint first_present (m : jmap) (keys : list string) : value :=
  match keys with
  | [] => VNil
  | k :: keys => match jget m k with Some v => v | None => first_present m keys end
  end.
(** [if s == "" { s = t }], [if v == nil { v = w }] *)
Definition or_text (s t : string) : string := if s =s "" then t else s.
Definition or_value (v w : value) : value := match v with VNil => w | v => v end.
Definition nested (o : option jmap) : jmap := default [] o.

(** The port of an outbound; [hop]: a text may name several. *)
Definition raw_port (hop : bool) (portRaw : value) : jmap :=
  match portRaw with
  | VFloat q => [("server_port"%string, VInt (int_of_float q))]
  | VInt z => [("server_port"%string, VInt z)]
  | VString v =>
      let vTrim := TrimSpace v in
      if hop && is_port_list vTrim then
        let ports := port_ranges vTrim in
        if nonempty ports then [("server_ports", VStrings ports); ("hop_interval", VString "300s")]%string else []
      else
        let pInt := digits_value vTrim in
        opt (0 <? pInt) "server_port" (VInt pInt)
  | _ => []
  end.

Definition raw_alpn (tlsSettings : jmap) : jmap :=
  match jget tlsSettings "alpn" with
  | Some (VList l) => opt_strings "alpn" (omap string_of l)
  | _ => []
  end.
Definition is_true (m : jmap) (k : string) : bool := match jget m k with Some (VBool b) => b | _ => false end.
Definition has_key (m : jmap) (k : string) : bool := is_some (jget m k).

Definition raw_security (tsMap : jmap) : string :=
  let security := get_string tsMap "security" in
  if security =s "" then
    if has_key tsMap "realitySettings" then "reality" else if has_key tsMap "tlsSettings" then "tls" else ""
  else security.

Definition raw_tls (tsMap : jmap) (defaultServerName : string) : jmap :=
  let security := raw_security tsMap in
  if (security =s "tls") || (security =s "reality") then
    let tls := nested (get_map tsMap "tlsSettings") in
    let reality := nested (get_map tsMap "realitySettings") in
    let serverName := or_text (get_string reality "serverName") (or_text (get_string tls "serverName") defaultServerName) in
    let pk := get_string reality "publicKey" in
    let fp := or_text (get_string reality "fingerprint") (get_string tls "fingerprint") in
    [("tls"%string, VMap ([("enabled"%string, VBool true)]
      ++ opt_text "server_name" serverName
      ++ opt (is_true tls "allowInsecure") "insecure" (VBool true)
      ++ raw_alpn tls
      ++ opt (pk <>s "") "reality" (VMap ([("enabled", VBool true); ("public_key", VString pk)]%string ++ opt_text "short_id" (get_string reality "shortId")))
      ++ (if fp <>s "" then utls fp else [])))]
  else [].

Definition raw_transport (tsMap : jmap) : jmap :=
  let network := get_string tsMap "network" in
  if network =s "ws" then
    let ws := nested (get_map tsMap "wsSettings") in
    let host := get_string (nested (get_map ws "headers")) "Host" in
    [("transport"%string, VMap ([("type"%string, VString "ws")] ++ opt_text "path" (get_string ws "path")
      ++ opt (host <>s "") "headers" (VMap [("Host"%string, VString host)])))]
  else if network =s "grpc" then
    [("transport"%string, VMap ([("type"%string, VString "grpc")]
      ++ opt_text "service_name" (get_string (nested (get_map tsMap "grpcSettings")) "serviceName")))]
  else if network =s "httpupgrade" then
    let hu := nested (get_map tsMap "httpupgradeSettings") in
    [("transport"%string, VMap ([("type"%string, VString "httpupgrade")] ++ opt_text "path" (get_string hu "path")
      ++ opt_text "host" (get_string hu "host")))]
  else [].

Definition applyRawTLSAndTransport (tsMap : jmap) (defaultServerName : string) : jmap :=
  raw_tls tsMap defaultServerName ++ raw_transport tsMap.

Definition raw_server (sMap : jmap) : string := first_text sMap ["server"; "address"; "host"]%string.
Definition raw_header (type tag : string) : jmap := [("type", VString type); ("tag", VString tag)]%string.

Definition compileRawVLESSOutbound (tag : string) (sMap tsMap : jmap) : jmap :=
  let vnext := nested (first_map sMap "vnext") in
  let user := nested (first_map vnext "users") in
  let server := or_text (first_text sMap ["address"; "server"; "host"]%string) (get_string vnext "address") in
  let portRaw := or_value (first_present sMap ["port"; "server_port"]%string) (first_present vnext ["port"]%string) in
  let uuid := or_text (first_text sMap ["uuid"; "id"]%string) (get_string user "id") in
  let flow := or_text (get_string sMap "flow") (get_string user "flow") in
  raw_header "vless" tag ++ [("server", VString server); ("uuid", VString uuid)]%string ++ opt_text "flow" flow
  ++ raw_port true portRaw ++ applyRawTLSAndTransport tsMap server.

Definition compileRawVMessOutbound (tag : string) (sMap tsMap : jmap) : jmap :=
  let vnext := nested (first_map sMap "vnext") in
  let user := nested (first_map vnext "users") in
  let server := or_text (raw_server sMap) (get_string vnext "address") in
  let portRaw := or_value (first_present sMap ["port"; "server_port"]%string) (first_present vnext ["port"]%string) in
  let uuid := or_text (first_text sMap ["uuid"; "id"]%string) (get_string user "id") in
  raw_header "vmess" tag ++
  [("security", VString (or_text (get_string user "security") "auto")); ("server", VString server); ("uuid", VString uuid)]%string
  ++ raw_port false portRaw ++ applyRawTLSAndTransport tsMap server.

Definition compileRawTrojanOutbound (tag : string) (sMap tsMap : jmap) : jmap :=
  let srv := nested (first_map sMap "servers") in
  let server := or_text (raw_server sMap) (get_string srv "address") in
  let portRaw := or_value (first_present sMap ["port"; "server_port"]%string) (first_present srv ["port"]%string) in
  let password := or_text (get_string sMap "password") (get_string srv "password") in
  raw_header "trojan" tag ++ [("server", VString server); ("password", VString password)]%string
  ++ raw_port false portRaw ++ applyRawTLSAndTransport tsMap server.

Definition compileRawShadowsocksOutbound (tag : string) (sMap tsMap : jmap) : jmap :=
  let srv := nested (first_map sMap "servers") in
  let server := or_text (raw_server sMap) (get_string srv "address") in
  let portRaw := or_value (first_present sMap ["port"; "server_port"]%string) (first_present srv ["port"]%string) in
  let password := or_text (get_string sMap "password") (get_string srv "password") in
  let method := or_text (first_text sMap ["method"; "cipher"]%string) default_cipher in
  let method := if method =s default_cipher then or_text (get_string srv "method") method else method in
  raw_header "shadowsocks" tag ++
  [("network", VString "tcp"); ("server", VString server); ("password", VString password); ("method", VString method)]%string
  ++ raw_port false portRaw.

Definition compileRawSocksHttpOutbound (tag proto : string) (sMap tsMap : jmap) : jmap :=
  let srv := nested (first_map sMap "servers") in
  let server := or_text (raw_server sMap) (get_string srv "address") in
  let portRaw := or_value (first_present sMap ["port"; "server_port"]%string) (first_present srv ["port"]%string) in
  let user := or_text (first_text sMap ["user"; "username"]%string) (first_string srv ["user"; "username"]%string) in
  let pass := or_text (first_text sMap ["pass"; "password"]%string) (first_string srv ["pass"; "password"]%string) in
  raw_header proto tag ++ [("server"%string, VString server)] ++ opt_text "username" user ++ opt_text "password" pass
  ++ raw_port false portRaw ++ applyRawTLSAndTransport tsMap server.

(** [if v, ok := m[j]; ok { out[k] = v }] *)
Definition copy_key (m : jmap) (j k : string) : jmap := match jget m j with Some v => [(k, v)] | None => [] end.

Definition compileRawWireguardOutbound (tag : string) (sMap : jmap) : jmap :=
  raw_header "wireguard" tag
  ++ opt_text "private_key" (first_text sMap ["secret_key"; "private_key"]%string)
  ++ opt_text "peer_public_key" (first_text sMap ["public_key"; "peer_public_key"]%string)
  ++ opt_text "pre_shared_key" (first_text sMap ["pre_shared_key"; "preshared_key"]%string)
  ++ (match jget sMap "address" with Some (VList l) => [("local_address"%string, VList l)] | _ => copy_key sMap "local_address" "local_address" end)
  ++ copy_key sMap "reserved" "reserved" ++ copy_key sMap "mtu" "mtu"
  ++ [("server"%string, VString (raw_server sMap))]
  ++ raw_port false (first_present sMap ["port"; "server_port"]%string).

Definition raw_obfs (sMap : jmap) : jmap :=
  let obfs := nested (get_map sMap "obfs") in
  let obfsType := or_text (get_string obfs "type") (get_string sMap "obfs_type") in
  let obfsPassword := or_text (get_string (nested (get_map obfs "salamander")) "password")
                        (or_text (get_string obfs "password") (get_string sMap "obfs_password")) in
  opt (obfsType <>s "") "obfs" (VMap ([("type"%string, VString obfsType)] ++ opt_text "password" obfsPassword)).

Definition compileRawHysteria2Outbound (tag : string) (sMap tsMap : jmap) : jmap :=
  let vnext := nested (first_map sMap "vnext") in
  let user := nested (first_map vnext "users") in
  let srv := nested (first_map sMap "servers") in
  let hy := nested (get_map tsMap "hysteriaSettings") in
  let tls := nested (get_map tsMap "tlsSettings") in
  let server := or_text (or_text (raw_server sMap) (get_string vnext "address")) (first_string srv ["address"; "server"]%string) in
  let portRaw := or_value (or_value (or_value (first_present sMap ["port"; "server_port"; "port_hopping"; "hop"]%string)
      (first_present vnext ["port"]%string)) (first_present srv ["port"; "server_port"]%string)) (first_present hy ["hop"]%string) in
  let password := or_text (or_text (or_text (first_text sMap ["password"; "auth"; "auth_str"; "uuid"]%string)
      (first_string user ["password"; "id"]%string)) (first_string srv ["password"; "auth"]%string))
      (first_string hy ["auth"; "password"]%string) in
  let server_name := or_text (or_text (first_text sMap ["sni"; "server_name"]%string)
      (or_text (get_string tsMap "serverName") (get_string tls "serverName"))) server in
  raw_header "hysteria2" tag ++ raw_obfs sMap ++ copy_key sMap "up_mbps" "up_mbps" ++ copy_key sMap "down_mbps" "down_mbps"
  ++ [("server"%string, VString server)] ++ opt_text "password" password ++ raw_port true portRaw
  ++ [("tls"%string, VMap ([("enabled"%string, VBool true)] ++ opt_text "server_name" server_name
       ++ opt (is_true tls "allowInsecure" || is_true sMap "insecure" || is_true sMap "allowInsecure") "insecure" (VBool true)
       ++ raw_alpn tls))].

(** [None]: a nil map. *)
Definition parseMapOrJSON (unmarshal : string -> option jmap) (v : option value) : option jmap :=
  match v with
  | Some (VMap m) => Some m
  | Some (VString s) => let vTrim := TrimSpace s in if (vTrim =s "") || (vTrim =s "{}") then None else unmarshal vTrim
  | _ => None
  end.

Definition CompileRawOutboundToSingbox (unmarshal : string -> option jmap) (ob : jmap) : jmap :=
  let proto := ToLower (TrimSpace (get_string ob "protocol")) in
  let tag := or_text (get_string ob "tag") "proxy" in
  if (proto =s "direct") || (proto =s "freedom") then raw_header "direct" tag
  else if (proto =s "block") || (proto =s "blackhole") then raw_header "block" tag
  else
    let sMap := nested (parseMapOrJSON unmarshal (jget ob "settings")) in
    let tsMap := nested (match parseMapOrJSON unmarshal (jget ob "stream_settings") with
                         | Some m => Some m
                         | None => parseMapOrJSON unmarshal (jget ob "streamSettings")
                         end) in
    if (proto =s "hysteria2") || (proto =s "hy2") || (proto =s "hysteria") then compileRawHysteria2Outbound tag sMap tsMap
    else if proto =s "vless" then compileRawVLESSOutbound tag sMap tsMap
    else if proto =s "vmess" then compileRawVMessOutbound tag sMap tsMap
    else if proto =s "trojan" then compileRawTrojanOutbound tag sMap tsMap
    else if (proto =s "shadowsocks") || (proto =s "ss") then compileRawShadowsocksOutbound tag sMap tsMap
    else if (proto =s "wireguard") || (proto =s "wg") then compileRawWireguardOutbound tag sMap
    else if (proto =s "socks") || (proto =s "http") then compileRawSocksHttpOutbound tag proto sMap tsMap
    else raw_header "direct" tag.

(** ** The two ways to a sing-box outbound *)

(** Profiles whose TLS settings both formats can express: security given in lower
    case, a server name, a fingerprint of Xray's list, certificates verified, and for
    Reality the key and the short identifier, without ALPN. *)
Definition plain_security (node : ServerProfile) : Prop :=
  p_Security node = "none"%string \/
  (p_Insecure node = false /\ p_SNI node <> ""%string /\ existsb (String.eqb (p_Fingerprint node)) xray_fingerprints = true /\
   ((p_Security node = "tls"%string /\ p_PublicKey node = ""%string) \/
    (p_Security node = "reality"%string /\ p_PublicKey node <> ""%string /\ p_ShortID node <> ""%string /\ p_ALPN node = []))).
(** Transports with the same settings in both formats. *)
Definition plain_transport (node : ServerProfile) : Prop :=
  p_Transport node <> ""%string /\ p_Transport node <> "httpupgrade"%string /\
  (p_Transport node = "grpc"%string -> p_ServiceName node <> ""%string).

Lemma fingerprint_listed node : existsb (String.eqb (p_Fingerprint node)) xray_fingerprints = true ->
  stream_fingerprint node = p_Fingerprint node /\ (p_Fingerprint node =s "") = false.
Proof.
  intros H. unfold stream_fingerprint. rewrite H. split; [done|].
  destruct (String.eqb_spec (p_Fingerprint node) "") as [E|]; [by rewrite E in H|done].
Qed.

Section Agree.
Context (node : ServerProfile) (Hsec : plain_security node) (Htr : plain_transport node).
Let ts := decoded_map (buildXrayStreamSettings node).

Lemma security_set : p_Security node <> ""%string.
Proof. destruct Hsec as [->|(_ & _ & _ & [[-> _]|(-> & _)])]; done. Qed.
Lemma stream_security_same : stream_security node = p_Security node.
Proof. unfold stream_security. pose proof security_set as H. apply String.eqb_neq in H. by rewrite H. Qed.
Lemma stream_network_same : stream_network node = p_Transport node.
Proof. unfold stream_network. destruct Htr as (H & _). apply String.eqb_neq in H. by rewrite H. Qed.

Lemma security_map k : ("network" =s k) = false -> ("security" =s k) = false -> ("grpcSettings" =s k) = false ->
  ("wsSettings" =s k) = false -> ("xhttpSettings" =s k) = false ->
  get_map ts k = if p_Security node =s "reality" then if "realitySettings" =s k then Some (decoded_map (realitySettings node)) else None
                 else if p_Security node =s "tls" then if "tlsSettings" =s k then Some (decoded_map (tlsSettings node)) else None
                 else None.
Proof.
  intros H1 H2 H3 H4 H5. unfold ts. rewrite get_map_json, stream_map, transport_has, stream_security_same by done. rewrite H3, H4, H5.
  destruct (p_Security node =s "reality"), (p_Security node =s "tls"), (stream_network node =s "grpc"), (stream_network node =s "ws"),
    ((stream_network node =s "xhttp") || (stream_network node =s "splithttp")),
    ("realitySettings" =s k), ("tlsSettings" =s k); done.
Qed.

Lemma tls_settings_gets : let m := decoded_map (tlsSettings node) in
  get_string m "serverName" = p_SNI node /\ get_string m "fingerprint" = stream_fingerprint node /\
  is_true m "allowInsecure" = false /\ raw_alpn m = opt_strings "alpn" (p_ALPN node).
Proof.
  destruct (tls_gets node) as (E1 & E2 & _ & E4 & E5). cbv zeta. rewrite !get_string_json.
  unfold get_string, is_true, raw_alpn. rewrite !jget_json, E1, E2, E4, E5. repeat split.
  destruct (p_ALPN node) as [|x l] eqn:El; [done|].
  change (decoded_value <$> (if nonempty (x :: l) then Some (VStrings (x :: l)) else None)) with (Some (decoded_value (VStrings (x :: l)))).
  rewrite json_strings. unfold VStrings. f_equal. clear. induction (x :: l) as [|y k IH]; [done|]. cbn. by rewrite IH.
Qed.

Lemma reality_settings_gets : let m := decoded_map (realitySettings node) in
  get_string m "serverName" = p_SNI node /\ get_string m "fingerprint" = stream_fingerprint node /\
  get_string m "publicKey" = p_PublicKey node /\ get_string m "shortId" = p_ShortID node.
Proof. cbv zeta. rewrite !get_string_json. done. Qed.

Lemma tls_agrees server : raw_tls ts server = opt_map "tls" (buildSingBoxTLS node).
Proof.
  assert (Es : raw_security ts = p_Security node).
  { unfold raw_security, ts. rewrite get_string_json. destruct (stream_gets node) as [_ ->]. rewrite stream_security_same.
    pose proof security_set as Hne. apply String.eqb_neq in Hne. by rewrite Hne. }
  unfold raw_tls. rewrite Es, !security_map by done. clear Es.
  change ("tlsSettings" =s "realitySettings") with false. change ("realitySettings" =s "tlsSettings") with false.
  rewrite !String.eqb_refl. unfold buildSingBoxTLS, tls_mode.
  destruct Hsec as [E|(Hi & Hsni & Hfp & Hcase)]; [by rewrite E|].
  destruct (fingerprint_listed node Hfp) as [Efp Enfp]. apply String.eqb_neq in Hsni.
  destruct tls_settings_gets as (T1 & T2 & T3 & T4). destruct reality_settings_gets as (R1 & R2 & R3 & R4).
  destruct Hcase as [[E Epk]|(E & Epk & Esid & Ealpn)]; rewrite E.
  - change (ToLower (TrimSpace "tls")) with "tls"%string. cbn [String.eqb Ascii.eqb Bool.eqb orb andb nested from_option id].
    rewrite T1, T2, T3, T4, Epk, Hi, Efp, Enfp. change (get_string (nested None) "serverName") with ""%string.
    unfold or_text. rewrite Hsni. cbn. rewrite Enfp. done.
  - change (ToLower (TrimSpace "reality")) with "reality"%string. cbn [String.eqb Ascii.eqb Bool.eqb orb andb nested from_option id].
    rewrite R1, R2, R3, R4, Hi, Efp, Enfp, Ealpn. apply String.eqb_neq in Epk, Esid.
    unfold or_text. rewrite Hsni, Enfp, Epk. cbn [negb orb andb]. unfold opt_text. rewrite Hsni, Esid, ?Enfp. done.
Qed.

Lemma transport_map k : ("network" =s k) = false -> ("security" =s k) = false -> ("realitySettings" =s k) = false ->
  ("tlsSettings" =s k) = false -> get_map ts k = decoded_map <$> get_map (transport_settings node) k.
Proof.
  intros H1 H2 H3 H4. unfold ts. rewrite get_map_json, stream_map by done. rewrite H3, H4.
  by destruct (stream_security node =s "reality"), (stream_security node =s "tls").
Qed.

Lemma transport_agrees : raw_transport ts = opt_map "transport" (buildSingBoxTransport node).
Proof.
  assert (En : get_string ts "network" = p_Transport node).
  { unfold ts. rewrite get_string_json. destruct (stream_gets node) as [-> _]. apply stream_network_same. }
  unfold raw_transport. rewrite En, !transport_map, !transport_has, !stream_network_same by done. clear En.
  destruct Htr as (Hne & Hhu & Hgrpc). apply String.eqb_neq in Hne, Hhu. unfold buildSingBoxTransport. rewrite Hne, Hhu.
  change ("grpcSettings" =s "wsSettings") with false. change ("wsSettings" =s "grpcSettings") with false.
  change ("xhttpSettings" =s "wsSettings") with false. change ("xhttpSettings" =s "grpcSettings") with false.
  rewrite !String.eqb_refl.
  destruct (String.eqb_spec (p_Transport node) "ws") as [E|Ew].
  { rewrite E. change ("ws" =s "grpc") with false. change ("ws" =s TransportTCP) with false. cbn [fmap option_fmap option_map nested from_option id orb opt_map].
    rewrite get_map_json, get_string_json. destruct (p_Host node =s "") eqn:Eh; [done|].
    change (get_string (nested (decoded_map <$> get_map ([("path"%string, VString (p_Path node))] ++
      opt (negb false) "headers" (VMap [("Host"%string, VString (p_Host node))])) "headers")) "Host") with (p_Host node).
    rewrite Eh. done. }
  destruct (String.eqb_spec (p_Transport node) "grpc") as [E|Eg].
  { specialize (Hgrpc E). apply String.eqb_neq in Hgrpc. rewrite E. change ("grpc" =s TransportTCP) with false.
    cbn [fmap option_fmap option_map nested from_option id orb opt_map]. rewrite Hgrpc, get_string_json. done. }
  by destruct (p_Transport node =s TransportTCP).
Qed.

Lemma apply_agrees server : applyRawTLSAndTransport ts server = tls_and_transport node.
Proof. unfold applyRawTLSAndTransport, tls_and_transport. by rewrite tls_agrees, transport_agrees. Qed.
End Agree.

(** A raw outbound whose settings are objects. *)
Lemma compile_raw unmarshal proto tag settings stream : tag <> "" ->
  CompileRawOutboundToSingbox unmarshal (decoded_map (outbound_object proto tag settings stream)) =
  let proto := ToLower (TrimSpace proto) in
  let sMap := decoded_map settings in
  let tsMap := nested (match parseMapOrJSON unmarshal (jget (decoded_map stream) "stream_settings") with
                       | Some m => Some m | None => parseMapOrJSON unmarshal (jget (decoded_map stream) "streamSettings") end) in
  if (proto =s "direct") || (proto =s "freedom") then raw_header "direct" tag
  else if (proto =s "block") || (proto =s "blackhole") then raw_header "block" tag
  else if (proto =s "hysteria2") || (proto =s "hy2") || (proto =s "hysteria") then compileRawHysteria2Outbound tag sMap tsMap
  else if proto =s "vless" then compileRawVLESSOutbound tag sMap tsMap
  else if proto =s "vmess" then compileRawVMessOutbound tag sMap tsMap
  else if proto =s "trojan" then compileRawTrojanOutbound tag sMap tsMap
  else if (proto =s "shadowsocks") || (proto =s "ss") then compileRawShadowsocksOutbound tag sMap tsMap
  else if (proto =s "wireguard") || (proto =s "wg") then compileRawWireguardOutbound tag sMap
  else if (proto =s "socks") || (proto =s "http") then compileRawSocksHttpOutbound tag proto sMap tsMap
  else raw_header "direct" tag.
Proof.
  intros Ht. unfold CompileRawOutboundToSingbox.
  change (get_string (decoded_map (outbound_object proto tag settings stream)) "protocol") with proto.
  change (get_string (decoded_map (outbound_object proto tag settings stream)) "tag") with tag.
  change (jget (decoded_map (outbound_object proto tag settings stream)) "settings") with (Some (VMap (decoded_map settings))).
  change (jget (decoded_map (outbound_object proto tag settings stream)) "stream_settings") with (jget (decoded_map stream) "stream_settings").
  change (jget (decoded_map (outbound_object proto tag settings stream)) "streamSettings") with (jget (decoded_map stream) "streamSettings").
  unfold or_text. apply String.eqb_neq in Ht. by rewrite Ht.
Qed.

Section BothWays.
Context (unmarshal : string -> option jmap) (node : ServerProfile).
Context (Hport : int_of_float (QArith_base.inject_Z (p_Port node)) = p_Port node).

Let ts := decoded_map (buildXrayStreamSettings node).
Lemma stream_found : nested (match parseMapOrJSON unmarshal (jget (decoded_map (with_stream node)) "stream_settings") with
  | Some m => Some m | None => parseMapOrJSON unmarshal (jget (decoded_map (with_stream node)) "streamSettings") end) = ts.
Proof. done. Qed.

Lemma raw_vless : plain_security node -> plain_transport node ->
  CompileRawOutboundToSingbox unmarshal (decoded_map (buildXrayVLESSOutbound (node_tag node) node)) ≡ₚ
  buildVLESSOutbound (node_tag node) node.
Proof.
  intros Hsec Htr. unfold buildXrayVLESSOutbound. rewrite compile_raw by apply node_tag_nonempty. rewrite stream_found. cbv zeta.
  change (ToLower (TrimSpace "vless")) with "vless"%string. cbn [String.eqb Ascii.eqb Bool.eqb orb].
  match goal with |- compileRawVLESSOutbound ?tag ?sm ?t ≡ₚ _ =>
    change (compileRawVLESSOutbound tag sm t) with (raw_header "vless" tag ++ [("server", VString (p_Address node)); ("uuid", VString (p_UUID node))]%string
      ++ opt_text "flow" (p_Flow node) ++ raw_port true (VFloat (QArith_base.inject_Z (p_Port node))) ++ applyRawTLSAndTransport t (p_Address node)) end.
  unfold raw_port. rewrite Hport, (apply_agrees node) by done. unfold buildVLESSOutbound, server_object, raw_header. solve_Permutation.
Qed.

Lemma raw_vmess : plain_security node -> plain_transport node -> p_Cipher node = "" \/ p_Cipher node = "auto" ->
  CompileRawOutboundToSingbox unmarshal (decoded_map (buildXrayVMessOutbound (node_tag node) node)) ≡ₚ
  buildVMessOutbound (node_tag node) node.
Proof.
  intros Hsec Htr Hc. unfold buildXrayVMessOutbound. rewrite compile_raw by apply node_tag_nonempty. rewrite stream_found. cbv zeta.
  change (ToLower (TrimSpace "vmess")) with "vmess"%string. cbn [String.eqb Ascii.eqb Bool.eqb orb].
  match goal with |- compileRawVMessOutbound ?tag ?sm ?t ≡ₚ _ =>
    change (compileRawVMessOutbound tag sm t) with (raw_header "vmess" tag ++
      [("security", VString "auto"); ("server", VString (p_Address node)); ("uuid", VString (p_UUID node))]%string
      ++ raw_port false (VFloat (QArith_base.inject_Z (p_Port node))) ++ applyRawTLSAndTransport t (p_Address node)) end.
  assert (Hauto : (if p_Cipher node <>s "" then p_Cipher node else "auto"%string) = "auto"%string) by by destruct Hc as [-> | ->].
  unfold raw_port, buildVMessOutbound. rewrite Hport, Hauto, (apply_agrees node) by done. unfold server_object, raw_header. solve_Permutation.
Qed.

Lemma raw_trojan : plain_security node -> plain_transport node ->
  CompileRawOutboundToSingbox unmarshal (decoded_map (buildXrayTrojanOutbound (node_tag node) node)) ≡ₚ
  buildTrojanOutbound (node_tag node) node.
Proof.
  intros Hsec Htr. unfold buildXrayTrojanOutbound. rewrite compile_raw by apply node_tag_nonempty. rewrite stream_found. cbv zeta.
  change (ToLower (TrimSpace "trojan")) with "trojan"%string. cbn [String.eqb Ascii.eqb Bool.eqb orb].
  match goal with |- compileRawTrojanOutbound ?tag ?sm ?t ≡ₚ _ =>
    change (compileRawTrojanOutbound tag sm t) with (raw_header "trojan" tag ++
      [("server", VString (p_Address node)); ("password", VString (p_Password node))]%string
      ++ raw_port false (VFloat (QArith_base.inject_Z (p_Port node))) ++ applyRawTLSAndTransport t (p_Address node)) end.
  unfold raw_port. rewrite Hport, (apply_agrees node) by done. unfold buildTrojanOutbound, server_object, raw_header. solve_Permutation.
Qed.

Lemma raw_shadowsocks :
  CompileRawOutboundToSingbox unmarshal (decoded_map (buildXrayShadowsocksOutbound (node_tag node) node)) ≡ₚ
  buildShadowsocksOutbound (node_tag node) node.
Proof.
  unfold buildXrayShadowsocksOutbound. rewrite compile_raw by apply node_tag_nonempty. cbv zeta.
  change (ToLower (TrimSpace "shadowsocks")) with "shadowsocks"%string. cbn [String.eqb Ascii.eqb Bool.eqb orb].
  set (cipher := if p_Cipher node =s "" then default_cipher else p_Cipher node).
  match goal with |- compileRawShadowsocksOutbound ?tag ?sm ?t ≡ₚ _ =>
    change (compileRawShadowsocksOutbound tag sm t) with (raw_header "shadowsocks" tag ++
      [("network", VString "tcp"); ("server", VString (p_Address node)); ("password", VString (p_Password node));
       ("method", VString (or_text cipher default_cipher))]%string
      ++ raw_port false (VFloat (QArith_base.inject_Z (p_Port node)))) end.
  assert (Hm : or_text cipher default_cipher = if p_Cipher node <>s "" then p_Cipher node else default_cipher).
  { unfold or_text, cipher. destruct (p_Cipher node =s "") eqn:E; [done|]. by rewrite E. }
  unfold raw_port. rewrite Hport, Hm. unfold buildShadowsocksOutbound, server_object, raw_header. solve_Permutation.
Qed.
End BothWays.

(** Profiles that both ways compile. *)
Definition both_ways (node : ServerProfile) : Prop :=
  let proto := ToLower (p_Protocol node) in
  proto = ProtoShadowsocks \/
  (plain_security node /\ plain_transport node /\
   (proto = ProtoVLESS \/ (proto = ProtoVMess /\ (p_Cipher node = "" \/ p_Cipher node = "auto")%string) \/ proto = ProtoTrojan)).

(** The raw outbound that was written is compiled as the profile. *)
Lemma raw_decoded_agrees unmarshal node x s :
  0 < p_Port node <= maxInt64 -> both_ways node ->
  BuildXrayOutbound (Some node) = inr x -> BuildSingBoxOutbound (Some node) = inr s ->
  CompileRawOutboundToSingbox unmarshal (decoded_map x) ≡ₚ s.
Proof.
  intros Hport Hboth. unfold BuildXrayOutbound, BuildSingBoxOutbound, both_ways in *. cbv zeta in *.
  assert (Hpt : int_of_float (QArith_base.inject_Z (p_Port node)) = p_Port node) by (apply int_of_float_inject; unfold minInt64 in *; lia).
  destruct Hboth as [E|(Hsec & Htr & [E|[[E Hc]|E]])]; rewrite E; intros E1 E2;
    injection E1 as <-; injection E2 as <-.
  - by apply raw_shadowsocks.
  - by apply raw_vless.
  - by apply raw_vmess.
  - by apply raw_trojan.
Qed.

(** C33. An outbound of Shadowsocks, VLESS, VMess (with the automatic cipher) or Trojan that
    was written for Xray and is given, as JSON, to the sing-box compiler as a raw outbound
    becomes the object, up to the order of its entries, that is compiled from the profile
    itself, if outside Shadowsocks the profile names its security and transport plainly
    ([plain_security], [plain_transport]: with TLS or Reality the certificate is verified, a
    server name and a listed fingerprint are given, and the keys of Reality only with it),
    and JSON changes no text or number.  Outside this the two ways differ: see
    [insecure_not_compiled] and [raw_socks_user_lost]. *)
Theorem raw_compilation_agrees unmarshal node x s :
  0 < p_Port node <= maxInt64 -> both_ways node ->
  BuildXrayOutbound (Some node) = inr x -> exact_map x = true -> BuildSingBoxOutbound (Some node) = inr s ->
  CompileRawOutboundToSingbox unmarshal (json_map x) ≡ₚ s.
Proof.
  intros Hp Hb Ex Hex Es. rewrite json_map_exact by done. by apply (raw_decoded_agrees unmarshal node).
Qed.

Lemma raw_compilation_agrees_witness : exists x s,
  BuildXrayOutbound (Some (outbound_demo |> set_Security "reality" |> set_Fingerprint "firefox")) = inr x /\
  CompileRawOutboundToSingbox (fun _ => None) (json_map x) ≡ₚ s /\ get_string s "uuid" = "u-1"%string.
Proof.
  set (node := outbound_demo |> set_Security "reality" |> set_Fingerprint "firefox").
  destruct (BuildXrayOutbound (Some node)) as [e|x] eqn:E1; [vm_compute in E1; discriminate|].
  destruct (BuildSingBoxOutbound (Some node)) as [e|s] eqn:E2; [vm_compute in E2; discriminate|].
  exists x, s. split; [done|]. split.
  - apply (raw_compilation_agrees (fun _ => None) node x s); [vm_compute; split; [reflexivity|discriminate]| |exact E1|vm_compute in E1; injection E1 as <-; reflexivity|exact E2].
    right. split; [right|split; [|by left]].
    + repeat split; try discriminate. right. repeat split; discriminate.
    + repeat split; discriminate.
  - vm_compute in E2. injection E2 as <-. reflexivity.
Defined.

(** ** Where the two ways differ *)

(** The user of a SOCKS or HTTP proxy, which Xray lists under "users", is not read. *)
Example raw_socks_user_lost :
  match BuildXrayOutbound (Some (blank_profile |> set_Protocol "socks" |> set_Address "h" |> set_Port 1080 |> set_Username "u" |> set_Password "p")) with
  | inr x => get_string (CompileRawOutboundToSingbox (fun _ => None) (json_map x)) "username"
  | inl _ => "error"%string
  end = ""%string.
Proof. vm_compute. reflexivity. Qed.

(** The list of port ranges that holds nothing leaves an outbound without a port. *)
Example hopping_without_ports :
  has_key (buildHysteria2Outbound "t" (blank_profile |> set_Port 443 |> set_PortHopping ",")) "server_port" = false /\
  has_key (buildHysteria2Outbound "t" (blank_profile |> set_Port 443 |> set_PortHopping ",")) "server_ports" = false.
Proof. done. Qed.

(** A host in a raw text port: the digits of any text are put together. *)
Example digits_of_any_text : raw_port false (VString "80 or 81") = [("server_port"%string, VInt 8081)].
Proof. done. Qed.

(** The consent to an unverified certificate is lost on TUIC without other TLS settings. *)
Example tuic_insecure_lost : is_true (nested (get_map (buildTUICOutbound "t" (blank_profile |> set_Insecure true)) "tls")) "insecure" = false.
Proof. done. Qed.
