(* ===== verification/TunInbounds.v ===== *)
(** * TUN devices (src/pkg/platform/android/tun.go, src/pkg/platform/desktop/tun.go)

    The inbounds of the two platforms for the two cores, and where a packet on Android
    comes from. *)
From S2P Require Import Prelude GoStrings GoNet Ast.
Open Scope Z_scope.

(** ** Android *)

Definition DefaultTunInterface : string := "tun0".
Definition DefaultTunStack : string := "gvisor".
Definition DefaultTunMTU : Z := 1500.
Definition DefaultIPv4Gateway : string := "10.0.0.1/24".
Definition DefaultIPv6Gateway : string := "fd00::1/64".
Definition DefaultClientIPv4 : string := "10.0.0.2/24".
Definition DefaultClientIPv6 : string := "fd00::2/64".

(** Whether the source is a client of the hotspot, and the name of its kind. *)
Definition in_cidr (cidr : string) (ip : IP) : bool :=
  match ParseCIDR cidr with Some n => net_Contains n ip | None => false end.
Definition ClassifySource (srcIP : string) : bool * string :=
  let cleanIP := Trim srcIP "[]" in
  let parsed := ParseIP cleanIP in
  if (cleanIP =s "") || (cleanIP =s "localhost") || (cleanIP =s "::1") || HasPrefix cleanIP "127." then (false, "loopback"%string)
  else if HasPrefix cleanIP "10.0.0." || HasPrefix (ToLower cleanIP) "fd00:" then (false, "local_tun"%string)
  else if negb (is_nil parsed) && IsLoopback parsed then (false, "loopback"%string)
  else if negb (is_nil parsed) && (in_cidr DefaultClientIPv4 parsed || in_cidr DefaultClientIPv6 parsed) then (false, "local_tun"%string)
  else (true, "hotspot"%string).

(** A specification of an inbound with no field set. *)
Definition blank_client : ClientInboundSpec :=
  mkClientInbound "" 0 0 "" false "" "" "" "" 0 false false "" "" "" [] [] false "" 0 0 false "" "".
Definition with_tun (mode name stack : string) (mtu : Z) (endpoint : string) : ClientInboundSpec :=
  mkClientInbound mode 0 0 "" false "" "" name stack mtu true true endpoint "" "" [] [] false "" 0 0 false "" "".
Definition DefaultTunSpec : ClientInboundSpec :=
  with_tun InboundModeMobileVpn DefaultTunInterface DefaultTunStack DefaultTunMTU "172.19.0.1/30".

(** [if s == "" { s = d }] and [if n <= 0 { n = d }] *)
Definition or_default (s d : string) : string := if s =s "" then d else s.
Definition or_positive (n d : Z) : Z := if n <=? 0 then d else n.

Definition destOverride : value := VStrings ["http"; "tls"; "quic"].
Definition tun_sniffing : value :=
  VMap [("enabled", VBool true); ("destOverride", destOverride); ("routeOnly", VBool false)]%string.

Definition BuildXrayAndroidTunInbound (cb : ClientInboundSpec) : jmap :=
  [("tag", VString "tun-in"); ("protocol", VString "tun");
   ("settings", VMap
     [("name", VString (or_default (ci_TunInterfaceName cb) DefaultTunInterface));
      ("mtu", VInt (or_positive (ci_MTU cb) DefaultTunMTU));
      ("stack", VString (or_default (ci_TunStack cb) DefaultTunStack));
      ("gateway", VStrings [DefaultIPv4Gateway; DefaultIPv6Gateway])]);
   ("sniffing", tun_sniffing)]%string.

Definition package_lists (cb : ClientInboundSpec) : jmap :=
  opt_strings "include_package" (ci_IncludePackages cb) ++ opt_strings "exclude_package" (ci_ExcludePackages cb).

Definition BuildSingBoxAndroidTunInbound (cb : ClientInboundSpec) : jmap :=
  [("type", VString "tun"); ("tag", VString "tun-in");
   ("interface_name", VString (or_default (ci_TunInterfaceName cb) DefaultTunInterface));
   ("stack", VString (or_default (ci_TunStack cb) DefaultTunStack));
   ("mtu", VInt (or_positive (ci_MTU cb) DefaultTunMTU));
   ("auto_route", VBool (ci_AutoRoute cb)); ("strict_route", VBool (ci_StrictRoute cb));
   ("sniff", VBool true); ("sniff_override_destination", VBool true);
   ("inet4_address", VStrings [or_default (ci_Inet4Address cb) DefaultClientIPv4]);
   ("inet6_address", VStrings [or_default (ci_Inet6Address cb) DefaultClientIPv6])]%string
  ++ package_lists cb.

(** ** Desktop *)

Definition DefaultDesktopTunInterface : string := "sentinel-tun".
Definition DefaultDesktopTunStack : string := "mixed".
Definition DefaultDesktopTunMTU : Z := 9000.
Definition DefaultDesktopEndpointIP : string := "172.19.0.1/30".

Definition DefaultDesktopTunSpec : ClientInboundSpec :=
  with_tun InboundModeDesktopTun DefaultDesktopTunInterface DefaultDesktopTunStack DefaultDesktopTunMTU DefaultDesktopEndpointIP.

Definition BuildXrayDesktopTunInbound (cb : ClientInboundSpec) : jmap :=
  [("tag", VString "tun-in"); ("protocol", VString "tun");
   ("settings", VMap
     [("name", VString (or_default (ci_TunInterfaceName cb) DefaultDesktopTunInterface));
      ("mtu", VInt (or_positive (ci_MTU cb) DefaultDesktopTunMTU));
      ("stack", VString (or_default (ci_TunStack cb) DefaultDesktopTunStack));
      ("autoRoute", VBool true); ("strictRoute", VBool true);
      ("address", VStrings [or_default (ci_EndpointIP cb) DefaultDesktopEndpointIP])]);
   ("sniffing", tun_sniffing)]%string.

Definition BuildSingBoxDesktopTunInbound (cb : ClientInboundSpec) : jmap :=
  [("type", VString "tun"); ("tag", VString "tun-in");
   ("interface_name", VString (or_default (ci_TunInterfaceName cb) DefaultDesktopTunInterface));
   ("address", VStrings ([or_default (ci_EndpointIP cb) DefaultDesktopEndpointIP]
      ++ (if ci_Inet6Address cb <>s "" then [ci_Inet6Address cb] else [])));
   ("auto_route", VBool (ci_AutoRoute cb)); ("strict_route", VBool (ci_StrictRoute cb));
   ("stack", VString (or_default (ci_TunStack cb) DefaultDesktopTunStack));
   ("mtu", VInt (or_positive (ci_MTU cb) DefaultDesktopTunMTU))]%string
  ++ package_lists cb.

(** ** The sources of packets *)

Lemma octet_cases (P : Z -> Prop) : Forall P (map Z.of_nat (seq 0 256)) -> forall a, octet a -> P a.
Proof.
  intros H a Ha. rewrite Forall_forall in H. apply H, list_elem_of_In, in_map_iff.
  exists (Z.to_nat a). unfold octet in Ha. split; [lia|]. apply in_seq. lia.
Qed.

Ltac each_octet tac :=
  apply octet_cases;
  let l := eval vm_compute in (map Z.of_nat (seq 0 256)) in change (map Z.of_nat (seq 0 256)) with l;
  repeat (apply List.Forall_cons; [tac|]); apply List.Forall_nil.
Ltac print_number := match goal with |- context [Itoa ?x] => let s := eval vm_compute in (Itoa x) in change (Itoa x) with s end.

Lemma parse_octet_dot a r fields first prevdot : octet a -> (r =s "") = false -> (len fields =? 3) = false ->
  parseIPv4_go (Itoa a ^^ String "." r) 0 0 fields first prevdot = parseIPv4_go r 0 0 (a :: fields) false true.
Proof. intros Ha Hr Hl. revert a Ha. each_octet ltac:(print_number; cbn; rewrite Hr, Hl; reflexivity). Qed.

Lemma parse_octet_end a fields first prevdot : octet a -> (len fields <? 3) = false ->
  parseIPv4_go (Itoa a) 0 0 fields first prevdot = Some (rev (a :: fields)).
Proof. intros Ha Hl. revert a Ha. each_octet ltac:(print_number; cbn; rewrite Hl; reflexivity). Qed.

Lemma Itoa_octet a : octet a -> exists d s, Itoa a = String d s /\ is_digit d = true.
Proof. revert a. each_octet ltac:(eexists _, _; split; reflexivity). Qed.

Lemma ParseIP_quad a b c d : Forall octet [a; b; c; d] -> ParseIP (quad_string [a; b; c; d]) = IPv4 a b c d.
Proof.
  rewrite !Forall_cons. intros (Ha & Hb & Hc & Hd & _).
  assert (Hne : forall x r, octet x -> (Itoa x ^^ r =s "") = false) by (intros x r Hx; by destruct (Itoa_octet x Hx) as (? & ? & -> & _)).
  assert (Hfam : forall r, addr_family (Itoa a ^^ String "." r) = Some "."%char) by (intros r; revert a Ha; each_octet ltac:(reflexivity)).
  unfold ParseIP, parseAddr, quad_string. cbn [map Join]. cbn [String.append]. rewrite Hfam. unfold parseIPv4Fields.
  pose proof (Hne a (String "." (Itoa b ^^ String "." (Itoa c ^^ String "." (Itoa d)))) Ha) as Ha'.
  destruct (Itoa a ^^ _) eqn:E; [done|]. rewrite <- E.
  rewrite parse_octet_dot, parse_octet_dot, parse_octet_dot, parse_octet_end by (done || by apply Hne || (rewrite <- (str_app_nil_r (Itoa d)); by apply Hne)).
  done.
Qed.

(** A word that ends before a separator is a prefix only of itself. *)
Lemma HasPrefix_word c x y r t : str_exists (fun a => Ascii.eqb a c) x = false -> str_exists (fun a => Ascii.eqb a c) y = false ->
  HasPrefix (x ^^ String c r) (y ^^ String c t) = (x =s y) && HasPrefix r t.
Proof.
  unfold HasPrefix. revert y. induction x as [|a x IH]; intros [|b y]; cbn [String.append str_exists String.prefix String.eqb].
  - intros _ _. destruct (ascii_dec c c); [done|congruence].
  - intros _ [Hb _]%orb_false_iff. destruct (ascii_dec b c) as [->|]; [by rewrite Ascii.eqb_refl in Hb|done].
  - intros [Ha _]%orb_false_iff _. destruct (ascii_dec c a) as [<-|]; [by rewrite Ascii.eqb_refl in Ha|done].
  - intros [_ Hx]%orb_false_iff [_ Hy]%orb_false_iff. destruct (ascii_dec b a) as [->|Hn].
    + rewrite Ascii.eqb_refl. by apply IH.
    + destruct (Ascii.eqb_spec a b); [congruence|done].
Qed.

Lemma Itoa_eq a b : octet a -> octet b -> (Itoa a =s Itoa b) = (a =? b).
Proof.
  intros Ha Hb. destruct (Z.eqb_spec a b) as [->|Hn]; [apply String.eqb_refl|]. apply String.eqb_neq. intros E. apply Hn.
  assert (Ea : Atoi (Itoa a) = Some a) by (apply Atoi_Itoa; unfold octet, maxInt64 in *; lia).
  assert (Eb : Atoi (Itoa b) = Some b) by (apply Atoi_Itoa; unfold octet, maxInt64 in *; lia). congruence.
Qed.

Lemma Itoa_octet_only a p : octet a -> (forall d, is_digit d = true -> p d = false) -> str_exists p (Itoa a) = false.
Proof. intros [Ha _] Hp. by apply Itoa_only. Qed.

Lemma quad_prefix a b r : octet a -> octet b -> HasPrefix (Itoa a ^^ String "." r) (Itoa b ^^ ".") = (a =? b).
Proof.
  intros Ha Hb. rewrite HasPrefix_word by (by apply Itoa_octet_only; [|by_char]). rewrite Itoa_eq by done.
  destruct r; apply andb_true_r.
Qed.
Lemma quad_prefix3 a b c r : Forall octet [a; b; c] ->
  HasPrefix (Itoa a ^^ String "." (Itoa b ^^ String "." (Itoa c ^^ String "." r))) "10.0.0." = (a =? 10) && (b =? 0) && (c =? 0).
Proof.
  rewrite !Forall_cons. intros (Ha & Hb & Hc & _).
  change "10.0.0."%string with (Itoa 10 ^^ String "." (Itoa 0 ^^ String "." (Itoa 0 ^^ "."))).
  rewrite !HasPrefix_word by (apply Itoa_octet_only; [|by_char]; done || by unfold octet).
  rewrite !Itoa_eq by (done || by unfold octet). rewrite <- andb_assoc. do 2 f_equal. destruct r; apply andb_true_r.
Qed.

Lemma octet_mask a : octet a -> Z.land a 255 = a.
Proof. intros Ha. change 255 with (Z.ones 8). rewrite Z.land_ones by lia. apply Z.mod_small. exact Ha. Qed.

Lemma in_tun4 a b c d : Forall octet [a; b; c; d] -> in_cidr DefaultClientIPv4 (IPv4 a b c d) = (a =? 10) && (b =? 0) && (c =? 0).
Proof.
  rewrite !Forall_cons. intros (Ha & Hb & Hc & Hd & _). unfold in_cidr.
  assert (E : ParseCIDR DefaultClientIPv4 = Some (mkIPNet [10; 0; 0; 0] [255; 255; 255; 0])) by (vm_compute; reflexivity). rewrite E.
  assert (En : net_Contains (mkIPNet [10; 0; 0; 0] [255; 255; 255; 0]) (IPv4 a b c d) =
    bytes_eqb [10; 0; 0; 0] [Z.land a 255; Z.land b 255; Z.land c 255; Z.land d 0]) by reflexivity.
  rewrite En, !octet_mask, Z.land_0_r by done. cbn [bytes_eqb]. rewrite (Z.eqb_sym 10 a), (Z.eqb_sym 0 b), (Z.eqb_sym 0 c).
  by rewrite !andb_true_r, andb_assoc.
Qed.

Lemma not_in_tun6 a b c d : in_cidr DefaultClientIPv6 (IPv4 a b c d) = false.
Proof.
  unfold in_cidr. assert (E : exists n, ParseCIDR DefaultClientIPv6 = Some n /\ net_Contains n (IPv4 a b c d) = false)
    by (eexists; split; [vm_compute; reflexivity|reflexivity]). by destruct E as (n & -> & ->).
Qed.

Lemma digit_starts g t : is_digit g = true ->
  (String g t =s "") || (String g t =s "localhost") || (String g t =s "::1") = false /\ HasPrefix (ToLower (String g t)) "fd00:" = false.
Proof.
  intros Hg. unfold ToLower, HasPrefix. cbn [str_map String.eqb String.prefix].
  assert (E : Ascii.eqb g "l" = false /\ Ascii.eqb g ":" = false /\ Ascii.eqb "f" (lower_char g) = false) by (revert g Hg; by_char).
  destruct E as (-> & -> & E3). destruct (ascii_dec "f" (lower_char g)) as [Ef|]; [by rewrite <- Ef in E3|done].
Qed.

(** The source of a packet, an IPv4 address in its text form, is a client of the
    hotspot exactly when it is neither a loopback address nor one of the network of the
    TUN device, 10.0.0.0/24. *)
Theorem classify_source_ipv4 a b c d : Forall octet [a; b; c; d] ->
  ClassifySource (quad_string [a; b; c; d]) =
    (if a =? 127 then (false, "loopback"%string)
     else if (a =? 10) && (b =? 0) && (c =? 0) then (false, "local_tun"%string) else (true, "hotspot"%string)).
Proof.
  intros H. pose proof H as H'. rewrite !Forall_cons in H'. destruct H' as (Ha & Hb & Hc & Hd & _).
  unfold ClassifySource. cbv zeta.
  assert (Htrim : Trim (quad_string [a; b; c; d]) "[]" = quad_string [a; b; c; d]).
  { unfold Trim. apply TrimFunc_absent. unfold quad_string. cbn [map Join].
    rewrite !str_exists_app. rewrite !Itoa_octet_only by (done || by_char). reflexivity. }
  rewrite Htrim, (ParseIP_quad _ _ _ _ H). unfold quad_string. cbn [map Join]. cbn [String.append].
  rewrite (quad_prefix3 a b c) by (by rewrite !Forall_cons).
  change "127."%string with (Itoa 127 ^^ "."). rewrite quad_prefix by (done || by unfold octet).
  destruct (Itoa_octet a Ha) as (g & t & E & Hg). rewrite !E. cbn [String.append].
  destruct (digit_starts g (t ^^ String "." (Itoa b ^^ String "." (Itoa c ^^ String "." (Itoa d)))) Hg) as [-> ->].
  rewrite in_tun4, not_in_tun6, !orb_false_r by done.
  change (IsLoopback (IPv4 a b c d)) with (a =? 127). cbn [orb is_nil negb IPv4 v4InV6Prefix replicate app andb].
  destruct (a =? 127); [done|]. by destruct (_ && _).
Qed.

Lemma classify_source_ipv4_witness : ClassifySource "192.168.43.15" = (true, "hotspot"%string) /\ ClassifySource "10.0.0.7" = (false, "local_tun"%string).
Proof.
  assert (Hb : forall z, (0 <=? z) && (z <? 256) = true -> octet z) by (unfold octet; intros; lia).
  split.
  - apply (classify_source_ipv4 192 168 43 15). repeat constructor; by apply Hb.
  - apply (classify_source_ipv4 10 0 0 7). repeat constructor; by apply Hb.
Defined.

(** The prefix that is taken for the TUN device is wider than its network: a client of
    the hotspot with another fd00: address is taken for the device itself. *)
Example ula_client_is_local : ClassifySource "fd00:1::5" = (false, "local_tun"%string) /\
  in_cidr DefaultClientIPv6 (ParseIP "fd00:1::5") = false.
Proof. vm_compute. done. Qed.
