(* ===== verification/XrayInbounds.v ===== *)
(** * Inbounds of Xray (src/pkg/compiler/xray/inbounds.go, inbounds_common.go,
    inbound_*.go)

    The listeners of a configuration as Xray inbound objects: those of a client, with
    the TUN device and the proxies shared with the local network, and those of a server,
    each with the accounts it admits.  What the random reader gives while the inbound
    of a server is built is an argument. *)
From Stdlib Require QArith.
From S2P Require Import Prelude GoStrings Crypto Ast XrayImport XrayOutbounds SingBoxOutbounds TunInbounds.
Open Scope Z_scope.

(** ** Settings shared by the protocols (inbounds_common.go) *)

Definition buildInboundSniffing (sb : ServerInboundSpec) : jmap :=
  if nonempty (si_Sniffing sb) then si_Sniffing sb
  else [("enabled", VBool true); ("destOverride", destOverride); ("routeOnly", VBool false)]%string.

(** [for k, v := range m { base[k] = v }] *)
Definition merge (base m : jmap) : jmap := fold_left (fun acc kv => jset kv.1 kv.2 acc) m base.
(** [if _, ok := m[k]; !ok { m[k] = v }] *)
Definition set_missing (k : string) (v : value) (m : jmap) : jmap := if has_key m k then m else jset k v m.

Definition inbound_reality (sb : ServerInboundSpec) : jmap :=
  [("show", VBool false); ("dest", VString (si_SNI sb ^^ ":443")); ("xver", VInt 0); ("serverNames", VStrings [si_SNI sb]);
   ("privateKey", VString (si_PrivateKey sb)); ("shortIds", VStrings (si_ShortIDs sb))]%string.
Definition inbound_certificates (sb : ServerInboundSpec) : jmap :=
  [("serverName", VString (si_SNI sb));
   ("certificates", VList [VMap [("certificateFile", VString (si_CertPath sb)); ("keyFile", VString (si_KeyPath sb))]])]%string.

Definition buildInboundStreamSettings (sb : ServerInboundSpec) : jmap :=
  let streamSettings := merge [("network"%string, VString "tcp")] (si_StreamSettings sb) in
  if (si_Security sb =s SecurityReality) || (get_string streamSettings "security" =s "reality") then
    set_missing "realitySettings" (VMap (inbound_reality sb)) (jset "security" (VString "reality") streamSettings)
  else if (si_Security sb =s SecurityTLS) || (get_string streamSettings "security" =s "tls") then
    set_missing "tlsSettings" (VMap (inbound_certificates sb)) (jset "security" (VString "tls") streamSettings)
  else streamSettings.

Definition server_listen (sb : ServerInboundSpec) (everywhere : string) : string := or_default (si_ListenAddress sb) everywhere.
Definition inbound_object (sb : ServerInboundSpec) (listen protocol : string) (settings : jmap) : jmap :=
  [("tag", VString (si_Tag sb)); ("port", VInt (si_Port sb)); ("listen", VString listen); ("protocol", VString protocol);
   ("settings", VMap settings); ("streamSettings", VMap (buildInboundStreamSettings sb));
   ("sniffing", VMap (buildInboundSniffing sb))]%string.

(** The first text that is not empty. *)
Fixpoint first_set (l : list string) : string :=
  match l with [] => "" | s :: l => if s =s "" then first_set l else s end.

Definition listed (m : jmap) (k : string) : list value := match jget m k with Some (VList l) => l | _ => [] end.
Definition as_map (v : value) : option jmap := match v with VMap m => Some m | _ => None end.

(** The accounts of an inbound: those of the specification, or those of the raw
    settings in the form the core wants, or [default]. *)
Definition set_clients (sb : ServerInboundSpec) (client : ServerInboundClient -> jmap) (raw : jmap -> jmap) (default : jmap)
    (settings : jmap) : jmap :=
  let settings :=
    if nonempty (si_Clients sb) then jset "clients" (VList (map (fun c => VMap (client c)) (si_Clients sb))) settings
    else if nonempty (listed settings "clients")
    then jset "clients" (VList (omap (fun v => (fun m => VMap (raw m)) <$> as_map v) (listed settings "clients"))) settings
    else settings in
  if nonempty (listed settings "clients") then settings else jset "clients" (VList [VMap default]) settings.

(** ** The protocols (inbound_*.go) *)

Definition inbound_security (sb : ServerInboundSpec) : string := or_default (si_Security sb) (get_string (si_StreamSettings sb) "security").
Definition encrypted (security : string) : bool := (security =s "reality") || (security =s "tls").
Definition on_tcp (sb : ServerInboundSpec) : bool := (si_Transport sb =s "") || (si_Transport sb =s "tcp").

(** Flow is only for TCP with Reality or TLS, and only of the two kinds. *)
Definition client_flow (sb : ServerInboundSpec) (c : ServerInboundClient) : string :=
  let flow := or_default (ic_Flow c) (get_string (si_RawSettings sb) "flow") in
  if on_tcp sb && encrypted (inbound_security sb) && ((flow =s "xtls-rprx-vision") || (flow =s "xtls-rprx-vision-udp443")) then flow else "".

Definition uuid_of (c : ServerInboundClient) : string := first_set [ic_UUID c; ic_ID c; ic_Password c].
Definition raw_id (m : jmap) : string := first_text m ["id"; "uuid"; "password"]%string.
Definition account (key credential email : string) : jmap := [(key, VString credential); ("email"%string, VString email)].

Definition buildXrayVLESSInbound (rand : Z -> string) (sb : ServerInboundSpec) : jmap :=
  let settings := set_clients sb
    (fun c => account "id" (uuid_of c) (ic_Email c) ++ opt_text "flow" (client_flow sb c))
    (fun m => account "id" (raw_id m) (get_string m "email") ++ opt_text "flow" (get_string m "flow"))
    (account "id" (GenerateRandomUUID rand) "default") (si_RawSettings sb) in
  let dec := get_string settings "decryption" in
  let settings := jdel "encryption" (jset "decryption" (VString (if HasPrefix dec "mlkem768x25519plus." then dec else "none")) settings) in
  let settings :=
    if inbound_security sb =s "reality" then jdel "fallbacks" settings
    else if nonempty (si_Fallbacks sb) then jset "fallbacks" (VList (map VMap (si_Fallbacks sb))) settings
    else match jget (si_RawSettings sb) "fallbacks" with Some fb => jset "fallbacks" fb settings | None => settings end in
  inbound_object sb (server_listen sb "0.0.0.0") "vless" settings.

(** An [int] only: a number of a JSON text is a [float64]. *)
Definition alter_id (raw : jmap) : jmap := match jget raw "alterId" with Some (VInt alt) => opt (0 <? alt) "alterId" (VInt alt) | _ => [] end.
Definition raw_alter_id (m : jmap) : jmap :=
  match jget m "alterId" with
  | Some (VFloat alt) => opt (negb (QArith_base.Qle_bool alt (QArith_base.inject_Z 0))) "alterId" (VInt (int_of_float alt))
  | _ => []
  end.
Definition buildXrayVMessInbound (rand : Z -> string) (sb : ServerInboundSpec) : jmap :=
  inbound_object sb (server_listen sb "0.0.0.0") "vmess"
    (set_clients sb
      (fun c => account "id" (uuid_of c) (ic_Email c) ++ alter_id (si_RawSettings sb))
      (fun m => account "id" (raw_id m) (get_string m "email") ++ raw_alter_id m)
      (account "id" (GenerateRandomUUID rand) "default" ++ [("alterId", VInt 0); ("security", VString "auto")]%string)
      (si_RawSettings sb)).

Definition password_of (c : ServerInboundClient) : string := first_set [ic_Password c; ic_UUID c; ic_ID c].
Definition raw_password (m : jmap) : string := first_text m ["password"; "id"; "uuid"]%string.
Definition buildXrayTrojanInbound (rand : Z -> string) (sb : ServerInboundSpec) : jmap :=
  inbound_object sb (server_listen sb "0.0.0.0") "trojan"
    (set_clients sb
      (fun c => account "password" (password_of c) (ic_Email c))
      (fun m => account "password" (raw_password m) (get_string m "email"))
      (account "password" (GenerateRandomPassword rand 16) "default") (si_RawSettings sb)).

Definition inbound_method (sb : ServerInboundSpec) : string :=
  let method := first_text (si_RawSettings sb) ["method"; "cipher"]%string in
  let method := if (method =s "") && (si_Security sb <>s "") && (si_Security sb <>s "none") then si_Security sb else method in
  or_default method default_cipher.
Definition shadowsocks_password (c : ServerInboundClient) : string := first_set [ic_Password c; ic_ID c; ic_UUID c].
(** The password of the first raw client. *)
Definition first_raw_password (raw : jmap) : string :=
  match listed raw "clients" with VMap m :: _ => raw_password m | _ => "" end.

Definition buildXrayShadowsocksInbound (rand : Z -> string) (sb : ServerInboundSpec) : jmap :=
  let raw := si_RawSettings sb in
  let method := inbound_method sb in
  let own := match si_Clients sb with c :: _ => shadowsocks_password c | [] => "" end in
  let pwd := first_set [own; get_string raw "password"; first_raw_password raw; GenerateShadowsocksKey rand method] in
  let settings := jset "password" (VString pwd) (jset "method" (VString method) raw) in
  let settings :=
    if negb (HasPrefix method "2022-") then jdel "clients" settings
    else if nonempty (si_Clients sb)
    then jset "clients" (VList (map (fun c => VMap (account "password" (shadowsocks_password c) (ic_Email c))) (si_Clients sb))) settings
    else settings in
  let settings := if get_string settings "network" =s "" then jset "network" (VString "tcp,udp") settings else settings in
  inbound_object sb (server_listen sb "0.0.0.0") "shadowsocks" settings.

(** A user and a password, if the client has both. *)
Definition proxy_account (c : ServerInboundClient) : option value :=
  let user := first_set [ic_Email c; ic_ID c] in
  let pass := first_set [ic_Password c; ic_UUID c; ic_ID c] in
  if (user <>s "") && (pass <>s "") then Some (VMap [("user", VString user); ("pass", VString pass)]%string) else None.

Definition buildXraySOCKSInbound (sb : ServerInboundSpec) : jmap :=
  let settings := set_missing "udp" (VBool true) (si_RawSettings sb) in
  let accounts := omap proxy_account (si_Clients sb) in
  let settings :=
    if nonempty (si_Clients sb) then
      if nonempty accounts then jset "accounts" (VList accounts) (jset "auth" (VString "password") settings)
      else jset "auth" (VString "noauth") settings
    else set_missing "auth" (VString "noauth") settings in
  inbound_object sb (server_listen sb "0.0.0.0") "socks" settings.

Definition buildXrayHTTPInbound (sb : ServerInboundSpec) : jmap :=
  let accounts := omap proxy_account (si_Clients sb) in
  let settings := if nonempty accounts then jset "accounts" (VList accounts) (si_RawSettings sb) else si_RawSettings sb in
  inbound_object sb (server_listen sb "0.0.0.0") "http" (set_missing "allowTransparent" (VBool false) settings).

(** The bridge to a Hysteria process on this machine. *)
Definition buildXrayHysteria2Inbound (sb : ServerInboundSpec) : jmap :=
  inbound_object sb "127.0.0.1" "socks" [("udp", VBool true); ("auth", VString "noauth")]%string.

(** ** All inbounds (inbounds.go) *)

Definition local_object (tag : string) (port : Z) (listen protocol : string) (settings : jmap) (routeOnly : jmap) : jmap :=
  [("tag", VString tag); ("port", VInt port); ("listen", VString listen); ("protocol", VString protocol);
   ("settings", VMap settings);
   ("sniffing", VMap ([("enabled", VBool true); ("destOverride", destOverride)]%string ++ routeOnly))]%string.
Definition not_route_only : jmap := [("routeOnly"%string, VBool false)].
Definition accounts_of (user pass : string) : value := VList [VMap [("user", VString user); ("pass", VString pass)]%string].
Definition socks_settings (auth : bool) (user pass : string) : jmap :=
  if auth && (user <>s "") then [("udp", VBool true); ("auth", VString "password"); ("accounts", accounts_of user pass)]%string
  else [("udp", VBool true); ("auth", VString "noauth")]%string.
Definition http_settings (auth : bool) (user pass : string) : jmap :=
  [("allowTransparent"%string, VBool false)] ++ opt (auth && (user <>s "")) "accounts" (accounts_of user pass).

Definition xray_client_inbounds (cb : ClientInboundSpec) : list jmap :=
  let listenAddr := or_default (ci_ListenAddress cb) "127.0.0.1" in
  let lanAddr := or_default (ci_LanListenAddress cb) "0.0.0.0" in
  (if 0 <? ci_SocksPort cb then
     [local_object "socks-in" (ci_SocksPort cb) listenAddr "socks"
        (socks_settings (ci_AuthEnabled cb) (ci_AuthUsername cb) (ci_AuthPassword cb)) not_route_only] else [])
  ++ (if 0 <? ci_HTTPPort cb then
        [local_object "http-in" (ci_HTTPPort cb) listenAddr "http" [("allowTransparent"%string, VBool false)] []] else [])
  ++ (if ci_Mode cb =s InboundModeMobileVpn then [BuildXrayAndroidTunInbound cb]
      else if ci_Mode cb =s InboundModeDesktopTun then [BuildXrayDesktopTunInbound cb] else [])
  ++ (if ci_LanSharingEnabled cb then
        (if 0 <? ci_LanHTTPPort cb then
           [local_object "lan-http-in" (ci_LanHTTPPort cb) lanAddr "http"
              (http_settings (ci_LanAuthEnabled cb) (ci_LanUsername cb) (ci_LanPassword cb)) []] else [])
        ++ (if 0 <? ci_LanSocksPort cb then
              [local_object "lan-socks-in" (ci_LanSocksPort cb) lanAddr "socks"
                 (socks_settings (ci_LanAuthEnabled cb) (ci_LanUsername cb) (ci_LanPassword cb)) []] else [])
      else []).

Definition xray_server_inbound (rand : Z -> string) (sb : ServerInboundSpec) : jmap :=
  let proto := ToLower (si_Protocol sb) in
  if (proto =s "vless") || (proto =s "") then buildXrayVLESSInbound rand sb
  else if proto =s "shadowsocks" then buildXrayShadowsocksInbound rand sb
  else if proto =s "trojan" then buildXrayTrojanInbound rand sb
  else if proto =s "vmess" then buildXrayVMessInbound rand sb
  else if proto =s "socks" then buildXraySOCKSInbound sb
  else if proto =s "http" then buildXrayHTTPInbound sb
  else if (proto =s "hysteria2") || (proto =s "hysteria") then buildXrayHysteria2Inbound sb
  else buildXrayVLESSInbound rand sb.

(** [rand i]: the random bytes for the [i]-th server inbound. *)
Definition BuildXrayInbounds (rand : nat -> Z -> string) (spec : ConfigSpec) : list jmap :=
  let inbounds :=
    match cs_ClientInbound spec with Some cb => xray_client_inbounds cb | None => [] end
    ++ imap (fun i sb => xray_server_inbound (rand i) sb) (cs_ServerInbounds spec) in
  if nonempty inbounds then inbounds
  else [local_object "socks-in" 10808 "127.0.0.1" "socks" (socks_settings false "" "") not_route_only].
