(* ===== verification/SingBoxInbounds.v ===== *)
(** * Inbounds of sing-box (src/pkg/compiler/singbox/inbounds.go, inbounds_common.go,
    inbounds_*.go)

    The listeners of a configuration as sing-box inbound objects, and that the two cores
    admit the same users and ask for the same passwords. *)
From S2P Require Import Prelude GoStrings Crypto Ast XrayImport XrayOutbounds SingBoxOutbounds TunInbounds XrayInbounds.
Open Scope Z_scope.

(** ** TLS and Reality (inbounds_common.go) *)

Definition split_dest (dest serverName : string) : string * Z :=
  if Contains dest ":" then
    match SplitByte dest ":" with
    | host :: port :: _ => (host, default 443 (scan_int port))
    | _ => (serverName, 443)
    end
  else (serverName, 443).

Definition first_item (l : list value) : string := match l with VString s :: _ => s | _ => "" end.

Definition reality_inbound (sb : ServerInboundSpec) : jmap :=
  let rs := nested (get_map (si_StreamSettings sb) "realitySettings") in
  let privateKey := or_default (get_string rs "privateKey") (si_PrivateKey sb) in
  let serverName := or_default (first_item (listed rs "serverNames")) (si_SNI sb) in
  let dest := or_default (get_string rs "dest") "example.com:443" in
  let shortIDs := si_ShortIDs sb ++ omap string_of (listed rs "shortIds") in
  let '(destHost, destPort) := split_dest dest serverName in
  [("enabled", VBool true); ("server_name", VString serverName);
   ("reality", VMap [("enabled", VBool true); ("private_key", VString privateKey); ("short_id", VStrings shortIDs);
      ("handshake", VMap [("server", VString destHost); ("server_port", VInt destPort)])])]%string.

Definition tls_inbound (sb : ServerInboundSpec) : jmap :=
  let ts := nested (get_map (si_StreamSettings sb) "tlsSettings") in
  [("enabled", VBool true);
   ("server_name", VString (or_default (get_string ts "serverName") (si_SNI sb)));
   ("certificate_path", VString (or_default (get_string ts "certificateFile") (si_CertPath sb)));
   ("key_path", VString (or_default (get_string ts "keyFile") (si_KeyPath sb)))]%string.

Definition buildInboundTLS (sb : ServerInboundSpec) : option jmap :=
  let sec := inbound_security sb in
  if sec =s "reality" then Some (reality_inbound sb) else if sec =s "tls" then Some (tls_inbound sb) else None.

Definition buildInboundTransport (sb : ServerInboundSpec) : option jmap :=
  let ss := si_StreamSettings sb in
  let tr := ToLower (or_default (si_Transport sb) (get_string ss "network")) in
  if (tr =s "ws") || (tr =s "websocket") then
    Some [("type", VString "ws"); ("path", VString (or_default (get_string (nested (get_map ss "wsSettings")) "path") "/"))]%string
  else if tr =s "grpc" then
    Some [("type", VString "grpc");
          ("service_name", VString (or_default (get_string (nested (get_map ss "grpcSettings")) "serviceName") "grpc"))]%string
  else if tr =s "httpupgrade" then
    Some [("type", VString "httpupgrade");
          ("path", VString (or_default (get_string (nested (get_map ss "httpupgradeSettings")) "path") "/"))]%string
  else None.

(** "tcp", "udp" or the empty text for both *)
Definition parseInboundNetwork (net : string) : string :=
  let n := ToLower (TrimSpace net) in
  if n =s "tcp" then "tcp" else if n =s "udp" then "udp" else "".
Definition inbound_network (sb : ServerInboundSpec) : jmap :=
  let net := get_string (si_RawSettings sb) "network" in
  if net =s "" then [] else opt_text "network" (parseInboundNetwork net).

Definition copy_bool (m : jmap) (k : string) : jmap := match jget m k with Some (VBool b) => [(k, VBool b)] | _ => [] end.
Definition copy_text (m : jmap) (k : string) : jmap := opt_text k (get_string m k).

Definition common_options (sb : ServerInboundSpec) : jmap :=
  let raw := si_RawSettings sb in
  opt (si_Multiplex sb) "multiplex" (VMap [("enabled"%string, VBool true)])
  ++ copy_bool raw "tcp_fast_open" ++ copy_bool raw "tcp_multi_path" ++ copy_text raw "udp_timeout" ++ inbound_network sb.
Definition applyCommonInboundOptions (inbound : jmap) (sb : ServerInboundSpec) : jmap := merge inbound (common_options sb).

(** ** The protocols *)

Definition inbound_header (type : string) (sb : ServerInboundSpec) : jmap :=
  [("type", VString type); ("tag", VString (si_Tag sb)); ("listen", VString (server_listen sb "::"));
   ("listen_port", VInt (si_Port sb))]%string.

Definition client_users (sb : ServerInboundSpec) (client : ServerInboundClient -> jmap) : jmap :=
  opt (nonempty (si_Clients sb)) "users" (VList (map (fun c => VMap (client c)) (si_Clients sb))).
Definition inbound_users (sb : ServerInboundSpec) (client : ServerInboundClient -> jmap) (raw : jmap -> jmap) : jmap :=
  let rawClients := listed (si_RawSettings sb) "clients" in
  if nonempty (si_Clients sb) then client_users sb client
  else opt (nonempty rawClients) "users" (VList (omap (fun v => (fun m => VMap (raw m)) <$> as_map v) rawClients)).

Definition named_user (name key credential : string) : jmap := [("name"%string, VString name); (key, VString credential)].
Definition singbox_raw_id (m : jmap) : string := first_text m ["uuid"; "id"; "password"]%string.

(** Only for TCP with TLS or Reality, and only of one kind *)
Definition singbox_flow (sb : ServerInboundSpec) (c : ServerInboundClient) : string :=
  let flow := or_default (ic_Flow c) (get_string (si_RawSettings sb) "flow") in
  if on_tcp sb && encrypted (inbound_security sb) && (flow =s "xtls-rprx-vision") then flow else "".
Definition singbox_raw_flow (sb : ServerInboundSpec) (m : jmap) : string :=
  let fl := get_string m "flow" in
  if (fl =s "xtls-rprx-vision") && encrypted (inbound_security sb) then fl else "".

Definition buildVLESSInbound (sb : ServerInboundSpec) : jmap :=
  applyCommonInboundOptions (inbound_header "vless" sb
    ++ inbound_users sb (fun c => named_user (ic_Email c) "uuid" (uuid_of c) ++ opt_text "flow" (singbox_flow sb c))
         (fun m => named_user (get_string m "email") "uuid" (singbox_raw_id m) ++ opt_text "flow" (singbox_raw_flow sb m))
    ++ opt_map "tls" (buildInboundTLS sb) ++ opt_map "transport" (buildInboundTransport sb)) sb.

Definition buildTrojanInbound (sb : ServerInboundSpec) : jmap :=
  applyCommonInboundOptions (inbound_header "trojan" sb
    ++ inbound_users sb (fun c => named_user (ic_Email c) "password" (password_of c))
         (fun m => named_user (get_string m "email") "password" (raw_password m))
    ++ opt_map "tls" (buildInboundTLS sb) ++ opt_map "transport" (buildInboundTransport sb)) sb.

Definition buildVMessInbound (sb : ServerInboundSpec) : jmap :=
  applyCommonInboundOptions (inbound_header "vmess" sb
    ++ inbound_users sb (fun c => named_user (ic_Email c) "uuid" (uuid_of c))
         (fun m => named_user (get_string m "email") "uuid" (singbox_raw_id m))
    ++ opt_map "tls" (buildInboundTLS sb) ++ opt_map "transport" (buildInboundTransport sb)) sb.

(** The methods of 2022 have users; the others one password for the port. *)
Definition single_password (sb : ServerInboundSpec) : string :=
  first_set [get_string (si_RawSettings sb) "password";
             match si_Clients sb with c :: _ => password_of c | [] => "" end;
             first_raw_password (si_RawSettings sb)].
Definition buildShadowsocksInbound (sb : ServerInboundSpec) : jmap :=
  let method := inbound_method sb in
  let passwords :=
    if HasPrefix method "2022-" then
      copy_text (si_RawSettings sb) "password"
      ++ inbound_users sb (fun c => named_user (ic_Email c) "password" (password_of c))
           (fun m => named_user (get_string m "email") "password" (raw_password m))
    else opt_text "password" (single_password sb) in
  applyCommonInboundOptions (inbound_header "shadowsocks" sb ++ [("method"%string, VString method)] ++ inbound_network sb ++ passwords) sb.

Definition proxy_user (c : ServerInboundClient) : jmap :=
  [("username", VString (first_set [ic_Email c; ic_ID c; ic_UUID c])); ("password", VString (ic_Password c))]%string.
Definition buildHTTPInbound (sb : ServerInboundSpec) : jmap :=
  applyCommonInboundOptions (inbound_header "http" sb ++ client_users sb proxy_user ++ opt_map "tls" (buildInboundTLS sb)) sb.
Definition buildSocksInbound (sb : ServerInboundSpec) : jmap :=
  applyCommonInboundOptions (inbound_header "socks" sb ++ client_users sb proxy_user) sb.

Definition buildTUICInbound (sb : ServerInboundSpec) : jmap :=
  let raw := si_RawSettings sb in
  applyCommonInboundOptions (inbound_header "tuic" sb
    ++ client_users sb (fun c => [("name", VString (ic_Email c)); ("uuid", VString (first_set [ic_UUID c; ic_ID c]));
                                  ("password", VString (ic_Password c))]%string)
    ++ opt_text "congestion_control" (first_text raw ["congestion_control"; "congestion_controller"]%string)
    ++ copy_bool raw "zero_rtt_handshake" ++ copy_text raw "heartbeat"
    ++ opt_map "tls" (buildInboundTLS sb)) sb.

Definition masquerade_url (value : string) : string :=
  let urlVal := TrimSpace value in
  if (urlVal <>s "") && negb (HasPrefix urlVal "http://") && negb (HasPrefix urlVal "https://") then "https://" ^^ urlVal else urlVal.
Definition masquerade (sb : ServerInboundSpec) : jmap :=
  [("type"%string, VString (si_MasqType sb))]
  ++ (if si_MasqType sb =s "file" then [("dir"%string, VString (si_MasqValue sb))]
      else if si_MasqType sb =s "proxy" then [("url"%string, VString (masquerade_url (si_MasqValue sb)))]
      else if si_MasqType sb =s "string" then [("content"%string, VString (si_MasqValue sb))] else [])
  ++ opt (0 <? si_MasqStatusCode sb) "status_code" (VInt (si_MasqStatusCode sb)).
Definition buildHysteria2Inbound (sb : ServerInboundSpec) : jmap :=
  applyCommonInboundOptions (inbound_header "hysteria2" sb
    ++ client_users sb (fun c => named_user (ic_Email c) "password" (password_of c))
    ++ opt (si_BandwidthUp sb <>s "") "up_mbps" (VInt (parseBandwidth (si_BandwidthUp sb)))
    ++ opt (si_BandwidthDown sb <>s "") "down_mbps" (VInt (parseBandwidth (si_BandwidthDown sb)))
    ++ opt (si_ObfsPassword sb <>s "") "obfs"
         (VMap [("type", VString (or_default (si_ObfsType sb) "salamander")); ("password", VString (si_ObfsPassword sb))]%string)
    ++ opt ((si_MasqType sb <>s "") && (si_MasqValue sb <>s "")) "masquerade" (VMap (masquerade sb))
    ++ opt_map "tls" (buildInboundTLS sb)) sb.

(** ** All inbounds (inbounds.go) *)

Definition singbox_local (type tag listen : string) (port : Z) (users : jmap) : jmap :=
  [("type", VString type); ("tag", VString tag); ("listen", VString listen); ("listen_port", VInt port)]%string ++ users.
Definition local_users (auth : bool) (user pass : string) : jmap :=
  opt (auth && (user <>s "")) "users" (VList [VMap [("username", VString user); ("password", VString pass)]%string]).

Definition singbox_client_inbounds (cb : ClientInboundSpec) : list jmap :=
  let listenAddr := or_default (ci_ListenAddress cb) "127.0.0.1" in
  let lanAddr := or_default (ci_LanListenAddress cb) "0.0.0.0" in
  let lan_users := local_users (ci_LanAuthEnabled cb) (ci_LanUsername cb) (ci_LanPassword cb) in
  (if 0 <? ci_SocksPort cb then
     [singbox_local "socks" "socks-in" listenAddr (ci_SocksPort cb)
        (local_users (ci_AuthEnabled cb) (ci_AuthUsername cb) (ci_AuthPassword cb))] else [])
  ++ (if 0 <? ci_HTTPPort cb then [singbox_local "http" "http-in" listenAddr (ci_HTTPPort cb) []] else [])
  ++ (if ci_Mode cb =s InboundModeMobileVpn then [BuildSingBoxAndroidTunInbound cb]
      else if ci_Mode cb =s InboundModeDesktopTun then [BuildSingBoxDesktopTunInbound cb] else [])
  ++ (if ci_LanSharingEnabled cb then
        (if 0 <? ci_LanHTTPPort cb then [singbox_local "http" "lan-http-in" lanAddr (ci_LanHTTPPort cb) lan_users] else [])
        ++ (if 0 <? ci_LanSocksPort cb then [singbox_local "socks" "lan-socks-in" lanAddr (ci_LanSocksPort cb) lan_users] else [])
      else []).

Definition generic_inbound (sb : ServerInboundSpec) : jmap :=
  applyCommonInboundOptions (inbound_header (si_Protocol sb) sb ++ opt_map "tls" (buildInboundTLS sb)) sb.

Definition singbox_server_inbound (sb : ServerInboundSpec) : jmap :=
  let proto := ToLower (si_Protocol sb) in
  if proto =s "shadowsocks" then buildShadowsocksInbound sb
  else if proto =s "vless" then buildVLESSInbound sb
  else if proto =s "vmess" then buildVMessInbound sb
  else if (proto =s "hysteria2") || (proto =s "hysteria") then buildHysteria2Inbound sb
  else if proto =s "trojan" then buildTrojanInbound sb
  else if proto =s "tuic" then buildTUICInbound sb
  else if proto =s "http" then buildHTTPInbound sb
  else if proto =s "socks" then buildSocksInbound sb
  else generic_inbound sb.

Definition BuildSingBoxInbounds (spec : ConfigSpec) : list jmap :=
  let inbounds :=
    match cs_ClientInbound spec with Some cb => singbox_client_inbounds cb | None => [] end
    ++ map singbox_server_inbound (cs_ServerInbounds spec) in
  if nonempty inbounds then inbounds else [singbox_local "socks" "socks-in" "127.0.0.1" 10808 []].

(** ** Lemmas on settings *)

Lemma jget_merge base m k : jget m k = None -> jget (merge base m) k = jget base k.
Proof.
  unfold merge. revert base. induction m as [|[j v] m IH]; intros base; [done|]. rewrite jget_cons. cbn [fold_left fst snd].
  destruct (j =s k) eqn:E; [done|]. intros Hm. by rewrite IH, jget_jset, E.
Qed.

Lemma common_no_users sb : jget (common_options sb) "users" = None.
Proof.
  unfold common_options, copy_bool, copy_text, inbound_network, opt_text. rewrite !jget_app, !jget_opt.
  destruct (jget _ "tcp_fast_open") as [[]|], (jget _ "tcp_multi_path") as [[]|], (get_string _ "network" =s ""), (si_Multiplex sb);
    rewrite ?jget_opt; cbn; by rewrite ?andb_false_r.
Qed.

Lemma applied_users inbound sb : jget (applyCommonInboundOptions inbound sb) "users" = jget inbound "users".
Proof. apply jget_merge, common_no_users. Qed.

Lemma objects_raw l g :
  objects (Some (VList (omap (fun v => (fun m => VMap (g m)) <$> as_map v) l))) = map g (objects (Some (VList l))).
Proof. cbn. induction l as [|v l IH]; [done|]. destruct v; cbn; by rewrite IH. Qed.
Lemma objects_clients (l : list ServerInboundClient) f : objects (Some (VList (map (fun c => VMap (f c)) l))) = map f l.
Proof. rewrite <- objects_maps. do 3 f_equal. by rewrite map_map. Qed.
Lemma objects_listed m k : objects (Some (VList (listed m k))) = objects (jget m k).
Proof. unfold listed. by destruct (jget m k) as [[]|]. Qed.
Lemma listed_jset k l m : listed (jset k (VList l) m) k = l.
Proof. unfold listed. by rewrite jget_jset, String.eqb_refl. Qed.

(** The accounts of a server, declared or raw, in the two forms. *)
Definition declared (sb : ServerInboundSpec) (f : ServerInboundClient -> jmap) (g : jmap -> jmap) : list jmap :=
  if nonempty (si_Clients sb) then map f (si_Clients sb) else map g (objects (jget (si_RawSettings sb) "clients")).

Lemma set_clients_spec sb f g d : declared sb f g <> [] ->
  objects (jget (set_clients sb f g d (si_RawSettings sb)) "clients") = declared sb f g.
Proof.
  unfold declared, set_clients. destruct (nonempty (si_Clients sb)) eqn:Ec.
  - intros _. rewrite listed_jset. destruct (si_Clients sb) as [|c l] eqn:El; [done|].
    cbn [map nonempty]. rewrite jget_jset, String.eqb_refl. apply (objects_clients (c :: l)).
  - rewrite <- objects_listed. destruct (nonempty (listed (si_RawSettings sb) "clients")) eqn:Er.
    + rewrite listed_jset, <- objects_raw. intros Hne. destruct (nonempty (omap _ _)) eqn:Eo.
      * by rewrite jget_jset, String.eqb_refl.
      * by destruct (omap _ _).
    + destruct (listed _ _); [|done]. done.
Qed.

Lemma inbound_users_spec sb f g : objects (jget (inbound_users sb f g) "users") = declared sb f g.
Proof.
  unfold declared, inbound_users, client_users. destruct (nonempty (si_Clients sb)) eqn:Ec; rewrite jget_opt, ?Ec; cbn [andb String.eqb Ascii.eqb Bool.eqb].
  - apply objects_clients.
  - rewrite <- objects_listed. destruct (nonempty (listed _ _)) eqn:Er; cbn [andb]; [apply objects_raw|]. by destruct (listed _ _).
Qed.

(** ** The two cores admit the same users *)

(** How the accounts of a protocol are kept: the keys of the credential in the two
    cores, and where it comes from. *)
Record UserKind := mkKind { xray_key : string; singbox_key : string; of_client : ServerInboundClient -> string; of_raw : jmap -> string }.
Definition user_kind (proto : string) : option UserKind :=
  if (proto =s "vless") || (proto =s "vmess") then Some (mkKind "id" "uuid" uuid_of raw_id)
  else if proto =s "trojan" then Some (mkKind "password" "password" password_of raw_password)
  else None.
(** The users that a specification means: name and credential, in order. *)
Definition users (K : UserKind) (sb : ServerInboundSpec) : list (string * string) :=
  if nonempty (si_Clients sb) then map (fun c => (ic_Email c, of_client K c)) (si_Clients sb)
  else map (fun m => (get_string m "email", of_raw K m)) (objects (jget (si_RawSettings sb) "clients")).
Definition xray_users (key : string) (x : jmap) : list (string * string) :=
  map (fun m => (get_string m "email", get_string m key)) (objects (jget (nested (get_map x "settings")) "clients")).
Definition singbox_users (key : string) (x : jmap) : list (string * string) :=
  map (fun m => (get_string m "name", get_string m key)) (objects (jget x "users")).

Lemma users_declared K sb f g : (users K sb <> [] -> declared sb f g <> []) /\
  forall name key, (forall c, (get_string (f c) name, get_string (f c) key) = (ic_Email c, of_client K c)) ->
    (forall m, m ∈ objects (jget (si_RawSettings sb) "clients") ->
       (get_string (g m) name, get_string (g m) key) = (get_string m "email", of_raw K m)) ->
    map (fun m => (get_string m name, get_string m key)) (declared sb f g) = users K sb.
Proof.
  unfold users, declared. split.
  - destruct (nonempty _); intros H E; apply H; by apply map_eq_nil in E as ->.
  - intros name key Hf Hg. destruct (nonempty (si_Clients sb)); rewrite map_map; apply map_ext_in; [done|].
    intros m Hm. apply Hg. by apply list_elem_of_In.
Qed.

(** A raw account with both "id" and "uuid" is read differently by the two cores. *)
Definition unambiguous (sb : ServerInboundSpec) : Prop :=
  forall m, m ∈ objects (jget (si_RawSettings sb) "clients") -> get_string m "id" = ""%string \/ get_string m "uuid" = ""%string.

Lemma raw_id_same m : get_string m "id" = ""%string \/ get_string m "uuid" = ""%string -> singbox_raw_id m = raw_id m.
Proof.
  unfold singbox_raw_id, raw_id. cbn [first_text]. intros [-> | ->]; [done|]. cbn. by destruct (_ =s "").
Qed.

Lemma xray_settings sb listen protocol settings : nested (get_map (inbound_object sb listen protocol settings) "settings") = settings.
Proof. done. Qed.

Lemma vless_clients rand sb : jget (nested (get_map (buildXrayVLESSInbound rand sb) "settings")) "clients" =
  jget (set_clients sb (fun c => account "id" (uuid_of c) (ic_Email c) ++ opt_text "flow" (client_flow sb c))
    (fun m => account "id" (raw_id m) (get_string m "email") ++ opt_text "flow" (get_string m "flow"))
    (account "id" (GenerateRandomUUID rand) "default") (si_RawSettings sb)) "clients".
Proof.
  unfold buildXrayVLESSInbound. cbv zeta. rewrite xray_settings.
  destruct (_ =s "reality"); [|destruct (nonempty (si_Fallbacks sb)); [|destruct (jget _ "fallbacks")]];
    by rewrite ?jget_jset, !jget_jdel, ?jget_jset.
Qed.

Lemma header_users type sb f g rest : jget (applyCommonInboundOptions (inbound_header type sb ++ inbound_users sb f g
  ++ opt_map "tls" (buildInboundTLS sb) ++ opt_map "transport" (buildInboundTransport sb)) rest) "users" =
  jget (inbound_users sb f g) "users".
Proof.
  rewrite applied_users, !jget_app. change (jget (inbound_header type sb) "users") with (@None value). cbn match.
  destruct (jget (inbound_users sb f g) "users"); [done|]. by destruct (buildInboundTLS sb), (buildInboundTransport sb).
Qed.

(** The entry of a user with an optional flow. *)
Lemma entry_fields (m : jmap) name key n c : (name =s key) = false ->
  (exists flow, m = [(name, VString n); (key, VString c)] ++ opt_text "flow" flow \/
                m = [(key, VString c); (name, VString n)] ++ opt_text "flow" flow) ->
  (get_string m name, get_string m key) = (n, c).
Proof.
  intros Hn (flow & H). assert (Hn' : (key =s name) = false) by (by rewrite String.eqb_sym).
  destruct H as [->| ->]; unfold get_string; cbn [app]; rewrite !jget_cons, ?String.eqb_refl, ?Hn, ?Hn', ?String.eqb_refl; done.
Qed.

(** What the two inbounds list, for builders of entries that keep name and credential. *)
Lemma listed_users K sb f g f' g' d : users K sb <> [] ->
  (forall c, (get_string (f c) "email", get_string (f c) (xray_key K)) = (ic_Email c, of_client K c)) ->
  (forall m, (get_string (g m) "email", get_string (g m) (xray_key K)) = (get_string m "email", of_raw K m)) ->
  (forall c, (get_string (f' c) "name", get_string (f' c) (singbox_key K)) = (ic_Email c, of_client K c)) ->
  (forall m, m ∈ objects (jget (si_RawSettings sb) "clients") ->
     (get_string (g' m) "name", get_string (g' m) (singbox_key K)) = (get_string m "email", of_raw K m)) ->
  map (fun m => (get_string m "email", get_string m (xray_key K))) (objects (jget (set_clients sb f g d (si_RawSettings sb)) "clients")) = users K sb /\
  map (fun m => (get_string m "name", get_string m (singbox_key K))) (objects (jget (inbound_users sb f' g') "users")) = users K sb.
Proof.
  intros Hne Hf Hg Hf' Hg'. destruct (users_declared K sb f g) as [Hd Hm], (users_declared K sb f' g') as [_ Hm'].
  rewrite set_clients_spec, inbound_users_spec by auto. split; [by apply Hm | by apply Hm'].
Qed.

Ltac entry :=
  intros; apply entry_fields; [done|];
  first [eexists; left; reflexivity | eexists; right; reflexivity | exists ""%string; left; reflexivity | exists ""%string; right; reflexivity].

(** A server inbound with users, of a protocol with accounts, admits exactly those
    users in both cores, with the same names and credentials in the same order,
    whether they are declared as clients or come with the raw settings. *)
Theorem same_users rand sb K : user_kind (ToLower (si_Protocol sb)) = Some K -> users K sb <> [] -> unambiguous sb ->
  xray_users (xray_key K) (xray_server_inbound rand sb) = users K sb /\
  singbox_users (singbox_key K) (singbox_server_inbound sb) = users K sb.
Proof.
  intros HK Hne Hu. unfold user_kind in HK. unfold xray_users, singbox_users.
  destruct (ToLower (si_Protocol sb) =s "vless") eqn:E1;
    [apply String.eqb_eq in E1 | destruct (ToLower (si_Protocol sb) =s "vmess") eqn:E2; [apply String.eqb_eq in E2|
      destruct (ToLower (si_Protocol sb) =s "trojan") eqn:E3; [apply String.eqb_eq in E3|done]]]; injection HK as <-.
  - replace (xray_server_inbound rand sb) with (buildXrayVLESSInbound rand sb) by (unfold xray_server_inbound; by rewrite E1).
    replace (singbox_server_inbound sb) with (buildVLESSInbound sb) by (unfold singbox_server_inbound; by rewrite E1).
    rewrite vless_clients. unfold buildVLESSInbound. rewrite header_users.
    apply listed_users; [done|entry..|]. intros m Hm. rewrite (raw_id_same m (Hu m Hm)). revert m Hm. entry.
  - replace (xray_server_inbound rand sb) with (buildXrayVMessInbound rand sb) by (unfold xray_server_inbound; by rewrite E2).
    replace (singbox_server_inbound sb) with (buildVMessInbound sb) by (unfold singbox_server_inbound; by rewrite E2).
    unfold buildXrayVMessInbound. rewrite xray_settings. unfold buildVMessInbound. rewrite header_users.
    apply listed_users; [done| | |entry|].
    3: { intros m Hm. rewrite (raw_id_same m (Hu m Hm)). revert m Hm. entry. }
    all: intros x; unfold get_string; rewrite !jget_app; done.
  - replace (xray_server_inbound rand sb) with (buildXrayTrojanInbound rand sb) by (unfold xray_server_inbound; by rewrite E3).
    replace (singbox_server_inbound sb) with (buildTrojanInbound sb) by (unfold singbox_server_inbound; by rewrite E3).
    unfold buildXrayTrojanInbound. rewrite xray_settings. unfold buildTrojanInbound. rewrite header_users.
    apply listed_users; [done|entry..].
Qed.

Definition server_demo (proto security : string) (clients : list ServerInboundClient) (raw stream : jmap) : ServerInboundSpec :=
  mkServerInbound "in" proto "" 443 "" security "s.example" "" "" "" "" [] clients false "" 0 "" false "" "" "" "" "" "" 0
    0 "" "" [] raw stream [].
Definition client_demo (id uuid password email flow : string) : ServerInboundClient := mkInboundClient id uuid password email flow.

Lemma same_users_witness :
  let sb := server_demo "VLESS" "tls" [] [("clients"%string, VList [VMap [("id", VString "u-1"); ("email", VString "a@x")]%string])] [] in
  xray_users "id" (xray_server_inbound (fun _ => ""%string) sb) = [("a@x", "u-1")]%string /\
  singbox_users "uuid" (singbox_server_inbound sb) = [("a@x", "u-1")]%string.
Proof.
  intros sb. apply (same_users (fun _ => ""%string) sb (mkKind "id" "uuid" uuid_of raw_id)); [reflexivity|discriminate|].
  intros m Hm. vm_compute in Hm. apply list_elem_of_singleton in Hm as ->. by right.
Defined.

(** ** Shared proxies ask for a password *)

Definition one_account (name pass : string) (l : list jmap) (user secret : string) : bool :=
  match l with [m] => (get_string m name =s user) && (get_string m pass =s secret) | _ => false end.
(** Whether a proxy inbound lets in exactly one user. *)
Definition xray_asks (user secret : string) (x : jmap) : bool :=
  let settings := nested (get_map x "settings") in
  ((get_string x "protocol" =s "http") || (get_string settings "auth" =s "password"))
  && one_account "user" "pass" (objects (jget settings "accounts")) user secret.
Definition singbox_asks (user secret : string) (x : jmap) : bool :=
  one_account "username" "password" (objects (jget x "users")) user secret.

(** Where an inbound listens. *)
Definition xray_listener (x : jmap) : string * string * option value := (get_string x "tag", get_string x "listen", jget x "port").
Definition singbox_listener (x : jmap) : string * string * option value := (get_string x "tag", get_string x "listen", jget x "listen_port").

Definition xray_guarded (cb : ClientInboundSpec) (x : jmap) : bool :=
  (get_string x "protocol" =s "tun") || (get_string x "listen" =s "127.0.0.1") || xray_asks (ci_LanUsername cb) (ci_LanPassword cb) x.
Definition singbox_guarded (cb : ClientInboundSpec) (x : jmap) : bool :=
  (get_string x "type" =s "tun") || (get_string x "listen" =s "127.0.0.1") || singbox_asks (ci_LanUsername cb) (ci_LanPassword cb) x.

Section Guarded.
Context (cb : ClientInboundSpec) (Hlocal : ci_ListenAddress cb = ""%string)
        (Hlan : ci_LanSharingEnabled cb = true -> ci_LanAuthEnabled cb = true /\ ci_LanUsername cb <> ""%string).

Lemma one_account_self name pass : (name =s pass) = false ->
  one_account name pass [[(name, VString (ci_LanUsername cb)); (pass, VString (ci_LanPassword cb))]] (ci_LanUsername cb) (ci_LanPassword cb) = true.
Proof.
  intros Hn. unfold one_account, get_string. rewrite !jget_cons, Hn, (String.eqb_sym pass name), ?Hn, !String.eqb_refl. cbn -[String.eqb]. rewrite ?String.eqb_refl. done.
Qed.

Lemma forallb_when {A} (P : A -> bool) (c : bool) x : (c = true -> P x = true) -> forallb P (if c then [x] else []) = true.
Proof. destruct c; [|done]. intros H. cbn. by rewrite H. Qed.
Lemma when_shared {A} (P : A -> bool) a b : (ci_LanSharingEnabled cb = true -> forallb P a = true /\ forallb P b = true) ->
  forallb P (if ci_LanSharingEnabled cb then a ++ b else []) = true.
Proof. destruct (ci_LanSharingEnabled cb); [|done]. intros H. rewrite forallb_app. by destruct H as [-> ->]. Qed.

Lemma xray_client_guarded : forallb (xray_guarded cb) (xray_client_inbounds cb) = true.
Proof using Hlocal Hlan.
  unfold xray_client_inbounds. rewrite Hlocal. cbv zeta. rewrite !forallb_app.
  rewrite !forallb_when by (intros; unfold xray_guarded; apply orb_true_iff; left; apply orb_true_r).
  cbn [andb]. apply andb_true_iff. split; [destruct (_ =s _); [|destruct (_ =s _)]; done|].
  apply when_shared. intros HL. destruct (Hlan HL) as [Ha Hu%String.eqb_neq].
  unfold socks_settings, http_settings. rewrite Ha, Hu.
  split; apply forallb_when; intros _; apply orb_true_iff; right; by apply one_account_self.
Qed.

Lemma singbox_client_guarded : forallb (singbox_guarded cb) (singbox_client_inbounds cb) = true.
Proof using Hlocal Hlan.
  unfold singbox_client_inbounds. rewrite Hlocal. cbv zeta. rewrite !forallb_app.
  rewrite !forallb_when by (intros; unfold singbox_guarded; apply orb_true_iff; left; apply orb_true_r).
  cbn [andb]. apply andb_true_iff. split; [destruct (_ =s _); [|destruct (_ =s _)]; done|].
  apply when_shared. intros HL. destruct (Hlan HL) as [Ha Hu%String.eqb_neq].
  unfold local_users. rewrite Ha, Hu.
  split; apply forallb_when; intros _; apply orb_true_iff; right; by apply one_account_self.
Qed.

Lemma tun_listeners : xray_listener (BuildXrayAndroidTunInbound cb) = singbox_listener (BuildSingBoxAndroidTunInbound cb) /\
  xray_listener (BuildXrayDesktopTunInbound cb) = singbox_listener (BuildSingBoxDesktopTunInbound cb).
Proof using.
  unfold singbox_listener, BuildSingBoxAndroidTunInbound, BuildSingBoxDesktopTunInbound, package_lists, get_string.
  by destruct (ci_IncludePackages cb), (ci_ExcludePackages cb).
Qed.

Lemma client_listeners : map xray_listener (xray_client_inbounds cb) = map singbox_listener (singbox_client_inbounds cb).
Proof using.
  clear Hlan. unfold xray_client_inbounds, singbox_client_inbounds. cbv zeta. rewrite !map_app.
  apply f_equal2; [by destruct (0 <? _)|]. apply f_equal2; [by destruct (0 <? _)|].
  apply f_equal2; [destruct (ci_Mode cb =s InboundModeMobileVpn); [|destruct (ci_Mode cb =s InboundModeDesktopTun); [|done]];
    cbn [map]; f_equal; apply tun_listeners|].
  destruct (ci_LanSharingEnabled cb); [|done]. rewrite !map_app. apply f_equal2; by destruct (0 <? _).
Qed.
End Guarded.

(** C21. A client configuration that listens on this machine and, where it shares its
    proxies, asks for a password with a user name set, opens no proxy to the network
    without exactly that password, in either core; and both cores open the same
    listeners. *)
Theorem shared_proxies_guarded rand spec cb : cs_ClientInbound spec = Some cb -> cs_ServerInbounds spec = [] ->
  ci_ListenAddress cb = ""%string ->
  (ci_LanSharingEnabled cb = true -> ci_LanAuthEnabled cb = true /\ ci_LanUsername cb <> ""%string) ->
  forallb (xray_guarded cb) (BuildXrayInbounds rand spec) = true /\
  forallb (singbox_guarded cb) (BuildSingBoxInbounds spec) = true /\
  map xray_listener (BuildXrayInbounds rand spec) = map singbox_listener (BuildSingBoxInbounds spec).
Proof.
  intros Hc Hs Hl Hlan. unfold BuildXrayInbounds, BuildSingBoxInbounds. rewrite Hc, Hs. cbn [imap map]. cbv zeta. rewrite !app_nil_r.
  pose proof (xray_client_guarded cb Hl Hlan) as Hx. pose proof (singbox_client_guarded cb Hl Hlan) as Hb.
  pose proof (client_listeners cb) as Hm.
  destruct (xray_client_inbounds cb), (singbox_client_inbounds cb); done.
Qed.

Definition shared_demo (user : string) : ConfigSpec :=
  mkConfig CoreXray "" false None
    (Some (mkClientInbound InboundModeSystemProxy 10808 0 "" false "" "" "" "" 0 false false "" "" "" [] [] true "" 10811 10810 true user "secret"))
    [] None None "" "" "" "" "" "".

Lemma shared_proxies_guarded_witness :
  map xray_listener (BuildXrayInbounds (fun _ _ => ""%string) (shared_demo "guest")) =
    [("socks-in", "127.0.0.1", Some (VInt 10808)); ("lan-http-in", "0.0.0.0", Some (VInt 10811)); ("lan-socks-in", "0.0.0.0", Some (VInt 10810))]%string
  /\ exists cb, cs_ClientInbound (shared_demo "guest") = Some cb /\
     forallb (singbox_guarded cb) (BuildSingBoxInbounds (shared_demo "guest")) = true.
Proof.
  split; [reflexivity|]. eexists. split; [reflexivity|].
  apply (shared_proxies_guarded (fun _ _ => ""%string) (shared_demo "guest") _ eq_refl eq_refl eq_refl). intros _. split; [reflexivity|discriminate].
Defined.

(** ** Open inbounds and differences between the cores *)

(** A password without a user name is not asked for: the shared proxies are open. *)
Example lan_without_user_is_open :
  map (fun x => (get_string x "listen", jget x "users")) (BuildSingBoxInbounds (shared_demo "")) =
    [("127.0.0.1", None); ("0.0.0.0", None); ("0.0.0.0", None)]%string.
Proof. reflexivity. Qed.

(** A SOCKS server whose clients have no password is open on every address in Xray. *)
Example socks_without_password_is_open :
  let x := xray_server_inbound (fun _ => ""%string) (server_demo "socks" "" [client_demo "" "" "" "a@x" ""] [] []) in
  (get_string x "listen", get_string (nested (get_map x "settings")) "auth") = ("0.0.0.0", "noauth")%string.
Proof. reflexivity. Qed.

(** Of a client with both identifiers and no password, Shadowsocks takes the one in Xray
    and the other in sing-box. *)
Example shadowsocks_credentials_differ :
  let sb := server_demo "shadowsocks" "" [client_demo "id" "uuid" "" "a@x" ""] [] [] in
  (xray_users "password" (xray_server_inbound (fun _ => ""%string) sb), singbox_users "password" (singbox_server_inbound sb)) =
  ([("a@x", "id")], [("a@x", "uuid")])%string.
Proof. reflexivity. Qed.

(** Of a raw account with both, VLESS and VMess do so. *)
Example raw_identifiers_differ :
  let sb := server_demo "vless" "" [] [("clients"%string, VList [VMap [("id", VString "i"); ("uuid", VString "u"); ("email", VString "a@x")]%string])] [] in
  (xray_users "id" (xray_server_inbound (fun _ => ""%string) sb), singbox_users "uuid" (singbox_server_inbound sb)) =
  ([("a@x", "i")], [("a@x", "u")])%string.
Proof. reflexivity. Qed.

(** A Reality destination with an IPv6 address is cut at its first colon. *)
Example ipv6_destination : split_dest "[2001:db8::1]:8443" "s" = ("[2001"%string, 443).
Proof. reflexivity. Qed.
Example destination : split_dest "www.example.com:8443" "s" = ("www.example.com"%string, 8443).
Proof. reflexivity. Qed.
