(* ===== verification/Routing.v ===== *)
(** * Routing tables, presets and policies
    (src/pkg/routing/table.go, optimizer.go, policy.go, preset_manager.go,
    quick_rules.go, engine.go)

    A policy is compiled in three steps: its parts become rows of a table in
    order of priority, the rows are optimised, and the table is translated to
    rules of the abstract syntax.  Presets come from JSON files; their decoding
    is an argument.  A row is a value: the slices of a policy are never written. *)
From S2P Require Import Prelude GoStrings GoNet Optimizer Sanitize Ast.
Import Optimizer Sanitize.
Open Scope Z_scope.

Module Routing.
(** ** Tables (table.go) *)

Record RoutingRuleRow := mkRow {
  row_ID : string;
  row_Order : Z;
  row_Name : string;
  row_Enabled : bool;
  row_Target : string;
  row_Inbounds : list string;
  row_Domains : list string;
  row_IPs : list string;
  row_Protocols : list string;
  row_Ports : list string;
  row_ProcessNames : list string;
  row_PackageUIDs : list string;
  row_IPVersion : Z;
}.

Record RoutingTable := mkTable { DefaultTarget : string; table_Rules : list RoutingRuleRow }.

(** A row literal that sets the name, the target and some matchers. *)
Definition row_literal name target (domains ips ports processes uids : list string) : RoutingRuleRow :=
  mkRow "" 0 name true target [] domains ips [] ports processes uids 0.
Definition with_order (order : Z) (r : RoutingRuleRow) : RoutingRuleRow :=
  mkRow (row_ID r) order (row_Name r) (row_Enabled r) (row_Target r) (row_Inbounds r) (row_Domains r)
    (row_IPs r) (row_Protocols r) (row_Ports r) (row_ProcessNames r) (row_PackageUIDs r) (row_IPVersion r).
Definition with_target (target : string) (r : RoutingRuleRow) : RoutingRuleRow :=
  mkRow (row_ID r) (row_Order r) (row_Name r) (row_Enabled r) target (row_Inbounds r) (row_Domains r)
    (row_IPs r) (row_Protocols r) (row_Ports r) (row_ProcessNames r) (row_PackageUIDs r) (row_IPVersion r).
Definition with_matchers (domains ips : list string) (r : RoutingRuleRow) : RoutingRuleRow :=
  mkRow (row_ID r) (row_Order r) (row_Name r) (row_Enabled r) (row_Target r) (row_Inbounds r) domains
    ips (row_Protocols r) (row_Ports r) (row_ProcessNames r) (row_PackageUIDs r) (row_IPVersion r).

Definition NewRoutingTable (defaultTarget : string) : RoutingTable :=
  mkTable (if defaultTarget =s "" then "proxy" else defaultTarget) [].

Definition AddRule (t : RoutingTable) (rule : RoutingRuleRow) : RoutingTable :=
  mkTable (DefaultTarget t) (table_Rules t ++ [rule]).

(** The action and the outbound of a target. *)
Definition resolve_target (raw : string) : RouteAction * string :=
  let target := TrimSpace raw in
  let target := if target =s "" then "direct"%string else target in
  let targetUpper := ToUpper target in
  if (targetUpper =s "BLOCK") || (targetUpper =s "BLOCKED") then (ActionBlock, "block"%string)
  else if targetUpper =s "DIRECT" then (ActionDirect, "direct"%string)
  else if targetUpper =s "PROXY" then (ActionProxy, "proxy"%string)
  else (ActionProxy, target).

Definition compile_row (row : RoutingRuleRow) : RoutingRule :=
  let '(action, outboundTag) := resolve_target (row_Target row) in
  mkRule action outboundTag (CleanDomainList (row_Domains row)) (CleanIPList (row_IPs row))
    (CleanPortList (row_Ports row)) (row_Protocols row) [] [] (row_PackageUIDs row)
    (row_ProcessNames row) (row_Inbounds row) (row_IPVersion row).

Definition CompileToAST (t : RoutingTable) : RoutingSpec :=
  mkSpec (if ToUpper (DefaultTarget t) =s "DIRECT" then ActionDirect else ActionProxy)
    (map compile_row (List.filter row_Enabled (stable_sort row_Order (table_Rules t))))
    [] true true [].

(** ** Optimising the rows (optimizer.go) *)

Definition optimize_row (r : RoutingRuleRow) : RoutingRuleRow :=
  with_matchers (if 0 <? len (row_Domains r) then OptimizeDomains (row_Domains r) else row_Domains r)
    (if 0 <? len (row_IPs r) then OptimizeCIDRs (row_IPs r) else row_IPs r) r.

(** A row is kept if it has a matcher, or a target. *)
Definition has_matchers (r : RoutingRuleRow) : bool :=
  (0 <? len (row_Domains r)) || (0 <? len (row_IPs r)) || (0 <? len (row_Ports r)) ||
  (0 <? len (row_Protocols r)) || (0 <? len (row_PackageUIDs r)) || (0 <? len (row_ProcessNames r)).

Definition OptimizeRules (rules : list RoutingRuleRow) : list RoutingRuleRow :=
  List.filter (fun row => has_matchers row || (row_Target row <>s ""))
    (map optimize_row (List.filter row_Enabled rules)).

(** ** Presets (preset_manager.go, quick_rules.go) *)

Record Preset := mkPreset {
  preset_ID : string;
  preset_Type : string;
  preset_Name : string;
  preset_Description : string;
  preset_DefaultTarget : string;
  preset_Domains : list string;
  preset_IPs : list string;
  preset_Protocols : list string;
  preset_Ports : list string;
  preset_ProcessNames : list string;
  preset_PackageUIDs : list string;
  preset_IPVersion : Z;
  preset_Rules : list RoutingRuleRow;
}.

Definition GetRules (p : Preset) (targetOverride : string) : list RoutingRuleRow :=
  let target := if targetOverride <>s "" then targetOverride else preset_DefaultTarget p in
  let target := if target =s "" then "direct"%string else target in
  if 0 <? len (preset_Rules p) then
    map (fun r => if targetOverride <>s "" then with_target targetOverride r else r) (preset_Rules p)
  else
    [mkRow "" 0 (preset_Name p) true target [] (preset_Domains p) (preset_IPs p) (preset_Protocols p)
       (preset_Ports p) (preset_ProcessNames p) (preset_PackageUIDs p) (preset_IPVersion p)].

Definition PresetManager := gmap string Preset.

Definition RegisterPreset (pm : PresetManager) (p : Preset) : PresetManager :=
  if preset_ID p =s "" then pm else <[preset_ID p := p]> pm.

(** [files]: the embedded files with their names, [None] for one that does not
    decode. *)
Definition registerBuiltinPresets (files : list (string * option Preset)) : PresetManager :=
  foldl (fun pm f => if HasSuffix f.1 ".json" then
           match f.2 with Some p => RegisterPreset pm p | None => pm end else pm) ∅ files.

Definition aliasMap : gmap string string :=
  list_to_map [("bypass_ru", "ru"); ("block_ru", "ru"); ("smart_ru", "ru"); ("torrent_shield", "bittorrent");
               ("block_torrent", "bittorrent"); ("block_ads", "ads"); ("block_cn", "cn"); ("block_us", "us")]%string.

Definition GetPreset (pm : PresetManager) (id : string) : result Preset :=
  let not_found := Err ("preset '" ^^ id ^^ "' not found") in
  match pm !! id with
  | Some p => Ok p
  | None =>
      match aliasMap !! id with
      | Some canonical => match pm !! canonical with Some p => Ok p | None => not_found end
      | None => not_found
      end
  end.

Definition id_le (p q : Preset) : Prop := str_le (preset_ID p) (preset_ID q).
#[export] Instance id_le_dec p q : Decision (id_le p q).
Proof. unfold id_le. apply _. Defined.

Definition ListPresets (pm : PresetManager) : list Preset := merge_sort id_le (map_to_list pm).*2.

Definition lan_row : RoutingRuleRow := row_literal "Private LAN" "direct" [] ["geoip:private"%string] [] [] [].

Definition CompilePreset (pm : PresetManager) (id : string) : result RoutingSpec :=
  p ← GetPreset pm id;
  Ok (CompileToAST (mkTable "proxy" (with_order 1 lan_row :: GetRules p ""))).

(** A preset without an identifier takes the name of its file. *)
Definition named (filePath : string) (p : Preset) : Preset :=
  if preset_ID p =s "" then
    let base := Base filePath in
    mkPreset (TrimSuffix base (Ext base)) (preset_Type p) (preset_Name p) (preset_Description p)
      (preset_DefaultTarget p) (preset_Domains p) (preset_IPs p) (preset_Protocols p) (preset_Ports p)
      (preset_ProcessNames p) (preset_PackageUIDs p) (preset_IPVersion p) (preset_Rules p)
  else p.

(** [decoded]: what reading and decoding the file gives. *)
Definition LoadPresetFile (pm : PresetManager) (filePath : string) (decoded : result Preset)
    : PresetManager * result Preset :=
  match decoded with
  | Err e => (pm, Err e)
  | Ok p => (RegisterPreset pm (named filePath p), Ok (named filePath p))
  end.

(** [entries]: name and whether it is a directory. *)
Definition LoadPresetsDirectory (pm : PresetManager) (dirPath : string)
    (entries : result (list (string * bool))) (decode : string -> result Preset)
    : PresetManager * result (list Preset) :=
  match entries with
  | Err e => (pm, Err ("failed to read presets directory: " ^^ e))
  | Ok es =>
      let '(pm, loaded) :=
        foldl (fun '(pm, loaded) (e : string * bool) =>
          if negb e.2 && (Ext e.1 =s ".json") then
            let path := JoinPath [dirPath; e.1] in
            match LoadPresetFile pm path (decode path) with
            | (pm', Ok p) => (pm', loaded ++ [p])
            | (pm', Err _) => (pm', loaded)
            end
          else (pm, loaded)) (pm, []) es in
      (pm, Ok loaded)
  end.

(** Adds one row with the next order number. *)
Definition append_row (st : RoutingTable * Z) (row : RoutingRuleRow) : RoutingTable * Z :=
  (AddRule st.1 (with_order st.2 row), wrap64 (st.2 + 1)).

(** The enabled rows of one preset, with the override for the identifier used. *)
Definition preset_rows (pm : PresetManager) (overrides : gmap string string) (id : string) : list RoutingRuleRow :=
  match GetPreset pm id with
  | Err _ => []
  | Ok p => List.filter row_Enabled (GetRules p (default ""%string (overrides !! id)))
  end.
Definition append_preset (pm : PresetManager) (overrides : gmap string string) (st : RoutingTable * Z) (id : string)
    : RoutingTable * Z :=
  foldl append_row st (preset_rows pm overrides id).

Definition BuildTableFromPresets (pm : PresetManager) (enabledPresetIDs : list string)
    (targetOverrides : gmap string string) : RoutingTable :=
  (foldl (append_preset pm targetOverrides)
    (AddRule (NewRoutingTable "proxy") (with_order 1 lan_row), 2) enabledPresetIDs).1.

(** ** Policies (policy.go, engine.go) *)

Definition RoutingMode := string.
Definition ModeSmartRule : RoutingMode := "smart_rule".
Definition ModeGlobalProxy : RoutingMode := "global_proxy".
Definition ModeDirectAll : RoutingMode := "direct_all".
Definition ModeWhitelistOnly : RoutingMode := "whitelist_only".

Record RoutingPolicy := mkPolicy {
  Mode : RoutingMode;
  EnabledPresets : list string;
  PresetTargetOverrides : gmap string string;
  CustomRules : list RoutingRuleRow;
  CustomProxyDomains : list string;
  CustomDirectDomains : list string;
  CustomBlockDomains : list string;
  CustomProxyIPs : list string;
  CustomDirectIPs : list string;
  CustomBlockIPs : list string;
  WindowsProcessProxy : list string;
  WindowsProcessDirect : list string;
  AndroidIncludePackages : list string;
  AndroidExcludePackages : list string;
  AndroidBlockedUIDs : list string;
  BlockedPorts : list string;
}.

Definition policy_of_presets (mode : RoutingMode) (presets : list string) : RoutingPolicy :=
  mkPolicy mode presets ∅ [] [] [] [] [] [] [] [] [] [] [] [] [].
Definition DefaultSmartPolicy : RoutingPolicy := policy_of_presets ModeSmartRule ["ads"; "ru"]%string.
Definition DefaultGlobalPolicy : RoutingPolicy := policy_of_presets ModeGlobalProxy [].

Definition append_if (b : bool) (row : RoutingRuleRow) (st : RoutingTable * Z) : RoutingTable * Z :=
  if b then append_row st row else st.

Definition active_presets (p : RoutingPolicy) : list string :=
  let active := foldl push_unseen [] (EnabledPresets p) in
  if (len active =? 0) && (Mode p =s ModeSmartRule) then ["ads"; "ru"]%string else active.

Definition uids_row p := row_literal "Android Blocked UIDs" "block" [] [] [] [] (AndroidBlockedUIDs p).
Definition ports_row p := row_literal "Blocked Security Ports" "block" [] [] (BlockedPorts p) [] [].
Definition custom_block_row p :=
  row_literal "Custom Block Overrides" "block" (CustomBlockDomains p) (CustomBlockIPs p) [] [] [].
Definition custom_direct_row p :=
  row_literal "Custom Direct Overrides" "direct" (CustomDirectDomains p) (CustomDirectIPs p) []
    (WindowsProcessDirect p) [].
Definition custom_proxy_row p :=
  row_literal "Custom Proxy Overrides" "proxy" (CustomProxyDomains p) (CustomProxyIPs p) []
    (WindowsProcessProxy p) [].

Definition default_target (p : RoutingPolicy) : string :=
  if (Mode p =s ModeDirectAll) || (Mode p =s ModeWhitelistOnly) then "direct"%string else "proxy"%string.

(** The table of a policy and the next order number. *)
Definition policy_table (pm : PresetManager) (p : RoutingPolicy) : RoutingTable * Z :=
  let st := (NewRoutingTable (default_target p), 1) in
  let st := append_if (0 <? len (AndroidBlockedUIDs p)) (uids_row p) st in
  let st := append_if (0 <? len (BlockedPorts p)) (ports_row p) st in
  let st := append_row st lan_row in
  let st := append_if ((0 <? len (CustomBlockDomains p)) || (0 <? len (CustomBlockIPs p))) (custom_block_row p) st in
  let st := append_if ((0 <? len (CustomDirectDomains p)) || (0 <? len (CustomDirectIPs p)) ||
                       (0 <? len (WindowsProcessDirect p))) (custom_direct_row p) st in
  let st := append_if ((0 <? len (CustomProxyDomains p)) || (0 <? len (CustomProxyIPs p)) ||
                       (0 <? len (WindowsProcessProxy p))) (custom_proxy_row p) st in
  let st := foldl append_row st (CustomRules p) in
  foldl (append_preset pm (PresetTargetOverrides p)) st (active_presets p).

Definition CompilePolicy (pm : PresetManager) (policy : option RoutingPolicy) : RoutingSpec :=
  let p := match policy with Some p => p | None => DefaultSmartPolicy end in
  let table := (policy_table pm p).1 in
  let spec := CompileToAST (mkTable (DefaultTarget table) (OptimizeRules (table_Rules table))) in
  if ToUpper (default_target p) =s "DIRECT" then
    mkSpec ActionDirect (Rules spec) (Outbounds spec) (AutoDetectInterface spec) (OverrideDNS spec) (RuleSets spec)
  else spec.

(** ** Tables: every rule is sound, and the rules follow the priorities *)

(** What a compiled rule promises to the compilers of the cores. *)
Record rule_sound (r : RoutingRule) : Prop := mkSound {
  sound_action : Action r = ActionProxy \/ Action r = ActionDirect \/ Action r = ActionBlock;
  sound_tag : OutboundTag r <> ""%string;
  sound_block : Action r = ActionBlock <-> OutboundTag r = "block"%string;
  sound_direct : Action r = ActionDirect <-> OutboundTag r = "direct"%string;
  sound_ports : Forall canonical_port (Ports r) /\ NoDup (Ports r);
  sound_lists : NoDup (Domains r) /\ NoDup (IPs r) /\ (""%string ∉ Domains r) /\ (""%string ∉ IPs r);
}.

Lemma TrimSpace_target raw : (if TrimSpace raw =s "" then "direct"%string else TrimSpace raw) <> ""%string.
Proof. destruct (String.eqb_spec (TrimSpace raw) ""); done. Qed.

Lemma resolve_sound raw : let '(a, t) := resolve_target raw in
  (a = ActionProxy \/ a = ActionDirect \/ a = ActionBlock) /\ t <> ""%string /\
  (a = ActionBlock <-> t = "block"%string) /\ (a = ActionDirect <-> t = "direct"%string).
Proof.
  unfold resolve_target. pose proof (TrimSpace_target raw) as H. set (t := if _ =s _ then _ else _) in *. clearbody t.
  destruct (String.eqb_spec (ToUpper t) "BLOCK"); cbn [orb]; [naive_solver|].
  destruct (String.eqb_spec (ToUpper t) "BLOCKED"); [naive_solver|].
  destruct (String.eqb_spec (ToUpper t) "DIRECT"); [naive_solver|].
  destruct (String.eqb_spec (ToUpper t) "PROXY"); [naive_solver|].
  split; [by left|]. split; [done|]. split; split; intros E; try done; by rewrite E in *.
Qed.

Lemma compile_row_sound row : rule_sound (compile_row row).
Proof.
  pose proof (resolve_sound (row_Target row)) as H. unfold compile_row.
  destruct (resolve_target _) as [a t]. destruct H as (Ha & Ht & Hb & Hd).
  destruct (clean_list_spec SanitizeDomain (row_Domains row)) as [Hd1 Hd2].
  destruct (clean_list_spec SanitizeIP (row_IPs row)) as [Hi1 Hi2].
  destruct (clean_list_spec SanitizePort (row_Ports row)) as [Hp1 Hp2].
  constructor; cbn; try done.
  - split; [|done]. apply Forall_forall. intros x (Hne & q & _ & <-)%Hp2.
    by destruct (SanitizePort_result q).
  - repeat split; try done; [by intros [? _]%Hd2 | by intros [? _]%Hi2].
Qed.

(** Compiling a table: the rules are the translations of the enabled rows
    in the order of the priorities, rows of one priority in table order: for
    every arrangement of the rows with these two properties.  And every rule is
    sound: its action and its outbound agree, and its ports are canonical. *)
Theorem compile_table_exact t rows :
  StronglySorted (fun a b => row_Order a <= row_Order b) rows ->
  (forall z, same_key row_Order z rows = same_key row_Order z (table_Rules t)) ->
  Rules (CompileToAST t) = map compile_row (List.filter row_Enabled rows) /\
  Forall rule_sound (Rules (CompileToAST t)).
Proof.
  intros Hs Hk. unfold CompileToAST. cbn [Rules].
  split; [by rewrite (stable_sort_unique _ _ rows)|].
  apply Forall_map, Forall_forall. intros r _. apply compile_row_sound.
Qed.

(** ** Policies: the rows in order of priority *)

(** The rows of a policy, from the highest priority to the lowest. *)
Definition policy_rows (pm : PresetManager) (p : RoutingPolicy) : list RoutingRuleRow :=
  (if 0 <? len (AndroidBlockedUIDs p) then [uids_row p] else []) ++
  (if 0 <? len (BlockedPorts p) then [ports_row p] else []) ++
  [lan_row] ++
  (if (0 <? len (CustomBlockDomains p)) || (0 <? len (CustomBlockIPs p)) then [custom_block_row p] else []) ++
  (if (0 <? len (CustomDirectDomains p)) || (0 <? len (CustomDirectIPs p)) || (0 <? len (WindowsProcessDirect p))
   then [custom_direct_row p] else []) ++
  (if (0 <? len (CustomProxyDomains p)) || (0 <? len (CustomProxyIPs p)) || (0 <? len (WindowsProcessProxy p))
   then [custom_proxy_row p] else []) ++
  CustomRules p ++
  (active_presets p ≫= preset_rows pm (PresetTargetOverrides p)).

Fixpoint numbered (n : Z) (rows : list RoutingRuleRow) : list RoutingRuleRow :=
  match rows with [] => [] | r :: rs => with_order n r :: numbered (n + 1) rs end.

Lemma append_if_rows b row st : append_if b row st = foldl append_row st (if b then [row] else []).
Proof. by destruct b. Qed.

Lemma append_presets_rows pm ov st ids :
  foldl (append_preset pm ov) st ids = foldl append_row st (ids ≫= preset_rows pm ov).
Proof. revert st. induction ids as [|i ids IH]; intros st; [done|]. cbn. by rewrite foldl_app, IH. Qed.

Lemma policy_table_rows pm p :
  policy_table pm p = foldl append_row (NewRoutingTable (default_target p), 1) (policy_rows pm p).
Proof.
  unfold policy_table, policy_rows. rewrite !append_if_rows, append_presets_rows, !foldl_app. reflexivity.
Qed.

Lemma append_rows_numbered t n rows : 0 <= n -> n + len rows < 2^63 ->
  foldl append_row (t, n) rows = (mkTable (DefaultTarget t) (table_Rules t ++ numbered n rows), n + len rows).
Proof.
  revert t n. induction rows as [|r rows IH]; intros t n Hn Hl.
  - cbn. rewrite app_nil_r. unfold len. cbn. rewrite Z.add_0_r. by destruct t.
  - rewrite len_cons in Hl |- *. pose proof (len_nonneg rows). cbn [foldl]. unfold append_row at 2. cbn [fst snd].
    rewrite wrap64_small, IH by lia. cbn. rewrite <- app_assoc. f_equal. lia.
Qed.

Lemma OptimizeRules_cons r rs :
  OptimizeRules (r :: rs) =
    (if row_Enabled r && (has_matchers (optimize_row r) || (row_Target r <>s "")) then [optimize_row r] else [])
    ++ OptimizeRules rs.
Proof. unfold OptimizeRules. cbn. destruct (row_Enabled r); cbn; [|done]. by destruct (_ || _). Qed.

(** Numbering the rows does not change how they are optimised and compiled. *)
Lemma optimize_numbered n rows :
  map compile_row (List.filter row_Enabled (OptimizeRules (numbered n rows))) = map compile_row (OptimizeRules rows) /\
  StronglySorted (fun a b => row_Order a <= row_Order b) (OptimizeRules (numbered n rows)) /\
  Forall (fun a => n <= row_Order a) (OptimizeRules (numbered n rows)).
Proof.
  revert n. induction rows as [|r rows IH]; intros n; [by repeat constructor|].
  destruct (IH (n + 1)) as (H1 & H2 & H3). cbn [numbered]. rewrite !OptimizeRules_cons.
  change (has_matchers (optimize_row (with_order n r))) with (has_matchers (optimize_row r)). cbn [row_Enabled row_Target with_order].
  destruct (row_Enabled r) eqn:En; cbn [andb].
  - destruct (has_matchers (optimize_row r) || _); cbn [app].
    + split; [|split].
      * cbn [List.filter map row_Enabled optimize_row with_matchers with_order]. rewrite En. cbn [map]. by rewrite H1.
      * constructor; [done|]. eapply Forall_impl; [exact H3|]. cbn. intros. lia.
      * constructor; [cbn; lia|]. eapply Forall_impl; [exact H3|]. cbn. intros. lia.
    + repeat split; [done.. |]. eapply Forall_impl; [exact H3|]. cbn. intros. lia.
  - cbn [app]. repeat split; [done.. |]. eapply Forall_impl; [exact H3|]. cbn. intros. lia.
Qed.

Lemma compile_policy_rows pm p : len (policy_rows pm p) < 2^62 ->
  Rules (CompilePolicy pm (Some p)) = map compile_row (OptimizeRules (policy_rows pm p)).
Proof.
  intros Hl. unfold CompilePolicy. cbv beta iota zeta. rewrite policy_table_rows.
  rewrite (append_rows_numbered _ 1 (policy_rows pm p)) by lia.
  destruct (optimize_numbered 1 (policy_rows pm p)) as (H1 & H2 & _).
  assert (E : Rules (CompileToAST (mkTable (default_target p) (OptimizeRules (numbered 1 (policy_rows pm p)))))
    = map compile_row (OptimizeRules (policy_rows pm p))).
  { cbn [CompileToAST Rules table_Rules]. by rewrite stable_sort_id. }
  cbn [fst table_Rules DefaultTarget NewRoutingTable].
  destruct (ToUpper (default_target p) =s "DIRECT"); unfold default_target in *;
    destruct (_ || _); exact E.
Qed.

(** C18. Compiling a policy: the rules are the translations of the optimised rows
    of the policy, in the documented order of priority (blocked applications,
    blocked ports, the local network, the user's overrides block / direct /
    proxy, the user's rows, the presets), each once and none reordered; every
    rule is sound, and the default action is direct exactly in the two modes that
    ask for it. *)
Theorem compile_policy_exact pm p : len (policy_rows pm p) < 2^62 ->
  Rules (CompilePolicy pm (Some p)) = map compile_row (OptimizeRules (policy_rows pm p)) /\
  Forall rule_sound (Rules (CompilePolicy pm (Some p))) /\
  (DefaultAction (CompilePolicy pm (Some p)) = ActionDirect <-> Mode p = ModeDirectAll \/ Mode p = ModeWhitelistOnly).
Proof.
  intros Hl. rewrite compile_policy_rows by done. split; [done|]. split.
  - apply Forall_map, Forall_forall. intros r _. apply compile_row_sound.
  - unfold CompilePolicy. cbv beta iota zeta. rewrite policy_table_rows.
    rewrite (append_rows_numbered _ 1 (policy_rows pm p)) by lia. unfold default_target.
    destruct (String.eqb_spec (Mode p) ModeDirectAll); [split; [by left | reflexivity]|].
    destruct (String.eqb_spec (Mode p) ModeWhitelistOnly); [split; [by right | reflexivity]|].
    split; [by intros H | by intros [?|?]].
Qed.

Definition uids_rule p := mkRule ActionBlock "block" [] [] [] [] [] [] (AndroidBlockedUIDs p) [] [] 0.
Definition ports_rule p := mkRule ActionBlock "block" [] [] (CleanPortList (BlockedPorts p)) [] [] [] [] [] [] 0.

Lemma row_kept r rs : row_Enabled r = true -> row_Target r <> ""%string ->
  OptimizeRules (r :: rs) = optimize_row r :: OptimizeRules rs.
Proof.
  intros He Ht. rewrite OptimizeRules_cons, He. destruct (String.eqb_spec (row_Target r) ""); [done|].
  cbn. by rewrite orb_true_r.
Qed.

Lemma len_pos_iff {A} (l : list A) : (0 <? len l) = true <-> l <> [].
Proof. destruct l; [done|]. rewrite Z.ltb_lt. split; [done | len_lia]. Qed.

(** Isolation comes first: whatever else a policy holds, what the rule of the
    blocked applications or the rule of the blocked ports matches, is blocked by
    the first rule that matches it. *)
Theorem security_rules_first pm p (matches : RoutingRule -> bool) :
  len (policy_rows pm p) < 2^62 ->
  (AndroidBlockedUIDs p <> [] /\ matches (uids_rule p) = true) \/
  (BlockedPorts p <> [] /\ matches (ports_rule p) = true) ->
  exists r, List.find matches (Rules (CompilePolicy pm (Some p))) = Some r /\ Action r = ActionBlock.
Proof.
  intros Hl Hm. rewrite compile_policy_rows by done. unfold policy_rows.
  set (rest := [lan_row] ++ _). clearbody rest.
  assert (Hp : (BlockedPorts p <> [] /\ matches (ports_rule p) = true) ->
    exists r, List.find matches (map compile_row (OptimizeRules
      ((if 0 <? len (BlockedPorts p) then [ports_row p] else []) ++ rest))) = Some r /\ Action r = ActionBlock).
  { intros [Hne Hmp]. rewrite (proj2 (len_pos_iff _)) by done. cbn [app]. rewrite row_kept by done.
    change (map compile_row (?x :: ?l)) with (ports_rule p :: map compile_row l). cbn [List.find]. rewrite Hmp. by eexists. }
  destruct (0 <? len (AndroidBlockedUIDs p)) eqn:E; cycle 1.
  { destruct Hm as [[Hne _]|Hm]; [by apply len_pos_iff in Hne; rewrite E in Hne | by apply Hp]. }
  cbn [app]. rewrite row_kept by done.
  change (map compile_row (?x :: ?l)) with (uids_rule p :: map compile_row l). cbn [List.find].
  destruct (matches (uids_rule p)) eqn:Em; [by eexists|].
  destruct Hm as [[_ ?]|Hm]; [congruence | by apply Hp].
Qed.

(** ** Presets *)

(** An identifier that is not registered stands for the preset its alias names,
    with that preset's own target: asking for [block_ru] compiles the preset [ru],
    which as shipped (presets/ru.json) sends its traffic direct. *)
Lemma block_alias_keeps_target pm p : pm !! "block_ru"%string = None -> pm !! "ru"%string = Some p ->
  preset_DefaultTarget p = "direct"%string -> preset_Rules p = [] ->
  exists row, preset_rows pm ∅ "block_ru" = [row] /\ Action (compile_row row) = ActionDirect.
Proof.
  intros Hb Hr Ht Hn. unfold preset_rows, GetPreset. rewrite Hb.
  change (aliasMap !! "block_ru"%string) with (Some "ru"%string). cbn. rewrite Hr.
  unfold GetRules. rewrite Hn, Ht. cbn. by eexists.
Qed.

(** A list of ports of which none is readable leaves a blocking rule without a
    condition. *)
Lemma unreadable_ports_lose_condition pm :
  let p := mkPolicy ModeGlobalProxy [] ∅ [] [] [] [] [] [] [] [] [] [] [] [] ["http"%string] in
  List.head (Rules (CompilePolicy pm (Some p))) = Some (mkRule ActionBlock "block" [] [] [] [] [] [] [] [] [] 0).
Proof. vm_compute. reflexivity. Qed.

(** ** Witnesses *)

Definition row_demo (name : string) (order : Z) : RoutingRuleRow :=
  with_order order (row_literal name "Block" ["*.Ads.example"%string] [] ["80"; "0"; "9000:9100"]%string [] []).
Definition policy_demo : RoutingPolicy :=
  mkPolicy ModeDirectAll ["ru"; "nowhere"; "ru"]%string {["ru" := "block"]}%string [row_demo "mine" 7]
    [] [] ["evil.example"]%string [] [] [] [] [] [] [] ["10142"]%string ["22"]%string.
Definition manager_demo : PresetManager :=
  RegisterPreset ∅ (mkPreset "ru" "" "RU" "" "direct" ["geosite:category-ru"]%string ["geoip:ru"]%string [] [] [] [] 0 []).

Example policy_demo_rules : map (fun r => (OutboundTag r, Domains r, Ports r)) (Rules (CompilePolicy manager_demo (Some policy_demo)))
  = [("block", [], []); ("block", [], ["22"]); ("direct", [], []); ("block", ["evil.example"], []);
     ("block", ["ads.example"], ["80"; "9000-9100"]); ("block", ["geosite:category-ru"], [])]%string.
Proof. vm_compute. reflexivity. Qed.

Lemma compile_table_exact_witness :
  Rules (CompileToAST (mkTable "proxy" [row_demo "b" 2; row_demo "a" 1]))
  = map compile_row (List.filter row_Enabled [row_demo "a" 1; row_demo "b" 2]).
Proof.
  apply (compile_table_exact (mkTable "proxy" [row_demo "b" 2; row_demo "a" 1]) [row_demo "a" 1; row_demo "b" 2]).
  - repeat constructor; cbn; lia.
  - intros z. unfold same_key. cbn [List.filter row_Order row_demo with_order table_Rules].
    destruct (Z.eqb_spec 1 z), (Z.eqb_spec 2 z); try done. lia.
Defined.

Lemma compile_policy_exact_witness : DefaultAction (CompilePolicy manager_demo (Some policy_demo)) = ActionDirect.
Proof. apply (compile_policy_exact manager_demo policy_demo); [vm_compute; reflexivity | by left]. Defined.

Lemma security_rules_first_witness :
  exists r, List.find (fun r => bool_decide ("22"%string ∈ Ports r) || bool_decide (Domains r = ["evil.example"%string]))
    (Rules (CompilePolicy manager_demo (Some policy_demo))) = Some r /\ Action r = ActionBlock.
Proof.
  apply (security_rules_first manager_demo policy_demo); [vm_compute; reflexivity|].
  right. split; [done | vm_compute; reflexivity].
Defined.
End Routing.
