(* ===== verification/Sessions.v ===== *)
(** * Session tracking and traffic (src/pkg/supervisor/session_tracker.go, traffic.go)

    The tracker turns what the cores report into sessions and a bounded history
    of connect and disconnect events.  The extraction of users and addresses from
    log lines is not part of this file: its operations start from the extracted
    fields.  [now] is a Unix time in seconds and [nowStr] its text. *)
From S2P Require Import Prelude GoStrings GoNet.
Open Scope Z_scope.

Module Sessions.
Record SessionInfo := mkSession {
  Email : string;
  IP : string;
  InboundTag : string;
  Core : string;
  StartedAt : Z;
  LastSeenAt : Z;
  ConnectedAt : string;
}.

Record SessionEvent := mkEvent {
  ev_ID : string;
  ev_Action : string;
  ev_Core : string;
  ev_Email : string;
  ev_IP : string;
  ev_Timestamp : Z;
  ev_TimeStr : string;
  ev_Duration : string;
}.

Record SessionTracker := mkTracker {
  sessions : gmap string SessionInfo;
  singboxConns : gmap string string;
  singboxAddrUsers : gmap string string;
  singboxIPUsers : gmap string string;
  singboxLastUser : string;
  events : list SessionEvent;
  maxEvents : Z;
}.

(** The tracker of [GetSessionTracker]. *)
Definition newTracker : SessionTracker := mkTracker ∅ ∅ ∅ ∅ "" [] 1000.

Definition quote_chars : string := String (ascii_of_nat 91) (String (ascii_of_nat 93) (String (ascii_of_nat 39)
  (String (ascii_of_nat 34) "()"))).
Definition parseCleanIP (raw : string) : string :=
  let raw := Trim (TrimSpace raw) quote_chars in
  match SplitHostPort raw with Some (host, _) => Trim host "[]" | None => raw end.

Inductive Locale := LocaleEN | LocaleRU.

Definition formatDuration (loc : Locale) (durSec : Z) : string :=
  let '(h, m, s) := match loc with LocaleEN => ("h", "m", "s") | LocaleRU => (" ч", " мин", " сек") end%string in
  if durSec <=? 0 then "1" ^^ s
  else if durSec <? 60 then Itoa durSec ^^ s
  else if durSec <? 3600 then
    if 0 <? durSec mod 60 then Itoa (durSec / 60) ^^ m ^^ " " ^^ Itoa (durSec mod 60) ^^ s
    else Itoa (durSec / 60) ^^ m
  else
    let mins := (durSec mod 3600) / 60 in
    if 0 <? mins then Itoa (durSec / 3600) ^^ h ^^ " " ^^ Itoa mins ^^ m else Itoa (durSec / 3600) ^^ h.

Record ClientTraffic := mkTraffic {
  t_Email : string;
  UpBytes : Z;
  DownBytes : Z;
  Online : bool;
  ActiveIPs : list string;
  Connections : Z;
}.

Section tracker.
Context {order : RangeOrder string} (loc : Locale).
Implicit Types (st : SessionTracker) (s : SessionInfo) (core email ip nowStr : string) (now : Z)
  (m : gmap string SessionInfo).

Definition session_key core email ip : string := core ^^ ":" ^^ ToLower email ^^ ":" ^^ ip.

Definition seen now s : SessionInfo :=
  mkSession (Email s) (IP s) (InboundTag s) (Core s) (StartedAt s) now (ConnectedAt s).

Definition disconnect_event core s now nowStr : SessionEvent :=
  mkEvent "" "disconnect" core (Email s) (IP s) now nowStr (formatDuration loc (wrap64 (now - StartedAt s))).
Definition connect_event core email ip now nowStr : SessionEvent :=
  mkEvent "" "connect" core email ip now nowStr "".

(** The entries of a map with a property, in the order in which Go visits them. *)
Definition select (p : SessionInfo -> bool) m : list (string * SessionInfo) :=
  omap (fun k => s ← m !! k; if p s then Some (k, s) else None) (range_keys (dom m)).

Definition same_user core email s : bool := (Core s =s core) && (ToLower (Email s) =s ToLower email).

Definition close_all (gone : list (string * SessionInfo)) m : gmap string SessionInfo :=
  foldl (fun m e => delete e.1 m) m gone.

(** A connection: a known session is touched; a new one first closes the
    sessions of the same user from other addresses. *)
Definition connect_step core email ip now nowStr m : gmap string SessionInfo * list SessionEvent :=
  let key := session_key core email ip in
  match m !! key with
  | Some s => (<[key := seen now s]> m, [])
  | None =>
      let gone := select (fun s => same_user core email s && (IP s <>s ip)) m in
      (<[key := mkSession email ip "" core now now nowStr]> (close_all gone m),
       map (fun e => disconnect_event (Core e.2) e.2 now nowStr) gone ++ [connect_event core email ip now nowStr])
  end.

(** A disconnection closes the session of the key, or else a session of the user. *)
Definition disconnect_step core email ip now nowStr m : gmap string SessionInfo * list SessionEvent :=
  let key := session_key core email ip in
  let found := match m !! key with
               | Some s => Some (key, s)
               | None => List.head (select (same_user core email) m)
               end in
  match found with
  | Some (k, s) => (delete k m, [disconnect_event core s now nowStr])
  | None => (m, [])
  end.

(** The first entry of the live traffic for the user decides whether the session is alive. *)
Definition alive (traffic : gmap string ClientTraffic) s : bool :=
  match List.find (fun em => ToLower em =s ToLower (Email s)) (range_keys (dom traffic)) with
  | Some em => match traffic !! em with Some ct => Online ct || (0 <? Connections ct) | None => false end
  | None => false
  end.

(** One round of the cleaner: live sessions are touched, and those not seen for
    more than 180 seconds are closed. *)
Definition tick_step (traffic : gmap string ClientTraffic) now nowStr m : gmap string SessionInfo * list SessionEvent :=
  let m := (fun s => if alive traffic s then seen now s else s) <$> m in
  let gone := select (fun s => 180 <? wrap64 (now - LastSeenAt s)) m in
  (close_all gone m, map (fun e => disconnect_event (Core e.2) e.2 now nowStr) gone).

Definition set_sessions st m (evs : list SessionEvent) : SessionTracker :=
  mkTracker m (singboxConns st) (singboxAddrUsers st) (singboxIPUsers st) (singboxLastUser st) evs (maxEvents st).

(** Appending the events of one operation and trimming the history once. *)
Definition record_events st (evs : list SessionEvent) : list SessionEvent :=
  if (0 <? len evs) && (maxEvents st <? len (events st ++ evs)) then keep_last (maxEvents st) (events st ++ evs)
  else events st ++ evs.

Definition touchSession core email ip now st : SessionTracker :=
  set_sessions st (alter (seen now) (session_key core email ip) (sessions st)) (events st).

Definition registerConnect core email ip now nowStr st : SessionTracker :=
  let '(m, evs) := connect_step core email ip now nowStr (sessions st) in
  set_sessions st m (record_events st evs).

Definition registerDisconnect core email ip now nowStr st : SessionTracker :=
  let '(m, evs) := disconnect_step core email ip now nowStr (sessions st) in
  set_sessions st m (record_events st evs).

Definition RegisterExternalConnect core email ip now nowStr st : SessionTracker :=
  if (email =s "") || (ip =s "") then st else registerConnect core email (parseCleanIP ip) now nowStr st.

(** The cleaner trims after every event. *)
Definition cleanerTick (traffic : gmap string ClientTraffic) now nowStr st : SessionTracker :=
  let '(m, evs) := tick_step traffic now nowStr (sessions st) in
  set_sessions st m (foldl (push_capped (maxEvents st)) (events st) evs).

Definition Clear st : SessionTracker := mkTracker ∅ ∅ ∅ ∅ "" [] (maxEvents st).

(** *** Queries *)

Definition GetActiveSessions st : list SessionInfo := (select (fun _ => true) (sessions st)).*2.

Definition FindClientByIP (ip : string) st : string :=
  if ip =s "" then ""
  else
    let cleanIP := parseCleanIP ip in
    match select (fun s => (IP s =s cleanIP) || (IP s =s ip)) (sessions st) with
    | (_, s) :: _ => Email s
    | [] => ""
    end.

Definition GetOnlineEmails st : list string :=
  range_keys (list_to_set (List.filter (fun e => e <>s "") (map (fun e => Email e.2) (map_to_list (sessions st))))).

Definition GetRecentEvents (sinceTimestamp limit : Z) st : list SessionEvent :=
  let limit := if (limit <=? 0) || (len (events st) <? limit) then len (events st) else limit in
  List.filter (fun ev => (sinceTimestamp <=? 0) || (sinceTimestamp <=? ev_Timestamp ev)) (keep_last limit (events st)).

(** The scan for the users of the sing-box sessions: the first user met and the
    number of sessions counted. *)
Definition count_user (acc : string * Z) s : string * Z :=
  if ((Core s =s "sing-box") || (Core s =s "singbox")) && (Email s <>s "") then
    if (acc.1 =s "") || (acc.1 =s Email s) then (Email s, acc.2 + 1) else (acc.1, acc.2 + 1)
  else acc.

Definition ResolveSingBoxUser (srcIP srcPort : string) st : string :=
  let known (u : option string) (k : string) := match u with Some u => if u =s "" then k else u | None => k end in
  let by_ip :=
    if srcIP <>s "" then known (singboxIPUsers st !! srcIP) ""
    else
      let '(singleUser, userCount) := foldl count_user (""%string, 0) (GetActiveSessions st) in
      if (0 <? userCount) && (singleUser <>s "") then singleUser else singboxLastUser st in
  if (srcIP <>s "") && (srcPort <>s "") then known (singboxAddrUsers st !! (srcIP ^^ ":" ^^ srcPort)) by_ip
  else by_ip.

(** ** Runs of the tracker and the complete log *)

Inductive op :=
  | OpConnect core email ip
  | OpDisconnect core email ip
  | OpTouch core email ip
  | OpTick (traffic : gmap string ClientTraffic)
  | OpClear.

(** An operation with the time at which it runs, in both forms. *)
Definition exec st (e : op * Z * string) : SessionTracker :=
  let '(o, now, nowStr) := e in
  match o with
  | OpConnect core email ip => registerConnect core email ip now nowStr st
  | OpDisconnect core email ip => registerDisconnect core email ip now nowStr st
  | OpTouch core email ip => touchSession core email ip now st
  | OpTick traffic => cleanerTick traffic now nowStr st
  | OpClear => Clear st
  end.
Definition run st tr : SessionTracker := foldl exec st tr.

(** The same operation on the sessions and a history that is never trimmed. *)
Definition log_exec (ml : gmap string SessionInfo * list SessionEvent) (e : op * Z * string) :=
  let '(m, l) := ml in
  let '(o, now, nowStr) := e in
  match o with
  | OpConnect core email ip => let r := connect_step core email ip now nowStr m in (r.1, l ++ r.2)
  | OpDisconnect core email ip => let r := disconnect_step core email ip now nowStr m in (r.1, l ++ r.2)
  | OpTouch core email ip => (alter (seen now) (session_key core email ip) m, l)
  | OpTick traffic => let r := tick_step traffic now nowStr m in (r.1, l ++ r.2)
  | OpClear => (∅, [])
  end.
Definition log_run tr : gmap string SessionInfo * list SessionEvent := foldl log_exec (∅, []) tr.

Definition user_of s : string * string := (Core s, ToLower (Email s)).
Definition ev_user (e : SessionEvent) : string * string := (ev_Core e, ToLower (ev_Email e)).

(** What the events of one user must look like: every disconnect closes the
    connect before it, with its address and the time that has passed. *)
Inductive conn := Idle | Connected (email ip : string) (start : Z) | Broken.
Definition replay_step (c : conn) (e : SessionEvent) : conn :=
  if ev_Action e =s "connect" then
    match c with Idle => Connected (ev_Email e) (ev_IP e) (ev_Timestamp e) | _ => Broken end
  else
    match c with
    | Connected email ip start =>
        if (email =s ev_Email e) && (ip =s ev_IP e) &&
           (ev_Duration e =s formatDuration loc (wrap64 (ev_Timestamp e - start))) then Idle else Broken
    | _ => Broken
    end.
Definition replay (u : string * string) (l : list SessionEvent) : conn :=
  foldl replay_step Idle (List.filter (fun e => bool_decide (ev_user e = u)) l).

Definition no_colon core : Prop := str_exists (fun a => Ascii.eqb a ":") core = false.

Record consistent m (l : list SessionEvent) : Prop := mkConsistent {
  c_key : forall k s, m !! k = Some s -> k = session_key (Core s) (Email s) (IP s) /\ no_colon (Core s);
  c_one : forall k k' s s', m !! k = Some s -> m !! k' = Some s' -> user_of s = user_of s' -> k = k';
  c_open : forall k s, m !! k = Some s -> replay (user_of s) l = Connected (Email s) (IP s) (StartedAt s);
  c_idle : forall u, (forall k s, m !! k = Some s -> user_of s <> u) -> replay u l = Idle;
}.

Lemma replay_app u l e : replay u (l ++ [e]) =
  if bool_decide (ev_user e = u) then replay_step (replay u l) e else replay u l.
Proof.
  unfold replay. rewrite List.filter_app, foldl_app. cbn [List.filter]. by case_bool_decide.
Qed.

Lemma elem_of_select p m k s : (k, s) ∈ select p m <-> m !! k = Some s /\ p s = true.
Proof.
  unfold select. rewrite list_elem_of_omap. split.
  - intros (k' & _ & E). destruct (m !! k') as [s'|] eqn:Ek; [|done]. cbn in E. destruct (p s') eqn:Ep; [|done]. by simplify_eq.
  - intros [Hk Hp]. exists k. rewrite elem_of_range_keys, elem_of_dom, Hk. cbn. by rewrite Hp.
Qed.

Lemma NoDup_select p m : NoDup (select p m).*1.
Proof.
  unfold select. pose proof (NoDup_range_keys order (dom m)) as H. revert H. generalize (range_keys (dom m)).
  intros ks. induction 1 as [|k ks Hk _ IH]; cbn; [constructor|].
  destruct (m !! k) as [s|]; cbn; [|done]. destruct (p s); [|done]. cbn. constructor; [|done].
  intros (x & -> & (k' & Hk' & E)%list_elem_of_omap)%list_elem_of_fmap. destruct (m !! k') as [s'|]; [|done].
  cbn in E. destruct (p s'); [|done]. by simplify_eq.
Qed.

Lemma lookup_close_all gone m k : close_all gone m !! k = if decide (k ∈ gone.*1) then None else m !! k.
Proof.
  revert m. induction gone as [|[j s] gone IH]; intros m; cbn.
  - destruct (decide _) as [H|]; [by apply elem_of_nil in H | done].
  - unfold close_all in IH. rewrite IH. destruct (decide (k ∈ gone.*1)) as [Hg|Hg].
    + rewrite decide_True; [done|]. by right.
    + destruct (decide (k = j)) as [->|Hne].
      * rewrite lookup_delete_eq, decide_True; [done | left].
      * rewrite lookup_delete_ne by done. rewrite decide_False; [done|]. by intros [?|?]%elem_of_cons.
Qed.

Lemma consistent_update m m' l : consistent m l ->
  (forall k, (fun s => (Core s, Email s, IP s, StartedAt s)) <$> m' !! k =
             (fun s => (Core s, Email s, IP s, StartedAt s)) <$> m !! k) -> consistent m' l.
Proof.
  intros [Hk H1 Ho Hi] E.
  assert (Hf : forall k s, m' !! k = Some s -> exists s0, m !! k = Some s0 /\
    Core s0 = Core s /\ Email s0 = Email s /\ IP s0 = IP s /\ StartedAt s0 = StartedAt s).
  { intros k s Es. specialize (E k). rewrite Es in E. destruct (m !! k) as [s0|]; [|done]. exists s0. cbn in E. by injection E. }
  assert (Hb : forall k s, m !! k = Some s -> exists s0, m' !! k = Some s0 /\ user_of s0 = user_of s).
  { intros k s Es. specialize (E k). rewrite Es in E. destruct (m' !! k) as [s0|]; [|done]. exists s0. cbn in E.
    split; [done|]. unfold user_of. injection E. congruence. }
  constructor; unfold user_of in *.
  - intros k s (s0 & ? & <- & <- & <- & _)%Hf. by apply Hk.
  - intros k k' s s' (s0 & Es & Ec & Ee & _)%Hf (s0' & Es' & Ec' & Ee' & _)%Hf Eu. eapply H1; [done..|]. unfold user_of in *. congruence.
  - intros k s (s0 & Es & <- & <- & <- & <-)%Hf. by eapply Ho.
  - intros u Hu. apply Hi. intros k s (s0 & Es & <-)%Hb. by apply (Hu k s0).
Qed.

(** Closing a session. *)
Lemma consistent_close m l k s now nowStr : consistent m l -> m !! k = Some s ->
  consistent (delete k m) (l ++ [disconnect_event (Core s) s now nowStr]).
Proof.
  intros [Hk H1 Ho Hi] Es. constructor.
  - intros j t Ej. rewrite lookup_delete in Ej. destruct (decide _); [done|]. by apply Hk.
  - intros j j' t t' Ej Ej'. rewrite lookup_delete in Ej, Ej'. destruct (decide _); [done|]. destruct (decide _); [done|].
    by apply H1.
  - intros j t Ej. rewrite lookup_delete in Ej. destruct (decide _); [done|]. rewrite replay_app, bool_decide_false; [by eapply Ho|].
    intros Hu. by pose proof (H1 k j s t Es Ej Hu).
  - intros u Hu. rewrite replay_app. case_bool_decide as Hd.
    + change (ev_user _) with (user_of s) in Hd. subst u. rewrite (Ho k s Es). unfold replay_step. cbn.
      by rewrite !String.eqb_refl.
    + apply Hi. intros j t Ej Eu. destruct (decide (j = k)) as [->|Hne]; [by simplify_eq|].
      apply (Hu j t); [by rewrite lookup_delete_ne by done | done].
Qed.

Lemma consistent_close_all gone m l now nowStr : consistent m l -> NoDup gone.*1 ->
  Forall (fun e => m !! e.1 = Some e.2) gone ->
  consistent (close_all gone m) (l ++ map (fun e => disconnect_event (Core e.2) e.2 now nowStr) gone).
Proof.
  revert m l. induction gone as [|[k s] gone IH]; intros m l Hc Hnd Hg; cbn.
  - by rewrite app_nil_r.
  - apply NoDup_cons in Hnd as [Hk Hnd]. apply Forall_cons in Hg as [Hs Hg]. cbn in Hs.
    rewrite cons_middle, app_assoc. apply (IH (delete k m)); [by apply consistent_close | done|].
    rewrite Forall_forall in Hg |- *. intros [j t] Hj. cbn. rewrite lookup_delete_ne; [by apply (Hg _ Hj)|].
    intros ->. apply Hk. apply list_elem_of_fmap. by exists (j, t).
Qed.

(** Opening one. *)
Lemma consistent_open m l core email ip now nowStr : consistent m l -> no_colon core ->
  m !! session_key core email ip = None -> (forall k s, m !! k = Some s -> user_of s <> (core, ToLower email)) ->
  consistent (<[session_key core email ip := mkSession email ip "" core now now nowStr]> m)
    (l ++ [connect_event core email ip now nowStr]).
Proof.
  intros [Hk H1 Ho Hi] Hcol Hnone Hnew. constructor.
  - intros j t Ej. rewrite lookup_insert in Ej. destruct (decide _) as [<-|]; [by simplify_eq | by apply Hk].
  - intros j j' t t' Ej Ej' Hu. rewrite lookup_insert in Ej, Ej'.
    destruct (decide (_ = j)) as [<-|], (decide (_ = j')) as [<-|]; [done | injection Ej as <- | injection Ej' as <- | by apply (H1 j j' t t')].
    + by destruct (Hnew _ _ Ej').
    + by destruct (Hnew _ _ Ej).
  - intros j t Ej. rewrite lookup_insert in Ej. rewrite replay_app. destruct (decide _) as [<-|].
    + simplify_eq. cbn. rewrite bool_decide_true by done. unfold user_of. cbn. by rewrite Hi.
    + rewrite bool_decide_false; [by eapply Ho|]. intros E. by apply (Hnew _ _ Ej).
  - intros u Hu. rewrite replay_app, bool_decide_false.
    + apply Hi. intros j t Ej. destruct (decide (j = session_key core email ip)) as [->|Hne].
      * by rewrite Hnone in Ej.
      * apply (Hu j t). by rewrite lookup_insert_ne by done.
    + intros E. apply (Hu (session_key core email ip) (mkSession email ip "" core now now nowStr)); [by rewrite lookup_insert_eq | done].
Qed.

Lemma key_core core core' x y : no_colon core -> no_colon core' ->
  core ^^ ":" ^^ x = core' ^^ ":" ^^ y -> core = core'.
Proof.
  intros Hc Hc' E. apply (f_equal (fun z => Cut z ":")) in E.
  change (core ^^ ":" ^^ x) with (core ^^ String ":" x) in E. change (core' ^^ ":" ^^ y) with (core' ^^ String ":" y) in E.
  rewrite !Cut_app in E by done. by injection E.
Qed.

Lemma same_user_spec core email s : same_user core email s = true <-> user_of s = (core, ToLower email).
Proof. unfold same_user, user_of. rewrite andb_true_iff, !String.eqb_eq. split; [intros [-> ->] | intros [= -> ->]]; done. Qed.

Lemma consistent_connect m l core email ip now nowStr : consistent m l -> no_colon core ->
  let r := connect_step core email ip now nowStr m in consistent r.1 (l ++ r.2).
Proof.
  intros Hc Hcol. unfold connect_step. destruct (m !! session_key core email ip) as [s|] eqn:Ek; cbn.
  { rewrite app_nil_r. eapply consistent_update; [done|]. intros k. rewrite lookup_insert.
    destruct (decide _) as [<-|]; [by rewrite Ek | done]. }
  set (gone := select _ m). rewrite app_assoc.
  assert (Hin : forall k s, (k, s) ∈ gone <-> m !! k = Some s /\ user_of s = (core, ToLower email) /\ IP s <> ip).
  { intros k s. unfold gone. rewrite elem_of_select, andb_true_iff, same_user_spec, negb_true_iff, String.eqb_neq. naive_solver. }
  apply consistent_open.
  - apply consistent_close_all; [done | apply NoDup_select|]. apply Forall_forall. intros [k s] H. by apply Hin in H as [? _].
  - done.
  - rewrite lookup_close_all, Ek. by destruct (decide _).
  - intros k s Es Hu. rewrite lookup_close_all in Es. destruct (decide _) as [|Hg]; [done|].
    destruct (decide (IP s = ip)) as [Hip|Hip].
    + destruct (c_key _ _ Hc k s Es) as [-> _]. unfold user_of in Hu. injection Hu as Hu1 Hu2.
      assert (E : session_key (Core s) (Email s) (IP s) = session_key core email ip) by (unfold session_key; congruence).
      rewrite E in Es. congruence.
    + apply Hg. apply list_elem_of_fmap. exists (k, s). split; [done|]. by apply Hin.
Qed.

Lemma consistent_disconnect m l core email ip now nowStr : consistent m l -> no_colon core ->
  let r := disconnect_step core email ip now nowStr m in consistent r.1 (l ++ r.2).
Proof.
  intros Hc Hcol. unfold disconnect_step. set (found := match m !! _ with Some _ => _ | None => _ end).
  assert (Hf : forall k s, found = Some (k, s) -> m !! k = Some s /\ Core s = core).
  { intros k s. unfold found. destruct (m !! session_key core email ip) as [t|] eqn:Ek.
    - intros [= <- <-]. split; [done|]. destruct (c_key _ _ Hc _ _ Ek) as [E Hn]. symmetry. by eapply key_core.
    - intros Hh. assert (Hin : (k, s) ∈ select (same_user core email) m).
      { destruct (select _ m) as [|e es]; [done|]. injection Hh as ->. left. }
      apply elem_of_select in Hin as [? Hu%same_user_spec]. split; [done|]. by injection Hu. }
  destruct found as [[k s]|]; cbn; [|by rewrite app_nil_r].
  destruct (Hf k s eq_refl) as [Es <-]. by apply consistent_close.
Qed.

Lemma consistent_tick m l traffic now nowStr : consistent m l ->
  let r := tick_step traffic now nowStr m in consistent r.1 (l ++ r.2).
Proof.
  intros Hc. unfold tick_step. cbn. apply consistent_close_all; [|apply NoDup_select|].
  - eapply consistent_update; [done|]. intros k. rewrite lookup_fmap. destruct (m !! k) as [s|]; [|done]. cbn.
    by destruct (alive traffic s).
  - apply Forall_forall. intros [k s] [H _]%elem_of_select. done.
Qed.

(** Cores are named without a colon. *)
Definition op_ok (o : op) : Prop :=
  match o with OpConnect core _ _ | OpDisconnect core _ _ => no_colon core | _ => True end.

Lemma consistent_log_run tr : Forall (fun e => op_ok e.1.1) tr -> consistent (log_run tr).1 (log_run tr).2.
Proof.
  unfold log_run. induction tr as [|[[o now] nowStr] tr IH] using rev_ind; intros Hok.
  { split; cbn; intros; by simplify_map_eq. }
  apply Forall_app in Hok as [Htr [Ho _]%Forall_cons]. cbn in Ho. specialize (IH Htr).
  rewrite foldl_app. cbn [foldl]. destruct (foldl log_exec _ tr) as [m l]. cbn in IH.
  destruct o as [core email ip|core email ip|core email ip|traffic|]; cbn [log_exec fst snd].
  - by apply consistent_connect.
  - by apply consistent_disconnect.
  - eapply consistent_update; [done|]. intros k. rewrite lookup_alter. destruct (decide _) as [<-|]; [|done]. by destruct (m !! _).
  - by apply consistent_tick.
  - split; cbn; intros; by simplify_map_eq.
Qed.

Lemma record_events_trim st l evs : 0 <= maxEvents st -> events st = keep_last (maxEvents st) l ->
  record_events st evs = keep_last (maxEvents st) (l ++ evs).
Proof.
  intros Hm E. unfold record_events. rewrite E. destruct evs as [|e evs]; [by rewrite !app_nil_r|].
  rewrite (proj2 (Z.ltb_lt 0 _)) by len_lia. cbn [andb].
  rewrite <- (keep_last_app _ l) by done. destruct (Z.ltb_spec (maxEvents st) (len (keep_last (maxEvents st) l ++ e :: evs))); [done|].
  symmetry. by apply keep_last_all.
Qed.

(** The tracker is the complete log, with the history cut to its last events. *)
Lemma run_log_run tr : let st := run newTracker tr in
  sessions st = (log_run tr).1 /\ events st = keep_last 1000 (log_run tr).2 /\ maxEvents st = 1000.
Proof.
  unfold run, log_run. induction tr as [|[[o now] nowStr] tr IH] using rev_ind; [done|].
  rewrite !foldl_app. cbn [foldl]. cbn in IH. destruct (foldl log_exec _ tr) as [m l]. cbn in IH.
  set (st := foldl exec newTracker tr) in *. destruct IH as (Hm & He & Hx).
  assert (Hr : forall evs, record_events st evs = keep_last 1000 (l ++ evs)).
  { intros evs. rewrite <- Hx. apply record_events_trim; [lia | by rewrite Hx]. }
  destruct o as [core email ip|core email ip|core email ip|traffic|]; cbn [log_exec exec fst snd].
  - unfold registerConnect. rewrite Hm. destruct (connect_step _ _ _ _ _ m). cbn. by rewrite Hr.
  - unfold registerDisconnect. rewrite Hm. destruct (disconnect_step _ _ _ _ _ m). cbn. by rewrite Hr.
  - cbn. by rewrite Hm.
  - unfold cleanerTick. rewrite Hm. destruct (tick_step _ _ _ m) as [m' evs]. cbn. rewrite Hx, He.
    rewrite foldl_push_capped by (lia || (apply keep_last_bound; lia)). by rewrite keep_last_app by lia.
  - cbn. by rewrite Hx.
Qed.

(** C17. The tracker tells the truth about its users: in any run of operations,
    the history is the end of a complete log in which the events of every user
    alternate, each disconnect closing the connect before it with its e-mail, its
    address and the duration; a user has a session exactly when the last event
    is a connect, the session is that of the connect, and there is no second one. *)
Theorem sessions_match_log tr : Forall (fun e => op_ok e.1.1) tr ->
  let st := run newTracker tr in let l := (log_run tr).2 in
  events st = keep_last 1000 l /\
  (forall k s, sessions st !! k = Some s -> replay (user_of s) l = Connected (Email s) (IP s) (StartedAt s)) /\
  (forall u, (forall k s, sessions st !! k = Some s -> user_of s <> u) -> replay u l = Idle) /\
  (forall k k' s s', sessions st !! k = Some s -> sessions st !! k' = Some s' -> user_of s = user_of s' -> k = k').
Proof.
  intros Hok. destruct (run_log_run tr) as (Hm & He & _). destruct (consistent_log_run tr Hok) as [Hk H1 Ho Hi].
  cbv zeta. rewrite Hm. by repeat split.
Qed.

(** A round of the cleaner keeps exactly the sessions seen in the last 180
    seconds or with live traffic. *)
Lemma cleanerTick_sessions traffic now nowStr st k :
  sessions (cleanerTick traffic now nowStr st) !! k =
    s ← sessions st !! k;
    let s := if alive traffic s then seen now s else s in
    if 180 <? wrap64 (now - LastSeenAt s) then None else Some s.
Proof.
  unfold cleanerTick, tick_step. cbn. rewrite lookup_close_all, lookup_fmap.
  destruct (sessions st !! k) as [s|] eqn:Es; cbn; [|by destruct (decide _)].
  set (t := if alive traffic s then _ else s).
  set (m' := (fun s => if alive traffic s then seen now s else s) <$> sessions st).
  assert (Hm : m' !! k = Some t) by (unfold m'; by rewrite lookup_fmap, Es).
  destruct (180 <? _) eqn:E; [rewrite decide_True | rewrite decide_False]; try done.
  - apply list_elem_of_fmap. exists (k, t). split; [done|]. by apply elem_of_select.
  - intros ([k' t'] & -> & [Ht' Hp]%elem_of_select)%list_elem_of_fmap. cbn in *. rewrite Hm in Ht'. injection Ht' as <-.
    congruence.
Qed.

(** ** Traffic (traffic.go) *)

Definition containsString (slice : list string) (val : string) : bool := existsb (String.eqb val) slice.

Definition push_ip (l : list string) (ip : string) : list string :=
  if containsString l ip then l else l ++ [ip].

Definition add_traffic (email : string) (entry t : ClientTraffic) : ClientTraffic :=
  mkTraffic email (wrap64 (UpBytes entry + UpBytes t)) (wrap64 (DownBytes entry + DownBytes t))
    (Online entry || Online t) (foldl push_ip (ActiveIPs entry) (ActiveIPs t))
    (wrap64 (Connections entry + Connections t)).
Definition no_traffic : ClientTraffic := mkTraffic "" 0 0 false [] 0.

Definition aggregate_one (metrics agg : gmap string ClientTraffic) (email : string) : gmap string ClientTraffic :=
  match metrics !! email with
  | Some t => <[email := add_traffic email (default no_traffic (agg !! email)) t]> agg
  | None => agg
  end.

Definition AggregateTraffic (metricsList : list (gmap string ClientTraffic)) : gmap string ClientTraffic :=
  foldl (fun agg metrics => foldl (aggregate_one metrics) agg (range_keys (dom metrics))) ∅ metricsList.

Lemma aggregate_map_lookup metrics agg ks e : NoDup ks ->
  foldl (aggregate_one metrics) agg ks !! e =
    if decide (e ∈ ks) then aggregate_one metrics agg e !! e else agg !! e.
Proof.
  intros Hnd. revert agg. induction Hnd as [|k ks Hk Hnd IH]; intros agg; cbn [foldl].
  { rewrite decide_False; [done|]. apply not_elem_of_nil. }
  rewrite IH. destruct (decide (e = k)) as [->|Hne].
  - rewrite decide_False by done. rewrite decide_True by left. done.
  - assert (E : aggregate_one metrics agg k !! e = agg !! e).
    { unfold aggregate_one. destruct (metrics !! k); [by rewrite lookup_insert_ne | done]. }
    destruct (decide (e ∈ ks)) as [Hin|Hin].
    + rewrite decide_True by (by right). unfold aggregate_one at 1 3.
      destruct (metrics !! e); [|done]. by rewrite E, !lookup_insert_eq.
    + rewrite E, decide_False; [done|]. by intros [?|?]%elem_of_cons.
Qed.

Definition total (f : ClientTraffic -> Z) (ts : list ClientTraffic) : Z := foldr (fun t z => f t + z) 0 ts.

Lemma total_app f ts t : total f (ts ++ [t]) = total f ts + f t.
Proof. unfold total. induction ts as [|x ts IH]; cbn [app foldr]; [|rewrite IH]; lia. Qed.

Lemma wrap64_add_l a b : wrap64 (wrap64 a + b) = wrap64 (a + b).
Proof.
  unfold wrap64. replace ((a + 2 ^ 63) mod 2 ^ 64 - 2 ^ 63 + b + 2 ^ 63) with ((a + 2 ^ 63) mod 2 ^ 64 + b) by lia.
  rewrite Zplus_mod_idemp_l. do 2 f_equal. lia.
Qed.

(** Aggregating the traffic of the cores: a client appears exactly when some
    core reports it, with the sums of the counters of all cores (as 64-bit
    integers), online when one core says so, and each address once in the order
    of the cores - whatever the order in which Go ranges over the maps. *)
Theorem aggregate_exact metricsList e :
  AggregateTraffic metricsList !! e =
    match omap (fun metrics => metrics !! e) metricsList with
    | [] => None
    | ts => Some (mkTraffic e (wrap64 (total UpBytes ts)) (wrap64 (total DownBytes ts)) (existsb Online ts)
                    (foldl push_ip [] (ts ≫= ActiveIPs)) (wrap64 (total Connections ts)))
    end.
Proof.
  unfold AggregateTraffic. induction metricsList as [|metrics l IH] using rev_ind; [done|].
  rewrite foldl_app, omap_app. cbn [foldl]. rewrite aggregate_map_lookup by apply NoDup_range_keys.
  set (agg := foldl _ ∅ l) in *. set (ts := omap _ l) in *.
  assert (Ho : omap (fun m : gmap string ClientTraffic => m !! e) [metrics] =
    match metrics !! e with Some t => [t] | None => [] end) by (cbn; by destruct (metrics !! e)).
  rewrite Ho. destruct (metrics !! e) as [t|] eqn:Et.
  - rewrite decide_True by (by rewrite elem_of_range_keys, elem_of_dom, Et).
    unfold aggregate_one. rewrite Et, lookup_insert_eq, IH. unfold add_traffic. destruct ts as [|t0 ts].
    + cbn. by rewrite !Z.add_0_r, app_nil_r, orb_false_r, !Z.add_0_l.
    + set (all := (t0 :: ts) ++ [t]).
      trans (Some (mkTraffic e (wrap64 (total UpBytes all)) (wrap64 (total DownBytes all)) (existsb Online all)
        (foldl push_ip [] (all ≫= ActiveIPs)) (wrap64 (total Connections all)))); [|reflexivity]. unfold all.
      cbn [default from_option UpBytes DownBytes Online ActiveIPs Connections id].
      rewrite !total_app, !wrap64_add_l, existsb_app, bind_app, foldl_app.
      cbn [existsb mbind list_bind]. by rewrite orb_false_r, app_nil_r.
  - rewrite decide_False by (rewrite elem_of_range_keys, elem_of_dom, Et; by intros [? ?]).
    by rewrite app_nil_r.
Qed.
End tracker.

(** With two users online and no address, [ResolveSingBoxUser] answers with one of them. *)
Lemma two_users_resolve_to_one : exists st,
  GetOnlineEmails st = ["alice"; "bob"]%string /\ ResolveSingBoxUser "" "" st = "alice"%string.
Proof.
  exists (registerConnect LocaleEN "sing-box" "bob" "2.2.2.2" 10 "t"
    (registerConnect LocaleEN "sing-box" "alice" "1.1.1.1" 5 "t" newTracker)).
  vm_compute. done.
Qed.

Definition session_demo : list (op * Z * string) :=
  [(OpConnect "xray" "Alice" "1.1.1.1", 100, "t0"); (OpConnect "xray" "alice" "2.2.2.2", 190, "t1");
   (OpConnect "sing-box" "bob" "3.3.3.3", 200, "t2"); (OpTick ∅, 375, "t3")]%string.

Example session_demo_events :
  map (fun e => (ev_Action e, ev_Email e, ev_IP e, ev_Duration e)) (events (run LocaleEN newTracker session_demo)) =
  [("connect", "Alice", "1.1.1.1", ""); ("disconnect", "Alice", "1.1.1.1", "1m 30s");
   ("connect", "alice", "2.2.2.2", ""); ("connect", "bob", "3.3.3.3", "");
   ("disconnect", "alice", "2.2.2.2", "3m 5s")]%string.
Proof. vm_compute. reflexivity. Qed.

Lemma sessions_match_log_witness :
  events (run LocaleEN newTracker session_demo) = keep_last 1000 (log_run LocaleEN session_demo).2.
Proof. apply (sessions_match_log LocaleEN session_demo). repeat constructor. Defined.
End Sessions.
