(* ===== verification/Logs.v ===== *)
(** * Log streams (src/pkg/supervisor/logs.go)

    Each core has a bounded history, live subscribers and a queue for polling.
    A channel is a bounded queue with a flag for [close]; a send that would block
    is skipped, as the [default] branches of the code do; a send on a closed
    channel is a panic, [None].  Session tracking of the pushed line is the
    business of the session tracker and not part of this state. *)
From S2P Require Import Prelude GoStrings Auditors.
Open Scope Z_scope.

Module Logs.
Record channel := mkChannel { buffer : list string; capacity : Z; closed : bool }.

Record LogBroadcaster := mkBroadcaster {
  maxHistory : Z;
  history : gmap string (list string);
  subscribers : gmap string (list nat);
  channels : gmap nat channel;
  popQueues : gmap string (list string);
}.

Definition NewLogBroadcaster (max : Z) : LogBroadcaster :=
  mkBroadcaster (if max <=? 0 then 500 else max) ∅ ∅ ∅ ∅.

(** process.go *)
Definition normalizeCoreName (name : string) : string :=
  let n := ToLower (TrimSpace name) in
  if (n =s "singbox") || (n =s "sing-box") then "sing-box"
  else if (n =s "hysteria") || (n =s "hysteria2") then "hysteria2"
  else if (n =s "xray") || (n =s "xray-core") then "xray"
  else n.

Definition popQueue (lb : LogBroadcaster) (core : string) : list string := default [] (popQueues lb !! core).

(** [select { case q <- x: default: }] on a queue with room for [cap] lines. *)
Definition offer (cap : Z) (q : list string) (x : string) : list string := if len q <? cap then q ++ [x] else q.

Definition send (chs : gmap nat channel) (c : nat) (x : string) : option (gmap nat channel) :=
  match chs !! c with
  | Some ch => if closed ch then None else Some (<[c := mkChannel (offer (capacity ch) (buffer ch) x) (capacity ch) false]> chs)
  | None => None
  end.
Definition send_all (chs : gmap nat channel) (subs : list nat) (x : string) : option (gmap nat channel) :=
  foldl (fun acc c => chs ← acc; send chs c x) (Some chs) subs.

Definition crlf : string := String (ascii_of_nat 13) (String (ascii_of_nat 10) "").

Definition PushLine (lb : LogBroadcaster) (coreName line : string) : option LogBroadcaster :=
  let line := TrimRight line crlf in
  if line =s "" then Some lb
  else
    let norm := normalizeCoreName coreName in
    let hist := push_capped (maxHistory lb) (default [] (history lb !! norm)) line in
    let subs := default [] (subscribers lb !! norm) in
    chs ← send_all (channels lb) subs line;
    Some (mkBroadcaster (maxHistory lb) (<[norm := hist]> (history lb)) (<[norm := subs]> (subscribers lb)) chs
            (<[norm := offer 1000 (popQueue lb norm) line]> (popQueues lb))).

Definition GetHistory (lb : LogBroadcaster) (coreName : string) (limit : Z) : list string :=
  let hist := default [] (history lb !! normalizeCoreName coreName) in
  keep_last (if (limit <=? 0) || (len hist <? limit) then len hist else limit) hist.

(** A new channel has a number that none had before. *)
Definition Subscribe (lb : LogBroadcaster) (coreName : string) : LogBroadcaster * nat :=
  let norm := normalizeCoreName coreName in
  let c := fresh (dom (channels lb)) in
  (mkBroadcaster (maxHistory lb) (history lb)
     (<[norm := default [] (subscribers lb !! norm) ++ [c]]> (subscribers lb))
     (<[c := mkChannel [] 200 false]> (channels lb)) (popQueues lb), c).

Fixpoint remove_first (c : nat) (l : list nat) : list nat :=
  match l with [] => [] | x :: k => if Nat.eqb x c then k else x :: remove_first c k end.

Definition close (chs : gmap nat channel) (c : nat) : gmap nat channel :=
  alter (fun ch => mkChannel (buffer ch) (capacity ch) true) c chs.

Definition Unsubscribe (lb : LogBroadcaster) (coreName : string) (c : nat) : LogBroadcaster :=
  let norm := normalizeCoreName coreName in
  let subs := default [] (subscribers lb !! norm) in
  if bool_decide (c ∈ subs) then
    mkBroadcaster (maxHistory lb) (history lb) (<[norm := remove_first c subs]> (subscribers lb))
      (close (channels lb) c) (popQueues lb)
  else lb.

(** A receive by the owner of a channel. *)
Definition Receive (lb : LogBroadcaster) (c : nat) : LogBroadcaster * string :=
  match channels lb !! c with
  | Some (mkChannel (x :: b) cap cl) =>
      (mkBroadcaster (maxHistory lb) (history lb) (subscribers lb) (<[c := mkChannel b cap cl]> (channels lb)) (popQueues lb), x)
  | _ => (lb, ""%string)
  end.

(** A poll that finds a line returns it; otherwise it times out. *)
Definition PopLine (lb : LogBroadcaster) (coreName : string) : LogBroadcaster * string :=
  let norm := normalizeCoreName coreName in
  let upd q := mkBroadcaster (maxHistory lb) (history lb) (subscribers lb) (channels lb) (<[norm := q]> (popQueues lb)) in
  match popQueue lb norm with
  | x :: q => (upd q, x)
  | [] => (upd [], ""%string)
  end.

Definition Clear (lb : LogBroadcaster) (coreName : string) : LogBroadcaster :=
  let norm := normalizeCoreName coreName in
  mkBroadcaster (maxHistory lb) (delete norm (history lb)) (subscribers lb) (channels lb)
    (alter (fun _ => []) norm (popQueues lb)).

(** ** ReadCoreLogs: the last lines of a file

    [lines] are the lines the scanner delivers, [failed] whether it ended with an
    error. *)
Definition read_step (maxLines : Z) (acc : list string) (line : string) : list string :=
  let acc := acc ++ [line] in
  if maxLines * 2 <? len acc then keep_last maxLines acc else acc.

Definition ReadCoreLogs (maxLines : Z) (lines : list string) (failed : bool) : option (list string) :=
  let maxLines := if maxLines <=? 0 then 100 else maxLines in
  let captured := foldl (read_step maxLines) [] lines in
  if failed && (len captured =? 0) then None
  else Some (if maxLines <? len captured then keep_last maxLines captured else captured).

(** ** Runs *)

Inductive op :=
  | OpPush (core line : string)
  | OpSubscribe (core : string)
  | OpUnsubscribe (core : string) (c : nat)
  | OpReceive (c : nat)
  | OpPop (core : string)
  | OpClear (core : string).

Definition exec (lb : LogBroadcaster) (o : op) : option LogBroadcaster :=
  match o with
  | OpPush core line => PushLine lb core line
  | OpSubscribe core => Some (Subscribe lb core).1
  | OpUnsubscribe core c => Some (Unsubscribe lb core c)
  | OpReceive c => Some (Receive lb c).1
  | OpPop core => Some (PopLine lb core).1
  | OpClear core => Some (Clear lb core)
  end.
Definition run (lb : LogBroadcaster) (tr : list op) : option LogBroadcaster :=
  foldl (fun acc o => lb ← acc; exec lb o) (Some lb) tr.

(** ** No send on a closed channel, and what the streams hold *)

(** The lines pushed for a core since it was last cleared. *)
Definition push_log (core : string) (acc : list string) (o : op) : list string :=
  match o with
  | OpPush c line =>
      if (TrimRight line crlf =s "") || (normalizeCoreName c <>s core) then acc else acc ++ [TrimRight line crlf]
  | OpClear c => if normalizeCoreName c =s core then [] else acc
  | _ => acc
  end.
Definition pushed (core : string) (tr : list op) : list string := foldl (push_log core) [] tr.

Definition is_open (chs : gmap nat channel) (c : nat) : Prop := closed <$> chs !! c = Some false.
Definition subs_of (lb : LogBroadcaster) (core : string) : list nat := default [] (subscribers lb !! core).
Definition history_of (lb : LogBroadcaster) (core : string) : list string := default [] (history lb !! core).

Record subs_ok (lb : LogBroadcaster) : Prop := mkSubsOk {
  so_open : forall core c, c ∈ subs_of lb core -> is_open (channels lb) c;
  so_nodup : forall core, NoDup (subs_of lb core);
  so_one : forall core core' c, c ∈ subs_of lb core -> c ∈ subs_of lb core' -> core = core';
}.

Record streams_ok (m : Z) (lb : LogBroadcaster) (tr : list op) : Prop := mkStreamsOk {
  st_max : maxHistory lb = m;
  st_history : forall core, history_of lb core = keep_last m (pushed core tr);
  st_queue : forall core, popQueue lb core `sublist_of` pushed core tr;
  st_bound : forall core, len (popQueue lb core) <= 1000;
}.

Lemma send_all_ok chs subs x : (forall c, c ∈ subs -> is_open chs c) ->
  exists chs', send_all chs subs x = Some chs' /\ forall c, closed <$> chs' !! c = closed <$> chs !! c.
Proof.
  unfold send_all. revert chs. induction subs as [|c subs IH]; intros chs Ho; [by exists chs|].
  cbn. pose proof (Ho c ltac:(left)) as Hc. unfold is_open in Hc. unfold send at 2.
  destruct (chs !! c) as [ch|] eqn:Ec; [|done]. cbn in Hc. injection Hc as Hc. rewrite Hc.
  set (ch' := mkChannel _ _ false). destruct (IH (<[c := ch']> chs)) as (chs' & E & Hcl).
  - intros d Hd. unfold is_open. rewrite lookup_insert. destruct (decide (c = d)); [done|]. by apply Ho; right.
  - exists chs'. split; [exact E|]. intros d. rewrite Hcl, lookup_insert. destruct (decide (c = d)) as [<-|]; [|done].
    by rewrite Ec; cbn; rewrite Hc.
Qed.

Lemma default_insert {A} (m : gmap string (list A)) k j l :
  default [] (<[k := l]> m !! j) = if decide (k = j) then l else default [] (m !! j).
Proof. rewrite lookup_insert. by destruct (decide (k = j)). Qed.

Lemma elem_of_remove_first c x l : x ∈ remove_first c l -> x ∈ l.
Proof.
  induction l as [|y l IH]; [done|]. cbn. destruct (Nat.eqb_spec y c); [by right|].
  intros [->|H]%elem_of_cons; [left | right; by apply IH].
Qed.

Lemma remove_first_nodup c l : NoDup l -> NoDup (remove_first c l) /\ c ∉ remove_first c l.
Proof.
  induction 1 as [|y l Hy Hl [IH1 IH2]]; cbn; [split; [constructor | apply not_elem_of_nil]|].
  destruct (Nat.eqb_spec y c) as [->|Hne]; [done|]. split.
  - constructor; [|done]. intros H. by apply Hy, (elem_of_remove_first c).
  - by intros [?|?]%elem_of_cons.
Qed.

Lemma offer_sublist q x l cap : q `sublist_of` l -> offer cap q x `sublist_of` l ++ [x].
Proof.
  intros H. unfold offer. destruct (len q <? cap).
  - by apply sublist_app.
  - by apply sublist_inserts_r.
Qed.

Lemma offer_bound q x cap : len q <= cap -> len (offer cap q x) <= cap.
Proof. intros H. unfold offer. destruct (Z.ltb_spec (len q) cap); [|done]. rewrite len_app. unfold len at 2. cbn. lia. Qed.

Lemma push_ok m lb tr core line : subs_ok lb -> streams_ok m lb tr -> 0 <= m ->
  exists lb', PushLine lb core line = Some lb' /\ subs_ok lb' /\ streams_ok m lb' (tr ++ [OpPush core line]).
Proof.
  intros Hs [Hm Hh Hq Hb] Hm0. unfold PushLine. set (line' := TrimRight line crlf). set (norm := normalizeCoreName core).
  assert (Hp : forall c, pushed c (tr ++ [OpPush core line]) =
    if (line' =s "") || (norm <>s c) then pushed c tr else pushed c tr ++ [line']).
  { intros c. unfold pushed. by rewrite foldl_app. }
  destruct (line' =s "") eqn:El.
  { exists lb. split; [done|]. split; [done|]. constructor; [done|..]; intros c; rewrite ?Hp; cbn [orb]; auto. }
  change (default [] (subscribers lb !! norm)) with (subs_of lb norm).
  destruct (send_all_ok (channels lb) (subs_of lb norm) line') as (chs & -> & Hcl); [apply Hs|].
  cbn [mbind option_bind]. eexists. split; [reflexivity|].
  assert (Hsubs : forall c, default [] (<[norm := subs_of lb norm]> (subscribers lb) !! c) = subs_of lb c).
  { intros c. rewrite default_insert. by destruct (decide (norm = c)) as [->|]. }
  split.
  - destruct Hs as [H1 H2 H3]. split; unfold subs_of; cbn [subscribers channels].
    + intros c x. rewrite Hsubs. unfold is_open. rewrite Hcl. apply H1.
    + intros c. rewrite Hsubs. apply H2.
    + intros c c' x. rewrite !Hsubs. apply H3.
  - cbn [orb] in Hp. constructor; unfold history_of, popQueue; cbn [maxHistory history popQueues]; [done|..]; intros c;
      rewrite ?default_insert, ?Hp.
    + destruct (String.eqb_spec norm c) as [<-|Hne]; cbn [negb].
      * rewrite decide_True by done. change (default [] (history lb !! norm)) with (history_of lb norm).
        rewrite Hh, Hm. unfold push_capped. by apply keep_last_app.
      * rewrite decide_False by done. apply Hh.
    + destruct (String.eqb_spec norm c) as [<-|Hne]; cbn [negb].
      * rewrite decide_True by done. apply offer_sublist, Hq.
      * rewrite decide_False by done. apply Hq.
    + destruct (decide (norm = c)) as [<-|]; [apply offer_bound, Hb | apply Hb].
Qed.

(** Operations that do not push. *)
Lemma subscribe_ok lb core : subs_ok lb -> subs_ok (Subscribe lb core).1.
Proof.
  intros [H1 H2 H3]. unfold Subscribe. cbn [fst]. set (norm := normalizeCoreName core).
  set (c := fresh (dom (channels lb))).
  change (default [] (subscribers lb !! norm)) with (subs_of lb norm).
  assert (Hc : channels lb !! c = None) by apply not_elem_of_dom, is_fresh.
  assert (Hnew : forall core', c ∉ subs_of lb core').
  { intros core' H%H1. unfold is_open in H. by rewrite Hc in H. }
  assert (Hin : forall core' x, x ∈ default [] (<[norm := subs_of lb norm ++ [c]]> (subscribers lb) !! core') <->
    x ∈ subs_of lb core' \/ (x = c /\ core' = norm)).
  { intros core' x. rewrite default_insert. destruct (decide (norm = core')) as [<-|Hne].
    - rewrite elem_of_app, list_elem_of_singleton. naive_solver.
    - naive_solver. }
  split; unfold subs_of at 1; cbn [subscribers channels].
  - intros core' x [Hx|[-> _]]%Hin; unfold is_open; rewrite lookup_insert.
    + destruct (decide (c = x)) as [<-|]; [done | by apply H1 in Hx].
    + by rewrite decide_True.
  - intros core'. rewrite default_insert. destruct (decide _) as [<-|]; [|apply H2].
    apply NoDup_app. split; [apply H2|]. split; [|apply NoDup_singleton].
    intros x Hx ->%list_elem_of_singleton. by apply (Hnew norm).
  - unfold subs_of. cbn [subscribers]. intros k k' x [Hx|[-> ->]]%Hin [Hy|[Ey ->]]%Hin; [by eapply H3 | subst | | done].
    + by apply Hnew in Hx.
    + by apply Hnew in Hy.
Qed.

Lemma unsubscribe_ok lb core c : subs_ok lb -> subs_ok (Unsubscribe lb core c).
Proof.
  intros Hs. unfold Unsubscribe. set (norm := normalizeCoreName core).
  change (default [] (subscribers lb !! norm)) with (subs_of lb norm).
  case_bool_decide as Hc; [|done]. destruct Hs as [H1 H2 H3].
  destruct (remove_first_nodup c (subs_of lb norm) (H2 norm)) as [Hnd Hnot].
  assert (Hin : forall k x, x ∈ default [] (<[norm := remove_first c (subs_of lb norm)]> (subscribers lb) !! k) ->
    x ∈ subs_of lb k /\ x <> c).
  { intros k x. rewrite default_insert. destruct (decide (norm = k)) as [<-|Hne]; intros Hx.
    - split; [by eapply elem_of_remove_first|]. by intros ->.
    - split; [done|]. intros ->. by destruct Hne; eapply H3. }
  split; unfold subs_of; cbn [subscribers channels].
  - intros k x [Hx Hne]%Hin. unfold is_open, close. rewrite lookup_alter_ne by congruence. by apply (H1 k).
  - intros k. rewrite default_insert. destruct (decide _); [done | apply H2].
  - intros k k' x [Hx _]%Hin [Hy _]%Hin. by eapply H3.
Qed.

Lemma receive_ok lb c : subs_ok lb -> subs_ok (Receive lb c).1.
Proof.
  intros [H1 H2 H3]. unfold Receive. destruct (channels lb !! c) as [[[|x b] cap cl]|] eqn:Ec; [by split | | by split].
  split; cbn; [|apply H2 | apply H3]. intros k d Hd. pose proof (H1 k d Hd) as Ho. unfold is_open in *. cbn.
  rewrite lookup_insert. destruct (decide (c = d)) as [<-|]; [by rewrite Ec in Ho | done].
Qed.

Lemma quiet_ok lb lb' : subs_ok lb -> subscribers lb' = subscribers lb -> channels lb' = channels lb -> subs_ok lb'.
Proof. intros [H1 H2 H3] Es Ec. split; unfold subs_of, is_open in *; rewrite ?Es, ?Ec; done. Qed.

Lemma same_streams m lb lb' tr o : streams_ok m lb tr ->
  maxHistory lb' = maxHistory lb -> history lb' = history lb -> popQueues lb' = popQueues lb ->
  (forall core acc, push_log core acc o = acc) -> streams_ok m lb' (tr ++ [o]).
Proof.
  intros [Hm Hh Hq Hb] Em Eh Eq Ho.
  assert (Hp : forall c, pushed c (tr ++ [o]) = pushed c tr) by (intros c; unfold pushed; rewrite foldl_app; apply Ho).
  constructor; unfold history_of, popQueue in *; rewrite ?Em, ?Eh, ?Eq; try done; intros c; rewrite ?Hp; done.
Qed.

Lemma pop_ok m lb tr core : streams_ok m lb tr -> streams_ok m (PopLine lb core).1 (tr ++ [OpPop core]).
Proof.
  intros [Hm Hh Hq Hb]. unfold PopLine. set (norm := normalizeCoreName core).
  assert (Hp : forall c, pushed c (tr ++ [OpPop core]) = pushed c tr) by (intros c; unfold pushed; by rewrite foldl_app).
  pose proof (Hq norm) as Hqn. pose proof (Hb norm) as Hbn.
  destruct (popQueue lb norm) as [|x q] eqn:Eq; cbn [fst]; constructor; try done; intros c; rewrite ?Hp; try apply Hh;
    unfold popQueue; cbn [popQueues]; rewrite default_insert; destruct (decide (norm = c)) as [<-|]; try done;
    try apply Hq; try apply Hb.
  - etrans; [|exact Hqn]. by apply sublist_cons.
  - rewrite len_cons in Hbn. lia.
Qed.

Lemma clear_ok m lb tr core : 0 <= m -> streams_ok m lb tr -> streams_ok m (Clear lb core) (tr ++ [OpClear core]).
Proof.
  intros Hm0 [Hm Hh Hq Hb]. unfold Clear. set (norm := normalizeCoreName core).
  assert (Hp : forall c, pushed c (tr ++ [OpClear core]) = if norm =s c then [] else pushed c tr)
    by (intros c; unfold pushed; by rewrite foldl_app).
  assert (Hqc : forall c, default [] (alter (fun _ => []) norm (popQueues lb) !! c) = if decide (norm = c) then [] else popQueue lb c).
  { intros c. rewrite lookup_alter. unfold popQueue. destruct (decide (norm = c)) as [<-|]; [|done]. by destruct (popQueues lb !! norm). }
  constructor; [done|..]; unfold history_of, popQueue; cbn [history popQueues]; intros c; rewrite ?Hp, ?Hqc.
  - rewrite lookup_delete. destruct (String.eqb_spec norm c) as [<-|Hne].
    + rewrite decide_True by done. symmetry. by apply keep_last_all.
    + rewrite decide_False by done. apply Hh.
  - destruct (String.eqb_spec norm c) as [<-|Hne].
    + by rewrite decide_True.
    + rewrite decide_False by done. apply Hq.
  - by destruct (decide (norm = c)).
Qed.

Lemma exec_ok m lb tr o : 0 <= m -> subs_ok lb -> streams_ok m lb tr ->
  exists lb', exec lb o = Some lb' /\ subs_ok lb' /\ streams_ok m lb' (tr ++ [o]).
Proof.
  intros Hm Hs Ht. destruct o as [core line|core|core c|c|core|core]; cbn [exec]; [by apply push_ok | ..];
    eexists; (split; [reflexivity|]).
  - split; [by apply subscribe_ok | by eapply same_streams].
  - split; [by apply unsubscribe_ok|]. eapply same_streams; try done; unfold Unsubscribe; by case_bool_decide.
  - split; [by apply receive_ok|]. eapply same_streams; try done; unfold Receive; by destruct (channels lb !! c) as [[[|]]|].
  - split; [|by apply pop_ok]. eapply quiet_ok; [done|..]; unfold PopLine; by destruct (popQueue _ _).
  - split; [by eapply quiet_ok | by apply clear_ok].
Qed.

Lemma new_ok max : let m := if max <=? 0 then 500 else max in
  0 <= m /\ subs_ok (NewLogBroadcaster max) /\ streams_ok m (NewLogBroadcaster max) [].
Proof.
  cbn zeta. split; [destruct (Z.leb_spec max 0); lia|]. split.
  - split; unfold subs_of; cbn; [by intros ? ? ?%elem_of_nil | intros; apply NoDup_nil_2 | by intros ? ? ? ?%elem_of_nil].
  - split; [done|..]; intros core; cbn; [|done|done]. symmetry. apply keep_last_all. change (0 <= (if max <=? 0 then 500 else max)). destruct (Z.leb_spec max 0); lia.
Qed.
(** The broadcaster never panics, whoever subscribes, unsubscribes, reads or
    clears in between; the history of a core is the end of the lines pushed since
    its last clearing, and its polling queue holds at most 1000 of them, in order. *)
Theorem streams_sound max tr : exists lb, run (NewLogBroadcaster max) tr = Some lb /\
  (forall core, GetHistory lb core 0 = keep_last (if max <=? 0 then 500 else max) (pushed (normalizeCoreName core) tr)) /\
  (forall core, popQueue lb core `sublist_of` pushed core tr /\ len (popQueue lb core) <= 1000) /\
  (forall core c, c ∈ subs_of lb core -> is_open (channels lb) c).
Proof.
  destruct (new_ok max) as (Hm & Hs0 & Ht0). set (m := if max <=? 0 then 500 else max) in *.
  assert (H : exists lb, run (NewLogBroadcaster max) tr = Some lb /\ subs_ok lb /\ streams_ok m lb tr).
  { clear - Hm Hs0 Ht0. induction tr as [|o tr (lb & E & Hs & Ht)] using rev_ind.
    - by eexists.
    - unfold run in *. rewrite foldl_app, E. cbn [foldl mbind option_bind]. by apply exec_ok. }
  destruct H as (lb & E & [H1 _ _] & [Hx Hh Hq Hb]). exists lb. split; [done|]. split; [|split; [|done]].
  - intros core. unfold GetHistory. cbn [orb Z.leb]. fold (history_of lb (normalizeCoreName core)).
    change (0 <=? 0) with true. cbn [orb]. rewrite (keep_last_all (len _)) by lia. apply Hh.
  - intros core. auto.
Qed.

(** Reading the end of a log file: without a scanner error the result is
    exactly the last lines of the file; with one, the last of those captured,
    unless there are none. *)
Theorem read_core_logs_exact maxLines lines failed :
  let n := if maxLines <=? 0 then 100 else maxLines in
  ReadCoreLogs maxLines lines failed =
    if failed && (len lines =? 0) then None else Some (keep_last n lines).
Proof.
  intros n. unfold ReadCoreLogs. fold n. assert (Hn : 0 < n) by (unfold n; destruct (Z.leb_spec maxLines 0); lia).
  assert (H : keep_last n (foldl (read_step n) [] lines) = keep_last n lines /\
    (len (foldl (read_step n) [] lines) = 0 <-> len lines = 0)).
  { induction lines as [|x lines [IH1 IH2]] using rev_ind; [done|]. rewrite foldl_app. cbn [foldl].
    set (acc := foldl _ [] lines) in *. unfold read_step.
    assert (Hl : len (acc ++ [x]) > 0 /\ len (lines ++ [x]) > 0) by len_lia.
    assert (Hk : keep_last n (acc ++ [x]) = keep_last n (lines ++ [x])).
    { rewrite <- (keep_last_app n acc), IH1, keep_last_app by lia. done. }
    destruct (n * 2 <? len (acc ++ [x])); (split; [|split; [|lia]]).
    - by rewrite keep_last_idemp by lia.
    - rewrite keep_last_length by lia. lia.
    - done.
    - lia. }
  destruct H as [H1 H2]. destruct (Z.eqb_spec (len (foldl (read_step n) [] lines)) 0) as [E|E].
  - apply H2 in E as E'. rewrite (proj2 (Z.eqb_eq _ 0) E'). destruct failed; [done|]. cbn [andb].
    rewrite (proj2 (Z.ltb_ge n _)) by lia. rewrite <- H1. by rewrite keep_last_all by lia.
  - rewrite (proj2 (Z.eqb_neq (len lines) 0)) by tauto. rewrite !andb_false_r.
    rewrite <- H1. destruct (Z.ltb_spec n (len (foldl (read_step n) [] lines))); [done|]. by rewrite keep_last_all by lia.
Qed.
End Logs.

(** ** What the cores print, and what they list

    The loops that bring the lines of a pipe and of a log file to the streams, and the
    connections that the interface of sing-box lists (ParseClashConnectionsJSON of
    src/pkg/security/detector/connection_auditor.go), as [Auditors] takes them. *)
Module Feeds.
Definition newline : ascii := ascii_of_nat 10.
Definition return_char : string := String (ascii_of_nat 13) "".

(** ** A pipe

    The scanner's lines: their ends are taken off, and a line that does not fit into a
    mebibyte ends the loop. *)
Definition max_line : Z := 1048576.
Fixpoint scanned (pieces : list string) : list string :=
  match pieces with
  | [] | [EmptyString] => []
  | line :: pieces => if max_line <=? str_len line then [] else TrimSuffix line return_char :: scanned pieces
  end.
(** What the lines do to the streams; [None] is a panic. *)
Definition push_all (coreName : string) (lines : list string) (lb : Logs.LogBroadcaster) : option Logs.LogBroadcaster :=
  foldl (fun acc line => lb ← acc; Logs.PushLine lb coreName line) (Some lb) lines.
(** [text] is what the pipe delivers up to its end. *)
Definition StreamPipe (coreName text : string) (lb : Logs.LogBroadcaster) : option Logs.LogBroadcaster :=
  push_all coreName (scanned (SplitByte text newline)) lb.

(** ** A file

    The file as a turn of the loop finds it: what the open file holds, and the size of the
    file that has its name, if there is one. *)
Record found := mkFound { content : string; size_at_path : option Z }.

(** The next offset and the line to push.  What is read before the end of the file without
    an end of line is dropped; a file that has become shorter is read from its start. *)
Definition turn (f : found) (offset : nat) : nat * option string :=
  let rest := str_drop offset (content f) in
  match IndexByte rest newline with
  | Some i =>
      let trimmed := TrimRight (str_take (S i) rest) Logs.crlf in
      ((offset + S i)%nat, if trimmed =s "" then None else Some trimmed)
  | None =>
      let offset := (offset + String.length rest)%nat in
      (match size_at_path f with Some size => if size <? Z.of_nat offset then 0%nat else offset | None => offset end, None)
  end.
Fixpoint turns (fs : list found) (offset : nat) : nat * list string :=
  match fs with
  | [] => (offset, [])
  | f :: fs =>
      let '(offset, line) := turn f offset in
      let '(offset, lines) := turns fs offset in (offset, option_list line ++ lines)
  end.
(** The file is followed from its end, [opened] being what it holds at that time; [fs] is
    how the turns find it until the loop is stopped. *)
Definition TailFile (coreName opened : string) (fs : list found) (lb : Logs.LogBroadcaster) : option Logs.LogBroadcaster :=
  push_all coreName (turns fs (String.length opened)).2 lb.
(** The file under its own name. *)
Definition in_place (s : string) : found := mkFound s (Some (str_len s)).

(** ** Connections *)
Record clashConn := mkClash {
  c_ID : string; c_User : string; c_SourceIP : string; c_Host : string; c_Destination : string;
  c_DestPort : string; c_Upload : Z; c_Download : Z }.
(** [resp] is the decoded answer, [None] where it cannot be decoded, with the time at which
    each connection is taken over. *)
Definition active_connection (c : clashConn) (now : Z) : Auditors.ActiveConnection :=
  Auditors.mkConn (c_ID c)
    (if c_User c =s "" then c_SourceIP c else c_User c) (c_SourceIP c)
    (if c_Host c =s "" then c_Destination c else c_Host c)
    (atoi (c_DestPort c)) (c_Upload c) (c_Download c) now.
Definition ParseClashConnectionsJSON (resp : option (list (clashConn * Z))) : option (list Auditors.ActiveConnection) :=
  map (fun '(c, now) => active_connection c now) <$> resp.

(** ** Whole lines are delivered *)
Definition no_newline (s : string) : Prop := str_exists (fun a => Ascii.eqb a newline) s = false.
Fixpoint written (lines : list string) : string :=
  match lines with [] => "" | line :: lines => line ^^ String newline (written lines) end.

(** The lines of a pipe, short enough, reach the streams as they were written, and so do
    those of a pipe whose last line is cut off at the end. *)
Lemma pipe_lines lines last : Forall (fun l => no_newline l /\ str_len l < max_line) (lines ++ [last]) ->
  scanned (SplitByte (written lines ^^ last) newline) = map (fun l => TrimSuffix l return_char) (lines ++ (if last =s "" then [] else [last])).
Proof.
  unfold SplitByte. induction lines as [|l lines IH]; intros Hl.
  - apply Forall_cons in Hl as [[Hn Hs] _]. cbn [written String.append app].
    rewrite SplitFunc_clean by done. destruct last as [|a t]; [done|]. cbn [scanned String.eqb map].
    by rewrite (proj2 (Z.leb_gt _ _) Hs).
  - apply Forall_cons in Hl as [[Hn Hs] Hl]. cbn [written]. rewrite str_app_assoc. cbn [String.append].
    rewrite (SplitFunc_sep _ l newline) by done. rewrite (SplitFunc_clean _ l) by done.
    specialize (IH Hl). pose proof (SplitFunc_nonempty (fun a => Ascii.eqb a newline) (written lines ^^ last)) as Hne.
    destruct (SplitFunc _ (written lines ^^ last)) as [|p ps]; [done|]. cbn [app].
    assert (scanned (l :: p :: ps) = if max_line <=? str_len l then [] else TrimSuffix l return_char :: scanned (p :: ps)) as ->
      by (destruct l; done).
    rewrite (proj2 (Z.leb_gt _ _) Hs). cbn [map app]. by rewrite IH.
Qed.

(** Every complete line that is appended to a file is pushed once and in order. *)
Lemma tail_lines lines before after : Forall no_newline lines ->
  turns (replicate (length lines) (in_place (before ^^ written lines ^^ after))) (String.length before)
  = (String.length (before ^^ written lines), List.filter (fun l => l <>s "") (map (fun l => TrimRight (l ^^ String newline "") Logs.crlf) lines)).
Proof.
  revert before. induction lines as [|l lines IH]; intros before Hl.
  - cbn [turns replicate length written map List.filter]. by rewrite str_app_nil_r.
  - apply Forall_cons in Hl as [Hn Hl]. cbn [length replicate turns map written].
    unfold turn at 1. cbn [content in_place]. rewrite str_drop_app, !str_app_assoc. cbn [String.append].
    rewrite IndexByte_app by done.
    assert (Hb : before ^^ l ^^ String newline (written lines ^^ after) = (before ^^ l ^^ String newline "") ^^ written lines ^^ after)
      by (rewrite !str_app_assoc; done).
    assert (Ht : str_take (S (String.length l)) (l ^^ String newline (written lines ^^ after)) = l ^^ String newline "").
    { assert (l ^^ String newline (written lines ^^ after) = (l ^^ String newline "") ^^ (written lines ^^ after)) as ->
        by (rewrite str_app_assoc; done).
      rewrite <- (str_take_app (l ^^ String newline "") (written lines ^^ after)) at 2. f_equal.
      rewrite str_length_app. cbn. lia. }
    rewrite Ht, Hb.
    assert (Ho : (String.length before + S (String.length l))%nat = String.length (before ^^ l ^^ String newline ""))
      by (rewrite !str_length_app; cbn; lia).
    rewrite Ho, IH by done.
    assert (Hw : (before ^^ l ^^ String newline "") ^^ written lines = before ^^ l ^^ String newline (written lines))
      by (rewrite !str_app_assoc; done).
    rewrite Hw. cbn [List.filter]. by destruct (TrimRight (l ^^ String newline "") Logs.crlf =s "").
Qed.

(** ** What is lost *)
Definition streams : Logs.LogBroadcaster := Logs.NewLogBroadcaster 10.
Definition history_of (lb : option Logs.LogBroadcaster) : option (list string) := (fun lb => Logs.GetHistory lb "xray" 0) <$> lb.
Definition nl : string := String newline "".

(** A line that the core writes in two pieces arrives without the first, when the loop looks
    in between. *)
Example first_piece_lost :
  history_of (TailFile "xray" "old" [in_place "oldaccept"; in_place ("oldaccepted tcp:" ^^ nl); in_place ("oldaccepted tcp:" ^^ nl)] streams)
    = Some ["ed tcp:"]
  /\ history_of (TailFile "xray" "old" [in_place ("oldaccepted tcp:" ^^ nl)] streams) = Some ["accepted tcp:"].
Proof. by vm_compute. Qed.

(** A file that was cut off is read again from its start; one that was renamed away is
    followed under its new name for ever if its successor grows at least as long. *)
Example rotated :
  history_of (TailFile "xray" "older" [in_place ("a" ^^ nl); in_place ("a" ^^ nl)] streams) = Some ["a"]
  /\ history_of (TailFile "xray" "older" (replicate 5 (mkFound "older" (Some 9))) streams) = Some [].
Proof. by vm_compute. Qed.

(** A line of a mebibyte ends the reading of the pipe, and no later line arrives. *)
Lemma long_line_ends long lines : max_line <= str_len long -> no_newline long ->
  scanned (SplitByte (long ^^ String newline (written lines)) newline) = [].
Proof.
  intros Hl Hn. unfold SplitByte. rewrite (SplitFunc_sep _ long newline) by done. rewrite (SplitFunc_clean _ long) by done.
  destruct long as [|a t]; [done|]. cbn [app scanned]. by rewrite (proj2 (Z.leb_le _ _) Hl).
Qed.

(** A connection without a user is that of its address; a port that is no number is 0. *)
Example connections_listed :
  ParseClashConnectionsJSON (Some [(mkClash "1" "" "192.0.2.1" "" "198.51.100.1" "443" 1 2, 5); (mkClash "2" "bob" "192.0.2.2" "example.org" "198.51.100.1" "https" 3 4, 6)])
    = Some [Auditors.mkConn "1" "192.0.2.1" "192.0.2.1" "198.51.100.1" 443 1 2 5; Auditors.mkConn "2" "bob" "192.0.2.2" "example.org" 0 3 4 6]
  /\ ParseClashConnectionsJSON None = None.
Proof. by vm_compute. Qed.
End Feeds.
