(* ===== verification/RingBuffer.v ===== *)
(** * The Android connection log (src/pkg/platform/android/security/ring_buffer.go)

    A ring of connection records with search, paging and statistics.  [None] is a
    panic of an index or a slice expression. *)
From S2P Require Import Prelude GoStrings.
Open Scope Z_scope.

Module RingBuffer.
Record AndroidLogEntry := mkEntry {
  ID : string;
  Timestamp : Z;
  PackageName : string;
  AppName : string;
  SourceIP : string;
  SourcePort : Z;
  DestinationIP : string;
  DestinationPort : Z;
  Protocol : string;
  ServiceName : string;
  Action : string;
  ThreatType : string;
  RiskScore : Z;
}.
Definition zeroEntry : AndroidLogEntry := mkEntry "" 0 "" "" "" 0 "" 0 "" "" "" "" 0.

Record AppStat := mkAppStat { app_PackageName : string; app_AppName : string; app_Count : Z }.
Record PortStat := mkPortStat { port_Port : Z; port_ServiceName : string; port_Count : Z }.
Record AndroidLogStats := mkStats {
  TotalConnections : Z;
  ActiveAppsCount : Z;
  ThreatCount : Z;
  ProtocolBreakdown : gmap string Z;
  TopApps : list AppStat;
  TopPorts : list PortStat;
}.

Record AndroidLogRingBuffer := mkRing {
  capacity : Z;
  entries : list AndroidLogEntry;
  head : Z;
  count : Z;
  totalLogged : Z;
}.

Definition serviceMap : gmap Z string :=
  list_to_map [(21, "FTP"); (22, "SSH"); (23, "Telnet"); (25, "SMTP"); (53, "DNS");
    (80, "HTTP"); (110, "POP3"); (143, "IMAP"); (443, "HTTPS"); (445, "SMB");
    (853, "DoT"); (993, "IMAPS"); (995, "POP3S"); (1080, "SOCKS");
    (1433, "MSSQL"); (3306, "MySQL"); (3389, "RDP"); (5432, "PostgreSQL");
    (6379, "Redis"); (8080, "HTTP-Alt"); (8443, "HTTPS-Alt"); (27017, "MongoDB")]%string.

Definition NewAndroidLogRingBuffer (cap : Z) : AndroidLogRingBuffer :=
  let cap := if cap <=? 0 then 5000 else cap in
  mkRing cap (replicate (Z.to_nat cap) zeroEntry) 0 0 0.

(** The fields [Push] fills in; [now] in milliseconds. *)
Definition enrich (now : Z) (e : AndroidLogEntry) : AndroidLogEntry :=
  let ts := if Timestamp e <=? 0 then now else Timestamp e in
  let id := if ID e =s "" then Itoa ts ^^ "-" ^^ PackageName e ^^ "-" ^^ Itoa (DestinationPort e) else ID e in
  let service :=
    if (ServiceName e =s "") && (0 <? DestinationPort e)
    then default (ServiceName e) (serviceMap !! DestinationPort e) else ServiceName e in
  mkEntry id ts (PackageName e) (AppName e) (SourceIP e) (SourcePort e) (DestinationIP e) (DestinationPort e)
    (Protocol e) service (Action e) (ThreatType e) (RiskScore e).

Definition Push (now : Z) (b : AndroidLogRingBuffer) (e : AndroidLogEntry) : option AndroidLogRingBuffer :=
  if (0 <=? head b) && (head b <? len (entries b)) then
    Some (mkRing (capacity b) (<[Z.to_nat (head b) := enrich now e]> (entries b))
            (Z.rem (head b + 1) (capacity b))
            (if count b <? capacity b then count b + 1 else count b) (wrap64 (totalLogged b + 1)))
  else None.

(** The [i]-th newest entry. *)
Definition slot (b : AndroidLogRingBuffer) (i : Z) : option AndroidLogEntry :=
  let idx := Z.rem (head b - 1 - i + capacity b) (capacity b) in
  if 0 <=? idx then entries b !! Z.to_nat idx else None.

(** All entries, newest first. *)
Definition newest_first (b : AndroidLogRingBuffer) : option (list AndroidLogEntry) :=
  mapM (fun i => slot b (Z.of_nat i)) (seq 0 (Z.to_nat (count b))).

Definition entry_matches (portFilter : Z) (qLower : string) (e : AndroidLogEntry) : bool :=
  let has s := Contains (ToLower s) qLower in
  negb ((0 <? portFilter) && negb (DestinationPort e =? portFilter)) &&
  ((qLower =s "") || has (AppName e) || has (PackageName e) || has (DestinationIP e) || has (ServiceName e) ||
   has (Protocol e)).

Definition GetLogs (b : AndroidLogRingBuffer) (limit offset portFilter : Z) (query : string)
    : option (list AndroidLogEntry) :=
  if count b =? 0 then Some []
  else
    let limit := if limit <=? 0 then 100 else limit in
    let offset := if offset <? 0 then 0 else offset in
    all ← newest_first b;
    let matched := List.filter (entry_matches portFilter (ToLower (TrimSpace query))) all in
    if len matched <=? offset then Some []
    else
      let stop := wrap64 (offset + limit) in
      let stop := if len matched <? stop then len matched else stop in
      if (offset <=? stop) then Some (take (Z.to_nat (stop - offset)) (drop (Z.to_nat offset) matched)) else None.

(** *** Statistics *)

(** [sort.Slice] by a count, largest first: any sorted rearrangement. *)
Class CountSort := {
  count_sort : forall {A}, (A -> Z) -> list A -> list A;
  count_sort_perm : forall A (f : A -> Z) l, count_sort f l ≡ₚ l;
  count_sort_sorted : forall A (f : A -> Z) l, StronglySorted (fun x y => f y <= f x) (count_sort f l);
}.

Section stats.
Context {sorter : CountSort} {order : RangeOrder string} {ports_order : RangeOrder Z}.

Definition pkg_of (e : AndroidLogEntry) : string := if PackageName e =s "" then "unknown" else PackageName e.
Definition proto_of (e : AndroidLogEntry) : string := if Protocol e =s "" then "TCP" else ToUpper (Protocol e).

Definition bump {K} `{Countable K} (m : gmap K Z) (k : K) : gmap K Z := <[k := default 0 (m !! k) + 1]> m.

Definition count_app (m : gmap string AppStat) (e : AndroidLogEntry) : gmap string AppStat :=
  let s := default (mkAppStat (pkg_of e) (AppName e) 0) (m !! pkg_of e) in
  <[pkg_of e := mkAppStat (app_PackageName s) (app_AppName s) (app_Count s + 1)]> m.

Definition is_threat (e : AndroidLogEntry) : bool := (ThreatType e <>s "") && (ThreatType e <>s "NONE").

Definition port_stat (p c : Z) : PortStat :=
  mkPortStat p (default ("Port " ^^ Itoa p) (serviceMap !! p)) c.

Definition GetStats (b : AndroidLogRingBuffer) : option AndroidLogStats :=
  all ← newest_first b;
  let appCounts := foldl count_app ∅ all in
  let portCounts := foldl (fun m e => if 0 <? DestinationPort e then bump m (DestinationPort e) else m) ∅ all in
  let protoBreakdown := foldl (fun m e => bump m (proto_of e)) ∅ all in
  let topApps := count_sort app_Count (omap (fun k => appCounts !! k) (range_keys (dom appCounts))) in
  let topPorts := count_sort port_Count
    (omap (fun p => port_stat p <$> portCounts !! p) (range_keys (dom portCounts))) in
  Some (mkStats (totalLogged b) (Z.of_nat (size appCounts)) (len (List.filter is_threat all)) protoBreakdown
          (take 10 topApps) (take 10 topPorts)).
End stats.

Definition Clear (b : AndroidLogRingBuffer) : AndroidLogRingBuffer := mkRing (capacity b) (entries b) 0 0 0.

(** ** The ring holds the newest entries *)

Inductive op := OpPush (now : Z) (e : AndroidLogEntry) | OpClear.

Definition exec (b : AndroidLogRingBuffer) (o : op) : option AndroidLogRingBuffer :=
  match o with OpPush now e => Push now b e | OpClear => Some (Clear b) end.
Definition run (b : AndroidLogRingBuffer) (tr : list op) : option AndroidLogRingBuffer :=
  foldl (fun acc o => b ← acc; exec b o) (Some b) tr.

(** The specification: all entries since the last clearing, newest first. *)
Definition log_step (log : list AndroidLogEntry) (o : op) : list AndroidLogEntry :=
  match o with OpPush now e => enrich now e :: log | OpClear => [] end.

Record holds (b : AndroidLogRingBuffer) (log : list AndroidLogEntry) : Prop := mkHolds {
  h_cap : 0 < capacity b;
  h_len : len (entries b) = capacity b;
  h_head : 0 <= head b < capacity b;
  h_count : count b = Z.min (capacity b) (len log);
  h_slot : forall i, 0 <= i < count b ->
    entries b !! Z.to_nat ((head b - 1 - i) mod capacity b) = log !! Z.to_nat i;
}.

Lemma slot_index h i c : 0 < c -> 0 <= h < c -> 0 <= i < c -> Z.rem (h - 1 - i + c) c = (h - 1 - i) mod c.
Proof.
  intros Hc Hh Hi. rewrite Z.rem_mod_nonneg by lia.
  replace (h - 1 - i + c) with (h - 1 - i + 1 * c) by lia. by rewrite Z.mod_add by lia.
Qed.

Lemma push_holds now b log e : holds b log -> exists b', Push now b e = Some b' /\ holds b' (enrich now e :: log).
Proof.
  intros [Hc Hl Hh Hn Hs]. unfold Push. rewrite (proj2 (Z.leb_le _ _)), (proj2 (Z.ltb_lt _ _)) by lia. cbn [andb].
  eexists. split; [reflexivity|]. set (x := enrich now e).
  assert (Hrem : Z.rem (head b + 1) (capacity b) = (head b + 1) mod capacity b) by (apply Z.rem_mod_nonneg; lia).
  pose proof (Z.mod_pos_bound (head b + 1) (capacity b) Hc) as Hb.
  constructor; cbn [capacity entries head count]; rewrite ?Hrem; try done.
  - unfold len in *. by rewrite length_insert.
  - rewrite len_cons, Hn. destruct (Z.ltb_spec (Z.min (capacity b) (len log)) (capacity b)); lia.
  - intros i Hi. replace (((head b + 1) mod capacity b - 1 - i) mod capacity b) with ((head b - i) mod capacity b).
    2: { replace ((head b + 1) mod capacity b - 1 - i) with ((head b + 1) mod capacity b - (1 + i)) by lia.
         rewrite Zminus_mod_idemp_l. f_equal. lia. }
    assert (Hi' : i < capacity b).
    { destruct (Z.ltb_spec (count b) (capacity b)); lia. }
    destruct (decide (i = 0)) as [->|Hne].
    + rewrite Z.sub_0_r, Z.mod_small by lia. rewrite list_lookup_insert_eq; [done|]. unfold len in Hl. lia.
    + rewrite list_lookup_insert_ne.
      * replace (head b - i) with (head b - 1 - (i - 1)) by lia. rewrite Hs.
        -- by replace (Z.to_nat i) with (S (Z.to_nat (i - 1))) by lia.
        -- destruct (Z.ltb_spec (count b) (capacity b)); lia.
      * intros E. apply Z2Nat.inj in E; [|lia | apply Z.mod_pos_bound; lia].
        destruct (Z_lt_ge_dec i (head b + 1)) as [Hlt|Hge].
        -- rewrite Z.mod_small in E by lia. lia.
        -- replace (head b - i) with (head b - i + capacity b + (-1) * capacity b) in E by lia.
           rewrite Z.mod_add, Z.mod_small in E by lia. lia.
Qed.

Lemma run_holds cap tr : exists b, run (NewAndroidLogRingBuffer cap) tr = Some b /\ holds b (foldl log_step [] tr) /\
  capacity b = if cap <=? 0 then 5000 else cap.
Proof.
  set (c := if cap <=? 0 then 5000 else cap).
  assert (Hc : 0 < c) by (unfold c; destruct (Z.leb_spec cap 0); lia).
  induction tr as [|o tr (b & E & Hh & Hcap)] using rev_ind.
  - eexists. split; [reflexivity|]. split; [|done]. constructor; cbn; fold c; unfold len; cbn [length];
      rewrite ?length_replicate; lia.
  - unfold run in *. rewrite !foldl_app, E. cbn [foldl mbind option_bind]. destruct o as [now e|]; cbn [exec log_step].
    + destruct (push_holds now b _ e Hh) as (b' & E' & Hb'). exists b'. split; [done|]. split; [done|].
      unfold Push in E'. destruct (_ && _); [|done]. injection E' as <-. exact Hcap.
    + eexists. split; [reflexivity|]. split; [|exact Hcap]. destruct Hh as [H1 H2 H3 H4 H5].
      constructor; cbn; try lia. unfold len. cbn. lia.
Qed.

Lemma newest_first_holds b log : holds b log -> newest_first b = Some (take (Z.to_nat (capacity b)) log).
Proof.
  intros [Hc Hl Hh Hn Hs]. unfold newest_first. apply mapM_Some, Forall2_same_length_lookup. split.
  - rewrite length_seq, length_take. unfold len in *. lia.
  - intros i j x Hi Hx. apply lookup_seq in Hi as [-> Hi]. cbn in Hi |- *.
    apply lookup_take_Some in Hx as [Hx Hlt]. unfold slot. rewrite slot_index by lia.
    rewrite (proj2 (Z.leb_le _ _)) by (apply Z.mod_pos_bound; lia). rewrite Hs by lia. by rewrite Nat2Z.id.
Qed.

(** The connection log is the newest entries: after any pushes and clearings a
    search never panics and returns the asked page of the matching entries among
    the newest [capacity] ones, newest first - as long as [offset + limit] does
    not overflow. *)
Theorem get_logs_page cap tr limit offset port q :
  let n := if cap <=? 0 then 5000 else cap in
  let lim := if limit <=? 0 then 100 else limit in
  let off := if offset <? 0 then 0 else offset in
  off + lim <= maxInt64 ->
  exists b, run (NewAndroidLogRingBuffer cap) tr = Some b /\
    GetLogs b limit offset port q =
      Some (take (Z.to_nat lim) (drop (Z.to_nat off)
        (List.filter (entry_matches port (ToLower (TrimSpace q))) (take (Z.to_nat n) (foldl log_step [] tr))))).
Proof.
  intros n lim off Hov. destruct (run_holds cap tr) as (b & E & Hh & Hcap). exists b. split; [done|].
  pose proof (newest_first_holds b _ Hh) as Hall. rewrite Hcap in Hall. fold n in Hall.
  unfold GetLogs. fold lim off. rewrite Hall. destruct Hh as [Hc _ _ Hn _].
  set (log := foldl log_step [] tr) in *. set (all := take (Z.to_nat n) log).
  assert (Hlim : 0 < lim) by (unfold lim; destruct (Z.leb_spec limit 0); lia).
  assert (Hoff : 0 <= off) by (unfold off; destruct (Z.ltb_spec offset 0); lia).
  destruct (Z.eqb_spec (count b) 0) as [E0|E0].
  { assert (Hlog : log = []) by (apply len_nil_iff; lia). unfold all. rewrite Hlog. rewrite take_nil. cbn [List.filter]. by rewrite drop_nil, take_nil. }
  cbn [mbind option_bind]. set (matched := List.filter _ all).
  destruct (Z.leb_spec (len matched) off) as [Hle|Hgt].
  { rewrite drop_ge by (unfold len in Hle; lia). by rewrite take_nil. }
  assert (Hm : maxInt64 = 9223372036854775807) by done. autorewrite with gowrap.
  destruct (Z.ltb_spec (len matched) (off + lim)) as [Hlt|Hlt].
  - rewrite (proj2 (Z.leb_le _ _)) by lia. f_equal. rewrite !take_ge; [done|..]; rewrite length_drop; unfold len in *; lia.
  - rewrite (proj2 (Z.leb_le _ _)) by lia. do 2 f_equal. lia.
Qed.

Definition entry_demo (port : Z) : AndroidLogEntry := mkEntry "" 0 "com.app" "App" "" 0 "1.2.3.4" port "tcp" "" "" "" 0.

Lemma get_logs_page_witness :
  exists b, run (NewAndroidLogRingBuffer 2) [OpPush 1 (entry_demo 80); OpPush 2 (entry_demo 22); OpPush 3 (entry_demo 443)]
      = Some b /\
    option_map (map DestinationPort) (GetLogs b 5 0 0 "APP") = Some [443; 22].
Proof.
  destruct (get_logs_page 2 [OpPush 1 (entry_demo 80); OpPush 2 (entry_demo 22); OpPush 3 (entry_demo 443)] 5 0 0 "APP")
    as (b & E & H); [vm_compute; congruence|]. exists b. split; [exact E|]. rewrite H. vm_compute. reflexivity.
Defined.

(** A limit close to the largest integer makes the slice bounds wrap around. *)
Lemma huge_limit_panics : exists b, run (NewAndroidLogRingBuffer 2) [OpPush 1 (entry_demo 80); OpPush 2 (entry_demo 22)] = Some b /\
  GetLogs b maxInt64 1 0 "" = None.
Proof. eexists. split; [reflexivity|]. vm_compute. reflexivity. Qed.
End RingBuffer.
