(* ===== verification/Bytes.v ===== *)
(** * Byte slices

    [encoding/binary] and the slice expressions of the packet code.  An operation
    that indexes its data has three outcomes: a panic, an error or a value. *)
From S2P Require Import Prelude GoStrings.
Open Scope Z_scope.

Inductive outcome (A : Type) : Type := Panic | Fail (msg : string) | Done (a : A).
Arguments Panic {A}.
Arguments Fail {A} _.
Arguments Done {A} _.

#[export] Instance outcome_ret : MRet outcome := fun A a => Done a.
#[export] Instance outcome_bind : MBind outcome :=
  fun A B f r => match r with Done a => f a | Fail e => Fail e | Panic => Panic end.

(** No panic, and an error only where one is allowed. *)
Definition safe {A} (errors : bool) (r : outcome A) : Prop :=
  match r with Panic => False | Fail _ => errors = true | Done _ => True end.

Definition is_byte (b : Z) : Prop := 0 <= b < 256.

(** [data[i]] *)
Definition at_index (data : list Z) (i : Z) : outcome Z :=
  if i <? 0 then Panic else match data !! Z.to_nat i with Some b => Done b | None => Panic end.
(** [data[a:b]] and [data[a:]] *)
Definition slice (data : list Z) (a b : Z) : outcome (list Z) :=
  if (0 <=? a) && (a <=? b) && (b <=? len data) then Done (take (Z.to_nat (b - a)) (drop (Z.to_nat a) data)) else Panic.
Definition slice_from (data : list Z) (a : Z) : outcome (list Z) := slice data a (len data).

(** [binary.BigEndian.Uint16(data[i:i+2])] and [Uint32(data[i:i+4])] *)
Definition be_u16 (data : list Z) (i : Z) : outcome Z :=
  a ← at_index data i; b ← at_index data (i + 1); Done (a * 256 + b).
Definition be_u32 (data : list Z) (i : Z) : outcome Z :=
  a ← be_u16 data i; b ← be_u16 data (i + 2); Done (a * 65536 + b).

(** The bytes of an unsigned integer: [PutUint16], [PutUint32] in both orders. *)
Definition put_be16 (v : Z) : list Z := [v / 256 mod 256; v mod 256].
Definition put_be32 (v : Z) : list Z := put_be16 (v / 65536) ++ put_be16 v.
Definition put_le16 (v : Z) : list Z := [v mod 256; v / 256 mod 256].
Definition put_le32 (v : Z) : list Z := put_le16 v ++ put_le16 (v / 65536).

(** ** Lemmas *)

Section lemmas.
Implicit Types (data : list Z).

Lemma at_index_done data i : 0 <= i < len data -> exists b, at_index data i = Done b /\ data !! Z.to_nat i = Some b.
Proof.
  intros Hi. unfold at_index. rewrite (proj2 (Z.ltb_ge i 0)) by lia.
  destruct (lookup_lt_is_Some_2 data (Z.to_nat i)) as [b ->]; [unfold len in Hi; lia|]. by exists b.
Qed.

Lemma at_index_byte data i : Forall is_byte data -> 0 <= i < len data ->
  exists b, at_index data i = Done b /\ is_byte b.
Proof.
  intros Hb Hi. destruct (at_index_done data i Hi) as (b & E & Eb). exists b. split; [done|].
  rewrite Forall_lookup in Hb. by eapply Hb.
Qed.

Lemma be_u16_done data i : Forall is_byte data -> 0 <= i -> i + 2 <= len data ->
  exists v, be_u16 data i = Done v /\ 0 <= v < 65536.
Proof.
  intros Hb H0 Hi. unfold be_u16.
  destruct (at_index_byte data i Hb) as (a & -> & Ha); [lia|].
  destruct (at_index_byte data (i + 1) Hb) as (b & Eb & Hb'); [lia|]. cbn. rewrite Eb. cbn.
  exists (a * 256 + b). split; [done|]. unfold is_byte in *. lia.
Qed.

Lemma be_u32_done data i : Forall is_byte data -> 0 <= i -> i + 4 <= len data ->
  exists v, be_u32 data i = Done v.
Proof.
  intros Hb H0 Hi. unfold be_u32.
  destruct (be_u16_done data i Hb) as (a & -> & _); [lia|lia|].
  destruct (be_u16_done data (i + 2) Hb) as (b & Eb & _); [lia|lia|]. cbn. rewrite Eb. by eexists.
Qed.

Lemma slice_done data a b : 0 <= a <= b -> b <= len data ->
  slice data a b = Done (take (Z.to_nat (b - a)) (drop (Z.to_nat a) data)).
Proof.
  intros Ha Hb. unfold slice. by rewrite !(proj2 (Z.leb_le _ _)) by lia.
Qed.

Lemma slice_bytes data a b l : Forall is_byte data -> slice data a b = Done l -> Forall is_byte l.
Proof. unfold slice. intros H E. destruct (_ && _); [|done]. injection E as <-. by apply Forall_take, Forall_drop. Qed.

Lemma slice_app (l1 l2 : list Z) : slice (l1 ++ l2) (len l1) (len (l1 ++ l2)) = Done l2.
Proof.
  rewrite slice_done by len_lia.
  f_equal. unfold len. rewrite Nat2Z.id, drop_app_length, length_app. apply take_ge. lia.
Qed.

Lemma be16_roundtrip v : 0 <= v < 65536 -> v / 256 mod 256 * 256 + v mod 256 = v.
Proof. intros Hv. pose proof (Z.div_mod v 256). rewrite (Z.mod_small (v / 256)); [lia|]. split; [apply Z.div_pos | apply Z.div_lt_upper_bound]; lia. Qed.

Lemma put_be16_bytes v : Forall is_byte (put_be16 v).
Proof. repeat constructor; apply Z.mod_pos_bound; lia. Qed.
Lemma put_be32_bytes v : Forall is_byte (put_be32 v).
Proof. apply Forall_app. split; apply put_be16_bytes. Qed.

Lemma be32_roundtrip v : 0 <= v < 2^32 ->
  (v / 65536 / 256 mod 256 * 256 + v / 65536 mod 256) * 65536 + (v / 256 mod 256 * 256 + v mod 256) = v.
Proof.
  intros Hv. rewrite be16_roundtrip; [| split; [apply Z.div_pos | apply Z.div_lt_upper_bound]; lia].
  assert (E : v / 256 mod 256 * 256 + v mod 256 = v mod 65536).
  { pose proof (Z.div_mod v 256 ltac:(lia)). pose proof (Z.div_mod (v / 256) 256 ltac:(lia)).
    pose proof (Z.mod_pos_bound v 256 ltac:(lia)). pose proof (Z.mod_pos_bound (v / 256) 256 ltac:(lia)).
    apply (Z.mod_unique _ _ (v / 256 / 256)); lia. }
  rewrite E. pose proof (Z.div_mod v 65536). lia.
Qed.
End lemmas.
