(* ===== verification/Packet.v ===== *)
(** * Dissecting packets (src/pkg/platform/android/security/dissector.go)

    A packet is a list of bytes.  [Panic] would be an index out of range; running
    out of fuel is a [Panic] too, so that its absence shows that the loops end. *)
From S2P Require Import Prelude GoStrings GoNet Bytes.
Open Scope Z_scope.

Module Packet.
Record DissectedPacket := mkDissected {
  IPVersion : Z;
  HeaderLength : Z;
  TotalLength : Z;
  TTL : Z;
  Protocol : string;
  IPFlags : string;
  SourceIP : string;
  DestinationIP : string;
  SourcePort : Z;
  DestinationPort : Z;
  TCPFlags : string;
  TCPSeq : Z;
  TCPAck : Z;
  TCPWindow : Z;
  PayloadLength : Z;
  PayloadHex : string;
  PayloadASCII : string;
  DetectedProto : string;
  AppInfo : string;
  ExtraMetadata : gmap string string;
}.

Definition flag_names (b : Z) (names : list (Z * string)) : list string :=
  omap (fun p : Z * string => if Z.land b p.1 =? 0 then None else Some p.2) names.

Definition ip_flags (b : Z) : string :=
  match flag_names b [(64, "DF"); (32, "MF")]%string with [] => "None"%string | l => Join l "|" end.
Definition tcp_flags (b : Z) : string :=
  Join (flag_names b [(2, "SYN"); (16, "ACK"); (8, "PSH"); (1, "FIN"); (4, "RST"); (32, "URG")]%string) "|".

(** *** The IP header *)

Record ip_header := mkIP {
  h_version : Z; h_length : Z; h_total : Z; h_ttl : Z; h_proto : Z; h_flags : string; h_src : string; h_dst : string }.

Definition dissect_ip (raw : list Z) : outcome ip_header :=
  if len raw <? 20 then Fail ("packet too short (" ^^ Itoa (len raw) ^^ " bytes, min 20 required)")
  else
    b0 ← at_index raw 0;
    let version := b0 / 16 in
    if negb (version =? 4) && negb (version =? 6) then Fail ("unsupported IP version: " ^^ Itoa version)
    else if version =? 4 then
      let ipHeaderLen := b0 mod 16 * 4 in
      if len raw <? ipHeaderLen then
        Fail ("malformed IPv4 packet: length " ^^ Itoa (len raw) ^^ " < header length " ^^ Itoa ipHeaderLen)
      else
        total ← be_u16 raw 2;
        ttl ← at_index raw 8;
        proto ← at_index raw 9;
        flagByte ← at_index raw 6;
        src ← slice raw 12 16;
        dst ← slice raw 16 20;
        Done (mkIP 4 ipHeaderLen total ttl proto (ip_flags flagByte) (IP_String src) (IP_String dst))
    else if len raw <? 40 then Fail "malformed IPv6 packet"
    else
      payloadLen ← be_u16 raw 4;
      proto ← at_index raw 6;
      ttl ← at_index raw 7;
      src ← slice raw 8 24;
      dst ← slice raw 24 40;
      Done (mkIP 6 40 (40 + payloadLen) ttl proto "" (IP_String src) (IP_String dst)).

(** *** The transport header *)

Record transport := mkTransport {
  t_name : string; t_sport : Z; t_dport : Z; t_flags : string; t_seq : Z; t_ack : Z; t_window : Z; t_payload : list Z }.

Definition dissect_tcp (tb : list Z) : outcome transport :=
  if len tb <? 20 then Fail ("truncated TCP header (len " ^^ Itoa (len tb) ^^ " < 20)")
  else
    sport ← be_u16 tb 0;
    dport ← be_u16 tb 2;
    seqn ← be_u32 tb 4;
    ackn ← be_u32 tb 8;
    off ← at_index tb 12;
    let dataOffset := off / 16 * 4 in
    if dataOffset <? 20 then
      Fail ("invalid TCP data offset (" ^^ Itoa dataOffset ^^ " bytes, min 20 required)")
    else
      flagsByte ← at_index tb 13;
      window ← be_u16 tb 14;
      payload ← (if dataOffset <? len tb then slice_from tb dataOffset else Done []);
      Done (mkTransport "TCP" sport dport (tcp_flags flagsByte) seqn ackn window payload).

Definition dissect_udp (tb : list Z) : outcome transport :=
  if len tb <? 8 then Fail ("truncated UDP header (len " ^^ Itoa (len tb) ^^ " < 8)")
  else
    sport ← be_u16 tb 0;
    dport ← be_u16 tb 2;
    payload ← (if 8 <? len tb then slice_from tb 8 else Done []);
    Done (mkTransport "UDP" sport dport "" 0 0 0 payload).

Definition dissect_transport (proto : Z) (tb : list Z) : outcome transport :=
  if proto =? 6 then dissect_tcp tb
  else if proto =? 17 then dissect_udp tb
  else if proto =? 1 then Fail "unsupported transport protocol ICMP (1)"
  else Fail ("unsupported transport protocol: " ^^ Itoa proto).

(** *** The payload *)

Definition hex2 (b : Z) : string := String (hex_digit (b / 16)) (String (hex_digit (b mod 16)) "").
Definition EncodeToString (l : list Z) : string := foldr (fun b s => hex2 b ^^ s) ""%string l.
Definition is_print (b : Z) : bool := (32 <=? b) && (b <=? 126).
Definition ascii_preview (l : list Z) : string := string_of_bytes (map (fun b => if is_print b then b else 46) l).

(** One extension of the ClientHello at [pos], as the loop sees it: the name it
    returns, or the position of the next one. *)
Definition sni_extension (data : list Z) (pos stop : Z) : outcome (string + Z) :=
  extType ← be_u16 data pos;
  extLen ← be_u16 data (pos + 2);
  let pos := pos + 4 in
  let next := Done (inr (pos + extLen)) in
  if (extType =? 0) && (pos + 2 <=? stop) then
    listLen ← be_u16 data pos;
    if (pos + 2 + listLen <=? stop) && (pos + 5 <=? stop) then
      nameType ← at_index data (pos + 2);
      if nameType =? 0 then
        nameLen ← be_u16 data (pos + 3);
        if pos + 5 + nameLen <=? stop then
          name ← slice data (pos + 5) (pos + 5 + nameLen);
          Done (inl (string_of_bytes name))
        else next
      else next
    else next
  else next.

Fixpoint sni_loop (fuel : nat) (data : list Z) (pos stop : Z) : outcome string :=
  match fuel with
  | O => Panic
  | S fuel =>
      if pos + 4 <=? stop then
        r ← sni_extension data pos stop;
        match r with inl name => Done name | inr pos => sni_loop fuel data pos stop end
      else Done ""%string
  end.

Definition extractTLSSNI (data : list Z) : outcome string :=
  if len data <? 43 then Done ""%string
  else
    let pos := 43 in
    if len data <=? pos then Done ""%string
    else
      sessionIDLen ← at_index data pos;
      let pos := pos + 1 + sessionIDLen in
      if len data <? pos + 2 then Done ""%string
      else
        cipherSuitesLen ← be_u16 data pos;
        let pos := pos + 2 + cipherSuitesLen in
        if len data <? pos + 1 then Done ""%string
        else
          compMethodsLen ← at_index data pos;
          let pos := pos + 1 + compMethodsLen in
          if len data <? pos + 2 then Done ""%string
          else
            extensionsLen ← be_u16 data pos;
            let pos := pos + 2 in
            let stop := Z.min (pos + extensionsLen) (len data) in
            sni_loop (S (length data)) data pos stop.

Fixpoint dns_labels (fuel : nat) (data : list Z) (pos : Z) (labels : list string) : outcome (list string) :=
  match fuel with
  | O => Panic
  | S fuel =>
      if pos <? len data then
        length ← at_index data pos;
        if (length =? 0) || (63 <? length) || negb (Z.land length 192 =? 0) then Done labels
        else
          let pos := pos + 1 in
          if len data <? pos + length then Done labels
          else
            label ← slice data pos (pos + length);
            dns_labels fuel data (pos + length) (labels ++ [string_of_bytes label])
      else Done labels
  end.

Definition extractDNSDomain (data : list Z) : outcome string :=
  if len data <? 12 then Done ""%string
  else labels ← dns_labels (S (length data)) data 12 []; Done (Join labels ".").

Definition http_methods : list string := ["GET "; "POST "; "CONNECT "; "HEAD "; "PUT "; "DELETE "]%string.
Definition crlf : string := String (ascii_of_nat 13) (String (ascii_of_nat 10) "").

(** What the payload tells: the protocol, a note and metadata. *)
Definition inspectPayload (sport dport : Z) (payload : list Z) : outcome (string * string * gmap string string) :=
  let nothing := Done ((""%string, ""%string), ∅) in
  if len payload =? 0 then nothing
  else
    b0 ← at_index payload 0;
    b1 ← (if (b0 =? 22) && (5 <? len payload) then at_index payload 1 else Done (-1));
    if b1 =? 3 then
      b5 ← (if 43 <? len payload then at_index payload 5 else Done (-1));
      if b5 =? 1 then
        sni ← extractTLSSNI payload;
        if sni <>s "" then Done ("TLS (ClientHello)"%string, "SNI: " ^^ sni, {["sni"%string := sni]})
        else Done (("TLS"%string, ""%string), ∅)
      else Done (("TLS"%string, ""%string), ∅)
    else
      let str := string_of_bytes payload in
      if existsb (HasPrefix str) http_methods then
        match SplitString str crlf with
        | first :: rest =>
            let meta := match List.find (fun line => HasPrefix (ToLower line) "host:") rest with
                        | Some line => {["host"%string := TrimSpace (TrimPrefix line "Host:")]}
                        | None => ∅
                        end in
            Done ("HTTP"%string, first, meta)
        | [] => Done (("HTTP"%string, ""%string), ∅)
        end
      else if (dport =? 53) || (sport =? 53) then
        domain ← extractDNSDomain payload;
        if domain <>s "" then Done ("DNS"%string, "Query: " ^^ domain, {["query"%string := domain]})
        else Done (("DNS"%string, ""%string), ∅)
      else nothing.

Definition DissectPacket (raw : list Z) : outcome DissectedPacket :=
  h ← dissect_ip raw;
  tb ← slice_from raw (h_length h);
  t ← dissect_transport (h_proto h) tb;
  let payload := t_payload t in
  let preview := take 256 payload in
  insp ← inspectPayload (t_sport t) (t_dport t) payload;
  let '(proto, info, meta) := insp in
  Done (mkDissected (h_version h) (h_length h) (h_total h) (h_ttl h) (t_name t) (h_flags h) (h_src h) (h_dst h)
    (t_sport t) (t_dport t) (t_flags t) (t_seq t) (t_ack t) (t_window t) (len payload)
    (EncodeToString preview) (ascii_preview preview) proto info meta).

(** ** Dissecting never panics *)

Lemma safe_bind {A B} errors (r : outcome A) (f : A -> outcome B) :
  safe errors r -> (forall a, r = Done a -> safe errors (f a)) -> safe errors (r ≫= f).
Proof. destruct r; cbn; auto. Qed.

Ltac bools := Prelude.bools; unfold is_byte in *.

(** One step through an operation on the bytes [data] with [Hb : Forall is_byte data]. *)
Ltac step Hb :=
  match goal with
  | |- safe _ (Done _) => done
  | |- safe _ (Fail _) => done
  | |- safe _ (at_index ?d ?i ≫= _) =>
      let b := fresh "b" in let E := fresh "E" in let R := fresh "R" in
      destruct (at_index_byte d i Hb) as (b & E & R); [bools; lia | rewrite E; cbn [mbind outcome_bind]; clear E]
  | |- safe _ (be_u16 ?d ?i ≫= _) =>
      let b := fresh "v" in let E := fresh "E" in let R := fresh "R" in
      destruct (be_u16_done d i Hb) as (b & E & R); [bools; lia | bools; lia | rewrite E; cbn [mbind outcome_bind]; clear E]
  | |- safe _ (be_u32 ?d ?i ≫= _) =>
      let b := fresh "v" in let E := fresh "E" in
      destruct (be_u32_done d i Hb) as (b & E); [bools; lia | bools; lia | rewrite E; cbn [mbind outcome_bind]; clear E]
  | |- safe _ (slice ?d ?a ?b ≫= _) =>
      rewrite (slice_done d a b) by (bools; lia); cbn [mbind outcome_bind]
  | |- safe _ (if ?c then _ else _) => let E := fresh "C" in destruct c eqn:E
  end.

Section safety.
Context (data : list Z) (Hb : Forall is_byte data).

Lemma dissect_ip_safe : safe true (dissect_ip data).
Proof. unfold dissect_ip. cbv zeta. repeat step Hb. Qed.

Lemma dissect_ip_length h : dissect_ip data = Done h -> 0 <= h_length h <= len data.
Proof.
  unfold dissect_ip. cbv zeta. destruct (Z.ltb_spec (len data) 20) as [|H20]; [done|].
  destruct (at_index_byte data 0 Hb) as (b0 & -> & R0); [lia|]. cbn [mbind outcome_bind].
  destruct (negb _ && negb _); [done|]. destruct (b0 / 16 =? 4).
  - destruct (Z.ltb_spec (len data) (b0 mod 16 * 4)) as [|Hl]; [done|].
    pose proof (Z.mod_pos_bound b0 16 ltac:(lia)).
    repeat match goal with |- context [?r ≫= _] => destruct r; cbn [mbind outcome_bind]; try done end.
    intros [= <-]. cbn. lia.
  - destruct (Z.ltb_spec (len data) 40) as [|Hl]; [done|].
    repeat match goal with |- context [?r ≫= _] => destruct r; cbn [mbind outcome_bind]; try done end.
    intros [= <-]. cbn. lia.
Qed.

Lemma dissect_transport_safe proto : safe true (dissect_transport proto data).
Proof.
  unfold dissect_transport, dissect_tcp, dissect_udp, slice_from. cbv zeta. repeat step Hb.
  - apply safe_bind; [|done]. repeat step Hb. rewrite slice_done by (bools; pose proof (Z.div_pos b 16); lia). done.
  - apply safe_bind; [|done]. repeat step Hb. rewrite slice_done by (bools; lia). done.
Qed.

Lemma dissect_transport_payload proto t : dissect_transport proto data = Done t -> Forall is_byte (t_payload t).
Proof.
  unfold dissect_transport, dissect_tcp, dissect_udp, slice_from. cbv zeta.
  repeat match goal with
  | |- context [slice data ?a ?b] => destruct (slice data a b) eqn:?; cbn [mbind outcome_bind]
  | |- context [?r ≫= _] => destruct r eqn:?; cbn [mbind outcome_bind]
  | |- (if ?c then _ else _) = _ -> _ => destruct c eqn:?
  | |- Done _ = Done _ -> _ => intros [= <-]; cbn
  | |- _ = _ -> _ => done
  end; try constructor; repeat case_match; simplify_eq; try constructor; by eapply slice_bytes.
Qed.

Lemma sni_extension_safe pos stop : 0 <= pos -> pos + 4 <= stop -> stop <= len data ->
  safe false (sni_extension data pos stop) /\
  forall p, sni_extension data pos stop = Done (inr p) -> pos + 4 <= p.
Proof.
  intros H0 H4 Hs. unfold sni_extension. cbv zeta.
  destruct (be_u16_done data pos Hb) as (ty & -> & _); [lia|lia|]. cbn [mbind outcome_bind].
  destruct (be_u16_done data (pos + 2) Hb) as (el & -> & Hel); [lia|lia|]. cbn [mbind outcome_bind].
  destruct ((ty =? 0) && (pos + 4 + 2 <=? stop)) eqn:C1; bools; [|by split; [|intros p [= <-]; lia]].
  destruct (be_u16_done data (pos + 4) Hb) as (ll & -> & _); [lia|lia|]. cbn [mbind outcome_bind].
  destruct ((pos + 4 + 2 + ll <=? stop) && (pos + 4 + 5 <=? stop)) eqn:C2; bools; [|by split; [|intros p [= <-]; lia]].
  destruct (at_index_byte data (pos + 4 + 2) Hb) as (nt & -> & _); [lia|]. cbn [mbind outcome_bind].
  destruct (nt =? 0); [|by split; [|intros p [= <-]; lia]].
  destruct (be_u16_done data (pos + 4 + 3) Hb) as (nl & -> & Hnl); [lia|lia|]. cbn [mbind outcome_bind].
  destruct (pos + 4 + 5 + nl <=? stop) eqn:C3; bools; [|by split; [|intros p [= <-]; lia]].
  rewrite slice_done by lia. cbn. by split.
Qed.

Lemma sni_loop_safe fuel pos stop : 0 <= pos -> stop <= len data -> (0 < fuel)%nat -> stop - pos < Z.of_nat fuel ->
  safe false (sni_loop fuel data pos stop).
Proof.
  revert pos. induction fuel as [|fuel IH]; intros pos H0 Hs Hn Hf; [lia|]. cbn [sni_loop].
  destruct (pos + 4 <=? stop) eqn:C; [|done]. bools. destruct (sni_extension_safe pos stop) as [H1 H2]; [lia..|].
  apply safe_bind; [done|]. intros [name|p] E; [done|]. apply H2 in E. apply IH; lia.
Qed.

Lemma extractTLSSNI_safe : safe false (extractTLSSNI data).
Proof.
  unfold extractTLSSNI. cbv zeta. repeat step Hb. apply sni_loop_safe; bools; unfold len in *; lia.
Qed.

Lemma dns_labels_safe fuel pos labels : 0 <= pos -> (0 < fuel)%nat -> len data - pos < Z.of_nat fuel ->
  safe false (dns_labels fuel data pos labels).
Proof.
  revert pos labels. induction fuel as [|fuel IH]; intros pos labels H0 Hn Hf; [lia|]. cbn [dns_labels].
  repeat step Hb. apply IH; bools; lia.
Qed.

Lemma inspectPayload_safe sport dport : safe false (inspectPayload sport dport data).
Proof.
  unfold inspectPayload. cbv zeta. destruct (Z.eqb_spec (len data) 0); [done|]. pose proof (len_nonneg data).
  step Hb. apply safe_bind.
  { repeat step Hb. destruct (at_index_byte data 1 Hb) as (x & -> & _); bools; [lia | done]. }
  intros b1 _. destruct (b1 =? 3).
  - apply safe_bind.
    { repeat step Hb. destruct (at_index_byte data 5 Hb) as (x & -> & _); bools; [lia | done]. }
    intros b5 _. destruct (b5 =? 1); [|done]. apply safe_bind; [apply extractTLSSNI_safe|].
    intros sni _. by destruct (sni <>s "").
  - destruct (existsb _ _); [by destruct (SplitString _ _)|]. destruct (_ || _); [|done].
    apply safe_bind; [|intros d _; by destruct (d <>s "")].
    unfold extractDNSDomain. repeat step Hb. apply safe_bind; [|done].
    apply dns_labels_safe; bools; unfold len in *; lia.
Qed.
End safety.

Lemma dissect_safe raw : Forall is_byte raw -> safe true (DissectPacket raw).
Proof.
  intros Hb. unfold DissectPacket.
  apply safe_bind; [by apply dissect_ip_safe|]. intros h Hh. apply (dissect_ip_length raw Hb) in Hh.
  unfold slice_from. rewrite slice_done by lia. cbn [mbind outcome_bind].
  set (tb := take _ _). assert (Htb : Forall is_byte tb) by (by apply Forall_take, Forall_drop).
  apply safe_bind; [by apply dissect_transport_safe|]. intros t Ht. apply (dissect_transport_payload tb Htb) in Ht.
  apply safe_bind; [|]. { pose proof (inspectPayload_safe _ Ht (t_sport t) (t_dport t)). by destruct (inspectPayload _ _ _). } intros [[proto info] meta] _. done.
Qed.

(** C29. The dissector is total: on every byte sequence, however malformed, it
    returns an error or a dissection - it reads no byte outside of the packet,
    and its loops over TLS extensions and DNS labels end. *)
Theorem dissect_never_panics raw : Forall is_byte raw -> DissectPacket raw <> Panic.
Proof. intros Hb. pose proof (dissect_safe raw Hb). by destruct (DissectPacket raw). Qed.

Lemma dissect_never_panics_witness : DissectPacket (repeat 69 40) <> Panic.
Proof. apply (dissect_never_panics (repeat 69 40)). vm_compute. repeat constructor; congruence. Defined.

(** A lower-case header name is not cut off its value. *)
Lemma lower_case_host_kept :
  inspectPayload 40000 80 (string_bytes ("GET / HTTP/1.1" ^^ crlf ^^ "host: example.org" ^^ crlf)) =
    Done ("HTTP"%string, "GET / HTTP/1.1"%string, {["host"%string := "host: example.org"%string]}).
Proof. vm_compute. reflexivity. Qed.
End Packet.
