(* ===== verification/Pcap.v ===== *)
(** * Synthesised packets and PCAP files
    (src/pkg/security/pcap.go, src/pkg/platform/android/security/pcap.go)

    The two files build the same packets with different constants.  A PCAP file is
    the list of its bytes; failures of the file system are an argument. *)
From S2P Require Import Prelude GoStrings GoNet Bytes Packet.
Import Packet.
Open Scope Z_scope.

Module Pcap.
(** ** The Internet checksum *)

Fixpoint word_sum (header : list Z) : Z :=
  match header with a :: b :: rest => a * 256 + b + word_sum rest | _ => 0 end.

(** [for sum > 0xffff { sum = (sum & 0xffff) + (sum >> 16) }]: four rounds are
    enough for a 32-bit sum ([fold_carry_spec]). *)
Fixpoint fold_carry (fuel : nat) (sum : Z) : Z :=
  match fuel with
  | O => sum
  | S fuel => if 65535 <? sum then fold_carry fuel (Z.land sum 65535 + Z.shiftr sum 16) else sum
  end.

Definition calculateIPChecksum (header : list Z) : Z := 65535 - fold_carry 4 (word_sum header).

(** ** Packets *)

Definition ipv4_header (id totalLen proto : Z) (src dst : list Z) (checksum : Z) : list Z :=
  [69; 0] ++ put_be16 totalLen ++ put_be16 id ++ [64; 0; 64; proto] ++ put_be16 checksum ++ src ++ dst.

Definition checked_header (id totalLen proto : Z) (src dst : list Z) : list Z :=
  ipv4_header id totalLen proto src dst (calculateIPChecksum (ipv4_header id totalLen proto src dst 0)).

Definition tcp_header (srcPort dstPort seqn ackn flags window : Z) : list Z :=
  put_be16 srcPort ++ put_be16 dstPort ++ put_be32 seqn ++ put_be32 ackn ++ [80; flags] ++ put_be16 window ++ [0; 0; 0; 0].
Definition udp_header (srcPort dstPort payloadLen : Z) : list Z :=
  put_be16 srcPort ++ put_be16 dstPort ++ put_be16 (8 + payloadLen) ++ [0; 0].

Definition ip_or (default : list Z) (s : string) : list Z :=
  if is_nil (To4 (ParseIP s)) then default else To4 (ParseIP s).

Definition is_tcp (proto : string) : bool := (ToUpper proto =s "TCP") || (proto =s "").

Definition build_packet (id : Z) (tcp : bool) (src dst : list Z) (srcPort dstPort flags seqn ackn window : Z)
    (payload : list Z) : list Z :=
  let transportHeader := if tcp then tcp_header srcPort dstPort seqn ackn flags (if window =? 0 then 64240 else window)
                         else udp_header srcPort dstPort (len payload) in
  let totalLen := 20 + len transportHeader + len payload in
  checked_header id totalLen (if tcp then 6 else 17) src dst ++ transportHeader ++ payload.

(** pkg/security: [id] is the random identification of the packet. *)
Definition SynthesizeRawIPv4Packet (id : Z) (proto srcIPStr : string) (srcPort : Z) (dstIPStr : string)
    (dstPort tcpFlags seqn ackn window : Z) (payload : list Z) : list Z :=
  build_packet id (is_tcp proto) (ip_or [10; 0; 0; 2] srcIPStr) (ip_or [198; 51; 100; 1] dstIPStr)
    srcPort dstPort (tcpFlags mod 256) seqn ackn window payload.

(** pkg/platform/android/security: [rnd] is the random number for a missing source port. *)
Definition SynthesizeAndroid (rnd : option Z) (proto srcIPStr : string) (srcPort : Z) (dstIPStr : string)
    (dstPort tcpFlags seqn ackn window : Z) (payload : list Z) : list Z :=
  let srcPort := if srcPort <=? 0 then match rnd with Some n => 49152 + n | None => 49152 end else srcPort in
  build_packet 4660 (is_tcp proto) (ip_or [10; 0; 0; 2] srcIPStr) (ip_or [8; 8; 8; 8] dstIPStr)
    srcPort dstPort tcpFlags seqn ackn window payload.

Definition threat_payload (threatType dstIP : string) (dstPort : Z) : list Z :=
  string_bytes ("SENTINEL_THREAT_CAPTURE: type=" ^^ threatType ^^ " dst=" ^^ dstIP ^^ ":" ^^ Itoa dstPort).

(** ** Files *)

Definition global_header (linkType : Z) : list Z :=
  put_le32 2712847316 ++ put_le16 2 ++ put_le16 4 ++ put_le32 0 ++ put_le32 0 ++ put_le32 65535 ++ put_le32 linkType.

(** Written only to an empty file. *)
Definition WritePcapGlobalHeader (file : list Z) (linkType : Z) : list Z :=
  if 0 <? len file then file else file ++ global_header linkType.

Definition record_header (timestampMs pktLen : Z) : list Z :=
  put_le32 (wrapu32 (Z.quot timestampMs 1000)) ++ put_le32 (wrapu32 (Z.rem timestampMs 1000 * 1000)) ++
  put_le32 (wrapu32 pktLen) ++ put_le32 (wrapu32 pktLen).

(** Where a write can fail, with the error; what was written before stays. *)
Inductive io_fault :=
  | MkdirFails (e : string) | OpenFails (e : string) | HeaderFails (e : string)
  | RecordFails (e : string) | DataFails (e : string).

Definition WritePacketToPcap (fault : option io_fault) (now : Z) (filePath : string) (file packetBytes : list Z)
    (timestampMs : Z) : list Z * result unit :=
  if len packetBytes =? 0 then (file, Ok tt)
  else
    let headed := WritePcapGlobalHeader file 101 in
    let ts := if timestampMs <=? 0 then now else timestampMs in
    let recorded := headed ++ record_header ts (len packetBytes) in
    match fault with
    | Some (MkdirFails e) => (file, Err ("failed to create directory for pcap: " ^^ e))
    | Some (OpenFails e) => (file, Err ("failed to open pcap file " ^^ filePath ^^ ": " ^^ e))
    | Some (HeaderFails e) => (file, Err ("failed to write global pcap header: " ^^ e))
    | Some (RecordFails e) => (headed, Err e)
    | Some (DataFails e) => (recorded, Err e)
    | None => (recorded ++ packetBytes, Ok tt)
    end.

Definition SynthesizeAndRecordThreatPcap (fault : option io_fault) (id seqn now : Z) (pcapPath : string)
    (file : list Z) (proto srcIP : string) (srcPort : Z) (dstIP : string) (dstPort : Z) (threatType : string)
    (timestampMs : Z) : list Z * result unit :=
  WritePacketToPcap fault now pcapPath file
    (SynthesizeRawIPv4Packet id proto srcIP srcPort dstIP dstPort 2 seqn 0 64240 (threat_payload threatType dstIP dstPort))
    timestampMs.

(** ** The PCAP format: a reader as its documentation describes it *)

Definition le16 (a b : Z) : Z := a + 256 * b.
Definition read_le32 (l : list Z) : option (Z * list Z) :=
  match l with a :: b :: c :: d :: rest => Some (le16 a b + 65536 * le16 c d, rest) | _ => None end.

Fixpoint read_records (fuel : nat) (l : list Z) : option (list (Z * Z * list Z)) :=
  match fuel, l with
  | _, [] => Some []
  | O, _ => None
  | S fuel, _ =>
      '(sec, l) ← read_le32 l;
      '(usec, l) ← read_le32 l;
      '(caplen, l) ← read_le32 l;
      '(origlen, l) ← read_le32 l;
      if (caplen =? origlen) && (caplen <=? len l) then
        rs ← read_records fuel (drop (Z.to_nat caplen) l);
        Some ((sec, usec, take (Z.to_nat caplen) l) :: rs)
      else None
  end.

(** Link type and records of a version 2.4 file. *)
Definition read_pcap (file : list Z) : option (Z * list (Z * Z * list Z)) :=
  '(magic, l) ← read_le32 file;
  '(version, l) ← read_le32 l;
  '(zone, l) ← read_le32 l;
  '(sigfigs, l) ← read_le32 l;
  '(snaplen, l) ← read_le32 l;
  '(link, l) ← read_le32 l;
  if (magic =? 2712847316) && (version =? 2 + 65536 * 4) then rs ← read_records (length l) l; Some (link, rs) else None.

(** ** The checksum is the Internet checksum *)

Lemma fold_carry_spec s : 0 <= s < 2^32 ->
  0 <= fold_carry 4 s <= 65535 /\ (fold_carry 4 s) mod 65535 = s mod 65535 /\ (0 < s -> 0 < fold_carry 4 s).
Proof.
  assert (Hstep : forall x, 0 <= x -> Z.land x 65535 + Z.shiftr x 16 = x mod 65536 + x / 65536).
  { intros x Hx. change 65535 with (Z.ones 16). rewrite Z.land_ones, Z.shiftr_div_pow2 by lia. done. }
  assert (Hmod : forall x, (x mod 65536 + x / 65536) mod 65535 = x mod 65535).
  { intros x. rewrite (Z.div_mod x 65536) at 3 by lia.
    replace (65536 * (x / 65536) + x mod 65536) with (x mod 65536 + x / 65536 + x / 65536 * 65535) by lia.
    by rewrite Z.mod_add by lia. }
  assert (Hround : forall f x B, 0 <= x <= B -> (B <= 65535 -> f = O \/ True) ->
    (forall y, 0 <= y <= 65535 + B / 65536 -> (0 < x -> 0 < y) -> y mod 65535 = x mod 65535 ->
      0 <= fold_carry f y <= 65535 /\ fold_carry f y mod 65535 = x mod 65535 /\ (0 < x -> 0 < fold_carry f y)) ->
    0 <= fold_carry (S f) x <= 65535 /\ fold_carry (S f) x mod 65535 = x mod 65535 /\ (0 < x -> 0 < fold_carry (S f) x)).
  { intros f x B Hx _ IH. cbn [fold_carry]. destruct (Z.ltb_spec 65535 x) as [Hl|Hl]; [|lia].
    rewrite Hstep by lia. pose proof (Z.mod_pos_bound x 65536 ltac:(lia)).
    pose proof (Z.div_le_mono x B 65536 ltac:(lia) ltac:(lia)). pose proof (Z.div_le_mono 65536 x 65536 ltac:(lia) ltac:(lia)).
    change (65536 / 65536) with 1 in *. apply IH; [lia | lia | apply Hmod]. }
  intros Hs. apply (Hround 3%nat s (2^32)); [lia|by right|]. change (65535 + 2 ^ 32 / 65536) with 131071.
  intros y Hy Hy0 Em. rewrite <- Em. assert (Hpos : forall P : Prop, (0 < y -> P) -> (0 < s -> P)) by auto.
  cut (0 <= fold_carry 3 y <= 65535 /\ fold_carry 3 y mod 65535 = y mod 65535 /\ (0 < y -> 0 < fold_carry 3 y)).
  { intros (H1 & H2 & H3). auto. }
  clear s Hs Hy0 Em Hpos. apply (Hround 2%nat y 131071); [lia|by right|]. change (65535 + 131071 / 65536) with 65536.
  intros z Hz Hz0 Em. cut (0 <= fold_carry 2 z <= 65535 /\ fold_carry 2 z mod 65535 = z mod 65535 /\ (0 < z -> 0 < fold_carry 2 z)).
  { intros (H1 & H2 & H3). rewrite <- Em. auto. }
  clear y Hy Hz0 Em. cbn [fold_carry]. destruct (Z.ltb_spec 65535 z) as [Hl|Hl]; [|lia].
  assert (z = 65536) as -> by lia. vm_compute. repeat split; congruence.
Qed.

Lemma word_sum_bound l : Forall is_byte l -> 0 <= word_sum l <= 65535 * len l.
Proof.
  assert (H : forall n l, (length l <= n)%nat -> Forall is_byte l -> 0 <= word_sum l <= 65535 * len l).
  { intros n. induction n as [|n IH]; intros [|a [|b k]] Hn Hb; cbn [word_sum length] in *; try (unfold len; cbn; lia).
    apply Forall_cons in Hb as [Ha [Hb Hk]%Forall_cons]. destruct (IH k ltac:(lia) Hk). unfold is_byte in *.
    rewrite !len_cons. lia. }
  intros Hb. by apply (H (length l)).
Qed.

Definition quad (l : list Z) : Prop := length l = 4%nat /\ Forall is_byte l.

Lemma header_sum id total proto src dst c : quad src -> quad dst -> 0 <= c < 65536 ->
  word_sum (ipv4_header id total proto src dst c) = word_sum (ipv4_header id total proto src dst 0) + c.
Proof.
  intros [Hs _] [Hd _] Hc. unfold ipv4_header, put_be16.
  destruct src as [|s0 [|s1 [|s2 [|s3 [|]]]]]; try done. destruct dst as [|d0 [|d1 [|d2 [|d3 [|]]]]]; try done.
  cbn [app word_sum]. pose proof (be16_roundtrip c Hc). change (0 / 256 mod 256) with 0. change (0 mod 256) with 0. lia.
Qed.

(** The receiver's check of a header: the sum of its words, carries folded in, is all ones. *)
Lemma checksum_verifies id total proto src dst : quad src -> quad dst -> is_byte proto ->
  0 <= calculateIPChecksum (ipv4_header id total proto src dst 0) < 65536 /\
  fold_carry 4 (word_sum (checked_header id total proto src dst)) = 65535.
Proof.
  intros Hs Hd Hp. unfold checked_header, calculateIPChecksum.
  set (s := word_sum (ipv4_header id total proto src dst 0)).
  assert (Hb : Forall is_byte (ipv4_header id total proto src dst 0)).
  { destruct Hs, Hd. unfold ipv4_header. repeat (apply Forall_app; split); try apply put_be16_bytes; try done;
      repeat constructor; unfold is_byte in *; lia. }
  assert (Hlen : len (ipv4_header id total proto src dst 0) = 20).
  { destruct Hs as [Hs _], Hd as [Hd _]. unfold ipv4_header, len, put_be16. cbn [app length]. rewrite length_app, Hs, Hd. done. }
  pose proof (word_sum_bound _ Hb) as Hsum. fold s in Hsum. rewrite Hlen in Hsum.
  assert (Hs0 : 0 < s).
  { set (rest := put_be16 total ++ put_be16 id ++ [64; 0; 64; proto] ++ put_be16 0 ++ src ++ dst).
    assert (Eh : ipv4_header id total proto src dst 0 = 69 :: 0 :: rest) by reflexivity.
    rewrite Eh in Hb. apply Forall_inv_tail, Forall_inv_tail, word_sum_bound in Hb.
    unfold s. rewrite Eh. cbn [word_sum]. lia. }
  destruct (fold_carry_spec s ltac:(lia)) as (H1 & H2 & H3). specialize (H3 Hs0). split; [lia|].
  rewrite header_sum by (done || lia). fold s. set (f := fold_carry 4 s) in *.
  destruct (fold_carry_spec (s + (65535 - f)) ltac:(lia)) as (K1 & K2 & K3). specialize (K3 ltac:(lia)).
  assert (E : (s + (65535 - f)) mod 65535 = 0).
  { replace (s + (65535 - f)) with (s - f + 1 * 65535) by lia. rewrite Z.mod_add, Zminus_mod, H2, Z.sub_diag by lia. done. }
  rewrite E in K2. pose proof (Z.div_mod (fold_carry 4 (s + (65535 - f))) 65535 ltac:(lia)). lia.
Qed.

(** ** Dissecting a synthesised packet *)

Lemma To4_quad_length ip : is_nil (To4 ip) = false -> length (To4 ip) = 4%nat.
Proof.
  unfold To4. destruct (Z.eqb_spec (len ip) 4) as [E|]; [intros _; unfold len in E; lia|].
  destruct (Z.eqb_spec (len ip) 16) as [E|]; cbn [andb]; [|done]. destruct (bytes_eqb _ _); [|done].
  intros _. rewrite length_drop. unfold len in E. lia.
Qed.

Lemma ip_or_length d s : length d = 4%nat -> length (ip_or d s) = 4%nat.
Proof. intros Hd. unfold ip_or. destruct (is_nil (To4 (ParseIP s))) eqn:E; [done | by apply To4_quad_length]. Qed.

(** The dissection of a packet with one of these headers. *)
Definition built (tcp : bool) (src dst : list Z) (srcPort dstPort flags seqn ackn window : Z) (payload : list Z)
    (proto info : string) (meta : gmap string string) : DissectedPacket :=
  mkDissected 4 20 (20 + (if tcp then 20 else 8) + len payload) 64 (if tcp then "TCP" else "UDP") "DF"
    (IP_String src) (IP_String dst) srcPort dstPort (if tcp then tcp_flags flags else "")
    (if tcp then seqn else 0) (if tcp then ackn else 0)
    (if tcp then if window =? 0 then 64240 else window else 0)
    (len payload) (EncodeToString (take 256 payload)) (ascii_preview (take 256 payload)) proto info meta.

Lemma dissect_header id total proto src dst rest : length src = 4%nat -> length dst = 4%nat -> 0 <= total < 65536 ->
  dissect_ip (checked_header id total proto src dst ++ rest) =
    Done (mkIP 4 20 total 64 proto "DF" (IP_String src) (IP_String dst)).
Proof.
  intros Hs Hd Ht. unfold checked_header. set (c := calculateIPChecksum _). clearbody c.
  destruct src as [|s0 [|s1 [|s2 [|s3 [|]]]]]; try done. destruct dst as [|d0 [|d1 [|d2 [|d3 [|]]]]]; try done.
  unfold ipv4_header, put_be16. cbn [app]. set (raw := 69 :: 0 :: _).
  assert (Hl : 20 <= len raw) by (unfold raw; len_lia).
  unfold dissect_ip. rewrite (proj2 (Z.ltb_ge _ _)) by lia.
  change (at_index raw 0) with (Done 69). cbn [mbind outcome_bind].
  change (69 / 16) with 4. change (69 mod 16 * 4) with 20. cbn [Z.eqb Pos.eqb negb andb].
  rewrite (proj2 (Z.ltb_ge _ _)) by lia.
  change (be_u16 raw 2) with (Done (total / 256 mod 256 * 256 + total mod 256)).
  change (at_index raw 8) with (Done 64). change (at_index raw 9) with (Done proto). change (at_index raw 6) with (Done 64).
  rewrite !slice_done by lia. cbn [mbind outcome_bind]. by rewrite be16_roundtrip.
Qed.

Lemma dissect_tcp_header sp dp sq ak fl wi payload :
  0 <= sp < 65536 -> 0 <= dp < 65536 -> 0 <= sq < 2^32 -> 0 <= ak < 2^32 -> 0 <= wi < 65536 ->
  dissect_transport 6 (tcp_header sp dp sq ak fl wi ++ payload) =
    Done (mkTransport "TCP" sp dp (tcp_flags fl) sq ak wi payload).
Proof.
  intros Hsp Hdp Hsq Hak Hwi. unfold tcp_header, put_be32, put_be16. cbn [app]. set (tb := _ :: _).
  assert (Hl : len tb = 20 + len payload) by (unfold tb; rewrite !len_cons; lia). pose proof (len_nonneg payload).
  unfold dissect_transport, dissect_tcp. cbn [Z.eqb Pos.eqb]. rewrite (proj2 (Z.ltb_ge _ _)) by lia.
  change (be_u16 tb 0) with (Done (sp / 256 mod 256 * 256 + sp mod 256)).
  change (be_u16 tb 2) with (Done (dp / 256 mod 256 * 256 + dp mod 256)).
  change (be_u32 tb 4) with (Done ((sq / 65536 / 256 mod 256 * 256 + sq / 65536 mod 256) * 65536 + (sq / 256 mod 256 * 256 + sq mod 256))).
  change (be_u32 tb 8) with (Done ((ak / 65536 / 256 mod 256 * 256 + ak / 65536 mod 256) * 65536 + (ak / 256 mod 256 * 256 + ak mod 256))).
  change (at_index tb 12) with (Done 80). change (at_index tb 13) with (Done fl).
  change (be_u16 tb 14) with (Done (wi / 256 mod 256 * 256 + wi mod 256)).
  cbn [mbind outcome_bind]. change (80 / 16 * 4 <? 20) with false. change (80 / 16 * 4) with 20. cbv iota.
  rewrite (be16_roundtrip sp), (be16_roundtrip dp), (be16_roundtrip wi), (be32_roundtrip sq), (be32_roundtrip ak) by done.
  destruct (Z.ltb_spec 20 (len tb)) as [Hlt|Hge].
  - unfold slice_from. rewrite slice_done by lia. cbn [mbind outcome_bind]. do 2 f_equal.
    change (drop _ tb) with payload. apply take_ge. rewrite Hl. unfold len. lia.
  - cbn [mbind outcome_bind]. do 2 f_equal. symmetry. apply len_nil_iff. lia.
Qed.

Lemma dissect_udp_header sp dp n payload : 0 <= sp < 65536 -> 0 <= dp < 65536 ->
  dissect_transport 17 (udp_header sp dp n ++ payload) = Done (mkTransport "UDP" sp dp "" 0 0 0 payload).
Proof.
  intros Hsp Hdp. unfold udp_header, put_be16. cbn [app]. set (tb := _ :: _).
  assert (Hl : len tb = 8 + len payload) by (unfold tb; rewrite !len_cons; lia). pose proof (len_nonneg payload).
  unfold dissect_transport, dissect_udp. cbn [Z.eqb Pos.eqb]. rewrite (proj2 (Z.ltb_ge _ _)) by lia.
  change (be_u16 tb 0) with (Done (sp / 256 mod 256 * 256 + sp mod 256)).
  change (be_u16 tb 2) with (Done (dp / 256 mod 256 * 256 + dp mod 256)). cbn [mbind outcome_bind].
  rewrite !be16_roundtrip by done. destruct (Z.ltb_spec 8 (len tb)) as [Hlt|Hge].
  - unfold slice_from. rewrite slice_done by lia. cbn [mbind outcome_bind]. do 2 f_equal.
    change (drop _ tb) with payload. apply take_ge. rewrite Hl. unfold len. lia.
  - cbn [mbind outcome_bind]. do 2 f_equal. symmetry. apply len_nil_iff. lia.
Qed.

Lemma header_length id total proto src dst : length src = 4%nat -> length dst = 4%nat ->
  len (checked_header id total proto src dst) = 20.
Proof.
  intros Hs Hd. unfold checked_header, ipv4_header, put_be16, len. cbn [app length]. by rewrite length_app, Hs, Hd.
Qed.

Lemma dissect_built id tcp src dst sp dp fl sq ak wi payload :
  length src = 4%nat -> length dst = 4%nat -> Forall is_byte payload -> len payload <= 65495 ->
  0 <= sp < 65536 -> 0 <= dp < 65536 -> 0 <= sq < 2^32 -> 0 <= ak < 2^32 -> 0 <= wi < 65536 ->
  exists proto info meta, inspectPayload sp dp payload = Done (proto, info, meta) /\
    DissectPacket (build_packet id tcp src dst sp dp fl sq ak wi payload) =
      Done (built tcp src dst sp dp fl sq ak wi payload proto info meta).
Proof.
  intros Hs Hd Hb Hn Hsp Hdp Hsq Hak Hwi. pose proof (inspectPayload_safe payload Hb sp dp) as Hi.
  destruct (inspectPayload sp dp payload) as [|e|[[proto info] meta]] eqn:Ei; [done | done |].
  exists proto, info, meta. split; [done|]. pose proof (len_nonneg payload).
  unfold build_packet. set (win := if wi =? 0 then 64240 else wi).
  assert (Hw : 0 <= win < 65536) by (unfold win; destruct (wi =? 0); lia).
  set (th := if tcp then _ else _). set (total := 20 + len th + len payload).
  assert (Hth : len th = if tcp then 20 else 8) by (by destruct tcp).
  assert (Et : dissect_transport (if tcp then 6 else 17) (th ++ payload) = Done (mkTransport (if tcp then "TCP" else "UDP") sp dp
    (if tcp then tcp_flags fl else "") (if tcp then sq else 0) (if tcp then ak else 0) (if tcp then win else 0) payload)).
  { unfold th. destruct tcp; [by apply dissect_tcp_header | by apply dissect_udp_header]. }
  unfold DissectPacket. rewrite dissect_header by (done || (unfold total; destruct tcp; lia)).
  cbn [mbind outcome_bind h_length]. unfold slice_from.
  rewrite <- (header_length id total (if tcp then 6 else 17) src dst) at 1 by done.
  rewrite slice_app. cbn [mbind outcome_bind h_proto]. rewrite Et. cbn [mbind outcome_bind t_payload t_sport t_dport].
  rewrite Ei. cbn. unfold built. rewrite <- Hth. reflexivity.
Qed.

Lemma ip_or_quad d s : quad d -> quad (ip_or d s).
Proof.
  intros [Hl Hb]. split; [by apply ip_or_length|]. unfold ip_or.
  destruct (is_nil (To4 (ParseIP s))); [done|]. apply To4_octets, ParseIP_octets.
Qed.

Lemma take_header id tcp src dst sp dp fl sq ak wi payload : quad src -> quad dst ->
  exists total, take 20 (build_packet id tcp src dst sp dp fl sq ak wi payload) =
    checked_header id total (if tcp then 6 else 17) src dst.
Proof.
  intros [Hs _] [Hd _]. unfold build_packet. set (total := 20 + _ + _). exists total.
  rewrite take_app_length'; [done|]. pose proof (header_length id total (if tcp then 6 else 17) src dst Hs Hd) as H.
  unfold len in H. lia.
Qed.

(** C30. What is synthesised is what is dissected: the packet written for a threat
    carries a header whose checksum verifies, and its dissection succeeds and
    gives back the addresses, ports, flags, sequence numbers and payload it was
    made from - whatever the strings, an unreadable address being replaced by the
    documented default. *)
Theorem synthesize_dissect id proto srcIP sp dstIP dp fl sq ak wi payload :
  Forall is_byte payload -> len payload <= 65495 ->
  0 <= sp < 65536 -> 0 <= dp < 65536 -> 0 <= sq < 2^32 -> 0 <= ak < 2^32 -> 0 <= wi < 65536 ->
  let src := ip_or [10; 0; 0; 2] srcIP in let dst := ip_or [198; 51; 100; 1] dstIP in
  let packet := SynthesizeRawIPv4Packet id proto srcIP sp dstIP dp fl sq ak wi payload in
  fold_carry 4 (word_sum (take 20 packet)) = 65535 /\
  exists app info meta, inspectPayload sp dp payload = Done (app, info, meta) /\
    DissectPacket packet = Done (built (is_tcp proto) src dst sp dp (fl mod 256) sq ak wi payload app info meta).
Proof.
  intros Hb Hn Hsp Hdp Hsq Hak Hwi src dst packet.
  assert (Hs : quad src) by (apply ip_or_quad; repeat constructor; lia).
  assert (Hd : quad dst) by (apply ip_or_quad; repeat constructor; lia).
  split; [|by apply dissect_built; [apply Hs | apply Hd | ..]].
  unfold packet, SynthesizeRawIPv4Packet. fold src dst.
  destruct (take_header id (is_tcp proto) src dst sp dp (fl mod 256) sq ak wi payload Hs Hd) as (total & ->).
  apply checksum_verifies; [done | done|]. unfold is_byte. destruct (is_tcp proto); lia.
Qed.

(** ** Reading a capture back *)

Lemma read_put_le32 v rest : 0 <= v < 2^32 -> read_le32 (put_le32 v ++ rest) = Some (v, rest).
Proof.
  intros Hv. unfold put_le32, put_le16. cbn [app read_le32]. do 2 f_equal. unfold le16.
  pose proof (be32_roundtrip v Hv). lia.
Qed.

Lemma put_le32_nonempty v l : exists a k, put_le32 v ++ l = a :: k.
Proof. by eexists _, _. Qed.

Definition record_of (r : Z * list Z) : list Z := record_header r.1 (len r.2) ++ r.2.
Definition record_ok (r : Z * list Z) : Prop := 0 < r.1 < 2^32 * 1000 /\ 0 < len r.2 < 2^32.
Definition record_view (r : Z * list Z) : Z * Z * list Z := (r.1 / 1000, r.1 mod 1000 * 1000, r.2).

Lemma read_records_app rs fuel : Forall record_ok rs -> (length rs <= fuel)%nat ->
  read_records fuel (concat (map record_of rs)) = Some (map record_view rs).
Proof.
  intros Hr. revert fuel. induction Hr as [|[ts p] rs [Hts Hp] Hrs IH]; intros fuel Hf; [by destruct fuel|].
  destruct fuel as [|fuel]; [cbn in Hf; lia|]. cbn [map concat]. cbn [fst snd] in *.
  unfold record_of at 1. cbn [fst snd]. unfold record_header. rewrite <- !app_assoc.
  set (tail := p ++ concat (map record_of rs)).
  assert (E1 : 0 <= wrapu32 (Z.quot ts 1000) < 2^32 /\ wrapu32 (Z.quot ts 1000) = ts / 1000).
  { rewrite Z.quot_div_nonneg by lia. pose proof (Z.div_pos ts 1000). pose proof (Z.div_lt_upper_bound ts 1000 (2^32)).
    unfold wrapu32. rewrite Z.mod_small; lia. }
  assert (E2 : 0 <= wrapu32 (Z.rem ts 1000 * 1000) < 2^32 /\ wrapu32 (Z.rem ts 1000 * 1000) = ts mod 1000 * 1000).
  { rewrite Z.rem_mod_nonneg by lia. pose proof (Z.mod_pos_bound ts 1000). unfold wrapu32. rewrite Z.mod_small; lia. }
  assert (E3 : 0 <= wrapu32 (len p) < 2^32 /\ wrapu32 (len p) = len p) by (unfold wrapu32; rewrite Z.mod_small; lia).
  destruct E1 as [B1 E1], E2 as [B2 E2], E3 as [B3 E3].
  destruct (put_le32_nonempty (wrapu32 (Z.quot ts 1000)) (put_le32 (wrapu32 (Z.rem ts 1000 * 1000)) ++
    put_le32 (wrapu32 (len p)) ++ put_le32 (wrapu32 (len p)) ++ tail)) as (a & k & Ek).
  cbn [read_records]. rewrite Ek. rewrite <- Ek.
  rewrite !read_put_le32 by done. cbn [mbind option_bind]. rewrite !read_put_le32 by done. cbn [mbind option_bind].
  rewrite !read_put_le32 by done. cbn [mbind option_bind]. rewrite !read_put_le32 by done. cbn [mbind option_bind].
  rewrite Z.eqb_refl, E1, E2, E3.
  assert (Hl : len p <= len tail) by (unfold tail; len_lia).
  rewrite (proj2 (Z.leb_le _ _)) by done. cbn [andb]. unfold tail, len. rewrite Nat2Z.id, drop_app_length, take_app_length.
  rewrite IH by (cbn in Hf; lia). done.
Qed.

(** Writing packets, each without a fault; [now] is not read since the times are given. *)
Definition write_all (now : Z) (path : string) (file : list Z) (rs : list (Z * list Z)) : list Z :=
  foldl (fun f r => (WritePacketToPcap None now path f r.2 r.1).1) file rs.

Lemma write_one now path file r : record_ok r ->
  (WritePacketToPcap None now path file r.2 r.1).1 = WritePcapGlobalHeader file 101 ++ record_of r.
Proof.
  intros [Hts Hp]. unfold WritePacketToPcap. rewrite (proj2 (Z.eqb_neq (len r.2) 0)), (proj2 (Z.leb_gt r.1 0)) by lia.
  cbn [fst]. unfold record_of. by rewrite <- app_assoc.
Qed.

Lemma write_all_app now path file rs : 0 < len file -> Forall record_ok rs ->
  write_all now path file rs = file ++ concat (map record_of rs).
Proof.
  intros Hf Hr. unfold write_all. revert file Hf. induction Hr as [|r rs Hro Hrs IH]; intros file Hf; [by rewrite app_nil_r|].
  cbn [foldl map concat]. rewrite write_one by done. unfold WritePcapGlobalHeader.
  rewrite (proj2 (Z.ltb_lt 0 _)), IH, <- app_assoc; [done | | done]. len_lia.
Qed.

(** A capture can be read back: the file written by any sequence of packets
    is a PCAP file of raw IP packets, and a reader of the format finds exactly
    these packets, with their times to the millisecond. *)
Theorem pcap_roundtrip now path rs : rs <> [] -> Forall record_ok rs ->
  read_pcap (write_all now path [] rs) = Some (101, map record_view rs).
Proof.
  intros Hne Hr. destruct rs as [|[ts p] rs]; [done|].
  assert (Hw : write_all now path [] ((ts, p) :: rs) = global_header 101 ++ concat (map record_of ((ts, p) :: rs))).
  { apply Forall_cons in Hr as [Hro Hr]. change (write_all now path [] ((ts, p) :: rs)) with
      (write_all now path (WritePacketToPcap None now path [] (ts, p).2 (ts, p).1).1 rs).
    rewrite write_one by done. change (WritePcapGlobalHeader [] 101) with (global_header 101).
    assert (Hg : len (global_header 101) = 24) by reflexivity.
    rewrite write_all_app; [by rewrite <- app_assoc | | done]. len_lia. }
  rewrite Hw. set (body := concat _). unfold read_pcap, global_header. rewrite <- !app_assoc.
  assert (Hver : put_le16 2 ++ put_le16 4 ++ put_le32 0 ++ put_le32 0 ++ put_le32 65535 ++ put_le32 101 ++ body =
    put_le32 (2 + 65536 * 4) ++ put_le32 0 ++ put_le32 0 ++ put_le32 65535 ++ put_le32 101 ++ body) by reflexivity.
  rewrite Hver. do 6 (rewrite !read_put_le32 by lia; cbn [mbind option_bind]).
  change ((2712847316 =? 2712847316) && (2 + 65536 * 4 =? 2 + 65536 * 4)) with true. cbv iota.
  unfold body. rewrite read_records_app; [done | done|].
  clear. generalize ((ts, p) :: rs). intros l. induction l as [|r l IH]; cbn [map concat length]; [lia|].
  rewrite length_app. unfold record_of at 1, record_header. rewrite !length_app. cbn [put_le32 put_le16 app length]. lia.
Qed.

Lemma synthesize_dissect_witness :
  exists d, DissectPacket (SynthesizeRawIPv4Packet 7 "udp" "192.0.2.9" 4000 "bogus" 53 2 1 2 0 (threat_payload "SCAN" "x" 53)) = Done d.
Proof.
  destruct (synthesize_dissect 7 "udp" "192.0.2.9" 4000 "bogus" 53 2 1 2 0 (threat_payload "SCAN" "x" 53))
    as (_ & app & info & meta & _ & E); [|vm_compute; congruence|lia..|by eexists].
  vm_compute. repeat constructor; congruence.
Defined.

Lemma pcap_roundtrip_witness :
  read_pcap (write_all 0 "t.pcap" [] [(1700000000123, [69; 0; 1]); (1700000000124, [96])]) =
    Some (101, [(1700000000, 123000, [69; 0; 1]); (1700000000, 124000, [96])]).
Proof.
  rewrite (pcap_roundtrip 0 "t.pcap" [(1700000000123, [69; 0; 1]); (1700000000124, [96])]);
    [reflexivity | done | repeat constructor].
Defined.
End Pcap.
