(* ===== verification/RemoteNode.v ===== *)
(** * Commands for remote nodes (src/pkg/security/remote_node.go)

    The master runs commands on edge nodes over ssh.  The text of a command is
    interpreted by the node's shell, so what matters is how a POSIX shell splits
    it; [shell_words] is that splitting for simple commands. *)
From S2P Require Import Prelude GoStrings.
Open Scope Z_scope.

Module RemoteNode.
(** Errors with the data their messages show. *)
Inductive node_error :=
  | EmptyClientID | ClientIDTooLong | ClientIDHyphen (id : string) | ClientIDChar (id : string)
  | EmptyHost | InsecureHost (host : string) | InsecureUser (user : string) | InsecureKey (key : string).

Definition id_char (a : ascii) : bool := is_lower a || is_upper a || is_digit a || in_set "-_.@:" a.

(** [None]: the identifier is accepted.  A byte that is not ASCII belongs to a rune
    that is not in the list of allowed ones. *)
Definition ValidateRemoteClientID (clientID : string) : option node_error :=
  if clientID =s "" then Some EmptyClientID
  else if 256 <? str_len clientID then Some ClientIDTooLong
  else if HasPrefix clientID "-" then Some (ClientIDHyphen clientID)
  else if str_exists (fun a => negb (id_char a)) clientID then Some (ClientIDChar clientID)
  else None.

Definition quote : ascii := ascii_of_nat 39.
Definition backslash : ascii := ascii_of_nat 92.
Definition nul : ascii := ascii_of_nat 0.
Definition dquote : ascii := ascii_of_nat 34.

Definition quote_str : string := String quote "".
(** The text [quote backslash quote quote] that stands for a quote. *)
Definition escaped_quote : string := String quote (String backslash (String quote quote_str)).

Definition ShellEscape (s : string) : string :=
  let s := ReplaceByte s nul "" in
  quote_str ^^ ReplaceByte s quote escaped_quote ^^ quote_str.

Definition tab : ascii := ascii_of_nat 9.
Definition lf : ascii := ascii_of_nat 10.
Definition cr : ascii := ascii_of_nat 13.
Definition key_chars : string :=
  String cr (String lf (String quote (String dquote "`;&|$(){}"))).
Definition target_chars : string := String " " (String tab key_chars).

Definition BuildRemoteNodeSSHArgs (host : string) (port : Z) (user sshKey remoteCmd : string)
    : node_error + list string :=
  if host =s "" then inl EmptyHost
  else if HasPrefix host "-" || ContainsAny host target_chars then inl (InsecureHost host)
  else
    let user := if user =s "" then "root"%string else user in
    if HasPrefix user "-" || ContainsAny user target_chars then inl (InsecureUser user)
    else
      let port := if port <=? 0 then 22 else port in
      let args := ["-p"; Itoa port; "-o"; "BatchMode=yes"; "-o"; "StrictHostKeyChecking=accept-new";
                   "-o"; "ConnectTimeout=5"]%string in
      let finish args := inr (args ++ ["--"%string; user ^^ "@" ^^ host; remoteCmd]) in
      if sshKey <>s "" then
        if HasPrefix sshKey "-" || ContainsAny sshKey key_chars then inl (InsecureKey sshKey)
        else finish (args ++ ["-i"%string; sshKey])
      else finish args.

Record RemoteNodeClient := mkClient { Host : string; Port : Z; User : string; SSHKey : string; Password : string }.

Definition NewRemoteNodeClient (host : string) (port : Z) (user sshKey : string) : RemoteNodeClient :=
  mkClient host (if port <=? 0 then 22 else port) (if user =s "" then "root" else user) sshKey "".

Definition quarantine_command (clientID reason : string) : string :=
  "sentinel-core security quarantine --client=" ^^ clientID ^^ " --reason=" ^^ ShellEscape reason.
Definition unquarantine_command (clientID : string) : string :=
  "sentinel-core security unquarantine --client=" ^^ clientID.
Definition journal_command (lines : Z) : string :=
  let lines := if lines <=? 0 then 50 else lines in
  let lines := if 10000 <? lines then 10000 else lines in
  "sentinel-core security journal --lines=" ^^ Itoa lines.

(** The arguments handed to ssh, or the error before anything runs. *)
Definition ssh_command (c : RemoteNodeClient) (remoteCmd : string) : node_error + list string :=
  BuildRemoteNodeSSHArgs (Host c) (Port c) (User c) (SSHKey c) remoteCmd.
Definition QuarantineClient (c : RemoteNodeClient) (clientID reason : string) : node_error + list string :=
  match ValidateRemoteClientID clientID with
  | Some e => inl e
  | None => ssh_command c (quarantine_command clientID reason)
  end.
Definition UnquarantineClient (c : RemoteNodeClient) (clientID : string) : node_error + list string :=
  match ValidateRemoteClientID clientID with
  | Some e => inl e
  | None => ssh_command c (unquarantine_command clientID)
  end.
Definition GetSecurityStatus (c : RemoteNodeClient) := ssh_command c "sentinel-core security status".
Definition FetchThreatJournal (c : RemoteNodeClient) (lines : Z) := ssh_command c (journal_command lines).
Definition ReloadNodeCores (c : RemoteNodeClient) := ssh_command c "sentinel-core supervisor reload".

(** ** How a POSIX shell reads a command

    [None]: the text is not one simple command of literal words - an operator, an
    expansion, a comment, a pattern, a double quote or an open quote is in it. *)
Definition shell_plain (a : ascii) : bool := is_lower a || is_upper a || is_digit a || in_set "-_.@:=/,+%" a.

Definition finish_word (inword : bool) (word : string) (words : list string) : list string :=
  if inword then words ++ [word] else words.

Fixpoint shell_split (s : string) (quoted inword : bool) (word : string) (words : list string) : option (list string) :=
  match s with
  | EmptyString => if quoted then None else Some (finish_word inword word words)
  | String a s =>
      if quoted then
        if Ascii.eqb a nul then None
        else if Ascii.eqb a quote then shell_split s false true word words
        else shell_split s true true (word ^^ String a "") words
      else if Ascii.eqb a quote then shell_split s true true word words
      else if Ascii.eqb a backslash then
        match s with
        | String b s' => if Ascii.eqb b nul || Ascii.eqb b lf then None
                         else shell_split s' false true (word ^^ String b "") words
        | EmptyString => None
        end
      else if Ascii.eqb a " " || Ascii.eqb a tab then shell_split s false false "" (finish_word inword word words)
      else if shell_plain a then shell_split s false true (word ^^ String a "") words
      else None
  end.
Definition shell_words (s : string) : option (list string) := shell_split s false false "" [].

Lemma shell_plain_step a s w ws inw : shell_plain a = true ->
  shell_split (String a s) false inw w ws = shell_split s false true (w ^^ String a "") ws.
Proof.
  intros Ha. cbn [shell_split].
  assert (Hne : forall b, shell_plain b = false -> Ascii.eqb a b = false).
  { intros b Hb. apply Ascii.eqb_neq. intros ->. congruence. }
  by rewrite !Hne, Ha by reflexivity.
Qed.

Lemma shell_plain_string p s w ws inw : str_exists (fun a => negb (shell_plain a)) p = false -> p <> ""%string ->
  shell_split (p ^^ s) false inw w ws = shell_split s false true (w ^^ p) ws.
Proof.
  revert w inw. induction p as [|a p IH]; intros w inw Hp Hne; [done|]. cbn in Hp. apply orb_false_iff in Hp as [Ha Hp].
  apply negb_false_iff in Ha. cbn [String.append]. rewrite shell_plain_step by done.
  destruct p as [|b p]; [done|]. rewrite IH by done. by rewrite str_app_assoc.
Qed.

(** The escaped text is read back, without the NUL bytes. *)
Lemma shell_escaped r w ws t : str_exists (fun a => Ascii.eqb a nul) r = false ->
  shell_split (ReplaceByte r quote escaped_quote ^^ t) true true w ws = shell_split t true true (w ^^ r) ws.
Proof.
  revert w. induction r as [|a r IH]; intros w Hn; [by rewrite str_app_nil_r|].
  cbn in Hn. apply orb_false_iff in Hn as [Ha Hn]. cbn [ReplaceByte].
  destruct (Ascii.eqb_spec a quote) as [->|Hq].
  - rewrite str_app_assoc. change (shell_split (escaped_quote ^^ ?x) true true w ws)
      with (shell_split x true true (w ^^ String quote "") ws). rewrite IH by done. by rewrite str_app_assoc.
  - cbn [String.append shell_split]. rewrite Ha. apply Ascii.eqb_neq in Hq. rewrite Hq, IH by done. by rewrite str_app_assoc.
Qed.

Lemma ReplaceByte_removes s c : str_exists (fun a => Ascii.eqb a c) (ReplaceByte s c "") = false.
Proof. induction s as [|a s IH]; [done|]. cbn [ReplaceByte]. destruct (Ascii.eqb a c) eqn:E; [done|]. cbn. by rewrite E. Qed.

Lemma id_char_plain a : id_char a = true -> shell_plain a = true.
Proof.
  unfold id_char, shell_plain. rewrite !orb_true_iff. intros H. destruct H as [H|H]; [tauto|]. right.
  revert H. unfold in_set. cbn. rewrite !orb_true_iff. tauto.
Qed.

Lemma valid_id_plain id : ValidateRemoteClientID id = None ->
  id <> ""%string /\ str_exists (fun a => negb (shell_plain a)) id = false.
Proof.
  unfold ValidateRemoteClientID. destruct (String.eqb_spec id ""); [done|]. destruct (256 <? _); [done|].
  destruct (HasPrefix id "-"); [done|]. destruct (str_exists _ id) eqn:E; [done|]. intros _. split; [done|].
  clear n. induction id as [|a id IH]; [done|]. cbn in E |- *. apply orb_false_iff in E as [Ha E].
  apply negb_false_iff, id_char_plain in Ha. rewrite Ha. by apply IH.
Qed.

Lemma quarantine_words id reason : ValidateRemoteClientID id = None ->
  shell_words (quarantine_command id reason) =
    Some ["sentinel-core"; "security"; "quarantine"; "--client=" ^^ id; "--reason=" ^^ ReplaceByte reason nul ""]%string.
Proof.
  intros [Hne Hid]%valid_id_plain. unfold shell_words, quarantine_command, ShellEscape.
  set (r := ReplaceByte reason nul ""). assert (Hr : str_exists (fun a => Ascii.eqb a nul) r = false) by apply ReplaceByte_removes.
  clearbody r. change (shell_split ("sentinel-core security quarantine --client=" ^^ ?x) false false "" [])
    with (shell_split x false true "--client=" ["sentinel-core"; "security"; "quarantine"]%string).
  rewrite shell_plain_string by done.
  change (shell_split (" --reason=" ^^ quote_str ^^ ?x) false true ?w ?ws)
    with (shell_split x true true "--reason=" (ws ++ [w])).
  rewrite shell_escaped by done. reflexivity.
Qed.

Lemma unquarantine_words id : ValidateRemoteClientID id = None ->
  shell_words (unquarantine_command id) = Some ["sentinel-core"; "security"; "unquarantine"; "--client=" ^^ id]%string.
Proof.
  intros [Hne Hid]%valid_id_plain. unfold shell_words, unquarantine_command.
  change (shell_split ("sentinel-core security unquarantine --client=" ^^ ?x) false false "" [])
    with (shell_split x false true "--client=" ["sentinel-core"; "security"; "unquarantine"]%string).
  rewrite <- (str_app_nil_r id) at 1. by rewrite shell_plain_string.
Qed.

(** The number of records that is asked for. *)
Definition journal_lines (lines : Z) : Z := if 10000 <? (if lines <=? 0 then 50 else lines) then 10000 else if lines <=? 0 then 50 else lines.
Lemma journal_lines_range lines : 1 <= journal_lines lines <= 10000.
Proof. unfold journal_lines. destruct (Z.leb_spec lines 0); [done|]. destruct (Z.ltb_spec 10000 lines); lia. Qed.
Lemma journal_words lines : shell_words (journal_command lines) =
  Some ["sentinel-core"; "security"; "journal"; "--lines=" ^^ Itoa (journal_lines lines)]%string.
Proof.
  pose proof (journal_lines_range lines) as Hl. unfold journal_command. fold (journal_lines lines). set (n := journal_lines lines) in *. clearbody n.
  assert (Hd : str_exists (fun a => negb (shell_plain a)) (Itoa n) = false).
  { apply Itoa_only; [lia|]. intros a Ha. unfold shell_plain. rewrite Ha, !orb_true_r. done. }
  assert (Hne : Itoa n <> ""%string) by (intros E; assert (Hz : Atoi (Itoa n) = Some n) by (apply Atoi_Itoa; unfold maxInt64; lia); by rewrite E in Hz).
  unfold shell_words. change (shell_split ("sentinel-core security journal --lines=" ^^ ?x) false false "" [])
    with (shell_split x false true "--lines=" ["sentinel-core"; "security"; "journal"]%string).
  rewrite <- (str_app_nil_r (Itoa n)) at 1. by rewrite shell_plain_string.
Qed.

Lemma ContainsAny_app s t chars : ContainsAny (s ^^ t) chars = ContainsAny s chars || ContainsAny t chars.
Proof. apply str_exists_app. Qed.

Lemma no_hyphen_app u s : u <> ""%string -> HasPrefix u "-" = false -> HasPrefix (u ^^ s) "-" = false.
Proof.
  intros Hu Hp. apply not_true_iff_false. intros [t Ht]%HasPrefix_spec. destruct u as [|a u]; [done|].
  cbn in Ht. injection Ht as -> _. apply not_true_iff_false in Hp. apply Hp, HasPrefix_spec. by exists u.
Qed.

(** The arguments of ssh: options, the separator, a target that is no option and
    holds no shell character, and the command. *)
Lemma ssh_args_shape host port user key cmd args : BuildRemoteNodeSSHArgs host port user key cmd = inr args ->
  exists target, args =
      ["-p"; Itoa (if port <=? 0 then 22 else port)%Z; "-o"; "BatchMode=yes"; "-o"; "StrictHostKeyChecking=accept-new";
       "-o"; "ConnectTimeout=5"]%string ++ (if key =s "" then [] else ["-i"%string; key]) ++ ["--"%string; target; cmd] /\
    HasPrefix target "-" = false /\ ContainsAny target target_chars = false /\ HasPrefix key "-" = false.
Proof.
  unfold BuildRemoteNodeSSHArgs. destruct (host =s ""); [done|].
  destruct (HasPrefix host "-" || ContainsAny host target_chars) eqn:Eh; [done|].
  apply orb_false_iff in Eh as [_ Eh]. set (u := if user =s "" then "root"%string else user).
  assert (Hu : u <> ""%string) by (unfold u; by destruct (String.eqb_spec user "")). clearbody u.
  destruct (HasPrefix u "-" || ContainsAny u target_chars) eqn:Eu; [done|]. apply orb_false_iff in Eu as [Eu1 Eu2].
  assert (Ht : HasPrefix (u ^^ "@" ^^ host) "-" = false /\ ContainsAny (u ^^ "@" ^^ host) target_chars = false).
  { split; [by apply no_hyphen_app | by rewrite !ContainsAny_app, Eu2, Eh]. }
  destruct Ht as [Ht1 Ht2]. destruct (String.eqb_spec key "") as [->|Hk]; cbn [negb].
  - intros [= <-]. by exists (u ^^ "@" ^^ host).
  - destruct (HasPrefix key "-" || ContainsAny key key_chars) eqn:Eq; [done|]. apply orb_false_iff in Eq as [Eq _].
    intros [= <-]. by exists (u ^^ "@" ^^ host).
Qed.

(** C12. No injection into a remote node: when a client is quarantined, ssh gets
    its options, the separator, a target that is neither an option nor holds a
    shell character, and one command; and the shell of the node reads that
    command as exactly the five intended words - whatever the identifier that was
    accepted and whatever bytes the reason holds, NUL bytes being dropped. *)
Theorem quarantine_no_injection c id reason args : QuarantineClient c id reason = inr args ->
  exists opts target cmd, args = opts ++ ["--"%string; target; cmd] /\
    Forall (fun o => o <> "--"%string) (removelast opts) /\
    HasPrefix target "-" = false /\ ContainsAny target target_chars = false /\
    shell_words cmd = Some ["sentinel-core"; "security"; "quarantine"; "--client=" ^^ id;
                            "--reason=" ^^ ReplaceByte reason nul ""]%string.
Proof.
  unfold QuarantineClient. destruct (ValidateRemoteClientID id) eqn:Ev; [done|]. intros H.
  apply ssh_args_shape in H as (target & -> & Ht1 & Ht2 & Hk).
  eexists _, target, _. split; [by rewrite app_assoc|]. split; [|split; [done|split; [done | by apply quarantine_words]]].
  assert (Hp : Itoa (if Port c <=? 0 then 22 else Port c) <> "--"%string).
  { intros E. destruct (Z.leb_spec (Port c) 0) as [|Hpos]; [by vm_compute in E|].
    assert (Hno : str_exists (fun a => Ascii.eqb a "-") (Itoa (Port c)) = false).
    { apply Itoa_only; [lia|]. intros a Ha. by apply is_digit_ne. }
    by rewrite E in Hno. }
  destruct (SSHKey c =s ""); cbn; repeat (constructor; [done|]); repeat constructor; done.
Qed.

Definition node_demo : RemoteNodeClient := NewRemoteNodeClient "edge-1.example.org" 0 "" "/etc/key".

Lemma quarantine_no_injection_witness :
  exists args cmd, QuarantineClient node_demo "user@example.org" "it's; rm -rf /" = inr args /\
    last args = Some cmd /\
    shell_words cmd = Some ["sentinel-core"; "security"; "quarantine"; "--client=user@example.org";
                            "--reason=it's; rm -rf /"]%string.
Proof.
  destruct (QuarantineClient node_demo "user@example.org" "it's; rm -rf /") as [e|args] eqn:E; [vm_compute in E; discriminate|].
  destruct (quarantine_no_injection node_demo "user@example.org" "it's; rm -rf /" args E) as (opts & target & cmd & -> & _ & _ & _ & H).
  exists (opts ++ ["--"%string; target; cmd]), cmd. split; [done|]. split; [|exact H].
  by rewrite last_app.
Defined.

Example injection_examples :
  shell_words "sentinel-core --reason=a; rm -rf /" = None /\ ValidateRemoteClientID "x;y" = Some (ClientIDChar "x;y").
Proof. vm_compute. done. Qed.
End RemoteNode.
