(* ===== verification/Matrix.v ===== *)
(** * Capabilities and negotiation (src/pkg/matrix/capabilities.go, negotiator.go)

    Before a profile is compiled for a core, the features the core lacks are
    removed from it, or - in strict mode - refused.  A localised message is its
    key with the arguments. *)
From S2P Require Import Prelude GoStrings Ast.
Open Scope Z_scope.

Module Matrix.
Definition Feature := string.
Definition FeaturePostQuantumTLS : Feature := "post_quantum_tls".
Definition FeatureReality : Feature := "reality".
Definition FeatureFlowVision : Feature := "flow_vision".
Definition FeatureTUIC : Feature := "tuic_v5".
Definition FeatureShadowTLS : Feature := "shadowtls".
Definition FeatureHysteria2 : Feature := "hysteria2".
Definition FeatureSalamander : Feature := "salamander_obfs".
Definition FeaturePortHopping : Feature := "port_hopping".
Definition FeatureRuleSet : Feature := "rule_set_srs".
Definition FeatureXHTTP : Feature := "xhttp_splithttp".
Definition FeatureHTTPUpgrade : Feature := "http_upgrade".
Definition FeatureMux : Feature := "multiplex".
Definition FeatureClashAPI : Feature := "clash_api".
Definition FeatureRouting : Feature := "routing_rules".
Definition FeatureChainedInbound : Feature := "chained_inbounds".
Definition FeatureTun : Feature := "tun_interface".

Record CoreCapabilities := mkCaps {
  Core : TargetCore;
  MinVersion : string;
  MaxVersion : string;
  SupportedProtos : gmap string bool;
  SupportedFeatures : gmap Feature bool;
}.

Definition flags (l : list (string * bool)) : gmap string bool := list_to_map l.
Definition all_true (l : list string) : gmap string bool := list_to_map (map (fun p => (p, true)) l).

(** Go compares the strings. *)
Definition isVersionGe (actual target : string) : bool :=
  if actual =s "" then true else negb (str_ltb (TrimPrefix actual "v") (TrimPrefix target "v")).

Definition GetCapabilities (core : TargetCore) (version : string) : CoreCapabilities :=
  let coreStr := ToLower core in
  if (coreStr =s "xray") || (coreStr =s "xray-core") then
    mkCaps CoreXray "" ""
      (all_true [ProtoVLESS; ProtoVMess; ProtoTrojan; ProtoShadowsocks; ProtoWireGuard; ProtoHysteria2; ProtoSocks;
                 ProtoHTTP; ProtoDirect; ProtoBlock])
      (all_true [FeaturePostQuantumTLS; FeatureReality; FeatureFlowVision; FeatureXHTTP; FeatureHTTPUpgrade;
                 FeatureMux; FeatureRouting; FeatureChainedInbound])
  else if (coreStr =s "singbox") || (coreStr =s "sing-box") then
    mkCaps CoreSingBox "" ""
      (all_true [ProtoVLESS; ProtoVMess; ProtoTrojan; ProtoShadowsocks; ProtoShadowTLS; ProtoHysteria2; ProtoTUIC;
                 ProtoWireGuard; ProtoSocks; ProtoHTTP; ProtoDirect; ProtoBlock])
      (flags [(FeaturePostQuantumTLS, false); (FeatureReality, true); (FeatureFlowVision, true); (FeatureTUIC, true);
              (FeatureShadowTLS, true); (FeatureHysteria2, true); (FeatureSalamander, true);
              (FeatureRuleSet, isVersionGe version "1.12.0"); (FeatureMux, true); (FeatureClashAPI, true);
              (FeatureRouting, true); (FeatureChainedInbound, true); (FeatureTun, true)])
  else if (coreStr =s "hysteria") || (coreStr =s "hysteria2") || (coreStr =s "hy2") then
    mkCaps CoreHysteria2 "" "" (all_true [ProtoHysteria2; ProtoDirect; ProtoBlock])
      (flags [(FeatureHysteria2, true); (FeatureSalamander, true); (FeaturePortHopping, true); (FeatureRouting, false);
              (FeatureChainedInbound, false); (FeatureTun, false)])
  else if (coreStr =s "wireguard") || (coreStr =s "wg") then
    mkCaps CoreWireGuard "" "" (all_true [ProtoWireGuard]) ∅
  else mkCaps core "" "" ∅ ∅.

Definition IsProtocolSupported (c : CoreCapabilities) (proto : string) : bool :=
  default false (SupportedProtos c !! ToLower proto).
Definition IsFeatureSupported (c : CoreCapabilities) (feat : Feature) : bool :=
  default false (SupportedFeatures c !! feat).

Inductive message := Localised (key : string) (args : list string) | Plain (text : string).

Record NegotiationWarning := mkWarning { w_Feature : Feature; w_Message : message; w_Action : string }.

Definition node_update (p : ServerProfile) (transport : string) (pq : bool) (flow enc : string) : ServerProfile :=
  update_profile p (p_Protocol p) (p_Address p) transport (p_Security p) (p_Fingerprint p) pq flow enc.

(** A step of the negotiation: the adapted node and the warnings so far, or an error. *)
Definition step := (message + ServerProfile * list NegotiationWarning)%type.

Definition wants_pq (node : ServerProfile) : bool :=
  p_PostQuantum node || ((p_Encryption node <>s "") && (p_Encryption node <>s "none")).

Definition negotiate_pq caps (core version : string) (strict : bool) (node : ServerProfile) : step :=
  if wants_pq node && negb (IsFeatureSupported caps FeaturePostQuantumTLS) then
    if strict then inl (Localised "ERR_PQ_STRICT_MODE" [p_Name node; core; version])
    else inr (node_update node (p_Transport node) false (p_Flow node) "",
              [mkWarning FeaturePostQuantumTLS (Localised "PQ_DOWNGRADED_SINGBOX" [core]) "DOWNGRADED_TO_STANDARD_X25519"])
  else inr (node, []).

Definition not_over_reality (t : string) : bool :=
  (t =s "ws") || (t =s "websocket") || (t =s "httpupgrade") || (t =s "h2") || (t =s "http").

(** [node] is the original, [a] the adapted one. *)
Definition negotiate_reality caps (core : string) (strict : bool) (node a : ServerProfile)
    (ws : list NegotiationWarning) : step :=
  if p_Security node =s SecurityReality then
    if negb (IsFeatureSupported caps FeatureReality) then inl (Localised "ERR_REALITY_UNSUPPORTED" [core; p_Protocol node])
    else if core =s CoreXray then
      let t := ToLower (p_Transport node) in
      if not_over_reality t then
        if strict then inl (Plain "Xray REALITY only supports RAW, gRPC, and XHTTP transports")
        else inr (node_update a "tcp" (p_PostQuantum a) (p_Flow a) (p_Encryption a),
                  ws ++ [mkWarning FeatureReality
                    (Plain ("Xray does not support Reality over " ^^ t ^^ " transport; adapted to TCP/RAW"))
                    "ADAPTED_TRANSPORT_TO_RAW_FOR_XRAY_REALITY"])
      else inr (a, ws)
    else inr (a, ws)
  else inr (a, ws).

Definition negotiate_flow caps (core : string) (strict : bool) (node a : ServerProfile)
    (ws : list NegotiationWarning) : step :=
  if (p_Flow node <>s "") && negb (IsFeatureSupported caps FeatureFlowVision) then
    if strict then inl (Localised "ERR_FLOW_VISION_STRICT" [core; p_Flow node])
    else inr (node_update a (p_Transport a) (p_PostQuantum a) "" (p_Encryption a),
              ws ++ [mkWarning FeatureFlowVision (Localised "FLOW_VISION_STRIPPED" [p_Flow node; core])
                      "STRIPPED_UNSUPPORTED_FLOW"])
  else inr (a, ws).

Definition Negotiate (node : option ServerProfile) (core : TargetCore) (version : string) (strict : bool) : step :=
  match node with
  | None => inl (Localised "ERR_SERVER_NODE_NIL" [])
  | Some node =>
      let caps := GetCapabilities core version in
      if negb (IsProtocolSupported caps (p_Protocol node)) then
        inl (Localised "ERR_UNSUPPORTED_PROTOCOL_SUGGEST" [core; p_Protocol node])
      else
        match negotiate_pq caps core version strict node with
        | inl e => inl e
        | inr (a, ws) =>
            match negotiate_reality caps core strict node a ws with
            | inl e => inl e
            | inr (a, ws) => negotiate_flow caps core strict node a ws
            end
        end
  end.
Definition AutoNegotiate := Negotiate.

(** ** What the target core may be given *)

(** Nothing in the profile needs a feature that the core lacks. *)
Record acceptable (core : TargetCore) (version : string) (n : ServerProfile) : Prop := mkAcceptable {
  ok_proto : IsProtocolSupported (GetCapabilities core version) (p_Protocol n) = true;
  ok_pq : wants_pq n = true -> IsFeatureSupported (GetCapabilities core version) FeaturePostQuantumTLS = true;
  ok_reality : p_Security n = SecurityReality ->
    IsFeatureSupported (GetCapabilities core version) FeatureReality = true /\
    (core = CoreXray -> not_over_reality (ToLower (p_Transport n)) = false);
  ok_flow : p_Flow n <> ""%string -> IsFeatureSupported (GetCapabilities core version) FeatureFlowVision = true;
}.

Lemma acceptable_unchanged core version strict n : acceptable core version n ->
  Negotiate (Some n) core version strict = inr (n, []).
Proof.
  intros [H1 H2 H3 H4]. unfold Negotiate. rewrite H1. cbn [negb].
  unfold negotiate_pq. destruct (wants_pq n); [rewrite H2 by done|]; cbn [andb negb].
  all: unfold negotiate_reality; destruct (String.eqb_spec (p_Security n) SecurityReality) as [Es|].
  1, 3: destruct (H3 Es) as [-> Hx]; cbn [negb]; destruct (String.eqb_spec core CoreXray) as [->|];
    [rewrite (Hx eq_refl)|].
  all: unfold negotiate_flow; destruct (String.eqb_spec (p_Flow n) "") as [|Hf]; cbn [andb negb]; [done | by rewrite H4].
Qed.

Lemma node_update_id n : node_update n (p_Transport n) (p_PostQuantum n) (p_Flow n) (p_Encryption n) = n.
Proof. by destruct n. Qed.

(** Each step: what it leaves of the profile. *)
Lemma negotiate_pq_spec caps core version strict n a ws : negotiate_pq caps core version strict n = inr (a, ws) ->
  a = node_update n (p_Transport n) (p_PostQuantum a) (p_Flow n) (p_Encryption a) /\
  (wants_pq a = true -> IsFeatureSupported caps FeaturePostQuantumTLS = true) /\
  (strict = true -> a = n /\ ws = []).
Proof.
  unfold negotiate_pq. destruct (wants_pq n) eqn:E1, (IsFeatureSupported caps FeaturePostQuantumTLS) eqn:E2; cbn [andb negb];
    [| destruct strict; [done|] | |]; intros [= <- <-]; rewrite ?node_update_id; try (by rewrite E1); by repeat split.
Qed.

Lemma negotiate_reality_spec caps core strict n a ws a' ws' :
  negotiate_reality caps core strict n a ws = inr (a', ws') ->
  a = node_update n (p_Transport n) (p_PostQuantum a) (p_Flow n) (p_Encryption a) ->
  a' = node_update n (p_Transport a') (p_PostQuantum a) (p_Flow n) (p_Encryption a) /\
  (p_Security n = SecurityReality -> IsFeatureSupported caps FeatureReality = true /\
    (core = CoreXray -> not_over_reality (ToLower (p_Transport a')) = false)) /\
  (strict = true -> a' = a /\ ws' = ws).
Proof.
  intros H Ha. assert (Et : p_Transport a = p_Transport n) by (by rewrite Ha).
  assert (Hsame : a = node_update n (p_Transport a) (p_PostQuantum a) (p_Flow n) (p_Encryption a)) by (by rewrite Et).
  revert H. unfold negotiate_reality.
  destruct (String.eqb_spec (p_Security n) SecurityReality) as [Es|Es]; [|by intros [= <- <-]].
  destruct (IsFeatureSupported caps FeatureReality); cbn [negb]; [|done].
  destruct (String.eqb_spec core CoreXray) as [Ex|Ex]; [|by intros [= <- <-]].
  destruct (not_over_reality (ToLower (p_Transport n))) eqn:En.
  - destruct strict; [done|]. intros [= <- <-]. split; [|by repeat split]. by rewrite Ha.
  - intros [= <- <-]. rewrite Et. split; [by rewrite <- Et|]. by repeat split.
Qed.

Lemma negotiate_flow_spec caps core strict n a ws a' ws' :
  negotiate_flow caps core strict n a ws = inr (a', ws') ->
  a = node_update n (p_Transport a) (p_PostQuantum a) (p_Flow n) (p_Encryption a) ->
  a' = node_update n (p_Transport a) (p_PostQuantum a) (p_Flow a') (p_Encryption a) /\
  (p_Flow a' <> ""%string -> IsFeatureSupported caps FeatureFlowVision = true) /\
  (strict = true -> a' = a /\ ws' = ws).
Proof.
  intros H Ha. assert (Ef : p_Flow a = p_Flow n) by (by rewrite Ha).
  assert (Hsame : a = node_update n (p_Transport a) (p_PostQuantum a) (p_Flow a) (p_Encryption a)) by (by rewrite Ef).
  revert H. unfold negotiate_flow.
  destruct (String.eqb_spec (p_Flow n) "") as [E|E], (IsFeatureSupported caps FeatureFlowVision); cbn [negb andb];
    [| | | destruct strict; [done|]]; intros [= <- <-]; try (by repeat split; rewrite ?Ef).
  split; [|done]. by rewrite Ha.
Qed.

(** Negotiation: a profile that comes out needs nothing that the core lacks;
    one that needs nothing of the kind is left alone, so negotiating again changes
    nothing; in strict mode the profile is never altered; and only the transport,
    the post-quantum settings and the flow are ever touched. *)
Theorem negotiate_sound core version strict n n' ws :
  Negotiate (Some n) core version strict = inr (n', ws) ->
  acceptable core version n' /\
  (acceptable core version n -> n' = n /\ ws = []) /\
  Negotiate (Some n') core version strict = inr (n', []) /\
  (strict = true -> n' = n /\ ws = []) /\
  n' = node_update n (p_Transport n') (p_PostQuantum n') (p_Flow n') (p_Encryption n').
Proof.
  intros H. assert (Ha : acceptable core version n' /\ (strict = true -> n' = n /\ ws = []) /\
    n' = node_update n (p_Transport n') (p_PostQuantum n') (p_Flow n') (p_Encryption n')).
  { unfold Negotiate in H. destruct (IsProtocolSupported _ _) eqn:Hp; [|done]. cbn [negb] in H.
    destruct (negotiate_pq _ _ _ _ _) as [|[a ws1]] eqn:E1; [done|].
    destruct (negotiate_reality _ _ _ _ _ _) as [|[b ws2]] eqn:E2; [done|].
    destruct (negotiate_pq_spec _ _ _ _ _ _ _ E1) as (Ua & Pa & Sa).
    destruct (negotiate_reality_spec _ _ _ _ _ _ _ _ E2 Ua) as (Ub & Pb & Sb).
    assert (Eb : p_PostQuantum b = p_PostQuantum a /\ p_Encryption b = p_Encryption a) by (by rewrite Ub).
    destruct Eb as [Eb1 Eb2]. rewrite <- Eb1, <- Eb2 in Ub.
    destruct (negotiate_flow_spec _ _ _ _ _ _ _ _ H Ub) as (Uc & Pc & Sc).
    split; [|split].
    - rewrite Uc. constructor; cbn [node_update update_profile p_Protocol p_Security p_Transport p_Flow]; try done.
      intros Hw. apply Pa. revert Hw. unfold wants_pq. cbn [node_update update_profile p_PostQuantum p_Encryption]. by rewrite Eb1, Eb2.
    - intros Hst. destruct (Sa Hst) as [-> ->], (Sb Hst) as [-> ->]. by apply Sc.
    - rewrite Uc at 1. by rewrite Uc. }
  destruct Ha as (Ha & Hs & Hu). split; [done|]. split; [|split; [by apply acceptable_unchanged | done]].
  intros Hn. rewrite (acceptable_unchanged core version strict n Hn) in H. by injection H as <- <-.
Qed.

Definition empty_profile : ServerProfile :=
  mkProfile "" "" "" "" 0 "" "" "" "" "" "" [] "" false "" "" "" false "" "" false "" "" "" ∅ "" 0 "" "" "" "" "" "" ""
    "" "" "" false "" "" "" [] 0 [] [] [] "" "" 0 [] "".
Definition profile_demo : ServerProfile :=
  update_profile empty_profile ProtoVLESS "a.example" "ws" SecurityReality "" true "xtls-rprx-vision" "mlkem768".

Lemma negotiate_sound_witness : exists n' ws, Negotiate (Some profile_demo) CoreXray "1.8" false = inr (n', ws) /\
  acceptable CoreXray "1.8" n' /\ p_Transport n' = "tcp"%string.
Proof.
  destruct (Negotiate (Some profile_demo) CoreXray "1.8" false) as [e|[n' ws]] eqn:E; [vm_compute in E; discriminate|].
  exists n', ws. split; [done|]. split; [apply (negotiate_sound CoreXray "1.8" false profile_demo n' ws E)|].
  vm_compute in E. by injection E as <- _.
Defined.

(** Under its other names the Xray core is not recognised by the transport check. *)
Lemma alias_skips_reality_check : exists n' ws, Negotiate (Some profile_demo) "xray-core" "" false = inr (n', ws) /\
  p_Transport n' = "ws"%string.
Proof. eexists _, _. split; [reflexivity|]. vm_compute. reflexivity. Qed.

(** Versions are compared as strings. *)
Lemma old_version_is_newer : isVersionGe "1.9.0" "1.12.0" = true /\ isVersionGe "1.12.0" "1.9.0" = false.
Proof. vm_compute. done. Qed.
End Matrix.
