(* ===== verification/SingBox.v ===== *)
(** * The route and DNS sections of a sing-box configuration
    (src/pkg/compiler/singbox/routing.go, mirror.go, fallback.go, compiler.go)

    A JSON object is the list of its entries ([jmap]); the fields that are set
    under a condition are appended under it.  The decoding of settings that are
    JSON text is an argument, and so are the answers of the rule mirrors. *)
From S2P Require Import Prelude GoStrings Ast.
Open Scope Z_scope.

Module SingBox.
Section compiler.
Context {order : RangeOrder string} (unmarshal : string -> option jmap).

(** ** Rule mirrors (mirror.go) *)

Record RuleMirror := mkMirror {
  Name : string;
  GeositePattern : string;
  GeoipPattern : string;
  ProbeURL : string;
}.

Definition jsdelivr (name host : string) : RuleMirror := {|
  Name := name;
  GeositePattern := "https://" ^^ host ^^ "/gh/SagerNet/sing-geosite@rule-set/%s.srs";
  GeoipPattern := "https://" ^^ host ^^ "/gh/SagerNet/sing-geoip@rule-set/%s.srs";
  ProbeURL := "https://" ^^ host ^^ "/gh/SagerNet/sing-geosite@rule-set/geosite-vk.srs";
|}.

Definition github (name prefix : string) : RuleMirror := {|
  Name := name;
  GeositePattern := prefix ^^ "https://raw.githubusercontent.com/SagerNet/sing-geosite/rule-set/%s.srs";
  GeoipPattern := prefix ^^ "https://raw.githubusercontent.com/SagerNet/sing-geoip/rule-set/%s.srs";
  ProbeURL := prefix ^^ "https://raw.githubusercontent.com/SagerNet/sing-geosite/rule-set/geosite-vk.srs";
|}.

Definition firstMirror : RuleMirror := jsdelivr "fastly-jsdelivr" "fastly.jsdelivr.net".
Definition DefaultMirrors : list RuleMirror :=
  [firstMirror; jsdelivr "testingcf-jsdelivr" "testingcf.jsdelivr.net"; jsdelivr "gcore-jsdelivr" "gcore.jsdelivr.net";
   jsdelivr "cdn-jsdelivr" "cdn.jsdelivr.net"; github "gh-proxy" "https://gh-proxy.com/"; github "github-raw" ""].

Record mirrorCache := mkCache {
  cachedMirror : option RuleMirror;
  cachedMirrorDirect : bool;
  cachedMirrorTime : Z;
}.

(** [best]: the mirror that answered the probe, if one did; [later]: the clock
    after the probe. *)
Definition GetActiveRuleMirrorWithStatus (c : mirrorCache) (now : Z) (best : option RuleMirror) (later : Z)
    : RuleMirror * bool * mirrorCache :=
  let refresh :=
    match best with
    | Some m => (m, true, mkCache (Some m) true later)
    | None => (firstMirror, false, mkCache (Some firstMirror) false later)
    end in
  match cachedMirror c with
  | Some m => if Sub now (cachedMirrorTime c) <? 10 * Minute then (m, cachedMirrorDirect c, c) else refresh
  | None => refresh
  end.

(** [fmt.Sprintf] of a pattern with one [%s] and no other verb, as the patterns
    of the mirrors are. *)
Definition Sprintf_s (pattern arg : string) : string :=
  match Index pattern "%s" with
  | Some i => str_take i pattern ^^ arg ^^ str_drop (i + 2) pattern
  | None => pattern
  end.

Definition isSingbox114OrNewer (version : string) : bool :=
  if version =s "" then true
  else
    let v := TrimPrefix (ToLower (TrimSpace version)) "v" in
    negb (HasPrefix v "1.10" || HasPrefix v "1.11" || HasPrefix v "1.12" || HasPrefix v "1.13").

(** ** Settings of raw outbounds (outbounds_common.go, fallback.go) *)

Definition parseMapOrJSON (val : option value) : jmap :=
  match val with
  | Some (VMap m) => m
  | Some (VString s) =>
      let t := TrimSpace s in
      if (t =s "") || (t =s "{}") then [] else match unmarshal t with Some m => m | None => [] end
  | _ => []
  end.

(** The first result of [ExtractSingboxFallbackSettings]. *)
Definition validBackups (sMap : jmap) (tag : string) : list string :=
  let keep s := (s <>s "") && (s <>s tag) in
  let backups :=
    match jget sMap "backup_outbounds" with
    | Some (VList l) => List.filter keep (omap string_of l)
    | _ => []
    end in
  match jget sMap "fallback_outbound" with
  | Some (VString s) => if keep s && negb (existsb (String.eqb s) backups) then backups ++ [s] else backups
  | _ => backups
  end.

(** ** The user's rules (routing.go) *)

Definition inbound_tag (sb : ServerInboundSpec) : string :=
  if si_Tag sb =s "" then "inbound-" ^^ Itoa (si_Port sb) else si_Tag sb.

Definition node_tag (node : option ServerProfile) : string :=
  match node with Some n => if p_Name n =s "" then "proxy" else p_Name n | None => "proxy" end.

Definition outbound_of (spec : ConfigSpec) (r : RoutingRule) : string :=
  let outbound :=
    if OutboundTag r <>s "" then OutboundTag r
    else if Action r =s ActionProxy then node_tag (cs_ServerNode spec)
    else Action r in
  if outbound =s "blocked" then "block" else outbound.

(** [strconv.ParseUint(p, 10, 16)] of a positive number. *)
Definition port_number (p : string) : option Z :=
  let t := TrimSpace p in
  if t =s "" then None
  else match parse_digits t 0 with
       | Some n => if (0 <? Z.of_N n) && (Z.of_N n <? 2^16) then Some (Z.of_N n) else None
       | None => None
       end.

Definition port_range (p : string) : option string :=
  match port_number p with
  | Some _ => None
  | None => let t := TrimSpace p in if t =s "" then None else Some t
  end.

Definition port_fields (ports : list string) : jmap :=
  let intPorts := omap port_number ports in
  let rangePorts := omap port_range ports in
  match intPorts, rangePorts with
  | [n], [] => [("port"%string, VInt n)]
  | _, _ => opt (nonempty intPorts) "port" (VList (map VInt intPorts))
  end ++ opt_strings "port_range" rangePorts.

Definition is_network (p : string) : bool := (ToLower p =s "tcp") || (ToLower p =s "udp").
Definition networks (ps : list string) : list string := map ToLower (List.filter is_network ps).
Definition appProtocols (ps : list string) : list string := map ToLower (List.filter (fun p => negb (is_network p)) ps).

Definition createBaseRule (outbound : string) (r : RoutingRule) : jmap :=
  [("outbound"%string, VString outbound)] ++
  opt (negb (IPVersion r =? 0)) "ip_version" (VInt (IPVersion r)) ++
  opt_strings "inbound" (InboundTags r) ++
  port_fields (Ports r) ++
  opt_strings "network" (networks (Protocols r)) ++
  opt_strings "protocol" (appProtocols (Protocols r)) ++
  opt_strings "auth_user" (Users r) ++
  opt_strings "user_id" (PackageUIDs r) ++
  opt_strings "process_name" (ProcessNames r).

Inductive domain_class := DRuleSet (tag : string) | DRegex (s : string) | DExact (s : string) | DSuffix (s : string) | DKeyword (s : string).

Definition classify_domain (d : string) : domain_class :=
  if HasPrefix d "geosite:" then DRuleSet ("geosite-" ^^ TrimPrefix d "geosite:")
  else if HasPrefix d "regexp:" then DRegex (TrimPrefix d "regexp:")
  else if HasPrefix d "regex:" then DRegex (TrimPrefix d "regex:")
  else if HasPrefix d "domain:" then DExact (TrimPrefix d "domain:")
  else if HasPrefix d "full:" then DExact (TrimPrefix d "full:")
  else if HasPrefix d "suffix:" then DSuffix (TrimPrefix d "suffix:")
  else if HasPrefix d "keyword:" then DKeyword (TrimPrefix d "keyword:")
  else DSuffix d.

Definition domainRuleSets (ds : list string) : list string :=
  omap (fun d => match classify_domain d with DRuleSet t => Some t | _ => None end) ds.
Definition regexList (ds : list string) : list string :=
  omap (fun d => match classify_domain d with DRegex t => Some t | _ => None end) ds.
Definition exactDomains (ds : list string) : list string :=
  omap (fun d => match classify_domain d with DExact t => Some t | _ => None end) ds.
Definition suffixDomains (ds : list string) : list string :=
  omap (fun d => match classify_domain d with DSuffix t => Some t | _ => None end) ds.
Definition keywordList (ds : list string) : list string :=
  omap (fun d => match classify_domain d with DKeyword t => Some t | _ => None end) ds.

Inductive ip_class := IPAll | IPNets (l : list string) | IPRuleSet (tag : string).

Definition private_networks : list string :=
  ["10.0.0.0/8"; "172.16.0.0/12"; "192.168.0.0/16"; "127.0.0.0/8"; "fc00::/7"; "::1/128"]%string.

Definition classify_ip (ip : string) : ip_class :=
  if ip =s "::/0" then IPAll
  else if HasPrefix ip "geoip:" then
    let country := TrimPrefix ip "geoip:" in
    if country =s "private" then IPNets private_networks else IPRuleSet ("geoip-" ^^ country)
  else if HasPrefix ip "ip:" then IPNets [TrimPrefix ip "ip:"]
  else IPNets [ip].

Definition rawIPs (ips : list string) : list string :=
  concat (map (fun ip => match classify_ip ip with IPNets l => l | _ => [] end) ips).
Definition ipRuleSets (ips : list string) : list string :=
  omap (fun ip => match classify_ip ip with IPRuleSet t => Some t | _ => None end) ips.
Definition hasIPv6All (r : RoutingRule) : bool :=
  (IPVersion r =? 6) || existsb (fun ip => ip =s "::/0") (IPs r).

Definition hasDomainMatchers (r : RoutingRule) : bool :=
  let ds := Domains r in
  nonempty (regexList ds) || nonempty (suffixDomains ds) || nonempty (exactDomains ds) ||
  nonempty (keywordList ds) || nonempty (domainRuleSets ds).
Definition hasIPMatchers (r : RoutingRule) : bool :=
  nonempty (rawIPs (IPs r)) || nonempty (ipRuleSets (IPs r)) || hasIPv6All r.

Definition domain_rule (base : jmap) (r : RoutingRule) : jmap :=
  let ds := Domains r in
  base ++
  opt_strings "domain_regex" (regexList ds) ++
  opt_strings "domain_suffix" (suffixDomains ds) ++
  opt_strings "domain" (exactDomains ds) ++
  opt_strings "domain_keyword" (keywordList ds) ++
  opt_strings "rule_set" (domainRuleSets ds).

Definition ip_rule (base : jmap) (r : RoutingRule) : jmap :=
  (if hasIPv6All r then jset "ip_version" (VInt 6) base else base) ++
  opt_strings "ip_cidr" (rawIPs (IPs r)) ++
  opt_strings "rule_set" (ipRuleSets (IPs r)).

Definition rules_of (spec : ConfigSpec) (r : RoutingRule) : list jmap :=
  let base := createBaseRule (outbound_of spec r) r in
  if hasDomainMatchers r && hasIPMatchers r then [domain_rule base r; ip_rule base r]
  else if hasDomainMatchers r then [domain_rule base r]
  else if hasIPMatchers r then [ip_rule base r]
  else if (1 <? len base) || (OutboundTag r <>s "") || (Action r <>s "") then [base] else [].

(** ** Remote rule sets *)

Definition rule_set (isV114 : bool) (pattern downloadDetour tag : string) : jmap :=
  [("tag", VString tag); ("type", VString "remote"); ("format", VString "binary");
   ("url", VString (Sprintf_s pattern tag))]%string ++
  if isV114 then [("http_client", VString "rules-client"); ("initial_path", VString ("rules/" ^^ tag ^^ ".srs"))]%string
  else [("download_detour"%string, VString downloadDetour)].

Definition add_rule_set (isV114 : bool) (pattern downloadDetour : string) (m : gmap string jmap) (tag : string) : gmap string jmap :=
  match m !! tag with Some _ => m | None => <[tag := rule_set isV114 pattern downloadDetour tag]> m end.

Definition add_rule_sets (isV114 : bool) (mirror : RuleMirror) (downloadDetour : string)
    (m : gmap string jmap) (r : RoutingRule) : gmap string jmap :=
  foldl (add_rule_set isV114 (GeoipPattern mirror) downloadDetour)
    (foldl (add_rule_set isV114 (GeositePattern mirror) downloadDetour) m (domainRuleSets (Domains r)))
    (ipRuleSets (IPs r)).

Fixpoint upstream_detour (obs : list jmap) (detour : string) : string :=
  match obs with
  | [] => detour
  | ob :: obs =>
      let tag := get_string ob "tag" in
      let obType := get_string ob "type" in
      if (tag =s "") || (tag =s "direct") || (tag =s "block") || (obType =s "direct") || (obType =s "block")
      then upstream_detour obs detour
      else if (obType =s "urltest") || (obType =s "selector") ||
              nonempty (validBackups (parseMapOrJSON (jget ob "settings")) tag)
      then tag
      else upstream_detour obs (if detour =s "direct" then tag else detour)
  end.

Fixpoint rule_detour (rules : list RoutingRule) : string :=
  match rules with
  | [] => "direct"
  | r :: rules =>
      if (OutboundTag r <>s "") && (OutboundTag r <>s "direct") && (OutboundTag r <>s "block")
      then OutboundTag r else rule_detour rules
  end.

Definition download_detour (spec : ConfigSpec) (isDirect : bool) : string :=
  match cs_ServerNode spec, cs_Routing spec with
  | Some n, _ => if isDirect then "direct" else node_tag (Some n)
  | None, Some routing =>
      let detour := upstream_detour (Outbounds routing) "direct" in
      if detour =s "direct" then rule_detour (Rules routing) else detour
  | None, None => "direct"
  end.

(** ** The route object *)

Definition hijack_rules (spec : ConfigSpec) : list jmap :=
  if is_some (cs_ClientInbound spec) then
    [[("action", VString "hijack-dns"); ("port", VInt 53)]; [("action", VString "hijack-dns"); ("protocol", VString "dns")]]%string
  else [].

Definition sniffing_enabled (sb : ServerInboundSpec) : bool :=
  match jget (si_Sniffing sb) "enabled" with Some (VBool b) => b | _ => false end.

Definition sniffingInbounds (spec : ConfigSpec) : list string :=
  match cs_ClientInbound spec with
  | Some ci => if (ci_Mode ci =s InboundModeDesktopTun) || (ci_Mode ci =s InboundModeMobileVpn) then ["tun-in"%string] else []
  | None => []
  end ++ map inbound_tag (List.filter sniffing_enabled (cs_ServerInbounds spec)).

Definition sniff_rules (spec : ConfigSpec) : list jmap :=
  match sniffingInbounds spec with
  | [] => []
  | [tag] => [[("action", VString "sniff"); ("inbound", VString tag)]]%string
  | tags => [[("action", VString "sniff"); ("inbound", VStrings tags)]]%string
  end.

Definition resolve_rule (sb : ServerInboundSpec) : option jmap :=
  let ds := get_string (si_RawSettings sb) "domain_strategy" in
  if ds =s "" then None
  else Some [("inbound", VString (inbound_tag sb)); ("action", VString "resolve"); ("strategy", VString ds)]%string.

Definition user_rules (spec : ConfigSpec) : list jmap :=
  match cs_Routing spec with Some routing => concat (map (rules_of spec) (Rules routing)) | None => [] end.

Definition clash_rules (spec : ConfigSpec) : list jmap :=
  if cs_ClashAPIAddress spec <>s "" then [[("clash_mode", VString "Direct"); ("outbound", VString "direct")]]%string else [].

Definition route_rules (spec : ConfigSpec) : list jmap :=
  hijack_rules spec ++ sniff_rules spec ++ omap resolve_rule (cs_ServerInbounds spec) ++
  user_rules spec ++ clash_rules spec.

Definition ruleSetMap (spec : ConfigSpec) (mirror : RuleMirror) (isDirect : bool) : gmap string jmap :=
  match cs_Routing spec with
  | Some routing =>
      foldl (add_rule_sets (isSingbox114OrNewer (cs_CoreVersion spec)) mirror (download_detour spec isDirect)) ∅ (Rules routing)
  | None => ∅
  end.

Definition find_process (spec : ConfigSpec) : bool :=
  match cs_ClientInbound spec with Some ci => ci_Mode ci =s InboundModeDesktopTun | None => false end.

(** The route object and the top-level http clients; the active mirror is an
    argument. *)
Definition BuildSingBoxRoute (spec : ConfigSpec) (isV112 : bool) (active : RuleMirror * bool) : jmap * list jmap :=
  let '(activeMirror, isDirect) := active in
  let isV114 := isSingbox114OrNewer (cs_CoreVersion spec) in
  let downloadDetour := download_detour spec isDirect in
  let sets := ruleSetMap spec activeMirror isDirect in
  let tags := range_keys (dom sets) in
  let ruleSets := omap (fun tag => sets !! tag) tags in
  let route :=
    [("auto_detect_interface", VBool true); ("default_domain_resolver", VString "dns-direct")]%string ++
    opt (find_process spec) "find_process" (VBool true) ++
    [("rules"%string, VList (map VMap (route_rules spec)))] ++
    opt (nonempty tags) "rule_set" (VList (map VMap ruleSets)) ++
    opt (nonempty tags && isV114) "default_http_client" (VString "rules-client") in
  let clients :=
    if nonempty tags && isV114 then
      [[("tag", VString "rules-client")]%string ++
       opt ((downloadDetour <>s "direct") && (downloadDetour <>s "")) "detour" (VString downloadDetour)]
    else [] in
  (route, clients).

(** ** The DNS object (compiler.go) *)

Definition knownIPs : list (string * string) :=
  [("dns.google", "8.8.8.8"); ("cloudflare-dns.com", "1.1.1.1"); ("one.one.one.one", "1.1.1.1");
   ("dns.adguard-dns.com", "94.140.14.14"); ("dns.yandex.ru", "77.88.8.8"); ("common.dot.dns.yandex.net", "77.88.8.8")]%string.

Definition knownDomainsForIP : list (string * string) :=
  [("8.8.8.8", "dns.google"); ("8.8.4.4", "dns.google"); ("1.1.1.1", "cloudflare-dns.com"); ("1.0.0.1", "cloudflare-dns.com");
   ("94.140.14.14", "dns.adguard-dns.com"); ("77.88.8.8", "dns.yandex.ru")]%string.

Definition assoc (m : list (string * string)) (k : string) : option string := snd <$> List.find (fun kv => kv.1 =s k) m.

Definition tls_name (name : string) : string * value :=
  ("tls"%string, VMap [("enabled", VBool true); ("server_name", VString name)]%string).

Definition plain_server (type server : string) (port : Z) : jmap :=
  [("type", VString type); ("server", VString server); ("server_port", VInt port)]%string.

(** After [https://]: a host and, after the first slash, a path. *)
Definition https_server (trimmed : string) : jmap :=
  let '(hostPart, path) := match Cut trimmed "/" with Some hp => hp | None => (trimmed, ""%string) end in
  [("type"%string, VString "https")] ++
  opt (path <>s "") "path" (VString ("/" ^^ path)) ++
  [("server_port"%string, VInt 443)] ++
  match assoc knownIPs hostPart, assoc knownDomainsForIP hostPart with
  | Some ip, _ => [("server"%string, VString ip); tls_name hostPart]
  | None, Some sni => [("server"%string, VString hostPart); tls_name sni]
  | None, None => [("server"%string, VString hostPart)]
  end.

Definition parseSingboxDNSServer (tag serverURL detour : string) : jmap :=
  [("tag"%string, VString tag)] ++ opt (detour <>s "") "detour" (VString detour) ++
  if HasPrefix serverURL "https://" then https_server (TrimPrefix serverURL "https://")
  else if HasPrefix serverURL "tls://" then plain_server "tls" (TrimPrefix serverURL "tls://") 853
  else if HasPrefix serverURL "tcp://" then plain_server "tcp" (TrimPrefix serverURL "tcp://") 53
  else if HasPrefix serverURL "udp://" then plain_server "udp" (TrimPrefix serverURL "udp://") 53
  else plain_server "udp" serverURL 53.

Definition or_else (s d : string) : string := if s =s "" then d else s.

(** remote, direct and strategy *)
Definition dns_choices (dns : option DNSSpec) : string * string * string :=
  match dns with
  | None => ("https://1.1.1.1/dns-query", "8.8.8.8", "ipv4_only")%string
  | Some d =>
      let remote := match dns_Servers d with s :: _ => s | [] => "https://1.1.1.1/dns-query"%string end in
      let direct := match dns_Servers d with _ :: s :: _ => s | _ => "8.8.8.8"%string end in
      (or_else (dns_RemoteServer d) remote, or_else (dns_DirectServer d) direct, or_else (dns_Strategy d) "ipv4_only")
  end.

Definition plain_direct (directDNS : string) : string :=
  if HasPrefix directDNS "https://8.8.8.8" || HasPrefix directDNS "https://dns.google" then "8.8.8.8"
  else if HasPrefix directDNS "https://77.88.8.8" || HasPrefix directDNS "https://dns.yandex" then "77.88.8.8"
  else directDNS.

Definition is_upstream_tag (t : string) : bool :=
  negb ((t =s "") || (t =s "direct") || (t =s "block") || (t =s "custom-direct") || (t =s "custom-block")).

Definition is_group (ob : jmap) : bool :=
  let t := get_string ob "tag" in
  let obType := get_string ob "type" in
  is_upstream_tag t &&
  ((obType =s "urltest") || (obType =s "selector") || nonempty (validBackups (parseMapOrJSON (jget ob "settings")) t)).

Definition dns_detour (spec : ConfigSpec) : string :=
  match cs_ServerNode spec, cs_Routing spec with
  | Some n, _ => node_tag (Some n)
  | None, Some routing =>
      match List.find is_group (Outbounds routing) with
      | Some ob => get_string ob "tag"
      | None =>
          match List.find (fun ob => is_upstream_tag (get_string ob "tag")) (Outbounds routing) with
          | Some ob => get_string ob "tag"
          | None => ""
          end
      end
  | None, None => ""
  end.

Definition has_tag (tag : string) (s : jmap) : bool :=
  match jget s "tag" with Some (VString t) => t =s tag | _ => false end.

(** The final server has to be one of the list. *)
Definition known_final (servers : list jmap) (finalDNS : string) : string :=
  if existsb (has_tag finalDNS) servers then finalDNS
  else match servers with
       | s :: _ => match jget s "tag" with Some (VString t) => t | _ => finalDNS end
       | [] => finalDNS
       end.

Definition russian_suffixes : list string :=
  [".ru"; ".su"; string_of_bytes [46; 209; 128; 209; 132]; ".xn--p1ai"]%string.

Definition buildSingBoxDNS (spec : ConfigSpec) : jmap :=
  let '(remoteDNS, directDNS, strategy) := dns_choices (cs_DNS spec) in
  let directServerObj := parseSingboxDNSServer "dns-direct" (plain_direct directDNS) "" in
  let detourTag := dns_detour spec in
  let '(servers, finalDNS, dnsRules) :=
    if detourTag <>s "" then
      ([parseSingboxDNSServer "dns-remote" remoteDNS detourTag; directServerObj], "dns-remote"%string,
       [VMap [("domain_suffix", VStrings russian_suffixes); ("server", VString "dns-direct")]%string])
    else
      match cs_DNS spec with
      | Some d =>
          if (dns_DirectServer d =s "") && (dns_RemoteServer d <>s "")
          then ([parseSingboxDNSServer "dns-direct" (dns_RemoteServer d) ""], "dns-direct"%string, [])
          else ([directServerObj], "dns-direct"%string, [])
      | None => ([directServerObj], "dns-direct"%string, [])
      end in
  let finalDNS := match cs_DNS spec with Some d => or_else (dns_FinalServer d) finalDNS | None => finalDNS end in
  [("servers", VList (map VMap servers)); ("rules", VList dnsRules); ("final", VString (known_final servers finalDNS));
   ("strategy", VString strategy)]%string.

Lemma jget_port_fields ports k : k <> "port"%string -> k <> "port_range"%string -> jget (port_fields ports) k = None.
Proof.
  intros H1 H2. unfold port_fields, opt_strings. rewrite jget_app, jget_opt.
  replace ("port_range" =s k) with false by (symmetry; apply String.eqb_neq; congruence). rewrite andb_false_r.
  assert (Hp : ("port" =s k) = false) by (apply String.eqb_neq; congruence).
  destruct (omap port_number ports) as [|? []], (omap port_range ports);
    rewrite ?jget_opt, ?jget_one, ?Hp, ?andb_false_r; done.
Qed.

(** ** The rule sets the rules name *)

Lemma base_no_rule_set o r : jget (createBaseRule o r) "rule_set" = None.
Proof.
  unfold createBaseRule, opt_strings. rewrite !jget_app, !jget_opt, jget_one, jget_port_fields by done.
  cbn [String.eqb Ascii.eqb Bool.eqb]. by rewrite !andb_false_r.
Qed.

Lemma domain_rule_sets b r : jget b "rule_set" = None ->
  strings_of (jget (domain_rule b r) "rule_set") = domainRuleSets (Domains r).
Proof.
  intros Hb. unfold domain_rule, opt_strings. rewrite !jget_app, Hb, !jget_opt.
  cbn [String.eqb Ascii.eqb Bool.eqb]. rewrite !andb_false_r, andb_true_r. apply strings_of_opt_strings.
Qed.

Lemma ip_rule_sets b r : jget b "rule_set" = None ->
  strings_of (jget (ip_rule b r) "rule_set") = ipRuleSets (IPs r).
Proof.
  intros Hb. unfold ip_rule, opt_strings. rewrite !jget_app, !jget_opt.
  replace (jget (if hasIPv6All r then _ else b) "rule_set") with (@None value)
    by (destruct (hasIPv6All r); [by rewrite jget_jset, Hb | done]).
  cbn [String.eqb Ascii.eqb Bool.eqb]. rewrite !andb_false_r, andb_true_r. apply strings_of_opt_strings.
Qed.

Lemma rule_set_names spec r :
  named "rule_set" (rules_of spec r) = domainRuleSets (Domains r) ++ ipRuleSets (IPs r).
Proof.
  set (o := outbound_of spec r). pose proof (base_no_rule_set o r) as Hb.
  assert (Hd : hasDomainMatchers r = false -> domainRuleSets (Domains r) = []).
  { unfold hasDomainMatchers. intros H. bools. by destruct (domainRuleSets _). }
  assert (Hi : hasIPMatchers r = false -> ipRuleSets (IPs r) = []).
  { unfold hasIPMatchers. intros H. bools. by destruct (ipRuleSets _). }
  unfold rules_of. fold o.
  destruct (hasDomainMatchers r), (hasIPMatchers r); cbn [andb]; unfold named; cbn [map concat];
    rewrite ?(domain_rule_sets _ _ Hb), ?(ip_rule_sets _ _ Hb), ?app_nil_r; try done.
  - by rewrite Hi, app_nil_r.
  - by rewrite Hd.
  - rewrite Hd, Hi by done. destruct (_ || _); cbn [map concat]; rewrite ?Hb; done.
Qed.

Lemma elem_of_add_rule_set v p d m tag t :
  t ∈ dom (add_rule_set v p d m tag) <-> t ∈ dom m \/ t = tag.
Proof.
  unfold add_rule_set. destruct (m !! tag) eqn:E.
  - split; [by left|]. intros [H'| ->]; [done|]. apply elem_of_dom. eauto.
  - set_solver.
Qed.

Lemma elem_of_foldl_rule_set v p d tags : forall m t,
  t ∈ dom (foldl (add_rule_set v p d) m tags) <-> t ∈ dom m \/ t ∈ tags.
Proof.
  induction tags as [|tag tags IH]; intros m t; cbn; [set_solver|].
  rewrite IH, elem_of_add_rule_set. set_solver.
Qed.

Lemma elem_of_rule_sets v mirror d spec rules : forall m t,
  t ∈ dom (foldl (add_rule_sets v mirror d) m rules) <->
  t ∈ dom m \/ t ∈ named "rule_set" (concat (map (rules_of spec) rules)).
Proof.
  induction rules as [|r rules IH]; intros m t; cbn [foldl map concat]; [set_solver|].
  rewrite IH. unfold add_rule_sets. rewrite !elem_of_foldl_rule_set, named_app, rule_set_names. set_solver.
Qed.

Definition declares (v : bool) (d : string) (m : gmap string jmap) : Prop :=
  map_Forall (fun tag rs => exists p, rs = rule_set v p d tag) m.

Lemma declares_fold v p d tags : forall m, declares v d m -> declares v d (foldl (add_rule_set v p d) m tags).
Proof.
  induction tags as [|tag tags IH]; intros m Hm; cbn; [done|]. apply IH. unfold add_rule_set.
  destruct (m !! tag); [done|]. apply map_Forall_insert_2; [by eexists | done].
Qed.

Lemma declares_rules v mirror d rules : forall m,
  declares v d m -> declares v d (foldl (add_rule_sets v mirror d) m rules).
Proof.
  induction rules as [|r rules IH]; intros m Hm; cbn; [done|]. apply IH. by do 2 apply declares_fold.
Qed.

Lemma declares_ruleSetMap spec mirror b :
  declares (isSingbox114OrNewer (cs_CoreVersion spec)) (download_detour spec b) (ruleSetMap spec mirror b).
Proof.
  unfold ruleSetMap. destruct (cs_Routing spec); [apply declares_rules|]; apply map_Forall_empty.
Qed.

Lemma tag_of_rule_set v p d tag : strings_of (jget (rule_set v p d tag) "tag") = [tag].
Proof. done. Qed.

Lemma client_of_rule_set v p d tag :
  strings_of (jget (rule_set v p d tag) "http_client") = if v then ["rules-client"%string] else [].
Proof. by destruct v. Qed.

(** The declared rule sets, in any order of the map. *)
Lemma named_rule_sets v d (m : gmap string jmap) (f : bool -> list string) k ks :
  declares v d m -> (forall t p, strings_of (jget (rule_set v p d t) k) = (if decide (k = "tag"%string) then [t] else f v)) ->
  (forall t, t ∈ ks -> t ∈ dom m) ->
  named k (omap (fun tag => m !! tag) ks) = concat (map (fun t => if decide (k = "tag"%string) then [t] else f v) ks).
Proof.
  intros Hm Hk. induction ks as [|t ks IH]; intros Hks; [done|]. cbn.
  destruct (proj1 (elem_of_dom m t)) as [rs E]; [apply Hks; by left|]. rewrite E.
  destruct (Hm t rs E) as [p ->]. unfold named. cbn [map concat]. rewrite Hk.
  f_equal. apply IH. intros u Hu. apply Hks. by right.
Qed.

Lemma declared_tags v d (m : gmap string jmap) ks : declares v d m -> (forall t, t ∈ ks -> t ∈ dom m) ->
  named "tag" (omap (fun tag => m !! tag) ks) = ks.
Proof.
  intros Hm Hks. rewrite (named_rule_sets v d m (fun _ => []) "tag" ks Hm) by done. clear.
  induction ks as [|t ks IH]; [done|]. cbn in *. by rewrite IH.
Qed.

Lemma declared_clients v d (m : gmap string jmap) ks c : declares v d m -> (forall t, t ∈ ks -> t ∈ dom m) ->
  c ∈ named "http_client" (omap (fun tag => m !! tag) ks) -> c = "rules-client"%string /\ v = true /\ ks <> [].
Proof.
  intros Hm Hks. rewrite (named_rule_sets v d m (fun v => if v then ["rules-client"%string] else []) "http_client" ks Hm);
    [|intros; apply client_of_rule_set | done]. clear.
  intros Hc. assert (Hks : ks <> []) by (by intros ->; inv Hc). revert Hks Hc.
  induction ks as [|t ks IH]; [done|]. intros _. cbn. rewrite elem_of_app. intros [H|H].
  - destruct v; [|inv H]. by apply list_elem_of_singleton in H as ->.
  - destruct ks; [inv H|]. by destruct (IH ltac:(done) H) as (-> & -> & _).
Qed.

(** The rules that are no user rules name no rule set. *)
Lemma other_rules_no_sets spec :
  named "rule_set" (hijack_rules spec) = [] /\ named "rule_set" (sniff_rules spec) = [] /\
  named "rule_set" (omap resolve_rule (cs_ServerInbounds spec)) = [] /\ named "rule_set" (clash_rules spec) = [].
Proof.
  split_and!.
  - unfold hijack_rules. by destruct (is_some _).
  - unfold sniff_rules. by destruct (sniffingInbounds spec) as [|? []].
  - induction (cs_ServerInbounds spec) as [|sb l IH]; [done|]. cbn. unfold resolve_rule at 1.
    by destruct (get_string _ _ =s "").
  - unfold clash_rules. by destruct (cs_ClashAPIAddress spec <>s "").
Qed.

Lemma server_tag tag url detour : jget (parseSingboxDNSServer tag url detour) "tag" = Some (VString tag).
Proof. done. Qed.

Lemma route_fields spec v112 mirror d :
  let sets := ruleSetMap spec mirror d in
  let tags := range_keys (dom sets) in
  let v114 := isSingbox114OrNewer (cs_CoreVersion spec) in
  let route := (BuildSingBoxRoute spec v112 (mirror, d)).1 in
  jget route "default_domain_resolver" = Some (VString "dns-direct") /\
  objects (jget route "rules") = route_rules spec /\
  objects (jget route "rule_set") = omap (fun tag => sets !! tag) tags /\
  strings_of (jget route "default_http_client") = (if nonempty tags && v114 then ["rules-client"%string] else []).
Proof.
  cbn zeta. unfold BuildSingBoxRoute. cbn [fst]. set (tags := range_keys _).
  split_and!; rewrite ?jget_app, ?jget_opt, ?jget_one, ?jget_cons; cbn [String.eqb Ascii.eqb Bool.eqb];
    rewrite ?andb_false_r, ?andb_true_r; cbn [jget List.find fmap option_fmap option_map snd].
  - done.
  - apply objects_maps.
  - destruct tags as [|t ts] eqn:E; [done|]. cbn [nonempty]. rewrite objects_maps. done.
  - destruct (nonempty tags && _); done.
Qed.

Lemma known_final_in servers final : servers <> [] -> Forall (fun s => exists t, jget s "tag" = Some (VString t)) servers ->
  known_final servers final ∈ named "tag" servers.
Proof.
  intros Hne Ht. unfold known_final. apply elem_of_named. destruct (existsb _ _) eqn:E.
  - apply existsb_exists in E as (s & Hs & E). exists s. rewrite list_elem_of_In. split; [done|]. unfold has_tag in E.
    destruct (jget s "tag") as [[]|]; try done. apply String.eqb_eq in E as ->. by apply list_elem_of_singleton.
  - destruct servers as [|s ss]; [done|]. apply Forall_cons in Ht as [[t Ht] _]. exists s. split; [by left|].
    rewrite Ht. by apply list_elem_of_singleton.
Qed.

Lemma dns_fields spec :
  exists servers final rules,
    objects (jget (buildSingBoxDNS spec) "servers") = servers /\
    strings_of (jget (buildSingBoxDNS spec) "final") = [final] /\
    objects (jget (buildSingBoxDNS spec) "rules") = rules /\
    "dns-direct"%string ∈ named "tag" servers /\ final ∈ named "tag" servers /\
    (forall s, s ∈ named "server" rules -> s = "dns-direct"%string).
Proof.
  assert (Hok : forall servers final rules strategy,
    "dns-direct"%string ∈ named "tag" servers -> Forall (fun s => exists t, jget s "tag" = Some (VString t)) servers ->
    (forall s, s ∈ named "server" (objects (Some (VList rules))) -> s = "dns-direct"%string) ->
    let o := [("servers", VList (map VMap servers)); ("rules", VList rules); ("final", VString (known_final servers final));
              ("strategy", VString strategy)]%string in
    exists servers' final' rules',
      objects (jget o "servers") = servers' /\ strings_of (jget o "final") = [final'] /\ objects (jget o "rules") = rules' /\
      "dns-direct"%string ∈ named "tag" servers' /\ final' ∈ named "tag" servers' /\
      (forall s, s ∈ named "server" rules' -> s = "dns-direct"%string)).
  { intros servers final rules strategy Hd Ht Hr. cbn zeta. exists servers, (known_final servers final), (objects (Some (VList rules))).
    split_and!; try done; [apply objects_maps|]. apply known_final_in; [|done]. by intros ->; apply elem_of_nil in Hd. }
  assert (Htag : forall t url d, exists t', jget (parseSingboxDNSServer t url d) "tag" = Some (VString t')) by eauto.
  unfold buildSingBoxDNS. destruct (dns_choices (cs_DNS spec)) as [[remote direct] strategy].
  destruct (dns_detour spec <>s ""); [|destruct (cs_DNS spec) as [d|]; [destruct (_ && _)|]]; apply Hok;
    try (by repeat constructor); try (intros s Hs; cbn in Hs; by apply elem_of_nil in Hs).
  intros s Hs. cbn in Hs. by apply list_elem_of_singleton in Hs.
Qed.

(** Every name the generated configuration refers to is declared in it: the
    rule sets the rules name are exactly those declared, each once; the http
    client of the rule sets, the final and default DNS servers and the servers
    of the DNS rules exist - whatever the specification, the state of the
    mirrors and the order in which Go ranges over the map of rule sets. *)
Theorem references_closed spec isV112 mirror isDirect :
  let '(route, clients) := BuildSingBoxRoute spec isV112 (mirror, isDirect) in
  let dns := buildSingBoxDNS spec in
  let sets := objects (jget route "rule_set") in
  let servers := objects (jget dns "servers") in
  (forall tag, tag ∈ named "rule_set" (objects (jget route "rules")) <-> tag ∈ named "tag" sets) /\
  NoDup (named "tag" sets) /\
  (forall c, c ∈ strings_of (jget route "default_http_client") ++ named "http_client" sets -> c ∈ named "tag" clients) /\
  (forall s, s ∈ strings_of (jget route "default_domain_resolver") ++ strings_of (jget dns "final") ++
       named "server" (objects (jget dns "rules")) -> s ∈ named "tag" servers).
Proof.
  destruct (BuildSingBoxRoute spec isV112 (mirror, isDirect)) as [route clients] eqn:E. cbn zeta.
  destruct (route_fields spec isV112 mirror isDirect) as (Hres & Hrules & Hsets & Hclient). rewrite E in *. cbn [fst] in *.
  set (sets := ruleSetMap spec mirror isDirect) in *. set (tags := range_keys (dom sets)) in *.
  pose proof (declares_ruleSetMap spec mirror isDirect) as Hdec. fold sets in Hdec.
  assert (Htags : forall t, t ∈ tags -> t ∈ dom sets) by (intros t; apply elem_of_range_keys).
  rewrite Hrules, Hsets, (declared_tags _ _ _ _ Hdec Htags). split_and!.
  - intros tag. unfold tags. rewrite (elem_of_range_keys order). unfold route_rules, sets, ruleSetMap.
    destruct (other_rules_no_sets spec) as (H1 & H2 & H3 & H4). rewrite !named_app, H1, H2, H3, H4, app_nil_r. cbn [app].
    unfold user_rules. destruct (cs_Routing spec); [|cbn; set_solver].
    rewrite (elem_of_rule_sets _ _ _ spec). set_solver.
  - apply NoDup_range_keys.
  - intros c Hc. assert (Hv : c = "rules-client"%string /\ isSingbox114OrNewer (cs_CoreVersion spec) = true /\ tags <> []).
    { apply elem_of_app in Hc as [Hc|Hc]; [|by apply (declared_clients _ _ _ _ _ Hdec Htags)].
      rewrite Hclient in Hc. destruct tags; [by apply elem_of_nil in Hc|]. cbn in Hc.
      destruct (isSingbox114OrNewer _); [|by apply elem_of_nil in Hc]. by apply list_elem_of_singleton in Hc. }
    destruct Hv as (-> & Hv & Ht). unfold BuildSingBoxRoute in E. fold sets tags in E. rewrite Hv in E.
    injection E as _ <-. destruct tags; [done|]. cbn. by left.
  - destruct (dns_fields spec) as (servers & final & rules & -> & -> & -> & Hd & Hf & Hr). rewrite Hres.
    intros s Hs. apply elem_of_app in Hs as [Hs|[Hs|Hs]%elem_of_app].
    + by apply list_elem_of_singleton in Hs as ->.
    + by apply list_elem_of_singleton in Hs as ->.
    + by rewrite (Hr s Hs).
Qed.
End compiler.

(** ** What the rules mean

    How sing-box reads a rule is its documented behaviour: the conditions on the
    destination are alternatives of one another, so are those on the port, every
    other condition is required, and a list means any of its members.  What a
    single condition means for the connection at hand is arbitrary. *)
Section meaning.
Context (field : string -> value -> bool) (matches : jmap -> bool).

Definition dest_keys : list string :=
  ["domain"; "domain_suffix"; "domain_keyword"; "domain_regex"; "ip_cidr"; "rule_set"]%string.
Definition port_keys : list string := ["port"; "port_range"]%string.
Definition mem (k : string) (ks : list string) : bool := existsb (String.eqb k) ks.

Definition has (ks : list string) (r : jmap) : bool := existsb (fun kv => mem kv.1 ks) r.
Definition some_of (ks : list string) (r : jmap) : bool := existsb (fun kv => mem kv.1 ks && field kv.1 kv.2) r.
Definition required (r : jmap) : bool :=
  forallb (fun kv => mem kv.1 dest_keys || mem kv.1 port_keys || (kv.1 =s "outbound") || field kv.1 kv.2) r.

Record rule_logic : Prop := {
  matches_rule : forall r, matches r =
    (negb (has dest_keys r) || some_of dest_keys r) && (negb (has port_keys r) || some_of port_keys r) && required r;
  any_string : forall k l, field k (VStrings l) = existsb (fun s => field k (VString s)) l;
  any_number : forall k l, field k (VList (map VInt l)) = existsb (fun n => field k (VInt n)) l;
}.

(** The outbound of the first rule that matches. *)
Fixpoint first_match (rules : list jmap) : option string :=
  match rules with
  | [] => None
  | r :: rules => if matches r then Some (get_string r "outbound") else first_match rules
  end.

(** *** The meaning of a rule of the abstract syntax *)

Definition domain_holds (d : string) : bool :=
  match classify_domain d with
  | DRuleSet t => field "rule_set" (VString t)
  | DRegex s => field "domain_regex" (VString s)
  | DExact s => field "domain" (VString s)
  | DSuffix s => field "domain_suffix" (VString s)
  | DKeyword s => field "domain_keyword" (VString s)
  end.

Definition ip_holds (ip : string) : bool :=
  match classify_ip ip with
  | IPAll => field "ip_version" (VInt 6)
  | IPNets l => existsb (fun n => field "ip_cidr" (VString n)) l
  | IPRuleSet t => field "rule_set" (VString t)
  end.

Definition port_holds (p : string) : bool :=
  match port_number p with
  | Some n => field "port" (VInt n)
  | None => field "port_range" (VString (TrimSpace p))
  end.

Definition any_of {A} (f : A -> bool) (l : list A) : bool := negb (nonempty l) || existsb f l.
Definition listed (k : string) (l : list string) : bool := any_of (fun s => field k (VString s)) l.
Definition is_blank (p : string) : bool := TrimSpace p =s "".

(** The destination is one of the domains or addresses, if the rule names any; IP
    version 6 counts as the network of all IPv6 addresses. *)
Definition dest_holds (r : RoutingRule) : bool :=
  (negb (nonempty (Domains r)) && negb (nonempty (IPs r)) && negb (IPVersion r =? 6)) ||
  existsb domain_holds (Domains r) || existsb ip_holds (IPs r) ||
  ((IPVersion r =? 6) && field "ip_version" (VInt 6)).

Definition others_hold (r : RoutingRule) : bool :=
  ((IPVersion r =? 0) || field "ip_version" (VInt (IPVersion r))) &&
  listed "inbound" (InboundTags r) &&
  any_of port_holds (List.filter (fun p => negb (is_blank p)) (Ports r)) &&
  listed "network" (networks (Protocols r)) &&
  listed "protocol" (appProtocols (Protocols r)) &&
  listed "auth_user" (Users r) && listed "user_id" (PackageUIDs r) && listed "process_name" (ProcessNames r).

Definition rule_holds (r : RoutingRule) : bool := dest_holds r && others_hold r.

(** A rule without a target and without a condition is left out. *)
Definition is_live (spec : ConfigSpec) (r : RoutingRule) : bool := nonempty (rules_of spec r).

Fixpoint decision (spec : ConfigSpec) (rules : list RoutingRule) : option string :=
  match rules with
  | [] => None
  | r :: rules => if is_live spec r && rule_holds r then Some (outbound_of spec r) else decision spec rules
  end.

(** The network of all IPv6 addresses is compiled to a condition on the version
    beside the other addresses, so it must stand alone (see [ipv6_with_others]). *)
Definition v6_alone (r : RoutingRule) : Prop :=
  hasIPv6All r = true -> Forall (fun ip => ip = "::/0"%string) (IPs r) /\ (IPVersion r = 0 \/ IPVersion r = 6).

Context (L : rule_logic).

Lemma has_app ks a b : has ks (a ++ b) = has ks a || has ks b.
Proof. apply existsb_app. Qed.
Lemma some_of_app ks a b : some_of ks (a ++ b) = some_of ks a || some_of ks b.
Proof. apply existsb_app. Qed.
Lemma required_app a b : required (a ++ b) = required a && required b.
Proof. apply forallb_app. Qed.

Lemma has_opt ks c k v : has ks (opt c k v) = c && mem k ks.
Proof. destruct c; [|done]. cbn. by rewrite orb_false_r. Qed.
Lemma some_of_opt ks c k v : some_of ks (opt c k v) = c && mem k ks && field k v.
Proof. destruct c; [|done]. cbn. by rewrite orb_false_r. Qed.
Lemma required_opt c k v :
  required (opt c k v) = negb c || (mem k dest_keys || mem k port_keys || (k =s "outbound") || field k v).
Proof. destruct c; [|done]. cbn. by rewrite andb_true_r. Qed.

Lemma has_strings ks k l : has ks (opt_strings k l) = nonempty l && mem k ks.
Proof. apply has_opt. Qed.
Lemma some_of_strings ks k l :
  some_of ks (opt_strings k l) = mem k ks && existsb (fun s => field k (VString s)) l.
Proof. unfold opt_strings. rewrite some_of_opt, (any_string L). destruct l; [cbn; by rewrite ?andb_false_r | done]. Qed.
Lemma required_strings k l :
  required (opt_strings k l) = mem k dest_keys || mem k port_keys || (k =s "outbound") || listed k l.
Proof.
  unfold opt_strings, listed, any_of. rewrite required_opt, (any_string L). destruct (nonempty l); cbn; [done|].
  by rewrite orb_true_r.
Qed.

Ltac fields :=
  rewrite ?has_app, ?has_opt, ?has_strings, ?some_of_app, ?some_of_opt, ?some_of_strings,
    ?required_app, ?required_opt, ?required_strings; cbn [mem existsb dest_keys port_keys String.eqb Ascii.eqb Bool.eqb];
  rewrite ?andb_false_r, ?orb_false_r, ?andb_true_r, ?orb_true_r; cbn [andb orb negb].

(** *** Ports *)

Lemma port_number_blank p : is_blank p = true -> port_number p = None.
Proof. unfold is_blank, port_number. by intros ->. Qed.

Lemma some_port ports : some_of port_keys (port_fields ports) =
  existsb port_holds (List.filter (fun p => negb (is_blank p)) ports).
Proof.
  transitivity (existsb (fun n => field "port" (VInt n)) (omap port_number ports) ||
                existsb (fun s => field "port_range" (VString s)) (omap port_range ports)).
  - unfold port_fields. rewrite some_of_app, some_of_strings. cbn [mem existsb port_keys String.eqb Ascii.eqb Bool.eqb orb andb]. f_equal.
    assert (Hopt : some_of port_keys (opt (nonempty (omap port_number ports)) "port" (VList (map VInt (omap port_number ports)))) =
      existsb (fun n => field "port" (VInt n)) (omap port_number ports)).
    { rewrite some_of_opt, (any_number L). cbn [mem existsb port_keys String.eqb Ascii.eqb Bool.eqb orb].
      by destruct (omap port_number ports). }
    destruct (omap port_number ports) as [|n [|m l]]; try apply Hopt. destruct (omap port_range ports); [|apply Hopt]. done.
  - rewrite !existsb_omap, existsb_orb, existsb_filter. apply existsb_same. intros p.
    unfold port_range, port_holds. destruct (is_blank p) eqn:Hb.
    + rewrite (port_number_blank p Hb). unfold is_blank in Hb. by rewrite Hb.
    + unfold is_blank in Hb. destruct (port_number p); [by rewrite orb_false_r|]. by rewrite Hb.
Qed.

Lemma has_port ports : has port_keys (port_fields ports) = nonempty (List.filter (fun p => negb (is_blank p)) ports).
Proof.
  transitivity (nonempty (omap port_number ports) || nonempty (omap port_range ports)).
  - unfold port_fields. rewrite has_app, has_strings. cbn [mem existsb port_keys String.eqb Ascii.eqb Bool.eqb orb]. rewrite andb_true_r.
    destruct (omap port_number ports) as [|n [|m l]], (omap port_range ports); done.
  - rewrite !nonempty_existsb, !existsb_omap, existsb_orb, existsb_filter. apply existsb_same. intros p.
    unfold port_range. destruct (is_blank p) eqn:Hb.
    + rewrite (port_number_blank p Hb). unfold is_blank in Hb. by rewrite Hb.
    + unfold is_blank in Hb. destruct (port_number p); [done|]. by rewrite Hb.
Qed.

Lemma no_dest_port ports : has dest_keys (port_fields ports) = false /\ some_of dest_keys (port_fields ports) = false /\
  required (port_fields ports) = true /\ has ["ip_version"%string] (port_fields ports) = false.
Proof.
  unfold port_fields. fields.
  destruct (omap port_number ports) as [|n [|m l]], (omap port_range ports); fields; done.
Qed.

(** *** Destinations *)

Lemma domain_matchers r : hasDomainMatchers r = nonempty (Domains r).
Proof.
  unfold hasDomainMatchers, regexList, suffixDomains, exactDomains, keywordList, domainRuleSets.
  rewrite !nonempty_existsb, !existsb_omap, !existsb_orb. apply existsb_same. intros d. by destruct (classify_domain d).
Qed.

Lemma ip_matchers r : hasIPMatchers r = nonempty (IPs r) || (IPVersion r =? 6).
Proof.
  unfold hasIPMatchers, hasIPv6All, rawIPs, ipRuleSets. rewrite !nonempty_existsb, existsb_concat_map, existsb_omap.
  rewrite (orb_comm (IPVersion r =? 6)), orb_assoc, !existsb_orb. f_equal. apply existsb_same. intros ip. unfold classify_ip.
  destruct (ip =s "::/0"); [by rewrite orb_true_r|]. destruct (HasPrefix ip "geoip:"); [by destruct (_ =s _)|].
  by destruct (HasPrefix ip "ip:").
Qed.

Lemma some_domain b r : some_of dest_keys b = false ->
  some_of dest_keys (domain_rule b r) = existsb domain_holds (Domains r).
Proof.
  intros Hb. unfold domain_rule, regexList, suffixDomains, exactDomains, keywordList, domainRuleSets. fields. rewrite Hb.
  cbn [orb]. rewrite !existsb_omap, !existsb_orb. apply existsb_same. intros d. unfold domain_holds.
  destruct (classify_domain d); rewrite ?orb_false_r; done.
Qed.

Lemma has_domain b r : has dest_keys b = false -> has dest_keys (domain_rule b r) = hasDomainMatchers r.
Proof. intros Hb. unfold domain_rule, hasDomainMatchers. fields. by rewrite Hb, !orb_assoc. Qed.

(** *** The base of a rule *)

Definition rest_of (r : RoutingRule) : jmap :=
  opt_strings "inbound" (InboundTags r) ++ port_fields (Ports r) ++ opt_strings "network" (networks (Protocols r)) ++
  opt_strings "protocol" (appProtocols (Protocols r)) ++ opt_strings "auth_user" (Users r) ++
  opt_strings "user_id" (PackageUIDs r) ++ opt_strings "process_name" (ProcessNames r).

Lemma base_rest o r : createBaseRule o r =
  ("outbound"%string, VString o) :: opt (negb (IPVersion r =? 0)) "ip_version" (VInt (IPVersion r)) ++ rest_of r.
Proof. done. Qed.

Lemma has_rest r : has dest_keys (rest_of r) = false /\ some_of dest_keys (rest_of r) = false /\
  has port_keys (rest_of r) = nonempty (List.filter (fun p => negb (is_blank p)) (Ports r)) /\
  some_of port_keys (rest_of r) = existsb port_holds (List.filter (fun p => negb (is_blank p)) (Ports r)) /\
  has ["ip_version"%string] (rest_of r) = false.
Proof.
  destruct (no_dest_port (Ports r)) as (H1 & H2 & H3 & H4). unfold rest_of. fields. by rewrite H1, H2, H4, has_port, some_port.
Qed.

Lemma required_rest r : required (rest_of r) =
  listed "inbound" (InboundTags r) && listed "network" (networks (Protocols r)) &&
  listed "protocol" (appProtocols (Protocols r)) && listed "auth_user" (Users r) &&
  listed "user_id" (PackageUIDs r) && listed "process_name" (ProcessNames r).
Proof.
  destruct (no_dest_port (Ports r)) as (_ & _ & H3 & _). unfold rest_of. fields. rewrite H3. cbn [andb]. by rewrite !andb_assoc.
Qed.

(** What the conditions beside the destination and the version come to. *)
Definition ports_hold (r : RoutingRule) : bool :=
  any_of port_holds (List.filter (fun p => negb (is_blank p)) (Ports r)) && required (rest_of r).

Lemma others_split r :
  others_hold r = ((IPVersion r =? 0) || field "ip_version" (VInt (IPVersion r))) && ports_hold r.
Proof.
  unfold others_hold, ports_hold. rewrite required_rest.
  destruct ((IPVersion r =? 0) || _), (listed "inbound" _), (any_of _ _); reflexivity.
Qed.

(** A rule made of the outbound, some fields of other kinds and the rest. *)
Lemma matches_with o r a b :
  has port_keys a = false -> has port_keys b = false -> some_of port_keys a = false -> some_of port_keys b = false ->
  matches (("outbound"%string, VString o) :: a ++ rest_of r ++ b) =
  (negb (has dest_keys (a ++ b)) || some_of dest_keys (a ++ b)) && required (a ++ b) && ports_hold r.
Proof.
  intros Ha Hb Sa Sb. rewrite (matches_rule L). destruct (has_rest r) as (H1 & H2 & H3 & H4 & _).
  change (?x :: ?l) with ([x] ++ l). rewrite !has_app, !some_of_app, !required_app, H1, H2, H3, H4, Ha, Hb, Sa, Sb.
  unfold ports_hold, any_of. cbn. rewrite !orb_false_r.
  destruct (has dest_keys a), (has dest_keys b), (some_of dest_keys a), (some_of dest_keys b), (required a), (required b),
    (required (rest_of r)), (nonempty _), (existsb port_holds _); reflexivity.
Qed.

Lemma jset_absent k v m : has [k] m = false -> jset k v m = m ++ [(k, v)].
Proof.
  induction m as [|[j w] m IH]; [done|]. cbn. rewrite orb_false_r, (String.eqb_sym j k).
  destruct (String.eqb_spec k j); [done|]. intros H. by rewrite IH.
Qed.

Lemma required_version c v : required (opt c "ip_version" v) = negb c || field "ip_version" v.
Proof. apply required_opt. Qed.

Lemma matches_domain o r : nonempty (Domains r) = true ->
  matches (domain_rule (createBaseRule o r) r) = existsb domain_holds (Domains r) && others_hold r.
Proof.
  intros Hd. set (doms := domain_rule [] r).
  assert (Hdom : domain_rule (createBaseRule o r) r = ("outbound"%string, VString o) ::
    opt (negb (IPVersion r =? 0)) "ip_version" (VInt (IPVersion r)) ++ rest_of r ++ doms).
  { unfold domain_rule. rewrite base_rest. cbn [app]. by rewrite <- app_assoc. }
  assert (Hp : has port_keys doms = false /\ some_of port_keys doms = false /\ required doms = true).
  { unfold doms, domain_rule. fields. done. }
  destruct Hp as (Hp & Sp & Rp). rewrite Hdom, matches_with; try done; [|by fields | by fields].
  rewrite has_app, some_of_app, required_app, required_version, Rp, negb_involutive, others_split.
  unfold doms at 1 2. rewrite has_domain, some_domain, domain_matchers, Hd by done. fields. by rewrite !andb_assoc.
Qed.

Definition ip_fields (r : RoutingRule) : jmap :=
  opt_strings "ip_cidr" (rawIPs (IPs r)) ++ opt_strings "rule_set" (ipRuleSets (IPs r)).

Lemma ip_fields_logic r : has port_keys (ip_fields r) = false /\ some_of port_keys (ip_fields r) = false /\
  required (ip_fields r) = true /\
  some_of dest_keys (ip_fields r) = existsb (fun ip => match classify_ip ip with IPAll => false | _ => ip_holds ip end) (IPs r) /\
  has dest_keys (ip_fields r) = nonempty (rawIPs (IPs r)) || nonempty (ipRuleSets (IPs r)).
Proof.
  unfold ip_fields. fields. split_and!; try done. unfold rawIPs, ipRuleSets. rewrite existsb_concat_map, existsb_omap, existsb_orb.
  apply existsb_same. intros ip. unfold ip_holds. destruct (classify_ip ip); cbn; by rewrite ?orb_false_r.
Qed.

(** When all IPv6 addresses stand alone there is nothing but the version. *)
Lemma v6_fields r : Forall (fun ip => ip = "::/0"%string) (IPs r) ->
  ip_fields r = [] /\ existsb ip_holds (IPs r) = nonempty (IPs r) && field "ip_version" (VInt 6).
Proof.
  intros Hall. assert (Hn : rawIPs (IPs r) = [] /\ ipRuleSets (IPs r) = [] /\
    existsb ip_holds (IPs r) = nonempty (IPs r) && field "ip_version" (VInt 6)).
  { unfold rawIPs, ipRuleSets. induction Hall as [|ip l -> Hl (IH1 & IH2 & IH3)]; [done|].
    cbn in IH1, IH2, IH3 |- *. rewrite IH1, IH2, IH3. by destruct (field _ _), (nonempty l). }
  destruct Hn as (E1 & E2 & E3). unfold ip_fields. by rewrite E1, E2.
Qed.

Lemma set_version o r : exists a b, has port_keys a = false /\ has port_keys b = false /\ some_of port_keys a = false /\
  some_of port_keys b = false /\ has dest_keys (a ++ b) = false /\ required (a ++ b) = field "ip_version" (VInt 6) /\
  jset "ip_version" (VInt 6) (createBaseRule o r) = ("outbound"%string, VString o) :: a ++ rest_of r ++ b.
Proof.
  destruct (Z.eqb_spec (IPVersion r) 0) as [E0|E0].
  - exists [], [("ip_version"%string, VInt 6)]. split_and!; try done; [cbn; by rewrite andb_true_r|].
    rewrite base_rest, E0. cbn. f_equal. apply jset_absent, has_rest.
  - exists [("ip_version"%string, VInt 6)], []. split_and!; try done; [cbn; by rewrite andb_true_r|].
    rewrite base_rest, (proj2 (Z.eqb_neq _ _) E0), app_nil_r. done.
Qed.

Lemma matches_ip_v6 o r : v6_alone r -> hasIPMatchers r = true -> hasIPv6All r = true ->
  matches (ip_rule (createBaseRule o r) r) =
  (existsb ip_holds (IPs r) || ((IPVersion r =? 6) && field "ip_version" (VInt 6))) && others_hold r.
Proof.
  intros Hv Hi H6. destruct (Hv H6) as [Hall Hver]. destruct (v6_fields r Hall) as [E1 E2].
  destruct (set_version o r) as (a & b & Pa & Pb & Sa & Sb & Da & Ra & Hset).
  unfold ip_rule. fold (ip_fields r). rewrite H6, E1, app_nil_r, Hset, matches_with, Da, Ra, others_split, E2 by done.
  rewrite ip_matchers in Hi. destruct Hver as [E|E]; rewrite E in *.
  - change (0 =? 6) with false in *. rewrite orb_false_r in Hi. rewrite Hi. cbn. by rewrite orb_false_r.
  - cbn. by destruct (nonempty _), (field _ _).
Qed.

Lemma matches_ip_plain o r : hasIPMatchers r = true -> hasIPv6All r = false ->
  matches (ip_rule (createBaseRule o r) r) =
  (existsb ip_holds (IPs r) || ((IPVersion r =? 6) && field "ip_version" (VInt 6))) && others_hold r.
Proof.
  intros Hi H6. destruct (ip_fields_logic r) as (Hp & Sp & Rp & Hips & Hhas).
  assert (Hne : has dest_keys (ip_fields r) = true).
  { rewrite Hhas, <- Hi. unfold hasIPMatchers. by rewrite H6, orb_false_r. }
  unfold hasIPv6All in H6. apply orb_false_iff in H6 as [Hn6 H6].
  assert (Hall : forall ip, ip ∈ IPs r -> ip <> "::/0"%string).
  { intros ip Hip ->. apply (not_true_iff_false _) in H6. apply H6. apply existsb_exists. exists "::/0"%string. by rewrite <- list_elem_of_In. }
  unfold ip_rule. fold (ip_fields r). unfold hasIPv6All. rewrite H6, Hn6, others_split. cbn [orb andb].
  rewrite base_rest. cbn [app]. rewrite <- app_assoc, matches_with; try done; [|by fields | by fields].
  rewrite has_app, some_of_app, required_app, required_version, Rp, negb_involutive, Hips, Hne. fields.
  rewrite <- !andb_assoc. f_equal. clear -Hall. induction (IPs r) as [|ip l IH]; [done|]. cbn.
  rewrite IH by (intros j Hj; apply Hall; by right). f_equal.
  unfold ip_holds, classify_ip. rewrite (proj2 (String.eqb_neq ip "::/0")) by (apply Hall; by left).
  by destruct (HasPrefix ip "geoip:"), (TrimPrefix ip "geoip:" =s "private"), (HasPrefix ip "ip:").
Qed.

Lemma matches_ip o r : v6_alone r -> hasIPMatchers r = true ->
  matches (ip_rule (createBaseRule o r) r) =
  (existsb ip_holds (IPs r) || ((IPVersion r =? 6) && field "ip_version" (VInt 6))) && others_hold r.
Proof. intros. destruct (hasIPv6All r) eqn:?; [by apply matches_ip_v6 | by apply matches_ip_plain]. Qed.

Lemma matches_base o r : matches (createBaseRule o r) = others_hold r.
Proof.
  rewrite base_rest, <- (app_nil_r (rest_of r)), matches_with by (try done; by fields).
  rewrite app_nil_r, others_split, required_version, negb_involutive. fields. done.
Qed.

Lemma outbound_kept spec r : Forall (fun m => get_string m "outbound" = outbound_of spec r) (rules_of spec r).
Proof.
  assert (Hip : get_string (ip_rule (createBaseRule (outbound_of spec r) r) r) "outbound" = outbound_of spec r).
  { unfold ip_rule, get_string. rewrite jget_app. destruct (hasIPv6All r); [by rewrite jget_jset | done]. }
  unfold rules_of. destruct (_ && _); [by repeat constructor|]. destruct (hasDomainMatchers r); [by repeat constructor|].
  destruct (hasIPMatchers r); [by repeat constructor|]. destruct (_ || _); by repeat constructor.
Qed.

(** The rules of one rule of the syntax, followed by others. *)
Lemma first_match_rule spec r rules : v6_alone r ->
  first_match (rules_of spec r ++ rules) =
  if is_live spec r && rule_holds r then Some (outbound_of spec r) else first_match rules.
Proof.
  intros Hv. pose proof (outbound_kept spec r) as Ho. unfold is_live, rule_holds, dest_holds.
  pose proof (domain_matchers r) as Hd. pose proof (ip_matchers r) as Hi.
  pose proof (matches_domain (outbound_of spec r) r) as Md. pose proof (matches_ip (outbound_of spec r) r Hv) as Mi.
  pose proof (matches_base (outbound_of spec r) r) as Mb. unfold rules_of in *.
  destruct (hasDomainMatchers r), (hasIPMatchers r); cbn [andb app first_match nonempty] in *;
    rewrite ?Forall_cons in Ho; destruct_and?; repeat match goal with H : get_string _ _ = _ |- _ => rewrite H; clear H end.
  - rewrite Md, Mi, <- Hd by done. destruct (existsb domain_holds _), (existsb ip_holds _), (_ && field _ _), (others_hold r); done.
  - symmetry in Hi. apply orb_false_iff in Hi as [Hi ->]. rewrite Md, <- Hd by done. destruct (IPs r); [|done]. cbn. by rewrite !orb_false_r.
  - rewrite Mi by done. destruct (Domains r); [|done]. destruct (nonempty (IPs r)), (IPVersion r =? 6); done.
  - symmetry in Hi. apply orb_false_iff in Hi as [Hi ->]. destruct (Domains r); [|done]. destruct (IPs r); [|done]. cbn [existsb nonempty negb orb andb].
    destruct (_ || _); [|done]. cbn [app first_match nonempty andb]. rewrite Forall_cons in Ho. destruct Ho as [-> _]. by rewrite Mb.
Qed.

Lemma first_match_rules spec rules : Forall v6_alone rules ->
  first_match (concat (map (rules_of spec) rules)) = decision spec rules.
Proof.
  induction 1 as [|r rules Hr _ IH]; [done|]. cbn [map concat decision]. by rewrite first_match_rule, IH by done.
Qed.
End meaning.

Section route.
Context {order : RangeOrder string} (unmarshal : string -> option jmap).

Lemma hijack_no_outbound spec : Forall (fun m => jget m "outbound" = None) (hijack_rules spec).
Proof. unfold hijack_rules. destruct (is_some _); by repeat constructor. Qed.

Lemma sniff_no_outbound spec : Forall (fun m => jget m "outbound" = None) (sniff_rules spec).
Proof. unfold sniff_rules. destruct (sniffingInbounds spec) as [|? []]; by repeat constructor. Qed.

Lemma resolve_no_outbound l : Forall (fun m => jget m "outbound" = None) (omap resolve_rule l).
Proof. induction l as [|sb l IH]; [done|]. cbn. unfold resolve_rule at 1. destruct (_ =s ""); [done|]. by constructor. Qed.


(** The default action of a policy is not part of the route: with it changed the
    configuration is the same. *)
Definition with_default (a : RouteAction) (spec : ConfigSpec) : ConfigSpec :=
  mkConfig (cs_TargetCore spec) (cs_CoreVersion spec) (cs_StrictMode spec) (cs_ServerNode spec) (cs_ClientInbound spec)
    (cs_ServerInbounds spec)
    (match cs_Routing spec with
     | Some r => Some (mkSpec a (Rules r) (Outbounds r) (AutoDetectInterface r) (OverrideDNS r) (RuleSets r))
     | None => None
     end)
    (cs_DNS spec) (cs_LogLevel spec) (cs_LogPath spec) (cs_AccessLog spec) (cs_ErrorLog spec)
    (cs_ClashAPIAddress spec) (cs_RawJSONConfig spec).

Lemma default_action_ignored a spec isV112 active :
  BuildSingBoxRoute unmarshal (with_default a spec) isV112 active = BuildSingBoxRoute unmarshal spec isV112 active.
Proof.
  destruct active as [mirror d]. unfold BuildSingBoxRoute, ruleSetMap, download_detour, route_rules, user_rules, with_default. cbn.
  by destruct (cs_Routing spec).
Qed.
End route.

(** All IPv6 addresses beside an IPv4 network: the compiled rule asks for both at
    once, and no connection over IPv4 matches it. *)
Definition v6_mixed : RoutingRule :=
  mkRule "block" "" [] ["::/0"; "10.0.0.0/8"]%string [] [] [] [] [] [] [] 0.

Definition demo_spec (rules : list RoutingRule) : ConfigSpec :=
  mkConfig "singbox" "" false None None [] (Some (mkSpec "proxy" rules [] true false [])) None "" "" "" "" "" "".

Lemma ipv6_with_others :
  rules_of (demo_spec [v6_mixed]) v6_mixed =
  [[("outbound", VString "block"); ("ip_version", VInt 6); ("ip_cidr", VList [VString "10.0.0.0/8"])]]%string.
Proof. reflexivity. Qed.

(** ** Witness *)

(** One connection to www.example.com over IPv4, port 443. *)
Definition demo_scalar (k : string) (v : value) : bool :=
  match v with
  | VString s => (k =s "domain_suffix") && (s =s "example.com")
  | VInt n => (k =s "ip_version") && (n =? 4) || (k =s "port") && (n =? 443)
  | _ => false
  end.
Definition demo_field (k : string) (v : value) : bool :=
  match v with VList l => existsb (demo_scalar k) l | _ => demo_scalar k v end.
Definition demo_matches (r : jmap) : bool :=
  (negb (has dest_keys r) || some_of demo_field dest_keys r) &&
  (negb (has port_keys r) || some_of demo_field port_keys r) && required demo_field r.

Lemma demo_logic : rule_logic demo_field demo_matches.
Proof.
  split; [done | |]; intros k l; unfold VStrings, demo_field; cbn.
  - induction l as [|x l IH]; [done|]. cbn in *. by rewrite IH.
  - induction l as [|x l IH]; [done|]. cbn in *. by rewrite IH.
Qed.

Definition demo_rules : list RoutingRule :=
  [mkRule "block" "" [] ["10.0.0.0/8"]%string [] [] [] [] [] [] [] 0;
   mkRule "direct" "" ["geosite:ru"; "example.com"]%string ["geoip:ru"]%string ["443"]%string [] [] [] [] [] [] 0].

End SingBox.
