(* ===== verification/RuleMirrors.v ===== *)
(** * Probing the mirrors of rule sets (src/pkg/compiler/singbox/mirror.go)

    All mirrors are asked at once and the first that answers is used for ten minutes; the
    same race finds an outbound of a running core that reaches a mirror.  The answers of
    the hosts are arguments. *)
From stdpp Require Import relations.
From S2P Require Import Prelude GoStrings GoURL SingBox Concurrency.
Open Scope Z_scope.

Module Probes.
Import SingBox.

(** ** Mirrors, directly *)

Definition or_timeout (timeout default : Z) : Z := if timeout <=? 0 then default else timeout.

Section direct.
(** The status of the answer of a mirror, if it answers in time. *)
Context (status : RuleMirror -> option Z).
Definition is_up (m : RuleMirror) : bool := match status m with Some code => (200 <=? code) && (code <? 400) | None => false end.
Definition announce (m : RuleMirror) : option RuleMirror := if is_up m then Some m else None.
(** The end of the channel reads as a mirror without a name. *)
Definition best (_ : unit) (m : option RuleMirror) : unit + option RuleMirror :=
  inr (match m with Some m => if Name m <>s "" then Some m else None | None => None end).
Definition probe_step := Race.step (length DefaultMirrors) true announce (fun _ => None) best None.
Definition ProbeMirrorsDirect : Race.race RuleMirror RuleMirror unit (option RuleMirror) := Race.started DefaultMirrors tt.
End direct.

(** ** Outbounds, through the controller of a core *)

(** [url.PathEscape] *)
Definition PathEscape : string -> string := escape (fun a => is_unreserved a || in_set "$&+=:@" a) "%20".
Definition or_controller (clashAddr : string) : string := if clashAddr =s "" then "127.0.0.1:9090" else clashAddr.
Definition probe_url (clashAddr tag : string) (timeout : Z) (mirrorProbeURL : string) : string :=
  "http://" ^^ clashAddr ^^ "/proxies/" ^^ PathEscape tag ^^ "/delay?timeout=" ^^ Itoa (timeout / Millisecond) ^^ "&url=" ^^ QueryEscape mirrorProbeURL.
Definition probed (tag : string) : bool := (tag <>s "") && (tag <>s "direct") && (tag <>s "block").

Section clash.
(** The status and the decoded delay of an answer of the controller. *)
Context (ask : string -> option (Z * option Z)) (clashAddr mirrorProbeURL : string) (timeout : Z).
Definition delay_of (tag : string) : option string :=
  match ask (probe_url (or_controller clashAddr) tag (or_timeout timeout (2500 * Millisecond)) mirrorProbeURL) with
  | Some (code, Some delay) => if (code =? 200) && (0 <? delay) then Some tag else None
  | _ => None
  end.
Definition working (_ : unit) (tag : option string) : unit + string := inr (match tag with Some tag => tag | None => "" end).
Definition clash_step (outbounds : list string) := Race.step (length outbounds) true delay_of (fun _ => None) working "".
Definition ProbeOutboundsViaClashAPI (outbounds : list string) : Race.race string string unit string :=
  Race.started (List.filter probed outbounds) tt.
End clash.

(** ** What a probe finds *)

(** A race whose caller takes one message. *)
Section one_message.
Context {A B O : Type} (cap : nat) (answer : A -> option B) (got : unit -> option B -> unit + O) (late : O) (l : list A).
Hypothesis returns : forall m b, Race.is_over (got m b) = true.
Hypothesis enough : (length l <= cap)%nat.
Lemma one_message s o : Race.reachable cap true answer (fun _ => None) got late l tt s -> Race.main s = inr o ->
  (exists a b, a ∈ l /\ answer a = Some b /\ got tt (Some b) = inr o) \/ (o = late /\ Race.expired s = true) \/
  (got tt None = inr o /\ (Race.expired s = false -> forall a, a ∈ l -> answer a = None)).
Proof using returns enough.
  intros Hr Ho. destruct (Race.race_outcome cap true answer (fun _ => None) got late (fun m => returns m None) l tt s o enough Hr Ho)
    as (taken & Hs & Hsub & Hout). destruct taken as [|b taken].
  - right. destruct Hout as [[=]|([] & _ & [H|[Hg Ha]])]; [by left|right]. split; [done|]. intros Hx a Ha'. specialize (Ha Hx).
    symmetry in Ha. apply Permutation_nil_r in Ha. destruct (answer a) as [b|] eqn:E; [|done].
    assert (Hb : b ∈ omap answer l) by (apply list_elem_of_omap; by exists a). rewrite Ha in Hb. by apply elem_of_nil in Hb.
  - left. destruct (Hs b) as (a & Ha & [Hb|?]); [by left| |done]. exists a, b. split_and!; [done..|].
    rewrite Race.run_cons in Hout. pose proof (returns tt (Some b)) as Hret. destruct (got tt (Some b)) as [|o']; [done|].
    by destruct Hout as [?|(? & ? & _)].
Qed.
End one_message.

Lemma best_returns m b : Race.is_over (best m b) = true.
Proof. done. Qed.
Lemma working_returns m b : Race.is_over (working m b) = true.
Proof. done. Qed.
Lemma mirrors_named m : m ∈ DefaultMirrors -> (Name m =s "") = false.
Proof. rewrite list_elem_of_In. intros H. repeat destruct H as [<-|H]; done. Qed.

(** Whatever the mirrors answer and in whatever order, a probe of the mirrors ends with a
    result: a mirror that is up, or none, and then none is up unless the deadline has passed. *)
Theorem mirror_probe_ends status :
  sn (probe_step status) ProbeMirrorsDirect /\
  forall s, rtc (probe_step status) ProbeMirrorsDirect s -> nf (probe_step status) s ->
    exists found, Race.main s = inr found /\
      match found with
      | Some m => m ∈ DefaultMirrors /\ is_up status m = true
      | None => Race.expired s = true \/ forall m, m ∈ DefaultMirrors -> is_up status m = false
      end.
Proof.
  destruct (Race.race_result (length DefaultMirrors) true (announce status) (fun _ => None) best None (fun m => best_returns m None)
    DefaultMirrors tt) as [Hsn Hres]. split; [exact Hsn|]. intros s Hr Hnf. destruct (Hres s Hr Hnf) as [found Hf]. exists found. split; [done|].
  destruct (one_message _ (announce status) best None DefaultMirrors best_returns (le_n _) s found Hr Hf) as [(a & b & Ha & Hb & Hg)|[[-> He]|[Hg Hn]]].
  - unfold announce in Hb. destruct (is_up status a) eqn:E; [|done]. injection Hb as <-. unfold best in Hg. rewrite (mirrors_named a Ha) in Hg.
    by injection Hg as <-.
  - by left.
  - injection Hg as <-. destruct (Race.expired s); [by left|right]. intros m Hm. specialize (Hn eq_refl m Hm). unfold announce in Hn.
    by destruct (is_up status m).
Qed.

(** The same for the outbounds of a core. *)
Lemma outbound_probe_ends ask clashAddr url timeout outbounds :
  let step := clash_step ask clashAddr url timeout outbounds in
  sn step (ProbeOutboundsViaClashAPI outbounds) /\
  forall s, rtc step (ProbeOutboundsViaClashAPI outbounds) s -> nf step s ->
    exists found, Race.main s = inr found /\
      if found =s "" then Race.expired s = true \/ (forall tag, tag ∈ outbounds -> probed tag = true -> delay_of ask clashAddr url timeout tag = None)
      else found ∈ outbounds /\ probed found = true /\ delay_of ask clashAddr url timeout found = Some found.
Proof.
  cbv zeta. set (l := List.filter probed outbounds). set (ans := delay_of ask clashAddr url timeout).
  assert (Hl : (length l <= length outbounds)%nat) by apply List.filter_length_le.
  destruct (Race.race_result (length outbounds) true ans (fun _ => None) working "" (fun m => working_returns m None)
    l tt) as [Hsn Hres]. split; [exact Hsn|]. intros s Hr Hnf. destruct (Hres s Hr Hnf) as [found Hf]. exists found. split; [done|].
  assert (Hin : forall t, t ∈ l <-> t ∈ outbounds /\ probed t = true) by (intros t; unfold l; by rewrite !list_elem_of_In, filter_In).
  destruct (one_message _ ans working "" l working_returns Hl s found Hr Hf) as [(a & b & Ha & Hb & Hg)|[[-> He]|[Hg Hn]]].
  - injection Hg as <-. assert (b = a) as ->.
    { unfold ans, delay_of in Hb. destruct (ask _) as [[? [?|]]|]; [|done..]. destruct (_ && _); [by injection Hb|done]. }
    apply Hin in Ha as [Ha Hp]. assert (Hne : (a =s "") = false) by (unfold probed in Hp; by destruct (a =s "")). by rewrite Hne.
  - by left.
  - injection Hg as <-. cbn. destruct (Race.expired s); [by left|right]. intros t Ht Hp. apply (Hn eq_refl). by apply Hin.
Qed.

(** The mirror in use is one of the list; it is used directly only if the probe found it up. *)
Lemma active_mirror_listed status c now s found later : (forall m, cachedMirror c = Some m -> m ∈ DefaultMirrors) ->
  rtc (probe_step status) ProbeMirrorsDirect s -> Race.main s = inr found ->
  let '(m, direct, c') := GetActiveRuleMirrorWithStatus c now found later in
  m ∈ DefaultMirrors /\ (forall m', cachedMirror c' = Some m' -> m' ∈ DefaultMirrors) /\
  (direct = true -> c' = c /\ cachedMirrorDirect c = true \/ is_up status m = true).
Proof.
  intros Hc Hr Hf. assert (Hin : forall m, found = Some m -> m ∈ DefaultMirrors /\ is_up status m = true).
  { intros m ->. destruct (one_message _ (announce status) best None DefaultMirrors best_returns (le_n _) s _ Hr Hf)
      as [(a & b & Ha & Hb & Hg)|[[? _]|[? _]]]; [|done..].
    unfold announce in Hb. destruct (is_up status a) eqn:E; [|done]. injection Hb as <-. unfold best in Hg. rewrite (mirrors_named a Ha) in Hg.
    by injection Hg as <-. }
  assert (Hfirst : firstMirror ∈ DefaultMirrors) by by left.
  assert (Hnew : let '(m, direct, c') := match found with Some m => (m, true, mkCache (Some m) true later) | None => (firstMirror, false, mkCache (Some firstMirror) false later) end in
    m ∈ DefaultMirrors /\ (forall m', cachedMirror c' = Some m' -> m' ∈ DefaultMirrors) /\ (direct = true -> c' = c /\ cachedMirrorDirect c = true \/ is_up status m = true)).
  { destruct found as [m|]; [destruct (Hin m eq_refl) as [H1 H2]|]; cbn; split_and!; try done; [by intros m' [= <-]|by right|by intros m' [= <-]]. }
  unfold GetActiveRuleMirrorWithStatus. destruct (cachedMirror c) as [m|] eqn:E; [|exact Hnew].
  destruct (_ <? _); [|exact Hnew]. split_and!; [by apply Hc| |by left]. by rewrite E.
Qed.
End Probes.
