(* ===== verification/Supervisor.v ===== *)
(** * The process manager (src/pkg/supervisor/process.go)

    Finding, checking, starting, stopping and reloading the binaries of the cores.  What
    the operating system answers is a record of functions; what an operation does to it
    is the list of its effects, in order.  The processes themselves, which end when they
    like, are the step relation further down.  Messages of the log are left out. *)
From S2P Require Import Prelude GoStrings GoPath GoNet GoURL Logs SingBox GoRegexp.
Import GoRegexp.
Open Scope Z_scope.

Module Processes.
Import Logs.

(** ** The operating system *)

Inductive FileStat := Missing | Unreadable | File (isDir : bool) (mode size : Z).
Record OS := mkOS {
  windows : bool;
  os_Stat : string -> FileStat;
  (** names, and whether they are directories *)
  os_ReadDir : string -> option (list (string * bool));
  os_ReadFile : string -> option string;
  exec_LookPath : string -> option string;
}.

Inductive effect :=
  | Chmod (path : string) (mode : Z)
  | MkdirAll (path : string)
  | WriteFile (path data : string)
  | Kill (pid : nat)
  | Spawn (pid : nat) (bin : string) (args : list string) (dir : string)
  | RunCommand (argv : list string)
  | Prefetch (configPath binDir : string)
  | TailFile (core path : string)
  | StreamPipe (core : string)
  | RegisterHysteriaPort (port : Z)
  | ConfigureClash (addr : string)
  | ResetHysteriaTraffic.

(** ** Names of binaries *)

Definition allowedSupervisorBinaries : list string :=
  ["sing-box"; "sing-box.exe"; "singbox"; "singbox.exe"; "xray"; "xray.exe"; "hysteria"; "hysteria.exe"; "hysteria2"; "hysteria2.exe"]%string.
Definition listed (l : list string) (s : string) : bool := existsb (String.eqb s) l.

Definition isAllowedCoreBinary (binPath : string) : bool :=
  let base := TrimSuffix (ToLower (Base binPath)) ".exe" in
  listed allowedSupervisorBinaries base || listed allowedSupervisorBinaries (base ^^ ".exe")
  || HasPrefix base "hysteria" || HasPrefix base "sing-box" || HasPrefix base "singbox" || HasPrefix base "xray".

Definition ignoredSupervisorExtensions : list string :=
  [".go"; ".json"; ".log"; ".txt"; ".md"; ".tmp"; ".dat"; ".srs"; ".crt"; ".key"; ".gz"; ".zip"; ".tar"; ".db"; ".sqlite"]%string.

Definition isValidCoreCandidate (fileName normName : string) : bool :=
  if listed ignoredSupervisorExtensions (ToLower (Ext fileName)) then false
  else
    let base := TrimSuffix (ToLower fileName) ".exe" in
    if normName =s "hysteria2" then
      (base =s "hysteria") || (base =s "hysteria2") || HasPrefix base "hysteria-" || HasPrefix base "hysteria2-"
    else if normName =s "sing-box" then
      (base =s "sing-box") || (base =s "singbox") || HasPrefix base "sing-box-" || HasPrefix base "singbox-"
    else if normName =s "xray" then (base =s "xray") || (base =s "xray-core") || HasPrefix base "xray-"
    else (base =s normName) || HasPrefix base (normName ^^ "-").

(** Octal 0111 and 0755 *)
Definition ensureExecutablePermissions (os : OS) (filePath : string) : list effect :=
  if windows os then []
  else match os_Stat os filePath with
       | File _ mode _ => if Z.land mode 73 =? 0 then [Chmod filePath (Z.lor mode 493)] else []
       | _ => []
       end.

Definition path_candidates (normName : string) : list string :=
  if normName =s "hysteria2" then ["hysteria2"; "hysteria"]%string
  else if normName =s "sing-box" then ["sing-box"; "singbox"]%string
  else if normName =s "xray" then ["xray"]%string
  else [normName].

(** The first entry of the directory that is named like the core. *)
Definition alias_in (os : OS) (dir normName : string) : option string :=
  entries ← os_ReadDir os dir;
  e ← List.find (fun e => negb e.2 && isValidCoreCandidate e.1 normName) entries;
  Some (JoinPath [dir; e.1]).

Fixpoint first_found (look : string -> option string) (names : list string) : option string :=
  match names with
  | [] => None
  | n :: names => match look n with Some p => Some p | None => first_found look names end
  end.

(** [None]: [os.ErrNotExist] *)
Definition resolveCoreBinaryPath (os : OS) (coreName binPath : string) : option (string * list effect) :=
  if binPath =s "" then None
  else
    let cleanBin := Clean binPath in
    match os_Stat os cleanBin with
    | File false _ _ => Some (cleanBin, ensureExecutablePermissions os cleanBin)
    | _ =>
        let normName := normalizeCoreName coreName in
        let base := Base cleanBin in
        if negb (isValidCoreCandidate base normName) then None
        else
          let dir := Dir cleanBin in
          let hasDir := (base <>s cleanBin) && (dir <>s ".") in
          let found :=
            match (if hasDir then alias_in os dir normName else None) with
            | Some cand => Some cand
            | None => first_found (exec_LookPath os) (path_candidates normName)
            end in
          (fun cand => (cand, ensureExecutablePermissions os cand)) <$> found
    end.

(** ** Rule sets *)

(** The file may be written below the directory of the binary only. *)
Definition rule_extensions : list string := [".srs"; ".json"; ".db"]%string.
Definition below (binDir target clean : string) : string :=
  match Rel binDir target with
  | Some rel => if HasPrefix rel ".." then JoinPath [binDir; Base clean] else target
  | None => JoinPath [binDir; Base clean]
  end.
Definition safeRulePath (initialPath binDir : string) : string * bool :=
  if initialPath =s "" then ("", false)%string
  else
    let clean := Clean initialPath in
    let target := below binDir (if IsAbs clean then clean else JoinPath [binDir; clean]) clean in
    if listed rule_extensions (ToLower (Ext target)) then (target, true) else ("", false)%string.

(** No metadata service, no address of this host or of a private network. *)
Definition forbidden_hosts : list string := ["metadata.google.internal"; "metadata.goog"; "instance-data"; "localhost"]%string.
Definition forbidden_ip (ip : IP) : bool :=
  IsLoopback ip || IsPrivate ip || IsLinkLocalUnicast ip || IsLinkLocalMulticast ip ||
  (let v4 := To4 ip in
   negb (is_nil v4) &&
   (((byte_at v4 0 =? 100) && (Z.land (byte_at v4 1) 192 =? 64)) || ((byte_at v4 0 =? 169) && (byte_at v4 1 =? 254)))).
Definition isSafePrefetchURL (rawURL : string) : bool :=
  match url_Parse rawURL with
  | None => false
  | Some parsed =>
      if (url_scheme parsed <>s "http") && (url_scheme parsed <>s "https") then false
      else
        let host := Hostname parsed in
        if host =s "" then false
        else if listed forbidden_hosts (ToLower host) then false
        else
          let ip := ParseIP host in
          negb (negb (is_nil ip) && forbidden_ip ip)
  end.

(** Seventeen bytes: the magic and an empty list of rules, compressed. *)
Definition emptySrsStub : string :=
  string_of_bytes [0x53; 0x52; 0x53; 0x01; 0x78; 0xda; 0x62; 0x00; 0x04; 0x00; 0x00; 0xff; 0xff; 0x00; 0x01; 0x00; 0x01].

(** The parts of a configuration file that are looked at, as they are decoded from its
    JSON text; [None] where it is no such text. *)
Record RuleSetRef := mkRuleSetRef { rs_InitialPath : string; rs_URL : string }.
Record Decoders := mkDecoders {
  decode_rule_sets : string -> option (list RuleSetRef);
  (** tag and type of the outbounds, and the address of the controller *)
  decode_outbounds : string -> list (string * string) * string;
  decode_hysteria_listen : string -> option string;
  (** file of the log, and address of the controller *)
  decode_singbox : string -> option (string * string);
  decode_xray_access : string -> option string;
}.

Section Operations.
Context (dec : Decoders).

Definition rule_sets_of (os : OS) (configPath : string) : list RuleSetRef :=
  if configPath =s "" then []
  else default [] (data ← os_ReadFile os configPath; decode_rule_sets dec data).

Definition stub_for (os : OS) (binDir : string) (rs : RuleSetRef) : list effect :=
  let '(targetPath, ok) := safeRulePath (rs_InitialPath rs) binDir in
  if negb ok || (targetPath =s "") then []
  else match os_Stat os targetPath with
       | Missing => [MkdirAll (Dir targetPath); WriteFile targetPath emptySrsStub]
       | _ => []
       end.
(** The files after an effect. *)
Definition after_effect (os : OS) (e : effect) : OS :=
  match e with
  | WriteFile path data =>
      mkOS (windows os) (fun p => if p =s path then File false 420 (Z.of_nat (String.length data)) else os_Stat os p)
        (os_ReadDir os) (os_ReadFile os) (exec_LookPath os)
  | _ => os
  end.
Fixpoint write_stubs (os : OS) (binDir : string) (refs : list RuleSetRef) : list effect :=
  match refs with
  | [] => []
  | rs :: refs => let effs := stub_for os binDir rs in effs ++ write_stubs (foldl after_effect os effs) binDir refs
  end.
Definition ensureSingboxRuleStubs (os : OS) (configPath binDir : string) : list effect :=
  write_stubs os binDir (rule_sets_of os configPath).

(** *** Filling the rule sets from the network

    [fetch url]: the status and the body, [None] an error of the connection; a body of
    [None] cannot be read. *)
Definition candidate_url (ruleTag : string) (m : SingBox.RuleMirror) : string :=
  SingBox.Sprintf_s (if HasPrefix ruleTag "geoip-" then SingBox.GeoipPattern m else SingBox.GeositePattern m) ruleTag.
Definition urls_to_try (activeMirror : SingBox.RuleMirror) (rs : RuleSetRef) (ruleTag : string) : list string :=
  (if (rs_URL rs <>s "") && isSafePrefetchURL (rs_URL rs) then [rs_URL rs] else [])
  ++ map (candidate_url ruleTag) (activeMirror :: SingBox.DefaultMirrors).

Definition good_content (content : string) : bool :=
  (String.length emptySrsStub <? String.length content)%nat && HasPrefix content "SRS".
Definition download (fetch : string -> option (Z * option string)) (u : string) : option string :=
  if negb (isSafePrefetchURL u) then None
  else match fetch u with
       | Some (200, Some content) => if good_content content then Some content else None
       | _ => None
       end.

(** The effects, and whether the rules are still missing. *)
Definition prefetch_one (os : OS) (fetch : string -> option (Z * option string)) (activeMirror : SingBox.RuleMirror) (binDir : string)
    (rs : RuleSetRef) : list effect * bool :=
  let '(targetPath, ok) := safeRulePath (rs_InitialPath rs) binDir in
  if negb ok || (targetPath =s "") then ([], false)
  else
    let full := match os_Stat os targetPath with File _ _ size => Z.of_nat (String.length emptySrsStub) <? size | _ => false end in
    if full then ([], false)
    else
      let ruleTag := TrimSuffix (Base targetPath) ".srs" in
      match first_found (download fetch) (urls_to_try activeMirror rs ruleTag) with
      | Some content => ([WriteFile targetPath content], false)
      | None => ([], true)
      end.

Fixpoint prefetch_all (os : OS) (fetch : string -> option (Z * option string)) (activeMirror : SingBox.RuleMirror) (binDir : string)
    (refs : list RuleSetRef) : list effect * bool :=
  match refs with
  | [] => ([], false)
  | rs :: refs =>
      let '(effs, missing) := prefetch_one os fetch activeMirror binDir rs in
      let '(rest, missing') := prefetch_all (foldl after_effect os effs) fetch activeMirror binDir refs in
      (effs ++ rest, missing || missing')
  end.

Definition is_proxy_tag (ob : string * string) : bool :=
  (ob.1 <>s "") && (ob.1 <>s "direct") && (ob.1 <>s "block") && (ob.2 <>s "direct") && (ob.2 <>s "block").
(** The effects, and the outbounds that are probed through the controller. *)
Definition prefetchRuleSets (os : OS) (fetch : string -> option (Z * option string)) (activeMirror : SingBox.RuleMirror)
    (configPath binDir : string) : list effect * list string :=
  let '(effs, hasMissingRules) := prefetch_all os fetch activeMirror binDir (rule_sets_of os configPath) in
  let '(outbounds, controller) := decode_outbounds dec (default "" (os_ReadFile os configPath)) in
  (effs, if hasMissingRules && (controller <>s "") then map fst (List.filter is_proxy_tag outbounds) else []).

(** ** The manager *)

Record ProcessManager := mkPM {
  processes : gmap string nat;
  binPaths : gmap string string;
  configPaths : gmap string string;
}.
Definition NewProcessManager : ProcessManager := mkPM ∅ ∅ ∅.
Definition GetBinaryPath (pm : ProcessManager) (coreName : string) : string := default ""%string (binPaths pm !! normalizeCoreName coreName).
Definition GetConfigPath (pm : ProcessManager) (coreName : string) : string := default ""%string (configPaths pm !! normalizeCoreName coreName).

Definition start_args (normName configPath : string) : list string :=
  if normName =s "xray" then ["run"; "-config"; configPath]%string
  else if (normName =s "sing-box") || (normName =s "singbox") then ["run"; "-c"; configPath]%string
  else if (normName =s "hysteria") || (normName =s "hysteria2") then ["server"; "-c"; configPath]%string
  else ["-c"; configPath]%string.

Definition shell_chars : string := String (ascii_of_N 0) (String (ascii_of_N 13) (String (ascii_of_N 10) "`|;&$")).
Definition unsafe_binary (cleanBin : string) : bool := str_exists (in_set shell_chars) cleanBin || negb (isAllowedCoreBinary cleanBin).

(** The last part of an address, when it is a positive number. *)
Definition listen_port (listen : string) : option Z :=
  let parts := SplitByte listen ":" in
  if (2 <=? len parts) && negb (listen =s "") then
    p ← scan_int (List.last parts ""%string); if 0 <? p then Some p else None
  else None.

(** The file whose lines are followed, and what is registered with the controller. *)
Definition telemetry (os : OS) (normName configPath : string) : string * list effect :=
  match (if configPath =s "" then None else os_ReadFile os configPath) with
  | None => (""%string, [])
  | Some data =>
      if normName =s "hysteria2" then
        (""%string, match decode_hysteria_listen dec data with
                    | Some listen => match listen_port listen with Some p => [RegisterHysteriaPort p] | None => [] end
                    | None => []
                    end)
      else if normName =s "sing-box" then
        match decode_singbox dec data with
        | Some (output, controller) => (output, if controller <>s "" then [ConfigureClash controller] else [])
        | None => (""%string, [])
        end
      else if normName =s "xray" then (default ""%string (decode_xray_access dec data), [])
      else (""%string, [])
  end.

(** The error, if any: a text, or the failure of the start. *)
Definition result : Type := ProcessManager * option string * list effect.

(** [spawn]: the process number of the new process, if it can be started. *)
Definition StartCore (os : OS) (spawn : option nat) (pm : ProcessManager) (coreName binPath configPath : string) : result :=
  let normName := normalizeCoreName coreName in
  match resolveCoreBinaryPath os coreName binPath with
  | None => (pm, Some ("binary not found: " ^^ binPath), [])
  | Some (bin, chmods) =>
      let pm := mkPM (processes pm) (<[normName := bin]> (binPaths pm)) (<[normName := configPath]> (configPaths pm)) in
      let missing := (configPath <>s "") && match os_Stat os configPath with Missing => true | _ => false end in
      if missing then (pm, Some ("config file not found: " ^^ configPath), chmods)
      else
        let kill := match processes pm !! normName with Some pid => [Kill pid] | None => [] end in
        let pm := mkPM (delete normName (processes pm)) (binPaths pm) (configPaths pm) in
        let binDir := Dir bin in
        let stubs := if normName =s "sing-box" then ensureSingboxRuleStubs os configPath binDir ++ [Prefetch configPath binDir] else [] in
        let cleanBin := Clean bin in
        let before := chmods ++ kill ++ stubs in
        if unsafe_binary cleanBin then (pm, Some ("invalid or unauthorized binary path: " ^^ Quote bin), before)
        else
          match spawn with
          | None => (pm, Some ("failed to start " ^^ normName), before)
          | Some pid =>
              let '(logFileToTail, registered) := telemetry os normName configPath in
              let defaultLogPath := JoinPath [Dir bin; normName ^^ ".log"] in
              (mkPM (<[normName := pid]> (processes pm)) (binPaths pm) (configPaths pm), None,
               before ++ [Spawn pid cleanBin (start_args normName configPath) binDir] ++ registered
               ++ (if logFileToTail <>s "" then [TailFile normName logFileToTail] else [])
               ++ (if defaultLogPath <>s logFileToTail then [TailFile normName defaultLogPath] else [])
               ++ [StreamPipe normName; StreamPipe normName])
          end
  end.

Definition getBinBaseName (normName : string) : string := if normName =s "hysteria2" then "hysteria" else normName.
Definition is_core (normName : string) : bool := listed ["sing-box"; "xray"; "hysteria2"]%string normName.

Definition kill_commands (os : OS) (normName : string) : list effect :=
  let binBase := getBinBaseName normName in
  if negb (is_core normName) then []
  else if windows os then
    [RunCommand ["taskkill"; "/F"; "/IM"; binBase ^^ ".exe"]%string; RunCommand ["taskkill"; "/F"; "/IM"; binBase ^^ "-windows-*.exe"]%string]
  else [RunCommand ["killall"; "-9"; binBase]%string; RunCommand ["pkill"; "-9"; "-x"; binBase]%string].

Definition StopCore (os : OS) (pm : ProcessManager) (coreName : string) : result :=
  let normName := normalizeCoreName coreName in
  let kill := match processes pm !! normName with Some pid => [Kill pid] | None => [] end in
  (mkPM (delete normName (processes pm)) (binPaths pm) (configPaths pm), None,
   kill ++ kill_commands os normName ++ (if normName =s "hysteria2" then [ResetHysteriaTraffic] else [])).

Definition RestartCore (os : OS) (spawn : option nat) (pm : ProcessManager) (coreName binPath configPath : string) : result :=
  let '(pm, _, stopped) := StopCore os pm coreName in
  let '(pm, err, started) := StartCore os spawn pm coreName binPath configPath in
  (pm, err, stopped ++ started).

Definition ReloadCore (os : OS) (spawn : option nat) (pm : ProcessManager) (coreName : string) : result :=
  let bin := GetBinaryPath pm coreName in
  let cfg := GetConfigPath pm coreName in
  if (bin =s "") || (cfg =s "") then (pm, Some ("core " ^^ coreName ^^ " paths not registered for reload"), [])
  else RestartCore os spawn pm coreName bin cfg.

(** [exited pid]: the process has ended and been waited for; [pgrep name]: some
    command line contains the name; [tasklist]: the first columns of the list. *)
Definition IsRunning (os : OS) (exited : nat -> bool) (pgrep : string -> bool) (tasklist : option string) (pm : ProcessManager)
    (coreName : string) : bool :=
  let normName := normalizeCoreName coreName in
  match processes pm !! normName with
  | Some pid => negb (exited pid)
  | None => false
  end ||
  (let binBase := getBinBaseName normName in
   if windows os then
     match tasklist with
     | Some out => existsb (fun line => match Fields line with
                                        | f :: _ => Contains f (ToLower binBase) && HasSuffix f ".exe"
                                        | [] => false
                                        end) (SplitByte (ToLower out) (ascii_of_N 10))
     | None => false
     end
   else pgrep binBase).

(** Each running core in turn; [spawn core] is the number of its new process. *)
Definition ReloadAllRunningCores (os : OS) (running : ProcessManager -> string -> bool) (spawn : string -> option nat) (pm : ProcessManager)
    : ProcessManager * list (string * option string) * list effect :=
  fold_left (fun '(pm, errs, effs) name =>
    if running pm name then
      let '(pm, err, e) := ReloadCore os (spawn name) pm name in (pm, errs ++ [(name, err)], effs ++ e)
    else (pm, errs, effs)) ["xray"; "sing-box"; "hysteria2"]%string (pm, [], []).

(** ** Checking a configuration *)

(** [run bin args dir]: whether the command succeeded, and its output. *)
Definition validation_args (normName configPath : string) : option (list string) :=
  if normName =s "xray" then Some ["run"; "-config"; configPath; "-test"]%string
  else if (normName =s "sing-box") || (normName =s "singbox") then Some ["check"; "-c"; configPath]%string
  else None.
Definition ValidateCoreConfig (os : OS) (run : string -> list string -> string -> bool * string) (coreName binPath configPath : string)
    : (bool * string * option string) * list effect :=
  match resolveCoreBinaryPath os coreName binPath with
  | None => ((false, ""%string, Some ("binary not found: " ^^ binPath)), [])
  | Some (bin, chmods) =>
      match os_Stat os configPath with
      | Missing => ((false, ""%string, Some ("config not found: " ^^ configPath)), chmods)
      | _ =>
          let normName := normalizeCoreName coreName in
          let binDir := Dir bin in
          match validation_args normName configPath with
          | None =>
              (match os_ReadFile os configPath with
               | None => (false, ""%string, Some "read error"%string)
               | Some data => if TrimSpace data =s "" then (false, "empty config"%string, None) else (true, "OK"%string, None)
               end, chmods)
          | Some args =>
              let stubs := if normName =s "xray" then [] else ensureSingboxRuleStubs os configPath binDir in
              let cleanBin := Clean bin in
              if unsafe_binary cleanBin
              then ((false, ""%string, Some ("invalid or unauthorized binary path: " ^^ Quote bin)), chmods ++ stubs)
              else
                let '(ok, out) := run cleanBin args binDir in
                ((ok, out, if ok then None else Some ("validation failed: " ^^ out)),
                 chmods ++ stubs ++ [RunCommand (cleanBin :: args)])
          end
      end
  end.
End Operations.

(** ** Versions *)

Definition versionColonRegex : Regexp :=
  regexp "(?i)version[:\s]+v?([0-9]+(?:\.[0-9]+)+(?:-[a-zA-Z0-9.]+)?|app\/[0-9]+(?:\.[0-9]+)+)".
Definition coreNamedVersionRegex : Regexp :=
  regexp "(?i)(?:hysteria|sing-box|singbox|xray)(?:[\s/]+version)?[\s/]+v?([0-9]+(?:\.[0-9]+)+(?:-[a-zA-Z0-9.]+)?|app\/[0-9]+(?:\.[0-9]+)+)".
Definition generalSemverRegex : Regexp := regexp "v?([0-9]+(?:\.[0-9]+)+(?:-[a-zA-Z0-9.]+)?)\b".

Definition with_v (v : string) : string := if HasPrefix v "v" then v else "v" ^^ v.
Definition first_group (x : Regexp) (s : string) : option string :=
  match FindStringSubmatch x s with Some (_ :: g :: _) => Some g | _ => None end.
Definition named_version (l : string) : option string :=
  let lTrim := TrimSpace l in
  if lTrim =s "" then None
  else match first_group versionColonRegex lTrim with
       | Some g => Some (with_v (TrimPrefix g "app/"))
       | None => match first_group coreNamedVersionRegex lTrim with Some g => Some (with_v (TrimPrefix g "app/")) | None => None end
       end.
Definition general_version (l : string) : option string :=
  let lTrim := TrimSpace l in
  if (lTrim =s "") || HasPrefix lTrim "░" || Contains lTrim "http" || Contains lTrim "quic-go" then None
  else with_v <$> first_group generalSemverRegex lTrim.
Definition parseCoreVersionOutput (raw : string) : string :=
  let lines := SplitByte raw (ascii_of_N 10) in
  match first_found named_version lines with
  | Some v => v
  | None => match first_found general_version lines with Some v => v | None => "Unknown" end
  end.

Definition version_args (normName : string) : list (list string) :=
  if normName =s "xray" then [["version"]; ["-version"]]%string else [["version"]]%string.
(** The output of the first command that succeeds with one, else the first output. *)
Fixpoint version_output (run : list string -> bool * string) (argsList : list (list string)) (output : string) : string :=
  match argsList with
  | [] => output
  | args :: rest =>
      let '(ok, out) := run args in
      if ok && (out <>s "") then out else version_output run rest (if (out <>s "") && (output =s "") then out else output)
  end.
Definition DetectCoreVersion (os : OS) (run : string -> list string -> string -> bool * string) (coreName binPath : string) : string :=
  match resolveCoreBinaryPath os coreName binPath with
  | None => "Not Installed"
  | Some (bin, _) =>
      let cleanBin := Clean bin in
      if unsafe_binary cleanBin then "Unknown"
      else
        let output := version_output (fun args => run cleanBin args (Dir cleanBin)) (version_args (normalizeCoreName coreName)) "" in
        if output =s "" then "Unknown" else parseCoreVersionOutput output
  end.

Example version_xray : parseCoreVersionOutput "Xray 1.8.24 (Xray, Penetrates Everything.) 2024 (go1.22.7 linux/amd64)" = "v1.8.24"%string.
Proof. vm_compute. reflexivity. Qed.
Example version_singbox : parseCoreVersionOutput "sing-box version 1.12.0-beta.3" = "v1.12.0-beta.3"%string.
Proof. vm_compute. reflexivity. Qed.
Example version_hysteria : parseCoreVersionOutput ("Version:  app/2.6.1") = "v2.6.1"%string.
Proof. vm_compute. reflexivity. Qed.

(** ** Rule sets stay below the directory of the binary *)

(** Where a path leads after it was restricted, for a directory given by its words. *)
Lemma below_inside ws t clean : ws <> [] -> Forall plain_word ws -> (exists ts, t = rooted ts /\ Forall plain_word ts) ->
  Base clean <> ".."%string -> exists rest, below (rooted ws) t clean = rooted (ws ++ rest) /\ Forall plain_word (ws ++ rest).
Proof.
  intros Hne Hws (ts & -> & Hts) Hb. unfold below. pose proof (Rel_inside ws ts Hws Hts) as Hr.
  destruct (Rel (rooted ws) (rooted ts)) as [rel|]; [|done].
  destruct (HasPrefix rel ".."); [by apply JoinPath_Base_inside|]. destruct (Hr eq_refl) as [rest ->]. by exists rest.
Qed.

(** Whatever path a configuration gives, a rule set is stored inside the directory of
    the binary, under a clean path with one of the three extensions; the directory is an
    absolute clean path, and the path does not end in its parent. *)
Theorem rule_path_contained initialPath binDir target :
  IsAbs binDir = true -> Clean binDir = binDir -> binDir <> "/"%string -> Base (Clean initialPath) <> ".."%string ->
  safeRulePath initialPath binDir = (target, true) ->
  inside binDir target /\ Clean target = target /\ listed rule_extensions (ToLower (Ext target)) = true.
Proof.
  intros Habs Hclean Hroot Hup. destruct (Clean_absolute binDir Habs) as (ws & E & Hws). rewrite Hclean in E. subst binDir.
  assert (Hne : ws <> []) by (by intros ->). unfold safeRulePath. destruct (initialPath =s ""); [done|]. cbv zeta.
  destruct (below_inside ws (if IsAbs (Clean initialPath) then Clean initialPath else JoinPath [rooted ws; Clean initialPath])
    (Clean initialPath) Hne Hws) as (rest & -> & Hrest).
  - rewrite Clean_abs. destruct (IsAbs initialPath) eqn:Ea; [by apply Clean_absolute|].
    rewrite JoinPath_rooted by (done || apply Clean_nonempty). eexists. split; [done|].
    apply Forall_rev, clean_plain; [apply split_no_slash | by apply Forall_rev].
  - done.
  - destruct (listed _ _) eqn:El; [|done]. intros [= <-]. split; [by apply inside_words|]. split; [by apply Clean_rooted_words|done].
Qed.

Lemma rule_path_contained_witness : inside "/opt/sentinel/bin" "/opt/sentinel/bin/passwd.srs" /\
  safeRulePath "../../../etc/passwd.srs" "/opt/sentinel/bin" = ("/opt/sentinel/bin/passwd.srs"%string, true).
Proof.
  split; [|reflexivity].
  apply (rule_path_contained "../../../etc/passwd.srs" "/opt/sentinel/bin" "/opt/sentinel/bin/passwd.srs"); [reflexivity|reflexivity|discriminate|discriminate|reflexivity].
Defined.

(** A path that ends in the parent is joined as it is: where the name of the parent has one
    of the extensions, the rule set is outside. *)
Example parent_escapes : safeRulePath "../.." "/srv/rules.db/bin" = ("/srv/rules.db"%string, true).
Proof. reflexivity. Qed.

(** ** The processes

    A process is known by the number it was started under; it ends when it likes, and the
    routine that waits for it then takes it out of the table, if it is still there.  Each
    operation holds the lock from its first line to its last; a restart is a stop and a
    start, between which anything else may happen. *)
Record System := mkSystem {
  sys_pm : ProcessManager;
  alive : gset nat;
  (** the core each process was started for *)
  owner : gmap nat string;
  next : nat;
}.

Definition alive_after (l : gset nat) (e : effect) : gset nat :=
  match e with Kill p => l ∖ {[p]} | Spawn p _ _ _ => {[p]} ∪ l | _ => l end.
Definition owner_after (core : string) (m : gmap nat string) (e : effect) : gmap nat string :=
  match e with Spawn p _ _ _ => <[p := normalizeCoreName core]> m | _ => m end.
Definition system_after (core : string) (s : System) (pm : ProcessManager) (effs : list effect) : System :=
  mkSystem pm (fold_left alive_after effs (alive s)) (fold_left (owner_after core) effs (owner s)) (S (next s)).

(** The routine that waits for the process [p] of the core [name]. *)
Definition finished (pm : ProcessManager) (name : string) (p : nat) : ProcessManager :=
  mkPM (if decide (processes pm !! name = Some p) then delete name (processes pm) else processes pm) (binPaths pm) (configPaths pm).

Inductive sstep (dec : Decoders) (s : System) : System -> Prop :=
  | step_start os (ok : bool) core bin cfg pm err effs :
      StartCore dec os (if ok then Some (next s) else None) (sys_pm s) core bin cfg = (pm, err, effs) ->
      sstep dec s (system_after core s pm effs)
  | step_stop os core pm err effs :
      StopCore os (sys_pm s) core = (pm, err, effs) -> sstep dec s (system_after core s pm effs)
  | step_exit p : sstep dec s (mkSystem (sys_pm s) (alive s ∖ {[p]}) (owner s) (next s))
  | step_reap p name :
      p ∉ alive s -> owner s !! p = Some name ->
      sstep dec s (mkSystem (finished (sys_pm s) name p) (alive s) (owner s) (next s)).
Definition boot : System := mkSystem NewProcessManager ∅ ∅ 0.
Definition reachable (dec : Decoders) : System -> Prop := rtc (sstep dec) boot.

(** Every live process is the one its core is registered with, and only processes that
    were started for a core are registered with it. *)
Record tracked (s : System) : Prop := mkTracked {
  live_registered : forall p, p ∈ alive s -> exists name, owner s !! p = Some name /\ processes (sys_pm s) !! name = Some p;
  registered_owned : forall name p, processes (sys_pm s) !! name = Some p -> owner s !! p = Some name;
  owned_old : forall p name, owner s !! p = Some name -> (p < next s)%nat;
}.

(** Effects that neither end nor start a process *)
Definition quiet (e : effect) : bool := match e with Kill _ | Spawn _ _ _ _ => false | _ => true end.

(** A restart is two steps, and so is a reload of a registered core. *)
Lemma restart_steps dec s os (ok : bool) core bin cfg pm err effs :
  RestartCore dec os (if ok then Some (S (next s)) else None) (sys_pm s) core bin cfg = (pm, err, effs) ->
  exists s' started, sstep dec s s' /\ sstep dec s' (system_after core s' pm started).
Proof.
  unfold RestartCore. destruct (StopCore os (sys_pm s) core) as [[pm1 err1] stopped] eqn:E1.
  destruct (StartCore dec os _ pm1 core bin cfg) as [[pm2 err2] started] eqn:E2. intros [= <- <- _].
  exists (system_after core s pm1 stopped), started. split; [by eapply step_stop|]. by eapply (step_start dec _ os ok).
Qed.
Lemma reload_steps dec s os (ok : bool) core pm effs :
  ReloadCore dec os (if ok then Some (S (next s)) else None) (sys_pm s) core = (pm, None, effs) ->
  exists s' started, sstep dec s s' /\ sstep dec s' (system_after core s' pm started).
Proof.
  unfold ReloadCore. destruct (_ || _); [done|]. apply restart_steps.
Qed.

Lemma quiet_alive l a : forallb quiet l = true -> fold_left alive_after l a = a.
Proof. revert a. induction l as [|[] l IH]; intros a; cbn; try done; apply IH. Qed.
Lemma quiet_owner core l m : forallb quiet l = true -> fold_left (owner_after core) l m = m.
Proof. revert m. induction l as [|[] l IH]; intros m; cbn; try done; apply IH. Qed.
Lemma quiet_app l k : forallb quiet l = true -> forallb quiet k = true -> forallb quiet (l ++ k) = true.
Proof. intros Hl Hk. by rewrite forallb_app, Hl, Hk. Qed.

(** Effects on files only *)
Definition on_files (e : effect) : bool := match e with Chmod _ _ | MkdirAll _ | WriteFile _ _ => true | _ => false end.
Lemma on_files_quiet l : forallb on_files l = true -> forallb quiet l = true.
Proof. induction l as [|[] l IH]; cbn; try done; apply IH. Qed.
Lemma chmods_on_files os p : forallb on_files (ensureExecutablePermissions os p) = true.
Proof. unfold ensureExecutablePermissions. destruct (windows os), (os_Stat os p); try done. by destruct (_ =? 0). Qed.
Lemma stubs_on_files dec os cfg dir : forallb on_files (ensureSingboxRuleStubs dec os cfg dir) = true.
Proof.
  unfold ensureSingboxRuleStubs. generalize (rule_sets_of dec os cfg) as l. intros l. revert os.
  induction l as [|rs l IH]; intros os; [done|]. cbn. rewrite forallb_app, IH, andb_true_r.
  unfold stub_for. destruct (safeRulePath _ _) as [t ok]. destruct (_ || _); [done|]. by destruct (os_Stat os t).
Qed.
Lemma resolve_on_files os core bin b effs : resolveCoreBinaryPath os core bin = Some (b, effs) -> forallb on_files effs = true.
Proof.
  unfold resolveCoreBinaryPath. destruct (bin =s ""); [done|]. cbv zeta.
  assert (Hrest : forall x : option string, (fun cand => (cand, ensureExecutablePermissions os cand)) <$> x = Some (b, effs) -> forallb on_files effs = true).
  { intros [c|]; [|done]. intros [= _ <-]. apply chmods_on_files. }
  destruct (os_Stat os (Clean bin)) as [| |[] ? ?]; try (destruct (negb (isValidCoreCandidate _ _)); [done|apply Hrest]).
  intros [= _ <-]. apply chmods_on_files.
Qed.
Lemma quiet_telemetry dec os name cfg : forallb quiet (telemetry dec os name cfg).2 = true.
Proof.
  unfold telemetry. destruct (if cfg =s "" then None else os_ReadFile os cfg); [|done].
  destruct (name =s "hysteria2").
  { cbn. destruct (decode_hysteria_listen dec _); [|done]. by destruct (listen_port _). }
  destruct (name =s "sing-box").
  { destruct (decode_singbox dec _) as [[]|]; [|done]. cbn. by destruct (_ <>s ""). }
  by destruct (name =s "xray").
Qed.
Definition kill_of (pm : ProcessManager) (name : string) : list effect :=
  match processes pm !! name with Some pid => [Kill pid] | None => [] end.

(** A start has done one of three things to the processes: nothing, ended the old one, or
    ended it and started the new one; it started none but a binary that passed the check. *)
Inductive start_outcome (spawn : option nat) (pm : ProcessManager) (name : string) (cfg : string) : ProcessManager -> option string -> list effect -> Prop :=
  | start_refused pm' e effs :
      processes pm' = processes pm -> forallb quiet effs = true -> start_outcome spawn pm name cfg pm' (Some e) effs
  | start_failed pm' e pre post :
      processes pm' = delete name (processes pm) -> forallb quiet pre = true -> forallb quiet post = true ->
      start_outcome spawn pm name cfg pm' (Some e) (pre ++ kill_of pm name ++ post)
  | start_done pm' p bin dir pre mid post :
      spawn = Some p -> processes pm' = <[name := p]> (delete name (processes pm)) ->
      unsafe_binary bin = false ->
      forallb quiet pre = true -> forallb quiet mid = true -> forallb quiet post = true ->
      start_outcome spawn pm name cfg pm' None
        (pre ++ kill_of pm name ++ mid ++ Spawn p bin (start_args name cfg) dir :: post).

Lemma StartCore_outcome dec os spawn pm core bin cfg pm' err effs :
  StartCore dec os spawn pm core bin cfg = (pm', err, effs) ->
  start_outcome spawn pm (normalizeCoreName core) cfg pm' err effs.
Proof.
  unfold StartCore. destruct (resolveCoreBinaryPath os core bin) as [[b chmods]|] eqn:Er.
  2:{ intros [= <- <- <-]. by apply start_refused. }
  apply resolve_on_files, on_files_quiet in Er. destruct (_ && _).
  { intros [= <- <- <-]. by apply start_refused. }
  cbv zeta. cbn [processes binPaths configPaths].
  set (name := normalizeCoreName core). set (stubs := if name =s "sing-box" then _ else _).
  assert (Hs : forallb quiet stubs = true).
  { subst stubs. destruct (name =s "sing-box"); [|done]. apply quiet_app; [apply on_files_quiet, stubs_on_files|done]. }
  fold (kill_of pm name). destruct (unsafe_binary (Clean b)) eqn:Eu.
  { intros [= <- <- <-]. by apply start_failed. }
  destruct spawn as [p|].
  2:{ intros [= <- <- <-]. by apply start_failed. }
  pose proof (quiet_telemetry dec os name cfg) as Ht.
  destruct (telemetry dec os name cfg) as [tail reg]. cbn [snd] in Ht.
  match goal with |- (_, _, (chmods ++ ?k ++ stubs) ++ [?sp] ++ reg ++ ?l1 ++ ?l2 ++ ?l3) = _ -> _ =>
    replace ((chmods ++ k ++ stubs) ++ [sp] ++ reg ++ l1 ++ l2 ++ l3) with (chmods ++ k ++ stubs ++ sp :: (reg ++ l1 ++ l2 ++ l3))
      by (by rewrite <- !app_assoc);
    assert (Hl : forallb quiet (reg ++ l1 ++ l2 ++ l3) = true)
  end.
  { repeat apply quiet_app; [done|by destruct (tail <>s "")|by destruct (_ <>s tail)|done]. }
  intros [= <- <- <-]. by apply start_done.
Qed.

Lemma StopCore_outcome os pm core pm' err effs :
  StopCore os pm core = (pm', err, effs) ->
  processes pm' = delete (normalizeCoreName core) (processes pm) /\
  exists post, effs = kill_of pm (normalizeCoreName core) ++ post /\ forallb quiet post = true.
Proof.
  unfold StopCore. intros [= <- _ <-]. split; [done|]. eexists. split; [reflexivity|]. apply quiet_app.
  - unfold kill_commands. destruct (negb _); [done|]. by destruct (windows os).
  - by destruct (_ =s _).
Qed.

(** Ending the registered process and striking it from the table. *)
Lemma tracked_killed s core pm n : tracked s -> processes pm = delete (normalizeCoreName core) (processes (sys_pm s)) -> (next s <= n)%nat ->
  tracked (mkSystem pm (fold_left alive_after (kill_of (sys_pm s) (normalizeCoreName core)) (alive s)) (owner s) n)
  /\ fold_left (owner_after core) (kill_of (sys_pm s) (normalizeCoreName core)) (owner s) = owner s.
Proof.
  intros [Hl Hr Ho] Hp Hn. set (name := normalizeCoreName core) in *. split.
  2:{ unfold kill_of. by destruct (_ !! name). }
  assert (Hin : forall p, p ∈ fold_left alive_after (kill_of (sys_pm s) name) (alive s) ->
    p ∈ alive s /\ processes (sys_pm s) !! name <> Some p).
  { intros p. unfold kill_of. destruct (_ !! name) as [q|]; cbn; [|done]. intros Hin. apply elem_of_difference in Hin as [Hi Hq].
    split; [done|]. intros [= ->]. set_solver. }
  constructor; cbn [sys_pm alive owner next].
  - intros p Hp'. apply Hin in Hp' as [Hp' Hne]. destruct (Hl p Hp') as (name' & Hown & Hreg).
    exists name'. split; [done|]. rewrite Hp, lookup_delete_ne; [done|]. by intros <-.
  - intros name' p. rewrite Hp. intros H. apply lookup_delete_Some in H as [_ H]. by apply Hr.
  - intros p name' H. specialize (Ho p name' H). lia.
Qed.

Lemma tracked_start dec s os (ok : bool) core bin cfg pm err effs : tracked s ->
  StartCore dec os (if ok then Some (next s) else None) (sys_pm s) core bin cfg = (pm, err, effs) ->
  tracked (system_after core s pm effs).
Proof.
  intros Ht E. apply StartCore_outcome in E. unfold system_after.
  inversion E as [pm' e effs' Hp Hq | pm' e pre post Hp Hq1 Hq2 | pm' p b dir pre mid post Hs Hp Hu Hq1 Hq2 Hq3]; subst; clear E.
  - rewrite quiet_alive, quiet_owner by done. destruct Ht as [Hl Hr Ho].
    constructor; cbn [sys_pm alive owner next]; rewrite ?Hp; auto. intros p name H. specialize (Ho p name H). lia.
  - rewrite !fold_left_app, (quiet_alive pre), (quiet_owner _ pre), (quiet_alive post), (quiet_owner _ post) by done.
    destruct (tracked_killed s core pm (S (next s)) Ht Hp) as [Hk ->]; [lia|]. done.
  - destruct ok; [|done]. injection Hs as <-.
    rewrite !fold_left_app. cbn [fold_left alive_after owner_after].
    rewrite (quiet_alive pre), (quiet_owner _ pre), (quiet_alive mid), (quiet_owner _ mid), (quiet_alive post), (quiet_owner _ post) by done.
    destruct (tracked_killed s core (mkPM (delete (normalizeCoreName core) (processes (sys_pm s))) (binPaths (sys_pm s)) (configPaths (sys_pm s))) (next s) Ht eq_refl) as [[Hl Hr Ho] ->]; [lia|].
    cbn [sys_pm alive owner next processes] in Hl, Hr, Ho. set (name := normalizeCoreName core) in *.
    constructor; cbn [sys_pm alive owner next]; rewrite ?Hp.
    + intros p Hin. apply elem_of_union in Hin as [Hin%elem_of_singleton|Hin].
      * subst p. exists name. by rewrite !lookup_insert_eq.
      * destruct (Hl p Hin) as (name' & Hown & Hreg). exists name'.
        assert (name' <> name) by (intros ->; by apply lookup_delete_Some in Hreg as [? _]).
        rewrite !lookup_insert_ne; [done| |]; [done|]. intros <-. apply Ho in Hown. lia.
    + intros name' p Hin. apply lookup_insert_Some in Hin as [[<- <-]|[Hne Hin]]; [by rewrite lookup_insert_eq|].
      apply Hr in Hin. rewrite lookup_insert_ne; [done|]. intros <-. apply Ho in Hin. lia.
    + intros p name' Hin. apply lookup_insert_Some in Hin as [[<- _]|[_ Hin]]; [lia|]. apply Ho in Hin. lia.
Qed.

Lemma sstep_tracked dec s s' : tracked s -> sstep dec s s' -> tracked s'.
Proof.
  intros Ht Hs. destruct Hs as [os ok core bin cfg pm err effs E | os core pm err effs E | p | p name Hd Hown].
  - by eapply tracked_start.
  - apply StopCore_outcome in E as (Hp & post & -> & Hq). unfold system_after.
    rewrite !fold_left_app, (quiet_alive post), (quiet_owner _ post) by done.
    destruct (tracked_killed s core pm (S (next s)) Ht Hp) as [Hk ->]; [lia|]. done.
  - destruct Ht as [Hl Hr Ho]. constructor; cbn [sys_pm alive owner next]; auto.
    intros q Hq. apply Hl. set_solver.
  - destruct Ht as [Hl Hr Ho]. constructor; cbn [sys_pm alive owner next]; auto; unfold finished; cbn [processes];
      destruct (decide _) as [Ep|]; auto.
    + intros q Hq. destruct (Hl q Hq) as (name' & Ho' & Hreg). exists name'. split; [done|].
      rewrite lookup_delete_ne; [done|]. intros <-. congruence.
    + intros name' q H. apply lookup_delete_Some in H as [_ H]. by apply Hr.
Qed.
Lemma tracked_boot : tracked boot.
Proof. by constructor. Qed.

(** C16. In every reachable state, whatever was started, stopped, refused or ended in between:
    each live process is the one registered for the core it was started for, so no core
    has two live processes, and stopping a core ends every process started for it. *)
Theorem one_process_per_core dec s : reachable dec s ->
  (forall p, p ∈ alive s -> exists core, owner s !! p = Some core /\ processes (sys_pm s) !! core = Some p) /\
  (forall p q, p ∈ alive s -> q ∈ alive s -> owner s !! p = owner s !! q -> p = q) /\
  (forall os core pm err effs, StopCore os (sys_pm s) core = (pm, err, effs) ->
     forall p, p ∈ fold_left alive_after effs (alive s) -> owner s !! p <> Some (normalizeCoreName core)).
Proof.
  intros Hr. assert (Ht : tracked s).
  { unfold reachable in Hr. pose proof tracked_boot as H0. induction Hr; eauto using sstep_tracked. }
  split_and!.
  - apply live_registered, Ht.
  - intros p q Hp Hq. destruct (live_registered s Ht p Hp) as (c & -> & Hc), (live_registered s Ht q Hq) as (d & -> & Hd).
    intros [= ->]. congruence.
  - intros os core pm err effs E p Hin Hown. apply StopCore_outcome in E as (Hp & post & -> & Hq).
    rewrite fold_left_app, (quiet_alive post) in Hin by done.
    destruct (tracked_killed s core pm (next s) Ht Hp) as [[Hl _ _] _]; [lia|].
    destruct (Hl p Hin) as (c & Hc & Hreg). cbn in Hc, Hreg. rewrite Hown in Hc. injection Hc as <-.
    rewrite Hp in Hreg. by apply lookup_delete_Some in Hreg as [? _].
Qed.

(** A host with an executable file of each name, and a process started twice. *)
Definition plain_host : OS := mkOS false (fun _ => File false 493 1) (fun _ => None) (fun _ => None) (fun _ => None).
Definition no_text : Decoders := mkDecoders (fun _ => None) (fun _ => ([], ""%string)) (fun _ => None) (fun _ => None) (fun _ => None).
Definition started_twice : System :=
  mkSystem (mkPM {["xray" := 1%nat]} {["xray" := "/opt/xray"]} {["xray" := "/opt/c.json"]}) {[1%nat]} {[0%nat := "xray"; 1%nat := "xray"]} 2.
Lemma started_twice_reachable : reachable no_text started_twice.
Proof.
  unfold reachable. eapply rtc_l; [eapply (step_start no_text boot plain_host true "Xray" "/opt/xray" "/opt/c.json"); vm_compute; reflexivity|].
  eapply rtc_l; [eapply (step_start no_text _ plain_host true "xray-core" "/opt/xray" "/opt/c.json"); vm_compute; reflexivity|].
  match goal with |- rtc _ ?s _ => replace s with started_twice by (vm_compute; reflexivity) end. apply rtc_refl.
Qed.
Lemma one_process_per_core_witness : reachable no_text started_twice /\
  exists core, owner started_twice !! 1%nat = Some core /\ processes (sys_pm started_twice) !! core = Some 1%nat.
Proof.
  split; [apply started_twice_reachable|].
  apply (one_process_per_core no_text started_twice started_twice_reachable). unfold started_twice; cbn [alive]; set_solver.
Defined.

(** Nothing is executed under the name of a core but a file that passes the check of
    its name: no character of a shell in its path and the name of a core; this holds for
    starts, restarts and reloads and for the checks of a configuration. *)
Theorem only_core_binaries_run dec os spawn pm core :
  (forall bin cfg pm' err effs p b args dir,
     StartCore dec os spawn pm core bin cfg = (pm', err, effs) -> In (Spawn p b args dir) effs ->
     unsafe_binary b = false /\ spawn = Some p /\ args = start_args (normalizeCoreName core) cfg /\ err = None) /\
  (forall bin cfg run r effs argv,
     ValidateCoreConfig dec os run core bin cfg = (r, effs) -> In (RunCommand argv) effs ->
     exists b args, argv = b :: args /\ unsafe_binary b = false) /\
  (forall run run' bin, (forall b args dir, unsafe_binary b = false -> run b args dir = run' b args dir) ->
     DetectCoreVersion os run core bin = DetectCoreVersion os run' core bin).
Proof.
  split_and!.
  - intros bin cfg pm' err effs p b args dir E Hin. apply StartCore_outcome in E.
    assert (Hno : forall l, forallb quiet l = true -> ~ In (Spawn p b args dir) l).
    { intros l Hl Hi. rewrite forallb_forall in Hl. by apply Hl in Hi. }
    assert (Hkill : ~ In (Spawn p b args dir) (kill_of pm (normalizeCoreName core))).
    { unfold kill_of. destruct (_ !! _); cbn; naive_solver. }
    inversion E; subst; clear E; rewrite ?in_app_iff in Hin; cbn in Hin; [by destruct (Hno effs)|exfalso; intuition eauto|].
    destruct Hin as [?|[?|[?|[[= <- <- <- _]|?]]]]; try (exfalso; by intuition eauto). done.
  - intros bin cfg run r effs argv. unfold ValidateCoreConfig.
    assert (Hno : forall l, forallb on_files l = true -> ~ In (RunCommand argv) l).
    { intros l Hl Hi. rewrite forallb_forall in Hl. by apply Hl in Hi. }
    destruct (resolveCoreBinaryPath os core bin) as [[b chmods]|] eqn:Er; [|by intros [= _ <-]].
    apply resolve_on_files, Hno in Er. destruct (os_Stat os cfg); [by intros [= _ <-]|..];
      (destruct (validation_args _ _) as [args|]; [|by intros [= _ <-]]); cbv zeta;
      set (stubs := if normalizeCoreName core =s "xray" then _ else _);
      (assert (Hs : ~ In (RunCommand argv) stubs) by (subst stubs; destruct (_ =s _); [by intros []|apply Hno, stubs_on_files]));
      (destruct (unsafe_binary (Clean b)) eqn:Eu; [intros [= _ <-]; rewrite in_app_iff; naive_solver|]);
      destruct (run _ _ _) as [ok out]; intros [= _ <-]; rewrite !in_app_iff; intros [?|[?|[[= <-]|[]]]]; try contradiction; eauto.
  - intros run run' bin Hrun. unfold DetectCoreVersion. destruct (resolveCoreBinaryPath os core bin) as [[b ?]|]; [|done].
    destruct (unsafe_binary (Clean b)) eqn:Eu; [done|]. cbv zeta.
    assert (Hv : forall cmds o, version_output (fun args => run (Clean b) args (Dir (Clean b))) cmds o =
      version_output (fun args => run' (Clean b) args (Dir (Clean b))) cmds o).
    { induction cmds as [|a cmds IH]; intros o; [reflexivity|]. cbn. rewrite (Hrun _ _ _ Eu). destruct (run' _ _ _). by rewrite IH. }
    by rewrite Hv.
Qed.

Lemma only_core_binaries_run_witness : unsafe_binary "/opt/xray" = false /\ unsafe_binary "/bin/sh" = true.
Proof.
  split; [|reflexivity].
  eapply (proj1 (only_core_binaries_run no_text plain_host (Some 3%nat) NewProcessManager "xray") "/opt/./xray" "/opt/c.json"%string).
  - vm_compute. reflexivity.
  - left. reflexivity.
Defined.

(** A file that is no core is made executable, and the core that runs is ended, before the
    file is refused. *)
Example refused_after_kill :
  StartCore no_text (mkOS false (fun _ => File false 420 1) (fun _ => None) (fun _ => None) (fun _ => None)) (Some 8%nat)
    (mkPM {["xray" := 7%nat]} {["xray" := "/opt/xray"]} {["xray" := "/opt/c.json"]}) "xray" "/tmp/notes.txt" "/opt/c.json" =
  (mkPM ∅ {["xray" := "/tmp/notes.txt"]} {["xray" := "/opt/c.json"]}, Some ("invalid or unauthorized binary path: " ^^ Quote "/tmp/notes.txt"),
   [Chmod "/tmp/notes.txt" 493; Kill 7%nat]).
Proof. vm_compute. reflexivity. Qed.

(** Addresses of this host that are let through. *)
Example local_addresses_accepted :
  map isSafePrefetchURL ["http://0.0.0.0:9090/x"; "http://127.1/x"; "http://2130706433/x"; "http://localhost./x"; "http://localhost/x"; "http://127.0.0.1/x"]%string
  = [true; true; true; true; false; false].
Proof. vm_compute. reflexivity. Qed.

End Processes.
