(* ===== verification/SingBoxTraffic.v ===== *)
(** * Traffic of sing-box (src/pkg/supervisor/singbox.go)

    Each poll of the controller compares the counters of the live connections and of the
    whole core with those of the poll before, and adds the differences to the users.  The
    answer of the controller and the decoding of its JSON text are arguments; the tracker
    of sessions is threaded through, since a poll both asks it and feeds it. *)
From S2P Require Import Prelude GoStrings Sessions.
Open Scope Z_scope.

Module Polls.
Import Sessions.

(** ** The answer of the controller *)

Record Metadata := mkMetadata {
  m_User : string; InboundUser : string; ClientUser : string; m_Username : string; AuthUser : string; m_Name : string;
  m_Email : string; m_Client : string; m_UUID : string; Outbound : string; m_Chains : list string;
  SourceIP : string; SourcePort : string; Source_IP : string; ClientIP : string;
}.
Record Connection := mkConnection {
  ID : string; Download : Z; Upload : Z; User : string; Username : string; c_Email : string; c_UUID : string;
  Chains : list string; metadata : Metadata;
}.
Record Reply := mkReply { DownloadTotal : Z; UploadTotal : Z; Conns : list Connection }.

(** The request fails, has another status than 200, or has a body; [None]: a body that
    cannot be read or decoded. *)
Inductive Answer := NoAnswer | Status (code : Z) | Body (data : option Reply).

(** ** State *)

Record SBState := mkSB {
  sbUserCumulative : gmap string (gmap string ClientTraffic);
  sbLastConnStats : gmap string (Z * Z);
  sbConnUser : gmap string string;
  sbLastTotals : gmap string (Z * Z);
  sbLastSeenUser : gmap string string;
}.
Definition ResetSingBoxCumulativeTraffic : SBState := mkSB ∅ ∅ ∅ ∅ ∅.

Definition CheckSingBoxStatus (answer : Answer) : bool :=
  match answer with NoAnswer => false | Status code => code =? 200 | Body _ => true end.
Definition or_default_addr (clashAddr : string) : string := if clashAddr =s "" then "127.0.0.1:9090" else clashAddr.

Fixpoint first_nonempty (l : list string) : string :=
  match l with [] => "" | s :: l => if s =s "" then first_nonempty l else s end.
Definition explicit_user (conn : Connection) : string :=
  let m := metadata conn in
  first_nonempty [m_User m; InboundUser m; ClientUser m; m_Username m; AuthUser m; m_Email m; m_Name m; m_Client m; m_UUID m;
                  User conn; Username conn; c_UUID conn].

(** What a counter has grown by; a smaller value is that of a new counter. *)
Definition since (prev cur : Z) : Z := if prev <=? cur then wrap64 (cur - prev) else cur.

Definition new_traffic (email : string) : ClientTraffic := mkTraffic email 0 0 false [] 0.
Definition bill (email : string) (up down : Z) (m : gmap string ClientTraffic) : gmap string ClientTraffic :=
  let ct := default (new_traffic email) (m !! email) in
  <[email := mkTraffic (t_Email ct) (wrap64 (UpBytes ct + up)) (wrap64 (DownBytes ct + down)) (Online ct) (ActiveIPs ct) (Sessions.Connections ct)]> m.

Definition last_of (l : list string) : string := List.last l ""%string.
Definition outbound_tag (conn : Connection) : string :=
  first_nonempty [Outbound (metadata conn); last_of (Chains conn); last_of (m_Chains (metadata conn))].
Definition proxied (tag : string) : bool := (tag <>s "") && (tag <>s "direct") && (tag <>s "block") && (tag <>s "blocked").
Definition outbound_key (tag : string) : string := "outbound:" ^^ tag.
Definition source_ip (conn : Connection) : string :=
  TrimSpace (first_nonempty [SourceIP (metadata conn); Source_IP (metadata conn); ClientIP (metadata conn)]).

(** What one poll keeps while it reads the connections; [users] is the map of the address. *)
Record Poll := mkPoll {
  lastConn : gmap string (Z * Z);
  connUser : gmap string string;
  lastSeen : option string;
  users : gmap string ClientTraffic;
  live : gmap string Z;
  ips : gmap string (gset string);
  active : gset string;
  deltasUp : Z;
  deltasDown : Z;
  tracker : SessionTracker;
}.

Section Poll.
Context {order : RangeOrder string} (loc : Locale) (now : Z) (nowStr : string).

Definition user_of (p : Poll) (conn : Connection) : string :=
  let explicit := explicit_user conn in
  let m := metadata conn in
  let email := TrimSpace (if explicit =s "" then ResolveSingBoxUser (SourceIP m) (SourcePort m) (tracker p) else explicit) in
  if (email =s "") && ((SourceIP m =s "") || (SourceIP m =s "127.0.0.1")) then default ""%string (lastSeen p) else email.

Definition growth_of (p : Poll) (conn : Connection) : Z * Z :=
  let '(prevUp, prevDown) := default (0, 0) (lastConn p !! ID conn) in (since prevUp (Upload conn), since prevDown (Download conn)).

Definition counted (p : Poll) (conn : Connection) : Poll :=
  let '(up, down) := growth_of p conn in
  mkPoll (<[ID conn := (Upload conn, Download conn)]> (lastConn p)) (connUser p) (lastSeen p) (users p) (live p) (ips p)
    (if ID conn <>s "" then {[ID conn]} ∪ active p else active p)
    (wrap64 (deltasUp p + up)) (wrap64 (deltasDown p + down)) (tracker p).

Definition attributed (p : Poll) (conn : Connection) (email : string) (up down : Z) : Poll :=
  let tag := outbound_tag conn in
  let ip := source_ip conn in
  let m := bill email up down (users p) in
  let external := (ip <>s "") && (ip <>s "127.0.0.1") && (ip <>s "::1") && (explicit_user conn <>s "") in
  mkPoll (lastConn p) (if ID conn <>s "" then <[ID conn := email]> (connUser p) else connUser p) (Some email)
    (if proxied tag then bill (outbound_key tag) up down m else m)
    (<[email := wrap64 (default 0 (live p !! email) + 1)]> (live p))
    (<[email := (if ip <>s "" then {[ip]} else ∅) ∪ default ∅ (ips p !! email)]> (ips p))
    (active p) (deltasUp p) (deltasDown p)
    (if external then RegisterExternalConnect loc "sing-box" email ip now nowStr (tracker p) else tracker p).

Definition read_conn (p : Poll) (conn : Connection) : Poll :=
  let email := user_of p conn in
  let '(up, down) := growth_of p conn in
  let p := counted p conn in
  if email =s "" then p else attributed p conn email up down.

(** The users of the connections that are no longer there, in the order of the range. *)
Definition add_closed (p : Poll) (acc : list string) (cID : string) : list string :=
  match connUser p !! cID with
  | Some email => if bool_decide (cID ∈ active p) || (email =s "") || containsString acc email then acc else acc ++ [email]
  | None => acc
  end.
Definition closedUsers (p : Poll) : list string := foldl (add_closed p) [] (range_keys (dom (connUser p))).
Definition forget {A} (p : Poll) (m : gmap string A) : gmap string A := filter (fun kv => kv.1 ∈ active p) m.

(** Who is billed for what no live connection accounts for. *)
Definition targetEmails (p : Poll) : list string :=
  match closedUsers p with
  | [] =>
      let lastEmail := default ""%string (lastSeen p) in
      if lastEmail <>s "" then [lastEmail]
      else match elements (dom (users p)) with
           | [em] => [em]
           | _ => let resolved := ResolveSingBoxUser "" "" (tracker p) in if resolved <>s "" then [resolved] else []
           end
  | l => l
  end.
(** Equal shares; the first takes the remainder. *)
Definition share (targets : list string) (up down : Z) (m : gmap string ClientTraffic) : gmap string ClientTraffic :=
  match targets with
  | [] => m
  | first :: rest =>
      let n := len targets in
      foldl (fun m em => bill em (Z.quot up n) (Z.quot down n) m)
        (bill first (wrap64 (Z.quot up n + Z.rem up n)) (wrap64 (Z.quot down n + Z.rem down n)) m) rest
  end.

Definition totals_growth (s : SBState) (clashAddr : string) (data : Reply) : Z * Z :=
  let '(prevUpTotal, prevDownTotal) := default (0, 0) (sbLastTotals s !! clashAddr) in
  (since prevUpTotal (UploadTotal data), since prevDownTotal (DownloadTotal data)).
Definition has_totals (data : Reply) : bool := (0 <? DownloadTotal data) || (0 <? UploadTotal data).

Definition start_poll (s : SBState) (st : SessionTracker) (clashAddr : string) : Poll :=
  mkPoll (sbLastConnStats s) (sbConnUser s) (sbLastSeenUser s !! clashAddr) (default ∅ (sbUserCumulative s !! clashAddr))
    ∅ ∅ ∅ 0 0 st.
Definition read_conns (s : SBState) (st : SessionTracker) (clashAddr : string) (data : Reply) : Poll :=
  foldl read_conn (start_poll s st clashAddr) (Conns data).

Definition unaccounted (s : SBState) (clashAddr : string) (data : Reply) (p : Poll) : Z * Z :=
  let '(up, down) := totals_growth s clashAddr data in (wrap64 (up - deltasUp p), wrap64 (down - deltasDown p)).
Definition settle (s : SBState) (clashAddr : string) (data : Reply) (p : Poll) : gmap string ClientTraffic :=
  let '(up, down) := unaccounted s clashAddr data p in
  if has_totals data && ((0 <? up) || (0 <? down)) then share (targetEmails p) up down (users p) else users p.

Definition snapshot (p : Poll) (m : gmap string ClientTraffic) : gmap string ClientTraffic :=
  map_imap (fun email ct =>
    let connCount := default 0 (live p !! email) in
    Some (mkTraffic email (UpBytes ct) (DownBytes ct) (0 <? connCount)
      (match ips p !! email with Some l => range_keys l | None => [] end) connCount)) m.
Definition offline (m : gmap string ClientTraffic) : gmap string ClientTraffic :=
  map_imap (fun email ct => Some (mkTraffic email (UpBytes ct) (DownBytes ct) false [] 0)) m.

(** The traffic of the users; the state and the tracker after.  The error is that of the
    request, or of the body. *)
Definition FetchSingBoxTraffic (s : SBState) (st : SessionTracker) (clashAddr : string) (answer : Answer)
    : SBState * SessionTracker * (gmap string ClientTraffic * bool) :=
  let clashAddr := or_default_addr clashAddr in
  let known := offline (default ∅ (sbUserCumulative s !! clashAddr)) in
  match answer with
  | NoAnswer => (s, st, (known, false))
  | Status code => (s, st, (known, true))
  | Body None => (s, st, (∅, false))
  | Body (Some data) =>
      let p := read_conns s st clashAddr data in
      let m := settle s clashAddr data p in
      (mkSB (<[clashAddr := m]> (sbUserCumulative s)) (forget p (lastConn p)) (forget p (connUser p))
         (if has_totals data then <[clashAddr := (UploadTotal data, DownloadTotal data)]> (sbLastTotals s) else sbLastTotals s)
         (match lastSeen p with Some e => <[clashAddr := e]> (sbLastSeenUser s) | None => sbLastSeenUser s end),
       tracker p, (snapshot p m, true))
  end.
End Poll.

(** The connections that are closed for a user, in order. *)
Definition kick_user (conn : Connection) : string :=
  let m := metadata conn in
  first_nonempty [m_User m; InboundUser m; ClientUser m; m_Username m; AuthUser m; m_Email m; m_Name m; m_Client m;
                  User conn; Username conn; c_Email conn].
(** [None]: the request fails, or its body is not decoded.  The addresses that are deleted. *)
Definition CloseSingBoxConnections (reply : option Reply) (email : string) : option (list string) :=
  data ← reply;
  Some (map ID (List.filter (fun conn => EqualFold (TrimSpace (kick_user conn)) email) (Conns data))).

(** ** Where the bytes go *)

(** Equality of the counters, which wrap. *)
Definition eq64 (a b : Z) : Prop := a mod 2^64 = b mod 2^64.
#[export] Instance eq64_equiv : Equivalence eq64.
Proof. split; [done | by intros a b | intros a b c; apply eq_trans]. Qed.
#[export] Instance eq64_add : Proper (eq64 ==> eq64 ==> eq64) Z.add.
Proof. intros a b H c d H'. unfold eq64 in *. by rewrite (Zplus_mod a c), (Zplus_mod b d), H, H'. Qed.
#[export] Instance eq64_sub : Proper (eq64 ==> eq64 ==> eq64) Z.sub.
Proof. intros a b H c d H'. unfold eq64 in *. by rewrite (Zminus_mod a c), (Zminus_mod b d), H, H'. Qed.
#[export] Instance eq64_mul : Proper (eq64 ==> eq64 ==> eq64) Z.mul.
Proof. intros a b H c d H'. unfold eq64 in *. by rewrite (Zmult_mod a c), (Zmult_mod b d), H, H'. Qed.
Lemma wrap64_eq64 z : eq64 (wrap64 z) z.
Proof. unfold eq64, wrap64. rewrite Zminus_mod, Z.mod_mod, <- Zminus_mod by lia. f_equal. lia. Qed.
Lemma eq64_eq a b : a = b -> eq64 a b.
Proof. by intros ->. Qed.

(** The keys of outbounds repeat what is billed to users. *)
Definition user_key (k : string) : bool := negb (HasPrefix k "outbound:").
Definition billed (f : ClientTraffic -> Z) (m : gmap string ClientTraffic) : Z :=
  map_fold (fun k ct acc => (if user_key k then f ct else 0) + acc) 0 m.

Lemma billed_insert f k ct m : m !! k = None -> billed f (<[k := ct]> m) = (if user_key k then f ct else 0) + billed f m.
Proof. intros H. unfold billed. rewrite map_fold_insert_L; [done| |done]. intros. lia. Qed.
Lemma billed_update f k ct ct' m : m !! k = Some ct ->
  billed f (<[k := ct']> m) = billed f m + (if user_key k then f ct' - f ct else 0).
Proof.
  intros H. rewrite <- (insert_delete_id m k ct H) at 2. rewrite <- insert_delete_eq.
  rewrite !billed_insert by apply lookup_delete_eq. destruct (user_key k); lia.
Qed.

(** The two directions of a counter, as a projection and an amount. *)
Record direction := mkDirection { bytes : ClientTraffic -> Z; amount : Z * Z -> Z; delta : Poll -> Z }.
Definition upward : direction := mkDirection UpBytes fst deltasUp.
Definition downward : direction := mkDirection DownBytes snd deltasDown.

Lemma bill_billed dir email up down m : dir = upward \/ dir = downward ->
  eq64 (billed (bytes dir) (bill email up down m)) (billed (bytes dir) m + if user_key email then amount dir (up, down) else 0).
Proof.
  intros Hd. unfold bill. destruct (m !! email) as [ct|] eqn:E; cbn [default].
  - rewrite (billed_update _ _ ct) by done. destruct Hd as [-> | ->]; cbn; destruct (user_key email); try done;
      rewrite wrap64_eq64; apply eq64_eq; lia.
  - rewrite billed_insert by done. destruct Hd as [-> | ->]; cbn; destruct (user_key email); rewrite ?wrap64_eq64; apply eq64_eq; lia.
Qed.

Lemma outbound_key_not_user tag : user_key (outbound_key tag) = false.
Proof. unfold user_key, outbound_key. by rewrite HasPrefix_app. Qed.

Lemma share_billed dir targets up down m : dir = upward \/ dir = downward -> targets <> [] -> forallb user_key targets = true ->
  eq64 (billed (bytes dir) (share targets up down m)) (billed (bytes dir) m + amount dir (up, down)).
Proof.
  intros Hd Hne Hu. destruct targets as [|first rest]; [done|]. cbn [forallb] in Hu. apply andb_true_iff in Hu as [Hf Hr].
  unfold share. set (n := len (first :: rest)).
  assert (Hrest : forall l m', forallb user_key l = true ->
    eq64 (billed (bytes dir) (foldl (fun m em => bill em (Z.quot up n) (Z.quot down n) m) m' l))
         (billed (bytes dir) m' + len l * amount dir (Z.quot up n, Z.quot down n))).
  { induction l as [|e l IH]; intros m' Hl; cbn [foldl].
    { apply eq64_eq. unfold len. cbn. lia. }
    cbn [forallb] in Hl. apply andb_true_iff in Hl as [He Hl]. rewrite IH, bill_billed, He, len_cons by done. apply eq64_eq. lia. }
  rewrite Hrest, bill_billed, Hf by done. clear Hrest.
  assert (Hn : len rest = n - 1) by (subst n; rewrite len_cons; lia). rewrite Hn.
  pose proof (Z.quot_rem' up n). pose proof (Z.quot_rem' down n).
  destruct Hd as [-> | ->]; cbn; rewrite wrap64_eq64; apply eq64_eq; lia.
Qed.

Section Conservation.
Context {order : RangeOrder string} (loc : Locale).

(** A connection that names its user. *)
Definition named (conn : Connection) : bool :=
  let email := TrimSpace (explicit_user conn) in (email <>s "") && user_key email.

Lemma user_of_named p conn : named conn = true -> user_of p conn = TrimSpace (explicit_user conn).
Proof using Type.
  unfold named. intros [He _]%andb_true_iff. unfold user_of. destruct (String.eqb_spec (explicit_user conn) "") as [E|_]; [by rewrite E in He|].
  cbv zeta. destruct (TrimSpace (explicit_user conn) =s ""); [done|]. done.
Qed.

Definition unsettled (dir : direction) (p : Poll) : Z := billed (bytes dir) (users p) - delta dir p.
Lemma read_conn_unsettled dir now nowStr p conn : dir = upward \/ dir = downward -> named conn = true ->
  eq64 (unsettled dir (read_conn loc now nowStr p conn)) (unsettled dir p).
Proof using Type.
  intros Hd Hn. unfold read_conn. rewrite (user_of_named p conn Hn). pose proof Hn as [He Hu]%andb_true_iff.
  destruct (growth_of p conn) as [up down] eqn:Eg. cbv zeta. destruct (TrimSpace (explicit_user conn) =s ""); [done|].
  set (email := TrimSpace (explicit_user conn)) in *. unfold unsettled, attributed, counted. rewrite Eg. cbn [users].
  assert (Hb : eq64 (billed (bytes dir) (if proxied (outbound_tag conn) then bill (outbound_key (outbound_tag conn)) up down (bill email up down (users p))
      else bill email up down (users p))) (billed (bytes dir) (users p) + amount dir (up, down))).
  { destruct (proxied _); rewrite !bill_billed by done; rewrite ?outbound_key_not_user, Hu; apply eq64_eq; lia. }
  rewrite Hb. destruct Hd as [-> | ->]; cbn; rewrite wrap64_eq64; apply eq64_eq; lia.
Qed.
Lemma read_conns_unsettled dir now nowStr s st clashAddr data : dir = upward \/ dir = downward -> forallb named (Conns data) = true ->
  eq64 (unsettled dir (read_conns loc now nowStr s st clashAddr data)) (billed (bytes dir) (default ∅ (sbUserCumulative s !! clashAddr))).
Proof using Type.
  intros Hd. unfold read_conns. assert (H0 : unsettled dir (start_poll s st clashAddr) = billed (bytes dir) (default ∅ (sbUserCumulative s !! clashAddr))).
  { unfold unsettled. destruct Hd as [-> | ->]; cbn; lia. }
  rewrite <- H0. clear H0. generalize (start_poll s st clashAddr) as p. induction (Conns data) as [|conn l IH]; intros p Hl; [done|].
  cbn [forallb foldl] in *. apply andb_true_iff in Hl as [Hc Hl]. rewrite (IH _ Hl). by apply read_conn_unsettled.
Qed.

(** A poll that can be accounted for: each connection names its user, the live connections
    have not moved more than the core as a whole, and what is left over has somebody to go to. *)
Definition fair (now : Z) (nowStr : string) (s : SBState) (st : SessionTracker) (clashAddr : string) (data : Reply) : bool :=
  let p := read_conns loc now nowStr s st clashAddr data in
  let '(up, down) := unaccounted s clashAddr data p in
  forallb named (Conns data) &&
  (if has_totals data then
     (0 <=? up) && (0 <=? down) && forallb user_key (targetEmails p) && (((up =? 0) && (down =? 0)) || (0 <? len (targetEmails p)))
   else (deltasUp p =? 0) && (deltasDown p =? 0)).

(** What the totals of the core have grown by. *)
Definition growth (s : SBState) (clashAddr : string) (answer : Answer) : Z * Z :=
  match answer with Body (Some data) => if has_totals data then totals_growth s clashAddr data else (0, 0) | _ => (0, 0) end.

Lemma settle_fair dir now nowStr s st clashAddr data : dir = upward \/ dir = downward -> fair now nowStr s st clashAddr data = true ->
  eq64 (billed (bytes dir) (settle s clashAddr data (read_conns loc now nowStr s st clashAddr data)))
       (billed (bytes dir) (default ∅ (sbUserCumulative s !! clashAddr)) + amount dir (growth s clashAddr (Body (Some data)))).
Proof using Type.
  intros Hd. unfold fair, settle, growth. pose proof (read_conns_unsettled dir now nowStr s st clashAddr data Hd) as Hu.
  set (p := read_conns loc now nowStr s st clashAddr data) in *. unfold unaccounted.
  destruct (totals_growth s clashAddr data) as [gu gd]. intros [Hn Hf]%andb_true_iff. rewrite <- (Hu Hn). clear Hu Hn.
  destruct (has_totals data); cbn [andb].
  - apply andb_true_iff in Hf as [[[Hup Hdown]%andb_true_iff Hk]%andb_true_iff Hw].
    apply Z.leb_le in Hup, Hdown. unfold unsettled. destruct ((0 <? _) || _) eqn:Ep.
    + assert (Hne : targetEmails p <> []) by (intros En; rewrite En in Hw; change (0 <? len (@nil string)) with false in Hw; lia).
      rewrite (share_billed dir _ _ _ _ Hd Hne Hk).
      destruct Hd as [-> | ->]; cbn; rewrite wrap64_eq64; apply eq64_eq; lia.
    + assert (Hz : wrap64 (gu - deltasUp p) = 0 /\ wrap64 (gd - deltasDown p) = 0) by lia. destruct Hz as [Hzu Hzd].
      assert (Hg : eq64 (amount dir (gu, gd) - delta dir p) 0).
      { destruct Hd as [-> | ->]; cbn; rewrite <- wrap64_eq64; by apply eq64_eq. }
      replace (billed (bytes dir) (users p) - delta dir p + amount dir (gu, gd))
        with (billed (bytes dir) (users p) + (amount dir (gu, gd) - delta dir p)) by lia.
      rewrite Hg. apply eq64_eq. lia.
  - unfold unsettled. apply eq64_eq. destruct Hd as [-> | ->]; cbn in *; lia.
Qed.

Definition users_at (clashAddr : string) (x : SBState * SessionTracker) : gmap string ClientTraffic :=
  default ∅ (sbUserCumulative x.1 !! or_default_addr clashAddr).

(** Any number of polls of an address, answered or not, while other addresses are polled and
    the tracker changes; the growth of the totals of the core is summed up. *)
Inductive polled (clashAddr : string) (x : SBState * SessionTracker) : Z * Z -> SBState * SessionTracker -> Prop :=
  | polled_none : polled clashAddr x (0, 0) x
  | polled_more g s st now nowStr answer s' st' res :
      polled clashAddr x g (s, st) ->
      (forall data, answer = Body (Some data) -> fair now nowStr s st (or_default_addr clashAddr) data = true) ->
      FetchSingBoxTraffic loc now nowStr s st clashAddr answer = (s', st', res) ->
      polled clashAddr x (g.1 + (growth s (or_default_addr clashAddr) answer).1, g.2 + (growth s (or_default_addr clashAddr) answer).2) (s', st')
  | polled_other g s st now nowStr other answer s' st' res :
      polled clashAddr x g (s, st) -> or_default_addr other <> or_default_addr clashAddr ->
      FetchSingBoxTraffic loc now nowStr s st other answer = (s', st', res) -> polled clashAddr x g (s', st')
  | polled_tracked g s st st' : polled clashAddr x g (s, st) -> polled clashAddr x g (s, st').

(** C34. The bytes of the users add up to what the core reports, whatever connections come and
    go between the polls, in both directions and modulo 2^64, at which the counters wrap,
    as long as each poll of the address is fair ([fair]: every connection names its user,
    the live connections have grown by no more than the totals, and the rest has a user to
    go to).  Between them other addresses may be polled and the sessions may change; as all
    addresses share what is remembered of connections, a poll elsewhere can make the next
    one unfair (see [addresses_interfere]). *)
Theorem traffic_conserved clashAddr x g y : polled clashAddr x g y ->
  eq64 (billed UpBytes (users_at clashAddr y)) (billed UpBytes (users_at clashAddr x) + g.1) /\
  eq64 (billed DownBytes (users_at clashAddr y)) (billed DownBytes (users_at clashAddr x) + g.2).
Proof using Type.
  intros Hp.
  enough (H : forall dir, dir = upward \/ dir = downward ->
    eq64 (billed (bytes dir) (users_at clashAddr y)) (billed (bytes dir) (users_at clashAddr x) + amount dir g)).
  { split; [apply (H upward) | apply (H downward)]; auto. }
  intros dir Hd. induction Hp as [|g s st now nowStr answer s' st' res Hp IH Hf E|g s st now nowStr other answer s' st' res Hp IH Hne E|g s st st' Hp IH].
  - apply eq64_eq. destruct Hd as [-> | ->]; cbn; lia.
  - assert (Hs : eq64 (billed (bytes dir) (users_at clashAddr (s', st')))
      (billed (bytes dir) (users_at clashAddr (s, st)) + amount dir (growth s (or_default_addr clashAddr) answer))).
    { unfold FetchSingBoxTraffic in E. destruct answer as [|code|[data|]];
        try (injection E as <- _ _; apply eq64_eq; unfold users_at, growth; destruct Hd as [-> | ->]; cbn [amount upward downward fst snd]; lia).
      injection E as <- _ _. unfold users_at at 1. cbn [fst sbUserCumulative]. rewrite lookup_insert_eq.
      apply settle_fair; [done|]. by apply Hf. }
    rewrite Hs, IH. apply eq64_eq. destruct Hd as [-> | ->]; cbn; lia.
  - rewrite <- IH. apply eq64_eq. f_equal. unfold users_at. f_equal. cbn [fst].
    unfold FetchSingBoxTraffic in E. destruct answer as [|code|[data|]]; injection E as <- _ _; try done.
    cbn [sbUserCumulative]. by rewrite lookup_insert_ne.
  - apply IH.
Qed.

Lemma size_set_of (l : list string) : (size (list_to_set l : gset string) <= length l)%nat.
Proof using Type.
  induction l as [|x l IH]; [done|]. cbn [list_to_set length]. rewrite size_union_alt, size_singleton.
  pose proof (subseteq_size (list_to_set l ∖ {[x]} : gset string) (list_to_set l) ltac:(set_solver)). lia.
Qed.
Lemma active_conns now nowStr s st clashAddr data :
  active (read_conns loc now nowStr s st clashAddr data) ⊆ list_to_set (map ID (Conns data)).
Proof using Type.
  unfold read_conns. assert (H : forall l p, active (foldl (read_conn loc now nowStr) p l) ⊆ active p ∪ list_to_set (map ID l)).
  { induction l as [|conn l IH]; intros p; cbn [foldl map list_to_set]; [set_solver|].
    etrans; [apply IH|]. assert (Hc : active (read_conn loc now nowStr p conn) ⊆ {[ID conn]} ∪ active p).
    { unfold read_conn, counted, attributed. destruct (growth_of p conn). destruct (_ =s ""), (_ <>s ""); cbn [active]; set_solver. }
    set_solver. }
  etrans; [apply H|]. cbn [active start_poll]. set_solver.
Qed.
Lemma forget_active {A} p (m : gmap string A) : dom (forget p m) ⊆ active p.
Proof using Type. intros k Hk. apply elem_of_dom in Hk as [v Hv]. by apply map_lookup_filter_Some in Hv as [_ Hk]. Qed.

(** Nothing is kept of connections that are gone. *)
Theorem poll_forgets now nowStr s st clashAddr data s' st' res :
  FetchSingBoxTraffic loc now nowStr s st clashAddr (Body (Some data)) = (s', st', res) ->
  (size (sbLastConnStats s') <= length (Conns data))%nat /\ (size (sbConnUser s') <= length (Conns data))%nat /\
  dom (sbLastConnStats s') ∪ dom (sbConnUser s') ⊆ list_to_set (map ID (Conns data)).
Proof using Type.
  intros E. injection E as <- _ _. cbn [sbLastConnStats sbConnUser].
  set (p := read_conns _ _ _ _ _ _ _). pose proof (active_conns now nowStr s st (or_default_addr clashAddr) data) as Ha. fold p in Ha.
  assert (Hs : (size (active p) <= length (Conns data))%nat).
  { rewrite <- (length_map ID). etrans; [by apply subseteq_size|]. apply size_set_of. }
  rewrite <- !size_dom. split_and!.
  - etrans; [apply subseteq_size, forget_active|done].
  - etrans; [apply subseteq_size, forget_active|done].
  - pose proof (forget_active p (lastConn p)). pose proof (forget_active p (connUser p)). set_solver.
Qed.
End Conservation.

(** ** Concrete polls *)

Definition no_metadata : Metadata := mkMetadata "" "" "" "" "" "" "" "" "" "" [] "203.0.113.9" "5000" "" "".
Definition conn_of (id user : string) (up down : Z) : Connection := mkConnection id down up user "" "" "" [] no_metadata.
Definition poll (s : SBState) (clashAddr : string) (conns : list Connection) (up down : Z) : SBState :=
  (FetchSingBoxTraffic LocaleEN 0 "" s newTracker clashAddr (Body (Some (mkReply down up conns)))).1.1.
Definition bytes_at (s : SBState) (clashAddr email : string) : option (Z * Z) :=
  (fun ct => (UpBytes ct, DownBytes ct)) <$> (users_at clashAddr (s, newTracker) !! email).
Definition first_poll : SBState := poll ResetSingBoxCumulativeTraffic "" [conn_of "1" "alice" 100 200] 100 200.
Definition second_poll : SBState := poll first_poll "" [conn_of "2" "bob" 7 8] 157 258.

(** The rest of the closed connection goes to its user. *)
Lemma traffic_conserved_witness :
  eq64 (billed UpBytes (users_at "" (second_poll, newTracker))) 157 /\
  bytes_at second_poll "" "alice" = Some (150, 250) /\ bytes_at second_poll "" "bob" = Some (7, 8).
Proof.
  split; [|split; vm_compute; reflexivity].
  apply (traffic_conserved LocaleEN "" (ResetSingBoxCumulativeTraffic, newTracker) (157, 258) (second_poll, newTracker)).
  eapply (polled_tracked _ _ _ _ second_poll).
  eapply (polled_more LocaleEN "" _ (100, 200) first_poll newTracker 0 "" (Body (Some (mkReply 258 157 [conn_of "2" "bob" 7 8])))).
  - eapply polled_tracked. eapply (polled_more LocaleEN "" _ (0, 0) ResetSingBoxCumulativeTraffic newTracker 0 ""
      (Body (Some (mkReply 200 100 [conn_of "1" "alice" 100 200])))); [apply polled_none| |vm_compute; reflexivity].
    intros data [= <-]. vm_compute. reflexivity.
  - intros data [= <-]. vm_compute. reflexivity.
  - vm_compute. reflexivity.
Defined.

(** All that the core has carried before the first poll is billed to who is there. *)
Example history_billed :
  bytes_at (poll ResetSingBoxCumulativeTraffic "" [conn_of "1" "alice" 10 10] 9000000 9000000) "" "alice" = Some (9000000, 9000000).
Proof. vm_compute. reflexivity. Qed.
(** A direction that is over-counted is taken back from a user when the other is settled. *)
Example direction_taken_back :
  bytes_at (poll first_poll "" [conn_of "1" "alice" 100 260] 130 230) "" "alice" = Some (130, 230).
Proof. vm_compute. reflexivity. Qed.
(** Polling another address forgets the counters: the same bytes are billed again. *)
Example addresses_interfere :
  let other := poll first_poll "127.0.0.1:9091" [] 0 0 in
  bytes_at (poll other "" [conn_of "1" "alice" 100 200] 0 0) "" "alice" = Some (200, 400).
Proof. vm_compute. reflexivity. Qed.
(** A connection that gives its user as e-mail only is closed for the user, and not billed. *)
Example email_not_billed :
  let conn := mkConnection "1" 5 5 "" "" "alice" "" [] no_metadata in
  bytes_at (poll ResetSingBoxCumulativeTraffic "" [conn] 5 5) "" "alice" = None /\
  CloseSingBoxConnections (Some (mkReply 5 5 [conn])) "alice" = Some ["1"%string].
Proof. split; vm_compute; reflexivity. Qed.

End Polls.
