(* ===== verification/CoreTraffic.v ===== *)
(** * Traffic of Hysteria and Xray, and the controller (src/pkg/supervisor/hysteria.go,
    xray.go, controller.go)

    The answers of the cores' own interfaces, decoded, are arguments, as are the files and
    the processes of the host. *)
From S2P Require Import Prelude GoStrings GoFloat GoPath Logs Sessions SingBoxTraffic Supervisor.
From Stdlib Require Import SpecFloat.
Open Scope Z_scope.

(** ** Hysteria *)
Module Hysteria.
Import Sessions.

Definition CheckHysteriaStatus (adminPort : Z) (status : option Z) : bool :=
  if adminPort <=? 0 then false else match status with Some code => code =? 200 | None => false end.

Definition HyState : Type := gmap Z (gmap string ClientTraffic).
Definition ResetHysteriaCumulativeTraffic : HyState := ∅.

(** Sent and received bytes of each user since the core was started. *)
Definition record_totals (raw : gmap string (Z * Z)) (portMap : gmap string ClientTraffic) : gmap string ClientTraffic :=
  map_imap (fun email t => Some (mkTraffic email t.2 t.1 false [] 0)) raw ∪ portMap.

(** [traffic], [online]: the two answers, [None] when there is none with status 200 that
    can be decoded. *)
Definition FetchHysteriaTraffic (cum : HyState) (adminPort : Z) (traffic : option (gmap string (Z * Z))) (online : option (gmap string Z))
    : HyState * gmap string ClientTraffic :=
  if adminPort <=? 0 then (cum, ∅)
  else
    let cum := match traffic with
               | Some raw => if decide (raw = ∅) then cum else <[adminPort := record_totals raw (default ∅ (cum !! adminPort))]> cum
               | None => cum
               end in
    let rawOnline := default ∅ online in
    let known := map_imap (fun email ct =>
      let connCount := default 0 (rawOnline !! email) in
      Some (mkTraffic email (UpBytes ct) (DownBytes ct) (0 <? connCount) [] connCount)) (default ∅ (cum !! adminPort)) in
    (cum, known ∪ map_imap (fun email count => Some (mkTraffic email 0 0 (0 <? count) [] count)) rawOnline).

(** The request, and the error. *)
Definition KickHysteriaClient (adminPort : Z) (status : option Z) : option string :=
  if adminPort <=? 0 then Some ("invalid admin port: " ^^ Itoa adminPort)
  else match status with
       | None => Some "request failed"%string
       | Some code => if code =? 200 then None else Some ("hysteria kick failed with status: " ^^ Itoa code)
       end.
End Hysteria.

(** ** Xray *)
Module XrayStats.
Import Sessions.

Definition xraySearchPaths : list string :=
  ["/app/bin/xray"; "/app/bin/xray.exe"; "bin/xray.exe"; "bin/xray"; "backend/bin/xray.exe"; "backend/bin/xray";
   "../bin/xray.exe"; "../bin/xray"; "../../bin/xray.exe"; "../../bin/xray"; "/usr/local/bin/xray"; "/usr/bin/xray"]%string.
(** [exists_]: the file can be examined; [abs]: its absolute path, if there is one. *)
Definition findXrayBinary (exists_ : string -> bool) (abs : string -> option string) (registered envBin : string) : string :=
  if (registered <>s "") && exists_ registered then registered
  else
    let paths := (if envBin <>s "" then [JoinPath [envBin; "xray.exe"%string]; JoinPath [envBin; "xray"%string]] else []) ++ xraySearchPaths in
    match List.find exists_ paths with Some sp => default sp (abs sp) | None => "xray" end.

Definition unsafe_addr_chars : string :=
  " " ^^ String (ascii_of_N 9) (String (ascii_of_N 13) (String (ascii_of_N 10) (String (ascii_of_N 39) (String quote_char "`;&|$(){}")))).
Definition stats_addr (statsAddr : string) : string := if statsAddr =s "" then "127.0.0.1:10085" else statsAddr.

(** The key and the direction of a statistic. *)
Definition stat_key (name : string) : option (string * string) :=
  match SplitString name ">>>" with
  | metricType :: target :: _ :: direction :: _ =>
      if metricType =s "user" then Some (target, direction)
      else if metricType =s "outbound" then Some ("outbound:" ^^ target, direction)
      else None
  | _ => None
  end.
Definition set_stat (result : gmap string ClientTraffic) (item : string * Z) : gmap string ClientTraffic :=
  match stat_key item.1 with
  | None => result
  | Some (key, direction) =>
      let entry := default no_traffic (result !! key) in
      let up := if direction =s "uplink" then item.2 else UpBytes entry in
      let down := if (direction <>s "uplink") && (direction =s "downlink") then item.2 else DownBytes entry in
      <[key := mkTraffic key up down (Online entry) (ActiveIPs entry) (Connections entry)]> result
  end.

(** [out]: the statistics the command prints; [None] when it fails or prints something else. *)
Definition QueryXrayStats (xrayBin statsAddr : string) (out : option (list (string * Z))) : result (gmap string ClientTraffic) :=
  let statsAddr := stats_addr statsAddr in
  if HasPrefix statsAddr "-" || ContainsAny statsAddr unsafe_addr_chars then Err ("invalid statsAddr: " ^^ Quote statsAddr)
  else
    let xrayBin := Clean xrayBin in
    if str_exists (in_set Processes.shell_chars) xrayBin then Err ("invalid xray binary: " ^^ Quote xrayBin)
    else match out with Some stat => Ok (foldl set_stat ∅ stat) | None => Err "statsquery" end.

(** *** Connections in the log *)

Fixpoint IndexAny (s chars : string) : option nat :=
  match s with
  | EmptyString => None
  | String a s => if in_set chars a then Some O else S <$> IndexAny s chars
  end.
Definition ip_ends : string := " :" ^^ String (ascii_of_N 9) (String (ascii_of_N 13) (String (ascii_of_N 10) "")).
Definition client_ip (line : string) : string :=
  match Index line "from " with
  | None => ""
  | Some idxFrom =>
      let sub := str_drop (idxFrom + 5) line in
      if HasPrefix sub "[" then match Index sub "]" with Some endIdx => str_drop 1 (str_take endIdx sub) | None => "" end
      else match IndexAny sub ip_ends with
           | Some endIdx => TrimPrefix (TrimPrefix (str_take endIdx sub) "tcp:") "udp:"
           | None => ""
           end
  end.
(** The user and the address of a connection. *)
Definition accepted_line (line : string) : option (string * string) :=
  if negb (Contains line "accepted") || negb (Contains line "email: ") then None
  else match SplitString line "email: " with
       | _ :: part :: _ => let email := TrimSpace part in if email =s "" then None else Some (email, client_ip line)
       | _ => None
       end.

Section Fetch.
Context {order : RangeOrder string}.

Definition count_line (acc : gmap string ClientTraffic * gmap string (gset string)) (line : string) :=
  match accepted_line line with
  | None => acc
  | Some (email, clientIP) =>
      let entry := default no_traffic (acc.1 !! email) in
      (<[email := mkTraffic email (UpBytes entry) (DownBytes entry) true (ActiveIPs entry) (wrap64 (Connections entry + 1))]> acc.1,
       if clientIP <>s "" then <[email := {[clientIP]} ∪ default ∅ (acc.2 !! email)]> acc.2 else acc.2)
  end.
Definition add_ips (result : gmap string ClientTraffic) (ipSetByUser : gmap string (gset string)) (email : string) : gmap string ClientTraffic :=
  match ipSetByUser !! email with
  | None => result
  | Some ips =>
      let entry := default no_traffic (result !! email) in
      <[email := mkTraffic (t_Email entry) (UpBytes entry) (DownBytes entry) (Online entry)
                   (foldl push_ip (ActiveIPs entry) (range_keys ips)) (Connections entry)]> result
  end.
(** [lines]: the last 500 lines of the core. *)
Definition FetchXrayTraffic (stats : result (gmap string ClientTraffic)) (lines : list string) : gmap string ClientTraffic :=
  let result := match stats with Ok stats => stats | Err _ => ∅ end in
  let '(result, ipSetByUser) := foldl count_line (result, ∅) lines in
  foldl (fun r e => add_ips r ipSetByUser e) result (range_keys (dom ipSetByUser)).
End Fetch.

(** The commands to the core: there are none, the call of its interface is not written. *)
Definition execXrayAPI (xrayPath apiAddr tag email : string) : list (list string) := [].
Definition KickXrayClient (registered apiAddr : string) (inboundTags : list string) (email : string) : result (list (list string)) :=
  if email =s "" then Err "email cannot be empty"
  else
    let inboundTags := match inboundTags with [] => ["vless-in"; "vmess-in"; "trojan-in"; "shadowsocks-in"]%string | l => l end in
    Ok (inboundTags ≫= fun tag => if registered <>s "" then execXrayAPI registered (stats_addr apiAddr) tag email else []).

(** The address of a client is lost where the log has the name of the protocol in front. *)
Example protocol_for_address :
  client_ip "2024/05/01 10:00:00 from tcp:203.0.113.7:5555 accepted tcp:example.com:443 email: alice" = "tcp"%string.
Proof. vm_compute. reflexivity. Qed.
End XrayStats.

(** ** The controller *)
Module Controllers.
Import Sessions Polls Hysteria XrayStats.

Record Controller := mkController {
  clashAPIAddr : string;
  hysteriaPorts : list Z;
  logPaths : gmap string string;
}.
Definition newController : Controller := mkController "127.0.0.1:9090" [10100; 10101; 10102] ∅.

Definition RegisterHysteriaPort (c : Controller) (port : Z) : Controller :=
  if (port <=? 0) || existsb (Z.eqb port) (hysteriaPorts c) then c
  else mkController (clashAPIAddr c) (hysteriaPorts c ++ [port]) (logPaths c).

Definition Configure (c : Controller) (clashAddr : string) (ports : list Z) (paths : gmap string string) : Controller :=
  mkController (if clashAddr <>s "" then clashAddr else clashAPIAddr c)
    (if 0 <? len ports then ports else hysteriaPorts c) (paths ∪ logPaths c).

Definition searchDirs (envBin : string) : list string :=
  ["."; "bin"; "config"; "../bin"; "../config"; "backend/bin"; "../backend/bin"; "../../backend/bin";
   "/opt/sentinel/backend/bin"; "/app/backend/bin"; "/var/lib/sentinel/bin"]%string ++ (if envBin <>s "" then [envBin] else []).

(** [glob]: the files of a pattern; [listen_of], [controller_of]: the fields of a
    configuration file that can be read and decoded. *)
Record Files := mkFiles {
  glob : string -> list string;
  listen_of : string -> option string;
  controller_of : string -> option string;
}.
Definition config_files (fs : Files) (envBin pattern : string) : list string :=
  searchDirs envBin ≫= fun dir => glob fs (JoinPath [dir; pattern]).

(** The ports, each once; the order is that of a map. *)
Definition getActiveHysteriaPorts {order : RangeOrder Z} (c : Controller) (fs : Files) (envBin : string) : list Z :=
  let found := omap (fun m => listen ← listen_of fs m; if listen <>s "" then Processes.listen_port listen else None)
                 (config_files fs envBin "hysteria*.json") in
  range_keys (list_to_set (List.filter (Z.ltb 0) (hysteriaPorts c) ++ found)).

Definition local_addr (addr : string) : string := if HasPrefix addr ":" then "127.0.0.1" ^^ addr else addr.
Definition getActiveClashAddr (c : Controller) (fs : Files) (envBin : string) : string :=
  let configured := omap (fun m => addr ← controller_of fs m; if addr <>s "" then Some (local_addr addr) else None)
                      (config_files fs envBin "singbox*.json") in
  match configured with addr :: _ => addr | [] => or_default_addr (clashAPIAddr c) end.

(** [running]: the process is seen; [answers url]: the interface answers at all. *)
Definition GetStatus {order : RangeOrder Z} (c : Controller) (fs : Files) (envBin : string) (running : string -> bool) (answers : string -> bool)
    : list (string * bool) :=
  [("sing-box", running "sing-box" || answers ("http://" ^^ getActiveClashAddr c fs envBin ^^ "/connections"));
   ("hysteria2", running "hysteria2" || existsb (fun port => answers ("http://127.0.0.1:" ^^ Itoa port ^^ "/traffic")) (getActiveHysteriaPorts c fs envBin));
   ("xray", running "xray")]%string.

(** What the cores' counters are kept in. *)
Record Counters := mkCounters { singbox : SBState; sessions_of : SessionTracker; hysteria : HyState }.

Section Unified.
Context {order : RangeOrder string} {ports : RangeOrder Z} (loc : Locale) (now : Z) (nowStr : string).

Definition merge (aggregated t : gmap string ClientTraffic) : gmap string ClientTraffic :=
  foldl (aggregate_one t) aggregated (range_keys (dom t)).

(** The traffic of each port; [hyAnswers]: its two answers. *)
Fixpoint fetch_ports (cum : HyState) (hyAnswers : Z -> option (gmap string (Z * Z)) * option (gmap string Z)) (l : list Z)
    : HyState * list (gmap string ClientTraffic) :=
  match l with
  | [] => (cum, [])
  | port :: l =>
      let '(cum, t) := FetchHysteriaTraffic cum port (hyAnswers port).1 (hyAnswers port).2 in
      let '(cum, ts) := fetch_ports cum hyAnswers l in (cum, t :: ts)
  end.

Definition GetUnifiedTraffic (c : Controller) (fs : Files) (envBin : string) (sbAnswer : string -> Answer)
    (hyAnswers : Z -> option (gmap string (Z * Z)) * option (gmap string Z)) (stats : result (gmap string ClientTraffic)) (lines : list string)
    (w : Counters) : Counters * gmap string ClientTraffic :=
  let clashAddr := getActiveClashAddr c fs envBin in
  let '(sb, st, (sbTraffic, ok)) := FetchSingBoxTraffic loc now nowStr (singbox w) (sessions_of w) clashAddr (sbAnswer clashAddr) in
  let aggregated := if (ok : bool) then sbTraffic else ∅ in
  let '(cum, hy) := fetch_ports (hysteria w) hyAnswers (getActiveHysteriaPorts c fs envBin) in
  (mkCounters sb st cum, merge (foldl merge aggregated hy) (FetchXrayTraffic stats lines)).
End Unified.

(** The requests of a kick: the address of the controller that is asked to close the
    connections, the ports, and the commands to Xray. *)
Definition KickClient {order : RangeOrder Z} (c : Controller) (fs : Files) (envBin registered email : string)
    : string * list Z * result (list (list string)) :=
  (or_default_addr (clashAPIAddr c), getActiveHysteriaPorts c fs envBin, KickXrayClient registered "127.0.0.1:10085" [] email).

(** [read path]: the last lines of a file. *)
Definition GetLogs (c : Controller) (inMem : list string) (read : string -> option (list string)) (coreName : string) : option (list string) :=
  if 0 <? len inMem then Some inMem
  else match logPaths c !! coreName with
       | Some path => if path =s "" then Some [] else read path
       | None => Some []
       end.

(** *** Speed *)

Record RealtimeTrafficStats := mkStats { UploadSpeed : Z; DownloadSpeed : Z; s_UploadTotal : Z; s_DownloadTotal : Z; s_Connections : Z }.
(** The totals of the last sample, and when it was taken. *)
Record Sample := mkSample { lastDownTot : Z; lastUpTot : Z; lastSampleAt : option Z }.
Definition ResetRealtimeTraffic : Sample := mkSample 0 0 None.

Definition speed (delta : Z) (deltaSec : float64) : Z := f64_trunc (SFdiv 53 1024 (f64_of_Z delta) deltaSec).
Definition tenth : float64 := SFdiv 53 1024 (f64_of_Z 1) (f64_of_Z 10).
Definition speed_since (prev cur : Z) (deltaSec : float64) : Z :=
  let delta := wrap64 (cur - prev) in if 0 <=? delta then speed delta deltaSec else 0.
Definition GetRealtimeTraffic (s : Sample) (now : Z) (reply : option Reply) : Sample * RealtimeTrafficStats :=
  match reply with
  | None => (s, mkStats 0 0 0 0 0)
  | Some data =>
      let '(down, up) :=
        match lastSampleAt s with
        | Some at_ =>
            let deltaSec := f64_seconds (Sub now at_) in
            if SFltb tenth deltaSec then (speed_since (lastDownTot s) (DownloadTotal data) deltaSec, speed_since (lastUpTot s) (UploadTotal data) deltaSec)
            else (0, 0)
        | None => (0, 0)
        end in
      (mkSample (DownloadTotal data) (UploadTotal data) (Some now), mkStats up down (UploadTotal data) (DownloadTotal data) (len (Conns data)))
  end.

Example speed_demo :
  let s := (GetRealtimeTraffic ResetRealtimeTraffic 0 (Some (mkReply 1000 500 []))).1 in
  (GetRealtimeTraffic s (2 * Second) (Some (mkReply 4000 1500 []))).2 = mkStats 500 1500 1500 4000 0.
Proof. vm_compute. reflexivity. Qed.

(** ** The sum over the cores *)

Definition in64 (z : Z) : Prop := - 2^63 <= z < 2^63.
Definition int64_users (m : gmap string ClientTraffic) : Prop := map_Forall (fun _ ct => in64 (UpBytes ct) /\ in64 (DownBytes ct)) m.
(** The counters are 64-bit integers. *)
Definition int64_counters (s : SBState) : Prop := map_Forall (fun _ m => int64_users m) (sbUserCumulative s).
Definition int64_poll (p : Poll) : Prop := int64_users (users p) /\ map_Forall (fun _ n => in64 n) (live p).

Lemma in64_0 : in64 0.
Proof. done. Qed.
Lemma bill_int64 email up down m : int64_users m -> int64_users (bill email up down m).
Proof. intros H. apply map_Forall_insert_2; [|done]. split; apply wrap64_range. Qed.
Lemma share_int64 targets up down m : int64_users m -> int64_users (share targets up down m).
Proof.
  intros H. destruct targets as [|first rest]; [done|]. unfold share. generalize (len (first :: rest)) as n. intros n.
  apply (bill_int64 first (wrap64 (Z.quot up n + Z.rem up n)) (wrap64 (Z.quot down n + Z.rem down n))) in H. revert H.
  generalize (bill first (wrap64 (Z.quot up n + Z.rem up n)) (wrap64 (Z.quot down n + Z.rem down n)) m) as m'.
  induction rest as [|e rest IH]; intros m' H; [done|]. cbn. by apply IH, bill_int64.
Qed.

Section Sums.
Context {order : RangeOrder string} {ports : RangeOrder Z} (loc : Locale) (now : Z) (nowStr : string).

Lemma read_conn_int64 p conn : int64_poll p -> int64_poll (read_conn loc now nowStr p conn).
Proof using Type.
  intros [Hu Hl]. unfold read_conn, counted, attributed. destruct (growth_of p conn) as [up down].
  destruct (_ =s ""); [by split|]. split; cbn [users live].
  - destruct (proxied _); repeat apply bill_int64; done.
  - apply map_Forall_insert_2; [apply wrap64_range|done].
Qed.
Lemma read_conns_int64 s st clashAddr data : int64_counters s -> int64_poll (read_conns loc now nowStr s st clashAddr data).
Proof using Type.
  intros Hs. unfold read_conns. assert (H0 : int64_poll (start_poll s st clashAddr)).
  { split; [|apply map_Forall_empty]. cbn [users start_poll]. destruct (sbUserCumulative s !! clashAddr) as [m|] eqn:E; [by eapply Hs|apply map_Forall_empty]. }
  revert H0. generalize (start_poll s st clashAddr) as p. induction (Conns data) as [|conn l IH]; intros p Hp; [done|].
  cbn [foldl]. by apply IH, read_conn_int64.
Qed.

(** An entry of a report under its name. *)
Definition report_entry (email : string) (t : ClientTraffic) : Prop :=
  t_Email t = email /\ in64 (UpBytes t) /\ in64 (DownBytes t) /\ in64 (Connections t) /\ NoDup (ActiveIPs t).

Lemma fetched_entries s st clashAddr answer s' st' m ok : int64_counters s ->
  FetchSingBoxTraffic loc now nowStr s st clashAddr answer = (s', st', (m, ok)) -> map_Forall report_entry m.
Proof using Type.
  intros Hs. assert (Hk : forall a, map_Forall report_entry (offline (default ∅ (sbUserCumulative s !! a)))).
  { intros a email t. unfold offline. rewrite map_lookup_imap. destruct (_ !! email) as [ct|] eqn:E; [|done]. intros [= <-].
    destruct (sbUserCumulative s !! a) as [m0|] eqn:Em; [|done]. destruct (Hs _ _ Em email ct E).
    split_and!; try done; cbn; try lia. constructor. }
  unfold FetchSingBoxTraffic. destruct answer as [|code|[data|]]; intros E; injection E as _ _ <- _; try apply Hk; [|apply map_Forall_empty].
  pose proof (read_conns_int64 s st (or_default_addr clashAddr) data Hs) as [Hu Hl]. set (p := read_conns _ _ _ _ _ _ _) in *.
  intros email t. unfold snapshot. rewrite map_lookup_imap. destruct (settle _ _ _ _ !! email) as [ct|] eqn:Ec; [|done]. intros [= <-].
  assert (Hset : int64_users (settle s (or_default_addr clashAddr) data p)).
  { unfold settle. destruct (unaccounted _ _ _ _). destruct (_ && _); [by apply share_int64|done]. }
  destruct (Hset email ct Ec). split_and!; cbn [UpBytes DownBytes Connections ActiveIPs]; try (unfold in64 in *; lia).
  - done.
  - destruct (live p !! email) as [n|] eqn:En; [apply (Hl email n En)|apply in64_0].
  - destruct (ips p !! email); [apply NoDup_range_keys|constructor].
Qed.

Lemma push_distinct k l : NoDup (k ++ l) -> foldl push_ip k l = k ++ l.
Proof using Type.
  revert k. induction l as [|x l IH]; intros k Hnd; [by rewrite app_nil_r|]. cbn [foldl]. unfold push_ip at 2.
  destruct (containsString k x) eqn:E.
  - exfalso. unfold containsString in E. apply existsb_exists in E as (y & Hy & Exy). apply String.eqb_eq in Exy as <-.
    apply NoDup_app in Hnd as (_ & Hd & _). apply (Hd x); [by apply list_elem_of_In|left].
  - rewrite IH; [by rewrite <- app_assoc|]. by rewrite <- app_assoc.
Qed.

Lemma merge_empty m : map_Forall report_entry m -> merge ∅ m = m.
Proof using Type.
  intros Hm. apply map_eq. intros e. unfold merge. rewrite aggregate_map_lookup by apply NoDup_range_keys.
  destruct (m !! e) as [t|] eqn:E.
  - rewrite decide_True by (by rewrite elem_of_range_keys, elem_of_dom, E). unfold aggregate_one. rewrite E, lookup_insert_eq, lookup_empty.
    destruct (Hm e t E) as (<- & Hu & Hd & Hc & Hn). unfold add_traffic. cbn [default from_option no_traffic UpBytes DownBytes Online ActiveIPs Connections].
    rewrite (push_distinct [] (ActiveIPs t) Hn), !Z.add_0_l, !wrap64_small by done. by destruct t.
  - rewrite decide_False by (rewrite elem_of_range_keys, elem_of_dom, E; by intros [? ?]). by rewrite lookup_empty.
Qed.

(** The unified report has a client exactly when some core reports it, with the sums of
    the counters of sing-box, of each Hysteria port and of Xray as 64-bit integers, online
    when one of them says so, and each address once; the order in which Go ranges over the
    maps does not matter. *)
Theorem unified_traffic_exact c fs envBin sbAnswer hyAnswers stats lines w sb st sbTraffic ok cum hy e :
  int64_counters (singbox w) ->
  FetchSingBoxTraffic loc now nowStr (singbox w) (sessions_of w) (getActiveClashAddr c fs envBin) (sbAnswer (getActiveClashAddr c fs envBin))
    = (sb, st, (sbTraffic, ok)) ->
  fetch_ports (hysteria w) hyAnswers (getActiveHysteriaPorts c fs envBin) = (cum, hy) ->
  let '(w', m) := GetUnifiedTraffic loc now nowStr c fs envBin sbAnswer hyAnswers stats lines w in
  w' = mkCounters sb st cum /\
  m !! e = match omap (fun report => report !! e) ((if ok then sbTraffic else ∅) :: hy ++ [FetchXrayTraffic stats lines]) with
           | [] => None
           | ts => Some (mkTraffic e (wrap64 (total UpBytes ts)) (wrap64 (total DownBytes ts)) (existsb Online ts)
                           (foldl push_ip [] (ts ≫= ActiveIPs)) (wrap64 (total Connections ts)))
           end.
Proof using Type.
  intros Hw Hsb Hhy. unfold GetUnifiedTraffic. rewrite Hsb, Hhy. split; [done|]. rewrite <- aggregate_exact.
  unfold AggregateTraffic. cbn [foldl]. rewrite foldl_app. cbn [foldl]. f_equal. unfold merge at 1. f_equal.
  fold (merge ∅ (if ok then sbTraffic else ∅)). rewrite merge_empty; [done|].
  destruct ok; [by eapply fetched_entries|apply map_Forall_empty].
Qed.
End Sums.

Definition no_files : Files := mkFiles (fun _ => []) (fun _ => None) (fun _ => None).
Definition two_cores : Counters * gmap string ClientTraffic :=
  GetUnifiedTraffic LocaleEN 0 "" newController no_files "" (fun _ => Body (Some (mkReply 200 100 [conn_of "1" "alice" 100 200])))
    (fun port => if port =? 10100 then (Some {["alice" := (7, 5)]}, Some {["bob" := 2]}) else (None, None)) (Ok ∅) []
    (mkCounters ResetSingBoxCumulativeTraffic newTracker ∅).
Lemma unified_traffic_exact_witness :
  two_cores.2 !! "alice"%string = Some (mkTraffic "alice" 105 207 true ["203.0.113.9"%string] 1).
Proof.
  pose proof (unified_traffic_exact LocaleEN 0 "" newController no_files "" (fun _ => Body (Some (mkReply 200 100 [conn_of "1" "alice" 100 200])))
    (fun port => if port =? 10100 then (Some {["alice"%string := (7, 5)]}, Some {["bob"%string := 2]}) else (None, None)) (Ok ∅) []
    (mkCounters ResetSingBoxCumulativeTraffic newTracker ∅)) as H.
  specialize (H _ _ _ _ _ _ "alice"%string (map_Forall_empty _) eq_refl eq_refl). fold two_cores in H.
  destruct two_cores as [w m]. destruct H as [_ H]. cbn [snd]. rewrite H. vm_compute. reflexivity.
Defined.

(** A core that does not answer: what its users have used is left out, though it is known. *)
Example unreachable_left_out :
  let w := two_cores.1 in
  let m := (GetUnifiedTraffic LocaleEN 0 "" newController no_files "" (fun _ => NoAnswer) (fun _ => (None, None)) (Ok ∅) [] w).2 in
  (UpBytes <$> (m !! "alice"%string)) = Some 5.
Proof. vm_compute. reflexivity. Qed.
(** The report reads the address of the controller from the configuration, the kick does not. *)
Example kick_elsewhere :
  let fs := mkFiles (fun p => if p =s "singbox*.json" then ["singbox.json"%string] else []) (fun _ => None) (fun _ => Some "127.0.0.1:9999"%string) in
  (getActiveClashAddr newController fs "", (KickClient newController fs "" "" "alice").1.1) = ("127.0.0.1:9999", "127.0.0.1:9090")%string.
Proof. vm_compute. reflexivity. Qed.

End Controllers.
