(* ===== verification/SessionLines.v ===== *)
(** * Sessions from the lines of the logs (src/pkg/supervisor/session_tracker.go)

    The lines that the cores print are read with regular expressions, and a line that names
    a user and an address is an operation of the tracker of [Sessions].  The decoding of a
    JSON object is an argument. *)
From S2P Require Import Prelude GoStrings GoNet Logs Sessions GoRegexp.
Import GoRegexp.
Open Scope Z_scope.

Module Lines.
Import Logs Sessions.

Definition singboxConnIDPattern : Regexp := regexp "\[(?:conn-)?([0-9]{1,16})\s+[0-9\.]+(?:ms|µs|us|s|ns|m)\]|\[(?:conn-)?([0-9]{5,16})\]".
Definition singboxFromPattern : Regexp :=
  regexp "(?:from|client|accepted(?:\s+(?:tcp|udp):?)?)\s*(?:tcp:|udp:)?\[?([0-9]{1,3}\.[0-9]{1,3}\.[0-9]{1,3}\.[0-9]{1,3}|[0-9a-fA-F:]{3,39})\]?(?::(\d+))?".
Definition singboxUserPattern : Regexp :=
  regexp "(?:inbound/[^:]+|inbound[^:]*):\s*\[([a-zA-Z0-9_.+@-]+)\]|router:\s*match\[\d+\]\s*(?:inbound/[^\s]+\s+)?\[([a-zA-Z0-9_.+@-]+)\]|\[([a-zA-Z0-9_.+@-]+)\]\s+(?:inbound connection|accepted|router|route|match|connection closed)|accepted\s+(?:tcp|udp):?\S*\s+\[([a-zA-Z0-9_.+@-]+)\]|(?:user|email|client|username|auth)[:=\s]+([a-zA-Z0-9_.+@-]+)|\[([a-zA-Z0-9_.+@-]+@[a-zA-Z0-9_.+@-]+)\]".
Definition xrayAcceptedPattern : Regexp := regexp "(?:from\s+)?(?:tcp:|udp:)?\[?([0-9a-fA-F.:]+)\]?(?::\d+)?\s+accepted".
Definition xrayEmailPattern : Regexp := regexp "email:\s+([^\s,\]]+)".
Definition hyTCPRegex : Regexp := regexp "\[(?:TCP|UDP)\]\s+([^\s:]+):\d+\s+->\s+\S+\s+\(user:\s*([^\s\)]+)\)".
Definition hyAuthAsRegex : Regexp := regexp "(?:client\s+)?authenticated as\s+([^\s(]+)(?:\s+\(?([^\s:)]+)(?::\d+)?\)?)?".
Definition ipCandidatePattern : Regexp := regexp "\b([0-9]{1,3}\.[0-9]{1,3}\.[0-9]{1,3}\.[0-9]{1,3})(?::\d+)?\b".
Definition ansiRegex : Regexp := regexp "\x1b\[[0-9;]*[a-zA-Z]|\x1b\([a-zA-Z]|\x1b\][^\x07]*\x07|\x1b[0-9]".

Definition one_of (l : list string) (s : string) : bool := existsb (String.eqb s) l.
Definition isIgnoredTagOrLevel (val : string) : bool :=
  (val =s "") || one_of ["INFO"; "DEBUG"; "WARN"; "WARNING"; "ERROR"; "TRACE"; "FATAL"; "PANIC"]%string (ToUpper val)
  || (let lower := ToLower val in
      one_of ["direct"; "block"; "dns"; "dns-out"; "mixed-in"; "vless-in"; "ss-in"; "trojan-in"; "hysteria-in"; "tuic-in"]%string lower
      || (HasPrefix lower "inbound-" && negb (Contains lower "@"))).

Definition group (m : list string) (n : nat) : string := nth n m ""%string.
Definition first_group (m : list string) : string := default ""%string (List.find (fun g => g <>s "") (tail m)).

Definition extractAnyNonLoopbackIP (line : string) : string :=
  let good ipStr := let ip := ParseIP ipStr in negb (is_nil ip) && negb (IsLoopback ip) && negb (IsUnspecified ip) in
  default ""%string (List.find good (map (fun m => group m 1) (FindAllStringSubmatch ipCandidatePattern line))).

Definition escape : string := String (ascii_of_N 27) "".
Definition stripANSI (str : string) : string := if negb (Contains str escape) then str else ReplaceAllString ansiRegex str "".

Section lines.
Context {order : RangeOrder string} (loc : Locale).
(** The string fields of a JSON object; [None] where the text is none. *)
Context (json : string -> option (gmap string string)).

Definition set_tables (st : SessionTracker) (conns addrUsers ipUsers : gmap string string) (lastUser : string) : SessionTracker :=
  mkTracker (sessions st) conns addrUsers ipUsers lastUser (events st) (maxEvents st).
(** A table above its limit loses half of it. *)
Definition trimmed (limit : nat) (half : nat) (m : gmap string string) : gmap string string :=
  if (limit <? size m)%nat then evict order half m else m.

(** *** sing-box *)

Definition singbox_conn_id (line : string) : string :=
  match FindStringSubmatch singboxConnIDPattern line with Some m => first_group m | None => "" end.
(** The address and the port a connection comes from. *)
Definition singbox_source (line : string) : string * string :=
  let '(fromIP, fromPort) :=
    match FindStringSubmatch singboxFromPattern line with Some m => (parseCleanIP (group m 1), group m 2) | None => ("", "")%string end in
  (if (fromIP =s "") && (Contains line "inbound connection from" || Contains line "accepted") then extractAnyNonLoopbackIP line else fromIP, fromPort).
Definition quotes : string := "[]'" ^^ String quote_char "".
Definition singbox_user (line : string) : string :=
  let email := match FindStringSubmatch singboxUserPattern line with Some m => first_group m | None => ""%string end in
  let email := Trim email quotes in if isIgnoredTagOrLevel email then "" else email.

Definition remember_conn (connID fromIP fullAddr : string) (st : SessionTracker) : SessionTracker :=
  let conns := <[connID := fromIP]> (singboxConns st) in
  let conns := if fullAddr <>s fromIP then <[connID ^^ "_addr" := fullAddr]> conns else conns in
  set_tables st (trimmed 5000 2500 conns) (singboxAddrUsers st) (singboxIPUsers st) (singboxLastUser st).
Definition remember_user (email srcIP srcAddr : string) (st : SessionTracker) : SessionTracker :=
  let addrUsers := if srcAddr <>s "" then <[srcAddr := email]> (singboxAddrUsers st) else singboxAddrUsers st in
  set_tables st (singboxConns st) (trimmed 5000 2500 addrUsers) (trimmed 2000 1000 (<[srcIP := email]> (singboxIPUsers st))) email.
Definition looked_up (m : gmap string string) (k : string) : string := default ""%string (m !! k).

Definition processSingBoxLine (line : string) (now : Z) (nowStr : string) (st : SessionTracker) : SessionTracker :=
  if negb (Contains line "inbound connection") && negb (Contains line "accepted") && negb (Contains line "inbound/") && negb (Contains line "router:")
  then st
  else
    let connID := singbox_conn_id line in
    let '(fromIP, fromPort) := singbox_source line in
    let fullAddr := if (fromIP <>s "") && (fromPort <>s "") then fromIP ^^ ":" ^^ fromPort else fromIP in
    let st := if (fromIP <>s "") && (connID <>s "") then remember_conn connID fromIP fullAddr st else st in
    let email := singbox_user line in
    if email =s "" then st
    else
      let '(srcIP, srcAddr) :=
        if fromIP <>s "" then (fromIP, fullAddr)
        else if connID <>s "" then
          let srcIP := looked_up (singboxConns st) connID in
          let srcAddr := looked_up (singboxConns st) (connID ^^ "_addr") in
          (srcIP, if srcAddr =s "" then srcIP else srcAddr)
        else (""%string, ""%string) in
      if srcIP =s "" then st
      else remember_user email srcIP srcAddr (registerConnect loc "sing-box" email srcIP now nowStr st).

(** *** Xray *)

Definition processXrayLine (line : string) (now : Z) (nowStr : string) (st : SessionTracker) : SessionTracker :=
  if negb (Contains line "accepted") || negb (Contains line "email:") then st
  else
    let srcIP := match FindStringSubmatch xrayAcceptedPattern line with Some m => parseCleanIP (group m 1) | None => ""%string end in
    let email := match FindStringSubmatch xrayEmailPattern line with Some m => TrimSpace (group m 1) | None => ""%string end in
    if (srcIP <>s "") && (email <>s "") then registerConnect loc "xray" email srcIP now nowStr st else st.

(** *** Hysteria *)

Fixpoint first_field (obj : gmap string string) (keys : list string) : string :=
  match keys with
  | [] => ""
  | k :: keys => let v := looked_up obj k in if v =s "" then first_field obj keys else v
  end.
(** The user and the address of a structured line. *)
Definition json_client (line : string) : option (string * string) :=
  idx ← Index line "{";
  obj ← json (str_drop idx line);
  let email := first_field obj ["id"; "auth"; "user"]%string in
  let addr := first_field obj ["addr"; "client_ip"; "client"]%string in
  if (email =s "") || (addr =s "") then None
  else let srcIP := parseCleanIP addr in if srcIP =s "" then None else Some (email, srcIP).
Definition hysteria_json (line lowerLine : string) (now : Z) (nowStr : string) (st : SessionTracker) : option SessionTracker :=
  '(email, srcIP) ← json_client line;
  Some (if Contains lowerLine "client disconnected" || Contains lowerLine "disconnect" then registerDisconnect loc "hysteria2" email srcIP now nowStr st
        else if Contains lowerLine "client connected" || Contains lowerLine "authenticated" then registerConnect loc "hysteria2" email srcIP now nowStr st
        else touchSession "hysteria2" email srcIP now st).

(** "[TCP] address:port -> target (user: name)" *)
Definition request_client (line : string) : option (string * string) :=
  m ← FindStringSubmatch hyTCPRegex line;
  let srcIP := parseCleanIP (group m 1) in
  let email := TrimSpace (group m 2) in
  if (srcIP =s "") || (email =s "") then None else Some (email, srcIP).

Definition dotted (p : string) : bool := let cleanP := Trim p "():" in Contains cleanP "." && negb (Contains cleanP "@").
(** "authenticated as name (address)": else the first word that looks like an address. *)
Definition auth_client (line : string) : option (string * string) :=
  m ← FindStringSubmatch hyAuthAsRegex line;
  let email := TrimSpace (group m 1) in
  let srcIP := if group m 2 <>s "" then parseCleanIP (group m 2) else ""%string in
  let srcIP := if srcIP =s "" then match List.find dotted (Fields line) with Some p => parseCleanIP (Trim p "():") | None => ""%string end else srcIP in
  if (email =s "") || (srcIP =s "") then None else Some (email, srcIP).

Definition pair_word (acc : string * string) (p : string) : string * string :=
  if HasPrefix p "auth_user=" then (TrimPrefix p "auth_user=", acc.2)
  else if HasPrefix p "auth=" then (TrimPrefix p "auth=", acc.2)
  else if HasPrefix p "client_ip=" || HasPrefix p "client=" || HasPrefix p "addr=" then (acc.1, parseCleanIP (nth 1 (SplitByte p "=") ""%string))
  else acc.
Definition pairs_client (line : string) : option (string * string) :=
  if Contains line "auth_user=" || Contains line "auth=" then
    let '(email, srcIP) := foldl pair_word (""%string, ""%string) (Fields line) in
    if (email =s "") || (srcIP =s "") then None else Some (email, srcIP)
  else None.

Definition hysteria_event (lowerLine email srcIP : string) (now : Z) (nowStr : string) (st : SessionTracker) : SessionTracker :=
  if Contains lowerLine "disconnect" then registerDisconnect loc "hysteria2" email srcIP now nowStr st
  else registerConnect loc "hysteria2" email srcIP now nowStr st.

Definition processHysteriaLine (line : string) (now : Z) (nowStr : string) (st : SessionTracker) : SessionTracker :=
  let lowerLine := ToLower line in
  match hysteria_json line lowerLine now nowStr st with
  | Some st => st
  | None =>
      match request_client line with
      | Some (email, srcIP) => registerConnect loc "hysteria2" email srcIP now nowStr st
      | None =>
          match (match auth_client line with Some c => Some c | None => pairs_client line end) with
          | Some (email, srcIP) => hysteria_event lowerLine email srcIP now nowStr st
          | None => st
          end
      end
  end.

Definition ProcessLogLine (coreName line : string) (now : Z) (nowStr : string) (st : SessionTracker) : SessionTracker :=
  let normCore := normalizeCoreName coreName in
  let cleanLine := stripANSI line in
  if (normCore =s "sing-box") || (normCore =s "singbox") then processSingBoxLine cleanLine now nowStr st
  else if normCore =s "xray" then processXrayLine cleanLine now nowStr st
  else if (normCore =s "hysteria") || (normCore =s "hysteria2") then processHysteriaLine cleanLine now nowStr st
  else st.

(** ** A line is an operation *)

(** Trackers that agree on the sessions and the events. *)
Definition same_sessions (st st' : SessionTracker) : Prop :=
  sessions st = sessions st' /\ events st = events st' /\ maxEvents st = maxEvents st'.
#[export] Instance same_sessions_equiv : Equivalence same_sessions.
Proof.
  split; [done | by intros a b (? & ? & ?) | intros a b c (? & ? & ?) (? & ? & ?)]; split_and!; congruence.
Qed.
Lemma exec_same st st' e : same_sessions st st' -> same_sessions (exec loc st e) (exec loc st' e).
Proof using Type.
  intros (Hs & He & Hm). destruct e as [[[core email ip|core email ip|core email ip|traffic|] now] nowStr]; cbn [exec];
    unfold registerConnect, registerDisconnect, touchSession, cleanerTick; rewrite ?Hs.
  - destruct (connect_step loc _ _ _ _ _ _). unfold record_events, same_sessions. cbn. by rewrite ?He, ?Hm.
  - destruct (disconnect_step loc _ _ _ _ _ _). unfold record_events, same_sessions. cbn. by rewrite ?He, ?Hm.
  - by split_and!.
  - destruct (tick_step loc _ _ _ _). unfold same_sessions. cbn. by rewrite ?He, ?Hm.
  - by split_and!.
Qed.

Lemma same_tables st c a i u : same_sessions (set_tables st c a i u) st.
Proof using Type. done. Qed.

(** The sessions after a line are those after at most one operation of the line's core. *)
Definition core_of (core : string) : Prop := core = "sing-box"%string \/ core = "xray"%string \/ core = "hysteria2"%string.
Definition op_core (o : op) : string := match o with OpConnect c _ _ | OpDisconnect c _ _ | OpTouch c _ _ => c | _ => "" end.
Lemma line_operation coreName line now nowStr st :
  same_sessions (ProcessLogLine coreName line now nowStr st) st \/
  exists o, core_of (op_core o) /\ same_sessions (ProcessLogLine coreName line now nowStr st) (exec loc st (o, now, nowStr)).
Proof using Type.
  unfold ProcessLogLine. generalize (stripANSI line) as l. intros l. cbv zeta.
  destruct (_ || _); [|destruct (_ =s "xray"); [|destruct (_ || _); [|by left]]].
  - unfold processSingBoxLine. destruct (_ && _); [by left|]. destruct (singbox_source l) as [fromIP fromPort]. cbv zeta.
    set (st1 := if _ && _ then remember_conn _ _ _ st else st). assert (H1 : same_sessions st1 st) by (subst st1; by destruct (_ && _)).
    destruct (singbox_user l =s ""); [by left|].
    set (pair := if fromIP <>s "" then _ else _). destruct pair as [srcIP srcAddr]. destruct (srcIP =s ""); [by left|].
    right. exists (OpConnect "sing-box" (singbox_user l) srcIP). split; [by left|].
    unfold remember_user. rewrite same_tables. apply (exec_same st1 st (OpConnect "sing-box" (singbox_user l) srcIP, now, nowStr) H1).
  - unfold processXrayLine. destruct (_ || _); [by left|].
    set (srcIP := match FindStringSubmatch xrayAcceptedPattern l with Some _ => _ | None => _ end).
    set (email := match FindStringSubmatch xrayEmailPattern l with Some _ => _ | None => _ end). cbv zeta.
    destruct (_ && _); [|by left]. right. exists (OpConnect "xray" email srcIP). split; [right; by left|done].
  - unfold processHysteriaLine. cbv zeta. destruct (hysteria_json l (ToLower l) now nowStr st) as [st'|] eqn:Ej.
    + unfold hysteria_json in Ej. destruct (json_client l) as [[email srcIP]|]; [|done]. injection Ej as <-. right.
      destruct (_ || _); [exists (OpDisconnect "hysteria2" email srcIP)|destruct (_ || _); [exists (OpConnect "hysteria2" email srcIP)|exists (OpTouch "hysteria2" email srcIP)]];
        (split; [right; by right|done]).
    + destruct (request_client l) as [[email srcIP]|].
      { right. exists (OpConnect "hysteria2" email srcIP). split; [right; by right|done]. }
      destruct (match auth_client l with Some _ => _ | None => _ end) as [[email srcIP]|]; [|by left]. right. unfold hysteria_event.
      destruct (Contains _ _); [exists (OpDisconnect "hysteria2" email srcIP)|exists (OpConnect "hysteria2" email srcIP)]; (split; [right; by right|done]).
Qed.

(** Lines of the cores among the other operations of the tracker. *)
Inductive event := LogLine (coreName line : string) | Other (o : op).
Definition exec_event (st : SessionTracker) (e : event * Z * string) : SessionTracker :=
  let '(ev, now, nowStr) := e in
  match ev with LogLine coreName line => ProcessLogLine coreName line now nowStr st | Other o => exec loc st (o, now, nowStr) end.

(** Whatever lines the cores print, in any order and among any other operations, the
    sessions and the history are those of operations of the tracker, at most one for each
    line: so the history is the end of the complete log of these operations, whose events
    agree with the sessions. *)
Theorem lines_are_operations tr : Forall (fun e => match e.1.1 with Other o => op_ok o | LogLine _ _ => True end) tr ->
  let st := foldl exec_event newTracker tr in
  exists ops, Forall (fun e => op_ok e.1.1) ops /\ (length ops <= length tr)%nat /\ same_sessions st (Sessions.run loc newTracker ops) /\
    events st = keep_last 1000 (log_run loc ops).2 /\ consistent loc (sessions st) (log_run loc ops).2.
Proof using Type.
  intros Hok. cbv zeta.
  enough (H : exists ops, Forall (fun e => op_ok e.1.1) ops /\ (length ops <= length tr)%nat /\
    same_sessions (foldl exec_event newTracker tr) (Sessions.run loc newTracker ops)).
  { destruct H as (ops & Ho & Hl & Hs). exists ops. split_and!; try done; destruct (run_log_run loc ops) as (Hm & He & _); destruct Hs as (Hs & Hev & _).
    - by rewrite Hev, He.
    - rewrite Hs, Hm. by apply consistent_log_run. }
  induction tr as [|[[ev now] nowStr] tr IH] using rev_ind.
  { by exists []. }
  apply Forall_app in Hok as [Hok Hlast]. apply Forall_cons in Hlast as [Hlast _]. destruct (IH Hok) as (ops & Ho & Hl & Hs).
  rewrite foldl_app, length_app. cbn [foldl exec_event length]. set (st := foldl exec_event newTracker tr) in *.
  assert (Hone : forall o, op_ok o -> forall st', same_sessions st' (exec loc st (o, now, nowStr)) ->
    exists ops, Forall (fun e => op_ok e.1.1) ops /\ (length ops <= length tr + 1)%nat /\ same_sessions st' (Sessions.run loc newTracker ops)).
  { intros o Hop st' Hst. exists (ops ++ [(o, now, nowStr)]). rewrite Forall_app, length_app. split_and!; [done|by constructor|cbn; lia|].
    unfold Sessions.run. rewrite foldl_app. cbn [foldl]. rewrite Hst. by apply exec_same. }
  destruct ev as [coreName line|o]; [|by apply (Hone o Hlast)].
  destruct (line_operation coreName line now nowStr st) as [Hst|(o & Hc & Hst)].
  - exists ops. split_and!; [done|lia|]. by rewrite Hst.
  - apply (Hone o); [|done]. destruct Hc as [Hc|[Hc|Hc]]; destruct o; cbn in *; subst; first [done|reflexivity|discriminate].
Qed.

(** *** The tables of sing-box stay small *)

Definition small (st : SessionTracker) : Prop :=
  (size (singboxConns st) <= 5000)%nat /\ (size (singboxAddrUsers st) <= 5000)%nat /\ (size (singboxIPUsers st) <= 2000)%nat.
Lemma size_insert_le (m : gmap string string) k v : (size (<[k := v]> m) <= S (size m))%nat.
Proof using Type. destruct (m !! k) as [x|] eqn:E; [rewrite map_size_insert_Some by eauto; lia|rewrite map_size_insert_None by done; lia]. Qed.
Lemma trimmed_small limit half m : (size m <= limit + 2)%nat -> (2 <= half)%nat -> (size (trimmed limit half m) <= limit)%nat.
Proof using Type. intros Hm Hh. unfold trimmed. destruct (Nat.ltb_spec limit (size m)); [|lia]. rewrite size_evict. lia. Qed.

Lemma small_tables st m evs : small st -> small (set_sessions st m evs).
Proof using Type. done. Qed.
Lemma small_connect core email ip now nowStr st : small st -> small (registerConnect loc core email ip now nowStr st).
Proof using Type. intros H. unfold registerConnect. by destruct (connect_step _ _ _ _ _ _ _). Qed.
Lemma small_disconnect core email ip now nowStr st : small st -> small (registerDisconnect loc core email ip now nowStr st).
Proof using Type. intros H. unfold registerDisconnect. by destruct (disconnect_step _ _ _ _ _ _ _). Qed.

Lemma small_line coreName line now nowStr st : small st -> small (ProcessLogLine coreName line now nowStr st).
Proof using Type.
  intros Hs. unfold ProcessLogLine. generalize (stripANSI line) as l. intros l. cbv zeta.
  destruct (_ || _); [|destruct (_ =s "xray"); [|destruct (_ || _); [|done]]].
  - unfold processSingBoxLine. destruct (_ && _); [done|]. destruct (singbox_source l) as [fromIP fromPort]. cbv zeta.
    set (st1 := if _ && _ then remember_conn _ _ _ st else st).
    assert (H1 : small st1).
    { subst st1. destruct (_ && _); [|done]. destruct Hs as (Hc & Ha & Hi). split_and!; try done. cbn [remember_conn set_tables singboxConns].
      apply trimmed_small; [|lia]. pose proof (size_insert_le (singboxConns st) (singbox_conn_id l) fromIP).
      destruct (_ <>s _); [etrans; [apply size_insert_le|]|]; lia. }
    clearbody st1. destruct (singbox_user l =s ""); [done|].
    set (pair := if fromIP <>s "" then _ else _). destruct pair as [srcIP srcAddr]. destruct (srcIP =s ""); [done|].
    apply (small_connect "sing-box" (singbox_user l) srcIP now nowStr) in H1. destruct H1 as (Hc & Ha & Hi).
    split_and!; [done|..]; cbn [remember_user set_tables singboxAddrUsers singboxIPUsers]; (apply trimmed_small; [|lia]).
    + destruct (_ <>s _); [etrans; [apply size_insert_le|]|]; lia.
    + etrans; [apply size_insert_le|]. lia.
  - unfold processXrayLine. destruct (_ || _); [done|]. cbv zeta. destruct (_ && _); [by apply small_connect|done].
  - unfold processHysteriaLine. cbv zeta. destruct (hysteria_json l (ToLower l) now nowStr st) as [st'|] eqn:Ej.
    + unfold hysteria_json in Ej. destruct (json_client l) as [[email srcIP]|]; [|done]. injection Ej as <-.
      destruct (_ || _); [by apply small_disconnect|]. destruct (_ || _); [by apply small_connect|done].
    + destruct (request_client l) as [[email srcIP]|]; [by apply small_connect|].
      destruct (match auth_client l with Some _ => _ | None => _ end) as [[email srcIP]|]; [|done]. unfold hysteria_event.
      destruct (Contains _ _); [by apply small_disconnect|by apply small_connect].
Qed.

(** Whatever is logged, the tables that sing-box lines fill keep to their limits. *)
Theorem tables_bounded tr : small (foldl exec_event newTracker tr).
Proof using Type.
  induction tr as [|[[ev now] nowStr] tr IH] using rev_ind; [split_and!; vm_compute; lia|].
  rewrite foldl_app. cbn [foldl exec_event]. destruct ev as [coreName line|o]; [by apply small_line|].
  destruct o; cbn [exec]; [by apply small_connect|by apply small_disconnect|done| |split_and!; vm_compute; lia].
  unfold cleanerTick. by destruct (tick_step _ _ _ _ _).
Qed.
End lines.

(** ** Lines as the cores print them *)

Definition no_json : string -> option (gmap string string) := fun _ => None.
Definition lines (l : list (string * string)) : SessionTracker :=
  foldl (exec_event LocaleEN no_json) newTracker (map (fun e => (LogLine e.1 e.2, 100, "t0"%string)) l).
Definition seen_sessions (st : SessionTracker) : list (string * string * string) :=
  map (fun e => (Core e.2, Email e.2, IP e.2)) (map_to_list (sessions st)).

(** sing-box names the user of a connection on a later line than its address. *)
Definition two_lines : list (string * string) :=
  [("sing-box", "INFO [388439065 0ms] inbound/vless[vless-in]: inbound connection from 203.0.113.7:51000");
   ("sing-box", "INFO [388439065 79ms] inbound/vless[vless-in]: [alice] inbound connection to example.com:443")]%string.
Example singbox_two_lines : seen_sessions (lines two_lines) = [("sing-box", "alice", "203.0.113.7")]%string.
Proof. vm_compute. reflexivity. Qed.
Example xray_line :
  seen_sessions (lines [("xray", "2024/05/01 10:00:00 from tcp:[2001:db8::7]:5678 accepted tcp:example.com:443 [in -> out] email: alice@x")]%string)
  = [("xray", "alice@x", "2001:db8::7")]%string.
Proof. vm_compute. reflexivity. Qed.
Example hysteria_lines :
  seen_sessions (lines [("hysteria", "[TCP] 203.0.113.9:4000 -> example.com:443 (user: bob)"); ("hysteria2", "authenticated as carol (203.0.113.10:99)")]%string)
  = [("hysteria2", "carol", "203.0.113.10"); ("hysteria2", "bob", "203.0.113.9")]%string.
Proof. vm_compute. reflexivity. Qed.

Lemma lines_are_operations_witness : exists ops, (length ops <= 2)%nat /\ events (lines two_lines) = keep_last 1000 (log_run LocaleEN ops).2.
Proof.
  assert (Hok : Forall (fun e => match e.1.1 with Other o => op_ok o | LogLine _ _ => True end)
    (map (fun e => (LogLine e.1 e.2, 100, "t0"%string)) two_lines)) by (repeat constructor).
  destruct (lines_are_operations LocaleEN no_json _ Hok) as (ops & _ & Hl & _ & He & _). exists ops. split; [exact Hl|exact He].
Defined.

(** A structured line of a connection is taken for its end where the user's name says so. *)
Example name_taken_for_end :
  let json := fun _ => Some (list_to_map [("id", "disconnect-me"); ("addr", "203.0.113.7:1")]%string) in
  let line := "client connected {json}"%string in
  seen_sessions (ProcessLogLine LocaleEN json "hysteria2" ("client connected {" ^^ "disconnect-me}") 100 "t0" newTracker) = [] /\
  seen_sessions (ProcessLogLine LocaleEN json "hysteria2" line 100 "t0" newTracker) <> [].
Proof. split; vm_compute; [reflexivity|discriminate]. Qed.
End Lines.
