(* ===== verification/Xray.v ===== *)
(** * The routing section of an Xray configuration
    (src/pkg/compiler/xray/routing.go, fallback.go, compiler.go)

    A JSON object is the list of its entries ([jmap]).  The maps of raw outbounds
    are values here: the compiler changes some of them in place, and what it
    returns is the changed value.  The decoding of JSON text is an argument, and
    so is the outbound of the server node. *)
From Stdlib Require QArith.
From S2P Require Import Prelude GoStrings GoNet Ast.
Open Scope Z_scope.

Module Xray.
(** ** Rules (routing.go) *)

Definition rule (tag : string) (fields : jmap) : jmap :=
  [("type", VString "field"); ("outboundTag", VString tag)]%string ++ fields.

Definition dns_rule : jmap := rule "dns-out" [("port", VString "53"); ("network", VString "udp,tcp")]%string.

(** The server itself is reached directly. *)
Definition server_rules (spec : ConfigSpec) : list jmap :=
  match cs_ServerNode spec with
  | Some n =>
      if p_Address n <>s "" then
        [rule "direct" [((if bool_decide (ParseIP (p_Address n) = []) then "domain" else "ip")%string, VStrings [p_Address n])]]
      else []
  | None => []
  end.

Definition noise_nets : list string :=
  ["169.254.0.0/16"; "224.0.0.0/4"; "255.255.255.255/32"; "fe80::/10"; "ff00::/8"; "::1"]%string.

Definition tun_rules (spec : ConfigSpec) : list jmap :=
  match cs_ClientInbound spec with
  | Some ci =>
      if ci_Mode ci =s InboundModeDesktopTun then
        [rule "block" [("ip"%string, VStrings noise_nets)];
         rule "block" [("port", VString "137,138,1900,5353"); ("network", VString "udp")]%string]
      else []
  | None => []
  end.

(** The addresses of a rule: IP version 6 is all of them. *)
Definition rule_ips (r : RoutingRule) : list string :=
  if (IPVersion r =? 6) && negb (existsb (fun ip => ip =s "::/0") (IPs r)) then IPs r ++ ["::/0"%string] else IPs r.

Definition node_tag (node : option ServerProfile) : string :=
  match node with Some n => if p_Name n <>s "" then p_Name n else "proxy" | None => "proxy" end.

Definition tag_of (spec : ConfigSpec) (r : RoutingRule) : string :=
  if OutboundTag r <>s "" then OutboundTag r
  else if Action r =s ActionProxy then node_tag (cs_ServerNode spec)
  else if Action r =s ActionDirect then "direct"
  else if Action r =s ActionBlock then "block"
  else Action r.

Definition is_network (p : string) : bool := (ToLower p =s "tcp") || (ToLower p =s "udp").
Definition networks (ps : list string) : list string := map ToLower (List.filter is_network ps).
Definition appProtocols (ps : list string) : list string := map ToLower (List.filter (fun p => negb (is_network p)) ps).

Definition joined (k : string) (l : list string) : jmap := opt (nonempty l) k (VString (Join l ",")).

Definition users (r : RoutingRule) : list string :=
  if nonempty (Users r) then Users r else if nonempty (PackageUIDs r) then PackageUIDs r else ProcessNames r.

Definition createBaseRule (tag : string) (r : RoutingRule) : jmap :=
  rule tag (joined "port" (Ports r) ++ joined "network" (networks (Protocols r)) ++
    opt_strings "protocol" (appProtocols (Protocols r)) ++ opt_strings "user" (users r) ++
    opt_strings "inboundTag" (InboundTags r)).

Definition clean_domain (d : string) : string := if d =s "geosite:ru" then "geosite:category-ru" else d.

Definition rules_of (spec : ConfigSpec) (r : RoutingRule) : list jmap :=
  let base := createBaseRule (tag_of spec r) r in
  let cleanDomains := map clean_domain (Domains r) in
  let domainRule := base ++ [("domain"%string, VStrings cleanDomains)] in
  let ipRule := base ++ [("ip"%string, VStrings (rule_ips r))] in
  if nonempty cleanDomains && nonempty (rule_ips r) then [domainRule; ipRule]
  else if nonempty cleanDomains then [domainRule]
  else if nonempty (rule_ips r) then [ipRule]
  else if 2 <? len base then [base] else [].

Definition user_rules (spec : ConfigSpec) : list jmap :=
  match cs_Routing spec with Some routing => concat (map (rules_of spec) (Rules routing)) | None => [] end.

Definition routing_rules (spec : ConfigSpec) : list jmap :=
  dns_rule :: server_rules spec ++ tun_rules spec ++ user_rules spec.

Definition BuildXrayRouting (spec : ConfigSpec) : jmap :=
  [("domainStrategy", VString "IPIfNonMatch"); ("rules", VList (map VMap (routing_rules spec)))]%string.

(** ** Balancers (fallback.go) *)

(** The backups of an outbound, the health check and the strategy. *)
Record fallback := mkFallback { backups : list string; probeURL : string; probeInterval : string; strategy : string }.

Definition string_or (v : option value) (d : string) : string :=
  match v with Some (VString s) => if s =s "" then d else s | _ => d end.

(** [int(f)]: towards zero. *)
Definition trunc (q : QArith_base.Q) : Z := Z.quot (QArith_base.Qnum q) (Zpos (QArith_base.Qden q)).

Definition interval (v : option value) (d : string) : string :=
  match v with
  | Some (VFloat q) => if (0 <? QArith_base.Qnum q) then Itoa (trunc q) ^^ "s" else d
  | Some (VInt n) => if 0 <? n then Itoa n ^^ "s" else d
  | _ => d
  end.

Definition ExtractXrayFallbackSettings (settingsMap : jmap) (tag : string) : fallback :=
  let keep s := (s <>s "") && (s <>s tag) in
  let listed :=
    match jget settingsMap "backup_outbounds" with
    | Some (VList l) => List.filter keep (omap string_of l)
    | _ => []
    end in
  let backups :=
    match jget settingsMap "fallback_outbound" with
    | Some (VString s) => if keep s && negb (existsb (String.eqb s) listed) then listed ++ [s] else listed
    | _ => listed
    end in
  mkFallback backups
    (string_or (jget settingsMap "health_check_url") "https://www.gstatic.com/generate_204")
    (interval (jget settingsMap "health_check_interval") "15s")
    (string_or (jget settingsMap "fallback_strategy") "priority").

Definition balancer (tag : string) (selector : list string) (type : string) (extra : jmap) : jmap :=
  [("tag", VString tag); ("selector", VStrings selector)]%string ++ extra ++
  [("strategy"%string, VMap [("type"%string, VString type)])].

(** [None]: the panic of [backups[0]]. *)
Definition BuildXrayBalancer (tag balancerTag : string) (backups : list string) (strategy : string) : option jmap :=
  let strat := ToLower (TrimSpace strategy) in
  if strat =s "least_ping" then Some (balancer balancerTag (tag :: backups) "leastPing" [])
  else if (strat =s "round_robin") || (strat =s "random") || (strat =s "load_balance")
  then Some (balancer balancerTag (tag :: backups) "random" [])
  else match backups with
       | fallbackTag :: _ => Some (balancer balancerTag [tag] "leastPing" [("fallbackTag"%string, VString fallbackTag)])
       | [] => None
       end.

Definition push_subject (acc : list string) (s : string) : list string :=
  if existsb (String.eqb s) acc || (s =s "") then acc else acc ++ [s].

Definition BuildXrayObservatory (subjects : list string) (probeURL probeInterval : string) : option jmap :=
  match foldl push_subject [] subjects with
  | [] => None
  | unique => Some [("subjectSelector", VStrings unique); ("probeUrl", VString probeURL);
                    ("probeInterval", VString probeInterval); ("enableConcurrency", VBool true)]%string
  end.

(** ** Outbounds (compiler.go) *)

Section compiler.
Context (unmarshal : string -> option jmap).

Definition local_socks (addr : string) (port : Z) : jmap :=
  [("servers"%string, VList [VMap [("address", VString addr); ("port", VInt port)]%string])].

Definition socks_port (settings : jmap) : Z :=
  match jget settings "port" with
  | Some (VFloat q) => if 0 <? QArith_base.Qnum q then trunc q else 10808
  | Some (VInt p) => if 0 <? p then p else 10808
  | _ => 10808
  end.

Definition settings_of (ob : jmap) : jmap :=
  match jget ob "settings" with
  | Some (VMap m) => m
  | Some (VString s) => if s =s "" then [] else match unmarshal s with Some m => m | None => [] end
  | _ => []
  end.

(** [None]: a nil map. *)
Definition stream_settings_of (ob : jmap) : option jmap :=
  match jget ob "streamSettings" with
  | Some (VMap m) => Some m
  | _ => match jget ob "stream_settings" with
         | Some (VString s) => if s =s "" then None else unmarshal s
         | _ => None
         end
  end.

Definition is_hysteria (proto : string) : bool := (proto =s "hysteria2") || (proto =s "hysteria").

Definition adapt_settings (proto : string) (settings : jmap) : string * jmap :=
  if is_hysteria proto then ("socks"%string, local_socks "127.0.0.1" (socks_port settings))
  else if (proto =s "socks") && negb (is_some (jget settings "servers")) then
    let addr := get_string settings "address" in
    (proto, local_socks (if addr =s "" then "127.0.0.1" else addr) (socks_port settings))
  else (proto, settings).

Definition or_string (k d : string) (m : jmap) : jmap := if get_string m k =s "" then jset k (VString d) m else m.

Definition no_user : string := "00000000-0000-0000-0000-000000000000".

(** The users of every server of [vnext]: a default user if there is none, else
    [fix_user] on each. *)
Definition fix_server (default : jmap) (fix_user : jmap -> jmap) (vn : value) : value :=
  match vn with
  | VMap m =>
      match jget m "users" with
      | Some (VList (u :: us)) =>
          VMap (jset "users" (VList (map (fun u => match u with VMap m => VMap (fix_user m) | v => v end) (u :: us))) m)
      | _ => VMap (jset "users" (VList [VMap default]) m)
      end
  | v => v
  end.

Definition fix_vnext (default : jmap) (fix_user : jmap -> jmap) (settings : jmap) : jmap :=
  match jget settings "vnext" with
  | Some (VList l) => jset "vnext" (VList (map (fix_server default fix_user) l)) settings
  | _ => settings
  end.

(** The flow of VLESS needs TLS or Reality. *)
Definition fix_vless_user (sec : string) (m : jmap) : jmap :=
  let m := or_string "encryption" "none" m in
  if (sec =s "tls") || (sec =s "reality") then m else jdel "flow" m.

Definition fix_users (proto : string) (stream : option jmap) (settings : jmap) : jmap :=
  if proto =s "vless" then
    let sec := match stream with Some m => get_string m "security" | None => "" end in
    fix_vnext [("id", VString no_user); ("encryption", VString "none")]%string (fix_vless_user sec) settings
  else if proto =s "vmess" then
    fix_vnext [("id", VString no_user); ("security", VString "auto")]%string (or_string "security" "auto") settings
  else settings.

Definition compile_outbound (ob : jmap) : jmap * jmap :=
  let proto := get_string ob "protocol" in
  let '(proto, settings) := adapt_settings (if proto =s "" then "freedom" else proto) (settings_of ob) in
  let stream := stream_settings_of ob in
  let settings := fix_users proto stream settings in
  let stream :=
    match stream with
    | Some m => if (proto =s "socks") && (get_string m "network" =s "hysteria") then None else Some m
    | None => None
    end in
  ([("protocol", VString proto); ("tag", VString (get_string ob "tag"))]%string ++
   opt (nonempty settings) "settings" (VMap settings) ++
   match stream with Some m => [("streamSettings"%string, VMap m)] | None => [] end,
   settings).

Record build := mkBuild {
  outbounds : list jmap;
  balancers : list jmap;
  backupOutboundMap : gmap string string;
  observatorySubjects : list string;
  obsURL : string;
  obsInterval : string;
}.

Definition add_outbound (b : build) (ob : jmap) : option build :=
  let tag := get_string ob "tag" in
  if tag =s "" then Some b
  else
    let '(xrayOb, settings) := compile_outbound ob in
    let fb := ExtractXrayFallbackSettings settings tag in
    if nonempty (backups fb) then
      let balancerTag := "balancer-" ^^ tag in
      bal ← BuildXrayBalancer tag balancerTag (backups fb) (strategy fb);
      Some (mkBuild (outbounds b ++ [xrayOb]) (balancers b ++ [bal]) (<[tag := balancerTag]> (backupOutboundMap b))
        (observatorySubjects b ++ tag :: backups fb) (probeURL fb) (probeInterval fb))
    else Some (mkBuild (outbounds b ++ [xrayOb]) (balancers b) (backupOutboundMap b) (observatorySubjects b) (obsURL b) (obsInterval b)).

Fixpoint add_outbounds (b : build) (obs : list jmap) : option build :=
  match obs with
  | [] => Some b
  | ob :: obs => b ← add_outbound b ob; add_outbounds b obs
  end.

Definition empty_build (primary : option jmap) : build :=
  mkBuild (match primary with Some ob => [ob] | None => [] end) [] ∅ [] "https://www.gstatic.com/generate_204" "10s".

Definition with_tag (tag proto : string) : jmap := [("protocol", VString proto); ("tag", VString tag)]%string.

(** The outbound [tag] is added unless there is one. *)
Definition missing (obs : list jmap) (tag proto : string) : list jmap :=
  if existsb (fun ob => get_string ob "tag" =s tag) obs then [] else [with_tag tag proto].

Definition is_server (spec : ConfigSpec) : bool := nonempty (cs_ServerInbounds spec).

Definition with_defaults (spec : ConfigSpec) (obs : list jmap) : list jmap :=
  obs ++ missing obs "dns-out" "dns" ++ missing obs "direct" "freedom" ++ missing obs "block" "blackhole" ++
  missing obs "blocked" "blackhole" ++ (if is_server spec then missing obs "api" "blackhole" else []).

Definition api_rule : jmap :=
  [("type", VString "field"); ("inboundTag", VStrings ["api"]); ("outboundTag", VString "api")]%string.

(** A rule whose outbound has backups goes to the balancer. *)
Definition balance (m : gmap string string) (r : jmap) : jmap :=
  match jget r "outboundTag" with
  | Some (VString t) =>
      match m !! t with
      | Some bal => jset "balancerTag" (VString bal) (jdel "outboundTag" r)
      | None => r
      end
  | _ => r
  end.

Definition all_rules (spec : ConfigSpec) (b : build) : list jmap :=
  let rules := (if is_server spec then [api_rule] else []) ++ routing_rules spec in
  if nonempty (balancers b) then map (balance (backupOutboundMap b)) rules else rules.

Definition routing_section (spec : ConfigSpec) (b : build) : jmap :=
  [("domainStrategy", VString "IPIfNonMatch"); ("rules", VList (map VMap (all_rules spec b)))]%string ++
  opt (nonempty (balancers b)) "balancers" (VList (map VMap (balancers b))).

Record sections := mkSections { s_outbounds : list jmap; s_routing : jmap; s_observatory : option jmap }.

Definition routing_outbounds (spec : ConfigSpec) : list jmap :=
  match cs_Routing spec with Some r => Outbounds r | None => [] end.

(** The outbounds, routing and observatory of [Compile], after the outbound of the
    server node. *)
Definition compile_sections (spec : ConfigSpec) (primary : option jmap) : option sections :=
  b ← add_outbounds (empty_build primary) (routing_outbounds spec);
  Some (mkSections (with_defaults spec (outbounds b)) (routing_section spec b)
    (if nonempty (observatorySubjects b) then BuildXrayObservatory (observatorySubjects b) (obsURL b) (obsInterval b) else None)).

(** ** A configuration given as a whole *)

Definition block_rule (r : RoutingRule) : jmap :=
  rule "block" (opt_strings "ip" (IPs r) ++ opt_strings "domain" (Domains r) ++ joined "port" (Ports r) ++
    opt_strings "user" (PackageUIDs r)).

Definition prepend_rules (spec : ConfigSpec) : list jmap :=
  match cs_Routing spec with
  | Some routing => map block_rule (List.filter (fun r => Action r =s ActionBlock) (Rules routing))
  | None => []
  end.

(** The decoded configuration of a provider with our inbounds, log and blocks. *)
Definition inject_raw (spec : ConfigSpec) (inbounds : list jmap) (rawConfig : jmap) : jmap :=
  let raw := jset "inbounds" (VList (map VMap inbounds)) rawConfig in
  let raw := jset "log" (VMap [("loglevel"%string, VString (if cs_LogLevel spec =s "" then "debug" else cs_LogLevel spec))]) raw in
  match prepend_rules spec with
  | [] => raw
  | pre =>
      match jget raw "routing" with
      | Some (VMap routing) =>
          match jget routing "rules" with
          | Some (VList existing) => jset "routing" (VMap (jset "rules" (VList (map VMap pre ++ existing)) routing)) raw
          | _ => raw
          end
      | _ => raw
      end
  end.
End compiler.

(** ** What the rules mean

    Xray's documented reading of a rule: every condition is required, a list means
    any of its members, and so does a text of members separated by commas. *)
Section meaning.
Context (field : string -> value -> bool) (matches : jmap -> bool).

Definition targets : list string := ["type"; "outboundTag"; "balancerTag"]%string.
Definition required (r : jmap) : bool :=
  forallb (fun kv => existsb (String.eqb kv.1) targets || field kv.1 kv.2) r.

Record rule_logic : Prop := {
  matches_rule : forall r, matches r = required r;
  any_string : forall k l, field k (VStrings l) = existsb (fun s => field k (VString s)) l;
  any_joined : forall k l, nonempty l = true -> field k (VString (Join l ",")) = existsb (fun s => field k (VString s)) l;
}.

Fixpoint first_match (rules : list jmap) : option string :=
  match rules with
  | [] => None
  | r :: rules => if matches r then Some (get_string r "outboundTag") else first_match rules
  end.

Definition any_of (k : string) (l : list string) : bool := negb (nonempty l) || existsb (fun s => field k (VString s)) l.

Definition dest_holds (r : RoutingRule) : bool :=
  (negb (nonempty (Domains r)) && negb (nonempty (rule_ips r))) ||
  existsb (fun d => field "domain" (VString (clean_domain d))) (Domains r) ||
  existsb (fun ip => field "ip" (VString ip)) (rule_ips r).

Definition others_hold (r : RoutingRule) : bool :=
  any_of "port" (Ports r) && any_of "network" (networks (Protocols r)) && any_of "protocol" (appProtocols (Protocols r)) &&
  any_of "user" (users r) && any_of "inboundTag" (InboundTags r).

(** A rule without a condition is left out. *)
Definition is_live (spec : ConfigSpec) (r : RoutingRule) : bool := nonempty (rules_of spec r).

Fixpoint decision (spec : ConfigSpec) (rules : list RoutingRule) : option string :=
  match rules with
  | [] => None
  | r :: rules => if is_live spec r && (dest_holds r && others_hold r) then Some (tag_of spec r) else decision spec rules
  end.

Context (L : rule_logic).

Lemma xr_required_app a b : required (a ++ b) = required a && required b.
Proof. apply forallb_app. Qed.

Lemma xr_required_strings k l : existsb (String.eqb k) targets = false -> required (opt_strings k l) = any_of k l.
Proof.
  intros Hk. unfold opt_strings, any_of, opt. rewrite <- (any_string L). destruct (nonempty l); [|done]. cbn -[targets].
  by rewrite Hk, andb_true_r.
Qed.

Lemma required_joined k l : existsb (String.eqb k) targets = false -> required (joined k l) = any_of k l.
Proof.
  intros Hk. unfold joined, any_of, opt. destruct (nonempty l) eqn:E; [|done]. rewrite <- (any_joined L) by done. cbn -[targets].
  by rewrite Hk, andb_true_r.
Qed.

Lemma required_base tag r : required (createBaseRule tag r) = others_hold r.
Proof.
  unfold createBaseRule, rule, others_hold. change (required (?a ++ ?b)) with (required b) || rewrite xr_required_app.
  rewrite !xr_required_app, !required_joined, !xr_required_strings by done. cbn. by rewrite !andb_assoc.
Qed.

Lemma required_one k l : existsb (String.eqb k) targets = false ->
  required [(k, VStrings l)] = existsb (fun s => field k (VString s)) l.
Proof. intros Hk. cbn -[targets]. by rewrite Hk, (any_string L), andb_true_r. Qed.

Lemma tag_kept spec r : Forall (fun m => get_string m "outboundTag" = tag_of spec r) (rules_of spec r).
Proof.
  unfold rules_of. destruct (_ && _); [by repeat constructor|]. destruct (nonempty (map _ _)); [by repeat constructor|].
  destruct (nonempty _); [by repeat constructor|]. destruct (_ <? _); by repeat constructor.
Qed.

Lemma nonempty_map {A B} (f : A -> B) l : nonempty (map f l) = nonempty l.
Proof. by destruct l. Qed.

Lemma existsb_map {A B} (f : A -> B) p l : existsb p (map f l) = existsb (fun x => p (f x)) l.
Proof. induction l as [|x l IH]; [done|]. cbn. by rewrite IH. Qed.

Lemma xr_first_match_rule spec r rules :
  first_match (rules_of spec r ++ rules) =
  if is_live spec r && (dest_holds r && others_hold r) then Some (tag_of spec r) else first_match rules.
Proof.
  pose proof (tag_kept spec r) as Ht. unfold is_live, dest_holds. pose proof (required_base (tag_of spec r) r) as Hb.
  unfold rules_of in *. rewrite nonempty_map in *.
  assert (Hm : forall m, matches m = required m) by apply (matches_rule L).
  assert (Hd : required [("domain"%string, VStrings (map clean_domain (Domains r)))] =
    existsb (fun d => field "domain" (VString (clean_domain d))) (Domains r)) by (by rewrite required_one, existsb_map).
  assert (Hi : required [("ip"%string, VStrings (rule_ips r))] = existsb (fun ip => field "ip" (VString ip)) (rule_ips r)) by by rewrite required_one.
  destruct (nonempty (Domains r)) eqn:ED, (nonempty (rule_ips r)) eqn:EI; cbn [andb app first_match nonempty negb orb] in *;
    rewrite ?Forall_cons in Ht; destruct_and?; repeat match goal with H : get_string _ _ = _ |- _ => rewrite H; clear H end;
    rewrite ?Hm, ?xr_required_app, ?Hb, ?Hd, ?Hi.
  - destruct (others_hold r), (existsb _ (Domains r)), (existsb _ (rule_ips r)); done.
  - destruct (rule_ips r); [|done]. cbn. rewrite orb_false_r. destruct (others_hold r), (existsb _ (Domains r)); done.
  - destruct (Domains r); [|done]. cbn. destruct (others_hold r), (existsb _ (rule_ips r)); done.
  - destruct (_ <? _); [|done]. cbn [app first_match nonempty andb]. apply Forall_cons in Ht as [-> _]. by rewrite Hm, Hb.
Qed.

Lemma xr_first_match_rules spec rules : first_match (concat (map (rules_of spec) rules)) = decision spec rules.
Proof. induction rules as [|r rules IH]; [done|]. cbn [map concat decision]. by rewrite xr_first_match_rule, IH. Qed.
End meaning.

(** Compiling the routing for Xray keeps its meaning: after the fixed rules
    for DNS, the server itself and the noise of a TUN device, the first compiled
    rule that matches a connection sends it where the first matching rule of the
    specification does, for every reading of single conditions; a rule for IP
    version 6 is a rule for all IPv6 addresses. *)
Theorem xray_routing_preserved field matches spec routing :
  rule_logic field matches -> cs_Routing spec = Some routing ->
  exists user,
    objects (jget (BuildXrayRouting spec) "rules") = dns_rule :: server_rules spec ++ tun_rules spec ++ user /\
    first_match matches user = decision field spec (Rules routing).
Proof.
  intros L Hr. exists (user_rules spec). split; [apply objects_maps|]. unfold user_rules. rewrite Hr. by apply xr_first_match_rules.
Qed.

(** ** The names of the outbounds *)

Section references.
Context (unmarshal : string -> option jmap).

Lemma balancer_exists tag bt l s : nonempty l = true ->
  exists bal, BuildXrayBalancer tag bt l s = Some bal /\ jget bal "tag" = Some (VString bt).
Proof.
  intros Hl. unfold BuildXrayBalancer. cbn zeta. destruct (_ =s "least_ping"); [by eexists|].
  destruct (_ || _ || _); [by eexists|]. destruct l; [done|]. by eexists.
Qed.

(** Every tag that is redirected is redirected to a balancer that is declared. *)
Definition redirected (b : build) : Prop :=
  map_Forall (fun _ bal => bal ∈ named "tag" (balancers b)) (backupOutboundMap b) /\
  (nonempty (balancers b) = false -> backupOutboundMap b = ∅).

Lemma add_outbound_step b ob : redirected b -> exists b', add_outbound unmarshal b ob = Some b' /\ redirected b' /\
  (forall t, t ∈ named "tag" (outbounds b) -> t ∈ named "tag" (outbounds b')) /\
  (get_string ob "tag" <> ""%string -> get_string ob "tag" ∈ named "tag" (outbounds b')).
Proof.
  intros [Hb Hn]. unfold add_outbound. destruct (String.eqb_spec (get_string ob "tag") "") as [E|E].
  { exists b. by rewrite E. }
  assert (Htag : forall obs x s, compile_outbound unmarshal ob = (x, s) -> get_string ob "tag" ∈ named "tag" (obs ++ [x])).
  { intros obs x s Hx. unfold compile_outbound in Hx. destruct (adapt_settings _ _). injection Hx as <- _.
    rewrite named_app, elem_of_app. right. by left. }
  assert (Hold : forall x t, t ∈ named "tag" (outbounds b) -> t ∈ named "tag" (outbounds b ++ [x])).
  { intros x t Ht. rewrite named_app, elem_of_app. by left. }
  destruct (compile_outbound unmarshal ob) as [x s] eqn:Ex. destruct (nonempty (backups _)) eqn:Ebk.
  - destruct (balancer_exists (get_string ob "tag") ("balancer-" ^^ get_string ob "tag") _
      (strategy (ExtractXrayFallbackSettings s (get_string ob "tag"))) Ebk) as (bal & -> & Hbal).
    eexists. split; [reflexivity|]. split_and!; [|intros; by apply Hold | intros _; by apply (Htag _ _ s)].
    split; cbn [backupOutboundMap balancers]; [|by destruct (balancers b)].
    apply map_Forall_insert_2.
    + rewrite named_app, elem_of_app. right. unfold named. cbn. rewrite Hbal. by left.
    + intros k v Hk. rewrite named_app, elem_of_app. left. by apply (Hb k).
  - eexists. split; [reflexivity|]. split_and!; [done | intros; by apply Hold | intros _; by apply (Htag _ _ s)].
Qed.

Lemma add_outbounds_step obs : forall b, redirected b -> exists b', add_outbounds unmarshal b obs = Some b' /\ redirected b' /\
  (forall t, t ∈ named "tag" (outbounds b) -> t ∈ named "tag" (outbounds b')) /\
  (forall ob, ob ∈ obs -> get_string ob "tag" <> ""%string -> get_string ob "tag" ∈ named "tag" (outbounds b')).
Proof.
  induction obs as [|ob obs IH]; intros b Hb.
  { exists b. split_and!; try done. intros ob Hob. by apply elem_of_nil in Hob. }
  cbn. destruct (add_outbound_step b ob Hb) as (b1 & -> & Hb1 & Ho1 & Ht1). cbn.
  destruct (IH b1 Hb1) as (b2 & -> & Hb2 & Ho2 & Ht2). exists b2. split_and!; auto.
  intros ob' [->|Hob]%elem_of_cons Hne; auto.
Qed.

Lemma missing_there obs tag proto : tag <> ""%string -> tag ∈ named "tag" (obs ++ missing obs tag proto).
Proof.
  intros Hne. unfold missing. destruct (existsb _ obs) eqn:E.
  - rewrite app_nil_r. apply existsb_exists in E as (ob & Hob & E). apply String.eqb_eq in E. apply elem_of_named. exists ob.
    rewrite list_elem_of_In. split; [done|]. unfold get_string in E. destruct (jget ob "tag") as [[]|]; try congruence. subst. by left.
  - rewrite named_app, elem_of_app. right. by left.
Qed.

Definition default_tags (spec : ConfigSpec) : list string :=
  ["dns-out"; "direct"; "block"; "blocked"]%string ++ (if is_server spec then ["api"%string] else []).

Lemma defaults_there spec obs t : t ∈ named "tag" obs \/ t ∈ default_tags spec -> t ∈ named "tag" (with_defaults spec obs).
Proof.
  assert (Hpick : forall tag proto (k : list string), tag <> ""%string -> (forall u, u ∈ named "tag" (missing obs tag proto) -> u ∈ k) ->
    (forall u, u ∈ named "tag" obs -> u ∈ k) -> tag ∈ k).
  { intros tag proto k Hne Hm Ho. pose proof (missing_there obs tag proto Hne) as H. rewrite named_app in H.
    apply elem_of_app in H as [H|H]; auto. }
  unfold with_defaults, default_tags. rewrite !named_app. intros [H|H]; [by apply elem_of_app; left|].
  apply elem_of_app in H as [H|H].
  - rewrite !elem_of_cons in H. destruct H as [->|[->|[->|[->|H]]]]; [| | | |by apply elem_of_nil in H];
      [apply (Hpick _ "dns"%string) | apply (Hpick _ "freedom"%string) | apply (Hpick _ "blackhole"%string) | apply (Hpick _ "blackhole"%string)];
      try done; intros u Hu; rewrite !elem_of_app; tauto.
  - destruct (is_server spec); [|by apply elem_of_nil in H]. apply list_elem_of_singleton in H as ->.
    apply (Hpick _ "blackhole"%string); try done; intros u Hu; rewrite !elem_of_app; tauto.
Qed.

(** The fixed rules go to outbounds that are always there. *)
Lemma fixed_targets spec : Forall (fun r => exists t, jget r "outboundTag" = Some (VString t) /\ t ∈ default_tags spec /\ jget r "balancerTag" = None)
  ((if is_server spec then [api_rule] else []) ++ dns_rule :: server_rules spec ++ tun_rules spec).
Proof.
  assert (Hd : forall t, t ∈ ["dns-out"; "direct"; "block"]%string -> t ∈ default_tags spec).
  { intros t. unfold default_tags. rewrite !elem_of_cons. set_solver. }
  apply Forall_app. split.
  - unfold default_tags. destruct (is_server spec); [|done]. repeat constructor. exists "api"%string. split_and!; try done. set_solver.
  - constructor; [exists "dns-out"%string; split_and!; try done; apply Hd; set_solver|]. apply Forall_app. split.
    + unfold server_rules. destruct (cs_ServerNode spec) as [n|]; [|done]. destruct (_ <>s ""); [|done]. repeat constructor.
      exists "direct"%string. split_and!; [done | apply Hd; set_solver | by case_bool_decide].
    + unfold tun_rules. destruct (cs_ClientInbound spec) as [ci|]; [|done]. destruct (_ =s InboundModeDesktopTun); [|done].
      repeat constructor; exists "block"%string; split_and!; try done; apply Hd; set_solver.
Qed.

Lemma no_balancer_tag tag r : jget (createBaseRule tag r) "balancerTag" = None.
Proof. unfold createBaseRule, rule, joined, opt_strings. by rewrite !jget_app, !jget_opt, !andb_false_r. Qed.

Lemma user_targets spec : Forall (fun r => exists q, jget r "outboundTag" = Some (VString (tag_of spec q)) /\
    jget r "balancerTag" = None /\ (exists routing, cs_Routing spec = Some routing /\ q ∈ Rules routing)) (user_rules spec).
Proof.
  unfold user_rules. destruct (cs_Routing spec) as [routing|]; [|done]. apply Forall_forall. intros m Hm.
  rewrite list_elem_of_In, in_concat in Hm. destruct Hm as (ms & Hms & Hm). apply in_map_iff in Hms as (q & <- & Hq).
  exists q. cut (jget m "outboundTag" = Some (VString (tag_of spec q)) /\ jget m "balancerTag" = None).
  { intros [? ?]. split_and!; try done. exists routing. by rewrite list_elem_of_In. }
  pose proof (no_balancer_tag (tag_of spec q) q) as Hn.
  assert (Hext : forall k v, (k =s "balancerTag") = false -> jget (createBaseRule (tag_of spec q) q ++ [(k, v)]) "balancerTag" = None)
    by (intros k v Hk; by rewrite jget_app, Hn, jget_one, Hk).
  unfold rules_of in Hm. destruct (_ && _); [|destruct (nonempty (map _ _)); [|destruct (nonempty _); [|destruct (_ <? _)]]]; cbn in Hm;
    repeat destruct Hm as [<-|Hm]; try done; split; try done; by apply Hext.
Qed.

Lemma balance_target m r t : jget r "outboundTag" = Some (VString t) -> jget r "balancerTag" = None ->
  (jget (balance m r) "outboundTag" = Some (VString t) /\ jget (balance m r) "balancerTag" = None) \/
  (exists bal, m !! t = Some bal /\ jget (balance m r) "outboundTag" = None /\ jget (balance m r) "balancerTag" = Some (VString bal)).
Proof.
  intros Ho Hb. unfold balance. rewrite Ho. destruct (m !! t) as [bal|] eqn:E; [|by left].
  right. exists bal. by rewrite !jget_jset, jget_jdel.
Qed.

Lemma routing_fields spec b : objects (jget (routing_section spec b) "rules") = all_rules spec b /\
  objects (jget (routing_section spec b) "balancers") = balancers b.
Proof.
  unfold routing_section. rewrite !jget_app, !jget_opt, !jget_cons. cbn [String.eqb Ascii.eqb Bool.eqb]. split; [apply objects_maps|].
  cbn [jget List.find fmap option_fmap option_map]. rewrite andb_true_r. destruct (balancers b); [done|]. apply objects_maps.
Qed.

(** The compiled routing refers to nothing that is not there: when the targets
    the user's rules name exist, compiling never panics, and every rule goes
    either to an outbound of the configuration or, when that outbound has
    backups, to a declared balancer, never to both. *)
Theorem xray_targets_exist spec primary :
  (forall routing r, cs_Routing spec = Some routing -> r ∈ Rules routing ->
     tag_of spec r ∈ default_tags spec \/ (exists p, primary = Some p /\ jget p "tag" = Some (VString (tag_of spec r))) \/
     exists ob, ob ∈ Outbounds routing /\ get_string ob "tag" = tag_of spec r /\ tag_of spec r <> ""%string) ->
  exists s, compile_sections unmarshal spec primary = Some s /\
    Forall (fun r =>
      (exists t, jget r "outboundTag" = Some (VString t) /\ jget r "balancerTag" = None /\ t ∈ named "tag" (s_outbounds s)) \/
      (exists t, jget r "outboundTag" = None /\ jget r "balancerTag" = Some (VString t) /\
                 t ∈ named "tag" (objects (jget (s_routing s) "balancers"))))
      (objects (jget (s_routing s) "rules")).
Proof.
  intros Htargets.
  destruct (add_outbounds_step (routing_outbounds spec) (empty_build primary)) as (b & Eb & [Hbal Hnone] & Hprim & Hobs); [done|].
  unfold compile_sections. rewrite Eb. cbn [mbind option_bind]. eexists. split; [reflexivity|]. cbn [s_routing s_outbounds].
  assert (Hall : Forall (fun r => exists t, jget r "outboundTag" = Some (VString t) /\ jget r "balancerTag" = None /\
      t ∈ named "tag" (with_defaults spec (outbounds b)))
    ((if is_server spec then [api_rule] else []) ++ routing_rules spec)).
  { unfold routing_rules. rewrite !app_comm_cons, !app_assoc, <- (app_assoc _ _ (tun_rules spec)), Forall_app. split.
    - eapply Forall_impl; [apply fixed_targets|]. cbn. intros r (t & Ho & Ht & Hn). exists t. split_and!; try done.
      apply defaults_there. by right.
    - eapply Forall_impl; [apply user_targets|]. cbn. intros r (q & Ho & Hn & routing & Er & Hq). eexists. split_and!; [done..|].
      apply defaults_there. destruct (Htargets routing q Er Hq) as [H|[(p & -> & Hp)|(ob & Hob & <- & Hne)]]; [by right | left..].
      + apply Hprim, elem_of_named. exists p. split; [by left|]. rewrite Hp. by left.
      + apply Hobs; [|done]. unfold routing_outbounds. by rewrite Er. }
  destruct (routing_fields spec b) as [-> ->]. unfold all_rules. destruct (nonempty (balancers b)) eqn:Ene.
  - rewrite Forall_map. eapply Forall_impl; [exact Hall|]. cbn beta. intros r (t & Ho & Hn & Ht).
    destruct (balance_target (backupOutboundMap b) r t Ho Hn) as [[H1 H2]|(bal & Em & H1 & H2)]; [left; eauto|].
    right. exists bal. split_and!; try done. by apply (Hbal t).
  - eapply Forall_impl; [exact Hall|]. cbn beta. intros r (t & ? & ? & ?). left. eauto.
Qed.
End references.

(** ** Configurations given as a whole *)

(** The blocks come before the rules of the provider, and nothing else of its
    routing changes. *)
Lemma raw_blocks_first spec inbounds raw routing existing :
  jget raw "routing" = Some (VMap routing) -> jget routing "rules" = Some (VList existing) ->
  exists routing', jget (inject_raw spec inbounds raw) "routing" = Some (VMap routing') /\
    jget routing' "rules" = Some (VList (map VMap (prepend_rules spec) ++ existing)) /\
    forall k, k <> "rules"%string -> jget routing' k = jget routing k.
Proof.
  intros Hr He. unfold inject_raw. cbn zeta.
  assert (Hraw : forall v w, jget (jset "log" w (jset "inbounds" v raw)) "routing" = Some (VMap routing)) by (intros; rewrite !jget_jset; exact Hr).
  generalize (if cs_LogLevel spec =s "" then "debug"%string else cs_LogLevel spec). intros level.
  destruct (prepend_rules spec) as [|p ps].
  - exists routing. split; [apply Hraw|]. by split.
  - rewrite Hraw, He. exists (jset "rules" (VList (map VMap (p :: ps) ++ existing)) routing). split_and!.
    + by rewrite jget_jset.
    + by rewrite jget_jset.
    + intros k Hk. rewrite jget_jset. by destruct (String.eqb_spec "rules" k).
Qed.

(** A provider's configuration without routing rules loses every block. *)
Lemma raw_blocks_lost spec inbounds raw : jget raw "routing" = None -> jget (inject_raw spec inbounds raw) "routing" = None.
Proof. intros Hr. unfold inject_raw. cbn zeta. destruct (prepend_rules spec); rewrite !jget_jset; cbn [String.eqb Ascii.eqb Bool.eqb]; rewrite Hr; [done|]. by rewrite !jget_jset. Qed.

(** There a block of domains and addresses asks for both at once. *)
Lemma raw_block_needs_both :
  block_rule (mkRule "block" "" ["evil.example"]%string ["203.0.113.7"]%string [] [] [] [] [] [] [] 0) =
  rule "block" [("ip", VStrings ["203.0.113.7"]); ("domain", VStrings ["evil.example"])]%string.
Proof. reflexivity. Qed.

(** The settings of a Hysteria outbound are replaced before its backups are read. *)
Lemma hysteria_backups_lost :
  let ob := [("tag", VString "hy"); ("protocol", VString "hysteria2");
             ("settings", VMap [("backup_outbounds", VList [VString "spare"])])]%string in
  backups (ExtractXrayFallbackSettings (compile_outbound (fun _ => None) ob).2 "hy") = [] /\
  backups (ExtractXrayFallbackSettings (settings_of (fun _ => None) ob) "hy") = ["spare"%string].
Proof. vm_compute. done. Qed.

(** ** Witnesses *)

(** A connection to www.example.com, 10.1.2.3, port 443. *)
Definition demo_text (k s : string) : bool :=
  ((k =s "domain") && (s =s "example.com")) || ((k =s "ip") && (s =s "10.0.0.0/8")) || ((k =s "port") && (s =s "443")).

(** A reading from which texts hold under which key. *)
Definition text_field (holds : string -> string -> bool) (k : string) (v : value) : bool :=
  match v with
  | VString s => existsb (holds k) (SplitByte s ",")
  | VList l => existsb (fun v => match v with VString s => existsb (holds k) (SplitByte s ",") | _ => false end) l
  | _ => false
  end.
Definition demo_field : string -> value -> bool := text_field demo_text.

Lemma split_comma s t : SplitByte (s ^^ "," ^^ t) "," = SplitByte s "," ++ SplitByte t ",".
Proof.
  unfold SplitByte. induction s as [|a s IH]; [done|]. cbn in *. destruct (Ascii.eqb a ","); cbn; rewrite IH; [done|].
  destruct (SplitFunc (fun a => Ascii.eqb a ",") s) eqn:E; [|done]. by apply SplitFunc_nonempty in E.
Qed.

Lemma text_logic holds : rule_logic (text_field holds) (required (text_field holds)).
Proof.
  split; [done | |]; intros k l.
  - cbn. unfold VStrings. induction l as [|x l IH]; [done|]. cbn in *. by rewrite IH.
  - induction l as [|x l IH]; [done|]. intros _. destruct l as [|y l]; [cbn; by rewrite orb_false_r|].
    transitivity (text_field holds k (VString x) || text_field holds k (VString (Join (y :: l) ","))).
    + rewrite Join_cons by done. cbn [text_field]. by rewrite split_comma, existsb_app.
    + by rewrite IH.
Qed.

Definition demo_rules : list RoutingRule :=
  [mkRule "block" "" ["ads.example"]%string [] [] [] [] [] [] [] [] 0;
   mkRule "direct" "" ["geosite:ru"]%string ["10.0.0.0/8"]%string ["80"; "443"]%string [] [] [] [] [] [] 0].
Definition demo_spec : ConfigSpec :=
  mkConfig "xray" "" false None None [] (Some (mkSpec "proxy" demo_rules [] true false [])) None "" "" "" "" "" "".

Lemma xray_routing_preserved_witness :
  exists user,
    objects (jget (BuildXrayRouting demo_spec) "rules") = dns_rule :: server_rules demo_spec ++ tun_rules demo_spec ++ user /\
    first_match (required demo_field) user = Some "direct"%string.
Proof.
  apply (xray_routing_preserved demo_field (required demo_field) demo_spec (mkSpec "proxy" demo_rules [] true false []));
    [exact (text_logic demo_text) | reflexivity].
Defined.

Definition demo_server : ConfigSpec :=
  mkConfig "xray" "" false None None [] (Some (mkSpec "proxy"
    [mkRule "direct" "warp" ["example.com"]%string [] [] [] [] [] [] [] [] 0; mkRule "block" "" [] [] ["25"]%string [] [] [] [] [] [] 0]
    [[("tag", VString "warp"); ("settings", VMap [("fallback_outbound", VString "direct")])]]%string true false []))
    None "" "" "" "" "" "".

Lemma xray_targets_exist_witness :
  exists s, compile_sections (fun _ => None) demo_server None = Some s /\
    Forall (fun r =>
      (exists t, jget r "outboundTag" = Some (VString t) /\ jget r "balancerTag" = None /\ t ∈ named "tag" (s_outbounds s)) \/
      (exists t, jget r "outboundTag" = None /\ jget r "balancerTag" = Some (VString t) /\
                 t ∈ named "tag" (objects (jget (s_routing s) "balancers"))))
      (objects (jget (s_routing s) "rules")).
Proof.
  apply (xray_targets_exist (fun _ => None) demo_server None). intros routing r [= <-] Hr. cbn in Hr.
  rewrite !elem_of_cons in Hr. destruct Hr as [->|[->|Hr]]; [| |by apply elem_of_nil in Hr].
  - right. right. eexists. split; [left|]. split; reflexivity || done.
  - left. right. right. left.
Defined.
End Xray.
