(* ===== verification/Compilers.v ===== *)
(** * The compilers of sing-box and Xray
    (src/pkg/compiler/singbox/compiler.go, fallback.go, src/pkg/compiler/xray/compiler.go)

    A specification becomes the whole configuration object of a core: the server node is
    fitted to the core, and the sections that the other files build are put together.  The
    text of the object is Go's encoding of it.  The decoding of JSON texts inside the
    specification, the state of the mirrors and the random bytes are arguments. *)
From Stdlib Require QArith.
From S2P Require Import Prelude GoStrings Ast Profile Matrix XrayImport XrayOutbounds SingBoxOutbounds TunInbounds XrayInbounds SingBoxInbounds SingBox Xray.
Open Scope Z_scope.

Module Compile.
Import Matrix.

(** Why nothing is compiled. *)
Inductive failure := NilSpec | Negotiation (m : message) | BuildError (msg : string).
(** The configuration with the warnings of the negotiation. *)
Inductive compiled := Panics | Fails (e : failure) | Compiles (config : jmap) (ws : list NegotiationWarning).

Definition negotiated (spec : ConfigSpec) (node : ServerProfile) (core : TargetCore) : failure + ServerProfile * list NegotiationWarning :=
  match Negotiate (Some node) core (cs_CoreVersion spec) (cs_StrictMode spec) with inl m => inl (Negotiation m) | inr r => inr r end.

Section compiler.
Context {order : RangeOrder string} (unmarshal : string -> option jmap).

(** ** Fallback groups of sing-box (fallback.go) *)

Definition default_probe : string := "https://www.gstatic.com/generate_204".
Definition probe_interval (v : option value) : Z :=
  match v with
  | Some (VFloat q) => if (0 <? QArith_base.Qnum q) then int_of_float q else 15
  | Some (VInt n) => if 0 <? n then n else 15
  | _ => 15
  end.
Definition ExtractSingboxFallbackSettings (sMap : jmap) (tag : string) : list string * string * Z * string :=
  (SingBox.validBackups sMap tag, or_default (get_string sMap "health_check_url") default_probe,
   probe_interval (jget sMap "health_check_interval"), or_default (get_string sMap "fallback_strategy") "priority").

Definition CalculateSingboxTolerance (strategy : string) : Z :=
  let strategy := ToLower (TrimSpace strategy) in
  if (strategy =s "priority") || (strategy =s "primary") || (strategy =s "fallback") || (strategy =s "") then 5000
  else if strategy =s "least_ping" then 0
  else if (strategy =s "load_balance") || (strategy =s "round_robin") || (strategy =s "random") then 50
  else 5000.

(** The group object; the interval is one to sixty seconds. *)
Definition urltest (tag : string) (members : list string) (probeURL : string) (probeInterval : Z) (strategy : string) : jmap :=
  let probeInterval := if (probeInterval <=? 0) || (60 <? probeInterval) then 15 else probeInterval in
  let idleTimeoutSec := if 1800 <=? probeInterval then probeInterval * 2 else 1800 in
  [("type", VString "urltest"); ("tag", VString tag); ("outbounds", VStrings members); ("url", VString probeURL);
   ("interval", VString (Itoa probeInterval ^^ "s")); ("tolerance", VInt (CalculateSingboxTolerance strategy));
   ("idle_timeout", VString (Itoa idleTimeoutSec ^^ "s")); ("interrupt_exist_connections", VBool true)]%string.
Definition BuildSingboxFallbackGroup (tag : string) (backups : list string) (probeURL : string) (probeInterval : Z) (strategy : string) : jmap :=
  urltest tag ((tag ^^ "-primary") :: backups) probeURL probeInterval strategy.

Definition or_positive_int (z d : Z) : Z := if z <=? 0 then d else z.
Definition build_outbound (node : ServerProfile) : failure + jmap :=
  match BuildSingBoxOutbound (Some node) with inl e => inl (BuildError e) | inr ob => inr ob end.

Definition BuildSingboxNodeFallback (node : ServerProfile) : failure + list jmap :=
  let primaryTag := or_default (p_Name node) "proxy" in
  match build_outbound (set_Name (primaryTag ^^ "-primary") node) with
  | inl e => inl e
  | inr primary =>
      inr [BuildSingboxFallbackGroup primaryTag (p_BackupOutbounds node) (or_default (p_HealthCheckURL node) default_probe)
             (or_positive_int (p_HealthCheckInterval node) 15) (p_FallbackStrategy node); primary]
  end.

(** The group and the compiled primary outbound; [None] without backups. *)
Definition BuildSingboxRawFallback (ob : jmap) : option (list jmap) :=
  let tag := get_string ob "tag" in
  if tag =s "" then None
  else
    let '(backups, probeURL, probeInt, strat) := ExtractSingboxFallbackSettings (SingBox.parseMapOrJSON unmarshal (jget ob "settings")) tag in
    match backups with
    | [] => None
    | _ => Some [BuildSingboxFallbackGroup tag backups probeURL probeInt strat;
                 CompileRawOutboundToSingbox unmarshal (jset "tag" (VString (tag ^^ "-primary")) ob)]
    end.

Definition node_name (groupTag : string) (i : nat) : string := groupTag ^^ "-node-" ^^ Itoa (Z.of_nat i).
(** The backup profiles that compile, under their number. *)
Fixpoint backup_nodes (groupTag : string) (i : nat) (profiles : list ServerProfile) : list (string * jmap) :=
  match profiles with
  | [] => []
  | bp :: profiles =>
      let nodeTag := node_name groupTag i in
      match build_outbound (set_Name nodeTag bp) with
      | inl _ => backup_nodes groupTag (S i) profiles
      | inr ob => (nodeTag, ob) :: backup_nodes groupTag (S i) profiles
      end
  end.
Definition BuildSingboxMultiNodeFallback (node : ServerProfile) : failure + list jmap :=
  let groupTag := or_default (p_Name node) "proxy" in
  let primaryTag := node_name groupTag 1 in
  match build_outbound (set_Name primaryTag node) with
  | inl e => inl e
  | inr primary =>
      let nodes := backup_nodes groupTag 2 (p_BackupProfiles node) in
      let tags := primaryTag :: map fst nodes ++ List.filter (fun b => (b <>s "") && (b <>s groupTag)) (p_BackupOutbounds node) in
      inr (urltest groupTag tags (or_default (p_HealthCheckURL node) "https://api.telegram.org")
             (or_positive_int (p_HealthCheckInterval node) 15) (or_default (p_FallbackStrategy node) "priority")
           :: primary :: map snd nodes)
  end.

(** ** sing-box (compiler.go) *)

Definition node_outbounds (node : ServerProfile) : failure + list jmap :=
  if nonempty (p_BackupProfiles node) then BuildSingboxMultiNodeFallback node
  else if nonempty (p_BackupOutbounds node) then BuildSingboxNodeFallback node
  else match build_outbound node with inl e => inl e | inr ob => inr [ob] end.
Definition primary_outbounds (spec : ConfigSpec) : failure + list jmap * list NegotiationWarning :=
  match cs_ServerNode spec with
  | None => inr ([], [])
  | Some node =>
      match negotiated spec node CoreSingBox with
      | inl e => inl e
      | inr (adapted, ws) => match node_outbounds adapted with inl e => inl e | inr obs => inr (obs, ws) end
      end
  end.

Definition direct_and_block : list jmap :=
  [[("type", VString "direct"); ("tag", VString "direct")]; [("type", VString "block"); ("tag", VString "block")]]%string.
Definition raw_outbounds (ob : jmap) : list jmap :=
  let tag := get_string ob "tag" in
  if (tag =s "") || (tag =s "direct") || (tag =s "block") then []
  else if get_string ob "type" <>s "" then [ob]
  else match BuildSingboxRawFallback ob with Some obs => obs | None => [CompileRawOutboundToSingbox unmarshal ob] end.
Definition routing_obs (spec : ConfigSpec) : list jmap := match cs_Routing spec with Some r => Outbounds r | None => [] end.
Definition all_outbounds (spec : ConfigSpec) (primary : list jmap) : list jmap :=
  primary ++ direct_and_block ++ concat (map raw_outbounds (routing_obs spec)).
Definition is_endpoint (ob : jmap) : bool := get_string ob "type" =s "wireguard".

Definition singbox_levels : list string := ["trace"; "debug"; "info"; "warn"; "error"; "fatal"; "panic"]%string.
Definition singbox_log (spec : ConfigSpec) : jmap :=
  let level := ToLower (TrimSpace (cs_LogLevel spec)) in
  [("disabled", VBool false); ("level", VString (if existsb (String.eqb level) singbox_levels then level else "info")); ("timestamp", VBool true)]%string
  ++ opt_text "output" (cs_LogPath spec).
Definition experimental (spec : ConfigSpec) : jmap :=
  [("cache_file", VMap [("enabled", VBool true); ("path", VString "cache.db")])]%string
  ++ opt (cs_ClashAPIAddress spec <>s "") "clash_api" (VMap [("external_controller"%string, VString (cs_ClashAPIAddress spec))]).
Definition isV112 (spec : ConfigSpec) : bool :=
  HasPrefix (cs_CoreVersion spec) "1.12" || HasPrefix (cs_CoreVersion spec) "v1.12" || HasPrefix (cs_CoreVersion spec) "1.13".

Definition VMaps (l : list jmap) : value := VList (map VMap l).
Definition CompileSingBox (mirror : SingBox.RuleMirror * bool) (spec : option ConfigSpec) : compiled :=
  match spec with
  | None => Fails NilSpec
  | Some spec =>
      match primary_outbounds spec with
      | inl e => Fails e
      | inr (primary, ws) =>
          let outbounds := all_outbounds spec primary in
          let endpoints := List.filter is_endpoint outbounds in
          let '(route, clients) := SingBox.BuildSingBoxRoute unmarshal spec (isV112 spec) mirror in
          Compiles ([("log", VMap (singbox_log spec)); ("dns", VMap (SingBox.buildSingBoxDNS unmarshal spec));
                     ("inbounds", VMaps (BuildSingBoxInbounds spec));
                     ("outbounds", VMaps (List.filter (fun ob => negb (is_endpoint ob)) outbounds)); ("route", VMap route)]%string
                    ++ opt (nonempty clients) "http_clients" (VMaps clients) ++ opt (nonempty endpoints) "endpoints" (VMaps endpoints)
                    ++ [("experimental"%string, VMap (experimental spec))]) ws
      end
  end.

(** ** Xray (compiler.go) *)

Definition api_inbound : jmap :=
  [("tag", VString "api"); ("port", VInt 10085); ("listen", VString "127.0.0.1"); ("protocol", VString "dokodemo-door");
   ("settings", VMap [("address", VString "127.0.0.1")])]%string.
Definition xray_primary (spec : ConfigSpec) : failure + option jmap * list NegotiationWarning :=
  match cs_ServerNode spec with
  | None => inr (None, [])
  | Some node =>
      match negotiated spec node CoreXray with
      | inl e => inl e
      | inr (adapted, ws) => match BuildXrayOutbound (Some adapted) with inl e => inl (BuildError e) | inr ob => inr (Some ob, ws) end
      end
  end.

(** The servers asked directly and through the proxy. *)
Definition xray_dns_choices (dns : option DNSSpec) : string * string :=
  match dns with
  | None => ("https://8.8.8.8/dns-query", "https://1.1.1.1/dns-query")%string
  | Some d =>
      (or_default (dns_DirectServer d) "https://8.8.8.8/dns-query",
       if dns_RemoteServer d <>s "" then dns_RemoteServer d
       else match dns_Servers d with s :: _ => s | [] => "https://1.1.1.1/dns-query"%string end)
  end.
Definition xray_dns (dns : option DNSSpec) : jmap :=
  let '(directDNS, remoteDNS) := xray_dns_choices dns in
  let others := match dns with
                | Some d => List.filter (fun s => (s <>s "") && (s <>s directDNS) && (s <>s remoteDNS)) (dns_Servers d)
                | None => []
                end in
  let strategy := match dns with Some d => dns_Strategy d | None => ""%string end in
  [("servers", VList ([VMap [("address", VString directDNS); ("domains", VStrings ["domain:ru"; "domain:su"; "domain:xn--p1ai"])]]
      ++ (if remoteDNS <>s directDNS then [VString remoteDNS] else []) ++ map VString others ++ [VString "localhost"]));
   ("queryStrategy", VString (if (strategy =s "ipv6_only") || (strategy =s "prefer_ipv6") then "UseIPv6" else "UseIPv4"))]%string.

Definition xray_level (spec : ConfigSpec) : string :=
  let level := ToLower (TrimSpace (cs_LogLevel spec)) in
  let level := if level =s "warn" then "warning"%string else level in
  if existsb (String.eqb level) ["debug"; "info"; "warning"; "error"; "none"]%string then level else "warning".
Definition console_or (console : string) (path : string) : string := if (path =s "console") || (path =s console) then "" else path.
Definition xray_log (spec : ConfigSpec) : jmap :=
  let level := xray_level spec in
  [("loglevel"%string, VString level)]
  ++ (if cs_AccessLog spec <>s "" then [("access"%string, VString (console_or "stdout" (cs_AccessLog spec)))]
      else if cs_LogPath spec <>s "" then [("access"%string, VString (cs_LogPath spec))]
      else opt ((level =s "warning") || (level =s "error") || (level =s "none")) "access" (VString "none"))
  ++ (if cs_ErrorLog spec <>s "" then [("error"%string, VString (console_or "stderr" (cs_ErrorLog spec)))]
      else opt (cs_LogPath spec <>s "") "error" (VString (cs_LogPath spec))).

Definition xray_api : jmap :=
  [("api", VMap [("tag", VString "api"); ("services", VStrings ["HandlerService"; "LoggerService"; "StatsService"])]);
   ("stats", VMap []);
   ("policy", VMap [("system", VMap [("statsInboundUplink", VBool true); ("statsInboundDownlink", VBool true);
                                     ("statsOutboundUplink", VBool true); ("statsOutboundDownlink", VBool true)]);
                    ("levels", VMap [("0", VMap [("statsUserUplink", VBool true); ("statsUserDownlink", VBool true)])])])]%string.

(** The configuration of a provider, if it can be decoded and has a field. *)
Definition raw_config (spec : ConfigSpec) : option jmap :=
  let rawJSON := if (cs_RawJSONConfig spec =s "") then match cs_ServerNode spec with Some n => p_RawJSONConfig n | None => ""%string end
                 else cs_RawJSONConfig spec in
  if rawJSON =s "" then None else match unmarshal rawJSON with Some (kv :: m) => Some (kv :: m) | _ => None end.

Definition CompileXray (rand : nat -> Z -> string) (spec : option ConfigSpec) : compiled :=
  match spec with
  | None => Fails NilSpec
  | Some spec =>
      let inbounds := BuildXrayInbounds rand spec in
      match raw_config spec with
      | Some raw => Compiles (Xray.inject_raw spec inbounds raw) []
      | None =>
          match xray_primary spec with
          | inl e => Fails e
          | inr (primary, ws) =>
              match Xray.compile_sections unmarshal spec primary with
              | None => Panics
              | Some s =>
                  let server := Xray.is_server spec in
                  Compiles ([("log", VMap (xray_log spec)); ("dns", VMap (xray_dns (cs_DNS spec)));
                             ("inbounds", VMaps (inbounds ++ (if server then [api_inbound] else [])));
                             ("outbounds", VMaps (Xray.s_outbounds s)); ("routing", VMap (Xray.s_routing s))]%string
                            ++ (if server then xray_api else [])
                            ++ opt_map "observatory" (Xray.s_observatory s)) ws
              end
          end
      end
  end.

(** ** Everything a rule of sing-box is sent to exists *)

Lemma node_outbound_tag node ob : BuildSingBoxOutbound (Some node) = inr ob -> strings_of (jget ob "tag") = [SingBox.node_tag (Some node)].
Proof using Type.
  unfold BuildSingBoxOutbound. cbv zeta.
  assert (Ht : XrayOutbounds.node_tag node = SingBox.node_tag (Some node)).
  { unfold XrayOutbounds.node_tag, SingBox.node_tag. by destruct (p_Name node =s ""). }
  rewrite Ht. generalize (SingBox.node_tag (Some node)) as tag. intros tag.
  repeat (destruct (_ =s _); [by intros [= <-]|]). done.
Qed.
Lemma raw_outbound_tag ob : get_string ob "tag" <> ""%string ->
  strings_of (jget (CompileRawOutboundToSingbox unmarshal ob) "tag") = [get_string ob "tag"].
Proof using Type.
  intros Hne. unfold CompileRawOutboundToSingbox, or_text. apply String.eqb_neq in Hne. rewrite Hne. cbv zeta.
  generalize (get_string ob "tag") as tag. intros tag.
  repeat (match goal with |- context [if ?b then _ else _] => destruct b end; [done|]). done.
Qed.

Lemma adapted_name spec node core adapted ws : negotiated spec node core = inr (adapted, ws) -> p_Name adapted = p_Name node.
Proof using Type.
  unfold negotiated, Negotiate, negotiate_pq, negotiate_reality, negotiate_flow. intros E.
  repeat match type of E with context [if ?b then _ else _] => destruct b end; try done; by injection E as <- _.
Qed.

Lemma one_tag t m : strings_of (jget m "tag") = [t] -> t ∈ named "tag" [m].
Proof using Type. intros H. unfold named. cbn [map concat]. rewrite H, app_nil_r. by left. Qed.
Lemma named_in k t m l : m ∈ l -> t ∈ named k [m] -> t ∈ named k l.
Proof using Type. rewrite !elem_of_named. intros Hm (o & Ho & Ht). apply list_elem_of_singleton in Ho as ->. eauto. Qed.

Lemma primary_there spec node obs ws : cs_ServerNode spec = Some node -> primary_outbounds spec = inr (obs, ws) ->
  SingBox.node_tag (Some node) ∈ named "tag" obs.
Proof using Type.
  intros Hn. unfold primary_outbounds. rewrite Hn. destruct (negotiated spec node CoreSingBox) as [|[adapted ws']] eqn:Ea; [done|].
  apply adapted_name in Ea. assert (Ht : SingBox.node_tag (Some node) = or_default (p_Name adapted) "proxy").
  { unfold SingBox.node_tag, or_default. rewrite Ea. by destruct (p_Name node =s ""). }
  rewrite Ht. unfold node_outbounds, BuildSingboxMultiNodeFallback, BuildSingboxNodeFallback.
  destruct (nonempty (p_BackupProfiles adapted)); [|destruct (nonempty (p_BackupOutbounds adapted))].
  - destruct (build_outbound _); [done|]. intros [= <- _]. eapply named_in; [left|]. by apply one_tag.
  - destruct (build_outbound _); [done|]. intros [= <- _]. eapply named_in; [left|]. by apply one_tag.
  - unfold build_outbound. destruct (BuildSingBoxOutbound _) as [|ob] eqn:Eb; [done|]. intros [= <- _].
    apply node_outbound_tag in Eb. apply one_tag. rewrite Eb. unfold SingBox.node_tag, or_default. by destruct (p_Name adapted =s "").
Qed.

Lemma get_string_tag ob t : get_string ob "tag" = t -> t <> ""%string -> strings_of (jget ob "tag") = [t].
Proof using Type. unfold get_string. intros <-. by destruct (jget ob "tag") as [[]|]. Qed.
Lemma raw_there ob t : get_string ob "tag" = t -> t <> ""%string -> t <> "direct"%string -> t <> "block"%string ->
  t ∈ named "tag" (raw_outbounds ob).
Proof using Type.
  intros Ht Hne Hd Hb. unfold raw_outbounds. rewrite Ht.
  rewrite (proj2 (String.eqb_neq t "") Hne), (proj2 (String.eqb_neq t "direct") Hd), (proj2 (String.eqb_neq t "block") Hb).
  destruct (get_string ob "type" <>s ""); [apply one_tag; by apply get_string_tag|].
  unfold BuildSingboxRawFallback. rewrite Ht. rewrite (proj2 (String.eqb_neq t "") Hne). cbn [orb].
  unfold ExtractSingboxFallbackSettings. cbv zeta. destruct (SingBox.validBackups _ t) as [|b bs].
  - apply one_tag. subst t. by apply raw_outbound_tag.
  - eapply named_in; [left|]. by apply one_tag.
Qed.

(** The targets that the parts of a specification provide. *)
Definition known_target (spec : ConfigSpec) (t : string) : Prop :=
  t = "direct"%string \/ t = "block"%string \/ (exists node, cs_ServerNode spec = Some node /\ t = SingBox.node_tag (Some node)) \/
  (t <> ""%string /\ exists ob, ob ∈ routing_obs spec /\ get_string ob "tag" = t).
Lemma known_there spec obs ws t : primary_outbounds spec = inr (obs, ws) -> known_target spec t -> t ∈ named "tag" (all_outbounds spec obs).
Proof using Type.
  intros Hp Ht. unfold all_outbounds. rewrite !named_app, !elem_of_app.
  destruct Ht as [->|[->|[(node & Hn & ->)|(Hne & ob & Hob & Ht)]]].
  - right. left. vm_compute. left.
  - right. left. vm_compute. right. left.
  - left. by eapply primary_there.
  - destruct (String.eqb_spec t "direct") as [->|Hd]; [right; left; vm_compute; left|].
    destruct (String.eqb_spec t "block") as [->|Hb]; [right; left; vm_compute; right; left|].
    right. right. pose proof (raw_there ob t Ht Hne Hd Hb) as Hin. apply elem_of_named in Hin as (o & Ho & Hin). apply elem_of_named.
    exists o. split; [|done]. rewrite list_elem_of_In in *. apply in_concat. exists (raw_outbounds ob). split; [|done].
    by apply in_map.
Qed.

Definition config_tags (config : jmap) : list string :=
  named "tag" (objects (jget config "outbounds")) ++ named "tag" (objects (jget config "endpoints")).
Lemma split_endpoints t obs : t ∈ named "tag" obs ->
  t ∈ named "tag" (List.filter (fun ob => negb (is_endpoint ob)) obs) ++ named "tag" (List.filter is_endpoint obs).
Proof using Type.
  rewrite elem_of_app, !elem_of_named. intros (o & Ho & Ht). rewrite list_elem_of_In in Ho.
  destruct (is_endpoint o) eqn:E; [right|left]; exists o; rewrite list_elem_of_In, filter_In, ?E; done.
Qed.

Lemma compiled_parts mirror spec config ws : CompileSingBox mirror (Some spec) = Compiles config ws ->
  exists obs, primary_outbounds spec = inr (obs, ws) /\
    (forall t, t ∈ named "tag" (all_outbounds spec obs) -> t ∈ config_tags config) /\
    jget config "route" = Some (VMap (SingBox.BuildSingBoxRoute unmarshal spec (isV112 spec) mirror).1) /\
    jget config "dns" = Some (VMap (SingBox.buildSingBoxDNS unmarshal spec)) /\
    objects (jget config "http_clients") = (SingBox.BuildSingBoxRoute unmarshal spec (isV112 spec) mirror).2.
Proof using Type.
  unfold CompileSingBox. destruct (primary_outbounds spec) as [|[obs ws']]; [done|]. cbv zeta.
  destruct (SingBox.BuildSingBoxRoute unmarshal spec (isV112 spec) mirror) as [route clients].
  intros [= <- <-]. exists obs. split; [done|]. set (all := all_outbounds spec obs).
  assert (Hget : forall k, jget ([("log", VMap (singbox_log spec)); ("dns", VMap (SingBox.buildSingBoxDNS unmarshal spec));
      ("inbounds", VMaps (BuildSingBoxInbounds spec)); ("outbounds", VMaps (List.filter (fun ob => negb (is_endpoint ob)) all)); ("route", VMap route)]%string
      ++ opt (nonempty clients) "http_clients" (VMaps clients) ++ opt (nonempty (List.filter is_endpoint all)) "endpoints" (VMaps (List.filter is_endpoint all))
      ++ [("experimental"%string, VMap (experimental spec))]) k =
    if "log" =s k then Some (VMap (singbox_log spec)) else if "dns" =s k then Some (VMap (SingBox.buildSingBoxDNS unmarshal spec))
    else if "inbounds" =s k then Some (VMaps (BuildSingBoxInbounds spec))
    else if "outbounds" =s k then Some (VMaps (List.filter (fun ob => negb (is_endpoint ob)) all)) else if "route" =s k then Some (VMap route)
    else if nonempty clients && ("http_clients" =s k) then Some (VMaps clients)
    else if nonempty (List.filter is_endpoint all) && ("endpoints" =s k) then Some (VMaps (List.filter is_endpoint all))
    else if "experimental" =s k then Some (VMap (experimental spec)) else None).
  { intros k. rewrite !jget_app, !jget_opt, !jget_cons. destruct (nonempty clients), (nonempty (List.filter is_endpoint all)); cbn [andb];
    repeat (destruct (_ =s k); [done|]); done. }
  unfold VMaps, config_tags in *. rewrite !Hget. cbn [String.eqb Ascii.eqb Bool.eqb fst snd]. rewrite !andb_false_r, !andb_true_r. split_and!; try done.
  - intros t Ht. apply split_endpoints in Ht. rewrite objects_maps. apply elem_of_app. apply elem_of_app in Ht as [Ht|Ht]; [by left|right].
    destruct (List.filter is_endpoint all) as [|e es]; [by apply elem_of_nil in Ht|]. cbn [nonempty]. by rewrite objects_maps.
  - destruct clients; [done|]. cbn [nonempty]. by rewrite objects_maps.
Qed.

Lemma rule_outbound spec r t : t ∈ named "outbound" (SingBox.rules_of spec r) -> t = SingBox.outbound_of spec r.
Proof using Type.
  intros Ht. apply elem_of_named in Ht as (m & Hm & Ht). set (base := SingBox.createBaseRule (SingBox.outbound_of spec r) r).
  assert (Hb : jget base "outbound" = Some (VString (SingBox.outbound_of spec r))) by done.
  assert (Hd : jget (SingBox.domain_rule base r) "outbound" = Some (VString (SingBox.outbound_of spec r))).
  { unfold SingBox.domain_rule. by rewrite jget_app, Hb. }
  assert (Hi : jget (SingBox.ip_rule base r) "outbound" = Some (VString (SingBox.outbound_of spec r))).
  { unfold SingBox.ip_rule. rewrite jget_app. destruct (SingBox.hasIPv6All r); rewrite ?jget_jset; cbn [String.eqb Ascii.eqb Bool.eqb]; by rewrite Hb. }
  unfold SingBox.rules_of in Hm. fold base in Hm.
  destruct (_ && _); [|destruct (SingBox.hasDomainMatchers r); [|destruct (SingBox.hasIPMatchers r); [|destruct (_ || _)]]];
    rewrite ?elem_of_cons, elem_of_nil in Hm; repeat destruct Hm as [->|Hm]; try done;
    rewrite ?Hb, ?Hd, ?Hi in Ht; by apply list_elem_of_singleton in Ht.
Qed.

Lemma route_targets spec t : t ∈ named "outbound" (SingBox.route_rules spec) ->
  t = "direct"%string \/ exists routing r, cs_Routing spec = Some routing /\ r ∈ Rules routing /\ t = SingBox.outbound_of spec r.
Proof using Type.
  unfold SingBox.route_rules. rewrite !named_app, !elem_of_app. intros [Ht|[Ht|[Ht|[Ht|Ht]]]].
  - unfold SingBox.hijack_rules in Ht. destruct (is_some _); by apply elem_of_nil in Ht.
  - unfold SingBox.sniff_rules in Ht. destruct (SingBox.sniffingInbounds spec) as [|? []]; by apply elem_of_nil in Ht.
  - exfalso. induction (cs_ServerInbounds spec) as [|sb l IH]; [by apply elem_of_nil in Ht|]. cbn in Ht. unfold SingBox.resolve_rule at 1 in Ht.
    destruct (get_string _ _ =s ""); by apply IH.
  - right. unfold SingBox.user_rules in Ht. destruct (cs_Routing spec) as [routing|]; [|by apply elem_of_nil in Ht].
    apply elem_of_named in Ht as (m & Hm & Ht). rewrite list_elem_of_In, in_concat in Hm. destruct Hm as (ms & Hms & Hm).
    apply in_map_iff in Hms as (r & <- & Hr). exists routing, r. split_and!; [done|by apply list_elem_of_In|].
    apply rule_outbound. apply elem_of_named. exists m. by rewrite list_elem_of_In.
  - unfold SingBox.clash_rules in Ht. destruct (_ <>s ""); [|by apply elem_of_nil in Ht]. left. by apply list_elem_of_singleton in Ht.
Qed.

(** The servers of names go through an outbound of the specification. *)
Lemma server_detour tag url detour : named "detour" [SingBox.parseSingboxDNSServer tag url detour] = if detour =s "" then [] else [detour].
Proof using Type.
  unfold named, SingBox.parseSingboxDNSServer. cbn [map concat]. rewrite app_nil_r, !jget_app, jget_one, jget_opt. cbn [String.eqb Ascii.eqb Bool.eqb].
  destruct (detour =s ""); [|done]. cbn [negb andb].
  destruct (HasPrefix url "https://"); [|repeat (destruct (HasPrefix _ _); [done|]); done].
  unfold SingBox.https_server. destruct (match Cut _ _ with Some _ => _ | None => _ end) as [host path].
  rewrite !jget_app, jget_one, jget_opt, jget_one. cbn [String.eqb Ascii.eqb Bool.eqb]. rewrite andb_false_r.
  by destruct (SingBox.assoc SingBox.knownIPs host), (SingBox.assoc SingBox.knownDomainsForIP host).
Qed.
Lemma detour_known spec : SingBox.dns_detour unmarshal spec <> ""%string -> known_target spec (SingBox.dns_detour unmarshal spec).
Proof using Type.
  unfold SingBox.dns_detour, known_target, routing_obs. intros Hne. destruct (cs_ServerNode spec) as [node|]; [right; right; left; by exists node|].
  destruct (cs_Routing spec) as [routing|]; [|done]. right. right. right. split; [done|].
  destruct (List.find (SingBox.is_group unmarshal) (Outbounds routing)) as [ob|] eqn:E;
    [|destruct (List.find (fun ob => SingBox.is_upstream_tag (get_string ob "tag")) (Outbounds routing)) as [ob|] eqn:E'; [|done]];
    [apply find_some in E as [Hin _]|apply find_some in E' as [Hin _]]; exists ob; by rewrite list_elem_of_In.
Qed.
Lemma dns_detours spec t : t ∈ named "detour" (objects (jget (SingBox.buildSingBoxDNS unmarshal spec) "servers")) ->
  t <> ""%string /\ t = SingBox.dns_detour unmarshal spec.
Proof using Type.
  unfold SingBox.buildSingBoxDNS. destruct (SingBox.dns_choices (cs_DNS spec)) as [[remote direct] strategy].
  set (detour := SingBox.dns_detour unmarshal spec). intros Ht.
  assert (Hnone : forall tag url, t ∉ named "detour" [SingBox.parseSingboxDNSServer tag url ""]).
  { intros tag url. rewrite server_detour. apply not_elem_of_nil. }
  destruct (String.eqb_spec detour "") as [E|Hne]; cbn [negb] in Ht.
  - exfalso. destruct (cs_DNS spec) as [d|]; [destruct (_ && _)|]; cbn [jget List.find fmap option_fmap option_map String.eqb Ascii.eqb Bool.eqb fst snd] in Ht;
      rewrite objects_maps in Ht; by eapply Hnone.
  - cbn [jget List.find fmap option_fmap option_map String.eqb Ascii.eqb Bool.eqb fst snd] in Ht. rewrite objects_maps in Ht.
    change [?a; ?b] with ([a] ++ [b]) in Ht. rewrite named_app, elem_of_app in Ht. destruct Ht as [Ht|Ht]; [|by apply Hnone in Ht].
    rewrite server_detour in Ht. destruct (String.eqb_spec detour ""); [done|]. by apply list_elem_of_singleton in Ht as ->.
Qed.

(** The rule sets are fetched through one outbound. *)
Lemma upstream_known obs d : SingBox.upstream_detour unmarshal obs d = d \/
  exists ob, ob ∈ obs /\ get_string ob "tag" = SingBox.upstream_detour unmarshal obs d /\ get_string ob "tag" <> ""%string.
Proof using Type.
  revert d. induction obs as [|ob obs IH]; intros d; [by left|]. cbn [SingBox.upstream_detour]. cbv zeta.
  assert (Hup : forall d', d' = d \/ (d' = get_string ob "tag" /\ get_string ob "tag" <> ""%string) ->
    SingBox.upstream_detour unmarshal obs d' = d \/
    exists o, o ∈ ob :: obs /\ get_string o "tag" = SingBox.upstream_detour unmarshal obs d' /\ get_string o "tag" <> ""%string).
  { intros d' Hd'. destruct (IH d') as [->|(o & Ho & Ht)]; [|right; exists o; split; [by right|done]].
    destruct Hd' as [->|[-> Hne]]; [by left|right]. exists ob. by split_and!; [left|..]. }
  destruct (String.eqb_spec (get_string ob "tag") "") as [E|Hne]; cbn [orb]; [apply Hup; by left|].
  destruct (_ || _); [apply Hup; by left|]. destruct (_ || _); [right; exists ob; by split_and!; [left|..]|].
  apply Hup. destruct (d =s "direct"); [by right|by left].
Qed.
Lemma download_known spec isDirect :
  (forall routing r, cs_Routing spec = Some routing -> r ∈ Rules routing -> known_target spec (SingBox.outbound_of spec r) /\ OutboundTag r <> "blocked"%string) ->
  known_target spec (SingBox.download_detour unmarshal spec isDirect).
Proof using Type.
  intros Hk. unfold SingBox.download_detour. destruct (cs_ServerNode spec) as [node|] eqn:En.
  { destruct isDirect; [by left|]. right. right. left. by exists node. }
  destruct (cs_Routing spec) as [routing|] eqn:Er; [|by left].
  destruct (upstream_known (Outbounds routing) "direct") as [->|(ob & Hob & Ht & Hne)].
  - cbn [String.eqb Ascii.eqb Bool.eqb]. specialize (Hk routing). revert Hk. induction (Rules routing) as [|r rules IH]; intros Hk; [by left|].
    cbn [SingBox.rule_detour]. destruct (_ && _) eqn:E; [|apply IH; intros r' ? ?; apply Hk; [done|by right]].
    destruct (Hk r eq_refl) as [Hkr Hb]; [by left|]. unfold SingBox.outbound_of in Hkr.
    apply andb_true_iff in E as [[E _]%andb_true_iff _]. rewrite E in Hkr. apply String.eqb_neq in Hb. by rewrite Hb in Hkr.
  - rewrite <- Ht. destruct (_ =s "direct") eqn:Ed; [apply String.eqb_eq in Ed|].
    + specialize (Hk routing). clear Hob Ht Hne Ed. revert Hk. induction (Rules routing) as [|r rules IH]; intros Hk; [by left|].
      cbn [SingBox.rule_detour]. destruct (_ && _) eqn:E; [|apply IH; intros r' ? ?; apply Hk; [done|by right]].
      destruct (Hk r eq_refl) as [Hkr Hb]; [by left|]. unfold SingBox.outbound_of in Hkr.
      apply andb_true_iff in E as [[E _]%andb_true_iff _]. rewrite E in Hkr. apply String.eqb_neq in Hb. by rewrite Hb in Hkr.
    + right. right. right. split; [done|]. exists ob. unfold routing_obs. by rewrite Er.
Qed.
Lemma detour_field spec v112 active direct t :
  let '(route, clients) := SingBox.BuildSingBoxRoute unmarshal spec v112 (active, direct) in
  t ∈ named "download_detour" (objects (jget route "rule_set")) ++ named "detour" clients ->
  t = SingBox.download_detour unmarshal spec direct.
Proof using Type.
  destruct (SingBox.BuildSingBoxRoute unmarshal spec v112 (active, direct)) as [route clients] eqn:E.
  destruct (SingBox.route_fields unmarshal spec v112 active direct) as (_ & _ & Hs & _). rewrite E in Hs. cbn [fst] in Hs. rewrite Hs.
  intros Ht. apply elem_of_app in Ht as [Ht|Ht].
  - apply elem_of_named in Ht as (rs & Hrs & Ht). apply list_elem_of_omap in Hrs as (tag & _ & Hrs).
    destruct (SingBox.declares_ruleSetMap unmarshal spec active direct tag rs Hrs) as [p ->]. revert Ht. unfold SingBox.rule_set.
    rewrite jget_app, !jget_cons. cbn [String.eqb Ascii.eqb Bool.eqb]. destruct (SingBox.isSingbox114OrNewer _); [intros Ht; by apply elem_of_nil in Ht|].
    intros Ht. by apply list_elem_of_singleton in Ht.
  - unfold SingBox.BuildSingBoxRoute in E. injection E as _ <-. destruct (_ && _); [|by apply elem_of_nil in Ht].
    unfold named in Ht. cbn [map concat] in Ht. rewrite app_nil_r, jget_cons, jget_opt in Ht. cbn [String.eqb Ascii.eqb Bool.eqb] in Ht.
    destruct (_ && _); [|by apply elem_of_nil in Ht]. by apply list_elem_of_singleton in Ht.
Qed.

(** C22. Whatever sing-box is sent to exists: where the targets that the user's rules name are
    provided by the specification, each rule of the compiled configuration goes to an
    outbound or endpoint of the configuration, and so do the servers of names, through all
    the ways in which the server node and its backups are compiled; and so do the downloads
    of rule sets, if no rule names the outbound "blocked" (see [blocked_download]). *)
Theorem singbox_targets_exist mirror spec config ws : CompileSingBox mirror (Some spec) = Compiles config ws ->
  (forall routing r, cs_Routing spec = Some routing -> r ∈ Rules routing -> known_target spec (SingBox.outbound_of spec r)) ->
  exists route dns, jget config "route" = Some (VMap route) /\ jget config "dns" = Some (VMap dns) /\
    (forall t, t ∈ named "outbound" (objects (jget route "rules")) -> t ∈ config_tags config) /\
    (forall t, t ∈ named "detour" (objects (jget dns "servers")) -> t ∈ config_tags config) /\
    ((forall routing r, cs_Routing spec = Some routing -> r ∈ Rules routing -> OutboundTag r <> "blocked"%string) ->
     forall t, t ∈ named "download_detour" (objects (jget route "rule_set")) ++ named "detour" (objects (jget config "http_clients")) ->
     t ∈ config_tags config).
Proof using Type.
  intros Hc Hk. destruct (compiled_parts _ _ _ _ Hc) as (obs & Hp & Htags & Hroute & Hdns & Hclients).
  eexists _, _. split_and!; [done..| | |].
  - intros t Ht. destruct mirror as [active direct]. destruct (SingBox.route_fields unmarshal spec (isV112 spec) active direct) as (_ & Hr & _).
    rewrite Hr in Ht. apply Htags, (known_there spec obs ws t Hp). apply route_targets in Ht as [->|(routing & r & Er & Hin & ->)]; [by left|]. by eapply Hk.
  - intros t Ht. apply dns_detours in Ht as [Hne ->]. apply Htags, (known_there spec obs ws _ Hp). by apply detour_known.
  - intros Hb t Ht. rewrite Hclients in Ht. destruct mirror as [active direct]. pose proof (detour_field spec (isV112 spec) active direct t) as Hf.
    destruct (SingBox.BuildSingBoxRoute unmarshal spec (isV112 spec) (active, direct)) as [route clients]. cbn [fst snd] in Ht. rewrite (Hf Ht).
    apply Htags, (known_there spec obs ws _ Hp), download_known. eauto.
Qed.
End compiler.

(** ** Configurations compiled *)

Definition routing_of (rules : list RoutingRule) (obs : list jmap) : RoutingSpec := mkSpec "proxy" rules obs true false [].
Definition sends (tag : string) (domains : list string) : RoutingRule := mkRule "" tag domains [] [] [] [] [] [] [] [] 0.
Definition spec_of (node : option ServerProfile) (rules : list RoutingRule) (obs : list jmap) : ConfigSpec :=
  mkConfig "singbox" "" false node None [] (Some (routing_of rules obs)) None "" "" "" "" "" "".
Definition no_json (text : string) : option jmap := None.
Definition demo_mirror : SingBox.RuleMirror * bool := (SingBox.firstMirror, true).
Definition config_of (c : compiled) : jmap := match c with Compiles config _ => config | _ => [] end.
Definition demo_obs : list jmap := [[("tag", VString "exit"); ("protocol", VString "vless")]]%string.
Definition demo_spec : ConfigSpec := spec_of None [sends "exit" ["a.example"]; sends "direct" ["b.example"]]%string demo_obs.

Lemma singbox_targets_exist_witness :
  exists route dns, jget (config_of (CompileSingBox no_json demo_mirror (Some demo_spec))) "route" = Some (VMap route) /\
    jget (config_of (CompileSingBox no_json demo_mirror (Some demo_spec))) "dns" = Some (VMap dns) /\
    (forall t, t ∈ named "outbound" (objects (jget route "rules")) ->
       t ∈ config_tags (config_of (CompileSingBox no_json demo_mirror (Some demo_spec)))) /\
    (forall t, t ∈ named "detour" (objects (jget dns "servers")) ->
       t ∈ config_tags (config_of (CompileSingBox no_json demo_mirror (Some demo_spec)))).
Proof.
  destruct (singbox_targets_exist no_json demo_mirror demo_spec (config_of (CompileSingBox no_json demo_mirror (Some demo_spec))) [])
    as (route & dns & Hr & Hd & H1 & H2 & _); [reflexivity| |by exists route, dns].
  intros routing r [= <-] Hr. apply list_elem_of_In in Hr. destruct Hr as [<-|[<-|[]]].
  - right. right. right. split; [done|]. exists (hd [] demo_obs). split; [left|done].
  - by left.
Defined.

(** A rule that names the outbound "blocked": its traffic is rejected by "block", but the
    rule sets of the configuration are downloaded through an outbound "blocked" that does not exist. *)
Example blocked_download :
  let config := config_of (CompileSingBox no_json demo_mirror (Some (spec_of None [sends "blocked" ["geosite:ads"]] []))) in
  SingBox.download_detour no_json (spec_of None [sends "blocked" ["geosite:ads"]] []) true = "blocked"%string /\
  existsb (String.eqb "blocked") (config_tags config) = false.
Proof. by vm_compute. Qed.

(** A node whose backups name the node itself: the group it becomes contains itself (the
    other two builders of groups leave such names out). *)
Definition self_backed : ServerProfile :=
  mkProfile "" "a" ProtoSocks "a.example" 1080 "" "" "" "" "" "" [] "" false "" "" "" false "" "" false "" "" "" ∅ "" 0 "" "" "" "" "" "" ""
    "" "" "" false "" "" "" [] 0 [] ["a"]%string [] "" "" 0 [] "".
Example group_in_itself :
  match primary_outbounds (spec_of (Some self_backed) [] []) with
  | inr (group :: _, _) => (get_string group "tag", strings_of (jget group "outbounds"))
  | _ => (""%string, [])
  end = ("a", ["a-primary"; "a"])%string.
Proof. by vm_compute. Qed.

(** An outbound of the routing with the name of the node: two outbounds have one tag. *)
Example tag_twice :
  config_tags (config_of (CompileSingBox no_json demo_mirror (Some (spec_of (Some (set_Name "exit" (set_Protocol ProtoSocks empty_profile))) [] demo_obs)))) =
    ["exit"; "direct"; "block"; "exit"]%string.
Proof. by vm_compute. Qed.
End Compile.
