(* ===== verification/HysteriaConfig.v ===== *)
(** * The compilers of Hysteria 2 and WireGuard
    (src/pkg/compiler/hysteria/compiler.go, server.go, src/pkg/compiler/wireguard/compiler.go)

    A node becomes the configuration of a client, an inbound that of a server, and a
    WireGuard node the text of a configuration file. *)
From S2P Require Import Links Prelude GoStrings Ast Profile Matrix XrayOutbounds SingBoxOutbounds TunInbounds SingBox Xray Compilers Supervisor CoreTraffic.
Open Scope Z_scope.

Module Hy2.
Import Matrix Compile.

(** ** The resolver (BuildHysteriaResolver) *)

Definition resolver_target (dns : option DNSSpec) : string :=
  match dns with
  | None => "https://8.8.8.8/dns-query"
  | Some d =>
      if dns_DirectServer d <>s "" then dns_DirectServer d
      else if dns_RemoteServer d <>s "" then dns_RemoteServer d
      else match dns_Servers d with s :: _ => s | [] => "https://8.8.8.8/dns-query" end
  end.
Definition one_of (l : list string) (s : string) : bool := existsb (String.eqb s) l.
(** The address and the name of a server of DNS over HTTPS. *)
Definition doh_server (hostPart : string) : string * string :=
  match SingBox.assoc SingBox.knownIPs hostPart with
  | Some ip => (ip ^^ ":443", hostPart)
  | None =>
      if one_of ["8.8.8.8"; "8.8.4.4"]%string hostPart then (hostPart ^^ ":443", "dns.google"%string)
      else if one_of ["1.1.1.1"; "1.0.0.1"]%string hostPart then (hostPart ^^ ":443", "cloudflare-dns.com"%string)
      else if one_of ["94.140.14.14"; "94.140.15.15"]%string hostPart then (hostPart ^^ ":443", "dns.adguard-dns.com"%string)
      else if one_of ["77.88.8.8"; "77.88.8.1"]%string hostPart then (hostPart ^^ ":443", "dns.yandex.ru"%string)
      else if negb (Contains hostPart ":") then (hostPart ^^ ":443", ""%string)
      else (hostPart, ""%string)
  end.
Definition with_port (addr port : string) : string := if negb (Contains addr ":") then addr ^^ port else addr.
Definition plain_resolver (type addr : string) : jmap :=
  [("type", VString type); (type, VMap [("addr", VString (with_port addr ":53")); ("timeout", VString "4s")])]%string.
Definition BuildHysteriaResolver (dns : option DNSSpec) : jmap :=
  let targetURL := resolver_target dns in
  if HasPrefix targetURL "https://" then
    let trimmed := TrimPrefix targetURL "https://" in
    let '(addr, sni) := doh_server (match Cut trimmed "/" with Some (host, _) => host | None => trimmed end) in
    [("type", VString "https"); ("https", VMap ([("addr", VString addr); ("timeout", VString "4s")] ++ opt_text "sni" sni))]%string
  else if HasPrefix targetURL "tcp://" then plain_resolver "tcp" (TrimPrefix targetURL "tcp://")
  else plain_resolver "udp" (TrimPrefix targetURL "udp://").

(** ** Clients (compiler.go) *)

Definition server_addr (node : ServerProfile) : string :=
  if p_PortHopping node <>s "" then p_Address node ^^ ":" ^^ p_PortHopping node else p_Address node ^^ ":" ^^ Itoa (p_Port node).
Definition auth_pass (node : ServerProfile) : string :=
  if (p_Username node <>s "") && (p_Password node <>s "") then p_Username node ^^ ":" ^^ p_Password node
  else if (p_Password node =s "") && (p_Username node <>s "") then p_Username node
  else p_Password node.
Definition some_map (k : string) (m : jmap) : jmap := opt (nonempty m) k (VMap m).
Definition bandwidth (up down : string) : jmap := some_map "bandwidth" (opt_text "up" up ++ opt_text "down" down).
Definition salamander (obfsType password : string) : jmap :=
  opt (password <>s "") "obfs" (VMap [("type", VString (or_default obfsType "salamander")); ("salamander", VMap [("password", VString password)])]%string).
Definition local_listen (k : string) (port : Z) : jmap := opt (0 <? port) k (VMap [("listen"%string, VString ("127.0.0.1:" ^^ Itoa port))]).
Definition client_listeners (inbound : option ClientInboundSpec) : jmap :=
  match inbound with
  | Some cb => local_listen "socks5" (ci_SocksPort cb) ++ local_listen "http" (ci_HTTPPort cb)
  | None => [("socks5", VMap [("listen", VString "127.0.0.1:10808")])]%string
  end.
Definition client_config (node : ServerProfile) (spec : ConfigSpec) : jmap :=
  [("server", VString (server_addr node)); ("auth", VString (auth_pass node))]%string
  ++ bandwidth (p_BandwidthUp node) (p_BandwidthDown node)
  ++ [("tls"%string, VMap ([("insecure"%string, VBool (p_Insecure node))] ++ opt_text "sni" (p_SNI node) ++ opt_text "pinSHA256" (p_PinnedPeerCertSha256 node)))]
  ++ salamander (p_ObfsType node) (p_ObfsPassword node)
  ++ [("resolver"%string, VMap (BuildHysteriaResolver (cs_DNS spec)))]
  ++ client_listeners (cs_ClientInbound spec).
Definition CompileHysteria (spec : option ConfigSpec) : compiled :=
  match spec with
  | Some spec =>
      match cs_ServerNode spec with
      | Some node =>
          match negotiated spec node CoreHysteria2 with
          | inl e => Fails e
          | inr (adapted, ws) => Compiles (client_config adapted spec) ws
          end
      | None => Fails NilSpec
      end
  | None => Fails NilSpec
  end.

(** ** Servers (server.go) *)

Definition listen_addr (sb : ServerInboundSpec) : string :=
  if (si_PortHop sb <>s "") && Contains (si_PortHop sb) "-" then ":" ^^ TrimPrefix (si_PortHop sb) ":"
  else if (si_ListenAddress sb <>s "") && (si_ListenAddress sb <>s "0.0.0.0") && (si_ListenAddress sb <>s "::")
  then si_ListenAddress sb ^^ ":" ^^ Itoa (si_Port sb)
  else ":" ^^ Itoa (si_Port sb).
Definition admin_port (sb : ServerInboundSpec) : Z := if si_AdminPort sb <=? 0 then 10100 + Z.rem (si_Port sb) 1000 else si_AdminPort sb.
Definition server_tls (sb : ServerInboundSpec) : jmap :=
  some_map "tls" ((if (si_CertPath sb <>s "") && (si_KeyPath sb <>s "") then [("cert", VString (si_CertPath sb)); ("key", VString (si_KeyPath sb))]%string else [])
                  ++ opt_text "sni" (si_SNI sb)).

Definition http_auth (sb : ServerInboundSpec) (url : string) : jmap :=
  [("type", VString "http");
   ("http", VMap ([("url"%string, VString url)] ++ opt (si_Insecure sb || Contains url "127.0.0.1" || Contains url "localhost") "insecure" (VBool true)))]%string.
Definition is_webhook (c : ServerInboundClient) : bool :=
  (ic_Email c =s "http_webhook") || (ic_ID c =s "webhook") || HasPrefix (ic_Password c) "http://" || HasPrefix (ic_Password c) "https://".
Definition user_of (c : ServerInboundClient) : string := or_default (ic_Email c) (or_default (ic_UUID c) "user").
(** The map of the users, each with the password of the last client of that name. *)
Definition userpass (clients : list ServerInboundClient) : jmap :=
  fold_left (fun m c => jset (user_of c) (VString (ic_Password c)) m) clients [].
Definition server_auth (sb : ServerInboundSpec) : jmap :=
  if si_AuthURL sb <>s "" then http_auth sb (si_AuthURL sb)
  else
    match List.find is_webhook (si_Clients sb) with
    | Some c => http_auth sb (ic_Password c)
    | None =>
        if nonempty (si_Clients sb) then [("type", VString "userpass"); ("userpass", VMap (userpass (si_Clients sb)))]%string
        else [("type", VString "password"); ("password", VString "default-secret")]%string
    end.

Definition normalizeMasqURL (raw : string) : string :=
  let raw := TrimSpace raw in
  if raw =s "" then "" else if negb (HasPrefix raw "http://") && negb (HasPrefix raw "https://") then "https://" ^^ raw else raw.
Definition masq_status (sb : ServerInboundSpec) : Z := if 0 <? si_MasqStatusCode sb then si_MasqStatusCode sb else 404.
Definition masq_content (sb : ServerInboundSpec) : string :=
  if masq_status sb =? 403 then "Forbidden"
  else if masq_status sb =? 444 then "Connection dropped"
  else or_default (si_MasqValue sb) "Not Found".
Definition masquerade (sb : ServerInboundSpec) : jmap :=
  if (si_MasqType sb <>s "") && (si_MasqType sb <>s "none") then
    some_map "masquerade"
      (if si_MasqType sb =s "file" then
         if si_MasqValue sb <>s "" then [("type", VString "file"); ("file", VMap [("dir", VString (si_MasqValue sb))])]%string else []
       else if si_MasqType sb =s "proxy" then
         if si_MasqValue sb <>s "" then
           [("type", VString "proxy"); ("proxy", VMap [("url", VString (normalizeMasqURL (si_MasqValue sb))); ("rewriteHost", VBool true)])]%string
         else []
       else if one_of ["string"; "status"; "drop"]%string (si_MasqType sb) then
         [("type", VString "string"); ("string", VMap [("statusCode", VInt (masq_status sb)); ("content", VString (masq_content sb))])]%string
       else [])
  else [].

Definition socks_port (sb : ServerInboundSpec) (forwardToXraySocksPort : Z) : Z :=
  if 0 <? si_SocksPort sb then si_SocksPort sb else forwardToXraySocksPort.
Definition server_outbounds (sb : ServerInboundSpec) (forwardToXraySocksPort : Z) : jmap :=
  let socksPort := socks_port sb forwardToXraySocksPort in
  opt (0 <? socksPort) "outbounds"
    (VList [VMap [("name", VString "xray-routing"); ("type", VString "socks5");
       ("socks5", VMap ([("addr", VString ("127.0.0.1:" ^^ Itoa socksPort))] ++ opt_text "username" (si_SocksUsername sb) ++ opt_text "password" (si_SocksPassword sb)))]])%string.

Definition CompileServerWithDNS (sb : ServerInboundSpec) (forwardToXraySocksPort : Z) (dns : option DNSSpec) (logLevel : list string) : jmap :=
  let window := VInt 8388608 in
  [("listen", VString (listen_addr sb)); ("trafficStats", VMap [("listen", VString ("127.0.0.1:" ^^ Itoa (admin_port sb)))]);
   ("quic", VMap [("initStreamReceiveWindow", window); ("maxStreamReceiveWindow", window)]);
   ("log", VMap [("level", VString (match logLevel with l :: _ => or_default l "info" | [] => "info" end))]);
   ("resolver", VMap (BuildHysteriaResolver dns))]%string
  ++ server_tls sb ++ [("auth"%string, VMap (server_auth sb))] ++ salamander (si_ObfsType sb) (si_ObfsPassword sb)
  ++ bandwidth (si_BandwidthUp sb) (si_BandwidthDown sb) ++ masquerade sb ++ server_outbounds sb forwardToXraySocksPort.
Definition CompileServer (sb : ServerInboundSpec) (forwardToXraySocksPort : Z) (logLevel : list string) : jmap :=
  CompileServerWithDNS sb forwardToXraySocksPort None logLevel.

(** ** The supervisor finds the counters of a server *)

Lemma digits_of_all s : str_exists (fun a => negb (is_digit a)) s = false -> digits_of s = s.
Proof. induction s as [|a s IH]; [done|]. cbn. intros [Ha Hs]%orb_false_iff. apply negb_false_iff in Ha. by rewrite Ha, IH. Qed.
Lemma scan_int_Itoa z : 0 <= z <= maxInt64 -> scan_int (Itoa z) = Some z.
Proof.
  intros Hz. assert (Hd : str_exists (fun a => negb (is_digit a)) (Itoa z) = false) by (apply Itoa_only; [lia|by intros a ->]).
  pose proof (Atoi_Itoa z Hz) as Ha. destruct (Itoa z) as [|a s] eqn:E; [by vm_compute in Ha|].
  unfold scan_int. assert (Hda : is_digit a = true) by (cbn in Hd; apply orb_false_iff in Hd as [Hd _]; by apply negb_false_iff in Hd).
  assert (Hc : 48 <= char_code a <= 57) by (unfold is_digit in Hda; apply andb_true_iff in Hda as [?%Z.leb_le ?%Z.leb_le]; lia).
  assert (Hb : skip_blanks (String a s) = Some (String a s)).
  { cbn [skip_blanks]. unfold is_space. destruct (Z.eqb_spec (char_code a) 10); [lia|].
    destruct (Z.leb_spec 9 (char_code a)), (Z.leb_spec (char_code a) 13), (Z.eqb_spec (char_code a) 32); cbn; try lia; done. }
  rewrite Hb. cbn [mbind option_bind].
  assert (Hs : signed_digits (String a s) = digits_of (String a s)).
  { cbn [signed_digits]. destruct (Ascii.eqb_spec a "+") as [->|_]; [by vm_compute in Hda|]. by destruct (Ascii.eqb_spec a "-") as [->|_]; [vm_compute in Hda|]. }
  by rewrite Hs, digits_of_all.
Qed.
Lemma listen_port_local p : 0 < p <= maxInt64 -> Processes.listen_port ("127.0.0.1:" ^^ Itoa p) = Some p.
Proof.
  intros Hp. unfold Processes.listen_port. change ("127.0.0.1:" ^^ Itoa p) with (Join ["127.0.0.1"; Itoa p]%string ":").
  rewrite SplitByte_Join; [|done|].
  - cbn [List.last]. rewrite scan_int_Itoa by lia. cbn [mbind option_bind]. destruct (Z.ltb_spec 0 p); [done|lia].
  - constructor; [done|]. constructor; [|done]. apply Itoa_only; [lia|]. intros a. destruct (Ascii.eqb_spec a ":") as [->|]; [done|done].
Qed.

(** Where a configuration tells its counters. *)
Definition traffic_listen (config : jmap) : option string :=
  match jget config "trafficStats" with Some (VMap m) => Some (get_string m "listen") | _ => None end.
Lemma admin_port_bounds sb : 0 <= si_Port sb -> si_AdminPort sb <= maxInt64 -> 0 < admin_port sb <= maxInt64.
Proof.
  intros Hp Ha. unfold admin_port. pose proof (Z.rem_bound_pos (si_Port sb) 1000 Hp ltac:(lia)). unfold maxInt64 in *.
  destruct (Z.leb_spec (si_AdminPort sb) 0); lia.
Qed.

(** The supervisor finds the counters of a server that this engine configures: started
    with the configuration of an inbound, it registers the port that the configuration
    tells, whatever the inbound is, and the controller asks this port from then on. *)
Theorem traffic_port_found dec os path data sb forward dns level order (c : Controllers.Controller) files envBin :
  0 <= si_Port sb -> si_AdminPort sb <= maxInt64 -> path <> ""%string -> Processes.os_ReadFile os path = Some data ->
  Processes.decode_hysteria_listen dec data = traffic_listen (CompileServerWithDNS sb forward dns level) ->
  (Processes.telemetry dec os "hysteria2" path).2 = [Processes.RegisterHysteriaPort (admin_port sb)] /\
  admin_port sb ∈ Controllers.getActiveHysteriaPorts (order := order) (Controllers.RegisterHysteriaPort c (admin_port sb)) files envBin.
Proof.
  intros Hp Ha Hne Hf Hd. pose proof (admin_port_bounds sb Hp Ha) as Hb. split.
  - unfold Processes.telemetry. apply String.eqb_neq in Hne. rewrite Hne, Hf. cbn [String.eqb Ascii.eqb Bool.eqb]. rewrite Hd.
    assert (Ht : traffic_listen (CompileServerWithDNS sb forward dns level) = Some ("127.0.0.1:" ^^ Itoa (admin_port sb))) by done.
    rewrite Ht. cbn [snd]. by rewrite (listen_port_local (admin_port sb) Hb).
  - unfold Controllers.getActiveHysteriaPorts. rewrite range_keys_perm, elem_of_elements, elem_of_list_to_set, elem_of_app. left.
    rewrite list_elem_of_In, filter_In. split; [|destruct (Z.ltb_spec 0 (admin_port sb)); [done|lia]].
    unfold Controllers.RegisterHysteriaPort. destruct (Z.leb_spec (admin_port sb) 0); [lia|]. cbn [orb].
    destruct (existsb _ _) eqn:E; cbn [Controllers.hysteriaPorts]; [|apply in_or_app; right; by left].
    apply existsb_exists in E as (x & Hx & ->%Z.eqb_eq). done.
Qed.
(** ** On concrete inbounds *)

Definition inbound_of (port : Z) (clients : list ServerInboundClient) : ServerInboundSpec :=
  mkServerInbound "in" "hysteria2" "" port "" "" "" "" "" "" "" [] clients false "" 0 "" false "" "" "" "" "" "" 0 0 "" "" [] [] [] [].
Definition demo_dec : Processes.Decoders :=
  Processes.mkDecoders (fun _ => None) (fun _ => ([], ""%string)) (fun _ => traffic_listen (CompileServerWithDNS (inbound_of 1443 []) 0 None []))
    (fun _ => None) (fun _ => None).
Definition demo_host : Processes.OS := Processes.mkOS false (fun _ => Processes.Missing) (fun _ => None) (fun _ => Some "{}"%string) (fun _ => None).
Lemma traffic_port_found_witness :
  (Processes.telemetry demo_dec demo_host "hysteria2" "hysteria.json").2 = [Processes.RegisterHysteriaPort 10543] /\
  10543 ∈ Controllers.getActiveHysteriaPorts (Controllers.RegisterHysteriaPort Controllers.newController 10543)
    (Controllers.mkFiles (fun _ => []) (fun _ => None) (fun _ => None)) "".
Proof.
  apply (traffic_port_found demo_dec demo_host "hysteria.json" "{}" (inbound_of 1443 []) 0 None []); try done; vm_compute; discriminate.
Defined.

(** Two inbounds whose ports have the same last three digits are given one port for their counters. *)
Example counters_collide : (admin_port (inbound_of 443 []), admin_port (inbound_of 1443 [])) = (10543, 10543).
Proof. done. Qed.

(** An inbound without clients lets everybody in who knows the password of this source. *)
Example open_to_all : server_auth (inbound_of 443 []) = [("type", VString "password"); ("password", VString "default-secret")]%string.
Proof. done. Qed.

(** Clients without an e-mail and an identifier are one user, with the password of the last. *)
Example nameless_clients_merge :
  userpass [mkInboundClient "" "" "first" "" ""; mkInboundClient "" "" "second" "" ""] = [("user", VString "second")]%string.
Proof. done. Qed.

(** The address of a server of version 6 runs into its port. *)
Example bare_ipv6 : server_addr (set_Port 443 (set_Address "2001:db8::1" empty_profile)) = "2001:db8::1:443"%string.
Proof. done. Qed.

(** The path of a server of DNS over HTTPS is dropped. *)
Example path_dropped :
  BuildHysteriaResolver (Some (mkDNS "" "https://dns.example/private/path" "" false "" [] "")) =
    [("type", VString "https"); ("https", VMap [("addr", VString "dns.example:443"); ("timeout", VString "4s")])]%string.
Proof. done. Qed.
End Hy2.

(** * WireGuard *)
Module WireGuard.

Definition newline : string := String (ascii_of_N 10) "".
Definition unlines (lines : list string) : string := Join (map (fun l => l ^^ newline) lines) "".
Definition setting (key value : string) : string := key ^^ " = " ^^ value.
Definition BuildWireGuardConf (node : option ServerProfile) : string + string :=
  match node with
  | None => inl "node profile cannot be nil"%string
  | Some node => inr (unlines (
      ["[Interface]"%string]
      ++ (if p_PrivateKey node <>s "" then [setting "PrivateKey" (p_PrivateKey node)] else [])
      ++ (if nonempty (p_LocalAddress node) then [setting "Address" (Join (p_LocalAddress node) ", ")] else [])
      ++ (if 0 <? p_MTU node then [setting "MTU" (Itoa (p_MTU node))] else [])
      ++ [""; "[Peer]"]%string
      ++ (if p_PeerPublicKey node <>s "" then [setting "PublicKey" (p_PeerPublicKey node)] else [])
      ++ (if p_PreSharedKey node <>s "" then [setting "PresharedKey" (p_PreSharedKey node)] else [])
      ++ [setting "Endpoint" (p_Address node ^^ ":" ^^ Itoa (p_Port node)); setting "AllowedIPs" "0.0.0.0/0, ::/0";
          setting "PersistentKeepalive" "25"]))
  end.

(** How the file is read: sections in brackets, and a key and a value around the first
    equals sign of a line, blanks aside. *)
Fixpoint read_lines (section : string) (lines : list string) : list (string * string * string) :=
  match lines with
  | [] => []
  | line :: lines =>
      let line := TrimSpace line in
      if line =s "" then read_lines section lines
      else if HasPrefix line "[" then read_lines line lines
      else match Cut line "=" with
           | Some (key, value) => (section, TrimSpace key, TrimSpace value) :: read_lines section lines
           | None => read_lines section lines
           end
  end.
Definition read_conf (conf : string) : list (string * string * string) := read_lines "" (SplitByte conf (ascii_of_N 10)).

(** A line break in a field of a link adds settings of its own; a program that the host then
    runs is one of them. *)
Definition no_json : LinkDecoders := mkDecoders (fun _ => inl ""%string) (fun _ => None) (fun _ => None).
Example line_injected :
  match ParseURI no_json "wireguard://key@vpn.example:51820?publickey=peer&ip=10.0.0.2%2F32%0APostUp=touch+%2Ftmp%2Fx" with
  | inr node => match BuildWireGuardConf (Some node) with inr conf => existsb (fun s => s.1.2 =s "PostUp") (read_conf conf) | _ => false end
  | inl _ => false
  end = true.
Proof. by vm_compute. Qed.
End WireGuard.
