(* ===== verification/Builder.v ===== *)
(** * Building configurations (src/pkg/builder/client.go, server.go)

    The entry points of the engine: a specification is completed with a routing, the
    processes that the audit engine isolates are blocked in it, and the compiler of the
    core runs.  The specification is shared with the caller, so what becomes of it is part
    of the result. *)
From S2P Require Import Prelude GoStrings Ast Profile Matrix Routing AuditRules XrayOutbounds SingBoxOutbounds TunInbounds XrayInbounds SingBoxInbounds SingBox Xray Compilers HysteriaConfig.
Open Scope Z_scope.

Module Build.
Import AuditRules Routing Matrix Compile Hy2.

Definition with_routing (r : RoutingSpec) (s : ConfigSpec) : ConfigSpec :=
  mkConfig (cs_TargetCore s) (cs_CoreVersion s) (cs_StrictMode s) (cs_ServerNode s) (cs_ClientInbound s) (cs_ServerInbounds s)
    (Some r) (cs_DNS s) (cs_LogLevel s) (cs_LogPath s) (cs_AccessLog s) (cs_ErrorLog s) (cs_ClashAPIAddress s) (cs_RawJSONConfig s).
Definition with_core (core : TargetCore) (s : ConfigSpec) : ConfigSpec :=
  mkConfig core (cs_CoreVersion s) (cs_StrictMode s) (cs_ServerNode s) (cs_ClientInbound s) (cs_ServerInbounds s)
    (cs_Routing s) (cs_DNS s) (cs_LogLevel s) (cs_LogPath s) (cs_AccessLog s) (cs_ErrorLog s) (cs_ClashAPIAddress s) (cs_RawJSONConfig s).
Definition with_rules (rules : list RoutingRule) (r : RoutingSpec) : RoutingSpec :=
  mkSpec (DefaultAction r) rules (Outbounds r) (AutoDetectInterface r) (OverrideDNS r) (RuleSets r).

Definition client_inbound (mode : InboundMode) (socksPort httpPort : Z) (listen : string) : ClientInboundSpec :=
  mkClientInbound mode socksPort httpPort listen false "" "" "" "" 0 false false "" "" "" [] [] false "" 0 0 false "" "".

Record BuildResult := mkBuild { r_TargetCore : TargetCore; r_Config : jmap; r_Warnings : list NegotiationWarning }.
Inductive build_error := NilConfig | NoProfiles | StrictRejected | Unsupported (core : TargetCore) | CompileError (e : failure).
Inductive outcome := Built (r : BuildResult) | BuildFails (e : build_error) | BuildPanics.
(** What is published on the bus. *)
Inductive notice := CompileFailed (core : TargetCore) (e : failure) | FeatureDowngrade (w : NegotiationWarning).

Definition default_core (spec : ConfigSpec) : TargetCore := if cs_TargetCore spec =s "" then CoreSingBox else cs_TargetCore spec.

(** The rule for the processes that the audit engine isolates. *)
Definition quarantined_names (blockedEntities : list BannedEntity) : list string :=
  List.filter (fun id => (id <>s "") && (id <>s "DefaultEntity")) (map b_CallerID blockedEntities).
Definition quarantine_rule (procNames : list string) : RoutingRule := mkRule ActionBlock "" [] [] [] [] [] [] [] procNames [] 0.
Definition inject_quarantine (core : TargetCore) (blockedEntities : list BannedEntity) (routing : RoutingSpec) : RoutingSpec :=
  if (core =s CoreSingBox) || (core =s CoreXray) then
    match quarantined_names blockedEntities with
    | [] => routing
    | names => with_rules (quarantine_rule names :: Rules routing) routing
    end
  else routing.

Definition is_tun (inbound : option ClientInboundSpec) : bool :=
  match inbound with
  | Some cb => (ci_Mode cb =s InboundModeDesktopTun) || (ci_Mode cb =s InboundModeMobileVpn)
  | None => false
  end.
(** What native Hysteria cannot do. *)
Definition needs_singbox (spec : ConfigSpec) (routing : RoutingSpec) : bool :=
  nonempty (Rules routing) || is_tun (cs_ClientInbound spec) || nonempty (cs_ServerInbounds spec).
Definition switch_warning : NegotiationWarning := mkWarning FeatureRouting (Localised "HY2_AUTO_SWITCH_SINGBOX" []) "AUTO_SWITCH_TO_SINGBOX".

Section builder.
(** The decoder of JSON texts, the state of the mirrors, random bytes and the presets. *)
Context {order : RangeOrder string} (unmarshal : string -> option jmap) (mirror : SingBox.RuleMirror * bool)
  (rand : nat -> Z -> string) (pm : PresetManager).

Definition compile (core : TargetCore) (spec : ConfigSpec) : option compiled :=
  if core =s CoreSingBox then Some (CompileSingBox unmarshal mirror (Some spec))
  else if core =s CoreXray then Some (CompileXray unmarshal rand (Some spec))
  else if core =s CoreHysteria2 then Some (CompileHysteria (Some spec))
  else None.
(** The last part: compiling, and telling the bus. *)
Definition finish (core : TargetCore) (warnings : list NegotiationWarning) (spec : ConfigSpec) : outcome * list notice :=
  match compile core spec with
  | None => (BuildFails (Unsupported core), [])
  | Some Panics => (BuildPanics, [])
  | Some (Fails e) => (BuildFails (CompileError e), [CompileFailed core e])
  | Some (Compiles config ws) => (Built (mkBuild core config (warnings ++ ws)), map FeatureDowngrade (warnings ++ ws))
  end.

(** The result, the specification as the caller finds it afterwards, and what is published. *)
Definition BuildClientConfig (blockedEntities : list BannedEntity) (spec : option ConfigSpec)
    : outcome * option ConfigSpec * list notice :=
  match spec with
  | None => (BuildFails NilConfig, None, [])
  | Some spec =>
      let targetCore := default_core spec in
      let routing := match cs_Routing spec with Some r => r | None => CompilePolicy pm (Some DefaultSmartPolicy) end in
      let spec := with_routing routing spec in
      let switch := (targetCore =s CoreHysteria2) && needs_singbox spec routing in
      if switch && cs_StrictMode spec then (BuildFails StrictRejected, Some spec, [])
      else
        let targetCore := if switch then CoreSingBox else targetCore in
        let spec := with_routing (inject_quarantine targetCore blockedEntities routing) spec in
        let '(out, notices) := finish targetCore (if switch then [switch_warning] else []) spec in
        (out, Some spec, notices)
  end.

Definition failover_primary (primary : ServerProfile) (backups : list ServerProfile) (healthCheckURL : string) : ServerProfile :=
  let named := set_Name "failover-proxy" primary in
  let 'Ast.mkProfile f0 f1 f2 f3 f4 f5 f6 f7 f8 f9 f10 f11 f12 f13 f14 f15 f16 f17 f18 f19 f20 f21 f22 f23 f24 f25 f26
    f27 f28 f29 f30 f31 f32 f33 f34 f35 f36 f37 f38 f39 f40 f41 f42 f43 f44 f45 f46 f47 f48 f49 f50 := named in
  Ast.mkProfile f0 f1 f2 f3 f4 f5 f6 f7 f8 f9 f10 f11 f12 f13 f14 f15 f16 f17 f18 f19 f20 f21 f22 f23 f24 f25 f26
    f27 f28 f29 f30 f31 f32 f33 f34 f35 f36 f37 f38 f39 f40 f41 f42 f43 f44 (if nonempty backups then backups else f45) "priority" healthCheckURL 15 f49 f50.
(** No profile is nil. *)
Definition failover_spec (primary : ServerProfile) (backups : list ServerProfile) (targetCore : TargetCore) (socksPort httpPort : Z)
    (healthCheckURL : string) : ConfigSpec :=
  let healthCheckURL := or_default healthCheckURL "https://api.telegram.org" in
  mkConfig (or_default targetCore CoreSingBox) "" false (Some (failover_primary primary backups healthCheckURL))
    (Some (client_inbound InboundModeSystemProxy (if socksPort <=? 0 then 10808 else socksPort) (if httpPort <=? 0 then 10809 else httpPort) "127.0.0.1"))
    [] (Some (mkSpec ActionProxy [mkRule ActionProxy "failover-proxy" [] [] [] [] [] [] [] [] [] 0] [] false false [])) None "info" "" "" "" "" "".
Definition BuildFailoverClientConfig (blockedEntities : list BannedEntity) (profiles : list ServerProfile) (targetCore : TargetCore)
    (socksPort httpPort : Z) (healthCheckURL : string) : outcome * list notice :=
  match profiles with
  | [] => (BuildFails NoProfiles, [])
  | primary :: backups =>
      let '(out, _, notices) := BuildClientConfig blockedEntities (Some (failover_spec primary backups targetCore socksPort httpPort healthCheckURL)) in
      (out, notices)
  end.

(** ** Servers (server.go) *)

Inductive server_outcome := ServerConfig (config : jmap) | ServerFails (what : string) (e : option failure) | ServerPanics.
Definition of_compiled (what : string) (c : compiled) : server_outcome :=
  match c with Compiles config _ => ServerConfig config | Fails e => ServerFails what (Some e) | Panics => ServerPanics end.
Definition BuildServerConfigFromSpec (spec : option ConfigSpec) : server_outcome * option ConfigSpec :=
  match spec with
  | None => (ServerFails "config spec cannot be nil" None, None)
  | Some spec =>
      let spec := with_core (default_core spec) spec in
      let targetCore := cs_TargetCore spec in
      let out :=
        if targetCore =s CoreHysteria2 then
          match cs_ServerInbounds spec with
          | [] => ServerFails "at least one server inbound required for hysteria2" None
          | sb :: _ =>
              let forwardPort := match cs_Routing spec with Some r => if nonempty (Rules r) then 20808 else 0 | None => 0 end in
              ServerConfig (CompileServerWithDNS sb forwardPort (cs_DNS spec) [cs_LogLevel spec])
          end
        else if targetCore =s CoreXray then of_compiled "failed to build Xray server config" (CompileXray unmarshal rand (Some spec))
        else of_compiled "failed to build Sing-box server config" (CompileSingBox unmarshal mirror (Some spec)) in
      (out, Some spec)
  end.
Definition BuildServerConfig (targetCore : TargetCore) (serverInbounds : list ServerInboundSpec) (routing : option RoutingSpec) (clashAPI : string)
    (logPathAndLevel : list string) : server_outcome :=
  let arg n := nth n logPathAndLevel ""%string in
  (BuildServerConfigFromSpec (Some (mkConfig (or_default targetCore CoreSingBox) "" false None None serverInbounds routing None
     (arg 1%nat) (arg 0%nat) (arg 2%nat) (arg 3%nat) clashAPI ""))).1.

(** ** Isolated processes are blocked *)

Lemma singbox_blocks_process field matches spec names id rest : SingBox.rule_logic field matches -> id ∈ names ->
  field "process_name"%string (VString id) = true ->
  SingBox.first_match matches (concat (map (SingBox.rules_of spec) (quarantine_rule names :: rest))) = Some "block"%string.
Proof using Type.
  intros L Hid Hf. assert (Hn : nonempty names = true) by (destruct names; [by apply elem_of_nil in Hid|done]).
  assert (He : existsb (fun s => field "process_name"%string (VString s)) names = true).
  { apply existsb_exists. exists id. by rewrite <- list_elem_of_In. }
  cbn [map concat]. rewrite (SingBox.first_match_rule _ _ L) by done.
  assert (Hl : SingBox.is_live spec (quarantine_rule names) = true) by (unfold SingBox.is_live, SingBox.rules_of; cbn [quarantine_rule OutboundTag Action]; by rewrite orb_true_r).
  unfold SingBox.rule_holds, SingBox.dest_holds, SingBox.others_hold, SingBox.listed, SingBox.any_of. rewrite Hl. cbn. by rewrite Hn, He.
Qed.

(** C4. In every configuration that is built for sing-box, whatever the specification says,
    the first of its rules that matches a connection of a process that the audit engine has
    isolated (other than [DefaultEntity]) blocks it, however single conditions are read. *)
Theorem isolated_process_blocked blockedEntities spec r spec' notices id field matches :
  BuildClientConfig blockedEntities (Some spec) = (Built r, spec', notices) -> r_TargetCore r = CoreSingBox ->
  id ∈ quarantined_names blockedEntities -> SingBox.rule_logic field matches -> field "process_name"%string (VString id) = true ->
  exists route actions user switch,
    jget (r_Config r) "route" = Some (VMap route) /\ objects (jget route "rules") = actions ++ user ++ switch /\
    Forall (fun m => jget m "outbound" = None) actions /\ SingBox.first_match matches user = Some "block"%string.
Proof using Type.
  unfold BuildClientConfig. set (routing := match cs_Routing spec with Some r => r | None => _ end). set (core := default_core spec).
  destruct (_ && cs_StrictMode _); [done|].
  set (switch := (core =s CoreHysteria2) && _). set (target := if switch then CoreSingBox else core).
  set (spec1 := with_routing (inject_quarantine target blockedEntities routing) _). intros E Ht Hid L Hf.
  unfold finish, compile in E. destruct (target =s CoreSingBox) eqn:Et.
  2:{ exfalso. apply String.eqb_neq in Et. destruct (target =s CoreXray); [|destruct (target =s CoreHysteria2); [|done]].
      - destruct (CompileXray unmarshal rand (Some spec1)); try done. injection E as <- _ _. by cbn in Ht.
      - destruct (CompileHysteria (Some spec1)); try done. injection E as <- _ _. by cbn in Ht. }
  destruct (CompileSingBox unmarshal mirror (Some spec1)) as [| |config ws] eqn:Ec; try done. injection E as <- <- <-. cbn [r_Config].
  destruct (compiled_parts _ _ _ _ _ Ec) as (obs & _ & _ & Hroute & _).
  eexists _, (SingBox.hijack_rules spec1 ++ SingBox.sniff_rules spec1 ++ omap SingBox.resolve_rule (cs_ServerInbounds spec1)),
    (SingBox.user_rules spec1), (SingBox.clash_rules spec1). split; [exact Hroute|]. split_and!.
  - destruct mirror as [active d]. destruct (SingBox.route_fields unmarshal spec1 (isV112 spec1) active d) as (_ & -> & _).
    unfold SingBox.route_rules. by rewrite <- !app_assoc.
  - rewrite !Forall_app. auto using SingBox.hijack_no_outbound, SingBox.sniff_no_outbound, SingBox.resolve_no_outbound.
  - assert (Hr : cs_Routing spec1 = Some (with_rules (quarantine_rule (quarantined_names blockedEntities) :: Rules routing) routing)).
    { unfold spec1, with_routing, inject_quarantine. cbn [cs_Routing]. rewrite Et. cbn [orb]. by destruct (quarantined_names blockedEntities); [apply elem_of_nil in Hid|]. }
    unfold SingBox.user_rules. rewrite Hr. cbn [Rules with_rules]. by apply (singbox_blocks_process field matches _ _ id).
Qed.
End builder.

(** ** On concrete specifications *)

(** A connection of the process evil.exe. *)
Definition evil_scalar (k : string) (v : value) : bool := match v with VString s => (k =s "process_name") && (s =s "evil.exe") | _ => false end.
Definition evil_field (k : string) (v : value) : bool :=
  match v with VList l => existsb (evil_scalar k) l | _ => evil_scalar k v end.
Definition evil_matches (r : jmap) : bool :=
  (negb (SingBox.has SingBox.dest_keys r) || SingBox.some_of evil_field SingBox.dest_keys r) &&
  (negb (SingBox.has SingBox.port_keys r) || SingBox.some_of evil_field SingBox.port_keys r) && SingBox.required evil_field r.
Lemma evil_logic : SingBox.rule_logic evil_field evil_matches.
Proof.
  split; [done | |]; intros k l; unfold VStrings, evil_field; cbn.
  - induction l as [|x l IH]; [done|]. cbn in *. by rewrite IH.
  - induction l as [|x l IH]; [done|]. cbn in *. by rewrite IH.
Qed.

Definition no_rand (_ : nat) (_ : Z) : string := "".
Definition isolated : list BannedEntity := [mkBanned "evil.exe" 0 "data exfiltration" 90].
Definition build (blocked : list BannedEntity) (spec : ConfigSpec) : outcome * option ConfigSpec * list notice :=
  BuildClientConfig no_json demo_mirror no_rand ∅ blocked (Some spec).

Lemma isolated_process_blocked_witness :
  exists config spec' route user,
    build isolated Compile.demo_spec = (Built (mkBuild CoreSingBox config []), spec', []) /\
    jget config "route" = Some (VMap route) /\ SingBox.first_match evil_matches user = Some "block"%string /\
    exists actions switch, objects (jget route "rules") = actions ++ user ++ switch.
Proof.
  destruct (build isolated Compile.demo_spec) as [[out spec'] notices] eqn:E.
  assert (Ho : match out with Built (mkBuild core _ ws) => core = CoreSingBox /\ ws = [] | _ => False end /\ notices = []).
  { apply (f_equal (fun x => (match x.1.1 with Built (mkBuild core _ ws) => Some (core, ws) | _ => None end, x.2))) in E. vm_compute in E.
    destruct out as [[core config ws]| |]; try discriminate E. injection E as <- <- <-. done. }
  destruct out as [[core config ws]| |]; [|by destruct Ho..]. destruct Ho as [[-> ->] ->].
  destruct (isolated_process_blocked no_json demo_mirror no_rand ∅ isolated Compile.demo_spec (mkBuild CoreSingBox config []) spec' [] "evil.exe" evil_field evil_matches E)
    as (route & actions & user & switch & Hr & Hs & _ & Hm); [done|by left|exact evil_logic|done|].
  exists config, spec', route, user. split_and!; [done..|]. by exists actions, switch.
Defined.

(** The rules of a specification that is built again, with nobody isolated any more: the
    first build has left its rule in it, and the process stays blocked. *)
Definition rebuilt (blocked : list BannedEntity) (spec : ConfigSpec) : option ConfigSpec := (build blocked spec).1.2.
Example release_has_no_effect :
  option_map (fun spec => match rebuilt [] spec with Some spec => option_map (fun r => map ProcessNames (Rules r)) (cs_Routing spec) | None => None end)
    (rebuilt isolated Compile.demo_spec) = Some (Some [["evil.exe"%string]; []; []]).
Proof. by vm_compute. Qed.

(** For Xray the name of the process is compared with the users of the inbounds. *)
Example process_taken_for_user :
  Xray.rules_of Compile.demo_spec (quarantine_rule ["evil.exe"]%string) =
    [[("type", VString "field"); ("outboundTag", VString "block"); ("user", VStrings ["evil.exe"])]]%string.
Proof. by vm_compute. Qed.

(** A strict specification for Hysteria without any routing is refused because of the
    routing that the builder itself has added. *)
Definition hysteria_spec : ConfigSpec :=
  mkConfig CoreHysteria2 "" true (Some (set_Address "a.example" (set_Protocol ProtoHysteria2 empty_profile))) None [] None None "" "" "" "" "" "".
Example strict_hysteria_refused : (build [] hysteria_spec).1.1 = BuildFails StrictRejected.
Proof. by vm_compute. Qed.

(** For Xray the backups of a failover configuration are dropped. *)
Definition node_of (address : string) : ServerProfile := set_Port 443 (set_Address address (set_Protocol ProtoTrojan empty_profile)).
Example no_failover_for_xray :
  let config profiles := match (BuildFailoverClientConfig no_json demo_mirror no_rand ∅ [] profiles CoreXray 0 0 "").1 with Built r => Some (r_Config r) | _ => None end in
  config [node_of "a.example"; node_of "b.example"] = config [node_of "a.example"] /\ is_some (config [node_of "a.example"]) = true.
Proof. by vm_compute. Qed.

(** The name of a core that does not exist: a client is refused, a server is built for sing-box. *)
Example unknown_core :
  match (build [] (with_core "hysteria" Compile.demo_spec)).1.1, (BuildServerConfigFromSpec no_json demo_mirror no_rand (Some (with_core "hysteria" Compile.demo_spec))).1 with
  | BuildFails (Unsupported _), ServerConfig _ => true
  | _, _ => false
  end = true.
Proof. by vm_compute. Qed.
End Build.
