(* ===== verification/EventBus.v ===== *)
(** * Events (src/pkg/events/bus.go, event.go, codes.go)

    The bus keeps a bounded history and calls every listener of an event in a
    goroutine of its own; a listener is a name, and publishing returns the calls
    it starts. *)
From S2P Require Import Prelude GoStrings Bytes Ast.
Open Scope Z_scope.

Module EventBus.
Definition EventCategory : Type := string.
Definition CategoryCompileWarning : EventCategory := "COMPILE_WARNING".
Definition CategoryRuntimeError : EventCategory := "RUNTIME_ERROR".
Definition CategoryStateChange : EventCategory := "STATE_CHANGE".
Definition CategoryTrafficStats : EventCategory := "TRAFFIC_STATS".
Definition CategoryThreatBlocked : EventCategory := "THREAT_BLOCKED".
Definition CategoryDiagnostic : EventCategory := "DIAGNOSTIC".

Definition EventSeverity : Type := string.
Definition SeverityInfo : EventSeverity := "INFO".
Definition SeverityWarn : EventSeverity := "WARN".
Definition SeverityError : EventSeverity := "ERROR".
Definition SeverityFatal : EventSeverity := "FATAL".

Definition CodeThreatAppIsolated : string := "INFO_THREAT_APP_ISOLATED".
Definition ActionNone : string := "NONE".

Record SentinelEvent := mkEvent {
  EventID : string;
  Timestamp : Z;
  Category : EventCategory;
  Severity : EventSeverity;
  Code : string;
  Message : string;
  Context : jmap;
  SuggestedAction : string;
}.

(** [id]: the text of the eight random bytes. *)
Definition NewEvent (now : Z) (id : string) (category : EventCategory) (severity : EventSeverity)
    (code message : string) (context : jmap) (suggestedAction : string) : SentinelEvent :=
  mkEvent ("evt-" ^^ id) (Unix now) category severity code message context suggestedAction.

Record EventBus := mkBus {
  listeners : list nat;
  history : list SentinelEvent;
  maxHistory : Z;
}.

Definition NewEventBus (max : Z) : EventBus := mkBus [] [] (if max <=? 0 then 100 else max).

Definition Subscribe (b : EventBus) (listener : nat) : EventBus :=
  mkBus (listeners b ++ [listener]) (history b) (maxHistory b).

Definition Publish (b : EventBus) (event : SentinelEvent) : EventBus * list (nat * SentinelEvent) :=
  let h := if maxHistory b <=? len (history b) then drop 1 (history b) else history b in
  (mkBus (listeners b) (h ++ [event]) (maxHistory b), map (fun l => (l, event)) (listeners b)).

Definition GetHistory (b : EventBus) : list SentinelEvent := history b.

Definition ClearHistory (b : EventBus) : EventBus := mkBus (listeners b) [] (maxHistory b).

(** ** Runs *)

Inductive op := OpSubscribe (l : nat) | OpPublish (e : SentinelEvent) | OpClear.

Definition exec (b : EventBus) (o : op) : EventBus * list (nat * SentinelEvent) :=
  match o with
  | OpSubscribe l => (Subscribe b l, [])
  | OpPublish e => Publish b e
  | OpClear => (ClearHistory b, [])
  end.

Fixpoint run (b : EventBus) (tr : list op) : EventBus * list (nat * SentinelEvent) :=
  match tr with
  | [] => (b, [])
  | o :: tr =>
      let '(b, calls) := exec b o in
      let '(b, more) := run b tr in (b, calls ++ more)
  end.

(** What was published since the last clearing. *)
Fixpoint published (acc : list SentinelEvent) (tr : list op) : list SentinelEvent :=
  match tr with
  | [] => acc
  | OpPublish e :: tr => published (acc ++ [e]) tr
  | OpClear :: tr => published [] tr
  | _ :: tr => published acc tr
  end.

Definition wf (b : EventBus) : Prop := 1 <= maxHistory b /\ len (history b) <= maxHistory b.

Lemma publish_history b e : wf b -> history (Publish b e).1 = push_capped (maxHistory b) (history b) e.
Proof.
  intros [Hm Hl]. unfold Publish, push_capped, keep_last. cbn [fst history]. rewrite len_app, len_cons. change (len []) with 0.
  destruct (Z.leb_spec (maxHistory b) (len (history b))) as [H|H], (Z.ltb_spec (maxHistory b) (len (history b) + (0 + 1))); try lia; [|done].
  replace (Z.to_nat _) with 1%nat by lia. destruct (history b) eqn:E; [|done]. change (len []) with 0 in *. lia.
Qed.

Lemma bus_exec_wf b o : wf b -> wf (exec b o).1.
Proof.
  intros Hb. destruct o; [done | | split; [apply Hb | cbn; change (len []) with 0; destruct Hb; lia]].
  split; [apply Hb|]. cbn [exec]. rewrite publish_history by done. apply push_capped_bound. destruct Hb. cbn. lia.
Qed.

Lemma run_history tr : forall b, wf b -> forall acc, history b = keep_last (maxHistory b) acc ->
  history (run b tr).1 = keep_last (maxHistory b) (published acc tr).
Proof.
  induction tr as [|o tr IH]; intros b Hb acc Ha; [done|].
  pose proof (bus_exec_wf b o Hb) as Hw. pose proof Hb as [Hm _].
  assert (Hmax : maxHistory (exec b o).1 = maxHistory b) by by destruct o.
  assert (Hstep : history (exec b o).1 = keep_last (maxHistory b)
    (match o with OpPublish e => acc ++ [e] | OpClear => [] | _ => acc end)).
  { destruct o; [done | | by rewrite keep_last_all by (change (len []) with 0; lia)]. cbn [exec]. rewrite publish_history, Ha by done.
    unfold push_capped. by rewrite keep_last_app by lia. }
  cbn [run]. destruct (exec b o) as [b1 c1]. cbn [fst] in *. specialize (IH b1 Hw). rewrite Hmax in IH.
  destruct (run b1 tr) as [b2 c2]. cbn [fst] in *. rewrite (IH _ Hstep). by destruct o.
Qed.

(** The history is the end of what was published since it was last cleared. *)
Lemma history_is_recent max tr :
  let b := NewEventBus max in history (run b tr).1 = keep_last (maxHistory b) (published [] tr).
Proof.
  cbn zeta. assert (Hm : 1 <= maxHistory (NewEventBus max)) by (cbn; destruct (Z.leb_spec max 0); lia).
  apply run_history; [split; [done | change (len (history (NewEventBus max))) with 0; lia]|]. rewrite keep_last_all; [done|]. change (len []) with 0. lia.
Qed.
End EventBus.
