(* ===== verification/Integrity.v ===== *)
(** * Config integrity (src/pkg/security/integrity/sanitizer.go, zeroize.go, signature.go)

    Checks of endpoints, links and decoded configurations against request
    forgery and shell injection; signatures and checksums.  The order in which Go ranges over the maps of
    a configuration is the order of their entries. *)
From S2P Require Import Prelude GoStrings GoNet GoURL GoBase64 Ast.
Open Scope Z_scope.

Module Integrity.
Definition cloudMetadataIPs : list string := ["169.254.169.254"; "100.100.100.200"; "169.254.170.2"]%string.
Definition cloudMetadataHosts : list string := ["metadata.google.internal"; "metadata.goog"; "instance-data"]%string.

(** The characters of [dangerousExecPatterns]. *)
Definition dangerous_chars : string := string_of_bytes [59; 38; 124; 96; 36; 92].

Record Sanitizer := mkSanitizer { blockMetadata : bool }.
Definition NewSanitizer (blockMetadata : bool) : Sanitizer := mkSanitizer blockMetadata.

Definition is_metadata_host (lowerHost : string) : bool :=
  existsb (fun metaHost => (lowerHost =s metaHost) || HasSuffix lowerHost ("." ^^ metaHost)) cloudMetadataHosts.

Definition metadata_ip (ip : IP) : option string :=
  if bool_decide (ip = []) then None else List.find (fun metaIP => Equal ip (ParseIP metaIP)) cloudMetadataIPs.

(** [None]: the endpoint is safe. *)
Definition AuditEndpoint (s : Sanitizer) (host : string) (port : Z) : option string :=
  let trimmedHost := TrimSpace host in
  if trimmedHost =s "" then Some "host cannot be empty"%string
  else if (port <? 1) || (65535 <? port) then Some ("invalid port number: " ^^ Itoa port ^^ " (must be 1-65535)")
  else if HasPrefix trimmedHost "-" then Some ("host cannot start with hyphen: " ^^ Quote host)
  else if ContainsAny trimmedHost dangerous_chars then Some "host contains illegal shell injection characters"%string
  else if blockMetadata s then
    if is_metadata_host (ToLower trimmedHost)
    then Some ("SSRF violation: connection to cloud metadata domain '" ^^ host ^^ "' is prohibited")
    else match metadata_ip (ParseIP trimmedHost) with
         | Some metaIP => Some ("SSRF violation: connection to cloud metadata IP '" ^^ metaIP ^^ "' is prohibited")
         | None => None
         end
  else None.

Definition AuditURI (s : Sanitizer) (rawURI : string) : option string :=
  let trimmed := TrimSpace rawURI in
  if trimmed =s "" then Some "URI cannot be empty"%string
  else match url_Parse trimmed with
       | None => Some "malformed URI syntax"%string
       | Some u =>
           let portStr := Port u in
           if portStr =s "" then AuditEndpoint s (Hostname u) 443
           else match Atoi portStr with
                | Some port => AuditEndpoint s (Hostname u) port
                | None => Some ("invalid port in URI: " ^^ portStr)
                end
       end.

Definition is_address_key (key : string) : bool :=
  EqualFold key "server" || EqualFold key "address" || EqualFold key "host".

Definition audit_child (s : Sanitizer) (key : string) (child : value) : option string :=
  match child with
  | VString str => if is_address_key key then AuditEndpoint s str 443 else None
  | _ => None
  end.

(** The first error of the walk; the map's entries come in the order of the range. *)
Fixpoint walkAndInspect (s : Sanitizer) (val : value) : option string :=
  match val with
  | VMap m =>
      (fix walk m := match m with
       | [] => None
       | (key, child) :: m =>
           match audit_child s key child with
           | Some e => Some e
           | None => match walkAndInspect s child with Some e => Some e | None => walk m end
           end
       end) m
  | VList l =>
      (fix walk l := match l with
       | [] => None
       | elem :: l => match walkAndInspect s elem with Some e => Some e | None => walk l end
       end) l
  | _ => None
  end.

(** [None]: no error.  The decoding of JSON is an argument. *)
Definition SanitizeJSONConfig (unmarshal : string -> option jmap) (s : Sanitizer) (jsonConfig : string) : option string :=
  match unmarshal jsonConfig with
  | None => Some "invalid JSON config syntax"%string
  | Some obj => walkAndInspect s (VMap obj)
  end.

Definition ZeroizeBytes (b : list Z) : list Z := map (fun _ => 0) b.

(** ** What an accepted endpoint is *)

(** The endpoint, as it was accepted. *)
Definition safe_endpoint (block : bool) (host : string) (port : Z) : Prop :=
  let h := TrimSpace host in
  h <> ""%string /\ 1 <= port <= 65535 /\ HasPrefix h "-" = false /\ ContainsAny h dangerous_chars = false /\
  (block = true ->
     (forall m, m ∈ cloudMetadataHosts -> ToLower h <> m /\ forall sub, ToLower h <> (sub ^^ "." ^^ m)) /\
     (forall m, m ∈ cloudMetadataIPs -> Equal (ParseIP h) (ParseIP m) = false)).

Lemma is_metadata_host_spec h : is_metadata_host h = false <->
  forall m, m ∈ cloudMetadataHosts -> h <> m /\ forall sub, h <> (sub ^^ "." ^^ m).
Proof.
  unfold is_metadata_host. rewrite <- not_true_iff_false, existsb_exists. setoid_rewrite orb_true_iff. setoid_rewrite String.eqb_eq.
  setoid_rewrite HasSuffix_spec. setoid_rewrite <- list_elem_of_In. split.
  - intros H m Hm. split; [|intros sub]; intros E; apply H; exists m; eauto.
  - intros H (m & Hm & [E|[t E]]); destruct (H m Hm) as [H1 H2]; [done | by apply (H2 t)].
Qed.

Lemma metadata_ip_spec ip : metadata_ip ip = None <-> forall m, m ∈ cloudMetadataIPs -> Equal ip (ParseIP m) = false.
Proof.
  unfold metadata_ip. case_bool_decide as E.
  - rewrite E. split; [intros _ m|done]. unfold cloudMetadataIPs. rewrite !elem_of_cons. intros [->|[->|[->|H]]]; [done..|by apply elem_of_nil in H].
  - split.
    + intros H m Hm. apply not_true_iff_false. intros Ht. rewrite list_elem_of_In in Hm.
      by rewrite (List.find_none _ _ H m Hm) in Ht.
    + intros H. destruct (List.find _ _) as [m|] eqn:Ef; [|done]. apply List.find_some in Ef as [Hm Ht].
      rewrite H in Ht by by apply list_elem_of_In. done.
Qed.

Lemma AuditEndpoint_spec s host port : AuditEndpoint s host port = None <-> safe_endpoint (blockMetadata s) host port.
Proof.
  unfold AuditEndpoint, safe_endpoint. cbn zeta. rewrite <- is_metadata_host_spec, <- metadata_ip_spec.
  destruct (String.eqb_spec (TrimSpace host) "") as [E|E]; [split; [done | by intros []]|].
  destruct (Z.ltb_spec port 1), (Z.ltb_spec 65535 port); cbn [orb]; try (split; [done | lia]).
  destruct (HasPrefix _ "-"); [split; [done | naive_solver]|]. destruct (ContainsAny _ _); [split; [done | naive_solver]|].
  destruct (blockMetadata s); [|naive_solver lia]. destruct (is_metadata_host _) eqn:Em.
  - split; [done|]. intros (_ & _ & _ & _ & H3). by destruct H3.
  - destruct (metadata_ip _) eqn:Ei.
    + split; [done|]. intros (_ & _ & _ & _ & H3). by destruct H3.
    + naive_solver lia.
Qed.

(** A string stored under a key, at any depth. *)
Inductive occurs : value -> string -> string -> Prop :=
  | occurs_here m k s : (k, VString s) ∈ m -> occurs (VMap m) k s
  | occurs_map m j v k s : (j, v) ∈ m -> occurs v k s -> occurs (VMap m) k s
  | occurs_list l v k s : v ∈ l -> occurs v k s -> occurs (VList l) k s.

Definition all_safe (s : Sanitizer) (v : value) : Prop :=
  forall k str, occurs v k str -> is_address_key k = true -> AuditEndpoint s str 443 = None.

Lemma audit_child_spec s k v : audit_child s k v = None <->
  forall str, v = VString str -> is_address_key k = true -> AuditEndpoint s str 443 = None.
Proof. destruct v; cbn; try (split; done). destruct (is_address_key k); naive_solver. Qed.

Lemma all_safe_list s l : all_safe s (VList l) <-> Forall (all_safe s) l.
Proof.
  rewrite Forall_forall. split.
  - intros H v Hv k str Ho. apply H. by econstructor.
  - intros H k str Ho. inversion Ho; subst. by eapply H.
Qed.

Lemma all_safe_map s m : all_safe s (VMap m) <-> Forall (fun kv => audit_child s kv.1 kv.2 = None /\ all_safe s kv.2) m.
Proof.
  rewrite Forall_forall. split.
  - intros H [k v] Hv. cbn [fst snd]. split; [apply audit_child_spec; intros str -> | intros j str Ho]; apply H; [by constructor | by econstructor].
  - intros H k str Ho. inversion Ho as [m' k' s' Hin|m' j v k' s' Hin Hocc|]; subst.
    + destruct (H _ Hin) as [Hc _]. rewrite audit_child_spec in Hc. by apply Hc.
    + by apply (proj2 (H _ Hin)).
Qed.

Lemma walk_spec s v : walkAndInspect s v = None <-> all_safe s v.
Proof.
  induction v as [|b|z|q|str|l IH|m IH] using value_rect_nested; try (split; [intros _ k x Ho; inversion Ho | done]).
  - rewrite all_safe_list. induction IH as [|v l Hv _ IHl]; [by split|]. rewrite Forall_cons, <- Hv. cbn.
    destruct (walkAndInspect s v); [naive_solver|]. cbn in IHl. rewrite IHl. naive_solver.
  - rewrite all_safe_map. induction IH as [|[k v] m Hv _ IHm]; [by split|]. rewrite Forall_cons, <- Hv. cbn in *.
    destruct (audit_child s k v); [naive_solver|]. destruct (walkAndInspect s v); [naive_solver|]. rewrite IHm. naive_solver.
Qed.


(** The comment of the walk names [server_name] too; it is not looked at. *)
Lemma server_name_not_checked :
  walkAndInspect (NewSanitizer true) (VMap [("server_name", VString "metadata.google.internal")]%string) = None.
Proof. reflexivity. Qed.

(** A root dot hides a metadata host. *)
Lemma root_dot_accepted : AuditEndpoint (NewSanitizer true) "metadata.google.internal." 80 = None.
Proof. reflexivity. Qed.

(** A link that is accepted leads to a safe endpoint. *)
Lemma uri_accepted s rawURI : AuditURI s rawURI = None ->
  exists u port, url_Parse (TrimSpace rawURI) = Some u /\ safe_endpoint (blockMetadata s) (Hostname u) port /\
    (Port u = ""%string /\ port = 443 \/ Atoi (Port u) = Some port).
Proof.
  unfold AuditURI. cbn zeta. destruct (TrimSpace rawURI =s ""); [done|]. destruct (url_Parse _) as [u|]; [|done].
  destruct (String.eqb_spec (Port u) "") as [Ep|Ep].
  - intros H%AuditEndpoint_spec. exists u, 443. split_and!; [done | done | by left].
  - destruct (Atoi (Port u)) as [port|] eqn:Ea; [|done]. intros H%AuditEndpoint_spec. exists u, port. split_and!; [done | done | by right].
Qed.
End Integrity.

(** ** Signatures and checksums (signature.go)

    Ed25519, SHA-256 and HMAC belong to Go's library: a scheme of signatures is a class
    with the law the code relies on, the hashes are arguments, and so is what the generator
    of keys gives, [None] being its failure. *)
Module Signing.

(** ** A scheme of signatures *)
Class Scheme := { ed_sign : forall (private message : string), string;
                  ed_verify : forall (public message signature : string), bool;
                  (** the pairs of the generator *)
                  is_pair : string -> string -> Prop }.
Definition PublicKeySize : Z := 32.
Definition PrivateKeySize : Z := 64.
Class SchemeLaws `{Scheme} : Prop := {
  pair_sizes : forall public private, is_pair public private -> str_len public = PublicKeySize /\ str_len private = PrivateKeySize;
  verify_sign : forall public private m, is_pair public private -> ed_verify public m (ed_sign private m) = true }.

(** ** Hexadecimal text (encoding/hex) *)
Definition hex_of (a : ascii) : string := String (hex_digit_char (N_of_ascii a / 16)) (String (hex_digit_char (N_of_ascii a mod 16)) "").
Fixpoint hex_EncodeToString (s : string) : string := match s with EmptyString => "" | String a s => hex_of a ^^ hex_EncodeToString s end.
Definition fromHexChar (a : ascii) : option N :=
  let c := N_of_ascii a in
  if (48 <=? c)%N && (c <=? 57)%N then Some (c - 48)%N
  else if (97 <=? c)%N && (c <=? 102)%N then Some (c - 87)%N
  else if (65 <=? c)%N && (c <=? 70)%N then Some (c - 55)%N
  else None.
Fixpoint hex_DecodeString (s : string) : option string :=
  match s with
  | EmptyString => Some ""%string
  | String a (String b s) =>
      match fromHexChar a, fromHexChar b with
      | Some x, Some y => match hex_DecodeString s with Some t => Some (String (ascii_of_N (x * 16 + y)) t) | None => None end
      | _, _ => None
      end
  | String _ EmptyString => None
  end.

(** ** The operations; an error is its text *)
Definition ErrInvalidSignature : string := "cryptographic signature verification failed".
Definition ErrInvalidKey : string := "invalid public/private key length or format".
Definition key_error (expected : Z) (key : string) : string :=
  ErrInvalidKey ^^ ": expected " ^^ Itoa expected ^^ " bytes, got " ^^ Itoa (str_len key).
Definition GenerateEd25519KeyPair (generated : string + string * string) : string + string * string :=
  match generated with
  | inl err => inl ("failed to generate ed25519 keypair: " ^^ err)
  | inr (pub, priv) => inr (EncodeToString StdEncoding pub, EncodeToString StdEncoding priv)
  end.

Section Operations.
Context `{Scheme} (sha256 : string -> string) (hmac_sha256 : string -> string -> string) (decode_error : string -> string).

(** [decode_error] is the library's text of why a text is not base64. *)
Definition SignPayloadEd25519 (payload privKeyB64 : string) : string + string :=
  match DecodeString StdEncoding privKeyB64 with
  | None => inl ("failed to decode ed25519 private key: " ^^ decode_error privKeyB64)
  | Some privKeyBytes =>
      if negb (str_len privKeyBytes =? PrivateKeySize) then inl (key_error PrivateKeySize privKeyBytes)
      else inr (EncodeToString StdEncoding (ed_sign privKeyBytes payload))
  end.
(** [None]: the signature is good. *)
Definition VerifyPayloadEd25519 (payload signatureB64 pubKeyB64 : string) : option string :=
  match DecodeString StdEncoding pubKeyB64 with
  | None => Some ("failed to decode ed25519 public key: " ^^ decode_error pubKeyB64)
  | Some pubKeyBytes =>
      if negb (str_len pubKeyBytes =? PublicKeySize) then Some (key_error PublicKeySize pubKeyBytes)
      else match DecodeString StdEncoding signatureB64 with
           | None => Some ("failed to decode signature: " ^^ decode_error signatureB64)
           | Some sigBytes => if negb (ed_verify pubKeyBytes payload sigBytes) then Some ErrInvalidSignature else None
           end
  end.
Definition ComputeHMACSHA256 (payload secretKey : string) : string := hex_EncodeToString (hmac_sha256 secretKey payload).
Definition VerifyHMACSHA256 (payload expectedHexMAC secretKey : string) : bool :=
  match hex_DecodeString expectedHexMAC with
  | None => false
  | Some expectedBytes => hmac_sha256 secretKey payload =s expectedBytes
  end.
Definition ComputePayloadChecksum (payload : string) : string := hex_EncodeToString (sha256 payload).
Definition IsValidChecksum (payload expectedChecksumHex : string) : bool :=
  EqualFold (ComputePayloadChecksum payload) (TrimSpace expectedChecksumHex).
End Operations.

(** ** Hexadecimal text is read in either case *)
Lemma ascii_all (P : ascii -> Prop) : Forall P (map ascii_of_nat (seq 0 256)) -> forall a, P a.
Proof.
  intros HP a. rewrite Forall_forall in HP. apply HP, list_elem_of_In, in_map_iff. exists (nat_of_ascii a). split; [apply ascii_nat_embedding|].
  apply in_seq. pose proof (nat_ascii_bounded a). lia.
Qed.
Definition hex_char_ok (a : ascii) : bool :=
  match fromHexChar a with
  | Some x => (x <? 16)%N && Ascii.eqb (lower_char a) (hex_digit_char x)
  | None => forallb (fun v => negb (Ascii.eqb (lower_char a) (hex_digit_char (N.of_nat v)))) (seq 0 16)
  end.
Lemma hex_chars a : hex_char_ok a = true.
Proof. revert a. apply ascii_all, Forall_forall. intros a Ha. apply list_elem_of_In in Ha. revert a Ha. by apply List.forallb_forall; vm_compute. Qed.
Lemma digit_read v : (v < 16)%N -> fromHexChar (hex_digit_char v) = Some v.
Proof.
  intros Hv. assert (F : forallb (fun v => match fromHexChar (hex_digit_char (N.of_nat v)) with Some x => (x =? N.of_nat v)%N | None => false end) (seq 0 16) = true) by by vm_compute.
  rewrite forallb_forall in F. specialize (F (N.to_nat v) ltac:(apply in_seq; lia)). rewrite N2Nat.id in F. destruct (fromHexChar _); [|done]. by apply N.eqb_eq in F as ->.
Qed.
Lemma fromHexChar_bound a x : fromHexChar a = Some x -> (x < 16)%N.
Proof. intros E. pose proof (hex_chars a) as Ha. unfold hex_char_ok in Ha. rewrite E in Ha. apply andb_true_iff in Ha as [Ha _]. by apply N.ltb_lt. Qed.
Lemma fromHexChar_spec a v : (v < 16)%N -> (lower_char a = hex_digit_char v <-> fromHexChar a = Some v).
Proof.
  intros Hv. pose proof (hex_chars a) as Ha. unfold hex_char_ok in Ha. destruct (fromHexChar a) as [x|] eqn:Ex.
  - apply andb_true_iff in Ha as [_ Ha]. apply Ascii.eqb_eq in Ha. rewrite Ha. split; [|by intros [= ->]]. intros E. f_equal.
    pose proof (digit_read x (fromHexChar_bound _ _ Ex)) as D. rewrite E, digit_read in D by done. congruence.
  - split; [|done]. intros E. rewrite forallb_forall in Ha. specialize (Ha (N.to_nat v) ltac:(apply in_seq; lia)).
    rewrite N2Nat.id, E, Ascii.eqb_refl in Ha. done.
Qed.
Lemma byte_halves c x y : (x < 16)%N -> (y < 16)%N -> ascii_of_N (x * 16 + y) = c <-> x = (N_of_ascii c / 16)%N /\ y = (N_of_ascii c mod 16)%N.
Proof.
  intros Hx Hy. split.
  - intros <-. rewrite N_ascii_embedding by lia. split; [apply (N.div_unique _ _ _ y); lia|apply (N.mod_unique _ _ x); lia].
  - intros [-> ->]. rewrite (N.mul_comm (_ / _)), <- N.div_mod by done. apply ascii_N_embedding.
Qed.
(** A text decodes to the bytes whose encoding it is, up to case. *)
Lemma hex_decode_spec s t : hex_DecodeString s = Some t <-> ToLower s = hex_EncodeToString t.
Proof.
  revert s. induction t as [|c t IH]; intros [|a [|b s]]; try (by split); cbn [hex_DecodeString hex_EncodeToString ToLower str_map].
  - destruct (fromHexChar a), (fromHexChar b), (hex_DecodeString s); by split.
  - pose proof (N_of_ascii_lt c) as Hc. pose proof (N.Div0.div_lt_upper_bound (N_of_ascii c) 16 16 ltac:(lia)) as Hh. pose proof (N.mod_lt (N_of_ascii c) 16 ltac:(done)) as Hm.
    specialize (IH s). fold (ToLower s). unfold hex_of. cbn [String.append].
    assert (E : String (lower_char a) (String (lower_char b) (ToLower s)) = String (hex_digit_char (N_of_ascii c / 16)) (String (hex_digit_char (N_of_ascii c mod 16)) (hex_EncodeToString t))
      <-> fromHexChar a = Some (N_of_ascii c / 16)%N /\ fromHexChar b = Some (N_of_ascii c mod 16)%N /\ hex_DecodeString s = Some t).
    { rewrite <- !fromHexChar_spec, IH by done. split; [by intros [= -> -> ->]|by intros (-> & -> & ->)]. }
    rewrite E. clear E IH. destruct (fromHexChar a) as [x|] eqn:Ex; [|split; [done|by intros (? & _)]].
    destruct (fromHexChar b) as [y|] eqn:Ey; [|split; [done|by intros (_ & ? & _)]].
    apply fromHexChar_bound in Ex, Ey. destruct (hex_DecodeString s) as [u|]; [|split; [done|by intros (_ & _ & ?)]].
    pose proof (byte_halves c x y Ex Ey) as Hb. split; [intros [= Hc' ->]; apply Hb in Hc' as [-> ->]; done|].
    intros ([= ->] & [= ->] & [= ->]). do 2 f_equal. by apply Hb.
Qed.
Lemma hex_encode_lower t : ToLower (hex_EncodeToString t) = hex_EncodeToString t.
Proof. 
  induction t as [|c t IH]; [done|]. cbn [hex_EncodeToString]. rewrite ToLower_app, IH. f_equal. unfold hex_of, ToLower. cbn [str_map].
  pose proof (N_of_ascii_lt c) as Hc. pose proof (N.Div0.div_lt_upper_bound (N_of_ascii c) 16 16 ltac:(lia)) as Hh. pose proof (N.mod_lt (N_of_ascii c) 16 ltac:(done)) as Hm.
  rewrite (proj2 (fromHexChar_spec _ _ Hh)) by by apply digit_read. by rewrite (proj2 (fromHexChar_spec _ _ Hm)) by by apply digit_read.
Qed.
Lemma hex_roundtrip t : hex_DecodeString (hex_EncodeToString t) = Some t.
Proof. apply hex_decode_spec, hex_encode_lower. Qed.

(** ** What the operations accept *)
Section Accepted.
Context `{SchemeLaws} (sha256 : string -> string) (hmac_sha256 : string -> string -> string) (decode_error : string -> string).

(** A signature by the generator's private key is good under its public key, and only
    one that the scheme accepts is. *)
Lemma signed_verifies pub priv payload : is_pair pub priv ->
  exists pub64 priv64 sig, GenerateEd25519KeyPair (inr (pub, priv)) = inr (pub64, priv64) /\ SignPayloadEd25519 decode_error payload priv64 = inr sig /\
    VerifyPayloadEd25519 decode_error payload sig pub64 = None.
Proof using Type*.
  intros Hp. destruct (pair_sizes _ _ Hp) as [Hpub Hpriv]. exists (EncodeToString StdEncoding pub), (EncodeToString StdEncoding priv), (EncodeToString StdEncoding (ed_sign priv payload)).
  split; [done|]. unfold SignPayloadEd25519, VerifyPayloadEd25519.
  rewrite !(decode_encode StdEncoding), Hpub, Hpriv. split; [done|]. by rewrite (verify_sign pub priv payload Hp).
Qed.

(** What is signed verifies, and a tag is accepted exactly when it is the tag: a
    signature made with a generated private key is good under its public key; a text is
    accepted as the authentication tag of a payload exactly when it is, up to the case of
    its letters, the computed one, and as its checksum exactly when it is that up to case
    and surrounding spaces, whatever else the text may be. *)
Theorem tags_exact payload key text pub priv :
  (VerifyHMACSHA256 hmac_sha256 payload text key = true <-> ToLower text = ComputeHMACSHA256 hmac_sha256 payload key) /\
  (IsValidChecksum sha256 payload text = true <-> ToLower (TrimSpace text) = ComputePayloadChecksum sha256 payload) /\
  (is_pair pub priv -> exists pub64 priv64 sig, GenerateEd25519KeyPair (inr (pub, priv)) = inr (pub64, priv64) /\
     SignPayloadEd25519 decode_error payload priv64 = inr sig /\ VerifyPayloadEd25519 decode_error payload sig pub64 = None).
Proof using Type*.
  split; [|split; [|apply signed_verifies]].
  - unfold VerifyHMACSHA256, ComputeHMACSHA256. rewrite <- hex_decode_spec. destruct (hex_DecodeString text) as [t|]; [|done]. rewrite String.eqb_eq. naive_solver.
  - unfold IsValidChecksum, EqualFold, ComputePayloadChecksum. rewrite hex_encode_lower, String.eqb_eq. naive_solver.
Qed.
End Accepted.

(** A toy scheme, of which the laws hold. *)
#[local] Instance demo_scheme : Scheme :=
  {| ed_sign priv m := str_drop 32 priv ^^ m; ed_verify pub m s := s =s (pub ^^ m); is_pair pub priv := str_len pub = 32 /\ str_len priv = 64 /\ str_drop 32 priv = pub |}.
#[local] Instance demo_scheme_laws : SchemeLaws.
Proof. split; [by intros ? ? (? & ? & _)|]. intros pub priv m (_ & _ & <-). apply String.eqb_refl. Qed.
Definition demo_public : string := "0123456789abcdef0123456789abcdef".
Definition demo_private : string := "ABCDEFGHIJKLMNOPABCDEFGHIJKLMNOP0123456789abcdef0123456789abcdef".
Lemma tags_exact_witness : is_pair demo_public demo_private /\
  exists pub64 priv64 sig, GenerateEd25519KeyPair (inr (demo_public, demo_private)) = inr (pub64, priv64) /\
    SignPayloadEd25519 id "rules" priv64 = inr sig /\ VerifyPayloadEd25519 id "rules" sig pub64 = None.
Proof.
  assert (Hp : is_pair demo_public demo_private) by by vm_compute. split; [exact Hp|].
  exact (proj2 (proj2 (tags_exact id (fun k m => k ^^ m) id "rules" "key" "6B65" demo_public demo_private)) Hp).
Defined.

(** Spaces around a checksum are forgiven, around a tag they are not. *)
Example spaces_in_checksum : IsValidChecksum id "J" " 4a " = true /\ VerifyHMACSHA256 (fun _ m => m) "J" " 4a" "key" = false /\
  VerifyHMACSHA256 (fun _ m => m) "J" "4A" "key" = true.
Proof. by vm_compute. Qed.
(** The errors, in the order of the checks. *)
Example errors_in_order : VerifyPayloadEd25519 (fun _ => "illegal") "p" "?" "?" = Some "failed to decode ed25519 public key: illegal"%string /\
  VerifyPayloadEd25519 (fun _ => "illegal") "p" "?" "QUJD" = Some "invalid public/private key length or format: expected 32 bytes, got 3"%string /\
  VerifyPayloadEd25519 (fun _ => "illegal") "p" "QUJD" (EncodeToString StdEncoding demo_public) = Some ErrInvalidSignature.
Proof. by vm_compute. Qed.
End Signing.
