(* ===== verification/SecurityConfig.v ===== *)
(** * The security configuration and its routing rules
    (src/pkg/security/config.go, compiler.go, ports_catalog.go)

    Numbers of requests per second are [float64]s, here any arithmetic ([Arith]).
    The settings page is in SettingsForm.v. *)
From S2P Require Import Prelude GoStrings GoFloat Ast ThreatEngine.
Open Scope Z_scope.

Module SecurityConfig.
Definition PortAction : Type := string.
Definition PortActionAlert : PortAction := "alert".
Definition PortActionBlock : PortAction := "block".
Definition PortActionKill : PortAction := "kill".

Record PortGuardConfig := mkPortGuard {
  pg_Enabled : bool;
  pg_SensitivePorts : list Z;
  pg_Action : PortAction;
  pg_ScanThreshold : Z;
  pg_ScanWindowSeconds : Z;
  pg_AutoBanScanner : bool;
}.

Record RateLimiterConfig (F : Type) := mkRateLimiter {
  rl_Enabled : bool;
  rl_RequestsPerSecond : F;
  rl_Burst : Z;
  rl_BanThresholdViolations : Z;
  rl_BanDurationSeconds : Z;
}.
Arguments mkRateLimiter {F}.
Arguments rl_Enabled {F}.
Arguments rl_RequestsPerSecond {F}.
Arguments rl_Burst {F}.
Arguments rl_BanThresholdViolations {F}.
Arguments rl_BanDurationSeconds {F}.

Record KillSwitchConfig := mkKillSwitch {
  ks_Enabled : bool;
  ks_BlockIPv6 : bool;
  ks_AllowLocalLAN : bool;
  ks_StrictDNS : bool;
  ks_AllowedSubnets : list string;
}.

Record IntegrityConfig := mkIntegrity {
  in_SanitizeConfigs : bool;
  in_BlockCloudMetadata : bool;
  in_VerifySignatures : bool;
  in_ZeroizeOnDrop : bool;
}.

Record FilterConfig := mkFilter {
  fl_Enabled : bool;
  fl_BlockMalware : bool;
  fl_BlockPhishing : bool;
  fl_BlockMiners : bool;
  fl_BlockAds : bool;
  fl_CustomBlockedDomains : list string;
  fl_CustomAllowedDomains : list string;
  fl_CustomBlockedIPs : list string;
}.

Record WhitelistConfig := mkWhitelist { wl_Processes : list string; wl_IPs : list string }.

Record SecurityConfig (F : Type) := mkConfig {
  Enabled : bool;
  PortGuard : PortGuardConfig;
  RateLimiter : RateLimiterConfig F;
  KillSwitch : KillSwitchConfig;
  Integrity : IntegrityConfig;
  Filter : FilterConfig;
  Whitelist : WhitelistConfig;
}.
Arguments mkConfig {F}.
Arguments Enabled {F}.
Arguments PortGuard {F}.
Arguments RateLimiter {F}.
Arguments KillSwitch {F}.
Arguments Integrity {F}.
Arguments Filter {F}.
Arguments Whitelist {F}.

Section config.
Context {F : Type} `{Arith F}.

Definition DefaultSecurityConfig : SecurityConfig F := {|
  Enabled := true;
  PortGuard := mkPortGuard true [22; 3389; 8006; 5432; 3306; 27017; 6379; 2375; 2376] PortActionBlock 5 10 true;
  RateLimiter := mkRateLimiter true (f_of_Z 50) 100 20 300;
  KillSwitch := mkKillSwitch true true true true ["10.0.0.0/8"; "172.16.0.0/12"; "192.168.0.0/16"; "127.0.0.0/8"]%string;
  Integrity := mkIntegrity true true false true;
  Filter := mkFilter true true true true false [] [] [];
  Whitelist := mkWhitelist
    ["sentinel-core"; "sentinel-core.exe"; "sing-box"; "sing-box.exe"; "xray"; "xray.exe"; "hysteria"; "hysteria.exe";
     "ansible"; "ansible-playbook"; "pveproxy"; "sshd"; "dockerd"]%string
    ["127.0.0.1"; "::1"]%string;
|}.

Inductive config_error :=
  | BadRate (rps : F) | BadBurst (burst : Z) | BadThreshold (threshold : Z) | BadAction (action : PortAction).

Definition set_action (c : SecurityConfig F) (a : PortAction) : SecurityConfig F :=
  let p := PortGuard c in
  mkConfig (Enabled c)
    (mkPortGuard (pg_Enabled p) (pg_SensitivePorts p) a (pg_ScanThreshold p) (pg_ScanWindowSeconds p) (pg_AutoBanScanner p))
    (RateLimiter c) (KillSwitch c) (Integrity c) (Filter c) (Whitelist c).

(** The configuration, with the action filled in, or the error. *)
Definition Validate (c : SecurityConfig F) : SecurityConfig F + config_error :=
  if f_le (rl_RequestsPerSecond (RateLimiter c)) (f_of_Z 0) then inr (BadRate (rl_RequestsPerSecond (RateLimiter c)))
  else if rl_Burst (RateLimiter c) <=? 0 then inr (BadBurst (rl_Burst (RateLimiter c)))
  else if pg_ScanThreshold (PortGuard c) <=? 0 then inr (BadThreshold (pg_ScanThreshold (PortGuard c)))
  else
    let a := pg_Action (PortGuard c) in
    if (a =s PortActionAlert) || (a =s PortActionBlock) || (a =s PortActionKill) then inl c
    else if a =s "" then inl (set_action c PortActionBlock)
    else inr (BadAction a).

(** [decode]: the decoding of JSON over a default configuration; its error is [None]. *)
Definition FromJSON (decode : string -> SecurityConfig F -> option (SecurityConfig F)) (jsonStr : string)
    : option (SecurityConfig F + config_error) :=
  if TrimSpace jsonStr =s "" then Some (inl DefaultSecurityConfig)
  else c ← decode jsonStr DefaultSecurityConfig; Some (Validate c).

(** ** The rules injected before the user's (compiler.go) *)

Definition block_rule (domains ips ports users : list string) : RoutingRule :=
  mkRule ActionBlock "block" domains ips ports [] [] users [] [] [] 0.

Definition metadata_rule : RoutingRule :=
  block_rule ["domain:metadata.google.internal"; "domain:metadata.goog"; "domain:instance-data"]%string
    ["169.254.169.254"; "100.100.100.200"; "169.254.170.2"]%string [] [].

Definition as_domains (ds : list string) : list string := map (fun d => "domain:" ^^ d) ds.

Definition blocked_domains (f : FilterConfig) : list string :=
  (if fl_BlockMalware f then as_domains ThreatEngine.DefaultMalwareDomains else []) ++
  (if fl_BlockPhishing f then as_domains ThreatEngine.DefaultPhishingDomains else []) ++
  (if fl_BlockMiners f then as_domains ThreatEngine.DefaultMinerDomains else []) ++
  (if fl_BlockAds f then ["geosite:category-ads-all"%string] else []) ++
  as_domains (fl_CustomBlockedDomains f).

Definition securityRules (cfg : SecurityConfig F) (quarantinedUsers : list string) : list RoutingRule :=
  (if nonempty quarantinedUsers then [block_rule [] [] [] quarantinedUsers] else []) ++
  (if in_BlockCloudMetadata (Integrity cfg) then [metadata_rule] else []) ++
  (if pg_Enabled (PortGuard cfg) && nonempty (pg_SensitivePorts (PortGuard cfg))
   then [block_rule [] [] (map Itoa (pg_SensitivePorts (PortGuard cfg))) []] else []) ++
  (if fl_Enabled (Filter cfg) then
     let ds := blocked_domains (Filter cfg) in
     if nonempty ds || nonempty (fl_CustomBlockedIPs (Filter cfg))
     then [block_rule ds (fl_CustomBlockedIPs (Filter cfg)) [] []] else []
   else []).

Definition InjectSecurityRules (baseRouting : option RoutingSpec) (cfg : SecurityConfig F) (quarantinedUsers : list string)
    : RoutingSpec :=
  let base := match baseRouting with Some r => r | None => mkSpec ActionProxy [] [] false false [] end in
  mkSpec (DefaultAction base) (securityRules cfg quarantinedUsers ++ Rules base) (Outbounds base)
    (AutoDetectInterface base) (OverrideDNS base) (RuleSets base).

(** ** Valid configurations *)

Definition valid (c : SecurityConfig F) : Prop :=
  f_le (rl_RequestsPerSecond (RateLimiter c)) (f_of_Z 0) = false /\ 0 < rl_Burst (RateLimiter c) /\
  0 < pg_ScanThreshold (PortGuard c) /\ pg_Action (PortGuard c) ∈ [PortActionAlert; PortActionBlock; PortActionKill].

(** An accepted configuration is valid, differs from the given one at most in an
    action that was empty, and is accepted as it is. *)
Lemma validate_valid c c' : Validate c = inl c' ->
  valid c' /\ Validate c' = inl c' /\ (c' = c \/ pg_Action (PortGuard c) = ""%string /\ c' = set_action c PortActionBlock).
Proof.
  unfold Validate, valid. cbn zeta.
  destruct (f_le _ _) eqn:E1; [done|]. destruct (Z.leb_spec (rl_Burst (RateLimiter c)) 0) as [|E2]; [done|].
  destruct (Z.leb_spec (pg_ScanThreshold (PortGuard c)) 0) as [|E3]; [done|].
  destruct (_ || _ || _) eqn:Ea.
  - intros [= <-]. split_and!; [done | done | done | | | by left].
    + apply orb_true_iff in Ea as [Ea|Ea%String.eqb_eq]; [apply orb_true_iff in Ea as [Ea%String.eqb_eq|Ea%String.eqb_eq]|];
        rewrite Ea, !elem_of_cons; auto.
    + rewrite E1, Ea. by rewrite (proj2 (Z.leb_gt _ _) E2), (proj2 (Z.leb_gt _ _) E3).
  - destruct (String.eqb_spec (pg_Action (PortGuard c)) "") as [E0|]; [|done]. intros [= <-]. cbn.
    split_and!; [done | done | done | rewrite !elem_of_cons; auto | | by right].
    rewrite E1. by rewrite (proj2 (Z.leb_gt _ _) E2), (proj2 (Z.leb_gt _ _) E3).
Qed.
End config.
End SecurityConfig.
