(* ===== verification/Journal.v ===== *)
(** * The threat journal (src/pkg/security/threat_journal.go)

    One line of JSON per incident, in a file that is moved aside when it is
    large.  The files are their contents; whether a step of the file system
    succeeds is an argument, and so are the encoder and decoder of JSON. *)
From S2P Require Import Prelude GoStrings RiskTracker.
Open Scope Z_scope.

Module Journal.
Record ThreatRecord := mkRecord {
  Timestamp : Z;
  r_NodeID : string;
  EventType : string;
  ThreatCategory : string;
  r_ClientID : string;
  ClientAliases : list string;
  r_RiskScore : Z;
  r_Status : string;
  Target : string;
  Reason : string;
  ActionTaken : string;
}.

(** [file] and [backup]: the contents of the journal and of its [.1] file, if they
    exist. *)
Record ThreatJournal := mkJournal {
  filePath : string;
  nodeID : string;
  maxSize : Z;
  file : option string;
  backup : option string;
}.

Definition NewThreatJournal (path node hostname tempDir : string) (mkdir_ok : bool) (file backup : option string)
    : option ThreatJournal :=
  if mkdir_ok then
    Some (mkJournal (if path =s "" then JoinPath [tempDir; "sentinel-threats.jsonl"%string] else path)
      (if node =s "" then hostname else node) (10 * 1024 * 1024) file backup)
  else None.

Definition status_text (s : RiskTracker.ClientStatus) : string :=
  match s with
  | RiskTracker.StatusClean => "CLEAN"
  | RiskTracker.StatusSuspicious => "SUSPICIOUS"
  | RiskTracker.StatusCompromised => "COMPROMISED"
  | RiskTracker.StatusQuarantined => "QUARANTINED"
  end.

Section journal.
Context (marshal : ThreatRecord -> string) (unmarshal : string -> option ThreatRecord).

(** [removed], [renamed]: whether the old backup could be removed, and the file
    renamed. *)
Definition rotateIfNeeded (removed renamed : bool) (j : ThreatJournal) : ThreatJournal :=
  match file j with
  | Some content =>
      if str_len content <? maxSize j then j
      else if renamed then mkJournal (filePath j) (nodeID j) (maxSize j) None (Some content)
      else mkJournal (filePath j) (nodeID j) (maxSize j) (file j) (if removed then None else backup j)
  | None => j
  end.

Definition append_line (j : ThreatJournal) (line : string) : ThreatJournal :=
  let old := match file j with Some c => c | None => "" end in
  mkJournal (filePath j) (nodeID j) (maxSize j) (Some (old ^^ line)) (backup j).

Definition newline : ascii := ascii_of_N 10.
Definition return_char : ascii := ascii_of_N 13.

(** [opened]: whether the file could be opened; a short write is not modelled. *)
Definition LogIncident (now : Z) (removed renamed opened : bool) (j : ThreatJournal) (eventType category clientID : string)
    (aliases : list string) (score : Z) (status : RiskTracker.ClientStatus) (target reason actionTaken : string)
    : ThreatJournal * bool :=
  let rec := mkRecord (Unix now) (nodeID j) eventType category clientID aliases score (status_text status) target reason actionTaken in
  let j := rotateIfNeeded removed renamed j in
  if opened then (append_line j (marshal rec ^^ String newline ""), true) else (j, false).

(** The lines of the file: carriage returns dropped, empty lines left out. *)
Fixpoint lines_of (content current : string) : list string :=
  match content with
  | EmptyString => if current =s "" then [] else [current]
  | String b content =>
      if Ascii.eqb b newline then
        if current =s "" then lines_of content "" else current :: lines_of content ""
      else if Ascii.eqb b return_char then lines_of content current
      else lines_of content (current ^^ String b "")
  end.

(** [None]: the file could not be read. *)
Definition ReadRecentRecords (readable : bool) (j : ThreatJournal) (maxLines : Z) : option (list ThreatRecord) :=
  match file j with
  | None => Some []
  | Some content =>
      if readable then
        let lines := lines_of content "" in
        let start := if (0 <? maxLines) && (maxLines <? len lines) then len lines - maxLines else 0 in
        Some (omap unmarshal (drop (Z.to_nat start) lines))
      else None
  end.

(** ** Reading back what was written *)

Definition is_line (s : string) : Prop := s <> ""%string /\ str_exists (fun a => Ascii.eqb a newline || Ascii.eqb a return_char) s = false.

Lemma lines_of_line s rest current : str_exists (fun a => Ascii.eqb a newline || Ascii.eqb a return_char) s = false ->
  lines_of (s ^^ rest) current = lines_of rest (current ^^ s).
Proof.
  revert current. induction s as [|a s IH]; intros current Hs; [by rewrite str_app_nil_r|].
  cbn [str_exists] in Hs. apply orb_false_iff in Hs as [Ha Hs]. apply orb_false_iff in Ha as [Hn Hr]. cbn [String.append lines_of].
  rewrite Hn, Hr, IH by done. f_equal. by rewrite str_app_assoc.
Qed.

Lemma lines_of_first s rest : is_line s -> lines_of (s ^^ String newline rest) "" = s :: lines_of rest "".
Proof.
  intros [Hne Hs]. rewrite lines_of_line by done. cbn [String.append lines_of]. rewrite Ascii.eqb_refl.
  by rewrite (proj2 (String.eqb_neq _ _) Hne).
Qed.

(** A file whose content is the given lines, each ended. *)
Definition holds (content : string) (lines : list string) : Prop :=
  forall rest, lines_of (content ^^ rest) "" = lines ++ lines_of rest "".

Lemma holds_empty : holds "" [].
Proof. done. Qed.

Lemma holds_append content lines s : holds content lines -> is_line s ->
  holds (content ^^ s ^^ String newline "") (lines ++ [s]).
Proof.
  intros Hc Hs rest. rewrite str_app_assoc, Hc, str_app_assoc. cbn [String.append]. rewrite lines_of_first by done.
  by rewrite <- app_assoc.
Qed.

Lemma holds_lines content lines : holds content lines -> lines_of content "" = lines.
Proof. intros H. specialize (H ""%string). rewrite str_app_nil_r, app_nil_r in H. exact H. Qed.

(** ** Runs *)

(** One call: the clock, the outcomes of the file system, and the record's data. *)
Record call := mkCall {
  c_now : Z; c_removed : bool; c_renamed : bool; c_opened : bool;
  c_event : string; c_category : string; c_client : string; c_aliases : list string; c_score : Z;
  c_status : RiskTracker.ClientStatus; c_target : string; c_reason : string; c_action : string;
}.

Definition record_of (node : string) (c : call) : ThreatRecord :=
  mkRecord (Unix (c_now c)) node (c_event c) (c_category c) (c_client c) (c_aliases c) (c_score c)
    (status_text (c_status c)) (c_target c) (c_reason c) (c_action c).

Definition log (j : ThreatJournal) (c : call) : ThreatJournal :=
  (LogIncident (c_now c) (c_removed c) (c_renamed c) (c_opened c) j (c_event c) (c_category c) (c_client c) (c_aliases c)
    (c_score c) (c_status c) (c_target c) (c_reason c) (c_action c)).1.

Definition written (node : string) (cs : list call) : list ThreatRecord := map (record_of node) (List.filter c_opened cs).

(** What the theorem asks of the encoder: a record is one line, and is decoded to
    itself. *)
Definition faithful (r : ThreatRecord) : Prop := is_line (marshal r) /\ unmarshal (marshal r) = Some r.

Definition content_of (f : option string) : string := match f with Some c => c | None => "" end.

Definition keeps (j : ThreatJournal) (recs : list ThreatRecord) : Prop := exists older old cur,
  recs = older ++ old ++ cur /\ holds (content_of (file j)) (map marshal cur) /\ holds (content_of (backup j)) (map marshal old).

Lemma keeps_rotate removed renamed j recs : keeps j recs -> keeps (rotateIfNeeded removed renamed j) recs.
Proof.
  intros (older & old & cur & -> & Hf & Hb). assert (Hj : keeps j (older ++ old ++ cur)) by by exists older, old, cur.
  unfold rotateIfNeeded. destruct (file j) as [content|] eqn:E; [|done]. destruct (_ <? _); [done|]. destruct renamed.
  - exists (older ++ old), cur, []. split; [by rewrite app_nil_r, app_assoc|]. by split.
  - destruct removed; [|exists older, old, cur; by split_and!].
    exists (older ++ old), [], cur. by rewrite <- app_assoc.
Qed.

Lemma rotate_node removed renamed j : nodeID (rotateIfNeeded removed renamed j) = nodeID j.
Proof. unfold rotateIfNeeded. destruct (file j); [|done]. destruct (_ <? _); [done|]. by destruct renamed. Qed.

Lemma keeps_append j recs r : keeps j recs -> faithful r ->
  keeps (append_line j (marshal r ^^ String newline "")) (recs ++ [r]).
Proof.
  intros (older & old & cur & -> & Hf & Hb) [Hl _]. exists older, old, (cur ++ [r]). split_and!; [by rewrite <- !app_assoc | | done].
  rewrite map_app. by apply holds_append.
Qed.

Lemma keeps_log j recs c : keeps j recs -> (c_opened c = true -> faithful (record_of (nodeID j) c)) ->
  keeps (log j c) (recs ++ (if c_opened c then [record_of (nodeID j) c] else [])) /\ nodeID (log j c) = nodeID j.
Proof.
  intros Hk Hf. apply (keeps_rotate (c_removed c) (c_renamed c)) in Hk. unfold log, LogIncident. cbn zeta.
  destruct (c_opened c); cbn [fst]; [|rewrite app_nil_r; split; [done | apply rotate_node]].
  split; [apply keeps_append; auto | apply rotate_node].
Qed.

Lemma keeps_run cs : forall j recs, keeps j recs -> Forall faithful (written (nodeID j) cs) ->
  keeps (foldl log j cs) (recs ++ written (nodeID j) cs).
Proof.
  induction cs as [|c cs IH]; intros j recs Hk Hf; [by rewrite app_nil_r|]. cbn [foldl].
  assert (Hw : written (nodeID j) (c :: cs) = (if c_opened c then [record_of (nodeID j) c] else []) ++ written (nodeID j) cs)
    by (unfold written; cbn; by destruct (c_opened c)).
  rewrite Hw in *. apply Forall_app in Hf as [Hc Hcs].
  destruct (keeps_log j recs c Hk) as [H1 H2]; [intros Ho; rewrite Ho in Hc; by apply Forall_cons in Hc as [? _]|].
  rewrite app_assoc, <- H2. apply IH; [by rewrite H2 | by rewrite H2].
Qed.

Lemma omap_faithful cur : Forall faithful cur -> omap unmarshal (map marshal cur) = cur.
Proof. induction 1 as [|r cur [_ Hr] _ IH]; [done|]. cbn. by rewrite Hr, IH. Qed.

(** Reading the last records of a file that holds those records. *)
Lemma read_kept j cur n : holds (content_of (file j)) (map marshal cur) -> Forall faithful cur ->
  ReadRecentRecords true j n = Some (if 0 <? n then keep_last n cur else cur).
Proof.
  intros Hfile Hcur. unfold ReadRecentRecords. apply holds_lines in Hfile.
  assert (Hread : Some (omap unmarshal (drop (Z.to_nat (if (0 <? n) && (n <? len (map marshal cur)) then len (map marshal cur) - n else 0)) (map marshal cur))) =
    Some (if 0 <? n then keep_last n cur else cur)).
  { rewrite skipn_map. f_equal. unfold len at 1 2. rewrite length_map. fold (len cur).
    unfold keep_last. destruct (0 <? n), (n <? len cur); cbn [andb]; rewrite omap_faithful; try done. by apply Forall_drop. }
  destruct (file j) as [content|]; cbn [content_of] in Hfile; [by rewrite Hfile|].
  destruct cur; [|done]. rewrite <- Hread. cbn. by rewrite drop_nil.
Qed.

(** The journal can be read back: whatever incidents were logged, and whichever
    steps of the file system failed, the records written are some lost ones,
    those of the backup, and those of the file, in order; and reading the last
    [n] records gives exactly the last [n] of those of the file. *)
Theorem journal_roundtrip path node max cs n : Forall faithful (written node cs) ->
  let j := foldl log (mkJournal path node max None None) cs in
  exists lost old cur, written node cs = lost ++ old ++ cur /\
    lines_of (content_of (backup j)) "" = map marshal old /\
    ReadRecentRecords true j n = Some (if 0 <? n then keep_last n cur else cur).
Proof.
  intros Hf. cbn zeta. destruct (keeps_run cs (mkJournal path node max None None) []) as (lost & old & cur & Hw & Hfile & Hb);
    [by exists [], [], [] | done|]. cbn [nodeID app] in Hw.
  exists lost, old, cur. split; [done|]. split; [by apply holds_lines|].
  apply read_kept; [done|]. rewrite Hw, !Forall_app in Hf. apply Hf.
Qed.
End journal.

(** ** Witness *)

(** An encoder that keeps the client and is faithful on its records. *)
Definition demo_marshal (r : ThreatRecord) : string := "client=" ^^ r_ClientID r.
Definition demo_unmarshal (s : string) : option ThreatRecord :=
  if HasPrefix s "client=" then Some (mkRecord 5 "n1" "COMPROMISED" "" (TrimPrefix s "client=") [] 100 "COMPROMISED" "" "" "") else None.
Definition demo_call (opened : bool) (id : string) : call :=
  mkCall (5 * Second) true true opened "COMPROMISED" "" id [] 100 RiskTracker.StatusCompromised "" "" "".
Definition demo_calls : list call := [demo_call true "a"; demo_call true "b"; demo_call false "c"; demo_call true "d"].

Lemma journal_roundtrip_witness :
  let j := foldl (log demo_marshal) (mkJournal "/t" "n1" 12 None None) demo_calls in
  exists lost old cur, written "n1" demo_calls = lost ++ old ++ cur /\
    lines_of (content_of (backup j)) "" = map demo_marshal old /\
    ReadRecentRecords demo_unmarshal true j 1 = Some (if 0 <? 1 then keep_last 1 cur else cur).
Proof.
  apply (journal_roundtrip demo_marshal demo_unmarshal "/t" "n1" 12 demo_calls 1).
  repeat constructor; done.
Defined.
End Journal.
