(* ===== verification/SecurityManager.v ===== *)
(** * The security manager (src/pkg/security/security.go)

    The orchestrator: it builds every part from one configuration, inspects
    connections in both directions, isolates clients and counts what it did.
    The connection and log auditors share the tracker and the registry by
    pointer, so the manager holds one of each.  What a call starts in the
    background (kicks, reloads, listeners of the bus) is its list of effects. *)
From S2P Require Import Prelude GoStrings GoNet GoFloat GoTime KillSwitch Whitelist RateLimiter SensitivePorts Guard Bloom.
From S2P Require Import ThreatEngine RiskTracker Registry Auditors Ast SingBox Xray EventBus Integrity SecurityConfig Journal.
Import SecurityConfig.
Open Scope Z_scope.

Module SecurityManager.
Record SecurityStats := mkStats {
  TotalInspectedOutbound : Z;
  TotalInspectedInbound : Z;
  TotalThreatsBlocked : Z;
  TotalPortBlocks : Z;
  TotalRateLimitDrops : Z;
  TotalKillSwitchDrops : Z;
  TotalCompromisedKicks : Z;
}.

Record SuspiciousClientEntry := mkSuspicious { s_ClientID : string; s_RiskScore : Z; s_Status : string }.

Record NodeSecuritySummary := mkSummary {
  NodeID : string;
  QuarantinedClients : list string;
  SuspiciousClients : list SuspiciousClientEntry;
  Stats : SecurityStats;
  n_Timestamp : Z;
}.

(** Goroutines a call starts. *)
Inductive effect :=
  | Kick (clientID : string)
  | Reload (hook : nat) (clientID : string)
  | Notify (listener : nat) (event : EventBus.SentinelEvent).

(** The file system during a call: whether the old journal can be removed, the
    journal renamed, and opened. *)
Record FileSystem := mkFS { removed : bool; renamed : bool; opened : bool }.

Section manager.
Context {F : Type} `{Arith F} `{LocalZone} {order : RangeOrder string}.
Context (marshal : Journal.ThreatRecord -> string).

Record SecurityManager := mkManager {
  cfg : SecurityConfig F;
  killSwitch : KillSwitch.KillSwitch;
  guard : Guard.Guard F;
  sanitizer : Integrity.Sanitizer;
  threatEngine : ThreatEngine.ThreatEngine;
  riskTracker : RiskTracker.ClientRiskTracker;
  registry : Registry.ClientRegistry;
  auditPorts : gset Z;
  maxConns : Z;
  eventBus : EventBus.EventBus;
  stats : SecurityStats;
  journal : option Journal.ThreatJournal;
  onQuarantineReload : option nat;
}.

(** The callback [NewSecurityManager] registers with the tracker. *)
Definition autoKick : nat := 0.

Definition trackerConfig (c : SecurityConfig F) : RiskTracker.RiskScorerConfig :=
  let d := RiskTracker.DefaultRiskScorerConfig in
  RiskTracker.mkConfig (RiskTracker.CompromiseThreshold d) (RiskTracker.SuspiciousThreshold d)
    (DurMul (rl_BanDurationSeconds (RateLimiter c)) Second)
    (RiskTracker.ScoreDecayInterval d) (RiskTracker.ScoreDecayAmount d) (RiskTracker.AutoKickOnCompromise d).

Definition newGuard (pid : Z) (c : SecurityConfig F) : Guard.Guard F :=
  let p := PortGuard c in let r := RateLimiter c in
  Guard.New pid (pg_Enabled p) (pg_SensitivePorts p) (pg_Action p) (pg_ScanThreshold p) (pg_ScanWindowSeconds p)
    (pg_AutoBanScanner p) (rl_RequestsPerSecond r) (rl_Burst r) (rl_BanThresholdViolations r) (rl_BanDurationSeconds r)
    (wl_Processes (Whitelist c)) (wl_IPs (Whitelist c)).

Definition newThreatEngine (c : SecurityConfig F) : option ThreatEngine.ThreatEngine :=
  let f := Filter c in
  ThreatEngine.NewThreatEngine (fl_Enabled f) (fl_BlockMalware f) (fl_BlockPhishing f) (fl_BlockMiners f) (fl_BlockAds f)
    (fl_CustomBlockedDomains f) (fl_CustomAllowedDomains f) (fl_CustomBlockedIPs f).

Definition newKillSwitch (now : Z) (c : SecurityConfig F) : KillSwitch.KillSwitch :=
  let k := KillSwitch c in
  KillSwitch.New now (ks_Enabled k) (ks_BlockIPv6 k) (ks_AllowLocalLAN k) (ks_StrictDNS k) (ks_AllowedSubnets k).

(** [None]: a panic. [bus]: the bus of the process. *)
Definition NewSecurityManager (now pid : Z) (bus : EventBus.EventBus) (c : SecurityConfig F)
    : option (SecurityManager + config_error (F := F)) :=
  match Validate c with
  | inr e => Some (inr e)
  | inl c =>
      thr ← newThreatEngine c;
      let tracker := RiskTracker.NewClientRiskTracker (trackerConfig c) (wl_Processes (Whitelist c) ++ wl_IPs (Whitelist c)) in
      let ca := Auditors.NewConnectionAuditor (Some tracker) None (Some thr) (pg_SensitivePorts (PortGuard c)) 200 in
      Some (inl {|
        cfg := c;
        killSwitch := newKillSwitch now c;
        guard := newGuard pid c;
        sanitizer := Integrity.NewSanitizer (in_BlockCloudMetadata (SecurityConfig.Integrity c));
        threatEngine := thr;
        riskTracker := RiskTracker.OnCompromised tracker autoKick;
        registry := Registry.NewClientRegistry;
        auditPorts := Auditors.sensitivePorts ca;
        maxConns := Auditors.maxConnsPerUser ca;
        eventBus := bus;
        stats := mkStats 0 0 0 0 0 0 0;
        journal := None;
        onQuarantineReload := None;
      |})
  end.

(** ** Changes of single fields *)

Definition set_stats (sm : SecurityManager) (s : SecurityStats) : SecurityManager :=
  mkManager (cfg sm) (killSwitch sm) (guard sm) (sanitizer sm) (threatEngine sm) (riskTracker sm) (registry sm)
    (auditPorts sm) (maxConns sm) (eventBus sm) s (journal sm) (onQuarantineReload sm).

Definition set_guard (sm : SecurityManager) (g : Guard.Guard F) : SecurityManager :=
  mkManager (cfg sm) (killSwitch sm) g (sanitizer sm) (threatEngine sm) (riskTracker sm) (registry sm)
    (auditPorts sm) (maxConns sm) (eventBus sm) (stats sm) (journal sm) (onQuarantineReload sm).

Definition set_clients (sm : SecurityManager) (t : RiskTracker.ClientRiskTracker) (r : Registry.ClientRegistry) : SecurityManager :=
  mkManager (cfg sm) (killSwitch sm) (guard sm) (sanitizer sm) (threatEngine sm) t r
    (auditPorts sm) (maxConns sm) (eventBus sm) (stats sm) (journal sm) (onQuarantineReload sm).

Definition set_bus (sm : SecurityManager) (b : EventBus.EventBus) : SecurityManager :=
  mkManager (cfg sm) (killSwitch sm) (guard sm) (sanitizer sm) (threatEngine sm) (riskTracker sm) (registry sm)
    (auditPorts sm) (maxConns sm) b (stats sm) (journal sm) (onQuarantineReload sm).

Definition SetThreatJournal (sm : SecurityManager) (j : option Journal.ThreatJournal) : SecurityManager :=
  mkManager (cfg sm) (killSwitch sm) (guard sm) (sanitizer sm) (threatEngine sm) (riskTracker sm) (registry sm)
    (auditPorts sm) (maxConns sm) (eventBus sm) (stats sm) j (onQuarantineReload sm).

Definition SetOnQuarantineReload (sm : SecurityManager) (hook : option nat) : SecurityManager :=
  mkManager (cfg sm) (killSwitch sm) (guard sm) (sanitizer sm) (threatEngine sm) (riskTracker sm) (registry sm)
    (auditPorts sm) (maxConns sm) (eventBus sm) (stats sm) (journal sm) hook.

Definition set_killSwitch (sm : SecurityManager) (ks : KillSwitch.KillSwitch) : SecurityManager :=
  mkManager (cfg sm) ks (guard sm) (sanitizer sm) (threatEngine sm) (riskTracker sm) (registry sm)
    (auditPorts sm) (maxConns sm) (eventBus sm) (stats sm) (journal sm) (onQuarantineReload sm).

(** The atomic counters, each modulo 2^64. *)
Inductive counter := Outbound | Inbound | Threats | PortBlocks | RateDrops | KSDrops | Compromised.

Definition incr (n : Z) (hit : bool) : Z := if hit then wrapu64 (n + 1) else n.

#[export] Instance counter_eq_dec : EqDecision counter.
Proof. solve_decision. Defined.

Definition read (s : SecurityStats) (c : counter) : Z :=
  match c with
  | Outbound => TotalInspectedOutbound s | Inbound => TotalInspectedInbound s | Threats => TotalThreatsBlocked s
  | PortBlocks => TotalPortBlocks s | RateDrops => TotalRateLimitDrops s | KSDrops => TotalKillSwitchDrops s
  | Compromised => TotalCompromisedKicks s
  end.

(** [atomic.AddUint64(&sm.stat..., 1)] *)
Definition count (sm : SecurityManager) (c : counter) : SecurityManager :=
  let at_ c' := incr (read (stats sm) c') (bool_decide (c = c')) in
  set_stats sm (mkStats (at_ Outbound) (at_ Inbound) (at_ Threats) (at_ PortBlocks) (at_ RateDrops) (at_ KSDrops) (at_ Compromised)).

(** ** Inspection *)

Definition blocked_message (threatType target reason : string) : string :=
  "[" ^^ threatType ^^ "] Blocked: " ^^ target ^^ " (Reason: " ^^ reason ^^ ")".

Definition publish (sm : SecurityManager) (e : EventBus.SentinelEvent) : SecurityManager * list effect :=
  let '(b, calls) := EventBus.Publish (eventBus sm) e in
  (set_bus sm b, map (fun c => Notify c.1 c.2) calls).

Definition emitThreatBlocked (now : Z) (sm : SecurityManager) (threatType target reason : string)
    : SecurityManager * list effect :=
  publish sm {| EventBus.EventID := ""; EventBus.Timestamp := Unix now;
                EventBus.Category := EventBus.CategoryThreatBlocked; EventBus.Severity := EventBus.SeverityWarn;
                EventBus.Code := EventBus.CodeThreatAppIsolated;
                EventBus.Message := blocked_message threatType target reason;
                EventBus.Context := []; EventBus.SuggestedAction := EventBus.ActionNone |}.

Definition verdict : Type := bool * string.
Definition allow : verdict := (true, ""%string).

(** Counting and reporting a refusal. *)
Definition refuse (now : Z) (sm : SecurityManager) (c : counter) (threatType target reason : string)
    : SecurityManager * verdict * list effect :=
  let '(sm, effs) := emitThreatBlocked now (count sm c) threatType target reason in
  (sm, (false, reason), effs).

Definition ks_reason : string := "Blocked by Kill-Switch (VPN disconnected or leak prevented)".

(** [None]: a panic of the threat filter. *)
Definition InspectOutbound (now : Z) (sm : SecurityManager) (targetHost : string) (targetPort : Z) (isIPv6 isDNS : bool)
    : option (SecurityManager * verdict * list effect) :=
  let sm := count sm Outbound in
  if negb (Enabled (cfg sm)) then Some (sm, allow, [])
  else
    match Integrity.AuditEndpoint (sanitizer sm) targetHost targetPort with
    | Some err => Some (refuse now sm Threats "SSRF_VIOLATION" targetHost err)
    | None =>
        m ← ThreatEngine.CheckHost (threatEngine sm) targetHost;
        if ThreatEngine.Blocked m then
          Some (refuse now sm Threats (ThreatEngine.Category m) targetHost (ThreatEngine.Reason m))
        else
          match KillSwitch.EvaluatePacket (killSwitch sm) (ParseIP targetHost) targetPort isIPv6 isDNS with
          | KillSwitch.DecisionDrop => Some (refuse now sm KSDrops "KILL_SWITCH_DROP" targetHost ks_reason)
          | _ => Some (sm, allow, [])
          end
    end.

(** The guard reads the clock twice, the event once more. *)
Definition InspectInbound (now1 now2 now3 : Z) (sm : SecurityManager) (remoteIP : string) (targetPort : Z)
    : SecurityManager * verdict * list effect :=
  let sm := count sm Inbound in
  if negb (Enabled (cfg sm)) then (sm, allow, [])
  else
    let '(g, (allowed, reason)) := Guard.CheckInbound now1 now2 (guard sm) remoteIP targetPort in
    let sm := set_guard sm g in
    if allowed then (sm, allow, [])
    else
      let c := if SensitivePorts.IsSensitivePort (Guard.portMonitor g) targetPort then PortBlocks else RateDrops in
      refuse now3 sm c "INBOUND_GUARD_BLOCKED" remoteIP reason.

Definition AuditConfig (unmarshal : string -> option jmap) (sm : SecurityManager) (json : string) : option string :=
  if in_SanitizeConfigs (SecurityConfig.Integrity (cfg sm)) then Integrity.SanitizeJSONConfig unmarshal (sanitizer sm) json
  else None.

Definition AuditURI (sm : SecurityManager) (rawURI : string) : option string :=
  if in_SanitizeConfigs (SecurityConfig.Integrity (cfg sm)) then Integrity.AuditURI (sanitizer sm) rawURI else None.

Definition ZeroizeMemory (sm : SecurityManager) (secret : list Z) : list Z :=
  if in_ZeroizeOnDrop (SecurityConfig.Integrity (cfg sm)) then Integrity.ZeroizeBytes secret else secret.

(** ** Isolation *)

Definition GetQuarantinedClients (now : Z) (sm : SecurityManager) : list string :=
  RiskTracker.GetQuarantinedClients now (riskTracker sm).

Definition GetQuarantinedAliases (now : Z) (sm : SecurityManager) : list string :=
  concat (map (Registry.GetAllAliases (registry sm)) (GetQuarantinedClients now sm)).

Definition GetClientProfile (sm : SecurityManager) (clientID : string) : option RiskTracker.ClientRiskProfile :=
  RiskTracker.GetProfile (riskTracker sm) clientID.

Definition CompileSecurityRouting (now : Z) (sm : SecurityManager) (baseRouting : option RoutingSpec) : RoutingSpec :=
  InjectSecurityRules baseRouting (cfg sm) (RiskTracker.GetQuarantinedClients now (riskTracker sm)).

Definition log_incident (now : Z) (fs : FileSystem) (sm : SecurityManager) (eventType category clientID : string)
    (aliases : list string) (score : Z) (status : RiskTracker.ClientStatus) (target reason action : string) : SecurityManager :=
  match journal sm with
  | Some j =>
      SetThreatJournal sm (Some (Journal.LogIncident marshal now (removed fs) (renamed fs) (opened fs) j
        eventType category clientID aliases score status target reason action).1)
  | None => sm
  end.

Definition run_hook (sm : SecurityManager) (clientID : string) : list effect :=
  match onQuarantineReload sm with Some h => [Reload h clientID] | None => [] end.

Definition handleAutoKick (now : Z) (fs : FileSystem) (sm : SecurityManager) (clientID : string)
    : SecurityManager * list effect :=
  let aliases := GetQuarantinedAliases now sm in
  let sm := log_incident now fs sm "COMPROMISED" "CLIENT_COMPROMISE" clientID aliases 100 RiskTracker.StatusCompromised ""
    "Client risk score exceeded threshold, auto-kick executed" "KICKED_AND_ISOLATED" in
  (sm, Kick clientID :: run_hook sm clientID).

(** The callback of the tracker, run for a registered name; other names do nothing
    to the manager. *)
Definition run_callback (now : Z) (fs : FileSystem) (sm : SecurityManager)
    (call : nat * RiskTracker.ClientRiskProfile * RiskTracker.ThreatIncident) : SecurityManager * list effect :=
  let '(cb, client, _) := call in
  if (cb =? autoKick)%nat then handleAutoKick now fs (count sm Compromised) (RiskTracker.ClientID client) else (sm, []).

Fixpoint run_callbacks (now : Z) (fs : FileSystem) (sm : SecurityManager)
    (calls : list (nat * RiskTracker.ClientRiskProfile * RiskTracker.ThreatIncident)) : SecurityManager * list effect :=
  match calls with
  | [] => (sm, [])
  | c :: calls =>
      let '(sm, e1) := run_callback now fs sm c in
      let '(sm, e2) := run_callbacks now fs sm calls in (sm, e1 ++ e2)
  end.

Definition alert_event (now : Z) (message : string) : EventBus.SentinelEvent :=
  {| EventBus.EventID := ""; EventBus.Timestamp := Unix now;
     EventBus.Category := EventBus.CategoryThreatBlocked; EventBus.Severity := EventBus.SeverityFatal;
     EventBus.Code := EventBus.CodeThreatAppIsolated; EventBus.Message := message;
     EventBus.Context := []; EventBus.SuggestedAction := EventBus.ActionNone |}.

(** What follows an incident, with the tracker and the registry of that moment: the
    callbacks, then the alert. *)
Definition react (now : Z) (fs : FileSystem) (sm : SecurityManager) (re : Auditors.reaction) : SecurityManager * list effect :=
  let sm := set_clients sm (Auditors.re_tracker re) (Auditors.re_registry re) in
  let '(sm, e1) := run_callbacks now fs sm (RiskTracker.callbacks (Auditors.re_outcome re)) in
  match RiskTracker.alert (Auditors.re_outcome re) with
  | Some m => let '(sm, e2) := publish sm (alert_event now m) in (sm, e1 ++ e2)
  | None => (sm, e1)
  end.

(** [fs n]: the file system during the [n]-th reaction. *)
Fixpoint react_all (now : Z) (fs : nat -> FileSystem) (sm : SecurityManager) (res : list Auditors.reaction)
    : SecurityManager * list effect :=
  match res with
  | [] => (sm, [])
  | re :: res =>
      let '(sm, e1) := react now (fs O) sm re in
      let '(sm, e2) := react_all now (fun n => fs (S n)) sm res in (sm, e1 ++ e2)
  end.

Definition record_incident (now : Z) (fs : FileSystem) (sm : SecurityManager) (id ty tg ds : string) (delta : Z)
    : SecurityManager * list effect :=
  let '(t, out) := RiskTracker.RecordIncident now (riskTracker sm) id ty tg ds delta in
  react now fs sm (Auditors.mkReaction out t (registry sm)).

Definition QuarantineClient (now : Z) (fs : FileSystem) (sm : SecurityManager) (clientID reason : string)
    : SecurityManager * list effect :=
  record_incident now fs sm clientID "MANUAL_QUARANTINE" "ADMIN_ACTION" reason 100.

Definition UnquarantineClient (now : Z) (fs : FileSystem) (sm : SecurityManager) (clientID : string)
    : SecurityManager * list effect :=
  let sm := set_clients sm (RiskTracker.ResetClientScore (riskTracker sm) clientID) (registry sm) in
  let sm := log_incident now fs sm "UNQUARANTINED" "ADMIN_ACTION" clientID [] 0 RiskTracker.StatusClean ""
    "Client manually unquarantined" "UNBLOCKED" in
  (sm, run_hook sm clientID).

Definition RegisterClient (sm : SecurityManager) (primaryID uuid hysteriaUser sourceIP : string) : SecurityManager :=
  set_clients sm (riskTracker sm) (Registry.RegisterClient (registry sm) primaryID uuid hysteriaUser sourceIP).1.

Definition SetVPNActive (now : Z) (sm : SecurityManager) (active : bool) : SecurityManager :=
  set_killSwitch sm (KillSwitch.SetVPNActive now (killSwitch sm) active).1.

Definition logAuditor (sm : SecurityManager) : Auditors.LogAuditor :=
  Auditors.mkLogAuditor (riskTracker sm) (registry sm) (auditPorts sm).

Definition connAuditor (sm : SecurityManager) : Auditors.ConnectionAuditor :=
  Auditors.mkAuditor (riskTracker sm) (registry sm) (Some (threatEngine sm)) (auditPorts sm) (maxConns sm).

(** [AuditLogLine], once the line is parsed. *)
Definition AuditLogLine (now : Z) (fs : FileSystem) (sm : SecurityManager) (event : Auditors.ParsedLogEvent)
    : SecurityManager * list effect :=
  let '(a, res) := Auditors.audit_event now (logAuditor sm) event in
  let '(sm, effs) := react_all now (fun _ => fs) sm res in
  (set_clients sm (Auditors.l_tracker a) (Auditors.l_registry a), effs).

Definition AuditActiveConnections (now : Z) (fs : nat -> FileSystem) (sm : SecurityManager)
    (conns : list Auditors.ActiveConnection) : option (SecurityManager * Auditors.ConnectionAuditReport * list effect) :=
  '(ca, report, res) ← Auditors.AuditConnections now (connAuditor sm) conns;
  let '(sm, effs) := react_all now fs sm res in
  Some (set_clients sm (Auditors.tracker ca) (Auditors.registry ca), report, effs).

Definition GetStats (sm : SecurityManager) : SecurityStats := stats sm.
Definition GetConfig (sm : SecurityManager) : SecurityConfig F := cfg sm.

Definition Stop (sm : SecurityManager) : SecurityManager :=
  set_clients (set_guard sm (Guard.Stop (guard sm))) (RiskTracker.Stop (riskTracker sm)) (registry sm).

Definition suspicious_entry (p : RiskTracker.ClientRiskProfile) : option SuspiciousClientEntry :=
  match RiskTracker.Status p with
  | RiskTracker.StatusSuspicious | RiskTracker.StatusCompromised =>
      Some (mkSuspicious (RiskTracker.ClientID p) (RiskTracker.RiskScore p) (Journal.status_text (RiskTracker.Status p)))
  | _ => None
  end.

Definition GetNodeSecuritySummary (now : Z) (sm : SecurityManager) (nodeID : string) : NodeSecuritySummary :=
  {| NodeID := nodeID;
     QuarantinedClients := GetQuarantinedClients now sm;
     SuspiciousClients := omap suspicious_entry (RiskTracker.GetAllProfiles (riskTracker sm));
     Stats := GetStats sm;
     n_Timestamp := Unix now |}.

(** ** Runs *)

Inductive op :=
  | OpOutbound (host : string) (port : Z) (isIPv6 isDNS : bool)
  | OpInbound (ip : string) (port : Z)
  | OpQuarantine (id reason : string)
  | OpUnquarantine (id : string)
  | OpRegister (primaryID uuid hysteriaUser sourceIP : string)
  | OpVPN (active : bool)
  | OpLogLine (event : Auditors.ParsedLogEvent)
  | OpConnections (conns : list Auditors.ActiveConnection)
  | OpSubscribe (listener : nat)
  | OpJournal (j : option Journal.ThreatJournal)
  | OpHook (hook : option nat)
  | OpStop.

(** One call: the verdict if it is an inspection, and its effects. *)
Definition exec (now : Z) (fs : nat -> FileSystem) (sm : SecurityManager) (o : op)
    : option (SecurityManager * option verdict * list effect) :=
  let silent '(sm, effs) := Some (sm, None, effs) in
  match o with
  | OpOutbound host port v6 dns => '(sm, v, effs) ← InspectOutbound now sm host port v6 dns; Some (sm, Some v, effs)
  | OpInbound ip port => let '(sm, v, effs) := InspectInbound now now now sm ip port in Some (sm, Some v, effs)
  | OpQuarantine id reason => silent (QuarantineClient now (fs O) sm id reason)
  | OpUnquarantine id => silent (UnquarantineClient now (fs O) sm id)
  | OpRegister p u h ip => silent (RegisterClient sm p u h ip, [])
  | OpVPN active => silent (SetVPNActive now sm active, [])
  | OpLogLine event => silent (AuditLogLine now (fs O) sm event)
  | OpConnections conns => '(sm, _, effs) ← AuditActiveConnections now fs sm conns; Some (sm, None, effs)
  | OpSubscribe l => silent (set_bus sm (EventBus.Subscribe (eventBus sm) l), [])
  | OpJournal j => silent (SetThreatJournal sm j, [])
  | OpHook h => silent (SetOnQuarantineReload sm h, [])
  | OpStop => silent (Stop sm, [])
  end.

Definition world : Type := Z * (nat -> FileSystem).

(** The verdicts come with the operation that asked for them. *)
Fixpoint run (sm : SecurityManager) (tr : list (world * op)) : option (SecurityManager * list (op * verdict) * list effect) :=
  match tr with
  | [] => Some (sm, [], [])
  | (now, fs, o) :: tr =>
      '(sm, v, e1) ← exec now fs sm o;
      '(sm, vs, e2) ← run sm tr;
      Some (sm, match v with Some v => (o, v) :: vs | None => vs end, e1 ++ e2)
  end.

(** ** What every operation keeps *)

Record sound (sm : SecurityManager) : Prop := {
  sound_ks : KillSwitch.reachable (killSwitch sm);
  sound_filter : ThreatEngine.wf (threatEngine sm);
}.

(** Steps that leave the configuration, the filter and the kill-switch alone. *)
Record same_parts (sm sm' : SecurityManager) : Prop := {
  sp_cfg : cfg sm' = cfg sm;
  sp_ks : killSwitch sm' = killSwitch sm;
  sp_filter : threatEngine sm' = threatEngine sm;
  sp_sanitizer : sanitizer sm' = sanitizer sm;
}.

#[export] Instance same_parts_preorder : PreOrder same_parts.
Proof. split; [by constructor|]. intros a b c [] []. split; congruence. Qed.

Lemma publish_parts sm e : same_parts sm (publish sm e).1 /\ stats (publish sm e).1 = stats sm /\
  Forall (fun x => exists l v, x = Notify l v) (publish sm e).2.
Proof.
  unfold publish. destruct (EventBus.Publish (eventBus sm) e) as [b calls]. cbn. split_and!; [done | done|].
  rewrite Forall_map. apply Forall_forall. eauto.
Qed.

Lemma log_parts now fs sm a b c d e f g h i :
  let sm' := log_incident now fs sm a b c d e f g h i in same_parts sm sm' /\ stats sm' = stats sm.
Proof. unfold log_incident. by destruct (journal sm). Qed.

Definition kicks (effs : list effect) : Z := len (List.filter (fun e => match e with Kick _ => true | _ => false end) effs).

Lemma kicks_app a b : kicks (a ++ b) = kicks a + kicks b.
Proof. unfold kicks. by rewrite List.filter_app, len_app. Qed.

Lemma kicks_notify effs : Forall (fun x => exists l v, x = Notify l v) effs -> kicks effs = 0.
Proof. unfold kicks. induction 1 as [|x effs (l & v & ->) _ IH]; [done | exact IH]. Qed.

Lemma read_count sm c c' : read (stats (count sm c)) c' = incr (read (stats sm) c') (bool_decide (c = c')).
Proof. by destruct c'. Qed.

(** ** The books *)

(** Equal as 64-bit counters. *)
Definition eq64 (a b : Z) : Prop := exists k, a = b + k * 2^64.

Lemma incr_eq64 n h : eq64 (incr n h) (n + (if h then 1 else 0)).
Proof.
  unfold incr, wrapu64. destruct h; [|exists 0; lia]. exists (- ((n + 1) / 2^64)).
  pose proof (Z_div_mod_eq_full (n + 1) (2^64)). lia.
Qed.

Definition is_outbound (o : op) : bool := match o with OpOutbound _ _ _ _ => true | _ => false end.
Definition is_inbound (o : op) : bool := match o with OpInbound _ _ => true | _ => false end.

Definition answered (p : op -> bool) (vs : list (op * verdict)) : Z := len (List.filter (fun e => p e.1) vs).
Definition refused (p : op -> bool) (vs : list (op * verdict)) : Z := len (List.filter (fun e => p e.1 && negb e.2.1) vs).

(** The counters have moved by a number of inspections out and in, refusals out and
    in, and kicks. *)
Record moved (s s' : SecurityStats) (out inb ref_out ref_in ks : Z) : Prop := {
  mv_out : eq64 (read s' Outbound) (read s Outbound + out);
  mv_in : eq64 (read s' Inbound) (read s Inbound + inb);
  mv_out_refused : eq64 (read s' Threats + read s' KSDrops) (read s Threats + read s KSDrops + ref_out);
  mv_in_refused : eq64 (read s' PortBlocks + read s' RateDrops) (read s PortBlocks + read s RateDrops + ref_in);
  mv_kicks : eq64 (read s' Compromised) (read s Compromised + ks);
}.

Lemma eq64_step a b c d e : eq64 b (a + d) -> eq64 c (b + e) -> eq64 c (a + (d + e)).
Proof. intros [k ->] [j ->]. exists (k + j). lia. Qed.

Lemma moved_trans s1 s2 s3 a b c d e a' b' c' d' e' : moved s1 s2 a b c d e -> moved s2 s3 a' b' c' d' e' ->
  moved s1 s3 (a + a') (b + b') (c + c') (d + d') (e + e').
Proof. intros [] []. split; by eapply eq64_step. Qed.

Definition one (b : bool) : Z := if b then 1 else 0.

Lemma count_moved sm c : moved (stats sm) (stats (count sm c)) (one (bool_decide (c = Outbound))) (one (bool_decide (c = Inbound)))
  (one (bool_decide (c = Threats)) + one (bool_decide (c = KSDrops)))
  (one (bool_decide (c = PortBlocks)) + one (bool_decide (c = RateDrops))) (one (bool_decide (c = Compromised))).
Proof.
  assert (Hi : forall c', eq64 (read (stats (count sm c)) c') (read (stats sm) c' + one (bool_decide (c = c'))))
    by (intros c'; rewrite read_count; apply incr_eq64).
  split; try apply Hi.
  - destruct (Hi Threats) as [k ->], (Hi KSDrops) as [j ->]. exists (k + j). lia.
  - destruct (Hi PortBlocks) as [k ->], (Hi RateDrops) as [j ->]. exists (k + j). lia.
Qed.

Definition booked (s s' : SecurityStats) (vs : list (op * verdict)) (effs : list effect) : Prop :=
  moved s s' (answered is_outbound vs) (answered is_inbound vs) (refused is_outbound vs) (refused is_inbound vs) (kicks effs).

Lemma booked_trans s1 s2 s3 a b e1 e2 : booked s1 s2 a e1 -> booked s2 s3 b e2 -> booked s1 s3 (a ++ b) (e1 ++ e2).
Proof. unfold booked, answered, refused. rewrite kicks_app, !List.filter_app, !len_app. apply moved_trans. Qed.

Lemma booked_same s effs : kicks effs = 0 -> booked s s [] effs.
Proof.
  intros Hk. unfold booked. rewrite Hk. split; exists 0; unfold answered, refused; cbn -[Z.pow]; change (len []) with 0; lia.
Qed.

(** What an operation does to the parts, the books and the soundness. *)
Record step_ok (sm sm' : SecurityManager) (vs : list (op * verdict)) (effs : list effect) : Prop := {
  ok_parts : same_parts sm sm';
  ok_books : booked (stats sm) (stats sm') vs effs;
}.

Lemma step_ok_trans s1 s2 s3 a b e1 e2 : step_ok s1 s2 a e1 -> step_ok s2 s3 b e2 -> step_ok s1 s3 (a ++ b) (e1 ++ e2).
Proof. intros [] []. split; [by etrans | by eapply booked_trans]. Qed.

(** The same for steps without a verdict. *)
Lemma step_ok_then s1 s2 s3 e1 e2 : step_ok s1 s2 [] e1 -> step_ok s2 s3 [] e2 -> step_ok s1 s3 [] (e1 ++ e2).
Proof. apply (step_ok_trans _ _ _ [] []). Qed.

Lemma step_ok_same sm sm' effs : same_parts sm sm' -> stats sm' = stats sm -> kicks effs = 0 -> step_ok sm sm' [] effs.
Proof. intros Hp Hs Hk. split; [done|]. rewrite Hs. by apply booked_same. Qed.

Lemma count_parts sm c : same_parts sm (count sm c).
Proof. done. Qed.

Lemma publish_ok sm e : step_ok sm (publish sm e).1 [] (publish sm e).2.
Proof. destruct (publish_parts sm e) as (Hp & Hs & Hn). apply step_ok_same; [done | done | by apply kicks_notify]. Qed.

Lemma hook_ok sm id : kicks (run_hook sm id) = 0.
Proof. unfold run_hook. by destruct (onQuarantineReload sm). Qed.

Lemma kicks_hook sm id id' : kicks (Kick id' :: run_hook sm id) = 1.
Proof. change (Kick id' :: run_hook sm id) with ([Kick id'] ++ run_hook sm id). by rewrite kicks_app, hook_ok. Qed.

Lemma run_callback_ok now fs sm call : step_ok sm (run_callback now fs sm call).1 [] (run_callback now fs sm call).2.
Proof.
  destruct call as [[cb client] inc]. unfold run_callback. destruct (cb =? autoKick)%nat; [|by apply step_ok_same].
  unfold handleAutoKick. cbn zeta. destruct (log_parts now fs (count sm Compromised) "COMPROMISED" "CLIENT_COMPROMISE"
    (RiskTracker.ClientID client) (GetQuarantinedAliases now (count sm Compromised)) 100 RiskTracker.StatusCompromised ""
    "Client risk score exceeded threshold, auto-kick executed" "KICKED_AND_ISOLATED") as [Hp Hs].
  cbn [fst snd] in *. split; [etrans; [apply count_parts | exact Hp]|]. rewrite Hs. unfold booked. rewrite kicks_hook. exact (count_moved sm Compromised).
Qed.

Lemma run_callbacks_ok now fs calls : forall sm, step_ok sm (run_callbacks now fs sm calls).1 [] (run_callbacks now fs sm calls).2.
Proof.
  induction calls as [|c calls IH]; intros sm; [by apply step_ok_same|]. cbn. pose proof (run_callback_ok now fs sm c) as Hc.
  destruct (run_callback now fs sm c) as [sm1 e1]. specialize (IH sm1). destruct (run_callbacks now fs sm1 calls) as [sm2 e2].
  by eapply step_ok_then.
Qed.

Lemma react_ok now fs sm re : step_ok sm (react now fs sm re).1 [] (react now fs sm re).2.
Proof.
  unfold react. set (sm0 := set_clients sm _ _). assert (Hset : step_ok sm sm0 [] []) by by apply step_ok_same.
  pose proof (run_callbacks_ok now fs (RiskTracker.callbacks (Auditors.re_outcome re)) sm0) as Hc.
  destruct (run_callbacks now fs sm0 _) as [sm1 e1]. pose proof (step_ok_then _ _ _ _ _ Hset Hc) as Hboth.
  destruct (RiskTracker.alert _) as [m|]; [|done]. pose proof (publish_ok sm1 (alert_event now m)) as Hp.
  destruct (publish sm1 _) as [sm2 e2]. by eapply step_ok_then.
Qed.

Lemma react_all_ok now res : forall fs sm, step_ok sm (react_all now fs sm res).1 [] (react_all now fs sm res).2.
Proof.
  induction res as [|re res IH]; intros fs sm; [by apply step_ok_same|]. cbn. pose proof (react_ok now (fs O) sm re) as Hc.
  destruct (react now (fs O) sm re) as [sm1 e1]. specialize (IH (fun n => fs (S n)) sm1). destruct (react_all now _ sm1 res) as [sm2 e2].
  by eapply step_ok_then.
Qed.

(** An inspection: it is counted, and a refusal is counted once more. *)
Lemma refuse_ok now sm c ty tg rs sm' v effs : refuse now sm c ty tg rs = (sm', v, effs) ->
  same_parts sm sm' /\ stats sm' = stats (count sm c) /\ kicks effs = 0 /\ v = (false, rs).
Proof.
  unfold refuse, emitThreatBlocked. match goal with |- context [publish ?s ?e] => pose proof (publish_parts s e) as (Hp & Hs & Hn) end.
  destruct (publish _ _) as [sm1 e1]. intros [= <- <- <-].
  split_and!; [etrans; [apply (count_parts sm c) | exact Hp] | exact Hs | by apply kicks_notify | done].
Qed.

Lemma allowed_ok sm o c : (c = Outbound /\ is_outbound o = true /\ is_inbound o = false) \/ (c = Inbound /\ is_outbound o = false /\ is_inbound o = true) ->
  step_ok sm (count sm c) [(o, allow)] [].
Proof.
  intros Ho. split; [apply count_parts|]. pose proof (count_moved sm c) as Hm. unfold booked, answered, refused. cbn [List.filter fst snd].
  destruct Ho as [(-> & -> & ->)|(-> & -> & ->)]; exact Hm.
Qed.

Lemma refused_ok now sm o c c' ty tg rs sm' v effs :
  (c = Outbound /\ is_outbound o = true /\ is_inbound o = false /\ (c' = Threats \/ c' = KSDrops)) \/
  (c = Inbound /\ is_outbound o = false /\ is_inbound o = true /\ (c' = PortBlocks \/ c' = RateDrops)) ->
  refuse now (count sm c) c' ty tg rs = (sm', v, effs) -> step_ok sm sm' [(o, v)] effs.
Proof.
  intros Ho (Hp & Hs & Hk & ->)%refuse_ok. split; [etrans; [apply (count_parts sm c) | exact Hp]|]. rewrite Hs. pose proof (moved_trans _ _ _ _ _ _ _ _ _ _ _ _ _ (count_moved sm c) (count_moved (count sm c) c')) as Hm.
  unfold booked, answered, refused. rewrite Hk. cbn [List.filter fst snd].
  destruct Ho as [(-> & -> & -> & [-> | ->])|(-> & -> & -> & [-> | ->])]; exact Hm.
Qed.

Lemma InspectOutbound_ok now sm host port v6 dns sm' v effs :
  InspectOutbound now sm host port v6 dns = Some (sm', v, effs) -> step_ok sm sm' [(OpOutbound host port v6 dns, v)] effs.
Proof.
  unfold InspectOutbound. cbn zeta. assert (Ha : step_ok sm (count sm Outbound) [(OpOutbound host port v6 dns, allow)] []) by (apply allowed_ok; auto).
  destruct (negb _); [by intros [= <- <- <-]|]. destruct (Integrity.AuditEndpoint _ _ _) as [err|].
  { intros E%(inj Some). eapply refused_ok; [|exact E]. left. auto. }
  destruct (ThreatEngine.CheckHost _ _) as [m|]; [|done]. cbn [mbind option_bind]. destruct (ThreatEngine.Blocked m).
  { intros E%(inj Some). eapply refused_ok; [|exact E]. left. auto. }
  destruct (KillSwitch.EvaluatePacket _ _ _ _ _); [by intros [= <- <- <-] | | by intros [= <- <- <-]].
  intros E%(inj Some). eapply refused_ok; [|exact E]. left. auto.
Qed.

Lemma InspectInbound_ok now1 now2 now3 sm ip port sm' v effs :
  InspectInbound now1 now2 now3 sm ip port = (sm', v, effs) -> step_ok sm sm' [(OpInbound ip port, v)] effs.
Proof.
  unfold InspectInbound. cbn zeta. assert (Ha : step_ok sm (count sm Inbound) [(OpInbound ip port, allow)] []) by (apply allowed_ok; auto).
  destruct (negb _); [by intros [= <- <- <-]|]. destruct (Guard.CheckInbound _ _ _ _ _) as [g [[] reason]].
  { intros [= <- <- <-]. destruct Ha as [Hp Hb]. by split; [constructor|]. }
  change (set_guard (count sm Inbound) g) with (count (set_guard sm g) Inbound).
  intros E. assert (Hg : step_ok sm (set_guard sm g) [] []) by by apply step_ok_same.
  apply (step_ok_trans _ _ _ _ _ _ _ Hg). eapply refused_ok; [|exact E]. right. destruct (SensitivePorts.IsSensitivePort _ _); auto 6.
Qed.

Lemma AuditLogLine_ok now fs sm event : step_ok sm (AuditLogLine now fs sm event).1 [] (AuditLogLine now fs sm event).2.
Proof.
  unfold AuditLogLine. destruct (Auditors.audit_event _ _ _) as [a res]. pose proof (react_all_ok now res (fun _ => fs) sm) as Hr.
  destruct (react_all _ _ _ _) as [sm1 e1]. destruct Hr as [Hp Hb]. split; [|exact Hb]. destruct Hp. by constructor.
Qed.

Lemma AuditActiveConnections_ok now fs sm conns sm' rep effs :
  AuditActiveConnections now fs sm conns = Some (sm', rep, effs) -> step_ok sm sm' [] effs.
Proof.
  unfold AuditActiveConnections. destruct (Auditors.AuditConnections _ _ _) as [[[ca rep1] res]|]; [|done]. cbn [mbind option_bind].
  pose proof (react_all_ok now res fs sm) as Hr. destruct (react_all _ _ _ _) as [sm1 e1]. intros [= <- <- <-].
  destruct Hr as [Hp Hb]. split; [|exact Hb]. destruct Hp. by constructor.
Qed.

Lemma QuarantineClient_ok now fs sm id reason :
  step_ok sm (QuarantineClient now fs sm id reason).1 [] (QuarantineClient now fs sm id reason).2.
Proof. unfold QuarantineClient, record_incident. destruct (RiskTracker.RecordIncident _ _ _ _ _ _ _). apply react_ok. Qed.

Lemma UnquarantineClient_ok now fs sm id :
  step_ok sm (UnquarantineClient now fs sm id).1 [] (UnquarantineClient now fs sm id).2.
Proof.
  unfold UnquarantineClient. cbn zeta. set (sm1 := set_clients sm _ _).
  destruct (log_parts now fs sm1 "UNQUARANTINED" "ADMIN_ACTION" id [] 0 RiskTracker.StatusClean "" "Client manually unquarantined" "UNBLOCKED") as [Hp Hs].
  apply step_ok_same; [destruct Hp; by constructor | exact Hs | apply hook_ok].
Qed.

(** Every operation but a report of the tunnel leaves the parts alone; all keep the books. *)
Lemma manager_exec_ok now fs sm o sm' v effs : exec now fs sm o = Some (sm', v, effs) ->
  booked (stats sm) (stats sm') match v with Some v => [(o, v)] | None => [] end effs /\
  (same_parts sm sm' \/ exists active, o = OpVPN active /\ sm' = SetVPNActive now sm active).
Proof.
  assert (Hsilent : forall r : SecurityManager * list effect, step_ok sm r.1 [] r.2 -> Some (r.1, None, r.2) = Some (sm', v, effs) ->
    booked (stats sm) (stats sm') match v with Some v => [(o, v)] | None => [] end effs /\
    (same_parts sm sm' \/ exists active, o = OpVPN active /\ sm' = SetVPNActive now sm active)).
  { intros r [Hp Hb] [= <- <- <-]. auto. }
  destruct o as [host port v6 dns|ip port|id reason|id|p u h ip|active|event|conns|l|j|h|]; cbn [exec].
  - destruct (InspectOutbound _ _ _ _ _ _) as [[[sm1 w] e1]|] eqn:E; [|done]. intros [= <- <- <-].
    apply InspectOutbound_ok in E as []. auto.
  - destruct (InspectInbound _ _ _ _ _ _) as [[sm1 w] e1] eqn:E. intros [= <- <- <-]. apply InspectInbound_ok in E as []. auto.
  - pose proof (QuarantineClient_ok now (fs O) sm id reason) as Hq. destruct (QuarantineClient _ _ _ _ _). apply (Hsilent (_, _) Hq).
  - pose proof (UnquarantineClient_ok now (fs O) sm id) as Hq. destruct (UnquarantineClient _ _ _ _). apply (Hsilent (_, _) Hq).
  - apply (Hsilent (RegisterClient sm p u h ip, [])). by apply step_ok_same.
  - intros [= <- <- <-]. split; [by apply booked_same|]. right. by exists active.
  - pose proof (AuditLogLine_ok now (fs O) sm event) as Hq. destruct (AuditLogLine _ _ _ _). apply (Hsilent (_, _) Hq).
  - destruct (AuditActiveConnections _ _ _ _) as [[[sm1 rep] e1]|] eqn:E; [|done]. cbn [mbind option_bind].
    apply (Hsilent (sm1, e1)). by apply AuditActiveConnections_ok in E.
  - apply (Hsilent (set_bus sm _, [])). by apply step_ok_same.
  - apply (Hsilent (SetThreatJournal sm j, [])). by apply step_ok_same.
  - apply (Hsilent (SetOnQuarantineReload sm h, [])). by apply step_ok_same.
  - apply (Hsilent (Stop sm, [])). by apply step_ok_same.
Qed.

Lemma manager_exec_sound now fs sm o sm' v effs : exec now fs sm o = Some (sm', v, effs) -> sound sm -> sound sm'.
Proof.
  intros E [Hk Hf]. destruct (manager_exec_ok _ _ _ _ _ _ _ E) as [_ [[Hc Hks Hfl Hs]|(a & _ & ->)]].
  - split; [by rewrite Hks | by rewrite Hfl].
  - split; [|done]. cbn. destruct Hk as (ks0 & Hi & Hr). exists ks0. split; [done|]. eapply rtc_r; [exact Hr|]. constructor.
Qed.

Lemma Auditors_total now ca conns : (forall te, Auditors.threatEngine ca = Some te -> ThreatEngine.wf te) ->
  is_Some (Auditors.AuditConnections now ca conns).
Proof.
  intros Hte. unfold Auditors.AuditConnections. generalize (Auditors.mkTally (Auditors.tracker ca) (Auditors.registry ca) ∅ ∅ 0 []).
  assert (He : forall conns s, is_Some (Auditors.audit_each now ca conns s)).
  { clear conns. induction conns as [|conn conns IH]; intros s; cbn [Auditors.audit_each]; [by eexists|].
    destruct (_ =s ""); [done|]. destruct (Auditors.identify conn s) as [id s1]. unfold Auditors.check_host.
    destruct (Auditors.threatEngine ca) as [te|] eqn:E; [|apply IH]. rewrite ThreatEngine.CheckHost_reference by auto. apply IH. }
  intros s. destruct (He conns s) as [s1 ->]. by eexists.
Qed.

(** With a well-formed filter nothing panics. *)
Lemma exec_total now fs sm o : sound sm -> is_Some (exec now fs sm o).
Proof.
  intros [_ Hf]. destruct o; cbn [exec].
  - unfold InspectOutbound. cbn zeta. destruct (negb _); [by eexists|]. destruct (Integrity.AuditEndpoint _ _ _).
    { destruct (refuse _ _ _ _ _ _) as [[? ?] ?]. by eexists. }
    rewrite ThreatEngine.CheckHost_reference by done. cbn [mbind option_bind]. destruct (ThreatEngine.Blocked _).
    { destruct (refuse _ _ _ _ _ _) as [[? ?] ?]. by eexists. }
    destruct (KillSwitch.EvaluatePacket _ _ _ _ _); [by eexists | | by eexists].
    destruct (refuse _ _ _ _ _ _) as [[? ?] ?]. by eexists.
  - destruct (InspectInbound _ _ _ _ _ _) as [[? ?] ?]. by eexists.
  - destruct (QuarantineClient _ _ _ _ _). by eexists.
  - destruct (UnquarantineClient _ _ _ _). by eexists.
  - by eexists.
  - by eexists.
  - destruct (AuditLogLine _ _ _ _). by eexists.
  - unfold AuditActiveConnections. destruct (Auditors_total now (connAuditor sm) conns) as [r ->]; [by intros te [= <-]|].
    cbn [mbind option_bind]. destruct r as [[ca rep] res]. destruct (react_all _ _ _ _). by eexists.
  - by eexists.
  - by eexists.
  - by eexists.
  - by eexists.
Qed.

Definition is_inspection (o : op) : bool := is_outbound o || is_inbound o.

Lemma exec_verdict now fs sm o sm' v effs : exec now fs sm o = Some (sm', v, effs) -> is_some v = is_inspection o.
Proof.
  destruct o; cbn [exec].
  - destruct (InspectOutbound _ _ _ _ _ _) as [[[? ?] ?]|]; [|done]. by intros [= <- <- <-].
  - destruct (InspectInbound _ _ _ _ _ _) as [[? ?] ?]. by intros [= <- <- <-].
  - destruct (QuarantineClient _ _ _ _ _). by intros [= <- <- <-].
  - destruct (UnquarantineClient _ _ _ _). by intros [= <- <- <-].
  - by intros [= <- <- <-].
  - by intros [= <- <- <-].
  - destruct (AuditLogLine _ _ _ _). by intros [= <- <- <-].
  - destruct (AuditActiveConnections _ _ _ _) as [[[? ?] ?]|]; [|done]. by intros [= <- <- <-].
  - by intros [= <- <- <-].
  - by intros [= <- <- <-].
  - by intros [= <- <- <-].
  - by intros [= <- <- <-].
Qed.

Lemma run_ok tr : forall sm, sound sm -> exists sm' vs effs, run sm tr = Some (sm', vs, effs) /\ sound sm' /\
  map fst vs = List.filter is_inspection (map snd tr) /\ booked (stats sm) (stats sm') vs effs.
Proof.
  induction tr as [|[[now fs] o] tr IH]; intros sm Hs.
  { exists sm, [], []. split_and!; [done..|]. by apply booked_same. }
  cbn [run]. destruct (exec_total now fs sm o Hs) as [[[sm1 v] e1] E]. rewrite E. cbn [mbind option_bind].
  destruct (IH sm1 (manager_exec_sound _ _ _ _ _ _ _ E Hs)) as (sm2 & vs & e2 & -> & Hs2 & Hm & Hb). cbn [mbind option_bind].
  destruct (manager_exec_ok _ _ _ _ _ _ _ E) as [Hb1 _]. apply exec_verdict in E. cbn [map List.filter snd]. rewrite <- E.
  do 3 eexists. split; [reflexivity|]. split; [done|]. pose proof (booked_trans _ _ _ _ _ _ _ Hb1 Hb) as Hb2.
  destruct v as [v|]; cbn [is_some map fst] in *; [|done]. by rewrite Hm.
Qed.

(** ** The manager the constructor builds *)

Lemma new_manager now pid bus c : exists r, NewSecurityManager now pid bus c = Some r /\
  forall sm, r = inl sm -> sound sm /\ stats sm = mkStats 0 0 0 0 0 0 0 /\ Validate c = inl (cfg sm) /\
    RiskTracker.onCompromised (riskTracker sm) = [autoKick] /\
    RiskTracker.cfg (riskTracker sm) = trackerConfig (cfg sm) /\ RiskTracker.profiles (riskTracker sm) = ∅ /\
    RiskTracker.whitelist (riskTracker sm) = RiskTracker.whitelist (RiskTracker.NewClientRiskTracker (trackerConfig (cfg sm))
      (wl_Processes (Whitelist (cfg sm)) ++ wl_IPs (Whitelist (cfg sm)))).
Proof.
  unfold NewSecurityManager. destruct (Validate c) as [c'|e]; [|by eexists].
  unfold newThreatEngine. match goal with |- context [ThreatEngine.NewThreatEngine ?a ?b ?c ?d ?e ?f ?g ?h] =>
    destruct (ThreatEngine.New_wf a b c d e f g h) as (te & -> & Hw & _) end.
  cbn [mbind option_bind]. eexists. split; [reflexivity|]. intros sm [= <-]. split_and!; try done. split; [|done]. cbn.
  eexists. split; [|apply rtc_refl]. unfold KillSwitch.initial, newKillSwitch. by do 6 eexists.
Qed.

Lemma eq64_wrap a b : eq64 a b -> wrapu64 a = wrapu64 b.
Proof. intros [k ->]. unfold wrapu64. apply Z.mod_add. lia. Qed.

(** The books of the manager are right.  Whatever is done to a manager the
    constructor built - inspections, quarantines, audits of logs and connections,
    registrations, reports of the tunnel, new journals and hooks - nothing panics,
    every inspection and only those is answered, and, modulo 2^64, the counters
    are the inspections in each direction; threats and kill-switch drops together
    are the refusals of outbound connections, port blocks and rate limit drops
    those of inbound ones; and the compromised clients are the kicks started. *)
Theorem manager_books now pid bus c sm tr : NewSecurityManager now pid bus c = Some (inl sm) ->
  exists sm' vs effs, run sm tr = Some (sm', vs, effs) /\
    map fst vs = List.filter is_inspection (map snd tr) /\
    let s := GetStats sm' in
    wrapu64 (TotalInspectedOutbound s) = wrapu64 (answered is_outbound vs) /\
    wrapu64 (TotalInspectedInbound s) = wrapu64 (answered is_inbound vs) /\
    wrapu64 (TotalThreatsBlocked s + TotalKillSwitchDrops s) = wrapu64 (refused is_outbound vs) /\
    wrapu64 (TotalPortBlocks s + TotalRateLimitDrops s) = wrapu64 (refused is_inbound vs) /\
    wrapu64 (TotalCompromisedKicks s) = wrapu64 (kicks effs).
Proof.
  destruct (new_manager now pid bus c) as (r & -> & Hr). intros [= ->]. destruct (Hr sm eq_refl) as (Hs & H0' & _).
  destruct (run_ok tr sm Hs) as (sm' & vs & effs & -> & _ & Hm & Hb). exists sm', vs, effs. split; [done|]. split; [done|].
  unfold booked in Hb. rewrite H0' in Hb. destruct Hb as [Ho Hi Hor Hir Hk]. split_and!; by apply eq64_wrap.
Qed.

Lemma KillSwitch_no_redirect ks ip port v6 dns : KillSwitch.EvaluatePacket ks ip port v6 dns <> KillSwitch.DecisionRedirectToTUN.
Proof. unfold KillSwitch.EvaluatePacket. by repeat case_match. Qed.

(** C5. What is let out.  After any run of a manager, an outbound connection is
    allowed exactly when the manager is off, or its endpoint is safe (no shell
    character, and with the protection on no metadata service), the lists of the
    filter do not block its host, and the kill-switch lets it out: it is off, or the
    IPv6 and DNS guards are passed and the tunnel is up or a local network is
    the target. *)
Theorem outbound_allowed_iff now pid bus c sm tr sm' vs effs now' host port isIPv6 isDNS :
  NewSecurityManager now pid bus c = Some (inl sm) -> run sm tr = Some (sm', vs, effs) ->
  exists sm2 v effs2, InspectOutbound now' sm' host port isIPv6 isDNS = Some (sm2, v, effs2) /\
    let ks := killSwitch sm' in let ip := ParseIP host in
    (v.1 = true <->
     Enabled (cfg sm') = false \/
     Integrity.safe_endpoint (Integrity.blockMetadata (sanitizer sm')) host port /\
     ThreatEngine.Blocked (ThreatEngine.reference (threatEngine sm') host) = false /\
     (KillSwitch.enabled ks = false \/
      KillSwitch.v6_permitted ks ip isIPv6 /\ KillSwitch.dns_permitted ks ip port isDNS /\ KillSwitch.tunnel_or_lan ks ip)).
Proof.
  destruct (new_manager now pid bus c) as (r & -> & Hr). intros [= ->] Erun. destruct (Hr sm eq_refl) as (Hs & _).
  destruct (run_ok tr sm Hs) as (? & ? & ? & E & [Hk Hf] & _). rewrite E in Erun. injection Erun as -> -> ->.
  cbn zeta. unfold InspectOutbound. cbn zeta. change (cfg (count sm' Outbound)) with (cfg sm').
  destruct (Enabled (cfg sm')) eqn:En; cbn [negb]; [|exists (count sm' Outbound), allow, []; naive_solver].
  pose proof (Integrity.AuditEndpoint_spec (sanitizer sm') host port) as Hep. cbn [count set_stats sanitizer threatEngine killSwitch].
  assert (Hrefuse : forall c ty rs (P : Prop), ~ P -> exists sm2 v effs2,
    Some (refuse now' (count sm' Outbound) c ty host rs) = Some (sm2, v, effs2) /\ (v.1 = true <-> true = false \/ P)).
  { intros c' ty rs P HP. destruct (refuse _ _ _ _ _ _) as [[sm2 v] e2] eqn:Er. exists sm2, v, e2. split; [done|].
    apply refuse_ok in Er as (_ & _ & _ & ->). cbn. naive_solver. }
  destruct (Integrity.AuditEndpoint _ _ _) as [err|]; [apply Hrefuse; naive_solver|].
  rewrite ThreatEngine.CheckHost_reference by done. cbn [mbind option_bind].
  destruct (ThreatEngine.Blocked _); [apply Hrefuse; naive_solver|].
  pose proof (KillSwitch.allow_iff (killSwitch sm') (ParseIP host) port isIPv6 isDNS Hk) as Hal.
  pose proof (KillSwitch_no_redirect (killSwitch sm') (ParseIP host) port isIPv6 isDNS) as Hnr.
  destruct (KillSwitch.EvaluatePacket _ _ _ _ _); [|apply Hrefuse; intros (_ & _ & Ha); by apply Hal in Ha|done].
  exists (count sm' Outbound), allow, []. split; [done|]. split; [|done]. intros _. right.
  split; [by apply Hep|]. split; [done|]. by apply Hal.
Qed.

(** ** The configuration of the tracker never changes *)

Definition tracker_cfg (sm : SecurityManager) : RiskTracker.RiskScorerConfig := RiskTracker.cfg (riskTracker sm).

Lemma incident_cfg now t id ty tg ds delta :
  RiskTracker.cfg (RiskTracker.RecordIncident now t id ty tg ds delta).1 = RiskTracker.cfg t.
Proof. apply Auditors.RecordIncident_config. Qed.

Lemma record_cfg now s id ty tg ds delta :
  RiskTracker.cfg (Auditors.tl_tracker (Auditors.record now s id ty tg ds delta)) = RiskTracker.cfg (Auditors.tl_tracker s).
Proof. rewrite Auditors.record_fields. apply incident_cfg. Qed.

Lemma audit_each_cfg now ca conns : forall s s', Auditors.audit_each now ca conns s = Some s' ->
  RiskTracker.cfg (Auditors.tl_tracker s') = RiskTracker.cfg (Auditors.tl_tracker s).
Proof.
  induction conns as [|conn conns IH]; intros s s'; cbn [Auditors.audit_each]; [by intros [= <-]|].
  destruct (_ =s ""); [apply IH|]. destruct (Auditors.identify conn s) as [id s1] eqn:E1.
  assert (H1 : RiskTracker.cfg (Auditors.tl_tracker s1) = RiskTracker.cfg (Auditors.tl_tracker s)) by (by injection E1 as _ <-).
  destruct (Auditors.check_host _ _ _ _ _) as [s2|] eqn:E2; [|done]. cbn [mbind option_bind]. intros E3%IH. rewrite E3, <- H1.
  assert (H2 : forall s, RiskTracker.cfg (Auditors.tl_tracker (Auditors.check_port now ca conn id s)) = RiskTracker.cfg (Auditors.tl_tracker s)).
  { intros s0. unfold Auditors.check_port. destruct (bool_decide _); [by rewrite record_cfg | done]. }
  unfold Auditors.check_host in E2. destruct (Auditors.threatEngine ca) as [te|]; [|injection E2 as <-; apply H2].
  destruct (ThreatEngine.CheckHost te _) as [m|]; [|done]. injection E2 as <-. destruct (ThreatEngine.Blocked m); rewrite ?record_cfg; apply H2.
Qed.

Lemma foldl_cfg {A} (f : Auditors.tally -> A -> Auditors.tally) l :
  (forall s x, RiskTracker.cfg (Auditors.tl_tracker (f s x)) = RiskTracker.cfg (Auditors.tl_tracker s)) ->
  forall s, RiskTracker.cfg (Auditors.tl_tracker (foldl f s l)) = RiskTracker.cfg (Auditors.tl_tracker s).
Proof. intros Hf. induction l as [|x l IH]; intros s; [done|]. cbn. by rewrite IH. Qed.

Lemma AuditConnections_cfg now ca conns ca' rep res : Auditors.AuditConnections now ca conns = Some (ca', rep, res) ->
  RiskTracker.cfg (Auditors.tracker ca') = RiskTracker.cfg (Auditors.tracker ca).
Proof.
  unfold Auditors.AuditConnections. destruct (Auditors.audit_each _ _ _ _) as [s1|] eqn:E; [|done]. apply audit_each_cfg in E.
  cbn [mbind option_bind]. intros [= <- _ _]. cbn [Auditors.tracker]. rewrite foldl_cfg, foldl_cfg; [done|..].
  - intros s x. unfold Auditors.scan_incident. destruct (_ !! x); [|done]. destruct (_ <=? _); [apply record_cfg | done].
  - intros s x. unfold Auditors.flood_incident. destruct (_ !! x); [|done]. destruct (_ <? _); [apply record_cfg | done].
Qed.

Lemma publish_tracker sm e : riskTracker (publish sm e).1 = riskTracker sm.
Proof. unfold publish. by destruct (EventBus.Publish (eventBus sm) e). Qed.

Lemma run_callbacks_tracker now fs calls : forall sm, riskTracker (run_callbacks now fs sm calls).1 = riskTracker sm.
Proof.
  induction calls as [|c calls IH]; intros sm; [done|]. cbn. destruct (run_callback now fs sm c) as [sm1 e1] eqn:E.
  specialize (IH sm1). destruct (run_callbacks now fs sm1 calls) as [sm2 e2]. cbn [fst] in *. rewrite IH.
  destruct c as [[cb p] i]. unfold run_callback, handleAutoKick, log_incident in E. destruct (cb =? autoKick)%nat; [|by injection E as <- _].
  cbn zeta in E. destruct (journal (count sm Compromised)); by injection E as <- _.
Qed.

Lemma react_tracker now fs sm re : riskTracker (react now fs sm re).1 = Auditors.re_tracker re.
Proof.
  unfold react. set (sm0 := set_clients sm _ _). pose proof (run_callbacks_tracker now fs (RiskTracker.callbacks (Auditors.re_outcome re)) sm0) as Hc.
  destruct (run_callbacks now fs sm0 _) as [sm1 e1]. destruct (RiskTracker.alert _) as [m|]; [|exact Hc].
  pose proof (publish_tracker sm1 (alert_event now m)) as Hp. destruct (publish sm1 _) as [sm2 e2]. cbn [fst] in *. by rewrite Hp, Hc.
Qed.

Lemma QuarantineClient_tracker now fs sm id reason :
  riskTracker (QuarantineClient now fs sm id reason).1 =
  (RiskTracker.RecordIncident now (riskTracker sm) id "MANUAL_QUARANTINE" "ADMIN_ACTION" reason 100).1.
Proof.
  unfold QuarantineClient, record_incident. destruct (RiskTracker.RecordIncident _ _ _ _ _ _ _) as [t out]. apply react_tracker.
Qed.

Lemma refuse_tracker now sm c ty tg rs sm' v effs : refuse now sm c ty tg rs = (sm', v, effs) -> riskTracker sm' = riskTracker sm.
Proof.
  unfold refuse, emitThreatBlocked. match goal with |- context [publish ?s ?e] => pose proof (publish_tracker s e) as Hp end.
  destruct (publish _ _). by intros [= <- <- <-].
Qed.

Lemma InspectOutbound_tracker now sm host port v6 dns sm' v effs :
  InspectOutbound now sm host port v6 dns = Some (sm', v, effs) -> riskTracker sm' = riskTracker sm.
Proof.
  unfold InspectOutbound. cbn zeta. destruct (negb _); [by intros [= <- <- <-]|].
  destruct (Integrity.AuditEndpoint _ _ _); [intros E%(inj Some); by apply refuse_tracker in E|].
  destruct (ThreatEngine.CheckHost _ _) as [m|]; [|done]. cbn [mbind option_bind].
  destruct (ThreatEngine.Blocked m); [intros E%(inj Some); by apply refuse_tracker in E|].
  destruct (KillSwitch.EvaluatePacket _ _ _ _ _); [by intros [= <- <- <-] | | by intros [= <- <- <-]].
  intros E%(inj Some). by apply refuse_tracker in E.
Qed.

Lemma InspectInbound_tracker now1 now2 now3 sm ip port sm' v effs :
  InspectInbound now1 now2 now3 sm ip port = (sm', v, effs) -> riskTracker sm' = riskTracker sm.
Proof.
  unfold InspectInbound. cbn zeta. destruct (negb _); [by intros [= <- <- <-]|].
  destruct (Guard.CheckInbound _ _ _ _ _) as [g [[] reason]]; [by intros [= <- <- <-]|]. intros E. by apply refuse_tracker in E.
Qed.

Lemma manager_exec_cfg now fs sm o sm' v effs : exec now fs sm o = Some (sm', v, effs) -> tracker_cfg sm' = tracker_cfg sm.
Proof.
  unfold tracker_cfg. destruct o as [host port v6 dns|ip port|id reason|id|p u h ip|active|event|conns|l|j|h|]; cbn [exec].
  - destruct (InspectOutbound _ _ _ _ _ _) as [[[s w] e]|] eqn:E; [|done]. intros [= <- <- <-]. by apply InspectOutbound_tracker in E as ->.
  - destruct (InspectInbound _ _ _ _ _ _) as [[s w] e] eqn:E. intros [= <- <- <-]. by apply InspectInbound_tracker in E as ->.
  - pose proof (QuarantineClient_tracker now (fs O) sm id reason) as Hq. destruct (QuarantineClient _ _ _ _ _). intros [= <- <- <-].
    cbn [fst] in Hq. rewrite Hq. apply incident_cfg.
  - unfold UnquarantineClient, log_incident. cbn zeta. destruct (journal _); by intros [= <- <- <-].
  - by intros [= <- <- <-].
  - by intros [= <- <- <-].
  - unfold AuditLogLine, Auditors.audit_event. cbn zeta. destruct (_ =s ""); [by destruct (react_all _ _ _ _); intros [= <- <- <-]|].
    destruct (Auditors.incident_of _ _) as [[[[ty tg] ds] delta]|]; [|by destruct (react_all _ _ _ _); intros [= <- <- <-]].
    match goal with |- context [RiskTracker.RecordIncident ?a ?b ?c ?d ?e ?f ?g] => pose proof (incident_cfg a b c d e f g) as Hi end.
    destruct (RiskTracker.RecordIncident _ _ _ _ _ _ _) as [t out]. destruct (react_all _ _ _ _). intros [= <- <- <-]. exact Hi.
  - unfold AuditActiveConnections. destruct (Auditors.AuditConnections _ _ _) as [[[ca rep] res]|] eqn:E; [|done]. cbn [mbind option_bind].
    apply AuditConnections_cfg in E. destruct (react_all _ _ _ _). intros [= <- <- <-]. exact E.
  - by intros [= <- <- <-].
  - by intros [= <- <- <-].
  - by intros [= <- <- <-].
  - by intros [= <- <- <-].
Qed.

Lemma manager_run_cfg tr : forall sm sm' vs effs, run sm tr = Some (sm', vs, effs) -> tracker_cfg sm' = tracker_cfg sm.
Proof.
  induction tr as [|[[now fs] o] tr IH]; intros sm sm' vs effs; cbn [run]; [by intros [= <- <- <-]|].
  destruct (exec _ _ _ _) as [[[sm1 v] e1]|] eqn:E1; [|done]. cbn [mbind option_bind].
  destruct (run sm1 tr) as [[[sm2 vs2] e2]|] eqn:E2; [|done]. cbn [mbind option_bind]. intros [= <- <- <-].
  by rewrite (IH _ _ _ _ E2), (manager_exec_cfg _ _ _ _ _ _ _ E1).
Qed.

(** ** A quarantined client in the configurations of the cores *)

(** The incident of a quarantine isolates the client. *)
Lemma quarantine_isolates now t id ty tg ds :
  RiskTracker.CompromiseThreshold (RiskTracker.cfg t) = 100 -> id <> ""%string -> id ∉ RiskTracker.whitelist t ->
  (forall p, RiskTracker.profiles t !! id = Some p -> 0 <= RiskTracker.RiskScore p < 2^62) ->
  RiskTracker.IsCompromisedOrQuarantined now (RiskTracker.RecordIncident now t id ty tg ds 100).1 id = true.
Proof.
  intros Ht Hid Hw Hs. unfold RiskTracker.IsCompromisedOrQuarantined. rewrite Auditors.RecordIncident_lookup, decide_True by done.
  set (p := default _ _). assert (Hp : 0 <= RiskTracker.RiskScore p < 2^62).
  { unfold p. destruct (RiskTracker.profiles t !! id) as [q|]; cbn; [by apply Hs | lia]. }
  unfold RiskTracker.isolated, RiskTracker.violate, RiskTracker.status_of. cbn. rewrite Ht.
  autorewrite with gowrap. by rewrite (proj2 (Z.leb_le _ _)) by lia.
Qed.

Lemma quarantined_listed now t id : RiskTracker.IsCompromisedOrQuarantined now t id = true ->
  id ∈ RiskTracker.GetQuarantinedClients now t.
Proof.
  intros Hi. unfold RiskTracker.GetQuarantinedClients. rewrite list_elem_of_filter, elem_of_range_keys, elem_of_dom. split; [done|].
  unfold RiskTracker.IsCompromisedOrQuarantined in Hi. destruct (_ !! id); [by eexists | done].
Qed.

(** The first injected rule blocks the isolated clients. *)
Lemma quarantine_rule_first now sm base id : id ∈ GetQuarantinedClients now sm ->
  exists rest, Rules (CompileSecurityRouting now sm base) = block_rule [] [] [] (GetQuarantinedClients now sm) :: rest.
Proof.
  intros Hid. unfold CompileSecurityRouting, InjectSecurityRules, securityRules. fold (GetQuarantinedClients now sm).
  destruct (GetQuarantinedClients now sm) as [|u us]; [by apply elem_of_nil in Hid|]. cbn. by eexists.
Qed.

Lemma existsb_elem {A} (f : A -> bool) l x : x ∈ l -> f x = true -> existsb f l = true.
Proof. intros Hx Hf. apply existsb_exists. exists x. by rewrite <- list_elem_of_In. Qed.

Lemma nonempty_elem {A} (l : list A) x : x ∈ l -> nonempty l = true.
Proof. destruct l; [by intros ?%elem_of_nil | done]. Qed.

Lemma singbox_blocks_user field matches spec users id rest : SingBox.rule_logic field matches -> id ∈ users ->
  field "auth_user"%string (VString id) = true ->
  SingBox.first_match matches (concat (map (SingBox.rules_of spec) (block_rule [] [] [] users :: rest))) = Some "block"%string.
Proof.
  intros L Hid Hf. cbn [map concat]. rewrite (SingBox.first_match_rule _ _ L) by done.
  assert (Hl : SingBox.is_live spec (block_rule [] [] [] users) = true).
  { unfold SingBox.is_live, SingBox.rules_of. cbn [block_rule OutboundTag]. by rewrite orb_true_r. }
  unfold SingBox.rule_holds, SingBox.dest_holds, SingBox.others_hold, SingBox.listed, SingBox.any_of. rewrite Hl. cbn.
  rewrite (nonempty_elem _ _ Hid), (existsb_elem _ _ _ Hid Hf). done.
Qed.

Lemma xray_blocks_user field matches spec users id rest : Xray.rule_logic field matches -> id ∈ users ->
  field "user"%string (VString id) = true ->
  Xray.first_match matches (concat (map (Xray.rules_of spec) (block_rule [] [] [] users :: rest))) = Some "block"%string.
Proof.
  intros L Hid Hf. cbn [map concat]. rewrite (Xray.xr_first_match_rule _ _ L).
  assert (Hu : Xray.users (block_rule [] [] [] users) = users) by (unfold Xray.users; cbn; by rewrite (nonempty_elem _ _ Hid)).
  assert (Hl : Xray.is_live spec (block_rule [] [] [] users) = true).
  { unfold Xray.is_live, Xray.rules_of, Xray.createBaseRule. rewrite Hu. unfold opt_strings. by rewrite (nonempty_elem _ _ Hid). }
  unfold Xray.dest_holds, Xray.others_hold, Xray.any_of. rewrite Hl, Hu. cbn.
  rewrite (nonempty_elem _ _ Hid), (existsb_elem _ _ _ Hid Hf). done.
Qed.

(** C3. A quarantine reaches the cores.  After any run of a manager, quarantining a
    client whose id is not empty and not whitelisted, and whose risk score is within bounds,
    lists it as isolated, and in the routing the manager then compiles, for sing-box and for
    Xray alike, the first of the rules made of the specification's that matches a connection
    of this user blocks it, whatever those rules are and however single conditions are read.
    In front of them stand the rules that the compilers add on their own: in sing-box
    actions that choose no outbound, in Xray the rules of DNS, of the server and of TUN,
    which a connection may match before (see [quarantine_ignored]). *)
Theorem quarantine_reaches_cores now pid bus c sm tr sm1 vs effs now' fs id reason base unmarshal spec isV112 active :
  NewSecurityManager now pid bus c = Some (inl sm) -> run sm tr = Some (sm1, vs, effs) ->
  id <> ""%string -> id ∉ RiskTracker.whitelist (riskTracker sm1) ->
  (forall p, GetClientProfile sm1 id = Some p -> 0 <= RiskTracker.RiskScore p < 2^62) ->
  let sm2 := (QuarantineClient now' fs sm1 id reason).1 in
  cs_Routing spec = Some (CompileSecurityRouting now' sm2 base) ->
  id ∈ GetQuarantinedClients now' sm2 /\
  (forall field matches, SingBox.rule_logic field matches -> field "auth_user"%string (VString id) = true ->
   exists actions user switch,
     objects (jget (SingBox.BuildSingBoxRoute unmarshal spec isV112 active).1 "rules") = actions ++ user ++ switch /\
     Forall (fun m => jget m "outbound" = None) actions /\
     SingBox.first_match matches user = Some "block"%string) /\
  (forall field matches, Xray.rule_logic field matches -> field "user"%string (VString id) = true ->
   exists user,
     objects (jget (Xray.BuildXrayRouting spec) "rules") =
       Xray.dns_rule :: Xray.server_rules spec ++ Xray.tun_rules spec ++ user /\
     Xray.first_match matches user = Some "block"%string).
Proof.
  destruct (new_manager now pid bus c) as (r & -> & Hr). intros [= ->] Erun Hid Hw Hs sm2 Hspec.
  destruct (Hr sm eq_refl) as (_ & _ & _ & _ & Hcfg & _). apply manager_run_cfg in Erun. unfold tracker_cfg in Erun. rewrite Hcfg in Erun.
  assert (Hq : id ∈ GetQuarantinedClients now' sm2).
  { unfold GetQuarantinedClients, sm2. rewrite QuarantineClient_tracker. apply quarantined_listed, quarantine_isolates; try done. by rewrite Erun. }
  split; [done|]. destruct (quarantine_rule_first now' sm2 base id Hq) as (rest & Erules). split.
  - intros field matches L Hf. destruct active as [mirror d]. destruct (SingBox.route_fields unmarshal spec isV112 mirror d) as (_ & -> & _).
    exists (SingBox.hijack_rules spec ++ SingBox.sniff_rules spec ++ omap SingBox.resolve_rule (cs_ServerInbounds spec)),
      (SingBox.user_rules spec), (SingBox.clash_rules spec). split_and!.
    + unfold SingBox.route_rules. by rewrite <- !app_assoc.
    + rewrite !Forall_app. auto using SingBox.hijack_no_outbound, SingBox.sniff_no_outbound, SingBox.resolve_no_outbound.
    + unfold SingBox.user_rules. rewrite Hspec, Erules. by apply (singbox_blocks_user field matches _ _ id).
  - intros field matches L Hf. exists (Xray.user_rules spec). split; [apply objects_maps|].
    unfold Xray.user_rules. rewrite Hspec, Erules. by apply (xray_blocks_user field matches _ _ id).
Qed.

(** A whitelisted client is not isolated, not even by hand. *)
Lemma quarantine_ignored now fs sm id reason : id ∈ RiskTracker.whitelist (riskTracker sm) ->
  riskTracker (QuarantineClient now fs sm id reason).1 = riskTracker sm /\ (QuarantineClient now fs sm id reason).2 = [].
Proof.
  intros Hid. rewrite QuarantineClient_tracker. unfold QuarantineClient, record_incident, RiskTracker.RecordIncident.
  destruct (id =s ""); [done|]. by rewrite bool_decide_true.
Qed.

(** The switch of the rate limiter does nothing: it is not handed to the guard. *)
Lemma rate_switch_ignored pid c en :
  let r := RateLimiter c in
  newGuard pid (SecurityConfig.mkConfig (Enabled c) (PortGuard c)
    (mkRateLimiter en (rl_RequestsPerSecond r) (rl_Burst r) (rl_BanThresholdViolations r) (rl_BanDurationSeconds r))
    (KillSwitch c) (SecurityConfig.Integrity c) (Filter c) (Whitelist c)) = newGuard pid c.
Proof. done. Qed.
End manager.

(** ** Witnesses *)
Section witness.
#[local] Existing Instance utc.

Definition demo_marshal (r : Journal.ThreatRecord) : string := Journal.r_ClientID r.
Local Notation demo_new := (NewSecurityManager 0 4242 (EventBus.NewEventBus 10) (DefaultSecurityConfig (F := float64))).
Lemma demo_built : exists sm, demo_new = Some (inl sm).
Proof.
  assert (Hb : match demo_new with Some (inl _) => true | _ => false end = true) by (vm_compute; reflexivity).
  destruct demo_new as [[sm|]|]; [by exists sm | done..].
Qed.

Definition demo_fs : nat -> FileSystem := fun _ => mkFS true true true.
Definition demo_trace : list (world * op) :=
  [((0, demo_fs), OpVPN true); ((Second, demo_fs), OpOutbound "metadata.goog" 80 false false);
   ((2 * Second, demo_fs), OpOutbound "example.org" 443 false false); ((3 * Second, demo_fs), OpInbound "203.0.113.9" 22);
   ((4 * Second, demo_fs), OpQuarantine "eve" "manual")].

(** Two outbound inspections, one refused; one inbound, refused; one kick. *)
Example demo_books :
  match demo_new with
  | Some (inl sm) => option_map (fun x => (GetStats x.1.1, map snd x.1.2)) (run demo_marshal sm demo_trace)
  | _ => None
  end = Some (mkStats 2 1 1 1 0 0 1,
    [(false, "SSRF violation: connection to cloud metadata domain 'metadata.goog' is prohibited"); (true, "");
     (false, "Access to sensitive port 22 from 203.0.113.9")]%string).
Proof. vm_compute. reflexivity. Qed.

Lemma manager_books_witness : exists sm sm' vs effs, demo_new = Some (inl sm) /\ run demo_marshal sm demo_trace = Some (sm', vs, effs) /\
  wrapu64 (TotalThreatsBlocked (GetStats sm') + TotalKillSwitchDrops (GetStats sm')) = wrapu64 (refused is_outbound vs) /\
  wrapu64 (TotalCompromisedKicks (GetStats sm')) = wrapu64 (kicks effs).
Proof.
  destruct demo_built as [sm E].
  destruct (manager_books demo_marshal 0 4242 (EventBus.NewEventBus 10) DefaultSecurityConfig sm demo_trace E)
    as (sm' & vs & effs & Er & _ & _ & _ & Ho & _ & Hk).
  exists sm, sm', vs, effs. split; [done|]. split; [done|]. split; [exact Ho | exact Hk].
Defined.

Lemma outbound_allowed_iff_witness : exists sm sm2 v effs2, demo_new = Some (inl sm) /\
  InspectOutbound 5 sm "example.org" 443 false false = Some (sm2, v, effs2) /\
  (v.1 = true -> Enabled (cfg sm) = false \/ Integrity.safe_endpoint (Integrity.blockMetadata (sanitizer sm)) "example.org" 443).
Proof.
  destruct demo_built as [sm E].
  destruct (outbound_allowed_iff demo_marshal 0 4242 (EventBus.NewEventBus 10) DefaultSecurityConfig sm [] sm [] []
    5 "example.org" 443 false false E eq_refl) as (sm2 & v & effs2 & E2 & Hv).
  exists sm, sm2, v, effs2. split; [done|]. split; [exact E2|]. intros [Hd|[Hs _]]%Hv; [by left | by right].
Defined.

Definition demo_spec (routing : RoutingSpec) : ConfigSpec :=
  Ast.mkConfig "singbox" "" false None None [] (Some routing) None "" "" "" "" "" "".

(** A connection of the user eve. *)
Definition demo_user (k s : string) : bool := (k =s "user") && (s =s "eve").

Lemma quarantine_reaches_cores_witness : exists sm, demo_new = Some (inl sm) /\
  let sm2 := (QuarantineClient demo_marshal 7 (demo_fs O) sm "eve" "manual").1 in
  "eve"%string ∈ GetQuarantinedClients 7 sm2 /\
  exists user, Xray.first_match (Xray.required (Xray.text_field demo_user)) user = Some "block"%string /\
    objects (jget (Xray.BuildXrayRouting (demo_spec (CompileSecurityRouting 7 sm2 None))) "rules") =
      Xray.dns_rule :: Xray.server_rules (demo_spec (CompileSecurityRouting 7 sm2 None)) ++
      Xray.tun_rules (demo_spec (CompileSecurityRouting 7 sm2 None)) ++ user.
Proof.
  destruct demo_built as [sm E]. exists sm. split; [done|]. cbn zeta.
  destruct (new_manager 0 4242 (EventBus.NewEventBus 10) (DefaultSecurityConfig (F := float64))) as (r & Er & Hr).
  rewrite E in Er. injection Er as <-. destruct (Hr sm eq_refl) as (_ & _ & Hv & _ & _ & Hps & Hwl).
  assert (Hc : cfg sm = DefaultSecurityConfig) by (symmetry; injection Hv; done).
  assert (Hw : "eve"%string ∉ RiskTracker.whitelist (riskTracker sm)).
  { rewrite Hwl, Hc. apply (bool_decide_eq_false_1 _). vm_compute. reflexivity. }
  assert (Hp : GetClientProfile sm "eve" = None) by (unfold GetClientProfile, RiskTracker.GetProfile; by rewrite Hps).
  destruct (quarantine_reaches_cores demo_marshal 0 4242 (EventBus.NewEventBus 10) DefaultSecurityConfig sm [] sm [] []
    7 (demo_fs O) "eve" "manual" None (fun _ => None)
    (demo_spec (CompileSecurityRouting 7 (QuarantineClient demo_marshal 7 (demo_fs O) sm "eve" "manual").1 None))
    false (SingBox.firstMirror, true) E eq_refl) as (Hq & _ & Hx); [done | exact Hw | by rewrite Hp | reflexivity |].
  split; [exact Hq|]. destruct (Hx _ _ (Xray.text_logic demo_user)) as (user & H1 & H2); [|exists user; exact (conj H2 H1)].
  vm_compute. reflexivity.
Defined.
End witness.
End SecurityManager.
