(* ===== verification/Netfilter.v ===== *)
(** * The router firewall's logs (src/pkg/security/netfilter/)

    Kernel log lines and connection tables are parsed into events ([iptables.go],
    [conntrack.go], the end of [router.go]), an event is classified by a policy
    ([classifier.go]), and a detector keeps a window of connections to delicate
    ports per source ([router.go]).  The detector of the process is passed
    explicitly; the clock and the environment are arguments. *)
From S2P Require Import Prelude GoStrings GoNet GoRegexp.
Import GoRegexp.
Open Scope Z_scope.

Module Netfilter.
(** ** iptables.go *)

Definition vethRegex : Regexp := regexp "veth(\d+)i".

Record IptablesEvent := mkEvent {
  VMID : Z;
  Direction : string;
  Proto : string;
  Src : string;
  Dst : string;
  SPT : Z;
  DPT : Z;
  IsLocalProcess : bool;
  Interface : string;
  RawLine : string;
}.

Definition is_cgnat (ip : IP) : bool :=
  let v4 := To4 ip in
  negb (is_nil v4) && (byte_at v4 0 =? 100) && (Z.land (byte_at v4 1) 192 =? 64).

Definition IsPrivateIP (ipStr : string) : bool :=
  let ipStr := TrimSpace ipStr in
  if (ipStr =s "") || (ipStr =s "127.0.0.1") || (ipStr =s "::1") || (ipStr =s "localhost") then true
  else
    let ip := ParseIP ipStr in
    if is_nil ip then false
    else IsLoopback ip || IsLinkLocalUnicast ip || IsLinkLocalMulticast ip || IsPrivate ip || is_cgnat ip.

Definition IsIgnoredBroadcastOrMulticast (ipStr : string) : bool :=
  if (ipStr =s "255.255.255.255") || HasSuffix ipStr ".255" then true
  else
    let ip := ParseIP ipStr in
    if is_nil ip then false
    else IsMulticast ip || (let v4 := To4 ip in negb (is_nil v4) && (224 <=? byte_at v4 0) && (byte_at v4 0 <=? 239)).

(** [key=value] with a key. *)
Definition key_value (p : string) : option (string * string) :=
  match IndexByte p "=" with
  | Some (S i) => Some (str_take (S i) p, str_drop (S (S i)) p)
  | _ => None
  end.

Definition kv_of (parts : list string) : gmap string string :=
  foldl (fun m p => match key_value p with Some (k, v) => <[k := v]> m | None => m end) ∅ parts.

Definition value_of (kv : gmap string string) (k : string) : string := default "" (kv !! k).

(** The container of an interface name. *)
Definition veth_id (iface : string) : option Z :=
  match FindStringSubmatch vethRegex iface with
  | Some (_ :: d :: _) => Atoi d
  | _ => None
  end.

Fixpoint first_veth (kv : gmap string string) (keys : list string) : option Z :=
  match keys with
  | [] => None
  | k :: keys =>
      match (if value_of kv k =s "" then None else veth_id (value_of kv k)) with
      | Some id => Some id
      | None => first_veth kv keys
      end
  end.

Definition or_unknown (s : string) : string := if s =s "" then "UNKNOWN" else s.

Definition ParseIptablesLine (line : string) (vpnVMID : Z) : option IptablesEvent :=
  let clean := TrimSpace line in
  if clean =s "" then None
  else
    let hasLXCConn := Contains clean "LXC_CONN:" in
    let hasLXCConnOut := Contains clean "LXC_CONN_OUT:" in
    let hasHostConn := Contains clean "HOST_CONN:" in
    let hasHostConnOut := Contains clean "HOST_CONN_OUT:" in
    let hasVPNLocalOut := Contains clean "LXC_VPN_LOCAL_OUT:" in
    let hasRemoteConn := Contains clean "REMOTE_CONN:" in
    let hasRemoteConnOut := Contains clean "REMOTE_CONN_OUT:" in
    if negb (hasLXCConn || hasLXCConnOut || hasHostConn || hasHostConnOut || hasVPNLocalOut || hasRemoteConn || hasRemoteConnOut)
    then None
    else
      let direction := if hasLXCConnOut || hasHostConnOut || hasVPNLocalOut || hasRemoteConnOut then "OUT"%string else "IN"%string in
      let kv := kv_of (Fields clean) in
      vmid ← (if hasHostConn || hasHostConnOut || hasRemoteConn || hasRemoteConnOut then Some 0
              else if hasVPNLocalOut then Some vpnVMID
              else first_veth kv ["PHYSIN"; "PHYSOUT"; "IN"; "OUT"]%string);
      let dst := or_unknown (value_of kv "DST") in
      if IsIgnoredBroadcastOrMulticast dst then None
      else Some {|
        VMID := vmid;
        Direction := direction;
        Proto := or_unknown (value_of kv "PROTO");
        Src := or_unknown (value_of kv "SRC");
        Dst := dst;
        SPT := atoi (value_of kv "SPT");
        DPT := atoi (value_of kv "DPT");
        IsLocalProcess := hasVPNLocalOut;
        Interface := if (direction =s "OUT") && (value_of kv "OUT" <>s "") then value_of kv "OUT" else value_of kv "IN";
        RawLine := clean;
      |}.

(** ** conntrack.go *)

(** [bufio.Scanner]: the lines, without their ends; lines over 64 kB, where Go's
    scanner stops, are not modelled. *)
Definition drop_cr (s : string) : string := TrimSuffix s (String (ascii_of_N 13) "").
Definition scan_lines (s : string) : list string :=
  match reverse (SplitByte s newline) with
  | "" :: ls => map drop_cr (reverse ls)
  | ls => map drop_cr (reverse ls)
  end%string.

Definition values (k : string) (parts : list string) : list string :=
  omap (fun p => match key_value p with Some (j, v) => if j =s k then Some v else None | None => None end) parts.

(** The original source, if the entry is the flow of the container. *)
Definition flow_source (containerIP dstIP : string) (sport dpt : Z) (line : string) : option string :=
  let parts := Fields line in
  match values "src" parts, values "dst" parts, omap Atoi (values "sport" parts), omap Atoi (values "dport" parts) with
  | origSrc :: replySrc :: _, origDst :: replyDst :: _, origSport :: replySport :: _, origDport :: replyDport :: _ =>
      if (replyDst =s containerIP) && (replySrc =s dstIP) && (replySport =? dpt) && (replyDport =? sport) then Some origSrc
      else if (origSport =? sport) && (origDport =? dpt) && (origDst =s dstIP) && (replyDst =s containerIP) then Some origSrc
      else None
  | _, _, _, _ => None
  end.

Fixpoint first_source (protoLower containerIP dstIP : string) (sport dpt : Z) (lines : list string) : string :=
  match lines with
  | [] => ""
  | line :: lines =>
      match (if Contains (ToLower line) protoLower then flow_source containerIP dstIP sport dpt line else None) with
      | Some src => src
      | None => first_source protoLower containerIP dstIP sport dpt lines
      end
  end.

(** [table]: the kernel's table, read when no dump is given. *)
Definition FindRealVPNClientIP (table : string) (proto containerIP dstIP : string) (sport dpt : Z) (conntrackDump : string) : string :=
  let dump := if conntrackDump =s "" then table else conntrackDump in
  first_source (ToLower proto) containerIP dstIP sport dpt (scan_lines dump).

(** ** classifier.go *)

Definition ThreatLevel : Type := string.
Definition LevelInfo : ThreatLevel := "INFO".
Definition LevelWarning : ThreatLevel := "WARNING".
Definition LevelCritical : ThreatLevel := "CRITICAL".

Record ClassifierPolicy := mkPolicy {
  VPNVMID : Z;
  VPNVMIDs : list Z;
  TrustedAdminIPs : list string;
  ProxmoxHost : string;
  SensitivePorts : list Z;
  WhitelistPorts : list Z;
  VPNPorts : list Z;
  LXCWhitelistVMIDs : list Z;
  AlertVPNClientUnusualPorts : bool;
}.

Record ClassificationResult := mkResult { RiskLevel : ThreatLevel; Label : string; Description : string }.

Definition DefaultClassifierPolicy : ClassifierPolicy :=
  mkPolicy 100 [] [] "" [22; 23; 3389; 3306; 5432; 27017; 6379; 8006; 9200; 2375] [80; 443; 53; 123; 8080; 8443]
    [443; 8443; 2083; 2087; 2096; 80] [] false.

Definition containsInt (l : list Z) (v : Z) : bool := existsb (Z.eqb v) l.
Definition containsString (l : list string) (v : string) : bool := existsb (fun s => EqualFold s v) l.

Definition isVPNVMID (vmid : Z) (policy : ClassifierPolicy) : bool :=
  ((0 <? vmid) && (vmid =? VPNVMID policy)) || containsInt (VPNVMIDs policy) vmid.

(** A list, or its default when it is empty. *)
Definition or_default (l d : list Z) : list Z := if len l =? 0 then d else l.
Definition sensitivePorts (p : ClassifierPolicy) : list Z := or_default (SensitivePorts p) [22; 23; 3389; 3306; 5432; 27017; 6379; 8006].
Definition whitelistPorts (p : ClassifierPolicy) : list Z := or_default (WhitelistPorts p) [80; 443; 53; 123].
Definition vpnPorts (p : ClassifierPolicy) : list Z := or_default (VPNPorts p) [443; 8443; 2083; 2087; 2096].

(** The same verdict in the two languages. *)
Definition say (isRu : bool) (level : ThreatLevel) (ruLabel ruText enLabel enText : string) : ClassificationResult :=
  if isRu then mkResult level ruLabel ruText else mkResult level enLabel enText.

Definition is_self (s : string) : bool := (s =s "127.0.0.1") || (s =s "::1") || (s =s "localhost").

Definition proxmoxIP (policy : ClassifierPolicy) : string :=
  if ProxmoxHost policy <>s "" then
    let pIP := hd ""%string (SplitByte (ProxmoxHost policy) ":") in
    if pIP <>s "" then pIP else "127.0.0.1"
  else "127.0.0.1".

(** Traffic of the host itself. *)
Definition classify_host (event : IptablesEvent) (policy : ClassifierPolicy) (isRu : bool) : ClassificationResult :=
  let src := Src event in
  let dst := Dst event in
  let dpt := Itoa (DPT event) in
  let ordinary := say isRu LevelInfo "Трафик Хоста" ("Соединение с Хостом на порт " ^^ dpt) "Host Traffic" ("Host connection on port " ^^ dpt) in
  if Direction event =s "IN" then
    if (DPT event =? 22) || (DPT event =? 8006) then
      if containsString (TrustedAdminIPs policy) src || (src =s dst) || is_self src then
        say isRu LevelInfo ("🟢 Локальный вход на Хост (порт :" ^^ dpt ^^ ")")
          ("Информационное: Доверенное подключение к панели управления Хоста с IP " ^^ src)
          ("🟢 Trusted Host Login (port :" ^^ dpt ^^ ")") ("Info: Trusted connection to Host management from IP " ^^ src)
      else if negb (IsPrivateIP src) then
        say isRu LevelCritical ("🚨 Вход на Хост (порт :" ^^ dpt ^^ ") из Интернета")
          ("КРИТИЧЕСКИЙ РИСК: Попытка подключения к управлению Хостом со внешнего IP " ^^ src ^^ "!")
          ("🚨 Internet Host Access (port :" ^^ dpt ^^ ")")
          ("CRITICAL RISK: Attempt to access Host management from external IP " ^^ src ^^ "!")
      else
        say isRu LevelWarning ("⚠️ Подозрительный локальный вход на Хост (порт :" ^^ dpt ^^ ")")
          ("Внимание: Неавторизованный локальный IP " ^^ src ^^ " подключился к порту управления " ^^ dpt ^^ "!")
          ("⚠️ Suspicious Local Host Access (port :" ^^ dpt ^^ ")")
          ("Warning: Unauthorized local IP " ^^ src ^^ " connected to management port " ^^ dpt ^^ "!")
    else ordinary
  else if Direction event =s "OUT" then
    if containsInt (sensitivePorts policy) (DPT event) then
      if (dst =s proxmoxIP policy) || is_self dst || (dst =s src) then
        say isRu LevelInfo ("🟢 Локальное служебное обращение Хоста (порт :" ^^ dpt ^^ ")")
          ("Информационное: Локальное обращение хоста к собственному сервису на порту " ^^ dpt)
          ("🟢 Local Host Service Query (port :" ^^ dpt ^^ ")") ("Info: Local host query to internal service on port " ^^ dpt)
      else
        say isRu LevelCritical ("🚨 Исходящий запрос Хоста на sensitive порт :" ^^ dpt)
          ("КРИТИЧЕСКИЙ РИСК: Хост Proxmox VE обратился к чувствительному порту " ^^ dpt ^^ " внешнего узла " ^^ dst ^^ "!")
          ("🚨 Outbound Host Query to sensitive port :" ^^ dpt)
          ("CRITICAL RISK: Proxmox Host accessed sensitive port " ^^ dpt ^^ " of external node " ^^ dst ^^ "!")
    else ordinary
  else ordinary.

(** Connections to the VPN container. *)
Definition classify_vpn_in (event : IptablesEvent) (policy : ClassifierPolicy) (isRu : bool) : ClassificationResult :=
  let dpt := Itoa (DPT event) in
  let external := negb (IsPrivateIP (Src event)) in
  if containsInt (vpnPorts policy) (DPT event) then
    say isRu LevelInfo "VPN-вход (Клиент)" "Легитимное подключение клиента к VPN-серверу"
      "VPN Inbound (Client)" "Legitimate client connection to VPN server"
  else if DPT event =? 22 then
    if external then
      say isRu LevelCritical "🚨 Вход SSH на VPN из Интернета"
        "КРИТИЧЕСКИЙ РИСК: Попытка входа по SSH на VPN-сервер из внешней сети!"
        "🚨 SSH Inbound on VPN from Internet" "CRITICAL RISK: SSH login attempt on VPN server from external network!"
    else
      say isRu LevelWarning "⚠️ Локальный SSH на VPN-сервер" "Подозрительно: Попытка локального SSH входа на VPN-сервер"
        "⚠️ Local SSH to VPN Server" "Suspicious: Local SSH login attempt to VPN server"
  else if containsInt (sensitivePorts policy) (DPT event) then
    if external then
      say isRu LevelCritical ("🚨 Доступ к sensitive порту :" ^^ dpt ^^ " из Сети")
        ("КРИТИЧЕСКИЙ РИСК: Внешний доступ к порту " ^^ dpt ^^ " на VPN-сервере")
        ("🚨 Access to sensitive port :" ^^ dpt ^^ " from Internet")
        ("CRITICAL RISK: External access to port " ^^ dpt ^^ " on VPN server")
    else
      say isRu LevelWarning ("⚠️ Локальный доступ к sensitive порту :" ^^ dpt)
        ("Подозрительно: Локальный доступ к чувствительному порту " ^^ dpt)
        ("⚠️ Local access to sensitive port :" ^^ dpt) ("Suspicious: Local access to sensitive port " ^^ dpt)
  else
    say isRu LevelInfo "Входящий трафик VPN-сервера" ("Входящий запрос к VPN-серверу на порт " ^^ dpt)
      "VPN Inbound Traffic" ("Inbound query to VPN server on port " ^^ dpt).

(** Connections from the VPN container: of a process in it, or of a client. *)
Definition classify_vpn_out (event : IptablesEvent) (policy : ClassifierPolicy) (isRu : bool) : ClassificationResult :=
  let dst := Dst event in
  let n := DPT event in
  let dpt := Itoa n in
  let isSensitive := containsInt (sensitivePorts policy) n in
  let isWhitelisted := containsInt (whitelistPorts policy) n || (n =? 80) || (n =? 443) || (n =? 53) || (n =? 123) in
  if IsLocalProcess event then
    if isWhitelisted then
      say isRu LevelInfo "Локальный процесс VPN (Безопасный OUT)"
        ("Безопасный исходящий веб-запрос локального процесса VPN на порт " ^^ dpt)
        "VPN Local Process (Safe OUT)" ("Safe outbound web request from local VPN process on port " ^^ dpt)
    else if isSensitive then
      say isRu LevelCritical ("🚨 Локальный процесс VPN: запрос на sensitive порт :" ^^ dpt)
        ("ОПАСНОСТЬ КОМПРОМЕТАЦИИ: Локальный процесс внутри VPN-контейнера обратился к чувствительному порту " ^^ dpt ^^ " внешней сети (" ^^ dst ^^ ")!")
        ("🚨 VPN Local Process: query to sensitive port :" ^^ dpt)
        ("COMPROMISE HAZARD: Local process inside VPN container accessed sensitive port " ^^ dpt ^^ " of external network (" ^^ dst ^^ ")!")
    else
      say isRu LevelWarning ("⚠️ Локальный процесс VPN: нетипичный исходящий порт :" ^^ dpt)
        ("ПОДОЗРИТЕЛЬНО: Локальный процесс внутри VPN-контейнера обратился к неразрешенному порту " ^^ dpt ^^ " внешней сети (" ^^ dst ^^ ")")
        ("⚠️ VPN Local Process: unusual outbound port :" ^^ dpt)
        ("SUSPICIOUS: Local process inside VPN container accessed unallowed port " ^^ dpt ^^ " of external network (" ^^ dst ^^ ")")
  else if isWhitelisted then
    say isRu LevelInfo "VPN-транзит (Безопасный OUT)" ("Пересылка безопасного веб-трафика VPN-клиента на порт " ^^ dpt)
      "VPN Transit (Safe OUT)" ("Forwarding safe web traffic of VPN client on port " ^^ dpt)
  else if isSensitive then
    say isRu LevelCritical ("🚨 VPN-клиент: атака на sensitive порт :" ^^ dpt)
      ("ОПАСНОСТЬ: Подключенный VPN-клиент инициировал исходящую атаку / брутфорс на чувствительный порт " ^^ dpt ^^ " внешней сети (" ^^ dst ^^ ")")
      ("🚨 VPN Client: attack on sensitive port :" ^^ dpt)
      ("HAZARD: Connected VPN client initiated outbound probe/attack on sensitive port " ^^ dpt ^^ " of external network (" ^^ dst ^^ ")")
  else if IsPrivateIP dst then
    say isRu LevelInfo "VPN-транзит (Локальный OUT)" ("Локальный запрос VPN-клиента на порт " ^^ dpt ^^ " внутри подсети")
      "VPN Transit (Local OUT)" ("Local query of VPN client to port " ^^ dpt ^^ " inside subnet")
  else
    let alert := AlertVPNClientUnusualPorts policy in
    let prefix := if alert then "⚠️ "%string else ""%string in
    say isRu (if alert then LevelWarning else LevelInfo) (prefix ^^ "VPN-клиент: нетипичный исходящий порт :" ^^ dpt)
      ("Внимание: Подключенный VPN-клиент обратился к нетипичному внешнему порту " ^^ dpt ^^ " (" ^^ dst ^^ ")")
      (prefix ^^ "VPN Client: unusual outbound port :" ^^ dpt)
      ("Warning: Connected VPN client accessed unusual external port " ^^ dpt ^^ " (" ^^ dst ^^ ")").

(** Every other container, and a VPN container whose direction is unknown. *)
Definition classify_container (event : IptablesEvent) (policy : ClassifierPolicy) (isRu : bool) : ClassificationResult :=
  let n := DPT event in
  let dpt := Itoa n in
  let isSensitive := containsInt (sensitivePorts policy) n in
  let isWhitelisted := containsInt (whitelistPorts policy) n in
  if Direction event =s "IN" then
    if isSensitive then
      if negb (IsPrivateIP (Src event)) then
        say isRu LevelCritical ("🚨 Вход на порт :" ^^ dpt ^^ " из Интернета")
          ("ОПАСНОСТЬ: Внешний доступ к критическому порту " ^^ dpt ^^ " с IP " ^^ Src event)
          ("🚨 Port :" ^^ dpt ^^ " access from Internet")
          ("HAZARD: External access to critical port " ^^ dpt ^^ " from IP " ^^ Src event)
      else
        say isRu LevelWarning ("⚠️ Локальный вход на порт :" ^^ dpt)
          ("Внимание: Доступ к критическому порту " ^^ dpt ^^ " из локальной сети с IP " ^^ Src event)
          ("⚠️ Local access to port :" ^^ dpt)
          ("Warning: Access to critical port " ^^ dpt ^^ " from local network IP " ^^ Src event)
    else if isWhitelisted || (n =? 80) || (n =? 443) || (n =? 8080) then
      say isRu LevelInfo "Безопасный входящий трафик" ("Запрос на разрешенный порт " ^^ dpt)
        "Safe Inbound Traffic" ("Query to allowed port " ^^ dpt)
    else
      say isRu LevelInfo "Обычное входящее соединение" ("Входящее соединение на порт " ^^ dpt)
        "Normal Inbound Connection" ("Inbound connection on port " ^^ dpt)
  else if Direction event =s "OUT" then
    if containsInt (LXCWhitelistVMIDs policy) (VMID event) then
      say isRu LevelInfo "Доверенный исходящий трафик LXC"
        ("Легитимная исходящая активность доверенного контейнера " ^^ Itoa (VMID event) ^^ " на порт " ^^ dpt)
        "Trusted LXC Outbound Traffic"
        ("Legitimate outbound activity of whitelisted container " ^^ Itoa (VMID event) ^^ " to port " ^^ dpt)
    else if isSensitive then
      say isRu LevelWarning ("⚠️ Исходящий SSH/DB запрос на :" ^^ dpt)
        ("Внимание: Контейнер инициировал исходящее соединение на чувствительный порт " ^^ dpt)
        ("⚠️ Outbound SSH/DB query to :" ^^ dpt) ("Warning: Container initiated outbound connection to sensitive port " ^^ dpt)
    else if isWhitelisted || (n =? 80) || (n =? 443) || (n =? 53) || (n =? 123) then
      say isRu LevelInfo "Безопасный веб-трафик (OUT)" ("Запрос во внешнюю сеть на стандартный порт " ^^ dpt)
        "Safe Web Traffic (OUT)" ("Query to external network on standard port " ^^ dpt)
    else if negb (IsPrivateIP (Dst event)) then
      say isRu LevelWarning ("⚠️ Нетипичный исходящий порт :" ^^ dpt)
        ("ПОДОЗРИТЕЛЬНО: Исходящее соединение на неразрешенный внешний порт " ^^ dpt ^^ " (возможный backdoor!)")
        ("⚠️ Unusual Outbound Port :" ^^ dpt)
        ("SUSPICIOUS: Outbound connection to unallowed external port " ^^ dpt ^^ " (possible backdoor!)")
    else
      say isRu LevelInfo "Исходящее локальное соединение" ("Исходящий запрос в локальной сети на порт " ^^ dpt)
        "Outbound Local Connection" ("Outbound local subnet query on port " ^^ dpt)
  else
    say isRu LevelInfo "Неизвестная активность" "Не удалось классифицировать сетевую активность"
      "Unknown Activity" "Failed to classify network activity".

Definition ClassifyConnection (event : IptablesEvent) (policy : ClassifierPolicy) (lang : string) : ClassificationResult :=
  let isRu := ToLower lang <>s "en" in
  if VMID event =? 0 then classify_host event policy isRu
  else if isVPNVMID (VMID event) policy && (Direction event =s "IN") then classify_vpn_in event policy isRu
  else if isVPNVMID (VMID event) policy && (Direction event =s "OUT") then classify_vpn_out event policy isRu
  else classify_container event policy isRu.

(** ** router.go *)

Definition defaultSensitivePorts : list Z := [22; 8006; 2222; 3389].

Definition dangerousExploitPorts (port : Z) : option string :=
  if port =? 23 then Some "Telnet (Брутфорс IoT/Mirai)"%string
  else if port =? 2323 then Some "Mirai Telnet"%string
  else if port =? 445 then Some "SMB (EternalBlue / WannaCry)"%string
  else if port =? 135 then Some "MS RPC Exploit"%string
  else if port =? 137 then Some "NetBIOS Name Service"%string
  else if port =? 138 then Some "NetBIOS Datagram"%string
  else if port =? 139 then Some "NetBIOS Session"%string
  else if port =? 1433 then Some "MS SQL Brute-Force"%string
  else if port =? 5555 then Some "ADB Backdoor / Miner"%string
  else None.

Record RouterConnectionRecord := mkRecord { r_Timestamp : Z; r_DstHost : string; r_DstPort : Z; r_Proto : string }.

Record RouterThreatDetector := mkDetector {
  history : gmap string (list RouterConnectionRecord);
  window : Z;
  scanLimit : Z;
  burstLimit1m : Z;
  burstLimit3m : Z;
  targetBruteLimit : Z;
  d_sensitivePorts : gset Z;
}.

(** The environment; an unset variable is empty. *)
Definition environment : Type := string -> string.

Definition getEnvInt (env : environment) (key : string) (def : Z) : Z :=
  let val := env key in
  if val <>s "" then match Atoi (TrimSpace val) with Some i => if 0 <? i then i else def | None => def end else def.

Definition getEnvDurationMinutes (env : environment) (key : string) (defMinutes : Z) : Z :=
  DurMul (getEnvInt env key defMinutes) Minute.

Definition valid_port (p : Z) : bool := (0 <? p) && (p <=? 65535).

Definition getEnvSensitivePorts (env : environment) (key : string) (def : gset Z) : gset Z :=
  let val := env key in
  if val <>s "" then
    def ∪ list_to_set (omap (fun part => match Atoi (TrimSpace part) with
                                         | Some p => if valid_port p then Some p else None
                                         | None => None
                                         end) (SplitByte val ","))
  else def.

Definition GetDefaultRouterThreatDetector (env : environment) : RouterThreatDetector :=
  {| history := ∅;
     window := getEnvDurationMinutes env "ROUTER_WINDOW_MINUTES" 10;
     scanLimit := getEnvInt env "ROUTER_SCAN_LIMIT" (getEnvInt env "ROUTER_MAX_VIOLATIONS" 3);
     burstLimit1m := getEnvInt env "ROUTER_BURST_LIMIT_1M" 10;
     burstLimit3m := getEnvInt env "ROUTER_BURST_LIMIT_3M" 15;
     targetBruteLimit := getEnvInt env "ROUTER_MAX_ATTEMPTS_PER_TARGET" (getEnvInt env "ROUTER_BURST_LIMIT_TARGET" 5);
     d_sensitivePorts := getEnvSensitivePorts env "ROUTER_SENSITIVE_PORTS" (list_to_set defaultSensitivePorts) |}.

Definition positive_or (n old : Z) : Z := if 0 <? n then n else old.

Definition Configure (d : RouterThreatDetector) (scan burst1m burst3m targetLimit win : Z) (extraPorts : list Z) : RouterThreatDetector :=
  {| history := history d;
     window := positive_or win (window d);
     scanLimit := positive_or scan (scanLimit d);
     burstLimit1m := positive_or burst1m (burstLimit1m d);
     burstLimit3m := positive_or burst3m (burstLimit3m d);
     targetBruteLimit := positive_or targetLimit (targetBruteLimit d);
     d_sensitivePorts := d_sensitivePorts d ∪ list_to_set (List.filter valid_port extraPorts) |}.

Definition SetSensitivePorts (d : RouterThreatDetector) (ports : list Z) : RouterThreatDetector :=
  mkDetector (history d) (window d) (scanLimit d) (burstLimit1m d) (burstLimit3m d) (targetBruteLimit d)
    (list_to_set (List.filter valid_port ports)).

Definition IsSensitivePort (d : RouterThreatDetector) (port : Z) : bool :=
  bool_decide (port ∈ d_sensitivePorts d) || containsInt defaultSensitivePorts port.

Record RouterEvent := mkRouterEvent {
  SrcIP : string;
  DstHost : string;
  e_Proto : string;
  SrcPort : Z;
  DstPort : Z;
  IsThreat : bool;
  ShouldAutoBan : bool;
  ThreatType : string;
  Reason : string;
  DistinctHosts : Z;
  BurstRate1m : Z;
  e_RawLine : string;
}.

Definition IsPrivateOrLocalIP (ipStr : string) : bool :=
  let ip := ParseIP ipStr in
  if is_nil ip then false
  else if IsLoopback ip || IsLinkLocalUnicast ip || IsLinkLocalMulticast ip then true
  else IsPrivate ip.

(** An event with its verdict; the counts are kept unless they are set. *)
Definition judged (ev : RouterEvent) (threat ban : bool) (ty reason : string) : RouterEvent :=
  mkRouterEvent (SrcIP ev) (DstHost ev) (e_Proto ev) (SrcPort ev) (DstPort ev) threat ban ty reason
    (DistinctHosts ev) (BurstRate1m ev) (e_RawLine ev).

Definition counted (ev : RouterEvent) (hosts burst : Z) : RouterEvent :=
  mkRouterEvent (SrcIP ev) (DstHost ev) (e_Proto ev) (SrcPort ev) (DstPort ev) (IsThreat ev) (ShouldAutoBan ev)
    (ThreatType ev) (Reason ev) hosts burst (e_RawLine ev).

Definition is_gateway (host : string) : bool := (host =s "192.168.1.1") || (host =s "127.0.0.1").
Definition is_exploit (port : Z) : bool := is_some (dangerousExploitPorts port).

(** The lists a judgement counts over. *)
Definition same_port (ev : RouterEvent) (h : list RouterConnectionRecord) : list RouterConnectionRecord :=
  List.filter (fun r => r_DstPort r =? DstPort ev) h.
Definition same_target (ev : RouterEvent) (h : list RouterConnectionRecord) : list RouterConnectionRecord :=
  List.filter (fun r => r_DstHost r =s DstHost ev) (same_port ev h).
Definition since (cutoff : Z) (h : list RouterConnectionRecord) : list RouterConnectionRecord :=
  List.filter (fun r => After (r_Timestamp r) cutoff) h.
Definition distinct_hosts (ev : RouterEvent) (h : list RouterConnectionRecord) : Z :=
  Z.of_nat (size (list_to_set (map r_DstHost (same_port ev h)) : gset string)).

(** The judgement of an event by the recent connections of its source, the event
    itself included. *)
Definition judge_exploit (ev : RouterEvent) (desc : string) (h : list RouterConnectionRecord) : RouterEvent :=
  let exploitCount := len (List.filter (fun r => is_exploit (r_DstPort r)) h) in
  if 3 <=? exploitCount then
    judged ev true true "exploit_port" ("Эксплойт-активность на опасный порт " ^^ Itoa (DstPort ev) ^^ " (" ^^ desc ^^ ")")
  else judged ev true false "exploit_port" ("Попытка доступа к эксплойт-порту " ^^ Itoa (DstPort ev) ^^ " (" ^^ desc ^^ ")").

Definition gateway_count (d : RouterThreatDetector) (h : list RouterConnectionRecord) : Z :=
  len (List.filter (fun r => is_gateway (r_DstHost r) && (IsSensitivePort d (r_DstPort r) || is_exploit (r_DstPort r))) h).

Definition target_text (ev : RouterEvent) : string := DstHost ev ^^ ":" ^^ Itoa (DstPort ev).

Definition judge_sensitive (now : Z) (d : RouterThreatDetector) (ev : RouterEvent) (h : list RouterConnectionRecord) : RouterEvent :=
  let hosts := distinct_hosts ev h in
  let total := len (same_target ev h) in
  let in1m := len (since (Add now (DurMul (-1) Minute)) (same_target ev h)) in
  let in3m := len (since (Add now (DurMul (-3) Minute)) (same_target ev h)) in
  let ev := counted ev hosts in1m in
  if scanLimit d <=? hosts then
    judged ev true true "horizontal_scan"
      ("Массовое сканирование сети (" ^^ Itoa hosts ^^ " целевых IP на порт " ^^ Itoa (DstPort ev) ^^ ")")
  else if burstLimit1m d <=? in1m then
    judged ev true true "vertical_bruteforce" ("Брутфорс SSH/портов (" ^^ Itoa in1m ^^ " подкл/мин к " ^^ target_text ev ^^ ")")
  else if burstLimit3m d <=? in3m then
    judged ev true true "vertical_bruteforce" ("Брутфорс SSH/портов (" ^^ Itoa in3m ^^ " подкл/3мин к " ^^ target_text ev ^^ ")")
  else if (0 <? targetBruteLimit d) && (targetBruteLimit d <=? total) then
    judged ev true true "vertical_bruteforce" ("Брутфорс одного IP-адреса (" ^^ Itoa total ^^ " попыток к " ^^ target_text ev ^^ ")")
  else judged ev true false "sensitive_port" ("Обращение к чувствительному порту " ^^ Itoa (DstPort ev) ^^ " (" ^^ e_Proto ev ^^ ")").

Definition is_gateway_target (d : RouterThreatDetector) (ev : RouterEvent) : bool :=
  (is_gateway (DstHost ev) || HasPrefix (DstHost ev) "192.168.") && (IsSensitivePort d (DstPort ev) || is_exploit (DstPort ev)).

Definition judge (now : Z) (d : RouterThreatDetector) (ev : RouterEvent) (h : list RouterConnectionRecord) : RouterEvent :=
  match dangerousExploitPorts (DstPort ev) with
  | Some desc => judge_exploit ev desc h
  | None =>
      if is_gateway_target d ev && (3 <=? gateway_count d h) then
        judged ev true true "gateway_attack" ("Атака на сервисы шлюза (порт " ^^ Itoa (DstPort ev) ^^ " " ^^ e_Proto ev ^^ ")")
      else if IsSensitivePort d (DstPort ev) then judge_sensitive now d ev h
      else judged ev false false (ThreatType ev) (Reason ev)
  end.

(** Ports that are looked at; the rest of the traffic leaves no trace. *)
Definition watched (d : RouterThreatDetector) (port : Z) : bool := is_exploit port || IsSensitivePort d port.

Definition with_history (d : RouterThreatDetector) (h : gmap string (list RouterConnectionRecord)) : RouterThreatDetector :=
  mkDetector h (window d) (scanLimit d) (burstLimit1m d) (burstLimit3m d) (targetBruteLimit d) (d_sensitivePorts d).

(** A source whose last record is out of the window. *)
Definition stale (now : Z) (d : RouterThreatDetector) (recs : list RouterConnectionRecord) : bool :=
  match last recs with None => true | Some r => window d <? Sub now (r_Timestamp r) end.

Definition remember (now : Z) (d : RouterThreatDetector) (ev : RouterEvent) : RouterThreatDetector * list RouterConnectionRecord :=
  let recs := default [] (history d !! SrcIP ev) ++ [mkRecord now (DstHost ev) (DstPort ev) (e_Proto ev)] in
  let recent := since (Add now (wrap64 (- window d))) recs in
  let h := if len recent =? 0 then delete (SrcIP ev) (history d) else <[SrcIP ev := recent]> (history d) in
  let h := if 1000 <? Z.of_nat (size h) then range_delete (fun _ recs => stale now d recs) h else h in
  (with_history d h, recent).

Definition Evaluate (now : Z) (d : RouterThreatDetector) (ev : RouterEvent) : RouterThreatDetector * RouterEvent :=
  if negb (watched d (DstPort ev)) && negb (is_gateway_target d ev) then (d, judged ev false false (ThreatType ev) (Reason ev))
  else
    let '(d, recent) := remember now d ev in
    (d, judge now d ev recent).

(** *** Parsing a line of the router *)

Definition routerConntrackSrcRegex : Regexp := regexp "src=([^\s]+)".
Definition routerConntrackDstRegex : Regexp := regexp "dst=([^\s]+)".
Definition routerConntrackProtoRegex : Regexp := regexp "(?i)\b(tcp|udp)\b".
Definition routerConntrackSptRegex : Regexp := regexp "sport=(\d+)".
Definition routerConntrackDptRegex : Regexp := regexp "dport=(\d+)".
Definition routerIptablesSrcRegex : Regexp := regexp "SRC=([^\s]+)".
Definition routerIptablesDstRegex : Regexp := regexp "DST=([^\s]+)".
Definition routerIptablesProtoRegex : Regexp := regexp "PROTO=([^\s]+)".
Definition routerIptablesSptRegex : Regexp := regexp "SPT=(\d+)".
Definition routerIptablesDptRegex : Regexp := regexp "DPT=(\d+)".

(** The first group of the first match. *)
Definition first_group (x : Regexp) (s : string) : option string :=
  match FindStringSubmatch x s with Some (_ :: g :: _) => Some g | _ => None end.

Definition router_event (line src dst proto spt dpt : string) : RouterEvent :=
  mkRouterEvent src dst (ToUpper proto) (atoi spt) (atoi dpt) false false "" "" 0 0 (TrimSpace line).

Definition parse_router (mark : string) (srcX dstX protoX sptX dptX : Regexp) (now : Z) (d : RouterThreatDetector) (line : string)
    : RouterThreatDetector * option RouterEvent :=
  if Contains line mark then
    match first_group srcX line, first_group dstX line, first_group protoX line, first_group sptX line, first_group dptX line with
    | Some src, Some dst, Some proto, Some spt, Some dpt =>
        let '(d, ev) := Evaluate now d (router_event line src dst proto spt dpt) in (d, Some ev)
    | _, _, _, _, _ => (d, None)
    end
  else (d, None).

Definition ParseRouterConntrackLine : Z -> RouterThreatDetector -> string -> RouterThreatDetector * option RouterEvent :=
  parse_router "[NEW]" routerConntrackSrcRegex routerConntrackDstRegex routerConntrackProtoRegex routerConntrackSptRegex routerConntrackDptRegex.

Definition ParseRouterIptablesLine : Z -> RouterThreatDetector -> string -> RouterThreatDetector * option RouterEvent :=
  parse_router "ROUTER-IPS:" routerIptablesSrcRegex routerIptablesDstRegex routerIptablesProtoRegex routerIptablesSptRegex routerIptablesDptRegex.
(** ** The verdicts of the classifier *)

Definition is_vpn (event : IptablesEvent) (policy : ClassifierPolicy) : Prop := isVPNVMID (VMID event) policy = true.
Definition sensitive (event : IptablesEvent) (policy : ClassifierPolicy) : Prop := DPT event ∈ sensitivePorts policy.
Definition external (addr : string) : Prop := IsPrivateIP addr = false.
Definition web_port (n : Z) : Prop := n ∈ [80; 443; 53; 123].

(** What is critical: the host's management ports reached from outside by an
    address that is not trusted, or a delicate port of another node reached from
    the host; SSH or a delicate port of the VPN container that is no VPN port
    reached from outside; a delicate port reached from the VPN container that is
    not allowed; and a delicate port of another container reached from outside. *)
Definition critical (event : IptablesEvent) (policy : ClassifierPolicy) : Prop :=
  let trusted := containsString (TrustedAdminIPs policy) (Src event) = true \/ Src event = Dst event \/ is_self (Src event) = true in
  (VMID event = 0 /\ Direction event = "IN"%string /\ (DPT event = 22 \/ DPT event = 8006) /\ ~ trusted /\ external (Src event)) \/
  (VMID event = 0 /\ Direction event = "OUT"%string /\ sensitive event policy /\
     Dst event <> proxmoxIP policy /\ is_self (Dst event) = false /\ Dst event <> Src event) \/
  (VMID event <> 0 /\ is_vpn event policy /\ Direction event = "IN"%string /\ ~ (DPT event ∈ vpnPorts policy) /\
     (DPT event = 22 \/ sensitive event policy) /\ external (Src event)) \/
  (VMID event <> 0 /\ is_vpn event policy /\ Direction event = "OUT"%string /\
     ~ (DPT event ∈ whitelistPorts policy) /\ ~ web_port (DPT event) /\ sensitive event policy) \/
  (VMID event <> 0 /\ ~ is_vpn event policy /\ Direction event = "IN"%string /\ sensitive event policy /\ external (Src event)).

Lemma say_level isRu level a b c d : RiskLevel (say isRu level a b c d) = level.
Proof. by destruct isRu. Qed.

Lemma containsInt_spec l v : (containsInt l v = true) <-> v ∈ l.
Proof.
  unfold containsInt. rewrite existsb_exists. setoid_rewrite Z.eqb_eq. setoid_rewrite <- list_elem_of_In. naive_solver.
Qed.

Lemma containsInt_false l v : (containsInt l v = false) <-> v ∉ l.
Proof. rewrite <- containsInt_spec. by destruct (containsInt l v). Qed.

Lemma web_port_spec n : (n =? 80) || (n =? 443) || (n =? 53) || (n =? 123) = true <-> web_port n.
Proof. unfold web_port. rewrite !orb_true_iff, !Z.eqb_eq, !elem_of_cons, elem_of_nil. tauto. Qed.

(** [critical], case by case. *)
Definition trusted (event : IptablesEvent) (policy : ClassifierPolicy) : Prop :=
  containsString (TrustedAdminIPs policy) (Src event) = true \/ Src event = Dst event \/ is_self (Src event) = true.

Lemma critical_host_in event policy : VMID event = 0 -> Direction event = "IN"%string ->
  critical event policy <-> (DPT event = 22 \/ DPT event = 8006) /\ ~ trusted event policy /\ external (Src event).
Proof. intros H0 Hd. unfold critical, trusted. rewrite H0, Hd. intuition congruence. Qed.

Lemma critical_host_out event policy : VMID event = 0 -> Direction event = "OUT"%string ->
  critical event policy <-> sensitive event policy /\ Dst event <> proxmoxIP policy /\ is_self (Dst event) = false /\ Dst event <> Src event.
Proof. intros H0 Hd. unfold critical. rewrite H0, Hd. intuition congruence. Qed.

Lemma critical_vpn_in event policy : VMID event <> 0 -> is_vpn event policy -> Direction event = "IN"%string ->
  critical event policy <-> ~ (DPT event ∈ vpnPorts policy) /\ (DPT event = 22 \/ sensitive event policy) /\ external (Src event).
Proof. intros H0 Hv Hd. unfold critical. rewrite Hd. intuition congruence. Qed.

Lemma critical_vpn_out event policy : VMID event <> 0 -> is_vpn event policy -> Direction event = "OUT"%string ->
  critical event policy <-> ~ (DPT event ∈ whitelistPorts policy) /\ ~ web_port (DPT event) /\ sensitive event policy.
Proof. intros H0 Hv Hd. unfold critical. rewrite Hd. intuition congruence. Qed.

Lemma critical_container_in event policy : VMID event <> 0 -> ~ is_vpn event policy -> Direction event = "IN"%string ->
  critical event policy <-> sensitive event policy /\ external (Src event).
Proof. intros H0 Hv Hd. unfold critical. rewrite Hd. intuition congruence. Qed.

Lemma critical_container_other event policy : VMID event <> 0 -> Direction event <> "IN"%string ->
  (is_vpn event policy -> Direction event <> "OUT"%string) -> ~ critical event policy.
Proof. intros H0 Hd Hv. unfold critical. intuition congruence. Qed.

Lemma critical_host_other event policy : VMID event = 0 -> Direction event <> "IN"%string -> Direction event <> "OUT"%string ->
  ~ critical event policy.
Proof. intros H0 Hd Hv. unfold critical. intuition congruence. Qed.

Lemma not_critical level (P : Prop) : level <> LevelCritical -> ~ P -> (level = LevelCritical) <-> P.
Proof. tauto. Qed.

Lemma is_critical (P : Prop) : P -> (LevelCritical = LevelCritical) <-> P.
Proof. tauto. Qed.

(** The level of a branch is known; what is left is whether the branch is critical. *)
Ltac level := rewrite ?say_level; first [refine (is_critical _ _) | refine (not_critical _ _ _ _); [done|]].

Lemma host_critical event policy isRu : VMID event = 0 ->
  (  RiskLevel (classify_host event policy isRu) = LevelCritical) <-> critical event policy.
Proof.
  intros H0. unfold classify_host. cbn zeta. destruct (String.eqb_spec (Direction event) "IN") as [Hd|HI].
  - rewrite critical_host_in by done. unfold trusted, external.
    destruct (Z.eqb_spec (DPT event) 22), (Z.eqb_spec (DPT event) 8006); cbn [orb]; [| | |level; intuition congruence].
    all: destruct (containsString _ _), (String.eqb_spec (Src event) (Dst event)), (is_self (Src event)), (IsPrivateIP (Src event));
      cbn [orb negb]; level; intuition congruence.
  - destruct (String.eqb_spec (Direction event) "OUT") as [Hd|HO]; [|level; by apply critical_host_other].
    rewrite critical_host_out by done. unfold sensitive. rewrite <- (containsInt_spec (sensitivePorts policy)).
    destruct (containsInt _ _); [|level; intuition congruence].
    destruct (String.eqb_spec (Dst event) (proxmoxIP policy)), (is_self (Dst event)), (String.eqb_spec (Dst event) (Src event));
      cbn [orb]; level; intuition congruence.
Qed.

Lemma vpn_in_critical event policy isRu : VMID event <> 0 -> is_vpn event policy -> Direction event = "IN"%string ->
  (  RiskLevel (classify_vpn_in event policy isRu) = LevelCritical) <-> critical event policy.
Proof.
  intros H0 Hv Hd. rewrite critical_vpn_in by done. unfold sensitive, external.
  rewrite <- (containsInt_spec (sensitivePorts policy)), <- (containsInt_false (vpnPorts policy)). unfold classify_vpn_in. cbn zeta.
  destruct (containsInt (vpnPorts policy) _); [level; intuition congruence|].
  destruct (Z.eqb_spec (DPT event) 22), (containsInt (sensitivePorts policy) _), (IsPrivateIP (Src event)); cbn [negb]; level; intuition congruence.
Qed.

Lemma vpn_out_critical event policy isRu : VMID event <> 0 -> is_vpn event policy -> Direction event = "OUT"%string ->
  (  RiskLevel (classify_vpn_out event policy isRu) = LevelCritical) <-> critical event policy.
Proof.
  intros H0 Hv Hd. rewrite critical_vpn_out by done. unfold sensitive.
  rewrite <- (containsInt_spec (sensitivePorts policy)), <- (containsInt_false (whitelistPorts policy)), <- web_port_spec.
  unfold classify_vpn_out. cbn zeta. rewrite <- !orb_assoc.
  destruct (containsInt (whitelistPorts policy) _); cbn [orb]; [destruct (IsLocalProcess event); level; intuition congruence|].
  destruct ((DPT event =? 80) || _); [destruct (IsLocalProcess event); level; intuition congruence|].
  destruct (IsLocalProcess event), (containsInt (sensitivePorts policy) _); try (level; intuition congruence).
  destruct (IsPrivateIP (Dst event)); [level; intuition congruence|]. rewrite say_level.
  destruct (AlertVPNClientUnusualPorts policy); level; intuition congruence.
Qed.

Lemma container_critical event policy isRu : VMID event <> 0 ->
  (is_vpn event policy -> Direction event <> "IN"%string /\ Direction event <> "OUT"%string) ->
  (  RiskLevel (classify_container event policy isRu) = LevelCritical) <-> critical event policy.
Proof.
  intros H0 Hv. unfold classify_container. cbn zeta. destruct (String.eqb_spec (Direction event) "IN") as [Hd|Hd].
  - assert (Hn : ~ is_vpn event policy) by (intros Hp; by apply Hv in Hp as [? _]). rewrite critical_container_in by done.
    unfold sensitive, external. rewrite <- (containsInt_spec (sensitivePorts policy)).
    destruct (containsInt (sensitivePorts policy) _), (IsPrivateIP (Src event)); cbn [negb]; try (level; intuition congruence).
    all: destruct (_ || _); level; intuition congruence.
  - assert (Hno : ~ critical event policy) by (apply critical_container_other; [done | done | intros Hp; apply (Hv Hp)]).
    destruct (_ =s "OUT"); [|by level]. destruct (containsInt (LXCWhitelistVMIDs policy) _); [by level|].
    destruct (containsInt (sensitivePorts policy) _); [by level|]. destruct (_ || _); [by level|]. destruct (negb _); by level.
Qed.

(** Which connections are critical: exactly those [critical] describes, in
    either language. *)
Theorem classify_critical_iff event policy lang :
  (RiskLevel (ClassifyConnection event policy lang) = LevelCritical) <-> critical event policy.
Proof.
  unfold ClassifyConnection. cbn zeta. destruct (Z.eqb_spec (VMID event) 0) as [H0|H0]; [by apply host_critical|].
  destruct (isVPNVMID (VMID event) policy) eqn:Ev; cbn [andb].
  - destruct (String.eqb_spec (Direction event) "IN"); [by apply vpn_in_critical|].
    destruct (String.eqb_spec (Direction event) "OUT"); [by apply vpn_out_critical|]. by apply container_critical.
  - apply container_critical; [done|]. unfold is_vpn. by rewrite Ev.
Qed.

(** The level does not depend on the language. *)
Lemma level_any_language event policy lang lang' :
  RiskLevel (ClassifyConnection event policy lang) = RiskLevel (ClassifyConnection event policy lang').
Proof.
  unfold ClassifyConnection, classify_host, classify_vpn_in, classify_vpn_out, classify_container. cbn zeta.
  repeat (rewrite ?say_level; first [reflexivity | case_match]).
Qed.

(** ** The detector against the full log

    The detector forgets: records leave the window, sources are dropped.  The
    reference keeps everything and looks back over the window each time. *)

Definition recorded (d : RouterThreatDetector) (ev : RouterEvent) : bool := watched d (DstPort ev) || is_gateway_target d ev.

(** What one source did, in the order it did it. *)
Definition attempts (d : RouterThreatDetector) (src : string) (log : list (Z * RouterEvent)) : list RouterConnectionRecord :=
  map (fun p => mkRecord p.1 (DstHost p.2) (DstPort p.2) (e_Proto p.2))
    (List.filter (fun p => (SrcIP p.2 =s src) && recorded d p.2) log).

Definition verdict (now : Z) (d : RouterThreatDetector) (ev : RouterEvent) (log : list (Z * RouterEvent)) : RouterEvent :=
  if recorded d ev then judge now d ev (since (now - window d) (attempts d (SrcIP ev) log))
  else judged ev false false (ThreatType ev) (Reason ev).

Fixpoint full_log (d : RouterThreatDetector) (log tr : list (Z * RouterEvent)) : list RouterEvent :=
  match tr with
  | [] => []
  | (now, ev) :: tr => verdict now d ev (log ++ [(now, ev)]) :: full_log d (log ++ [(now, ev)]) tr
  end.

Fixpoint detect (d : RouterThreatDetector) (tr : list (Z * RouterEvent)) : list RouterEvent :=
  match tr with
  | [] => []
  | (now, ev) :: tr => let '(d, ev) := Evaluate now d ev in ev :: detect d tr
  end.

(** The clock does not go back. *)
Fixpoint timely (t : Z) (tr : list (Z * RouterEvent)) : Prop :=
  match tr with [] => True | (now, _) :: tr => t <= now /\ timely now tr end.

Lemma since_app c l l' : since c (l ++ l') = since c l ++ since c l'.
Proof. apply List.filter_app. Qed.

Lemma since_since c c' l : c' <= c -> since c (since c' l) = since c l.
Proof.
  intros Hc. unfold since. induction l as [|r l IH]; [done|]. cbn [List.filter].
  destruct (After (r_Timestamp r) c') eqn:E'; cbn [List.filter]; rewrite IH; [done|].
  replace (After (r_Timestamp r) c) with false; [done|]. symmetry. unfold After in *. lia.
Qed.

Lemma since_none c l : Forall (fun r => r_Timestamp r <= c) l -> since c l = [].
Proof.
  induction 1 as [|r l Hr _ IH]; [done|]. unfold since in *. cbn [List.filter]. rewrite IH.
  replace (After (r_Timestamp r) c) with false; [done|]. unfold After. lia.
Qed.

Lemma attempts_snoc d src log now ev :
  attempts d src (log ++ [(now, ev)]) =
    attempts d src log ++ (if (SrcIP ev =s src) && recorded d ev then [mkRecord now (DstHost ev) (DstPort ev) (e_Proto ev)] else []).
Proof. unfold attempts. rewrite List.filter_app, map_app. f_equal. cbn. by destruct (_ && _). Qed.

(** The records of a source are in the order of their instants, none of them in
    the future. *)
Definition ordered_records (t : Z) (recs : list RouterConnectionRecord) : Prop :=
  exists r, last recs = Some r /\ r_Timestamp r <= t /\ Forall (fun q => r_Timestamp q <= r_Timestamp r) recs.

(** What the detector holds of a log up to [t]: inside the window, everything. *)
Record holds (t : Z) (d : RouterThreatDetector) (log : list (Z * RouterEvent)) : Prop := {
  holds_window : forall src c, t - window d <= c -> since c (default [] (history d !! src)) = since c (attempts d src log);
  holds_ordered : map_Forall (fun _ => ordered_records t) (history d);
}.

Lemma ordered_snoc t now r recs : t <= now -> r_Timestamp r = now -> Forall (fun q => r_Timestamp q <= t) recs -> ordered_records now (recs ++ [r]).
Proof.
  intros Ht Hr Hf. exists r. rewrite last_snoc. split_and!; [done | lia |].
  rewrite Forall_app. split; [|by repeat constructor; lia]. eapply Forall_impl; [exact Hf|]. cbn. lia.
Qed.

Lemma ordered_bound t recs : ordered_records t recs -> Forall (fun q => r_Timestamp q <= t) recs.
Proof. intros (r & _ & Hr & Hf). eapply Forall_impl; [exact Hf|]. cbn. lia. Qed.

Lemma Forall_since P c l : Forall P l -> Forall P (since c l).
Proof. rewrite !List.Forall_forall. unfold since. setoid_rewrite filter_In. naive_solver. Qed.

(** Dropping a stale source loses nothing of the window. *)
Lemma stale_since now d recs t c : 0 < window d -> now - window d <= c -> t <= now -> ordered_records t recs ->
  stale now d recs = true -> since c recs = [].
Proof.
  intros Hw Hc Ht (r & El & Hr & Hf). unfold stale. rewrite El. intros Hs. apply since_none.
  eapply Forall_impl; [exact Hf|]. cbn. intros q Hq. unfold Sub, minInt64 in Hs. lia.
Qed.

(** The record of the event goes in, the old ones of its source go out. *)
Lemma remember_recent t now d ev log : 0 < window d <= maxInt64 -> t <= now -> holds t d log -> recorded d ev = true ->
  (remember now d ev).2 = since (now - window d) (attempts d (SrcIP ev) (log ++ [(now, ev)])).
Proof.
  intros Hw Ht [Hl _] Hr. unfold remember. cbn zeta. cbn [snd]. unfold Add.
  rewrite wrap64_small by (unfold maxInt64 in *; lia). rewrite Z.add_opp_r, attempts_snoc, String.eqb_refl, Hr, !since_app. cbn [andb].
  f_equal. apply Hl. lia.
Qed.

Lemma remember_holds t now d ev log : 0 < window d <= maxInt64 -> t <= now -> holds t d log -> recorded d ev = true ->
  holds now (remember now d ev).1 (log ++ [(now, ev)]).
Proof.
  intros Hw Ht Hh Hr. pose proof (remember_recent t now d ev log Hw Ht Hh Hr) as Erec. destruct Hh as [Hl Ho].
  unfold remember in *. cbn zeta in *. cbn [fst snd] in *. set (recent := since _ _) in *.
  assert (Hin : exists l, recent = l ++ [mkRecord now (DstHost ev) (DstPort ev) (e_Proto ev)] /\ Forall (fun q => r_Timestamp q <= t) l).
  { exists (since (Add now (wrap64 (- window d))) (default [] (history d !! SrcIP ev))). unfold recent. rewrite since_app. split.
    - f_equal. unfold since. cbn. unfold After, Add. rewrite wrap64_small by (unfold maxInt64 in *; lia).
      by replace (now + - window d <? now) with true by lia.
    - apply Forall_since. destruct (history d !! SrcIP ev) as [recs|] eqn:E; [|constructor]. by apply ordered_bound, (Ho _ _ E). }
  destruct Hin as (l & El & Hf).
  assert (Hlen : (len recent =? 0) = false) by (rewrite El; unfold len; rewrite length_app; apply Z.eqb_neq; cbn [length]; lia).
  rewrite Hlen.
  assert (Hn : forall src c, now - window d <= c ->
    since c (default [] (<[SrcIP ev := recent]> (history d) !! src)) = since c (attempts d src (log ++ [(now, ev)]))).
  { intros src c Hc. destruct (decide (src = SrcIP ev)) as [->|Hn].
    - rewrite lookup_insert_eq. cbn [default from_option id]. rewrite Erec. apply since_since. lia.
    - rewrite lookup_insert_ne by done. rewrite attempts_snoc. apply String.eqb_neq in Hn. rewrite String.eqb_sym in Hn.
      rewrite Hn. cbn [andb]. rewrite app_nil_r. apply Hl. lia. }
  assert (Hm : map_Forall (fun _ => ordered_records now) (<[SrcIP ev := recent]> (history d))).
  { apply map_Forall_insert_2; [rewrite El; by apply (ordered_snoc t)|]. intros src recs Es.
    destruct (Ho _ _ Es) as (r & ? & ? & ?). exists r. split_and!; [done | lia | done]. }
  destruct (1000 <? _); [|by split].
  split; cbn [with_history history window].
  - intros src c Hc. etransitivity; [|exact (Hn src c Hc)]. rewrite lookup_range_delete. destruct (_ !! src) as [recs|] eqn:Es; [|done].
    destruct (stale now d recs) eqn:Est; [|done]. cbn [default from_option id]. symmetry.
    apply (stale_since now d recs now); [lia | done | lia | apply (Hm _ _ Es) | done].
  - by apply map_Forall_range_delete.
Qed.

Lemma Evaluate_holds t now d ev log : 0 < window d <= maxInt64 -> t <= now -> holds t d log ->
  let d' := (Evaluate now d ev).1 in
  holds now d' (log ++ [(now, ev)]) /\ (Evaluate now d ev).2 = verdict now d ev (log ++ [(now, ev)]) /\ d' = with_history d (history d').
Proof.
  intros Hw Ht Hh. unfold Evaluate, verdict. rewrite <- negb_orb. fold (recorded d ev).
  destruct (recorded d ev) eqn:Hr; cbn [negb].
  - pose proof (remember_recent t now d ev log Hw Ht Hh Hr) as E. pose proof (remember_holds t now d ev log Hw Ht Hh Hr) as H.
    destruct (remember now d ev) as [d' recent] eqn:Ed. cbn [fst snd] in *. subst recent. split_and!; [done | |].
    + unfold remember in Ed. by injection Ed as <- _.
    + unfold remember in Ed. by injection Ed as <- _.
  - cbn zeta. cbn [fst snd]. split_and!; [|done | by destruct d]. destruct Hh as [Hl Ho]. split.
    + intros src c Hc. rewrite attempts_snoc, Hr, andb_false_r, app_nil_r. apply Hl. lia.
    + intros src recs Es. destruct (Ho _ _ Es) as (r & ? & ? & ?). exists r. split_and!; [done | lia | done].
Qed.

Lemma detect_full_log t d log tr : 0 < window d <= maxInt64 -> timely t tr -> holds t d log -> detect d tr = full_log d log tr.
Proof.
  revert t d log. induction tr as [|[now ev] tr IH]; intros t d log Hw Ht Hh; [done|]. destruct Ht as [Ht Htr].
  cbn [detect full_log]. destruct (Evaluate_holds t now d ev log Hw Ht Hh) as (Hh' & Ev & Ed).
  destruct (Evaluate now d ev) as [d' ev']. cbn [fst snd] in *. subst ev'. f_equal.
  rewrite Ed in Hh' |- *. rewrite (IH now _ (log ++ [(now, ev)])); [|done..].
  clear. generalize (log ++ [(now, ev)]). induction tr as [|[? ?] tr IH]; intros l; [done|]. cbn [full_log]. f_equal. apply IH.
Qed.
(** C35. The detector of router events judges every event as one that never forgot
    anything would: from an empty history, with a positive window, and while the clock does
    not go back, whatever arrived before and in whichever order stale sources were dropped,
    each verdict is the one over all earlier attempts of the same source inside the
    window. *)
Theorem detector_refines_full_log d t tr :
  history d = ∅ -> 0 < window d <= maxInt64 -> timely t tr -> detect d tr = full_log d [] tr.
Proof.
  intros He Hw Ht. apply (detect_full_log t); [done..|]. split; rewrite He; [done | apply map_Forall_empty].
Qed.

Lemma detector_refines_full_log_witness :
  let d := GetDefaultRouterThreatDetector (fun _ => ""%string) in
  let telnet := mkRouterEvent "10.0.0.5" "203.0.113.7" "TCP" 40000 23 false false "" "" 0 0 "" in
  let tr := [(1 * Second, telnet); (2 * Second, telnet); (3 * Second, telnet); (700 * Second, telnet)] in
  detect d tr = full_log d [] tr /\ map ShouldAutoBan (detect d tr) = [false; false; true; false].
Proof.
  cbn zeta. split; [|by vm_compute].
  apply (detector_refines_full_log _ 0); [done | by vm_compute | by vm_compute].
Defined.

(** [SetSensitivePorts] "replaces the list", but the default ports stay
    sensitive whatever is given. *)
Lemma defaults_stay_sensitive d ports : IsSensitivePort (SetSensitivePorts d ports) 22 = true.
Proof. unfold IsSensitivePort. by rewrite orb_true_r. Qed.

(** Other hosts of 192.168.0.0/16 are treated as gateways, but attempts on them
    are not counted, so they alone never make a gateway attack. *)
Lemma gateway_prefix_not_counted d h :
  Forall (fun r => r_DstHost r = "192.168.1.254"%string) h -> gateway_count d h = 0.
Proof.
  intros Hf. unfold gateway_count. replace (List.filter _ h) with (@nil RouterConnectionRecord); [done|].
  induction Hf as [|r h Hr _ IH]; [done|]. cbn [List.filter]. rewrite Hr. apply IH.
Qed.
End Netfilter.
