(* ===== verification/LogParsers.v ===== *)
(** * The log lines of the cores
    (src/pkg/security/detector/parsers.go, xray.go, singbox.go, hysteria.go and
    the entry of log_auditor.go)

    A line of a core's log is turned into an event of a client.  sing-box spreads
    what it knows of a connection over several lines, so its parser keeps caches
    by the identifier of the connection.  The parsers of the process are one
    state, passed explicitly. *)
From S2P Require Import Prelude GoStrings GoNet GoRegexp RiskTracker Registry Auditors.
Import RiskTracker Registry Auditors GoRegexp.
Open Scope Z_scope.

Module LogParsers.
(** The quotation mark, which patterns and cut sets hold. *)
Definition dq : string := String quote_char "".

(** ** Patterns *)

Definition hysteriaTCPRegex : Regexp :=
  regexp "\[(?:TCP|UDP)\]\s+([^\s:]+):\d+\s+->\s+([^\s:]+):(\d+)\s+\(user:\s*([^\s\)]+)\)".
Definition hysteriaAuthFailRegex : Regexp := regexp "auth failed for (?:user|client)\s+([^\s]+)".
Definition metadataRegex : Regexp := regexp "(?:169\.254\.169\.254|metadata\.google\.internal|100\.100\.100\.200)".
Definition hysteriaMetadataRegex : Regexp := metadataRegex.
Definition xrayMetadataRegex : Regexp := metadataRegex.
Definition singboxMetadataRegex : Regexp := metadataRegex.

Definition xrayInboundRegex : Regexp :=
  regexp "from\s+(?:tcp|udp):([^\s:]+):\d+\s+accepted\s+(?:tcp|udp):([^\s:]+):(\d+)(?:.*?email:\s*([^\s]+))?".
Definition xrayRejectRegex : Regexp :=
  regexp "(?:rule|router).*?(?:match|rejected).*?(?:for|to)\s+(?:tcp|udp):([^\s:]+):(\d+)|connection from\s+(?:tcp|udp):([^\s:]+):\d+\s+rejected".

Definition singboxConnRegex : Regexp := regexp "(?:inbound|outbound).*?connection to\s+([^\s:]+):(\d+)".
Definition singboxRejectRegex : Regexp := regexp "(?:rule|router).*?(?:match|rejected).*?(?:for|to)\s+([^\s:]+):(\d+)".
Definition singboxProcessRegex : Regexp :=
  regexp "(?i)(?:found process path:\s*|process path:\s*)([^\r\n,\]\)]+)|(?i)(?:from process|by process|process[:=\s]+|user[:=\s]+)\s*([^\s,\]\)]+)".
Definition singboxConnIDRegex : Regexp := regexp "\[(\d+)\s+\d+m?s\]".
Definition singboxProcEventRegex : Regexp := regexp "(?:router:\s+)?found process path:\s+([^\r\n]+)".
Definition singboxFromClientRegex : Regexp :=
  regexp "\[(\d+)\s+[\d.]+(?:ms|µs|us|s|ns|m)\]\s+\S+:\s+inbound connection from\s+([^\s:]+):\d+".
(** The pattern compiled inside [ParseLogLine]. *)
Definition fromByRegex : Regexp := regexp "(?:from|by)\s+([^\s:]+)".

Definition sbInboundTagRegex : Regexp := regexp "(?:inbound/[^:]+|inbound[^:]*):\s*\[([a-zA-Z0-9_\.\-]+)\]\s+inbound connection to".
Definition sbBracketUser : Regexp := regexp "\[([a-zA-Z0-9_\.\-]+)\]\s+inbound connection to".
Definition sbRouterMatchRegex : Regexp := regexp "router:\s*match\[\d+\]\s*(?:inbound/[^\s]+\s+)?\[([a-zA-Z0-9_\.\-]+)\]".

(** The groups of the first match; Go's [matches[i]] for [i > 0]. *)
Definition groups_of (x : Regexp) (s : string) : option (list string) := option_map (drop 1) (FindStringSubmatch x s).
Definition group1 (x : Regexp) (s : string) : option string :=
  match groups_of x s with Some (a :: _) => Some a | _ => None end.

(** ** Names in a line *)

Definition contains_str (l : list string) (s : string) : bool := existsb (String.eqb s) l.

Definition isIgnoredTagOrLevel (val : string) : bool :=
  let upper := ToUpper val in
  let lower := ToLower val in
  (val =s "") ||
  contains_str ["INFO"; "DEBUG"; "WARN"; "WARNING"; "ERROR"; "TRACE"; "FATAL"; "PANIC"]%string upper ||
  contains_str ["direct"; "block"; "blocked"; "dns"; "dns-out"; "dns-direct"; "mixed-in"; "vless-in"; "ss-in"; "trojan-in";
                "hysteria-in"; "tuic-in"]%string lower ||
  (HasPrefix lower "inbound-" && negb (Contains lower "@")).

(** What follows the last slash or backslash. *)
Fixpoint after_slash (s : string) : string :=
  match s with
  | EmptyString => ""
  | String c t => if str_exists (in_set "/\") t then after_slash t else if in_set "/\" c then t else s
  end.

Definition cleanProcessName (s : string) : string :=
  let s := Trim (TrimSpace s) ("()" ^^ dq ^^ "',:;[] " ^^ string_of_bytes [9; 13; 10]) in
  TrimSpace (after_slash s).

Definition user_cutset : string := "(),:;[]".

Fixpoint after_user_word (words : list string) : option string :=
  match words with
  | w :: (v :: _ as rest) => if contains_str ["user"; "client"; "username"; "auth"]%string w then Some v else after_user_word rest
  | _ => None
  end.

Definition extractUserID (line : string) : string :=
  let words := Fields line in
  match List.find (fun w => Contains w "@" && negb (HasPrefix w "http")) words with
  | Some w => Trim w user_cutset
  | None => match after_user_word words with Some v => Trim v user_cutset | None => "" end
  end.

(** A bracketed name of a line, if it is no tag or level. *)
Definition tag_of (x : Regexp) (line : string) : option string :=
  m ← group1 x line;
  let u := cleanProcessName m in
  if (u <>s "") && negb (isIgnoredTagOrLevel u) then Some u else None.

Definition process_of (line : string) : option string :=
  m ← groups_of singboxProcessRegex line;
  let proc := cleanProcessName (if default "" (m !! 0%nat) =s "" then default "" (m !! 1%nat) else default "" (m !! 0%nat)) in
  if (proc <>s "") && negb (Contains proc ":") && negb (isIgnoredTagOrLevel proc) then Some proc else None.

Definition extractProcessOrUser (line : string) : string :=
  match process_of line with
  | Some p => p
  | None =>
      match tag_of sbBracketUser line with
      | Some u => u
      | None =>
          match tag_of sbInboundTagRegex line with
          | Some u => u
          | None =>
              match tag_of sbRouterMatchRegex line with
              | Some u => u
              | None => let u := extractUserID line in if isIgnoredTagOrLevel u then "" else u
              end
          end
      end
  end.

(** ** Hysteria 2 *)

Definition parse_hysteria (line : string) : option ParsedLogEvent :=
  let cleanLine := TrimSpace line in
  if cleanLine =s "" then None
  else if MatchString hysteriaMetadataRegex cleanLine then
    Some (mkEvent "hysteria2" (extractUserID cleanLine) "" "" "169.254.169.254" 80 "SSRF_PROBE" cleanLine)
  else
    match groups_of hysteriaTCPRegex cleanLine with
    | Some [ip; host; port; user] => Some (mkEvent "hysteria2" user ip "" host (atoi port) "SENSITIVE_PORT_PROBE" cleanLine)
    | _ =>
        match group1 hysteriaAuthFailRegex cleanLine with
        | Some user => Some (mkEvent "hysteria2" user "" "" "" 0 "AUTH_FAIL" cleanLine)
        | None => None
        end
    end.

(** ** Xray *)

Definition or_else_str (a b : string) : string := if a =s "" then b else a.

Definition parse_xray (line : string) : option ParsedLogEvent :=
  let cleanLine := TrimSpace line in
  if cleanLine =s "" then None
  else if MatchString xrayMetadataRegex cleanLine then
    Some (mkEvent "xray" (extractProcessOrUser cleanLine) "" "" "169.254.169.254" 80 "SSRF_PROBE" cleanLine)
  else
    match groups_of xrayInboundRegex cleanLine with
    | Some [ip; host; port; email] =>
        let identified := or_else_str email (extractProcessOrUser cleanLine) in
        let id := if identified =s "" then ip else cleanProcessName identified in
        Some (mkEvent "xray" id ip "" host (atoi port) "SENSITIVE_PORT_PROBE" cleanLine)
    | _ =>
        match groups_of xrayRejectRegex cleanLine with
        | Some [host; port; client] =>
            let '(clientIP, targetHost) := if host =s "" then (client, client) else (""%string, host) in
            Some (mkEvent "xray" (extractProcessOrUser cleanLine) clientIP "" targetHost (atoi port) "ROUTING_REJECT" cleanLine)
        | _ => None
        end
    end.

(** ** sing-box *)

Record SingboxParser := mkParser {
  connProcCache : gmap string string;
  connPathCache : gmap string string;
  pendingEvents : gmap string ParsedLogEvent;
  connClientIPCache : gmap string string;
  cacheCount : Z;
}.

Definition NewSingboxParser : SingboxParser := mkParser ∅ ∅ ∅ ∅ 0.

Definition isHotspotOrLANClient (ipStr : string) : bool :=
  if contains_str [""; "127.0.0.1"; "::1"; "localhost"]%string ipStr then false
  else
    let ip := ParseIP ipStr in
    if is_nil ip then false
    else IsPrivate ip || HasPrefix ipStr "192.168." || HasPrefix ipStr "172." || HasPrefix ipStr "10.".

Section singbox.
Context {order : RangeOrder string}.

(** Every 5000 insertions 2500 connections with a known process, any, are
    forgotten. *)
Definition checkAndPruneCache (p : SingboxParser) : SingboxParser :=
  if 5000 <? wrap64 (cacheCount p + 1) then
    let keys := take 2500 (range_keys (dom (connProcCache p))) in
    let forget {A} (m : gmap string A) := foldl (fun m k => delete k m) m keys in
    mkParser (forget (connProcCache p)) (forget (connPathCache p)) (pendingEvents p) (forget (connClientIPCache p)) 0
  else mkParser (connProcCache p) (connPathCache p) (pendingEvents p) (connClientIPCache p) (wrap64 (cacheCount p + 1)).

Definition store_client (p : SingboxParser) (id ip : string) : SingboxParser :=
  mkParser (connProcCache p) (connPathCache p) (pendingEvents p) (<[id := ip]> (connClientIPCache p)) (cacheCount p).
Definition store_process (p : SingboxParser) (id name path : string) : SingboxParser :=
  mkParser (<[id := name]> (connProcCache p)) (<[id := path]> (connPathCache p)) (pendingEvents p) (connClientIPCache p) (cacheCount p).
Definition set_pending (p : SingboxParser) (m : gmap string ParsedLogEvent) : SingboxParser :=
  mkParser (connProcCache p) (connPathCache p) m (connClientIPCache p) (cacheCount p).

(** What a cache holds of a connection; nothing of a line without one. *)
Definition cached (m : gmap string string) (connID : string) : string :=
  if connID <>s "" then default "" (m !! connID) else "".

(** [ev.ClientRawID = procName; ev.ExecutablePath = fullPath] *)
Definition attributed (ev : ParsedLogEvent) (procName fullPath : string) : ParsedLogEvent :=
  mkEvent (CoreName ev) procName (ClientIP ev) fullPath (TargetHost ev) (TargetPort ev) (EventType ev) (RawLine ev).

(** A line that names the process of a connection; the event that waited for it,
    if any. *)
Definition process_line (p : SingboxParser) (connID line : string) : SingboxParser * option ParsedLogEvent :=
  match group1 singboxProcEventRegex line with
  | Some m =>
      let fullPath := TrimSpace m in
      let procName := cleanProcessName fullPath in
      if (connID <>s "") && (procName <>s "") then
        let p := store_process (checkAndPruneCache p) connID procName fullPath in
        match pendingEvents p !! connID with
        | Some ev => (set_pending p (delete connID (pendingEvents p)), Some (attributed ev procName fullPath))
        | None => (p, None)
        end
      else (p, None)
  | None => (p, None)
  end.

Definition ssrf_event (p : SingboxParser) (connID line : string) : ParsedLogEvent :=
  let proc := extractProcessOrUser line in
  let proc := if ((proc =s "") || HasPrefix proc "172." || HasPrefix proc "192.") && is_some (connProcCache p !! connID) && (connID <>s "")
              then cached (connProcCache p) connID else proc in
  mkEvent "sing-box" proc (cached (connClientIPCache p) connID) "" "169.254.169.254" 80 "SSRF_PROBE" line.

(** A connection to a target: known process, else what the line names, else the
    client; an inbound one that names nobody waits for its process. *)
Definition connection_line (p : SingboxParser) (connID line host port : string) : SingboxParser * option ParsedLogEvent :=
  let proc := cached (connProcCache p) connID in
  let path := cached (connPathCache p) connID in
  let clientIP := cached (connClientIPCache p) connID in
  let id := if proc =s "" then or_else_str (extractProcessOrUser line) clientIP else proc in
  if (id =s "") && (connID <>s "") && Contains line "inbound connection to" then
    (set_pending p (<[connID := mkEvent "sing-box" "pending" clientIP "" host (atoi port) "SENSITIVE_PORT_PROBE" line]> (pendingEvents p)),
     None)
  else
    let id := if id =s "" then (if clientIP <>s "" then clientIP else default "" (group1 fromByRegex line)) else id in
    let id := if id =s "" then "system"%string else cleanProcessName id in
    (p, Some (mkEvent "sing-box" id clientIP path host (atoi port) "SENSITIVE_PORT_PROBE" line)).

Definition reject_event (line : string) : option ParsedLogEvent :=
  match groups_of singboxRejectRegex line with
  | Some [host; port] => Some (mkEvent "sing-box" (extractProcessOrUser line) "" "" host (atoi port) "ROUTING_REJECT" line)
  | _ => None
  end.

Definition conn_id (line : string) : string := default "" (group1 singboxConnIDRegex line).

Definition parse_singbox (p : SingboxParser) (line : string) : SingboxParser * option ParsedLogEvent :=
  let cleanLine := TrimSpace line in
  if cleanLine =s "" then (p, None)
  else
    let connID := conn_id cleanLine in
    if Contains cleanLine "inbound connection from" then
      match groups_of singboxFromClientRegex cleanLine with
      | Some [id; ip] => (store_client (checkAndPruneCache p) id ip, None)
      | _ => (p, None)
      end
    else
      match process_line p connID cleanLine with
      | (p, Some ev) => (p, Some ev)
      | (p, None) =>
          if MatchString singboxMetadataRegex cleanLine then (p, Some (ssrf_event p connID cleanLine))
          else
            match groups_of singboxConnRegex cleanLine with
            | Some [host; port] => connection_line p connID cleanLine host port
            | _ => (p, reject_event cleanLine)
            end
      end.

(** ** The entry points *)

Definition ParseCoreLogLine (p : SingboxParser) (coreName line : string) : SingboxParser * option ParsedLogEvent :=
  let cleanLine := TrimSpace line in
  if cleanLine =s "" then (p, None)
  else
    let normCore := ToLower (TrimSpace coreName) in
    if Contains normCore "sing-box" || Contains normCore "singbox" then parse_singbox p cleanLine
    else if Contains normCore "xray" then (p, parse_xray cleanLine)
    else if Contains normCore "hysteria" then (p, parse_hysteria cleanLine)
    else
      match parse_singbox p cleanLine with
      | (p, Some ev) => (p, Some ev)
      | (p, None) => (p, match parse_xray cleanLine with Some ev => Some ev | None => parse_hysteria cleanLine end)
      end.

Definition AuditLogLine (now : Z) (p : SingboxParser) (a : LogAuditor) (coreName line : string) : SingboxParser * LogAuditor * list reaction :=
  if line =s "" then (p, a, [])
  else
    match ParseCoreLogLine p coreName line with
    | (p, Some event) => let '(a, res) := audit_event now a event in (p, a, res)
    | (p, None) => (p, a, [])
    end.
End singbox.

(** ** The connections of the Clash interface

    The answer decoded from its JSON. *)
Record clashConn := mkClashConn {
  cc_ID : string; cc_User : string; cc_SourceIP : string; cc_Host : string; cc_Destination : string; cc_DestPort : string;
  cc_Upload : Z; cc_Download : Z
}.

Definition ParseSingboxConnections (unmarshal : string -> option (list clashConn)) (now : Z) (rawJSON : string)
    : option (list ActiveConnection) :=
  conns ← unmarshal rawJSON;
  Some (map (fun c => mkConn (cc_ID c) (or_else_str (cc_User c) (cc_SourceIP c)) (cc_SourceIP c)
                        (or_else_str (cc_Host c) (cc_Destination c)) (atoi (cc_DestPort c)) (cc_Upload c) (cc_Download c) now) conns).

(** ** Connections do not mix

    Every line belongs to one connection, or to none; it reads and writes the
    caches there only. *)

Definition line_key (line : string) : string :=
  let cleanLine := TrimSpace line in
  if cleanLine =s "" then ""
  else if Contains cleanLine "inbound connection from" then
    match groups_of singboxFromClientRegex cleanLine with Some [id; _] => id | _ => "" end
  else conn_id cleanLine.

(** What the parser knows of a connection. *)
Definition knows (k : string) (p : SingboxParser) : option string * option string * option ParsedLogEvent * option string :=
  (connProcCache p !! k, connPathCache p !! k, pendingEvents p !! k, connClientIPCache p !! k).

Section connections.
Context {order : RangeOrder string}.

(** The events of the lines, with the connection each line belongs to. *)
Fixpoint parse_lines (p : SingboxParser) (lines : list string) : list (string * option ParsedLogEvent) :=
  match lines with
  | [] => []
  | line :: lines => let '(p, ev) := parse_singbox p line in (line_key line, ev) :: parse_lines p lines
  end.

(** Room for [n] insertions before caches are pruned. *)
Definition room (n : Z) (p : SingboxParser) : Prop := 0 <= cacheCount p /\ cacheCount p + n <= 5000.

Lemma prune_room n p : room (n + 1) p -> 0 <= n ->
  room n (checkAndPruneCache p) /\ forall k, knows k (checkAndPruneCache p) = knows k p.
Proof.
  intros [H0 Hn] Hp. unfold checkAndPruneCache. rewrite wrap64_small by lia. replace (5000 <? cacheCount p + 1) with false by lia.
  split; [unfold room; cbn; lia | done].
Qed.

Lemma room_weaken n p : room (n + 1) p -> room n p.
Proof. unfold room. lia. Qed.

Lemma cached_ext k p p' : knows k p = knows k p' ->
  cached (connProcCache p) k = cached (connProcCache p') k /\ cached (connPathCache p) k = cached (connPathCache p') k /\
  cached (connClientIPCache p) k = cached (connClientIPCache p') k.
Proof. unfold knows, cached. intros Hk. injection Hk as H1 H2 _ H4. by rewrite H1, H2, H4. Qed.

Lemma process_line_room n p id line : room (n + 1) p -> 0 <= n -> room n (process_line p id line).1.
Proof.
  intros Hr Hn. pose proof (room_weaken _ _ Hr). destruct (prune_room n p Hr Hn) as [Hr' _]. unfold process_line.
  destruct (group1 _ _); [|done]. cbn zeta. destruct (_ && _); [|done]. by destruct (pendingEvents _ !! id).
Qed.

Lemma process_line_other n p id line k : room (n + 1) p -> 0 <= n -> k <> id -> knows k (process_line p id line).1 = knows k p.
Proof.
  intros Hr Hn Hk. destruct (prune_room n p Hr Hn) as [_ Hv]. specialize (Hv k). unfold process_line.
  destruct (group1 _ _); [|done]. cbn zeta. destruct (_ && _); [|done]. unfold knows in *.
  destruct (pendingEvents _ !! id); cbn; rewrite !lookup_insert_ne, ?lookup_delete_ne by done; exact Hv.
Qed.

Lemma process_line_same n n' p p' id line : room (n + 1) p -> 0 <= n -> room (n' + 1) p' -> 0 <= n' -> knows id p = knows id p' ->
  (process_line p id line).2 = (process_line p' id line).2 /\
  knows id (process_line p id line).1 = knows id (process_line p' id line).1.
Proof.
  intros Hr Hn Hr' Hn' Hk. destruct (prune_room n p Hr Hn) as [_ Hv]. destruct (prune_room n' p' Hr' Hn') as [_ Hv'].
  specialize (Hv id). specialize (Hv' id). rewrite Hk, <- Hv' in Hv. unfold process_line.
  destruct (group1 _ _); [|done]. cbn zeta. destruct (_ && _); [|done]. unfold knows in *.
  injection Hv as H1 H2 H3 H4. cbn. rewrite H3.
  destruct (pendingEvents (checkAndPruneCache p') !! id) eqn:E; cbn; rewrite ?lookup_insert_eq, ?lookup_delete_eq, ?H3, ?H4, ?E; done.
Qed.

Lemma connection_line_room n p id line host port : room n p -> room n (connection_line p id line host port).1.
Proof. intros Hr. unfold connection_line. cbn zeta. by destruct (_ && _). Qed.

Lemma connection_line_other p id line host port k : k <> id -> knows k (connection_line p id line host port).1 = knows k p.
Proof. intros Hk. unfold connection_line, knows. cbn zeta. destruct (_ && _); cbn; [by rewrite lookup_insert_ne | done]. Qed.

Lemma connection_line_same p p' id line host port : knows id p = knows id p' ->
  (connection_line p id line host port).2 = (connection_line p' id line host port).2 /\
  knows id (connection_line p id line host port).1 = knows id (connection_line p' id line host port).1.
Proof.
  intros Hk. destruct (cached_ext id p p' Hk) as (E1 & E2 & E3). unfold connection_line. cbn zeta. rewrite E1, E2, E3.
  destruct (_ && _ && _); [|done]. split; [done|]. unfold knows in *. cbn. rewrite !lookup_insert_eq. injection Hk as H1 H2 _ H4. by rewrite H1, H2, H4.
Qed.

Lemma ssrf_event_same p p' id line : knows id p = knows id p' -> ssrf_event p id line = ssrf_event p' id line.
Proof. intros Hk. destruct (cached_ext id p p' Hk) as (_ & _ & E). unfold ssrf_event. unfold knows in Hk. injection Hk as H1 _ _ _. rewrite E. unfold cached. by rewrite H1. Qed.

Lemma parse_singbox_room n p line : room (n + 1) p -> 0 <= n -> room n (parse_singbox p line).1.
Proof.
  intros Hr Hn. pose proof (room_weaken _ _ Hr) as Hw. destruct (prune_room n p Hr Hn) as [Hr' Hv].
  unfold parse_singbox. cbn zeta. destruct (_ =s ""); [done|]. destruct (Contains _ _).
  - by destruct (groups_of _ _) as [[|id [|ip [|]]]|].
  - pose proof (process_line_room n p (conn_id (TrimSpace line)) (TrimSpace line) Hr Hn) as Hpr.
    destruct (process_line _ _ _) as [p1 [ev|]]; [done|]. destruct (MatchString _ _); [done|].
    destruct (groups_of _ _) as [[|host [|port [|]]]|]; try done. by apply connection_line_room.
Qed.

(** A line leaves the other connections alone. *)
Lemma parse_singbox_other n p line k : room (n + 1) p -> 0 <= n -> k <> line_key line ->
  knows k (parse_singbox p line).1 = knows k p.
Proof.
  intros Hr Hn Hk. destruct (prune_room n p Hr Hn) as [_ Hv].
  unfold parse_singbox, line_key in *. cbn zeta in *. destruct (_ =s ""); [done|]. destruct (Contains _ _).
  - destruct (groups_of _ _) as [[|id [|ip [|]]]|]; try done. rewrite <- (Hv k). unfold knows. cbn. by rewrite lookup_insert_ne.
  - pose proof (process_line_other n p (conn_id (TrimSpace line)) (TrimSpace line) k Hr Hn Hk) as Hpo.
    destruct (process_line _ _ _) as [p1 [ev|]]; [done|]. cbn [fst] in *. destruct (MatchString _ _); [done|].
    destruct (groups_of _ _) as [[|host [|port [|]]]|]; try done. by rewrite connection_line_other.
Qed.

(** What a line gives depends on its own connection only. *)
Lemma parse_singbox_same n n' p p' line k : room (n + 1) p -> 0 <= n -> room (n' + 1) p' -> 0 <= n' ->
  k = line_key line -> knows k p = knows k p' ->
  (parse_singbox p line).2 = (parse_singbox p' line).2 /\ knows k (parse_singbox p line).1 = knows k (parse_singbox p' line).1.
Proof.
  intros Hr Hn Hr' Hn' Hk Hv. destruct (prune_room n p Hr Hn) as [_ Hq]. destruct (prune_room n' p' Hr' Hn') as [_ Hq'].
  unfold parse_singbox, line_key in *. cbn zeta in *. destruct (_ =s ""); [done|]. destruct (Contains _ _).
  - destruct (groups_of _ _) as [[|id [|ip [|]]]|]; try done. subst k. split; [done|].
    specialize (Hq id). specialize (Hq' id). rewrite Hv, <- Hq' in Hq. unfold knows in *. cbn. rewrite !lookup_insert_eq.
    injection Hq as H1 H2 H3 _. by rewrite H1, H2, H3.
  - subst k. destruct (process_line_same n n' p p' _ (TrimSpace line) Hr Hn Hr' Hn' Hv) as [Ho Hk].
    destruct (process_line p _ _) as [p1 o], (process_line p' _ _) as [p1' o']. cbn [fst snd] in *. subst o'. destruct o as [ev|]; [done|].
    destruct (MatchString _ _); [split; [by rewrite (ssrf_event_same p1 p1') | done]|].
    destruct (groups_of _ _) as [[|host [|port [|]]]|]; try done. by apply connection_line_same.
Qed.

Lemma parse_lines_connection k lines : forall p p', room (len lines) p -> room (len lines) p' -> knows k p = knows k p' ->
  List.filter (fun e => e.1 =s k) (parse_lines p lines) = parse_lines p' (List.filter (fun line => line_key line =s k) lines).
Proof.
  induction lines as [|line lines IH]; intros p p' Hr Hr' Hv; [done|].
  assert (El : len (line :: lines) = len lines + 1) by (unfold len; cbn [length]; lia). rewrite El in Hr, Hr'.
  assert (Hl : 0 <= len lines) by (unfold len; lia). pose proof (parse_singbox_room _ _ line Hr Hl) as Hq.
  cbn [parse_lines List.filter]. destruct (String.eqb_spec (line_key line) k) as [Ek|Ek].
  - cbn [parse_lines]. pose proof (parse_singbox_room _ _ line Hr' Hl) as Hq'.
    destruct (parse_singbox_same _ _ p p' line k Hr Hl Hr' Hl (eq_sym Ek) Hv) as [E1 E2].
    destruct (parse_singbox p line) as [q ev], (parse_singbox p' line) as [q' ev']. cbn [fst snd List.filter] in *. subst ev'.
    apply String.eqb_eq in Ek as ->. f_equal. by apply IH.
  - pose proof (parse_singbox_other _ p line k Hr Hl (not_eq_sym Ek)) as Hvq. destruct (parse_singbox p line) as [q ev].
    cbn [fst List.filter] in *. apply String.eqb_neq in Ek as ->. apply IH; [done | by apply room_weaken | by rewrite Hvq].
Qed.

(** The events of a connection are those its own lines give, in whatever way
    the lines of other connections come between them, as long as no cache is
    pruned. *)
Theorem connections_do_not_mix k lines : len lines <= 5000 ->
  List.filter (fun e => e.1 =s k) (parse_lines NewSingboxParser lines) =
    parse_lines NewSingboxParser (List.filter (fun line => line_key line =s k) lines).
Proof. intros Hl. apply parse_lines_connection; unfold room; cbn; by try lia. Qed.
End connections.

Definition demo_lines : list string :=
  ["+0300 2026-08-31 14:10:09 INFO [7 0ms] inbound/tun[tun-in]: inbound connection from 172.19.0.1:50000";
   "+0300 2026-08-31 14:10:09 INFO [8 0ms] inbound/tun[tun-in]: inbound connection to 198.51.100.9:3389";
   "+0300 2026-08-31 14:10:09 INFO [8 1ms] router: found process path: /usr/bin/rdp";
   "+0300 2026-08-31 14:10:09 INFO [7 1ms] inbound/tun[tun-in]: inbound connection to 198.51.100.7:22"]%string.

Lemma connections_do_not_mix_witness :
  List.filter (fun e => e.1 =s "7") (parse_lines NewSingboxParser demo_lines) =
    parse_lines NewSingboxParser (List.filter (fun line => line_key line =s "7") demo_lines) /\
  map (fun e => option_map (fun ev => (ClientRawID ev, TargetPort ev)) e.2) (parse_lines NewSingboxParser demo_lines) =
    [None; None; Some ("rdp"%string, 3389); Some ("172.19.0.1"%string, 22)].
Proof. split; [by apply connections_do_not_mix; vm_compute | by vm_compute]. Defined.

(** *** What the caches lose and keep *)

(** A duration with a fraction is read on the line of the client but not on the
    others, so the connection is not recognised there. *)
Lemma fractional_duration_loses_connection :
  line_key "INFO [7 1.25s] inbound/tun[tun-in]: inbound connection from 172.19.0.1:50000" = "7"%string /\
  line_key "INFO [7 1.25s] inbound/tun[tun-in]: inbound connection to 198.51.100.7:22" = ""%string.
Proof. by split; vm_compute. Qed.

(** Pruning walks over the connections with a known process only: where the core
    names no processes nothing is ever forgotten, and waiting events never are. *)
Lemma prune_keeps_clients {order : RangeOrder string} p : connProcCache p = ∅ -> connClientIPCache (checkAndPruneCache p) = connClientIPCache p.
Proof.
  intros E. unfold checkAndPruneCache. destruct (_ <? _); [|done]. rewrite E. cbn.
  assert (Hk : range_keys (dom (∅ : gmap string string)) = []).
  { apply elem_of_nil_inv. intros k. rewrite (elem_of_range_keys order), dom_empty_L. set_solver. }
  by rewrite Hk.
Qed.

Lemma prune_keeps_pending {order : RangeOrder string} p : pendingEvents (checkAndPruneCache p) = pendingEvents p.
Proof. unfold checkAndPruneCache. by destruct (_ <? _). Qed.

(** ** Reading an access line of Xray back *)

(** Neither white space nor a colon. *)
Definition addr_class (a : ascii) : bool :=
  negb (fold_class false (fun a => (fun a => (fun _ => false) a || is_re_space a) a || Ascii.eqb a ":") a).
Definition word_class (a : ascii) : bool := negb (fold_class false (fun a => (fun _ => false) a || is_re_space a) a).
Definition any_class (a : ascii) : bool := negb (Ascii.eqb a newline).

Definition tcp_udp : re := Alt (lit "tcp" Empty) (lit "udp" Empty).

Definition email_part : re :=
  Seq (Star false (Class any_class)) (lit "email:" (Seq (Star true (Class is_re_space)) (Seq (Group 4 (Seq (plus word_class) Empty)) Empty))).

Definition xray_re : re :=
  lit "from" (Seq (plus is_re_space) (Seq tcp_udp (lit ":" (Seq (Group 1 (Seq (plus addr_class) Empty)) (lit ":" (Seq (plus is_digit)
    (Seq (plus is_re_space) (lit "accepted" (Seq (plus is_re_space) (Seq tcp_udp (lit ":" (Seq (Group 2 (Seq (plus addr_class) Empty))
    (lit ":" (Seq (Group 3 (Seq (plus is_digit) Empty)) (Seq (Opt true email_part) Empty))))))))))))))).

Lemma xray_re_prog : prog xrayInboundRegex = xray_re.
Proof. reflexivity. Qed.

(** A line in which Xray accepts a connection: what comes before, the client, the
    target, the route and the user. *)
Record access := mkAccess {
  ac_before : string; ac_client : string; ac_client_port : Z; ac_host : string; ac_port : Z; ac_route : string; ac_user : string
}.

Definition access_tail (x : access) : string := " " ^^ ac_route x ^^ " email: " ^^ ac_user x.
Definition access_line (x : access) : string :=
  ac_before x ^^ "from" ^^ " " ^^ "tcp" ^^ ":" ^^ ac_client x ^^ ":" ^^ Itoa (ac_client_port x) ^^ " " ^^ "accepted" ^^ " " ^^ "tcp" ^^ ":" ^^
  ac_host x ^^ ":" ^^ Itoa (ac_port x) ^^ access_tail x.

Definition is_address (s : string) : Prop := s <> ""%string /\ str_exists (fun a => is_re_space a || Ascii.eqb a ":") s = false.
Definition is_word_ (s : string) : Prop := s <> ""%string /\ str_exists is_re_space s = false.

(** Addresses without colons, a user without spaces, on one line; the words the
    pattern looks for are not before their place. *)
Record readable (x : access) : Prop := {
  r_client : is_address (ac_client x);
  r_host : is_address (ac_host x);
  r_user : is_word_ (ac_user x);
  r_client_port : 0 <= ac_client_port x;
  r_port : 0 <= ac_port x <= maxInt64;
  r_before : Index (access_line x) "from" = Some (String.length (ac_before x));
  r_route : Index (access_tail x) "email:" = Some (String.length (" " ^^ ac_route x ^^ " "));
  r_one_line : str_exists (Ascii.eqb newline) (ac_route x) = false;
}.

Lemma address_spans s : is_address s -> spans addr_class s.
Proof.
  intros [Hn Hs]. split; [done|]. eapply str_exists_impl; [|exact Hs]. intros a. unfold addr_class, fold_class. cbn.
  by rewrite orb_false_r, negb_involutive.
Qed.

Lemma word_spans s : is_word_ s -> spans word_class s.
Proof.
  intros [Hn Hs]. split; [done|]. eapply str_exists_impl; [|exact Hs]. intros a. unfold word_class, fold_class. cbn.
  by rewrite orb_false_r, negb_involutive.
Qed.

Lemma space_spans : spans is_re_space " ".
Proof. done. Qed.

Lemma begins_word_not_space s t : is_word_ s -> begins is_re_space (s ^^ t) = false.
Proof. intros [Hn Hs]. destruct s as [|a s]; [done|]. cbn in *. by apply orb_false_iff in Hs as [-> _]. Qed.

Lemma email_found b s c k x user n r : is_word_ user -> Index s "email:" = Some n -> s = str_take n s ^^ "email:" ^^ " " ^^ user ->
  str_exists (Ascii.eqb newline) (str_take n s) = false ->
  run r k (mkPlace (last_of b s) "") ((4%nat, user) :: c) = Some x ->
  run (Seq (Opt true email_part) r) k (mkPlace b s) c = Some x.
Proof.
  intros Hu Hi Es Hn Hk. change (or_else (run email_part (fun q c => run r k q c) (mkPlace b s) c) (run r k (mkPlace b s) c) = Some x).
  match goal with |- or_else ?a _ = _ => assert (a = Some x) as -> end; [|done].
  unfold email_part. set (y := Seq (Star true _) _).
  change (run (Star false (Class any_class)) (fun q c => run (lit "email:" y) (fun q c => run r k q c) q c) (mkPlace b s) c = Some x).
  refine (run_lazy_index any_class "email:" y _ b s n c x Hi _ _).
  - eapply str_exists_impl; [|exact Hn]. intros a. unfold any_class. rewrite negb_involutive. by rewrite Ascii.eqb_sym.
  - assert (Ed : str_drop (n + String.length "email:") s = " " ^^ user).
    { assert (En : String.length (str_take n s) = n).
      { pose proof (f_equal String.length (str_take_drop n s)) as E. rewrite str_length_app, str_length_drop in E.
        pose proof (f_equal String.length Es) as E2. rewrite str_length_app in E2. cbn in E2. lia. }
      rewrite Es at 1. rewrite <- str_app_assoc. rewrite <- En at 1. rewrite <- str_length_app. apply str_drop_app. }
    rewrite Ed. unfold y. apply run_seq_star; [done | |].
    { rewrite <- (str_app_nil_r user). by apply begins_word_not_space. }
    rewrite <- (str_app_nil_r user). apply (run_seq_group word_class 4 Empty); [by apply word_spans | done |]. cbn [run].
    rewrite <- Hk. f_equal. f_equal. rewrite Es at 2. by rewrite !last_of_app.
Qed.

Lemma access_tail_split x : readable x -> str_take (String.length (" " ^^ ac_route x ^^ " ")) (access_tail x) = " " ^^ ac_route x ^^ " " /\
  access_tail x = (" " ^^ ac_route x ^^ " ") ^^ "email:" ^^ " " ^^ ac_user x.
Proof.
  intros _. assert (E : access_tail x = (" " ^^ ac_route x ^^ " ") ^^ "email:" ^^ " " ^^ ac_user x).
  { unfold access_tail. by rewrite !str_app_assoc. }
  split; [|done]. rewrite E. apply str_take_app.
Qed.

Lemma access_groups x : readable x ->
  groups_of xrayInboundRegex (access_line x) = Some [ac_client x; ac_host x; Itoa (ac_port x); ac_user x].
Proof.
  intros Hr. pose proof (address_spans _ (r_client x Hr)) as Hc. pose proof (address_spans _ (r_host x Hr)) as Hh.
  pose proof (Itoa_spans _ (r_client_port x Hr)) as Hcp. pose proof (Itoa_spans (ac_port x) ltac:(pose proof (r_port x Hr); lia)) as Hp.
  unfold groups_of, FindStringSubmatch. rewrite xray_re_prog.
  rewrite (search_lit "from" _ None _ _ (r_before x Hr) : search xray_re None (access_line x) = search xray_re _ _).
  unfold access_line at 1 2. rewrite str_take_app, str_drop_app.
  set (b0 := last_of None (ac_before x)).
  match goal with |- context [search _ _ ?s] => assert (exists q, match_at xray_re (mkPlace b0 s) =
    Some (q, [(4%nat, ac_user x); (3%nat, Itoa (ac_port x)); (2%nat, ac_host x); (1%nat, ac_client x)])) as [q Hq] end.
  { eexists. unfold match_at, xray_re. rewrite run_lit. apply run_seq_plus; [done | done |]. apply run_seq_alt. rewrite run_lit.
    apply run_seq_group; [done | done |]. rewrite run_lit. apply run_seq_plus; [done | done |]. apply run_seq_plus; [done | done |].
    rewrite run_lit. apply run_seq_plus; [done | done |]. apply run_seq_alt. rewrite run_lit. apply run_seq_group; [done | done |].
    rewrite run_lit. apply run_seq_group; [done | done |]. destruct (access_tail_split x Hr) as [Et Es].
    apply (email_found _ _ _ _ _ (ac_user x) _ _ (r_user x Hr) (r_route x Hr)).
    - by rewrite Et.
    - rewrite Et. rewrite !str_exists_app. by rewrite (r_one_line x Hr).
    - cbn. reflexivity. }
  rewrite (search_found _ _ _ _ _ Hq). done.
Qed.

(** A line in which Xray accepts a connection is read as the connection of
    that user from that client to that target, whatever stands before and
    whatever route was taken. *)
Theorem xray_access_read x : readable x -> TrimSpace (access_line x) = access_line x ->
  MatchString xrayMetadataRegex (access_line x) = false ->
  parse_xray (access_line x) =
    Some (mkEvent "xray" (cleanProcessName (ac_user x)) (ac_client x) "" (ac_host x) (ac_port x) "SENSITIVE_PORT_PROBE" (access_line x)).
Proof.
  intros Hr Ht Hm. unfold parse_xray. rewrite Ht, Hm, access_groups by done. cbn zeta.
  assert (Hn : (access_line x =s "") = false).
  { destruct (String.eqb_spec (access_line x) "") as [E|]; [|done]. apply (f_equal String.length) in E. unfold access_line in E.
    rewrite !str_length_app in E. cbn in E. lia. }
  rewrite Hn. assert (Hu : (ac_user x =s "") = false) by (apply String.eqb_neq, (r_user x Hr)). unfold or_else_str. rewrite Hu, Hu.
  unfold atoi. by rewrite Atoi_Itoa by apply (r_port x Hr).
Qed.

Definition demo_access : access :=
  mkAccess "2026/08/31 11:33:20 [Info] [12345678] proxy/vless/inbound: " "203.0.113.5" 50000 "198.51.100.22" 22 "[vless-in -> direct]" "alice@example.com".

Lemma demo_readable : readable demo_access.
Proof. split; try (split; [done|]); by vm_compute. Qed.

Lemma xray_access_read_witness :
  parse_xray (access_line demo_access) =
    Some (mkEvent "xray" "alice@example.com" "203.0.113.5" "" "198.51.100.22" 22 "SENSITIVE_PORT_PROBE" (access_line demo_access)).
Proof. exact (xray_access_read demo_access demo_readable eq_refl eq_refl). Defined.

(** An address of version 6 has colons, so neither such clients nor such targets
    are seen. *)
Lemma ipv6_not_seen :
  parse_xray "from tcp:203.0.113.5:50000 accepted tcp:[2001:db8::1]:22 [vless-in -> direct] email: alice@example.com" = None /\
  parse_xray "from tcp:[2001:db8::5]:50000 accepted tcp:198.51.100.22:22 [vless-in -> direct] email: alice@example.com" = None /\
  parse_hysteria "[TCP] [2001:db8::5]:50000 -> 198.51.100.22:22 (user: alice)" = None.
Proof. by split_and!; vm_compute. Qed.
End LogParsers.
