(* ===== verification/LogSearch.v ===== *)
(** * Searching the logs of the cores
    (src/pkg/security/detector/log_search.go)

    Given a connection the host saw, the latest lines of a core's log are searched
    for the user and the address behind it.  The clock, the zone and the decoder
    of JSON objects are arguments. *)
From S2P Require Import Prelude GoStrings GoTime GoRegexp Ast LogParsers.
Import Ast LogParsers GoRegexp.
Open Scope Z_scope.

Module LogSearch.
(** ** Patterns *)

Definition xrayTimeRegex : Regexp :=
  regexp "([+-]\d{4})\s+(\d{4}[/-]\d{2}[/-]\d{2}[ T]\d{2}:\d{2}:\d{2})|(\d{4}[/-]\d{2}[/-]\d{2}[ T]\d{2}:\d{2}:\d{2})".
Definition hyTimeJSONRegex : Regexp :=
  regexp ("\{.*" ^^ dq ^^ "time" ^^ dq ^^ "\s*:\s*" ^^ dq ^^ "([^" ^^ dq ^^ "]+)" ^^ dq ^^ ".*\}").
Definition hyTimeISO8601 : Regexp := regexp "(\d{4}-\d{2}-\d{2}T\d{2}:\d{2}:\d{2})".
Definition hyTimeNoYear : Regexp := regexp "\b(\d{2}-\d{2}T\d{2}:\d{2}:\d{2})".

(** The text value of a key in an object. *)
Notation json_string_regex key := (regexp (dq ^^ key ^^ dq ^^ "\s*:\s*" ^^ dq ^^ "([^" ^^ dq ^^ "]+)" ^^ dq)).
Definition hyIDJSONRegex : Regexp := json_string_regex "id".
Definition hyAuthJSONRegex : Regexp := json_string_regex "auth".
Definition hyAuthTextRegex : Regexp := regexp "auth\s*=\s*([^\s,}]+)".
Definition hyConnTextRegex : Regexp := regexp "connection:\s*([^\s(]+)".
Definition hyEmailRegex : Regexp := regexp "[\w\.-]+@[\w\.-]+\.\w+".
Definition hyDestHostRegex : Regexp := regexp "->\s*(\d{1,3}\.\d{1,3}\.\d{1,3}\.\d{1,3}):\d+".
Definition hyClientConnRegex : Regexp := regexp "(\d{1,3}\.\d{1,3}\.\d{1,3}\.\d{1,3})".

Definition sbAcceptedRegex : Regexp := regexp "accepted\s+(?:tcp|udp):?\S*\s+\[([a-zA-Z0-9_\.\-]+)\]".
Definition xrayEmailRegex : Regexp := regexp "email:\s*(\S+)".
Definition xrayAcceptedRegex : Regexp := regexp "accepted\s+(?:tcp|udp):\S+\s+\[[^\]]+\]\s+([a-zA-Z0-9_\.\-]+)".
Definition xrayUserTagRegex : Regexp := regexp "(?:user|username|clientUser|auth_user):\s*([^\s,\]]+)".
Definition xrayJSONUserRegex : Regexp := json_string_regex "(?:user|username|id|email|auth)".
Definition sbConnUserRegex : Regexp := regexp "inbound connection\s+.*?\s+\[([a-zA-Z0-9_\.\-]+)\]".
Definition sbEndUserRegex : Regexp := regexp "\[([a-zA-Z0-9_\.\-]+@[a-zA-Z0-9_\.\-]+|[a-zA-Z0-9_\.\-]+)\]\s*$".
Definition genericEmailRegex : Regexp := regexp "([a-zA-Z0-9_\.\-]+@[a-zA-Z0-9_\.\-]+)".
Definition xrayIPAcceptedRegex : Regexp := regexp "(\d{1,3}\.\d{1,3}\.\d{1,3}\.\d{1,3}):\d+\s+(?:accepted|inbound connection)".
Definition xrayIPFromRegex : Regexp := regexp "from\s+(\d{1,3}\.\d{1,3}\.\d{1,3}\.\d{1,3})".
Definition xrayTagMatchRegex : Regexp := regexp "(?:accepted|connection)\s+(?:tcp|udp):\S+\s+\[([^\]]+)\]".
Definition sbInboundTagFromPrefix : Regexp := regexp "inbound/[a-zA-Z0-9_\.\-]+\[([a-zA-Z0-9_\.\-]+)\]".
Definition sbInboundConnTag : Regexp := regexp "\[([^\]]+)\]\s+inbound connection".
Definition xrayDestMatchRegex : Regexp := regexp "(?:accepted|connection)\s+(?:tcp|udp):([^:]+):".
Definition sbConnIDLineRegex : Regexp := regexp "\[(\d+)\s+[\d.]+(?:ms|µs|us|s|ns|m)\]".
Definition sbFromIPLineRegex : Regexp :=
  regexp "\[(\d+)\s+[\d.]+(?:ms|µs|us|s|ns|m)\]\s+\S+:\s+inbound connection from\s+([^\s:]+):\d+".

(** The first of several patterns that matches, its first group. *)
Fixpoint first_group1 (xs : list Regexp) (s : string) : option string :=
  match xs with
  | [] => None
  | x :: xs => match group1 x s with Some g => Some g | None => first_group1 xs s end
  end.

Definition quotes_and_brackets : string := dq ^^ "'[]".

(** ** The instant of a line *)

Section search.
Context `{LocalZone} (unmarshal : string -> option jmap).

(** [+0300] as seconds. *)
Definition zone_seconds (tz : string) : Z :=
  match tz with
  | String sign (String a (String b (String c (String d EmptyString)))) =>
      let v x := char_code x - 48 in
      (if Ascii.eqb sign "-" then -1 else 1) * ((v a * 10 + v b) * 3600 + (v c * 10 + v d) * 60)
  | _ => 0
  end.

Definition ParseXrayTimestamp (line : string) : option Z :=
  m ← groups_of xrayTimeRegex line;
  let '(tzOffset, dateStr) :=
    match m with
    | [tz; d; d'] => if tz <>s "" then (tz, d) else (""%string, d')
    | _ => (""%string, ""%string)
    end in
  if dateStr =s "" then None
  else
    wall ← ParseWall " " (ReplaceByte (ReplaceByte dateStr "/" "-") "T" " ");
    if (tzOffset <>s "") && (String.length tzOffset =? 5)%nat then Some (Add wall (- (zone_seconds tzOffset * Second)))
    else Some (from_local wall).

(** Whether a line is at most [maxAgeSec] old or new, also when its instant was
    written by the local clock. *)
Definition distance (now t : Z) : Z := let diff := Sub now t in if diff <? 0 then wrap64 (- diff) else diff.
Definition checkAge (now : Z) (logTime : option Z) (maxAgeSec : Z) : bool :=
  match logTime with
  | None => true
  | Some t =>
      (maxAgeSec <=? 0) || (distance now t <=? DurMul maxAgeSec Second) ||
      (distance now (from_local (t / Second * Second)) <=? DurMul maxAgeSec Second)
  end.

Definition cut_at (c : ascii) (s : string) : string :=
  match IndexByte s c with Some (S i) => str_take (S i) s | _ => s end.

Definition iso_time (s : string) : option Z := ParseWall "T" (cut_at "+" (cut_at "." (TrimSuffix s "Z"))).

Definition or_else_opt {A} (a b : option A) : option A := match a with Some _ => a | None => b end.

Definition ParseHysteriaTimestamp (now : Z) (line : string) : option Z :=
  let clean := TrimSpace line in
  or_else_opt (group1 hyTimeJSONRegex clean ≫= iso_time)
    (or_else_opt
       (if HasPrefix clean "{" then obj ← unmarshal clean; if get_string obj "time" =s "" then None else iso_time (get_string obj "time")
        else None)
       (or_else_opt (m ← group1 hyTimeISO8601 clean; ParseWall "T" m)
          (m ← group1 hyTimeNoYear clean; ParseWall "T" (Itoa (local_year now) ^^ "-" ^^ m)))).

(** ** Hysteria 2 *)

Definition hy_extractEmail (line : string) : string :=
  match first_group1 [hyIDJSONRegex; hyAuthJSONRegex; hyAuthTextRegex; hyConnTextRegex] line with
  | Some m => Trim m quotes_and_brackets
  | None => match FindStringSubmatch hyEmailRegex line with Some (m :: _) => Trim m quotes_and_brackets | _ => "" end
  end.

(** The part before the first colon. *)
Definition before_colon (s : string) : string := match Cut s ":" with Some (a, _) => a | None => s end.

(** [line[idx:]] from the first brace, decoded. *)
Definition object_in (line : string) : option jmap := i ← IndexByte line "{"; unmarshal (str_drop i line).

Definition hy_extractDestHost (line : string) : string :=
  let text := match group1 hyDestHostRegex line with Some m => Trim m "[]" | None => "" end in
  match object_in line with
  | Some obj =>
      let req := or_else_str (get_string obj "reqAddr") (get_string obj "req") in
      if (req <>s "") && Contains req ":" then Trim (before_colon req) "[]" else text
  | None => text
  end.

(** The last line for which [f] gives something. *)
Fixpoint first_of {A} (f : string -> option A) (lines : list string) : option A :=
  match lines with [] => None | l :: lines => match f l with Some a => Some a | None => first_of f lines end end.
Definition latest {A} (f : string -> option A) (lines : list string) : option A := first_of f (rev lines).

(** Whether a line is about the target: its host where the line names one, else
    anywhere in the line. *)
Definition about (extractDestHost : string -> string) (dstIP line : string) : bool :=
  if dstIP <>s "" then
    let destHost := extractDestHost line in
    if destHost <>s "" then destHost =s dstIP else Contains line dstIP
  else true.

Definition FindEmailInHysteriaLog (now : Z) (lines : list string) (dstIP : string) (dstPort maxAgeSec : Z) : string :=
  default "" (latest (fun line =>
    if checkAge now (ParseHysteriaTimestamp now line) maxAgeSec && Contains line (":" ^^ Itoa dstPort) && about hy_extractDestHost dstIP line
    then let email := hy_extractEmail line in if email <>s "" then Some email else None
    else None) lines).

Definition FindClientIPForEmailInHysteriaLog (now : Z) (lines : list string) (email : string) (maxAgeSec : Z) : string :=
  default "" (latest (fun line =>
    if checkAge now (ParseHysteriaTimestamp now line) maxAgeSec then
      or_else_opt
        (obj ← object_in line;
         let id := or_else_str (get_string obj "id") (get_string obj "auth") in
         let addr := get_string obj "addr" in
         if (id =s email) && (addr <>s "") then Some (before_colon addr) else None)
        (if Contains line "client connected" && Contains line email then group1 hyClientConnRegex line else None)
    else None) lines).

(** ** Xray and sing-box *)

Definition user_patterns : list Regexp :=
  [xrayEmailRegex; sbInboundTagRegex; sbBracketUser; sbRouterMatchRegex; genericEmailRegex; xrayAcceptedRegex; xrayUserTagRegex;
   xrayJSONUserRegex; sbConnUserRegex; sbAcceptedRegex; sbEndUserRegex].

Definition extractInfo (clientIP line : string) : option (string * string * string) :=
  let email := Trim (default "" (first_group1 user_patterns line)) ("[]'" ^^ dq) in
  if isIgnoredTagOrLevel email then None
  else Some (email, default clientIP (first_group1 [xrayIPAcceptedRegex; xrayIPFromRegex] line),
             default "proxy" (first_group1 [sbInboundTagFromPrefix; xrayTagMatchRegex; sbInboundConnTag] line)).

Definition x_extractDestHost (line : string) : string :=
  match group1 xrayDestMatchRegex line with
  | Some m => Trim m "[]"
  | None =>
      match Index line "inbound connection to " with
      | Some i =>
          match Cut (str_drop (i + String.length "inbound connection to ") line) ":" with
          | Some (host, _) => Trim host ("[] " ^^ string_of_bytes [9])
          | None => ""
          end
      | None => ""
      end
  end.

(** The clients that the lines of connections name. *)
Definition connIDToIP (lines : list string) : gmap string string :=
  foldl (fun m l => match groups_of sbFromIPLineRegex l with Some (id :: ip :: _) => <[id := ip]> m | _ => m end) ∅ lines.

Definition line_client (ips : gmap string string) (line : string) : option string := id ← group1 sbConnIDLineRegex line; ips !! id.

Definition FindEmailAndIPInXrayLog (now : Z) (lines : list string) (clientIP dstIP : string) (dstPort maxAgeSec : Z)
    : string * string * string :=
  let ips := connIDToIP lines in
  default (""%string, ""%string, ""%string) (latest (fun line =>
    if checkAge now (ParseXrayTimestamp line) maxAgeSec && Contains line (":" ^^ Itoa dstPort) && about x_extractDestHost dstIP line &&
       ((clientIP =s "") || Contains line clientIP || bool_decide (line_client ips line = Some clientIP))
    then
      '(e, p, tag) ← extractInfo clientIP line;
      let p := if (p =s "") || (p =s clientIP) then default p (line_client ips line) else p in
      Some (e, p, tag)
    else None) lines).
End search.

(** ** What is found *)

Lemma first_of_some {A} (f : string -> option A) lines a :
  first_of f lines = Some a <-> exists l1 line l2, lines = l1 ++ line :: l2 /\ f line = Some a /\ Forall (fun l => f l = None) l1.
Proof.
  induction lines as [|l lines IH]; cbn; [split; [done | intros (l1 & ? & ? & E & _); by destruct l1]|].
  destruct (f l) as [b|] eqn:E.
  - split; [intros H; injection H as ->; by exists [], l, lines|]. intros (l1 & line & l2 & Hl & Hf & Hn).
    destruct l1 as [|x l1]; [injection Hl as -> ->; congruence|]. injection Hl as -> ->. inversion Hn; subst. congruence.
  - rewrite IH. split.
    + intros (l1 & line & l2 & -> & Hf & Hn). exists (l :: l1), line, l2. split_and!; [done | done | by constructor].
    + intros (l1 & line & l2 & Hl & Hf & Hn). destruct l1 as [|x l1]; [injection Hl as -> ->; congruence|].
      injection Hl as -> ->. inversion Hn; subst. by exists l1, line, l2.
Qed.

(** The latest line that gives something decides. *)
Lemma latest_some {A} (f : string -> option A) lines a :
  latest f lines = Some a <-> exists l1 line l2, lines = l1 ++ line :: l2 /\ f line = Some a /\ Forall (fun l => f l = None) l2.
Proof.
  unfold latest. rewrite first_of_some. split; intros (l1 & line & l2 & Hl & Hf & Hn).
  - exists (rev l2), line, (rev l1). split_and!; [|done | by apply Forall_rev].
    rewrite <- (rev_involutive lines), Hl, rev_app_distr. cbn. by rewrite <- app_assoc.
  - exists (rev l2), line, (rev l1). split_and!; [|done | by apply Forall_rev].
    rewrite Hl, rev_app_distr. cbn. by rewrite <- app_assoc.
Qed.

(** The port is looked for as a piece of text: a connection to port 22 is put down
    to the user whose connection went to port 2222. *)
Lemma port_prefix_confused :
  FindEmailAndIPInXrayLog (H := utc) 0
    ["from tcp:203.0.113.5:50000 accepted tcp:198.51.100.22:2222 [vless-in -> direct] email: bob@example.com"]%string "" "198.51.100.22" 22 0
  = ("bob@example.com", "203.0.113.5", "vless-in -> direct")%string.
Proof. by vm_compute. Qed.
End LogSearch.
