(* ===== verification/SshMonitor.v ===== *)
(** * The monitor of logins
    (src/pkg/security/ssh/types.go, parser.go, monitor.go)

    Lines of the system's authentication log become events; the monitor keeps the
    open sessions by process, the failed attempts by address, and tells the threat
    journal and its listeners.  What an operation hands to the journal and the
    listeners is returned; both clock readings of a line are arguments. *)
From S2P Require Import Prelude GoStrings GoFloat GoRegexp.
Import GoRegexp.
Open Scope Z_scope.

Module SshMonitor.
(** ** Events *)

Definition SSHEventType : Type := string.
Definition EventSSHLogin : SSHEventType := "SSH_LOGIN".
Definition EventSSHLogout : SSHEventType := "SSH_LOGOUT".
Definition EventSSHFailedAuth : SSHEventType := "SSH_FAILED_AUTH".
Definition EventSudoExec : SSHEventType := "SUDO_EXEC".
Definition EventPVEWebLogin : SSHEventType := "PVE_WEB_LOGIN".
Definition EventPVEWebFail : SSHEventType := "PVE_WEB_FAIL".

Record SSHEvent := mkSSHEvent {
  Timestamp : Z;
  Type_ : SSHEventType;
  User : string;
  RunAs : string;
  SourceIP : string;
  Port : Z;
  PID : Z;
  AuthMethod : string;
  KeyFingerprint : string;
  Command : string;
  Duration : string;
  DurationSec : Z;
  Reason : string;
  RawLine : string;
}.

Record SSHSession := mkSession {
  s_PID : Z;
  s_User : string;
  s_SourceIP : string;
  s_Port : Z;
  s_AuthMethod : string;
  s_KeyFingerprint : string;
  s_LoginTime : Z;
}.

(** ** Reading a line *)

Definition sshAcceptedRegex : Regexp :=
  regexp "sshd(?:-session)?\[(\d+)\]:\s+Accepted\s+(password|publickey)\s+for\s+(\S+)\s+from\s+(\S+)\s+port\s+(\d+)(?:\s+ssh2:\s+\S+\s+(\S+))?".
Definition sshFailedRegex : Regexp :=
  regexp "sshd(?:-session)?\[(?:\d+)?\]:\s+Failed\s+(password|publickey)\s+for\s+(?:invalid user\s+)?(\S+)\s+from\s+(\S+)\s+port\s+(\d+)".
Definition sshConnClosedRegex : Regexp :=
  regexp "sshd(?:-session)?\[(\d+)\]:\s+Connection closed by (?:user|authenticating user)\s+(\S+)\s+(\S+)\s+port\s+(\d+)".
Definition sshPamClosedRegex : Regexp :=
  regexp "sshd(?:-session)?\[(\d+)\]:\s+pam_unix\(sshd:session\):\s+session closed for user\s+(\S+)".
Definition sshDisconnectedRegex : Regexp :=
  regexp "sshd(?:-session)?\[(\d+)\]:\s+Disconnected from (?:user\s+)?(\S+)\s+(\S+)\s+port\s+(\d+)".
Definition sudoRegex : Regexp := regexp "sudo:\s+(\S+)\s+:.*?USER=(\S+)\s+;.*?COMMAND=(.*)".
Definition pveWebOkRegex : Regexp := regexp "pvedaemon\[\d+\]:\s+<(\S+)> successful auth for user '(\S+)'".
Definition pveWebFailRegex : Regexp :=
  regexp "pvedaemon\[\d+\]:\s+authentication failure;\s+rhost=(?:::ffff:)?(\S+)\s+user=(\S+)\s+msg=(.*)".

Definition groups_of (x : Regexp) (s : string) : option (list string) := option_map (drop 1) (FindStringSubmatch x s).

Definition login_event (now : Z) (clean : string) (m : list string) : option SSHEvent :=
  match m with
  | [pid; method; user; ip; port; fingerprint] =>
      Some (mkSSHEvent now EventSSHLogin user "" ip (atoi port) (atoi pid) method fingerprint "" "" 0 "" clean)
  | _ => None
  end.

Definition failed_event (now : Z) (clean : string) (m : list string) : option SSHEvent :=
  match m with
  | [method; user; ip; port] =>
      Some (mkSSHEvent now EventSSHFailedAuth user "" ip (atoi port) 0 method "" "" "" 0 ("Failed " ^^ method ^^ " for user " ^^ user) clean)
  | _ => None
  end.

(** Connection closed by, and disconnected from. *)
Definition closed_event (now : Z) (clean : string) (m : list string) : option SSHEvent :=
  match m with
  | [pid; user; ip; port] => Some (mkSSHEvent now EventSSHLogout user "" ip (atoi port) (atoi pid) "" "" "" "" 0 "" clean)
  | _ => None
  end.

Definition pam_closed_event (now : Z) (clean : string) (m : list string) : option SSHEvent :=
  match m with
  | [pid; user] => Some (mkSSHEvent now EventSSHLogout user "" "" 0 (atoi pid) "" "" "" "" 0 "" clean)
  | _ => None
  end.

Definition sudo_event (now : Z) (clean : string) (m : list string) : option SSHEvent :=
  match m with
  | [user; runAs; cmd] => Some (mkSSHEvent now EventSudoExec user runAs "LOCAL" 0 0 "" "" (TrimSpace cmd) "" 0 "" clean)
  | _ => None
  end.

Definition web_login_event (now : Z) (clean : string) (m : list string) : option SSHEvent :=
  match m with
  | [_; user] => Some (mkSSHEvent now EventPVEWebLogin user "" "WEB_GUI" 0 0 "cookie/token" "" "" "" 0 "" clean)
  | _ => None
  end.

Definition web_fail_event (now : Z) (clean : string) (m : list string) : option SSHEvent :=
  match m with
  | [ip; user; reason] => Some (mkSSHEvent now EventPVEWebFail user "" ip 0 0 "" "" "" "" 0 reason clean)
  | _ => None
  end.

(** The first pattern of the list that matches makes the event. *)
Fixpoint first_event (readers : list (Regexp * (list string -> option SSHEvent))) (s : string) : option SSHEvent :=
  match readers with
  | [] => None
  | (x, f) :: readers => match groups_of x s with Some m => f m | None => first_event readers s end
  end.

Definition ParseAuthLine (now : Z) (line : string) : option SSHEvent :=
  let clean := TrimSpace line in
  if clean =s "" then None
  else
    first_event
      [(sshAcceptedRegex, login_event now clean); (sshFailedRegex, failed_event now clean); (sshConnClosedRegex, closed_event now clean);
       (sshPamClosedRegex, pam_closed_event now clean); (sshDisconnectedRegex, closed_event now clean); (sudoRegex, sudo_event now clean);
       (pveWebOkRegex, web_login_event now clean); (pveWebFailRegex, web_fail_event now clean)] clean.

(** ** The monitor *)

(** One record for the threat journal. *)
Record incident := mkIncident {
  i_eventType : string; i_category : string; i_clientID : string; i_aliases : list string; i_score : Z; i_status : string;
  i_target : string; i_reason : string; i_action : string;
}.

(** The journal, if any, only receives; a listener is a name. *)
Record SSHMonitor := mkMonitor {
  activeSessions : gmap Z SSHSession;
  recentCloses : gmap string Z;
  failedAttempts : gmap string Z;
  journal : bool;
  onEventHooks : list string;
}.
Implicit Types (m : SSHMonitor) (event : SSHEvent).

Definition NewSSHMonitor (j : bool) : SSHMonitor := mkMonitor ∅ ∅ ∅ j [].

Definition OnEvent m (fn : string) : SSHMonitor :=
  mkMonitor (activeSessions m) (recentCloses m) (failedAttempts m) (journal m) (onEventHooks m ++ [fn]).

Definition Hour : Z := 60 * Minute.

(** [d.Round(time.Second)] *)
Definition round_second (d : Z) : Z :=
  let r := Z.rem d Second in
  if d <? 0 then
    let r := - r in
    if 2 * r <? Second then d + r else if d - Second + r <? minInt64 then minInt64 else d - Second + r
  else if 2 * r <? Second then d - r
  else if maxInt64 <? d + Second - r then maxInt64 else d + Second - r.

Definition formatDuration (d : Z) : string :=
  let d := round_second d in
  let h := Z.quot d Hour in
  let d := d - h * Hour in
  let m := Z.quot d Minute in
  let d := d - m * Minute in
  let s := Z.quot d Second in
  if 0 <? h then Itoa h ^^ "h " ^^ Itoa m ^^ "m " ^^ Itoa s ^^ "s"
  else if 0 <? m then Itoa m ^^ "m " ^^ Itoa s ^^ "s"
  else Itoa s ^^ "s".

Definition to_journal m (i : incident) : list incident := if journal m then [i] else [].

Definition login_incident event : incident :=
  mkIncident "SSH_LOGIN" "AUTH_AUDIT" (User event) [SourceIP event; KeyFingerprint event] 0 "CLEAN"
    ("sshd[" ^^ Itoa (PID event) ^^ "]")
    ("SSH login via " ^^ AuthMethod event ^^ " from " ^^ SourceIP event ^^ ":" ^^ Itoa (Port event)) "AUTHORIZED".

Definition logout_incident event : incident :=
  mkIncident "SSH_LOGOUT" "AUTH_AUDIT" (User event) [SourceIP event] 0 "CLEAN" ("sshd[" ^^ Itoa (PID event) ^^ "]")
    ("SSH session closed (duration: " ^^ Duration event ^^ ")") "CLOSED".

Definition brute_force_incident event (count : Z) : incident :=
  mkIncident "SSH_BRUTE_FORCE" "AUTH_ATTACK" (User event) [SourceIP event] 50 "SUSPICIOUS" ("sshd port " ^^ Itoa (Port event))
    ("Repeated SSH auth failures (" ^^ Itoa count ^^ " attempts) from " ^^ SourceIP event) "FLAGGED".

Definition session_of (now : Z) event : SSHSession :=
  mkSession (PID event) (User event) (SourceIP event) (Port event) (AuthMethod event) (KeyFingerprint event) now.

Definition on_login (now : Z) m event : SSHMonitor * list incident :=
  (mkMonitor (if 0 <? PID event then <[PID event := session_of now event]> (activeSessions m) else activeSessions m)
     (recentCloses m) (delete (SourceIP event) (failedAttempts m)) (journal m) (onEventHooks m),
   to_journal m (login_incident event)).

Definition dedup_key event : string := Itoa (PID event) ^^ ":" ^^ User event.

(** The event of a logout, with what is known of its session. *)
Definition closing (now : Z) (sess : option SSHSession) event : SSHEvent :=
  match sess with
  | Some s =>
      let dur := Sub now (s_LoginTime s) in
      mkSSHEvent (Timestamp event) (Type_ event) (if User event =s "" then s_User s else User event) (RunAs event)
        (if SourceIP event =s "" then s_SourceIP s else SourceIP event) (Port event) (PID event) (AuthMethod event) (KeyFingerprint event)
        (Command event) (formatDuration dur) (f64_trunc (f64_seconds dur)) (Reason event) (RawLine event)
  | None => event
  end.

(** [None]: the close was seen less than three seconds before. *)
Definition on_logout (now : Z) m event : option (SSHMonitor * SSHEvent * list incident) :=
  let key := dedup_key event in
  if match recentCloses m !! key with Some t => Sub now t <? 3 * Second | None => false end then None
  else
    let event' := closing now (activeSessions m !! PID event) event in
    Some (mkMonitor (delete (PID event) (activeSessions m)) (<[key := now]> (recentCloses m)) (failedAttempts m) (journal m) (onEventHooks m),
          event', to_journal m (logout_incident event')).

Definition on_failure m event : SSHMonitor * list incident :=
  let count := wrap64 (default 0 (failedAttempts m !! SourceIP event) + 1) in
  (mkMonitor (activeSessions m) (recentCloses m) (<[SourceIP event := count]> (failedAttempts m)) (journal m) (onEventHooks m),
   if 5 <=? count then to_journal m (brute_force_incident event count) else []).

Section monitor.
Context {order : RangeOrder string}.

(** The two caches are kept small. *)
Definition prune (now : Z) m : SSHMonitor :=
  mkMonitor (activeSessions m)
    (if 1000 <? Z.of_nat (size (recentCloses m)) then range_delete (fun _ t => Minute <? Sub now t) (recentCloses m) else recentCloses m)
    (if 5000 <? Z.of_nat (size (failedAttempts m)) then evict order (size (failedAttempts m) - 2500) (failedAttempts m) else failedAttempts m)
    (journal m) (onEventHooks m).

(** What a line set off: the event, if it is one, handed to each listener, and the
    records for the journal. *)
Record outcome := mkOutcome { o_event : option SSHEvent; o_calls : list (string * SSHEvent); o_journal : list incident }.

Definition announce (now : Z) m event (js : list incident) : SSHMonitor * outcome :=
  let m := prune now m in (m, mkOutcome (Some event) (map (fun fn => (fn, event)) (onEventHooks m)) js).

Definition process_event (now : Z) m event : SSHMonitor * outcome :=
  if Type_ event =s EventSSHLogin then let '(m, js) := on_login now m event in announce now m event js
  else if Type_ event =s EventSSHLogout then
    match on_logout now m event with
    | Some (m, event, js) => announce now m event js
    | None => (m, mkOutcome None [] [])
    end
  else if Type_ event =s EventSSHFailedAuth then let '(m, js) := on_failure m event in announce now m event js
  else announce now m event [].

Definition ProcessLogLine (parsedAt now : Z) m (line : string) : SSHMonitor * outcome :=
  match ParseAuthLine parsedAt line with
  | Some event => process_event now m event
  | None => (m, mkOutcome None [] [])
  end.
End monitor.

Definition GetActiveSessions {order : RangeOrder Z} m : list SSHSession :=
  omap (fun pid => activeSessions m !! pid) (range_keys (dom (activeSessions m))).

(** The command that kills the session's process, or the refusal. *)
Definition KillSSHSession (windows : bool) m (pid : Z) : SSHMonitor * result (list string) :=
  if pid <=? 1 then (m, Err ("refusing to kill invalid or system PID " ^^ Itoa pid))
  else
    (mkMonitor (delete pid (activeSessions m)) (recentCloses m) (failedAttempts m) (journal m) (onEventHooks m),
     Ok (if windows then ["taskkill"; "/F"; "/PID"; Itoa pid]%string else ["kill"; "-9"; Itoa pid]%string)).

(** [files] says whether a path is a file. *)
Definition DetectAuthLogPath (files : string -> bool) : string :=
  default "" (List.find files ["/var/log/auth.log"; "/var/log/secure"; "/var/log/messages"]%string).

(** ** A login is read and opens its session *)

Definition not_space (a : ascii) : bool := negb (is_re_space a).
Definition gap : re := plus is_re_space.
Definition word_group (n : nat) : re := Group n (Seq (plus not_space) Empty).
Definition number_group (n : nat) : re := Group n (Seq (plus is_digit) Empty).

Definition key_part : re := Seq gap (lit "ssh2:" (Seq gap (Seq (plus not_space) (Seq gap (Seq (word_group 6) Empty))))).

Definition accepted_re : re :=
  lit "sshd" (Seq (Opt true (lit "-session" Empty)) (lit "[" (Seq (number_group 1) (lit "]:" (Seq gap (lit "Accepted" (Seq gap
    (Seq (Group 2 (Alt (lit "password" Empty) (lit "publickey" Empty))) (Seq gap (lit "for" (Seq gap (Seq (word_group 3) (Seq gap
    (lit "from" (Seq gap (Seq (word_group 4) (Seq gap (lit "port" (Seq gap (Seq (number_group 5) (Seq (Opt true key_part) Empty))))))))))))))))))))).

Lemma accepted_re_prog : prog sshAcceptedRegex = accepted_re.
Proof. reflexivity. Qed.

(** What sshd writes when a user is let in: by a password, or by a key of a kind
    with its fingerprint. *)
Record login := mkLogin {
  lg_before : string; lg_pid : Z; lg_user : string; lg_ip : string; lg_port : Z; lg_key : option (string * string)
}.

Definition lg_method (l : login) : string := match lg_key l with Some _ => "publickey" | None => "password" end.
Definition lg_fingerprint (l : login) : string := match lg_key l with Some (_, fp) => fp | None => "" end.
Definition lg_tail (l : login) : string :=
  match lg_key l with Some (kind, fp) => " " ^^ "ssh2:" ^^ " " ^^ kind ^^ " " ^^ fp | None => " ssh2" end.
Definition login_line (l : login) : string :=
  lg_before l ^^ "sshd" ^^ "[" ^^ Itoa (lg_pid l) ^^ "]:" ^^ " " ^^ "Accepted" ^^ " " ^^ lg_method l ^^ " " ^^ "for" ^^ " " ^^ lg_user l ^^
  " " ^^ "from" ^^ " " ^^ lg_ip l ^^ " " ^^ "port" ^^ " " ^^ Itoa (lg_port l) ^^ lg_tail l.

Definition is_word_ (s : string) : Prop := s <> ""%string /\ str_exists is_re_space s = false.

Record readable (l : login) : Prop := {
  r_pid : 0 < lg_pid l <= maxInt64;
  r_port : 0 <= lg_port l <= maxInt64;
  r_user : is_word_ (lg_user l);
  r_ip : is_word_ (lg_ip l);
  r_key : match lg_key l with Some (kind, fp) => is_word_ kind /\ is_word_ fp | None => True end;
  r_before : Index (login_line l) "sshd" = Some (String.length (lg_before l));
  r_trimmed : TrimSpace (login_line l) = login_line l;
}.

Lemma login_word_spans s : is_word_ s -> spans not_space s.
Proof.
  intros [Hn Hs]. split; [done|]. eapply str_exists_impl; [|exact Hs]. intros a. unfold not_space. by rewrite negb_involutive.
Qed.

Lemma begins_word s t : is_word_ s -> begins is_re_space (s ^^ t) = false.
Proof. intros [Hn Hs]. destruct s as [|a s]; [done|]. cbn in *. by apply orb_false_iff in Hs as [-> _]. Qed.

Lemma begins_number z t : 0 <= z -> begins is_re_space (Itoa z ^^ t) = false.
Proof.
  intros Hz. apply begins_word. split; [apply (Itoa_spans z Hz)|]. apply Itoa_only; [done|].
  intros a Ha. destruct a as [[] [] [] [] [] [] [] []]; by vm_compute in Ha |- *.
Qed.

Lemma key_read l k b c x : readable l ->
  run Empty k (mkPlace (last_of b (lg_tail l)) "") (match lg_key l with Some (_, fp) => (6%nat, fp) :: c | None => c end) = Some x ->
  lg_key l <> None -> run (Seq (Opt true key_part) Empty) k (mkPlace b (lg_tail l)) c = Some x.
Proof.
  intros Hr Hk Hn. pose proof (r_key l Hr) as Hw. unfold lg_tail in *. destruct (lg_key l) as [[kind fp]|]; [|done]. destruct Hw as [H1 H2].
  apply run_seq_opt_some. unfold key_part. apply run_seq_plus; [done | done |]. rewrite run_lit.
  apply run_seq_plus; [done | by apply begins_word |]. apply run_seq_plus; [by apply login_word_spans | done |].
  apply run_seq_plus; [done | rewrite <- (str_app_nil_r fp); by apply begins_word |].
  rewrite <- (str_app_nil_r fp). apply run_seq_group; [by apply login_word_spans | done |]. cbn [run].
  rewrite !last_of_app in Hk. exact Hk.
Qed.

Lemma method_read l r k b s c x : run r k (mkPlace (last_of b (lg_method l)) s) ((2%nat, lg_method l) :: c) = Some x ->
  run (Seq (Group 2 (Alt (lit "password" Empty) (lit "publickey" Empty))) r) k (mkPlace b (lg_method l ^^ s)) c = Some x.
Proof.
  unfold lg_method. destruct (lg_key l); intros H; [by apply run_seq_group_alt2 | by apply run_seq_group_alt].
Qed.

Lemma begins_method l s : begins is_re_space (lg_method l ^^ s) = false.
Proof. unfold lg_method. by destruct (lg_key l). Qed.

Definition login_caps (l : login) : caps :=
  let c := [(5%nat, Itoa (lg_port l)); (4%nat, lg_ip l); (3%nat, lg_user l); (2%nat, lg_method l); (1%nat, Itoa (lg_pid l))] in
  match lg_key l with Some (_, fp) => (6%nat, fp) :: c | None => c end.

(** Where the match ends: before the rest of a password login, at the end of the
    line of a key. *)
Definition login_end (l : login) (b : option ascii) : place :=
  match lg_key l with Some _ => mkPlace (last_of b (lg_tail l)) "" | None => mkPlace b (lg_tail l) end.

Lemma tail_read l b c : readable l ->
  run (Seq (Opt true key_part) Empty) (fun q c => Some (q, c)) (mkPlace b (lg_tail l)) c =
    Some (login_end l b, match lg_key l with Some (_, fp) => (6%nat, fp) :: c | None => c end).
Proof.
  intros Hr. destruct (lg_key l) as [[kind fp]|] eqn:E.
  - apply key_read; [done | | by rewrite E]. unfold login_end. by rewrite E.
  - rewrite run_seq_opt_none; [unfold login_end; by rewrite E|]. unfold lg_tail. by rewrite E.
Qed.

Lemma accepted_groups l : readable l ->
  groups_of sshAcceptedRegex (login_line l) = Some [Itoa (lg_pid l); lg_method l; lg_user l; lg_ip l; Itoa (lg_port l); lg_fingerprint l].
Proof.
  intros Hr. pose proof (Itoa_spans (lg_pid l) ltac:(pose proof (r_pid l Hr); lia)) as Hpid.
  pose proof (Itoa_spans (lg_port l) ltac:(pose proof (r_port l Hr); lia)) as Hport.
  pose proof (login_word_spans _ (r_user l Hr)) as Hu. pose proof (login_word_spans _ (r_ip l Hr)) as Hi.
  unfold groups_of, FindStringSubmatch. rewrite accepted_re_prog.
  rewrite (search_lit "sshd" _ None _ _ (r_before l Hr) : search accepted_re None (login_line l) = search accepted_re _ _).
  unfold login_line at 1 2. rewrite str_take_app, str_drop_app. set (b0 := last_of None (lg_before l)).
  match goal with |- context [search _ _ ?s] => assert (exists q, match_at accepted_re (mkPlace b0 s) = Some (q, login_caps l)) as [q Hq] end.
  { eexists. unfold match_at, accepted_re. rewrite run_lit. rewrite run_seq_opt_none by done. rewrite run_lit. apply run_seq_group; [done | done |].
    rewrite run_lit. apply run_seq_plus; [done | done |]. rewrite run_lit. apply run_seq_plus; [done | apply begins_method |]. apply method_read.
    apply run_seq_plus; [done | done |]. rewrite run_lit. apply run_seq_plus; [done | by apply begins_word, (r_user l Hr) |].
    apply run_seq_group; [done | done |]. apply run_seq_plus; [done | done |]. rewrite run_lit.
    apply run_seq_plus; [done | by apply begins_word, (r_ip l Hr) |]. apply run_seq_group; [done | done |].
    apply run_seq_plus; [done | done |]. rewrite run_lit. apply run_seq_plus; [done | apply begins_number; pose proof (r_port l Hr); lia |].
    apply run_seq_group; [done | unfold lg_tail; by destruct (lg_key l) as [[]|] |]. by apply tail_read. }
  rewrite (search_found _ _ _ _ _ Hq). unfold option_map, submatches, login_caps, lg_fingerprint. by destruct (lg_key l) as [[kind fp]|].
Qed.

Lemma atoi_Itoa z : 0 <= z <= maxInt64 -> atoi (Itoa z) = z.
Proof. intros Hz. unfold atoi. by rewrite Atoi_Itoa. Qed.

Lemma login_line_event parsedAt l : readable l ->
  ParseAuthLine parsedAt (login_line l) =
    Some (mkSSHEvent parsedAt EventSSHLogin (lg_user l) "" (lg_ip l) (lg_port l) (lg_pid l) (lg_method l) (lg_fingerprint l) "" "" 0 "" (login_line l)).
Proof.
  intros Hr. unfold ParseAuthLine. rewrite (r_trimmed l Hr). cbn zeta. assert (Hn : (login_line l =s "") = false).
  { destruct (String.eqb_spec (login_line l) "") as [E|]; [|done]. apply (f_equal String.length) in E. unfold login_line in E.
    rewrite !str_length_app in E. cbn in E. lia. }
  rewrite Hn. cbn [first_event]. rewrite (accepted_groups l Hr). cbn [login_event].
  pose proof (r_pid l Hr). pose proof (r_port l Hr). by rewrite !atoi_Itoa by lia.
Qed.

Section monitor_runs.
Context {order : RangeOrder string}.

Lemma prune_sessions now m : activeSessions (prune now m) = activeSessions m.
Proof. done. Qed.

Lemma prune_failures_none now m ip : failedAttempts m !! ip = None -> failedAttempts (prune now m) !! ip = None.
Proof.
  intros H. unfold prune. cbn. destruct (_ <? _); [|done]. destruct (evict _ _ _ !! ip) eqn:E; [|done].
  apply lookup_evict_Some in E. congruence.
Qed.

(** A line in which sshd lets a user in opens the session of that process,
    with the user, address, port, method and key of the line, forgets the failed
    attempts of the address, and is told to every listener and the journal. *)
Theorem login_line_opens_session parsedAt now m l : readable l ->
  exists m' out, ProcessLogLine parsedAt now m (login_line l) = (m', out) /\
  activeSessions m' =
    <[lg_pid l := mkSession (lg_pid l) (lg_user l) (lg_ip l) (lg_port l) (lg_method l) (lg_fingerprint l) now]> (activeSessions m) /\
  failedAttempts m' !! lg_ip l = None /\
  exists ev, o_event out = Some ev /\ User ev = lg_user l /\ SourceIP ev = lg_ip l /\ PID ev = lg_pid l /\
    o_calls out = map (fun fn => (fn, ev)) (onEventHooks m) /\ o_journal out = to_journal m (login_incident ev).
Proof.
  intros Hr. unfold ProcessLogLine. rewrite login_line_event by done. unfold process_event. cbn [Type_].
  rewrite String.eqb_refl. unfold on_login. cbn [PID]. replace (0 <? lg_pid l) with true by (pose proof (r_pid l Hr); lia).
  unfold announce. cbn zeta. do 2 eexists. split; [reflexivity|].
  split_and!; [done | apply prune_failures_none; apply lookup_delete_eq | by eexists].
Qed.

(** *** Failed attempts *)

(** Failures of an address since it last logged in. *)
Definition count_event (ip : string) (n : Z) (ev : SSHEvent) : Z :=
  if Type_ ev =s EventSSHLogin then (if SourceIP ev =s ip then 0 else n)
  else if Type_ ev =s EventSSHFailedAuth then (if SourceIP ev =s ip then n + 1 else n)
  else n.
Definition since_login (ip : string) (evs : list SSHEvent) : Z := foldl (count_event ip) 0 evs.

(** The lines with the two readings of the clock. *)
Definition timed_line : Type := Z * Z * string.
Definition event_of (x : timed_line) : option SSHEvent := ParseAuthLine x.1.1 x.2.
Fixpoint watch m (lines : list timed_line) : SSHMonitor :=
  match lines with [] => m | x :: lines => watch (ProcessLogLine x.1.1 x.1.2 m x.2).1 lines end.

Definition counter (n : Z) : option Z := if n =? 0 then None else Some n.

(** The counters are right, and there are not more of them than lines. *)
Record counts (n : Z) (evs : list SSHEvent) m : Prop := {
  counts_exact : forall ip, failedAttempts m !! ip = counter (since_login ip evs);
  counts_size : Z.of_nat (size (failedAttempts m)) <= n;
  counts_bound : forall ip, 0 <= since_login ip evs <= n;
}.

Lemma since_login_snoc ip evs ev : since_login ip (evs ++ [ev]) = count_event ip (since_login ip evs) ev.
Proof. unfold since_login. by rewrite foldl_app. Qed.

Lemma counts_prune n now evs m : n <= 5000 -> counts n evs m -> counts n evs (prune now m).
Proof.
  intros Hn [He Hs Hb]. unfold prune. replace (5000 <? _) with false by lia. by split.
Qed.

Lemma counts_other n evs ev m m' : failedAttempts m' = failedAttempts m ->
  Type_ ev <> EventSSHLogin -> Type_ ev <> EventSSHFailedAuth -> counts n evs m -> counts (n + 1) (evs ++ [ev]) m'.
Proof.
  intros Hf H1%String.eqb_neq H2%String.eqb_neq [He Hs Hb].
  assert (Hsame : forall ip, since_login ip (evs ++ [ev]) = since_login ip evs).
  { intros ip. rewrite since_login_snoc. unfold count_event. by rewrite H1, H2. }
  split; intros; rewrite ?Hf, ?Hsame; [apply He | lia | specialize (Hb ip); lia].
Qed.

Lemma counts_login now n evs ev m : Type_ ev = EventSSHLogin -> counts n evs m -> counts (n + 1) (evs ++ [ev]) (on_login now m ev).1.
Proof.
  intros Ht [He Hs Hb]. split; cbn.
  - intros ip. rewrite since_login_snoc. unfold count_event. rewrite Ht, String.eqb_refl.
    destruct (String.eqb_spec (SourceIP ev) ip) as [->|Hn]; [by rewrite lookup_delete_eq | by rewrite lookup_delete_ne].
  - pose proof (map_size_delete (SourceIP ev) (failedAttempts m)) as Hd. rewrite Hd. destruct (failedAttempts m !! SourceIP ev); unfold id; lia.
  - intros ip. rewrite since_login_snoc. unfold count_event. rewrite Ht, String.eqb_refl. specialize (Hb ip). destruct (_ =s _); lia.
Qed.

Lemma counts_failure n evs ev m : n < 5000 -> Type_ ev = EventSSHFailedAuth -> counts n evs m ->
  counts (n + 1) (evs ++ [ev]) (on_failure m ev).1 /\
  (on_failure m ev).2 = (let k := since_login (SourceIP ev) evs + 1 in if 5 <=? k then to_journal m (brute_force_incident ev k) else []).
Proof.
  intros Hn Ht [He Hs Hb]. unfold on_failure.
  assert (Hc : wrap64 (default 0 (failedAttempts m !! SourceIP ev) + 1) = since_login (SourceIP ev) evs + 1).
  { specialize (Hb (SourceIP ev)). rewrite He. unfold counter. destruct (Z.eqb_spec (since_login (SourceIP ev) evs) 0) as [E|]; cbn;
      rewrite wrap64_small; lia. }
  cbn zeta. rewrite Hc. split; [|done]. split; cbn.
  - intros ip. rewrite since_login_snoc. unfold count_event. rewrite Ht. cbn. specialize (Hb ip).
    destruct (String.eqb_spec (SourceIP ev) ip) as [<-|Hne]; [|by rewrite lookup_insert_ne].
    rewrite lookup_insert_eq. unfold counter. by replace (_ =? 0) with false by lia.
  - pose proof (map_size_insert (SourceIP ev) (since_login (SourceIP ev) evs + 1) (failedAttempts m)) as Hi.
    rewrite Hi. destruct (failedAttempts m !! SourceIP ev); unfold id; lia.
  - intros ip. rewrite since_login_snoc. unfold count_event. rewrite Ht. cbn. specialize (Hb ip). destruct (_ =s _); lia.
Qed.

Lemma counts_weaken n evs m : counts n evs m -> counts (n + 1) evs m.
Proof. intros [He Hs Hb]. split; [done | lia | intros ip; specialize (Hb ip); lia]. Qed.

Lemma counts_event n now evs ev m : n < 5000 -> counts n evs m -> counts (n + 1) (evs ++ [ev]) (process_event now m ev).1.
Proof.
  intros Hn Hc. unfold process_event. destruct (String.eqb_spec (Type_ ev) EventSSHLogin) as [Hl|Hl].
  { pose proof (counts_login now n evs ev m Hl Hc) as H. unfold announce. destruct (on_login _ _ _). apply counts_prune; [lia | done]. }
  destruct (String.eqb_spec (Type_ ev) EventSSHLogout) as [Ho|Ho].
  { assert (Hf : Type_ ev <> EventSSHFailedAuth) by by rewrite Ho.
    unfold on_logout. cbn zeta. destruct (match recentCloses m !! _ with Some _ => _ | None => _ end); [by apply (counts_other n evs ev m)|].
    apply counts_prune; [lia|]. by apply (counts_other n evs ev m). }
  destruct (String.eqb_spec (Type_ ev) EventSSHFailedAuth) as [Hf|Hf].
  - destruct (counts_failure n evs ev m Hn Hf Hc) as [H _]. destruct (on_failure _ _). apply counts_prune; [lia | done].
  - apply counts_prune; [lia|]. by apply (counts_other n evs ev m).
Qed.

Lemma counts_watch lines : forall n evs m, n + len lines <= 5000 -> counts n evs m ->
  counts (n + len lines) (evs ++ omap event_of lines) (watch m lines).
Proof.
  induction lines as [|x lines IH]; intros n evs m Hn Hc; [by rewrite Z.add_0_r, app_nil_r|].
  assert (El : len (x :: lines) = len lines + 1) by (unfold len; cbn [length]; lia). rewrite El in *.
  assert (Hl : 0 <= len lines) by (unfold len; lia). replace (n + (len lines + 1)) with ((n + 1) + len lines) by lia.
  cbn [watch omap list_omap]. unfold ProcessLogLine. fold (event_of x). destruct (event_of x) as [ev|].
  - change (ev :: omap event_of lines) with ([ev] ++ omap event_of lines). rewrite app_assoc. apply IH; [lia|]. apply counts_event; [lia | done].
  - apply IH; [lia|]. by apply counts_weaken.
Qed.

Lemma counts_new j : counts 0 [] (NewSSHMonitor j).
Proof. by split. Qed.

Lemma process_event_journal now m ev : journal (process_event now m ev).1 = journal m.
Proof.
  unfold process_event, on_login, on_logout, on_failure. cbn zeta. destruct (_ =s EventSSHLogin); [done|].
  destruct (_ =s EventSSHLogout); [by destruct (match recentCloses m !! _ with Some _ => _ | None => _ end)|]. by destruct (_ =s _).
Qed.

Lemma watch_journal lines : forall m, journal (watch m lines) = journal m.
Proof.
  induction lines as [|x lines IH]; intros m; [done|]. cbn [watch]. rewrite IH. unfold ProcessLogLine.
  destruct (ParseAuthLine _ _); [apply process_event_journal | done].
Qed.

(** C32. A monitor with a journal that has read fewer than 5000 lines since it was made, so
    that its table has not been pruned, flags a failed attempt as brute force exactly when
    it is at least the fifth of its address since the address last logged in, with the exact
    count. *)
Theorem brute_force_exact lines parsedAt now line ev : len lines < 5000 ->
  ParseAuthLine parsedAt line = Some ev -> Type_ ev = EventSSHFailedAuth ->
  let count := since_login (SourceIP ev) (omap event_of lines) + 1 in
  o_journal (ProcessLogLine parsedAt now (watch (NewSSHMonitor true) lines) line).2 =
    (if 5 <=? count then [brute_force_incident ev count] else []).
Proof.
  intros Hl He Ht count. pose proof (counts_watch lines 0 [] (NewSSHMonitor true) ltac:(lia) (counts_new true)) as Hc.
  destruct (counts_failure (0 + len lines) _ ev _ ltac:(lia) Ht Hc) as [_ Hi]. unfold ProcessLogLine. rewrite He. unfold process_event. rewrite Ht.
  change (EventSSHFailedAuth =s EventSSHLogin) with false. change (EventSSHFailedAuth =s EventSSHLogout) with false.
  rewrite String.eqb_refl. destruct (on_failure _ ev) as [m' js]. cbn [snd announce o_journal] in *. rewrite Hi. unfold to_journal. by rewrite watch_journal.
Qed.
End monitor_runs.

Definition demo_login : login := mkLogin "Aug 31 11:33:20 host " 4242 "root" "203.0.113.5" 54321 (Some ("ED25519", "SHA256:abc")%string).

Lemma demo_login_readable : readable demo_login.
Proof. split; try (by vm_compute). all: repeat split; by vm_compute. Qed.

Lemma login_line_opens_session_witness :
  login_line demo_login = "Aug 31 11:33:20 host sshd[4242]: Accepted publickey for root from 203.0.113.5 port 54321 ssh2: ED25519 SHA256:abc"%string /\
  exists m' out, ProcessLogLine 0 0 (NewSSHMonitor true) (login_line demo_login) = (m', out) /\
    activeSessions m' = <[4242 := mkSession 4242 "root" "203.0.113.5" 54321 "publickey" "SHA256:abc" 0]> ∅ /\
    failedAttempts m' !! "203.0.113.5"%string = None /\
    exists ev, o_event out = Some ev /\ User ev = "root"%string /\ SourceIP ev = "203.0.113.5"%string /\ PID ev = 4242 /\
      o_calls out = [] /\ o_journal out = [login_incident ev].
Proof. split; [by vm_compute | exact (login_line_opens_session 0 0 (NewSSHMonitor true) demo_login demo_login_readable)]. Defined.

Definition demo_failure : string := "sshd[7]: Failed password for root from 203.0.113.5 port 40000 ssh2".

Lemma brute_force_exact_witness :
  exists ev, o_journal (ProcessLogLine 0 0 (watch (NewSSHMonitor true) (replicate 4 (0, 0, demo_failure))) demo_failure).2 = [brute_force_incident ev 5].
Proof.
  assert (E : exists ev, ParseAuthLine 0 demo_failure = Some ev) by (eexists; vm_compute; reflexivity). destruct E as [ev E].
  exists ev. assert (Ht : Type_ ev = EventSSHFailedAuth /\ SourceIP ev = "203.0.113.5"%string)
    by (assert (Hv : Some ev = ParseAuthLine 0 demo_failure) by (symmetry; exact E); vm_compute in Hv; injection Hv as ->; by split).
  destruct Ht as [Ht Hip].
  rewrite (brute_force_exact (replicate 4 (0, 0, demo_failure)) 0 0 demo_failure ev) by (done || exact E || exact Ht).
  rewrite Hip. vm_compute. reflexivity.
Defined.

(** *** What the patterns let through *)

(** A user name with a space hides the attempt. *)
Lemma spaced_user_not_counted :
  ParseAuthLine 0 "sshd[7]: Failed password for invalid user a b from 203.0.113.5 port 40000 ssh2" = None.
Proof. by vm_compute. Qed.

(** A user name of several words puts the attempt down to an address of the
    attacker's choice. *)
Lemma spoofed_source :
  option_map SourceIP (ParseAuthLine 0 "sshd[7]: Failed password for invalid user x from 198.51.100.1 port 1 from 203.0.113.5 port 40000 ssh2") =
    Some "198.51.100.1"%string.
Proof. by vm_compute. Qed.

(** A process number that is used again within three seconds: its second logout is
    taken for a repetition of the first, and the session stays listed. *)
Lemma quick_reuse_stays_open :
  let login := "sshd[7]: Accepted password for root from 203.0.113.5 port 40000 ssh2"%string in
  let logout := "sshd[7]: Disconnected from user root 203.0.113.5 port 40000"%string in
  let at_ t line := (t * Second, t * Second, line) in
  size (activeSessions (watch (NewSSHMonitor true) [at_ 0 login; at_ 10 logout; at_ 11 login; at_ 12 logout])) = 1%nat.
Proof. by vm_compute. Qed.
End SshMonitor.
