(* ===== verification/LogIngest.v ===== *)
(** * Auditing what the cores log (src/pkg/security/log_ingest.go)

    A line of a core's log, parsed by the engine's own sing-box parser and failing
    that by the shared parsers, is audited like a connection the engine saw
    itself. *)
From S2P Require Import Prelude GoStrings GoFloat GoTime GoRegexp AuditRules AuditEngine Auditors LogParsers.
Import AuditRules AuditEngine LogParsers GoRegexp.
Open Scope Z_scope.

Module LogIngest.
Section ingest.
Context `{LocalZone} {order : RangeOrder string}.

(** What a line is parsed to; both parsers remember. *)
Definition parse_any (own shared : SingboxParser) (clean : string) : SingboxParser * SingboxParser * option Auditors.ParsedLogEvent :=
  match parse_singbox own clean with
  | (own, Some ev) => (own, shared, Some ev)
  | (own, None) => let '(shared, ev) := ParseCoreLogLine shared "" clean in (own, shared, ev)
  end.

Definition is_block (clean : string) : bool :=
  let lower := ToLower clean in
  Contains lower "outbound/block" || Contains lower "action=block" || Contains lower "match[block]" || Contains lower "ssrf_probe".

Definition request_of (clean : string) (ev : Auditors.ParsedLogEvent) : SecurityAuditRequest := {|
  CallerID := Auditors.ClientRawID ev;
  PackageName := "";
  AppName := "";
  ExecutablePath := Auditors.e_ExecutablePath ev;
  DestinationIP := Auditors.TargetHost ev;
  DestinationHost := Auditors.TargetHost ev;
  Port := Auditors.TargetPort ev;
  Protocol := "TCP";
  AuditPorts := [];
  MaxThreshold := 0;
  IsExplicitBlock := is_block clean;
  Platform := "windows";
  PolicyOverride := None;
|}.

(** An engine with its parser, and the parser the process shares; [None] is a panic
    of the audit. *)
Definition IngestCoreLog (now : Z) (recorded : bool) (e : UnifiedSecurityEngine) (own shared : SingboxParser) (logLine : string)
    : option (UnifiedSecurityEngine * SingboxParser * SingboxParser * option SecurityAuditVerdict) :=
  let clean := TrimSpace logLine in
  if clean =s "" then Some (e, own, shared, None)
  else
    match parse_any own shared clean with
    | (own, shared, Some ev) =>
        '(e, v) ← AuditConnection now recorded (request_of clean ev) e;
        Some (e, own, shared, Some v)
    | (own, shared, None) => Some (e, own, shared, None)
    end.

(** ** Lines that name a metadata service *)

(** The event of an attempt on a metadata service. *)
Definition is_probe (ev : Auditors.ParsedLogEvent) : Prop :=
  Auditors.TargetHost ev = "169.254.169.254"%string /\ Auditors.EventType ev = "SSRF_PROBE"%string.

Lemma process_line_none p connID line : group1 singboxProcEventRegex line = None -> process_line p connID line = (p, None).
Proof. intros E. unfold process_line. by rewrite E. Qed.

(** Go trims before every parser; once is enough. *)
Lemma parse_singbox_probe p clean : clean <> ""%string -> TrimSpace clean = clean -> MatchString metadataRegex clean = true ->
  group1 singboxProcEventRegex clean = None ->
  match (parse_singbox p clean).2 with Some ev => is_probe ev | None => True end.
Proof.
  intros Hn%String.eqb_neq Ht Hm Hp. unfold parse_singbox. rewrite Ht, Hn. cbn zeta. destruct (Contains _ _).
  - by destruct (groups_of _ _) as [[|id [|ip [|]]]|].
  - rewrite process_line_none by done. change singboxMetadataRegex with metadataRegex. by rewrite Hm.
Qed.

Lemma parse_any_probe own shared clean : clean <> ""%string -> TrimSpace clean = clean -> MatchString metadataRegex clean = true ->
  group1 singboxProcEventRegex clean = None -> exists own' shared' ev, parse_any own shared clean = (own', shared', Some ev) /\ is_probe ev.
Proof.
  intros Hn Ht Hm Hp. pose proof (parse_singbox_probe own clean Hn Ht Hm Hp) as Ho. pose proof (parse_singbox_probe shared clean Hn Ht Hm Hp) as Hs.
  unfold parse_any. destruct (parse_singbox own clean) as [own' [ev|]]; [by eexists _, _, _|]. unfold ParseCoreLogLine.
  rewrite Ht. pose proof Hn as He%String.eqb_neq. rewrite He. cbn -[parse_xray parse_hysteria].
  destruct (parse_singbox shared clean) as [shared' [ev|]]; [by eexists _, _, _|].
  unfold parse_xray. rewrite Ht, He. cbn zeta. change xrayMetadataRegex with metadataRegex. rewrite Hm. by eexists _, _, _.
Qed.

Lemma audit_probe_blocked now recorded e req : DestinationIP req = "169.254.169.254"%string ->
  exists e' v, AuditConnection now recorded req e = Some (e', v) /\ IsBlocked v = true.
Proof.
  intros Hd. unfold AuditConnection. cbn zeta.
  assert (Hh : forall caller v, IsBlocked v = true -> exists e' v',
    Some (handlePcapAndProfile now recorded caller v req (policy_of e req) e) = Some (e', v') /\ IsBlocked v' = true).
  { intros caller v Hv. destruct (handlePcapAndProfile now recorded caller v req (policy_of e req) e) as [e' v'] eqn:E. exists e', v'.
    split; [reflexivity|]. apply (f_equal (fun r => IsBlocked r.2)) in E. unfold handlePcapAndProfile in E. rewrite record_blocked in E.
    cbn [snd] in E. congruence. }
  destruct (IsEntityBlocked _ _); [by apply Hh|]. destruct (IsMasqueradedSystemProcess _ _).1; [by apply Hh|].
  assert (Hc : IsCloudMetadataEndpoint (DestinationIP req) (DestinationHost req) = true) by (rewrite Hd; reflexivity).
  rewrite Hc. by apply Hh.
Qed.

(** Every line that names a metadata service, unless it is one that names the
    process of a connection, ends in a verdict that blocks, whatever the engine and
    the parsers remember. *)
Theorem metadata_line_blocked now recorded e own shared line :
  MatchString metadataRegex (TrimSpace line) = true -> group1 singboxProcEventRegex (TrimSpace line) = None ->
  exists e' own' shared' v, IngestCoreLog now recorded e own shared line = Some (e', own', shared', Some v) /\ IsBlocked v = true.
Proof.
  intros Hm Hp. unfold IngestCoreLog. cbn zeta. destruct (String.eqb_spec (TrimSpace line) "") as [E|Hn]; [rewrite E in Hm; vm_compute in Hm; discriminate|].
  destruct (parse_any_probe own shared _ Hn (TrimSpace_idemp line) Hm Hp) as (own' & shared' & ev & -> & Hev & _).
  destruct (audit_probe_blocked now recorded e (request_of (TrimSpace line) ev) Hev) as (e' & v & Ha & Hb).
  rewrite Ha. cbn [mbind option_bind]. by exists e', own', shared', v.
Qed.
End ingest.

Lemma metadata_line_blocked_witness :
  exists e' own' shared' v,
    IngestCoreLog (H := utc) 0 true NewUnifiedSecurityEngine NewSingboxParser NewSingboxParser
      "INFO [7 1ms] inbound/tun[tun-in]: inbound connection to 169.254.169.254:80" = Some (e', own', shared', Some v) /\ IsBlocked v = true.
Proof.
  apply (metadata_line_blocked (H := utc)); [by vm_compute | by vm_compute].
Defined.
End LogIngest.
