(* ===== verification/Tailer.v ===== *)
(** * Following log files and routers (src/pkg/security/ingest/tailer.go, router_ssh.go)

    A file is followed by reading what is appended to it, and reopened when it is rotated
    or cut; a router is followed over ssh.  What happens to the file between two readings
    is a list of events. *)
From Stdlib Require Import Btauto.
From S2P Require Import Prelude GoStrings GoPath RemoteNode.
Open Scope Z_scope.

Module Tailing.

(** ** The file system *)

(** The file at the path, as the number and the size it has, and the contents of all files. *)
Record FS := mkFS { at_path : option nat; contents : gmap nat string }.
Definition content (fs : FS) (ino : nat) : string := default ""%string (contents fs !! ino).
Inductive change :=
| Append (text : string)     (* to the file at the path *)
| Truncate                   (* it becomes empty *)
| Rotate (ino : nat)         (* it is moved away, and a new file takes its place *)
| Remove.
Definition changed (fs : FS) (c : change) : FS :=
  match c, at_path fs with
  | Append text, Some ino => mkFS (at_path fs) (<[ino := content fs ino ^^ text]> (contents fs))
  | Truncate, Some ino => mkFS (at_path fs) (<[ino := ""%string]> (contents fs))
  | Rotate ino, _ => mkFS (Some ino) (<[ino := ""%string]> (contents fs))
  | Remove, _ => mkFS None (contents fs)
  | _, None => fs
  end.

(** ** A tailer (runFile) *)

(** Not opened, or the file that is open, the position up to which it has been read, and
    what the buffer still holds. *)
Definition reader : Type := option (nat * nat * string).
Definition newline : ascii := ascii_of_N 10.
Definition line_end : string := String (ascii_of_N 13) (String (ascii_of_N 10) "").
Definition block : nat := 4096.

(** [os.Open] and [file.Seek] to the end, once the file exists. *)
Definition open_end (fs : FS) : reader := option_map (fun ino => (ino, String.length (content fs ino), ""%string)) (at_path fs).

(** [reader.ReadString]: the bytes up to the next line break, or to the end of the data; the
    buffer is filled up block by block.  The line, the new position and buffer, and whether
    the data ended. *)
Fixpoint read_string (fuel : nat) (data : string) (pos : nat) (acc buf : string) : string * nat * string * bool :=
  match IndexByte buf newline with
  | Some i => (acc ^^ str_take (S i) buf, pos, str_drop (S i) buf, false)
  | None =>
      match fuel with
      | O => (acc ^^ buf, pos, ""%string, true)
      | S fuel =>
          let '(acc, buf) := if (block <=? String.length buf)%nat then (acc ^^ buf, ""%string) else (acc, buf) in
          let more := str_take (block - String.length buf) (str_drop pos data) in
          if more =s "" then (acc ^^ buf, pos, ""%string, true)
          else read_string fuel data (pos + String.length more) acc (buf ^^ more)
      end
  end.
Definition clean_line (line : string) : list string :=
  let cleanLine := TrimRight line line_end in if cleanLine =s "" then [] else [cleanLine].

(** One round of the loop: the lines given to the callback.  [None] is the end of this
    run; the next one opens the file again after two seconds. *)
Definition round (fs : FS) (ino pos : nat) (buf : string) : reader * list string :=
  let '(line, pos, buf, eof) := read_string (S (String.length (content fs ino))) (content fs ino) pos "" buf in
  let lines := clean_line line in
  if eof then
    match at_path fs with
    | Some cur => if negb (cur =? ino)%nat || (String.length (content fs cur) <? pos)%nat then (None, lines) else (Some (ino, pos, buf), lines)
    | None => (Some (ino, pos, buf), lines)
    end
  else (Some (ino, pos, buf), lines).
Definition tick (fs : FS) (r : reader) : reader * list string :=
  match r with
  | None => (open_end fs, [])
  | Some (ino, pos, buf) => round fs ino pos buf
  end.

(** A history: what happens to the file, and the rounds of the tailer in between. *)
Inductive event := Change (c : change) | Tick.
Fixpoint follow (fs : FS) (r : reader) (history : list event) : FS * reader * list string :=
  match history with
  | [] => (fs, r, [])
  | Change c :: history => follow (changed fs c) r history
  | Tick :: history =>
      let '(r, lines) := tick fs r in
      let '(fs, r, more) := follow fs r history in (fs, r, lines ++ more)
  end.

(** ** What a tailer delivers *)

(** The lines of a text, without their ends and without the empty ones. *)
Definition lines_of (text : string) : list string := concat (map clean_line (SplitByte text newline)).
(** Texts of whole lines. *)
Definition whole (text : string) : Prop := text = ""%string \/ exists t, text = t ^^ String newline "".
Definition one_line (text : string) : Prop := str_exists (fun a => Ascii.eqb a newline) text = false.

Lemma split_at_newline s i : IndexByte s newline = Some i ->
  s = str_take i s ^^ String newline (str_drop (S i) s) /\ one_line (str_take i s) /\ str_take (S i) s = str_take i s ^^ String newline "".
Proof.
  unfold one_line, str_take. revert i. induction s as [|a s IH]; intros i; [done|]. cbn [IndexByte].
  destruct (Ascii.eqb_spec a newline) as [->|Hne].
  - intros [= <-]. cbn. split_and!; [done..|]. by destruct s.
  - destruct (IndexByte s newline) as [j|]; [|done]. intros [= <-]. destruct (IH j eq_refl) as (H1 & H2 & H3).
    change (str_drop (S (S j)) (String a s)) with (str_drop (S j) s). cbn [String.substring]. cbn [String.append str_exists].
    apply Ascii.eqb_neq in Hne. rewrite Hne, H2. split_and!; [by rewrite <- H1|done|by rewrite H3].
Qed.
Lemma newline_free s : IndexByte s newline = None -> one_line s.
Proof.
  unfold one_line. induction s as [|a s IH]; [done|]. cbn [IndexByte str_exists]. destruct (Ascii.eqb a newline); [done|].
  destruct (IndexByte s newline); [done|]. intros _. by apply IH.
Qed.
Lemma one_line_app s t : one_line s -> one_line t -> one_line (s ^^ t).
Proof. unfold one_line. rewrite str_exists_app. by intros -> ->. Qed.
Lemma take_drop_length n s : str_take n s ^^ str_drop (String.length (str_take n s)) s = s.
Proof.
  unfold str_take. revert s. induction n as [|n IH]; intros [|a s]; try done. cbn. by rewrite IH.
Qed.
Lemma take_nothing n s : (0 < n)%nat -> str_take n s = ""%string -> s = ""%string.
Proof. destruct n; [lia|]. by destruct s. Qed.
Lemma drop_more n m s : str_drop (n + m) s = str_drop m (str_drop n s).
Proof. revert s. induction n as [|n IH]; intros s; [done|]. destruct s as [|a s]; [by destruct m|]. apply IH. Qed.
Lemma take_length n s : (String.length (str_take n s) <= String.length s)%nat.
Proof.
  pose proof (take_drop_length n s) as E. apply (f_equal String.length) in E. rewrite str_length_app in E. lia.
Qed.

(** A line is read as far as its end, or the data to its end; nothing is lost. *)
Lemma read_string_exact fuel data pos acc buf : one_line acc -> (pos <= String.length data < pos + fuel)%nat ->
  let '(line, pos', buf', eof) := read_string fuel data pos acc buf in
  (pos' <= String.length data)%nat /\ acc ^^ buf ^^ str_drop pos data = line ^^ buf' ^^ str_drop pos' data /\
  if eof then buf' = ""%string /\ str_drop pos' data = ""%string /\ one_line line else exists l, line = l ^^ String newline "" /\ one_line l.
Proof.
  revert pos acc buf. induction fuel as [|fuel IH]; intros pos acc buf Hacc Hpos; [lia|]. cbn [read_string].
  destruct (IndexByte buf newline) as [i|] eqn:Ei.
  - destruct (split_at_newline buf i Ei) as (H1 & H2 & H3). split_and!; [lia| |].
    + rewrite H3 , !str_app_assoc. rewrite H1 at 1. by rewrite !str_app_assoc.
    + exists (acc ^^ str_take i buf). rewrite H3, str_app_assoc. split; [done|]. by apply one_line_app.
  - apply newline_free in Ei. pose proof (one_line_app acc buf Hacc Ei) as Hab.
    assert (Hcases : exists acc1 buf1, (if (block <=? String.length buf)%nat then (acc ^^ buf, ""%string) else (acc, buf)) = (acc1, buf1) /\
      acc ^^ buf = acc1 ^^ buf1 /\ one_line acc1 /\ (String.length buf1 < block)%nat).
    { destruct (Nat.leb_spec block (String.length buf)); eexists _, _; (split; [done|]); split_and!; try done; [by rewrite str_app_nil_r|unfold block; cbn; lia]. }
    destruct Hcases as (acc1 & buf1 & -> & Eab & Hacc1 & Hspace). set (space := (block - String.length buf1)%nat).
    destruct (String.eqb_spec (str_take space (str_drop pos data)) "") as [E|Hne].
    + apply take_nothing in E; [|unfold space; lia]. rewrite E. split_and!; [lia| |done..|by rewrite <- Eab].
      by rewrite !str_app_nil_r, Eab.
    + pose proof (take_drop_length space (str_drop pos data)) as Et. pose proof (take_length space (str_drop pos data)) as Hl.
      set (more := str_take space (str_drop pos data)) in *. rewrite str_length_drop in Hl.
      assert (Hm : (0 < String.length more)%nat) by (destruct more; [done|cbn; lia]).
      specialize (IH (pos + String.length more)%nat acc1 (buf1 ^^ more) Hacc1 ltac:(lia)).
      destruct (read_string fuel data _ acc1 _) as [[[line pos'] buf'] eof]. destruct IH as (H1 & H2 & H3). split_and!; [done| |done].
      rewrite <- H2, drop_more. rewrite !str_app_assoc. rewrite Et. by rewrite <- !str_app_assoc, Eab.
Qed.

Lemma TrimRightFunc_cut p s c : p c = true -> TrimRightFunc p (s ^^ String c "") = TrimRightFunc p s.
Proof. intros Hc. induction s as [|a s IH]; cbn; [by rewrite Hc|by rewrite IH]. Qed.
Lemma clean_line_end l : clean_line (l ^^ String newline "") = clean_line l.
Proof. unfold clean_line, TrimRight. by rewrite TrimRightFunc_cut. Qed.
Lemma first_line_of_lines l t : one_line l -> lines_of (l ^^ String newline t) = clean_line l ++ lines_of t.
Proof. intros Hl. unfold lines_of, SplitByte. by rewrite SplitFunc_app by done. Qed.
Lemma lines_of_whole s t : whole s -> lines_of (s ^^ t) = lines_of s ++ lines_of t.
Proof.
  intros [->|[u ->]]; [done|]. unfold lines_of, SplitByte. rewrite str_app_assoc. cbn [String.append].
  rewrite (SplitFunc_sep _ u newline t) by done. rewrite (SplitFunc_sep _ u newline "") by done. by rewrite !map_app, !concat_app, app_nil_r.
Qed.
Lemma whole_app s t : whole s -> whole t -> whole (s ^^ t).
Proof. intros Hs [->|[u ->]]; [by rewrite str_app_nil_r|right]. exists (s ^^ u). by rewrite str_app_assoc. Qed.
Lemma whole_one_line s : whole s -> one_line s -> s = ""%string.
Proof. intros [->|[t ->]] Hs; [done|]. unfold one_line in Hs. rewrite str_exists_app in Hs. cbn in Hs. by rewrite orb_true_r in Hs. Qed.
(** What follows the first line of whole lines is whole lines. *)
Lemma whole_rest l t : one_line l -> whole (l ^^ String newline t) -> whole t.
Proof.
  intros Hl [E|[u E]]; [by destruct l|]. revert t u E. induction l as [|a l IH]; cbn [String.append]; intros t u E.
  - destruct u as [|b u]; cbn in E; injection E; intros; subst; [by left|right; by exists u].
  - unfold one_line in Hl. cbn in Hl. apply orb_false_iff in Hl as [Ha Hl]. destruct u as [|b u]; cbn in E; injection E; intros E2 E1.
    + by destruct l.
    + by apply (IH Hl t u).
Qed.

(** What a tailer has yet to deliver. *)
Definition pending (fs : FS) (ino pos : nat) (buf : string) : string := buf ^^ str_drop pos (content fs ino).
Record following (fs : FS) (ino pos : nat) (buf : string) : Prop := {
  is_current : at_path fs = Some ino;
  in_file : (pos <= String.length (content fs ino))%nat;
  whole_lines : whole (pending fs ino pos buf);
}.

(** A round delivers the next line, if there is one. *)
Lemma round_delivers fs ino pos buf : following fs ino pos buf ->
  exists pos' buf' lines, tick fs (Some (ino, pos, buf)) = (Some (ino, pos', buf'), lines) /\ following fs ino pos' buf' /\
    lines_of (pending fs ino pos buf) = lines ++ lines_of (pending fs ino pos' buf') /\
    (String.length (pending fs ino pos' buf') <= pred (String.length (pending fs ino pos buf)))%nat.
Proof.
  intros [Hp Hpos Hw]. cbn [tick]. unfold round, pending in *. set (data := content fs ino) in *.
  pose proof (read_string_exact (S (String.length data)) data pos "" buf eq_refl ltac:(lia)) as H.
  destruct (read_string _ data pos "" buf) as [[[line pos'] buf'] eof]. destruct H as (H1 & H2 & H3). cbn [String.append] in H2.
  rewrite H2 in *. destruct eof.
  - destruct H3 as (-> & E & Hline). rewrite Hp. fold data. rewrite Nat.eqb_refl. destruct (Nat.ltb_spec (String.length data) pos'); [lia|].
    cbn [negb orb]. rewrite E in *. cbn [String.append] in *. rewrite str_app_nil_r in *. rewrite (whole_one_line line Hw Hline) in *.
    exists pos', ""%string, []. split_and!; [done| |by rewrite E|rewrite E; cbn; lia]. split; [done..|]. unfold pending. fold data. rewrite E. by left.
  - destruct H3 as (l & -> & Hl). exists pos', buf', (clean_line l). rewrite clean_line_end. split_and!; [done| | |].
    + split; [done..|]. unfold pending. fold data. rewrite str_app_assoc in Hw. by apply (whole_rest l).
    + rewrite str_app_assoc. cbn [String.append]. by apply first_line_of_lines.
    + rewrite !str_length_app. cbn [String.length]. lia.
Qed.

(** Histories in which whole lines are appended, and what is appended in them. *)
Definition appends (e : event) : Prop := match e with Tick => True | Change (Append text) => whole text | Change _ => False end.
Definition appended (history : list event) : string := Join (omap (fun e => match e with Change (Append text) => Some text | _ => None end) history) "".

Lemma follow_app fs r h1 h2 : follow fs r (h1 ++ h2) =
  let '(fs1, r1, lines1) := follow fs r h1 in let '(fs2, r2, lines2) := follow fs1 r1 h2 in (fs2, r2, lines1 ++ lines2).
Proof.
  revert fs r. induction h1 as [|[c|] h1 IH]; intros fs r; cbn [app follow].
  - by destruct (follow fs r h2) as [[? ?] ?].
  - apply IH.
  - destruct (tick fs r) as [r1 lines]. rewrite IH. destruct (follow fs r1 h1) as [[fs1 r2] lines1]. destruct (follow fs1 r2 h2) as [[? ?] ?].
    by rewrite app_assoc.
Qed.
Lemma appended_cons text history : appended (Change (Append text) :: history) = text ^^ appended history.
Proof. unfold appended. cbn [omap list_omap]. destruct (omap _ history); cbn; [by rewrite str_app_nil_r|done]. Qed.
Lemma drop_app_le n s t : (n <= String.length s)%nat -> str_drop n (s ^^ t) = str_drop n s ^^ t.
Proof. revert s. induction n as [|n IH]; intros s Hn; [by destruct s|]. destruct s as [|a s]; cbn in Hn; [lia|]. apply IH. lia. Qed.
Lemma append_following fs ino pos buf text : following fs ino pos buf -> whole text ->
  following (changed fs (Append text)) ino pos buf /\ pending (changed fs (Append text)) ino pos buf = pending fs ino pos buf ^^ text.
Proof.
  intros [Hp Hpos Hw] Ht. assert (Hc : content (changed fs (Append text)) ino = content fs ino ^^ text).
  { unfold changed. rewrite Hp. unfold content at 1. cbn [contents]. by rewrite lookup_insert_eq. }
  assert (E : pending (changed fs (Append text)) ino pos buf = pending fs ino pos buf ^^ text) by (unfold pending; by rewrite Hc, drop_app_le, str_app_assoc).
  split; [|done]. split.
  - unfold changed. by rewrite Hp.
  - rewrite Hc, str_length_app. lia.
  - rewrite E. by apply whole_app.
Qed.
Lemma whole_appended history : Forall appends history -> whole (appended history).
Proof.
  induction 1 as [|[[]|] history Hc _ IH]; try done; [by left|]. rewrite appended_cons. by apply whole_app.
Qed.

(** The lines delivered and those pending are the lines there were and those appended. *)
Lemma follow_delivers history fs ino pos buf : following fs ino pos buf -> Forall appends history ->
  exists fs' pos' buf' lines, follow fs (Some (ino, pos, buf)) history = (fs', Some (ino, pos', buf'), lines) /\ following fs' ino pos' buf' /\
    lines_of (pending fs ino pos buf ^^ appended history) = lines ++ lines_of (pending fs' ino pos' buf') /\
    (String.length (pending fs' ino pos' buf') <= String.length (pending fs ino pos buf ^^ appended history))%nat.
Proof.
  revert fs pos buf. induction history as [|[c|] history IH]; intros fs pos buf Hf Ha.
  - exists fs, pos, buf, []. change (appended []) with ""%string. by rewrite str_app_nil_r.
  - apply Forall_cons in Ha as [Hc Ha]. destruct c as [text| | |]; try done. cbn [follow]. rewrite appended_cons.
    destruct (append_following fs ino pos buf text Hf Hc) as [Hf' E]. rewrite <- str_app_assoc, <- E. by apply IH.
  - apply Forall_cons in Ha as [_ Ha]. destruct (round_delivers fs ino pos buf Hf) as (pos1 & buf1 & l1 & E1 & Hf1 & El & Hlen). cbn [follow].
    rewrite E1. destruct (IH fs pos1 buf1 Hf1 Ha) as (fs' & pos' & buf' & lines & E & Hf' & El' & Hlen'). rewrite E.
    exists fs', pos', buf', (l1 ++ lines). change (appended (Tick :: history)) with (appended history). split_and!; [done|done| |].
    + destruct Hf as [_ _ Hw], Hf1 as [_ _ Hw1]. rewrite lines_of_whole, El by done. rewrite <- app_assoc, <- lines_of_whole by done. by rewrite El', app_assoc.
    + rewrite !str_length_app in *. lia.
Qed.
(** Enough rounds leave nothing pending. *)
Lemma ticks_deliver n fs ino pos buf : following fs ino pos buf -> (String.length (pending fs ino pos buf) <= n)%nat ->
  exists r, follow fs (Some (ino, pos, buf)) (repeat Tick n) = (fs, r, lines_of (pending fs ino pos buf)).
Proof.
  revert pos buf. induction n as [|n IH]; intros pos buf Hf Hn; cbn [repeat follow].
  - destruct (pending fs ino pos buf); [by eexists|by cbn in Hn; lia].
  - destruct (round_delivers fs ino pos buf Hf) as (pos1 & buf1 & l1 & E1 & Hf1 & El & Hlen). rewrite E1.
    destruct (IH pos1 buf1 Hf1 ltac:(lia)) as [r E]. rewrite E. exists r. by rewrite El.
Qed.
Lemma drop_all s : str_drop (String.length s) s = ""%string.
Proof. induction s; [done|]. done. Qed.

(** C37. What a tailer delivers: whatever whole lines are appended to a file, in however
    many pieces and with however many rounds of the tailer in between, and whatever the
    size of the buffer, after as many rounds as there are bytes to read it has delivered
    each line that was appended since it opened the file, once and in order, without the
    line's end and leaving out the empty lines - and nothing of what the file held before. *)
Theorem tailed_lines fs ino history n :
  at_path fs = Some ino -> Forall appends history -> (String.length (appended history) <= n)%nat ->
  snd (follow fs (open_end fs) (history ++ repeat Tick n)) = lines_of (appended history).
Proof.
  intros Hp Ha Hn. unfold open_end. rewrite Hp. cbn [option_map]. set (pos := String.length (content fs ino)).
  assert (E0 : pending fs ino pos "" = ""%string) by apply drop_all.
  assert (Hf : following fs ino pos "") by (split; [done|lia|left; exact E0]).
  destruct (follow_delivers history fs ino pos "" Hf Ha) as (fs' & pos' & buf' & lines & E & Hf' & El & Hlen).
  rewrite E0 in El, Hlen. cbn [String.append] in El, Hlen. rewrite follow_app, E.
  destruct (ticks_deliver n fs' ino pos' buf' Hf' ltac:(lia)) as [r Er]. rewrite Er. by rewrite El.
Qed.
Definition log0 : FS := mkFS (Some 7%nat) {[7%nat := "old" ^^ String newline ""]}.
Definition nl (s : string) : string := s ^^ String newline "".
Theorem tailed_lines_witness :
  snd (follow log0 (open_end log0) ([Change (Append (nl "a" ^^ nl "")); Tick; Change (Append (nl "b"))] ++ repeat Tick 5)) = ["a"; "b"].
Proof.
  rewrite (tailed_lines log0 7 [Change (Append (nl "a" ^^ nl "")); Tick; Change (Append (nl "b"))] 5);
    [reflexivity|reflexivity| |vm_compute; lia].
  apply Forall_cons_2; [right; by exists (nl "a")|]. apply Forall_cons_2; [done|]. apply Forall_cons_2; [right; by exists "b"%string|constructor].
Defined.

(** A line that is written in two pieces, with a round between them, arrives as two lines. *)
Example partial_line_split : snd (follow log0 (open_end log0) ([Change (Append "Failed password for ro"); Tick; Change (Append (nl "ot")); Tick])) =
  ["Failed password for ro"; "ot"].
Proof. reflexivity. Qed.
(** What is written between a rotation and the reopening of the file is lost: the new file
    is opened at its end, as the first one is. *)
Example rotation_loses : snd (follow log0 (open_end log0) [Change (Rotate 8); Change (Append (nl "a")); Tick; Change (Append (nl "b")); Tick; Change (Append (nl "c")); Tick]) = ["c"].
Proof. reflexivity. Qed.
(** A file that is emptied and filled again past the position before the next round is not
    seen to have been cut: what follows the position is read as if it had been appended. *)
Example truncation_missed : snd (follow log0 (open_end log0) [Change Truncate; Change (Append (nl "first line")); Tick; Tick]) = ["t line"].
Proof. reflexivity. Qed.

(** ** Commands (runCommand, streamRemote) *)

Definition control : string := String (ascii_of_N 0) (String (ascii_of_N 13) (String (ascii_of_N 10) "")).
Definition blanks : string := String " " (String (ascii_of_N 9) line_end).
Definition quotes : string := String "'" (String (ascii_of_N 34) "").
Definition unsafe_in_command : string := control ^^ "`|;&$".

(** What a tailer of a command starts: nothing, if the command or an argument holds a
    character of a shell. *)
Definition runCommand (source : string) (cmdArgs : list string) : option (list string) :=
  let cleanSource := Clean source in
  if ContainsAny cleanSource unsafe_in_command || HasPrefix cleanSource "-" then None
  else if existsb (fun arg => ContainsAny arg unsafe_in_command) cmdArgs then None
  else Some (cleanSource :: cmdArgs).

(** The lines of a command's output: a line over a megabyte ends the reading. *)
Definition max_token : Z := 1024 * 1024.
Definition command_lines (output : string) : list string :=
  let fix go (pieces : list string) :=
    match pieces with
    | [] => []
    | [last] => if max_token <=? str_len last then [] else clean_line last
    | line :: pieces => if max_token <=? str_len line then [] else clean_line line ++ go pieces
    end
  in go (SplitByte output newline).

Record RouterSSHConfig := mkSSH { Host : string; Port : Z; User : string; KeyPath : string; Password : string; Mode : string }.
Definition or_default (s def : string) : string := if s =s "" then def else s.
Definition NewRouterSSHWatcher (cfg : RouterSSHConfig) : RouterSSHConfig :=
  mkSSH (Host cfg) (if Port cfg <=? 0 then 22 else Port cfg) (or_default (User cfg) "root") (KeyPath cfg) (Password cfg) (or_default (Mode cfg) "conntrack").

Definition shell_special : string := quotes ^^ "`;&|".
Definition insecure (s : string) : bool := HasPrefix s "-" || ContainsAny s (blanks ^^ shell_special).
Definition insecure_key (s : string) : bool := HasPrefix s "-" || ContainsAny s (line_end ^^ shell_special).
Definition ssh_options (port : Z) : list string :=
  ["-p"; Itoa port; "-o"; "StrictHostKeyChecking=accept-new"; "-o"; "ServerAliveInterval=15"; "-o"; "ServerAliveCountMax=3"; "-o"; "ConnectTimeout=10"].
Definition BuildSSHArgs (cfg : RouterSSHConfig) (remoteCmd : string) : result (list string) :=
  if Host cfg =s "" then Err "empty ssh host"
  else if insecure (Host cfg) then Err ("invalid or insecure ssh host: " ^^ Quote (Host cfg))
  else
    let cleanUser := or_default (User cfg) "root" in
    if insecure cleanUser then Err ("invalid or insecure ssh user: " ^^ Quote cleanUser)
    else
      let sshArgs := ssh_options (if Port cfg <=? 0 then 22 else Port cfg) in
      if (KeyPath cfg <>s "") && insecure_key (KeyPath cfg) then Err ("invalid or insecure ssh key path: " ^^ Quote (KeyPath cfg))
      else Ok (sshArgs ++ (if KeyPath cfg =s "" then [] else ["-i"; KeyPath cfg]) ++ ["--"; cleanUser ^^ "@" ^^ Host cfg; remoteCmd]).

Definition remote_command (cfg : RouterSSHConfig) : string :=
  "export PATH=$PATH:/sbin:/usr/sbin:/opt/bin:/opt/sbin; " ^^
  (if Mode cfg =s "syslog" then "logread -f || tail -f /var/log/messages" else "conntrack -E -p tcp -e NEW").
(** What a watcher starts. *)
Definition streamRemote (cfg : RouterSSHConfig) : option (list string) :=
  match BuildSSHArgs cfg (remote_command cfg) with Ok sshArgs => Some ("ssh"%string :: sshArgs) | Err _ => None end.

(** What is built never takes the destination for an option, and the destination holds
    nothing a shell would read. *)
Lemma ContainsAny_app_set s c d : ContainsAny s (c ^^ d) = ContainsAny s c || ContainsAny s d.
Proof. unfold ContainsAny. induction s as [|a s IH]; [done|]. cbn [str_exists]. rewrite IH, str_exists_app. btauto. Qed.
Lemma insecure_not s : insecure s = false -> s <> ""%string -> HasPrefix s "-" = false /\ ContainsAny s (blanks ^^ shell_special) = false.
Proof. unfold insecure. by intros [Hp Hc]%orb_false_iff. Qed.
Lemma ssh_args_safe cfg remoteCmd args : BuildSSHArgs cfg remoteCmd = Ok args ->
  exists port target, args = ssh_options port ++ (if KeyPath cfg =s "" then [] else ["-i"; KeyPath cfg]) ++ ["--"; target; remoteCmd] /\
    0 < port /\ target = or_default (User cfg) "root" ^^ "@" ^^ Host cfg /\
    HasPrefix target "-" = false /\ ContainsAny target (blanks ^^ shell_special) = false /\
    (KeyPath cfg <> ""%string -> HasPrefix (KeyPath cfg) "-" = false).
Proof.
  unfold BuildSSHArgs. destruct (String.eqb_spec (Host cfg) ""); [done|]. destruct (insecure (Host cfg)) eqn:Eh; [done|].
  destruct (insecure (or_default (User cfg) "root")) eqn:Eu; [done|]. destruct (_ && insecure_key _) eqn:Ek; [done|]. intros [= <-].
  assert (Hu : or_default (User cfg) "root" <> ""%string) by (unfold or_default; by destruct (String.eqb_spec (User cfg) "")).
  destruct (insecure_not _ Eh n) as [_ Hh]. destruct (insecure_not _ Eu Hu) as [Hp Hc].
  eexists (if Port cfg <=? 0 then 22 else Port cfg), _. split_and!; [done| |done| | |].
  - destruct (Z.leb_spec (Port cfg) 0); lia.
  - by apply RemoteNode.no_hyphen_app.
  - rewrite !RemoteNode.ContainsAny_app, Hc. exact Hh.
  - intros Hk. destruct (String.eqb_spec (KeyPath cfg) ""); [done|]. by apply orb_false_iff in Ek as [? _].
Qed.
Definition router : RouterSSHConfig := mkSSH "192.168.1.1" 0 "" "" "secret" "both".
(** The documented mode both streams the connections only, and the password is not used. *)
Example both_is_conntrack : streamRemote (NewRouterSSHWatcher router) =
  Some (["ssh"; "-p"; "22"; "-o"; "StrictHostKeyChecking=accept-new"; "-o"; "ServerAliveInterval=15"; "-o"; "ServerAliveCountMax=3"; "-o"; "ConnectTimeout=10";
    "--"; "root@192.168.1.1"; "export PATH=$PATH:/sbin:/usr/sbin:/opt/bin:/opt/sbin; conntrack -E -p tcp -e NEW"]).
Proof. reflexivity. Qed.
Example option_refused : streamRemote (mkSSH "-oProxyCommand=x" 22 "root" "" "" "") = None.
Proof. reflexivity. Qed.

(** ** Starting and stopping (Start, Stop, the goroutine) *)

(** A tailer or watcher: whether it runs, the goroutine whose context it can cancel, the
    goroutines that are alive with whether they were cancelled, and the next one. *)
Record lifecycle := mkLife { running : bool; cancelFn : option nat; alive : gmap nat bool; next : nat }.
Definition asleep : lifecycle := mkLife false None ∅ 0.
Definition Start (t : lifecycle) : lifecycle :=
  if running t then t else mkLife true (Some (next t)) (<[next t := false]> (alive t)) (S (next t)).
Definition Stop (t : lifecycle) : lifecycle :=
  mkLife false (cancelFn t) (match cancelFn t with Some g => alter (fun _ => true) g (alive t) | None => alive t end) (next t).
(** A goroutine that was cancelled comes to its end. *)
Definition ends (g : nat) (t : lifecycle) : lifecycle :=
  match alive t !! g with Some true => mkLife false (cancelFn t) (delete g (alive t)) (next t) | _ => t end.

Inductive life_step : lifecycle -> lifecycle -> Prop :=
| does_start t : life_step t (Start t)
| does_stop t : life_step t (Stop t)
| does_end g t : life_step t (ends g t).
(** The goroutines that keep delivering lines. *)
Definition delivering (t : lifecycle) : list nat := (filter (fun x => x.2 = false) (map_to_list (alive t))).*1.

(** When a goroutine that was stopped has ended before the next is started, there is never
    more than one, and it delivers exactly while the tailer says that it runs. *)
Inductive calm_step : lifecycle -> lifecycle -> Prop :=
| calm_start t : alive t = ∅ \/ running t = true -> calm_step t (Start t)
| calm_stop t : calm_step t (Stop t)
| calm_end g t : calm_step t (ends g t).
Definition one_goroutine (t : lifecycle) : Prop :=
  (alive t = ∅ /\ running t = false) \/ exists g cancelled, alive t = {[g := cancelled]} /\ cancelFn t = Some g /\ running t = negb cancelled.
Lemma calm_step_one t t' : calm_step t t' -> one_goroutine t -> one_goroutine t'.
Proof.
  intros [t0 [Ha|Hr]|t0|g t0] H; unfold one_goroutine in *.
  - unfold Start. destruct (running t0) eqn:Er; [by rewrite Er|right]. exists (next t0), false. cbn. by rewrite Ha.
  - assert (E : Start t0 = t0) by (unfold Start; by rewrite Hr). by rewrite E.
  - destruct H as [[Ha Hr]|(g & c & Ha & Hc & Hr)]; unfold Stop; cbn [alive running cancelFn].
    + left. rewrite Ha. split; [|done]. destruct (cancelFn t0) as [n|]; [|done]. apply map_eq. intros i. rewrite lookup_alter, !lookup_empty. by case_decide.
    + right. exists g, true. rewrite Hc, Ha. split; [|done]. apply map_eq. intros i. rewrite lookup_alter, !lookup_singleton. destruct (decide (g = i)), (decide (g = g)); done.
  - unfold ends. destruct (alive t0 !! g) as [[]|] eqn:E; try done. destruct H as [[Ha _]|(g' & c & Ha & Hc & Hr)].
    + by rewrite Ha in E.
    + rewrite Ha in E |- *. apply lookup_singleton_Some in E as [-> ->]. left. cbn. split; [|done]. by rewrite delete_singleton_eq.
Qed.
Lemma calm_delivering t : rtc calm_step asleep t -> delivering t = if running t then option_list (cancelFn t) else [].
Proof.
  intros H. assert (Ho : one_goroutine t).
  { revert t H. apply rtc_ind_r; [by left|]. intros y z _ Hs Hy. by eapply calm_step_one. }
  unfold delivering. destruct Ho as [[-> ->]|(g & [] & -> & -> & ->)]; [by rewrite map_to_list_empty|by rewrite map_to_list_singleton|by rewrite map_to_list_singleton].
Qed.
(** Otherwise the end of the first takes the second for stopped: a third start then runs
    beside it, both deliver every line, and stopping ends only one of them. *)
Example stopped_but_delivering : exists t, rtc life_step asleep t /\ running t = false /\ delivering t = [1%nat].
Proof.
  exists (Stop (Start (ends 0 (Start (Stop (Start asleep)))))). split; [|done].
  eapply rtc_l; [apply does_start|]. eapply rtc_l; [apply does_stop|]. eapply rtc_l; [apply does_start|].
  eapply rtc_l; [apply (does_end 0)|]. eapply rtc_l; [apply does_start|]. eapply rtc_l; [apply does_stop|]. apply rtc_refl.
Qed.

End Tailing.
