(* ===== verification/Events.v ===== *)
(** * Security events (src/pkg/security/ingest/events.go)

    The dispatcher keeps the last events, offers each to its subscribers and puts it into
    a queue from which a client of the C interface polls.  A channel is a queue with a
    capacity; sending on a closed one is a panic, [None]. *)
From stdpp Require Import relations.
From S2P Require Import Prelude GoStrings Concurrency.
Open Scope Z_scope.

Module Dispatch.

Record SecurityEvent := mkEvent {
  EventID : string;
  EventType : string;
  Source : string;
  Timestamp : option Z;   (* [None] is the zero time *)
  RiskLevel : string;
  SrcIP : string;
  SrcPort : Z;
  DstHost : string;
  DstPort : Z;
  Proto : string;
  VMID : Z;
  Direction : string;
  Reason : string;
  ThreatType : string;
  ShouldAutoBan : bool;
  ClientEmail : string;
  RealClientIP : string;
  ProcessName : string;
  PID : Z;
  RawLine : string;
}.
(** Channels of events, all of the same capacity, with a flag for [close]. *)
Record channel := mkChannel { buffer : list SecurityEvent; closed : bool }.
Record EventDispatcher := mkDispatcher {
  maxHistory : Z;
  history : list SecurityEvent;
  subscribers : list nat;
  channels : gmap nat channel;
  popQueue : list SecurityEvent;
}.
Implicit Types (ev : SecurityEvent) (d : EventDispatcher).

Definition NewEventDispatcher (max : Z) : EventDispatcher := mkDispatcher (if max <=? 0 then 500 else max) [] [] ∅ [].
Definition subscriber_room : Z := 200.
Definition pop_room : Z := 1000.

Definition stamped (now : Z) ev : SecurityEvent :=
  mkEvent (EventID ev) (if EventType ev =s "" then "THREAT_DETECTED" else EventType ev) (Source ev) (Some (default now (Timestamp ev))) (RiskLevel ev)
    (SrcIP ev) (SrcPort ev) (DstHost ev) (DstPort ev) (Proto ev) (VMID ev) (Direction ev) (Reason ev) (ThreatType ev) (ShouldAutoBan ev)
    (ClientEmail ev) (RealClientIP ev) (ProcessName ev) (PID ev) (RawLine ev).

(** A subscriber whose queue is full misses the event. *)
Definition offer ev (ch : channel) : channel :=
  mkChannel (if len (buffer ch) <? subscriber_room then buffer ch ++ [ev] else buffer ch) (closed ch).
Definition send ev (chs : gmap nat channel) (c : nat) : option (gmap nat channel) :=
  match chs !! c with Some ch => if closed ch then None else Some (<[c := offer ev ch]> chs) | None => None end.
Fixpoint fan_out ev (subs : list nat) (chs : gmap nat channel) : option (gmap nat channel) :=
  match subs with [] => Some chs | c :: subs => chs ← send ev chs c; fan_out ev subs chs end.

(** The queue for polling drops its oldest event when it is full. *)
Definition Emit (now : Z) ev d : option EventDispatcher :=
  let ev := stamped now ev in
  chs ← fan_out ev (subscribers d) (channels d);
  Some (mkDispatcher (maxHistory d) (push_capped (maxHistory d) (history d) ev) (subscribers d) chs (push_capped pop_room (popQueue d) ev)).

Definition Subscribe d : EventDispatcher * nat :=
  let c := fresh (dom (channels d)) in
  (mkDispatcher (maxHistory d) (history d) (subscribers d ++ [c]) (<[c := mkChannel [] false]> (channels d)) (popQueue d), c).
Fixpoint remove_first (c : nat) (l : list nat) : list nat :=
  match l with [] => [] | x :: k => if (x =? c)%nat then k else x :: remove_first c k end.
Definition Unsubscribe (c : nat) d : EventDispatcher :=
  if existsb (Nat.eqb c) (subscribers d) then
    mkDispatcher (maxHistory d) (history d) (remove_first c (subscribers d)) (alter (fun ch => mkChannel (buffer ch) true) c (channels d)) (popQueue d)
  else d.
(** What a subscriber takes out of its channel. *)
Definition Receive (c : nat) d : EventDispatcher * option SecurityEvent :=
  match channels d !! c with
  | Some (mkChannel (ev :: rest) cl) =>
      (mkDispatcher (maxHistory d) (history d) (subscribers d) (<[c := mkChannel rest cl]> (channels d)) (popQueue d), Some ev)
  | _ => (d, None)
  end.
(** A poll, before its event is printed. *)
Definition PopEvent d : EventDispatcher * option SecurityEvent :=
  match popQueue d with
  | ev :: rest => (mkDispatcher (maxHistory d) (history d) (subscribers d) (channels d) rest, Some ev)
  | [] => (d, None)
  end.
Definition GetHistory (limit : Z) d : list SecurityEvent :=
  keep_last (if (limit <=? 0) || (len (history d) <? limit) then len (history d) else limit) (history d).
Definition Clear d : EventDispatcher := mkDispatcher (maxHistory d) [] (subscribers d) (channels d) [].

(** ** What the streams hold *)

Inductive op := OpEmit (now : Z) (ev : SecurityEvent) | OpSubscribe | OpUnsubscribe (c : nat) | OpReceive (c : nat) | OpPop | OpClear.
Definition exec d (o : op) : option EventDispatcher :=
  match o with
  | OpEmit now ev => Emit now ev d
  | OpSubscribe => Some (Subscribe d).1
  | OpUnsubscribe c => Some (Unsubscribe c d)
  | OpReceive c => Some (Receive c d).1
  | OpPop => Some (PopEvent d).1
  | OpClear => Some (Clear d)
  end.
(** The events since the last clearing. *)
Definition emitted_step (acc : list SecurityEvent) (o : op) : list SecurityEvent :=
  match o with OpEmit now ev => acc ++ [stamped now ev] | OpClear => [] | _ => acc end.

Record streams (d : EventDispatcher) (emitted : list SecurityEvent) : Prop := {
  s_positive : 0 < maxHistory d;
  s_history : history d = keep_last (maxHistory d) emitted;
  s_queue : popQueue d `suffix_of` emitted;
  s_bound : len (popQueue d) <= pop_room;
  s_nodup : NoDup (subscribers d);
  s_open : forall c, c ∈ subscribers d -> exists ch, channels d !! c = Some ch /\ closed ch = false;
  s_buffers : map_Forall (fun _ ch => len (buffer ch) <= subscriber_room) (channels d);
}.

Lemma new_streams max : streams (NewEventDispatcher max) [].
Proof.
  split; cbn; [destruct (Z.leb_spec max 0); lia| |by apply suffix_nil|by vm_compute|constructor|by intros ? ?%elem_of_nil|apply map_Forall_empty].
  symmetry. apply keep_last_all. unfold len. cbn. destruct (Z.leb_spec max 0); lia.
Qed.
Lemma suffix_push n (l k : list SecurityEvent) x : l `suffix_of` k -> push_capped n l x `suffix_of` k ++ [x].
Proof. intros [p ->]. unfold push_capped. destruct (keep_last_suffix n (l ++ [x])) as [q Hq]. exists (p ++ q). by rewrite <- !app_assoc, <- Hq. Qed.
Lemma offer_keeps_room ev ch : len (buffer ch) <= subscriber_room -> len (buffer (offer ev ch)) <= subscriber_room.
Proof. intros H. unfold offer. cbn. destruct (Z.ltb_spec (len (buffer ch)) subscriber_room); [unfold len in *; rewrite length_app; cbn; lia|done]. Qed.
Definition all_open (chs : gmap nat channel) (subs : list nat) : Prop := forall c, c ∈ subs -> exists ch, chs !! c = Some ch /\ closed ch = false.
Definition small_buffers (chs : gmap nat channel) : Prop := map_Forall (fun _ ch => len (buffer ch) <= subscriber_room) chs.
Lemma fan_out_works ev subs chs all : subs ⊆ all -> all_open chs all -> small_buffers chs ->
  exists chs', fan_out ev subs chs = Some chs' /\ all_open chs' all /\ small_buffers chs'.
Proof.
  revert chs. induction subs as [|c subs IH]; intros chs Hsub Ho Hs; [by exists chs|]. cbn [fan_out]. unfold send.
  destruct (Ho c ltac:(set_solver)) as (ch & E & Hc). rewrite E, Hc. cbn [mbind option_bind]. apply IH; [set_solver| |].
  - intros c' Hc'. rewrite lookup_insert. destruct (decide (c = c')); [by exists (offer ev ch)|by apply Ho].
  - apply map_Forall_insert_2; [apply offer_keeps_room, (Hs c ch E)|done].
Qed.
Lemma emit_streams now ev d emitted : streams d emitted ->
  exists d', Emit now ev d = Some d' /\ streams d' (emitted ++ [stamped now ev]) /\ subscribers d' = subscribers d /\ maxHistory d' = maxHistory d.
Proof.
  intros [Hp Hh Hq Hb Hn Ho Hs]. unfold Emit. destruct (fan_out_works (stamped now ev) (subscribers d) (channels d) (subscribers d)) as (chs & -> & Ho' & Hs'); [done..|].
  cbn [mbind option_bind]. eexists. split; [done|]. split; [|done]. split; cbn [maxHistory history subscribers channels popQueue]; try done.
  - rewrite Hh. unfold push_capped. by rewrite keep_last_app by lia.
  - by apply suffix_push.
  - apply push_capped_bound. unfold pop_room. lia.
Qed.
Lemma remove_first_sub c l : remove_first c l ⊆ l.
Proof. induction l as [|x l IH]; cbn; [done|]. destruct (x =? c)%nat; set_solver. Qed.
Lemma remove_first_once c l : NoDup l -> NoDup (remove_first c l) /\ c ∉ remove_first c l.
Proof.
  induction 1 as [|x l Hx Hl [IH1 IH2]]; cbn; [split; [constructor|by apply not_elem_of_nil]|]. destruct (Nat.eqb_spec x c) as [->|Hne]; [done|].
  split; [constructor; [|done]; intros H; by apply Hx, (remove_first_sub c)|by apply not_elem_of_cons].
Qed.
Lemma exec_streams d emitted o : streams d emitted -> exists d', exec d o = Some d' /\ streams d' (emitted_step emitted o).
Proof.
  intros H. destruct o as [now ev| |c|c| |]; cbn [exec emitted_step].
  - destruct (emit_streams now ev d emitted H) as (d' & E & H' & _). by exists d'.
  - eexists. split; [done|]. destruct H as [Hp Hh Hq Hb Hn Ho Hs]. pose proof (is_fresh (dom (channels d))) as Hf. unfold Subscribe.
    set (c := fresh (dom (channels d))) in *. apply not_elem_of_dom in Hf. split; cbn [maxHistory history subscribers channels popQueue fst]; try done.
    + apply NoDup_app. split; [done|]. split; [|by apply NoDup_singleton]. intros x Hx Hx2. apply list_elem_of_singleton in Hx2 as ->. destruct (Ho c Hx) as (ch & E & _). congruence.
    + intros x [Hx|Hx]%elem_of_app; [|apply list_elem_of_singleton in Hx as ->; rewrite lookup_insert_eq; by eexists]. destruct (Ho x Hx) as (ch & E & ?).
      exists ch. split; [|done]. rewrite lookup_insert_ne; [done|]. intros ->. congruence.
    + apply map_Forall_insert_2; [by vm_compute|done].
  - eexists. split; [done|]. unfold Unsubscribe. destruct (existsb _ _); [|done]. destruct H as [Hp Hh Hq Hb Hn Ho Hs].
    destruct (remove_first_once c _ Hn) as [Hn' Hc]. split; cbn [maxHistory history subscribers channels popQueue]; try done.
    + intros x Hx. destruct (Ho x) as (ch & E & ?); [by apply (remove_first_sub c)|]. exists ch. split; [|done]. rewrite lookup_alter_ne; [done|]. by intros <-.
    + intros i ch. rewrite lookup_alter. case_decide as Ei; [|apply Hs]. intros (ch' & E & ->)%fmap_Some. apply (Hs i ch'). by rewrite <- Ei.
  - eexists. split; [done|]. unfold Receive. destruct (channels d !! c) as [[[|ev rest] cl]|] eqn:E; try done. destruct H as [Hp Hh Hq Hb Hn Ho Hs].
    split; cbn [maxHistory history subscribers channels popQueue fst]; try done.
    + intros x Hx. rewrite lookup_insert. destruct (decide (c = x)) as [<-|]; [|by apply Ho]. destruct (Ho c Hx) as (ch & E' & Hc). rewrite E in E'.
      injection E' as <-. by eexists.
    + apply map_Forall_insert_2; [|done]. pose proof (Hs c _ E) as Hl. unfold len in *. cbn in *. lia.
  - eexists. split; [done|]. unfold PopEvent. destruct (popQueue d) as [|ev rest] eqn:E; [done|]. destruct H as [Hp Hh Hq Hb Hn Ho Hs].
    split; cbn [maxHistory history subscribers channels popQueue fst]; try done.
    + rewrite E in Hq. by apply suffix_cons_l in Hq.
    + rewrite E in Hb. unfold len in *. cbn in *. lia.
  - eexists. split; [done|]. destruct H as [Hp Hh Hq Hb Hn Ho Hs]. split; cbn [maxHistory history subscribers channels popQueue Clear]; try done.
    + symmetry. apply keep_last_all. unfold len. cbn. lia.
Qed.
(** The history that is given out is the last events. *)
Lemma keep_last_keep_last (n m : Z) (l : list SecurityEvent) : 0 <= n -> 0 <= m -> keep_last n (keep_last m l) = keep_last (Z.min n m) l.
Proof.
  intros Hn Hm. rewrite !keep_last_drop by lia. rewrite length_drop, drop_drop. f_equal. lia.
Qed.
Lemma history_exact limit d emitted : streams d emitted ->
  GetHistory limit d = keep_last (if limit <=? 0 then maxHistory d else Z.min limit (maxHistory d)) emitted.
Proof.
  intros [Hp Hh _ _ _ _ _]. unfold GetHistory. destruct (Z.leb_spec limit 0); cbn [orb].
  - by rewrite keep_last_all, Hh.
  - destruct (Z.ltb_spec (len (history d)) limit) as [Hl|Hl].
    + rewrite keep_last_all by done. rewrite Hh in Hl |- *. rewrite <- keep_last_keep_last by lia. symmetry. apply keep_last_all. lia.
    + rewrite Hh. apply keep_last_keep_last; lia.
Qed.

(** ** Several emitters at once

    The second half of [Emit] runs without the lock: it tries to put the event into the
    queue, takes the oldest one out when the queue is full, and then puts the event in,
    waiting for room if somebody else has taken it.  Each emitter is at one of these
    points, and every interleaving is a sequence of steps. *)
Section emitters.
Context {E : Type} (cap : nat).
Inductive emitter := Trying (e : E) | Full (e : E) | Sending (e : E) | Finished.
Inductive emit_step : list E * list emitter -> list E * list emitter -> Prop :=
| TriesRoom q l1 e l2 : (length q < cap)%nat -> emit_step (q, l1 ++ Trying e :: l2) (q ++ [e], l1 ++ Finished :: l2)
| TriesFull q l1 e l2 : (cap <= length q)%nat -> emit_step (q, l1 ++ Trying e :: l2) (q, l1 ++ Full e :: l2)
| DropsOldest x q l1 e l2 : emit_step (x :: q, l1 ++ Full e :: l2) (q, l1 ++ Sending e :: l2)
| DropsNothing l1 e l2 : emit_step ([], l1 ++ Full e :: l2) ([], l1 ++ Sending e :: l2)
| Sends q l1 e l2 : (length q < cap)%nat -> emit_step (q, l1 ++ Sending e :: l2) (q ++ [e], l1 ++ Finished :: l2).
Definition emitter_weight (e : emitter) : nat := match e with Trying _ => 3 | Full _ => 2 | Sending _ => 1 | Finished => 0 end.

Lemma emitters_end s : sn emit_step s.
Proof using Type.
  revert s. apply (wf_projected lt (fun s => sum_list_with emitter_weight s.2)); [|apply lt_wf]. intros x y H.
  inv H; cbn [snd]; rewrite !sum_list_with_app; cbn [sum_list_with emitter_weight]; lia.
Qed.
(** When nobody can move, an emitter that has not finished waits for room. *)
Lemma blocked_when_full q l : nf emit_step (q, l) -> Forall (fun e => e = Finished \/ (exists x, e = Sending x) /\ (cap <= length q)%nat) l.
Proof using Type.
  intros Hnf. apply Forall_forall. intros e He. apply list_elem_of_split in He as (l1 & l2 & ->). destruct e as [e|e|e|]; [| | |by left].
  - exfalso. apply Hnf. destruct (decide (length q < cap)%nat); eexists; [by apply TriesRoom|apply TriesFull; lia].
  - exfalso. apply Hnf. destruct q; eexists; [apply DropsNothing|apply DropsOldest].
  - destruct (decide (length q < cap)%nat) as [Hc|Hc]; [exfalso; apply Hnf; eexists; by apply Sends|right]. split; [by eexists|lia].
Qed.
(** An emitter that is alone always finishes, and has then pushed as [Emit] says. *)
Definition alone (q : list E) (e : E) (s : list E * list emitter) : Prop :=
  s = (q, [Trying e]) \/ ((length q = cap)%nat /\ s = (q, [Full e])) \/ ((length q = cap)%nat /\ s = (tail q, [Sending e])) \/
  s = (push_capped (Z.of_nat cap) q e, [Finished]).
Lemma only_emitter l1 (e e' : emitter) l2 : [e] = l1 ++ e' :: l2 -> l1 = [] /\ e' = e /\ l2 = [].
Proof using Type. destruct l1 as [|? [|]]; [|done..]. by intros [= -> <-]. Qed.
Lemma keep_tail (q : list E) e : (0 < cap)%nat -> (length q = cap)%nat -> push_capped (Z.of_nat cap) q e = tail q ++ [e].
Proof using Type.
  intros Hc Hq. unfold push_capped. rewrite keep_last_drop by lia. rewrite length_app, Nat2Z.id. cbn [length].
  replace (length q + 1 - cap)%nat with 1%nat by lia. by destruct q as [|x q]; [cbn in Hq; lia|].
Qed.
Definition moves (q : list E) (e : emitter) (s : list E * list emitter) : Prop :=
  match e with
  | Trying e => ((length q < cap)%nat /\ s = (q ++ [e], [Finished])) \/ ((cap <= length q)%nat /\ s = (q, [Full e]))
  | Full e => s = (tail q, [Sending e])
  | Sending e => (length q < cap)%nat /\ s = (q ++ [e], [Finished])
  | Finished => False
  end.
Lemma step_moves q e s : emit_step (q, [e]) s -> moves q e s.
Proof using Type.
  intros H. remember (q, [e]) as s0 eqn:E0. destruct H; injection E0 as Eq El; symmetry in El; apply only_emitter in El as (-> & <- & ->);
    subst; cbn; auto.
Qed.
Lemma alone_step q e s s' : (0 < cap)%nat -> (length q <= cap)%nat -> alone q e s -> emit_step s s' -> alone q e s'.
Proof using Type.
  intros Hc Hq Ha Hs. unfold alone in *. destruct Ha as [E0|[[Hl E0]|[[Hl E0]|E0]]]; rewrite E0 in Hs; apply step_moves in Hs; cbn [moves] in Hs.
  - destruct Hs as [[Hl ->]|[Hl ->]]; [|right; left; split; [lia|done]]. right. right. right. unfold push_capped. rewrite keep_last_all; [done|].
    unfold len. rewrite length_app. cbn. lia.
  - right. right. by left.
  - destruct Hs as [_ ->]. right. right. right. by rewrite keep_tail.
  - done.
Qed.
Lemma emitter_alone q e s : (0 < cap)%nat -> (length q <= cap)%nat -> rtc emit_step (q, [Trying e]) s -> nf emit_step s ->
  s = (push_capped (Z.of_nat cap) q e, [Finished]).
Proof using Type.
  intros Hc Hq Hr Hnf. assert (Ha : alone q e s).
  { clear Hnf. revert s Hr. apply rtc_ind_r; [by left|]. intros y z _ Hs Hy. by eapply alone_step. }
  destruct Ha as [->|[[Hl ->]|[[Hl ->]| ->]]]; [| | |done]; apply blocked_when_full in Hnf; apply Forall_cons in Hnf as [[Hf|[[x Hx] Hf]] _]; try done.
  destruct q; cbn in *; lia.
Qed.
(** Of two emitters that find the queue full one can take the other's room: it then waits
    until somebody polls, and with it the tailer that delivers to it. *)
Lemma two_emitters_block q e1 e2 : length q = cap -> (0 < cap)%nat ->
  rtc emit_step (q, [Trying e1; Trying e2]) (tail q ++ [e2], [Sending e1; Finished]) /\ nf emit_step (tail q ++ [e2], [Sending e1; Finished]).
Proof using Type.
  intros Hq Hc. assert (Hl : length (tail q ++ [e2]) = cap) by (rewrite length_app; destruct q; cbn in *; lia). split.
  - eapply rtc_l; [apply (TriesFull q [] e1 [Trying e2]); lia|]. destruct q as [|x q]; [cbn in Hq; lia|]. cbn [tail] in *.
    eapply rtc_l; [apply (DropsOldest x q [] e1 [Trying e2])|]. eapply rtc_l; [|apply rtc_refl]. apply (TriesRoom q [Sending e1] e2 []). cbn in Hq. lia.
  - intros [s H]. revert H. remember (tail q ++ [e2], [Sending e1; Finished]) as s0 eqn:E0. intros H.
    destruct H as [q0 l1|q0 l1|x q0 l1|l1|q0 l1]; injection E0 as Eq El; destruct l1 as [|a [|b [|c l1]]]; try discriminate El; subst; lia.
Qed.
End emitters.
End Dispatch.
