(* ===== verification/Pipeline.v ===== *)
(** * The ingestion pipeline (src/pkg/security/ingest/pipeline.go)

    Lines of the host's firewall, of the router, of the authentication log and of the
    cores are read, judged and reported to the dispatcher of [Events].  The pipeline shares
    the router's detector, the parser of core logs, the log streams and the session tracker
    with the rest of the program; they are part of its state here. *)
From S2P Require Import Prelude GoStrings GoFloat GoTime GoRegexp Auditors Logs Sessions SessionLines Netfilter LogParsers SshMonitor Tailer Events.
Open Scope Z_scope.

Module Ingest.
Section pipeline.
Context {order : RangeOrder string} (loc : Sessions.Locale) (json : string -> option (gmap string string)).

Record PipelineConfig := mkConfig {
  VPNVMID : Z;
  VPNVMIDs : list Z;
  TrustedAdminIPs : list string;
  ProxmoxHost : string;
  SensitivePorts : list Z;
  WhitelistPorts : list Z;
  WhitelistVMIDs : list Z;
  Language : string;
  AutoBanScanners : bool;
  ProxmoxLogPath : string;
  AuthLogPath : string;
  RouterConfig : option Tailing.RouterSSHConfig;
}.
Definition DefaultPipelineConfig : PipelineConfig :=
  mkConfig 100 [100] [] "" [22; 23; 8006; 2222; 3389; 445; 135; 139; 1433; 5555] [80; 443; 53; 123] [] "ru" true "" "" None.

Definition policy_of (cfg : PipelineConfig) : Netfilter.ClassifierPolicy :=
  let policy := Netfilter.DefaultClassifierPolicy in
  Netfilter.mkPolicy (VPNVMID cfg) (VPNVMIDs cfg) (TrustedAdminIPs cfg) (ProxmoxHost cfg)
    (Netfilter.or_default (SensitivePorts cfg) (Netfilter.SensitivePorts policy))
    (Netfilter.or_default (WhitelistPorts cfg) (Netfilter.WhitelistPorts policy))
    (Netfilter.VPNPorts policy) (WhitelistVMIDs cfg) (Netfilter.AlertVPNClientUnusualPorts policy).

(** Where a followed line comes from. *)
Inductive origin := ProxmoxLog | AuthLog | RouterStream.
Record SecurityPipeline := mkPipeline {
  config : PipelineConfig;
  policy : Netfilter.ClassifierPolicy;
  dispatcher : Dispatch.EventDispatcher;
  threatDetector : Netfilter.RouterThreatDetector;
  coreParser : LogParsers.SingboxParser;
  broadcaster : Logs.LogBroadcaster;
  tracker : Sessions.SessionTracker;
  tailers : list (origin * string * Tailing.lifecycle);
  routerWatcher : option (Tailing.RouterSSHConfig * Tailing.lifecycle);
  running : bool;
}.
Implicit Types (p : SecurityPipeline) (line : string).

Definition NewSecurityPipeline (cfg : PipelineConfig) (d : Netfilter.RouterThreatDetector) (disp : Dispatch.EventDispatcher)
    (parser : LogParsers.SingboxParser) (lb : Logs.LogBroadcaster) (st : Sessions.SessionTracker) : SecurityPipeline :=
  mkPipeline cfg (policy_of cfg) disp d parser lb st [] None false.
Definition Configure (cfg : PipelineConfig) p : SecurityPipeline :=
  mkPipeline cfg (policy_of cfg) (dispatcher p) (threatDetector p) (coreParser p) (broadcaster p) (tracker p) (tailers p) (routerWatcher p) (running p).
Definition with_dispatcher p (d : Dispatch.EventDispatcher) : SecurityPipeline :=
  mkPipeline (config p) (policy p) d (threatDetector p) (coreParser p) (broadcaster p) (tracker p) (tailers p) (routerWatcher p) (running p).
Definition with_detector p (d : Netfilter.RouterThreatDetector) : SecurityPipeline :=
  mkPipeline (config p) (policy p) (dispatcher p) d (coreParser p) (broadcaster p) (tracker p) (tailers p) (routerWatcher p) (running p).
Definition with_core p (parser : LogParsers.SingboxParser) (lb : Logs.LogBroadcaster) (st : Sessions.SessionTracker) : SecurityPipeline :=
  mkPipeline (config p) (policy p) (dispatcher p) (threatDetector p) parser lb st (tailers p) (routerWatcher p) (running p).

(** What is read from outside while a line is handled: the clock, and the connections
    that the kernel tracks. *)
Record moment := mkMoment { now : Z; now_str : string; connections : string }.
Implicit Types (m : moment).
Definition event_id (kind : string) m : string := kind ^^ "-" ^^ Itoa (now m).
Definition emit m p (ev : Dispatch.SecurityEvent) : option SecurityPipeline :=
  d ← Dispatch.Emit (now m) ev (dispatcher p); Some (with_dispatcher p d).

(** *** The host's firewall *)

(** The client behind a connection of the VPN container: its name and, if it was found
    through the kernel's table, its address. *)
Definition attribution m (cfg : PipelineConfig) (st : Sessions.SessionTracker) (ev : Netfilter.IptablesEvent) : string * string :=
  if (Netfilter.VMID ev =? VPNVMID cfg) || Netfilter.containsInt (VPNVMIDs cfg) (Netfilter.VMID ev) then
    let clientEmail := Sessions.FindClientByIP (Netfilter.Src ev) st in
    if clientEmail =s "" then
      let realClientIP := Netfilter.FindRealVPNClientIP (connections m) (Netfilter.Proto ev) (Netfilter.Src ev) (Netfilter.Dst ev)
        (Netfilter.SPT ev) (Netfilter.DPT ev) "" in
      if realClientIP =s "" then (""%string, ""%string) else (Sessions.FindClientByIP realClientIP st, realClientIP)
    else (clientEmail, ""%string)
  else (""%string, ""%string).
Definition firewall_event m (cfg : PipelineConfig) (policy : Netfilter.ClassifierPolicy) (st : Sessions.SessionTracker) line : option Dispatch.SecurityEvent :=
  if (line =s "") || negb (Contains line "PROTO=") then None
  else
    ev ← Netfilter.ParseIptablesLine line (VPNVMID cfg);
    let res := Netfilter.ClassifyConnection ev policy (Language cfg) in
    if Netfilter.RiskLevel res =s Netfilter.LevelInfo then None
    else
      let '(clientEmail, realClientIP) := attribution m cfg st ev in
      Some (Dispatch.mkEvent (event_id "prox" m) "THREAT_DETECTED" "proxmox_iptables" (Some (now m)) (Netfilter.RiskLevel res)
        (Netfilter.Src ev) (Netfilter.SPT ev) (Netfilter.Dst ev) (Netfilter.DPT ev) (Netfilter.Proto ev) (Netfilter.VMID ev) (Netfilter.Direction ev)
        (Netfilter.Description res) (Netfilter.Label res) false clientEmail realClientIP "" 0 line).
Definition ProcessProxmoxIptablesLine m line p : option (SecurityPipeline * option Dispatch.SecurityEvent) :=
  match firewall_event m (config p) (policy p) (tracker p) line with
  | Some ev => p ← emit m p ev; Some (p, Some ev)
  | None => Some (p, None)
  end.

(** *** The router *)

Definition router_alert m (kind source line : string) (ev : Netfilter.RouterEvent) : option Dispatch.SecurityEvent :=
  if negb (Netfilter.IsThreat ev) then None
  else
    let ban := Netfilter.ShouldAutoBan ev in
    Some (Dispatch.mkEvent (event_id kind m) (if ban then "ROUTER_AUTOBLOCK" else "THREAT_DETECTED") source (Some (now m)) (if ban then "CRITICAL" else "WARNING")
      (Netfilter.SrcIP ev) (Netfilter.SrcPort ev) (Netfilter.DstHost ev) (Netfilter.DstPort ev) (Netfilter.e_Proto ev) 0 ""
      (Netfilter.Reason ev) (Netfilter.ThreatType ev) ban "" "" "" 0 line).
(** Both kinds of lines: the mark, the parser and detector, and the names in the event. *)
Definition process_router (mark kind source : string)
    (parse : Z -> Netfilter.RouterThreatDetector -> string -> Netfilter.RouterThreatDetector * option Netfilter.RouterEvent)
    m line p : option (SecurityPipeline * option Dispatch.SecurityEvent) :=
  if negb (Contains line mark) then Some (p, None)
  else
    let '(d, routerEv) := parse (now m) (threatDetector p) line in
    let p := with_detector p d in
    match routerEv with
    | Some ev =>
        match router_alert m kind source line ev with
        | Some secEvent => p ← emit m p secEvent; Some (p, Some secEvent)
        | None => Some (p, None)
        end
    | None => Some (p, None)
    end.
Definition ProcessRouterConntrackLine : moment -> string -> SecurityPipeline -> option (SecurityPipeline * option Dispatch.SecurityEvent) :=
  process_router "[NEW]" "rct" "router_conntrack" Netfilter.ParseRouterConntrackLine.
Definition ProcessRouterIptablesLine : moment -> string -> SecurityPipeline -> option (SecurityPipeline * option Dispatch.SecurityEvent) :=
  process_router "ROUTER-IPS:" "ript" "router_syslog" Netfilter.ParseRouterIptablesLine.

(** *** Logins *)

Definition is_failure (authEv : SshMonitor.SSHEvent) : bool :=
  (SshMonitor.Type_ authEv =s SshMonitor.EventSSHFailedAuth) || (SshMonitor.Type_ authEv =s SshMonitor.EventPVEWebFail).
Definition auth_event m line (authEv : SshMonitor.SSHEvent) : Dispatch.SecurityEvent :=
  Dispatch.mkEvent (event_id "auth" m) "AUTH_EVENT" "auth_ssh" (Some (now m)) (if is_failure authEv then "WARNING" else "INFO")
    (SshMonitor.SourceIP authEv) (SshMonitor.Port authEv) "" 22 "TCP" 0 ""
    ("SSH " ^^ SshMonitor.Type_ authEv ^^ " for user " ^^ SshMonitor.User authEv ^^ " from " ^^ SshMonitor.SourceIP authEv)
    (SshMonitor.Type_ authEv) false "" "" "" 0 line.
Definition ProcessAuthLogLine m line p : option (SecurityPipeline * option Dispatch.SecurityEvent) :=
  match SshMonitor.ParseAuthLine (now m) line with
  | Some authEv =>
      let secEvent := auth_event m line authEv in
      if is_failure authEv then p ← emit m p secEvent; Some (p, Some secEvent) else Some (p, Some secEvent)
  | None => Some (p, None)
  end.

(** *** The cores *)

Definition core_event m (coreName line : string) (event : Auditors.ParsedLogEvent) : option Dispatch.SecurityEvent :=
  let kind := Auditors.EventType event in
  if (kind =s "SSRF_PROBE") || (kind =s "AUTH_FAIL") then
    Some (Dispatch.mkEvent (event_id "core" m) "THREAT_DETECTED" "proxy_core" (Some (now m)) "CRITICAL" (Auditors.ClientIP event) 0
      (Auditors.TargetHost event) (Auditors.TargetPort event) "" 0 ""
      ("[" ^^ coreName ^^ "] " ^^ kind ^^ " probe to " ^^ Auditors.TargetHost event ^^ ":" ^^ Itoa (Auditors.TargetPort event))
      kind false (Auditors.ClientRawID event) "" "" 0 line)
  else None.
(** [PushLine] of the log streams with its last call. *)
Definition push_and_track m (coreName line : string) (lb : Logs.LogBroadcaster) (st : Sessions.SessionTracker) : option (Logs.LogBroadcaster * Sessions.SessionTracker) :=
  lb ← Logs.PushLine lb coreName line;
  let clean := TrimRight line Logs.crlf in
  Some (lb, if clean =s "" then st else Lines.ProcessLogLine loc json (Logs.normalizeCoreName coreName) clean (now m) (now_str m) st).
Definition ProcessProxyCoreLine m (coreName line : string) p : option (SecurityPipeline * option Dispatch.SecurityEvent) :=
  if line =s "" then Some (p, None)
  else
    '(lb, st) ← push_and_track m coreName line (broadcaster p) (tracker p);
    let '(parser, event) := LogParsers.ParseCoreLogLine (coreParser p) coreName line in
    let p := with_core p parser lb st in
    match event with
    | Some event =>
        match core_event m coreName line event with
        | Some secEvent => p ← emit m p secEvent; Some (p, Some secEvent)
        | None => Some (p, None)
        end
    | None => Some (p, None)
    end.

(** *** Starting and stopping *)

Definition started_tailer (o : origin) (path : string) : list (origin * string * Tailing.lifecycle) :=
  if path =s "" then [] else [(o, path, Tailing.Start Tailing.asleep)].
Definition Start p : SecurityPipeline :=
  if running p then p
  else
    let cfg := config p in
    mkPipeline cfg (policy p) (dispatcher p) (threatDetector p) (coreParser p) (broadcaster p) (tracker p)
      (tailers p ++ started_tailer ProxmoxLog (ProxmoxLogPath cfg) ++ started_tailer AuthLog (AuthLogPath cfg))
      (match RouterConfig cfg with
       | Some r => if Tailing.Host r =s "" then routerWatcher p else Some (Tailing.NewRouterSSHWatcher r, Tailing.Start Tailing.asleep)
       | None => routerWatcher p
       end) true.
Definition Stop p : SecurityPipeline :=
  mkPipeline (config p) (policy p) (dispatcher p) (threatDetector p) (coreParser p) (broadcaster p) (tracker p)
    (map (fun t => (t.1, Tailing.Stop t.2)) (tailers p)) (option_map (fun w => (w.1, Tailing.Stop w.2)) (routerWatcher p)) false.
(** The callbacks of the tailers. *)
Definition deliver m (o : origin) line p : option (SecurityPipeline * option Dispatch.SecurityEvent) :=
  match o with
  | ProxmoxLog => ProcessProxmoxIptablesLine m line p
  | AuthLog => ProcessAuthLogLine m line p
  | RouterStream =>
      if Contains line "[NEW]" then ProcessRouterConntrackLine m line p
      else if Contains line "ROUTER-IPS:" then ProcessRouterIptablesLine m line p
      else Some (p, None)
  end.

(** ** What the pipeline reports *)

Inductive input := Followed (o : origin) (line : string) | CoreLine (coreName line : string) | Reconfigured (cfg : PipelineConfig).
Definition handle m (i : input) p : option (SecurityPipeline * option Dispatch.SecurityEvent) :=
  match i with
  | Followed o line => deliver m o line p
  | CoreLine coreName line => ProcessProxyCoreLine m coreName line p
  | Reconfigured cfg => Some (Configure cfg p, None)
  end.
Fixpoint run (tr : list (moment * input)) p : option SecurityPipeline :=
  match tr with [] => Some p | (m, i) :: tr => '(p, _) ← handle m i p; run tr p end.

(** The reference keeps all events of the router ever seen and all reports ever made: no
    detector, no bounded history, no queues. *)
Record reference := mkReference {
  r_config : PipelineConfig;
  r_parser : LogParsers.SingboxParser;
  r_tracker : Sessions.SessionTracker;
  r_log : list (Z * Netfilter.RouterEvent);
}.
Definition parsed (mark : string) (srcX dstX protoX sptX dptX : GoRegexp.Regexp) line : option Netfilter.RouterEvent :=
  if Contains line mark then
    match Netfilter.first_group srcX line, Netfilter.first_group dstX line, Netfilter.first_group protoX line,
          Netfilter.first_group sptX line, Netfilter.first_group dptX line with
    | Some src, Some dst, Some proto, Some spt, Some dpt => Some (Netfilter.router_event line src dst proto spt dpt)
    | _, _, _, _, _ => None
    end
  else None.
Definition conntrack_line : string -> option Netfilter.RouterEvent :=
  parsed "[NEW]" Netfilter.routerConntrackSrcRegex Netfilter.routerConntrackDstRegex Netfilter.routerConntrackProtoRegex
    Netfilter.routerConntrackSptRegex Netfilter.routerConntrackDptRegex.
Definition syslog_line : string -> option Netfilter.RouterEvent :=
  parsed "ROUTER-IPS:" Netfilter.routerIptablesSrcRegex Netfilter.routerIptablesDstRegex Netfilter.routerIptablesProtoRegex
    Netfilter.routerIptablesSptRegex Netfilter.routerIptablesDptRegex.
(** Judged over everything that the router has reported. *)
Definition judged_over (d : Netfilter.RouterThreatDetector) m (kind source line : string) (ev : option Netfilter.RouterEvent) (r : reference)
    : reference * option Dispatch.SecurityEvent :=
  match ev with
  | Some ev =>
      let log := r_log r ++ [(now m, ev)] in
      (mkReference (r_config r) (r_parser r) (r_tracker r) log, router_alert m kind source line (Netfilter.verdict (now m) d ev log))
  | None => (r, None)
  end.
Definition judge (d : Netfilter.RouterThreatDetector) m (i : input) (r : reference) : reference * option Dispatch.SecurityEvent :=
  match i with
  | Followed ProxmoxLog line => (r, firewall_event m (r_config r) (policy_of (r_config r)) (r_tracker r) line)
  | Followed AuthLog line =>
      (r, match SshMonitor.ParseAuthLine (now m) line with Some ev => if is_failure ev then Some (auth_event m line ev) else None | None => None end)
  | Followed RouterStream line =>
      if Contains line "[NEW]" then judged_over d m "rct" "router_conntrack" line (conntrack_line line) r
      else judged_over d m "ript" "router_syslog" line (syslog_line line) r
  | CoreLine coreName line =>
      if line =s "" then (r, None)
      else
        let clean := TrimRight line Logs.crlf in
        let '(parser, event) := LogParsers.ParseCoreLogLine (r_parser r) coreName line in
        let st := if clean =s "" then r_tracker r
                  else Lines.ProcessLogLine loc json (Logs.normalizeCoreName coreName) clean (now m) (now_str m) (r_tracker r) in
        (mkReference (r_config r) parser st (r_log r), event ← event; core_event m coreName line event)
  | Reconfigured cfg => (mkReference cfg (r_parser r) (r_tracker r) (r_log r), None)
  end.
Fixpoint reports (d : Netfilter.RouterThreatDetector) (tr : list (moment * input)) (r : reference) : list Dispatch.SecurityEvent :=
  match tr with [] => [] | (m, i) :: tr => let '(r, ev) := judge d m i r in option_list ev ++ reports d tr r end.
(** The clock does not go back. *)
Fixpoint in_time (t : Z) (tr : list (moment * input)) : Prop :=
  match tr with [] => True | (m, _) :: tr => t <= now m /\ in_time (now m) tr end.

Record refines (d : Netfilter.RouterThreatDetector) (t : Z) p (r : reference) (reported : list Dispatch.SecurityEvent) : Prop := {
  f_config : config p = r_config r;
  f_policy : policy p = policy_of (r_config r);
  f_parser : coreParser p = r_parser r;
  f_tracker : tracker p = r_tracker r;
  f_detector : threatDetector p = Netfilter.with_history d (Netfilter.history (threatDetector p));
  f_log : Netfilter.holds t (threatDetector p) (r_log r);
  f_streams : exists ltr, Logs.subs_ok (broadcaster p) /\ Logs.streams_ok (Logs.maxHistory (broadcaster p)) (broadcaster p) ltr /\ 0 <= Logs.maxHistory (broadcaster p);
  f_dispatcher : Dispatch.streams (dispatcher p) reported;
}.

(** Events that are complete when they are emitted. *)
Definition complete (ev : Dispatch.SecurityEvent) : Prop := is_Some (Dispatch.Timestamp ev) /\ Dispatch.EventType ev <> ""%string.
Lemma stamped_complete n ev : complete ev -> Dispatch.stamped n ev = ev.
Proof using Type. intros [[s Hs] Ht]. destruct ev. cbn in *. subst. unfold Dispatch.stamped. cbn. by destruct (String.eqb_spec EventType ""). Qed.
Lemma emit_refines m d t p r reported ev : refines d t p r reported -> complete ev ->
  exists p', emit m p ev = Some p' /\ refines d t p' r (reported ++ [ev]) /\ Dispatch.maxHistory (dispatcher p') = Dispatch.maxHistory (dispatcher p).
Proof using Type.
  intros [H1 H2 H3 H4 H5 H6 H7 H8] Hc. unfold emit. destruct (Dispatch.emit_streams (now m) ev (dispatcher p) reported H8) as (d' & -> & Hs & _ & Hm).
  cbn [mbind option_bind]. eexists. split; [done|]. split; [|done]. rewrite stamped_complete in Hs by done. by split.
Qed.
(** The same, when there may be nothing to report. *)
Definition report m p (ev : option Dispatch.SecurityEvent) : option SecurityPipeline :=
  match ev with Some ev => emit m p ev | None => Some p end.
Lemma report_refines m d t p r reported ev : refines d t p r reported -> (forall e, ev = Some e -> complete e) ->
  exists p', report m p ev = Some p' /\ refines d t p' r (reported ++ option_list ev) /\ Dispatch.maxHistory (dispatcher p') = Dispatch.maxHistory (dispatcher p).
Proof using Type.
  intros H Hc. destruct ev as [ev|]; cbn [report option_list]; [by apply emit_refines; [|apply Hc]|]. exists p. by rewrite app_nil_r.
Qed.

Lemma holds_later t t' d log : t <= t' -> Netfilter.holds t d log -> Netfilter.holds t' d log.
Proof using Type.
  intros Ht [Hw Ho]. split.
  - intros src c Hc. apply Hw. lia.
  - intros src recs E. destruct (Ho src recs E) as (x & ? & ? & ?). exists x. split_and!; [done|lia|done].
Qed.
Lemma refines_later d t t' p r reported : t <= t' -> refines d t p r reported -> refines d t' p r reported.
Proof using Type. intros Ht [? ? ? ? ? Hl ? ?]. split; try done. by eapply holds_later. Qed.

(** A line of the router, and the detector. *)
Lemma parse_router_parsed mark srcX dstX protoX sptX dptX n d line :
  Netfilter.parse_router mark srcX dstX protoX sptX dptX n d line =
  match parsed mark srcX dstX protoX sptX dptX line with
  | Some ev => let '(d, ev) := Netfilter.Evaluate n d ev in (d, Some ev)
  | None => (d, None)
  end.
Proof using Type.
  unfold Netfilter.parse_router, parsed. destruct (Contains line mark); [|done].
  destruct (Netfilter.first_group srcX line), (Netfilter.first_group dstX line), (Netfilter.first_group protoX line),
    (Netfilter.first_group sptX line), (Netfilter.first_group dptX line); done.
Qed.
Lemma verdict_with_history n d h ev log : Netfilter.verdict n (Netfilter.with_history d h) ev log = Netfilter.verdict n d ev log.
Proof using Type. done. Qed.
Lemma router_alert_complete m kind source line ev e : router_alert m kind source line ev = Some e -> complete e.
Proof using Type. unfold router_alert. destruct (negb _); [done|]. intros [= <-]. split; [by eexists|]. by destruct (Netfilter.ShouldAutoBan ev). Qed.

Definition follows_judge m (result : option (SecurityPipeline * option Dispatch.SecurityEvent)) (d : Netfilter.RouterThreatDetector) p
    (reported : list Dispatch.SecurityEvent) (judged : reference * option Dispatch.SecurityEvent) : Prop :=
  exists p' ev, result = Some (p', ev) /\ refines d (now m) p' judged.1 (reported ++ option_list judged.2) /\
    Dispatch.maxHistory (dispatcher p') = Dispatch.maxHistory (dispatcher p).
(** A handler that ends by reporting what the reference reports. *)
Lemma report_follows m d p p0 r reported ev : refines d (now m) p0 r reported -> (forall e, ev = Some e -> complete e) ->
  Dispatch.maxHistory (dispatcher p0) = Dispatch.maxHistory (dispatcher p) ->
  follows_judge m (match ev with Some e => p1 ← emit m p0 e; Some (p1, Some e) | None => Some (p0, None) end) d p reported (r, ev).
Proof using Type.
  intros H Hc Hm. destruct (report_refines m d (now m) p0 r reported ev H Hc) as (p1 & E & H1 & Hm1). unfold follows_judge. cbn [fst snd].
  destruct ev as [e|]; cbn [report] in E.
  - rewrite E. cbn [mbind option_bind]. exists p1, (Some e). by rewrite Hm1.
  - injection E as ->. by exists p1, None.
Qed.
Lemma router_refines mark kind source srcX dstX protoX sptX dptX m line d t p r reported :
  0 < Netfilter.window d <= maxInt64 -> t <= now m -> refines d t p r reported ->
  follows_judge m (process_router mark kind source (Netfilter.parse_router mark srcX dstX protoX sptX dptX) m line p) d p reported
    (judged_over d m kind source line (parsed mark srcX dstX protoX sptX dptX line) r).
Proof using Type.
  intros Hw Ht H. unfold process_router, judged_over. pose proof (parse_router_parsed mark srcX dstX protoX sptX dptX (now m) (threatDetector p) line) as E.
  pose proof H as [H1 H2 H3 H4 H5 H6 H7 H8]. destruct (Contains line mark) eqn:Ec; cbn [negb].
  2: { replace (parsed mark srcX dstX protoX sptX dptX line) with (@None Netfilter.RouterEvent) by (unfold parsed; by rewrite Ec).
       apply (report_follows m d p p r reported None); [by eapply refines_later|done|done]. }
  rewrite E. destruct (parsed mark srcX dstX protoX sptX dptX line) as [ev|].
  - assert (Hw' : 0 < Netfilter.window (threatDetector p) <= maxInt64) by (rewrite H5; done).
    destruct (Netfilter.Evaluate_holds t (now m) (threatDetector p) ev (r_log r) Hw' Ht H6) as (Hh & Hv & Hd).
    destruct (Netfilter.Evaluate (now m) (threatDetector p) ev) as [d' ev']. cbn [fst snd] in *. rewrite Hv, H5, verdict_with_history.
    apply report_follows; [|intros e; apply router_alert_complete|done]. split; try done. rewrite H5 in Hd. exact Hd.
  - apply (report_follows m d p (with_detector p (threatDetector p)) r reported None); [|done|done]. split; cbn; try done. by eapply holds_later.
Qed.

Lemma firewall_complete m cfg pol st line e : firewall_event m cfg pol st line = Some e -> complete e.
Proof using Type.
  unfold firewall_event. destruct (_ || _); [done|]. destruct (Netfilter.ParseIptablesLine _ _) as [ev|]; [|done]. cbn [mbind option_bind].
  destruct (_ =s _); [done|]. destruct (attribution m cfg st ev) as [email ip]. intros [= <-]. split; [by eexists|done].
Qed.
Lemma core_complete m coreName line ev e : core_event m coreName line ev = Some e -> complete e.
Proof using Type. unfold core_event. destruct (_ || _); [|done]. intros [= <-]. split; [by eexists|done]. Qed.
Lemma handle_refines m i d t p r reported : 0 < Netfilter.window d <= maxInt64 -> t <= now m -> refines d t p r reported ->
  follows_judge m (handle m i p) d p reported (judge d m i r).
Proof using Type.
  intros Hw Ht H. pose proof (refines_later d t (now m) p r reported Ht H) as Hl. destruct i as [[]|coreName line|cfg]; cbn [handle deliver judge].
  - unfold ProcessProxmoxIptablesLine. destruct H as [-> -> _ -> _ _ _ _]. apply report_follows; [done|intros e; apply firewall_complete|done].
  - unfold ProcessAuthLogLine. destruct (SshMonitor.ParseAuthLine (now m) line) as [ev|]; [|by apply (report_follows m d p p r reported None)].
    assert (Hc : complete (auth_event m line ev)) by (split; [by eexists|done]). destruct (is_failure ev).
    + apply (report_follows m d p p r reported (Some (auth_event m line ev))); [done|by intros e [= <-]|done].
    + exists p, (Some (auth_event m line ev)). cbn. by rewrite app_nil_r.
  - destruct (Contains line "[NEW]") eqn:En; [by eapply router_refines|]. unfold ProcessRouterIptablesLine, syslog_line.
    destruct (Contains line "ROUTER-IPS:") eqn:Er; [by eapply router_refines|].
    replace (parsed "ROUTER-IPS:" _ _ _ _ _ line) with (@None Netfilter.RouterEvent) by (unfold parsed; by rewrite Er).
    by apply (report_follows m d p p r reported None).
  - unfold ProcessProxyCoreLine. destruct (line =s ""); [by apply (report_follows m d p p r reported None)|]. unfold push_and_track.
    destruct Hl as [H1 H2 H3 H4 H5 H6 (ltr & Hso & Hst & Hm) H8].
    destruct (Logs.push_ok _ (broadcaster p) ltr coreName line Hso Hst Hm) as (lb & -> & Hso' & Hst'). cbn [mbind option_bind].
    rewrite H3, H4. destruct (LogParsers.ParseCoreLogLine (r_parser r) coreName line) as [parser event].
    set (st := if TrimRight line Logs.crlf =s "" then r_tracker r else _). cbn zeta.
    assert (Hr : refines d (now m) (with_core p parser lb st) (mkReference (r_config r) parser st (r_log r)) reported).
    { split; try done. exists (ltr ++ [Logs.OpPush coreName line]). cbn. by rewrite (Logs.st_max _ _ _ Hst'). }
    destruct event as [event|]; cbn [mbind option_bind].
    + apply report_follows; [done|intros e; apply core_complete|done].
    + by apply (report_follows m d p _ _ reported None).
  - apply (report_follows m d p (Configure cfg p) _ reported None); [|done|done]. by destruct Hl as [H1 H2 H3 H4 H5 H6 H7 H8].
Qed.
Lemma run_refines tr d t p r reported : 0 < Netfilter.window d <= maxInt64 -> in_time t tr -> refines d t p r reported ->
  exists p', run tr p = Some p' /\ Dispatch.streams (dispatcher p') (reported ++ reports d tr r) /\ Dispatch.maxHistory (dispatcher p') = Dispatch.maxHistory (dispatcher p).
Proof using Type.
  intros Hw. revert t p r reported. induction tr as [|[m i] tr IH]; intros t p r reported Hin H; cbn [run reports].
  - exists p. split; [done|]. rewrite app_nil_r. split; [|done]. by destruct H.
  - destruct Hin as [Ht Hin]. destruct (handle_refines m i d t p r reported Hw Ht H) as (p1 & ev & E & H1 & Hm1). rewrite E. cbn [mbind option_bind].
    destruct (judge d m i r) as [r1 ev1]. cbn [fst snd] in H1. destruct (IH (now m) p1 r1 _ Hin H1) as (p' & E' & Hs & Hm').
    exists p'. split; [done|]. rewrite app_assoc. split; [done|]. by rewrite Hm'.
Qed.

(** C10. The pipeline as a whole: whatever lines of the firewall, the router, the
    authentication log and the cores arrive, in whichever order and with changes of the
    configuration in between, nothing panics, and the history that it gives out is the last
    events - and the queue for polling an end - of what a reference reports that judges each
    line of the router over everything the router has ever said and forgets nothing. *)
Theorem pipeline_refines_reference cfg d max lmax parser st t tr limit :
  Netfilter.history d = ∅ -> 0 < Netfilter.window d <= maxInt64 -> in_time t tr ->
  let p0 := NewSecurityPipeline cfg d (Dispatch.NewEventDispatcher max) parser (Logs.NewLogBroadcaster lmax) st in
  let all := reports d tr (mkReference cfg parser st []) in
  exists p, run tr p0 = Some p /\
    Dispatch.GetHistory limit (dispatcher p) =
      keep_last (let room := if max <=? 0 then 500 else max in if limit <=? 0 then room else Z.min limit room) all /\
    Dispatch.popQueue (dispatcher p) `suffix_of` all /\ len (Dispatch.popQueue (dispatcher p)) <= Dispatch.pop_room.
Proof using Type.
  intros Hd Hw Hin p0 all. destruct (run_refines tr d t p0 (mkReference cfg parser st []) [] Hw Hin) as (p & E & Hs & Hm).
  - split; try done; [by destruct d| | |apply Dispatch.new_streams].
    + split; cbn; rewrite Hd; [done|apply map_Forall_empty].
    + exists []. by destruct (Logs.new_ok lmax) as (? & ? & ?).
  - exists p. split; [done|]. rewrite (Dispatch.history_exact limit (dispatcher p) all Hs), Hm. split; [done|]. by destruct Hs.
Qed.

End pipeline.

(** ** Examples *)

Definition no_json : string -> option (gmap string string) := fun _ => None.
Definition sample_moment (n : Z) : moment := mkMoment n "" "".
Definition telnet_line : string := "[NEW] tcp 6 120 SYN_SENT src=10.0.0.5 dst=203.0.113.7 sport=40000 dport=23 [UNREPLIED]".
Definition failed_line : string := "sshd[7]: Failed password for root from 203.0.113.5 port 40000 ssh2".
Definition web_failure_line : string := "pvedaemon[9]: authentication failure; rhost=203.0.113.9 user=root@pam msg=bad password".
Definition sample_inputs : list (moment * input) :=
  [(sample_moment 1, Followed RouterStream telnet_line); (sample_moment 2, Followed AuthLog failed_line);
   (sample_moment 3, Reconfigured DefaultPipelineConfig); (sample_moment 4, Followed RouterStream telnet_line);
   (sample_moment 5, CoreLine "xray" "started"); (sample_moment 6, Followed RouterStream telnet_line)].
Definition quiet : PipelineConfig := mkConfig 100 [100] [] "" [] [] [] "en" false "" "" None.
Definition router_detector : Netfilter.RouterThreatDetector := Netfilter.GetDefaultRouterThreatDetector (fun _ => ""%string).
Definition sample_pipeline : SecurityPipeline :=
  NewSecurityPipeline quiet router_detector (Dispatch.NewEventDispatcher 2) LogParsers.NewSingboxParser (Logs.NewLogBroadcaster 0) Sessions.newTracker.
Definition kinds (evs : list Dispatch.SecurityEvent) : list (string * string * bool) :=
  map (fun ev => (Dispatch.EventType ev, Dispatch.SrcIP ev, Dispatch.ShouldAutoBan ev)) evs.

Theorem pipeline_refines_reference_witness : exists p, run Sessions.LocaleEN no_json sample_inputs sample_pipeline = Some p /\
  kinds (Dispatch.GetHistory 0 (dispatcher p)) = [("THREAT_DETECTED", "10.0.0.5", false); ("ROUTER_AUTOBLOCK", "10.0.0.5", true)]%string.
Proof.
  destruct (pipeline_refines_reference Sessions.LocaleEN no_json quiet router_detector 2 0 LogParsers.NewSingboxParser Sessions.newTracker 0 sample_inputs 0)
    as (p & E & H & _); [done|by vm_compute|by vm_compute|].
  exists p. split; [exact E|]. rewrite H. by vm_compute.
Defined.

(** Blocks are asked for whether or not the configuration wants scanners to be banned. *)
Example autoban_ignored : AutoBanScanners quiet = false /\
  kinds (reports Sessions.LocaleEN no_json router_detector [(sample_moment 1, Followed RouterStream telnet_line); (sample_moment 2, Followed RouterStream telnet_line);
    (sample_moment 3, Followed RouterStream telnet_line)] (mkReference quiet LogParsers.NewSingboxParser Sessions.newTracker [])) =
  [("THREAT_DETECTED", "10.0.0.5", false); ("THREAT_DETECTED", "10.0.0.5", false); ("ROUTER_AUTOBLOCK", "10.0.0.5", true)]%string.
Proof. by vm_compute. Qed.
(** A failed login of the web interface is reported as one over ssh. *)
Example web_failure_is_ssh : exists p ev, ProcessAuthLogLine (sample_moment 1) web_failure_line sample_pipeline = Some (p, Some ev) /\
  Dispatch.DstPort ev = 22 /\ Dispatch.Reason ev = "SSH PVE_WEB_FAIL for user root@pam from 203.0.113.9"%string.
Proof. eexists _, _. split; [vm_compute; reflexivity|by vm_compute]. Qed.
(** Without the number of the container, what the host itself does is attributed to the
    client of the VPN that has the address. *)
Definition online : Sessions.SessionTracker := Sessions.registerConnect Sessions.LocaleEN "xray" "alice" "203.0.113.5" 0 "" Sessions.newTracker.
Example host_attributed_to_client :
  option_map Dispatch.ClientEmail (firewall_event (sample_moment 1) (mkConfig 0 [] [] "" [] [] [] "en" false "" "" None)
    (policy_of (mkConfig 0 [] [] "" [] [] [] "en" false "" "" None)) online
    "HOST_CONN: IN=vmbr0 OUT= SRC=203.0.113.5 DST=198.51.100.7 PROTO=TCP SPT=40000 DPT=22") = Some "alice"%string.
Proof. by vm_compute. Qed.
(** Starting again with other files while the pipeline runs succeeds, but the files are not
    followed. *)
Example second_start_ignored : let cfg path := mkConfig 100 [100] [] "" [] [] [] "en" false path "" None in
  map (fun t => t.1.2) (tailers (Start (Configure (cfg "/var/log/kern.log") (Start (Configure (cfg "/var/log/syslog") sample_pipeline))))) = ["/var/log/syslog"%string].
Proof. reflexivity. Qed.

End Ingest.
