(* ===== verification/DbNode.v ===== *)
(** * Nodes from a database (src/pkg/adapter/db_node.go)

    A record of a database becomes a profile.  Its parameters are a map, a JSON text or a
    text that the vault has encrypted.  The reader of JSON is an argument, and so is the
    cipher ([Crypto]); of the error of a reader the message of the adapter is kept. *)
From S2P Require Import Prelude GoStrings GoBase64 Crypto Ast Profile XrayImport XrayOutbounds.
Open Scope Z_scope.

Module DB.

Record RawDBNode := mkNode {
  ID : string;
  Name : string;
  Protocol : string;
  Address : string;
  Port : value;
  Transport : string;
  Security : string;
  Parameters : value;   (* [VNil] where there are none *)
  Extra : jmap;
}.

(** ** Looking parameters up (mapParametersToProfile) *)

(** The value of a parameter under the first of its names that [read] accepts. *)
Fixpoint first_read {A} (read : value -> option A) (keys : list string) (m : jmap) (none : A) : A :=
  match keys with
  | [] => none
  | k :: keys => match v ← jget m k; read v with Some a => a | None => first_read read keys m none end
  end.
Definition read_string (v : value) : option string := match v with VString s => if s =s "" then None else Some s | _ => None end.
Definition read_bool (v : value) : option bool :=
  match v with VBool b => Some b | VString s => Some ((s =s "true") || (s =s "1")) | _ => None end.
Definition read_int (v : value) : option Z :=
  match v with VInt i => Some i | VFloat f => Some (int_of_float f) | VString s => Atoi s | _ => None end.
Definition read_strings (v : value) : option (list string) :=
  match v with
  | VList l => Some (omap (fun item => match item with VString s => Some s | _ => None end) l)
  | VString s => if s =s "" then None else Some (SplitByte s ",")
  | _ => None
  end.
Definition getString (keys : list string) (m : jmap) : string := first_read read_string keys m ""%string.
Definition getBool (keys : list string) (m : jmap) : bool := first_read read_bool keys m false.
Definition getInt (keys : list string) (m : jmap) : Z := first_read read_int keys m 0.
Definition getStringSlice (keys : list string) (m : jmap) : list string := first_read read_strings keys m [].

(** [if v := getString(keys...); v != "" { p.F = v }], and the same for lists. *)
Definition set_text (m : jmap) (set : string -> ServerProfile -> ServerProfile) (keys : list string) (p : ServerProfile) : ServerProfile :=
  let v := getString keys m in if v =s "" then p else set v p.
Definition set_list (m : jmap) (set : list string -> ServerProfile -> ServerProfile) (keys : list string) (p : ServerProfile) : ServerProfile :=
  let v := getStringSlice keys m in if len v =? 0 then p else set v p.
Definition mapParametersToProfile (p : ServerProfile) (m : jmap) : ServerProfile :=
  p |> set_text m set_UUID ["uuid"; "UUID"]%string
    |> set_text m set_Password ["password"; "pass"; "pwd"; "auth"]%string
    |> set_text m set_Username ["username"; "user"]%string
    |> set_text m set_SNI ["sni"; "server_name"; "serverName"; "host"]%string
    |> set_text m set_Fingerprint ["fingerprint"; "fp"]%string
    |> set_text m set_PublicKey ["public_key"; "publicKey"; "pbk"]%string
    |> set_text m set_ShortID ["short_id"; "shortId"; "sid"]%string
    |> set_text m set_SpiderX ["spider_x"; "spiderX"; "spx"]%string
    |> set_list m set_ALPN ["alpn"; "ALPN"]%string
    |> set_Insecure (getBool ["insecure"; "allowInsecure"; "allow_insecure"]%string m)
    |> set_PostQuantum (getBool ["post_quantum"; "postQuantum"; "pq"; "kyber"]%string m)
    |> set_text m set_Flow ["flow"; "Flow"]%string
    |> set_Mux (getBool ["mux"; "multiplex"]%string m)
    |> set_text m set_Path ["path"; "Path"]%string
    |> set_text m set_ServiceName ["service_name"; "serviceName"; "grpc_service"]%string
    |> set_text m set_Cipher ["cipher"; "method"]%string
    |> set_ShadowTLSVersion (getInt ["shadow_tls_version"; "shadowTlsVersion"]%string m)
    |> set_text m set_ShadowTLSPassword ["shadow_tls_password"; "shadowTlsPassword"]%string
    |> set_text m set_ShadowTLSSNI ["shadow_tls_sni"; "shadowTlsSni"]%string
    |> set_text m set_BandwidthUp ["bandwidth_up"; "bandwidthUp"; "up_mbps"]%string
    |> set_text m set_BandwidthDown ["bandwidth_down"; "bandwidthDown"; "down_mbps"]%string
    |> set_text m set_ObfsType ["obfs_type"; "obfsType"]%string
    |> set_text m set_ObfsPassword ["obfs_password"; "obfsPassword"; "obfs"]%string
    |> set_text m set_PortHopping ["port_hopping"; "portHopping"; "mport"; "ports"]%string
    |> set_text m set_CongestionControl ["congestion_control"; "congestionControl"]%string
    |> set_text m set_UDPRelayMode ["udp_relay_mode"; "udpRelayMode"]%string
    |> set_ZeroRTTHandshake (getBool ["zero_rtt_handshake"; "zeroRttHandshake"]%string m)
    |> set_text m set_PrivateKey ["private_key"; "privateKey"]%string
    |> set_text m set_PeerPublicKey ["peer_public_key"; "peerPublicKey"]%string
    |> set_text m set_PreSharedKey ["preshared_key"; "preSharedKey"]%string
    |> set_MTU (getInt ["mtu"; "MTU"]%string m)
    |> set_list m set_LocalAddress ["local_address"; "localAddress"; "ip"]%string.

(** ** A record becomes a profile *)

Definition parse_port (port : value) : string + Z :=
  match port with
  | VInt p => inr p
  | VFloat p => inr (int_of_float p)
  | VString p => match Atoi (TrimSpace p) with Some n => inr n | None => inl ("invalid port string '" ^^ p ^^ "'") end
  | _ => inl "missing or invalid port format"%string
  end.
Section ingest.
Context `{AEAD} (unmarshal : string -> option jmap).

(** The parameters, if there are any. *)
Definition resolve_parameters (name : string) (vault : option Vault) (parameters : value) : string + option jmap :=
  match parameters with
  | VString s =>
      let paramStr := TrimSpace s in
      if IsEncrypted paramStr then
        match vault with
        | None => inl ("node '" ^^ name ^^ "' has encrypted parameters, but no crypto vault / master secret was provided")
        | Some v =>
            match DecryptMap unmarshal v paramStr with
            | inl e => inl ("failed to decrypt parameters for node '" ^^ name ^^ "': " ^^ e)
            | inr m => inr (Some m)
            end
        end
      else if HasPrefix paramStr "{" then
        match unmarshal paramStr with
        | None => inl ("failed to parse JSON parameters for node '" ^^ name ^^ "'")
        | Some m => inr (Some m)
        end
      else inr None
  | VMap m => inr (Some m)
  | _ => inr None
  end.
Definition new_profile (raw : RawDBNode) : ServerProfile :=
  blank_profile |> set_ID (ID raw) |> set_Name (Name raw) |> set_Protocol (ToLower (TrimSpace (Protocol raw)))
    |> set_Address (TrimSpace (Address raw)) |> set_Transport (ToLower (TrimSpace (Transport raw)))
    |> set_Security (ToLower (TrimSpace (Security raw))).
Definition IngestDBNode (raw : option RawDBNode) (vault : option Vault) : string + ServerProfile :=
  match raw with
  | None => inl "raw DB node cannot be nil"%string
  | Some raw =>
      match parse_port (Port raw) with
      | inl e => inl e
      | inr port =>
          let profile := set_Port port (new_profile raw) in
          match resolve_parameters (Name raw) vault (Parameters raw) with
          | inl e => inl e
          | inr paramsMap =>
              let profile := match paramsMap with Some m => mapParametersToProfile profile m | None => profile end in
              let profile := Normalize profile in
              match Validate profile with Some e => inl e | None => inr profile end
          end
      end
  end.
Definition IngestFromJSON (read_node : string -> option RawDBNode) (jsonStr : string) (vault : option Vault) : string + ServerProfile :=
  match read_node jsonStr with
  | None => inl "failed to parse RawDBNode JSON"%string
  | Some raw => IngestDBNode (Some raw) vault
  end.
End ingest.

(** ** The forms in which parameters are stored *)

(** What a value is after it has been written as JSON and read back without a loss: whole
    numbers have become floating ones.  A number above 2^53 that a [float64] does not have,
    or a text that is not UTF-8, is changed by JSON, so a map that holds one does not
    survive in the sense below. *)
Fixpoint json_of (v : value) : value :=
  match v with
  | VInt z => VFloat (QArith_base.inject_Z z)
  | VList l => VList (map json_of l)
  | VMap m => VMap (map (fun kv => (kv.1, json_of kv.2)) m)
  | _ => v
  end.
(** A map that comes back from JSON, whatever the order of its entries. *)
Definition survives (unmarshal : string -> option jmap) (m : jmap) (text : string) : Prop :=
  exists m', unmarshal text = Some m' /\ forall k, jget m' k = option_map json_of (jget m k).
Definition in_range (m : jmap) : Prop := Forall (fun kv => match kv.2 with VInt z => minInt64 <= z <= maxInt64 | _ => True end) m.

Lemma jget_elem m k v : jget m k = Some v -> (k, v) ∈ m.
Proof.
  unfold jget. destruct (List.find _ m) as [[j w]|] eqn:E; [|done]. cbn. intros [= ->]. apply find_some in E as [Hin Hk]. cbn in Hk.
  apply String.eqb_eq in Hk as ->. by apply list_elem_of_In.
Qed.
Lemma first_read_json {A} (read : value -> option A) keys m m' none :
  (forall k v, jget m k = Some v -> read (json_of v) = read v) -> (forall k, jget m' k = option_map json_of (jget m k)) ->
  first_read read keys m' none = first_read read keys m none.
Proof.
  intros Hr Hm. induction keys as [|k keys IH]; [done|]. cbn [first_read]. rewrite Hm, IH. destruct (jget m k) as [v|] eqn:E; [|done].
  cbn [option_map mbind option_bind]. by rewrite (Hr k v E).
Qed.
Lemma read_string_json v : read_string (json_of v) = read_string v.
Proof. by destruct v. Qed.
Lemma read_bool_json v : read_bool (json_of v) = read_bool v.
Proof. by destruct v. Qed.
Lemma read_strings_json v : read_strings (json_of v) = read_strings v.
Proof.
  destruct v as [| | | | |l|]; try done. cbn [json_of read_strings]. f_equal. induction l as [|[] l IH]; cbn; try done. by rewrite IH.
Qed.
Lemma read_int_json m k v : in_range m -> jget m k = Some v -> read_int (json_of v) = read_int v.
Proof.
  intros Hr Hv%jget_elem. destruct v; try done. cbn. f_equal. apply int_of_float_inject.
  pose proof (proj1 (Forall_forall _ _) Hr (k, VInt z) Hv) as Hz. done.
Qed.
Lemma mapParameters_json p m m' : in_range m -> (forall k, jget m' k = option_map json_of (jget m k)) ->
  mapParametersToProfile p m' = mapParametersToProfile p m.
Proof.
  intros Hr Hm.
  assert (Hs : forall keys, getString keys m' = getString keys m) by (intros; apply first_read_json; [intros; apply read_string_json|done]).
  assert (Hb : forall keys, getBool keys m' = getBool keys m) by (intros; apply first_read_json; [intros; apply read_bool_json|done]).
  assert (Hi : forall keys, getInt keys m' = getInt keys m) by (intros; apply first_read_json; [intros; by eapply read_int_json|done]).
  assert (Hl : forall keys, getStringSlice keys m' = getStringSlice keys m) by (intros; apply first_read_json; [intros; apply read_strings_json|done]).
  assert (Ht : forall set keys q, set_text m' set keys q = set_text m set keys q) by (intros; unfold set_text; by rewrite Hs).
  assert (Hg : forall set keys q, set_list m' set keys q = set_list m set keys q) by (intros; unfold set_list; by rewrite Hl).
  unfold mapParametersToProfile. by rewrite !Ht, !Hg, !Hb, !Hi.
Qed.

Definition with_parameters (raw : RawDBNode) (v : value) : RawDBNode :=
  mkNode (ID raw) (Name raw) (Protocol raw) (Address raw) (Port raw) (Transport raw) (Security raw) v (Extra raw).
Section forms.
Context `{AEADLaws} (marshal : jmap -> option string) (unmarshal : string -> option jmap).

Lemma encrypted_trim nonce text key s : EncryptAEAD nonce text key = inr s -> TrimSpace s = s.
Proof using Type.
  unfold EncryptAEAD. destruct (is_key key); [|done]. destruct nonce as [nonce|]; [|done]. intros [= <-]. apply TrimSpace_absent.
  cbn [str_exists is_space]. apply encode_quanta_absent; [|done]. apply (below_64 (fun v => is_space (encode_char RawURLEncoding v) = false)).
  repeat (constructor; [by vm_compute|]). constructor.
Qed.

(** C24. A node gives the same profile, or the same error, whichever of the three forms its
    parameters are stored in - a map, the JSON text of the map, or the text that the vault
    makes of it - for every map of parameters that JSON can carry and every nonce of the
    vault: nothing is lost by encrypting the parameters. *)
Theorem stored_forms_agree raw m text v nonce :
  marshal m = Some text -> survives unmarshal m text -> HasPrefix text "{" = true -> TrimSpace text = text -> in_range m ->
  is_key (vault_key v) = true -> String.length nonce = nonce_size ->
  exists secret, EncryptMap marshal v (Some nonce) m = inr secret /\
    forall vault,
      IngestDBNode unmarshal (Some (with_parameters raw (VString text))) vault = IngestDBNode unmarshal (Some (with_parameters raw (VMap m))) vault /\
      IngestDBNode unmarshal (Some (with_parameters raw (VString secret))) (Some v) = IngestDBNode unmarshal (Some (with_parameters raw (VMap m))) vault.
Proof using H0.
  intros Em (m' & Eu & Hm') Hb Ht Hr Hk Hn. destruct (encrypt_decrypt (vault_key v) nonce text Hk Hn) as (secret & Es & Hs & Ed).
  exists secret. unfold EncryptMap. rewrite Em. split; [done|]. intros vault. unfold IngestDBNode. cbn [with_parameters Port Name Parameters].
  destruct (parse_port (Port raw)) as [e|port]; [done|]. pose proof (encrypted_trim _ _ _ _ Es) as Hts.
  assert (Hp : IsEncrypted text = false).
  { apply HasPrefix_spec in Hb as [t ->]. done. }
  unfold resolve_parameters. rewrite Ht, Hp, Hb, Eu, Hts, Hs. unfold DecryptMap. rewrite Ed, Eu. split; by rewrite (mapParameters_json _ m m').
Qed.
End forms.

(** ** Examples *)

#[local] Existing Instance toy_aead.
#[local] Existing Instance toy_aead_laws.
Definition dq : string := String quote_char "".
Definition sample_text : string := "{" ^^ dq ^^ "mtu" ^^ dq ^^ ":1420," ^^ dq ^^ "alpn" ^^ dq ^^ ":[" ^^ dq ^^ "h2" ^^ dq ^^ "]}".
Definition sample_map : jmap := [("alpn"%string, VList [VString "h2"]); ("mtu"%string, VInt 1420)].
Definition sample_marshal (m : jmap) : option string := Some sample_text.
Definition sample_unmarshal (s : string) : option jmap :=
  if s =s sample_text then Some [("mtu"%string, VFloat (QArith_base.inject_Z 1420)); ("alpn"%string, VList [VString "h2"])] else None.
Definition sample_node : RawDBNode := mkNode "1" "node" "WireGuard" "198.51.100.1" (VString " 443 ") "" "" VNil [].
Theorem stored_forms_agree_witness : exists secret p,
  EncryptMap sample_marshal (mkVault demo_key) (Some "012345678901"%string) sample_map = inr secret /\
  IngestDBNode sample_unmarshal (Some (with_parameters sample_node (VString secret))) (Some (mkVault demo_key)) = inr p /\
  (p_MTU p, p_ALPN p, p_Port p) = (1420, ["h2"%string], 443).
Proof.
  destruct (stored_forms_agree sample_marshal sample_unmarshal sample_node sample_map sample_text (mkVault demo_key) "012345678901") as (secret & E & H);
    [done| |done|by vm_compute|by repeat constructor|done|done|].
  - eexists. split; [done|]. intros k. unfold jget, sample_map. cbn [List.find fst].
    destruct (String.eqb_spec "mtu" k) as [<-|]; [done|]. by destruct (String.eqb_spec "alpn" k) as [<-|].
  - exists secret. destruct (H None) as [_ E2]. eexists. split; [exact E|]. rewrite E2. split; [reflexivity|done].
Defined.

(** Parameters that are neither encrypted nor an object are ignored: the node is accepted
    without its credentials. *)
Example junk_ignored : exists p, IngestDBNode sample_unmarshal (Some (with_parameters sample_node (VString "ENC:v1:aes-gcm:AAAA"))) None = inr p /\ p_Password p = ""%string.
Proof. by eexists. Qed.
(** The field Extra of the record is read and dropped, and the host of a transport becomes
    the name for TLS. *)
Example extra_dropped : exists p,
  IngestDBNode sample_unmarshal (Some (mkNode "1" "n" "vless" "198.51.100.1" (VInt 443) "ws" "tls" (VMap [("host"%string, VString "cdn.example")]) [("k"%string, VBool true)])) None = inr p /\
  p_Extra p = [] /\ p_Host p = ""%string /\ p_SNI p = "cdn.example"%string.
Proof. by eexists. Qed.
(** A version that is no number is passed over, so the next name of the parameter counts. *)
Example next_name_counts : getInt ["shadow_tls_version"; "shadowTlsVersion"]%string [("shadow_tls_version"%string, VString "v3"); ("shadowTlsVersion"%string, VInt 3)] = 3.
Proof. reflexivity. Qed.

End DB.
