(* ===== verification/Localisation.v ===== *)
(** * Messages in two languages (src/pkg/i18n/)

    The dictionaries of the messages, in the order of the files, and the choice of a
    message by its key.  Of [fmt.Sprintf] the verbs %s, %d and %v for texts and numbers
    are modelled, which are all that the dictionaries use. *)
From S2P Require Import Prelude GoStrings.
Open Scope Z_scope.

(** ** The dictionaries (en.go, ru.go) *)

Definition enTranslations_1 : list (string * string) :=
  [("CORE_INITIALIZED", "Sentinel-Core successfully initialized (v%s)");
   ("UNKNOWN_ERROR", "Unknown core error: %s");
   ("INVALID_SYNTAX", "Configuration syntax error: %s");
   ("UNSUPPORTED_PROTOCOL", "Protocol '%s' is not supported by core '%s'");
   ("ERR_SERVER_NODE_NIL", "Server node profile cannot be nil");
   ("ERR_UNSUPPORTED_PROTOCOL_SUGGEST", "Core '%s' does not support protocol '%s'. Suggested action: switch core to Sing-box");
   ("ERR_PQ_STRICT_MODE", "Post-quantum cryptography is enabled for node '%s', but core '%s' (%s) does not support it");
   ("ERR_REALITY_UNSUPPORTED", "Core '%s' does not support Reality security on protocol '%s'");
   ("ERR_FLOW_VISION_STRICT", "Core '%s' does not support XTLS Vision flow ('%s')");
   ("ERR_CONFIG_SPEC_NIL", "Configuration specification cannot be nil");
   ("ERR_UNSUPPORTED_TARGET_CORE", "Unsupported target core: %s");
   ("ERR_SERVER_INBOUND_REQUIRED", "At least one server inbound interface is required");
   ("CRYPTO_KEY_TOO_SHORT", "Database encryption key is too short (minimum 16 characters required)");
   ("CRYPTO_TAMPER_DETECTED", "WARNING: Data tampering or corruption detected in encrypted payload (AEAD tag mismatch)");
   ("CRYPTO_DECRYPT_FAILED", "Failed to decrypt node parameters. Incorrect master key or corrupted data");
   ("CRYPTO_ENCRYPT_SUCCESS", "Data successfully encrypted with AES-256-GCM AEAD");
   ("CRYPTO_KEY_LEN_INVALID", "Encryption key length must be exactly 32 bytes (256 bits), got %d bytes");
   ("CRYPTO_PAYLOAD_HEADER_MISSING", "Invalid encrypted payload header: missing '%s' prefix");
   ("CRYPTO_PAYLOAD_TOO_SHORT", "Ciphertext payload is too short or corrupted");
   ("PARSER_INVALID_URI", "Invalid proxy URI: '%s'");
   ("PARSER_UNSUPPORTED_SCHEME", "Unsupported protocol scheme: '%s'");
   ("PARSER_MISSING_HOST", "Server address is missing from the proxy link");
   ("PARSER_MISSING_AUTH", "Authorization credential (UUID/password) is missing from the proxy link");
   ("PARSER_EMPTY_URI", "Proxy URI string cannot be empty");
   ("PARSER_INVALID_PORT", "Invalid port number in URI: %s");
   ("PARSER_BASE64_DECODE_FAIL", "Failed to decode Base64 in proxy URI");
   ("GENERATOR_PROFILE_NIL", "Node profile cannot be nil for URI generation");
   ("GENERATOR_UNSUPPORTED_PROTO", "Unsupported protocol for URI generation: %s");
   ("PQ_DOWNGRADED_SINGBOX", "Reality Post-Quantum TLS (Kyber768) automatically downgraded to standard X25519 for core %s");
   ("PQ_STRICT_REJECT", "Core '%s' does not support Post-Quantum TLS in strict mode");
   ("FLOW_VISION_STRIPPED", "XTLS Flow '%s' disabled for core '%s'");
   ("HY2_AUTO_SWITCH_SINGBOX", "Native Hysteria 2 binary does not support routing rules or TUN mode. Automatically switched to Sing-box (with Hysteria2 protocol) to apply the routing table");
   ("HY2_STRICT_REJECT", "Native Hysteria 2 binary does not support routing rules and system TUN mode");
   ("HEALTH_CHECK_PASSED", "All core subsystems are operating normally");
   ("HEALTH_CHECK_FAILED", "Issues detected in core subsystems");
   ("HEALTH_PORT_OCCUPIED", "Port %d (%s) is already occupied by another application");
   ("HEALTH_PORT_OCCUPIED_SIMPLE", "Local port %d is occupied by another process");
   ("HEALTH_PORT_FREE", "Port %d (%s) is available for listening");
   ("HEALTH_DNS_OK", "DNS resolver is reachable (latency: %dms)");
   ("HEALTH_DNS_TIMEOUT", "DNS server '%s' is unreachable (timeout)");
   ("HEALTH_DNS_LOOKUP_ERROR", "DNS lookup error for host '%s'");
   ("HEALTH_VAULT_OK", "Cryptographic database vault verified and ready");
   ("HEALTH_VAULT_INIT_FAIL", "Crypto Vault initialization failed: %v");
   ("HEALTH_VAULT_ENCRYPT_FAIL", "AEAD test encryption failed");
   ("HEALTH_VAULT_DECRYPT_FAIL", "AEAD test decryption failed");
   ("ACTION_DIRECT", "Direct (DIRECT)");
   ("ACTION_PROXY", "Proxy (PROXY)");
   ("ACTION_BLOCK", "Block (BLOCKED)");
   ("ACTION_CUSTOM_OUTBOUND", "Route to node: %s");
   ("CATEGORY_ADS", "Ads and Trackers");
   ("CATEGORY_RU_SERVICES", "Russian Services & Banks");
   ("CATEGORY_AI_SERVICES", "AI & Neural Networks (OpenAI, Claude, Gemini)");
   ("CATEGORY_STREAMING", "Streaming & Media (YouTube, Instagram, X)");
   ("CATEGORY_LAN", "Local Area Network (LAN)");
   ("CATEGORY_BITTORRENT", "BitTorrent / P2P Protocol");
   ("CATEGORY_IP_LOOKUP", "IP Lookup Services");
   ("CATEGORY_CN", "Chinese Websites (CN)");
   ("CATEGORY_US", "US Websites (US)");
   ("PRESET_ADS_NAME", "Ads and Trackers");
   ("PRESET_ADS_DESC", "AdBlock and tracker geosite categories");
   ("PRESET_BITTORRENT_NAME", "BitTorrent Traffic");
   ("PRESET_BITTORRENT_DESC", "Torrent traffic, P2P protocols and trackers");
   ("PRESET_CN_NAME", "Chinese Websites (CN)");
   ("PRESET_CN_DESC", "All Chinese IP addresses and domains");
   ("PRESET_DIRECT_ALL_NAME", "Direct All Traffic");
   ("PRESET_DIRECT_ALL_DESC", "Direct access for all traffic (without proxy)");
   ("PRESET_GLOBAL_PROXY_NAME", "Global Proxy");
   ("PRESET_GLOBAL_PROXY_DESC", "All device network traffic through proxy except local network");
   ("PRESET_IP_CHECKERS_NAME", "IP Lookup Services");
   ("PRESET_IP_CHECKERS_DESC", "IP lookup and checker services (ipify, 2ip, ifconfig, ipinfo, etc.)");
   ("PRESET_IPV6_NAME", "Block IPv6");
   ("PRESET_IPV6_DESC", "Block all IPv6 traffic (::/0) to prevent timeouts and leaks");
   ("PRESET_LAN_NAME", "Local Network (LAN)");
   ("PRESET_LAN_DESC", "Routing of all private IP ranges (192.168.x.x, 10.x.x.x, 172.16.x.x)");
   ("PRESET_QUIC_NAME", "Block QUIC (UDP 443)");
   ("PRESET_QUIC_DESC", "Block QUIC (HTTP/3) protocol to prevent ISP DPI throttling and XTLS rejection");
   ("PRESET_RU_NAME", "Russian Websites (RU)");
   ("PRESET_RU_DESC", "All Russian IP addresses and domains");
   ("PRESET_US_NAME", "US Websites (US)");
   ("PRESET_US_DESC", "All US IP addresses and domains");
   ("ROUTING_MODE_SMART_NAME", "Smart Rule");
   ("ROUTING_MODE_SMART_DESC", "Route traffic according to routing rule table");
   ("ROUTING_MODE_GLOBAL_NAME", "Global Proxy");
   ("ROUTING_MODE_GLOBAL_DESC", "All device network traffic is routed through the tunnel (except LAN)");
   ("ROUTING_MODE_DIRECT_NAME", "Direct All");
   ("ROUTING_MODE_DIRECT_DESC", "All network traffic goes direct without proxying");
   ("ROUTING_MODE_WHITELIST_NAME", "Whitelist Only");
   ("ROUTING_MODE_WHITELIST_DESC", "Only explicitly specified domains and applications are proxied");
   ("FEATURE_POST_QUANTUM", "Post-Quantum Cryptography (X25519Kyber768 / ML-KEM)");
   ("FEATURE_POST_QUANTUM_DESC", "Protection against interception and decryption by future quantum computers");
   ("FEATURE_REALITY", "Reality Camouflage");
   ("FEATURE_REALITY_DESC", "Advanced TLS traffic masquerading as popular trusted websites");
   ("FEATURE_FLOW_VISION", "XTLS Vision (Flow)");
   ("FEATURE_FLOW_VISION_DESC", "Direct TLS-in-TLS transmission without double encryption for maximum throughput");
   ("FEATURE_PORT_HOPPING", "Port Hopping (Multi-port range)");
   ("FEATURE_PORT_HOPPING_DESC", "Dynamic UDP port switching to bypass ISP throttling and port blocking");
   ("FEATURE_SALAMANDER", "Salamander Obfuscation");
   ("FEATURE_SALAMANDER_DESC", "Masking QUIC packet headers with pseudo-random entropy");
   ("FEATURE_BANDWIDTH", "Bandwidth Management");
   ("FEATURE_BANDWIDTH_DESC", "Configuring upstream and downstream bandwidth limits for Brutal BBR");
   ("FEATURE_WEBHOOK_AUTH", "HTTP Webhook Authentication");
   ("FEATURE_WEBHOOK_AUTH_DESC", "Dynamic credential validation via external HTTP auth API");
   ("FEATURE_CONGESTION_BBR", "BBR Congestion Control");
   ("FEATURE_CONGESTION_BBR_DESC", "Google's TCP/QUIC congestion control algorithm for minimal latency");
   ("FEATURE_ZERO_RTT", "0-RTT Fast Handshake");
   ("FEATURE_ZERO_RTT_DESC", "Instant connection resumption without prior TLS round-trip negotiation");
   ("FEATURE_SHADOWTLS_V3", "ShadowTLS v3");
   ("FEATURE_SHADOWTLS_V3_DESC", "Third-generation ShadowTLS protocol with enhanced active probing defense");
   ("FEATURE_HANDSHAKE_MIMIC", "TLS Handshake Mimicking");
   ("FEATURE_HANDSHAKE_MIMIC_DESC", "Precise reproduction of real web browser JA3/JA4 fingerprints");
   ("FEATURE_RESERVED_BYTES", "Reserved Bytes (WireGuard Obfs)");
   ("FEATURE_RESERVED_BYTES_DESC", "Special WireGuard header bytes to bypass ISP DPI filtering");
   ("FEATURE_PRESHARED_KEY", "Preshared Key (PSK)");
   ("FEATURE_PRESHARED_KEY_DESC", "Additional symmetric pre-shared key for post-quantum WireGuard security");
   ("ACTION_SUGGEST_SWITCH_CORE_SINGBOX", "Switch core to Sing-box");
   ("ACTION_SUGGEST_SWITCH_CORE_XRAY", "Switch core to Xray-core");
   ("ACTION_SUGGEST_RERUN_AS_ADMIN", "Restart application with Administrator privileges");
   ("ACTION_SUGGEST_DOWNLOAD_BINARY", "Download core binary executable");
   ("ACTION_SUGGEST_KILL_PORT", "Terminate process occupying the conflicting port");
   ("ACTION_SUGGEST_VERIFY_SECRET", "Verify database master encryption secret");
   ("UI_ROUTING_TABLE_TITLE", "Routing Rules");
   ("UI_ROUTING_TABLE_SUBTITLE", "Rules are evaluated from top to bottom. You can adjust priority order using arrows.");
   ("UI_COL_ORDER", "ORDER");
   ("UI_COL_DESCRIPTION", "DESCRIPTION")]%string.
Definition enTranslations_2 : list (string * string) :=
  [("UI_COL_CONDITIONS", "CONDITIONS");
   ("UI_COL_DESTINATION", "DESTINATION");
   ("UI_COL_STATUS", "STATUS");
   ("UI_COL_ACTIONS", "ACTIONS");
   ("ENGINE_XRAY_NAME", "Xray-core");
   ("ENGINE_XRAY_DESC", "Reference engine for VLESS Reality, Post-Quantum X25519Kyber768, and XTLS Vision");
   ("ENGINE_SINGBOX_NAME", "sing-box");
   ("ENGINE_SINGBOX_DESC", "All-in-one universal core: Native Hysteria 2, TUIC v5, ShadowTLS, Wintun, and Smart Routing");
   ("ENGINE_HYSTERIA_NAME", "Hysteria 2 (Official)");
   ("ENGINE_HYSTERIA_DESC", "Official Hysteria 2 server with HTTP Webhook Auth Backend and Port Hopping");
   ("PROTO_VLESS_DESC", "Modern high-speed protocol with XTLS Vision and Reality camouflage");
   ("PROTO_HYSTERIA2_DESC", "UDP/QUIC protocol with Brutal BBR congestion control and Port Hopping");
   ("PROTO_TROJAN_DESC", "HTTPS camouflage protocol mimicking legitimate web traffic");
   ("PROTO_SHADOWSOCKS_DESC", "AEAD and 2022-Blake3 encrypted proxy protocol");
   ("PROTO_TUIC_DESC", "0-RTT QUIC proxy with native BBR congestion control");
   ("PROTO_SHADOWTLS_DESC", "Real TLS handshake imitation with third-party domain validation");
   ("PROTO_WIREGUARD_DESC", "Modern kernel-level cryptographic VPN protocol");
   ("PROTO_VMESS_DESC", "Legacy encrypted proxy protocol with AEAD authentication and WebSocket/gRPC support");
   ("SNIFF_TLS_NAME", "TLS (SNI inspection)");
   ("SNIFF_TLS_DESC", "Extracts domain names from TLS ClientHello packets");
   ("SNIFF_HTTP_NAME", "HTTP (Host header)");
   ("SNIFF_HTTP_DESC", "Extracts domain names from plain HTTP Host headers");
   ("SNIFF_QUIC_NAME", "QUIC (Initial SNI)");
   ("SNIFF_QUIC_DESC", "Extracts domain names from QUIC initial handshakes");
   ("SNIFF_FAKEDNS_NAME", "FakeDNS (Domain restoration)");
   ("SNIFF_FAKEDNS_DESC", "Restores original domains from FakeDNS IP pool");
   ("UI_TAB_BASIC", "Basic");
   ("UI_TAB_PROTOCOL", "Protocol");
   ("UI_TAB_STREAM", "Stream");
   ("UI_TAB_SECURITY", "Security");
   ("UI_TAB_SNIFFING", "Sniffing");
   ("UI_TAB_JSON", "JSON Template");
   ("UI_FIELD_REMARK", "Remark");
   ("UI_FIELD_PORT", "Port");
   ("UI_FIELD_PROTOCOL", "Protocol");
   ("UI_FIELD_CORE", "Core Engine");
   ("UI_FIELD_TOTAL_TRAFFIC", "Total Traffic (GB)");
   ("UI_FIELD_EXPIRY_DATE", "Expiry Date");
   ("UI_FIELD_ENABLE", "Enabled");
   ("UI_FIELD_EXTERNAL_HOST", "External Host / Domain");
   ("UI_FIELD_CLIENTS", "Clients");
   ("UI_FIELD_SNIFFING_ENABLE", "Enable Sniffing");
   ("UI_FIELD_SNIFFING_PROTOCOLS", "Sniffing Protocols");
   ("UI_FIELD_SNIFFING_ROUTEONLY", "Route Only");
   ("UI_FIELD_RAW_JSON", "Raw JSON Configuration");
   ("UI_TAB_FALLBACKS", "Fallback Outbounds");
   ("UI_GROUP_FALLBACKS", "Backup Route Configuration");
   ("UI_GROUP_FALLBACKS_DESC", "Traffic automatically cascades to this fallback route if the primary proxy fails");
   ("UI_FIELD_FALLBACK_ROUTE", "Fallback Route");
   ("UI_HELP_FALLBACK_ROUTE", "Select an outbound route to switch over automatically upon failure");
   ("UI_FIELD_FALLBACK_STRATEGY", "Failover Strategy");
   ("UI_HELP_FALLBACK_STRATEGY", "Algorithm for switching between primary and backup outbounds");
   ("UI_STRATEGY_PRIORITY", "Strict Priority (Primary / Fallback) — Use Primary as long as healthy");
   ("UI_STRATEGY_LEAST_PING", "Least Ping — Always select outbound with lowest latency");
   ("UI_STRATEGY_ROUND_ROBIN", "Random / Round-Robin — Balance traffic across all healthy outbounds");
   ("UI_FIELD_HEALTH_CHECK_INT", "Health Check Interval (sec)");
   ("UI_HELP_HEALTH_CHECK_INT", "Frequency of background health checks for outbounds (default 300s)");
   ("UI_OUTBOUND_DIRECT", "Direct");
   ("UI_OUTBOUND_DIRECT_DESC", "Direct Internet access without proxy routing");
   ("UI_OUTBOUND_BLOCK", "Block");
   ("UI_OUTBOUND_BLOCK_DESC", "Block and drop packets");
   ("UI_OUTBOUND_VLESS_DESC", "VLESS outbound proxy connection (with Reality / TLS)");
   ("UI_OUTBOUND_HYSTERIA2_DESC", "Hysteria 2 UDP/QUIC outbound connection");
   ("UI_OUTBOUND_TROJAN_DESC", "Trojan outbound connection");
   ("UI_OUTBOUND_SS_DESC", "Shadowsocks outbound connection");
   ("UI_OUTBOUND_VMESS_DESC", "VMess outbound connection");
   ("UI_OUTBOUND_WG_DESC", "WireGuard VPN outbound connection");
   ("UI_OUTBOUND_SOCKS_DESC", "SOCKS5 proxy outbound connection");
   ("UI_OUTBOUND_HTTP_DESC", "HTTP proxy outbound connection");
   ("UI_OUTBOUND_WARP_DESC", "Cloudflare WARP tunnel outbound");
   ("UI_FIELD_TAG", "Tag");
   ("UI_FIELD_SERVER_HOST", "Server Address (Host / IP)");
   ("UI_FIELD_UUID", "User UUID");
   ("UI_FIELD_FLOW", "Flow Control");
   ("UI_OPT_NO_FLOW", "No flow");
   ("UI_FIELD_VLESS_ENC", "VLESS Encryption (Post-Quantum)");
   ("UI_TAB_TRANSPORT", "Transport");
   ("UI_FIELD_NETWORK", "Network Type");
   ("UI_FIELD_PATH", "Path");
   ("UI_FIELD_WS_HOST", "Host Header (WS)");
   ("UI_FIELD_GRPC_SERVICE_NAME", "gRPC Service Name");
   ("UI_FIELD_SECURITY", "Security / TLS");
   ("UI_OPT_NO_ENCRYPTION", "None (Plain)");
   ("UI_OPT_NONE", "None (No obfuscation)");
   ("UI_FIELD_SNI", "SNI (Server Name)");
   ("UI_FIELD_FINGERPRINT", "Browser Fingerprint");
   ("UI_FIELD_REALITY_PBK", "Reality Public Key");
   ("UI_FIELD_SHORT_ID", "Short ID");
   ("UI_FIELD_SPIDER_X", "SpiderX Path");
   ("UI_FIELD_ALPN", "ALPN Protocols");
   ("UI_FIELD_ALLOW_INSECURE", "Allow Insecure Certificates");
   ("UI_FIELD_PASSWORD", "Password / Auth Key");
   ("UI_FIELD_UP_MBPS", "Upload Speed (Mbps)");
   ("UI_FIELD_DOWN_MBPS", "Download Speed (Mbps)");
   ("UI_FIELD_PIN_SHA256", "Pinned SHA256 Fingerprint");
   ("UI_FIELD_OBFS_TYPE", "Obfuscation Type");
   ("UI_FIELD_OBFS_PASSWORD", "Obfuscation Password");
   ("UI_FIELD_SS_METHOD", "Shadowsocks Cipher Method");
   ("UI_FIELD_ALTER_ID", "AlterID");
   ("UI_FIELD_PRIVATE_KEY", "Private Key");
   ("UI_FIELD_PEER_PUBLIC_KEY", "Peer Public Key");
   ("UI_FIELD_LOCAL_ADDRESS", "Local Address");
   ("UI_FIELD_MTU", "MTU Size");
   ("UI_FIELD_RESERVED", "Reserved Bytes");
   ("UI_FIELD_USERNAME", "Username");
   ("UI_FIELD_DOMAIN_STRATEGY", "Domain Strategy");
   ("LOG_SESSION_CONNECTED", "[SessionTracker] Client connected: core=%s, user=%s, IP=%s");
   ("LOG_SESSION_DISCONNECTED", "[SessionTracker] Client disconnected (inactivity): core=%s, user=%s, IP=%s, duration=%s");
   ("LOG_SUPERVISOR_STARTED", "[Supervisor] Proxy engine %s successfully started (PID=%d, bin=%s)");
   ("LOG_SUPERVISOR_STOPPED", "[Supervisor] Terminated running %s process (PID=%d)");
   ("LOG_SUPERVISOR_FAILED_START", "[Supervisor] Failed to start core %s: %v");
   ("LOG_SUPERVISOR_FINISHED", "[Supervisor] Core %s process finished (exit=%v)");
   ("LOG_SUPERVISOR_DROPPED_ALL", "[Supervisor] Dropped all client sessions across all cores");
   ("LOG_SUPERVISOR_DROPPED_USER", "[Supervisor] Dropped sessions for user %s across all cores");
   ("LOG_RULES_CHECKING_DIRECT_MIRRORS", "[RuleSet] Checking availability of CDN mirrors directly...");
   ("LOG_RULES_DIRECT_MIRROR_OK", "[RuleSet] Direct mirror '%s' is reachable (latency: %dms)");
   ("LOG_RULES_DIRECT_MIRRORS_BLOCKED", "[RuleSet] [WARN] Direct CDN mirrors unavailable (possible ISP block). Switching to probe via Sing-box outbound tunnels...");
   ("LOG_RULES_PROBING_OUTBOUNDS", "[RuleSet] Testing %d outbounds via Clash API...");
   ("LOG_RULES_OUTBOUND_VERIFIED", "[RuleSet] Outbound '%s' successfully connected to mirror '%s'");
   ("LOG_RULES_DOWNLOADING", "[RuleSet] Downloading rule-set '%s' via mirror '%s'...");
   ("LOG_RULES_DOWNLOADED_SUCCESS", "[RuleSet] Rule '%s' successfully downloaded (%d bytes) and saved to rules/");
   ("LOG_RULES_USING_SAFE_STUB", "[RuleSet] [WARN] Failed to download rule '%s', using safe local stub. Sing-box remains operational");
   ("LOG_RULES_STUB_CREATED", "[RuleSet] Created temporary stub for rule '%s' (instant core startup)");
   ("WARN_RULES_DIRECT_MIRRORS_FAILED", "[RuleSet] Direct CDN mirrors unavailable, rule download routed via outbound '%s'")]%string.
Definition enTranslations : list (string * string) := enTranslations_1 ++ enTranslations_2.
Definition ruTranslations_1 : list (string * string) :=
  [("CORE_INITIALIZED", "Ядро Sentinel-Core успешно инициализировано (v%s)");
   ("UNKNOWN_ERROR", "Неизвестная ошибка ядра: %s");
   ("INVALID_SYNTAX", "Синтаксическая ошибка в конфигурации: %s");
   ("UNSUPPORTED_PROTOCOL", "Протокол '%s' не поддерживается ядром '%s'");
   ("ERR_SERVER_NODE_NIL", "Профиль сервера не может быть пустым");
   ("ERR_UNSUPPORTED_PROTOCOL_SUGGEST", "Ядро '%s' не поддерживает протокол '%s'. Рекомендуется переключить ядро на Sing-box");
   ("ERR_PQ_STRICT_MODE", "Постквантовое шифрование включено для узла '%s', но ядро '%s' (%s) его не поддерживает");
   ("ERR_REALITY_UNSUPPORTED", "Ядро '%s' не поддерживает Reality для протокола '%s'");
   ("ERR_FLOW_VISION_STRICT", "Ядро '%s' не поддерживает XTLS Vision flow ('%s')");
   ("ERR_CONFIG_SPEC_NIL", "Спецификация конфигурации не может быть пустой");
   ("ERR_UNSUPPORTED_TARGET_CORE", "Неподдерживаемое целевое ядро: %s");
   ("ERR_SERVER_INBOUND_REQUIRED", "Требуется хотя бы один входящий интерфейс (ServerInbound)");
   ("CRYPTO_KEY_TOO_SHORT", "Ключ шифрования БД слишком короткий (требуется минимум 16 символов)");
   ("CRYPTO_TAMPER_DETECTED", "ВНИМАНИЕ: Обнаружена подделка или повреждение зашифрованных данных (AEAD tag mismatch)");
   ("CRYPTO_DECRYPT_FAILED", "Не удалось расшифровать параметры узла. Неверный мастер-ключ или поврежденные данные");
   ("CRYPTO_ENCRYPT_SUCCESS", "Данные успешно зашифрованы алгоритмом AES-256-GCM AEAD");
   ("CRYPTO_KEY_LEN_INVALID", "Длина ключа шифрования должна быть ровно 32 байта (256 бит), получено %d байт");
   ("CRYPTO_PAYLOAD_HEADER_MISSING", "Некорректный заголовок зашифрованных данных: отсутствует префикс '%s'");
   ("CRYPTO_PAYLOAD_TOO_SHORT", "Зашифрованные данные повреждены или имеют недостаточную длину");
   ("PARSER_INVALID_URI", "Некорректная ссылка на прокси: '%s'");
   ("PARSER_UNSUPPORTED_SCHEME", "Неподдерживаемая схема протокола: '%s'");
   ("PARSER_MISSING_HOST", "В ссылке отсутствует адрес сервера");
   ("PARSER_MISSING_AUTH", "В ссылке отсутствует ключ авторизации (UUID/пароль)");
   ("PARSER_EMPTY_URI", "Ссылка URI не может быть пустой");
   ("PARSER_INVALID_PORT", "Некорректный номер порта в URI: %s");
   ("PARSER_BASE64_DECODE_FAIL", "Сбой декодирования Base64 в URI ссылке");
   ("GENERATOR_PROFILE_NIL", "Профиль узла не может быть пустым при генерации URI");
   ("GENERATOR_UNSUPPORTED_PROTO", "Неподдерживаемый протокол для генерации ссылки: %s");
   ("PQ_DOWNGRADED_SINGBOX", "Постквантовое шифрование Reality (Kyber768) автоматически переключено на стандартное X25519 для ядра %s");
   ("PQ_STRICT_REJECT", "Ядро '%s' не поддерживает постквантовое шифрование TLS в строгом режиме");
   ("FLOW_VISION_STRIPPED", "XTLS Flow '%s' отключен для ядра '%s'");
   ("HY2_AUTO_SWITCH_SINGBOX", "Нативное ядро Hysteria 2 не поддерживает правила маршрутизации и TUN-режим. Конфиг автоматически переключен на Sing-box (с протоколом Hysteria2) для сохранения таблицы маршрутизации");
   ("HY2_STRICT_REJECT", "Нативное ядро Hysteria 2 не поддерживает правила маршрутизации и системный TUN-режим");
   ("HEALTH_CHECK_PASSED", "Все подсистемы ядра работают в штатном режиме");
   ("HEALTH_CHECK_FAILED", "Обнаружены неполадки в подсистемах ядра");
   ("HEALTH_PORT_OCCUPIED", "Порт %d (%s) уже занят другим приложением в системе");
   ("HEALTH_PORT_OCCUPIED_SIMPLE", "Локальный порт %d занят другим процессом");
   ("HEALTH_PORT_FREE", "Порт %d (%s) свободен для прослушивания");
   ("HEALTH_DNS_OK", "DNS-резолвер доступен (задержка: %dмс)");
   ("HEALTH_DNS_TIMEOUT", "DNS-сервер '%s' не отвечает (таймаут)");
   ("HEALTH_DNS_LOOKUP_ERROR", "Ошибка разрешения DNS для хоста '%s'");
   ("HEALTH_VAULT_OK", "Криптографический сейф БД проверен и готов к работе");
   ("HEALTH_VAULT_INIT_FAIL", "Сбой инициализации Crypto Vault: %v");
   ("HEALTH_VAULT_ENCRYPT_FAIL", "Сбой тестового шифрования AEAD");
   ("HEALTH_VAULT_DECRYPT_FAIL", "Сбой тестовой расшифровки AEAD");
   ("ACTION_DIRECT", "Прямое подключение (DIRECT)");
   ("ACTION_PROXY", "Проксирование (PROXY)");
   ("ACTION_BLOCK", "Блокировка (BLOCKED)");
   ("ACTION_CUSTOM_OUTBOUND", "Направить в узел: %s");
   ("CATEGORY_ADS", "Реклама и трекеры");
   ("CATEGORY_RU_SERVICES", "Сервисы РФ и банки");
   ("CATEGORY_AI_SERVICES", "Нейросети и AI (OpenAI, Claude, Gemini)");
   ("CATEGORY_STREAMING", "Стриминг и соцсети (YouTube, Instagram, X)");
   ("CATEGORY_LAN", "Локальная сеть (LAN)");
   ("CATEGORY_BITTORRENT", "BitTorrent / P2P протокол");
   ("CATEGORY_IP_LOOKUP", "Сервисы определения IP");
   ("CATEGORY_CN", "Сайты Китая (CN)");
   ("CATEGORY_US", "Сайты США (US)");
   ("PRESET_ADS_NAME", "Реклама и трекеры");
   ("PRESET_ADS_DESC", "Категории блокировки рекламы и трекеров (AdBlock)");
   ("PRESET_BITTORRENT_NAME", "BitTorrent трафик");
   ("PRESET_BITTORRENT_DESC", "Торрент-трафик, P2P протокол и трекеры");
   ("PRESET_CN_NAME", "Сайты Китая (CN)");
   ("PRESET_CN_DESC", "Все IP-адреса и домены Китая");
   ("PRESET_DIRECT_ALL_NAME", "Прямое подключение");
   ("PRESET_DIRECT_ALL_DESC", "Прямой доступ для всего трафика (без проксирования)");
   ("PRESET_GLOBAL_PROXY_NAME", "Глобальный прокси");
   ("PRESET_GLOBAL_PROXY_DESC", "Весь трафик через прокси, кроме локальной сети");
   ("PRESET_IP_CHECKERS_NAME", "Сервисы определения IP");
   ("PRESET_IP_CHECKERS_DESC", "Сервисы проверки IP (ipify, 2ip, ifconfig, ipinfo и др.)");
   ("PRESET_IPV6_NAME", "Блокировка IPv6");
   ("PRESET_IPV6_DESC", "Блокировка всего IPv6-трафика (::/0) для устранения таймаутов и утечек");
   ("PRESET_LAN_NAME", "Локальная сеть (LAN)");
   ("PRESET_LAN_DESC", "Маршрутизация всех частных IP адресов (192.168.x.x, 10.x.x.x, 172.16.x.x)");
   ("PRESET_QUIC_NAME", "Блокировка QUIC (UDP 443)");
   ("PRESET_QUIC_DESC", "Блокировка протокола QUIC (HTTP/3) для защиты от троттлинга и обхода XTLS");
   ("PRESET_RU_NAME", "Сайты России (RU)");
   ("PRESET_RU_DESC", "Все IP-адреса и домены России");
   ("PRESET_US_NAME", "Сайты США (US)");
   ("PRESET_US_DESC", "Все IP-адреса и домены США");
   ("ROUTING_MODE_SMART_NAME", "Умные правила (Smart Rule)");
   ("ROUTING_MODE_SMART_DESC", "Маршрутизация по таблице правил");
   ("ROUTING_MODE_GLOBAL_NAME", "Глобальный прокси (Global Proxy)");
   ("ROUTING_MODE_GLOBAL_DESC", "Весь сетевой трафик устройства направляется через туннель (кроме LAN)");
   ("ROUTING_MODE_DIRECT_NAME", "Прямое подключение (Direct All)");
   ("ROUTING_MODE_DIRECT_DESC", "Весь сетевой трафик идет напрямую без проксирования");
   ("ROUTING_MODE_WHITELIST_NAME", "Только белый список (Whitelist Only)");
   ("ROUTING_MODE_WHITELIST_DESC", "Проксируются только явно указанные домены и приложения");
   ("FEATURE_POST_QUANTUM", "Постквантовое шифрование (X25519Kyber768 / ML-KEM)");
   ("FEATURE_POST_QUANTUM_DESC", "Защита от перехвата и расшифровки будущими квантовыми компьютерами");
   ("FEATURE_REALITY", "Маскировка Reality");
   ("FEATURE_REALITY_DESC", "Продвинутая маскировка TLS-трафика под популярные доверенные веб-сайты");
   ("FEATURE_FLOW_VISION", "XTLS Vision (Flow)");
   ("FEATURE_FLOW_VISION_DESC", "Прямая передача TLS-в-TLS без двойного шифрования для максимальной скорости");
   ("FEATURE_PORT_HOPPING", "Port Hopping (Смена портов)");
   ("FEATURE_PORT_HOPPING_DESC", "Динамическая смена портов UDP для обхода блокировок и троттлинга");
   ("FEATURE_SALAMANDER", "Обфускация Salamander");
   ("FEATURE_SALAMANDER_DESC", "Маскировка заголовков QUIC пакетов псевдослучайной энтропией");
   ("FEATURE_BANDWIDTH", "Управление пропускной способностью");
   ("FEATURE_BANDWIDTH_DESC", "Настройка фиксированной скорости загрузки и отдачи Brutal BBR");
   ("FEATURE_WEBHOOK_AUTH", "HTTP Webhook аутентификация");
   ("FEATURE_WEBHOOK_AUTH_DESC", "Динамическая валидация учетных записей через внешний HTTP API");
   ("FEATURE_CONGESTION_BBR", "Контроль перегрузок BBR");
   ("FEATURE_CONGESTION_BBR_DESC", "Алгоритм контроля перегрузок TCP/QUIC от Google для минимальных задержек");
   ("FEATURE_ZERO_RTT", "0-RTT быстрое рукопожатие");
   ("FEATURE_ZERO_RTT_DESC", "Мгновенное восстановление соединения без предварительного согласования TLS");
   ("FEATURE_SHADOWTLS_V3", "ShadowTLS v3");
   ("FEATURE_SHADOWTLS_V3_DESC", "Протокол ShadowTLS третьего поколения с усиленной защитой от зондирования");
   ("FEATURE_HANDSHAKE_MIMIC", "Имитация TLS рукопожатия");
   ("FEATURE_HANDSHAKE_MIMIC_DESC", "Точное воспроизведение отпечатков JA3/JA4 реальных веб-браузеров");
   ("FEATURE_RESERVED_BYTES", "Зарезервированные байты (WireGuard Obfs)");
   ("FEATURE_RESERVED_BYTES_DESC", "Специальные байты заголовка WireGuard для обхода DPI фильтрации");
   ("FEATURE_PRESHARED_KEY", "Preshared Key (PSK)");
   ("FEATURE_PRESHARED_KEY_DESC", "Дополнительный симметричный ключ постквантовой защиты WireGuard");
   ("ACTION_SUGGEST_SWITCH_CORE_SINGBOX", "Переключите ядро на Sing-box");
   ("ACTION_SUGGEST_SWITCH_CORE_XRAY", "Переключите ядро на Xray-core");
   ("ACTION_SUGGEST_RERUN_AS_ADMIN", "Перезапустите приложение с правами Администратора");
   ("ACTION_SUGGEST_DOWNLOAD_BINARY", "Загрузите исполняемый файл ядра");
   ("ACTION_SUGGEST_KILL_PORT", "Освободите конфликтующий порт");
   ("ACTION_SUGGEST_VERIFY_SECRET", "Проверьте мастер-пароль шифрования базы данных");
   ("UI_ROUTING_TABLE_TITLE", "Правила маршрутизации");
   ("UI_ROUTING_TABLE_SUBTITLE", "Правила проверяются сверху вниз. Вы можете менять порядок (приоритет) правил с помощью стрелок.");
   ("UI_COL_ORDER", "ПОРЯДОК");
   ("UI_COL_DESCRIPTION", "ОПИСАНИЕ")]%string.
Definition ruTranslations_2 : list (string * string) :=
  [("UI_COL_CONDITIONS", "УСЛОВИЯ");
   ("UI_COL_DESTINATION", "НАЗНАЧЕНИЕ");
   ("UI_COL_STATUS", "СТАТУС");
   ("UI_COL_ACTIONS", "ДЕЙСТВИЯ");
   ("ENGINE_XRAY_NAME", "Xray-core");
   ("ENGINE_XRAY_DESC", "Эталонное ядро для VLESS Reality, Post-Quantum X25519Kyber768 и XTLS Vision");
   ("ENGINE_SINGBOX_NAME", "sing-box");
   ("ENGINE_SINGBOX_DESC", "Универсальный комбайн: нативная Hysteria 2, TUIC v5, ShadowTLS, Wintun и Smart Routing");
   ("ENGINE_HYSTERIA_NAME", "Hysteria 2 (Official)");
   ("ENGINE_HYSTERIA_DESC", "Официальный сервер Hysteria 2 с HTTP Webhook Auth Backend и Port Hopping");
   ("PROTO_VLESS_DESC", "Современный легковесный протокол с XTLS Vision и маскировкой Reality");
   ("PROTO_HYSTERIA2_DESC", "UDP/QUIC протокол с Brutal BBR контролем перегрузок и Port Hopping");
   ("PROTO_TROJAN_DESC", "Маскировка под валидный HTTPS сайт с проверкой TLS сертификата");
   ("PROTO_SHADOWSOCKS_DESC", "Шифрованный прокси-протокол AEAD и Shadowsocks-2022 Blake3");
   ("PROTO_TUIC_DESC", "0-RTT QUIC протокол с нативным BBR для нестабильных сетей");
   ("PROTO_SHADOWTLS_DESC", "Имитация рукопожатия TLS с внешним доверенным сайтом-маскировкой");
   ("PROTO_WIREGUARD_DESC", "Быстрый криптографический VPN на уровне ядра с защитой от блокировок");
   ("PROTO_VMESS_DESC", "Классический шифрованный протокол с поддержкой AEAD, WebSocket и gRPC");
   ("SNIFF_TLS_NAME", "TLS (Анализ SNI)");
   ("SNIFF_TLS_DESC", "Извлечение имени домена из TLS ClientHello пакетов");
   ("SNIFF_HTTP_NAME", "HTTP (Заголовок Host)");
   ("SNIFF_HTTP_DESC", "Извлечение имени домена из HTTP заголовка Host");
   ("SNIFF_QUIC_NAME", "QUIC (Анализ SNI)");
   ("SNIFF_QUIC_DESC", "Извлечение имени домена из начального QUIC пакета");
   ("SNIFF_FAKEDNS_NAME", "FakeDNS (Восстановление домена)");
   ("SNIFF_FAKEDNS_DESC", "Восстановление доменного имени из пула FakeDNS");
   ("UI_TAB_BASIC", "Основное");
   ("UI_TAB_PROTOCOL", "Протокол");
   ("UI_TAB_STREAM", "Поток");
   ("UI_TAB_SECURITY", "Безопасность");
   ("UI_TAB_SNIFFING", "Сниффинг");
   ("UI_TAB_JSON", "JSON шаблон");
   ("UI_FIELD_REMARK", "Примечание");
   ("UI_FIELD_PORT", "Порт");
   ("UI_FIELD_PROTOCOL", "Протокол");
   ("UI_FIELD_CORE", "Движок ядра");
   ("UI_FIELD_TOTAL_TRAFFIC", "Лимит трафика (GB)");
   ("UI_FIELD_EXPIRY_DATE", "Срок действия");
   ("UI_FIELD_ENABLE", "Включен");
   ("UI_FIELD_EXTERNAL_HOST", "Внешний хост / Домен");
   ("UI_FIELD_CLIENTS", "Клиенты");
   ("UI_FIELD_SNIFFING_ENABLE", "Включить сниффинг (Sniffing)");
   ("UI_FIELD_SNIFFING_PROTOCOLS", "Протоколы сниффинга");
   ("UI_FIELD_SNIFFING_ROUTEONLY", "Только для маршрутизации (Route Only)");
   ("UI_FIELD_RAW_JSON", "Конфигурация в JSON");
   ("UI_TAB_FALLBACKS", "Резервные Outbound");
   ("UI_GROUP_FALLBACKS", "Настройка резервного маршрута");
   ("UI_GROUP_FALLBACKS_DESC", "Если текущий прокси-сервер недоступен, трафик автоматически пойдет через резервный");
   ("UI_FIELD_FALLBACK_ROUTE", "Резервный маршрут (Fallback)");
   ("UI_HELP_FALLBACK_ROUTE", "Выберите исходящее подключение для автоматического переключения при сбое");
   ("UI_FIELD_FALLBACK_STRATEGY", "Стратегия переключения");
   ("UI_HELP_FALLBACK_STRATEGY", "Алгоритм выбора между основным и резервным подключением");
   ("UI_STRATEGY_PRIORITY", "Строгий приоритет (Primary / Fallback) — использовать Основной, пока жив");
   ("UI_STRATEGY_LEAST_PING", "Наименьший пинг (Least Ping) — использовать узел с лучшей задержкой");
   ("UI_STRATEGY_ROUND_ROBIN", "Балансировка (Round-Robin / Random) — распределять между всеми рабочими");
   ("UI_FIELD_HEALTH_CHECK_INT", "Интервал проверки здоровья (сек)");
   ("UI_HELP_HEALTH_CHECK_INT", "Частота фоновой проверки доступности серверов (по умолчанию 300с)");
   ("UI_OUTBOUND_DIRECT", "Напрямую");
   ("UI_OUTBOUND_DIRECT_DESC", "Прямой доступ в интернет без проксирования");
   ("UI_OUTBOUND_BLOCK", "Блокировка");
   ("UI_OUTBOUND_BLOCK_DESC", "Блокировка и сброс пакетов");
   ("UI_OUTBOUND_VLESS_DESC", "Исходящее VLESS прокси-подключение (с Reality / TLS)");
   ("UI_OUTBOUND_HYSTERIA2_DESC", "Исходящее Hysteria 2 UDP/QUIC подключение");
   ("UI_OUTBOUND_TROJAN_DESC", "Исходящее Trojan подключение");
   ("UI_OUTBOUND_SS_DESC", "Исходящее Shadowsocks подключение");
   ("UI_OUTBOUND_VMESS_DESC", "Исходящее VMess подключение");
   ("UI_OUTBOUND_WG_DESC", "Исходящее WireGuard VPN подключение");
   ("UI_OUTBOUND_SOCKS_DESC", "Исходящее SOCKS5 прокси-подключение");
   ("UI_OUTBOUND_HTTP_DESC", "Исходящее HTTP прокси-подключение");
   ("UI_OUTBOUND_WARP_DESC", "Исходящий Cloudflare WARP туннель");
   ("UI_FIELD_TAG", "Тег (Tag)");
   ("UI_FIELD_SERVER_HOST", "Адрес сервера (Host / IP)");
   ("UI_FIELD_UUID", "UUID пользователя");
   ("UI_FIELD_FLOW", "Flow (Управление потоком)");
   ("UI_OPT_NO_FLOW", "Без flow");
   ("UI_FIELD_VLESS_ENC", "VLESS Encryption (Постквантовое шифрование)");
   ("UI_TAB_TRANSPORT", "Транспорт");
   ("UI_FIELD_NETWORK", "Тип сети (Network)");
   ("UI_FIELD_PATH", "Путь (Path)");
   ("UI_FIELD_WS_HOST", "Заголовок Host (WS)");
   ("UI_FIELD_GRPC_SERVICE_NAME", "Имя службы gRPC (ServiceName)");
   ("UI_FIELD_SECURITY", "Шифрование / Безопасность");
   ("UI_OPT_NO_ENCRYPTION", "Без шифрования");
   ("UI_OPT_NONE", "Отсутствует (Без обфускации)");
   ("UI_FIELD_SNI", "SNI (Имя сервера)");
   ("UI_FIELD_FINGERPRINT", "Fingerprint (Отпечаток браузера)");
   ("UI_FIELD_REALITY_PBK", "Reality Public Key (Публичный ключ)");
   ("UI_FIELD_SHORT_ID", "Short ID (Короткий ID)");
   ("UI_FIELD_SPIDER_X", "SpiderX путь");
   ("UI_FIELD_ALPN", "ALPN протоколы");
   ("UI_FIELD_ALLOW_INSECURE", "Разрешить небезопасные сертификаты (Insecure)");
   ("UI_FIELD_PASSWORD", "Пароль / Ключ авторизации");
   ("UI_FIELD_UP_MBPS", "Скорость отдачи (Upload Mbps)");
   ("UI_FIELD_DOWN_MBPS", "Скорость загрузки (Download Mbps)");
   ("UI_FIELD_PIN_SHA256", "Pinned SHA256 Fingerprint");
   ("UI_FIELD_OBFS_TYPE", "Тип обфускации");
   ("UI_FIELD_OBFS_PASSWORD", "Пароль обфускации");
   ("UI_FIELD_SS_METHOD", "Метод шифрования Shadowsocks");
   ("UI_FIELD_ALTER_ID", "AlterID");
   ("UI_FIELD_PRIVATE_KEY", "Приватный ключ (Private Key)");
   ("UI_FIELD_PEER_PUBLIC_KEY", "Публичный ключ сервера (Peer Public Key)");
   ("UI_FIELD_LOCAL_ADDRESS", "Локальный IP адрес (Local Address)");
   ("UI_FIELD_MTU", "MTU размер");
   ("UI_FIELD_RESERVED", "Reserved байты");
   ("UI_FIELD_USERNAME", "Имя пользователя (Username)");
   ("UI_FIELD_DOMAIN_STRATEGY", "Стратегия доменов (Domain Strategy)");
   ("LOG_SESSION_CONNECTED", "[SessionTracker] Подключен клиент: движок=%s, пользователь=%s, IP=%s");
   ("LOG_SESSION_DISCONNECTED", "[SessionTracker] Отключен клиент (неактивность): движок=%s, пользователь=%s, IP=%s, длительность=%s");
   ("LOG_SUPERVISOR_STARTED", "[Supervisor] Движок %s успешно запущен (PID=%d, бинарник=%s)");
   ("LOG_SUPERVISOR_STOPPED", "[Supervisor] Завершен работающий процесс %s (PID=%d)");
   ("LOG_SUPERVISOR_FAILED_START", "[Supervisor] Не удалось запустить движок %s: %v");
   ("LOG_SUPERVISOR_FINISHED", "[Supervisor] Процесс движка %s завершился (код выхода=%v)");
   ("LOG_SUPERVISOR_DROPPED_ALL", "[Supervisor] Сброшены все сессии клиентов на всех движках");
   ("LOG_SUPERVISOR_DROPPED_USER", "[Supervisor] Сброшены сессии пользователя %s на всех движках");
   ("LOG_RULES_CHECKING_DIRECT_MIRRORS", "[RuleSet] Проверка доступности CDN-зеркал напрямую...");
   ("LOG_RULES_DIRECT_MIRROR_OK", "[RuleSet] Прямое зеркало '%s' доступно (ответ за %dмс)");
   ("LOG_RULES_DIRECT_MIRRORS_BLOCKED", "[RuleSet] [WARN] Прямые CDN-зеркала недоступны (возможна блокировка провайдером). Переход к проверке через исходящие туннели...");
   ("LOG_RULES_PROBING_OUTBOUNDS", "[RuleSet] Тестирование %d исходящих узлов (outbounds) через Clash API...");
   ("LOG_RULES_OUTBOUND_VERIFIED", "[RuleSet] Исходящий узел '%s' успешно подключен к зеркалу '%s'");
   ("LOG_RULES_DOWNLOADING", "[RuleSet] Загрузка набора правил '%s' через зеркало '%s'...");
   ("LOG_RULES_DOWNLOADED_SUCCESS", "[RuleSet] Правило '%s' успешно загружено (%d байт) и сохранено в rules/");
   ("LOG_RULES_USING_SAFE_STUB", "[RuleSet] [WARN] Не удалось загрузить правило '%s', используется безопасная локальная заглушка. Sing-box работает без падений");
   ("LOG_RULES_STUB_CREATED", "[RuleSet] Создана временная заглушка для правила '%s' (мгновенный старт ядра)");
   ("WARN_RULES_DIRECT_MIRRORS_FAILED", "[RuleSet] Прямые CDN-зеркала недоступны, скачивание правил направлено через узел '%s'")]%string.
Definition ruTranslations : list (string * string) := ruTranslations_1 ++ ruTranslations_2.

Module I18n.

(** A dictionary is a map; of two entries with the same key Go would not compile. *)
Notation dictionary := (gmap string string).
Definition English : dictionary := list_to_map enTranslations.
Definition Russian : dictionary := list_to_map ruTranslations.

(** ** Formatting *)

Inductive arg := Text (s : string) | Number (n : Z).
Definition type_name (a : arg) : string := match a with Text _ => "string" | Number _ => "int" end.
Definition print (a : arg) : string := match a with Text s => s | Number n => Itoa n end.
(** A verb with its argument; a verb that does not fit is an error in the text. *)
Definition fits (verb : ascii) (a : arg) : bool :=
  match a with Text _ => Ascii.eqb verb "s" || Ascii.eqb verb "v" | Number _ => Ascii.eqb verb "d" || Ascii.eqb verb "v" end.
Definition format_one (verb : ascii) (a : arg) : string :=
  if fits verb a then print a else "%!" ^^ String verb ("(" ^^ type_name a ^^ "=" ^^ print a ^^ ")").
Definition extra (args : list arg) : string :=
  match args with [] => "" | _ => "%!(EXTRA " ^^ Join (map (fun a => type_name a ^^ "=" ^^ print a) args) ", " ^^ ")" end.
Fixpoint Sprintf (template : string) (args : list arg) : string :=
  match template with
  | EmptyString => extra args
  | String c rest =>
      if Ascii.eqb c "%" then
        match rest with
        | EmptyString => "%!(NOVERB)" ^^ extra args
        | String verb rest =>
            if Ascii.eqb verb "%" then String "%" (Sprintf rest args)
            else
              match args with
              | a :: args => format_one verb a ^^ Sprintf rest args
              | [] => "%!" ^^ String verb ("(MISSING)" ^^ Sprintf rest [])
              end
        end
      else String c (Sprintf rest args)
  end.

(** ** The current language (i18n.go) *)

Definition LocaleRU : string := "ru".
Definition LocaleEN : string := "en".
(** [init], from the two variables of the environment. *)
Definition init (sentinel_language bot_language : string) : string :=
  let lang := if sentinel_language =s "" then bot_language else sentinel_language in
  if EqualFold lang "en" then LocaleEN else LocaleRU.
(** [SetLocale]: the new current language. *)
Definition SetLocale (loc : string) : string := if loc =s LocaleEN then LocaleEN else LocaleRU.

Definition GetDictionary (loc : string) : dictionary := if loc =s LocaleRU then Russian else English.
(** The text of a message before its arguments are put in. *)
Definition template (current loc key : string) : string :=
  let loc := if loc =s "" then current else loc in
  match GetDictionary loc !! key with Some t => t | None => default ""%string (English !! key) end.
Definition T_args (current loc key : string) (args : list arg) : string :=
  let t := template current loc key in
  if t =s "" then key else match args with [] => t | _ => Sprintf t args end.
(** [T] and [TGlobal] without arguments. *)
Definition T (current loc key : string) : string := T_args current loc key [].
Definition TGlobal (current key : string) (args : list arg) : string := T_args current current key args.
Definition GetAllKeys : gset string := dom Russian ∪ dom English.

(** ** Both languages have the same messages *)

(** The verbs of a text, in order; a text that ends with a percent sign has an odd one. *)
Fixpoint verbs (t : string) : list ascii :=
  match t with
  | EmptyString => []
  | String c rest =>
      if Ascii.eqb c "%" then
        match rest with EmptyString => ["%"%char] | String verb rest => if Ascii.eqb verb "%" then verbs rest else verb :: verbs rest end
      else verbs rest
  end.
Definition same_verbs (t u : option string) : bool :=
  match t, u with Some t, Some u => bool_decide (verbs t = verbs u) && (t <>s "") && (u <>s "") | _, _ => false end.
Definition dictionaries_agree : bool :=
  forallb (fun e => same_verbs (English !! e.1) (Russian !! e.1)) (enTranslations ++ ruTranslations).
Lemma dictionaries_checked : dictionaries_agree = true.
Proof. by vm_compute. Qed.
#[local] Opaque English Russian.

Lemma key_listed (l : list (string * string)) key t : (list_to_map l : dictionary) !! key = Some t -> (key, t) ∈ l.
Proof. intros H. by apply elem_of_list_to_map_2 in H. Qed.
Lemma listed key : key ∈ GetAllKeys -> exists t, (key, t) ∈ enTranslations ++ ruTranslations.
Proof.
  intros [H|H]%elem_of_union; apply elem_of_dom in H as [t H]; exists t; apply elem_of_app.
  - right. exact (key_listed ruTranslations key t H).
  - left. exact (key_listed enTranslations key t H).
Qed.
Lemma same_verbs_spec t u : same_verbs t u = true ->
  exists x y, t = Some x /\ u = Some y /\ verbs x = verbs y /\ x <> ""%string /\ y <> ""%string.
Proof.
  unfold same_verbs. destruct t as [x|]; [|done]. destruct u as [y|]; [|done]. intros [[Hv Hx]%andb_true_iff Hy]%andb_true_iff.
  apply bool_decide_eq_true in Hv. exists x, y. split_and!; try done; by intros ->.
Qed.
Lemma checked_all (E R : dictionary) (l : list (string * string)) : forallb (fun e => same_verbs (E !! e.1) (R !! e.1)) l = true ->
  forall key t, (key, t) ∈ l -> same_verbs (E !! key) (R !! key) = true.
Proof. intros H key t Hin. rewrite forallb_forall in H. apply (H (key, t)). by apply list_elem_of_In. Qed.
(** A message of either language is one of both, with the same verbs. *)
Lemma both_have key : key ∈ GetAllKeys ->
  exists t u, English !! key = Some t /\ Russian !! key = Some u /\ verbs t = verbs u /\ t <> ""%string /\ u <> ""%string.
Proof. intros [t H]%listed. apply same_verbs_spec. exact (checked_all English Russian _ dictionaries_checked key t H). Qed.

(** Arguments that fit the verbs of a text, one each. *)
Fixpoint fitting (vs : list ascii) (args : list arg) : bool :=
  match vs, args with
  | [], [] => true
  | v :: vs, a :: args => fits v a && fitting vs args
  | _, _ => false
  end.
(** What a text says with arguments that fit. *)
Fixpoint filled (t : string) (args : list arg) : string :=
  match t with
  | EmptyString => ""
  | String c rest =>
      if Ascii.eqb c "%" then
        match rest with
        | EmptyString => ""
        | String verb rest =>
            if Ascii.eqb verb "%" then String "%" (filled rest args)
            else match args with a :: args => print a ^^ filled rest args | [] => filled rest [] end
        end
      else String c (filled rest args)
  end.
Lemma Sprintf_fits n t args : (String.length t <= n)%nat -> fitting (verbs t) args = true -> Sprintf t args = filled t args.
Proof.
  revert t args. induction n as [|n IH]; intros [|c t] args Hn Hf; cbn [String.length] in Hn; try lia; cbn [verbs Sprintf filled] in *; try (by destruct args).
  destruct (Ascii.eqb c "%"); [|rewrite IH; [done|lia|done]]. destruct t as [|v t]; [by destruct args as [|[]]|]. cbn [String.length] in Hn.
  destruct (Ascii.eqb v "%"); [rewrite IH; [done|lia|done]|]. destruct args as [|a args]; [done|]. cbn [fitting] in Hf. apply andb_true_iff in Hf as [Hv Hf].
  unfold format_one. rewrite Hv, IH; [done|lia|done].
Qed.

Lemma dictionary_has loc key t u : English !! key = Some t -> Russian !! key = Some u -> GetDictionary loc !! key = Some (if loc =s LocaleRU then u else t).
Proof. intros Ht Hu. unfold GetDictionary. by destruct (loc =s LocaleRU). Qed.
Lemma template_known current loc key t u : English !! key = Some t -> Russian !! key = Some u ->
  template current loc key = if (if loc =s "" then current else loc) =s LocaleRU then u else t.
Proof. intros Ht Hu. unfold template. by rewrite (dictionary_has _ key t u Ht Hu). Qed.

(** Every message has a text in each language, whatever the current and the requested
    language are, and arguments that fit the text in one language fit it in every other:
    the message then is the text of the language with the arguments put in, and no error of
    formatting shows. *)
Theorem translations_agree (current loc loc' key : string) (args : list arg) : key ∈ GetAllKeys ->
  exists t : string, GetDictionary (if loc =s "" then current else loc) !! key = Some t /\ T current loc key = t /\
    (args <> [] -> fitting (verbs (template current loc' key)) args = true -> T_args current loc key args = filled t args).
Proof.
  intros (t & u & Ht & Hu & Hv & Hnt & Hnu)%both_have. exists (template current loc key).
  pose proof (template_known current loc key t u Ht Hu) as E. pose proof (template_known current loc' key t u Ht Hu) as E'.
  assert (Hne : (template current loc key =s "") = false) by (apply String.eqb_neq; rewrite E; by destruct (_ =s LocaleRU)).
  split; [rewrite E; by apply dictionary_has|]. unfold T, T_args. rewrite Hne. split; [done|]. intros Ha Hf.
  destruct args as [|a args]; [by destruct Ha|]. apply (Sprintf_fits (String.length (template current loc key))); [apply le_n|].
  rewrite E' in Hf. rewrite E.
  destruct (_ =s LocaleRU), (_ =s LocaleRU); [exact Hf|rewrite <- Hv; exact Hf|rewrite Hv; exact Hf|exact Hf].
Qed.
Theorem translations_agree_witness :
  T_args "en" "ru" "UNSUPPORTED_PROTOCOL" [Text "tuic"; Text "xray"] = "Протокол 'tuic' не поддерживается ядром 'xray'"%string.
Proof.
  destruct (translations_agree "en" "ru" "en" "UNSUPPORTED_PROTOCOL" [Text "tuic"; Text "xray"]) as (t & E & _ & H).
  - unfold GetAllKeys. apply elem_of_union_l, elem_of_dom. eexists. vm_compute. reflexivity.
  - rewrite H; [|done|by vm_compute]. vm_compute in E. injection E as <-. by vm_compute.
Defined.

(** A key that no language has is shown as it is. *)
Lemma unknown_key current loc key args : key ∉ GetAllKeys -> T_args current loc key args = key.
Proof.
  intros [Hr He]%not_elem_of_union. apply not_elem_of_dom in Hr. apply not_elem_of_dom in He.
  assert (Hd : forall l, GetDictionary l !! key = None) by (intros l; unfold GetDictionary; by destruct (l =s LocaleRU)).
  unfold T_args, template. by rewrite Hd, He.
Qed.
End I18n.
