(* ===== verification/Schemas.v ===== *)
(** * The forms of the user interface (src/pkg/matrix/schema.go, sniffing.go, types/, fields/, xray/, singbox/, hysteria/)

    The interface builds its forms from a schema: for every protocol what it can be
    combined with, and tabs with groups of fields.  Texts are chosen by [Localisation]. *)
From S2P Require Import Prelude GoStrings Ast Localisation Routing Matrix.
Open Scope Z_scope.

Module Schema.

(** ** Types (types/types.go) *)

Record SelectOption := option { o_Value : string; o_Label : string }.
Record FormField := mkField {
  f_ID : string;
  f_TargetField : string;
  f_Type : string;
  f_Label : string;
  f_Placeholder : string;
  f_HelpText : string;
  f_Default : value;
  f_Options : list SelectOption;
  f_GridColumn : string;
  f_ShowIf : jmap;
}.
(** A field from what all fields have, and the attributes that are given. *)
Inductive attribute := Placeholder (s : string) | HelpText (s : string) | Default (v : value) | Options (l : list SelectOption) | ShowIf (m : jmap).
Definition with_attribute (f : FormField) (a : attribute) : FormField :=
  let 'mkField id target ty label placeholder help def options grid cond := f in
  match a with
  | Placeholder s => mkField id target ty label s help def options grid cond
  | HelpText s => mkField id target ty label placeholder s def options grid cond
  | Default v => mkField id target ty label placeholder help v options grid cond
  | Options l => mkField id target ty label placeholder help def l grid cond
  | ShowIf m => mkField id target ty label placeholder help def options grid m
  end.
Definition field (id target ty label grid : string) (attributes : list attribute) : FormField :=
  fold_left with_attribute attributes (mkField id target ty label "" "" VNil [] grid []).
Record FieldGroup := mkGroup { g_ID : string; g_Title : string; g_Description : string; g_ShowIf : jmap; g_Fields : list FormField }.
Record TabDefinition := mkTab { t_ID : string; t_Title : string; t_Icon : string; t_ShowIf : jmap; t_Groups : list FieldGroup }.
Record ProtocolCapability := mkCapability {
  c_Protocol : string;
  c_DisplayName : string;
  c_Description : string;
  c_DefaultPort : Z;
  c_SupportedEngines : list string;
  c_SupportedTransports : list string;
  c_SupportedSecurity : list string;
  c_SupportedFlows : list (string * list string);
  c_SupportedCiphers : list string;
  c_Features : list string;
  c_Tabs : list string;
  c_TabDefinitions : list TabDefinition;
}.
Definition with_protocol (protocol : string) (c : ProtocolCapability) : ProtocolCapability :=
  mkCapability protocol (c_DisplayName c) (c_Description c) (c_DefaultPort c) (c_SupportedEngines c) (c_SupportedTransports c) (c_SupportedSecurity c)
    (c_SupportedFlows c) (c_SupportedCiphers c) (c_Features c) (c_Tabs c) (c_TabDefinitions c).
Record EngineOption := mkEngine { e_ID : string; e_Name : string; e_Description : string; e_Protocols : list string }.
Record SniffingOption := mkSniffing { s_ID : string; s_DisplayName : string; s_Description : string; s_Default : bool }.
Record PresetSummary := mkSummary { p_sID : string; p_Type : string; p_Name : string; p_Description : string; p_DefaultTarget : string; p_RulesCount : Z }.
Record ConfigurationSchema := mkSchema {
  Language : string;
  Engines : list EngineOption;
  Protocols : list (string * ProtocolCapability);
  OutboundProtocols : list (string * ProtocolCapability);
  SniffingOptions : list SniffingOption;
  Presets : list PresetSummary;
}.

Section schema.
(** The current language of the program, and the language of the schema. *)
Context (current lang : string).
Definition tr (key : string) : string := I18n.T current lang key.

(** ** Tabs of the inbounds (fields/builder.go) and of all outbounds (fields/outbound_tabs.go) *)

Definition BuildBasicTab (proto : string) (defaultPort : Z) : TabDefinition :=
  mkTab "basic" (tr "UI_TAB_BASIC") "fa-sliders" []
  [ mkGroup "basic_group" "" "" []
      [ field "remark" "remark" "text" (tr "UI_FIELD_REMARK") "col-12" [Placeholder proto];
        field "port" "port" "port_generator" (tr "UI_FIELD_PORT") "col-4" [Default (VInt defaultPort)];
        field "protocol" "protocol" "select" (tr "UI_FIELD_PROTOCOL") "col-4" [Default (VString proto)];
        field "core" "core" "select" (tr "UI_FIELD_CORE") "col-4" [];
        field "total" "total" "number" (tr "UI_FIELD_TOTAL_TRAFFIC") "col-4" [Default (VInt 0)];
        field "expiryTime" "expiryTime" "number" (tr "UI_FIELD_EXPIRY_DATE") "col-4" [Default (VInt 0)];
        field "enable" "enable" "checkbox" (tr "UI_FIELD_ENABLE") "col-4" [Default (VBool true)];
        field "externalHost" "externalHost" "text" (tr "UI_FIELD_EXTERNAL_HOST") "col-12" [];
        field "clients" "settings.clients" "clients_manager" (tr "UI_FIELD_CLIENTS") "col-12" [] ] ].
Definition BuildSniffingTab : TabDefinition :=
  mkTab "sniffing" (tr "UI_TAB_SNIFFING") "fa-magnifying-glass" []
  [ mkGroup "sniffing_group" "" "" []
      [ field "sniffing_enabled" "sniffing.enabled" "checkbox" (tr "UI_FIELD_SNIFFING_ENABLE") "col-12"
            [Default (VBool true)];
        field "destOverride" "sniffing.destOverride" "select_multi" (tr "UI_FIELD_SNIFFING_PROTOCOLS") "col-12"
            [ Default (VList [VString "tls"; VString "http"; VString "quic"; VString "fakedns"]);
              Options [ option "tls" "TLS (SNI)";
                      option "http" "HTTP (Host)";
                      option "quic" "QUIC (SNI)";
                      option "fakedns" "FakeDNS" ];
              ShowIf [("sniffing.enabled"%string, VBool true)] ];
        field "routeOnly" "sniffing.routeOnly" "checkbox" (tr "UI_FIELD_SNIFFING_ROUTEONLY") "col-12"
            [Default (VBool false); ShowIf [("sniffing.enabled"%string, VBool true)]] ] ].
Definition BuildAdvancedTab : TabDefinition :=
  mkTab "advanced" (tr "UI_TAB_JSON") "fa-code" []
  [ mkGroup "json_group" "" "" []
      [ field "rawJson" "rawJson" "json_editor" (tr "UI_FIELD_RAW_JSON") "col-12" [] ] ].
Definition VLESS_protocol : TabDefinition :=
  mkTab "protocol" (tr "UI_TAB_PROTOCOL") "fa-arrows-split-up-and-left" []
  [ mkGroup "vless_encryption_group" "VLESS Encryption / ML-KEM-768" "" []
      [ field "vless_decryption" "settings.decryption" "keypair_generator" "VLESS Decryption (Расшифрование)" "col-12"
            [];
        field "vless_encryption" "settings.encryption" "text" "VLESS Encryption (Шифрование)" "col-12" [] ];
    mkGroup "vless_fallbacks_group" "Fallbacks (Перенаправление трафика)" "" []
      [ field "fallback_dest" "settings.fallbacks.0.dest" "text" "Целевой адрес (Dest)" "col-6"
            [Placeholder "80 или 127.0.0.1:8080"];
        field "fallback_path" "settings.fallbacks.0.path" "text" "Путь (Path)" "col-6" [Placeholder "/secret"];
        field "fallback_xver" "settings.fallbacks.0.xver" "select" "PROXY Protocol (Xver)" "col-6"
            [ Default (VString "0");
              Options [ option "0" "Отключено (0)";
                      option "1" "Version 1 (1)";
                      option "2" "Version 2 (2)" ] ];
        field "fallback_alpn" "settings.fallbacks.0.alpn" "text" "ALPN" "col-6" [Placeholder "h2,http/1.1"] ] ].
Definition VLESS_stream : TabDefinition :=
  mkTab "stream" (tr "UI_TAB_STREAM") "fa-wave-square" []
  [ mkGroup "stream_network_group" "" "" []
      [ field "network" "streamSettings.network" "select" "Транспорт (Network)" "col-12"
            [ Default (VString "tcp");
              Options [ option "tcp" "TCP";
                      option "ws" "WebSocket (WS)";
                      option "grpc" "gRPC";
                      option "httpupgrade" "HTTPUpgrade";
                      option "xhttp" "xHTTP (SplitHTTP)";
                      option "h2" "HTTP/2 (H2)";
                      option "mkcp" "mKCP" ] ];
        field "ws_path" "streamSettings.wsSettings.path" "text" "WebSocket Path" "col-6"
            [Placeholder "/ws"; ShowIf [("streamSettings.network"%string, VString "ws")]];
        field "ws_host" "streamSettings.wsSettings.headers.Host" "text" "WebSocket Host Header" "col-6"
            [ShowIf [("streamSettings.network"%string, VString "ws")]];
        field "grpc_service_name" "streamSettings.grpcSettings.serviceName" "text" "gRPC Service Name" "col-6"
            [ShowIf [("streamSettings.network"%string, VString "grpc")]];
        field "grpc_multi_mode" "streamSettings.grpcSettings.multiMode" "checkbox" "gRPC Multi Mode" "col-6"
            [ShowIf [("streamSettings.network"%string, VString "grpc")]];
        field "xhttp_mode" "streamSettings.xhttpSettings.mode" "select" "xHTTP Mode" "col-6"
            [ Default (VString "auto");
              Options [ option "auto" "auto";
                      option "packet-up" "packet-up";
                      option "stream-up" "stream-up";
                      option "stream-one" "stream-one" ];
              ShowIf [("streamSettings.network"%string, VString "xhttp")] ];
        field "xhttp_path" "streamSettings.xhttpSettings.path" "text" "xHTTP Path" "col-6"
            [Placeholder "/"; ShowIf [("streamSettings.network"%string, VString "xhttp")]] ] ].
Definition VLESS_security : TabDefinition :=
  mkTab "security" (tr "UI_TAB_SECURITY") "fa-shield-halved" []
  [ mkGroup "security_type_group" "" "" []
      [ field "security" "streamSettings.security" "select" "Режим безопасности (Security)" "col-12"
            [ Default (VString "reality");
              Options [ option "reality" "Reality (Рекомендуется)";
                      option "tls" "TLS";
                      option "none" "Без шифрования (None)" ] ] ];
    mkGroup "reality_settings_group" "Параметры Reality" "" [("streamSettings.security"%string, VString "reality")]
      [ field "dest" "streamSettings.realitySettings.dest" "text" "Целевой сайт (Dest)" "col-6"
            [Placeholder "www.apple.com:443"];
        field "serverNames" "streamSettings.realitySettings.serverNames" "text" "Доменные имена (ServerNames)" "col-6"
            [Placeholder "www.apple.com"];
        field "privateKey" "streamSettings.realitySettings.privateKey" "keypair_generator" "Приватный ключ (Private Key)" "col-6"
            [];
        field "publicKey" "streamSettings.realitySettings.publicKey" "text" "Публичный ключ (Public Key)" "col-6" [];
        field "shortIds" "streamSettings.realitySettings.shortIds" "text" "Короткие ID (ShortIds)" "col-6"
            [Placeholder "8f9c2d1b"];
        field "spiderX" "streamSettings.realitySettings.spiderX" "text" "SpiderX" "col-6" [Placeholder "/"] ] ].
Definition Hysteria2_stream : TabDefinition :=
  mkTab "stream" (tr "UI_TAB_STREAM") "fa-wave-square" []
  [ mkGroup "hysteria_protection_group" "Режим защиты Hysteria 2" "" []
      [ field "hysteria_mode" "streamSettings.hysteria.mode" "select" "Режим защиты" "col-12"
            [ Default (VString "masq");
              Options [ option "masq" "Маскировка (Masquerade)";
                      option "obfs" "Обфускация (Obfuscation / Salamander)" ] ];
        field "obfs_password" "streamSettings.hysteria.obfsPassword" "password_generator" "Пароль обфускации" "col-12"
            [ShowIf [("streamSettings.hysteria.mode"%string, VString "obfs")]];
        field "masq_type" "streamSettings.hysteria.masqType" "select" "Тип маскировки" "col-6"
            [ Default (VString "proxy");
              Options [ option "proxy" "Проксирование (HTTP Reverse Proxy)";
                      option "file" "Локальный каталог (Static Files)";
                      option "status" "HTTP Status Code" ];
              ShowIf [("streamSettings.hysteria.mode"%string, VString "masq")] ];
        field "masq_value" "streamSettings.hysteria.masqValue" "text" "URL / Значение маскировки" "col-6"
            [ Placeholder "https://google.com";
              ShowIf [("streamSettings.hysteria.mode"%string, VString "masq")] ];
        field "up_mbps" "streamSettings.hysteria.upMbps" "number" "Лимит отдачи (Up Mbps)" "col-6"
            [Default (VInt 100)];
        field "down_mbps" "streamSettings.hysteria.downMbps" "number" "Лимит загрузки (Down Mbps)" "col-6"
            [Default (VInt 100)];
        field "ignore_client_bandwidth" "streamSettings.hysteria.ignoreClientBandwidth" "checkbox" "Игнорировать заявленную клиентом скорость" "col-12"
            [Default (VBool false)];
        field "sni" "streamSettings.hysteria.sni" "text" "SNI (Домен сертификата)" "col-12"
            [Placeholder "yourdomain.com"];
        field "cert_mode" "streamSettings.hysteria.certMode" "select" "Сертификат TLS" "col-12"
            [ Default (VString "self");
              Options [ option "self" "Самоподписанный сертификат (Self-signed)";
                      option "custom" "Указать пути к файлам сертификата" ] ];
        field "cert_path" "streamSettings.hysteria.certPath" "text" "Путь к сертификату (.crt / .pem)" "col-6"
            [ Placeholder "/etc/letsencrypt/live/domain/fullchain.pem";
              ShowIf [("streamSettings.hysteria.certMode"%string, VString "custom")] ];
        field "key_path" "streamSettings.hysteria.keyPath" "text" "Путь к приватному ключу (.key)" "col-6"
            [ Placeholder "/etc/letsencrypt/live/domain/privkey.pem";
              ShowIf [("streamSettings.hysteria.certMode"%string, VString "custom")] ];
        field "hop" "streamSettings.hysteria.hop" "text" "Port Hopping (Диапазон портов)" "col-12"
            [Placeholder "20000-40000"] ] ].
Definition BuildOutboundFallbackTab : TabDefinition :=
  mkTab "fallbacks" (tr "UI_TAB_FALLBACKS") "fa-shield-halved" []
  [ mkGroup "fallback_group" (tr "UI_GROUP_FALLBACKS") (tr "UI_GROUP_FALLBACKS_DESC") []
      [ field "fallback_outbound" "fallback_outbound" "select" (tr "UI_FIELD_FALLBACK_ROUTE") "col-12"
            [HelpText (tr "UI_HELP_FALLBACK_ROUTE")];
        field "fallback_strategy" "fallback_strategy" "select" (tr "UI_FIELD_FALLBACK_STRATEGY") "col-12"
            [ HelpText (tr "UI_HELP_FALLBACK_STRATEGY");
              Default (VString "priority");
              Options [ option "priority" (tr "UI_STRATEGY_PRIORITY");
                      option "least_ping" (tr "UI_STRATEGY_LEAST_PING");
                      option "round_robin" (tr "UI_STRATEGY_ROUND_ROBIN") ] ];
        field "health_check_interval" "health_check_interval" "number" (tr "UI_FIELD_HEALTH_CHECK_INT") "col-6"
            [HelpText (tr "UI_HELP_HEALTH_CHECK_INT"); Default (VInt 300)] ] ].
Definition BuildVLESSTabDefinitions (isXray : bool) : list TabDefinition :=
  [BuildBasicTab ProtoVLESS 443] ++ (if isXray then [VLESS_protocol] else []) ++ [VLESS_stream; VLESS_security; BuildSniffingTab; BuildAdvancedTab].
Definition BuildHysteria2TabDefinitions : list TabDefinition :=
  [BuildBasicTab ProtoHysteria2 443; Hysteria2_stream; BuildSniffingTab; BuildAdvancedTab].

(** ** Outbounds and inbounds (xray/, hysteria/, singbox/) *)

Definition OutboundBlackhole_basic : TabDefinition :=
  mkTab "basic" (tr "UI_TAB_BASIC") "fa-sliders" []
  [ mkGroup "basic_group" "" "" []
      [ field "ob-remark" "remark" "text" (tr "UI_FIELD_REMARK") "col-6" [Placeholder "Block Outbound"];
        field "ob-tag" "tag" "text" (tr "UI_FIELD_TAG") "col-6" [Placeholder "blocked"; Default (VString "blocked")] ] ].
Definition GetOutboundBlackholeCapability : ProtocolCapability :=
  mkCapability "blackhole" (("Blackhole / Block (" ^^ (tr "UI_OUTBOUND_BLOCK")) ^^ ")") (tr "UI_OUTBOUND_BLOCK_DESC") 0
    ["xray-core"; "sing-box"]%string [] []
    []
    [] []
    ["basic"]%string [OutboundBlackhole_basic].
Definition GetOutboundBlockCapability : ProtocolCapability := with_protocol "block" GetOutboundBlackholeCapability.
Definition OutboundFreedom_basic : TabDefinition :=
  mkTab "basic" (tr "UI_TAB_BASIC") "fa-sliders" []
  [ mkGroup "basic_group" "" "" []
      [ field "ob-remark" "remark" "text" (tr "UI_FIELD_REMARK") "col-6" [Placeholder "Direct Outbound"];
        field "ob-tag" "tag" "text" (tr "UI_FIELD_TAG") "col-6" [Placeholder "direct"; Default (VString "direct")];
        field "ob-domain-strategy" "domainStrategy" "select" (tr "UI_FIELD_DOMAIN_STRATEGY") "col-12"
            [ Default (VString "AsIs");
              Options [ option "AsIs" "AsIs (Без резолва)";
                      option "UseIP" "UseIP (Резолв DNS)";
                      option "UseIPv4" "UseIPv4";
                      option "UseIPv6" "UseIPv6" ] ] ] ].
Definition GetOutboundFreedomCapability : ProtocolCapability :=
  mkCapability "freedom" (("Freedom / Direct (" ^^ (tr "UI_OUTBOUND_DIRECT")) ^^ ")") (tr "UI_OUTBOUND_DIRECT_DESC") 0
    ["xray-core"; "sing-box"]%string [] []
    []
    [] []
    ["basic"]%string [OutboundFreedom_basic].
Definition GetOutboundDirectCapability : ProtocolCapability := with_protocol "direct" GetOutboundFreedomCapability.
Definition OutboundHTTP_basic : TabDefinition :=
  mkTab "basic" (tr "UI_TAB_BASIC") "fa-sliders" []
  [ mkGroup "basic_group" "" "" []
      [ field "ob-remark" "remark" "text" (tr "UI_FIELD_REMARK") "col-6" [Placeholder "http-proxy"];
        field "ob-tag" "tag" "text" (tr "UI_FIELD_TAG") "col-6" [Placeholder "http-out"];
        field "ob-host" "host" "text" (tr "UI_FIELD_SERVER_HOST") "col-8" [Placeholder "127.0.0.1"];
        field "ob-port" "port" "text" (tr "UI_FIELD_PORT") "col-4" [Default (VInt 8080)];
        field "ob-user" "user" "text" (tr "UI_FIELD_USERNAME") "col-6" [Placeholder "user (optional)"];
        field "ob-pass" "pass" "password" (tr "UI_FIELD_PASSWORD") "col-6" [Placeholder "pass (optional)"] ] ].
Definition GetOutboundHTTPCapability : ProtocolCapability :=
  mkCapability "http" "HTTP Proxy" (tr "UI_OUTBOUND_HTTP_DESC") 8080
    ["xray-core"; "sing-box"]%string [] []
    []
    [] []
    ["basic"; "fallbacks"]%string [OutboundHTTP_basic; BuildOutboundFallbackTab].
Definition OutboundShadowsocks_basic : TabDefinition :=
  mkTab "basic" (tr "UI_TAB_BASIC") "fa-sliders" []
  [ mkGroup "basic_group" "" "" []
      [ field "ob-remark" "remark" "text" (tr "UI_FIELD_REMARK") "col-6" [Placeholder "ss-proxy"];
        field "ob-tag" "tag" "text" (tr "UI_FIELD_TAG") "col-6" [Placeholder "ss-out"];
        field "ob-host" "host" "text" (tr "UI_FIELD_SERVER_HOST") "col-8" [Placeholder "1.2.3.4"];
        field "ob-port" "port" "text" (tr "UI_FIELD_PORT") "col-4" [Default (VInt 8388)];
        field "ob-method" "method" "select" (tr "UI_FIELD_SS_METHOD") "col-6"
            [ Default (VString "2022-blake3-aes-128-gcm");
              Options [ option "2022-blake3-aes-128-gcm" "2022-blake3-aes-128-gcm";
                      option "2022-blake3-aes-256-gcm" "2022-blake3-aes-256-gcm";
                      option "2022-blake3-chacha20-poly1305" "2022-blake3-chacha20-poly1305";
                      option "aes-256-gcm" "aes-256-gcm";
                      option "aes-128-gcm" "aes-128-gcm";
                      option "chacha20-ietf-poly1305" "chacha20-ietf-poly1305" ] ];
        field "ob-password" "password" "password" (tr "UI_FIELD_PASSWORD") "col-6"
            [Placeholder "Base64 Key or Password"] ] ].
Definition GetOutboundShadowsocksCapability : ProtocolCapability :=
  mkCapability ProtoShadowsocks "Shadowsocks" (tr "UI_OUTBOUND_SS_DESC") 8388
    ["xray-core"; "sing-box"]%string [] []
    []
    [] []
    ["basic"; "fallbacks"]%string [OutboundShadowsocks_basic; BuildOutboundFallbackTab].
Definition GetOutboundSSCapability : ProtocolCapability := with_protocol "ss" GetOutboundShadowsocksCapability.
Definition OutboundSocks_basic : TabDefinition :=
  mkTab "basic" (tr "UI_TAB_BASIC") "fa-sliders" []
  [ mkGroup "basic_group" "" "" []
      [ field "ob-remark" "remark" "text" (tr "UI_FIELD_REMARK") "col-6" [Placeholder "socks-proxy"];
        field "ob-tag" "tag" "text" (tr "UI_FIELD_TAG") "col-6" [Placeholder "socks-out"];
        field "ob-host" "host" "text" (tr "UI_FIELD_SERVER_HOST") "col-8" [Placeholder "127.0.0.1"];
        field "ob-port" "port" "text" (tr "UI_FIELD_PORT") "col-4" [Default (VInt 1080)];
        field "ob-user" "user" "text" (tr "UI_FIELD_USERNAME") "col-6" [Placeholder "user (optional)"];
        field "ob-pass" "pass" "password" (tr "UI_FIELD_PASSWORD") "col-6" [Placeholder "pass (optional)"] ] ].
Definition GetOutboundSocksCapability : ProtocolCapability :=
  mkCapability "socks" "SOCKS5" (tr "UI_OUTBOUND_SOCKS_DESC") 1080
    ["xray-core"; "sing-box"]%string [] []
    []
    [] []
    ["basic"; "fallbacks"]%string [OutboundSocks_basic; BuildOutboundFallbackTab].
Definition GetOutboundSocks5Capability : ProtocolCapability := with_protocol "socks5" GetOutboundSocksCapability.
Definition OutboundTrojan_basic : TabDefinition :=
  mkTab "basic" (tr "UI_TAB_BASIC") "fa-sliders" []
  [ mkGroup "basic_group" "" "" []
      [ field "ob-remark" "remark" "text" (tr "UI_FIELD_REMARK") "col-6" [Placeholder "trojan-proxy"];
        field "ob-tag" "tag" "text" (tr "UI_FIELD_TAG") "col-6" [Placeholder "trojan-out"];
        field "ob-host" "host" "text" (tr "UI_FIELD_SERVER_HOST") "col-8" [Placeholder "trojan.example.com"];
        field "ob-port" "port" "text" (tr "UI_FIELD_PORT") "col-4" [Default (VInt 443)];
        field "ob-password" "password" "password" (tr "UI_FIELD_PASSWORD") "col-12" [Placeholder "Trojan Password"] ] ].
Definition OutboundTrojan_transport : TabDefinition :=
  mkTab "transport" (tr "UI_TAB_TRANSPORT") "fa-network-wired" []
  [ mkGroup "transport_group" "" "" []
      [ field "ob-network" "network" "select" (tr "UI_FIELD_NETWORK") "col-12"
            [ Default (VString "tcp");
              Options [option "tcp" "TCP"; option "ws" "WebSocket (WS)"; option "grpc" "gRPC"] ];
        field "ob-path" "path" "text" (tr "UI_FIELD_PATH") "col-6" [Placeholder "/trojan-ws"];
        field "ob-service-name" "serviceName" "text" (tr "UI_FIELD_GRPC_SERVICE_NAME") "col-6"
            [Placeholder "trojan-grpc"] ] ].
Definition OutboundTrojan_security : TabDefinition :=
  mkTab "security" (tr "UI_TAB_SECURITY") "fa-lock" []
  [ mkGroup "security_group" "" "" []
      [ field "ob-security" "security" "select" (tr "UI_FIELD_SECURITY") "col-12"
            [ Default (VString "tls");
              Options [option "tls" "TLS"; option "reality" "REALITY"; option "none" "None"] ];
        field "ob-sni" "sni" "text" (tr "UI_FIELD_SNI") "col-6" [Placeholder "trojan.example.com"];
        field "ob-fp" "fingerprint" "select" (tr "UI_FIELD_FINGERPRINT") "col-6"
            [ Default (VString "chrome");
              Options [option "chrome" "Chrome"; option "firefox" "Firefox"; option "safari" "Safari"] ];
        field "ob-alpn" "alpn" "text" (tr "UI_FIELD_ALPN") "col-6" [Placeholder "h2,http/1.1"];
        field "ob-insecure" "allowInsecure" "checkbox" (tr "UI_FIELD_ALLOW_INSECURE") "col-6" [Default (VBool false)] ] ].
Definition GetOutboundTrojanCapability : ProtocolCapability :=
  mkCapability ProtoTrojan "Trojan" (tr "UI_OUTBOUND_TROJAN_DESC") 443
    ["xray-core"; "sing-box"]%string ["tcp"; "ws"; "grpc"]%string ["tls"; "reality"; "none"]%string
    []
    [] []
    ["basic"; "transport"; "security"; "fallbacks"]%string [OutboundTrojan_basic; OutboundTrojan_transport; OutboundTrojan_security; BuildOutboundFallbackTab].
Definition OutboundVLESS_basic : TabDefinition :=
  mkTab "basic" (tr "UI_TAB_BASIC") "fa-sliders" []
  [ mkGroup "basic_group" "" "" []
      [ field "ob-remark" "remark" "text" (tr "UI_FIELD_REMARK") "col-6" [Placeholder "vless-proxy"];
        field "ob-tag" "tag" "text" (tr "UI_FIELD_TAG") "col-6" [Placeholder "vless-out"];
        field "ob-host" "host" "text" (tr "UI_FIELD_SERVER_HOST") "col-8" [Placeholder "192.168.1.1 or example.com"];
        field "ob-port" "port" "text" (tr "UI_FIELD_PORT") "col-4" [Default (VInt 443)];
        field "ob-uuid" "uuid" "text" (tr "UI_FIELD_UUID") "col-12"
            [Placeholder "00000000-0000-0000-0000-000000000000"];
        field "ob-flow" "flow" "select" (tr "UI_FIELD_FLOW") "col-6"
            [ Default (VString "");
              Options [option "" (tr "UI_OPT_NO_FLOW"); option "xtls-rprx-vision" "xtls-rprx-vision"] ];
        field "ob-vless-encryption" "encryption" "text" (tr "UI_FIELD_VLESS_ENC") "col-6"
            [Placeholder "mlkem768x25519plus.native.OrtH..."] ] ].
Definition OutboundVLESS_transport : TabDefinition :=
  mkTab "transport" (tr "UI_TAB_TRANSPORT") "fa-network-wired" []
  [ mkGroup "transport_group" "" "" []
      [ field "ob-network" "network" "select" (tr "UI_FIELD_NETWORK") "col-12"
            [ Default (VString "tcp");
              Options [ option "tcp" "TCP";
                      option "ws" "WebSocket (WS)";
                      option "grpc" "gRPC";
                      option "httpupgrade" "HTTPUpgrade";
                      option "xhttp" "XHTTP / Split-HTTP" ] ];
        field "ob-path" "path" "text" (tr "UI_FIELD_PATH") "col-6" [Placeholder "/ws"];
        field "ob-ws-host" "wsHost" "text" (tr "UI_FIELD_WS_HOST") "col-6" [Placeholder "domain.com"];
        field "ob-service-name" "serviceName" "text" (tr "UI_FIELD_GRPC_SERVICE_NAME") "col-12"
            [Placeholder "grpc-service"] ] ].
Definition OutboundVLESS_security : TabDefinition :=
  mkTab "security" (tr "UI_TAB_SECURITY") "fa-lock" []
  [ mkGroup "security_group" "" "" []
      [ field "ob-security" "security" "select" (tr "UI_FIELD_SECURITY") "col-12"
            [ Default (VString "reality");
              Options [ option "reality" "REALITY";
                      option "tls" "TLS";
                      option "none" (("None (" ^^ (tr "UI_OPT_NO_ENCRYPTION")) ^^ ")") ] ];
        field "ob-sni" "sni" "text" (tr "UI_FIELD_SNI") "col-6" [Placeholder "www.microsoft.com"];
        field "ob-fp" "fingerprint" "select" (tr "UI_FIELD_FINGERPRINT") "col-6"
            [ Default (VString "chrome");
              Options [ option "chrome" "Chrome";
                      option "firefox" "Firefox";
                      option "safari" "Safari";
                      option "ios" "iOS";
                      option "android" "Android";
                      option "edge" "Edge";
                      option "random" "Random" ] ];
        field "ob-pbk" "publicKey" "text" (tr "UI_FIELD_REALITY_PBK") "col-12"
            [ Placeholder "Reality Public Key (x25519)";
              ShowIf [("security"%string, VString "reality")] ];
        field "ob-sid" "shortId" "text" (tr "UI_FIELD_SHORT_ID") "col-6"
            [Placeholder "0123456789abcdef"; ShowIf [("security"%string, VString "reality")]];
        field "ob-spx" "spiderX" "text" (tr "UI_FIELD_SPIDER_X") "col-6"
            [Placeholder "/"; ShowIf [("security"%string, VString "reality")]];
        field "ob-alpn" "alpn" "text" (tr "UI_FIELD_ALPN") "col-6"
            [Placeholder "h2,http/1.1"; ShowIf [("security"%string, VString "tls")]];
        field "ob-insecure" "allowInsecure" "checkbox" (tr "UI_FIELD_ALLOW_INSECURE") "col-6"
            [ShowIf [("security"%string, VString "tls")]; Default (VBool false)] ] ].
Definition GetOutboundVLESSCapability : ProtocolCapability :=
  mkCapability ProtoVLESS "VLESS" (tr "UI_OUTBOUND_VLESS_DESC") 443
    ["xray-core"; "sing-box"]%string ["tcp"; "ws"; "grpc"; "httpupgrade"; "xhttp"]%string ["reality"; "tls"; "none"]%string
    []
    [] []
    ["basic"; "transport"; "security"; "fallbacks"]%string [OutboundVLESS_basic; OutboundVLESS_transport; OutboundVLESS_security; BuildOutboundFallbackTab].
Definition OutboundVMess_basic : TabDefinition :=
  mkTab "basic" (tr "UI_TAB_BASIC") "fa-sliders" []
  [ mkGroup "basic_group" "" "" []
      [ field "ob-remark" "remark" "text" (tr "UI_FIELD_REMARK") "col-6" [Placeholder "vmess-proxy"];
        field "ob-tag" "tag" "text" (tr "UI_FIELD_TAG") "col-6" [Placeholder "vmess-out"];
        field "ob-host" "host" "text" (tr "UI_FIELD_SERVER_HOST") "col-8" [Placeholder "vmess.example.com"];
        field "ob-port" "port" "text" (tr "UI_FIELD_PORT") "col-4" [Default (VInt 443)];
        field "ob-uuid" "uuid" "text" (tr "UI_FIELD_UUID") "col-8"
            [Placeholder "00000000-0000-0000-0000-000000000000"];
        field "ob-alterid" "alterId" "number" (tr "UI_FIELD_ALTER_ID") "col-4" [Default (VInt 0)] ] ].
Definition OutboundVMess_transport : TabDefinition :=
  mkTab "transport" (tr "UI_TAB_TRANSPORT") "fa-network-wired" []
  [ mkGroup "transport_group" "" "" []
      [ field "ob-network" "network" "select" (tr "UI_FIELD_NETWORK") "col-12"
            [ Default (VString "ws");
              Options [ option "ws" "WebSocket (WS)";
                      option "tcp" "TCP";
                      option "grpc" "gRPC";
                      option "httpupgrade" "HTTPUpgrade" ] ];
        field "ob-path" "path" "text" (tr "UI_FIELD_PATH") "col-6" [Placeholder "/vmess-ws"];
        field "ob-ws-host" "wsHost" "text" (tr "UI_FIELD_WS_HOST") "col-6" [Placeholder "domain.com"] ] ].
Definition OutboundVMess_security : TabDefinition :=
  mkTab "security" (tr "UI_TAB_SECURITY") "fa-lock" []
  [ mkGroup "security_group" "" "" []
      [ field "ob-security" "security" "select" (tr "UI_FIELD_SECURITY") "col-12"
            [Default (VString "tls"); Options [option "tls" "TLS"; option "none" "None"]];
        field "ob-sni" "sni" "text" (tr "UI_FIELD_SNI") "col-6" [Placeholder "vmess.example.com"];
        field "ob-alpn" "alpn" "text" (tr "UI_FIELD_ALPN") "col-6" [Placeholder "h2,http/1.1"] ] ].
Definition GetOutboundVMessCapability : ProtocolCapability :=
  mkCapability ProtoVMess "VMess" (tr "UI_OUTBOUND_VMESS_DESC") 443
    ["xray-core"; "sing-box"]%string ["tcp"; "ws"; "grpc"; "httpupgrade"]%string ["tls"; "none"]%string
    []
    [] []
    ["basic"; "transport"; "security"; "fallbacks"]%string [OutboundVMess_basic; OutboundVMess_transport; OutboundVMess_security; BuildOutboundFallbackTab].
Definition OutboundWARP_basic : TabDefinition :=
  mkTab "basic" (tr "UI_TAB_BASIC") "fa-sliders" []
  [ mkGroup "basic_group" "" "" []
      [ field "ob-remark" "remark" "text" (tr "UI_FIELD_REMARK") "col-6"
            [Placeholder "warp-direct"; Default (VString "WARP Direct")];
        field "ob-tag" "tag" "text" (tr "UI_FIELD_TAG") "col-6" [Placeholder "warp"; Default (VString "warp")];
        field "ob-host" "host" "text" (tr "UI_FIELD_SERVER_HOST") "col-8"
            [Placeholder "162.159.192.1"; Default (VString "162.159.192.1")];
        field "ob-port" "port" "text" (tr "UI_FIELD_PORT") "col-4" [Default (VInt 2408)];
        field "ob-private-key" "privateKey" "password" (tr "UI_FIELD_PRIVATE_KEY") "col-6"
            [Placeholder "WARP Private Key"];
        field "ob-peer-public-key" "peerPublicKey" "text" (tr "UI_FIELD_PEER_PUBLIC_KEY") "col-6"
            [ Placeholder "bmXOC+F1FxEMF9dyiK2H5/1SUtzH0JuVo51h2wPfgyo=";
              Default (VString "bmXOC+F1FxEMF9dyiK2H5/1SUtzH0JuVo51h2wPfgyo=") ] ] ].
Definition GetOutboundWARPCapability : ProtocolCapability :=
  mkCapability "warp" "Cloudflare WARP" (tr "UI_OUTBOUND_WARP_DESC") 2408
    ["xray-core"; "sing-box"]%string [] []
    []
    [] []
    ["basic"; "fallbacks"]%string [OutboundWARP_basic; BuildOutboundFallbackTab].
Definition OutboundWireGuard_basic : TabDefinition :=
  mkTab "basic" (tr "UI_TAB_BASIC") "fa-sliders" []
  [ mkGroup "basic_group" "" "" []
      [ field "ob-remark" "remark" "text" (tr "UI_FIELD_REMARK") "col-6" [Placeholder "wg-proxy"];
        field "ob-tag" "tag" "text" (tr "UI_FIELD_TAG") "col-6" [Placeholder "wg-out"];
        field "ob-host" "host" "text" (tr "UI_FIELD_SERVER_HOST") "col-8" [Placeholder "wg.example.com"];
        field "ob-port" "port" "text" (tr "UI_FIELD_PORT") "col-4" [Default (VInt 51820)];
        field "ob-private-key" "privateKey" "password" (tr "UI_FIELD_PRIVATE_KEY") "col-6"
            [Placeholder "WireGuard Private Key"];
        field "ob-peer-public-key" "peerPublicKey" "text" (tr "UI_FIELD_PEER_PUBLIC_KEY") "col-6"
            [Placeholder "Server Public Key"];
        field "ob-local-address" "localAddress" "text" (tr "UI_FIELD_LOCAL_ADDRESS") "col-6"
            [Placeholder "10.0.0.2/32, fd00::2/128"];
        field "ob-mtu" "mtu" "number" (tr "UI_FIELD_MTU") "col-3" [Default (VInt 1420)];
        field "ob-reserved" "reserved" "text" (tr "UI_FIELD_RESERVED") "col-3" [Placeholder "0,0,0"] ] ].
Definition GetOutboundWireGuardCapability : ProtocolCapability :=
  mkCapability ProtoWireGuard "WireGuard" (tr "UI_OUTBOUND_WG_DESC") 51820
    ["xray-core"; "sing-box"]%string [] []
    []
    [] []
    ["basic"; "fallbacks"]%string [OutboundWireGuard_basic; BuildOutboundFallbackTab].
Definition GetOutboundWGCapability : ProtocolCapability := with_protocol "wg" GetOutboundWireGuardCapability.
Definition xray_GetEngineOption : EngineOption := mkEngine "xray-core" (tr "ENGINE_XRAY_NAME") (tr "ENGINE_XRAY_DESC") [ProtoVLESS; ProtoTrojan; ProtoShadowsocks; ProtoVMess; ProtoWireGuard]%string.
Definition xray_GetShadowsocksCapability : ProtocolCapability :=
  mkCapability ProtoShadowsocks "Shadowsocks" (tr "PROTO_SHADOWSOCKS_DESC") 8388
    ["xray-core"; "sing-box"]%string [] ["none"]%string
    []
    ["2022-blake3-aes-128-gcm"; "2022-blake3-aes-256-gcm"; "2022-blake3-chacha20-poly1305"; "aes-128-gcm"; "aes-256-gcm"; "chacha20-ietf-poly1305"]%string []
    ["basic"; "protocol"; "sniffing"; "advanced"]%string [].
Definition xray_GetTrojanCapability : ProtocolCapability :=
  mkCapability ProtoTrojan "Trojan" (tr "PROTO_TROJAN_DESC") 443
    ["xray-core"; "sing-box"]%string ["tcp"; "ws"; "grpc"]%string ["tls"]%string
    []
    [] []
    ["basic"; "protocol"; "stream"; "security"; "sniffing"; "advanced"]%string [].
Definition xray_GetVLESSCapability : ProtocolCapability :=
  mkCapability ProtoVLESS "VLESS" (tr "PROTO_VLESS_DESC") 443
    ["xray-core"; "sing-box"]%string ["tcp"; "ws"; "grpc"; "xhttp"; "httpupgrade"]%string ["reality"; "tls"; "none"]%string
    [("reality"%string, ["xtls-rprx-vision"; "none"]%string); ("tls"%string, ["xtls-rprx-vision"; "none"]%string); ("none"%string, ["none"]%string)]
    [] ["post_quantum"; "reality_short_ids"; "spider_x"]%string
    ["basic"; "protocol"; "stream"; "security"; "sniffing"; "advanced"]%string (BuildVLESSTabDefinitions true).
Definition xray_GetVMessCapability : ProtocolCapability :=
  mkCapability ProtoVMess "VMess" (tr "PROTO_VMESS_DESC") 443
    ["xray-core"; "sing-box"]%string ["tcp"; "ws"; "grpc"; "http"]%string ["tls"; "none"]%string
    []
    [] []
    ["basic"; "stream"; "security"; "sniffing"; "advanced"]%string [].
Definition xray_GetWireGuardCapability : ProtocolCapability :=
  mkCapability ProtoWireGuard "WireGuard" (tr "PROTO_WIREGUARD_DESC") 51820
    ["xray-core"; "sing-box"]%string [] ["none"]%string
    []
    [] ["reserved_bytes"; "preshared_key"]%string
    ["basic"; "protocol"; "sniffing"; "advanced"]%string [].
Definition OutboundHysteria2_basic : TabDefinition :=
  mkTab "basic" (tr "UI_TAB_BASIC") "fa-sliders" []
  [ mkGroup "basic_group" "" "" []
      [ field "ob-remark" "remark" "text" (tr "UI_FIELD_REMARK") "col-6" [Placeholder "hy2-proxy"];
        field "ob-tag" "tag" "text" (tr "UI_FIELD_TAG") "col-6" [Placeholder "hysteria2-out"];
        field "ob-host" "host" "text" (tr "UI_FIELD_SERVER_HOST") "col-8" [Placeholder "hy2.example.com"];
        field "ob-port" "port" "text" (tr "UI_FIELD_PORT") "col-4" [Placeholder "443"; Default (VInt 443)];
        field "ob-password" "password" "password" (tr "UI_FIELD_PASSWORD") "col-12"
            [Placeholder "Hysteria2 Auth Password"];
        field "ob-up-mbps" "upMbps" "number" (tr "UI_FIELD_UP_MBPS") "col-6" [Default (VInt 100)];
        field "ob-down-mbps" "downMbps" "number" (tr "UI_FIELD_DOWN_MBPS") "col-6" [Default (VInt 100)] ] ].
Definition OutboundHysteria2_security : TabDefinition :=
  mkTab "security" (tr "UI_TAB_SECURITY") "fa-lock" []
  [ mkGroup "security_group" "" "" []
      [ field "ob-sni" "sni" "text" (tr "UI_FIELD_SNI") "col-6" [Placeholder "hy2.example.com"];
        field "ob-pin-sha256" "pinnedPeerCertSha256" "text" (tr "UI_FIELD_PIN_SHA256") "col-6"
            [Placeholder "SHA256 Fingerprint"];
        field "ob-obfs-type" "obfs" "select" (tr "UI_FIELD_OBFS_TYPE") "col-6"
            [ Default (VString "");
              Options [option "" (tr "UI_OPT_NONE"); option "salamander" "Salamander (Обфускация)"] ];
        field "ob-obfs-password" "obfsPassword" "password" (tr "UI_FIELD_OBFS_PASSWORD") "col-6"
            [Placeholder "Salamander Secret"];
        field "ob-insecure" "allowInsecure" "checkbox" (tr "UI_FIELD_ALLOW_INSECURE") "col-12" [Default (VBool false)] ] ].
Definition GetOutboundHysteria2Capability : ProtocolCapability :=
  mkCapability ProtoHysteria2 "Hysteria 2" (tr "UI_OUTBOUND_HYSTERIA2_DESC") 443
    ["hysteria2"; "sing-box"]%string [] []
    []
    [] []
    ["basic"; "security"; "fallbacks"]%string [OutboundHysteria2_basic; OutboundHysteria2_security; BuildOutboundFallbackTab].
Definition singbox_GetEngineOption : EngineOption := mkEngine "sing-box" (tr "ENGINE_SINGBOX_NAME") (tr "ENGINE_SINGBOX_DESC") [ProtoVLESS; ProtoHysteria2; ProtoTUIC; ProtoTrojan; ProtoShadowsocks; ProtoShadowTLS; ProtoWireGuard; ProtoVMess]%string.
Definition singbox_GetHysteria2Capability : ProtocolCapability :=
  mkCapability ProtoHysteria2 "Hysteria 2" (tr "PROTO_HYSTERIA2_DESC") 443
    ["hysteria2"; "sing-box"]%string ["quic"]%string ["tls"]%string
    []
    [] ["port_hopping"; "salamander_obfs"; "bandwidth_up_down"; "webhook_auth"]%string
    ["basic"; "stream"; "sniffing"; "advanced"]%string BuildHysteria2TabDefinitions.
Definition singbox_GetShadowsocksCapability : ProtocolCapability :=
  mkCapability ProtoShadowsocks "Shadowsocks" (tr "PROTO_SHADOWSOCKS_DESC") 8388
    ["xray-core"; "sing-box"]%string [] ["none"]%string
    []
    ["2022-blake3-aes-128-gcm"; "2022-blake3-aes-256-gcm"; "2022-blake3-chacha20-poly1305"; "aes-128-gcm"; "aes-256-gcm"; "chacha20-ietf-poly1305"]%string []
    ["basic"; "protocol"; "sniffing"; "advanced"]%string [].
Definition singbox_GetShadowTLSCapability : ProtocolCapability :=
  mkCapability ProtoShadowTLS "ShadowTLS" (tr "PROTO_SHADOWTLS_DESC") 443
    ["sing-box"]%string [] ["shadowtls"]%string
    []
    [] ["shadowtls_v3"; "handshake_mimic"]%string
    ["basic"; "stream"; "security"; "sniffing"; "advanced"]%string [].
Definition singbox_GetTrojanCapability : ProtocolCapability :=
  mkCapability ProtoTrojan "Trojan" (tr "PROTO_TROJAN_DESC") 443
    ["xray-core"; "sing-box"]%string ["tcp"; "ws"; "grpc"]%string ["tls"]%string
    []
    [] []
    ["basic"; "protocol"; "stream"; "security"; "sniffing"; "advanced"]%string [].
Definition singbox_GetTUICCapability : ProtocolCapability :=
  mkCapability ProtoTUIC "TUIC v5" (tr "PROTO_TUIC_DESC") 8443
    ["sing-box"]%string ["quic"]%string ["tls"]%string
    []
    [] ["congestion_control_bbr"; "zero_rtt"]%string
    ["basic"; "stream"; "sniffing"; "advanced"]%string [].
Definition singbox_GetVLESSCapability : ProtocolCapability :=
  mkCapability ProtoVLESS "VLESS" (tr "PROTO_VLESS_DESC") 443
    ["xray-core"; "sing-box"]%string ["tcp"; "ws"; "grpc"; "xhttp"; "httpupgrade"]%string ["reality"; "tls"; "none"]%string
    [("reality"%string, ["xtls-rprx-vision"; "none"]%string); ("tls"%string, ["xtls-rprx-vision"; "none"]%string); ("none"%string, ["none"]%string)]
    [] ["post_quantum"; "reality_short_ids"; "spider_x"]%string
    ["basic"; "protocol"; "stream"; "security"; "sniffing"; "advanced"]%string (BuildVLESSTabDefinitions false).
Definition singbox_GetVMessCapability : ProtocolCapability :=
  mkCapability ProtoVMess "VMess" (tr "PROTO_VMESS_DESC") 443
    ["xray-core"; "sing-box"]%string ["tcp"; "ws"; "grpc"; "http"]%string ["tls"; "none"]%string
    []
    [] []
    ["basic"; "stream"; "security"; "sniffing"; "advanced"]%string [].
Definition singbox_GetWireGuardCapability : ProtocolCapability :=
  mkCapability ProtoWireGuard "WireGuard" (tr "PROTO_WIREGUARD_DESC") 51820
    ["xray-core"; "sing-box"]%string [] ["none"]%string
    []
    [] ["reserved_bytes"; "preshared_key"]%string
    ["basic"; "protocol"; "sniffing"; "advanced"]%string [].
Definition hysteria_GetEngineOption : EngineOption := mkEngine "hysteria2" (tr "ENGINE_HYSTERIA_NAME") (tr "ENGINE_HYSTERIA_DESC") [ProtoHysteria2]%string.
Definition hysteria_GetHysteria2Capability : ProtocolCapability :=
  mkCapability ProtoHysteria2 "Hysteria 2" (tr "PROTO_HYSTERIA2_DESC") 443
    ["hysteria2"; "sing-box"]%string ["quic"]%string ["tls"]%string
    []
    [] ["port_hopping"; "salamander_obfs"; "bandwidth_up_down"; "webhook_auth"]%string
    ["basic"; "stream"; "sniffing"; "advanced"]%string BuildHysteria2TabDefinitions.

(** ** The schema (schema.go, sniffing.go) *)

Definition GetSniffingOptions : list SniffingOption :=
  [mkSniffing "tls" (tr "SNIFF_TLS_NAME") (tr "SNIFF_TLS_DESC") true;
   mkSniffing "http" (tr "SNIFF_HTTP_NAME") (tr "SNIFF_HTTP_DESC") true;
   mkSniffing "quic" (tr "SNIFF_QUIC_NAME") (tr "SNIFF_QUIC_DESC") true;
   mkSniffing "fakedns" (tr "SNIFF_FAKEDNS_NAME") (tr "SNIFF_FAKEDNS_DESC") true].
Definition inbound_protocols : list (string * ProtocolCapability) :=
  [(ProtoVLESS, xray_GetVLESSCapability);
   (ProtoHysteria2, hysteria_GetHysteria2Capability);
   (ProtoTrojan, xray_GetTrojanCapability);
   (ProtoShadowsocks, xray_GetShadowsocksCapability);
   (ProtoTUIC, singbox_GetTUICCapability);
   (ProtoShadowTLS, singbox_GetShadowTLSCapability);
   (ProtoWireGuard, xray_GetWireGuardCapability);
   (ProtoVMess, xray_GetVMessCapability)].
Definition outbound_protocols : list (string * ProtocolCapability) :=
  [("freedom"%string, GetOutboundFreedomCapability);
   ("direct"%string, GetOutboundDirectCapability);
   ("blackhole"%string, GetOutboundBlackholeCapability);
   ("block"%string, GetOutboundBlockCapability);
   (ProtoVLESS, GetOutboundVLESSCapability);
   (ProtoHysteria2, GetOutboundHysteria2Capability);
   (ProtoTrojan, GetOutboundTrojanCapability);
   (ProtoShadowsocks, GetOutboundShadowsocksCapability);
   ("ss"%string, GetOutboundSSCapability);
   (ProtoVMess, GetOutboundVMessCapability);
   (ProtoWireGuard, GetOutboundWireGuardCapability);
   ("wg"%string, GetOutboundWGCapability);
   ("warp"%string, GetOutboundWARPCapability);
   ("socks"%string, GetOutboundSocksCapability);
   ("socks5"%string, GetOutboundSocks5Capability);
   ("http"%string, GetOutboundHTTPCapability)].
End schema.

(** The summaries of the presets; a preset without a message keeps the texts of its file
    (routing/quick_rules.go). *)
Definition localized (current loc key own : string) : string := let text := I18n.T current loc key in if text =s key then own else text.
Definition summary (current loc : string) (p : Routing.Preset) : PresetSummary :=
  let count := len (Routing.preset_Rules p) in
  mkSummary (Routing.preset_ID p) (if Routing.preset_Type p =s "" then "quick_rule" else Routing.preset_Type p)
    (localized current loc ("PRESET_" ^^ ToUpper (Routing.preset_ID p) ^^ "_NAME") (Routing.preset_Name p))
    (localized current loc ("PRESET_" ^^ ToUpper (Routing.preset_ID p) ^^ "_DESC") (Routing.preset_Description p))
    (Routing.preset_DefaultTarget p) (if count =? 0 then 1 else count).
Definition GetAvailablePresetsLocalized (current lang : string) (pm : Routing.PresetManager) : list PresetSummary :=
  let loc := ToLower lang in
  let loc := if (loc =s I18n.LocaleEN) || (loc =s I18n.LocaleRU) then loc else current in
  map (summary current loc) (Routing.ListPresets pm).
Definition GetAvailablePresets (current : string) (pm : Routing.PresetManager) : list PresetSummary := GetAvailablePresetsLocalized current current pm.

Definition schema_language (current lang : string) : string :=
  let langLower := ToLower lang in
  let langLower := if langLower =s "" then current else langLower in
  if (langLower =s "en") || (langLower =s "ru") then langLower else "ru".
Definition GetConfigurationSchema (current : string) (pm : Routing.PresetManager) (lang : string) : ConfigurationSchema :=
  let langLower := schema_language current lang in
  mkSchema langLower [xray_GetEngineOption current langLower; singbox_GetEngineOption current langLower; hysteria_GetEngineOption current langLower]
    (inbound_protocols current langLower) (outbound_protocols current langLower) (GetSniffingOptions current langLower)
    (GetAvailablePresetsLocalized current langLower pm).

(** ** Forms that a user can fill in *)

Definition fields_of (c : ProtocolCapability) : list FormField := c_TabDefinitions c ≫= fun t => t_Groups t ≫= g_Fields.
Fixpoint distinct (l : list string) : bool := match l with [] => true | x :: l => negb (existsb (String.eqb x) l) && distinct l end.
Definition subset (l k : list string) : bool := forallb (fun x => existsb (String.eqb x) k) l.
Definition offered (f : FormField) : list string := map o_Value (f_Options f).
(** A default that can be chosen: a choice has one of its options, a check box a truth value. *)
Definition strings_of (l : list value) : list string := omap (fun v => match v with VString s => Some s | _ => None end) l.
Definition default_fits (f : FormField) : bool :=
  match f_Default f with
  | VString s => match f_Options f with [] => f_Type f <>s "checkbox" | _ => existsb (String.eqb s) (offered f) end
  | VList l => subset (strings_of l) (offered f)
  | VBool _ => f_Type f =s "checkbox"
  | VInt _ => f_Type f <>s "checkbox"
  | VNil => true
  | _ => false
  end.
(** What the field with a target can become. *)
Definition attainable (c : ProtocolCapability) (cond : string * value) : bool :=
  existsb (fun f => (f_TargetField f =s cond.1) &&
    match cond.2 with VString s => existsb (String.eqb s) (offered f) | VBool _ => f_Type f =s "checkbox" | _ => false end) (fields_of c).
Definition conditions (c : ProtocolCapability) : jmap :=
  c_TabDefinitions c ≫= fun t => t_ShowIf t ++ (t_Groups t ≫= fun g => g_ShowIf g ++ (g_Fields g ≫= f_ShowIf)).
(** The texts that are shown, and texts that are keys nobody has translated. *)
Definition texts (c : ProtocolCapability) : list string :=
  [c_DisplayName c; c_Description c] ++ (c_TabDefinitions c ≫= fun t => [t_Title t] ++ (t_Groups t ≫= fun g => [g_Title g; g_Description g] ++
    (g_Fields g ≫= fun f => [f_Label f; f_Placeholder f; f_HelpText f] ++ map o_Label (f_Options f)))).
Definition raw_key (s : string) : bool :=
  Contains s "_" && negb (str_exists (fun a => negb (is_upper a || is_digit a || Ascii.eqb a "_")) s).

Record form_ok (key : string) (c : ProtocolCapability) : Prop := {
  ok_key : c_Protocol c = key;
  ok_tabs : c_TabDefinitions c = [] \/ map t_ID (c_TabDefinitions c) = c_Tabs c;
  ok_ids : NoDup (map f_ID (fields_of c));
  ok_targets : NoDup (map f_TargetField (fields_of c));
  ok_options : Forall (fun f => NoDup (offered f)) (fields_of c);
  ok_defaults : Forall (fun f => default_fits f = true) (fields_of c);
  ok_conditions : Forall (fun cond => attainable c cond = true) (conditions c);
  ok_texts : Forall (fun s => raw_key s = false) (texts c);
}.
Definition same_list (l k : list string) : bool := bool_decide (l = k).
Definition check_form (key : string) (c : ProtocolCapability) : bool :=
  (c_Protocol c =s key) && (match c_TabDefinitions c with [] => true | _ => same_list (map t_ID (c_TabDefinitions c)) (c_Tabs c) end) &&
  distinct (map f_ID (fields_of c)) && distinct (map f_TargetField (fields_of c)) && forallb (fun f => distinct (offered f)) (fields_of c) &&
  forallb default_fits (fields_of c) && forallb (attainable c) (conditions c) && forallb (fun s => negb (raw_key s)) (texts c).

Lemma distinct_spec l : distinct l = true -> NoDup l.
Proof.
  induction l as [|x l IH]; cbn; [constructor|]. intros [Hx Hl]%andb_true_iff. constructor; [|by apply IH]. intros Hin.
  apply negb_true_iff, not_true_iff_false in Hx. apply Hx, existsb_exists. exists x. split; [by apply list_elem_of_In|apply String.eqb_refl].
Qed.
Lemma forallb_Forall_iff {A} (p : A -> bool) (l : list A) : forallb p l = true <-> Forall (fun x => p x = true) l.
Proof. rewrite forallb_forall, Forall_forall. by setoid_rewrite list_elem_of_In. Qed.
Lemma check_form_spec key c : check_form key c = true -> form_ok key c.
Proof.
  unfold check_form. rewrite !andb_true_iff. intros [[[[[[[H1 H2] H3] H4] H5] H6] H7] H8]. split.
  - by apply String.eqb_eq.
  - destruct (c_TabDefinitions c); [by left|right]. by apply bool_decide_eq_true in H2.
  - by apply distinct_spec.
  - by apply distinct_spec.
  - apply forallb_Forall_iff in H5. eapply Forall_impl; [exact H5|]. intros f. apply distinct_spec.
  - by apply forallb_Forall_iff.
  - by apply forallb_Forall_iff.
  - apply forallb_Forall_iff in H8. eapply Forall_impl; [exact H8|]. intros s. apply negb_true_iff.
Qed.

(** The engines that a form offers are those that list the protocol, and all of them can
    run it ([Matrix]). *)
Definition engines_agree (engines : list EngineOption) (e : string * ProtocolCapability) : bool :=
  same_list (map e_ID (List.filter (fun o => existsb (String.eqb e.1) (e_Protocols o)) engines))
    (List.filter (fun id => existsb (String.eqb id) (c_SupportedEngines e.2)) (map e_ID engines)) &&
  subset (c_SupportedEngines e.2) (map e_ID engines) &&
  forallb (fun core => Matrix.IsProtocolSupported (Matrix.GetCapabilities core "") e.1) (c_SupportedEngines e.2).
Definition check_all (current lang : string) : bool :=
  forallb (fun e => check_form e.1 e.2) (inbound_protocols current lang ++ outbound_protocols current lang) &&
  forallb (engines_agree [xray_GetEngineOption current lang; singbox_GetEngineOption current lang; hysteria_GetEngineOption current lang])
    (inbound_protocols current lang).
Lemma english_checked current : check_all current "en" = true.
Proof. by vm_compute. Qed.
Lemma russian_checked current : check_all current "ru" = true.
Proof. by vm_compute. Qed.
Lemma schema_language_known current lang : schema_language current lang = "en"%string \/ schema_language current lang = "ru"%string.
Proof.
  unfold schema_language. set (l := if _ =s "" then _ else _). destruct (String.eqb_spec l "en") as [->|]; [by left|].
  destruct (String.eqb_spec l "ru") as [->|]; by right.
Qed.
Lemma all_checked current lang : check_all current (schema_language current lang) = true.
Proof. destruct (schema_language_known current lang) as [->| ->]; [apply english_checked|apply russian_checked]. Qed.

(** Whatever language is asked for, the forms of the schema can be filled in: each is
    the form of the protocol it is listed under, its tabs are the announced ones, no two of
    its fields or of their targets have the same name, every default can be chosen, every
    field that is shown under a condition can be made to show by another field of the same
    form, and no text is the key of a missing message; and an inbound offers exactly the
    engines that list its protocol, all of which negotiation lets run it. *)
Theorem forms_well_formed current pm lang : let s := GetConfigurationSchema current pm lang in
  Forall (fun e => form_ok e.1 e.2) (Protocols s ++ OutboundProtocols s) /\
  Forall (fun e => (forall id, id ∈ c_SupportedEngines e.2 -> id ∈ map e_ID (Engines s) /\ Matrix.IsProtocolSupported (Matrix.GetCapabilities id "") e.1 = true) /\
    map e_ID (List.filter (fun o => existsb (String.eqb e.1) (e_Protocols o)) (Engines s)) =
      List.filter (fun id => existsb (String.eqb id) (c_SupportedEngines e.2)) (map e_ID (Engines s))) (Protocols s).
Proof.
  intros s. pose proof (all_checked current lang) as H. unfold check_all in H. apply andb_true_iff in H as [Hf He].
  apply forallb_Forall_iff in Hf. apply forallb_Forall_iff in He. split.
  - eapply Forall_impl; [exact Hf|]. intros e. apply check_form_spec.
  - eapply Forall_impl; [exact He|]. intros e Hc. unfold engines_agree in Hc. apply andb_true_iff in Hc as [[Hs Hi]%andb_true_iff Hm].
    apply bool_decide_eq_true in Hs. apply forallb_Forall_iff in Hi. apply forallb_Forall_iff in Hm. split; [|exact Hs].
    intros id Hid. rewrite Forall_forall in Hi, Hm. split; [|by apply Hm]. specialize (Hi id Hid). apply existsb_exists in Hi as (x & Hx & ->%String.eqb_eq).
    by apply list_elem_of_In.
Qed.

(** What the check does not promise: the form of an inbound of VLESS offers transports that
    the protocol is said not to support. *)
Definition network_options (c : ProtocolCapability) : list string :=
  (List.filter (fun f => f_ID f =s "network") (fields_of c)) ≫= offered.
Example unsupported_transports_offered :
  List.filter (fun t => negb (existsb (String.eqb t) (c_SupportedTransports (xray_GetVLESSCapability "en" "en")))) (network_options (xray_GetVLESSCapability "en" "en"))
  = ["h2"; "mkcp"]%string.
Proof. by vm_compute. Qed.
(** Most inbounds announce tabs that they do not define. *)
Example tabs_missing : map fst (List.filter (fun e => match c_TabDefinitions e.2 with [] => true | _ => false end) (inbound_protocols "en" "en")) =
  ["trojan"; "shadowsocks"; "tuic"; "shadowtls"; "wireguard"; "vmess"]%string.
Proof. by vm_compute. Qed.
(** The English schema has Russian texts: some labels are not messages. *)
(** A Cyrillic letter of UTF-8 begins with one of two bytes. *)
Definition cyrillic (s : string) : bool := str_exists (fun a => (char_code a =? 208) || (char_code a =? 209)) s.
Example english_in_russian : map fst (List.filter (fun e => existsb cyrillic (texts e.2)) (inbound_protocols "en" "en" ++ outbound_protocols "en" "en")) =
  ["vless"; "hysteria2"; "freedom"; "direct"; "hysteria2"]%string.
Proof. by vm_compute. Qed.

End Schema.
