(* ===== verification/GeoData.v ===== *)
(** * Reading the databases of names and networks (src/cmd/inspect_geo/main.go)

    The tool reads geosite.dat and geoip.dat, which are messages of protocol buffers, with
    loops of its own.  A slice of Go is modelled with the memory behind it up to its
    capacity, because the tool slices beyond the length. *)
From S2P Require Import Prelude GoStrings.
Open Scope Z_scope.

Module Geo.

(** ** Slices and [binary.Uvarint] *)

Record slice := mkSlice { memory : string; size : nat }.
Definition content (d : slice) : string := str_take (size d) (memory d).
(** [d[a:]] and [d[a:b]]; [None] is a panic. *)
Definition from (a : Z) (d : slice) : option slice :=
  if (0 <=? a) && (a <=? Z.of_nat (size d)) then Some (mkSlice (str_drop (Z.to_nat a) (memory d)) (size d - Z.to_nat a)) else None.
Definition sub (a b : Z) (d : slice) : option slice :=
  if (0 <=? a) && (a <=? b) && (b <=? str_len (memory d)) then Some (mkSlice (str_drop (Z.to_nat a) (memory d)) (Z.to_nat (b - a))) else None.

(** The value and the number of bytes; [None] where Go's count is not positive: the data
    ends, or the number has more than 64 bits. *)
Fixpoint uvarint (s : string) (i : nat) (x : Z) : option (Z * nat) :=
  match s with
  | EmptyString => None
  | String a s =>
      let b := char_code a in
      if (i =? 10)%nat then None
      else if b <? 128 then
        if (i =? 9)%nat && (1 <? b) then None else Some (Z.lor x (Z.shiftl b (7 * Z.of_nat i)), S i)
      else uvarint s (S i) (Z.lor x (Z.shiftl (Z.land b 127) (7 * Z.of_nat i)))
  end.
Definition Uvarint (s : string) : option (Z * nat) := uvarint s 0 0.

(** ** The loops *)

(** What an iteration does, and what a loop comes to; [Hang] and [Endless] are loops that
    do not end within the fuel. *)
Inductive next (A : Type) := Go (offset : Z) (a : A) | Leave (a : A) | Crash | Hang.
Arguments Go {A}. Arguments Leave {A}. Arguments Crash {A}. Arguments Hang {A}.
Inductive run (A : Type) := Returned (a : A) | Panicked | Endless.
Arguments Returned {A}. Arguments Panicked {A}. Arguments Endless {A}.
Fixpoint loop {A} (step : Z -> A -> next A) (len : Z) (fuel : nat) (offset : Z) (a : A) : run A :=
  if offset <? len then
    match fuel with
    | O => Endless
    | S fuel =>
        match step offset a with
        | Go offset a => loop step len fuel offset a
        | Leave a => Returned a
        | Crash => Panicked
        | Hang => Endless
        end
    end
  else Returned a.
Definition continue {A} (offset : Z) (r : run A) : next A := match r with Returned a => Go offset a | Panicked => Crash | Endless => Hang end.

(** A number at an offset, and what is done with it and the offset behind it. *)
Definition reading {A} (d : slice) (offset : Z) (a : A) (k : Z -> Z -> next A) : next A :=
  match from offset d with
  | None => Crash
  | Some rest => match Uvarint (content rest) with Some (v, n) => k v (offset + Z.of_nat n) | None => Leave a end
  end.
(** [offset + int(length)] *)
Definition beyond (offset length : Z) : Z := wrap64 (offset + wrap64 length).
Definition fieldNum (tagWire : Z) : Z := Z.shiftr tagWire 3.
Definition wireType (tagWire : Z) : Z := Z.land tagWire 7.

Definition domain_step (d : slice) (offset : Z) (a : string) : next string :=
  reading d offset a (fun tagWire offset =>
    if wireType tagWire =? 2 then
      reading d offset a (fun length offset =>
        if fieldNum tagWire =? 2 then match sub offset (beyond offset length) d with Some v => Leave (content v) | None => Crash end
        else Go (beyond offset length) a)
    else if wireType tagWire =? 0 then reading d offset a (fun _ offset => Go offset a)
    else Leave a).
Definition extractDomainValue (fuel : nat) (d : slice) : run string := loop (domain_step d) (Z.of_nat (size d)) fuel 0 ""%string.

(** The loop of a group or country: every field of bytes is handed over. *)
Definition group_step {A} (handle : Z -> slice -> A -> run A) (d : slice) (offset : Z) (a : A) : next A :=
  reading d offset a (fun tagWire offset =>
    if wireType tagWire =? 2 then
      reading d offset a (fun length offset =>
        match sub offset (beyond offset length) d with
        | None => Crash
        | Some valBytes => continue (beyond offset length) (handle (fieldNum tagWire) valBytes a)
        end)
    else if wireType tagWire =? 0 then reading d offset a (fun _ offset => Go offset a)
    else Leave a).
Record CategoryInfo := mkCategory { Tag : string; DomainCount : Z; SampleItems : list string }.
Definition site_field (fuel : nat) (num : Z) (valBytes : slice) (cat : CategoryInfo) : run CategoryInfo :=
  if num =? 1 then Returned (mkCategory (content valBytes) (DomainCount cat) (SampleItems cat))
  else if num =? 2 then
    let count := DomainCount cat + 1 in
    if len (SampleItems cat) <? 5 then
      match extractDomainValue fuel valBytes with
      | Returned v => Returned (mkCategory (Tag cat) count (if v =s "" then SampleItems cat else SampleItems cat ++ [v]))
      | Panicked => Panicked
      | Endless => Endless
      end
    else Returned (mkCategory (Tag cat) count (SampleItems cat))
  else Returned cat.
Definition parseSingleSiteGroup (fuel : nat) (d : slice) : run CategoryInfo :=
  loop (group_step (site_field fuel) d) (Z.of_nat (size d)) fuel 0 (mkCategory "" 0 []).
Record GeoIPInfo := mkGeoIP { CountryCode : string; CIDRCount : Z }.
Definition ip_field (num : Z) (valBytes : slice) (g : GeoIPInfo) : run GeoIPInfo :=
  Returned (if num =? 1 then mkGeoIP (content valBytes) (CIDRCount g) else if num =? 2 then mkGeoIP (CountryCode g) (CIDRCount g + 1) else g).
Definition parseSingleGeoIP (fuel : nat) (d : slice) : run GeoIPInfo :=
  loop (group_step ip_field d) (Z.of_nat (size d)) fuel 0 (mkGeoIP "" 0).

(** The loop of a file: its first field is repeated, other fields of bytes are skipped. *)
Definition list_step {A} (entry : slice -> list A -> run (list A)) (d : slice) (offset : Z) (acc : list A) : next (list A) :=
  reading d offset acc (fun tagWire offset =>
    if negb (wireType tagWire =? 2) then Leave acc
    else
      reading d offset acc (fun length offset =>
        if Z.of_nat (size d) <? beyond offset length then Leave acc
        else if fieldNum tagWire =? 1 then
          match sub offset (beyond offset length) d with
          | None => Crash
          | Some entryData => continue (beyond offset length) (entry entryData acc)
          end
        else Go (beyond offset length) acc)).
Definition site_entry (fuel : nat) (entryData : slice) (categories : list CategoryInfo) : run (list CategoryInfo) :=
  match parseSingleSiteGroup fuel entryData with
  | Returned cat => Returned (if Tag cat =s "" then categories else categories ++ [cat])
  | Panicked => Panicked
  | Endless => Endless
  end.
(** [sort.Slice] by the tag is an argument. *)
Definition parseGeositeProtobuf (sort : list CategoryInfo -> list CategoryInfo) (fuel : nat) (data : slice) : run (list CategoryInfo) :=
  match loop (list_step (site_entry fuel) data) (Z.of_nat (size data)) fuel 0 [] with
  | Returned categories => Returned (sort categories)
  | Panicked => Panicked
  | Endless => Endless
  end.
Definition ip_entry (fuel : nat) (entryData : slice) (infos : list GeoIPInfo) : run (list GeoIPInfo) :=
  match parseSingleGeoIP fuel entryData with
  | Returned g => Returned (if CountryCode g =s "" then infos else infos ++ [g])
  | Panicked => Panicked
  | Endless => Endless
  end.
Definition parseGeoIPProtobuf (fuel : nat) (data : slice) : run (list GeoIPInfo) :=
  loop (list_step (ip_entry fuel) data) (Z.of_nat (size data)) fuel 0 [].

(** ** Writing messages (the format of protocol buffers) *)

Fixpoint put_uvarint (fuel : nat) (n : Z) : string :=
  match fuel with
  | O => ""
  | S fuel => if n <? 128 then String (ascii_of_N (Z.to_N n)) "" else String (ascii_of_N (Z.to_N (n mod 128 + 128))) (put_uvarint fuel (n / 128))
  end.
(** Ten bytes are enough for 64 bits. *)
Definition PutUvarint (n : Z) : string := put_uvarint 10 n.
Inductive item := Bytes (num : Z) (s : string) | Number (num v : Z).
Definition enc_item (x : item) : string :=
  match x with
  | Bytes num s => PutUvarint (num * 8 + 2) ^^ PutUvarint (str_len s) ^^ s
  | Number num v => PutUvarint (num * 8) ^^ PutUvarint v
  end.
Definition enc_items (l : list item) : string := foldr (fun x s => enc_item x ^^ s) ""%string l.
Definition item_ok (x : item) : Prop :=
  match x with Bytes num s => 1 <= num < 2 ^ 29 | Number num v => 1 <= num < 2 ^ 29 /\ 0 <= v < 2 ^ 64 end.

(** A group of names, and a country with its networks, whose messages are opaque. *)
Record group := mkGroup { code : string; domains : list (list item) }.
Definition group_items (g : group) : list item := Bytes 1 (code g) :: map (fun d => Bytes 2 (enc_items d)) (domains g).
Definition site_file (l : list group) : string := enc_items (map (fun g => Bytes 1 (enc_items (group_items g))) l).
Record country := mkCountry { country_code : string; networks : list string }.
Definition country_items (c : country) : list item := Bytes 1 (country_code c) :: map (Bytes 2) (networks c).
Definition ip_file (l : list country) : string := enc_items (map (fun c => Bytes 1 (enc_items (country_items c))) l).

(** What the tool should report of them. *)
Fixpoint domain_value (l : list item) : string :=
  match l with [] => "" | Bytes num s :: l => if num =? 2 then s else domain_value l | Number _ _ :: l => domain_value l end.
Definition category_of (g : group) : CategoryInfo :=
  mkCategory (code g) (len (domains g)) (take 5 (List.filter (fun v => v <>s "") (map domain_value (domains g)))).
Definition info_of (c : country) : GeoIPInfo := mkGeoIP (country_code c) (len (networks c)).

(** ** Numbers are read back *)

Lemma lor_shift x b k : 0 <= k -> 0 <= x < 2 ^ k -> Z.lor x (Z.shiftl b k) = x + b * 2 ^ k.
Proof.
  intros Hk Hx. rewrite <- Z.shiftl_mul_pow2 by done. pose proof (Z.add_lor_land x (Z.shiftl b k)) as E0. enough (E : Z.land x (Z.shiftl b k) = 0) by lia.
  apply Z.bits_inj'. intros n Hn. rewrite Z.land_spec, Z.bits_0, Z.shiftl_spec by done. destruct (Z.ltb_spec n k).
  - rewrite (Z.testbit_neg_r b) by lia. apply andb_false_r.
  - rewrite <- (Z.mod_small x (2 ^ k)) by done. by rewrite Z.mod_pow2_bits_high.
Qed.
Lemma char_code_of n : 0 <= n < 256 -> char_code (ascii_of_N (Z.to_N n)) = n.
Proof. intros Hn. unfold char_code. rewrite N_ascii_embedding; lia. Qed.
Lemma uvarint_put fuel n i x rest : (0 < fuel)%nat -> (i + fuel = 10)%nat -> 0 <= n -> 0 <= x < 2 ^ (7 * Z.of_nat i) -> x + n * 2 ^ (7 * Z.of_nat i) < 2 ^ 64 ->
  uvarint (put_uvarint fuel n ^^ rest) i x = Some (x + n * 2 ^ (7 * Z.of_nat i), (i + String.length (put_uvarint fuel n))%nat).
Proof.
  revert n i x. induction fuel as [|fuel IH]; intros n i x Hf Hi Hn Hx Hb; [lia|]. cbn [put_uvarint].
  assert (Hi10 : (i =? 10)%nat = false) by (apply Nat.eqb_neq; lia). pose proof (Z.pow_pos_nonneg 2 (7 * Z.of_nat i) ltac:(lia) ltac:(lia)) as Hpow.
  destruct (Z.ltb_spec n 128).
  - cbn [String.append uvarint String.length]. rewrite char_code_of, Hi10 by lia. rewrite (proj2 (Z.ltb_lt n 128)) by done.
    replace ((i =? 9)%nat && (1 <? n)) with false; [rewrite lor_shift by lia; f_equal; f_equal; lia|]. symmetry. apply andb_false_iff.
    destruct (Nat.eqb_spec i 9) as [->|]; [right|by left]. apply Z.ltb_ge. change (2 ^ (7 * Z.of_nat 9)) with (2 ^ 63) in *. lia.
  - assert (Hfuel : (0 < fuel)%nat).
    { destruct fuel; [|lia]. assert (i = 9%nat) as -> by lia. change (2 ^ (7 * Z.of_nat 9)) with (2 ^ 63) in *. lia. }
    pose proof (Z.div_mod n 128 ltac:(lia)) as Hd. pose proof (Z.mod_pos_bound n 128 ltac:(lia)) as Hm.
    cbn [String.append uvarint String.length]. rewrite char_code_of, Hi10 by lia. rewrite (proj2 (Z.ltb_ge _ 128)) by lia.
    assert (E127 : Z.land (n mod 128 + 128) 127 = n mod 128).
    { change 127 with (Z.ones 7). rewrite Z.land_ones by lia. change (2 ^ 7) with 128. rewrite <- Z.add_mod_idemp_r by lia. rewrite Z.mod_same, Z.add_0_r by lia.
      apply Z.mod_mod. lia. }
    assert (Ep : 2 ^ (7 * Z.of_nat (S i)) = 128 * 2 ^ (7 * Z.of_nat i)).
    { replace (7 * Z.of_nat (S i)) with (7 + 7 * Z.of_nat i) by lia. by rewrite Z.pow_add_r by lia. }
    rewrite E127, lor_shift by lia.
    rewrite IH; [|done|lia|lia|rewrite Ep; nia|rewrite Ep; nia]. rewrite Ep. f_equal. f_equal; [nia|lia].
Qed.
Lemma Uvarint_put n rest : 0 <= n < 2 ^ 64 -> Uvarint (PutUvarint n ^^ rest) = Some (n, String.length (PutUvarint n)).
Proof. intros Hn. unfold Uvarint, PutUvarint. rewrite uvarint_put by (cbn; lia). cbn [Nat.add]. do 2 f_equal. cbn. lia. Qed.
Lemma put_nonempty n : (0 < String.length (PutUvarint n))%nat.
Proof. unfold PutUvarint. cbn [put_uvarint]. destruct (n <? 128); cbn; lia. Qed.

(** ** The loops read what is written *)

(** What is left of a slice at an offset. *)
Definition at_ (d : slice) (offset : Z) (s : string) : Prop := 0 <= offset <= Z.of_nat (size d) /\ str_drop (Z.to_nat offset) (content d) = s.
Definition good (d : slice) : Prop := (size d <= String.length (memory d))%nat /\ Z.of_nat (size d) <= maxInt64.
Lemma str_take_0 s : str_take 0 s = ""%string.
Proof. by destruct s. Qed.
Lemma str_take_S n a s : str_take (S n) (String a s) = String a (str_take n s).
Proof. done. Qed.
Lemma str_take_drop_comm n m s : str_drop m (str_take n s) = str_take (n - m) (str_drop m s).
Proof.
  revert m s. induction n as [|n IH]; intros m s; [rewrite !str_take_0; by destruct m|]. destruct m as [|m]; [by rewrite Nat.sub_0_r|].
  destruct s as [|a s]; [by destruct (S n - S m)%nat|]. rewrite str_take_S. exact (IH m s).
Qed.
Lemma str_take_take n m s : (n <= m)%nat -> str_take n (str_take m s) = str_take n s.
Proof.
  revert m s. induction n as [|n IH]; intros m s Hn; [by rewrite !str_take_0|]. destruct m as [|m]; [lia|]. destruct s as [|a s]; [done|].
  rewrite !str_take_S. by rewrite IH by lia.
Qed.
Lemma str_length_take n s : (n <= String.length s)%nat -> String.length (str_take n s) = n.
Proof.
  revert s. induction n as [|n IH]; intros s Hn; [by rewrite str_take_0|]. destruct s as [|a s]; [cbn in Hn; lia|].
  rewrite str_take_S. cbn [String.length] in *. by rewrite IH by lia.
Qed.
Lemma str_drop_add n m s : str_drop (n + m) s = str_drop m (str_drop n s).
Proof. revert s. induction n as [|n IH]; intros s; [done|]. destruct s as [|a s]; [by destruct m|apply IH]. Qed.
Lemma length_content d : good d -> String.length (content d) = size d.
Proof. intros [Hd _]. by apply str_length_take. Qed.
Lemma at_start d : at_ d 0 (content d).
Proof. split; [lia|done]. Qed.
Lemma at_bound d offset s : good d -> at_ d offset s -> offset + str_len s = Z.of_nat (size d).
Proof.
  intros Hg [Ho Hs]. unfold str_len. rewrite <- Hs, str_length_drop, length_content by done. lia.
Qed.
Lemma at_app d offset s t : good d -> at_ d offset (s ^^ t) -> at_ d (offset + str_len s) t.
Proof.
  intros Hg H. pose proof (at_bound _ _ _ Hg H) as Hb. unfold str_len in Hb. rewrite str_length_app in Hb. destruct H as [Ho Hs]. unfold str_len. split; [lia|].
  replace (Z.to_nat (offset + Z.of_nat (String.length s))) with (Z.to_nat offset + String.length s)%nat by lia.
  rewrite str_drop_add, Hs. apply str_drop_app.
Qed.
Lemma reading_number {A} d offset (a : A) k n s : good d -> 0 <= n < 2 ^ 64 -> at_ d offset (PutUvarint n ^^ s) ->
  reading d offset a k = k n (offset + str_len (PutUvarint n)).
Proof.
  intros Hg Hn [Ho Hs]. unfold reading, from. replace ((0 <=? offset) && (offset <=? Z.of_nat (size d))) with true by lia.
  assert (E : content (mkSlice (str_drop (Z.to_nat offset) (memory d)) (size d - Z.to_nat offset)) = PutUvarint n ^^ s).
  { rewrite <- Hs. unfold content. cbn [size memory]. by rewrite str_take_drop_comm. }
  by rewrite E, Uvarint_put.
Qed.
Lemma beyond_field d offset s t : good d -> at_ d offset (s ^^ t) -> beyond offset (str_len s) = offset + str_len s.
Proof.
  intros Hg H. pose proof (at_bound _ _ _ Hg H) as Hb. unfold str_len in *. rewrite str_length_app in Hb. destruct H as [Ho _], Hg as [_ Hm].
  unfold beyond. unfold maxInt64 in Hm. rewrite (wrap64_small (Z.of_nat _)) by lia. apply wrap64_small. lia.
Qed.
Lemma sub_field d offset s t : good d -> at_ d offset (s ^^ t) -> exists v, sub offset (offset + str_len s) d = Some v /\ content v = s /\ good v.
Proof.
  intros Hg H. pose proof (at_bound _ _ _ Hg H) as Hb. unfold str_len in Hb. rewrite str_length_app in Hb. destruct H as [Ho Hs], Hg as [Hsz Hm].
  unfold sub, str_len. replace (_ && _) with true by (symmetry; rewrite !andb_true_iff, !Z.leb_le; lia).
  replace (Z.to_nat (offset + Z.of_nat (String.length s) - offset)) with (String.length s) by lia. eexists. split; [done|].
  unfold content, good. cbn [size memory]. rewrite str_length_drop. split; [|split; lia].
  replace s with (str_take (String.length s) (str_drop (Z.to_nat offset) (content d))) at 2 by (rewrite Hs; apply str_take_app).
  unfold content. rewrite str_take_drop_comm. symmetry. apply str_take_take. lia.
Qed.

(** A step that reads one item at a time gives a loop that reads all of them. *)
Lemma enc_nonempty x : 0 < str_len (enc_item x).
Proof. destruct x; cbn [enc_item]; unfold str_len; rewrite str_length_app; pose proof (put_nonempty (num * 8 + 2)); pose proof (put_nonempty (num * 8)); lia. Qed.
Lemma enc_items_cons x l : enc_items (x :: l) = enc_item x ^^ enc_items l.
Proof. done. Qed.
Lemma enc_items_length l : len l <= str_len (enc_items l).
Proof.
  induction l as [|x l IH]; [done|]. rewrite enc_items_cons. pose proof (enc_nonempty x). unfold str_len in *. rewrite str_length_app. unfold len in *. cbn. lia.
Qed.
Lemma at_inside d offset x s : good d -> at_ d offset (enc_item x ^^ s) -> (offset <? Z.of_nat (size d)) = true.
Proof.
  intros Hg H. pose proof (at_bound _ _ _ Hg H) as Hb. pose proof (enc_nonempty x). unfold str_len in *. rewrite str_length_app in Hb. apply Z.ltb_lt. lia.
Qed.
Lemma loop_end {A} (step : Z -> A -> next A) d offset fuel : good d -> at_ d offset "" -> forall a, loop step (Z.of_nat (size d)) fuel offset a = Returned a.
Proof.
  intros Hg H a. pose proof (at_bound _ _ _ Hg H) as Hb. assert (E : (offset <? Z.of_nat (size d)) = false) by (apply Z.ltb_ge; change (str_len _) with 0 in Hb; lia).
  destruct fuel; cbn [loop]; by rewrite E.
Qed.
Lemma loop_items {A B} (step : Z -> A -> next A) (e : B -> item) (f : B -> A -> A) d fuel l offset a :
  good d -> (length l <= fuel)%nat -> at_ d offset (enc_items (map e l)) ->
  (forall x offset a s, In x l -> at_ d offset (enc_item (e x) ^^ s) -> step offset a = Go (offset + str_len (enc_item (e x))) (f x a)) ->
  loop step (Z.of_nat (size d)) fuel offset a = Returned (fold_left (fun a x => f x a) l a).
Proof.
  intros Hg. revert fuel offset a. induction l as [|x l IH]; intros fuel offset a Hf H Hstep.
  - by rewrite (loop_end _ _ _ _ Hg H).
  - destruct fuel as [|fuel]; [cbn in Hf; lia|]. rewrite map_cons, enc_items_cons in H. cbn [loop fold_left]. rewrite (at_inside _ _ _ _ Hg H).
    rewrite (Hstep _ _ _ _ (or_introl eq_refl) H). apply IH; [cbn in Hf; lia|by apply at_app|]. intros. eapply Hstep; [by right|done].
Qed.

(** The tag and the length of an item, and the bytes of a field. *)
Lemma tag_of num w : 0 <= w < 8 -> fieldNum (num * 8 + w) = num /\ wireType (num * 8 + w) = w.
Proof.
  intros Hw. unfold fieldNum, wireType. rewrite Z.shiftr_div_pow2 by lia. change 7 with (Z.ones 3). rewrite Z.land_ones by lia. change (2 ^ 3) with 8.
  split; [rewrite Z.div_add_l by lia; rewrite Z.div_small by lia; lia|]. rewrite Z.add_comm, Z.mod_add by lia. by apply Z.mod_small.
Qed.
Lemma read_bytes {A} d offset (a : A) num s t : good d -> 1 <= num < 2 ^ 29 -> at_ d offset (enc_item (Bytes num s) ^^ t) ->
  exists o, (forall k, reading d offset a k = k (num * 8 + 2) o) /\
    (forall k', reading d o a k' = k' (str_len s) (offset + str_len (enc_item (Bytes num s)) - str_len s)) /\
    at_ d (offset + str_len (enc_item (Bytes num s)) - str_len s) (s ^^ t) /\
    beyond (offset + str_len (enc_item (Bytes num s)) - str_len s) (str_len s) = offset + str_len (enc_item (Bytes num s)).
Proof.
  intros Hg Hn H. cbn [enc_item] in *. rewrite !str_app_assoc in H. pose proof (at_app _ _ _ _ Hg H) as H1. pose proof (at_app _ _ _ _ Hg H1) as H2.
  pose proof (at_bound _ _ _ Hg H1) as Hb. destruct H1 as [Hlo H1']. assert (Hs : str_len s < 2 ^ 64).
  { unfold str_len in *. rewrite !str_length_app in Hb. destruct Hg as [_ Hm]. unfold maxInt64 in Hm. lia. }
  assert (Ht : 0 <= num * 8 + 2 < 2 ^ 64) by lia.
  eexists. split; [intros k; apply (reading_number _ _ _ _ _ _ Hg Ht H)|].
  assert (E : offset + str_len (PutUvarint (num * 8 + 2) ^^ PutUvarint (str_len s) ^^ s) - str_len s = offset + str_len (PutUvarint (num * 8 + 2)) + str_len (PutUvarint (str_len s))).
  { unfold str_len. rewrite !str_length_app. lia. }
  rewrite E. split; [|split; [done|]].
  - intros k'. eapply reading_number; [done| |split; [exact Hlo|exact H1']]. unfold str_len in *. lia.
  - rewrite (beyond_field _ _ _ _ Hg H2). lia.
Qed.
Lemma read_number {A} d offset (a : A) num v t : good d -> item_ok (Number num v) -> at_ d offset (enc_item (Number num v) ^^ t) ->
  exists o, (forall k, reading d offset a k = k (num * 8 + 0) o) /\ forall k', reading d o a k' = k' v (offset + str_len (enc_item (Number num v))).
Proof.
  intros Hg [Hn Hv] H. cbn [enc_item] in *. rewrite !str_app_assoc in H. pose proof (at_app _ _ _ _ Hg H) as H1. rewrite Z.add_0_r.
  assert (Ht : 0 <= num * 8 < 2 ^ 64) by lia. eexists. split; [intros k; apply (reading_number _ _ _ _ _ _ Hg Ht H)|]. intros k'.
  rewrite (reading_number _ _ _ _ _ _ Hg Hv H1). f_equal. unfold str_len. rewrite str_length_app. lia.
Qed.

(** ** The loops of the tool *)

Lemma enough {B} (e : B -> item) d l fuel : content d = enc_items (map e l) -> str_len (content d) <= Z.of_nat fuel -> (length l <= fuel)%nat.
Proof. intros -> Hf. pose proof (enc_items_length (map e l)). unfold len in *. rewrite length_map in *. lia. Qed.
Lemma shorter d offset s t : good d -> at_ d offset (s ^^ t) -> str_len s <= str_len (content d).
Proof.
  intros Hg H. pose proof (at_bound _ _ _ Hg H) as Hb. destruct H as [Hlo _]. unfold str_len in *. rewrite str_length_app in Hb. rewrite (length_content d) by done. lia.
Qed.
Lemma group_loop {A B} (handle : Z -> slice -> A -> run A) (e : B -> item) (f : B -> A -> A) d fuel l a : good d -> content d = enc_items (map e l) ->
  Forall (fun b => item_ok (e b)) l -> str_len (content d) <= Z.of_nat fuel ->
  (forall b num v a, In b l -> e b = Bytes num (content v) -> good v -> str_len (content v) <= str_len (content d) -> handle num v a = Returned (f b a)) ->
  (forall b num v a, In b l -> e b = Number num v -> f b a = a) ->
  loop (group_step handle d) (Z.of_nat (size d)) fuel 0 a = Returned (fold_left (fun a b => f b a) l a).
Proof.
  intros Hg Hc Hok Hf Hh Hn. rewrite Forall_forall in Hok. apply (loop_items _ e); [done|by eapply enough|rewrite <- Hc; apply at_start|].
  intros b offset a' t Hin H. pose proof (Hok _ (proj2 (list_elem_of_In _ _) Hin)) as Hx. unfold group_step. destruct (e b) as [num s|num v] eqn:Eb.
  - destruct (read_bytes d offset a' num s t Hg Hx H) as (o & Hk & Ho & Hat & Hb). destruct (tag_of num 2 ltac:(lia)) as [Et Ew]. rewrite Hk, Ew, Et. cbn [Z.eqb Pos.eqb].
    rewrite Ho, Hb. destruct (sub_field _ _ _ _ Hg Hat) as (v & Hsub & <- & Hgv). rewrite Z.sub_add in Hsub. rewrite Hsub.
    by rewrite (Hh b) by (done || by eapply shorter).
  - destruct (read_number d offset a' num v t Hg Hx H) as (o & Hk & Ho). destruct (tag_of num 0 ltac:(lia)) as [Et Ew]. rewrite Hk, Ew. cbn [Z.eqb Pos.eqb].
    rewrite Ho. by rewrite (Hn _ _ _ _ Hin Eb).
Qed.
Lemma domain_loop d fuel l offset : good d -> at_ d offset (enc_items l) -> Forall item_ok l -> (length l <= fuel)%nat ->
  loop (domain_step d) (Z.of_nat (size d)) fuel offset ""%string = Returned (domain_value l).
Proof.
  intros Hg. revert fuel offset. induction l as [|x l IH]; intros fuel offset H Hok Hf; [by rewrite (loop_end _ _ _ _ Hg H)|].
  destruct fuel as [|fuel]; [cbn in Hf; lia|]. rewrite enc_items_cons in H. inversion Hok as [|? ? Hx Hl]; subst. cbn [loop]. rewrite (at_inside _ _ _ _ Hg H).
  pose proof (at_app _ _ _ _ Hg H) as H'. cbn in Hf. destruct x as [num s|num v]; unfold domain_step at 1.
  - destruct (read_bytes d offset ""%string num s _ Hg Hx H) as (o & Hk & Ho & Hat & Hb). destruct (tag_of num 2 ltac:(lia)) as [Et Ew].
    rewrite Hk, Ew, Et. cbn [Z.eqb Pos.eqb]. rewrite Ho, Hb. cbn [domain_value]. destruct (num =? 2); [|apply IH; [done|done|lia]].
    destruct (sub_field _ _ _ _ Hg Hat) as (v & Hsub & <- & Hgv). rewrite Z.sub_add in Hsub. by rewrite Hsub.
  - destruct (read_number d offset ""%string num v _ Hg Hx H) as (o & Hk & Ho). destruct (tag_of num 0 ltac:(lia)) as [Et Ew].
    rewrite Hk, Ew. cbn [Z.eqb Pos.eqb]. rewrite Ho. apply IH; [done|done|lia].
Qed.
Lemma list_loop {A B} (entry : slice -> list A -> run (list A)) (enc : B -> string) (f : B -> list A -> list A) d fuel l acc :
  good d -> content d = enc_items (map (fun b => Bytes 1 (enc b)) l) -> str_len (content d) <= Z.of_nat fuel ->
  (forall b v acc, In b l -> content v = enc b -> good v -> str_len (content v) <= str_len (content d) -> entry v acc = Returned (f b acc)) ->
  loop (list_step entry d) (Z.of_nat (size d)) fuel 0 acc = Returned (fold_left (fun acc s => f s acc) l acc).
Proof.
  intros Hg Hc Hf He. apply (loop_items _ (fun b => Bytes 1 (enc b))); [done|by eapply enough|rewrite <- Hc; apply at_start|].
  intros b offset a t Hin H. unfold list_step.
  destruct (read_bytes d offset a 1 (enc b) t Hg ltac:(lia) H) as (o & Hk & Ho & Hat & Hb). destruct (tag_of 1 2 ltac:(lia)) as [Et Ew].
  rewrite Hk, Ew, Et. cbn [Z.eqb Pos.eqb negb]. rewrite Ho, Hb. destruct (sub_field _ _ _ _ Hg Hat) as (v & Hsub & Hv & Hgv). rewrite Z.sub_add in Hsub. rewrite Hsub.
  pose proof (at_bound _ _ _ Hg Hat) as Hl. destruct Hat as [Hlo Hs]. unfold str_len in Hl, Hlo. rewrite str_length_app in Hl.
  rewrite (proj2 (Z.ltb_ge _ _)) by (unfold str_len; lia). rewrite (He b); [done|done|done|done|]. rewrite Hv. eapply shorter; [done|]. split; [exact Hlo|exact Hs].
Qed.

Definition ok_group (g : group) : Prop := Forall (Forall item_ok) (domains g).
Definition add_domain (d : list item) (cat : CategoryInfo) : CategoryInfo :=
  let v := domain_value d in
  mkCategory (Tag cat) (DomainCount cat + 1) (if len (SampleItems cat) <? 5 then if v =s "" then SampleItems cat else SampleItems cat ++ [v] else SampleItems cat).
Lemma add_domains t n s ds : len s <= 5 ->
  fold_left (fun cat d => add_domain d cat) ds (mkCategory t n s) = mkCategory t (n + len ds) (take 5 (s ++ List.filter (fun v => v <>s "") (map domain_value ds))).
Proof.
  revert n s. induction ds as [|d ds IH]; intros n s Hs; cbn [fold_left map List.filter].
  - rewrite app_nil_r, take_ge by (unfold len in *; lia). f_equal. change (len []) with 0. lia.
  - unfold add_domain at 2. cbn [Tag DomainCount SampleItems]. rewrite len_cons. destruct (Z.ltb_spec (len s) 5).
    + destruct (domain_value d =s ""); cbn [negb].
      * rewrite IH by done. f_equal. lia.
      * rewrite IH by (rewrite len_app; change (len [_]) with 1; lia). rewrite <- app_assoc. cbn [app]. f_equal. lia.
    + rewrite IH by done. f_equal; [lia|]. rewrite !take_app_le by (unfold len in *; lia). done.
Qed.
Lemma fold_left_of_map {A B C} (f : A -> C -> A) (g : B -> C) l a : fold_left f (map g l) a = fold_left (fun a b => f a (g b)) l a.
Proof. revert a. induction l as [|b l IH]; intros a; [done|apply IH]. Qed.
Definition group_item (g : group) (x : option (list item)) : item := match x with None => Bytes 1 (code g) | Some d => Bytes 2 (enc_items d) end.
Lemma group_items_map g : group_items g = map (group_item g) (None :: map Some (domains g)).
Proof. unfold group_items. cbn [map group_item]. by rewrite map_map. Qed.
Lemma site_group_read d fuel g : good d -> content d = enc_items (group_items g) -> ok_group g -> str_len (content d) <= Z.of_nat fuel ->
  parseSingleSiteGroup fuel d = Returned (category_of g).
Proof.
  intros Hg Hc Hok Hf. unfold parseSingleSiteGroup. rewrite group_items_map in Hc.
  rewrite (group_loop _ (group_item g) (fun x cat => match x with None => mkCategory (code g) (DomainCount cat) (SampleItems cat) | Some d => add_domain d cat end) _ _ _ _ Hg Hc); [| |done| |].
  - f_equal. cbn [fold_left DomainCount SampleItems]. rewrite fold_left_of_map. by apply add_domains.
  - apply Forall_forall. intros [l|] _; cbn; lia.
  - intros [l|] num v a Hin E Hv Hl; injection E as <- E; unfold site_field; cbn [Z.eqb Pos.eqb]; [|by rewrite <- E].
    unfold add_domain, extractDomainValue. destruct Hin as [?|Hin]; [done|]. apply in_map_iff in Hin as (l' & [= ->] & Hin).
    unfold ok_group in Hok. rewrite Forall_forall in Hok. specialize (Hok _ (proj2 (list_elem_of_In _ _) Hin)).
    destruct (_ <? 5); [|done]. rewrite (domain_loop _ _ l); [done|done|rewrite E; apply at_start|done|]. symmetry in E.
    rewrite <- (map_id l) in E. eapply enough; [exact E|lia].
  - by intros [l|].
Qed.
Lemma country_read d fuel c : good d -> content d = enc_items (country_items c) -> str_len (content d) <= Z.of_nat fuel ->
  parseSingleGeoIP fuel d = Returned (info_of c).
Proof.
  intros Hg Hc Hf. unfold parseSingleGeoIP. rewrite <- (map_id (country_items c)) in Hc.
  rewrite (group_loop _ _ (fun x g => match x with Bytes num s =>
    if num =? 1 then mkGeoIP s (CIDRCount g) else if num =? 2 then mkGeoIP (CountryCode g) (CIDRCount g + 1) else g | _ => g end) _ _ _ _ Hg Hc); [| |done| |].
  - f_equal. unfold country_items, info_of. cbn [fold_left Z.eqb Pos.eqb CIDRCount]. rewrite <- (Z.add_0_l (len (networks c))). generalize 0.
    induction (networks c) as [|s l IH]; intros z; cbn [map fold_left Z.eqb Pos.eqb CIDRCount CountryCode]; [by rewrite Z.add_0_r|]. rewrite IH, len_cons. f_equal. lia.
  - unfold country_items. constructor; [cbn; lia|]. apply Forall_map, Forall_true. intros. cbn. lia.
  - intros b num v a _ -> _ _. done.
  - by intros b num v a _ ->.
Qed.

(** ** The tool on the files it is meant for *)

Lemma fold_kept {A B} (key : A -> string) (f : B -> A) l acc :
  fold_left (fun acc b => if key (f b) =s "" then acc else acc ++ [f b]) l acc = acc ++ List.filter (fun a => key a <>s "") (map f l).
Proof.
  revert acc. induction l as [|b l IH]; intros acc; cbn [fold_left map List.filter]; [by rewrite app_nil_r|]. rewrite IH. destruct (key (f b) =s ""); cbn [negb]; [done|].
  by rewrite <- app_assoc.
Qed.
Lemma sites_read sort fuel data l : good data -> content data = site_file l -> Forall ok_group l -> str_len (content data) <= Z.of_nat fuel ->
  parseGeositeProtobuf sort fuel data = Returned (sort (List.filter (fun c => Tag c <>s "") (map category_of l))).
Proof.
  intros Hg Hc Hok Hf. unfold parseGeositeProtobuf. rewrite Forall_forall in Hok.
  rewrite (list_loop _ (fun g => enc_items (group_items g)) (fun g acc => if Tag (category_of g) =s "" then acc else acc ++ [category_of g]) _ _ l _ Hg Hc Hf).
  - by rewrite fold_kept.
  - intros g v acc Hin Hv Hgv Hl. unfold site_entry. rewrite (site_group_read _ _ _ Hgv Hv); [done| |lia]. by apply Hok, list_elem_of_In.
Qed.
Lemma networks_read fuel data l : good data -> content data = ip_file l -> str_len (content data) <= Z.of_nat fuel ->
  parseGeoIPProtobuf fuel data = Returned (List.filter (fun i => CountryCode i <>s "") (map info_of l)).
Proof.
  intros Hg Hc Hf. unfold parseGeoIPProtobuf.
  rewrite (list_loop _ (fun c => enc_items (country_items c)) (fun c acc => if CountryCode (info_of c) =s "" then acc else acc ++ [info_of c]) _ _ l _ Hg Hc Hf).
  - by rewrite fold_kept.
  - intros c v acc _ Hv Hgv Hl. unfold ip_entry. rewrite (country_read _ _ _ Hgv Hv); [done|lia].
Qed.

(** C39.  Databases are read back: of a file of groups of names, whose domains carry any
    fields of numbers and of bytes, the tool returns, without a panic and within as many
    iterations as the file has bytes, exactly the groups with a code, each with its code,
    the number of its domains and the first five values of them that are not empty, in the
    order of the sort; of a file of countries it returns the code and the number of
    networks of each country with a code, in the order of the file. *)
Theorem databases_read_back sort fuel :
  (forall data l, good data -> content data = site_file l -> Forall ok_group l -> str_len (content data) <= Z.of_nat fuel ->
     parseGeositeProtobuf sort fuel data = Returned (sort (List.filter (fun c => Tag c <>s "") (map category_of l)))) /\
  (forall data l, good data -> content data = ip_file l -> str_len (content data) <= Z.of_nat fuel ->
     parseGeoIPProtobuf fuel data = Returned (List.filter (fun i => CountryCode i <>s "") (map info_of l))).
Proof. split; intros; [by apply sites_read|by apply networks_read]. Qed.

Definition whole (s : string) : slice := mkSlice s (String.length s).
Definition two_groups : list group :=
  [mkGroup "GOOGLE" [[Number 1 2; Bytes 2 "google.com"]; [Number 1 3; Bytes 2 "youtube.com"; Bytes 3 "ads"]]; mkGroup "" [[Bytes 2 "a.b"]]; mkGroup "RU" []].
Lemma databases_read_back_witness :
  Forall ok_group two_groups /\ parseGeositeProtobuf id 100 (whole (site_file two_groups)) = Returned [mkCategory "GOOGLE" 2 ["google.com"; "youtube.com"]; mkCategory "RU" 0 []].
Proof.
  assert (Hok : Forall ok_group two_groups) by (unfold ok_group; cbn; repeat constructor; cbn; lia). split; [done|].
  rewrite (proj1 (databases_read_back id 100) (whole (site_file two_groups)) two_groups); [by vm_compute| |by vm_compute|exact Hok|by vm_compute].
  split; by vm_compute.
Defined.

(** ** Other files *)

(** A length of 2^64 - 11 under a field that is not the first moves the offset back to
    where it was: the tool does not end. *)
Definition turning_back : string := PutUvarint 18 ^^ PutUvarint (2 ^ 64 - 11).
Example never_ends : forall fuel sort, parseGeositeProtobuf sort fuel (whole turning_back) = Endless.
Proof.
  intros fuel sort. unfold parseGeositeProtobuf. enough (E : loop (list_step (site_entry fuel) (whole turning_back)) (Z.of_nat (size (whole turning_back))) fuel 0 [] = Endless) by by rewrite E.
  assert (S : forall f, list_step (site_entry f) (whole turning_back) 0 [] = Go 0 []) by (intros f; by vm_compute).
  generalize fuel at 1. intros f. induction fuel as [|fuel IH]; [by vm_compute|]. cbn [loop]. by rewrite S.
Qed.
(** A length that reaches past its group is read from the bytes behind it, while there are
    any: the sample comes from a field the tool would skip.  Behind the last byte it
    panics. *)
Definition overlong (n : Z) : string := enc_items [Bytes 1 (enc_items [Bytes 1 "RU"] ^^ PutUvarint 18 ^^ PutUvarint n); Bytes 2 "secret"].
Example neighbour_is_read : parseGeositeProtobuf id 100 (whole (overlong 8)) = Returned [mkCategory "RU" 1 ["secret"]].
Proof. by vm_compute. Qed.
Example past_the_end_panics : parseGeositeProtobuf id 100 (whole (overlong 9)) = Panicked.
Proof. by vm_compute. Qed.
(** A field of four or eight bytes ends the reading: what follows is silently lost. *)
Example fixed_width_ends : parseGeositeProtobuf id 100 (whole (site_file [mkGroup "RU" []] ^^ PutUvarint 13 ^^ "abcd" ^^ site_file [mkGroup "DE" []])) = Returned [mkCategory "RU" 0 []].
Proof. by vm_compute. Qed.
End Geo.
