(* ===== verification/AppBlocker.v ===== *)
(** * Blocked applications (src/pkg/platform/android/security/app_blocker.go)

    The manager's maps, the operations under its lock, and what any run of them leaves.
    A range over a map has no order of its own; here it is that of stdpp's [map_to_list]. *)
From S2P Require Import Prelude GoStrings.
Open Scope Z_scope.

Module Blocking.

Record AppBlockerManager := mkAppBlocker {
  blockedApps : gmap string bool; flaggedSystemApps : gmap string bool; blockedDestinations : gmap string bool; blockedPorts : gmap Z bool }.
Definition emptyAppBlocker : AppBlockerManager := mkAppBlocker ∅ ∅ ∅ ∅.

(** The singleton: [None] before the first call; the call returns what it leaves. *)
Definition GetDefaultEngine (singleton : option AppBlockerManager) : AppBlockerManager :=
  match singleton with Some e => e | None => emptyAppBlocker end.
Definition BlockApp (packageName : string) (e : AppBlockerManager) : AppBlockerManager :=
  mkAppBlocker (<[packageName := true]> (blockedApps e)) (flaggedSystemApps e) (blockedDestinations e) (blockedPorts e).
Definition UnblockApp (packageName : string) (e : AppBlockerManager) : AppBlockerManager :=
  mkAppBlocker (delete packageName (blockedApps e)) (delete packageName (flaggedSystemApps e)) (blockedDestinations e) (blockedPorts e).
Definition IsAppBlocked (e : AppBlockerManager) (packageName : string) : bool := default false (blockedApps e !! packageName).
Definition GetBlockedApps (e : AppBlockerManager) : list string := (map_to_list (blockedApps e)).*1.
Definition GetBlockedDestinations (e : AppBlockerManager) : list string := (map_to_list (blockedDestinations e)).*1.
Definition GetBlockedPorts (e : AppBlockerManager) : list Z := (map_to_list (blockedPorts e)).*1.
Definition ClearAll (e : AppBlockerManager) : AppBlockerManager := emptyAppBlocker.

(** ** Runs *)
Inductive op := Block (p : string) | Unblock (p : string) | Clear.
Definition apply (o : op) : AppBlockerManager -> AppBlockerManager :=
  match o with Block p => BlockApp p | Unblock p => UnblockApp p | Clear => ClearAll end.
(** The last operation first. *)
Definition after (history : list op) : AppBlockerManager := foldr apply emptyAppBlocker history.
(** What the last operation that concerns an application asks for. *)
Fixpoint asked (history : list op) (p : string) : bool :=
  match history with
  | [] => false
  | Block q :: h => (p =s q) || asked h p
  | Unblock q :: h => negb (p =s q) && asked h p
  | Clear :: _ => false
  end.

Lemma block_lookup history p : blockedApps (after history) !! p = if asked history p then Some true else None.
Proof.
  induction history as [|[q|q|] h IH]; [done| | |done]; cbn [after foldr apply asked]; unfold BlockApp, UnblockApp; cbn [blockedApps];
    destruct (String.eqb_spec p q) as [->|Hne]; cbn [negb andb orb].
  - by rewrite lookup_insert_eq.
  - by rewrite lookup_insert_ne by done.
  - by rewrite lookup_delete_eq.
  - by rewrite lookup_delete_ne by done.
Qed.
Lemma no_destinations history : blockedDestinations (after history) = ∅ /\ blockedPorts (after history) = ∅ /\ flaggedSystemApps (after history) = ∅.
Proof.
  induction history as [|[q|q|] h (IH1 & IH2 & IH3)]; [done| | |done]; cbn [after foldr apply]; fold (after h); unfold BlockApp, UnblockApp; cbn [blockedDestinations blockedPorts flaggedSystemApps].
  - done.
  - by rewrite IH3, delete_empty.
Qed.
(** An application is blocked exactly when the last operation that concerns it blocked it,
    and the list names each blocked application once. *)
Lemma blocked_as_asked history : (forall p, IsAppBlocked (after history) p = asked history p) /\
  NoDup (GetBlockedApps (after history)) /\ forall p, p ∈ GetBlockedApps (after history) <-> asked history p = true.
Proof.
  split; [|split; [apply NoDup_fst_map_to_list|]]; intros p.
  - unfold IsAppBlocked. rewrite block_lookup. by destruct (asked history p).
  - unfold GetBlockedApps. rewrite list_elem_of_fmap. setoid_rewrite elem_of_map_to_list'. split.
    + intros ([q b] & -> & Hq). cbn in *. rewrite block_lookup in Hq. by destruct (asked history q).
    + intros Ha. exists (p, true). split; [done|]. cbn. by rewrite block_lookup, Ha.
Qed.
(** No operation blocks a destination or a port: the lists the platform polls are always
    empty. *)
Lemma destinations_never_blocked history : GetBlockedDestinations (after history) = [] /\ GetBlockedPorts (after history) = [].
Proof. destruct (no_destinations history) as (Hd & Hp & _). unfold GetBlockedDestinations, GetBlockedPorts. by rewrite Hd, Hp. Qed.
Example unblocked_again : IsAppBlocked (after [Unblock "a"; Block "b"; Block "a"]) "a" = false /\ GetBlockedApps (after [Unblock "a"; Block "b"; Block "a"]) = ["b"%string].
Proof. by vm_compute. Qed.
End Blocking.
