(* ===== verification/SettingsForm.v ===== *)
(** * The settings page and the catalogue of ports
    (src/pkg/security/config.go, ports_catalog.go)

    The fields of the page in both languages and the ports with their risks, and how they
    stand to the configuration and the policy they describe. *)
From S2P Require Import Prelude GoStrings GoFloat SecurityConfig AuditRules.
Open Scope Z_scope.

Module SettingsPage.
Import SecurityConfig.SecurityConfig.

Section Page.
Context {F : Type} `{Arith F}.

(** A default value is of one of these Go types. *)
Inductive setting := Flag (b : bool) | Whole (z : Z) | Rate (x : F) | Ports (l : list Z) | Text (s : string) | Texts (l : list string).
(** [Validation] is never set. *)
Record SecurityFieldSchema := mkField {
  Key : string; Type_ : string; Label : string; Description : string; DefaultValue : setting; Options : list string; Category : string }.

Definition russian_fields_1 : list SecurityFieldSchema :=
  [mkField "port_guard.enabled" "boolean"
     "Активная защита портов (IPS)"
     "Мониторинг и блокировка попыток несанкционированного доступа к чувствительным портам"
     (Flag true) [] "port_guard";
   mkField "port_guard.sensitive_ports" "tags"
     "Чувствительные порты"
     "Список защищаемых портов (SSH 22, RDP 3389, Proxmox 8006, СУБД 5432/3306 и др.)"
     (Ports [22; 3389; 8006; 5432; 3306; 27017; 6379; 2375; 2376]) [] "port_guard";
   mkField "port_guard.action" "select"
     "Действие при нарушении"
     "Реакция системы при обращении к защищенному порту"
     (Text "block") ["alert"; "block"; "kill"] "port_guard";
   mkField "port_guard.scan_threshold" "number"
     "Порог обнаружения сканирования"
     "Количество попыток подключения к закрытым портам до признания источника сканером"
     (Whole 5) [] "port_guard";
   mkField "port_guard.auto_ban_scanner" "boolean"
     "Авто-бан сканеров портов"
     "Автоматически блокировать IP-адрес при обнаружении порт-сканирования (nmap/masscan)"
     (Flag true) [] "port_guard";
   mkField "rate_limiter.enabled" "boolean"
     "Защита от флуда и DDoS (Rate Limiter)"
     "Ограничение интенсивности входящих и исходящих соединений"
     (Flag true) [] "rate_limiter";
   mkField "rate_limiter.requests_per_second" "number"
     "Макс. запросов в секунду (RPS)"
     "Базовая скорость пропускания новых соединений от одного клиента"
     (Rate (f_of_Z 50)) [] "rate_limiter";
   mkField "rate_limiter.burst" "number"
     "Пиковый лимит (Burst)"
     "Максимально допустимый мгновенный всплеск соединений"
     (Whole 100) [] "rate_limiter";
   mkField "rate_limiter.ban_duration_seconds" "number"
     "Длительность временного бана (сек)"
     "Время изоляции нарушителя в секундах (по умолчанию 300 сек = 5 мин)"
     (Whole 300) [] "rate_limiter"]%string.
Definition russian_fields_2 : list SecurityFieldSchema :=
  [mkField "kill_switch.enabled" "boolean"
     "Kill-Switch (Аварийная изоляция)"
     "Блокировать весь нетуннелированный интернет-трафик при разрыве VPN-сессии"
     (Flag true) [] "kill_switch";
   mkField "kill_switch.strict_dns" "boolean"
     "Защита от утечек DNS"
     "Принудительно направлять DNS-запросы только через зашифрованные DNS-серверы ядра"
     (Flag true) [] "kill_switch";
   mkField "kill_switch.block_ipv6" "boolean"
     "Блокировка утечек IPv6"
     "Блокировать IPv6-трафик, если серверная нода работает только по IPv4"
     (Flag true) [] "kill_switch";
   mkField "kill_switch.allow_local_lan" "boolean"
     "Разрешить локальную сеть (LAN Bypass)"
     "Сохранять доступ к роутеру и локальным устройствам (192.168.x.x, 10.x.x.x)"
     (Flag true) [] "kill_switch";
   mkField "filter.enabled" "boolean"
     "Фильтрация угроз (Threat Shield)"
     "Автоматическая блокировка вредоносных, фишинговых и мошеннических ресурсов"
     (Flag true) [] "filter";
   mkField "filter.block_malware" "boolean"
     "Блокировать вредоносное ПО"
     "Блокировка C2-серверов ботнетов, вирусов и эксплойтов"
     (Flag true) [] "filter";
   mkField "filter.block_phishing" "boolean"
     "Блокировать фишинг"
     "Защита от поддельных страниц банков и сервисов"
     (Flag true) [] "filter";
   mkField "filter.block_miners" "boolean"
     "Блокировать скрытый майнинг"
     "Блокировка браузерного криптомайнинга и пулов"
     (Flag true) [] "filter";
   mkField "filter.block_ads" "boolean"
     "Блокировать рекламу и трекеры"
     "Фильтрация баннерных сетей и систем слежки"
     (Flag false) [] "filter";
   mkField "integrity.block_cloud_metadata" "boolean"
     "Блокировка Cloud Metadata (SSRF)"
     "Запрет доступа к 169.254.169.254 (защита от кражи IAM-токенов в облаках)"
     (Flag true) [] "integrity";
   mkField "integrity.sanitize_configs" "boolean"
     "Санитизация конфигураций"
     "Проверка входящих конфигов на отсутствие небезопасных параметров и скриптов"
     (Flag true) [] "integrity"]%string.
Definition russian_fields : list SecurityFieldSchema := russian_fields_1 ++ russian_fields_2.
Definition english_fields_1 : list SecurityFieldSchema :=
  [mkField "port_guard.enabled" "boolean"
     "Active Port Guard (IPS)"
     "Monitor and block unauthorized access attempts to sensitive ports"
     (Flag true) [] "port_guard";
   mkField "port_guard.sensitive_ports" "tags"
     "Sensitive Ports"
     "List of monitored ports (SSH 22, RDP 3389, Proxmox 8006, DBs 5432/3306, etc.)"
     (Ports [22; 3389; 8006; 5432; 3306; 27017; 6379; 2375; 2376]) [] "port_guard";
   mkField "port_guard.action" "select"
     "Action on Violation"
     "Response action upon connection to a protected port"
     (Text "block") ["alert"; "block"; "kill"] "port_guard";
   mkField "port_guard.scan_threshold" "number"
     "Port Scan Threshold"
     "Number of unique probes before source is identified as scanner"
     (Whole 5) [] "port_guard";
   mkField "port_guard.auto_ban_scanner" "boolean"
     "Auto-Ban Port Scanners"
     "Automatically ban IP address on port scan detection"
     (Flag true) [] "port_guard";
   mkField "rate_limiter.enabled" "boolean"
     "Rate Limiter & Anti-Flood"
     "Limit connection frequency to prevent flooding and abuse"
     (Flag true) [] "rate_limiter";
   mkField "rate_limiter.requests_per_second" "number"
     "Max Requests Per Second (RPS)"
     "Token-bucket baseline rate per client/IP"
     (Rate (f_of_Z 50)) [] "rate_limiter";
   mkField "rate_limiter.burst" "number"
     "Burst Capacity"
     "Maximum allowed instantaneous burst capacity"
     (Whole 100) [] "rate_limiter";
   mkField "rate_limiter.ban_duration_seconds" "number"
     "Ban Duration (Seconds)"
     "Temporary ban isolation time (default 300s = 5m)"
     (Whole 300) [] "rate_limiter"]%string.
Definition english_fields_2 : list SecurityFieldSchema :=
  [mkField "kill_switch.enabled" "boolean"
     "Kill-Switch Protection"
     "Block all non-tunneled internet traffic if VPN disconnects"
     (Flag true) [] "kill_switch";
   mkField "kill_switch.strict_dns" "boolean"
     "DNS Leak Protection"
     "Enforce routing of DNS exclusively via core encrypted resolvers"
     (Flag true) [] "kill_switch";
   mkField "kill_switch.block_ipv6" "boolean"
     "Block IPv6 Leaks"
     "Block IPv6 traffic when proxy node is IPv4-only"
     (Flag true) [] "kill_switch";
   mkField "kill_switch.allow_local_lan" "boolean"
     "Allow Local LAN Bypass"
     "Keep local router and LAN devices reachable (192.168.x.x, 10.x.x.x)"
     (Flag true) [] "kill_switch";
   mkField "filter.enabled" "boolean"
     "Threat Shield Filter"
     "Automatically filter out malicious, phishing, and mining domains"
     (Flag true) [] "filter";
   mkField "filter.block_malware" "boolean"
     "Block Malware & Botnets"
     "Block known malware command & control hosts"
     (Flag true) [] "filter";
   mkField "filter.block_phishing" "boolean"
     "Block Phishing Sites"
     "Protect against fraudulent credential harvesting portals"
     (Flag true) [] "filter";
   mkField "filter.block_miners" "boolean"
     "Block Crypto Miners"
     "Block unauthorized browser and script mining pools"
     (Flag true) [] "filter";
   mkField "filter.block_ads" "boolean"
     "Block Ads & Trackers"
     "Filter out telemetry, analytics, and advertising networks"
     (Flag false) [] "filter";
   mkField "integrity.block_cloud_metadata" "boolean"
     "Block Cloud Metadata (SSRF)"
     "Prevent requests to 169.254.169.254 (cloud IAM token protection)"
     (Flag true) [] "integrity";
   mkField "integrity.sanitize_configs" "boolean"
     "Sanitize Configurations"
     "Audit incoming proxy configs for dangerous or invalid parameters"
     (Flag true) [] "integrity"]%string.
Definition english_fields : list SecurityFieldSchema := english_fields_1 ++ english_fields_2.
Definition GenerateSecuritySchema (lang : string) : list SecurityFieldSchema := if ToLower lang =s "ru" then russian_fields else english_fields.

(** ** The settings by the keys of their JSON *)
Definition settings (c : SecurityConfig F) : list (string * setting) :=
  [("enabled", Flag (Enabled c));
   ("port_guard.enabled", Flag (pg_Enabled (PortGuard c)));
   ("port_guard.sensitive_ports", Ports (pg_SensitivePorts (PortGuard c)));
   ("port_guard.action", Text (pg_Action (PortGuard c)));
   ("port_guard.scan_threshold", Whole (pg_ScanThreshold (PortGuard c)));
   ("port_guard.scan_window_seconds", Whole (pg_ScanWindowSeconds (PortGuard c)));
   ("port_guard.auto_ban_scanner", Flag (pg_AutoBanScanner (PortGuard c)));
   ("rate_limiter.enabled", Flag (rl_Enabled (RateLimiter c)));
   ("rate_limiter.requests_per_second", Rate (rl_RequestsPerSecond (RateLimiter c)));
   ("rate_limiter.burst", Whole (rl_Burst (RateLimiter c)));
   ("rate_limiter.ban_threshold_violations", Whole (rl_BanThresholdViolations (RateLimiter c)));
   ("rate_limiter.ban_duration_seconds", Whole (rl_BanDurationSeconds (RateLimiter c)));
   ("kill_switch.enabled", Flag (ks_Enabled (KillSwitch c)));
   ("kill_switch.block_ipv6", Flag (ks_BlockIPv6 (KillSwitch c)));
   ("kill_switch.allow_local_lan", Flag (ks_AllowLocalLAN (KillSwitch c)));
   ("kill_switch.strict_dns", Flag (ks_StrictDNS (KillSwitch c)));
   ("kill_switch.allowed_subnets", Texts (ks_AllowedSubnets (KillSwitch c)));
   ("integrity.sanitize_configs", Flag (in_SanitizeConfigs (Integrity c)));
   ("integrity.block_cloud_metadata", Flag (in_BlockCloudMetadata (Integrity c)));
   ("integrity.verify_signatures", Flag (in_VerifySignatures (Integrity c)));
   ("integrity.zeroize_on_drop", Flag (in_ZeroizeOnDrop (Integrity c)));
   ("filter.enabled", Flag (fl_Enabled (Filter c)));
   ("filter.block_malware", Flag (fl_BlockMalware (Filter c)));
   ("filter.block_phishing", Flag (fl_BlockPhishing (Filter c)));
   ("filter.block_miners", Flag (fl_BlockMiners (Filter c)));
   ("filter.block_ads", Flag (fl_BlockAds (Filter c)));
   ("filter.custom_blocked_domains", Texts (fl_CustomBlockedDomains (Filter c)));
   ("filter.custom_allowed_domains", Texts (fl_CustomAllowedDomains (Filter c)));
   ("filter.custom_blocked_ips", Texts (fl_CustomBlockedIPs (Filter c)));
   ("whitelist.processes", Texts (wl_Processes (Whitelist c)));
   ("whitelist.ips", Texts (wl_IPs (Whitelist c)))]%string.

(** The widget fits the value. *)
Definition widget_fits (f : SecurityFieldSchema) : bool :=
  match DefaultValue f with
  | Flag _ => Type_ f =s "boolean"
  | Whole _ | Rate _ => Type_ f =s "number"
  | Ports _ | Texts _ => Type_ f =s "tags"
  | Text s => (Type_ f =s "select") && existsb (String.eqb s) (Options f)
  end.
Definition only_select_has_options (f : SecurityFieldSchema) : bool := Bool.eqb (Type_ f =s "select") (negb (len (Options f) =? 0)).
Definition in_category (f : SecurityFieldSchema) : bool := HasPrefix (Key f) (Category f ^^ ".").
Definition titled (f : SecurityFieldSchema) : bool := (Label f <>s "") && (Description f <>s "").
(** A field without its texts. *)
Definition untitled (f : SecurityFieldSchema) : string * string * setting * list string * string := (Key f, Type_ f, DefaultValue f, Options f, Category f).

(** ** The catalogue of ports (ports_catalog.go) *)
Record PortShieldItem := mkItem {
  Port : Z; Protocol : string; Name : string; ThreatRisk : string; Severity : string; DefaultOn : bool; ItemCategory : string }.
Record catalogEntry := mkEntry {
  e_Port : Z; e_Protocol : string; NameEN : string; NameRU : string; RiskEN : string; RiskRU : string; e_Severity : string; e_DefaultOn : bool; e_Category : string }.
Definition defaultPortCatalog : list catalogEntry :=
  [mkEntry 445 "TCP" "SMB / Windows File Sharing" "SMB / Общий доступ к файлам Windows"
     "Vector for ransomware propagation (WannaCry, NotPetya) and EternalBlue exploits."
     "Вектор распространения вирусов-вымогателей (Ransomware, WannaCry) и EternalBlue."
     "critical" false "file_sharing";
   mkEntry 135 "TCP" "RPC Endpoint Mapper" "RPC Endpoint Mapper"
     "Remote code execution and network service enumeration via DCOM RPC."
     "Удаленное выполнение кода и перечисление сетевых сервисов через DCOM RPC."
     "critical" false "rpc";
   mkEntry 139 "TCP" "NetBIOS Session Service" "NetBIOS Session Service"
     "NTLM hash relaying, credential leakage, and unauthorized local share access."
     "Утечка NTLM-хэшей и несанкционированный доступ к локальным ресурсам."
     "high" false "file_sharing";
   mkEntry 3389 "TCP/UDP" "Remote Desktop (RDP)" "Remote Desktop (RDP)"
     "Vulnerable to credential brute-forcing, BlueKeep exploits, and unauthorized remote control."
     "Уязвимость к брутфорсу паролей, BlueKeep и несанкционированному удаленному доступу."
     "critical" false "remote_access";
   mkEntry 22 "TCP" "SSH Remote Console" "SSH Remote Console"
     "Target for automated credential brute-force bots and unauthorized terminal access."
     "Несанкционированный доступ и брутфорс учетных записей сервера (SSH)."
     "high" false "remote_access";
   mkEntry 23 "TCP" "Telnet Remote Console" "Telnet Remote Console"
     "Cleartext unencrypted remote management protocol (high credential interception risk)."
     "Незащищенный текстовый протокол управления (высокий риск перехвата учетных данных)."
     "high" false "remote_access";
   mkEntry 5353 "UDP" "mDNS / Multicast Name Resolution" "mDNS / Multicast Name Resolution"
     "Vulnerable to local network name spoofing and poisoning (Responder/Poisoning)."
     "Уязвимость к атакам подмены сетевых имен (Responder/Poisoning) в локальной сети."
     "medium" false "network_discovery";
   mkEntry 5900 "TCP" "VNC Remote Desktop" "VNC Удаленный рабочий стол"
     "Often unauthenticated or weakly encrypted remote frame buffer access."
     "Слабозащищенный доступ к удаленному рабочему столу VNC."
     "high" false "remote_access";
   mkEntry 5355 "UDP" "LLMNR Link-Local Multicast" "LLMNR Разрешение имен"
     "Susceptible to LLMNR poisoning and NTLMv2 password hash capture."
     "Уязвимость к атакам перехвата NTLMv2 хэшей через LLMNR poisoning."
     "high" false "network_discovery"]%string.
Definition GetPortShieldCatalog (lang : string) : list PortShieldItem :=
  let isRU := HasPrefix (ToLower (TrimSpace lang)) "ru" in
  map (fun c => mkItem (e_Port c) (e_Protocol c) (if isRU then NameRU c else NameEN c) (if isRU then RiskRU c else RiskEN c) (e_Severity c) (e_DefaultOn c) (e_Category c))
    defaultPortCatalog.
Definition item_ok (i : PortShieldItem) : bool :=
  (1 <=? Port i) && (Port i <=? 65535) && existsb (String.eqb (Protocol i)) ["TCP"; "UDP"; "TCP/UDP"]%string &&
  existsb (String.eqb (Severity i)) ["critical"; "high"; "medium"]%string && (Name i <>s "") && (ThreatRisk i <>s "").

(** ** What holds of both *)
Definition field_ok (f : SecurityFieldSchema) : Prop :=
  (Key f, DefaultValue f) ∈ settings DefaultSecurityConfig /\ widget_fits f = true /\ only_select_has_options f = true /\ in_category f = true /\ titled f = true.
Lemma form_lang (P : list SecurityFieldSchema -> Prop) lang : P russian_fields -> P english_fields -> P (GenerateSecuritySchema lang).
Proof using Type. unfold GenerateSecuritySchema. by destruct (_ =s _). Qed.
Lemma fields_of l : forallb (fun f => widget_fits f && only_select_has_options f && in_category f && titled f) l = true ->
  Forall2 (fun f i => settings DefaultSecurityConfig !! i = Some (Key f, DefaultValue f)) l
    [1; 2; 3; 4; 6; 7; 8; 9; 11; 12; 15; 13; 14; 21; 22; 23; 24; 25; 18; 17]%nat -> Forall field_ok l.
Proof using Type.
  intros Hb H2. rewrite forallb_forall in Hb. apply Forall_forall. intros f Hf. pose proof Hf as Hf'. apply list_elem_of_In in Hf'. specialize (Hb f Hf').
  rewrite !andb_true_iff in Hb. destruct Hb as [[[Hb1 Hb2] Hb3] Hb4]. split; [|done].
  apply list_elem_of_lookup in Hf as [k Hk]. destruct (Forall2_lookup_l _ _ _ _ _ H2 Hk) as (i & _ & Hi). by eapply list_elem_of_lookup_2.
Qed.
Lemma form_fields lang : Forall field_ok (GenerateSecuritySchema lang).
Proof using Type. apply form_lang; apply fields_of; first [by vm_compute|repeat constructor]. Qed.
Lemma form_same lang : map untitled (GenerateSecuritySchema lang) = map untitled russian_fields.
Proof using Type. by apply form_lang. Qed.
Lemma action_options lang f : f ∈ GenerateSecuritySchema lang -> Key f = "port_guard.action"%string -> Options f = [PortActionAlert; PortActionBlock; PortActionKill].
Proof using Type.
  assert (Hb : forallb (fun f => negb (Key f =s "port_guard.action") || bool_decide (Options f = [PortActionAlert; PortActionBlock; PortActionKill])) (GenerateSecuritySchema lang) = true)
    by (apply (form_lang (fun l => forallb _ l = true)); by vm_compute).
  intros Hf Hk. rewrite forallb_forall in Hb. specialize (Hb f ltac:(by apply list_elem_of_In)). rewrite Hk in Hb. by apply bool_decide_eq_true_1 in Hb.
Qed.
Lemma action_accepted c a : valid c -> (exists c', Validate (set_action c a) = inl c') <-> a = ""%string \/ a ∈ [PortActionAlert; PortActionBlock; PortActionKill].
Proof using Type.
  intros (H1 & H2 & H3 & _). unfold Validate. cbn [RateLimiter PortGuard set_action pg_ScanThreshold pg_Action]. rewrite H1.
  rewrite (proj2 (Z.leb_gt _ _) H2), (proj2 (Z.leb_gt _ _) H3). rewrite !elem_of_cons. 
  assert (E : (a =s PortActionAlert) || (a =s PortActionBlock) || (a =s PortActionKill) = true <-> a = PortActionAlert \/ a = PortActionBlock \/ a = PortActionKill \/ a ∈ @nil string).
  { rewrite !orb_true_iff, !String.eqb_eq, elem_of_nil. tauto. }
  rewrite <- E. destruct (_ || _ || _); [split; eauto|]. destruct (String.eqb_spec a ""); [split; eauto|]. split; [by intros [? ?]|by intros [?|?]].
Qed.

(** The settings page tells the truth: whatever the language, every field is that of
    a setting of the configuration, offers the default configuration's value as its
    default, has the widget for a value of its type, stands in the category its key names
    and has a text; no key comes twice, and the fields of two languages differ in their
    texts only.  The actions that are offered are exactly those that a valid configuration
    can be given, the empty one apart.  Every port that the default policy shields has
    one entry of the catalogue, with a name and its risk. *)
Theorem settings_page_faithful lang lang' :
  (forall f, f ∈ GenerateSecuritySchema lang -> field_ok f) /\ NoDup (map Key (GenerateSecuritySchema lang)) /\
  map untitled (GenerateSecuritySchema lang) = map untitled (GenerateSecuritySchema lang') /\
  (forall f c a, f ∈ GenerateSecuritySchema lang -> Key f = "port_guard.action"%string -> valid c ->
     (exists c', Validate (set_action c a) = inl c') <-> a = ""%string \/ a ∈ Options f) /\
  (forall p, p ∈ AuditRules.ProtectedPorts AuditRules.DefaultSecurityPolicy ->
     exists i, List.filter (fun i => Port i =? p) (GetPortShieldCatalog lang) = [i] /\ item_ok i = true).
Proof using Type.
  split; [|split; [|split; [|split]]].
  - intros f Hf. pose proof (form_fields lang) as Hall. rewrite Forall_forall in Hall. by apply Hall.
  - apply (form_lang (fun l => NoDup (map Key l))); apply (bool_decide_eq_true_1 _); by vm_compute.
  - by rewrite !form_same.
  - intros f c a Hf Hk Hv. rewrite (action_options lang f Hf Hk). by apply action_accepted.
  - intros p Hp. unfold GetPortShieldCatalog. set (isRU := HasPrefix _ _). cbn [AuditRules.ProtectedPorts AuditRules.DefaultSecurityPolicy] in Hp.
    rewrite !elem_of_cons in Hp. destruct isRU; repeat destruct Hp as [->|Hp]; try (eexists; split; [reflexivity|reflexivity]); by apply elem_of_nil in Hp.
Qed.
End Page.

Lemma settings_page_faithful_witness : exists f, f ∈ GenerateSecuritySchema (F:=QArith_base.Q) "en" /\ valid (F:=QArith_base.Q) DefaultSecurityConfig /\
  ((exists c', Validate (F:=QArith_base.Q) (set_action DefaultSecurityConfig "kill") = inl c') <-> "kill"%string = ""%string \/ "kill"%string ∈ Options f).
Proof.
  exists (mkField "port_guard.action" "select" "Action on Violation" "Response action upon connection to a protected port" (Text "block") ["alert"; "block"; "kill"]%string "port_guard").
  assert (Hin : mkField "port_guard.action" "select" "Action on Violation" "Response action upon connection to a protected port" (Text "block") ["alert"; "block"; "kill"]%string "port_guard"
    ∈ GenerateSecuritySchema (F:=QArith_base.Q) "en") by (apply (list_elem_of_lookup_2 _ 2); reflexivity).
  assert (Hv : valid (F:=QArith_base.Q) DefaultSecurityConfig) by (split_and!; [reflexivity|reflexivity|reflexivity|apply (list_elem_of_lookup_2 _ 1); reflexivity]).
  split; [exact Hin|split; [exact Hv|]].
  exact (proj1 (proj2 (proj2 (proj2 (settings_page_faithful (F:=QArith_base.Q) "en" "ru")))) _ _ "kill"%string Hin eq_refl Hv).
Defined.

(** The settings without a field. *)
Example settings_without_field :
  List.filter (fun k => negb (existsb (String.eqb k) (map (Key (F:=QArith_base.Q)) (GenerateSecuritySchema "en")))) (map fst (settings (F:=QArith_base.Q) DefaultSecurityConfig)) =
  ["enabled"; "port_guard.scan_window_seconds"; "rate_limiter.ban_threshold_violations"; "kill_switch.allowed_subnets"; "integrity.verify_signatures";
   "integrity.zeroize_on_drop"; "filter.custom_blocked_domains"; "filter.custom_allowed_domains"; "filter.custom_blocked_ips"; "whitelist.processes"; "whitelist.ips"]%string.
Proof. by vm_compute. Qed.
(** The catalogue recommends none of the ports, not even those shielded by default. *)
Example nothing_recommended lang : Forall (fun i => DefaultOn i = false) (GetPortShieldCatalog lang).
Proof. unfold GetPortShieldCatalog. destruct (HasPrefix _ _); repeat constructor. Qed.
(** The name of a region is Russian to the catalogue and English to the page. *)
Example region_of_language : GenerateSecuritySchema (F:=QArith_base.Q) "ru-RU" = GenerateSecuritySchema "en" /\ GetPortShieldCatalog "ru-RU" = GetPortShieldCatalog "ru".
Proof. split; reflexivity. Qed.
End SettingsPage.
