(* ===== verification/SecurityExports.v ===== *)
(** * The C interface of the security functions
    (src/cmd/cshared/security_exports.go, android_exports.go, main.go)

    The objects of the process that the exported functions share, and every exported
    function as a step of them.  A string of C is an option, [None] being the null pointer;
    a reply is what is printed as JSON or as it is.  Decoding JSON is an argument. *)
From S2P Require Import Prelude GoStrings GoFloat GoTime GoRegexp Bytes AuditRules AuditEngine Auditors Logs Sessions SessionLines Netfilter LogParsers LogSearch LogIngest SshMonitor Tailer Events Pipeline Packet Pcap RingBuffer TunInbounds SecurityConfig SettingsForm AppBlocker Integrity.
Import AuditRules.
Open Scope Z_scope.

Module CInterface.
Section interface.
Context `{LocalZone} {order : RangeOrder string} {ports_order : RangeOrder Z} {sorter : RingBuffer.CountSort} {F : Type} `{Arith F}.
Context (loc : Sessions.Locale) (json : string -> option (gmap string string)) (jsonObject : string -> option Ast.jmap).

(** ** Reading arguments (main.go) *)
Definition c_string : Type := option string.
Definition safeGoString (s : c_string) : string := default "" s.
(** What is decoded before the first error, and whether there is none. *)
Fixpoint hex_prefix (s : string) : string * bool :=
  match s with
  | EmptyString => (""%string, true)
  | String a (String b s) =>
      match Signing.fromHexChar a, Signing.fromHexChar b with
      | Some x, Some y => let '(t, ok) := hex_prefix s in (String (ascii_of_N (x * 16 + y)) t, ok)
      | _, _ => (""%string, false)
      end
  | String _ EmptyString => (""%string, false)
  end.
Definition hexDecode (s : string) : string * bool := hex_prefix (Join (SplitByte (TrimPrefix s "0x") " ") "").

(** Decoders of JSON: a value, or the text of the error.  Where the error is ignored, what
    the decoder leaves. *)
Class Decoders := {
  d_hex_error : string -> string;
  d_request : string -> string + SecurityAuditRequest;
  d_policy : string -> string + SecurityPolicyConfig;
  d_iptables : string -> string + Netfilter.IptablesEvent;
  d_classifier : string -> Netfilter.ClassifierPolicy -> Netfilter.ClassifierPolicy;
  d_lines : string -> string + list string;
  d_pipeline : string -> Ingest.PipelineConfig -> Ingest.PipelineConfig;
  d_entry : string -> string + RingBuffer.AndroidLogEntry;
  d_router : string -> string + (Z * Z * Z * Z * Z * list Z);
  d_security : string -> SecurityConfig.SecurityConfig F -> option (SecurityConfig.SecurityConfig F) }.
Context `{Decoders}.

(** ** Replies *)
Inductive reply :=
  | Text (s : string)
  | Success | Processed | Valid
  | Failure (e : string) | Unsuccessful (e : string) | Invalid (e : option (SecurityConfig.config_error (F:=F)))
  | AVerdict (v : SecurityAuditVerdict) | APolicy (p : SecurityPolicyConfig) | AConfig (c : SecurityConfig.SecurityConfig F)
  | AForm (l : list (SettingsPage.SecurityFieldSchema (F:=F))) | ACatalog (l : list SettingsPage.PortShieldItem)
  | Banned (l : list BannedEntity) | PcapStatus (s : PcapCaptureStatus)
  | AnIptablesEvent (ev : Netfilter.IptablesEvent) | AClassification (r : Netfilter.ClassificationResult)
  | AClient (email ip inbound_tag : string) | ALogin (ev : SshMonitor.SSHEvent) | ARouterEvent (ev : Netfilter.RouterEvent)
  | AnEvent (ev : Dispatch.SecurityEvent)
  | Blocked (b : bool) | BlockedLists (apps destinations : list string) (ports : list Z)
  | Entries (l : list RingBuffer.AndroidLogEntry) | Stats (s : RingBuffer.AndroidLogStats)
  | Dissected (d : Packet.DissectedPacket)
  | AConnection (protocol src_ip : string) (src_port : Z) (dest_ip : string) (dest_port : Z) (is_hotspot : bool) (source_type : string).

(** ** The shared objects *)
Record Library := mkLibrary {
  engine : AuditEngine.UnifiedSecurityEngine;
  own : LogParsers.SingboxParser;
  pipeline : Ingest.SecurityPipeline;
  blocker : option Blocking.AppBlockerManager;
  ring : RingBuffer.AndroidLogRingBuffer;
  captures : gmap string (list Z);
}.
Definition with_engine (l : Library) e : Library := mkLibrary e (own l) (pipeline l) (blocker l) (ring l) (captures l).
Definition with_pipeline (l : Library) p : Library := mkLibrary (engine l) (own l) p (blocker l) (ring l) (captures l).
Definition with_blocker (l : Library) b : Library := mkLibrary (engine l) (own l) (pipeline l) (Some b) (ring l) (captures l).
Definition with_ring (l : Library) b : Library := mkLibrary (engine l) (own l) (pipeline l) (blocker l) b (captures l).
Definition with_capture (l : Library) path file : Library := mkLibrary (engine l) (own l) (pipeline l) (blocker l) (ring l) (<[path := file]> (captures l)).

(** What a call meets outside: the clock and the kernel's connections, whether a packet
    was recorded, what fails while a file is written, and a random number. *)
Record world := mkWorld { moment : Ingest.moment; recorded : bool; fault : option Pcap.io_fault; random : option Z }.
Definition now (w : world) : Z := Ingest.now (moment w).
(** [None] is a panic. *)
Definition step : Type := Library -> option (Library * reply).
Definition answer (r : reply) : step := fun l => Some (l, r).
(** [C.CString("")] for nothing. *)
Definition perhaps {A} (f : A -> reply) (x : option A) : reply := match x with Some a => f a | None => Text "" end.
Definition decoded {A} (x : string + A) (failure : string -> reply) (k : A -> step) : step :=
  match x with inl e => answer (failure e) | inr a => k a end.

(** ** Functions of security_exports.go *)
Definition or_ru (lang : string) : string := if lang =s "" then "ru" else lang.
Definition SentinelGetSecuritySchema (lang : c_string) : step := answer (AForm (SettingsPage.GenerateSecuritySchema (or_ru (safeGoString lang)))).
Definition SentinelGetDefaultSecurityConfig : step := answer (AConfig SecurityConfig.DefaultSecurityConfig).
Definition SentinelValidateSecurityConfig (configJSON : c_string) : step :=
  answer match SecurityConfig.FromJSON d_security (safeGoString configJSON) with
         | Some (inl _) => Valid
         | Some (inr e) => Invalid (Some e)
         | None => Invalid None
         end.
Definition SentinelAuditConnection (w : world) (reqJSON : c_string) : step :=
  decoded (d_request (safeGoString reqJSON)) Failure (fun req l =>
    '(e, v) ← AuditEngine.AuditConnection (now w) (recorded w) req (engine l); Some (with_engine l e, AVerdict v)).
Definition SentinelGetPortShieldCatalog (lang : c_string) : step := answer (ACatalog (SettingsPage.GetPortShieldCatalog (or_ru (safeGoString lang)))).
Definition SentinelConfigureSecurityPolicy (policyJSON : c_string) : step :=
  decoded (d_policy (safeGoString policyJSON)) Unsuccessful (fun p l => Some (with_engine l (AuditEngine.ConfigurePolicy (engine l) p), Success)).
Definition SentinelGetSecurityPolicy : step := fun l => Some (l, APolicy (AuditEngine.GetPolicy (engine l))).
Definition SentinelIngestCoreLog (w : world) (logLine : c_string) : step := fun l =>
  '(e, o, shared, v) ← LogIngest.IngestCoreLog (now w) (recorded w) (engine l) (own l) (Ingest.coreParser (pipeline l)) (safeGoString logLine);
  let p := pipeline l in
  Some (mkLibrary e o (Ingest.with_core p shared (Ingest.broadcaster p) (Ingest.tracker p)) (blocker l) (ring l) (captures l), perhaps AVerdict v).
Definition SentinelGetBlockedApps : step := fun l => Some (l, Banned (AuditEngine.GetBlockedEntities (engine l))).
Definition SentinelUnblockApp (callerID : c_string) : step := fun l =>
  let id := safeGoString callerID in
  Some (if id =s "" then l else with_engine l (AuditEngine.UnblockEntity (engine l) id), Success).
Definition SentinelUnblockAllApps : step := fun l => Some (with_engine l (AuditEngine.UnblockAllEntities (engine l)), Success).
Definition SentinelGetPcapStatus (w : world) : step := fun l => Some (l, PcapStatus (AuditEngine.GetPcapStatus (now w) (engine l))).
Definition SentinelStopPcapCapture : step := fun l => Some (with_engine l (AuditEngine.StopPcapSession (engine l)), Success).
Definition SentinelParseIptablesLine (line : c_string) (vpnVMID : Z) : step :=
  answer (perhaps AnIptablesEvent (Netfilter.ParseIptablesLine (safeGoString line) vpnVMID)).
Definition SentinelClassifyConnection (eventJSON policyJSON lang : c_string) : step :=
  decoded (d_iptables (safeGoString eventJSON)) Failure (fun ev =>
    let policy := Netfilter.DefaultClassifierPolicy in
    let policy := if safeGoString policyJSON =s "" then policy else d_classifier (safeGoString policyJSON) policy in
    answer (AClassification (Netfilter.ClassifyConnection ev policy (safeGoString lang)))).
Definition SentinelFindRealVPNClientIP (w : world) (proto containerIP dstIP : c_string) (sport dpt : Z) (conntrackDump : c_string) : step :=
  answer (Text (Netfilter.FindRealVPNClientIP (Ingest.connections (moment w)) (safeGoString proto) (safeGoString containerIP) (safeGoString dstIP) sport dpt (safeGoString conntrackDump))).
Definition SentinelFindXrayClientEmail (w : world) (linesJSON clientIP dstIP : c_string) (dstPort maxAgeSec : Z) : step :=
  decoded (d_lines (safeGoString linesJSON)) Failure (fun lines =>
    let '(email, ip, tag) := LogSearch.FindEmailAndIPInXrayLog (now w) lines (safeGoString clientIP) (safeGoString dstIP) dstPort maxAgeSec in
    answer (AClient email ip tag)).
Definition SentinelFindHysteriaClientEmail (w : world) (linesJSON dstIP : c_string) (dstPort maxAgeSec : Z) : step :=
  decoded (d_lines (safeGoString linesJSON)) (fun _ => Text "") (fun lines =>
    answer (Text (LogSearch.FindEmailInHysteriaLog jsonObject (now w) lines (safeGoString dstIP) dstPort maxAgeSec))).
Definition SentinelFindClientIPForEmail (w : world) (linesJSON email : c_string) (maxAgeSec : Z) : step :=
  decoded (d_lines (safeGoString linesJSON)) (fun _ => Text "") (fun lines =>
    answer (Text (LogSearch.FindClientIPForEmailInHysteriaLog jsonObject (now w) lines (safeGoString email) maxAgeSec))).
Definition SentinelParseAuthLogLine (w : world) (line : c_string) : step := answer (perhaps ALogin (SshMonitor.ParseAuthLine (now w) (safeGoString line))).
(** The parsers of the router's lines ask the detector of the pipeline. *)
Definition parse_router_line (parse : Z -> Netfilter.RouterThreatDetector -> string -> Netfilter.RouterThreatDetector * option Netfilter.RouterEvent)
    (w : world) (line : c_string) : step := fun l =>
  let '(d, ev) := parse (now w) (Ingest.threatDetector (pipeline l)) (safeGoString line) in
  Some (with_pipeline l (Ingest.with_detector (pipeline l) d), perhaps ARouterEvent ev).
Definition SentinelParseRouterConntrackLine : world -> c_string -> step := parse_router_line Netfilter.ParseRouterConntrackLine.
Definition SentinelParseRouterIptablesLine : world -> c_string -> step := parse_router_line Netfilter.ParseRouterIptablesLine.
Definition SentinelStartSecurityPipeline (configJSON : c_string) : step := fun l =>
  let cfg := Ingest.DefaultPipelineConfig in
  let cfg := if safeGoString configJSON =s "" then cfg else d_pipeline (safeGoString configJSON) cfg in
  Some (with_pipeline l (Ingest.Start (Ingest.Configure cfg (pipeline l))), Success).
(** The wait for an event is not modelled: the queue is read as it is when it ends. *)
Definition SentinelPollSecurityEvent : step := fun l =>
  let '(d, ev) := Dispatch.PopEvent (Ingest.dispatcher (pipeline l)) in
  Some (with_pipeline l (Ingest.with_dispatcher (pipeline l) d), perhaps AnEvent ev).
Definition SentinelStopSecurityPipeline : step := fun l => Some (with_pipeline l (Ingest.Stop (pipeline l)), Success).
Definition reported (r : option (Ingest.SecurityPipeline * option Dispatch.SecurityEvent)) (k : option Dispatch.SecurityEvent -> reply) : step := fun l =>
  '(p, ev) ← r; Some (with_pipeline l p, k ev).
Definition SentinelProcessTrafficLine (w : world) (source line : c_string) : step := fun l =>
  let m := moment w in let goSource := safeGoString source in let goLine := safeGoString line in let p := pipeline l in
  if goSource =s "proxmox_iptables" then reported (Ingest.ProcessProxmoxIptablesLine m goLine p) (perhaps AnEvent) l
  else if goSource =s "router_conntrack" then reported (Ingest.ProcessRouterConntrackLine m goLine p) (perhaps AnEvent) l
  else if goSource =s "router_syslog" then reported (Ingest.ProcessRouterIptablesLine m goLine p) (perhaps AnEvent) l
  else if goSource =s "auth_ssh" then reported (Ingest.ProcessAuthLogLine m goLine p) (perhaps AnEvent) l
  else if HasPrefix goSource "core:" then reported (Ingest.ProcessProxyCoreLine loc json m (TrimPrefix goSource "core:") goLine p) (fun _ => Processed) l
  else Some (l, Text "").
Definition SentinelConfigureRouterThreatDetector (configJSON : c_string) : step :=
  if TrimSpace (safeGoString configJSON) =s "" then answer Success
  else decoded (d_router (safeGoString configJSON)) Unsuccessful (fun cfg l =>
    let '(ScanLimit, BurstLimit1m, BurstLimit3m, TargetBruteLimit, WindowMinutes, SensitivePorts) := cfg in
    let win := if 0 <? WindowMinutes then DurMul WindowMinutes Minute else 0 in
    let d := Netfilter.Configure (Ingest.threatDetector (pipeline l)) ScanLimit BurstLimit1m BurstLimit3m TargetBruteLimit win SensitivePorts in
    let d := if 0 <? len SensitivePorts then Netfilter.SetSensitivePorts d SensitivePorts else d in
    Some (with_pipeline l (Ingest.with_detector (pipeline l) d), Success)).

(** ** Functions of android_exports.go *)
Definition as_bytes (s : string) : list Z := string_bytes s.
Definition write_capture (w : world) (path : string) (packet : list Z) (timestampMs : Z) : step := fun l =>
  match Pcap.WritePacketToPcap (fault w) (UnixMilli (now w)) path (default [] (captures l !! path)) packet timestampMs with
  | (file, Ok tt) => Some (with_capture l path file, Success)
  | (file, Err e) => Some (with_capture l path file, Unsuccessful e)
  end.
Definition SentinelAndroidWritePcap (w : world) (filePath rawHex : c_string) (timestampMs : Z) : step :=
  let goHex := safeGoString rawHex in
  if goHex =s "" then write_capture w (safeGoString filePath) [] timestampMs
  else match hexDecode goHex with
       | (pktBytes, true) => write_capture w (safeGoString filePath) (as_bytes pktBytes) timestampMs
       | (_, false) => answer (Unsuccessful (d_hex_error goHex))
       end.
Definition SentinelAndroidSynthesizeAndWritePcap (w : world) (filePath proto srcIP : c_string) (srcPort : Z) (dstIP : c_string) (dstPort tcpFlags seqn ackn window : Z)
    (payloadHex : c_string) (timestampMs : Z) : step :=
  let goPayloadHex := safeGoString payloadHex in
  (** What comes before an error is used. *)
  let payload := if goPayloadHex =s "" then ""%string else (hexDecode goPayloadHex).1 in
  write_capture w (safeGoString filePath)
    (Pcap.SynthesizeAndroid (random w) (safeGoString proto) (safeGoString srcIP) srcPort (safeGoString dstIP) dstPort (tcpFlags mod 256) (wrapu32 seqn) (wrapu32 ackn)
       (wrapu16 window) (as_bytes payload)) timestampMs.
Definition SentinelAndroidDissectPacket (rawHex : c_string) : step := fun l =>
  match hexDecode (safeGoString rawHex) with
  | (_, false) => Some (l, Failure (d_hex_error (safeGoString rawHex)))
  | (pktBytes, true) =>
      match Packet.DissectPacket (as_bytes pktBytes) with
      | Done d => Some (l, Dissected d)
      | Fail e => Some (l, Failure e)
      | Panic => None
      end
  end.
Definition android (l : Library) : Blocking.AppBlockerManager := Blocking.GetDefaultEngine (blocker l).
Definition SentinelAndroidBlockApp (w : world) (pkgName : c_string) : step := fun l =>
  let goPkg := safeGoString pkgName in
  Some (if goPkg =s "" then l
        else with_engine (with_blocker l (Blocking.BlockApp goPkg (android l)))
               (AuditEngine.BanEntity (order := order) (now w) (engine l) goPkg "Quarantined by Android manager"), Success).
Definition SentinelAndroidUnblockApp (pkgName : c_string) : step := fun l =>
  let goPkg := safeGoString pkgName in
  Some (if goPkg =s "" then l
        else with_engine (with_blocker l (Blocking.UnblockApp goPkg (android l))) (AuditEngine.UnblockEntity (engine l) goPkg), Success).
Definition SentinelAndroidIsAppBlocked (pkgName : c_string) : step := fun l =>
  let goPkg := safeGoString pkgName in
  if goPkg =s "" then Some (l, Blocked false)
  else Some (with_blocker l (android l), Blocked (Blocking.IsAppBlocked (android l) goPkg || AuditEngine.IsEntityBlocked (engine l) goPkg)).
Definition SentinelAndroidGetBlockedApps : step := fun l =>
  Some (with_blocker l (android l), BlockedLists (Blocking.GetBlockedApps (android l)) (Blocking.GetBlockedDestinations (android l)) (Blocking.GetBlockedPorts (android l))).
Definition SentinelAndroidClearThreats : step := fun l =>
  Some (with_engine (with_blocker l (Blocking.ClearAll (android l))) (AuditEngine.UnblockAllEntities (engine l)), Success).
(** The ring takes its time in milliseconds. *)
Definition SentinelAndroidPushLog (w : world) (logJSON : c_string) : step :=
  decoded (d_entry (safeGoString logJSON)) Failure (fun entry l =>
    b ← RingBuffer.Push (UnixMilli (now w)) (ring l) entry; Some (with_ring l b, Success)).
Definition SentinelAndroidGetLogs (limit offset portFilter : Z) (query : c_string) : step := fun l =>
  logs ← RingBuffer.GetLogs (ring l) limit offset portFilter (safeGoString query); Some (l, Entries logs).
Definition SentinelAndroidGetLogStats : step := fun l =>
  stats ← RingBuffer.GetStats (sorter := sorter) (order := order) (ports_order := ports_order) (ring l); Some (l, Stats stats).
Definition SentinelAndroidClearLogs : step := fun l => Some (with_ring l (RingBuffer.Clear (ring l)), Success).
Definition xrayConnRegex : GoRegexp.Regexp :=
  GoRegexp.regexp "(?i)(?:from\s+)?(tcp|udp):(\[[a-fA-F0-9:]+\]|[^\s:]+):(\d+)\s+accepted\s+(?:tcp|udp):(\[[a-fA-F0-9:]+\]|[^\s:]+):(\d+)".
(** [n, _ := strconv.Atoi(s)] *)
Definition SentinelAndroidParseConnectionLog (logLine : c_string) : step :=
  answer match LogParsers.groups_of xrayConnRegex (safeGoString logLine) with
         | Some [proto; src; sport; dst; dport] =>
             let srcIP := Trim src "[]" in
             let '(isHotspot, sourceType) := ClassifySource srcIP in
             AConnection (ToUpper proto) srcIP (atoi sport) (Trim dst "[]") (atoi dport) isHotspot sourceType
         | _ => Text ""
         end.

(** ** The interface as a whole *)
Inductive call :=
  | GetSecuritySchema (lang : c_string) | GetDefaultSecurityConfig | ValidateSecurityConfig (configJSON : c_string)
  | AuditConnection (reqJSON : c_string) | GetPortShieldCatalog (lang : c_string)
  | ConfigureSecurityPolicy (policyJSON : c_string) | GetSecurityPolicy | IngestCoreLog (logLine : c_string)
  | GetBlockedApps | UnblockApp (callerID : c_string) | UnblockAllApps | GetPcapStatus | StopPcapCapture
  | ParseIptablesLine (line : c_string) (vpnVMID : Z) | ClassifyConnection (eventJSON policyJSON lang : c_string)
  | FindRealVPNClientIP (proto containerIP dstIP : c_string) (sport dpt : Z) (conntrackDump : c_string)
  | FindXrayClientEmail (linesJSON clientIP dstIP : c_string) (dstPort maxAgeSec : Z)
  | FindHysteriaClientEmail (linesJSON dstIP : c_string) (dstPort maxAgeSec : Z)
  | FindClientIPForEmail (linesJSON email : c_string) (maxAgeSec : Z)
  | ParseAuthLogLine (line : c_string) | ParseRouterConntrackLine (line : c_string) | ParseRouterIptablesLine (line : c_string)
  | StartSecurityPipeline (configJSON : c_string) | PollSecurityEvent | StopSecurityPipeline
  | ProcessTrafficLine (source line : c_string) | ConfigureRouterThreatDetector (configJSON : c_string)
  | AndroidWritePcap (filePath rawHex : c_string) (timestampMs : Z)
  | AndroidSynthesizeAndWritePcap (filePath proto srcIP : c_string) (srcPort : Z) (dstIP : c_string) (dstPort tcpFlags seqn ackn window : Z) (payloadHex : c_string) (timestampMs : Z)
  | AndroidDissectPacket (rawHex : c_string)
  | AndroidBlockApp (pkgName : c_string) | AndroidUnblockApp (pkgName : c_string) | AndroidIsAppBlocked (pkgName : c_string)
  | AndroidGetBlockedApps | AndroidClearThreats | AndroidPushLog (logJSON : c_string)
  | AndroidGetLogs (limit offset portFilter : Z) (query : c_string) | AndroidGetLogStats | AndroidClearLogs
  | AndroidParseConnectionLog (logLine : c_string).
Definition exec (w : world) (c : call) : step :=
  match c with
  | GetSecuritySchema lang => SentinelGetSecuritySchema lang
  | GetDefaultSecurityConfig => SentinelGetDefaultSecurityConfig
  | ValidateSecurityConfig j => SentinelValidateSecurityConfig j
  | AuditConnection j => SentinelAuditConnection w j
  | GetPortShieldCatalog lang => SentinelGetPortShieldCatalog lang
  | ConfigureSecurityPolicy j => SentinelConfigureSecurityPolicy j
  | GetSecurityPolicy => SentinelGetSecurityPolicy
  | IngestCoreLog line => SentinelIngestCoreLog w line
  | GetBlockedApps => SentinelGetBlockedApps
  | UnblockApp id => SentinelUnblockApp id
  | UnblockAllApps => SentinelUnblockAllApps
  | GetPcapStatus => SentinelGetPcapStatus w
  | StopPcapCapture => SentinelStopPcapCapture
  | ParseIptablesLine line vmid => SentinelParseIptablesLine line vmid
  | ClassifyConnection ev pol lang => SentinelClassifyConnection ev pol lang
  | FindRealVPNClientIP proto cont dst sport dpt dump => SentinelFindRealVPNClientIP w proto cont dst sport dpt dump
  | FindXrayClientEmail j cl dst port age => SentinelFindXrayClientEmail w j cl dst port age
  | FindHysteriaClientEmail j dst port age => SentinelFindHysteriaClientEmail w j dst port age
  | FindClientIPForEmail j email age => SentinelFindClientIPForEmail w j email age
  | ParseAuthLogLine line => SentinelParseAuthLogLine w line
  | ParseRouterConntrackLine line => SentinelParseRouterConntrackLine w line
  | ParseRouterIptablesLine line => SentinelParseRouterIptablesLine w line
  | StartSecurityPipeline j => SentinelStartSecurityPipeline j
  | PollSecurityEvent => SentinelPollSecurityEvent
  | StopSecurityPipeline => SentinelStopSecurityPipeline
  | ProcessTrafficLine source line => SentinelProcessTrafficLine w source line
  | ConfigureRouterThreatDetector j => SentinelConfigureRouterThreatDetector j
  | AndroidWritePcap path raw ts => SentinelAndroidWritePcap w path raw ts
  | AndroidSynthesizeAndWritePcap path proto src sport dst dport flags sq ak win payload ts =>
      SentinelAndroidSynthesizeAndWritePcap w path proto src sport dst dport flags sq ak win payload ts
  | AndroidDissectPacket raw => SentinelAndroidDissectPacket raw
  | AndroidBlockApp p => SentinelAndroidBlockApp w p
  | AndroidUnblockApp p => SentinelAndroidUnblockApp p
  | AndroidIsAppBlocked p => SentinelAndroidIsAppBlocked p
  | AndroidGetBlockedApps => SentinelAndroidGetBlockedApps
  | AndroidClearThreats => SentinelAndroidClearThreats
  | AndroidPushLog j => SentinelAndroidPushLog w j
  | AndroidGetLogs limit offset port q => SentinelAndroidGetLogs limit offset port q
  | AndroidGetLogStats => SentinelAndroidGetLogStats
  | AndroidClearLogs => SentinelAndroidClearLogs
  | AndroidParseConnectionLog line => SentinelAndroidParseConnectionLog line
  end.

(** What happens to the objects: calls, and what goes on behind them - the decay of the
    engine, and the lines that the tailers of the pipeline deliver. *)
Inductive happening := Called (c : call) | Decayed | Delivered (o : Ingest.origin) (line : string).
Definition happen (w : world) (h : happening) (l : Library) : option Library :=
  match h with
  | Called c => r ← exec w c l; Some r.1
  | Decayed => Some (with_engine l (AuditEngine.runDecayStep (now w) (engine l)))
  | Delivered o line => r ← Ingest.deliver (moment w) o line (pipeline l); Some (with_pipeline l r.1)
  end.
Fixpoint history (tr : list (world * happening)) (l : Library) : option Library :=
  match tr with [] => Some l | (w, h) :: tr => l ← happen w h l; history tr l end.
(** A process that has just loaded the library. *)
Definition loaded (d : Netfilter.RouterThreatDetector) (parser : LogParsers.SingboxParser) (st : Sessions.SessionTracker) (room lroom : Z) : Library :=
  mkLibrary AuditEngine.NewUnifiedSecurityEngine LogParsers.NewSingboxParser
    (Ingest.NewSecurityPipeline Ingest.DefaultPipelineConfig d (Dispatch.NewEventDispatcher room) parser (Logs.NewLogBroadcaster lroom) st)
    None (RingBuffer.NewAndroidLogRingBuffer 5000) ∅.

(** The integers of C have 32 bits; only those of a search of the log matter. *)
Definition c_int (z : Z) : Prop := - 2 ^ 31 <= z < 2 ^ 31.
Definition c_call (c : call) : Prop :=
  match c with AndroidGetLogs limit offset port _ => c_int limit /\ c_int offset /\ c_int port | _ => True end.
(** The connection that a call has audited. *)
Definition audited (c : call) (l : Library) : option SecurityAuditRequest :=
  match c with
  | AuditConnection j => match d_request (safeGoString j) with inl _ => None | inr req => Some req end
  | IngestCoreLog line =>
      let clean := TrimSpace (safeGoString line) in
      if clean =s "" then None
      else match LogIngest.parse_any (own l) (Ingest.coreParser (pipeline l)) clean with
           | (_, _, Some ev) => Some (LogIngest.request_of clean ev)
           | (_, _, None) => None
           end
  | _ => None
  end.

(** ** What keeps the objects sound *)
Definition pipe_ok (p : Ingest.SecurityPipeline) : Prop :=
  (exists emitted, Dispatch.streams (Ingest.dispatcher p) emitted) /\
  (exists m tr, 0 <= m /\ Logs.subs_ok (Ingest.broadcaster p) /\ Logs.streams_ok m (Ingest.broadcaster p) tr).
Definition ring_ok (b : RingBuffer.AndroidLogRingBuffer) : Prop := exists tr, RingBuffer.run (RingBuffer.NewAndroidLogRingBuffer 5000) tr = Some b.
Definition sane (l : Library) : Prop := pipe_ok (pipeline l) /\ ring_ok (ring l).

Lemma emit_ok m p ev : pipe_ok p -> exists p', Ingest.emit m p ev = Some p' /\ pipe_ok p'.
Proof using Type.
  intros [[em Hd] Hl]. unfold Ingest.emit. destruct (Dispatch.emit_streams (Ingest.now m) ev _ em Hd) as (d' & -> & Hd' & _). eexists. split; [done|]. split; [by eexists|done].
Qed.
Definition handled (r : option (Ingest.SecurityPipeline * option Dispatch.SecurityEvent)) : Prop := exists p ev, r = Some (p, ev) /\ pipe_ok p.
Lemma handled_emit m p ev : pipe_ok p -> handled (p ← Ingest.emit m p ev; Some (p, Some ev)).
Proof using Type. intros Hp. destruct (emit_ok m p ev Hp) as (p' & -> & Hp'). by exists p', (Some ev). Qed.
Lemma handled_none p : pipe_ok p -> handled (Some (p, None)).
Proof using Type. intros Hp. by exists p, None. Qed.
Create HintDb handled.
#[local] Hint Resolve handled_emit handled_none : handled.
Lemma firewall_handled m line p : pipe_ok p -> handled (Ingest.ProcessProxmoxIptablesLine m line p).
Proof using Type. intros Hp. unfold Ingest.ProcessProxmoxIptablesLine. destruct (Ingest.firewall_event _ _ _ _ _); auto with handled. Qed.
Lemma router_handled mark kind source parse m line p : pipe_ok p -> handled (Ingest.process_router mark kind source parse m line p).
Proof using Type.
  intros Hp. unfold Ingest.process_router. destruct (negb _); [auto with handled|]. destruct (parse _ _ _) as [d [ev|]]; [|by apply handled_none].
  destruct (Ingest.router_alert _ _ _ _ _); [by apply handled_emit|by apply handled_none].
Qed.
Lemma auth_handled m line p : pipe_ok p -> handled (Ingest.ProcessAuthLogLine m line p).
Proof using Type.
  intros Hp. unfold Ingest.ProcessAuthLogLine. destruct (SshMonitor.ParseAuthLine _ _); [|auto with handled]. cbn zeta. destruct (Ingest.is_failure _); [auto with handled|].
  by eexists _, _.
Qed.
Lemma core_handled m core line p : pipe_ok p -> handled (Ingest.ProcessProxyCoreLine loc json m core line p).
Proof using Type.
  intros Hp. unfold Ingest.ProcessProxyCoreLine. destruct (_ =s _); [auto with handled|]. unfold Ingest.push_and_track.
  destruct Hp as [Hd (n & tr & Hn & Hs & Ht)]. destruct (Logs.push_ok n (Ingest.broadcaster p) tr core line Hs Ht Hn) as (lb & -> & Hs' & Ht'). cbn [mbind option_bind].
  destruct (LogParsers.ParseCoreLogLine _ _ _) as [parser ev]. cbn zeta. set (st := if _ =s "" then _ else _).
  assert (Hp' : pipe_ok (Ingest.with_core p parser lb st)) by (split; [exact Hd|by eexists n, _]).
  destruct ev as [ev|]; [|by apply handled_none]. destruct (Ingest.core_event _ _ _ _); [by apply handled_emit|by apply handled_none].
Qed.
Lemma deliver_handled m o line p : pipe_ok p -> handled (Ingest.deliver m o line p).
Proof using Type.
  intros Hp. destruct o; cbn [Ingest.deliver]; [by apply firewall_handled|by apply auth_handled|].
  destruct (Contains _ _); [by apply router_handled|]. destruct (Contains _ _); [by apply router_handled|auto with handled].
Qed.
Lemma popped_pipe_ok p : pipe_ok p -> pipe_ok (Ingest.with_dispatcher p (Dispatch.PopEvent (Ingest.dispatcher p)).1).
Proof using Type.
  intros [[em Hd] Hl]. split; [|exact Hl]. destruct (Dispatch.exec_streams (Ingest.dispatcher p) em Dispatch.OpPop Hd) as (d' & [= E] & Hd').
  cbn [Ingest.dispatcher Ingest.with_dispatcher]. rewrite E. by eexists.
Qed.

Lemma ring_push n b e : ring_ok b -> exists b', RingBuffer.Push n b e = Some b' /\ ring_ok b'.
Proof using Type.
  intros [tr E]. destruct (RingBuffer.run_holds 5000 tr) as (b0 & E0 & Hh & _). assert (b0 = b) as -> by congruence.
  destruct (RingBuffer.push_holds n b _ e Hh) as (b' & E' & _). exists b'. split; [done|]. exists (tr ++ [RingBuffer.OpPush n e]).
  unfold RingBuffer.run in *. by rewrite foldl_app, E.
Qed.
Lemma ring_clear b : ring_ok b -> ring_ok (RingBuffer.Clear b).
Proof using Type. intros [tr E]. exists (tr ++ [RingBuffer.OpClear]). unfold RingBuffer.run in *. by rewrite foldl_app, E. Qed.
Lemma ring_logs b limit offset port q : ring_ok b -> c_int limit -> c_int offset -> exists logs, RingBuffer.GetLogs b limit offset port q = Some logs.
Proof using Type.
  clear json jsonObject. intros [tr E] Hl Ho. destruct (RingBuffer.get_logs_page 5000 tr limit offset port q) as (b0 & E0 & Hg).
  - unfold c_int in *. assert (maxInt64 = 9223372036854775807) as -> by done. destruct (limit <=? 0), (offset <? 0); lia.
  - assert (b0 = b) as -> by congruence. by eexists.
Qed.
Lemma ring_stats b : ring_ok b -> exists s, RingBuffer.GetStats (sorter := sorter) (order := order) (ports_order := ports_order) b = Some s.
Proof using Type.
  intros [tr E]. destruct (RingBuffer.run_holds 5000 tr) as (b0 & E0 & Hh & _). assert (b0 = b) as -> by congruence.
  unfold RingBuffer.GetStats. rewrite (RingBuffer.newest_first_holds b _ Hh). by eexists.
Qed.
Lemma as_bytes_bytes s : Forall is_byte (as_bytes s).
Proof using Type.
  unfold as_bytes. induction s as [|a s IH]; cbn; constructor; [|exact IH]. unfold is_byte. revert a. by_char.
Qed.

(** A step that goes on with sound objects. *)
Definition goes_on (r : option (Library * reply)) : Prop := exists l v, r = Some (l, v) /\ sane l.
Lemma goes_on_same l v : sane l -> goes_on (Some (l, v)).
Proof using Type. intros Hs. by exists l, v. Qed.
Lemma goes_on_engine l e v : sane l -> goes_on (Some (with_engine l e, v)).
Proof using Type. intros Hs. by exists (with_engine l e), v. Qed.
Lemma goes_on_pipeline l p v : sane l -> pipe_ok p -> goes_on (Some (with_pipeline l p, v)).
Proof using Type. intros [_ Hr] Hp. by exists (with_pipeline l p), v. Qed.
Lemma goes_on_decoded {A} (x : string + A) f k l : sane l -> (forall a, goes_on (k a l)) -> goes_on (decoded x f k l).
Proof using Type. intros Hs Hk. destruct x as [e|a]; [by apply goes_on_same|apply Hk]. Qed.
Lemma goes_on_reported l r k : sane l -> handled r -> goes_on (reported r k l).
Proof using Type. intros Hs (p & ev & -> & Hp). by apply goes_on_pipeline. Qed.
Lemma goes_on_capture w path packet ts l : sane l -> goes_on (write_capture w path packet ts l).
Proof using Type.
  intros Hs. unfold write_capture. destruct (Pcap.WritePacketToPcap _ _ _ _ _ _) as [file [[]|e]]; eexists _, _; (split; [reflexivity|exact Hs]).
Qed.

Lemma goes_on_kept l l' v : sane l -> pipeline l' = pipeline l -> ring l' = ring l -> goes_on (Some (l', v)).
Proof using Type. intros [Hp Hr] Ep Er. exists l', v. split; [done|]. unfold sane. by rewrite Ep, Er. Qed.
Lemma goes_on_ring l b v : sane l -> ring_ok b -> goes_on (Some (with_ring l b, v)).
Proof using Type. intros [Hp _] Hb. by exists (with_ring l b), v. Qed.
Lemma process_goes_on w source line l : sane l -> goes_on (SentinelProcessTrafficLine w source line l).
Proof using Type.
  intros Hs. pose proof Hs as [Hp _]. unfold SentinelProcessTrafficLine. cbn zeta.
  repeat (destruct (_ =s _); [apply goes_on_reported; [exact Hs|]; first [by apply firewall_handled|by apply router_handled|by apply auth_handled]|]).
  destruct (HasPrefix _ _); [apply goes_on_reported; [exact Hs|]; by apply core_handled|by apply goes_on_same].
Qed.
Lemma dissect_goes_on raw l : sane l -> goes_on (SentinelAndroidDissectPacket raw l).
Proof using Type.
  intros Hs. unfold SentinelAndroidDissectPacket. destruct (hexDecode _) as [bytes []]; [|by apply goes_on_same].
  pose proof (Packet.dissect_safe _ (as_bytes_bytes bytes)) as Hd. destruct (Packet.DissectPacket (as_bytes bytes)); [done|by apply goes_on_same..].
Qed.
(** A line of a core is audited, or nothing happens. *)
Lemma ingest_goes_on w line l : sane l -> match audited (IngestCoreLog line) l with
  | Some req => match AuditEngine.AuditConnection (now w) (recorded w) req (engine l) with Some _ => goes_on (SentinelIngestCoreLog w line l) | None => SentinelIngestCoreLog w line l = None end
  | None => goes_on (SentinelIngestCoreLog w line l)
  end.
Proof using Type.
  intros [[Hd Hl] Hr]. cbn [audited]. unfold SentinelIngestCoreLog, LogIngest.IngestCoreLog. destruct (_ =s ""); [by eexists _, _|].
  destruct (LogIngest.parse_any _ _ _) as [[o shared] [ev|]]; [|by eexists _, _].
  destruct (AuditEngine.AuditConnection _ _ _ _) as [[e v]|]; [|done]. by eexists _, _.
Qed.
Lemma audit_goes_on w j l : sane l -> match audited (AuditConnection j) l with
  | Some req => match AuditEngine.AuditConnection (now w) (recorded w) req (engine l) with Some _ => goes_on (SentinelAuditConnection w j l) | None => SentinelAuditConnection w j l = None end
  | None => goes_on (SentinelAuditConnection w j l)
  end.
Proof using Type.
  intros Hs. cbn [audited]. unfold SentinelAuditConnection. destruct (d_request _) as [e|req]; cbn [decoded]; [by apply goes_on_same|].
  destruct (AuditEngine.AuditConnection _ _ _ _) as [[e v]|]; [by apply goes_on_engine|done].
Qed.
(** A call goes on, or it is one of the two that audit. *)
Lemma exec_goes_on w c l : sane l -> c_call c -> match audited c l with
  | Some req => match AuditEngine.AuditConnection (now w) (recorded w) req (engine l) with Some _ => goes_on (exec w c l) | None => exec w c l = None end
  | None => goes_on (exec w c l)
  end.
Proof using Type.
  intros Hs Hc. pose proof Hs as [Hp Hr]. destruct c; try exact (audit_goes_on w _ l Hs); try exact (ingest_goes_on w _ l Hs);
    cbn [audited exec]; try (by apply goes_on_same); try (by apply goes_on_engine); try (by apply goes_on_kept with l; [|destruct (_ =s "")..]);
    try (by apply goes_on_decoded; [done|intros; apply goes_on_same]); try (by apply goes_on_decoded; [done|intros; apply goes_on_engine]).
  all: try (by apply goes_on_capture); try (by apply dissect_goes_on); try (by apply process_goes_on).
  - apply goes_on_decoded; [done|]. intros ev. cbn zeta. by apply goes_on_same.
  - apply goes_on_decoded; [done|]. intros lines. destruct (LogSearch.FindEmailAndIPInXrayLog _ _ _ _ _ _) as [[? ?] ?]. by apply goes_on_same.
  - unfold SentinelParseRouterConntrackLine, parse_router_line. destruct (Netfilter.ParseRouterConntrackLine _ _ _). by apply goes_on_pipeline.
  - unfold SentinelParseRouterIptablesLine, parse_router_line. destruct (Netfilter.ParseRouterIptablesLine _ _ _). by apply goes_on_pipeline.
  - apply goes_on_pipeline; [done|]. unfold Ingest.Start. by destruct (Ingest.running _).
  - pose proof (popped_pipe_ok _ Hp) as Hp'. unfold SentinelPollSecurityEvent. destruct (Dispatch.PopEvent _) as [d ev]. by apply goes_on_pipeline.
  - unfold SentinelConfigureRouterThreatDetector. destruct (_ =s ""); [by apply goes_on_same|]. apply goes_on_decoded; [done|].
    intros [[[[[? ?] ?] ?] ?] ?]. by apply goes_on_pipeline.
  - unfold SentinelAndroidWritePcap. cbn zeta. destruct (_ =s ""); [by apply goes_on_capture|].
    destruct (hexDecode _) as [? []]; [by apply goes_on_capture|by apply goes_on_same].
  - unfold SentinelAndroidIsAppBlocked. cbn zeta. destruct (_ =s ""); [by apply goes_on_same|by apply goes_on_kept with l].
  - apply goes_on_decoded; [done|]. intros entry. destruct (ring_push (UnixMilli (now w)) (ring l) entry Hr) as (b & -> & Hb). by apply goes_on_ring.
  - destruct Hc as (Hlim & Hoff & _). unfold SentinelAndroidGetLogs. destruct (ring_logs (ring l) limit offset portFilter (safeGoString query) Hr Hlim Hoff) as [logs ->].
    by apply goes_on_same.
  - unfold SentinelAndroidGetLogStats. destruct (ring_stats (ring l) Hr) as [s ->]. by apply goes_on_same.
  - apply goes_on_ring; [done|by apply ring_clear].
Qed.
Lemma happen_sane w h l l' : (forall c, h = Called c -> c_call c) -> sane l -> happen w h l = Some l' -> sane l'.
Proof using Type.
  intros Hc Hs. destruct h as [c| |o line]; cbn [happen].
  - pose proof (exec_goes_on w c l Hs (Hc c eq_refl)) as Hg. intros E.
    assert (G : goes_on (exec w c l) -> sane l').
    { intros (l1 & v & E1 & Hl1). rewrite E1 in E. cbn in E. by injection E as <-. }
    destruct (audited c l); [|by apply G]. destruct (AuditEngine.AuditConnection _ _ _ _); [by apply G|]. by rewrite Hg in E.
  - intros [= <-]. exact Hs.
  - destruct Hs as [Hp Hr]. destruct (deliver_handled (moment w) o line _ Hp) as (p & ev & -> & Hp'). by intros [= <-].
Qed.
Definition c_happening (x : world * happening) : Prop := match x.2 with Called c => c_call c | _ => True end.
Lemma history_sane tr l l' : Forall c_happening tr -> sane l -> history tr l = Some l' -> sane l'.
Proof using Type.
  revert l. induction tr as [|[w h] tr IH]; intros l Hc Hs; cbn [history]; [by intros [= <-]|]. inversion Hc as [|? ? Hc1 Hc2]; subst.
  destruct (happen w h l) as [l1|] eqn:E; [|done]. cbn [mbind option_bind]. apply IH; [done|]. eapply happen_sane; [|done|exact E]. by intros c ->.
Qed.
Lemma loaded_sane d parser st room lroom : sane (loaded d parser st room lroom).
Proof using Type.
  split; [split|].
  - eexists. apply Dispatch.new_streams.
  - destruct (Logs.new_ok lroom) as (H1' & H2' & H3'). by eexists _, _.
  - by exists [].
Qed.


(** C9.  The C interface goes on: whatever calls the program makes with the integers of
    C, with the decay of the engine and lines of the tailers in between, a call panics
    exactly when it audits a connection - of a request, or of the line of a core's log -
    and that audit panics; every other call of the interface answers. *)
Theorem interface_panics_iff d parser st room lroom tr l w c :
  Forall c_happening tr -> history tr (loaded d parser st room lroom) = Some l -> c_call c ->
  exec w c l = None <-> exists req, audited c l = Some req /\ AuditEngine.AuditConnection (now w) (recorded w) req (engine l) = None.
Proof using Type.
  intros Ht Hl Hc. pose proof (history_sane tr _ l Ht (loaded_sane d parser st room lroom) Hl) as Hs. pose proof (exec_goes_on w c l Hs Hc) as Hg.
  assert (G : goes_on (exec w c l) -> exec w c l <> None) by (intros (l' & v & -> & _); done).
  destruct (audited c l) as [req|]; [|split; [intros E; by apply G in Hg|by intros (? & ? & _)]].
  destruct (AuditEngine.AuditConnection _ _ req _) eqn:Ea; [|split; [eauto|done]].
  split; [intros E; by apply G in Hg|]. intros (req' & [= <-] & E). congruence.
Qed.

(** ** Blocked applications *)

(** What the calls ask of the blocker, the last first. *)
Definition blocker_ops (h : happening) : list Blocking.op :=
  match h with
  | Called (AndroidBlockApp p) => if safeGoString p =s "" then [] else [Blocking.Block (safeGoString p)]
  | Called (AndroidUnblockApp p) => if safeGoString p =s "" then [] else [Blocking.Unblock (safeGoString p)]
  | Called AndroidClearThreats => [Blocking.Clear]
  | _ => []
  end.
Definition asked_of (tr : list (world * happening)) : list Blocking.op := rev (concat (map (fun x => blocker_ops x.2) tr)).
Lemma reported_blocker r k l l' v : reported r k l = Some (l', v) -> blocker l' = blocker l.
Proof using Type. unfold reported. destruct r as [[p ev]|]; [|done]. by intros [= <- <-]. Qed.
Lemma decoded_blocker {A} (x : string + A) f k l l' v : (forall a l' v, k a l = Some (l', v) -> blocker l' = blocker l) -> decoded x f k l = Some (l', v) -> blocker l' = blocker l.
Proof using Type. intros Hk. destruct x as [e|a]; [by intros [= <- <-]|apply Hk]. Qed.
Lemma capture_blocker w path packet ts l l' v : write_capture w path packet ts l = Some (l', v) -> blocker l' = blocker l.
Proof using Type. unfold write_capture. destruct (Pcap.WritePacketToPcap _ _ _ _ _ _) as [file [[]|e]]; by intros [= <- <-]. Qed.
Lemma answer_blocker r l l' v : answer r l = Some (l', v) -> blocker l' = blocker l.
Proof using Type. by intros [= <- <-]. Qed.
Lemma exec_blocker w c l l' v : exec w c l = Some (l', v) -> blocker_ops (Called c) = [] -> android l' = android l.
Proof using Type.
  intros E Hq. enough (Eb : blocker l' = blocker l \/ blocker l' = Some (android l)) by (unfold android in *; by destruct Eb as [-> | ->]).
  destruct c; cbn [exec] in E; try (by injection E as <- <-; left); try (by injection E as <- <-; right); try (by left; eapply capture_blocker).
  all: cbn [blocker_ops] in Hq; unfold SentinelAuditConnection, SentinelConfigureSecurityPolicy, SentinelIngestCoreLog, SentinelUnblockApp, SentinelClassifyConnection,
    SentinelFindXrayClientEmail, SentinelFindHysteriaClientEmail, SentinelFindClientIPForEmail, SentinelParseRouterConntrackLine, SentinelParseRouterIptablesLine,
    parse_router_line, SentinelPollSecurityEvent, SentinelProcessTrafficLine, SentinelConfigureRouterThreatDetector, SentinelAndroidWritePcap, SentinelAndroidDissectPacket,
    SentinelAndroidBlockApp, SentinelAndroidUnblockApp, SentinelAndroidIsAppBlocked, SentinelAndroidPushLog, SentinelAndroidGetLogs, SentinelAndroidGetLogStats,
    reported, decoded, answer, mbind, option_bind in E; cbn zeta in E.
  all: repeat (match type of E with context [match ?x with _ => _ end] => destruct x end); try discriminate;
    first [injection E as <- <-; by left|injection E as <- <-; by right|by left; eapply capture_blocker; exact E|idtac].
Qed.
Lemma happen_blocker w h l l' : happen w h l = Some l' -> android l' = foldr Blocking.apply (android l) (blocker_ops h).
Proof using Type.
  destruct h as [c| |o line]; cbn [happen].
  - destruct (exec w c l) as [[l1 v]|] eqn:E; [|done]. intros [= <-]. destruct (blocker_ops (Called c)) as [|o ops] eqn:Eo; [by eapply exec_blocker|].
    destruct c; cbn [blocker_ops] in Eo; try discriminate; cbn [exec] in E.
    + unfold SentinelAndroidBlockApp in E. cbn zeta in E. destruct (_ =s ""); [done|]. injection Eo as <- <-. by injection E as <- <-.
    + unfold SentinelAndroidUnblockApp in E. cbn zeta in E. destruct (_ =s ""); [done|]. injection Eo as <- <-. by injection E as <- <-.
    + injection Eo as <- <-. by injection E as <- <-.
  - by intros [= <-].
  - destruct (Ingest.deliver _ _ _ _) as [[p ev]|]; [|done]. by intros [= <-].
Qed.
Lemma blocker_ops_rev h : rev (blocker_ops h) = blocker_ops h.
Proof using Type. destruct h as [[]| |]; cbn; try done; by destruct (_ =s ""). Qed.
Lemma history_blocker tr l l' : history tr l = Some l' -> android l' = foldr Blocking.apply (android l) (asked_of tr).
Proof using Type.
  revert l. induction tr as [|[w h] tr IH]; intros l; cbn [history]; [by intros [= <-]|].
  destruct (happen w h l) as [l1|] eqn:E; [|done]. cbn [mbind option_bind]. intros E'. rewrite (IH l1 E'), (happen_blocker w h l l1 E).
  unfold asked_of. cbn [map concat snd]. by rewrite rev_app_distr, foldr_app, blocker_ops_rev.
Qed.
Lemma audit_refused n rc req e p : AuditEngine.IsEntityBlocked e p = true -> AuditEngine.caller_of req = p ->
  exists e' v, AuditEngine.AuditConnection n rc req e = Some (e', v) /\ IsBlocked v = true.
Proof using Type.
  intros Hb <-. unfold AuditEngine.AuditConnection. cbn zeta. rewrite Hb. unfold AuditEngine.handlePcapAndProfile. cbn zeta.
  destruct (ShouldBlock _ && _); [|]; match goal with |- context [AuditEngine.recordSession ?a ?b ?c ?d ?f] => pose proof (AuditEngine.record_blocked a b c d f) as E; destruct (AuditEngine.recordSession a b c d f) as [e' v] end;
    exists e', v; (split; [done|]); cbn [snd] in E; by rewrite E.
Qed.

(** C6.  Blocking an application on Android: after any history of the process the
    interface reports an application as blocked exactly when the last call that concerns it
    blocked it - a clearing concerns all - or the engine isolates it, and lists exactly
    those that the calls blocked; and once an application is blocked, its next connection
    is refused whatever it is. *)
Theorem blocked_applications d parser st room lroom tr l p w :
  history tr (loaded d parser st room lroom) = Some l -> p <> ""%string ->
  (exists l', exec w (AndroidIsAppBlocked (Some p)) l = Some (l', Blocked (Blocking.asked (asked_of tr) p || AuditEngine.IsEntityBlocked (engine l) p))) /\
  (exists l' apps, exec w AndroidGetBlockedApps l = Some (l', BlockedLists apps [] []) /\ NoDup apps /\ forall q, q ∈ apps <-> Blocking.asked (asked_of tr) q = true) /\
  (exists l', exec w (AndroidBlockApp (Some p)) l = Some (l', Success) /\
     forall w' j req, d_request j = inr req -> AuditEngine.caller_of req = p -> exists l'' v, exec w' (AuditConnection (Some j)) l' = Some (l'', AVerdict v) /\ IsBlocked v = true).
Proof using Type.
  intros Hl Hp%String.eqb_neq. pose proof (history_blocker tr _ l Hl) as Hb. change (android l = Blocking.after (asked_of tr)) in Hb.
  destruct (Blocking.blocked_as_asked (asked_of tr)) as (Hask & Hnd & Hin). destruct (Blocking.destinations_never_blocked (asked_of tr)) as [Hd Hports].
  split; [|split].
  - cbn [exec]. unfold SentinelAndroidIsAppBlocked. change (safeGoString (Some p)) with p. rewrite Hp, Hb, Hask. by eexists.
  - cbn [exec]. unfold SentinelAndroidGetBlockedApps. rewrite Hb, Hd, Hports. by eexists _, _.
  - cbn [exec]. unfold SentinelAndroidBlockApp. change (safeGoString (Some p)) with p. rewrite Hp. eexists. split; [done|]. intros w' j req Hj Hc.
    unfold SentinelAuditConnection. change (safeGoString (Some j)) with j. rewrite Hj. cbn [decoded engine with_engine].
    destruct (audit_refused (now w') (recorded w') req (AuditEngine.BanEntity (order := order) (now w) (engine l) p "Quarantined by Android manager") p) as (e' & v & -> & Hv); [|done|].
    + unfold AuditEngine.IsEntityBlocked, AuditEngine.BanEntity, AuditEngine.ban. cbn [AuditEngine.bannedEntities AuditEngine.set_banned]. by rewrite lookup_insert_eq.
    + by eexists _, v.
Qed.
End interface.

(** ** Examples *)
Section examples.
#[local] Existing Instance utc.
(** A sorter, so that the statistics can be computed. *)
Definition by_count {A} (f : A -> Z) (x y : A) : Prop := f y <= f x.
#[local] Instance by_count_dec {A} (f : A -> Z) : RelDecision (by_count f).
Proof. intros x y. unfold by_count. apply _. Defined.
#[local] Instance by_count_total {A} (f : A -> Z) : Total (by_count f).
Proof. intros x y. unfold by_count. lia. Qed.
#[local] Instance by_count_trans {A} (f : A -> Z) : Transitive (by_count f).
Proof. intros x y z. unfold by_count. lia. Qed.
#[local] Instance demo_sorter : RingBuffer.CountSort :=
  {| RingBuffer.count_sort A f l := merge_sort (by_count f) l;
     RingBuffer.count_sort_perm A f l := merge_sort_Permutation (by_count f) l;
     RingBuffer.count_sort_sorted A f l := StronglySorted_merge_sort (by_count f) l |}.
#[local] Instance demo_decoders : Decoders (F := QArith_base.Q) :=
  {| d_hex_error _ := "invalid";
     d_request j := if j =s "?" then inl "unexpected"%string else inr (mkRequest j "" "" "" "203.0.113.5" "" 8080 "TCP" [] 0 false "android" None);
     d_policy _ := inr DefaultSecurityPolicy; d_iptables _ := inl "unexpected"%string; d_classifier _ p := p; d_lines _ := inl "unexpected"%string;
     d_pipeline _ p := p; d_entry _ := inr RingBuffer.zeroEntry; d_router _ := inl "unexpected"%string; d_security _ c := Some c |}.
Definition demo_library : Library :=
  loaded (Netfilter.GetDefaultRouterThreatDetector (fun _ => ""%string)) LogParsers.NewSingboxParser Sessions.newTracker 10 10.
Definition at_time (t : Z) : world := mkWorld (Ingest.mkMoment t "" "") false None None.
Abbreviation history_of := (history (F := QArith_base.Q) Sessions.LocaleEN (fun _ => None) (fun _ => None)).
Abbreviation call_of := (exec (F := QArith_base.Q) Sessions.LocaleEN (fun _ => None) (fun _ => None)).
(** The reply to a call after a history. *)
Definition reply_after (tr : list (world * happening)) (w : world) (c : call) : option reply :=
  match history_of tr demo_library with Some l => option_map snd (call_of w c l) | None => None end.

(** An application that was blocked is let through again when the engine's isolation has
    decayed, and is still reported as blocked. *)
Definition blocked_then_decayed : list (world * happening) := [(at_time 0, Called (AndroidBlockApp (Some "com.x"%string))); (at_time (16 * Minute), Decayed)].
Example reported_but_let_through :
  reply_after blocked_then_decayed (at_time (16 * Minute)) (AndroidIsAppBlocked (Some "com.x"%string)) = Some (Blocked true) /\
  match reply_after blocked_then_decayed (at_time (16 * Minute)) (AuditConnection (Some "com.x"%string)) with Some (AVerdict v) => IsBlocked v = false | _ => False end.
Proof. split; by vm_compute. Qed.
(** The other function that unblocks leaves the blocker alone. *)
Example unblocked_but_reported :
  reply_after [(at_time 0, Called (AndroidBlockApp (Some "com.x"%string))); (at_time 1, Called (UnblockApp (Some "com.x"%string)))] (at_time 2) (AndroidIsAppBlocked (Some "com.x"%string)) =
    Some (Blocked true).
Proof. by vm_compute. Qed.
(** A payload that is not hexadecimal is cut off there, without an error. *)
Example payload_cut_off :
  hexDecode "0x41 42 4g 44" = ("AB"%string, false) /\
  reply_after [] (at_time 0) (AndroidWritePcap (Some "f"%string) (Some "4142zz"%string) 0) = Some (Unsuccessful "invalid") /\
  reply_after [] (at_time 0) (AndroidSynthesizeAndWritePcap (Some "f"%string) None None 1 None 2 2 0 0 0 (Some "4142zz"%string) 0) = Some Success.
Proof. split_and!; by vm_compute. Qed.
(** Parsing a line of the router counts it: a second reader of the same lines doubles what
    the detector has seen. *)
Definition router_line : string := "[NEW] tcp 6 120 SYN_SENT src=192.168.1.5 dst=8.8.4.4 sport=40000 dport=22".
Definition seen_by_detector (tr : list (world * happening)) : option nat :=
  option_map (fun l => size (Netfilter.history (Ingest.threatDetector (pipeline l)))) (history_of tr demo_library).
Example parsing_counts :
  seen_by_detector [] = Some 0%nat /\ seen_by_detector [(at_time Second, Called (ParseRouterConntrackLine (Some router_line)))] = Some 1%nat.
Proof. split; by vm_compute. Qed.
(** A malformed configuration starts the pipeline with the defaults. *)
Example malformed_configuration_starts : reply_after [] (at_time 0) (StartSecurityPipeline (Some "?"%string)) = Some Success.
Proof. by vm_compute. Qed.

Lemma interface_panics_iff_witness : exists l,
  history_of blocked_then_decayed demo_library = Some l /\
  (call_of (at_time (16 * Minute)) (AndroidGetLogs 2147483647 2147483647 0 None) l = None <->
     exists req, audited (AndroidGetLogs 2147483647 2147483647 0 None) l = Some req /\ AuditEngine.AuditConnection (16 * Minute) false req (engine l) = None).
Proof.
  destruct (history_of blocked_then_decayed demo_library) as [l|] eqn:E; [|vm_compute in E; discriminate]. exists l. split; [done|].
  eapply (interface_panics_iff Sessions.LocaleEN _ _ _ _ _ _ _ blocked_then_decayed l (at_time (16 * Minute)) (AndroidGetLogs 2147483647 2147483647 0 None)); [|exact E|].
  - repeat constructor.
  - vm_compute. repeat split; congruence.
Defined.
Lemma blocked_applications_witness : exists l,
  history_of blocked_then_decayed demo_library = Some l /\
  exists l', call_of (at_time 0) (AndroidIsAppBlocked (Some "com.x"%string)) l =
    Some (l', Blocked (Blocking.asked (asked_of blocked_then_decayed) "com.x" || AuditEngine.IsEntityBlocked (engine l) "com.x")).
Proof.
  destruct (history_of blocked_then_decayed demo_library) as [l|] eqn:E; [|vm_compute in E; discriminate]. exists l. split; [done|].
  exact (proj1 (blocked_applications Sessions.LocaleEN _ _ _ _ _ _ _ blocked_then_decayed l "com.x" (at_time 0) E ltac:(discriminate))).
Defined.
End examples.
End CInterface.
