(* ===== verification/CoreExports.v ===== *)
(** * The C interface of the engine
    (src/cmd/cshared/crypto_exports.go, config_exports.go, routing_exports.go,
    sessions_exports.go, traffic_exports.go, supervisor_exports.go, diagnostics_exports.go)

    The exported functions that build configurations, encrypt, and steer the cores.  A reply
    is a text, or the value that is printed as JSON (where the functions of encryption answer
    a text, as it is read back from there); what C sees of a text ends at its first zero
    byte.  Decoding JSON is an argument, and so are the parts of the operating system that
    the functions of the supervisor take. *)
From S2P Require Import Prelude GoStrings GoFloat GoTime GoBase64 Ast Profile AuditRules Links LinkGen Localisation Schemas Routing Builder Crypto Logs Sessions SessionLines Supervisor CoreTraffic ProxyProbe Pipeline SingBox Compilers SingBoxTraffic Diagnostics.
Import AuditRules.
Open Scope Z_scope.

Module EngineInterface.

Definition c_string : Type := option string.
Definition safeGoString (s : c_string) : string := default "" s.
(** What C reads of a text. *)
Definition zero_byte (a : ascii) : bool := char_code a =? 0.
Fixpoint c_seen (s : string) : string :=
  match s with EmptyString => "" | String a s => if zero_byte a then "" else String a (c_seen s) end.

Inductive reply (A : Type) := Text (s : string) | Success | Failure (e : string) | Unsuccessful (e : string) | Reply (a : A).
Arguments Text {A}. Arguments Success {A}. Arguments Failure {A}. Arguments Unsuccessful {A}. Arguments Reply {A}.
Definition printed {A B} (f : A -> B) (r : string + A) : reply B := match r with inl e => Failure e | inr a => Reply (f a) end.
Definition plain {B} (r : string + string) : reply B := match r with inl e => Failure e | inr s => Text s end.

(** ** Keys and encryption (crypto_exports.go) *)
Section crypto.
Context `{AEAD} (hmac_sha256 : string -> string -> string).

Definition SentinelGenerateX25519Keys (generated : option (string * string)) : reply KeyPair := printed id (GenerateX25519KeyPair generated).
Definition SentinelGenerateVlessEncKeys (generated : option (string * string)) (seed : option string) (encapsulation : string -> option string) : reply VlessEncKeys :=
  match GenerateVlessEncKeys generated seed encapsulation with inl e => Unsuccessful e | inr keys => Reply keys end.
(** A text under its key, ["payload"] or ["plaintext"], as it is read from the JSON that is
    returned: a byte that is not UTF-8 has become U+FFFD. *)
Definition with_vault (secret : c_string) (f : Vault -> string + string) : string + string :=
  match NewVault hmac_sha256 (safeGoString secret) with inl e => inl e | inr v => f v end.
Definition SentinelEncrypt (nonce : option string) (data secret : c_string) : reply (string * string) :=
  printed (fun payload => ("payload"%string, json_text payload)) (with_vault secret (fun v => EncryptString v nonce (safeGoString data))).
Definition SentinelDecrypt (payload secret : c_string) : reply (string * string) :=
  printed (fun plain => ("plaintext"%string, json_text plain)) (with_vault secret (fun v => DecryptString v (safeGoString payload))).
Definition SentinelEncryptPayload (nonce : option string) (plaintext secret : c_string) : reply unit :=
  plain (with_vault secret (fun v => EncryptString v nonce (safeGoString plaintext))).
Definition SentinelDecryptPayload (ciphertext secret : c_string) : reply unit :=
  plain (with_vault secret (fun v => DecryptString v (safeGoString ciphertext))).
End crypto.

(** ** Configurations (config_exports.go) *)
Section config.
Context {order : RangeOrder string} (unmarshal : string -> option jmap) (mirror : SingBox.RuleMirror * bool) (rand : nat -> Z -> string) (pm : Routing.PresetManager).
Context (d_spec : string -> string + ConfigSpec) (d_profiles : string -> string + list ServerProfile) (d_profile : string -> string + ServerProfile)
  (d_strings : string -> list string * bool) (links : LinkDecoders) (marshal : jmap -> string).

(** The new language of the process. *)
Definition SentinelSetLanguage (lang : c_string) : string := I18n.SetLocale (ToLower (TrimSpace (safeGoString lang))).
Inductive built := ABuild (r : Build.BuildResult) | ABuildError (e : Build.build_error) | AServer (config : jmap) | AServerError (what : string) (e : option Compile.failure).
(** [None] is a panic; with it what is published on the bus. *)
Definition built_reply (r : Build.outcome) : option (reply built) :=
  match r with
  | Build.Built r => Some (Reply (ABuild r))
  | Build.BuildFails e => Some (Reply (ABuildError e))
  | Build.BuildPanics => None
  end.
Definition SentinelBuildConfig (blockedEntities : list BannedEntity) (specJSON : c_string) : option (reply built * list Build.notice) :=
  match d_spec (safeGoString specJSON) with
  | inl e => Some (Failure e, [])
  | inr spec =>
      let '(out, _, notices) := Build.BuildClientConfig unmarshal mirror rand pm blockedEntities (Some spec) in
      r ← built_reply out; Some (r, notices)
  end.
Definition SentinelBuildServerConfig (specJSON : c_string) : option (reply built) :=
  match d_spec (safeGoString specJSON) with
  | inl e => Some (Failure e)
  | inr spec =>
      match (Build.BuildServerConfigFromSpec unmarshal mirror rand (Some spec)).1 with
      | Build.ServerConfig config => Some (Reply (AServer config))
      | Build.ServerFails what e => Some (Reply (AServerError what e))
      | Build.ServerPanics => None
      end
  end.
Definition SentinelBuildFailoverClientConfig (blockedEntities : list BannedEntity) (profilesJSON targetCoreStr : c_string) (socksPort httpPort : Z) (healthCheckURL : c_string)
    : option (reply built * list Build.notice) :=
  match d_profiles (safeGoString profilesJSON) with
  | inl e => Some (Failure ("invalid profiles JSON: " ^^ e), [])
  | inr profiles =>
      let coreName := safeGoString targetCoreStr in
      let coreName := if coreName =s "" then CoreSingBox else coreName in
      let '(out, notices) := Build.BuildFailoverClientConfig unmarshal mirror rand pm blockedEntities profiles coreName socksPort httpPort (safeGoString healthCheckURL) in
      r ← built_reply out; Some (r, notices)
  end.
Definition SentinelParseURI (rawURI : c_string) : reply ServerProfile := printed id (ParseURI links (safeGoString rawURI)).
(** The error of a line that is too long is that of the library. *)
Definition SentinelParseSubscription (too_long : string) (subscriptionContent : c_string) : reply (list ServerProfile) :=
  match ParseSubscription links (safeGoString subscriptionContent) with
  | (profiles, false) => Reply profiles
  | (_, true) => Failure too_long
  end.
Definition SentinelGenerateURI (profileJSON : c_string) : reply string :=
  match d_profile (safeGoString profileJSON) with
  | inl e => Failure e
  | inr p => printed id (GenerateURI marshal (Some p))
  end.
(** A list of proxies: of JSON, or one to a line; what is decoded of JSON before an error
    stays in front. *)
Definition proxy_line (line : string) : option string :=
  let l := TrimSpace line in if (l <>s "") && negb (HasPrefix l "#") then Some l else None.
Definition proxies_of (text : string) : list string :=
  let '(l, ok) := d_strings text in if ok then l else l ++ omap proxy_line (SplitByte text (ascii_of_N 10)).
Definition probe_timeout (timeoutMs : Z) : Z := let tOut := timeoutMs * Millisecond in if tOut <=? 0 then 3500 * Millisecond else tOut.
Definition probe_target (targetHost : c_string) (targetPort useTLS timeoutMs : Z) : Probe.target :=
  Probe.mkTarget (safeGoString targetHost) targetPort (negb (useTLS =? 0)) (probe_timeout timeoutMs).
(** The proxies and the target that the probes run with; [results] are what they found. *)
Definition SentinelBatchCheckProxies (results : list string -> Probe.target -> Z -> list Probe.ProxyBatchResult)
    (proxiesJSON targetHost : c_string) (targetPort useTLS timeoutMs concurrency : Z) : reply (list Probe.ProxyBatchResult) :=
  Reply (results (proxies_of (safeGoString proxiesJSON)) (probe_target targetHost targetPort useTLS timeoutMs) concurrency).
Definition SentinelFindFastestProxy (results : list string -> Probe.target -> Z -> list Probe.ProxyBatchResult)
    (proxiesJSON targetHost : c_string) (targetPort useTLS timeoutMs concurrency : Z) : reply Probe.ProxyBatchResult :=
  match Probe.FindFastestWorkingProxy (results (proxies_of (safeGoString proxiesJSON)) (probe_target targetHost targetPort useTLS timeoutMs) concurrency) with
  | None => Text "null"
  | Some best => Reply best
  end.
End config.

(** ** Presets and schemas (routing_exports.go) *)
Section routing.
Context (current : string) (pm : Routing.PresetManager) (d_rules : string -> string + list Routing.RoutingRuleRow).
Definition SentinelListPresets : list Schema.PresetSummary := Schema.GetAvailablePresets current pm.
Definition SentinelGetPreset (presetID : c_string) : reply Routing.Preset :=
  match Routing.GetPreset pm (safeGoString presetID) with Err e => Failure e | Ok p => Reply p end.
Definition SentinelGetConfigurationSchema (lang : c_string) : Schema.ConfigurationSchema := Schema.GetConfigurationSchema current pm (safeGoString lang).
Definition SentinelOptimizeRules (rulesJSON : c_string) : reply (list Routing.RoutingRuleRow) :=
  printed Routing.OptimizeRules (d_rules (safeGoString rulesJSON)).
End routing.

(** ** Cores, sessions and traffic (supervisor_exports.go, sessions_exports.go, traffic_exports.go) *)
Record Objects := mkObjects {
  controller : Controllers.Controller;
  manager : Processes.ProcessManager;
  streams : Logs.LogBroadcaster;
  tracker : Sessions.SessionTracker;
  sample : Controllers.Sample;
}.
Definition with_controller (o : Objects) c : Objects := mkObjects c (manager o) (streams o) (tracker o) (sample o).
Definition with_manager (o : Objects) m : Objects := mkObjects (controller o) m (streams o) (tracker o) (sample o).
Definition with_streams (o : Objects) lb st : Objects := mkObjects (controller o) (manager o) lb st (sample o).

Section cores.
Context {order : RangeOrder string} {ports_order : RangeOrder Z} (loc : Sessions.Locale) (json : string -> option (gmap string string)).
Context (dec : Processes.Decoders) (os : Processes.OS).

Definition SentinelGetCoresStatus (fs : Controllers.Files) (envBin : string) (running answers : string -> bool) (o : Objects) : list (string * bool) :=
  Controllers.GetStatus (controller o) fs envBin running answers.
Definition SentinelRegisterHysteriaPort (port : Z) (o : Objects) : Objects * reply unit :=
  (if 0 <? port then with_controller o (Controllers.RegisterHysteriaPort (controller o) port) else o, Success).
Definition SentinelConfigureSupervisor (d_config : string -> string + (string * list Z * gmap string string)) (configJSON : c_string) (o : Objects) : Objects * reply unit :=
  match d_config (safeGoString configJSON) with
  | inl e => (o, Failure e)
  | inr (ClashAddr, HysteriaPorts, LogPaths) => (with_controller o (Controllers.Configure (controller o) ClashAddr HysteriaPorts LogPaths), Success)
  end.
(** [lines_of path]: the lines of a file and whether reading them failed, or the error. *)
Definition SentinelGetCoreLogs (lines_of : string -> string + (list string * bool)) (failed : string) (logPath : c_string) (maxLines : Z) : reply (list string) :=
  match lines_of (safeGoString logPath) with
  | inl e => Failure e
  | inr (lines, broken) => match Logs.ReadCoreLogs maxLines lines broken with Some l => Reply l | None => Failure failed end
  end.
Definition of_result (r : Processes.result) (o : Objects) : Objects * reply unit * list Processes.effect :=
  let '(pm, err, effects) := r in
  (with_manager o pm, match err with Some e => Unsuccessful e | None => Success end, effects).
Definition SentinelStartCore (spawn : option nat) (core bin config : c_string) (o : Objects) : Objects * reply unit * list Processes.effect :=
  of_result (Processes.StartCore dec os spawn (manager o) (safeGoString core) (safeGoString bin) (safeGoString config)) o.
Definition SentinelStopCore (core : c_string) (o : Objects) : Objects * reply unit * list Processes.effect :=
  of_result (Processes.StopCore os (manager o) (safeGoString core)) o.
Definition SentinelRestartCore (spawn : option nat) (core bin config : c_string) (o : Objects) : Objects * reply unit * list Processes.effect :=
  of_result (Processes.RestartCore dec os spawn (manager o) (safeGoString core) (safeGoString bin) (safeGoString config)) o.
Definition SentinelValidateCore (run : string -> list string -> string -> bool * string) (core bin config : c_string) : (bool * string * option string) * list Processes.effect :=
  Processes.ValidateCoreConfig dec os run (safeGoString core) (safeGoString bin) (safeGoString config).
Definition SentinelGetCoreVersion (run : string -> list string -> string -> bool * string) (core bin : c_string) : reply unit :=
  Text (Processes.DetectCoreVersion os run (safeGoString core) (safeGoString bin)).
(** The wait for a line is not modelled. *)
Definition SentinelPopLogLine (core : c_string) (o : Objects) : Objects * reply unit :=
  let '(lb, line) := Logs.PopLine (streams o) (safeGoString core) in (with_streams o lb (tracker o), Text line).
Definition SentinelGetInMemoryLogs (core : c_string) (limit : Z) (o : Objects) : list string := Logs.GetHistory (streams o) (safeGoString core) limit.
Definition SentinelClearInMemoryLogs (core : c_string) (o : Objects) : Objects * reply unit :=
  (with_streams o (Logs.Clear (streams o) (safeGoString core)) (tracker o), Success).
(** A line goes to the streams and to the session tracker; [None] is a panic. *)
Definition SentinelPushLogLine (m : Ingest.moment) (core line : c_string) (o : Objects) : option (Objects * reply unit) :=
  '(lb, st) ← Ingest.push_and_track loc json m (safeGoString core) (safeGoString line) (streams o) (tracker o);
  Some (with_streams o lb st, Success).

Definition SentinelGetActiveSessions (o : Objects) : list Sessions.SessionInfo := Sessions.GetActiveSessions (tracker o).
Definition SentinelGetOnlineEmails (o : Objects) : list string := Sessions.GetOnlineEmails (tracker o).
Definition SentinelGetRecentSessionEvents (sinceTimestamp limit : Z) (o : Objects) : list Sessions.SessionEvent := Sessions.GetRecentEvents sinceTimestamp limit (tracker o).
Definition SentinelRegisterExternalConnect (now : Z) (nowStr : string) (core email ip : c_string) (o : Objects) : Objects * reply unit :=
  (with_streams o (streams o) (Sessions.RegisterExternalConnect loc (safeGoString core) (safeGoString email) (safeGoString ip) now nowStr (tracker o)), Success).

(** [interface]: what the address of the controller answers. *)
Definition SentinelGetRealtimeTraffic (now : Z) (interface : string -> option Polls.Reply) (clashAddr : c_string) (o : Objects) : Objects * Controllers.RealtimeTrafficStats :=
  let addr := safeGoString clashAddr in
  let addr := Polls.or_default_addr (if addr =s "" then Controllers.clashAPIAddr (controller o) else addr) in
  let '(s, stats) := Controllers.GetRealtimeTraffic (sample o) now (interface addr) in
  (mkObjects (controller o) (manager o) (streams o) (tracker o) s, stats).
Definition SentinelResetRealtimeTraffic (o : Objects) : Objects * reply unit :=
  (mkObjects (controller o) (manager o) (streams o) (tracker o) Controllers.ResetRealtimeTraffic, Success).
Definition SentinelKickClient (fs : Controllers.Files) (envBin registered : string) (clientEmail : c_string) (o : Objects)
    : string * list Z * reply (list (list string)) :=
  let '(addr, ports, r) := Controllers.KickClient (controller o) fs envBin registered (safeGoString clientEmail) in
  (addr, ports, match r with Err e => Failure e | Ok commands => Reply commands end).
(** The counters are kept apart from the other objects. *)
Definition SentinelGetUnifiedTraffic (now : Z) (nowStr : string) (fs : Controllers.Files) (envBin : string) (sbAnswer : string -> Polls.Answer)
    (hyAnswers : Z -> option (gmap string (Z * Z)) * option (gmap string Z)) (stats : Prelude.result (gmap string Sessions.ClientTraffic)) (lines : list string)
    (counters : Controllers.Counters) (o : Objects) : Controllers.Counters * gmap string Sessions.ClientTraffic :=
  Controllers.GetUnifiedTraffic loc now nowStr (controller o) fs envBin sbAnswer hyAnswers stats lines counters.
End cores.

(** ** Diagnostics (diagnostics_exports.go) *)
Definition or_default_timeout (ms timeoutMs : Z) : Z := let timeout := timeoutMs * Millisecond in if timeout <=? 0 then ms * Millisecond else timeout.
Definition SentinelPing (dial : string -> Z -> string + Z) (host : c_string) (port timeoutMs : Z) : Diag.PingResult :=
  Diag.PingHostPort dial (safeGoString host) port (timeoutMs * Millisecond).
Definition SentinelRunHealthCheck `{AEAD} (hmac_sha256 : string -> string -> string) (listen : Z -> bool) (lookup : string -> option (list string * Z))
    (issue : string -> string -> string) (nonce : option string) (socksPort httpPort : Z) (secret : c_string) : Diag.HealthCheckReport :=
  Diag.RunHealthCheck listen lookup issue hmac_sha256 socksPort httpPort "1.1.1.1" (safeGoString secret) nonce.
(** The pings run at most sixteen at a time; this is what they all come to. *)
Definition SentinelBatchPing (dial : string -> Z -> string + Z) (d_targets : string -> string + list Diag.PingTarget) (targetsJSON : c_string) (timeoutMs : Z)
    : reply (list Diag.BatchPingResult) :=
  match d_targets (safeGoString targetsJSON) with
  | inl e => Failure e
  | inr targets => Reply (map (Diag.ping_target dial (or_default_timeout 2500 timeoutMs)) targets)
  end.
Definition SentinelProxyPing (get : Diag.route -> Z -> string -> string + Z * Z) (bad_url : string) (bad_request : string -> option string)
    (socksPort : Z) (authUser authPass targetURL : c_string) (timeoutMs : Z) : Diag.PingResult :=
  Diag.PingThroughProxy get bad_url bad_request socksPort (safeGoString authUser) (safeGoString authPass) (safeGoString targetURL) (or_default_timeout 3000 timeoutMs).

(** ** Encryption across C *)
Lemma c_seen_whole s : str_exists zero_byte s = false -> c_seen s = s.
Proof. induction s as [|a s IH]; [done|]. cbn [str_exists c_seen]. intros [-> Hs]%orb_false_iff. by rewrite IH. Qed.
Lemma c_seen_prefix s : exists t, s = c_seen s ^^ t /\ str_exists zero_byte (c_seen s) = false.
Proof.
  induction s as [|a s (t & E & Hs)]; [by exists ""%string|]. cbn [c_seen]. destruct (zero_byte a) eqn:Ea; [by exists (String a s)|].
  exists t. cbn [String.append str_exists]. by rewrite Ea, Hs, <- E.
Qed.
Section encryption.
Context `{AEADLaws} (hmac_sha256 : string -> string -> string) (hmac_length : forall k m, String.length (hmac_sha256 k m) = 32%nat).

(** What a sealed text has none of: zero bytes and bytes above 127. *)
Definition outside_ascii (a : ascii) : bool := zero_byte a || negb (char_code a <? 128).
Lemma sealed_text key nonce p s : EncryptAEAD (Some nonce) p key = inr s -> str_exists outside_ascii s = false.
Proof.
  unfold EncryptAEAD. destruct (negb _); [done|]. intros E.
  assert (Es : s = EncryptedPayloadHeader ^^ EncodeToString RawURLEncoding (nonce ^^ Seal key nonce p)) by congruence. clear E. rewrite Es.
  rewrite str_exists_app. apply orb_false_iff. split; [by vm_compute|].
  unfold EncodeToString. apply encode_quanta_absent; [|done]. intros v Hv.
  assert (Hf : forallb (fun v => negb (outside_ascii (encode_char RawURLEncoding (N.of_nat v)))) (seq 0 64) = true) by by vm_compute.
  rewrite forallb_forall in Hf. specialize (Hf (N.to_nat v) ltac:(apply in_seq; lia)). rewrite N2Nat.id in Hf. by apply negb_true_iff.
Qed.
Lemma sealed_crosses s : str_exists outside_ascii s = false -> c_seen s = s /\ json_text s = s.
Proof.
  intros Hs. assert (Habs : forall p : ascii -> bool, (forall a, p a = true -> outside_ascii a = true) -> str_exists p s = false).
  { intros p Hp. induction s as [|a t IH]; [done|]. cbn [str_exists] in *. apply orb_false_iff in Hs as [Ha Ht].
    rewrite (IH Ht), orb_false_r. destruct (p a) eqn:E; [|done]. by rewrite (Hp a E) in Ha. }
  split; [apply c_seen_whole, Habs | apply json_text_utf8, ascii_utf8, Habs]; intros a E; unfold outside_ascii; rewrite E; [done|apply orb_true_r].
Qed.

End encryption.

(** A text with a zero byte that was encrypted elsewhere is cut off for C. *)
Example zero_byte_cuts : c_seen (String "a" (String (ascii_of_N 0) "b")) = "a"%string.
Proof. reflexivity. Qed.
(** A toy cipher, which appends key and nonce. *)
#[local] Instance appending : AEAD := {
  Seal key nonce p := key ^^ nonce ^^ p;
  Open key nonce c := if HasPrefix c (key ^^ nonce) then Some (str_drop (String.length (key ^^ nonce)) c) else None }.
#[local] Instance appending_laws : AEADLaws.
Proof.
  split.
  - intros key nonce p. cbn [Seal Open appending]. rewrite <- str_app_assoc, HasPrefix_app. by rewrite str_drop_app.
  - intros key nonce c p. cbn [Seal Open appending]. destruct (HasPrefix c _) eqn:E; [|done].
    apply HasPrefix_spec in E as [t ->]. rewrite str_drop_app. intros [= ->]. by rewrite str_app_assoc.
Qed.
(** The lines of a list of proxies: blank ones and comments are left out. *)
Example proxies_demo : proxies_of (fun _ => ([], false)) (" 1.2.3.4:1080 " ^^ String (ascii_of_N 10) ("# old" ^^ String (ascii_of_N 10) (String (ascii_of_N 10) "socks5://h:1"))) =
  ["1.2.3.4:1080"; "socks5://h:1"]%string.
Proof. by vm_compute. Qed.
End EngineInterface.
