(* ===== verification/CommandLine.v ===== *)
(** * The command line (src/cmd/cli)

    Every command as what it does in order - lines printed, orders given - and how the
    process ends.  A value that is printed as JSON is the value; what Go prints to the
    standard error is left out.  Files, the network, the clock, processes and decoders of JSON
    are arguments, gathered in [Machine].  A process starts with its objects as they are
    created, and each command is one process. *)
From S2P Require Import Prelude GoStrings GoFloat GoTime Ast Profile Matrix AuditRules Links LinkGen Localisation Schemas Routing Builder Crypto Logs Sessions RiskTracker Journal RemoteNode SecurityConfig SettingsForm EventBus SecurityManager SshMonitor Netfilter LogParsers LogSearch Events Pipeline Supervisor SingBox Compilers SingBoxTraffic CoreTraffic ProxyProbe Diagnostics.
Open Scope Z_scope.

(** ** Flags (Go's package [flag])

    A [FlagSet] as far as the program uses it: strings, integers and booleans with their
    defaults, in the syntax that the documentation of the package gives.  All sets of the
    program exit on an error, so [parse] ends with the values and the remaining arguments,
    with a request for help, or with an error. *)
Module Flags.
Inductive flag_value := FString (s : string) | FInt (z : Z) | FBool (b : bool).
Definition FlagSet : Type := list (string * flag_value).
Inductive parsed := Parsed (fs : FlagSet) (rest : list string) | HelpWanted | BadFlags.

(** ** [strconv.ParseInt(s, 0, 64)]

    The base is that of the prefix; underscores may separate digits. *)
Definition lower (a : ascii) : ascii := if is_upper a then ascii_of_N (N_of_ascii a + 32) else a.
Definition digit_value (a : ascii) : option N :=
  if is_digit a then Some (N_of_ascii a - 48)%N
  else if is_lower (lower a) then Some (N_of_ascii (lower a) - 87)%N
  else None.
Definition underscore : ascii := "_"%char.
Fixpoint digits_in (base : N) (s : string) (acc : N) : option N :=
  match s with
  | EmptyString => Some acc
  | String a s =>
      if Ascii.eqb a underscore then digits_in base s acc
      else d ← digit_value a; if (d <? base)%N then digits_in base s (acc * base + d)%N else None
  end.
(** [seen]: what the character before was - a digit, which the prefix of a base counts as,
    an underscore, or anything else. *)
Inductive seen := SDigit | SUnderscore | SOther.
Fixpoint underscores_ok (hex : bool) (before : seen) (s : string) : bool :=
  match s with
  | EmptyString => match before with SUnderscore => false | _ => true end
  | String a s =>
      if is_digit a || (hex && match digit_value a with Some d => (d <? 16)%N | None => false end) then underscores_ok hex SDigit s
      else if Ascii.eqb a underscore then match before with SDigit => underscores_ok hex SUnderscore s | _ => false end
      else match before with SUnderscore => false | _ => underscores_ok hex SOther s end
  end.
(** The base and the digits of a number without its sign, and what underscores need. *)
Definition based (s : string) : N * string * bool :=
  let other := match s with
    | String "0" t => (8%N, t, underscores_ok false SDigit t)
    | _ => (10%N, s, underscores_ok false SOther s)
    end in
  match s with
  | String "0" (String b ((String _ _) as t)) =>
      let c := lower b in
      if Ascii.eqb c "b" then (2%N, t, underscores_ok false SDigit t)
      else if Ascii.eqb c "o" then (8%N, t, underscores_ok false SDigit t)
      else if Ascii.eqb c "x" then (16%N, t, underscores_ok true SDigit t)
      else other
  | _ => other
  end.
Definition ParseInt0 (s : string) : option Z :=
  let signed (neg : bool) (t : string) : option Z :=
    if t =s "" then None
    else
      let '(base, ds, ok) := based t in
      n ← digits_in base ds 0;
      let z := if neg then - Z.of_N n else Z.of_N n in
      if (negb (str_exists (fun a => Ascii.eqb a underscore) ds) || ok) && (minInt64 <=? z) && (z <=? maxInt64) then Some z else None in
  match s with
  | String "+" t => signed false t
  | String "-" t => signed true t
  | _ => signed false s
  end.
(** [strconv.ParseBool] *)
Definition ParseBool (s : string) : option bool :=
  if existsb (String.eqb s) ["1"; "t"; "T"; "true"; "TRUE"; "True"]%string then Some true
  else if existsb (String.eqb s) ["0"; "f"; "F"; "false"; "FALSE"; "False"]%string then Some false
  else None.

(** ** Parsing *)
Fixpoint lookup_flag (fs : FlagSet) (name : string) : option flag_value :=
  match fs with [] => None | (n, v) :: fs => if n =s name then Some v else lookup_flag fs name end.
Definition set_flag (fs : FlagSet) (name : string) (v : flag_value) : FlagSet :=
  map (fun f => if f.1 =s name then (f.1, v) else f) fs.
(** A value of the kind of the old one. *)
Definition read_value (old : flag_value) (text : string) : option flag_value :=
  match old with
  | FString _ => Some (FString text)
  | FInt _ => FInt <$> ParseInt0 text
  | FBool _ => FBool <$> ParseBool text
  end.
(** The name and the value of an argument, which are separated by the first [=] that is not
    at the beginning. *)
Definition name_and_value (s : string) : string * option string :=
  match s with
  | EmptyString => (""%string, None)
  | String a t => match Cut t "=" with Some (n, v) => (String a n, Some v) | None => (s, None) end
  end.
(** What an argument is: the text behind its hyphens, the end of the flags, or not a flag. *)
Inductive argument := Flag (text : string) | EndOfFlags | NoFlag.
Definition argument_of (s : string) : argument :=
  match s with
  | String "-" t =>
      match t with
      | EmptyString => NoFlag
      | String "-" EmptyString => EndOfFlags
      | String "-" u => Flag u
      | _ => Flag t
      end
  | _ => NoFlag
  end.
Definition bad_name (text : string) : bool := (text =s "") || HasPrefix text "-" || HasPrefix text "=".
Definition is_help (name : string) : bool := (name =s "help") || (name =s "h").
Fixpoint parse (fs : FlagSet) (args : list string) : parsed :=
  match args with
  | [] => Parsed fs []
  | s :: rest =>
      match argument_of s with
      | NoFlag => Parsed fs args
      | EndOfFlags => Parsed fs rest
      | Flag text =>
          if bad_name text then BadFlags
          else
            let '(name, value) := name_and_value text in
            match lookup_flag fs name with
            | None => if is_help name then HelpWanted else BadFlags
            | Some old =>
                let set (text : string) (k : FlagSet -> parsed) : parsed :=
                  match read_value old text with Some v => k (set_flag fs name v) | None => BadFlags end in
                match value, old with
                | Some v, _ => set v (fun fs => parse fs rest)
                | None, FBool _ => set "true"%string (fun fs => parse fs rest)
                | None, _ => match rest with v :: rest => set v (fun fs => parse fs rest) | [] => BadFlags end
                end
            end
      end
  end.

Definition get_string (fs : FlagSet) (name : string) : string := match lookup_flag fs name with Some (FString s) => s | _ => "" end.
Definition get_int (fs : FlagSet) (name : string) : Z := match lookup_flag fs name with Some (FInt z) => z | _ => 0 end.
Definition get_bool (fs : FlagSet) (name : string) : bool := match lookup_flag fs name with Some (FBool b) => b | _ => false end.

(** ** Assignments are read back *)

(** A name that a set may hold. *)
Definition flag_name (name : string) : bool :=
  (name <>s "") && negb (HasPrefix name "-") && negb (str_exists (fun a => Ascii.eqb a "=") name).
Definition assignment (name text : string) : string := "--" ^^ name ^^ "=" ^^ text.

Lemma name_and_value_assigned name text : flag_name name = true -> name_and_value (name ^^ "=" ^^ text) = (name, Some text).
Proof.
  unfold flag_name. intros [[Hn _]%andb_true_iff He]%andb_true_iff. destruct name as [|a n]; [done|].
  apply negb_true_iff in He. cbn [str_exists] in He. apply orb_false_iff in He as [_ He].
  cbn [String.append name_and_value]. change ("=" ^^ text)%string with (String "=" text). by rewrite Cut_app.
Qed.
Lemma argument_of_assigned name text : flag_name name = true -> argument_of (assignment name text) = Flag (name ^^ "=" ^^ text).
Proof.
  unfold flag_name. intros [[Hn _]%andb_true_iff _]%andb_true_iff. destruct name as [|a n]; [done|]. reflexivity.
Qed.
Lemma good_name name text : flag_name name = true -> bad_name (name ^^ text) = false.
Proof.
  unfold flag_name, bad_name. intros [[Hn Hp]%andb_true_iff He]%andb_true_iff. destruct name as [|a n]; [done|].
  apply negb_true_iff in Hp, He. cbn [str_exists] in He. apply orb_false_iff in He as [He _].
  unfold HasPrefix in *. cbn [String.append String.prefix] in *. cbn [String.eqb orb].
  apply Ascii.eqb_neq in He. destruct (Ascii.ascii_dec "-" a); [|destruct (Ascii.ascii_dec "=" a); [congruence|done]].
  by destruct n.
Qed.
(** An assignment gives a declared flag its value, and the rest is parsed with it. *)
Lemma parse_assignment fs name text old v rest : flag_name name = true -> lookup_flag fs name = Some old -> read_value old text = Some v ->
  parse fs (assignment name text :: rest) = parse (set_flag fs name v) rest.
Proof.
  intros Hn Hl Hr. cbn [parse]. rewrite argument_of_assigned, good_name, name_and_value_assigned, Hl by done. cbv beta iota zeta.
  by rewrite Hr.
Qed.
(** So does a name of a text or a number with its value behind it. *)
Lemma parse_separate fs name text old v rest : flag_name name = true -> lookup_flag fs name = Some old ->
  match old with FBool _ => False | _ => True end -> read_value old text = Some v ->
  parse fs (("--" ^^ name) :: text :: rest) = parse (set_flag fs name v) rest.
Proof.
  intros Hn Hl Hb Hr. pose proof (good_name name "" Hn) as Hg. rewrite str_app_nil_r in Hg.
  assert (Hv : name_and_value name = (name, None)).
  { unfold flag_name in Hn. apply andb_true_iff in Hn as [_ He]. apply negb_true_iff in He. destruct name as [|a n]; [done|].
    cbn [str_exists] in He. apply orb_false_iff in He as [_ He]. cbn [name_and_value]. by rewrite Cut_absent. }
  assert (Ha : argument_of ("--" ^^ name) = Flag name) by (destruct name; [by vm_compute in Hn|reflexivity]).
  cbn [parse]. rewrite Ha, Hg, Hv, Hl. destruct old; [| |done]; cbv beta iota zeta; by rewrite Hr.
Qed.

(** ** Numbers are read back *)
Lemma digits_in_10 s acc : str_exists (fun a => negb (is_digit a)) s = false -> digits_in 10 s acc = parse_digits s acc.
Proof.
  revert acc. induction s as [|a s IH]; intros acc Hs; [done|]. cbn [str_exists] in Hs. apply orb_false_iff in Hs as [Ha%negb_false_iff Hs].
  cbn [digits_in parse_digits]. rewrite (is_digit_ne a underscore Ha) by done. unfold digit_value. rewrite Ha. cbn [mbind option_bind].
  assert ((N_of_ascii a - 48 <? 10)%N = true) as ->; [|by apply IH].
  unfold is_digit, char_code in Ha. apply andb_true_iff in Ha as [?%Z.leb_le ?%Z.leb_le]. apply N.ltb_lt. lia.
Qed.
Lemma digits_lead f n s : (n < 2 ^ N.of_nat f)%N -> n <> 0%N -> exists d t, (0 < d < 10)%N /\ digits f n s = String (digit_char d) t.
Proof.
  revert n s. induction f as [|f IH]; intros n s Hn Hz; [change (2 ^ N.of_nat 0)%N with 1%N in Hn; lia|]. cbn [digits].
  pose proof (N.mod_lt n 10 ltac:(lia)). pose proof (N.div_mod n 10 ltac:(lia)).
  destruct (N.eqb_spec (n / 10) 0) as [E|E]; [exists (n mod 10)%N, s; split; [lia|done]|].
  apply IH; [|done]. rewrite Nat2N.inj_succ, N.pow_succ_r' in Hn. apply N.Div0.div_lt_upper_bound. lia.
Qed.
(** A number without a leading zero is read in base ten. *)
Lemma ParseInt0_lead d t n : (0 < d < 10)%N -> str_exists (fun a => negb (is_digit a)) t = false ->
  parse_digits (String (digit_char d) t) 0 = Some n -> Z.of_N n <= maxInt64 -> ParseInt0 (String (digit_char d) t) = Some (Z.of_N n).
Proof.
  intros Hd Ht Hp Hn. pose proof (digit_char_is_digit d ltac:(lia)) as Hg.
  assert (Hs : str_exists (fun a => negb (is_digit a)) (String (digit_char d) t) = false) by (cbn [str_exists]; by rewrite Hg).
  assert (Hb : ParseInt0 (String (digit_char d) t) =
    n ← digits_in 10 (String (digit_char d) t) 0;
    if (negb (str_exists (fun a => Ascii.eqb a underscore) (String (digit_char d) t)) || underscores_ok false SOther (String (digit_char d) t))
       && (minInt64 <=? Z.of_N n) && (Z.of_N n <=? maxInt64) then Some (Z.of_N n) else None).
  { destruct d as [|q]; [lia|]. do 4 (try (destruct q as [q|q|]; try lia)); reflexivity. }
  rewrite Hb, digits_in_10, Hp by done. cbn [mbind option_bind].
  assert (Hu : str_exists (fun a => Ascii.eqb a underscore) (String (digit_char d) t) = false).
  { clear -Hs. induction (String (digit_char d) t) as [|a u IH]; [done|]. cbn [str_exists] in *. apply orb_false_iff in Hs as [Ha%negb_false_iff Hu].
    by rewrite (is_digit_ne a underscore Ha), IH. }
  rewrite Hu. cbn [negb orb]. by rewrite (proj2 (Z.leb_le minInt64 _)), (proj2 (Z.leb_le _ maxInt64)) by (unfold minInt64; lia).
Qed.
Lemma ParseInt0_Itoa z : 0 < z <= maxInt64 -> ParseInt0 (Itoa z) = Some z.
Proof.
  intros [Hz Hm]. assert (Hd : str_exists (fun a => negb (is_digit a)) (Itoa z) = false) by (apply Itoa_only; [lia|]; by intros a ->).
  revert Hd. unfold Itoa, FormatNat. destruct (Z.ltb_spec z 0); [lia|]. set (n := Z.to_N z). pose proof (parse_FormatNat n "") as Hp.
  destruct (digits_lead (S (N.to_nat (N.size n))) n "") as (d & t & Hd & E); [|subst n; lia|].
  { rewrite Nat2N.inj_succ, N2Nat.id, N.pow_succ_r'. pose proof (N.size_gt n). lia. }
  rewrite E in Hp |- *. cbn [str_exists]. intros [_ Ht]%orb_false_iff.
  rewrite (ParseInt0_lead d t n) by (try done; subst n; lia). f_equal. subst n. lia.
Qed.

(** ** The syntax *)
Definition flags_demo : FlagSet := [("uri", FString ""); ("port", FInt 443); ("tun", FBool false)]%string.
Example syntax_demo :
  parse flags_demo ["-uri"; "-x"; "--port=0x1_F"; "-tun"; "rest"; "--port"; "1"] = Parsed [("uri", FString "-x"); ("port", FInt 31); ("tun", FBool true)] ["rest"; "--port"; "1"]
  /\ parse flags_demo ["--tun"; "false"; "--uri"; "a"] = Parsed [("uri", FString ""); ("port", FInt 443); ("tun", FBool true)] ["false"; "--uri"; "a"]
  /\ parse flags_demo ["--tun=F"; "--"; "-h"] = Parsed flags_demo ["-h"]
  /\ parse flags_demo ["-h"] = HelpWanted /\ parse flags_demo ["--uri"] = BadFlags /\ parse flags_demo ["--port=08"] = BadFlags
  /\ parse flags_demo ["--=x"] = BadFlags /\ parse flags_demo ["---uri"] = BadFlags /\ parse flags_demo ["--nothing"] = BadFlags
  /\ parse flags_demo ["-"] = Parsed flags_demo ["-"].
Proof. by vm_compute. Qed.
Example numbers_demo : map ParseInt0 ["0"; "0664"; "-0b11"; "+7"; "1_000"; "1__0"; "_1"; "1_"; "0_7"; "0x"; "9223372036854775808"; "-9223372036854775808"; ""; "-"]%string =
  [Some 0; Some 436; Some (-3); Some 7; Some 1000; None; None; None; Some 7; None; None; Some minInt64; None; None].
Proof. by vm_compute. Qed.
End Flags.

Module Text.
Definition newline : ascii := ascii_of_nat 10.
(** ** The lines of a text without the blanks around them *)
Section clean.
Context {A} (f : string -> option A).
Definition clean_line (l : string) : option A := let clean := TrimSpace l in if clean =s "" then None else f clean.
Definition clean_lines (s : string) : list A := omap clean_line (SplitByte s newline).

Lemma clean_lines_end t u : clean_lines (t ^^ String newline u) = clean_lines t ++ clean_lines u.
Proof using Type. unfold clean_lines, SplitByte. rewrite (SplitFunc_sep _ t newline u) by done. by rewrite omap_app. Qed.
Lemma TrimSpace_first a s : is_space a = true -> TrimSpace (String a s) = TrimSpace s.
Proof using Type. intros Ha. unfold TrimSpace, TrimFunc. cbn [TrimLeftFunc]. by rewrite Ha. Qed.
Lemma TrimRightFunc_space (p : ascii -> bool) s a : p a = true -> TrimRightFunc p (s ^^ String a "") = TrimRightFunc p s.
Proof using Type. intros Ha. induction s as [|b s IH]; cbn; [by rewrite Ha|by rewrite IH]. Qed.
Lemma TrimSpace_last a s : is_space a = true -> TrimSpace (s ^^ String a "") = TrimSpace s.
Proof using Type.
  intros Ha. induction s as [|b s IH]; [cbn [String.append]; by rewrite TrimSpace_first|]. cbn [String.append].
  destruct (is_space b) eqn:Eb; [by rewrite !TrimSpace_first|].
  unfold TrimSpace, TrimFunc. cbn [TrimLeftFunc]. rewrite Eb. exact (TrimRightFunc_space is_space (String b s) a Ha).
Qed.
Lemma clean_lines_first a s : is_space a = true -> clean_lines (String a s) = clean_lines s.
Proof using Type.
  intros Ha. destruct (Ascii.eqb_spec a newline) as [->|Hn]; [exact (clean_lines_end "" s)|].
  unfold clean_lines, SplitByte. cbn [SplitFunc]. rewrite (proj2 (Ascii.eqb_neq _ _) Hn).
  pose proof (SplitFunc_nonempty (fun a => Ascii.eqb a newline) s). destruct (SplitFunc _ s) as [|h t]; [done|].
  cbn [omap list_omap]. unfold clean_line at 1. by rewrite TrimSpace_first.
Qed.
Lemma SplitFunc_last p s a : p a = false -> exists l x, SplitFunc p s = l ++ [x] /\ SplitFunc p (s ^^ String a "") = l ++ [x ^^ String a ""].
Proof using Type.
  intros Ha. induction s as [|b s (l & x & E1 & E2)]; cbn [String.append SplitFunc]; [rewrite Ha; by exists [], ""%string|].
  rewrite E1, E2. destruct (p b); [by exists (""%string :: l), x|].
  destruct l as [|h l]; [by exists [], (String b x)|by exists (String b h :: l), x].
Qed.
Lemma clean_lines_last a s : is_space a = true -> clean_lines (s ^^ String a "") = clean_lines s.
Proof using Type.
  intros Ha. destruct (Ascii.eqb_spec a newline) as [->|Hn]; [rewrite clean_lines_end; apply app_nil_r|].
  unfold clean_lines, SplitByte. destruct (SplitFunc_last (fun a => Ascii.eqb a newline) s a) as (l & x & -> & ->); [by apply Ascii.eqb_neq|].
  rewrite !omap_app. f_equal. cbn [omap list_omap]. unfold clean_line. by rewrite TrimSpace_last.
Qed.
Lemma clean_lines_left s : clean_lines (TrimLeftFunc is_space s) = clean_lines s.
Proof using Type. induction s as [|a s IH]; [done|]. cbn [TrimLeftFunc]. destruct (is_space a) eqn:E; [by rewrite clean_lines_first|done]. Qed.
Lemma trimmed_right (p : ascii -> bool) s : exists w, s = TrimRightFunc p s ^^ w /\ str_exists (fun a => negb (p a)) w = false.
Proof using Type.
  induction s as [|a s (w & E & Hw)]; [by exists ""%string|]. cbn [TrimRightFunc].
  destruct (TrimRightFunc p s) as [|b t]; [|exists w; cbn [String.append]; by rewrite E at 1].
  cbn [String.append] in E. subst s. destruct (p a) eqn:Ea; [exists (String a w); cbn [str_exists]; by rewrite Ea|by exists w].
Qed.
Lemma clean_lines_right t w : str_exists (fun a => negb (is_space a)) w = false -> clean_lines (t ^^ w) = clean_lines t.
Proof using Type.
  revert t. induction w as [|a w IH]; intros t Hw; [by rewrite str_app_nil_r|]. cbn [str_exists] in Hw.
  apply orb_false_iff in Hw as [Ha%negb_false_iff Hw].
  assert (t ^^ String a w = (t ^^ String a "") ^^ w) as -> by (by rewrite str_app_assoc). by rewrite IH, clean_lines_last.
Qed.
(** Blanks around the whole text do not matter either. *)
Lemma clean_lines_trimmed s : clean_lines (TrimSpace s) = clean_lines s.
Proof using Type.
  rewrite <- (clean_lines_left s). unfold TrimSpace, TrimFunc.
  destruct (trimmed_right is_space (TrimLeftFunc is_space s)) as (w & E & Hw). rewrite E at 2. by rewrite clean_lines_right.
Qed.
(** Lines that are written one by one are read back. *)
Lemma clean_lines_written (g : A -> string) l :
  Forall (fun x => str_exists (fun a => Ascii.eqb a newline) (g x) = false /\ clean_line (g x) = Some x) l ->
  clean_lines (Join (map (fun x => g x ^^ String newline "") l) "") = l.
Proof using Type.
  induction 1 as [|x l [Hn Hx] _ IH]; [done|]. cbn [map].
  assert (Join ((g x ^^ String newline "") :: map (fun x => g x ^^ String newline "") l) "" = g x ^^ String newline (Join (map (fun x => g x ^^ String newline "") l) "")) as ->.
  { destruct (map _ l) eqn:E; cbn [Join]; [done|]. rewrite !str_app_assoc. done. }
  rewrite clean_lines_end, IH. unfold clean_lines, SplitByte. rewrite SplitFunc_clean by done. cbn [omap list_omap]. by rewrite Hx.
Qed.
End clean.
End Text.

Module Terminal.
Import Flags Text.
Section terminal.
Context `{LocalZone} {order : RangeOrder string} {ports_order : RangeOrder Z} {F : Type} `{Arith F} `{AEAD} (hmac_sha256 : string -> string -> string).

(** ** What a command meets *)
Record Machine := mkMachine {
  now : Z; pid : Z; hostname : string; tempDir : string; windows : bool;
  read_file : string -> string + string;
  stdin : string + string;
  random_nonce : option string; x25519 : option (string * string); mlkem_seed : option string; encapsulation : string -> option string;
  (** The language of the process and the presets that are built in. *)
  language : string; presets : Routing.PresetManager; preset_file : string -> Prelude.result Routing.Preset;
  (** Decoders and printers of JSON; where an error is ignored, what the decoder leaves. *)
  links : LinkDecoders; marshal : jmap -> string; unmarshal : string -> option jmap;
  d_profile : string -> string + ServerProfile; d_profiles : string -> option (list ServerProfile); d_spec : string -> string + ConfigSpec;
  d_security : string -> SecurityConfig.SecurityConfig F -> option (SecurityConfig.SecurityConfig F);
  d_iptables : string -> Netfilter.IptablesEvent; d_classifier : string -> Netfilter.ClassifierPolicy -> Netfilter.ClassifierPolicy;
  d_lines : string -> list string; json_object : string -> option jmap;
  too_long : string;
  mirror : SingBox.RuleMirror * bool; rand : nat -> Z -> string;
  (** The network. *)
  dial : string -> Z -> string + Z; listen : Z -> bool; lookup : string -> option (list string * Z);
  issue : string -> string -> string; probes : list string -> Probe.target -> Z -> list Probe.ProxyBatchResult;
  (** The journal of threats: whether its directory can be made, what rotating and opening
      it come to, whether it can be read. *)
  mkdir_ok : bool; journal_removed : bool; journal_renamed : bool; journal_opened : bool; journal_readable : bool;
  bus : EventBus.EventBus; moment : Ingest.moment; pipeline : Ingest.SecurityPipeline;
  (** The cores. *)
  os : Processes.OS; p_dec : Processes.Decoders; spawn : option nat; run : string -> list string -> string -> bool * string;
  fs : Controllers.Files; envBin : string; running : string -> bool; answers : string -> bool;
  loc : Sessions.Locale; nowStr : string; sbAnswer : string -> Polls.Answer;
  hyAnswers : Z -> option (gmap string (Z * Z)) * option (gmap string Z);
  xrayStats : Prelude.result (gmap string Sessions.ClientTraffic); xrayLines : list string; counters : Controllers.Counters;
  log_lines : string -> string + (list string * bool); log_failed : string;
}.

(** ** What a command does *)
Inductive value :=
  | AProfile (p : ServerProfile) | Profiles (l : list ServerProfile) | AConfig (c : jmap) | AServerConfig (c : jmap)
  | Texts (fields : list (string * string)) | Success | AKeyPair (k : KeyPair) | VlessKeys (k : VlessEncKeys)
  | PresetList (l : list Schema.PresetSummary) | APreset (p : Routing.Preset) | ASchema (s : Schema.ConfigurationSchema)
  | APing (r : Diag.PingResult) | Probed (l : list Probe.ProxyBatchResult)
  | AForm (l : list (SettingsPage.SecurityFieldSchema (F:=F))) | ASecurityConfig (c : SecurityConfig.SecurityConfig F)
  | ARecord (r : Journal.ThreatRecord)
  | ASummary (nodeID : string) (quarantined : list string) (suspicious : list SecurityManager.SuspiciousClientEntry) (stats : SecurityManager.SecurityStats) (timestamp : Z)
  | SSHSessions (l : list SshMonitor.SSHSession)
  | AnIptablesEvent (ev : Netfilter.IptablesEvent) | AClassification (r : Netfilter.ClassificationResult) | ALogin (ev : SshMonitor.SSHEvent)
  | ARouterEvent (ev : Netfilter.RouterEvent) | AnEvent (ev : Dispatch.SecurityEvent)
  | AStatus (l : list (string * bool)) | ATraffic (t : gmap string Sessions.ClientTraffic) | LogLines (l : list string)
  | AValidation (valid : bool) (output : string) (error : option string).
(** Errors that are not texts. *)
Inductive failure := BuildFailure (e : Build.build_error) | ServerFailure (what : string) (e : option Compile.failure)
  | ConfigFailure (e : option (SecurityConfig.config_error (F:=F))) | BadClient (e : RemoteNode.node_error) | IOFailure.
Inductive act :=
  | Line (s : string)
  (* the value that is printed as JSON *)
  | Value (v : value)
  | Failed (before : string) (e : failure)
  | Warning (w : Matrix.NegotiationWarning)
  | Kick (clashAddr : string) (hysteriaPorts : list Z) (email : string) (xray : Prelude.result (list (list string)))
  | Journalled (j : Journal.ThreatJournal) (written : bool)
  | Command (argv : list string)
  | Steered (effects : list Processes.effect).
(** A panic ends a process with status 2, as flags that cannot be parsed do. *)
Inductive ending := Exits (status : Z) | Crashes.
Definition outcome : Type := list act * ending.

Definition shows (v : value) : outcome := ([Value v], Exits 0).
Definition prints (l : list string) : outcome := (map Line l, Exits 0).
Definition fails (s : string) : outcome := ([Line s], Exits 1).
Definition fails_with (before : string) (e : failure) : outcome := ([Failed before e], Exits 1).
Definition nothing_found : outcome := prints ["{}"].
Definition after (a : list act) (o : outcome) : outcome := (a ++ o.1, o.2).
(** [_ = fs.Parse(args)] of a set that exits on errors. *)
Definition with_flags (fs : FlagSet) (args : list string) (k : FlagSet -> outcome) : outcome :=
  match parse fs args with
  | Parsed fs _ => k fs
  | HelpWanted => ([], Exits 0)
  | BadFlags => ([], Exits 2)
  end.
Definition or_error {A} (before : string) (r : string + A) (k : A -> outcome) : outcome :=
  match r with inl e => fails (before ^^ e) | inr a => k a end.
Definition FText (name : string) : string * flag_value := (name, FString "").

(** The encoding of the journal's records, and the journal and its backup at a path. *)
Context (r_marshal : Journal.ThreatRecord -> string) (r_unmarshal : string -> option Journal.ThreatRecord).
Definition Disk : Type := string -> option string * option string.
Context (m : Machine) (disk : Disk).

(** ** Links and profiles (parse.go) *)
Definition handleParse (args : list string) : outcome :=
  with_flags [FText "uri"] args (fun fl =>
    if get_string fl "uri" =s "" then fails "Error: --uri is required"
    else or_error "Parse error: " (ParseURI (links m) (get_string fl "uri")) (fun p => shows (AProfile p))).
Definition handleGenerate (args : list string) : outcome :=
  with_flags [FText "profile"] args (fun fl =>
    or_error "Stdin error: " (if get_string fl "profile" <>s "" then inr (get_string fl "profile") else stdin m) (fun rawJSON =>
    or_error "JSON error: " (d_profile m rawJSON) (fun p =>
    or_error "Generate error: " (GenerateURI (marshal m) (Some p)) (fun uri => prints [uri])))).
Definition handleParseSubscription (args : list string) : outcome :=
  with_flags [FText "file"; FText "content"] args (fun fl =>
    let parsed content :=
      match ParseSubscription (links m) content with
      | (profiles, false) => shows (Profiles profiles)
      | (_, true) => fails ("Subscription parse error: " ^^ too_long m)
      end in
    if get_string fl "content" <>s "" then parsed (get_string fl "content")
    else if get_string fl "file" <>s "" then or_error "Error reading file: " (read_file m (get_string fl "file")) parsed
    else or_error "Stdin error: " (stdin m) parsed).

(** ** Configurations (build.go, diagnostics.go) *)
Definition build_flags : FlagSet :=
  [FText "uri"; ("core", FString "singbox"); ("tun", FBool false); ("socks", FInt 10808); ("http", FInt 10809); FText "preset";
   ("smart", FBool true); ("bypass-ru", FBool true); ("block-ads", FBool true)]%string.
(** A preset by its name, or else from a file; what is read from it is not kept. *)
Definition preset_routing (name : string) : string + RoutingSpec :=
  match Routing.CompilePreset (presets m) name with
  | Ok spec => inr spec
  | Err e =>
      match (Routing.LoadPresetFile (presets m) name (preset_file m name)).2 with
      | Err _ => inl ("Error loading preset '" ^^ name ^^ "': " ^^ e)
      | Ok p => inr (Routing.CompileToAST (Routing.mkTable "proxy" (Routing.with_order 1 Routing.lan_row :: Routing.GetRules p "")))
      end
  end.
Definition enabled_presets (smart bypassRu blockAds : bool) : list string :=
  if smart then (if blockAds then ["ads"] else []) ++ (if bypassRu then ["ru"] else []) else []%string.
Definition smart_routing (smart bypassRu blockAds : bool) : RoutingSpec :=
  Routing.CompilePolicy (presets m)
    (Some (Routing.policy_of_presets (if smart then Routing.ModeSmartRule else Routing.ModeGlobalProxy) (enabled_presets smart bypassRu blockAds))).
Definition chosen_routing (fl : FlagSet) : string + RoutingSpec :=
  if get_string fl "preset" <>s "" then preset_routing (get_string fl "preset")
  else inr (smart_routing (get_bool fl "smart") (get_bool fl "bypass-ru") (get_bool fl "block-ads")).
Definition build_spec (fl : FlagSet) (profile : ServerProfile) (routing : RoutingSpec) : ConfigSpec :=
  mkConfig (get_string fl "core") "" false (Some profile)
    (Some (Build.client_inbound (if get_bool fl "tun" then InboundModeDesktopTun else InboundModeSystemProxy) (get_int fl "socks") (get_int fl "http") ""))
    [] (Some routing) None "" "" "" "" "" "".
(** The process has isolated nobody. *)
Definition built (warn : bool) (out : Build.outcome) : outcome :=
  match out with
  | Build.Built r =>
      let warnings := if warn && Ast.nonempty (Build.r_Warnings r)
        then [Line "// --- Warnings ---"] ++ map Warning (Build.r_Warnings r) ++ [Line "// ----------------"] else [] in
      after warnings (shows (AConfig (Build.r_Config r)))
  | Build.BuildFails e => fails_with "Build error: " (BuildFailure e)
  | Build.BuildPanics => ([], Crashes)
  end.
Definition handleBuild (args : list string) : outcome :=
  with_flags build_flags args (fun fl =>
    if get_string fl "uri" =s "" then fails "Error: --uri is required"
    else or_error "Parse error: " (ParseURI (links m) (get_string fl "uri")) (fun profile =>
      match chosen_routing fl with
      | inl e => fails e
      | inr routing => built true (Build.BuildClientConfig (unmarshal m) (mirror m) (rand m) (presets m) [] (Some (build_spec fl profile routing))).1.1
      end)).
Definition handleCompileServer (args : list string) : outcome :=
  with_flags [FText "spec"; FText "file"] args (fun fl =>
    let compiled rawJSON :=
      or_error "JSON unmarshal error: " (d_spec m rawJSON) (fun spec =>
        match (Build.BuildServerConfigFromSpec (unmarshal m) (mirror m) (rand m) (Some spec)).1 with
        | Build.ServerConfig config => shows (AServerConfig config)
        | Build.ServerFails what e => fails_with "Build error: " (ServerFailure what e)
        | Build.ServerPanics => ([], Crashes)
        end) in
    if get_string fl "spec" <>s "" then compiled (get_string fl "spec")
    else if get_string fl "file" <>s "" then or_error "File error: " (read_file m (get_string fl "file")) compiled
    else or_error "Stdin error: " (stdin m) compiled).
(** JSON of at least one profile, or a subscription. *)
Definition profiles_in (content : string) : string + list ServerProfile :=
  match d_profiles m content with
  | Some (p :: ps) => inr (p :: ps)
  | _ =>
      match ParseSubscription (links m) content with
      | (p :: ps, false) => inr (p :: ps)
      | ([], false) => inl "<nil>"%string
      | (_, true) => inl (too_long m)
      end
  end.
Definition handleBuildFailover (args : list string) : outcome :=
  with_flags [FText "file"; ("core", FString "singbox"); ("socks", FInt 10808); ("http", FInt 10809); ("url", FString "https://api.telegram.org")]%string args (fun fl =>
    if get_string fl "file" =s "" then fails "Error: --file is required"
    else or_error "Error reading file: " (read_file m (get_string fl "file")) (fun content =>
      or_error "Error parsing profiles or subscription: " (profiles_in content) (fun profiles =>
        built false (Build.BuildFailoverClientConfig (unmarshal m) (mirror m) (rand m) (presets m) [] profiles (get_string fl "core")
          (get_int fl "socks") (get_int fl "http") (get_string fl "url")).1))).

(** ** Keys and encryption (crypto.go) *)
Definition handleEncrypt (args : list string) : outcome :=
  with_flags [FText "secret"; FText "text"; FText "data"] args (fun fl =>
    let val := if get_string fl "text" =s "" then get_string fl "data" else get_string fl "text" in
    if (get_string fl "secret" =s "") || (val =s "") then fails "Error: --secret and --text/--data are required"
    else or_error "Vault error: " (NewVault hmac_sha256 (get_string fl "secret")) (fun vault =>
      or_error "Encrypt error: " (EncryptString vault (random_nonce m) val) (fun enc => shows (Texts [("payload", enc)]%string)))).
Definition handleDecrypt (args : list string) : outcome :=
  with_flags [FText "secret"; FText "payload"] args (fun fl =>
    if (get_string fl "secret" =s "") || (get_string fl "payload" =s "") then fails "Error: --secret and --payload are required"
    else or_error "Vault error: " (NewVault hmac_sha256 (get_string fl "secret")) (fun vault =>
      or_error "Decrypt error: " (DecryptString vault (get_string fl "payload")) (fun dec => shows (Texts [("plaintext", dec)]%string)))).
Definition handleKeypair : outcome := or_error "Key error: " (GenerateX25519KeyPair (x25519 m)) (fun kp => shows (AKeyPair kp)).
Definition handleVlessEnc : outcome :=
  or_error "Key generation error: " (GenerateVlessEncKeys (x25519 m) (mlkem_seed m) (encapsulation m)) (fun keys => shows (VlessKeys keys)).

(** ** Presets and schemas (preset.go, schema.go) *)
Fixpoint blanks (n : nat) : string := match n with O => "" | S n => String " " (blanks n) end.
(** [%-15s] for a text of ASCII. *)
Definition padded (s : string) : string := s ^^ blanks (15 - String.length s).
Definition preset_line (p : Routing.Preset) : string :=
  "  • " ^^ padded (Routing.preset_ID p) ^^ " : " ^^ Routing.preset_Name p ^^ String (ascii_of_nat 10) ("    " ^^ Routing.preset_Description p ^^
    " (Matchers: " ^^ Itoa (len (Routing.GetRules p "")) ^^ ")").
Definition handlePreset (args : list string) : outcome :=
  match args with
  | [] => fails "Usage: sentinel-core preset <list|show|import> [args...]"
  | subCmd :: rest =>
      if subCmd =s "list" then
        match rest with
        | "--json"%string :: _ => shows (PresetList (Schema.GetAvailablePresets (language m) (presets m)))
        | _ => prints ("Available Routing Presets:"%string :: map preset_line (Routing.ListPresets (presets m)))
        end
      else if subCmd =s "show" then
        match rest with
        | [] => fails "Usage: sentinel-core preset show <preset_id>"
        | id :: _ => match Routing.GetPreset (presets m) id with Err e => fails ("Error: " ^^ e) | Ok p => shows (APreset p) end
        end
      else if subCmd =s "import" then
        match rest with
        | [] => fails "Usage: sentinel-core preset import <preset_file.json>"
        | filePath :: _ =>
            match (Routing.LoadPresetFile (presets m) filePath (preset_file m filePath)).2 with
            | Err e => fails ("Import failed: " ^^ e)
            | Ok p => prints ["Successfully imported preset '" ^^ Routing.preset_ID p ^^ "' (" ^^ Routing.preset_Name p ^^ ") with " ^^ Itoa (len (Routing.GetRules p "")) ^^ " rules"]
            end
        end
      else fails ("Unknown preset command '" ^^ subCmd ^^ "'")
  end.
Definition handleSchema (args : list string) : outcome :=
  with_flags [("lang", FString "ru")]%string args (fun fl => shows (ASchema (Schema.GetConfigurationSchema (language m) (presets m) (get_string fl "lang")))).

(** ** Diagnostics (diagnostics.go) *)
Definition show_bool (b : bool) : string := if b then "true" else "false".
Definition health_lines (r : Diag.HealthCheckReport) : list string :=
  ["Health Check Result: Passed=" ^^ show_bool (Diag.Passed r);
   "DNS Resolving: " ^^ show_bool (Diag.DNSResolving r) ^^ " (Latency: " ^^ Itoa (Diag.DNSLatencyMs r) ^^ " ms)";
   "Crypto Vault OK: " ^^ show_bool (Diag.CryptoVaultOK r)]%string ++
  map (fun pr => "Port " ^^ Itoa (Diag.pc_Port pr) ^^ ": " ^^ (if Diag.pc_IsFree pr then "FREE" else "IN USE")) (Diag.PortResults r) ++
  (if 0 <? len (Diag.Issues r) then "Issues:"%string :: map (fun problem => " - " ^^ problem) (Diag.Issues r) else []).
Definition handleHealth (args : list string) : outcome :=
  with_flags [("socks", FInt 10808); ("http", FInt 10809)]%string args (fun fl =>
    prints (health_lines (Diag.RunHealthCheck (listen m) (lookup m) (issue m) hmac_sha256 (get_int fl "socks") (get_int fl "http")
      "one.one.one.one" "test-secret" (random_nonce m)))).
Definition handlePing (args : list string) : outcome :=
  match args with
  | [] => fails "Usage: sentinel-core ping <host> [--port <int>] [--timeout-ms <int>]"
  | host :: rest =>
      with_flags [("port", FInt 443); ("timeout-ms", FInt 3000)]%string rest (fun fl =>
        shows (APing (Diag.PingHostPort (dial m) host (get_int fl "port") (DurMul (get_int fl "timeout-ms") Millisecond))))
  end.
Definition proxy_line (l : string) : option string :=
  let line := TrimSpace l in
  if (line <>s "") && negb (HasPrefix line "#") && negb (HasPrefix line "//") then Some line else None.
Definition handleCheckProxies (args : list string) : outcome :=
  with_flags [FText "file"; ("target", FString "api.telegram.org"); ("port", FInt 443); ("tls", FBool true); ("timeout-ms", FInt 3500); ("concurrency", FInt 64)]%string args (fun fl =>
    if get_string fl "file" =s "" then fails "Error: --file is required"
    else or_error "Error reading file: " (read_file m (get_string fl "file")) (fun content =>
      shows (Probed (probes m (omap proxy_line (SplitByte content (ascii_of_nat 10)))
        (Probe.mkTarget (get_string fl "target") (get_int fl "port") (get_bool fl "tls") (DurMul (get_int fl "timeout-ms") Millisecond)) (get_int fl "concurrency"))))).

(** ** Security (security.go) *)
Definition default_journal : string := JoinPath [tempDir m; "sentinel-threats.jsonl"%string].
Definition journal_opened_at (path : string) : option Journal.ThreatJournal :=
  let path' := if path =s "" then default_journal else path in
  let '(file, backup) := disk path' in
  Journal.NewThreatJournal path "" (hostname m) (tempDir m) (mkdir_ok m) file backup.
Definition log_incident (eventType clientID : string) (score : Z) (status : RiskTracker.ClientStatus) (reason actionTaken : string) : list act :=
  match journal_opened_at "" with
  | None => []
  | Some tj =>
      let '(tj, written) := Journal.LogIncident r_marshal (now m) (journal_removed m) (journal_renamed m) (journal_opened m) tj
        eventType "ADMIN_ACTION" clientID [] score status "ADMIN_COMMAND" reason actionTaken in
      [Journalled tj written]
  end.
(** The controller and the process manager are those of this process. *)
Definition kick (client : string) : act :=
  let '(addr, ports, xray) := Controllers.KickClient Controllers.newController (fs m) (envBin m)
    (Processes.GetBinaryPath Processes.NewProcessManager "xray") client in
  Kick addr ports client xray.
Definition dq : string := String (ascii_of_nat 34) "".
Definition quoted (s : string) : string := dq ^^ s ^^ dq.
(** [{"status": "quarantined", "client": %q, "reason": %q}] *)
Definition status_line (status : string) (fields : list (string * string)) : string :=
  "{" ^^ Join (map (fun f => quoted f.1 ^^ ": " ^^ f.2) (("status"%string, quoted status) :: fields)) ", " ^^ "}".
Definition checked_client (client : string) (k : outcome) : outcome :=
  if client =s "" then fails "Error: --client is required"
  else match RemoteNode.ValidateRemoteClientID client with
       | Some e => fails_with "Error: invalid client ID: " (BadClient e)
       | None => k
       end.
Definition quarantine (args : list string) : outcome :=
  with_flags [FText "client"; ("reason", FString "Manual admin quarantine")]%string args (fun fl =>
    let client := get_string fl "client" in let reason := get_string fl "reason" in
    checked_client client
      (after (kick client :: log_incident "QUARANTINED" client 100 RiskTracker.StatusQuarantined reason "KICKED_AND_ISOLATED")
        (prints [status_line "quarantined" [("client", Quote client); ("reason", Quote reason)]%string]))).
Definition unquarantine (args : list string) : outcome :=
  with_flags [FText "client"] args (fun fl =>
    let client := get_string fl "client" in
    checked_client client
      (after (log_incident "UNQUARANTINED" client 0 RiskTracker.StatusClean "Manual unblock" "UNBLOCKED")
        (prints [status_line "unquarantined" [("client", Quote client)]%string]))).
Definition show_journal (args : list string) : outcome :=
  with_flags [FText "file"; ("lines", FInt 50)]%string args (fun fl =>
    match journal_opened_at (get_string fl "file") with
    | None => fails_with "Error opening journal: " IOFailure
    | Some tj =>
        match Journal.ReadRecentRecords r_unmarshal (journal_readable m) tj (get_int fl "lines") with
        | None => fails_with "Error reading journal: " IOFailure
        | Some records => (map (fun r => Value (ARecord r)) records, Exits 0)
        end
    end).
Definition validate_config (args : list string) : outcome :=
  with_flags [FText "config"] args (fun fl =>
    if get_string fl "config" =s "" then fails "Error: --config is required"
    else match SecurityConfig.FromJSON (d_security m) (get_string fl "config") with
         | None => fails_with "Validation failed: " (ConfigFailure None)
         | Some (inr e) => fails_with "Validation failed: " (ConfigFailure (Some e))
         | Some (inl _) => prints ["{" ^^ quoted "valid" ^^ ": true}"]%string
         end).
(** Nothing of the node's state is looked at. *)
Definition security_status (args : list string) : outcome :=
  with_flags [FText "node-id"] args (fun fl =>
    shows (ASummary (if get_string fl "node-id" =s "" then hostname m else get_string fl "node-id") [] []
      (SecurityManager.mkStats 0 0 0 0 0 0 0) 0)).
(** The manager of a process has a monitor of its own, which has seen nothing. *)
Definition new_manager : option (SecurityManager.SecurityManager (F := F) + SecurityConfig.config_error (F := F)) :=
  SecurityManager.NewSecurityManager (now m) (pid m) (bus m) SecurityConfig.DefaultSecurityConfig.
Definition ssh_sessions : outcome :=
  match new_manager with
  | None => ([], Crashes)
  | Some (inr e) => fails_with "Error: " (ConfigFailure (Some e))
  | Some (inl _) => shows (SSHSessions (SshMonitor.GetActiveSessions (SshMonitor.NewSSHMonitor false)))
  end.
(** An error of the manager is a nil manager, which the monitor is then asked of. *)
Definition ssh_kill (args : list string) : outcome :=
  with_flags [("pid", FInt 0)]%string args (fun fl =>
    let pid := get_int fl "pid" in
    if pid <=? 0 then fails "Error: --pid is required and must be > 0"
    else match new_manager with
         | Some (inl _) =>
             match (SshMonitor.KillSSHSession (windows m) (SshMonitor.NewSSHMonitor false) pid).2 with
             | Err e => fails ("Error killing SSH session: " ^^ e)
             | Ok argv => after [Command argv] (prints [status_line "killed" [("pid", Itoa pid)]%string])
             end
         | _ => ([], Crashes)
         end).
Definition perhaps {A} (f : A -> value) (x : option A) : outcome := match x with Some a => shows (f a) | None => nothing_found end.
Definition parse_iptables (args : list string) : outcome :=
  with_flags [FText "line"; ("vmid", FInt 100)]%string args (fun fl =>
    perhaps AnIptablesEvent (Netfilter.ParseIptablesLine (get_string fl "line") (get_int fl "vmid"))).
Definition classify (args : list string) : outcome :=
  with_flags [FText "event"; FText "policy"; ("lang", FString "ru")]%string args (fun fl =>
    let policy := Netfilter.DefaultClassifierPolicy in
    let policy := if get_string fl "policy" <>s "" then d_classifier m (get_string fl "policy") policy else policy in
    shows (AClassification (Netfilter.ClassifyConnection (d_iptables m (get_string fl "event")) policy (get_string fl "lang")))).
Definition parse_auth (args : list string) : outcome :=
  with_flags [FText "line"] args (fun fl => perhaps ALogin (SshMonitor.ParseAuthLine (now m) (get_string fl "line"))).
Definition find_vpn_client (args : list string) : outcome :=
  with_flags [("proto", FString "tcp"); FText "container-ip"; FText "dst-ip"; ("sport", FInt 0); ("dpt", FInt 0); FText "dump"]%string args (fun fl =>
    shows (Texts [("client_ip"%string, Netfilter.FindRealVPNClientIP (Ingest.connections (moment m)) (get_string fl "proto") (get_string fl "container-ip")
      (get_string fl "dst-ip") (get_int fl "sport") (get_int fl "dpt") (get_string fl "dump"))])).
Definition find_proxy_client (args : list string) : outcome :=
  with_flags [("core", FString "xray"); ("lines", FString "[]"); FText "client-ip"; FText "dst-ip"; FText "email"; ("dpt", FInt 0); ("max-age", FInt 300)]%string args (fun fl =>
    let lines := d_lines m (get_string fl "lines") in
    let core := get_string fl "core" in let email := get_string fl "email" in
    let dpt := get_int fl "dpt" in let age := get_int fl "max-age" in
    if (core =s "hysteria-ip") || ((core =s "hysteria") && (email <>s "")) then
      let ip := LogSearch.FindClientIPForEmailInHysteriaLog (json_object m) (now m) lines email age in
      shows (Texts [("client_ip", ip); ("ip", ip)]%string)
    else if core =s "hysteria" then
      shows (Texts [("email"%string, LogSearch.FindEmailInHysteriaLog (json_object m) (now m) lines (get_string fl "dst-ip") dpt age)])
    else
      let '(email, ip, tag) := LogSearch.FindEmailAndIPInXrayLog (now m) lines (get_string fl "client-ip") (get_string fl "dst-ip") dpt age in
      shows (Texts [("email", email); ("ip", ip); ("inbound_tag", tag)]%string)).
(** The second parser asks the detector that the first has left. *)
Definition parse_router (args : list string) : outcome :=
  with_flags [FText "line"] args (fun fl =>
    match Netfilter.ParseRouterConntrackLine (now m) (Ingest.threatDetector (pipeline m)) (get_string fl "line") with
    | (_, Some ev) => shows (ARouterEvent ev)
    | (d, None) => perhaps ARouterEvent (Netfilter.ParseRouterIptablesLine (now m) d (get_string fl "line")).2
    end).
Definition process_traffic_line (args : list string) : outcome :=
  with_flags [("source", FString "proxmox_iptables"); FText "line"]%string args (fun fl =>
    let source := get_string fl "source" in let line := get_string fl "line" in
    let ev :=
      if source =s "proxmox_iptables" then snd <$> Ingest.ProcessProxmoxIptablesLine (moment m) line (pipeline m)
      else if source =s "router_conntrack" then snd <$> Ingest.ProcessRouterConntrackLine (moment m) line (pipeline m)
      else if source =s "router_syslog" then snd <$> Ingest.ProcessRouterIptablesLine (moment m) line (pipeline m)
      else if source =s "auth_ssh" then snd <$> Ingest.ProcessAuthLogLine (moment m) line (pipeline m)
      else Some None in
    match ev with None => ([], Crashes) | Some ev => perhaps AnEvent ev end).
Definition handleSecurity (args : list string) : outcome :=
  match args with
  | [] => fails "Usage: sentinel-core security <schema|default|validate|journal|quarantine|unquarantine|status>"
  | action :: rest =>
      if action =s "schema" then with_flags [("lang", FString "ru")]%string rest (fun fl => shows (AForm (SettingsPage.GenerateSecuritySchema (get_string fl "lang"))))
      else if action =s "default" then shows (ASecurityConfig SecurityConfig.DefaultSecurityConfig)
      else if action =s "validate" then validate_config rest
      else if action =s "journal" then show_journal rest
      else if action =s "quarantine" then quarantine rest
      else if action =s "unquarantine" then unquarantine rest
      else if action =s "status" then security_status rest
      else if action =s "ssh-sessions" then ssh_sessions
      else if action =s "ssh-kill" then ssh_kill rest
      else if action =s "parse-iptables" then parse_iptables rest
      else if action =s "classify" then classify rest
      else if action =s "parse-auth" then parse_auth rest
      else if action =s "find-vpn-client" then find_vpn_client rest
      else if action =s "find-proxy-client" then find_proxy_client rest
      else if action =s "parse-router" then parse_router rest
      else if action =s "process-traffic-line" then process_traffic_line rest
      else fails ("Unknown security action '" ^^ action ^^ "'")
  end.

(** ** Cores (supervisor.go) *)
Definition steered (before : string) (r : Processes.result) : outcome :=
  let '(_, err, effects) := r in
  after [Steered effects] (match err with Some e => fails (before ^^ e) | None => shows Success end).
Definition core_flags : FlagSet := [FText "core"; FText "bin"; FText "config"].
Definition handleSupervisor (args : list string) : outcome :=
  match args with
  | [] => fails "Usage: sentinel-core supervisor <status|traffic|kick|logs|start|stop|restart|validate|version> [options]"
  | action :: rest =>
      if action =s "status" then shows (AStatus (Controllers.GetStatus Controllers.newController (fs m) (envBin m) (running m) (answers m)))
      else if action =s "traffic" then
        shows (ATraffic (Controllers.GetUnifiedTraffic (loc m) (now m) (nowStr m) Controllers.newController (fs m) (envBin m) (sbAnswer m) (hyAnswers m) (xrayStats m) (xrayLines m) (counters m)).2)
      else if action =s "kick" then
        with_flags [FText "client"] rest (fun fl =>
          if get_string fl "client" =s "" then fails "Error: --client is required" else after [kick (get_string fl "client")] (shows Success))
      else if action =s "logs" then
        with_flags [FText "path"; ("lines", FInt 100)]%string rest (fun fl =>
          if get_string fl "path" =s "" then fails "Error: --path is required"
          else or_error "Logs error: " (log_lines m (get_string fl "path")) (fun '(lines, broken) =>
            match Logs.ReadCoreLogs (get_int fl "lines") lines broken with
            | None => fails ("Logs error: " ^^ log_failed m)
            | Some l => shows (LogLines l)
            end))
      else if action =s "start" then
        with_flags core_flags rest (fun fl =>
          if (get_string fl "core" =s "") || (get_string fl "bin" =s "") then fails "Error: --core and --bin are required"
          else steered "Start error: " (Processes.StartCore (p_dec m) (os m) (spawn m) Processes.NewProcessManager (get_string fl "core") (get_string fl "bin") (get_string fl "config")))
      else if action =s "stop" then
        with_flags [FText "core"] rest (fun fl =>
          if get_string fl "core" =s "" then fails "Error: --core is required"
          else steered "Stop error: " (Processes.StopCore (os m) Processes.NewProcessManager (get_string fl "core")))
      else if action =s "restart" then
        with_flags core_flags rest (fun fl =>
          if (get_string fl "core" =s "") || (get_string fl "bin" =s "") then fails "Error: --core and --bin are required"
          else steered "Restart error: " (Processes.RestartCore (p_dec m) (os m) (spawn m) Processes.NewProcessManager (get_string fl "core") (get_string fl "bin") (get_string fl "config")))
      else if action =s "validate" then
        with_flags core_flags rest (fun fl =>
          if (get_string fl "core" =s "") || (get_string fl "bin" =s "") || (get_string fl "config" =s "") then fails "Error: --core, --bin and --config are required"
          else
            let '((valid, output, err), effects) := Processes.ValidateCoreConfig (p_dec m) (os m) (run m) (get_string fl "core") (get_string fl "bin") (get_string fl "config") in
            after [Steered effects] (shows (AValidation valid output err)))
      else if action =s "version" then
        with_flags [FText "core"; FText "bin"] rest (fun fl =>
          if (get_string fl "core" =s "") || (get_string fl "bin" =s "") then fails "Error: --core and --bin are required"
          else shows (Texts [("version"%string, Processes.DetectCoreVersion (os m) (run m) (get_string fl "core") (get_string fl "bin"))]))
      else fails ("Unknown supervisor action '" ^^ action ^^ "'")
  end.

(** ** The program (main.go) *)
Definition Version : string := "0.0.23".
Definition printUsage : list string :=
  ["Sentinel-Core CLI (Universal Proxy Config Engine) v" ^^ Version;
   "Usage:";
   "  sentinel-core version";
   "  sentinel-core parse --uri <URI>";
   "  sentinel-core build --uri <URI> --core <singbox|xray|hysteria2> [--tun] [--preset ru]";
   "  sentinel-core schema (outputs full configuration capabilities JSON for Panel UI)";
   "  sentinel-core security schema [--lang ru|en] (outputs UI settings schema for Panel tab)";
   "  sentinel-core security default (outputs default security config JSON)";
   "  sentinel-core preset list";
   "  sentinel-core preset show <preset_id>";
   "  sentinel-core health [--socks 10808] [--http 10809]";
   "  sentinel-core encrypt --secret <password> --text <plaintext>";
   "  sentinel-core decrypt --secret <password> --payload <ciphertext>"]%string.
(** The arguments behind the name of the program. *)
Definition main (args : list string) : outcome :=
  match args with
  | [] => (map Line printUsage, Exits 1)
  | command :: rest =>
      if existsb (String.eqb command) ["version"; "--version"; "-v"]%string then prints ["Sentinel-Core v" ^^ Version]%string
      else if existsb (String.eqb command) ["help"; "--help"; "-h"]%string then prints printUsage
      else if command =s "parse" then handleParse rest
      else if command =s "generate" then handleGenerate rest
      else if command =s "build" then handleBuild rest
      else if command =s "compile-server" then handleCompileServer rest
      else if command =s "preset" then handlePreset rest
      else if command =s "schema" then handleSchema rest
      else if command =s "security" then handleSecurity rest
      else if command =s "supervisor" then handleSupervisor rest
      else if command =s "keypair" then handleKeypair
      else if command =s "ping" then handlePing rest
      else if command =s "health" then handleHealth rest
      else if command =s "encrypt" then handleEncrypt rest
      else if command =s "decrypt" then handleDecrypt rest
      else if command =s "vlessenc" then handleVlessEnc
      else if command =s "parse-subscription" then handleParseSubscription rest
      else if command =s "check-proxies" then handleCheckProxies rest
      else if command =s "build-failover" then handleBuildFailover rest
      else (Line ("Unknown command '" ^^ command ^^ "'") :: map Line printUsage, Exits 1)
  end.
End terminal.

(** ** What a process leaves behind *)
Section remote.
Context `{LocalZone} {order : RangeOrder string} {ports_order : RangeOrder Z} {F : Type} `{Arith F} `{AEAD} (hmac_sha256 : string -> string -> string).
Context (r_marshal : Journal.ThreatRecord -> string) (r_unmarshal : string -> option Journal.ThreatRecord).
Abbreviation Machine := (Machine (F := F)).
Abbreviation main := (main hmac_sha256 r_marshal r_unmarshal).
Implicit Types (m : Machine) (disk : Disk) (c : RemoteNode.RemoteNodeClient).

Definition left_by (disk : Disk) (a : act (F := F)) : Disk :=
  match a with
  | Journalled j _ => fun path => if path =s Journal.filePath j then (Journal.file j, Journal.backup j) else disk path
  | _ => disk
  end.
Definition disk_after (disk : Disk) (acts : list act) : Disk := foldl left_by disk acts.
(** What is printed, where it is texts and records. *)
Definition text_of (a : act (F := F)) : option string :=
  match a with
  | Line s => Some (s ^^ String newline "")
  | Value (ARecord r) => Some (r_marshal r ^^ String newline "")
  | Value _ | Failed _ _ | Warning _ => None
  | _ => Some ""%string
  end.
Definition output (acts : list act) : option string := (fun l => Join l "") <$> mapM text_of acts.

(** ** A node and its master

    The shell of the node splits the command that ssh brings and starts the program. *)
Definition on_node m disk (cmd : string) : option (outcome (F := F)) :=
  match RemoteNode.shell_words cmd with
  | Some (prog :: args) => if prog =s "sentinel-core" then Some (main m disk args) else None
  | _ => None
  end.
(** [FetchThreatJournal] on what ssh has printed. *)
Definition records_in (stdout : string) : list Journal.ThreatRecord :=
  omap (fun l => let clean := TrimSpace l in if clean =s "" then None else r_unmarshal clean) (SplitByte (TrimSpace stdout) newline).

Inductive remote_order := Isolate (id reason : string) | Release (id : string).
Definition ssh_args c (o : remote_order) : RemoteNode.node_error + list string :=
  match o with
  | Isolate id reason => RemoteNode.QuarantineClient c id reason
  | Release id => RemoteNode.UnquarantineClient c id
  end.
(** The orders in turn, each met by the machine as it is then; one that is refused is not
    sent. *)
Fixpoint obey c (tr : list (Machine * remote_order)) disk : Disk :=
  match tr with
  | [] => disk
  | (m, o) :: tr =>
      match ssh_args c o with
      | inl _ => obey c tr disk
      | inr args => match on_node m disk (List.last args "") with Some (acts, _) => obey c tr (disk_after disk acts) | None => obey c tr disk end
      end
  end.

(** ** Orders are executed *)

(** The call of the journal that an order makes on a node, and its record there. *)
Definition call_of m (o : remote_order) : Journal.call :=
  match o with
  | Isolate id reason =>
      Journal.mkCall (now m) (journal_removed m) (journal_renamed m) (journal_opened m) "QUARANTINED" "ADMIN_ACTION" id [] 100
        RiskTracker.StatusQuarantined "ADMIN_COMMAND" (ReplaceByte reason RemoteNode.nul "") "KICKED_AND_ISOLATED"
  | Release id =>
      Journal.mkCall (now m) (journal_removed m) (journal_renamed m) (journal_opened m) "UNQUARANTINED" "ADMIN_ACTION" id [] 0
        RiskTracker.StatusClean "ADMIN_COMMAND" "Manual unblock" "UNBLOCKED"
  end.
Definition journal_found m disk : Journal.ThreatJournal :=
  let '(file, backup) := disk (default_journal m) in Journal.mkJournal (default_journal m) (hostname m) (10 * 1024 * 1024) file backup.
Definition words_of (o : remote_order) : list string :=
  match o with
  | Isolate id reason => ["quarantine"%string; assignment "client" id; assignment "reason" (ReplaceByte reason RemoteNode.nul "")]
  | Release id => ["unquarantine"%string; assignment "client" id]
  end.

Lemma ssh_last c cmd args : RemoteNode.ssh_command c cmd = inr args -> List.last args "" = cmd.
Proof using Type.
  intros (target & -> & _)%RemoteNode.ssh_args_shape. rewrite app_assoc.
  change ["--"%string; target; cmd] with (["--"%string; target] ++ [cmd]). by rewrite app_assoc, last_last.
Qed.
Lemma order_words c o args : ssh_args c o = inr args ->
  RemoteNode.shell_words (List.last args "") = Some ("sentinel-core"%string :: "security"%string :: words_of o) /\
  RemoteNode.ValidateRemoteClientID match o with Isolate id _ => id | Release id => id end = None.
Proof using Type.
  destruct o as [id reason|id]; cbn [ssh_args]; [unfold RemoteNode.QuarantineClient|unfold RemoteNode.UnquarantineClient];
    destruct (RemoteNode.ValidateRemoteClientID id) eqn:Ev; try done; intros ->%ssh_last.
  - by rewrite RemoteNode.quarantine_words.
  - by rewrite RemoteNode.unquarantine_words.
Qed.

(** What an order does: the client is dropped from sing-box and from Hysteria - and not from
    Xray, whose program this process does not know -, the incident goes to the journal, and a
    line is printed. *)
Definition order_acts m disk (o : remote_order) : list (act (F := F)) :=
  match o with
  | Isolate id _ => [Kick "127.0.0.1:9090" (Controllers.getActiveHysteriaPorts Controllers.newController (fs m) (envBin m)) id (Ok [])]
  | Release _ => []
  end ++
  (if mkdir_ok m then [Journalled (Journal.log r_marshal (journal_found m disk) (call_of m o)) (journal_opened m)] else []) ++
  [Line match o with
        | Isolate id reason => status_line "quarantined" [("client", Quote id); ("reason", Quote (ReplaceByte reason RemoteNode.nul ""))]
        | Release id => status_line "unquarantined" [("client", Quote id)]
        end]%string.

Lemma kicked m id : id <> ""%string ->
  kick m id = Kick "127.0.0.1:9090" (Controllers.getActiveHysteriaPorts Controllers.newController (fs m) (envBin m)) id (Ok []).
Proof using Type. intros Hid%String.eqb_neq. unfold kick, Controllers.KickClient, XrayStats.KickXrayClient. by rewrite Hid. Qed.
Lemma incident_logged m disk event client score status reason action :
  log_incident r_marshal m disk event client score status reason action =
    if mkdir_ok m then
      [Journalled (Journal.log r_marshal (journal_found m disk)
        (Journal.mkCall (now m) (journal_removed m) (journal_renamed m) (journal_opened m) event "ADMIN_ACTION" client [] score status "ADMIN_COMMAND" reason action))
        (journal_opened m)]
    else [].
Proof using Type.
  unfold log_incident, journal_opened_at, Journal.NewThreatJournal, journal_found, default_journal, Journal.log. cbn [String.eqb].
  destruct (disk _) as [file backup]. destruct (mkdir_ok m); [|done]. unfold Journal.LogIncident. cbn zeta. by destruct (journal_opened m).
Qed.
Lemma main_order m disk o : RemoteNode.ValidateRemoteClientID match o with Isolate id _ => id | Release id => id end = None ->
  main m disk ("security"%string :: words_of o) = (order_acts m disk o, Exits 0).
Proof using Type.
  intros Hv. destruct o as [id reason|id]; cbn [words_of].
  - destruct (RemoteNode.valid_id_plain id Hv) as [Hne _]. transitivity (quarantine r_marshal m disk [assignment "client" id; assignment "reason" (ReplaceByte reason RemoteNode.nul "")]); [reflexivity|].
    unfold quarantine, with_flags.
    rewrite (parse_assignment _ "client" id (FString "") (FString id)) by done.
    rewrite (parse_assignment _ "reason" _ (FString "Manual admin quarantine") (FString (ReplaceByte reason RemoteNode.nul ""))) by done.
    cbn [parse]. change (get_string ?f "client") with id. change (get_string ?f "reason") with (ReplaceByte reason RemoteNode.nul "").
    cbv beta zeta. unfold checked_client. rewrite (proj2 (String.eqb_neq _ _) Hne), Hv, kicked, incident_logged by done. done.
  - destruct (RemoteNode.valid_id_plain id Hv) as [Hne _]. transitivity (unquarantine r_marshal m disk [assignment "client" id]); [reflexivity|].
    unfold unquarantine, with_flags. rewrite (parse_assignment _ "client" id (FString "") (FString id)) by done.
    cbn [parse]. change (get_string ?f "client") with id. cbv beta zeta.
    unfold checked_client. rewrite (proj2 (String.eqb_neq _ _) Hne), Hv, incident_logged. done.
Qed.

Lemma orders_sent c o args m disk : ssh_args c o = inr args -> on_node m disk (List.last args "") = Some (order_acts m disk o, Exits 0).
Proof using Type.
  intros [Hw Hv]%order_words. unfold on_node. rewrite Hw. change ("sentinel-core" =s "sentinel-core") with true. cbv iota. by rewrite main_order.
Qed.


(** ** Orders are seen by the master *)

Definition is_node (host tmp : string) m : Prop := hostname m = host /\ tempDir m = tmp /\ mkdir_ok m = true.
Definition node_journal (host tmp : string) disk : Journal.ThreatJournal :=
  let path := JoinPath [tmp; "sentinel-threats.jsonl"%string] in
  Journal.mkJournal path host (10 * 1024 * 1024) (disk path).1 (disk path).2.
Lemma journal_of_node host tmp m disk : is_node host tmp m -> journal_found m disk = node_journal host tmp disk.
Proof using Type. intros (<- & <- & _). unfold journal_found, node_journal, default_journal. cbn zeta. by destruct (disk _). Qed.
Lemma logged_parts j k : let j' := Journal.log r_marshal j k in j' = Journal.mkJournal (Journal.filePath j) (Journal.nodeID j) (Journal.maxSize j) (Journal.file j') (Journal.backup j').
Proof using Type.
  cbn zeta. unfold Journal.log, Journal.LogIncident, Journal.rotateIfNeeded, Journal.append_line. cbn zeta.
  destruct j as [p n x [content|] b]; cbn [Journal.file Journal.filePath Journal.nodeID Journal.maxSize Journal.backup];
    repeat (case_match; cbn [fst Journal.file Journal.filePath Journal.nodeID Journal.maxSize Journal.backup] in *; try done).
Qed.
Lemma disk_after_order host tmp m disk o : is_node host tmp m ->
  node_journal host tmp (disk_after disk (order_acts m disk o)) = Journal.log r_marshal (node_journal host tmp disk) (call_of m o).
Proof using Type.
  intros Hm.
  assert (Hd : disk_after disk (order_acts m disk o) = left_by disk (Journalled (Journal.log r_marshal (journal_found m disk) (call_of m o)) (journal_opened m))).
  { destruct Hm as (_ & _ & Hk). unfold disk_after, order_acts. rewrite Hk. by destruct o. }
  rewrite Hd, (journal_of_node host tmp m disk Hm). set (j := node_journal host tmp disk).
  pose proof (logged_parts j (call_of m o)) as Hj. cbn zeta in Hj. rewrite Hj at 2. set (j' := Journal.log r_marshal j (call_of m o)) in *.
  assert (Hp : Journal.filePath j' = JoinPath [tmp; "sentinel-threats.jsonl"%string]) by by rewrite Hj.
  unfold node_journal at 1. cbn zeta. cbn [left_by]. rewrite Hp, String.eqb_refl. done.
Qed.
Lemma obey_app c tr1 tr2 disk : obey c (tr1 ++ tr2) disk = obey c tr2 (obey c tr1 disk).
Proof using Type.
  revert disk. induction tr1 as [|[m o] tr1 IH]; intros disk; [done|]. cbn [app obey].
  destruct (ssh_args c o); [apply IH|]. destruct (on_node _ _ _) as [[acts e]|]; apply IH.
Qed.
(** The records that the orders make. *)
Definition recorded (host : string) c (tr : list (Machine * remote_order)) : list Journal.ThreatRecord :=
  concat (map (fun '(m, o) => match ssh_args c o with
                              | inr _ => if journal_opened m then [Journal.record_of host (call_of m o)] else []
                              | inl _ => []
                              end) tr).
Lemma call_opened m o : Journal.c_opened (call_of m o) = journal_opened m.
Proof using Type. by destruct o. Qed.
Lemma obeyed_kept host tmp c tr disk recs : Forall (fun mo => is_node host tmp mo.1) tr ->
  Journal.keeps r_marshal (node_journal host tmp disk) recs -> Forall (Journal.faithful r_marshal r_unmarshal) (recorded host c tr) ->
  Journal.keeps r_marshal (node_journal host tmp (obey c tr disk)) (recs ++ recorded host c tr).
Proof using Type.
  intros Hn. revert disk recs. induction Hn as [|[m o] tr Hm Hn IH]; intros disk recs Hk Hf; [by rewrite app_nil_r|].
  unfold recorded in *. cbn [map concat obey] in *. destruct (ssh_args c o) as [e|args] eqn:Ea; [by apply IH|].
  rewrite (orders_sent c o args m disk Ea). apply Forall_app in Hf as [Hf1 Hf2].
  destruct (Journal.keeps_log r_marshal r_unmarshal (node_journal host tmp disk) recs (call_of m o) Hk) as [Hk' Hid].
  { rewrite call_opened. intros Ho. rewrite Ho in Hf1. by apply Forall_cons in Hf1 as [? _]. }
  rewrite <- (disk_after_order host tmp m disk o Hm), call_opened in Hk'. rewrite app_assoc. by apply IH.
Qed.

(** An incident that is written is the last of the file. *)
Lemma logged_last j recs k : Journal.keeps r_marshal j recs -> Journal.c_opened k = true ->
  Journal.faithful r_marshal r_unmarshal (Journal.record_of (Journal.nodeID j) k) ->
  exists older old cur, recs = older ++ old ++ cur /\
    Journal.holds (Journal.content_of (Journal.file (Journal.log r_marshal j k))) (map r_marshal (cur ++ [Journal.record_of (Journal.nodeID j) k])) /\
    Journal.holds (Journal.content_of (Journal.backup (Journal.log r_marshal j k))) (map r_marshal old).
Proof using Type.
  intros Hk Ho [Hl _]. unfold Journal.log, Journal.LogIncident. cbn zeta. rewrite Ho. cbn [fst].
  destruct (Journal.keeps_rotate r_marshal (Journal.c_removed k) (Journal.c_renamed k) j recs Hk) as (older & old & cur & -> & Hf & Hb).
  exists older, old, cur. split; [done|]. split; [|done]. rewrite map_app. by apply Journal.holds_append.
Qed.
Lemma journal_shown host tmp m disk k cur : is_node host tmp m -> journal_readable m = true -> 1 <= k <= 10000 ->
  Journal.holds (Journal.content_of (Journal.file (node_journal host tmp disk))) (map r_marshal cur) -> Forall (Journal.faithful r_marshal r_unmarshal) cur ->
  main m disk ["security"%string; "journal"%string; assignment "lines" (Itoa k)] = (map (fun r => Value (ARecord r)) (keep_last k cur), Exits 0).
Proof using Type.
  intros Hm Hr Hk Hh Hf. transitivity (show_journal r_unmarshal m disk [assignment "lines" (Itoa k)]); [reflexivity|].
  unfold show_journal, with_flags. rewrite (parse_assignment _ "lines" _ (FInt 50) (FInt k)) by first [done | cbn [read_value]; by rewrite ParseInt0_Itoa by (unfold maxInt64; lia)].
  cbn [parse]. change (get_string ?f "file") with ""%string. change (get_int ?f "lines") with k.
  assert (Hj : journal_opened_at m disk "" = Some (node_journal host tmp disk)).
  { rewrite <- (journal_of_node host tmp m disk Hm). destruct Hm as (_ & _ & Hm). unfold journal_opened_at, Journal.NewThreatJournal, journal_found. cbn [String.eqb].
    rewrite Hm. by destruct (disk _). }
  rewrite Hj, Hr, (Journal.read_kept r_marshal r_unmarshal _ cur k Hh Hf). assert ((0 <? k) = true) as -> by (apply Z.ltb_lt; lia). done.
Qed.
Lemma records_text l : output (map (fun r => Value (ARecord r)) l) = Some (Join (map (fun r => r_marshal r ^^ String newline "") l) "").
Proof using Type.
  unfold output. assert (E : mapM text_of (map (fun r => Value (ARecord r)) l) = Some (map (fun r => r_marshal r ^^ String newline "") l)).
  { induction l as [|r l IH]; [done|]. cbn [map mapM]. by rewrite IH. }
  by rewrite E.
Qed.
(** What is asked of the encoding: a record is one line without blanks around it, and is
    decoded to itself. *)
Definition legible (r : Journal.ThreatRecord) : Prop := Journal.faithful r_marshal r_unmarshal r /\ TrimSpace (r_marshal r) = r_marshal r.
Lemma records_read l : Forall legible l -> records_in (Join (map (fun r => r_marshal r ^^ String newline "") l) "") = l.
Proof using Type.
  intros Hl. change (clean_lines r_unmarshal (TrimSpace (Join (map (fun r => r_marshal r ^^ String newline "") l) "")) = l).
  rewrite clean_lines_trimmed. apply clean_lines_written. eapply Forall_impl; [exact Hl|]. intros r [[[Hne Hs] Hu] Ht]. split.
  - apply not_true_iff_false. intros Hx. apply not_true_iff_false in Hs. apply Hs. clear -Hx. induction (r_marshal r) as [|a s IH]; [done|].
    cbn [str_exists] in *. apply orb_true_iff in Hx as [Ha|Hx]; apply orb_true_iff; [left; apply orb_true_iff; left; exact Ha|right; auto].
  - unfold clean_line. rewrite Ht, (proj2 (String.eqb_neq _ _) Hne). exact Hu.
Qed.

(** C8.  The master reads back what it ordered: after any orders, sent one after the other
    to a node whose journal was empty, the last of them accepted and written, asking the node
    for its journal ends with status 0, changes nothing, and what is printed is read as the
    last [lines] of the records in the file - which are the latest of those of the accepted
    orders that were written, in order and without a gap, down to that of the last order. *)
Theorem orders_recorded host tmp c tr m0 o args0 m lines args :
  Forall (fun mo => is_node host tmp mo.1) (tr ++ [(m0, o)]) -> ssh_args c o = inr args0 -> journal_opened m0 = true ->
  is_node host tmp m -> journal_readable m = true -> Forall legible (recorded host c (tr ++ [(m0, o)])) ->
  RemoteNode.FetchThreatJournal c lines = inr args ->
  let disk := obey c (tr ++ [(m0, o)]) (fun _ => (None, None)) in
  exists lost old cur acts stdout,
    recorded host c tr = lost ++ old ++ cur /\
    on_node m disk (List.last args "") = Some (acts, Exits 0) /\ disk_after disk acts = disk /\ output acts = Some stdout /\
    records_in stdout = keep_last (RemoteNode.journal_lines lines) (cur ++ [Journal.record_of host (call_of m0 o)]).
Proof using Type.
  intros Hn Ha Ho Hm Hr Hf Hargs disk. apply Forall_app in Hn as [Hn Hn0]. apply Forall_cons in Hn0 as [Hm0 _]. cbn [fst] in Hm0.
  set (r := Journal.record_of host (call_of m0 o)).
  assert (Hrec : recorded host c (tr ++ [(m0, o)]) = recorded host c tr ++ [r]).
  { unfold recorded. rewrite map_app, concat_app. f_equal. cbn [map concat]. by rewrite Ha, Ho. }
  rewrite Hrec, Forall_app in Hf. destruct Hf as [Hf Hfr]. apply Forall_cons in Hfr as [Hfr _].
  set (d := obey c tr (fun _ => (None, None))).
  assert (Hdisk : node_journal host tmp disk = Journal.log r_marshal (node_journal host tmp d) (call_of m0 o)).
  { unfold disk. rewrite obey_app. fold d. cbn [obey]. rewrite Ha, (orders_sent c o args0 m0 d Ha). by apply disk_after_order. }
  pose proof (obeyed_kept host tmp c tr (fun _ => (None, None)) [] Hn ltac:(by exists [], [], [])) as Hk.
  specialize (Hk (Forall_impl _ _ _ Hf (fun r H => proj1 H))).
  destruct (logged_last _ _ (call_of m0 o) Hk) as (lost & old & cur & Hw & Hfile & _); [by rewrite call_opened|exact (proj1 Hfr)|].
  cbn [Journal.nodeID node_journal app] in Hw, Hfile. fold d in Hfile. fold r in Hfile. rewrite <- Hdisk in Hfile.
  assert (Hcur : Forall legible (cur ++ [r])).
  { apply Forall_app. split; [|by apply Forall_cons]. rewrite Hw, !Forall_app in Hf. apply Hf. }
  exists lost, old, cur, (map (fun r => Value (ARecord r)) (keep_last (RemoteNode.journal_lines lines) (cur ++ [r]))). eexists.
  split; [exact Hw|]. split; [|split; [|split; [apply records_text|apply records_read]]].
  - unfold on_node. rewrite (ssh_last c _ args Hargs), RemoteNode.journal_words. cbv iota. change ("sentinel-core" =s "sentinel-core") with true. cbv iota.
    f_equal. refine (journal_shown host tmp m disk _ _ Hm Hr (RemoteNode.journal_lines_range lines) Hfile _).
    eapply Forall_impl; [exact Hcur|]. by intros ? [? _].
  - unfold disk_after. generalize (keep_last (RemoteNode.journal_lines lines) (cur ++ [r])). intros l. induction l as [|x l IH]; [done|exact IH].
  - unfold keep_last. destruct (_ <? _); [by apply Forall_drop|exact Hcur].
Qed.

(** ** What the commands do not do *)

(** The order to reload is sent to nodes, whose program does not have it. *)
Lemma reload_unknown c args m disk : RemoteNode.ReloadNodeCores c = inr args ->
  on_node m disk (List.last args "") = Some ([Line "Unknown supervisor action 'reload'"], Exits 1).
Proof using Type. intros Hr. rewrite (ssh_last _ _ _ Hr). reflexivity. Qed.
(** The status of a node lists nobody, whatever was ordered before. *)
Lemma status_empty c args m disk : RemoteNode.GetSecurityStatus c = inr args ->
  on_node m disk (List.last args "") = Some ([Value (ASummary (hostname m) [] [] (SecurityManager.mkStats 0 0 0 0 0 0 0) 0)], Exits 0).
Proof using Type. intros Hr. rewrite (ssh_last _ _ _ Hr). reflexivity. Qed.
(** A source that is not known is not an error. *)
Lemma unknown_source m disk line :
  main m disk ["security"; "process-traffic-line"; "--source=core:xray"; "--line"; line]%string = ([Line "{}"], Exits 0).
Proof using Type. reflexivity. Qed.
(** A value behind a boolean flag ends the flags. *)
Lemma value_ends_flags m disk uri : main m disk ["build"; "--tun"; "true"; "--uri"; uri]%string = fails "Error: --uri is required".
Proof using Type. reflexivity. Qed.
End remote.

(** ** A node *)
Section demo.
#[local] Existing Instance utc.
#[local] Instance sealed : AEAD := { Seal key nonce p := key ^^ nonce ^^ p; Open key nonce c := None }.
Definition demo_node (t : Z) : Machine (F := QArith_base.Q) :=
  mkMachine t 7 "edge-1" "/tmp" false (fun _ => inl "missing"%string) (inl "closed"%string) None None None (fun _ => None)
    "en" ∅ (fun _ => Err "missing"%string)
    (mkDecoders (fun _ => inl "unexpected"%string) (fun _ => None) (fun _ => None)) (fun _ => ""%string) (fun _ => None)
    (fun _ => inl "unexpected"%string) (fun _ => None) (fun _ => inl "unexpected"%string) (fun _ _ => None)
    (fun _ => Netfilter.mkEvent 0 "" "" "" "" 0 0 false "" "") (fun _ p => p) (fun _ => []) (fun _ => None) "too long"
    (SingBox.jsdelivr "m" "h", true) (fun _ _ => ""%string)
    (fun _ _ => inl "refused"%string) (fun _ => true) (fun _ => None) (fun k _ => k) (fun _ _ _ => [])
    true true true true true (EventBus.NewEventBus 10) (Ingest.mkMoment t "" "")
    (Ingest.NewSecurityPipeline Ingest.DefaultPipelineConfig (Netfilter.GetDefaultRouterThreatDetector (fun _ => ""%string)) (Dispatch.NewEventDispatcher 10)
      LogParsers.NewSingboxParser (Logs.NewLogBroadcaster 10) Sessions.newTracker)
    (Processes.mkOS false (fun _ => Processes.Missing) (fun _ => None) (fun _ => None) (fun _ => None))
    (Processes.mkDecoders (fun _ => None) (fun _ => ([], ""%string)) (fun _ => None) (fun _ => None) (fun _ => None)) None (fun _ _ _ => (false, ""%string))
    (Controllers.mkFiles (fun _ => []) (fun _ => None) (fun _ => None)) "" (fun _ => false) (fun _ => false)
    Sessions.LocaleEN "" (fun _ => Polls.NoAnswer) (fun _ => (None, None)) (Err "unreachable"%string) []
    (Controllers.mkCounters Polls.ResetSingBoxCumulativeTraffic Sessions.newTracker ∅) (fun _ => inl "missing"%string) "unreadable".

Definition demo_master : RemoteNode.RemoteNodeClient := RemoteNode.NewRemoteNodeClient "edge-1.example.org" 0 "" "/etc/key".
Definition demo_isolate : remote_order := Isolate "eve@example.org" "it's a scan".
Definition demo_release : remote_order := Release "eve@example.org".
Definition demo_records : list Journal.ThreatRecord :=
  [Journal.record_of "edge-1" (call_of (demo_node 0) demo_isolate); Journal.record_of "edge-1" (call_of (demo_node Second) demo_release)].
(** An encoding of these records by the kind of the event. *)
Definition demo_marshal (r : Journal.ThreatRecord) : string := Journal.EventType r.
Definition demo_unmarshal (s : string) : option Journal.ThreatRecord := List.find (fun r => Journal.EventType r =s s) demo_records.
Definition demo_args (r : RemoteNode.node_error + list string) : list string := match r with inr l => l | inl _ => [] end.

Lemma orders_recorded_witness : exists acts stdout,
  on_node demo_hmac demo_marshal demo_unmarshal (demo_node Minute)
    (obey demo_hmac demo_marshal demo_unmarshal demo_master [(demo_node 0, demo_isolate); (demo_node Second, demo_release)] (fun _ => (None, None)))
    "sentinel-core security journal --lines=1" = Some (acts, Exits 0) /\
  output demo_marshal acts = Some stdout /\ records_in demo_unmarshal stdout = [Journal.record_of "edge-1" (call_of (demo_node Second) demo_release)].
Proof.
  destruct (orders_recorded demo_hmac demo_marshal demo_unmarshal "edge-1" "/tmp" demo_master [(demo_node 0, demo_isolate)] (demo_node Second) demo_release
    (demo_args (ssh_args demo_master demo_release)) (demo_node Minute) 1 (demo_args (RemoteNode.FetchThreatJournal demo_master 1)))
    as (lost & old & cur & acts & stdout & _ & Hx & _ & Ho & Hr).
  - repeat (constructor; [by split_and!|]). constructor.
  - reflexivity.
  - reflexivity.
  - by split_and!.
  - reflexivity.
  - repeat (constructor; [split; [split; [split; [done|by vm_compute]|by vm_compute]|by vm_compute]|]). constructor.
  - reflexivity.
  - exists acts, stdout. split; [exact Hx|]. split; [exact Ho|]. rewrite Hr. unfold keep_last. change (RemoteNode.journal_lines 1) with 1.
    destruct (1 <? len (cur ++ [Journal.record_of "edge-1" (call_of (demo_node Second) demo_release)])) eqn:E.
    + unfold len. rewrite length_app. cbn [length]. replace (Z.to_nat _) with (length cur) by lia. by rewrite drop_app_length.
    + apply Z.ltb_ge in E. unfold len in E. rewrite length_app in E. cbn [length] in E. destruct cur; [done|cbn [length] in E; lia].
Defined.
End demo.
End Terminal.
